(* ===== verification/_CoqProject ===== *)
-Q . S2P
Prelude.v
Text.v
Ordered.v
Display.v
Crates.v
ArtifactProof.v
ArtifactFacts.v
Continuity.v
ContinuityFacts.v
RecoveryPolicy.v
RecoveryPolicyFacts.v
RecoveryChain.v
RecoveryChainFacts.v
RecoveryCreated.v
Ceremony.v
CeremonyFacts.v
Names.v
Domain.v
DomainFacts.v
RootDistribution.v
Instances.v
Witness.v
Fields.v
IpcProtocol.v
IpcFacts.v
Io.v
Transport.v
TransportFacts.v
TransportWitness.v
Approval.v
ApprovalCodec.v
ApprovalFacts.v
ApprovalWire.v
ApprovalSafety.v
ApprovalWitness.v
CoreTotal.v
Interaction.v
StoreTypes.v
Daemon.v
Service.v
Participation.v
DaemonFacts.v
Consent.v
Outcomes.v
Answers.v
DaemonWitness.v
StoreCommon.v
Backup.v
BackupVerify.v
BackupFacts.v
Tables.v
StoredKeys.v
Journal.v
Store.v
Commits.v
Recoveries.v
Writes.v
StoreFacts.v
JournalFacts.v
HeadFacts.v
StoreWitness.v
Disk.v
Package.v
PackageArchive.v
PackageFacts.v
UnpackFacts.v
PackageTrust.v
ShellReference.v
Risk.v
RiskFacts.v
RiskWitness.v
Installer.v
Install.v
InstallFacts.v
InstallProtocol.v
Removal.v
Update.v
RemovalProtocol.v
UpdateProtocol.v
InstallWitness.v
