(* ===== verification/Prelude.v ===== *)
(** * A Quo: a verification development

    A Quo signs statements about artifacts and about the continuity of a
    persona (a pseudonymous signer) with OpenSSH keys, verifies them offline,
    keeps personas and keys in a store, asks the user before it signs, and
    installs, updates and removes signed plugin packages. The program is a workspace of Rust crates
    under [src/crates]; this development models the crates that decide
    something: display, core, ipc, approval, daemon, store and omarchy.

    ** The program's parts and how they interact

    - [a-quo-display/src/lib.rs] decides which characters may be shown and
      escapes untrusted bytes for diagnostics. Every error message that repeats
      untrusted text goes through it.
    - [a-quo-core/src/lib.rs] has public keys and fingerprints, the SSHSIG
      signer ([ssh-keygen], run as a child process with a deadline) and
      verifier, artifact statements and proof bundles, and the binding between
      a live signer and the file that holds its key.
    - [a-quo-core/src/continuity.rs] has the persona root and the routine key
      transitions, signed by the old and the new key, and verifies a chain of
      them from a pinned root digest, optionally up to a pinned head;
      [recovery.rs] has recovery policies (a threshold of authority keys),
      recoveries and terminal revocations authorised by such a quorum, and the
      verification of a chain that mixes all of these; [recovery_ceremony.rs]
      collects the signatures of a recovery; [root_distribution.rs] compares a
      root with pins and cards; [domain.rs] proves the control of a domain.
    - [a-quo-ipc] carries requests to the daemon: [protocol.rs] has the
      messages, [linux.rs] the sealed files, sockets and peers.
    - [a-quo-approval/src/lib.rs] carries prompts to the approval process and
      decisions back.
    - [a-quo-daemon/src/service.rs] and [service/recovery_participation.rs]
      answer a connection: they read a request, look up the signer, show a
      prompt, sign after an approval, and send the proof.
    - [a-quo-store/src/lib.rs] keeps personas, keys, their events, signing
      references, continuity roots, transitions, recovery policies and
      revocations in SQLite, and exports and imports backups.
    - [a-quo-omarchy/src] inspects a signed package ([archive.rs], [lib.rs]),
      asks the store about its publisher ([install/authorization.rs]), looks at
      the configuration of the desktop shell ([install/reference.rs]), and
      installs, updates or removes the package ([install.rs], [update.rs] and
      [remove.rs] in [install/operation] with their transactions, over
      [tree.rs], [staging.rs], [receipt.rs], [package.rs] and [command.rs]).
      [risk.rs] has the records of evidence about a package and the policy
      decision that follows from them.

    ** The files

    Shared:
    - [Prelude.v]: the result monad (success, error, panic), loops over it,
      machine integers, bytes, and the tactics and hint databases.
    - [Text.v]: Rust strings, UTF-8, white space, paths, hexadecimal.
    - [Ordered.v]: the derived orders, [BTreeSet], [sort], [windows] and
      [binary_search].
    - [Crates.v], [Io.v]: the code outside the repository, as classes of
      operations and of the laws the theorems rely on (Base64, SHA-256,
      [ssh-key], JSON, the [ssh-keygen] child and the clock), and files,
      streams, sockets and anonymous files as the answers to the calls made on
      them.
    - [Interaction.v]: programs that ask their environment; their runs, what is
      guarded along a run, and their execution.
    - [Disk.v]: directories and files on a disk, path resolution, and the calls
      of [std::fs] that create and change them, each of which can fail.
    - [Instances.v]: one computable instance of every class of [Crates.v].

    Display and core:
    - [Display.v]: [a-quo-display].
    - [ArtifactProof.v], [ArtifactFacts.v]: [a-quo-core/src/lib.rs].
    - [Continuity.v], [ContinuityFacts.v]: [continuity.rs].
    - [RecoveryPolicy.v], [RecoveryPolicyFacts.v]: the first half of
      [recovery.rs]; [RecoveryChain.v], [RecoveryChainFacts.v] and
      [RecoveryCreated.v]: the second half.
    - [Ceremony.v], [CeremonyFacts.v]: [recovery_ceremony.rs].
    - [RootDistribution.v]: [root_distribution.rs], with theorems.
    - [Names.v], [Domain.v], [DomainFacts.v]: DNS names and [domain.rs].
    - [CoreTotal.v]: none of these functions panics.

    Protocols:
    - [Fields.v]: fields and frames of binary messages.
    - [IpcProtocol.v], [IpcFacts.v]: [protocol.rs].
    - [Transport.v], [TransportFacts.v]: [linux.rs].
    - [Approval.v], [ApprovalCodec.v], [ApprovalFacts.v], [ApprovalWire.v],
      [ApprovalSafety.v]: [a-quo-approval].

    The daemon:
    - [StoreTypes.v]: what the store shows to others.
    - [Daemon.v]: the calls of the daemon; [Service.v], [Participation.v]: its
      handlers and their dispatch.
    - [DaemonFacts.v], [Consent.v], [Outcomes.v], [Answers.v]: theorems.

    The store:
    - [StoreCommon.v], [Backup.v], [BackupVerify.v]: labels, texts, signing
      references, backups and their verification; [BackupFacts.v]: theorems.
    - [Tables.v]: the tables with the constraints and triggers of the schema;
      [StoredKeys.v], [Journal.v]: rows read back and validated; [Store.v],
      [Commits.v], [Recoveries.v]: the operations.
    - [Writes.v]: which tables an operation writes and how; [StoreFacts.v],
      [JournalFacts.v], [HeadFacts.v]: invariants of every database that the
      operations reach.

    Packages:
    - [Package.v], [PackageArchive.v]: [archive.rs]; [PackageFacts.v],
      [UnpackFacts.v]: theorems.
    - [PackageTrust.v]: inspection and publishers, with theorems.
    - [ShellReference.v]: the shell configuration, with its theorem.
    - [Risk.v], [RiskFacts.v]: [risk.rs] and its theorems.
    - [Installer.v]: scanning of trees and the calls of the installer;
      [Install.v], [Removal.v], [Update.v]: the three operations on Linux as
      programs of calls; [InstallFacts.v], [InstallProtocol.v],
      [RemovalProtocol.v], [UpdateProtocol.v]: theorems.

    Witnesses: [Witness.v], [TransportWitness.v], [ApprovalWitness.v],
    [DaemonWitness.v], [StoreWitness.v], [RiskWitness.v] and
    [InstallWitness.v] follow one persona through all of it: a root, policies,
    a rotation, a recovery and a revocation, requests and prompts, a database
    that lives through them, and a package that is signed, assessed, installed,
    updated and removed. Each theorem with hypotheses is applied to a part of
    that.

    ** How the code is modelled

    A Rust function is a definition of the same name in the result monad:
    [?] is bind, [return Err(e)] behind a condition is [reject_if], [expect],
    [unwrap], [unreachable!] and indexing give [Panic] when they would panic.
    Structs are records (fields prefixed by the initials of the struct), enums
    inductive types. A [for] loop with early exits is [fold_result] over the
    record of the function's mutable locals. Unsigned integers are [N] and
    signed ones [Z]; where the source checks or saturates, the definition does
    at the same width ([checked_add_u32], [saturating_sub_i64]). Error values
    carry the same messages as the source, including the escaping of untrusted
    parts; the text of a foreign error is what the foreign code returns.
    Randomness and reads of the file system are arguments; a function that
    looks at the file system twice takes two states.

    A store operation is a function from a database to a result with a
    database; a failed transaction leaves the old one. SQL constraints and
    triggers are checks of the insert and update functions. The clock of an
    operation answers each of its readings separately.

    A process that talks to others (the daemon, the installer) is a program of
    calls, [prog], and its environment is any sequence of answers; theorems
    quantify over all runs, [runs], or over every point of a run, [guarded].

    ** What the theorems show

    - Refinement: the chain verifiers decide declarative specifications of an
      accepted history ([chain_verification_refines_linked],
      [mixed_chain_refines_specification]), key histories are accepted exactly
      when their keys lived them and their persona and archive fit
      ([history_refines_lived]), a package is accepted exactly when its file,
      its listing and its manifest are ([inspection_refines_specification]),
      and a policy result blocks exactly when the evidence does
      ([decision_follows_evidence]). Supporting theorems: incremental checks
      agree with verifying the longer chain
      ([mixed_extension_is_batch_verification]), and an installation keeps to
      its protocol ([install_follows_protocol]).
    - Authorisation: what it takes for a signature set, a recovery or a
      revocation to be accepted ([authority_quorum],
      [recovery_entry_authorised], [terminal_revocation_is_final],
      [online_and_recovery_keys_disjoint],
      [assembled_recovery_extends_history]); nothing is signed without an
      approval of what is signed and the checks that are made again after it
      ([consent_before_signing]), and what is handed out was made in this way
      ([approved_outcome_is_released]); a publisher whose key was retired or
      revoked installs nothing ([revoked_publisher_never_installs]); what
      becomes live is what was signed ([exposed_plugin_is_the_signed_package]),
      an update is newer and of the same publisher
      ([exchanged_release_is_signed_and_newer]), and what is removed was
      managed and not in use ([removed_plugin_is_managed_and_unreferenced]).
    - Invariants of the store, under the twelve operations of [step]: one chain of transitions with its head at the
      active key ([journal_never_forks], [head_key_is_the_active_key]), frozen
      after a terminal revocation ([terminal_persona_is_frozen]), an audit
      trail that only grows ([trail_only_grows]), well-formed tables
      ([reachable_is_well_formed]), and inactive keys that stay inactive
      ([inactive_key_never_signs]).
    - Containment and truthfulness: unpacking stays below its directory and
      agrees with inspection ([extraction_is_contained],
      [extraction_matches_inspection]); the file deltas of an update are its
      changes ([file_deltas_are_exact]); the outcome of an installation, an
      update or a removal says what was renamed, and the last looks at names,
      paths and trees back it ([install_outcome_is_truthful], [update_outcome_is_truthful],
      [removal_outcome_is_truthful]).
    - Pinning: a pinned head, policy, root, archive or assessment digest
      determines what it pins, or a statement of the one input and a statement
      of the other are different bytes with one SHA-256 digest
      ([mixed_checkpoint_determines_history], [pins_determine_archive],
      [comparison_identifies_root], [verified_domain_proof],
      [assessment_commits_to_evidence]).
    - Round trips: what the create functions make, the verify functions accept,
      or refuse as too large ([create_verify_artifact_proof], [created_recovery_verifies]); messages
      decode to what was encoded ([wire_format_bijective],
      [read_prompt_exact]); sealed files read back
      ([proof_through_socket], [snapshot_is_what_was_hashed]).
    - Totality: verification and decoding never panic
      ([mixed_verification_never_panics], [protocol_never_panics],
      [risk_records_never_panic]); signing
      always ends and leaves no child ([sshsig_sign_leaves_no_child]); every
      connection is answered ([connection_is_answered]).

    ** Bounds and fuel

    [wait_polls] has [MAX_POLLS] units of fuel, the deadline divided by the
    sleep between polls; [sshsig_sign_leaves_no_child] shows that a clock that
    advances by the sleep never exhausts it. [pread_chunks] takes its fuel as
    an argument; [describe_open_artifact_whole] shows that one more than the
    length of the file is enough. The copies of [Transport.v] run [loop_n] for
    one round more than the bytes they may copy, and every round copies a byte;
    running out would be a panic, which [snapshot_is_what_was_hashed] and
    [connection_is_answered] exclude. [read_chunks] has a round for every byte
    and every answer of its stream. Programs of calls are finite trees, so
    every run ends. Every other recursion is structural.

    ** What is not modelled

    JSON syntax, Base64, SHA-256, the signature algorithms, IDNA, Unicode
    normalisation, Zstandard, tar and semantic versions are parameters; so are
    the answers of the kernel. Of the store: the three operations that activate
    an imported archive (materializations, an interface here), so the invariants
    are of databases that the other operations reach; the routine continuity snapshot for
    the command line, the opening of the file and the running of migrations.
    Of the daemon: the process control of [approver.rs] and the set-up of the
    listener. Of the installer: the branches for systems other than Linux and
    the hooks of its tests. The command line, the consent window, the wrappers
    around C2PA and sigstore, the rendering of root cards and the DNS resolver
    are input and output around the modelled parts, and the release tools
    prepare builds; they are not part of this development. *)

From stdpp Require Import base numbers list strings pretty sorting option.
From Stdlib Require Import Strings.Byte.

(** ** Results *)

(** [Result<T, E>] with the third outcome a Rust function has: a panic, from
    [expect], [unwrap] or an out-of-range index. *)
Inductive result (E A : Type) : Type :=
| Ok (a : A)
| Err (e : E)
| Panic (site : string).

Arguments Ok {E A} a.
Arguments Err {E A} e.
Arguments Panic {E A} site.

#[export] Instance result_ret E : MRet (result E) := λ A a, Ok a.
#[export] Instance result_bind E : MBind (result E) := λ A B f m,
  match m with
  | Ok a => f a
  | Err e => Err e
  | Panic p => Panic p
  end.
#[export] Instance result_fmap E : FMap (result E) := λ A B f m,
  match m with
  | Ok a => Ok (f a)
  | Err e => Err e
  | Panic p => Panic p
  end.

#[export] Instance result_eq_dec {E A} `{EqDecision E, EqDecision A} :
  EqDecision (result E A).
Proof. solve_decision. Defined.

(** [if bad { return Err(e); }] *)
Definition reject_if {E} (bad : bool) (e : E) : result E unit :=
  if bad then Err e else Ok tt.

(** [.ok_or(e)?] *)
Definition ok_or {E A} (o : option A) (e : E) : result E A :=
  match o with Some a => Ok a | None => Err e end.

(** [.expect(site)] on an [Option] *)
Definition expect {E A} (o : option A) (site : string) : result E A :=
  match o with Some a => Ok a | None => Panic site end.

(** [.map_err(f)] *)
Definition map_err {E F A} (f : E → F) (m : result E A) : result F A :=
  match m with
  | Ok a => Ok a
  | Err e => Err (f e)
  | Panic p => Panic p
  end.

Definition is_ok {E A} (m : result E A) : bool :=
  match m with Ok _ => true | _ => false end.

(** The loop [for x in xs { state = body(state, x)?; }]. *)
Fixpoint fold_result {E S A} (body : S → A → result E S) (s : S) (xs : list A) : result E S :=
  match xs with
  | [] => Ok s
  | x :: xs' => s' ← body s x; fold_result body s' xs'
  end.

(** [iter().map(f).collect::<Result<Vec<_>>>()] *)
Fixpoint collect_result {E A B} (f : A → result E B) (xs : list A) : result E (list B) :=
  match xs with
  | [] => Ok []
  | x :: xs' => y ← f x; ys ← collect_result f xs'; Ok (y :: ys)
  end.

(** [for x in xs { check(x)?; }] *)
Fixpoint each_result {E A} (check : A → result E unit) (xs : list A) : result E unit :=
  match xs with
  | [] => Ok tt
  | x :: xs' => check x;; each_result check xs'
  end.

(** Rust's [==] and [!=] on types with decidable equality. *)
Declare Scope rust_scope.
Delimit Scope rust_scope with rust.
Notation "a == b" := (bool_decide (a = b)) (at level 70, no associativity) : rust_scope.
Notation "a != b" := (negb (bool_decide (a = b))) (at level 70, no associativity) : rust_scope.
Open Scope rust_scope.

(** ** Facts about results *)

Lemma bind_Ok {E A B} (m : result E A) (f : A → result E B) b :
  m ≫= f = Ok b ↔ ∃ a, m = Ok a ∧ f a = Ok b.
Proof. destruct m; cbn; naive_solver. Qed.

Lemma seq_Ok {E B} (m : result E unit) (k : result E B) b :
  (m;; k) = Ok b ↔ m = Ok tt ∧ k = Ok b.
Proof. destruct m as [[]| |]; cbn; naive_solver. Qed.

Lemma bind_Ok_l {E A B} (a : A) (f : A → result E B) : (Ok a ≫= f) = f a.
Proof. done. Qed.

Lemma reject_if_Ok {E} b (e : E) : reject_if b e = Ok tt ↔ b = false.
Proof. destruct b; cbn; naive_solver. Qed.

Lemma ok_or_Ok {E A} (o : option A) (e : E) a : ok_or o e = Ok a ↔ o = Some a.
Proof. destruct o; cbn; naive_solver. Qed.

Lemma expect_Ok {E A} (o : option A) s a : expect (E:=E) o s = Ok a ↔ o = Some a.
Proof. destruct o; cbn; naive_solver. Qed.

Lemma map_err_Ok {E F A} (f : E → F) (m : result E A) a : map_err f m = Ok a ↔ m = Ok a.
Proof. destruct m; cbn; naive_solver. Qed.

Lemma Ok_inj_iff {E A} (a b : A) : @Ok E A a = Ok b ↔ a = b.
Proof. naive_solver. Qed.

Lemma each_result_Ok {E A} (check : A → result E unit) xs :
  each_result check xs = Ok tt ↔ Forall (λ x, check x = Ok tt) xs.
Proof.
  induction xs as [|x xs IH]; cbn; [naive_solver|].
  by rewrite seq_Ok, IH, Forall_cons_iff.
Qed.

Lemma collect_result_Ok {E A B} (f : A → result E B) xs ys :
  collect_result f xs = Ok ys ↔ Forall2 (λ x y, f x = Ok y) xs ys.
Proof.
  revert ys. induction xs as [|x xs IH]; intros ys; cbn.
  - split; [intros [= <-]; constructor|inversion 1; done].
  - split.
    + intros H. apply bind_Ok in H as (y & Hy & H).
      apply bind_Ok in H as (ys' & Hys & [= <-]). apply IH in Hys. by constructor.
    + inversion 1 as [|? y ? ys' Hy Hys]; subst. apply IH in Hys. by rewrite Hy, Hys.
Qed.

Lemma fold_result_app {E S A} (body : S → A → result E S) s xs ys :
  fold_result body s (xs ++ ys) = fold_result body s xs ≫= λ s', fold_result body s' ys.
Proof.
  revert s. induction xs as [|x xs IH]; intros s; cbn; [done|].
  destruct (body s x); cbn; [apply IH|done|done].
Qed.

(** The Hoare rule of the loop: an invariant indexed by the elements consumed. *)
Lemma fold_result_ind {E S A} (body : S → A → result E S) (P : list A → S → Prop) xs s s' :
  P [] s →
  (∀ done x st st', P done st → body st x = Ok st' → P (done ++ [x]) st') →
  fold_result body s xs = Ok s' → P xs s'.
Proof.
  intros H0 Hstep. revert s s' H0.
  induction xs as [|x xs IH] using rev_ind; intros s s' H0 Hfold.
  - cbn in Hfold. naive_solver.
  - rewrite fold_result_app in Hfold. apply bind_Ok in Hfold as (s1 & H1 & H2).
    cbn in H2. apply bind_Ok in H2 as (s2 & H2 & [= <-]). eauto.
Qed.

(** ** Panic freedom *)

Definition no_panic {E A} (m : result E A) : Prop :=
  match m with Panic _ => False | _ => True end.

Lemma no_panic_neq {E A} (m : result E A) : no_panic m ↔ ∀ p, m ≠ Panic p.
Proof. destruct m; cbn; naive_solver. Qed.

Lemma no_panic_bind {E A B} (m : result E A) (f : A → result E B) :
  no_panic m → (∀ a, m = Ok a → no_panic (f a)) → no_panic (m ≫= f).
Proof. destruct m; cbn; naive_solver. Qed.

Lemma no_panic_reject_if {E} b (e : E) : no_panic (reject_if b e).
Proof. by destruct b. Qed.

Lemma no_panic_ok_or {E A} (o : option A) (e : E) : no_panic (ok_or o e).
Proof. by destruct o. Qed.

Lemma no_panic_expect {E A} (o : option A) s : is_Some o → no_panic (E:=E) (expect o s).
Proof. by intros [x ->]. Qed.

Lemma no_panic_map_err {E F A} (f : E → F) (m : result E A) : no_panic m → no_panic (map_err f m).
Proof. by destruct m. Qed.

Lemma no_panic_fold_result {E S A} (body : S → A → result E S) (P : S → Prop) s xs :
  P s → (∀ st x, x ∈ xs → P st → no_panic (body st x)) →
  (∀ st x st', x ∈ xs → P st → body st x = Ok st' → P st') →
  no_panic (fold_result body s xs).
Proof.
  revert s. induction xs as [|x xs IH]; intros s Hs Hb HP; cbn; [done|].
  apply no_panic_bind; [apply Hb; [constructor|done]|]. intros s' Hs'. apply IH.
  - eapply HP; [constructor|done..].
  - intros st y Hy. apply Hb. by constructor.
  - intros st y st' Hy. apply HP. by constructor.
Qed.

Lemma no_panic_each_result {E A} (check : A → result E unit) xs :
  (∀ x, no_panic (check x)) → no_panic (each_result check xs).
Proof.
  intros H. induction xs as [|x xs IH]; cbn; [done|]. apply no_panic_bind; [apply H|auto].
Qed.

Lemma no_panic_collect_result {E A B} (f : A → result E B) xs :
  (∀ x, no_panic (f x)) → no_panic (collect_result f xs).
Proof.
  intros H. induction xs as [|x xs IH]; cbn; [done|].
  apply no_panic_bind; [apply H|]. intros y _. apply no_panic_bind; [done|]. done.
Qed.

Create HintDb panics.
#[export] Hint Resolve no_panic_reject_if no_panic_ok_or no_panic_map_err : panics.

(** [no_panics] walks a definition in the result monad; what is left are the
    calls that no lemma of [panics] covers. *)
Ltac no_panics :=
  repeat first
    [ exact I
    | solve [auto 2 with panics nocore]
    | apply no_panic_bind
    | apply no_panic_map_err
    | progress intros
    | progress case_match
    | progress cbn beta iota zeta ].

(** ** Rewriting with the success conditions *)

Create HintDb aquo.
#[export] Hint Rewrite @seq_Ok @reject_if_Ok @ok_or_Ok @expect_Ok @map_err_Ok
  @Ok_inj_iff @each_result_Ok : ok.
#[export] Hint Rewrite orb_false_iff andb_true_iff negb_true_iff negb_false_iff
  bool_decide_eq_true bool_decide_eq_false : ok.

(** [unbind H as x Hx] splits the success of a bind into its two halves. *)
Tactic Notation "unbind" hyp(H) "as" simple_intropattern(x) simple_intropattern(Hx) :=
  apply bind_Ok in H as (x & Hx & H).

(** [oks H] turns every guard that a success went through into a fact. *)
Ltac oks H := autorewrite with ok in H; destruct_and?.

(** ** Machine integers *)

(** Unsigned integers are [N] and signed ones [Z]; each operation carries the
    bound of its width. *)
Definition u8_max : N := 255.
Definition u32_max : N := 4294967295.
Definition u64_max : N := 18446744073709551615.
Definition usize_max : N := u64_max.
Definition i64_max : Z := 9223372036854775807.
Definition i64_min : Z := -9223372036854775808.

Definition checked_add_u32 (a b : N) : option N :=
  if (a + b <=? u32_max)%N then Some (a + b)%N else None.
Definition checked_add_u64 (a b : N) : option N :=
  if (a + b <=? u64_max)%N then Some (a + b)%N else None.
Definition checked_add_usize (a b : N) : option N :=
  if (a + b <=? usize_max)%N then Some (a + b)%N else None.
Definition u32_try_from (n : N) : option N :=
  if (n <=? u32_max)%N then Some n else None.
Definition checked_sub_i64 (a b : Z) : option Z :=
  if ((i64_min <=? a - b) && (a - b <=? i64_max))%Z then Some (a - b)%Z else None.
Definition saturating_add_i64 (a b : Z) : Z := (i64_min `max` (i64_max `min` (a + b)))%Z.
Definition saturating_sub_i64 (a b : Z) : Z := (i64_min `max` (i64_max `min` (a - b)))%Z.

Definition len {A} (l : list A) : N := N.of_nat (length l).

Lemma checked_add_u32_Some a b c :
  checked_add_u32 a b = Some c ↔ c = (a + b)%N ∧ (a + b <= u32_max)%N.
Proof. unfold checked_add_u32. destruct (N.leb_spec (a + b) u32_max); naive_solver lia. Qed.

Lemma checked_add_u64_Some a b c :
  checked_add_u64 a b = Some c ↔ c = (a + b)%N ∧ (a + b <= u64_max)%N.
Proof. unfold checked_add_u64. destruct (N.leb_spec (a + b) u64_max); naive_solver lia. Qed.

Lemma checked_add_usize_Some a b c :
  checked_add_usize a b = Some c ↔ c = (a + b)%N ∧ (a + b <= usize_max)%N.
Proof. unfold checked_add_usize. destruct (N.leb_spec (a + b) usize_max); naive_solver lia. Qed.

Lemma checked_sub_i64_Some a b c :
  checked_sub_i64 a b = Some c ↔ c = (a - b)%Z ∧ (i64_min <= a - b <= i64_max)%Z.
Proof.
  unfold checked_sub_i64.
  destruct (Z.leb_spec i64_min (a - b)), (Z.leb_spec (a - b) i64_max); cbn; naive_solver lia.
Qed.

Lemma u32_try_from_Some n m : u32_try_from n = Some m ↔ m = n ∧ (n <= u32_max)%N.
Proof. unfold u32_try_from. destruct (N.leb_spec n u32_max); naive_solver lia. Qed.

#[export] Hint Rewrite checked_add_u32_Some checked_add_u64_Some checked_add_usize_Some
  checked_sub_i64_Some u32_try_from_Some : ok.

Lemma len_app {A} (l k : list A) : len (l ++ k) = (len l + len k)%N.
Proof. unfold len. rewrite length_app. lia. Qed.

Lemma len_cons {A} (x : A) l : len (x :: l) = (1 + len l)%N.
Proof. unfold len. cbn. lia. Qed.

Lemma Forall2_len {A B} (R : A → B → Prop) l k : Forall2 R l k → len l = len k.
Proof. unfold len. induction 1 as [|x y l k _ _ IH]; [done|]. cbn. lia. Qed.

(** Distinct elements of a list are no more than its elements. *)
Lemma NoDup_len_le {A} (l k : list A) : NoDup l → (∀ x, x ∈ l → x ∈ k) → (len l <= len k)%N.
Proof.
  intros Hnd Hin. assert (length l <= length k) by (by apply submseteq_length, NoDup_submseteq).
  unfold len. lia.
Qed.

Lemma len_fmap {A B} (f : A → B) (l : list A) : len (f <$> l) = len l.
Proof. unfold len. by rewrite length_fmap. Qed.

Lemma len_nil {A} (l : list A) : len l = 0%N ↔ l = [].
Proof. unfold len. destruct l; cbn; [naive_solver|split; [lia|done]]. Qed.

(** ** Bytes *)

Notation byte := Init.Byte.byte.
Abbreviation bytes := (list byte).

#[export] Instance byte_eq_dec : EqDecision byte := Byte.byte_eq_dec.

Definition byte_val (b : byte) : N := Byte.to_N b.
Definition byte_of (n : N) : byte := default Byte.x00 (Byte.of_N (n `mod` 256)).

Lemma byte_val_bound b : (byte_val b < 256)%N.
Proof. unfold byte_val. pose proof (Byte.to_N_bounded b). lia. Qed.

Lemma byte_of_val b : byte_of (byte_val b) = b.
Proof.
  unfold byte_of. rewrite N.mod_small by apply byte_val_bound.
  unfold byte_val. by rewrite Byte.of_to_N.
Qed.

Lemma byte_val_of n : byte_val (byte_of n) = (n `mod` 256)%N.
Proof.
  unfold byte_of, byte_val.
  destruct (Byte.of_N (n `mod` 256)) as [b|] eqn:E.
  - by apply Byte.to_of_N in E.
  - apply Byte.of_N_None_iff in E. pose proof (N.mod_lt n 256). lia.
Qed.

Lemma byte_val_inj a b : byte_val a = byte_val b → a = b.
Proof. intros H. by rewrite <- (byte_of_val a), H, byte_of_val. Qed.

(** [to_be_bytes] of an unsigned integer of [w] bytes, and [from_be_bytes]. *)
Fixpoint to_be_bytes (w : nat) (n : N) : bytes :=
  match w with
  | O => []
  | S w' => byte_of (n `div` 256 ^ N.of_nat w') :: to_be_bytes w' n
  end.

Definition from_be_bytes (bs : bytes) : N :=
  foldl (λ acc b, acc * 256 + byte_val b)%N 0%N bs.

Lemma foldl_be acc bs :
  foldl (λ acc b, acc * 256 + byte_val b)%N acc bs = (acc * 256 ^ len bs + from_be_bytes bs)%N.
Proof.
  unfold from_be_bytes. revert acc. induction bs as [|b bs IH]; intros acc; cbn [foldl].
  - unfold len. cbn. lia.
  - rewrite (IH (acc * 256 + _)%N), (IH (0 * 256 + _)%N).
    rewrite len_cons, N.add_1_l, N.pow_succ_r'. lia.
Qed.

Lemma from_be_bytes_cons b bs :
  from_be_bytes (b :: bs) = (byte_val b * 256 ^ len bs + from_be_bytes bs)%N.
Proof.
  unfold from_be_bytes at 1. cbn [foldl]. rewrite foldl_be. lia.
Qed.

Lemma from_be_bytes_bound bs : (from_be_bytes bs < 256 ^ len bs)%N.
Proof.
  induction bs as [|b bs IH]; [done|].
  rewrite from_be_bytes_cons, len_cons, N.add_1_l, N.pow_succ_r'.
  pose proof (byte_val_bound b). nia.
Qed.

Lemma to_be_bytes_len w n : len (to_be_bytes w n) = N.of_nat w.
Proof. induction w as [|w IH]; [done|]. cbn [to_be_bytes]. rewrite len_cons, IH. lia. Qed.

Lemma to_be_bytes_length w n : length (to_be_bytes w n) = w.
Proof. pose proof (to_be_bytes_len w n). unfold len in *. lia. Qed.

Lemma from_to_be_bytes w n : (n < 256 ^ N.of_nat w)%N → from_be_bytes (to_be_bytes w n) = n.
Proof.
  cut (from_be_bytes (to_be_bytes w n) = n `mod` 256 ^ N.of_nat w)%N.
  { intros -> ?. by apply N.mod_small. }
  induction w as [|w IH]; [by rewrite N.mod_1_r|].
  cbn [to_be_bytes]. rewrite from_be_bytes_cons, to_be_bytes_len, IH, byte_val_of.
  rewrite Nat2N.inj_succ, N.pow_succ_r', (N.mul_comm 256).
  rewrite N.Div0.mod_mul_r. lia.
Qed.

Lemma to_from_be_bytes bs w : length bs = w → to_be_bytes w (from_be_bytes bs) = bs.
Proof.
  intros <-. cut (∀ m, to_be_bytes (length bs) (m * 256 ^ len bs + from_be_bytes bs)%N = bs).
  { intros H. by specialize (H 0%N). }
  induction bs as [|b bs IH]; intros m; [done|]. cbn [length to_be_bytes].
  assert (256 ^ len bs ≠ 0)%N by (apply N.pow_nonzero; lia).
  pose proof (from_be_bytes_bound bs).
  rewrite from_be_bytes_cons, len_cons, N.add_1_l, N.pow_succ_r'.
  replace (m * (256 * 256 ^ len bs) + (byte_val b * 256 ^ len bs + from_be_bytes bs))%N
    with ((m * 256 + byte_val b) * 256 ^ len bs + from_be_bytes bs)%N by lia.
  rewrite IH. f_equal. change (N.of_nat (length bs)) with (len bs).
  rewrite N.div_add_l, (N.div_small (from_be_bytes bs)), N.add_0_r by done.
  rewrite <- (byte_of_val b) at 2. unfold byte_of. f_equal. f_equal.
  by rewrite N.add_comm, N.Div0.mod_add.
Qed.

#[export] Hint Rewrite @len_app @len_cons to_be_bytes_len to_be_bytes_length : lens.
