(* ===== verification/Text.v ===== *)
(** * Rust strings and byte text

    The parts of [core::str] and [core::char] the A Quo crates use, on
    [String.string] read as the bytes of a [str]: UTF-8 decoding, Unicode white
    space and control characters, [trim], [split_whitespace], [strip_prefix],
    and lower-case hexadecimal. A [str] of Rust is always valid UTF-8; a byte
    that is not part of a valid sequence decodes here to a unit with no scalar
    value, so every function below is total. *)

From stdpp Require Import base numbers list strings option.
From Stdlib Require Import Strings.Byte Ascii.
From S2P Require Import Prelude.

Definition str_len (s : string) : N := N.of_nat (String.length s).
Definition as_bytes (s : string) : bytes := String.list_byte_of_string s.
Definition ascii_val (c : ascii) : N := N_of_ascii c.

(** ** UTF-8 *)

Definition is_continuation (c : ascii) : bool :=
  ((128 <=? ascii_val c) && (ascii_val c <=? 191))%N.

Definition str_of_chars (cs : list ascii) : string :=
  foldr String EmptyString cs.

Definition in_range (lo hi n : N) : bool := ((lo <=? n) && (n <=? hi))%N.

(** [str_units s] pairs every character of [s] with the bytes that encode it
    ([char_indices] with the slices). *)
Fixpoint str_units (s : string) : list (option N * string) :=
  match s with
  | EmptyString => []
  | String c0 r0 =>
      let b0 := ascii_val c0 in
      if (b0 <? 128)%N then (Some b0, String c0 EmptyString) :: str_units r0
      else match r0 with
      | String c1 r1 =>
          let b1 := ascii_val c1 in
          if in_range 194 223 b0 && is_continuation c1 then
            (Some ((b0 - 192) * 64 + (b1 - 128))%N, str_of_chars [c0; c1]) :: str_units r1
          else match r1 with
          | String c2 r2 =>
              let b2 := ascii_val c2 in
              if in_range 224 239 b0 && is_continuation c1 && is_continuation c2 &&
                 (if (b0 =? 224)%N then (160 <=? b1)%N else true) &&
                 (if (b0 =? 237)%N then (b1 <=? 159)%N else true) then
                (Some ((b0 - 224) * 4096 + (b1 - 128) * 64 + (b2 - 128))%N,
                 str_of_chars [c0; c1; c2]) :: str_units r2
              else match r2 with
              | String c3 r3 =>
                  let b3 := ascii_val c3 in
                  if in_range 240 244 b0 && is_continuation c1 && is_continuation c2 &&
                     is_continuation c3 &&
                     (if (b0 =? 240)%N then (144 <=? b1)%N else true) &&
                     (if (b0 =? 244)%N then (b1 <=? 143)%N else true) then
                    (Some ((b0 - 240) * 262144 + (b1 - 128) * 4096 +
                           (b2 - 128) * 64 + (b3 - 128))%N,
                     str_of_chars [c0; c1; c2; c3]) :: str_units r3
                  else (None, String c0 EmptyString) :: str_units r0
              | EmptyString => (None, String c0 EmptyString) :: str_units r0
              end
          | EmptyString => (None, String c0 EmptyString) :: str_units r0
          end
      | EmptyString => (None, String c0 EmptyString) :: str_units r0
      end
  end.

Definition utf8_valid (s : string) : bool :=
  forallb (λ u : option N * string, bool_decide (is_Some u.1)) (str_units s).

(** [str::chars] *)
Definition chars (s : string) : list N := omap fst (str_units s).

(** [std::str::from_utf8] *)
Definition from_utf8 (bs : bytes) : option string :=
  let s := String.string_of_list_byte bs in
  if utf8_valid s then Some s else None.

Definition join_units (us : list (option N * string)) : string :=
  foldr (λ u acc, String.append u.2 acc) EmptyString us.

(** ** Character classes *)

(** [char::is_whitespace]: the Unicode [White_Space] property. *)
Definition is_whitespace (c : N) : bool :=
  in_range 9 13 c || (c =? 32)%N || (c =? 133)%N || (c =? 160)%N || (c =? 5760)%N ||
  in_range 8192 8202 c || (c =? 8232)%N || (c =? 8233)%N || (c =? 8239)%N ||
  (c =? 8287)%N || (c =? 12288)%N.

(** [char::is_control]: the general category [Cc]. *)
Definition is_control (c : N) : bool := in_range 0 31 c || in_range 127 159 c.

Definition unit_is_whitespace (u : option N * string) : bool :=
  match u.1 with Some c => is_whitespace c | None => false end.

Definition is_ascii_digit (c : ascii) : bool := in_range 48 57 (ascii_val c).
Definition is_ascii_lowercase (c : ascii) : bool := in_range 97 122 (ascii_val c).
Definition is_ascii_uppercase (c : ascii) : bool := in_range 65 90 (ascii_val c).
Definition is_ascii_hexdigit (c : ascii) : bool :=
  is_ascii_digit c || in_range 97 102 (ascii_val c) || in_range 65 70 (ascii_val c).

Fixpoint str_all (p : ascii → bool) (s : string) : bool :=
  match s with
  | EmptyString => true
  | String c s' => p c && str_all p s'
  end.

(** ** Slices of a [str] *)

Fixpoint drop_whitespace (us : list (option N * string)) : list (option N * string) :=
  match us with
  | [] => []
  | u :: us' => if unit_is_whitespace u then drop_whitespace us' else us
  end.

(** [str::trim] *)
Definition trim (s : string) : string :=
  join_units (reverse (drop_whitespace (reverse (drop_whitespace (str_units s))))).

(** [str::split_whitespace]; [cur] is the field under construction. *)
Fixpoint split_units (cur : list (option N * string)) (us : list (option N * string)) :
    list string :=
  match us with
  | [] => match cur with [] => [] | _ => [join_units cur] end
  | u :: us' =>
      if unit_is_whitespace u then
        match cur with
        | [] => split_units [] us'
        | _ => join_units cur :: split_units [] us'
        end
      else split_units (cur ++ [u]) us'
  end.

Definition split_whitespace (s : string) : list string := split_units [] (str_units s).

(** [str::strip_prefix] *)
Fixpoint strip_prefix (p s : string) : option string :=
  match p, s with
  | EmptyString, _ => Some s
  | String a p', String b s' => if Ascii.eqb a b then strip_prefix p' s' else None
  | String _ _, EmptyString => None
  end.

(** ** Paths *)

Fixpoint split_on_slash (cur : string) (s : string) : list string :=
  match s with
  | EmptyString => [cur]
  | String c s' =>
      if Ascii.eqb c "/" then cur :: split_on_slash EmptyString s'
      else split_on_slash (String.append cur (String c EmptyString)) s'
  end.

(** [Path::is_absolute] on Unix *)
Definition is_absolute (p : string) : bool :=
  match p with String c _ => Ascii.eqb c "/" | EmptyString => false end.

(** [Path::components] on Unix: ["/"] is the root, ["."] a leading current
    directory, [".."] a parent; empty and later ["."] segments vanish. *)
Definition path_components (p : string) : list string :=
  let keep := filter (λ x, x ≠ EmptyString ∧ x ≠ ".") in
  match split_on_slash EmptyString p with
  | first :: rest =>
      if is_absolute p then "/" :: keep rest
      else if bool_decide (first = ".") then "." :: keep rest
      else keep (first :: rest)
  | [] => []
  end.

(** [Path == Path] compares components. *)
Definition path_eqb (p q : string) : bool :=
  bool_decide (path_components p = path_components q).

(** ** Hexadecimal *)

Definition hex_digit (n : N) : ascii :=
  ascii_of_N (if (n <? 10)%N then 48 + n else 87 + n)%N.

(** [format!("{:x}", digest)] *)
Fixpoint lower_hex (bs : bytes) : string :=
  match bs with
  | [] => EmptyString
  | b :: bs' =>
      String (hex_digit (byte_val b `div` 16)%N)
        (String (hex_digit (byte_val b `mod` 16)%N) (lower_hex bs'))
  end.

Definition is_lower_hex (c : ascii) : bool :=
  is_ascii_hexdigit c && negb (is_ascii_uppercase c).

(** ** Lemmas *)

Lemma append_cons c a b : String.append (String c a) b = String c (String.append a b).
Proof. done. Qed.

Lemma append_nil_l b : String.append EmptyString b = b.
Proof. done. Qed.

Lemma append_nil_r a : String.append a EmptyString = a.
Proof. induction a as [|c a IH]; [done|]. by rewrite append_cons, IH. Qed.

Lemma append_assoc a b c :
  String.append a (String.append b c) = String.append (String.append a b) c.
Proof. induction a as [|x a IH]; [done|]. by rewrite !append_cons, IH. Qed.

Lemma str_len_cons c s : str_len (String c s) = (1 + str_len s)%N.
Proof. unfold str_len. cbn. lia. Qed.

Lemma str_len_app a b : str_len (String.append a b) = (str_len a + str_len b)%N.
Proof.
  induction a as [|c a IH]; [done|].
  rewrite append_cons, !str_len_cons, IH. lia.
Qed.

Lemma str_len_0 s : str_len s = 0%N ↔ s = EmptyString.
Proof. destruct s; [done|]. rewrite str_len_cons. split; [lia|done]. Qed.

Lemma join_units_app us vs :
  join_units (us ++ vs) = String.append (join_units us) (join_units vs).
Proof.
  induction us as [|u us IH]; [done|].
  change (String.append u.2 (join_units (us ++ vs)) =
          String.append (String.append u.2 (join_units us)) (join_units vs)).
  by rewrite IH, append_assoc.
Qed.

(** A unit that decodes as itself whatever follows. *)
Definition self_delimiting (u : option N * string) : Prop :=
  ∀ t, str_units (String.append u.2 t) = u :: str_units t.

(** One step of the decoder: the head unit is a prefix of the string. *)
Lemma str_units_cons c s :
  ∃ u rest, str_units (String c s) = u :: str_units rest ∧
    String c s = String.append u.2 rest ∧ u.2 ≠ EmptyString ∧
    (is_Some u.1 → self_delimiting u).
Proof.
  unfold self_delimiting. cbn [str_units].
  repeat (case_match; simplify_eq);
    (eexists (_, _), _; split_and!; [done|done|done|]);
    intros [? [=]] t; cbn [fst snd str_of_chars foldr];
    rewrite ?append_cons, ?append_nil_l; cbn [str_units];
    repeat match goal with H : _ = true |- _ => rewrite H | H : _ = false |- _ => rewrite H end;
    done.
Qed.

Lemma str_ind_len (P : string → Prop) :
  (∀ s, (∀ t, String.length t < String.length s → P t) → P s) → ∀ s, P s.
Proof.
  intros H s. remember (String.length s) as n eqn:Hn. revert s Hn.
  induction (lt_wf n) as [n _ IH]. intros s ->. apply H. eauto.
Qed.

Lemma length_append a b : String.length (String.append a b) = String.length a + String.length b.
Proof. induction a as [|c a IH]; [done|]. rewrite append_cons. cbn. by rewrite IH. Qed.

Lemma join_str_units s : join_units (str_units s) = s.
Proof.
  induction s as [s IH] using str_ind_len. destruct s as [|c s]; [done|].
  destruct (str_units_cons c s) as (u & rest & Hu & Hs & Hne & _).
  rewrite Hu. change (String.append u.2 (join_units (str_units rest)) = String c s).
  rewrite IH; [done|]. rewrite Hs, length_append. destruct u.2; [done|]. cbn. lia.
Qed.

Lemma str_units_self_delimiting s :
  utf8_valid s = true → Forall self_delimiting (str_units s).
Proof.
  unfold utf8_valid. induction s as [s IH] using str_ind_len.
  destruct s as [|c s]; [by constructor|].
  destruct (str_units_cons c s) as (u & rest & Hu & Hs & Hne & Hsd). rewrite Hu. cbn [forallb].
  rewrite andb_true_iff, bool_decide_eq_true. intros [Hsome Hrest].
  constructor; [by apply Hsd|]. apply IH; [|done].
  rewrite Hs, length_append. destruct u.2; [done|]. cbn. lia.
Qed.

Lemma str_units_nonempty s : Forall (λ u, u.2 ≠ EmptyString) (str_units s).
Proof.
  induction s as [s IH] using str_ind_len. destruct s as [|c s]; [by constructor|].
  destruct (str_units_cons c s) as (u & rest & Hu & Hs & Hne & _). rewrite Hu.
  constructor; [done|]. apply IH. rewrite Hs, length_append. destruct u.2; [done|]. cbn. lia.
Qed.

Lemma str_units_join us t :
  Forall self_delimiting us → str_units (String.append (join_units us) t) = us ++ str_units t.
Proof.
  induction 1 as [|u us Hu Hus IH]; [done|].
  change (join_units (u :: us)) with (String.append u.2 (join_units us)).
  by rewrite <- append_assoc, Hu, IH.
Qed.

(** ** White-space separated fields *)

Lemma join_nil_len : str_len (join_units []) = 0%N.
Proof. done. Qed.

Lemma join_snoc_len us u :
  str_len (join_units (us ++ [u])) = (str_len (join_units us) + str_len u.2)%N.
Proof. rewrite join_units_app, str_len_app. cbn [join_units foldr]. by rewrite append_nil_r. Qed.

(** What a field of [split_whitespace] is made of. *)
Definition field_units (us : list (option N * string)) : Prop :=
  us ≠ [] ∧ Forall self_delimiting us ∧ Forall (λ u, unit_is_whitespace u = false) us.

Lemma split_units_field cur us rest :
  Forall (λ u, unit_is_whitespace u = false) us →
  split_units cur (us ++ rest) = split_units (cur ++ us) rest.
Proof.
  revert cur. induction us as [|u us IH]; intros cur H; [by rewrite app_nil_r|].
  apply Forall_cons_iff in H as [Hu Hus]. cbn. rewrite Hu, IH by done.
  by rewrite <- app_assoc.
Qed.

Lemma split_whitespace_two us vs :
  field_units us → field_units vs →
  split_whitespace (String.append (join_units us) (String " " (join_units vs))) =
  [join_units us; join_units vs].
Proof.
  intros (Hne & Hsd & Hws) (Hne' & Hsd' & Hws'). unfold split_whitespace.
  rewrite str_units_join by done.
  change (str_units (String " " (join_units vs)))
    with ((Some 32%N, String " " EmptyString) :: str_units (join_units vs)).
  rewrite <- (append_nil_r (join_units vs)) at 1. rewrite str_units_join by done.
  change (str_units EmptyString) with (@nil (option N * string)).
  rewrite split_units_field by done. cbn. destruct us as [|u us]; [done|].
  rewrite split_units_field by done. cbn. destruct vs as [|v vs]; [done|]. done.
Qed.

(** The first two fields come from the string, with a separator between them. *)
Lemma split_units_two cur us a b rest :
  Forall self_delimiting us → Forall self_delimiting cur →
  Forall (λ u, unit_is_whitespace u = false) cur →
  Forall (λ u, u.2 ≠ EmptyString) us →
  split_units cur us = a :: b :: rest →
  (∃ ua ub, field_units ua ∧ field_units ub ∧ a = join_units ua ∧ b = join_units ub) ∧
  (str_len a + 1 + str_len b <= str_len (join_units cur) + str_len (join_units us))%N.
Proof.
  assert (∀ us cur f rest, Forall self_delimiting us → Forall self_delimiting cur →
    Forall (λ u, unit_is_whitespace u = false) cur → split_units cur us = f :: rest →
    (∃ uf, field_units uf ∧ f = join_units uf) ∧
    (str_len f <= str_len (join_units cur) + str_len (join_units us))%N) as Hone.
  { clear. intros us. induction us as [|u us IH]; intros cur f rest Hus Hcur Hws Hsplit.
    - cbn in Hsplit. destruct cur as [|c cur]; simplify_eq.
      split; [exists (c :: cur); done|lia].
    - apply Forall_cons_iff in Hus as [Hu Hus].
      change (join_units (u :: us)) with (String.append u.2 (join_units us)).
      rewrite str_len_app. cbn in Hsplit. destruct (unit_is_whitespace u) eqn:Eu.
      + destruct cur as [|c cur].
        * apply IH in Hsplit as [Hf Hl]; [|done..]. split; [done|]. rewrite join_nil_len in Hl. lia.
        * simplify_eq. split; [exists (c :: cur); done|lia].
      + apply IH in Hsplit as [Hf Hl]; [|done|by apply Forall_app_2; auto..].
        split; [done|]. rewrite join_snoc_len in Hl. lia. }
  revert cur. induction us as [|u us IH]; intros cur Hus Hcur Hws Hne Hsplit.
  { cbn in Hsplit. by destruct cur. }
  apply Forall_cons_iff in Hus as [Hu Hus]. apply Forall_cons_iff in Hne as [Hu' Hne].
  change (join_units (u :: us)) with (String.append u.2 (join_units us)).
  rewrite str_len_app. cbn in Hsplit. destruct (unit_is_whitespace u) eqn:Eu.
  - destruct cur as [|c cur].
    + apply IH in Hsplit as [Hf Hl]; [|done..]. split; [done|]. rewrite join_nil_len in Hl. lia.
    + injection Hsplit as <- Hsplit.
      apply Hone in Hsplit as [(ub & Hub & ->) Hl]; [|done..].
      split; [exists (c :: cur), ub; done|].
      assert (str_len u.2 ≠ 0%N) by (by rewrite str_len_0). rewrite join_nil_len in Hl.
      change (join_units (c :: cur)) with (String.append c.2 (join_units cur)). lia.
  - apply IH in Hsplit as [Hf Hl]; [|done|by apply Forall_app_2; auto..|done].
    split; [done|]. rewrite join_snoc_len in Hl. lia.
Qed.

Lemma split_whitespace_first_two s a b rest :
  utf8_valid s = true → split_whitespace s = a :: b :: rest →
  split_whitespace (String.append a (String " " b)) = [a; b] ∧
  (str_len a + 1 + str_len b <= str_len s)%N.
Proof.
  intros Hv Hs. apply split_units_two in Hs as [(ua & ub & Ha & Hb & -> & ->) Hl].
  - rewrite join_str_units in Hl. split; [by apply split_whitespace_two|]. done.
  - by apply str_units_self_delimiting.
  - constructor.
  - constructor.
  - apply str_units_nonempty.
Qed.

Lemma strip_prefix_Some p s r : strip_prefix p s = Some r ↔ s = String.append p r.
Proof.
  revert s. induction p as [|a p IH]; intros s.
  - rewrite append_nil_l. cbn. naive_solver.
  - rewrite append_cons. destruct s as [|b s]; cbn; [naive_solver|].
    destruct (Ascii.eqb_spec a b) as [->|Hne]; [rewrite IH|]; naive_solver.
Qed.

Lemma str_all_app p a b : str_all p (String.append a b) = str_all p a && str_all p b.
Proof.
  induction a as [|c a IH]; [done|]. rewrite append_cons. cbn.
  by rewrite IH, andb_assoc.
Qed.

(** Every digest printed with [{:x}] is lower-case hexadecimal of twice its length. *)
Lemma lower_hex_len bs : str_len (lower_hex bs) = (2 * len bs)%N.
Proof.
  induction bs as [|b bs IH]; [done|]. cbn [lower_hex].
  rewrite !str_len_cons, IH, len_cons. lia.
Qed.

(** The sixteen values of a hexadecimal digit, for proofs by enumeration. *)
Definition nibbles : list N := [0; 1; 2; 3; 4; 5; 6; 7; 8; 9; 10; 11; 12; 13; 14; 15]%N.

Lemma elem_of_nibbles n : (n < 16)%N → n ∈ nibbles.
Proof. intros. unfold nibbles. rewrite !elem_of_cons. lia. Qed.

Lemma hex_digit_lower n : (n < 16)%N → is_lower_hex (hex_digit n) = true.
Proof.
  intros Hn%elem_of_nibbles. revert n Hn.
  apply (list.Forall_forall (λ n, is_lower_hex (hex_digit n) = true)).
  by repeat constructor.
Qed.

Lemma hex_digit_inj m n : (m < 16)%N → (n < 16)%N → hex_digit m = hex_digit n → m = n.
Proof.
  intros Hm%elem_of_nibbles Hn%elem_of_nibbles. revert n Hn.
  apply (list.Forall_forall (λ n, hex_digit m = hex_digit n → m = n)).
  revert m Hm.
  apply (list.Forall_forall (λ m, Forall (λ n, hex_digit m = hex_digit n → m = n) nibbles)).
  repeat constructor; vm_compute; congruence.
Qed.

Lemma lower_hex_all bs : str_all is_lower_hex (lower_hex bs) = true.
Proof.
  induction bs as [|b bs IH]; [done|]. cbn.
  pose proof (byte_val_bound b).
  rewrite !hex_digit_lower, IH; [done|apply N.mod_lt; lia|].
  apply N.Div0.div_lt_upper_bound. lia.
Qed.

Lemma lower_hex_inj bs cs : lower_hex bs = lower_hex cs → bs = cs.
Proof.
  revert cs. induction bs as [|b bs IH]; intros [|c cs]; cbn; [done..|].
  intros [= H1 H2 H3]. f_equal; [|by apply IH].
  pose proof (byte_val_bound b). pose proof (byte_val_bound c).
  apply hex_digit_inj in H1; [|by apply N.Div0.div_lt_upper_bound; lia..].
  apply hex_digit_inj in H2; [|by apply N.mod_lt; lia..].
  apply byte_val_inj. rewrite (N.Div0.div_mod (byte_val b) 16), (N.Div0.div_mod (byte_val c) 16).
  congruence.
Qed.
