(* ===== verification/Ordered.v ===== *)
(** * Ordered collections

    The parts of Rust's [alloc] and [core::slice] that depend on [Ord]: the
    bytewise order of [str], [slice::sort], [slice::windows(2)],
    [slice::binary_search] and the ordered sets and maps of [BTreeSet<String>]
    and [BTreeMap<String, V>], as strictly sorted lists. *)

From stdpp Require Import base numbers list strings sorting option sets.
From Stdlib Require Import Strings.Byte Ascii.
From S2P Require Import Prelude Text.

(** ** The order of [str] *)

Definition str_lt (a b : string) : Prop := String.compare a b = Lt.
#[export] Instance str_lt_dec : RelDecision str_lt.
Proof. intros a b. unfold str_lt. apply _. Defined.

Definition str_ltb (a b : string) : bool := bool_decide (str_lt a b).

Lemma ascii_compare_refl c : Ascii.compare c c = Eq.
Proof. unfold Ascii.compare. apply N.compare_refl. Qed.

Lemma str_compare_eq a b : String.compare a b = Eq ↔ a = b.
Proof.
  split; [apply String.compare_eq_iff|intros <-].
  induction a as [|c a IH]; cbn; [done|]. by rewrite ascii_compare_refl.
Qed.

Lemma str_compare_antisym a b : String.compare b a = CompOpp (String.compare a b).
Proof. apply String.compare_antisym. Qed.

Lemma str_lt_trans a b c : str_lt a b → str_lt b c → str_lt a c.
Proof.
  unfold str_lt. revert b c. induction a as [|x a IH]; intros [|y b] [|z c]; cbn; try done.
  unfold Ascii.compare.
  destruct (N.compare_spec (N_of_ascii x) (N_of_ascii y)) as [Hxy|Hxy|Hxy]; try done.
  - rewrite Hxy. destruct (N.compare_spec (N_of_ascii y) (N_of_ascii z)); try done. apply IH.
  - intros _. destruct (N.compare_spec (N_of_ascii y) (N_of_ascii z)) as [Hyz|Hyz|Hyz]; try done.
    + intros _. rewrite <- Hyz. apply N.compare_lt_iff in Hxy. by rewrite Hxy.
    + intros _. by rewrite (proj2 (N.compare_lt_iff _ _) (N.lt_trans _ _ _ Hxy Hyz)).
Qed.

Lemma str_lt_irrefl a : ¬ str_lt a a.
Proof. unfold str_lt. intros H. by rewrite (proj2 (str_compare_eq a a) eq_refl) in H. Qed.

Lemma str_lt_total a b : str_lt a b ∨ a = b ∨ str_lt b a.
Proof.
  unfold str_lt. rewrite (str_compare_antisym a b).
  destruct (String.compare a b) eqn:E; cbn; [|tauto..].
  apply str_compare_eq in E. tauto.
Qed.

Lemma str_lt_asym a b : str_lt a b → ¬ str_lt b a.
Proof. intros H1 H2. eapply str_lt_irrefl, str_lt_trans; eauto. Qed.

#[export] Instance str_lt_strict : StrictOrder str_lt.
Proof. split; [intros a; apply str_lt_irrefl|intros a b c; apply str_lt_trans]. Qed.

(** ** Sorting *)

(** [slice::sort] on strings. *)
Definition sort_strings (l : list string) : list string := merge_sort String.le l.

(** [slice::windows(2).any(p)] *)
Fixpoint windows2_any {A} (p : A → A → bool) (l : list A) : bool :=
  match l with
  | a :: (b :: _) as l' => p a b || windows2_any p l'
  | _ => false
  end.

Definition strictly_sorted (l : list string) : Prop := StronglySorted str_lt l.

Lemma strictly_sorted_NoDup l : strictly_sorted l → NoDup l.
Proof.
  induction 1 as [|x l Hs IH Hx]; constructor; [|done].
  intros Hin. rewrite list.Forall_forall in Hx. by apply (str_lt_irrefl x), Hx.
Qed.

(** ** Binary search *)

(** The loop of [slice::binary_search_by]: [cmp y] compares an element with
    the key, [base] and [size] delimit the candidates, [fuel] bounds the
    halvings. *)
Fixpoint binary_search_loop {A} (cmp : A → comparison) (l : list A) (base size fuel : nat) : nat :=
  match fuel with
  | O => base
  | S fuel' =>
      if size <=? 1 then base
      else
        let half := size / 2 in
        let mid := base + half in
        let base' :=
          match l !! mid with
          | Some y => match cmp y with Gt => base | _ => mid end
          | None => base
          end in
        binary_search_loop cmp l base' (size - half) fuel'
  end.

Definition binary_search_by_is_ok {A} (cmp : A → comparison) (l : list A) : bool :=
  match l !! binary_search_loop cmp l 0 (length l) (length l) with
  | Some y => match cmp y with Eq => true | _ => false end
  | None => false
  end.

(** [slice::binary_search(&x).is_ok()] on strings *)
Definition binary_search_is_ok (l : list string) (x : string) : bool :=
  binary_search_by_is_ok (λ y, String.compare y x) l.

(** ** Ordered sets *)

(** [BTreeSet::insert]: the new set and whether the value was absent. *)
Fixpoint bset_insert (x : string) (s : list string) : list string * bool :=
  match s with
  | [] => ([x], true)
  | y :: s' =>
      match String.compare x y with
      | Lt => (x :: s, true)
      | Eq => (s, false)
      | Gt => let '(t, fresh) := bset_insert x s' in (y :: t, fresh)
      end
  end.

Definition bset_contains (x : string) (s : list string) : bool := bool_decide (x ∈ s).

(** [iter().collect::<BTreeSet<_>>()] *)
Definition bset_of_list (l : list string) : list string :=
  foldl (λ s x, (bset_insert x s).1) [] l.

(** ** Ordered maps *)

Fixpoint bmap_get {V} (k : string) (m : list (string * V)) : option V :=
  match m with
  | [] => None
  | (k', v) :: m' => if bool_decide (k = k') then Some v else bmap_get k m'
  end.

(** [BTreeMap::insert] of a key that is absent. *)
Fixpoint bmap_insert {V} (k : string) (v : V) (m : list (string * V)) : list (string * V) :=
  match m with
  | [] => [(k, v)]
  | (k', v') :: m' =>
      match String.compare k k' with
      | Lt => (k, v) :: m
      | Eq => (k, v) :: m'
      | Gt => (k', v') :: bmap_insert k v m'
      end
  end.

(** ** Lemmas *)

Lemma strictly_sorted_lookup l i j x y :
  strictly_sorted l → l !! i = Some x → l !! j = Some y → i < j → str_lt x y.
Proof.
  intros Hs. revert i j. induction Hs as [|z l Hs IH Hz]; intros i j Hi Hj Hlt; [done|].
  destruct j as [|j]; [lia|]. destruct i as [|i]; cbn in *.
  - simplify_eq. rewrite list.Forall_forall in Hz. by eapply Hz, list_elem_of_lookup_2.
  - eapply IH; eauto; lia.
Qed.

Lemma binary_search_loop_spec l x k base size fuel :
  strictly_sorted l → l !! k = Some x →
  base <= k < base + size → base + size <= length l → size <= S fuel →
  binary_search_loop (λ y, String.compare y x) l base size fuel = k.
Proof.
  intros Hs Hk. revert base size. induction fuel as [|fuel IH]; intros base size Hb Hl Hf; cbn [binary_search_loop].
  - lia.
  - destruct (Nat.leb_spec size 1); [lia|].
    pose proof (Nat.Div0.div_le_mono 2 size 2 ltac:(lia)) as H1. change (2 / 2) with 1 in H1.
    pose proof (Nat.div_lt size 2 ltac:(lia) ltac:(lia)) as H2.
    pose proof (Nat.Div0.mul_div_le size 2) as H3.
    destruct (l !! (base + size / 2)) as [y|] eqn:Hy; cycle 1.
    { apply lookup_ge_None in Hy. lia. }
    destruct (String.compare y x) eqn:Hc.
    + apply str_compare_eq in Hc as ->. apply IH; [|lia..].
      pose proof (strictly_sorted_NoDup l Hs) as Hnd.
      rewrite (NoDup_lookup l _ _ _ Hnd Hy Hk). lia.
    + apply IH; [|lia..]. destruct (decide (base + size / 2 <= k)); [lia|].
      pose proof (strictly_sorted_lookup l _ _ _ _ Hs Hk Hy ltac:(lia)).
      by edestruct (str_lt_asym y x).
    + apply IH; [|lia..]. destruct (decide (k < base + size / 2)); [lia|].
      assert (str_lt x y) as Hxy.
      { unfold str_lt. rewrite (str_compare_antisym y x), Hc. done. }
      destruct (decide (k = base + size / 2)) as [->|].
      { rewrite Hy in Hk. simplify_eq. by apply str_lt_irrefl in Hxy. }
      pose proof (strictly_sorted_lookup l _ _ _ _ Hs Hy Hk ltac:(lia)).
      by edestruct (str_lt_asym y x).
Qed.

(** On a strictly sorted slice the binary search is membership. *)
Lemma binary_search_sorted l x :
  strictly_sorted l → binary_search_is_ok l x = true ↔ x ∈ l.
Proof.
  intros Hs. unfold binary_search_is_ok, binary_search_by_is_ok. split.
  - case_match; [|done]. case_match eqn:Hc; [|done..]. intros _. apply str_compare_eq in Hc as ->.
    by eapply list_elem_of_lookup_2.
  - intros [k Hk]%list_elem_of_lookup. pose proof (lookup_lt_Some _ _ _ Hk).
    rewrite (binary_search_loop_spec l x k 0 (length l) (length l)); [|done|done|lia..].
    rewrite Hk. by rewrite (proj2 (str_compare_eq x x) eq_refl).
Qed.

Lemma bset_insert_elem x y s : y ∈ (bset_insert x s).1 ↔ y = x ∨ y ∈ s.
Proof.
  induction s as [|z s IH]; cbn; [set_solver|].
  destruct (String.compare x z) eqn:Hc; cbn.
  - apply str_compare_eq in Hc as ->. set_solver.
  - set_solver.
  - destruct (bset_insert x s) as [t b]; cbn in *. set_solver.
Qed.

Lemma bset_insert_fresh x s :
  strictly_sorted s → (bset_insert x s).2 = true ↔ x ∉ s.
Proof.
  induction 1 as [|z s Hs IH Hz]; cbn; [set_solver|].
  destruct (String.compare x z) eqn:Hc; cbn.
  - apply str_compare_eq in Hc as ->. set_solver.
  - split; [|done]. intros _ Hin. rewrite list.Forall_forall in Hz.
    apply elem_of_cons in Hin as [->|Hin]; [by apply str_lt_irrefl in Hc|].
    by apply (str_lt_asym x z Hc), Hz.
  - destruct (bset_insert x s) as [t b]; cbn in *. rewrite IH, not_elem_of_cons.
    split; [|tauto]. intros Hin. split; [|done]. intros ->.
    by rewrite (proj2 (str_compare_eq z z) eq_refl) in Hc.
Qed.

Lemma bset_insert_sorted x s : strictly_sorted s → strictly_sorted (bset_insert x s).1.
Proof.
  induction 1 as [|z s Hs IH Hz]; cbn; [repeat constructor|].
  destruct (String.compare x z) eqn:Hc; cbn.
  - by constructor.
  - constructor; [by constructor|]. constructor; [done|].
    eapply list.Forall_impl; [exact Hz|]. intros y Hy. by eapply str_lt_trans.
  - pose proof (λ y, bset_insert_elem x y s) as Hel.
    destruct (bset_insert x s) as [t b] eqn:Et; cbn in *. constructor; [done|].
    apply list.Forall_forall. intros y Hy. apply Hel in Hy as [->|Hy].
    + unfold str_lt. by rewrite (str_compare_antisym x z), Hc.
    + rewrite list.Forall_forall in Hz. by apply Hz.
Qed.

Lemma bset_of_list_elem l x : x ∈ bset_of_list l ↔ x ∈ l.
Proof.
  unfold bset_of_list. assert (∀ s, x ∈ foldl (λ s y, (bset_insert y s).1) s l ↔ x ∈ l ∨ x ∈ s) as H.
  { induction l as [|y l IH]; intros s; cbn; [set_solver|]. rewrite IH, bset_insert_elem. set_solver. }
  rewrite H. set_solver.
Qed.

Lemma bset_of_list_sorted l : strictly_sorted (bset_of_list l).
Proof.
  unfold bset_of_list. assert (∀ s, strictly_sorted s →
    strictly_sorted (foldl (λ s y, (bset_insert y s).1) s l)) as H; [|apply H; constructor].
  induction l as [|y l IH]; intros s Hs; cbn; [done|]. by apply IH, bset_insert_sorted.
Qed.

Lemma bset_contains_iff x s : bset_contains x s = true ↔ x ∈ s.
Proof. unfold bset_contains. apply bool_decide_eq_true. Qed.

Lemma bset_insert_len x s :
  len (bset_insert x s).1 = (if (bset_insert x s).2 then 1 + len s else len s)%N.
Proof.
  induction s as [|y s IH]; cbn; [done|]. destruct (String.compare x y); cbn; [done|by rewrite !len_cons|].
  destruct (bset_insert x s) as [t b]; cbn in *. rewrite !len_cons, IH. destruct b; lia.
Qed.

(** Two strictly sorted lists with the same elements are equal. *)
Lemma strictly_sorted_ext l k :
  strictly_sorted l → strictly_sorted k → (∀ x, x ∈ l ↔ x ∈ k) → l = k.
Proof.
  intros Hl. revert k. induction Hl as [|x l Hl IH Hx]; intros k Hk Heq.
  - destruct k as [|y k]; [done|]. exfalso. specialize (Heq y). set_solver.
  - destruct Hk as [|y k Hk Hy]; [exfalso; specialize (Heq x); set_solver|].
    rewrite list.Forall_forall in Hx, Hy.
    assert (x = y) as ->.
    { pose proof (proj1 (Heq x) ltac:(left)) as H1. pose proof (proj2 (Heq y) ltac:(left)) as H2.
      apply elem_of_cons in H1 as [|H1]; [done|]. apply elem_of_cons in H2 as [|H2]; [done|].
      exfalso. eapply str_lt_asym; eauto. }
    f_equal. apply IH; [done|]. intros z. specialize (Heq z). rewrite !elem_of_cons in Heq.
    split; intros Hz.
    + destruct (proj1 Heq ltac:(by right)) as [->|]; [|done]. exfalso. by eapply str_lt_irrefl, Hx.
    + destruct (proj2 Heq ltac:(by right)) as [->|]; [|done]. exfalso. by eapply str_lt_irrefl, Hy.
Qed.

(** ** Maps *)

(** The keys of a map are an ordered set. *)
Lemma bmap_insert_keys {V} k (v : V) m : (bmap_insert k v m).*1 = (bset_insert k (m.*1)).1.
Proof.
  induction m as [|[k' v'] m IH]; cbn; [done|].
  destruct (String.compare k k') eqn:Hc; cbn; [|done|].
  - by apply str_compare_eq in Hc as ->.
  - rewrite IH. by destruct (bset_insert k (m.*1)).
Qed.

Lemma bmap_get_Some {V} k (m : list (string * V)) v :
  strictly_sorted (m.*1) → bmap_get k m = Some v ↔ (k, v) ∈ m.
Proof.
  intros Hs%strictly_sorted_NoDup. induction m as [|[k' v'] m IH]; cbn; [set_solver|].
  cbn in Hs. apply NoDup_cons in Hs as [Hk Hnd]. case_bool_decide as Heq.
  - subst k'. split; [intros [= ->]; left|]. intros [[= ->]|Hin]%elem_of_cons; [done|].
    exfalso. apply Hk. by eapply (list_elem_of_fmap_2' fst) in Hin.
  - rewrite IH by done. split; [by right|]. by intros [[= ? ?]|Hin]%elem_of_cons.
Qed.

Lemma bmap_get_None {V} k (m : list (string * V)) : bmap_get k m = None ↔ k ∉ m.*1.
Proof.
  induction m as [|[k' v'] m IH]; cbn; [set_solver|]. case_bool_decide; [set_solver|].
  rewrite IH. set_solver.
Qed.

Lemma bmap_insert_elem {V} k (v : V) m kv :
  bmap_get k m = None → kv ∈ bmap_insert k v m ↔ kv = (k, v) ∨ kv ∈ m.
Proof.
  induction m as [|[k' v'] m IH]; cbn; [set_solver|]. case_bool_decide as Heq; [done|]. intros Hm.
  destruct (String.compare k k') eqn:Hc; [by apply str_compare_eq in Hc|set_solver|].
  rewrite !elem_of_cons, IH by done. tauto.
Qed.

(** Two maps with the same entries are equal. *)
Lemma bmap_ext {V} (m n : list (string * V)) :
  strictly_sorted (m.*1) → strictly_sorted (n.*1) → (∀ kv, kv ∈ m ↔ kv ∈ n) → m = n.
Proof.
  intros Hm Hn Heq.
  assert (m.*1 = n.*1) as Hk.
  { apply strictly_sorted_ext; [done..|]. intros k. rewrite !list_elem_of_fmap. set_solver. }
  assert (∀ a b : list (string * V), a.*1 = b.*1 → NoDup (a.*1) → (∀ kv, kv ∈ a → kv ∈ b) → a = b) as H.
  { clear. induction a as [|[k v] a IH]; intros [|[k' v'] b] Hk Hnd Hin; try done.
    cbn in *. injection Hk as -> Hk. apply NoDup_cons in Hnd as [Hfresh Hnd].
    assert (v = v') as ->.
    { destruct (proj1 (elem_of_cons _ _ _) (Hin (k', v) ltac:(left))) as [[= ->]|Hv]; [done|].
      exfalso. apply Hfresh. rewrite Hk. by eapply (list_elem_of_fmap_2' fst) in Hv. }
    f_equal. apply IH; [done..|]. intros kv Hkv.
    destruct (proj1 (elem_of_cons _ _ _) (Hin kv ltac:(by right))) as [->|]; [|done].
    exfalso. apply Hfresh. by eapply (list_elem_of_fmap_2' fst) in Hkv. }
  apply H; [done|by apply strictly_sorted_NoDup|]. intros kv. apply Heq.
Qed.
