(* ===== verification/Display.v ===== *)
(** * Text on security-facing surfaces ([crates/a-quo-display/src/lib.rs])

    The rule that rejects characters that can disappear, reorder or split
    nearby text, and the escaping of untrusted bytes for diagnostics. *)

From stdpp Require Import base numbers list strings option.
From Stdlib Require Import Strings.Byte Ascii.
From S2P Require Import Prelude Text.

Definition MAX_ESCAPED_DIAGNOSTIC_INPUT_BYTES : N := 256.

(** Unicode 17.0 [Default_Ignorable_Code_Point]. *)
Definition is_unicode_17_default_ignorable (c : N) : bool :=
  (c =? 0xad)%N || (c =? 0x34f)%N || (c =? 0x61c)%N ||
  in_range 0x115f 0x1160 c || in_range 0x17b4 0x17b5 c || in_range 0x180b 0x180f c ||
  in_range 0x200b 0x200f c || in_range 0x202a 0x202e c || in_range 0x2060 0x206f c ||
  (c =? 0x3164)%N || in_range 0xfe00 0xfe0f c || (c =? 0xfeff)%N || (c =? 0xffa0)%N ||
  in_range 0xfff0 0xfff8 c || in_range 0x1bca0 0x1bca3 c || in_range 0x1d173 0x1d17a c ||
  in_range 0xe0000 0xe0fff c.

Definition is_unsafe_display_character (c : N) : bool :=
  is_control c || ((c =? 0x2028)%N || (c =? 0x2029)%N) || is_unicode_17_default_ignorable c.

Definition contains_unsafe_display_characters (value : string) : bool :=
  existsb is_unsafe_display_character (chars value).

(** The match arm of the escaping loop: printable ASCII is kept, except the
    backslash (0x5c) and the two quotes (0x27, 0x22). *)
Definition is_kept (b : byte) : bool :=
  in_range 0x20 0x7e (byte_val b) &&
  negb ((byte_val b =? 0x5c)%N || (byte_val b =? 0x27)%N || (byte_val b =? 0x22)%N).

Definition escape_byte (b : byte) : string :=
  if is_kept b then String (ascii_of_byte b) EmptyString
  else str_of_chars ["\"%char; "x"%char;
                     hex_digit (N.shiftr (byte_val b) 4); hex_digit (N.land (byte_val b) 0x0f)].

Fixpoint escape_all (bs : bytes) : string :=
  match bs with
  | [] => EmptyString
  | b :: bs' => String.append (escape_byte b) (escape_all bs')
  end.

Definition escape_untrusted_bytes_for_terminal (bs : bytes) : string :=
  let retained := N.min (len bs) MAX_ESCAPED_DIAGNOSTIC_INPUT_BYTES in
  let escaped := escape_all (take (N.to_nat retained) bs) in
  if (retained <? len bs)%N then String.append escaped "..." else escaped.

Definition escape_untrusted_text_for_terminal (value : string) : string :=
  escape_untrusted_bytes_for_terminal (as_bytes value).

(** ** Lemmas *)

(** What a terminal receives: printable ASCII with neither quote. *)
Definition is_terminal_safe (c : ascii) : bool :=
  in_range 0x20 0x7e (ascii_val c) && negb ((ascii_val c =? 0x27)%N || (ascii_val c =? 0x22)%N).

Lemma ascii_of_byte_val b : ascii_val (ascii_of_byte b) = byte_val b.
Proof. by destruct b. Qed.

Lemma escape_byte_safe b : str_all is_terminal_safe (escape_byte b) = true.
Proof. by destruct b. Qed.

Lemma escape_byte_len b : (str_len (escape_byte b) <= 4)%N.
Proof. by destruct b. Qed.

Lemma escape_all_safe bs : str_all is_terminal_safe (escape_all bs) = true.
Proof.
  induction bs as [|b bs IH]; [done|]. cbn [escape_all].
  by rewrite str_all_app, escape_byte_safe, IH.
Qed.

Lemma escape_all_len bs : (str_len (escape_all bs) <= 4 * len bs)%N.
Proof.
  induction bs as [|b bs IH]; [done|]. cbn [escape_all].
  rewrite str_len_app, len_cons. pose proof (escape_byte_len b). lia.
Qed.

(** The reading of an escaped text that inverts the escaping. *)
Definition hex_value (c : ascii) : N :=
  let n := ascii_val c in if (n <? 58)%N then (n - 48)%N else (n - 87)%N.

Fixpoint unescape (s : string) : bytes :=
  match s with
  | EmptyString => []
  | String c s' =>
      if Ascii.eqb c "\" then
        match s' with
        | String _ (String h (String l rest)) =>
            byte_of (hex_value h * 16 + hex_value l)%N :: unescape rest
        | _ => []
        end
      else byte_of_ascii c :: unescape s'
  end.

Lemma unescape_escape_byte b s :
  unescape (String.append (escape_byte b) s) = b :: unescape s.
Proof. by destruct b. Qed.

Lemma unescape_escape_all bs s :
  unescape (String.append (escape_all bs) s) = bs ++ unescape s.
Proof.
  induction bs as [|b bs IH]; [done|]. cbn [escape_all].
  by rewrite <- append_assoc, unescape_escape_byte, IH.
Qed.

Lemma unescape_escape bs :
  unescape (escape_untrusted_bytes_for_terminal bs) =
  take 256 bs ++ (if (256 <? len bs)%N then unescape "..." else []).
Proof.
  unfold escape_untrusted_bytes_for_terminal, MAX_ESCAPED_DIAGNOSTIC_INPUT_BYTES.
  destruct (N.ltb_spec 256 (len bs)) as [H|H].
  - rewrite N.min_r by lia. rewrite (proj2 (N.ltb_lt _ _) H). apply unescape_escape_all.
  - rewrite N.min_l, N.ltb_irrefl by lia.
    rewrite <- (append_nil_r (escape_all _)), unescape_escape_all, !take_ge; [done|..].
    all: unfold len in *; lia.
Qed.

(** ** Theorems *)

(** Whatever bytes are given, the diagnostic that reaches a terminal is at
    most 4 * 256 + 3 characters of printable ASCII without a quote. *)
Theorem escape_untrusted_bytes_safe bs :
  (str_len (escape_untrusted_bytes_for_terminal bs) <= 4 * 256 + 3)%N ∧
  str_all is_terminal_safe (escape_untrusted_bytes_for_terminal bs) = true.
Proof.
  unfold escape_untrusted_bytes_for_terminal, MAX_ESCAPED_DIAGNOSTIC_INPUT_BYTES.
  pose proof (escape_all_len (take (N.to_nat (N.min (len bs) 256)) bs)) as Hlen.
  assert (len (take (N.to_nat (N.min (len bs) 256)) bs) <= 256)%N.
  { unfold len. rewrite length_take. lia. }
  case_match; rewrite ?str_len_app, ?str_all_app, escape_all_safe;
    change (str_len "...") with 3%N; split; try done; lia.
Qed.

(** The escaping loses nothing below its bound: two inputs with the same
    diagnostic agree on their first 256 bytes, and both or neither are cut. *)
Theorem escape_untrusted_bytes_injective bs cs :
  escape_untrusted_bytes_for_terminal bs = escape_untrusted_bytes_for_terminal cs →
  take 256 bs = take 256 cs ∧ ((len bs <= 256)%N ↔ (len cs <= 256)%N).
Proof.
  intros H%(f_equal unescape). rewrite !unescape_escape in H.
  pose proof (f_equal length H) as Hl. rewrite !length_app, !length_take in Hl.
  unfold len in *.
  destruct (N.ltb_spec 256 (N.of_nat (length bs))), (N.ltb_spec 256 (N.of_nat (length cs)));
    change (length (unescape "...")) with 3 in Hl; cbn [length] in Hl; try lia.
  - apply (app_inj_2 _ _ _ _ eq_refl) in H as [H _]. split; [done|lia].
  - rewrite !app_nil_r in H. split; [done|lia].
Qed.

(** Two inputs that differ only after the retained prefix. *)
Lemma escape_untrusted_bytes_injective_witness :
  let a := repeat x0a 256 ++ [x41] in
  let b := repeat x0a 256 ++ [x42; x43] in
  escape_untrusted_bytes_for_terminal a = escape_untrusted_bytes_for_terminal b ∧
  take 256 a = take 256 b ∧ ((len a <= 256)%N ↔ (len b <= 256)%N).
Proof.
  intros a b. split; [reflexivity|].
  apply (escape_untrusted_bytes_injective a b). reflexivity.
Defined.
