(* ===== verification/Crates.v ===== *)
(** * Code outside the repository

    The third-party crates and operating-system services the A Quo crates
    call, as operations of type classes: every definition that uses one takes
    it as an argument. [Crates] holds the operations of [base64], [sha2] and
    [ssh-key]; [Serde] the JSON readers and writers of one type ([serde_json],
    [serde_json_canonicalizer]). [CratesOk] and [SerdeOk] state the documented
    behaviour that some theorems rely on; [Instances.v] has an instance of each. *)

From stdpp Require Import base numbers list strings option.
From Stdlib Require Import Strings.Byte.
From S2P Require Import Prelude Text.

(** A [Result] of foreign code, which is assumed not to panic. *)
Definition of_sum {E A} (x : E + A) : result E A :=
  match x with inl e => Err e | inr a => Ok a end.

(** ** [ssh-key] *)

(** [ssh_key::public::KeyData]. The integers of an RSA key are what
    [Mpint::as_positive_bytes] gives: [None] for a negative one. *)
Inductive KeyData :=
| Ed25519
| Ecdsa
| SkEcdsaSha2NistP256
| SkEd25519
| Rsa (n e : option bytes)
| OtherKeyData.

(** [ssh_key::Algorithm], as far as the code matches on it. *)
Inductive Algorithm :=
| AlgorithmRsa (hash : option string)
| AlgorithmOther.

Definition is_rsa (k : KeyData) : bool := match k with Rsa _ _ => true | _ => false end.

(** ** Operations *)

Class Crates := {
  URL_SAFE_NO_PAD_encode : bytes → string;
  URL_SAFE_NO_PAD_decode : string → string + bytes;
  STANDARD_encode : bytes → string;
  STANDARD_decode : string → string + bytes;
  STANDARD_NO_PAD_encode : bytes → string;
  STANDARD_NO_PAD_decode : string → string + bytes;
  Sha256_digest : bytes → bytes;
  SshPublicKey : Type;
  SshSig : Type;
  PublicKey_from_openssh : string → option SshPublicKey;
  key_data : SshPublicKey → KeyData;
  SshSig_parse : string → option SshSig;
  SshSig_algorithm : SshSig → Algorithm;
  PublicKey_verify : SshPublicKey → string → bytes → SshSig → bool;
}.

(** What the engines and the hash document. *)
Class CratesOk `{!Crates} := {
  url_safe_round_trip bs : URL_SAFE_NO_PAD_decode (URL_SAFE_NO_PAD_encode bs) = inr bs;
  url_safe_length bs : (str_len (URL_SAFE_NO_PAD_encode bs) <= 2 * len bs)%N;
  standard_no_pad_round_trip bs :
    STANDARD_NO_PAD_decode (STANDARD_NO_PAD_encode bs) = inr bs;
  sha256_length bs : len (Sha256_digest bs) = 32%N;
}.

(** ** JSON *)

Inductive JsonCategory := JsonIo | JsonSyntax | JsonData | JsonEof.

Record JsonError := { je_category : JsonCategory; je_line : N; je_column : N }.

Class Serde (T : Type) := {
  json_to_vec : T → JsonError + bytes;
  jcs_to_vec : T → JsonError + bytes;
  json_from_slice : bytes → JsonError + T;
}.

(** [serde_json::to_vec_pretty] *)
Class SerdePretty (T : Type) := { json_to_vec_pretty : T → JsonError + bytes }.

(** Reading back what was written, for the values [ok] holds of (RFC 8785
    writes an integer exactly only within the range of an IEEE double). *)
Class SerdeOk (T : Type) `{!Serde T} (ok : T → Prop) := {
  jcs_round_trip x bs : ok x → jcs_to_vec x = inr bs → json_from_slice bs = inr x;
  json_round_trip x bs : ok x → json_to_vec x = inr bs → json_from_slice bs = inr x;
}.

#[export] Instance JsonCategory_eq_dec : EqDecision JsonCategory.
Proof. solve_decision. Defined.
#[export] Instance JsonError_eq_dec : EqDecision JsonError.
Proof. solve_decision. Defined.

(** ** The file system and the signer process *)

(** [std::fs::Metadata] of a path on Unix. *)
Record Metadata := {
  md_is_symlink : bool;
  md_is_file : bool;
  md_is_dir : bool;
  md_is_socket : bool;
  md_len : N;
  md_readonly : bool;
  md_modified : string + Z;
  md_dev : N;
  md_ino : N;
  md_uid : N;
  md_mode : N;
  md_mtime : Z;
  md_mtime_nsec : Z;
  md_ctime : Z;
  md_ctime_nsec : Z;
}.

(** One state of the file system; an error carries its [io::Error] text. *)
Record Fs := {
  symlink_metadata : string → string + Metadata;
  metadata : string → string + Metadata;
  canonicalize : string → string + string;
  fs_read : string → string + bytes;
}.

(** What [Child::try_wait] answers at one poll. *)
Inductive TryWait :=
| Exited
| Running
| TryWaitError (e : string).

(** [std::process::Output] *)
Record Output := { out_success : bool; out_status : string; out_stdout : bytes }.

(** A spawned child: its standard input, the result of writing to it, the
    answers to the successive polls and the result of [wait_with_output]. *)
Record Child := {
  ch_stdin : bool;
  ch_write_all : option string;
  ch_try_wait : nat → TryWait;
  ch_wait_with_output : string + Output;
}.

(** Starting [ssh-keygen]: the metadata of its executable, the child that a
    command line gives when it is fed some input, and the instants (in
    milliseconds) read at the start of the wait and at each poll. *)
Class SshKeygen := {
  keygen_metadata : string + Metadata;
  keygen_spawn : list string → bytes → string + Child;
  instant_start : N;
  instant_at : nat → N;
}.

(** [thread::sleep(20 ms)] separates two polls of a monotonic clock. *)
Class ClockOk `{!SshKeygen} := {
  clock_first : (instant_start <= instant_at 0)%N;
  clock_sleeps i : (instant_at i + 20 <= instant_at (S i))%N;
}.

Lemma of_sum_Ok {E A} (x : E + A) a : of_sum x = Ok a ↔ x = inr a.
Proof. destruct x; cbn; naive_solver. Qed.

#[export] Hint Rewrite @of_sum_Ok : ok.

Lemma no_panic_of_sum {E A} (x : E + A) : no_panic (of_sum x).
Proof. by destruct x. Qed.

#[export] Hint Resolve no_panic_of_sum : panics.
