(* ===== verification/ArtifactProof.v ===== *)
(** * Portable artifact proofs ([crates/a-quo-core/src/lib.rs])

    Errors, bounded JSON, public keys and fingerprints, SSHSIG signing and
    verification, artifact statements and proof bundles, and the live signer
    binding. Everything later in the development uses the validators, the
    digests and the signature check defined here. *)

From stdpp Require Import base numbers list strings pretty option.
From Stdlib Require Import Strings.Byte Ascii.
From S2P Require Import Prelude Text Ordered Display Crates.

(** ** Constants *)

Definition PROOF_SCHEMA : string := "urn:a-quo:proof:sshsig:v1".
Definition STATEMENT_SCHEMA : string := "urn:a-quo:statement:artifact:v1".
Definition SSHSIG_NAMESPACE : string := "a-quo-artifact-v1".
Definition LIVE_SIGNER_BINDING_NAMESPACE : string := "a-quo-live-signer-binding-v1".
Definition SIGNER_TIMEOUT_SECONDS : N := 120.
Definition MAX_PROOF_BYTES : N := 1048576.
Definition MIN_SSHSIG_RSA_BITS : N := 2048.
Definition MAX_SSHSIG_RSA_BITS : N := 4096.
Definition MAX_SSHSIG_RSA_EXPONENT_BITS : N := 32.
Definition MAX_PUBLIC_KEY_BYTES : N := 16384.
Definition MAX_PERSONA_BYTES : N := 256.
Definition SSH_KEYGEN : string := "/usr/bin/ssh-keygen".

(** ** Errors *)

Inductive ProofError :=
| Io (path source : string)
| Json (e : JsonError)
| Unsupported (field value : string)
| InvalidPublicKey (reason : string)
| InvalidPersona (reason : string)
| InvalidDomain (reason : string)
| InvalidDomainChallenge (reason : string)
| InvalidDomainValidity (reason : string)
| DomainProofNotYetValid (now issued_at : Z)
| DomainProofExpired (now expires_at : Z)
| EntropyUnavailable
| InvalidEncoding (reason : string)
| ArtifactMismatch
| FingerprintMismatch
| DomainPersonaMismatch
| NonCanonicalDomainStatement
| InvalidContinuityAnchor (reason : string)
| InvalidContinuityStatement (reason : string)
| InvalidContinuityProof (reason : string)
| NonCanonicalContinuityStatement
| ContinuityChainMismatch (reason : string)
| SignerUnavailable (source : string)
| UnsafeSigner (path : string)
| SignerFailed (operation status : string)
| SignerTimedOut (operation : string)
| NonUtf8Signature
| SignatureVerificationFailed
| InvalidLiveSignerLocator
| LiveSignerLocatorChanged
| LiveSignerBindingMismatch
| ProofTooLarge
| ProofAlreadyExists (path : string).

Abbreviation Result := (result ProofError).

#[export] Instance ProofError_eq_dec : EqDecision ProofError.
Proof. solve_decision. Defined.

(** ** Data *)

Record Digest := { dg_algorithm : string; dg_value : string }.
Record ArtifactDescriptor := { ad_digest : Digest; ad_size : N }.
Record SignerClaim := { sc_persona : string; sc_key_fingerprint : string }.
Record ArtifactStatement := {
  as_schema : string;
  as_artifact : ArtifactDescriptor;
  as_signer : SignerClaim;
}.
Record SignatureEnvelope := { se_format : string; se_namespace : string; se_value : string }.
Record VerificationMaterial := { vm_format : string; vm_public_key : string }.
Record ProofBundle := {
  pb_schema : string;
  pb_payload : string;
  pb_signature : SignatureEnvelope;
  pb_verification_material : VerificationMaterial;
}.
Inductive EvidenceStatus := Verified.
Record VerifiedSigner := {
  vs_persona : string;
  vs_key_fingerprint : string;
  vs_identity_binding : string;
}.
Record VerificationReport := {
  vr_artifact_integrity : EvidenceStatus;
  vr_signature : EvidenceStatus;
  vr_signer : VerifiedSigner;
  vr_not_established : list string;
}.
Inductive LiveSignerBindingProvider := OpensshFile | SshAgent | Fido2.
Record LiveSignerLocatorIdentity := {
  li_length : N;
  li_readonly : bool;
  li_modified : Z;
  li_device : N;
  li_inode : N;
  li_owner : N;
  li_mode : N;
  li_change_time_seconds : Z;
  li_change_time_nanoseconds : Z;
}.
Record VerifiedLiveSignerBinding := {
  lb_provider : LiveSignerBindingProvider;
  lb_canonical_locator : string;
  lb_normalized_public_key : string;
  lb_public_key_fingerprint : string;
  lb_locator_identity : LiveSignerLocatorIdentity;
}.

#[export] Instance Digest_eq_dec : EqDecision Digest.
Proof. solve_decision. Defined.
#[export] Instance ArtifactDescriptor_eq_dec : EqDecision ArtifactDescriptor.
Proof. solve_decision. Defined.
#[export] Instance LiveSignerBindingProvider_eq_dec : EqDecision LiveSignerBindingProvider.
Proof. solve_decision. Defined.
#[export] Instance LiveSignerLocatorIdentity_eq_dec : EqDecision LiveSignerLocatorIdentity.
Proof. solve_decision. Defined.

Definition provider_as_str (p : LiveSignerBindingProvider) : string :=
  match p with
  | OpensshFile => "openssh-file"
  | SshAgent => "ssh-agent"
  | Fido2 => "fido2"
  end.

(** ** Bounded JSON *)

(** The size check precedes the parser; the diagnostic carries only the
    category and the position of the failure. *)
Definition parse_bounded_json {T} `{!Serde T} (bs : bytes) (maximum : N) (description : string) :
    result string T :=
  if (maximum <? len bs)%N then Err (description +:+ " exceeds " +:+ pretty maximum +:+ " bytes")
  else map_err (λ error,
    let category :=
      match je_category error with
      | JsonIo => "I/O"
      | JsonSyntax => "syntax"
      | JsonData => "data"
      | JsonEof => "end-of-input"
      end in
    "invalid " +:+ description +:+ " JSON (" +:+ category +:+ ") at line " +:+
    pretty (je_line error) +:+ ", column " +:+ pretty (je_column error))
    (of_sum (json_from_slice bs)).

Section artifact.
Context {crates : Crates}.

(** ** Public keys *)

(** [u32::from_be_bytes([b[0], b[1], b[2], b[3]])] as [usize] *)
Definition blob_algorithm_len (blob : bytes) : N := from_be_bytes (take 4 blob).

Definition normalize_public_key (public_key : string) : Result string :=
  reject_if (MAX_PUBLIC_KEY_BYTES <? str_len public_key)%N
    (InvalidPublicKey ("key exceeds " +:+ pretty MAX_PUBLIC_KEY_BYTES +:+ " bytes"));;
  let fields := split_whitespace public_key in
  algorithm ← ok_or (fields !! 0) (InvalidPublicKey "missing algorithm");
  encoded ← ok_or (fields !! 1) (InvalidPublicKey "missing key data");
  blob ← map_err InvalidPublicKey (of_sum (STANDARD_decode encoded));
  reject_if (len blob <? 4)%N (InvalidPublicKey "truncated OpenSSH key blob");;
  algorithm_end ← ok_or (checked_add_usize 4 (blob_algorithm_len blob))
    (InvalidPublicKey "invalid algorithm length");
  encoded_algorithm ←
    ok_or (if (algorithm_end <=? len blob)%N
           then Some (take (N.to_nat (algorithm_end - 4)) (drop 4 blob)) else None)
      (InvalidPublicKey "truncated algorithm name");
  reject_if (encoded_algorithm != as_bytes algorithm)
    (InvalidPublicKey "algorithm label does not match the key blob");;
  Ok (algorithm +:+ " " +:+ encoded).

Definition public_key_fingerprint (public_key : string) : Result string :=
  normalized ← normalize_public_key public_key;
  let fields := split_whitespace normalized in
  _algorithm ← ok_or (fields !! 0) (InvalidPublicKey "missing algorithm");
  encoded ← ok_or (fields !! 1) (InvalidPublicKey "missing key data");
  key_blob ← map_err InvalidPublicKey (of_sum (STANDARD_decode encoded));
  Ok ("SHA256:" +:+ STANDARD_NO_PAD_encode (Sha256_digest key_blob)).

Definition validate_key_fingerprint (fingerprint : string) : Result unit :=
  encoded ← ok_or (strip_prefix "SHA256:" fingerprint)
    (InvalidPublicKey "fingerprint must use canonical OpenSSH SHA256 form");
  digest ← map_err (λ _, InvalidPublicKey "fingerprint digest must use canonical unpadded Base64")
    (of_sum (STANDARD_NO_PAD_decode encoded));
  reject_if (negb (len digest =? 32)%N || (STANDARD_NO_PAD_encode digest != encoded))
    (InvalidPublicKey "fingerprint must encode exactly one 32-byte SHA-256 digest").

Definition read_public_key (fs : Fs) (path : string) : Result string :=
  md ← map_err (Io path) (of_sum (metadata fs path));
  reject_if (MAX_PUBLIC_KEY_BYTES <? md_len md)%N
    (InvalidPublicKey ("file exceeds " +:+ pretty MAX_PUBLIC_KEY_BYTES +:+ " bytes"));;
  raw ← map_err (Io path) (of_sum (fs_read fs path));
  key ← ok_or (from_utf8 raw) (Io path "stream did not contain valid UTF-8");
  normalize_public_key key.

(** ** The SSHSIG verification profile *)

(** [position] of the first non-zero byte and the slice from there. *)
Fixpoint skip_zeros (bs : bytes) : bytes :=
  match bs with
  | b :: bs' => if (byte_val b =? 0)%N then skip_zeros bs' else bs
  | [] => []
  end.

(** [u8::BITS - leading_zeros()] *)
Definition byte_bit_length (b : byte) : N := N.size (byte_val b).

Definition positive_integer_bit_length (o : option bytes) : option N :=
  match o with
  | None => None
  | Some bs =>
      match skip_zeros bs with
      | [] => None
      | b :: rest => Some (len rest * 8 + byte_bit_length b)%N
      end
  end.

(** The [u64] fold [(value << 8) | byte]: the shift drops what leaves 64 bits. *)
Definition exponent_value (bs : bytes) : N :=
  foldl (λ value b, N.lor (N.shiftl value 8 `mod` 2 ^ 64) (byte_val b)) 0%N bs.

Definition rsa_profile_error : ProofError :=
  InvalidPublicKey ("RSA keys require a " +:+ pretty MIN_SSHSIG_RSA_BITS +:+ "..=" +:+
    pretty MAX_SSHSIG_RSA_BITS +:+ "-bit modulus and a small odd public exponent").

Definition require_supported_key_data (k : KeyData) : Result unit :=
  match k with
  | Ed25519 | Ecdsa | SkEcdsaSha2NistP256 | SkEd25519 => Ok tt
  | Rsa n e =>
      modulus_bits ← ok_or (positive_integer_bit_length n)
        (InvalidPublicKey "RSA modulus must be positive");
      exponent_bytes ← ok_or e (InvalidPublicKey "RSA exponent must be positive");
      exponent_bits ← ok_or (positive_integer_bit_length (Some exponent_bytes))
        (InvalidPublicKey "RSA exponent must not be zero");
      reject_if (negb ((MIN_SSHSIG_RSA_BITS <=? modulus_bits) &&
                       (modulus_bits <=? MAX_SSHSIG_RSA_BITS))%N ||
                 (MAX_SSHSIG_RSA_EXPONENT_BITS <? exponent_bits)%N)
        rsa_profile_error;;
      let exponent := exponent_value exponent_bytes in
      reject_if ((exponent <? 3)%N || (exponent `mod` 2 =? 0)%N) rsa_profile_error
  | OtherKeyData => Err (InvalidPublicKey "algorithm is outside A Quo's SSHSIG verification profile")
  end.

Definition require_supported_sshsig_key (public_key : SshPublicKey) : Result unit :=
  require_supported_key_data (key_data public_key).

Definition sshsig_verify (payload : bytes) (signature public_key namespace : string) :
    Result unit :=
  public_key ← ok_or (PublicKey_from_openssh public_key)
    (InvalidPublicKey "unsupported or malformed OpenSSH public-key encoding");
  require_supported_sshsig_key public_key;;
  signature ← ok_or (SshSig_parse signature) SignatureVerificationFailed;
  reject_if (is_rsa (key_data public_key) &&
             negb (match SshSig_algorithm signature with
                   | AlgorithmRsa (Some _) => true | _ => false end))
    SignatureVerificationFailed;;
  reject_if (negb (PublicKey_verify public_key namespace payload signature))
    SignatureVerificationFailed.

(** ** Running the signer *)

(** How a spawned child was left: waited for, or killed and waited for. *)
Inductive ChildEnd := Reaped | Terminated.

Section signer.
Context {keygen : SshKeygen}.

(** The execute bits [0o111] and the group and other write bits [0o022]. *)
Definition validate_ssh_keygen_permissions (path : string) (md : Metadata) : Result unit :=
  reject_if ((N.land (md_mode md) 0x49 =? 0)%N || negb (N.land (md_mode md) 0x12 =? 0)%N ||
             negb ((md_uid md =? 0)%N || (md_uid md =? 65534)%N))
    (UnsafeSigner path).

Definition validate_ssh_keygen : Result unit :=
  md ← map_err (λ _, UnsafeSigner SSH_KEYGEN) (of_sum keygen_metadata);
  reject_if (md_is_symlink md || negb (md_is_file md)) (UnsafeSigner SSH_KEYGEN);;
  validate_ssh_keygen_permissions SSH_KEYGEN md.

Definition write_signer_input (child : Child) (operation : string) :
    Result unit * option ChildEnd :=
  if negb (ch_stdin child) then
    (Err (SignerUnavailable ("ssh-keygen " +:+ operation +:+ " stdin was unavailable")),
     Some Terminated)
  else match ch_write_all child with
  | Some error => (Err (SignerUnavailable error), Some Terminated)
  | None => (Ok tt, None)
  end.

(** The polls of [wait_with_output_deadline], from poll [i] on; [None] when
    [fuel] polls were not enough. *)
Fixpoint wait_polls (child : Child) (operation : string) (deadline : N) (i fuel : nat) :
    option (Result Output * ChildEnd) :=
  match fuel with
  | O => None
  | S fuel' =>
      match ch_try_wait child i with
      | Exited => Some (map_err SignerUnavailable (of_sum (ch_wait_with_output child)), Reaped)
      | TryWaitError error => Some (Err (SignerUnavailable error), Terminated)
      | Running =>
          if (deadline <=? instant_at i)%N then Some (Err (SignerTimedOut operation), Terminated)
          else wait_polls child operation deadline (S i) fuel'
      end
  end.

(** The deadline in milliseconds divided by the sleep between two polls, and
    the first poll. *)
Definition MAX_POLLS : nat := N.to_nat (SIGNER_TIMEOUT_SECONDS * 1000 / 20 + 1).

Definition wait_with_output_deadline (child : Child) (operation : string) :
    Result Output * option ChildEnd :=
  let deadline := (instant_start + SIGNER_TIMEOUT_SECONDS * 1000)%N in
  match wait_polls child operation deadline 0 MAX_POLLS with
  | Some (r, e) => (r, Some e)
  | None => (Panic "the wait did not end", None)
  end.

(** The whole run: the signature or the error, and how the child was left
    ([None] when no child was spawned). *)
Definition sshsig_sign_run (payload : bytes) (private_key_path namespace : string) :
    Result string * option ChildEnd :=
  match validate_ssh_keygen with
  | Err e => (Err e, None)
  | Panic p => (Panic p, None)
  | Ok _ =>
      match keygen_spawn ["-Y"; "sign"; "-f"; private_key_path; "-n"; namespace; "-"] payload with
      | inl e => (Err (SignerUnavailable e), None)
      | inr child =>
          match write_signer_input child "signing" with
          | (Ok _, _) =>
              let '(waited, ended) := wait_with_output_deadline child "signing" in
              (output ← waited;
               reject_if (negb (out_success output)) (SignerFailed "signing" (out_status output));;
               ok_or (from_utf8 (out_stdout output)) NonUtf8Signature, ended)
          | (Err e, ended) => (Err e, ended)
          | (Panic p, ended) => (Panic p, ended)
          end
      end
  end.

Definition sshsig_sign (payload : bytes) (private_key_path namespace : string) : Result string :=
  (sshsig_sign_run payload private_key_path namespace).1.

End signer.

(** ** Statements and envelopes *)

Definition require_value (field actual expected : string) : Result unit :=
  reject_if (actual != expected) (Unsupported field (escape_untrusted_text_for_terminal actual)).

(** [value.len() == 64] and every byte lower-case hexadecimal *)
Definition is_sha256_hex (value : string) : bool :=
  (str_len value =? 64)%N && str_all is_lower_hex value.

Definition validate_artifact_descriptor (descriptor : ArtifactDescriptor) : Result unit :=
  require_value "digest algorithm" (dg_algorithm (ad_digest descriptor)) "sha256";;
  reject_if (negb (str_len (dg_value (ad_digest descriptor)) =? 64)%N ||
             negb (str_all is_lower_hex (dg_value (ad_digest descriptor))))
    (InvalidEncoding "SHA-256 digest must be 64 lowercase hexadecimal characters").

Definition validate_persona (persona : string) : Result string :=
  reject_if (persona == "") (InvalidPersona "it cannot be empty");;
  reject_if (trim persona != persona)
    (InvalidPersona "leading and trailing whitespace are not allowed");;
  reject_if (MAX_PERSONA_BYTES <? str_len persona)%N
    (InvalidPersona ("it cannot exceed " +:+ pretty MAX_PERSONA_BYTES +:+ " UTF-8 bytes"));;
  reject_if (contains_unsafe_display_characters persona)
    (InvalidPersona "control, line/paragraph separator, or default-ignorable Unicode characters are not allowed");;
  Ok persona.

Definition validate_statement (statement : ArtifactStatement) : Result unit :=
  require_value "statement schema" (as_schema statement) STATEMENT_SCHEMA;;
  validate_artifact_descriptor (as_artifact statement);;
  _ ← validate_persona (sc_persona (as_signer statement));
  validate_key_fingerprint (sc_key_fingerprint (as_signer statement)).

Definition validate_envelope (proof : ProofBundle) (namespace : string) : Result unit :=
  require_value "proof schema" (pb_schema proof) PROOF_SCHEMA;;
  require_value "signature format" (se_format (pb_signature proof)) "sshsig";;
  require_value "signature namespace" (se_namespace (pb_signature proof)) namespace;;
  require_value "verification material format"
    (vm_format (pb_verification_material proof)) "openssh-public-key".

Definition decode_payload (payload : string) : Result bytes :=
  reject_if (MAX_PROOF_BYTES <? str_len payload)%N ProofTooLarge;;
  map_err InvalidEncoding (of_sum (URL_SAFE_NO_PAD_decode payload)).

Definition decode_sshsig_payload (proof : ProofBundle) (namespace : string) :
    Result (bytes * string) :=
  validate_envelope proof namespace;;
  payload ← decode_payload (pb_payload proof);
  public_key ← normalize_public_key (vm_public_key (pb_verification_material proof));
  Ok (payload, public_key).

(** ** Hashing an artifact *)

(** The loop of [describe_reader]: what each [read] gives, the bytes hashed so
    far and the size counted so far. A [Sha256] is the bytes it was fed. *)
Fixpoint read_chunks (source : string) (reads : list (string + bytes)) (hashed : bytes) (size : N) :
    Result (bytes * N) :=
  match reads with
  | [] => Ok (hashed, size)
  | inl e :: _ => Err (Io source e)
  | inr chunk :: reads' =>
      if (len chunk =? 0)%N then Ok (hashed, size)
      else
        size' ← ok_or (checked_add_u64 size (len chunk)) ArtifactMismatch;
        read_chunks source reads' (hashed ++ chunk) size'
  end.

Definition descriptor_of (hashed : bytes) (size : N) : ArtifactDescriptor :=
  {| ad_digest := {| dg_algorithm := "sha256"; dg_value := lower_hex (Sha256_digest hashed) |};
     ad_size := size |}.

Definition describe_reader (reads : list (string + bytes)) (source : string) :
    Result ArtifactDescriptor :=
  '(hashed, size) ← read_chunks source reads [] 0;
  Ok (descriptor_of hashed size).

(** The loop of [describe_open_artifact]: positional reads at the size counted
    so far. [pread off] is what [read_at] gives at offset [off]. *)
Fixpoint pread_chunks (pread : N → string + bytes) (hashed : bytes) (size : N) (fuel : nat) :
    option (Result (bytes * N)) :=
  match fuel with
  | O => None
  | S fuel' =>
      match pread size with
      | inl e => Some (Err (Io "<open artifact>" e))
      | inr chunk =>
          if (len chunk =? 0)%N then Some (Ok (hashed, size))
          else match checked_add_u64 size (len chunk) with
          | None => Some (Err ArtifactMismatch)
          | Some size' => pread_chunks pread (hashed ++ chunk) size' fuel'
          end
      end
  end.

Definition describe_open_artifact (pread : N → string + bytes) (fuel : nat) :
    option (Result ArtifactDescriptor) :=
  (λ r, '(hashed, size) ← r; Ok (descriptor_of hashed size)) <$> pread_chunks pread [] 0 fuel.

(** ** Creating and verifying an artifact proof *)

Section proofs.
Context {keygen : SshKeygen} {json_statement : Serde ArtifactStatement}
  {json_bundle : Serde ProofBundle}.

Definition create_sshsig_payload_proof (payload : bytes) (private_key_path public_key namespace : string) :
    Result ProofBundle :=
  reject_if (MAX_PROOF_BYTES <? len payload)%N ProofTooLarge;;
  public_key ← normalize_public_key public_key;
  signature ← sshsig_sign payload private_key_path namespace;
  sshsig_verify payload signature public_key namespace;;
  Ok {| pb_schema := PROOF_SCHEMA;
        pb_payload := URL_SAFE_NO_PAD_encode payload;
        pb_signature := {| se_format := "sshsig"; se_namespace := namespace; se_value := signature |};
        pb_verification_material :=
          {| vm_format := "openssh-public-key"; vm_public_key := public_key |} |}.

Definition create_sshsig_proof_for_descriptor (artifact : ArtifactDescriptor)
    (private_key_path public_key persona : string) : Result ProofBundle :=
  persona ← validate_persona persona;
  validate_artifact_descriptor artifact;;
  public_key ← normalize_public_key public_key;
  key_fingerprint ← public_key_fingerprint public_key;
  let statement :=
    {| as_schema := STATEMENT_SCHEMA;
       as_artifact := artifact;
       as_signer := {| sc_persona := persona; sc_key_fingerprint := key_fingerprint |} |} in
  payload ← map_err Json (of_sum (json_to_vec statement));
  create_sshsig_payload_proof payload private_key_path public_key SSHSIG_NAMESPACE.

Definition verify_sshsig_proof_for_descriptor (descriptor : ArtifactDescriptor) (proof : ProofBundle) :
    Result VerificationReport :=
  '(payload, public_key) ← decode_sshsig_payload proof SSHSIG_NAMESPACE;
  statement ← map_err Json (of_sum (json_from_slice (T:=ArtifactStatement) payload));
  validate_statement statement;;
  validate_artifact_descriptor descriptor;;
  reject_if (descriptor != as_artifact statement) ArtifactMismatch;;
  fingerprint ← public_key_fingerprint public_key;
  reject_if (fingerprint != sc_key_fingerprint (as_signer statement)) FingerprintMismatch;;
  sshsig_verify payload (se_value (pb_signature proof)) public_key SSHSIG_NAMESPACE;;
  Ok {| vr_artifact_integrity := Verified;
        vr_signature := Verified;
        vr_signer :=
          {| vs_persona := sc_persona (as_signer statement);
             vs_key_fingerprint := sc_key_fingerprint (as_signer statement);
             vs_identity_binding := "self_asserted" |};
        vr_not_established :=
          ["legal_identity"; "current_authorization"; "non_revocation"; "trusted_timestamp";
           "build_provenance"; "independent_review"; "runtime_safety"] |}.

Definition inspect_proof (proof : ProofBundle) : Result ArtifactStatement :=
  validate_envelope proof SSHSIG_NAMESPACE;;
  payload ← decode_payload (pb_payload proof);
  statement ← map_err Json (of_sum (json_from_slice payload));
  validate_statement statement;;
  Ok statement.

(** [describe_artifact] on the opened file, or the error of opening it. *)
Definition describe_artifact (opened : string + list (string + bytes)) (path : string) :
    Result ArtifactDescriptor :=
  reads ← map_err (Io path) (of_sum opened);
  describe_reader reads path.

Definition create_sshsig_proof (opened : string + list (string + bytes)) (fs : Fs)
    (artifact_path private_key_path public_key_path persona : string) : Result ProofBundle :=
  artifact ← describe_artifact opened artifact_path;
  public_key ← read_public_key fs public_key_path;
  create_sshsig_proof_for_descriptor artifact private_key_path public_key persona.

Definition verify_sshsig_proof (opened : string + list (string + bytes)) (artifact_path : string)
    (proof : ProofBundle) : Result VerificationReport :=
  descriptor ← describe_artifact opened artifact_path;
  verify_sshsig_proof_for_descriptor descriptor proof.

Definition load_proof (fs : Fs) (path : string) : Result ProofBundle :=
  md ← map_err (Io path) (of_sum (metadata fs path));
  reject_if (MAX_PROOF_BYTES <? md_len md)%N ProofTooLarge;;
  bs ← map_err (Io path) (of_sum (fs_read fs path));
  map_err Json (of_sum (json_from_slice bs)).

End proofs.

Definition default_proof_path (artifact_path : string) : string :=
  artifact_path +:+ ".a-quo-proof.json".

(** ** The live signer binding *)

Definition live_signer_locator_snapshot (fs : Fs) (path : string) :
    Result (string * LiveSignerLocatorIdentity) :=
  entry ← map_err (Io path) (of_sum (symlink_metadata fs path));
  reject_if (md_is_symlink entry || negb (md_is_file entry)) InvalidLiveSignerLocator;;
  canonical ← map_err (Io path) (of_sum (canonicalize fs path));
  reject_if (negb (path_eqb canonical path)) InvalidLiveSignerLocator;;
  md ← map_err (Io canonical) (of_sum (symlink_metadata fs canonical));
  reject_if (md_is_symlink md || negb (md_is_file md)) InvalidLiveSignerLocator;;
  modified ← map_err (Io canonical) (of_sum (md_modified md));
  Ok (canonical,
      {| li_length := md_len md;
         li_readonly := md_readonly md;
         li_modified := modified;
         li_device := md_dev md;
         li_inode := md_ino md;
         li_owner := md_uid md;
         li_mode := md_mode md;
         li_change_time_seconds := md_ctime md;
         li_change_time_nanoseconds := md_ctime_nsec md |}).

(** One field of the challenge: its length as four big-endian bytes, then itself. *)
Definition length_prefixed (field : bytes) : Result bytes :=
  length ← ok_or (u32_try_from (len field)) InvalidLiveSignerLocator;
  Ok (to_be_bytes 4 length ++ field).

Definition challenge_fields (provider : LiveSignerBindingProvider)
    (locator normalized_public_key fingerprint : string) (nonce : bytes) : list bytes :=
  [as_bytes "a-quo-live-signer-binding-challenge-v1"; as_bytes (provider_as_str provider);
   as_bytes locator; as_bytes normalized_public_key; as_bytes fingerprint; nonce].

Definition live_signer_binding_challenge (provider : LiveSignerBindingProvider)
    (canonical_locator normalized_public_key fingerprint : string) (nonce : bytes) : Result bytes :=
  reject_if (negb (utf8_valid canonical_locator)) InvalidLiveSignerLocator;;
  fold_result (λ challenge field, encoded ← length_prefixed field; Ok (challenge ++ encoded)) []
    (challenge_fields provider canonical_locator normalized_public_key fingerprint nonce).

(** [fs_before] and [fs_after] are the file-system states the two snapshots
    read, [nonce] what [getrandom::fill] gave. *)
Definition prove_live_signer_binding `{!SshKeygen} (fs_before fs_after : Fs) (nonce : option bytes)
    (locator expected_public_key : string) (provider : LiveSignerBindingProvider) :
    Result VerifiedLiveSignerBinding :=
  normalized_public_key ← normalize_public_key expected_public_key;
  fingerprint ← public_key_fingerprint normalized_public_key;
  '(canonical_locator, locator_identity) ← live_signer_locator_snapshot fs_before locator;
  nonce ← ok_or nonce EntropyUnavailable;
  challenge ←
    live_signer_binding_challenge provider canonical_locator normalized_public_key fingerprint nonce;
  signature ← sshsig_sign challenge canonical_locator LIVE_SIGNER_BINDING_NAMESPACE;
  sshsig_verify challenge signature normalized_public_key LIVE_SIGNER_BINDING_NAMESPACE;;
  '(post_sign_locator, post_sign_identity) ← live_signer_locator_snapshot fs_after canonical_locator;
  reject_if (negb (path_eqb post_sign_locator canonical_locator) ||
             (post_sign_identity != locator_identity)) LiveSignerLocatorChanged;;
  Ok {| lb_provider := provider;
        lb_canonical_locator := canonical_locator;
        lb_normalized_public_key := normalized_public_key;
        lb_public_key_fingerprint := fingerprint;
        lb_locator_identity := locator_identity |}.

Definition validate_verified_live_signer_binding (fs : Fs) (receipt : VerifiedLiveSignerBinding)
    (expected_provider : LiveSignerBindingProvider)
    (expected_canonical_locator expected_public_key expected_public_key_fingerprint : string) :
    Result unit :=
  normalized_public_key ← normalize_public_key expected_public_key;
  fingerprint ← public_key_fingerprint normalized_public_key;
  '(current_locator, current_identity) ← live_signer_locator_snapshot fs expected_canonical_locator;
  reject_if ((lb_provider receipt != expected_provider) ||
             negb (path_eqb (lb_canonical_locator receipt) expected_canonical_locator) ||
             negb (path_eqb current_locator expected_canonical_locator) ||
             (lb_normalized_public_key receipt != normalized_public_key) ||
             (lb_public_key_fingerprint receipt != expected_public_key_fingerprint) ||
             (fingerprint != expected_public_key_fingerprint))
    LiveSignerBindingMismatch;;
  reject_if (current_identity != lb_locator_identity receipt) LiveSignerLocatorChanged.

End artifact.
