(* ===== verification/ArtifactFacts.v ===== *)
(** * Theorems about artifact proofs

    Public keys and fingerprints are canonical, the RSA profile is the
    arithmetic one, the signer process always ends and is never left running,
    hashing covers the whole artifact, and artifact verification is exactly
    the conjunction of its checks; what is created verifies. *)

From stdpp Require Import base numbers list strings pretty option.
From Stdlib Require Import Strings.Byte Ascii.
From S2P Require Import Prelude Text Ordered Display Crates ArtifactProof.

Section facts.
Context {crates : Crates}.

(** ** Public keys *)

(** What [normalize_public_key] accepts, and what it returns. *)
Definition normalizes (k n : string) : Prop :=
  ∃ algorithm encoded rest blob,
    (str_len k <= MAX_PUBLIC_KEY_BYTES)%N ∧
    split_whitespace k = algorithm :: encoded :: rest ∧
    STANDARD_decode encoded = inr blob ∧
    (4 <= len blob)%N ∧ (4 + blob_algorithm_len blob <= len blob)%N ∧
    take (N.to_nat (blob_algorithm_len blob)) (drop 4 blob) = as_bytes algorithm ∧
    n = algorithm +:+ " " +:+ encoded.

Lemma normalize_public_key_spec k n :
  normalize_public_key k = Ok n ↔ normalizes k n.
Proof.
  unfold normalize_public_key, normalizes. split.
  - rewrite seq_Ok, reject_if_Ok, N.ltb_ge. intros [Hlen H].
    unbind H as algorithm Ha. unbind H as encoded He. unbind H as blob Hb.
    rewrite seq_Ok, reject_if_Ok, N.ltb_ge in H. destruct H as [H4 H].
    unbind H as end_ Hend. unbind H as name Hname.
    rewrite seq_Ok, reject_if_Ok, negb_false_iff, bool_decide_eq_true in H.
    destruct H as [-> [= <-]].
    rewrite ok_or_Ok in Ha, He. rewrite ok_or_Ok in Hend. rewrite ok_or_Ok in Hname.
    rewrite map_err_Ok, of_sum_Ok in Hb.
    apply checked_add_usize_Some in Hend as [-> _].
    destruct (N.leb_spec (4 + blob_algorithm_len blob) (len blob)) as [Hle|]; [|done].
    injection Hname as Hname. rewrite N.add_comm, N.add_sub in Hname.
    destruct (split_whitespace k) as [|f0 [|f1 fs]]; cbn in Ha, He; simplify_eq.
    eexists _, _, _, _. eauto 10.
  - intros (alg & enc & rest & blob & Hlen & Hs & Hb & H4 & Hend & Hname & ->).
    apply N.ltb_ge in Hlen. rewrite Hlen, Hs. cbn. rewrite Hb. cbn.
    apply N.ltb_ge in H4 as H4'. rewrite H4'. cbn.
    assert (blob_algorithm_len blob < 2 ^ 32)%N as Hbound.
    { unfold blob_algorithm_len. eapply N.lt_le_trans; [apply from_be_bytes_bound|].
      change (2 ^ 32)%N with (256 ^ 4)%N. apply N.pow_le_mono_r; [done|].
      unfold len. rewrite length_take. lia. }
    unfold checked_add_usize. destruct (N.leb_spec (4 + blob_algorithm_len blob) usize_max).
    2:{ unfold usize_max, u64_max in *. lia. }
    cbn. apply N.leb_le in Hend. rewrite Hend. cbn.
    rewrite N.add_comm, N.add_sub, Hname. by rewrite bool_decide_eq_true_2.
Qed.

Lemma normalized_fields k n :
  utf8_valid k = true → normalizes k n →
  ∃ algorithm encoded blob, n = algorithm +:+ " " +:+ encoded ∧
    split_whitespace n = [algorithm; encoded] ∧ STANDARD_decode encoded = inr blob ∧
    normalizes n n.
Proof.
  intros Hu (alg & enc & rest & blob & Hlen & Hs & Hb & H4 & Hend & Hname & ->).
  destruct (split_whitespace_first_two _ _ _ _ Hu Hs) as [Hn Hl].
  assert (alg +:+ " " +:+ enc = String.append alg (String " " enc)) as Heq by done.
  exists alg, enc, blob. rewrite Heq, Hn. repeat split; [done|].
  exists alg, enc, [], blob. rewrite Hn. repeat split; [|done..].
  rewrite str_len_app, str_len_cons. lia.
Qed.

Lemma normalize_canonical k n :
  utf8_valid k = true → normalize_public_key k = Ok n → normalize_public_key n = Ok n.
Proof.
  intros Hu Hn%normalize_public_key_spec.
  destruct (normalized_fields _ _ Hu Hn) as (alg & enc & blob & -> & Hs & Hb & Hnn).
  by apply normalize_public_key_spec.
Qed.

Lemma fingerprint_normalize k n :
  normalize_public_key k = Ok n → normalize_public_key n = Ok n →
  public_key_fingerprint n = public_key_fingerprint k.
Proof. intros Hk Hn. unfold public_key_fingerprint. by rewrite Hk, Hn. Qed.

Lemma public_key_fingerprint_Ok k f :
  public_key_fingerprint k = Ok f →
  ∃ n blob, normalize_public_key k = Ok n ∧
    f = "SHA256:" +:+ STANDARD_NO_PAD_encode (Sha256_digest blob).
Proof.
  unfold public_key_fingerprint. intros H. unbind H as n Hn.
  unbind H as a Ha. unbind H as e He. unbind H as blob Hb. injection H as <-. eauto.
Qed.

Lemma fingerprint_valid `{crates_ok : !CratesOk} k f :
  public_key_fingerprint k = Ok f → validate_key_fingerprint f = Ok tt.
Proof.
  intros (n & blob & _ & ->)%public_key_fingerprint_Ok. unfold validate_key_fingerprint.
  set (enc := STANDARD_NO_PAD_encode _).
  rewrite (proj2 (strip_prefix_Some "SHA256:" ("SHA256:" +:+ enc) enc) eq_refl). cbn.
  unfold enc. rewrite standard_no_pad_round_trip. cbn.
  by rewrite sha256_length, bool_decide_eq_true_2.
Qed.

(** A public key that normalises has a fingerprint, in the canonical form
    the program's own validator accepts; normalising is idempotent and keeps
    the fingerprint, so a pinned fingerprint does not depend on comments or
    spacing in the key that was presented. *)
Theorem public_key_identity `{crates_ok : !CratesOk} k n :
  utf8_valid k = true → normalize_public_key k = Ok n →
  normalize_public_key n = Ok n ∧
  ∃ f, public_key_fingerprint k = Ok f ∧ public_key_fingerprint n = Ok f ∧
    validate_key_fingerprint f = Ok tt.
Proof.
  intros Hu Hn. pose proof (normalize_canonical _ _ Hu Hn) as Hnn. split; [done|].
  apply normalize_public_key_spec in Hn as Hs.
  destruct (normalized_fields _ _ Hu Hs) as (alg & enc & blob & _ & Hf & Hb & _).
  assert (∃ f, public_key_fingerprint n = Ok f) as [f Hfp].
  { unfold public_key_fingerprint. rewrite Hnn, bind_Ok_l, Hf. cbn. rewrite Hb. cbn. eauto. }
  exists f. rewrite <- (fingerprint_normalize k n) by done.
  split_and!; [done|done|by eapply fingerprint_valid].
Qed.

Lemma validate_key_fingerprint_inv f :
  validate_key_fingerprint f = Ok tt →
  ∃ digest, f = "SHA256:" +:+ STANDARD_NO_PAD_encode digest ∧ len digest = 32%N.
Proof.
  unfold validate_key_fingerprint. intros H. unbind H as enc He. unbind H as dig Hd.
  oks H. oks He. apply strip_prefix_Some in He as ->.
  exists dig. split; [by f_equal|]. by apply N.eqb_eq.
Qed.

(** ** The RSA profile *)

Lemma skip_zeros_value bs : from_be_bytes (skip_zeros bs) = from_be_bytes bs.
Proof.
  induction bs as [|b bs IH]; [done|]. cbn [skip_zeros].
  destruct (N.eqb_spec (byte_val b) 0) as [E|]; [|done].
  rewrite IH, from_be_bytes_cons, E. lia.
Qed.

Lemma skip_zeros_head bs b rest : skip_zeros bs = b :: rest → (0 < byte_val b)%N.
Proof.
  induction bs as [|c bs IH]; [done|]. cbn [skip_zeros].
  destruct (N.eqb_spec (byte_val c) 0); [done|]. intros [= <- _]. lia.
Qed.

(** The bit length of the bytes is the size of the integer they denote. *)
Lemma positive_integer_bit_length_spec bs :
  positive_integer_bit_length (Some bs) =
  if (from_be_bytes bs =? 0)%N then None else Some (N.size (from_be_bytes bs)).
Proof.
  cbn [positive_integer_bit_length]. rewrite <- (skip_zeros_value bs).
  destruct (skip_zeros bs) as [|b rest] eqn:E; [done|].
  apply skip_zeros_head in E. rewrite from_be_bytes_cons.
  pose proof (from_be_bytes_bound rest) as Hr.
  assert (0 < 256 ^ len rest)%N by lia.
  destruct (N.eqb_spec (byte_val b * 256 ^ len rest + from_be_bytes rest) 0); [nia|].
  f_equal. rewrite !N.size_log2 by nia. unfold byte_bit_length. rewrite N.size_log2 by lia.
  assert (256 ^ len rest = 2 ^ (len rest * 8))%N as Hp.
  { change 256%N with (2 ^ 8)%N. by rewrite <- N.pow_mul_r, N.mul_comm. }
  rewrite Hp in *. rewrite N.add_succ_r. f_equal.
  symmetry. apply N.log2_unique; [lia|].
  pose proof (N.log2_spec (byte_val b) ltac:(lia)) as [Hlo Hhi].
  rewrite !N.pow_add_r. split; [nia|].
  rewrite N.pow_succ_r', N.pow_add_r. rewrite N.pow_succ_r' in Hhi. nia.
Qed.

Lemma lor_shifted_byte a b : (b < 256)%N → N.lor (a * 2 ^ 8) b = (a * 2 ^ 8 + b)%N.
Proof.
  intros Hb. assert (N.land (a * 2 ^ 8) b = 0)%N as Hl.
  { apply N.bits_inj. intros i. rewrite N.land_spec, N.bits_0, <- N.shiftl_mul_pow2.
    destruct (N.lt_ge_cases i 8); [by rewrite N.shiftl_spec_low|].
    rewrite (N.testbit_eqb b), N.div_small, andb_false_r; [done|].
    eapply N.lt_le_trans; [exact Hb|]. change 256%N with (2 ^ 8)%N.
    by apply N.pow_le_mono_r. }
  by rewrite <- N.lxor_lor, <- N.add_nocarry_lxor.
Qed.

Lemma exponent_value_spec bs : (from_be_bytes bs < 2 ^ 32)%N → exponent_value bs = from_be_bytes bs.
Proof.
  unfold exponent_value, from_be_bytes.
  assert (∀ l acc, (foldl (λ a b, a * 256 + byte_val b) acc l < 2 ^ 32)%N →
    foldl (λ v b, N.lor (N.shiftl v 8 `mod` 2 ^ 64) (byte_val b)) acc l =
    foldl (λ a b, a * 256 + byte_val b) acc l)%N as H; [|intros; by apply H].
  induction l as [|b l IH]; intros acc; [done|]. cbn [foldl]. intros Hb.
  assert (acc * 256 + byte_val b < 2 ^ 32)%N as Ha.
  { rewrite foldl_be in Hb. assert (0 < 256 ^ len l)%N by (apply N.neq_0_lt_0, N.pow_nonzero; lia). nia. }
  rewrite <- IH by done. f_equal.
  rewrite N.shiftl_mul_pow2. change (2 ^ 8)%N with 256%N.
  rewrite N.mod_small by lia. pose proof (byte_val_bound b).
  change 256%N with (2 ^ 8)%N. by apply lor_shifted_byte.
Qed.

Lemma size_bounds n a b :
  n ≠ 0%N → ((a <= N.size n)%N ∧ (N.size n <= b)%N) ↔ ((a = 0 ∨ 2 ^ (a - 1) <= n)%N ∧ (n < 2 ^ b)%N).
Proof.
  intros Hn. rewrite N.size_log2 by done. rewrite !N.le_succ_l.
  pose proof (N.log2_lt_pow2 n b ltac:(lia)) as Hb. rewrite Hb.
  destruct (decide (a = 0)%N) as [->|Ha]; [naive_solver lia|].
  pose proof (N.log2_le_pow2 n (a - 1) ltac:(lia)) as Hc. rewrite Hc. naive_solver lia.
Qed.

(** An RSA key is in the verification profile exactly when its modulus has
    2048 to 4096 bits and its exponent is odd, at least 3 and below [2^32],
    whatever leading zero bytes its integers carry. *)
Theorem rsa_profile n e :
  require_supported_key_data (Rsa n e) = Ok tt ↔
  ∃ ns es, n = Some ns ∧ e = Some es ∧
    (2 ^ 2047 <= from_be_bytes ns < 2 ^ 4096)%N ∧
    (3 <= from_be_bytes es < 2 ^ 32)%N ∧ N.odd (from_be_bytes es) = true.
Proof.
  assert (∀ x, (x =? 0)%N = true → ¬ (2 ^ 2047 <= x)%N) as Hpos.
  { intros x ->%N.eqb_eq Hle. assert (2 ^ 2047 ≠ 0)%N by (apply N.pow_nonzero; lia). lia. }
  destruct n as [ns|]; [|split; [done|naive_solver]].
  destruct e as [es|]; [|split].
  2:{ cbn [require_supported_key_data]. intros H. unbind H as b Hb. done. }
  2:{ naive_solver. }
  cbn [require_supported_key_data]. rewrite positive_integer_bit_length_spec.
  destruct (from_be_bytes ns =? 0)%N eqn:Hn; [split; [done|naive_solver]|].
  cbn [ok_or]. rewrite bind_Ok_l, bind_Ok_l, positive_integer_bit_length_spec.
  destruct (N.eqb_spec (from_be_bytes es) 0) as [He|He].
  { split; [done|]. intros (? & ? & _ & [= <-] & _ & [? _] & _). lia. }
  cbn [ok_or]. rewrite bind_Ok_l. apply N.eqb_neq in Hn.
  unfold MIN_SSHSIG_RSA_BITS, MAX_SSHSIG_RSA_BITS, MAX_SSHSIG_RSA_EXPONENT_BITS.
  rewrite seq_Ok, !reject_if_Ok, !orb_false_iff, negb_false_iff, andb_true_iff,
    !N.leb_le, !N.ltb_ge, N.eqb_neq, (size_bounds _ _ _ Hn).
  pose proof (size_bounds _ 0 32 He) as Hsz.
  assert (∀ x, (x `mod` 2 ≠ 0)%N ↔ N.odd x = true) as Hodd.
  { intros x. rewrite <- N.bit0_mod, N.bit0_odd. by destruct (N.odd x). }
  split.
  - intros [[[[?|?] ?] ?] [? Ho]]; [done|].
    assert (from_be_bytes es < 2 ^ 32)%N as H32 by (apply Hsz; split; [apply N.le_0_l|done]).
    rewrite exponent_value_spec in * by done. apply Hodd in Ho. eauto 10.
  - intros (? & ? & [= <-] & [= <-] & Hm & [? ?] & Ho).
    rewrite exponent_value_spec by done. rewrite Hodd. naive_solver.
Qed.

(** ** The signer process *)

Section signer_facts.
Context `{!SshKeygen, !ClockOk}.

Lemma instant_lower i : (instant_start + 20 * N.of_nat i <= instant_at i)%N.
Proof.
  induction i as [|i IH]; [pose proof clock_first; lia|].
  pose proof (clock_sleeps i). lia.
Qed.

Lemma wait_polls_ends child operation i fuel :
  (SIGNER_TIMEOUT_SECONDS * 1000 <= 20 * (N.of_nat (i + fuel) - 1))%N → fuel ≠ 0 →
  ∃ r e, wait_polls child operation (instant_start + SIGNER_TIMEOUT_SECONDS * 1000) i fuel =
    Some (r, e) ∧ (∀ p, r ≠ Panic p) ∧ (is_ok r = true → e = Reaped).
Proof.
  revert i. induction fuel as [|fuel IH]; intros i Hb Hf; [done|]. cbn [wait_polls].
  destruct (ch_try_wait child i).
  - destruct (ch_wait_with_output child); cbn; naive_solver.
  - pose proof (instant_lower i). case_match eqn:Hd; [naive_solver|].
    apply N.leb_gt in Hd. apply IH; [by rewrite Nat.add_succ_r in Hb|lia].
  - naive_solver.
Qed.

Lemma wait_with_output_deadline_ends child operation :
  ∃ r e, wait_with_output_deadline child operation = (r, Some e) ∧
    (∀ p, r ≠ Panic p) ∧ (is_ok r = true → e = Reaped).
Proof.
  destruct (wait_polls_ends child operation 0 MAX_POLLS) as (r & e & Hw & Hr); [done..|].
  exists r, e. unfold wait_with_output_deadline. by rewrite Hw.
Qed.

Lemma validate_ssh_keygen_no_panic p : validate_ssh_keygen ≠ Panic p.
Proof.
  unfold validate_ssh_keygen, validate_ssh_keygen_permissions.
  destruct keygen_metadata; cbn; [done|]. unfold reject_if. repeat (case_match; cbn); done.
Qed.

Definition sign_command (private_key_path namespace : string) : list string :=
  ["-Y"; "sign"; "-f"; private_key_path; "-n"; namespace; "-"].

(** How a run of the signer ends. *)
Lemma sign_run_ends payload private_key_path namespace :
  let '(r, ended) := sshsig_sign_run payload private_key_path namespace in
  (∀ p, r ≠ Panic p) ∧
  (is_Some ended ↔ validate_ssh_keygen = Ok tt ∧
    ∃ child, keygen_spawn (sign_command private_key_path namespace) payload = inr child) ∧
  (is_ok r = true → ended = Some Reaped).
Proof.
  unfold sshsig_sign_run. pose proof validate_ssh_keygen_no_panic as Hv.
  destruct validate_ssh_keygen as [[]|e|p]; [|split_and!; [done|naive_solver|done]|by destruct (Hv p)].
  fold (sign_command private_key_path namespace).
  destruct (keygen_spawn (sign_command _ _) _) as [e|child] eqn:Hs;
    [split_and!; [done|naive_solver|done]|].
  unfold write_signer_input. destruct (ch_stdin child); cbn [negb]; [|naive_solver].
  destruct (ch_write_all child); [naive_solver|].
  destruct (wait_with_output_deadline_ends child "signing") as (r & e & -> & Hp & Hok).
  destruct r as [out|err|p]; [|naive_solver|by destruct (Hp p)].
  rewrite (Hok eq_refl), bind_Ok_l. split_and!; [|naive_solver|done].
  intros p. unfold reject_if. case_match; [done|]. cbn. by destruct (from_utf8 _).
Qed.

Lemma sshsig_sign_no_panic payload private_key_path namespace :
  no_panic (sshsig_sign payload private_key_path namespace).
Proof.
  pose proof (sign_run_ends payload private_key_path namespace) as Hend. unfold sshsig_sign.
  destruct (sshsig_sign_run _ _ _) as [r ended]. destruct Hend as [Hend _]. by apply no_panic_neq.
Qed.

(** C33: signing always ends: the bounded wait needs no more than [MAX_POLLS]
    polls, nothing panics, a child that was spawned is always reaped or killed
    before the function returns, and a signature is only ever taken from a
    child that exited by itself. *)
Theorem sshsig_sign_leaves_no_child payload private_key_path namespace :
  let '(r, ended) := sshsig_sign_run payload private_key_path namespace in
  (∀ p, r ≠ Panic p) ∧
  (is_Some ended ↔ validate_ssh_keygen = Ok tt ∧
    ∃ child, keygen_spawn (sign_command private_key_path namespace) payload = inr child) ∧
  (is_ok r = true → ended = Some Reaped).
Proof. apply sign_run_ends. Qed.

End signer_facts.

(** ** Hashing *)

(** Hashing a stream of reads gives the digest and the size of everything
    up to the first empty read, for every way the reader splits the data. *)
Theorem describe_reader_whole chunks rest source :
  Forall (λ c, c ≠ []) chunks → (len (concat chunks) <= u64_max)%N →
  describe_reader ((inr <$> chunks) ++ inr [] :: rest) source =
  Ok (descriptor_of (concat chunks) (len (concat chunks))).
Proof.
  intros Hne Hlen. unfold describe_reader.
  assert (∀ hashed size, Forall (λ c, c ≠ []) chunks → (size + len (concat chunks) <= u64_max)%N →
    read_chunks source ((inr <$> chunks) ++ inr [] :: rest) hashed size =
    Ok (hashed ++ concat chunks, size + len (concat chunks))%N) as H.
  { clear. induction chunks as [|c cs IH]; intros hashed size Hne Hlen; cbn [fmap list_fmap app read_chunks concat].
    - rewrite N.add_0_r, app_nil_r. done.
    - inversion_clear Hne as [|? ? Hc Hcs]. cbn [concat] in Hlen. rewrite len_app in Hlen.
      destruct (N.eqb_spec (len c) 0) as [E|_]; [by apply len_nil in E|].
      unfold checked_add_u64. rewrite (proj2 (N.leb_le (size + len c) u64_max)) by lia.
      cbn [ok_or]. rewrite bind_Ok_l, IH by (done || lia).
      by rewrite len_app, <- app_assoc, N.add_assoc. }
  by rewrite H, app_nil_l.
Qed.

(** What [read_at] promises of a file whose content does not change: at an
    offset inside the file some bytes from there on, at the end none. *)
Definition reads_file (pread : N → string + bytes) (data : bytes) : Prop :=
  ∀ off, (off <= len data)%N → ∃ chunk rest, pread off = inr chunk ∧
    drop (N.to_nat off) data = chunk ++ rest ∧ (chunk = [] → rest = []).

(** Hashing an open file with positional reads covers the whole file once
    and ends after at most one read more than the file has bytes, whatever
    short reads the system makes. *)
Theorem describe_open_artifact_whole pread data fuel :
  reads_file pread data → (len data <= u64_max)%N → length data < fuel →
  describe_open_artifact pread fuel = Some (Ok (descriptor_of data (len data))).
Proof.
  intros Hread Hlen Hfuel. unfold describe_open_artifact.
  assert (∀ hashed rest f, hashed ++ rest = data → length rest < f →
    pread_chunks pread hashed (len hashed) f = Some (Ok (data, len data))) as H.
  { intros hashed rest f. revert hashed rest. induction f as [|f IH]; intros hashed rest Heq Hf; [lia|].
    cbn [pread_chunks]. destruct (Hread (len hashed)) as (chunk & tl & -> & Hd & He).
    { subst. rewrite len_app. lia. }
    unfold len in Hd. rewrite Nat2N.id in Hd. rewrite <- Heq, drop_app_length in Hd.
    destruct (N.eqb_spec (len chunk) 0) as [E|E].
    - apply len_nil in E as ->. rewrite He, app_nil_r in Hd by done. subst. by rewrite app_nil_r.
    - unfold checked_add_u64.
      assert (len hashed + len chunk <= u64_max)%N as Hle%N.leb_le.
      { subst. rewrite !len_app in Hlen. lia. }
      rewrite Hle. replace (len hashed + len chunk)%N with (len (hashed ++ chunk)) by by rewrite len_app.
      apply IH with tl; [by rewrite <- app_assoc, <- Hd|].
      rewrite Hd, length_app in Hf. unfold len in E. lia. }
  pose proof (H [] data fuel eq_refl Hfuel) as H0. change (len []) with 0%N in H0. by rewrite H0.
Qed.

(** ** Envelopes *)

Lemma require_value_Ok field actual expected :
  require_value field actual expected = Ok tt ↔ actual = expected.
Proof. unfold require_value. by rewrite reject_if_Ok, negb_false_iff, bool_decide_eq_true. Qed.

Lemma require_value_refl field v : require_value field v v = Ok tt.
Proof. by apply require_value_Ok. Qed.

Lemma validate_persona_Ok persona p : validate_persona persona = Ok p → p = persona.
Proof. unfold validate_persona. intros H. by oks H. Qed.

Lemma decode_payload_encode `{crates_ok : !CratesOk} payload :
  (str_len (URL_SAFE_NO_PAD_encode payload) <= MAX_PROOF_BYTES)%N →
  decode_payload (URL_SAFE_NO_PAD_encode payload) = Ok payload.
Proof.
  intros Hlen. unfold decode_payload. apply N.ltb_ge in Hlen. rewrite Hlen. cbn.
  by rewrite url_safe_round_trip.
Qed.

(** What a created bundle holds, and that the verifier's decoder gives it back. *)
Lemma created_bundle_decodes {crates_ok : CratesOk} {keygen : SshKeygen} payload path key namespace proof :
  create_sshsig_payload_proof payload path key namespace = Ok proof →
  (str_len (pb_payload proof) <= MAX_PROOF_BYTES)%N →
  ∃ n, normalize_public_key key = Ok n ∧ vm_public_key (pb_verification_material proof) = n ∧
    sshsig_verify payload (se_value (pb_signature proof)) n namespace = Ok tt ∧
    (normalize_public_key n = Ok n → decode_sshsig_payload proof namespace = Ok (payload, n)).
Proof.
  unfold create_sshsig_payload_proof. rewrite seq_Ok. intros [_ H] Hlen.
  unbind H as n Hn. unbind H as sig Hsig. rewrite seq_Ok in H. destruct H as [Hv [= <-]].
  cbn in Hlen |- *. exists n. split_and!; [done..|]. intros Hnn.
  unfold decode_sshsig_payload, validate_envelope.
  cbn [pb_schema pb_payload pb_signature pb_verification_material se_format se_namespace vm_format vm_public_key].
  rewrite !require_value_refl, !bind_Ok_l, decode_payload_encode, bind_Ok_l, Hnn by done. done.
Qed.

(** Creating a proof does not bound its payload; reading it does. *)
Lemma created_bundle_too_large {keygen : SshKeygen} payload path key namespace proof :
  create_sshsig_payload_proof payload path key namespace = Ok proof →
  (MAX_PROOF_BYTES < str_len (pb_payload proof))%N →
  decode_sshsig_payload proof namespace = Err ProofTooLarge.
Proof.
  unfold create_sshsig_payload_proof. rewrite seq_Ok. intros [_ H] Hlen.
  unbind H as n Hn. unbind H as sig Hsig. rewrite seq_Ok in H. destruct H as [_ [= <-]].
  cbn in Hlen. unfold decode_sshsig_payload, validate_envelope.
  cbn [pb_schema pb_payload pb_signature pb_verification_material se_format se_namespace vm_format vm_public_key].
  rewrite !require_value_refl, !bind_Ok_l. unfold decode_payload. by rewrite (proj2 (N.ltb_lt _ _) Hlen).
Qed.

(** ** Creating and verifying *)

Section proof_facts.
Context {keygen : SshKeygen} {json_statement : Serde ArtifactStatement}.

Definition statement_in_range (st : ArtifactStatement) : Prop :=
  (ad_size (as_artifact st) <= u64_max)%N.

(** C32: a proof created for an artifact whose size is a [u64], with a key
    that is UTF-8 text, verifies for that artifact and reports the persona and
    the key fingerprint it was created with, exactly when the encoded payload is
    within [MAX_PROOF_BYTES]. Creating a proof does not check that bound: a
    larger one is created, and refused as too large. *)
Theorem create_verify_artifact_proof `{crates_ok : !CratesOk, !SerdeOk ArtifactStatement statement_in_range}
    artifact path key persona proof :
  utf8_valid key = true → (ad_size artifact <= u64_max)%N →
  create_sshsig_proof_for_descriptor artifact path key persona = Ok proof →
  if (str_len (pb_payload proof) <=? MAX_PROOF_BYTES)%N then
    ∃ report, verify_sshsig_proof_for_descriptor artifact proof = Ok report ∧
      vs_persona (vr_signer report) = persona ∧
      public_key_fingerprint key = Ok (vs_key_fingerprint (vr_signer report))
  else verify_sshsig_proof_for_descriptor artifact proof = Err ProofTooLarge.
Proof.
  intros Hu Hsize H. destruct (N.leb_spec (str_len (pb_payload proof)) MAX_PROOF_BYTES) as [Hlen|Hlen].
  2: { unfold create_sshsig_proof_for_descriptor in H. unbind H as p Hp. rewrite seq_Ok in H.
       destruct H as [_ H]. unbind H as n Hn. unbind H as f Hf. unbind H as payload Hj.
       unfold verify_sshsig_proof_for_descriptor. by rewrite (created_bundle_too_large _ _ _ _ _ H Hlen). }
  unfold create_sshsig_proof_for_descriptor in H.
  unbind H as p Hp. pose proof (validate_persona_Ok _ _ Hp) as ->.
  rewrite seq_Ok in H. destruct H as [Hd H]. unbind H as n Hn. unbind H as f Hf.
  unbind H as payload Hj. rewrite map_err_Ok, of_sum_Ok in Hj.
  pose proof (normalize_canonical _ _ Hu Hn) as Hnn.
  destruct (created_bundle_decodes _ _ _ _ _ H Hlen) as (n' & Hn' & _ & Hv & Hdec).
  rewrite Hnn in Hn'. injection Hn' as <-. unfold verify_sshsig_proof_for_descriptor.
  rewrite (Hdec Hnn), bind_Ok_l. apply json_round_trip in Hj; [|done].
  rewrite Hj. cbn [of_sum map_err]. rewrite bind_Ok_l. unfold validate_statement.
  cbn [as_schema as_artifact as_signer sc_persona sc_key_fingerprint].
  rewrite require_value_refl, bind_Ok_l, Hd, bind_Ok_l, Hp, bind_Ok_l.
  rewrite (fingerprint_valid _ _ Hf), !bind_Ok_l, bool_decide_eq_true_2 by done. cbn [negb reject_if].
  rewrite bind_Ok_l, Hf, bind_Ok_l, bool_decide_eq_true_2 by done. cbn [negb reject_if].
  rewrite bind_Ok_l, Hv, bind_Ok_l. eexists. split; [done|].
  by rewrite <- (fingerprint_normalize key n).
Qed.

(** What a verified artifact proof went through. *)
Lemma verify_artifact_inv descriptor proof report :
  verify_sshsig_proof_for_descriptor descriptor proof = Ok report →
  ∃ payload key statement,
    decode_sshsig_payload proof SSHSIG_NAMESPACE = Ok (payload, key) ∧
    json_from_slice payload = inr statement ∧
    validate_statement statement = Ok tt ∧
    as_artifact statement = descriptor ∧
    public_key_fingerprint key = Ok (sc_key_fingerprint (as_signer statement)) ∧
    sshsig_verify payload (se_value (pb_signature proof)) key SSHSIG_NAMESPACE = Ok tt ∧
    vs_persona (vr_signer report) = sc_persona (as_signer statement) ∧
    vs_key_fingerprint (vr_signer report) = sc_key_fingerprint (as_signer statement).
Proof.
  unfold verify_sshsig_proof_for_descriptor. intros H.
  unbind H as [payload key] Hdec. unbind H as st Hj. rewrite !seq_Ok in H.
  destruct H as (Hst & _ & Hm & H). unbind H as f Hf. rewrite !seq_Ok in H.
  destruct H as (Hfm & Hv & [= <-]). oks Hj. oks Hm. oks Hfm. subst. eauto 15.
Qed.

(** A proof binds one artifact: two contents that verify against the same
    proof have the same size and the same SHA-256 digest, and the verified
    persona and key are the ones in the signed payload, so they agree too. *)
Theorem verified_proof_binds_one_artifact data1 data2 proof report1 report2 :
  verify_sshsig_proof_for_descriptor (descriptor_of data1 (len data1)) proof = Ok report1 →
  verify_sshsig_proof_for_descriptor (descriptor_of data2 (len data2)) proof = Ok report2 →
  Sha256_digest data1 = Sha256_digest data2 ∧ len data1 = len data2 ∧
  vr_signer report1 = vr_signer report2.
Proof.
  intros H1 H2. pose proof H1 as E1. pose proof H2 as E2.
  apply verify_artifact_inv in H1 as (pl & k & st & Hd & Hj & _ & Ha & _ & _ & Hp & Hf).
  apply verify_artifact_inv in H2 as (pl' & k' & st' & Hd' & Hj' & _ & Ha' & _ & _ & Hp' & Hf').
  rewrite Hd in Hd'. injection Hd' as <- <-. rewrite Hj in Hj'. injection Hj' as <-.
  rewrite Ha in Ha'. injection Ha' as Hhex Hlen. apply lower_hex_inj in Hhex.
  split_and!; [done..|].
  assert (∀ d r, verify_sshsig_proof_for_descriptor d proof = Ok r →
    vs_identity_binding (vr_signer r) = "self_asserted") as Hi.
  { clear. intros d r H. unfold verify_sshsig_proof_for_descriptor in H.
    unbind H as [payload key] Hdec. unbind H as st Hj. rewrite !seq_Ok in H.
    destruct H as (_ & _ & _ & H). unbind H as f Hf. rewrite !seq_Ok in H.
    by destruct H as (_ & _ & [= <-]). }
  apply Hi in E1, E2. destruct (vr_signer report1), (vr_signer report2). cbn in *. congruence.
Qed.

End proof_facts.

(** ** The live signer binding *)

Lemma as_bytes_inj a b : as_bytes a = as_bytes b → a = b.
Proof.
  unfold as_bytes. intros H. rewrite <- (String.string_of_list_byte_of_string a), H.
  apply String.string_of_list_byte_of_string.
Qed.

Definition framed (field : bytes) : bytes := to_be_bytes 4 (len field) ++ field.

Lemma framed_inj f g x y :
  (len f <= u32_max)%N → (len g <= u32_max)%N → framed f ++ x = framed g ++ y → f = g ∧ x = y.
Proof.
  unfold framed. intros Hf Hg. rewrite <- !app_assoc. intros H.
  apply app_inj_1 in H as [Hl H]; [|by rewrite !to_be_bytes_length].
  apply (f_equal from_be_bytes) in Hl. unfold u32_max in *.
  rewrite !from_to_be_bytes in Hl by (cbn; lia).
  apply app_inj_1 in H; [done|]. unfold len in Hl. lia.
Qed.

Lemma framed_fields_inj fs gs :
  length fs = length gs →
  Forall (λ f, (len f <= u32_max)%N) fs → Forall (λ f, (len f <= u32_max)%N) gs →
  concat (framed <$> fs) = concat (framed <$> gs) → fs = gs.
Proof.
  revert gs. induction fs as [|f fs IH]; intros [|g gs] Hl Hf Hg H; try done.
  inversion_clear Hf; inversion_clear Hg. cbn in H, Hl.
  apply framed_inj in H as [-> H]; [|done..]. f_equal. apply IH; [lia|done..].
Qed.

Lemma challenge_Ok provider locator key fingerprint nonce c :
  live_signer_binding_challenge provider locator key fingerprint nonce = Ok c →
  let fields := challenge_fields provider locator key fingerprint nonce in
  Forall (λ f, (len f <= u32_max)%N) fields ∧ c = concat (framed <$> fields).
Proof.
  unfold live_signer_binding_challenge. rewrite seq_Ok. intros [_ H]. cbv zeta.
  generalize dependent (challenge_fields provider locator key fingerprint nonce). intros fields H.
  eapply (fold_result_ind _ (λ done st, Forall (λ f, (len f <= u32_max)%N) done ∧
    st = concat (framed <$> done))) in H; [done|by split; [constructor|]|].
  clear. intros done x st st' [Hd ->] H. unbind H as enc He. injection H as <-.
  unfold length_prefixed in He. unbind He as l Hl. injection He as <-. oks Hl. subst.
  rewrite Forall_app, fmap_app, concat_app. cbn. rewrite app_nil_r. repeat split; auto.
Qed.

(** The challenge a live signer signs determines the provider, the
    locator, the key, the fingerprint and the nonce: no two different requests
    give the same bytes. *)
Theorem live_challenge_injective p1 p2 l1 l2 k1 k2 f1 f2 n1 n2 c :
  live_signer_binding_challenge p1 l1 k1 f1 n1 = Ok c →
  live_signer_binding_challenge p2 l2 k2 f2 n2 = Ok c →
  p1 = p2 ∧ l1 = l2 ∧ k1 = k2 ∧ f1 = f2 ∧ n1 = n2.
Proof.
  intros [F1 ->]%challenge_Ok [F2 H]%challenge_Ok.
  apply framed_fields_inj in H; [|done..].
  unfold challenge_fields in H. injection H as Hp Hl Hk Hf Hn.
  apply as_bytes_inj in Hl, Hk, Hf. split_and!; [|done..].
  clear -Hp. by destruct p1, p2.
Qed.

Lemma snapshot_Ok fs path canonical identity :
  live_signer_locator_snapshot fs path = Ok (canonical, identity) →
  path_eqb canonical path = true ∧
  ∃ md, symlink_metadata fs canonical = inr md ∧ md_is_symlink md = false ∧ md_is_file md = true ∧
    li_inode identity = md_ino md ∧ li_device identity = md_dev md ∧ li_length identity = md_len md.
Proof.
  unfold live_signer_locator_snapshot. intros H. unbind H as entry He. rewrite seq_Ok in H.
  destruct H as [_ H]. unbind H as canon Hc. rewrite seq_Ok in H. destruct H as [Hp H].
  unbind H as md Hm. rewrite seq_Ok in H. destruct H as [Hf H]. unbind H as modified Hmod.
  injection H as <- <-. oks Hp. oks Hm. oks Hf. split; [done|]. exists md. by split_and!.
Qed.

(** A live signer binding that was proved validates against the file
    system it was proved in, and a binding validates only for the provider,
    key and fingerprint it was issued for, while the file at its locator is
    still the regular file (same device, inode and length) seen when the key
    holder signed. *)
Theorem live_binding_validation {keygen : SshKeygen} fs_before fs_after nonce locator key provider receipt :
  prove_live_signer_binding fs_before fs_after nonce locator key provider = Ok receipt →
  validate_verified_live_signer_binding fs_after receipt provider
    (lb_canonical_locator receipt) key (lb_public_key_fingerprint receipt) = Ok tt ∧
  ∀ fs provider' locator' key' fingerprint',
    validate_verified_live_signer_binding fs receipt provider' locator' key' fingerprint' = Ok tt →
    provider' = provider ∧ normalize_public_key key' = normalize_public_key key ∧
    fingerprint' = lb_public_key_fingerprint receipt ∧
    ∃ current md, symlink_metadata fs current = inr md ∧ path_eqb current locator' = true ∧
      md_is_symlink md = false ∧ md_is_file md = true ∧
      md_ino md = li_inode (lb_locator_identity receipt) ∧
      md_dev md = li_device (lb_locator_identity receipt) ∧
      md_len md = li_length (lb_locator_identity receipt).
Proof.
  unfold prove_live_signer_binding. intros H. unbind H as n Hn. unbind H as f Hf.
  unbind H as [canon ident] Hsn. unbind H as nc Hnc. unbind H as ch Hch. unbind H as sig Hsig.
  rewrite seq_Ok in H. destruct H as [Hv H]. unbind H as [post pident] Hpost.
  rewrite seq_Ok in H. destruct H as [Hchg [= <-]]. oks Hchg. subst.
  cbn [lb_canonical_locator lb_public_key_fingerprint lb_locator_identity]. split.
  - unfold validate_verified_live_signer_binding. rewrite Hn, bind_Ok_l, Hf, bind_Ok_l, Hpost, bind_Ok_l.
    cbn. rewrite !bool_decide_eq_true_2 by done.
    assert (path_eqb post canon = true) as -> by done.
    unfold path_eqb. by rewrite bool_decide_eq_true_2.
  - intros fs p' l' k' f' H'. unfold validate_verified_live_signer_binding in H'.
    unbind H' as n' Hn'. unbind H' as g Hg. unbind H' as [cur cid] Hcur. cbn in H'. oks H'. subst.
    apply snapshot_Ok in Hcur as [Hpe (md & Hmd & Hl & Hfile & Hi & Hd & Hln)].
    split_and!; [done|congruence|done|]. exists cur, md. split_and!; done.
Qed.

(** ** Panic freedom *)

Lemma normalize_public_key_no_panic k : no_panic (normalize_public_key k).
Proof. unfold normalize_public_key. no_panics. Qed.

Lemma public_key_fingerprint_no_panic k : no_panic (public_key_fingerprint k).
Proof. unfold public_key_fingerprint. no_panics. Qed.

Lemma validate_key_fingerprint_no_panic f : no_panic (validate_key_fingerprint f).
Proof. unfold validate_key_fingerprint. no_panics. Qed.

Lemma require_value_no_panic f a e : no_panic (require_value f a e).
Proof. unfold require_value. no_panics. Qed.

Lemma validate_persona_no_panic p : no_panic (validate_persona p).
Proof. unfold validate_persona. no_panics. Qed.

Lemma decode_payload_no_panic p : no_panic (decode_payload p).
Proof. unfold decode_payload. no_panics. Qed.

Lemma require_supported_key_data_no_panic k : no_panic (require_supported_key_data k).
Proof. destruct k; unfold require_supported_key_data; no_panics. Qed.

Lemma sshsig_verify_no_panic payload s k ns : no_panic (sshsig_verify payload s k ns).
Proof.
  pose proof require_supported_key_data_no_panic. unfold sshsig_verify, require_supported_sshsig_key.
  no_panics.
Qed.

Lemma parse_bounded_json_no_panic {T} `{!Serde T} bs m d : no_panic (parse_bounded_json (T:=T) bs m d).
Proof. unfold parse_bounded_json. no_panics. Qed.

End facts.

#[export] Hint Resolve normalize_public_key_no_panic public_key_fingerprint_no_panic
  validate_key_fingerprint_no_panic require_value_no_panic validate_persona_no_panic
  decode_payload_no_panic sshsig_verify_no_panic parse_bounded_json_no_panic : panics.
