(* ===== verification/Continuity.v ===== *)
(** * Persona continuity ([crates/a-quo-core/src/continuity.rs])

    The persona root, the routine dual-signed key transition, and the
    continuity chain from a pinned root digest to a head: constructors,
    reviews at the signing boundary, proof creation, proof verification and
    the verification of whole chains, of one-step extensions and of chains
    against a head checkpoint. *)

From stdpp Require Import base numbers list strings pretty option.
From Stdlib Require Import Strings.Byte Ascii.
From S2P Require Import Prelude Text Ordered Display Crates ArtifactProof.

(** ** Constants *)

Definition PERSONA_ROOT_STATEMENT_SCHEMA : string := "urn:a-quo:statement:persona-root:v1".
Definition PERSONA_ROOT_PROOF_SCHEMA : string := "urn:a-quo:proof:persona-root:sshsig:v1".
Definition PERSONA_ROOT_NAMESPACE : string := "a-quo-persona-root-v1".
Definition PERSONA_TRANSITION_STATEMENT_SCHEMA : string :=
  "urn:a-quo:statement:persona-transition:v1".
Definition PERSONA_TRANSITION_PROOF_SCHEMA : string :=
  "urn:a-quo:proof:persona-transition:sshsig:v1".
Definition PERSONA_TRANSITION_NAMESPACE : string := "a-quo-persona-transition-v1".
Definition CONTINUITY_CANONICALIZATION : string := "RFC8785".
Definition CONTINUITY_ROOT_CLOCK_SKEW_SECONDS : Z := 300.
Definition CONTINUITY_TRANSITION_CLOCK_SKEW_SECONDS : Z := 300.
Definition MAX_CONTINUITY_PAYLOAD_BYTES : N := 65536.
Definition MAX_CONTINUITY_TRANSITIONS : N := 4096.
Definition PERSONA_ANCHOR_BYTES : N := 32.
Definition MAX_CONTINUITY_SIGNATURE_BYTES : N := 65536.
Definition MAX_JCS_SAFE_INTEGER : Z := 9007199254740991.
Definition SHA256_HEX_BYTES : N := 64.
Definition SIGNATURE_FORMAT : string := "sshsig".
Definition PUBLIC_KEY_FORMAT : string := "openssh-public-key".

(** ** Data *)

Record PersonaRootStatement := {
  rs_schema : string;
  rs_canonicalization : string;
  rs_persona_anchor : string;
  rs_persona : string;
  rs_root_version : N;
  rs_issued_at : Z;
  rs_initial_key_fingerprint : string;
}.
Inductive ContinuitySignatureRole := RoleRoot | RolePrevious | RoleNext.
Record ContinuitySignature := {
  cs_role : ContinuitySignatureRole;
  cs_format : string;
  cs_namespace : string;
  cs_value : string;
  cs_public_key_format : string;
  cs_public_key : string;
}.
Record PersonaRootProof := {
  rp_schema : string;
  rp_payload : string;
  rp_signature : ContinuitySignature;
}.
Record PersonaRootReview := {
  rr_persona : string;
  rr_persona_anchor : string;
  rr_root_statement_sha256 : string;
  rr_issued_at : Z;
  rr_initial_key_fingerprint : string;
}.
Inductive PersonaTransitionReason := Routine.
Record PersonaTransitionStatement := {
  ts_schema : string;
  ts_canonicalization : string;
  ts_persona_anchor : string;
  ts_persona : string;
  ts_sequence : N;
  ts_issued_at : Z;
  ts_root_statement_sha256 : string;
  ts_previous_transition_sha256 : option string;
  ts_previous_key_fingerprint : string;
  ts_next_key_fingerprint : string;
  ts_reason : PersonaTransitionReason;
}.
Record PersonaTransitionReview := {
  tr_persona : string;
  tr_persona_anchor : string;
  tr_root_statement_sha256 : string;
  tr_sequence : N;
  tr_previous_transition_sha256 : option string;
  tr_previous_key_fingerprint : string;
  tr_next_key_fingerprint : string;
  tr_issued_at : Z;
  tr_transition_statement_sha256 : string;
}.
Record PersonaTransitionProof := {
  tp_schema : string;
  tp_payload : string;
  tp_signatures : list ContinuitySignature;
}.
Record PersonaContinuityCheckpoint := {
  cp_transition_sequence : N;
  cp_transition_sha256 : option string;
}.
Record VerifiedPersonaRoot := {
  vpr_statement : PersonaRootStatement;
  vpr_root_statement_sha256 : string;
  vpr_initial_public_key : string;
}.
Record VerifiedPersonaTransition := {
  vpt_statement : PersonaTransitionStatement;
  vpt_transition_statement_sha256 : string;
  vpt_previous_public_key : string;
  vpt_next_public_key : string;
}.
Record VerifiedPersonaTransitionReceipt := { receipt_transition : VerifiedPersonaTransition }.
Record ContinuityChainReport := {
  cr_root_signature : EvidenceStatus;
  cr_expected_root_digest : EvidenceStatus;
  cr_chain : EvidenceStatus;
  cr_persona : string;
  cr_persona_anchor : string;
  cr_root_statement_sha256 : string;
  cr_initial_key_fingerprint : string;
  cr_chain_tip_key_fingerprint : string;
  cr_transition_count : N;
  cr_last_issued_at : Z;
  cr_last_transition_sha256 : option string;
  cr_expected_head_checkpoint : option EvidenceStatus;
  cr_not_established : list string;
}.
Record VerifiedPersonaContinuityChain := {
  vc_root : VerifiedPersonaRoot;
  vc_transitions : list VerifiedPersonaTransition;
  vc_report : ContinuityChainReport;
}.

#[export] Instance ContinuitySignatureRole_eq_dec : EqDecision ContinuitySignatureRole.
Proof. solve_decision. Defined.
#[export] Instance PersonaTransitionReason_eq_dec : EqDecision PersonaTransitionReason.
Proof. solve_decision. Defined.
#[export] Instance EvidenceStatus_eq_dec : EqDecision EvidenceStatus.
Proof. solve_decision. Defined.
#[export] Instance PersonaRootStatement_eq_dec : EqDecision PersonaRootStatement.
Proof. solve_decision. Defined.
#[export] Instance PersonaTransitionStatement_eq_dec : EqDecision PersonaTransitionStatement.
Proof. solve_decision. Defined.
#[export] Instance VerifiedPersonaRoot_eq_dec : EqDecision VerifiedPersonaRoot.
Proof. solve_decision. Defined.
#[export] Instance VerifiedPersonaTransition_eq_dec : EqDecision VerifiedPersonaTransition.
Proof. solve_decision. Defined.
#[export] Instance ContinuityChainReport_eq_dec : EqDecision ContinuityChainReport.
Proof. solve_decision. Defined.

Abbreviation invalid_continuity_statement := InvalidContinuityStatement (only parsing).
Abbreviation invalid_continuity_proof := InvalidContinuityProof (only parsing).

Section continuity.
Context {crates : Crates}.

(** ** Field validators *)

Definition validate_persona_anchor (anchor : string) : Result unit :=
  decoded ← map_err (λ _, InvalidContinuityAnchor "expected canonical unpadded Base64url")
    (of_sum (URL_SAFE_NO_PAD_decode anchor));
  reject_if (negb (len decoded =? PERSONA_ANCHOR_BYTES)%N ||
             (URL_SAFE_NO_PAD_encode decoded != anchor))
    (InvalidContinuityAnchor "expected exactly 32 random bytes in canonical unpadded Base64url").

Definition validate_canonical_persona (persona : string) : Result string :=
  canonical ← validate_persona persona;
  reject_if (canonical != persona)
    (invalid_continuity_statement "persona must not contain surrounding whitespace");;
  Ok canonical.

Definition validate_jcs_time (field : string) (value : Z) : Result unit :=
  if ((0 <=? value) && (value <=? MAX_JCS_SAFE_INTEGER))%Z then Ok tt
  else Err (invalid_continuity_statement
    (field +:+ " must be an exact non-negative RFC 8785 integer")).

Definition validate_sha256 (field value : string) : Result unit :=
  if (str_len value =? SHA256_HEX_BYTES)%N && str_all is_lower_hex value then Ok tt
  else Err (invalid_continuity_statement
    (field +:+ " must be 64 lowercase hexadecimal characters")).

Definition validate_payload_bound (payload : bytes) : Result unit :=
  if (len payload <=? MAX_CONTINUITY_PAYLOAD_BYTES)%N then Ok tt
  else Err (invalid_continuity_proof
    ("payload exceeds " +:+ pretty MAX_CONTINUITY_PAYLOAD_BYTES +:+ " bytes")).

Definition decode_continuity_payload (encoded : string) : Result bytes :=
  payload ← decode_payload encoded;
  validate_payload_bound payload;;
  reject_if (URL_SAFE_NO_PAD_encode payload != encoded)
    (invalid_continuity_proof "payload is not canonical unpadded Base64url");;
  Ok payload.

Definition validate_signature (signature : ContinuitySignature)
    (expected_role : ContinuitySignatureRole) (expected_namespace : string) : Result string :=
  reject_if (cs_role signature != expected_role)
    (invalid_continuity_proof "signature role does not match its required key");;
  reject_if (cs_format signature != SIGNATURE_FORMAT)
    (invalid_continuity_proof ("unsupported signature format " +:+
      escape_untrusted_text_for_terminal (cs_format signature)));;
  reject_if (cs_namespace signature != expected_namespace)
    (invalid_continuity_proof ("unsupported signature namespace " +:+
      escape_untrusted_text_for_terminal (cs_namespace signature)));;
  reject_if (cs_public_key_format signature != PUBLIC_KEY_FORMAT)
    (invalid_continuity_proof ("unsupported public-key format " +:+
      escape_untrusted_text_for_terminal (cs_public_key_format signature)));;
  reject_if ((cs_value signature == "") ||
             (MAX_CONTINUITY_SIGNATURE_BYTES <? str_len (cs_value signature))%N)
    (invalid_continuity_proof ("signature must contain 1 through " +:+
      pretty MAX_CONTINUITY_SIGNATURE_BYTES +:+ " UTF-8 bytes"));;
  normalize_public_key (cs_public_key signature).

Definition new_signature (role : ContinuitySignatureRole) (value public_key : string) :
    ContinuitySignature :=
  {| cs_role := role;
     cs_format := SIGNATURE_FORMAT;
     cs_namespace :=
       match role with
       | RoleRoot => PERSONA_ROOT_NAMESPACE
       | RolePrevious | RoleNext => PERSONA_TRANSITION_NAMESPACE
       end;
     cs_value := value;
     cs_public_key_format := PUBLIC_KEY_FORMAT;
     cs_public_key := public_key |}.

Definition require_proof_schema (actual expected : string) : Result unit :=
  if actual == expected then Ok tt
  else Err (invalid_continuity_proof ("unsupported proof schema " +:+
    escape_untrusted_text_for_terminal actual +:+ "; expected " +:+ expected)).

Definition sha256_hex (bs : bytes) : string := lower_hex (Sha256_digest bs).

(** ** Statement validators *)

Definition validate_persona_root_statement (statement : PersonaRootStatement) : Result unit :=
  reject_if (rs_schema statement != PERSONA_ROOT_STATEMENT_SCHEMA)
    (invalid_continuity_statement ("unsupported root schema " +:+
      escape_untrusted_text_for_terminal (rs_schema statement)));;
  reject_if (rs_canonicalization statement != CONTINUITY_CANONICALIZATION)
    (invalid_continuity_statement ("unsupported canonicalization " +:+
      escape_untrusted_text_for_terminal (rs_canonicalization statement)));;
  validate_persona_anchor (rs_persona_anchor statement);;
  _ ← validate_canonical_persona (rs_persona statement);
  reject_if (negb (rs_root_version statement =? 1)%N)
    (invalid_continuity_statement "root_version must be exactly 1");;
  validate_jcs_time "root issued_at" (rs_issued_at statement);;
  validate_key_fingerprint (rs_initial_key_fingerprint statement).

Definition validate_persona_transition_statement (statement : PersonaTransitionStatement) :
    Result unit :=
  reject_if (ts_schema statement != PERSONA_TRANSITION_STATEMENT_SCHEMA)
    (invalid_continuity_statement ("unsupported transition schema " +:+
      escape_untrusted_text_for_terminal (ts_schema statement)));;
  reject_if (ts_canonicalization statement != CONTINUITY_CANONICALIZATION)
    (invalid_continuity_statement ("unsupported canonicalization " +:+
      escape_untrusted_text_for_terminal (ts_canonicalization statement)));;
  validate_persona_anchor (ts_persona_anchor statement);;
  _ ← validate_canonical_persona (ts_persona statement);
  reject_if (ts_sequence statement =? 0)%N
    (invalid_continuity_statement "transition sequence must start at 1");;
  validate_jcs_time "transition issued_at" (ts_issued_at statement);;
  validate_sha256 "root statement digest" (ts_root_statement_sha256 statement);;
  match (ts_sequence statement =? 1)%N, ts_previous_transition_sha256 statement with
  | true, None => Ok tt
  | true, Some _ => Err (invalid_continuity_statement
      "transition 1 cannot name a previous transition digest")
  | false, Some digest => validate_sha256 "previous transition digest" digest
  | false, None => Err (invalid_continuity_statement
      "transitions after sequence 1 require a previous transition digest")
  end;;
  validate_key_fingerprint (ts_previous_key_fingerprint statement);;
  validate_key_fingerprint (ts_next_key_fingerprint statement);;
  reject_if (ts_previous_key_fingerprint statement == ts_next_key_fingerprint statement)
    (invalid_continuity_statement "previous and next keys must be distinct");;
  reject_if (ts_reason statement != Routine)
    (invalid_continuity_statement "this proof type supports routine dual-signed transitions only").

Section json.
Context {keygen : SshKeygen}
  {json_root : Serde PersonaRootStatement} {json_root_proof : Serde PersonaRootProof}
  {json_transition : Serde PersonaTransitionStatement}
  {json_transition_proof : Serde PersonaTransitionProof}.

(** ** Persona roots *)

Definition canonical_persona_root_statement_bytes (statement : PersonaRootStatement) :
    Result bytes :=
  validate_persona_root_statement statement;;
  bs ← map_err Json (of_sum (jcs_to_vec statement));
  validate_payload_bound bs;;
  Ok bs.

Definition persona_root_statement_sha256 (statement : PersonaRootStatement) : Result string :=
  bs ← canonical_persona_root_statement_bytes statement;
  Ok (sha256_hex bs).

Definition new_persona_root_statement_with_anchor (persona_anchor persona : string)
    (issued_at : Z) (initial_public_key : string) : Result PersonaRootStatement :=
  validate_persona_anchor persona_anchor;;
  persona ← validate_canonical_persona persona;
  validate_jcs_time "root issued_at" issued_at;;
  initial_public_key ← normalize_public_key initial_public_key;
  initial_key_fingerprint ← public_key_fingerprint initial_public_key;
  let statement :=
    {| rs_schema := PERSONA_ROOT_STATEMENT_SCHEMA;
       rs_canonicalization := CONTINUITY_CANONICALIZATION;
       rs_persona_anchor := persona_anchor;
       rs_persona := persona;
       rs_root_version := 1;
       rs_issued_at := issued_at;
       rs_initial_key_fingerprint := initial_key_fingerprint |} in
  validate_persona_root_statement statement;;
  Ok statement.

(** [anchor] is what [getrandom::fill] gave. *)
Definition new_persona_root_statement (anchor : option bytes) (persona : string)
    (issued_at : Z) (initial_public_key : string) : Result PersonaRootStatement :=
  anchor ← ok_or anchor EntropyUnavailable;
  new_persona_root_statement_with_anchor (URL_SAFE_NO_PAD_encode anchor) persona issued_at
    initial_public_key.

Definition review_persona_root_statement (statement : PersonaRootStatement) (now : Z)
    (initial_public_key persona : string) : Result PersonaRootReview :=
  payload ← canonical_persona_root_statement_bytes statement;
  validate_jcs_time "root review time" now;;
  reject_if ((rs_issued_at statement <?
                saturating_sub_i64 now CONTINUITY_ROOT_CLOCK_SKEW_SECONDS)%Z ||
             (saturating_add_i64 now CONTINUITY_ROOT_CLOCK_SKEW_SECONDS <?
                rs_issued_at statement)%Z)
    (invalid_continuity_statement ("root issued_at must be within " +:+
      pretty CONTINUITY_ROOT_CLOCK_SKEW_SECONDS +:+ " seconds of trusted review time"));;
  persona ← validate_canonical_persona persona;
  reject_if (rs_persona statement != persona)
    (invalid_continuity_statement "root persona does not match the selected persona");;
  initial_public_key ← normalize_public_key initial_public_key;
  fingerprint ← public_key_fingerprint initial_public_key;
  reject_if (fingerprint != rs_initial_key_fingerprint statement) FingerprintMismatch;;
  Ok {| rr_persona := rs_persona statement;
        rr_persona_anchor := rs_persona_anchor statement;
        rr_root_statement_sha256 := sha256_hex payload;
        rr_issued_at := rs_issued_at statement;
        rr_initial_key_fingerprint := rs_initial_key_fingerprint statement |}.

Definition review_persona_root_statement_bytes (bs : bytes) (now : Z)
    (initial_public_key persona : string) : Result (PersonaRootStatement * PersonaRootReview) :=
  statement ← map_err invalid_continuity_statement
    (parse_bounded_json bs MAX_CONTINUITY_PAYLOAD_BYTES "persona root statement");
  review ← review_persona_root_statement statement now initial_public_key persona;
  canonical ← canonical_persona_root_statement_bytes statement;
  reject_if (canonical != bs) NonCanonicalContinuityStatement;;
  Ok (statement, review).

Record PersonaRootProofPreflight := {
  rpf_payload : bytes;
  rpf_statement : PersonaRootStatement;
  rpf_public_key : string;
}.

Definition preflight_persona_root_proof (proof : PersonaRootProof) :
    Result PersonaRootProofPreflight :=
  require_proof_schema (rp_schema proof) PERSONA_ROOT_PROOF_SCHEMA;;
  payload ← decode_continuity_payload (rp_payload proof);
  statement ← map_err invalid_continuity_statement
    (parse_bounded_json payload MAX_CONTINUITY_PAYLOAD_BYTES "persona root statement");
  canonical ← canonical_persona_root_statement_bytes statement;
  reject_if (canonical != payload) NonCanonicalContinuityStatement;;
  public_key ← validate_signature (rp_signature proof) RoleRoot PERSONA_ROOT_NAMESPACE;
  fingerprint ← public_key_fingerprint public_key;
  reject_if (fingerprint != rs_initial_key_fingerprint statement) FingerprintMismatch;;
  Ok {| rpf_payload := payload; rpf_statement := statement; rpf_public_key := public_key |}.

Definition parse_persona_root_proof_bytes (bs : bytes) : Result PersonaRootProof :=
  proof ← map_err invalid_continuity_proof
    (parse_bounded_json bs MAX_PROOF_BYTES "persona root proof");
  _ ← preflight_persona_root_proof proof;
  Ok proof.

Definition create_persona_root_proof (statement : PersonaRootStatement)
    (private_key_path initial_public_key : string) : Result PersonaRootProof :=
  payload ← canonical_persona_root_statement_bytes statement;
  public_key ← normalize_public_key initial_public_key;
  fingerprint ← public_key_fingerprint public_key;
  reject_if (fingerprint != rs_initial_key_fingerprint statement) FingerprintMismatch;;
  value ← sshsig_sign payload private_key_path PERSONA_ROOT_NAMESPACE;
  sshsig_verify payload value public_key PERSONA_ROOT_NAMESPACE;;
  Ok {| rp_schema := PERSONA_ROOT_PROOF_SCHEMA;
        rp_payload := URL_SAFE_NO_PAD_encode payload;
        rp_signature := new_signature RoleRoot value public_key |}.

Definition verify_persona_root_proof (proof : PersonaRootProof) : Result VerifiedPersonaRoot :=
  pre ← preflight_persona_root_proof proof;
  sshsig_verify (rpf_payload pre) (cs_value (rp_signature proof)) (rpf_public_key pre)
    PERSONA_ROOT_NAMESPACE;;
  Ok {| vpr_root_statement_sha256 := sha256_hex (rpf_payload pre);
        vpr_statement := rpf_statement pre;
        vpr_initial_public_key := rpf_public_key pre |}.

(** ** Routine transitions *)

Definition new_routine_transition_statement (root : VerifiedPersonaRoot) (sequence : N)
    (previous_transition_sha256 : option string) (previous_public_key next_public_key : string)
    (issued_at : Z) : Result PersonaTransitionStatement :=
  previous_public_key ← normalize_public_key previous_public_key;
  next_public_key ← normalize_public_key next_public_key;
  previous_key_fingerprint ← public_key_fingerprint previous_public_key;
  next_key_fingerprint ← public_key_fingerprint next_public_key;
  reject_if ((sequence =? 1)%N &&
             (previous_key_fingerprint != rs_initial_key_fingerprint (vpr_statement root)))
    (invalid_continuity_statement "sequence 1 must start from the root's initial key");;
  reject_if (issued_at <? rs_issued_at (vpr_statement root))%Z
    (invalid_continuity_statement "a transition cannot predate its persona root");;
  let statement :=
    {| ts_schema := PERSONA_TRANSITION_STATEMENT_SCHEMA;
       ts_canonicalization := CONTINUITY_CANONICALIZATION;
       ts_persona_anchor := rs_persona_anchor (vpr_statement root);
       ts_persona := rs_persona (vpr_statement root);
       ts_sequence := sequence;
       ts_issued_at := issued_at;
       ts_root_statement_sha256 := vpr_root_statement_sha256 root;
       ts_previous_transition_sha256 := previous_transition_sha256;
       ts_previous_key_fingerprint := previous_key_fingerprint;
       ts_next_key_fingerprint := next_key_fingerprint;
       ts_reason := Routine |} in
  validate_persona_transition_statement statement;;
  Ok statement.

Definition canonical_persona_transition_statement_bytes (statement : PersonaTransitionStatement) :
    Result bytes :=
  validate_persona_transition_statement statement;;
  bs ← map_err Json (of_sum (jcs_to_vec statement));
  validate_payload_bound bs;;
  Ok bs.

Definition persona_transition_statement_sha256 (statement : PersonaTransitionStatement) :
    Result string :=
  bs ← canonical_persona_transition_statement_bytes statement;
  Ok (sha256_hex bs).

(** [fp(previous)? != a || fp(next)? != b]: the second fingerprint is only
    computed when the first agrees. *)
Definition require_key_pair (previous_public_key next_public_key : string)
    (previous_key_fingerprint next_key_fingerprint : string) : Result unit :=
  previous ← public_key_fingerprint previous_public_key;
  reject_if (previous != previous_key_fingerprint) FingerprintMismatch;;
  next ← public_key_fingerprint next_public_key;
  reject_if (next != next_key_fingerprint) FingerprintMismatch.

Definition review_persona_transition_statement (statement : PersonaTransitionStatement) (now : Z)
    (root : VerifiedPersonaRoot) (expected_sequence : N)
    (expected_previous_transition_sha256 : option string)
    (previous_public_key next_public_key : string) : Result PersonaTransitionReview :=
  payload ← canonical_persona_transition_statement_bytes statement;
  validate_jcs_time "transition review time" now;;
  reject_if ((ts_issued_at statement <?
                saturating_sub_i64 now CONTINUITY_TRANSITION_CLOCK_SKEW_SECONDS)%Z ||
             (saturating_add_i64 now CONTINUITY_TRANSITION_CLOCK_SKEW_SECONDS <?
                ts_issued_at statement)%Z)
    (invalid_continuity_statement ("transition issued_at must be within " +:+
      pretty CONTINUITY_TRANSITION_CLOCK_SKEW_SECONDS +:+ " seconds of trusted review time"));;
  actual_root_statement_sha256 ← persona_root_statement_sha256 (vpr_statement root);
  reject_if (vpr_root_statement_sha256 root != actual_root_statement_sha256)
    (invalid_continuity_statement "verified root statement and digest are inconsistent");;
  reject_if ((ts_persona statement != rs_persona (vpr_statement root)) ||
             (ts_persona_anchor statement != rs_persona_anchor (vpr_statement root)) ||
             (ts_root_statement_sha256 statement != vpr_root_statement_sha256 root))
    (invalid_continuity_statement "transition does not match the expected persona root");;
  reject_if (ts_sequence statement != expected_sequence)
    (invalid_continuity_statement "transition sequence does not match the expected continuity head");;
  reject_if (ts_previous_transition_sha256 statement != expected_previous_transition_sha256)
    (invalid_continuity_statement
      "previous transition digest does not match the expected continuity head");;
  previous_public_key ← normalize_public_key previous_public_key;
  next_public_key ← normalize_public_key next_public_key;
  require_key_pair previous_public_key next_public_key
    (ts_previous_key_fingerprint statement) (ts_next_key_fingerprint statement);;
  Ok {| tr_persona := ts_persona statement;
        tr_persona_anchor := ts_persona_anchor statement;
        tr_root_statement_sha256 := ts_root_statement_sha256 statement;
        tr_sequence := ts_sequence statement;
        tr_previous_transition_sha256 := ts_previous_transition_sha256 statement;
        tr_previous_key_fingerprint := ts_previous_key_fingerprint statement;
        tr_next_key_fingerprint := ts_next_key_fingerprint statement;
        tr_issued_at := ts_issued_at statement;
        tr_transition_statement_sha256 := sha256_hex payload |}.

Definition review_persona_transition_statement_bytes (bs : bytes) (now : Z)
    (root : VerifiedPersonaRoot) (expected_sequence : N)
    (expected_previous_transition_sha256 : option string)
    (previous_public_key next_public_key : string) :
    Result (PersonaTransitionStatement * PersonaTransitionReview) :=
  statement ← map_err invalid_continuity_statement
    (parse_bounded_json bs MAX_CONTINUITY_PAYLOAD_BYTES "persona transition statement");
  review ← review_persona_transition_statement statement now root expected_sequence
    expected_previous_transition_sha256 previous_public_key next_public_key;
  canonical ← canonical_persona_transition_statement_bytes statement;
  reject_if (canonical != bs) NonCanonicalContinuityStatement;;
  Ok (statement, review).

Record PersonaTransitionProofPreflight := {
  tpf_payload : bytes;
  tpf_statement : PersonaTransitionStatement;
  tpf_previous : ContinuitySignature;
  tpf_next : ContinuitySignature;
  tpf_previous_public_key : string;
  tpf_next_public_key : string;
}.

(** The loop over the signatures: at most one of each role, no root role. *)
Definition take_signature
    (found : option ContinuitySignature * option ContinuitySignature)
    (signature : ContinuitySignature) :
    Result (option ContinuitySignature * option ContinuitySignature) :=
  match cs_role signature, found with
  | RolePrevious, (None, next) => Ok (Some signature, next)
  | RoleNext, (previous, None) => Ok (previous, Some signature)
  | RolePrevious, _ | RoleNext, _ =>
      Err (invalid_continuity_proof "duplicate transition signature role")
  | RoleRoot, _ =>
      Err (invalid_continuity_proof "a root signature cannot authorize a routine transition role")
  end.

Definition preflight_persona_transition_proof (proof : PersonaTransitionProof) :
    Result PersonaTransitionProofPreflight :=
  require_proof_schema (tp_schema proof) PERSONA_TRANSITION_PROOF_SCHEMA;;
  reject_if (negb (len (tp_signatures proof) =? 2)%N)
    (invalid_continuity_proof "a routine transition requires exactly two signatures");;
  payload ← decode_continuity_payload (tp_payload proof);
  statement ← map_err invalid_continuity_statement
    (parse_bounded_json payload MAX_CONTINUITY_PAYLOAD_BYTES "persona transition statement");
  canonical ← canonical_persona_transition_statement_bytes statement;
  reject_if (canonical != payload) NonCanonicalContinuityStatement;;
  '(previous, next) ← fold_result take_signature (None, None) (tp_signatures proof);
  previous ← ok_or previous
    (invalid_continuity_proof "missing previous-key transition signature");
  next ← ok_or next (invalid_continuity_proof "missing next-key transition signature");
  previous_public_key ← validate_signature previous RolePrevious PERSONA_TRANSITION_NAMESPACE;
  next_public_key ← validate_signature next RoleNext PERSONA_TRANSITION_NAMESPACE;
  require_key_pair previous_public_key next_public_key
    (ts_previous_key_fingerprint statement) (ts_next_key_fingerprint statement);;
  Ok {| tpf_payload := payload;
        tpf_statement := statement;
        tpf_previous := previous;
        tpf_next := next;
        tpf_previous_public_key := previous_public_key;
        tpf_next_public_key := next_public_key |}.

Definition validate_persona_transition_proof_structure (proof : PersonaTransitionProof) :
    Result unit :=
  _ ← preflight_persona_transition_proof proof; Ok tt.

Definition parse_persona_transition_proof_bytes (bs : bytes) : Result PersonaTransitionProof :=
  proof ← map_err invalid_continuity_proof
    (parse_bounded_json bs MAX_PROOF_BYTES "persona transition proof");
  _ ← preflight_persona_transition_proof proof;
  Ok proof.

Definition create_routine_transition_proof (statement : PersonaTransitionStatement)
    (previous_private_key_path previous_public_key next_private_key_path next_public_key : string) :
    Result PersonaTransitionProof :=
  payload ← canonical_persona_transition_statement_bytes statement;
  previous_public_key ← normalize_public_key previous_public_key;
  next_public_key ← normalize_public_key next_public_key;
  require_key_pair previous_public_key next_public_key
    (ts_previous_key_fingerprint statement) (ts_next_key_fingerprint statement);;
  previous_value ← sshsig_sign payload previous_private_key_path PERSONA_TRANSITION_NAMESPACE;
  sshsig_verify payload previous_value previous_public_key PERSONA_TRANSITION_NAMESPACE;;
  next_value ← sshsig_sign payload next_private_key_path PERSONA_TRANSITION_NAMESPACE;
  sshsig_verify payload next_value next_public_key PERSONA_TRANSITION_NAMESPACE;;
  Ok {| tp_schema := PERSONA_TRANSITION_PROOF_SCHEMA;
        tp_payload := URL_SAFE_NO_PAD_encode payload;
        tp_signatures :=
          [new_signature RolePrevious previous_value previous_public_key;
           new_signature RoleNext next_value next_public_key] |}.

Definition verify_persona_transition_proof_with_receipt (proof : PersonaTransitionProof) :
    Result VerifiedPersonaTransitionReceipt :=
  pre ← preflight_persona_transition_proof proof;
  sshsig_verify (tpf_payload pre) (cs_value (tpf_previous pre)) (tpf_previous_public_key pre)
    PERSONA_TRANSITION_NAMESPACE;;
  sshsig_verify (tpf_payload pre) (cs_value (tpf_next pre)) (tpf_next_public_key pre)
    PERSONA_TRANSITION_NAMESPACE;;
  Ok {| receipt_transition :=
          {| vpt_transition_statement_sha256 := sha256_hex (tpf_payload pre);
             vpt_statement := tpf_statement pre;
             vpt_previous_public_key := tpf_previous_public_key pre;
             vpt_next_public_key := tpf_next_public_key pre |} |}.

Definition verify_persona_transition_proof (proof : PersonaTransitionProof) :
    Result VerifiedPersonaTransition :=
  receipt ← verify_persona_transition_proof_with_receipt proof;
  Ok (receipt_transition receipt).

(** ** Chains *)

Definition chain_mismatch (reason : string) : ProofError := ContinuityChainMismatch reason.

Definition validate_verified_transition_at_head (root : VerifiedPersonaRoot)
    (verified : VerifiedPersonaTransition) (expected_sequence : N)
    (expected_previous_transition_sha256 : option string)
    (expected_previous_key_fingerprint : string) (previous_issued_at : Z) : Result unit :=
  let statement := vpt_statement verified in
  reject_if (ts_sequence statement != expected_sequence)
    (chain_mismatch ("transition sequence " +:+ pretty (ts_sequence statement) +:+
      " is out of order; expected " +:+ pretty expected_sequence));;
  reject_if ((ts_persona_anchor statement != rs_persona_anchor (vpr_statement root)) ||
             (ts_persona statement != rs_persona (vpr_statement root)) ||
             (ts_root_statement_sha256 statement != vpr_root_statement_sha256 root))
    (chain_mismatch "transition is bound to a different persona root");;
  reject_if (ts_previous_transition_sha256 statement != expected_previous_transition_sha256)
    (chain_mismatch "transition does not link to the exact previous statement");;
  reject_if (ts_previous_key_fingerprint statement != expected_previous_key_fingerprint)
    (chain_mismatch "transition previous key is not the chain's current key");;
  reject_if (ts_issued_at statement <? previous_issued_at)%Z
    (chain_mismatch "transition issuance times move backward").

(** The locals of the chain loop. *)
Record ChainState := {
  ch_index : N;
  ch_current_key_fingerprint : string;
  ch_previous_transition_sha256 : option string;
  ch_previous_issued_at : Z;
  ch_verified_transitions : list VerifiedPersonaTransition;
}.

Definition chain_start (root : VerifiedPersonaRoot) : ChainState :=
  {| ch_index := 0;
     ch_current_key_fingerprint := rs_initial_key_fingerprint (vpr_statement root);
     ch_previous_transition_sha256 := None;
     ch_previous_issued_at := rs_issued_at (vpr_statement root);
     ch_verified_transitions := [] |}.

Definition chain_push (st : ChainState) (verified : VerifiedPersonaTransition) : ChainState :=
  {| ch_index := ch_index st + 1;
     ch_current_key_fingerprint := ts_next_key_fingerprint (vpt_statement verified);
     ch_previous_transition_sha256 := Some (vpt_transition_statement_sha256 verified);
     ch_previous_issued_at := ts_issued_at (vpt_statement verified);
     ch_verified_transitions := ch_verified_transitions st ++ [verified] |}.

Definition chain_step (root : VerifiedPersonaRoot) (st : ChainState)
    (proof : PersonaTransitionProof) : Result ChainState :=
  verified ← verify_persona_transition_proof proof;
  expected_sequence ← expect (u32_try_from (ch_index st + 1))
    "bounded continuity chain length fits in u32";
  validate_verified_transition_at_head root verified expected_sequence
    (ch_previous_transition_sha256 st) (ch_current_key_fingerprint st)
    (ch_previous_issued_at st);;
  Ok (chain_push st verified).

Definition too_many_transitions : ProofError :=
  chain_mismatch ("chain cannot contain more than " +:+ pretty MAX_CONTINUITY_TRANSITIONS +:+
    " transitions").

Definition verify_persona_continuity_chain_with_verified_sequence (root_proof : PersonaRootProof)
    (transitions : list PersonaTransitionProof) (expected_root_statement_sha256 : string) :
    Result VerifiedPersonaContinuityChain :=
  validate_sha256 "expected root statement digest" expected_root_statement_sha256;;
  reject_if (MAX_CONTINUITY_TRANSITIONS <? len transitions)%N too_many_transitions;;
  root ← verify_persona_root_proof root_proof;
  reject_if (vpr_root_statement_sha256 root != expected_root_statement_sha256)
    (chain_mismatch "root statement digest does not match the independently expected digest");;
  st ← fold_result (chain_step root) (chain_start root) transitions;
  transition_count ← expect (u32_try_from (len transitions))
    "bounded continuity chain length fits in u32";
  let report :=
    {| cr_root_signature := Verified;
       cr_expected_root_digest := Verified;
       cr_chain := Verified;
       cr_persona := rs_persona (vpr_statement root);
       cr_persona_anchor := rs_persona_anchor (vpr_statement root);
       cr_root_statement_sha256 := vpr_root_statement_sha256 root;
       cr_initial_key_fingerprint := rs_initial_key_fingerprint (vpr_statement root);
       cr_chain_tip_key_fingerprint := ch_current_key_fingerprint st;
       cr_transition_count := transition_count;
       cr_last_issued_at := ch_previous_issued_at st;
       cr_last_transition_sha256 := ch_previous_transition_sha256 st;
       cr_expected_head_checkpoint := None;
       cr_not_established :=
         ["when_or_how_the_root_digest_was_pinned";
          "whether_a_newer_or_competing_transition_was_withheld";
          "legal_identity";
          "current_key_authorization_or_non_revocation";
          "recovery_authority";
          "artifact_or_software_safety"] |} in
  Ok {| vc_root := root; vc_transitions := ch_verified_transitions st; vc_report := report |}.

Definition verify_persona_continuity_chain (root_proof : PersonaRootProof)
    (transitions : list PersonaTransitionProof) (expected_root_statement_sha256 : string) :
    Result ContinuityChainReport :=
  chain ← verify_persona_continuity_chain_with_verified_sequence root_proof transitions
    expected_root_statement_sha256;
  Ok (vc_report chain).

Definition require_persona_continuity_chain_extension_capacity
    (chain : VerifiedPersonaContinuityChain) : Result unit :=
  reject_if (MAX_CONTINUITY_TRANSITIONS <=? len (vc_transitions chain))%N too_many_transitions.

Definition validate_verified_persona_continuity_chain_extension
    (chain : VerifiedPersonaContinuityChain) (receipt : VerifiedPersonaTransitionReceipt) :
    Result unit :=
  require_persona_continuity_chain_extension_capacity chain;;
  let verified := receipt_transition receipt in
  expected_sequence ← ok_or (checked_add_u32 (cr_transition_count (vc_report chain)) 1)
    (chain_mismatch "transition sequence overflow");
  validate_verified_transition_at_head (vc_root chain) verified expected_sequence
    (cr_last_transition_sha256 (vc_report chain)) (cr_chain_tip_key_fingerprint (vc_report chain))
    (cr_last_issued_at (vc_report chain)).

Definition verify_persona_continuity_chain_extension (chain : VerifiedPersonaContinuityChain)
    (proof : PersonaTransitionProof) : Result VerifiedPersonaTransition :=
  require_persona_continuity_chain_extension_capacity chain;;
  receipt ← verify_persona_transition_proof_with_receipt proof;
  validate_verified_persona_continuity_chain_extension chain receipt;;
  Ok (receipt_transition receipt).

(** ** Checkpoints *)

Definition match_continuity_head_checkpoint (actual_sequence : N)
    (actual_transition_sha256 : option string) (expected : PersonaContinuityCheckpoint) :
    Result unit :=
  maximum_sequence ← expect (u32_try_from MAX_CONTINUITY_TRANSITIONS)
    "transition bound fits in u32";
  reject_if (maximum_sequence <? cp_transition_sequence expected)%N
    (chain_mismatch ("expected head sequence cannot exceed " +:+ pretty maximum_sequence));;
  match (cp_transition_sequence expected =? 0)%N, cp_transition_sha256 expected with
  | true, None => Ok tt
  | true, Some _ => Err (chain_mismatch
      "expected head sequence zero cannot name a transition digest")
  | false, Some digest => validate_sha256 "expected head transition digest" digest
  | false, None => Err (chain_mismatch
      "a nonzero expected head sequence requires a transition digest")
  end;;
  reject_if ((actual_sequence != cp_transition_sequence expected) ||
             (actual_transition_sha256 != cp_transition_sha256 expected))
    (chain_mismatch "supplied chain does not end at the independently expected checkpoint").

Definition verify_persona_continuity_chain_at_checkpoint (root_proof : PersonaRootProof)
    (transitions : list PersonaTransitionProof) (expected_root_statement_sha256 : string)
    (expected_head : PersonaContinuityCheckpoint) : Result ContinuityChainReport :=
  report ← verify_persona_continuity_chain root_proof transitions expected_root_statement_sha256;
  match_continuity_head_checkpoint (cr_transition_count report)
    (cr_last_transition_sha256 report) expected_head;;
  Ok {| cr_root_signature := cr_root_signature report;
        cr_expected_root_digest := cr_expected_root_digest report;
        cr_chain := cr_chain report;
        cr_persona := cr_persona report;
        cr_persona_anchor := cr_persona_anchor report;
        cr_root_statement_sha256 := cr_root_statement_sha256 report;
        cr_initial_key_fingerprint := cr_initial_key_fingerprint report;
        cr_chain_tip_key_fingerprint := cr_chain_tip_key_fingerprint report;
        cr_transition_count := cr_transition_count report;
        cr_last_issued_at := cr_last_issued_at report;
        cr_last_transition_sha256 := cr_last_transition_sha256 report;
        cr_expected_head_checkpoint := Some Verified;
        cr_not_established :=
          filter (λ claim, claim ≠ "whether_a_newer_or_competing_transition_was_withheld")
            (cr_not_established report) ++
          ["when_or_how_the_head_checkpoint_was_pinned";
           "whether_a_competing_transition_was_also_authorized_or_withheld";
           "whether_a_newer_transition_exists_after_the_expected_checkpoint"] |}.

End json.
End continuity.
