(* ===== verification/ContinuityFacts.v ===== *)
(** * Theorems about persona continuity

    [linked] is the abstract specification of a persona history: a relation
    between a verified root, the verified transitions so far and the head they
    end at. Verifying a chain is exactly deciding that relation; the history
    it accepts is determined by the pinned root digest and the head digest;
    extending a verified chain by one proof is verifying the longer chain;
    what is created verifies; and no input makes verification panic. *)

From stdpp Require Import base numbers list strings pretty option.
From Stdlib Require Import Strings.Byte Ascii.
From S2P Require Import Prelude Text Ordered Display Crates ArtifactProof ArtifactFacts.
From S2P Require Import Continuity.

Section facts.
Context {crates : Crates} {json_root : Serde PersonaRootStatement}
  {json_transition : Serde PersonaTransitionStatement}.

(** ** Panic freedom of the parts *)

Lemma validate_persona_anchor_no_panic a : no_panic (validate_persona_anchor a).
Proof. unfold validate_persona_anchor. no_panics. Qed.

Lemma validate_canonical_persona_no_panic p : no_panic (validate_canonical_persona p).
Proof. unfold validate_canonical_persona. no_panics. Qed.

Lemma validate_jcs_time_no_panic f v : no_panic (validate_jcs_time f v).
Proof. unfold validate_jcs_time. no_panics. Qed.

Lemma validate_sha256_no_panic f v : no_panic (validate_sha256 f v).
Proof. unfold validate_sha256. no_panics. Qed.

Lemma validate_payload_bound_no_panic p : no_panic (validate_payload_bound p).
Proof. unfold validate_payload_bound. no_panics. Qed.

Lemma decode_continuity_payload_no_panic p : no_panic (decode_continuity_payload p).
Proof.
  pose proof validate_payload_bound_no_panic. unfold decode_continuity_payload. no_panics.
Qed.

Lemma validate_signature_no_panic s r ns : no_panic (validate_signature s r ns).
Proof. unfold validate_signature. no_panics. Qed.

Lemma require_proof_schema_no_panic a e : no_panic (require_proof_schema a e).
Proof. unfold require_proof_schema. no_panics. Qed.

#[local] Hint Resolve validate_persona_anchor_no_panic validate_canonical_persona_no_panic
  validate_jcs_time_no_panic validate_sha256_no_panic validate_payload_bound_no_panic
  decode_continuity_payload_no_panic validate_signature_no_panic
  require_proof_schema_no_panic : panics.

Lemma canonical_root_no_panic st : no_panic (canonical_persona_root_statement_bytes st).
Proof.
  unfold canonical_persona_root_statement_bytes, validate_persona_root_statement. no_panics.
Qed.

Lemma canonical_transition_no_panic st : no_panic (canonical_persona_transition_statement_bytes st).
Proof.
  unfold canonical_persona_transition_statement_bytes, validate_persona_transition_statement.
  no_panics.
Qed.

Lemma require_key_pair_no_panic a b c d : no_panic (require_key_pair a b c d).
Proof. unfold require_key_pair. no_panics. Qed.

#[local] Hint Resolve canonical_root_no_panic canonical_transition_no_panic
  require_key_pair_no_panic : panics.

Lemma verify_persona_root_proof_no_panic p : no_panic (verify_persona_root_proof p).
Proof. unfold verify_persona_root_proof, preflight_persona_root_proof. no_panics. Qed.

Lemma take_signature_no_panic found s : no_panic (take_signature found s).
Proof. unfold take_signature. no_panics. Qed.

Lemma take_signatures_no_panic l : no_panic (fold_result take_signature (None, None) l).
Proof.
  apply no_panic_fold_result with (λ _, True); [done| |done]. intros. apply take_signature_no_panic.
Qed.

#[local] Hint Resolve take_signatures_no_panic : panics.

Lemma verify_with_receipt_no_panic p :
  no_panic (verify_persona_transition_proof_with_receipt p).
Proof.
  unfold verify_persona_transition_proof_with_receipt, preflight_persona_transition_proof.
  no_panics.
Qed.

Lemma verify_persona_transition_proof_no_panic p : no_panic (verify_persona_transition_proof p).
Proof.
  pose proof verify_with_receipt_no_panic. unfold verify_persona_transition_proof. no_panics.
Qed.

Lemma validate_at_head_no_panic r v s d k t :
  no_panic (validate_verified_transition_at_head r v s d k t).
Proof. unfold validate_verified_transition_at_head. no_panics. Qed.

(** ** The specification: linked histories *)

Record ChainHead := {
  hd_sequence : N;
  hd_key_fingerprint : string;
  hd_digest : option string;
  hd_issued_at : Z;
}.

Definition root_head (root : VerifiedPersonaRoot) : ChainHead :=
  {| hd_sequence := 0;
     hd_key_fingerprint := rs_initial_key_fingerprint (vpr_statement root);
     hd_digest := None;
     hd_issued_at := rs_issued_at (vpr_statement root) |}.

Definition transition_head (v : VerifiedPersonaTransition) : ChainHead :=
  {| hd_sequence := ts_sequence (vpt_statement v);
     hd_key_fingerprint := ts_next_key_fingerprint (vpt_statement v);
     hd_digest := Some (vpt_transition_statement_sha256 v);
     hd_issued_at := ts_issued_at (vpt_statement v) |}.

(** A transition continues a head of the root's history: it names the same
    persona, the next sequence number, the digest of the transition before it
    and the key that one installed, and does not go back in time. *)
Record continues (root : VerifiedPersonaRoot) (h : ChainHead) (v : VerifiedPersonaTransition) :
    Prop := {
  ct_sequence : ts_sequence (vpt_statement v) = (hd_sequence h + 1)%N;
  ct_anchor : ts_persona_anchor (vpt_statement v) = rs_persona_anchor (vpr_statement root);
  ct_persona : ts_persona (vpt_statement v) = rs_persona (vpr_statement root);
  ct_root : ts_root_statement_sha256 (vpt_statement v) = vpr_root_statement_sha256 root;
  ct_digest : ts_previous_transition_sha256 (vpt_statement v) = hd_digest h;
  ct_key : ts_previous_key_fingerprint (vpt_statement v) = hd_key_fingerprint h;
  ct_time : (hd_issued_at h <= ts_issued_at (vpt_statement v))%Z;
}.

Inductive linked (root : VerifiedPersonaRoot) : list VerifiedPersonaTransition → ChainHead → Prop :=
| linked_root : linked root [] (root_head root)
| linked_next vs h v :
    linked root vs h → continues root h v → linked root (vs ++ [v]) (transition_head v).

Definition report_head (r : ContinuityChainReport) : ChainHead :=
  {| hd_sequence := cr_transition_count r;
     hd_key_fingerprint := cr_chain_tip_key_fingerprint r;
     hd_digest := cr_last_transition_sha256 r;
     hd_issued_at := cr_last_issued_at r |}.

Definition state_head (st : ChainState) : ChainHead :=
  {| hd_sequence := ch_index st;
     hd_key_fingerprint := ch_current_key_fingerprint st;
     hd_digest := ch_previous_transition_sha256 st;
     hd_issued_at := ch_previous_issued_at st |}.

Lemma validate_at_head_Ok root v seq d k t :
  validate_verified_transition_at_head root v seq d k t = Ok tt ↔
  ts_sequence (vpt_statement v) = seq ∧
  ts_persona_anchor (vpt_statement v) = rs_persona_anchor (vpr_statement root) ∧
  ts_persona (vpt_statement v) = rs_persona (vpr_statement root) ∧
  ts_root_statement_sha256 (vpt_statement v) = vpr_root_statement_sha256 root ∧
  ts_previous_transition_sha256 (vpt_statement v) = d ∧
  ts_previous_key_fingerprint (vpt_statement v) = k ∧
  (t <= ts_issued_at (vpt_statement v))%Z.
Proof.
  unfold validate_verified_transition_at_head. autorewrite with ok. rewrite Z.ltb_ge. tauto.
Qed.

Lemma validate_at_head_continues root v h :
  validate_verified_transition_at_head root v (hd_sequence h + 1) (hd_digest h)
    (hd_key_fingerprint h) (hd_issued_at h) = Ok tt ↔ continues root h v.
Proof. rewrite validate_at_head_Ok. split; [intros; destruct_and!; by split|by intros []]. Qed.

Lemma linked_sequence root vs h : linked root vs h → hd_sequence h = len vs.
Proof.
  induction 1 as [|vs h v Hl IH Hc]; [done|]. cbn.
  rewrite (ct_sequence _ _ _ Hc), IH, len_app. done.
Qed.

(** ** The chain loop decides the specification *)

Lemma chain_step_Ok root st p st' :
  chain_step root st p = Ok st' ↔
  ∃ v, verify_persona_transition_proof p = Ok v ∧ continues root (state_head st) v ∧
    (ch_index st + 1 <= u32_max)%N ∧ st' = chain_push st v.
Proof.
  unfold chain_step. split.
  - intros H. unbind H as v Hv. unbind H as s Hs. rewrite seq_Ok in H. destruct H as [Hc [= <-]].
    oks Hs. subst. exists v. split_and!; [done| |done..].
    by apply (validate_at_head_continues root v (state_head st)).
  - intros (v & Hv & Hc & Hb & ->). rewrite Hv, bind_Ok_l.
    unfold u32_try_from. apply N.leb_le in Hb. rewrite Hb. cbn [expect]. rewrite bind_Ok_l.
    apply validate_at_head_continues in Hc. cbn in Hc. rewrite Hc. done.
Qed.

Lemma continues_push root st v :
  continues root (state_head st) v → state_head (chain_push st v) = transition_head v.
Proof.
  intros Hc. unfold state_head, transition_head. cbn.
  rewrite (ct_sequence _ _ _ Hc). done.
Qed.

Definition all_verify (ps : list PersonaTransitionProof) (vs : list VerifiedPersonaTransition) : Prop :=
  Forall2 (λ p v, verify_persona_transition_proof p = Ok v) ps vs.

Lemma chain_fold_sound root ps st :
  fold_result (chain_step root) (chain_start root) ps = Ok st →
  all_verify ps (ch_verified_transitions st) ∧
  linked root (ch_verified_transitions st) (state_head st).
Proof.
  apply (fold_result_ind _ (λ ps st, all_verify ps (ch_verified_transitions st) ∧
    linked root (ch_verified_transitions st) (state_head st))).
  - split; [constructor|]. apply linked_root.
  - intros done p s s' [Hv Hl] (v & Hp & Hc & _ & ->)%chain_step_Ok. split.
    + apply Forall2_app; [done|by repeat constructor].
    + rewrite (continues_push root) by done. by eapply linked_next.
Qed.

Lemma chain_fold_complete root ps vs h :
  all_verify ps vs → linked root vs h → (len ps <= u32_max)%N →
  ∃ st, fold_result (chain_step root) (chain_start root) ps = Ok st ∧
    ch_verified_transitions st = vs ∧ state_head st = h.
Proof.
  intros Hv Hl. revert ps Hv. induction Hl as [|vs h v Hl IH Hc]; intros ps Hv Hb.
  - inversion Hv; subst. by eexists.
  - apply Forall2_app_inv_r in Hv as (ps' & q & Hvs & Hq & ->).
    inversion Hq as [|p ? ? ? Hp Hnil]; subst. inversion Hnil; subst.
    rewrite len_app in Hb. destruct (IH ps' Hvs ltac:(lia)) as (st & Hf & <- & <-).
    exists (chain_push st v). rewrite fold_result_app, Hf, bind_Ok_l. cbn [fold_result].
    split_and!; [|done|by eapply continues_push].
    rewrite (proj2 (chain_step_Ok root st p (chain_push st v))); [done|].
    exists v. split_and!; [done..| |done].
    apply linked_sequence in Hl. cbn in Hl. rewrite Hl. unfold len in *.
    rewrite <- (Forall2_length Hvs). cbn in Hb. lia.
Qed.

Lemma validate_sha256_Ok field v : validate_sha256 field v = Ok tt ↔ is_sha256_hex v = true.
Proof.
  unfold validate_sha256, is_sha256_hex, SHA256_HEX_BYTES. case_match; naive_solver.
Qed.

(** What it means for a list of proofs to be a history of the pinned root. *)
Definition chain_accepted (root_proof : PersonaRootProof) (ps : list PersonaTransitionProof)
    (digest : string) (root : VerifiedPersonaRoot) (vs : list VerifiedPersonaTransition)
    (h : ChainHead) : Prop :=
  is_sha256_hex digest = true ∧ (len ps <= MAX_CONTINUITY_TRANSITIONS)%N ∧
  verify_persona_root_proof root_proof = Ok root ∧ vpr_root_statement_sha256 root = digest ∧
  all_verify ps vs ∧ linked root vs h.

Lemma chain_verified_sound root_proof ps digest chain :
  verify_persona_continuity_chain_with_verified_sequence root_proof ps digest = Ok chain →
  chain_accepted root_proof ps digest (vc_root chain) (vc_transitions chain)
    (report_head (vc_report chain)).
Proof.
  unfold verify_persona_continuity_chain_with_verified_sequence. rewrite !seq_Ok.
  intros (Hd & Hn & H). unbind H as root Hroot. rewrite seq_Ok in H. destruct H as [Hpin H].
  unbind H as st Hst. unbind H as c Hc. injection H as <-. oks Hn. oks Hpin. oks Hc. subst.
  apply N.ltb_ge in Hn. apply validate_sha256_Ok in Hd.
  apply chain_fold_sound in Hst as [Hv Hl]. split_and!; [done..|].
  replace (report_head _) with (state_head st); [done|].
  unfold state_head, report_head. cbn. f_equal.
  apply linked_sequence in Hl. cbn in Hl. rewrite Hl. unfold len.
  by rewrite (Forall2_length Hv).
Qed.

Lemma chain_verified_complete root_proof ps digest root vs h :
  chain_accepted root_proof ps digest root vs h →
  ∃ chain, verify_persona_continuity_chain_with_verified_sequence root_proof ps digest = Ok chain ∧
    vc_root chain = root ∧ vc_transitions chain = vs ∧ report_head (vc_report chain) = h.
Proof.
  intros (Hd & Hn & Hroot & Hpin & Hv & Hl).
  assert (len ps <= u32_max)%N as Hu by (unfold MAX_CONTINUITY_TRANSITIONS, u32_max in *; lia).
  destruct (chain_fold_complete _ _ _ _ Hv Hl Hu) as (st & Hst & <- & <-).
  unfold verify_persona_continuity_chain_with_verified_sequence.
  apply (validate_sha256_Ok "expected root statement digest") in Hd. rewrite Hd, bind_Ok_l.
  apply N.ltb_ge in Hn. rewrite Hn. cbn [reject_if]. rewrite bind_Ok_l, Hroot, bind_Ok_l.
  rewrite bool_decide_eq_true_2 by done. cbn [negb reject_if]. rewrite bind_Ok_l, Hst, bind_Ok_l.
  unfold u32_try_from. apply N.leb_le in Hu. rewrite Hu. cbn [expect]. rewrite bind_Ok_l.
  eexists. split; [done|]. split_and!; [done..|].
  unfold report_head, state_head. cbn. f_equal. apply linked_sequence in Hl. cbn in Hl.
  rewrite Hl. unfold len. by rewrite (Forall2_length Hv).
Qed.

(** C28: verifying a continuity chain is exactly deciding the specification:
    it succeeds, with this root, these transitions and this reported head, if
    and only if the pinned digest is well formed, the length is within the
    bound, the root proof verifies with the pinned digest, every transition
    proof verifies and the verified transitions are a linked history. *)
Theorem chain_verification_refines_linked root_proof ps digest root vs h :
  (∃ chain, verify_persona_continuity_chain_with_verified_sequence root_proof ps digest = Ok chain ∧
     vc_root chain = root ∧ vc_transitions chain = vs ∧ report_head (vc_report chain) = h) ↔
  chain_accepted root_proof ps digest root vs h.
Proof.
  split; [|apply chain_verified_complete].
  intros (chain & Hc & <- & <- & <-). by apply chain_verified_sound.
Qed.

(** ** What a linked history looks like *)

Definition key_before (root : VerifiedPersonaRoot) (vs : list VerifiedPersonaTransition) (i : nat) :
    option string :=
  match i with
  | O => Some (rs_initial_key_fingerprint (vpr_statement root))
  | S j => ts_next_key_fingerprint ∘ vpt_statement <$> vs !! j
  end.

Definition digest_before (vs : list VerifiedPersonaTransition) (i : nat) : option string :=
  match i with O => None | S j => vpt_transition_statement_sha256 <$> vs !! j end.

Definition time_before (root : VerifiedPersonaRoot) (vs : list VerifiedPersonaTransition) (i : nat) :
    option Z :=
  match i with
  | O => Some (rs_issued_at (vpr_statement root))
  | S j => ts_issued_at ∘ vpt_statement <$> vs !! j
  end.

Lemma linked_head_before root vs h :
  linked root vs h →
  key_before root vs (length vs) = Some (hd_key_fingerprint h) ∧
  digest_before vs (length vs) = hd_digest h ∧
  time_before root vs (length vs) = Some (hd_issued_at h).
Proof.
  destruct 1 as [|vs h v Hl Hc]; [done|].
  rewrite length_app, Nat.add_1_r. cbn. rewrite lookup_app_r, Nat.sub_diag by lia. done.
Qed.

Lemma before_app root vs ws i :
  i <= length vs →
  key_before root (vs ++ ws) i = key_before root vs i ∧
  digest_before (vs ++ ws) i = digest_before vs i ∧
  time_before root (vs ++ ws) i = time_before root vs i.
Proof. destruct i as [|i]; [done|]. intros Hi. cbn. by rewrite lookup_app_l by lia. Qed.

Lemma linked_lookup root vs h i v :
  linked root vs h → vs !! i = Some v →
  ∃ hb, continues root hb v ∧ hd_sequence hb = N.of_nat i ∧
    key_before root vs i = Some (hd_key_fingerprint hb) ∧
    digest_before vs i = hd_digest hb ∧ time_before root vs i = Some (hd_issued_at hb).
Proof.
  induction 1 as [|vs h w Hl IH Hc]; [done|]. intros Hi.
  apply lookup_snoc_Some in Hi as [[Hlt Hi]|[-> <-]].
  - destruct (IH Hi) as (hb & ? & ? & ? & ? & ?). exists hb.
    destruct (before_app root vs [w] i ltac:(lia)) as (-> & -> & ->). done.
  - exists h. destruct (before_app root vs [w] (length vs) ltac:(lia)) as (-> & -> & ->).
    pose proof (linked_head_before _ _ _ Hl). pose proof (linked_sequence _ _ _ Hl).
    destruct_and!. done.
Qed.

(** The transitions of a verified chain are numbered from one without a
    gap, each signed over by the key the previous one installed and naming
    the digest of the previous statement, all of one persona and root, in
    non-decreasing order of issue. *)
Theorem verified_chain_history root_proof ps digest chain i v :
  verify_persona_continuity_chain_with_verified_sequence root_proof ps digest = Ok chain →
  vc_transitions chain !! i = Some v →
  ts_sequence (vpt_statement v) = N.of_nat (S i) ∧
  ts_persona (vpt_statement v) = rs_persona (vpr_statement (vc_root chain)) ∧
  ts_persona_anchor (vpt_statement v) = rs_persona_anchor (vpr_statement (vc_root chain)) ∧
  ts_root_statement_sha256 (vpt_statement v) = digest ∧
  key_before (vc_root chain) (vc_transitions chain) i = Some (ts_previous_key_fingerprint (vpt_statement v)) ∧
  digest_before (vc_transitions chain) i = ts_previous_transition_sha256 (vpt_statement v) ∧
  ∃ t, time_before (vc_root chain) (vc_transitions chain) i = Some t ∧
    (t <= ts_issued_at (vpt_statement v))%Z.
Proof.
  intros (_ & _ & _ & Hpin & _ & Hl)%chain_verified_sound Hi.
  destruct (linked_lookup _ _ _ _ _ Hl Hi) as (hb & Hc & Hs & Hk & Hd & Ht).
  destruct Hc. split_and!; [|congruence..|]; [rewrite ct_sequence0, Hs; lia|eauto].
Qed.

(** ** The pinned digests determine the history *)

(** Two different byte strings with one digest, the first of them hashed on
    one side of a comparison and the second on the other. What each side
    hashed is a finite set: the canonical bytes of the statements at hand. *)
Definition sha256_collision (hashed hashed' : bytes → Prop) : Prop :=
  ∃ x y, hashed x ∧ hashed' y ∧ x ≠ y ∧ Sha256_digest x = Sha256_digest y.

Lemma sha256_collision_mono (P P' Q Q' : bytes → Prop) :
  (∀ x, P x → P' x) → (∀ x, Q x → Q' x) → sha256_collision P Q → sha256_collision P' Q'.
Proof. intros HP HQ (x & y & ? & ? & ? & ?). exists x, y. auto. Qed.

Lemma sha256_hex_binds (P Q : bytes → Prop) x y :
  P x → Q y → sha256_hex x = sha256_hex y → x = y ∨ sha256_collision P Q.
Proof.
  intros HP HQ H%lower_hex_inj. destruct (decide (x = y)); [by left|]. right. by exists x, y.
Qed.

(** The bytes that were hashed for a root, and for the transitions of a chain. *)
Definition root_payload (root : VerifiedPersonaRoot) (x : bytes) : Prop :=
  canonical_persona_root_statement_bytes (vpr_statement root) = Ok x.

Definition transition_payload (vs : list VerifiedPersonaTransition) (x : bytes) : Prop :=
  ∃ v, v ∈ vs ∧ canonical_persona_transition_statement_bytes (vpt_statement v) = Ok x.

Lemma parse_bounded_json_Ok {T} `{!Serde T} bs maximum description (x : T) :
  parse_bounded_json bs maximum description = Ok x ↔
  (len bs <= maximum)%N ∧ json_from_slice bs = inr x.
Proof.
  unfold parse_bounded_json. destruct (N.ltb_spec maximum (len bs)).
  - split; [done|]. lia.
  - rewrite map_err_Ok, of_sum_Ok. naive_solver.
Qed.

Lemma verified_root_payload p r :
  verify_persona_root_proof p = Ok r →
  ∃ payload, canonical_persona_root_statement_bytes (vpr_statement r) = Ok payload ∧
    json_from_slice payload = inr (vpr_statement r) ∧
    vpr_root_statement_sha256 r = sha256_hex payload ∧
    public_key_fingerprint (vpr_initial_public_key r) =
      Ok (rs_initial_key_fingerprint (vpr_statement r)) ∧
    sshsig_verify payload (cs_value (rp_signature p)) (vpr_initial_public_key r)
      PERSONA_ROOT_NAMESPACE = Ok tt.
Proof.
  unfold verify_persona_root_proof, preflight_persona_root_proof. intros H.
  unbind H as pre Hpre. rewrite seq_Ok in H. destruct H as [Hsig [= <-]].
  rewrite seq_Ok in Hpre. destruct Hpre as [_ H]. unbind H as payload Hp. unbind H as st Hj.
  unbind H as canon Hc. rewrite seq_Ok in H. destruct H as [Hm H]. unbind H as key Hk.
  unbind H as fp Hfp. rewrite seq_Ok in H. destruct H as [Hf [= <-]].
  oks Hm. oks Hf. subst. rewrite map_err_Ok, parse_bounded_json_Ok in Hj. cbn in *.
  destruct Hj. eauto 10.
Qed.

Lemma take_signatures_found l previous next :
  fold_result take_signature (None, None) l = Ok (previous, next) →
  (∀ s, previous = Some s → s ∈ l ∧ cs_role s = RolePrevious) ∧
  (∀ s, next = Some s → s ∈ l ∧ cs_role s = RoleNext).
Proof.
  apply (fold_result_ind _ (λ l st, (∀ s, st.1 = Some s → s ∈ l ∧ cs_role s = RolePrevious) ∧
    (∀ s, st.2 = Some s → s ∈ l ∧ cs_role s = RoleNext))).
  - by split.
  - intros done x [p n] st' [Hp Hn]. cbn in *. unfold take_signature. setoid_rewrite elem_of_app.
    setoid_rewrite list_elem_of_singleton.
    destruct (cs_role x) eqn:Hr, p, n; intros [= <-]; cbn; naive_solver.
Qed.

Lemma verified_transition_payload p v :
  verify_persona_transition_proof p = Ok v →
  ∃ payload, canonical_persona_transition_statement_bytes (vpt_statement v) = Ok payload ∧
    json_from_slice payload = inr (vpt_statement v) ∧
    vpt_transition_statement_sha256 v = sha256_hex payload ∧
    public_key_fingerprint (vpt_previous_public_key v) =
      Ok (ts_previous_key_fingerprint (vpt_statement v)) ∧
    public_key_fingerprint (vpt_next_public_key v) =
      Ok (ts_next_key_fingerprint (vpt_statement v)) ∧
    (∃ s, s ∈ tp_signatures p ∧ cs_role s = RolePrevious ∧
       sshsig_verify payload (cs_value s) (vpt_previous_public_key v)
         PERSONA_TRANSITION_NAMESPACE = Ok tt) ∧
    (∃ s, s ∈ tp_signatures p ∧ cs_role s = RoleNext ∧
       sshsig_verify payload (cs_value s) (vpt_next_public_key v)
         PERSONA_TRANSITION_NAMESPACE = Ok tt).
Proof.
  unfold verify_persona_transition_proof, verify_persona_transition_proof_with_receipt,
    preflight_persona_transition_proof.
  intros H. unbind H as r Hr. injection H as <-. unbind Hr as pre Hpre. rewrite !seq_Ok in Hr.
  destruct Hr as (Hs1 & Hs2 & [= <-]). rewrite !seq_Ok in Hpre. destruct Hpre as (_ & _ & H).
  unbind H as payload Hp. unbind H as st Hj. unbind H as canon Hc. rewrite seq_Ok in H.
  destruct H as [Hm H]. unbind H as [po no] Hfold. apply take_signatures_found in Hfold as [Fp Fn].
  unbind H as ps Hps. unbind H as ns Hns. unbind H as k1 Hk1. unbind H as k2 Hk2.
  rewrite seq_Ok in H. destruct H as [Hkeys [= <-]]. unfold require_key_pair in Hkeys.
  unbind Hkeys as f1 Hf1. rewrite seq_Ok in Hkeys. destruct Hkeys as [He1 Hkeys].
  unbind Hkeys as f2 Hf2. oks Hm. oks He1. oks Hkeys. oks Hps. oks Hns. subst.
  rewrite map_err_Ok, parse_bounded_json_Ok in Hj. destruct Hj as [_ Hj].
  destruct (Fp _ eq_refl), (Fn _ eq_refl). cbn in *. exists payload. eauto 15.
Qed.

Lemma roots_determined p1 p2 r1 r2 :
  verify_persona_root_proof p1 = Ok r1 → verify_persona_root_proof p2 = Ok r2 →
  vpr_root_statement_sha256 r1 = vpr_root_statement_sha256 r2 →
  vpr_statement r1 = vpr_statement r2 ∨ sha256_collision (root_payload r1) (root_payload r2).
Proof.
  intros (x & Cx & Hx & Dx & _)%verified_root_payload (y & Cy & Hy & Dy & _)%verified_root_payload.
  rewrite Dx, Dy. intros [->|]%(sha256_hex_binds (root_payload r1) (root_payload r2) _ _ Cx Cy);
    [left; congruence|by right].
Qed.

Lemma transitions_determined p1 p2 v1 v2 :
  verify_persona_transition_proof p1 = Ok v1 → verify_persona_transition_proof p2 = Ok v2 →
  vpt_transition_statement_sha256 v1 = vpt_transition_statement_sha256 v2 →
  vpt_statement v1 = vpt_statement v2 ∨
  sha256_collision (transition_payload [v1]) (transition_payload [v2]).
Proof.
  intros (x & Cx & Hx & Dx & _)%verified_transition_payload
    (y & Cy & Hy & Dy & _)%verified_transition_payload.
  assert (transition_payload [v1] x) as Px by (exists v1; split; [by apply list_elem_of_singleton|done]).
  assert (transition_payload [v2] y) as Py by (exists v2; split; [by apply list_elem_of_singleton|done]).
  rewrite Dx, Dy. intros [->|]%(sha256_hex_binds _ _ _ _ Px Py); [left; congruence|by right].
Qed.

Lemma linked_snoc_inv root vs v h :
  linked root (vs ++ [v]) h → ∃ h', linked root vs h' ∧ continues root h' v ∧ h = transition_head v.
Proof.
  inversion 1 as [Hnil|vs' h' v' Hl Hc Heq]; [by destruct vs|].
  apply app_inj_tail in Heq as [-> ->]. eauto.
Qed.

Lemma transition_payload_sub vs vs' x :
  vs ⊆ vs' → transition_payload vs x → transition_payload vs' x.
Proof. intros Hs (v & Hv & Hx). exists v. split; [by apply Hs|done]. Qed.

(** Two histories that end at the same digest carry the same statements,
    unless two of their statements collide. *)
Lemma histories_determined r1 r2 ps1 ps2 vs1 vs2 h1 h2 :
  all_verify ps1 vs1 → all_verify ps2 vs2 → linked r1 vs1 h1 → linked r2 vs2 h2 →
  hd_digest h1 = hd_digest h2 →
  vpt_statement <$> vs1 = vpt_statement <$> vs2 ∨
  sha256_collision (transition_payload vs1) (transition_payload vs2).
Proof.
  intros A1 A2 L1 L2. revert vs2 h2 r2 ps1 ps2 A1 A2 L2.
  induction L1 as [|vs1 h1 v1 L1 IH C1]; intros vs2 h2 r2 ps1 ps2 A1 A2 L2 Hd.
  - destruct L2; [by left|done].
  - destruct L2 as [|vs2 h2 v2 L2 C2]; [done|]. cbn in Hd. injection Hd as Hd.
    apply Forall2_app_inv_r in A1 as (qs1 & q1 & A1 & B1 & ->).
    apply Forall2_app_inv_r in A2 as (qs2 & q2 & A2 & B2 & ->).
    inversion_clear B1 as [|p1 ? ? ? V1]. inversion_clear B2 as [|p2 ? ? ? V2].
    destruct (transitions_determined _ _ _ _ V1 V2 Hd) as [Hst|Hcol];
      [|right; revert Hcol; apply sha256_collision_mono; intros x; apply transition_payload_sub; intros ?; rewrite elem_of_app; auto].
    destruct (IH vs2 h2 r2 qs1 qs2 A1 A2 L2) as [Heq|Hcol];
      [| |right; revert Hcol; apply sha256_collision_mono; intros x; apply transition_payload_sub; intros ?; rewrite elem_of_app; auto].
    + by rewrite <- (ct_digest _ _ _ C1), <- (ct_digest _ _ _ C2), Hst.
    + left. rewrite !fmap_app. cbn. by rewrite Heq, Hst.
Qed.

Lemma verify_chain_Ok root_proof ps digest report :
  verify_persona_continuity_chain root_proof ps digest = Ok report ↔
  ∃ chain, verify_persona_continuity_chain_with_verified_sequence root_proof ps digest = Ok chain ∧
    vc_report chain = report.
Proof. unfold verify_persona_continuity_chain. rewrite bind_Ok. naive_solver. Qed.

Definition checkpoint_well_formed (cp : PersonaContinuityCheckpoint) : Prop :=
  (cp_transition_sequence cp <= MAX_CONTINUITY_TRANSITIONS)%N ∧
  match cp_transition_sha256 cp with
  | None => cp_transition_sequence cp = 0%N
  | Some d => cp_transition_sequence cp ≠ 0%N ∧ is_sha256_hex d = true
  end.

Lemma match_checkpoint_Ok seq d cp :
  match_continuity_head_checkpoint seq d cp = Ok tt ↔
  checkpoint_well_formed cp ∧ seq = cp_transition_sequence cp ∧ d = cp_transition_sha256 cp.
Proof.
  unfold match_continuity_head_checkpoint, checkpoint_well_formed.
  change (expect (u32_try_from MAX_CONTINUITY_TRANSITIONS) "transition bound fits in u32")
    with (@Ok ProofError N MAX_CONTINUITY_TRANSITIONS). rewrite bind_Ok_l.
  rewrite !seq_Ok, !reject_if_Ok, N.ltb_ge, orb_false_iff, !negb_false_iff, !bool_decide_eq_true.
  destruct (N.eqb_spec (cp_transition_sequence cp) 0), (cp_transition_sha256 cp);
    rewrite ?validate_sha256_Ok; naive_solver.
Qed.

(** A checkpoint pins the history: two chains accepted for the same root
    digest and the same head checkpoint carry the same root statement and the
    same transition statements, unless two statements of the two chains have
    different canonical bytes with the same SHA-256 digest. *)
Theorem checkpoint_determines_history rp1 rp2 ps1 ps2 digest cp report1 report2 :
  verify_persona_continuity_chain_at_checkpoint rp1 ps1 digest cp = Ok report1 →
  verify_persona_continuity_chain_at_checkpoint rp2 ps2 digest cp = Ok report2 →
  ∃ c1 c2, verify_persona_continuity_chain_with_verified_sequence rp1 ps1 digest = Ok c1 ∧
    verify_persona_continuity_chain_with_verified_sequence rp2 ps2 digest = Ok c2 ∧
    (vpr_statement (vc_root c1) = vpr_statement (vc_root c2) ∨
     sha256_collision (root_payload (vc_root c1)) (root_payload (vc_root c2))) ∧
    (vpt_statement <$> vc_transitions c1 = vpt_statement <$> vc_transitions c2 ∨
     sha256_collision (transition_payload (vc_transitions c1)) (transition_payload (vc_transitions c2))).
Proof.
  unfold verify_persona_continuity_chain_at_checkpoint. intros H1 H2.
  unbind H1 as q1 Q1. unbind H2 as q2 Q2. rewrite seq_Ok in H1, H2.
  destruct H1 as [(_ & _ & D1)%match_checkpoint_Ok _], H2 as [(_ & _ & D2)%match_checkpoint_Ok _].
  apply verify_chain_Ok in Q1 as (c1 & V1 & <-), Q2 as (c2 & V2 & <-).
  pose proof (chain_verified_sound _ _ _ _ V1) as (_ & _ & R1 & P1 & A1 & L1).
  pose proof (chain_verified_sound _ _ _ _ V2) as (_ & _ & R2 & P2 & A2 & L2).
  exists c1, c2. split_and!; [done..| |].
  - eapply roots_determined; [done..|]. congruence.
  - eapply histories_determined; [done..|]. cbn. congruence.
Qed.

(** A checkpoint is matched exactly by the chains that verify and end at
    it, and only the claim that nothing was withheld changes in the report. *)
Theorem checkpoint_accepts_exact_head rp ps digest cp :
  is_ok (verify_persona_continuity_chain_at_checkpoint rp ps digest cp) = true ↔
  checkpoint_well_formed cp ∧
  ∃ report, verify_persona_continuity_chain rp ps digest = Ok report ∧
    cr_transition_count report = cp_transition_sequence cp ∧
    cr_last_transition_sha256 report = cp_transition_sha256 cp.
Proof.
  unfold verify_persona_continuity_chain_at_checkpoint.
  destruct (verify_persona_continuity_chain rp ps digest) as [report| |];
    [|by split; [done|intros (_ & ? & [=] & _)]..].
  rewrite bind_Ok_l. pose proof (match_checkpoint_Ok (cr_transition_count report)
    (cr_last_transition_sha256 report) cp) as Hm.
  destruct (match_continuity_head_checkpoint _ _ _) as [[]| |]; cbn; split; try done.
  - intros _. destruct (proj1 Hm eq_refl) as (? & ? & ?). eauto.
  - intros (? & r & [= <-] & ? & ?). by assert (Hbad := proj2 Hm ltac:(done)).
  - intros (? & r & [= <-] & ? & ?). by assert (Hbad := proj2 Hm ltac:(done)).
Qed.

(** ** Extension *)

Lemma verify_receipt_Ok p r :
  verify_persona_transition_proof_with_receipt p = Ok r →
  verify_persona_transition_proof p = Ok (receipt_transition r).
Proof. unfold verify_persona_transition_proof. by intros ->. Qed.

Lemma extension_Ok chain p v :
  verify_persona_continuity_chain_extension chain p = Ok v ↔
  (len (vc_transitions chain) < MAX_CONTINUITY_TRANSITIONS)%N ∧
  (cr_transition_count (vc_report chain) + 1 <= u32_max)%N ∧
  verify_persona_transition_proof p = Ok v ∧
  continues (vc_root chain) (report_head (vc_report chain)) v.
Proof.
  unfold verify_persona_continuity_chain_extension,
    validate_verified_persona_continuity_chain_extension,
    require_persona_continuity_chain_extension_capacity, verify_persona_transition_proof.
  pose proof (validate_at_head_continues (vc_root chain)) as Hc.
  split.
  - rewrite seq_Ok. intros [Hcap H]. unbind H as r Hr. rewrite !seq_Ok in H.
    destruct H as [[_ H] [= <-]]. unbind H as s Hs. oks Hcap. oks Hs. subst.
    apply N.leb_gt in Hcap. rewrite Hr. split_and!; [done..|]. by apply Hc.
  - intros (Hcap & Hb & Hv & Hl). unbind Hv as r Hr. injection Hv as <-.
    apply N.leb_gt in Hcap. rewrite Hcap. cbn [reject_if]. rewrite bind_Ok_l, Hr, !bind_Ok_l.
    unfold checked_add_u32. apply N.leb_le in Hb. rewrite Hb. cbn [ok_or]. rewrite bind_Ok_l.
    apply Hc in Hl. cbn in Hl. rewrite Hl. done.
Qed.

(** Extending a verified chain by one proof accepts exactly when the
    whole longer chain verifies, and gives the transition that it ends with,
    so a store that appends proofs one by one holds a chain that verifies as a
    whole. *)
Theorem extension_is_batch_verification rp ps digest chain p v :
  verify_persona_continuity_chain_with_verified_sequence rp ps digest = Ok chain →
  verify_persona_continuity_chain_extension chain p = Ok v ↔
  ∃ chain', verify_persona_continuity_chain_with_verified_sequence rp (ps ++ [p]) digest = Ok chain' ∧
    vc_root chain' = vc_root chain ∧ vc_transitions chain' = vc_transitions chain ++ [v] ∧
    report_head (vc_report chain') = transition_head v.
Proof.
  intros Hchain. pose proof (chain_verified_sound _ _ _ _ Hchain) as (Hd & Hn & Hr & Hpin & Hv & Hl).
  pose proof (linked_sequence _ _ _ Hl) as Hs. cbn in Hs.
  assert (len (vc_transitions chain) = len ps) as Hlen.
  { unfold len. by rewrite (Forall2_length Hv). }
  rewrite extension_Ok. split.
  - intros (Hcap & _ & Hp & Hc).
    destruct (chain_verified_complete rp (ps ++ [p]) digest (vc_root chain)
      (vc_transitions chain ++ [v]) (transition_head v)) as (c' & ? & ? & ? & ?); [|eauto].
    split_and!; [done| |done..| |by eapply linked_next].
    + rewrite len_app. change (len [p]) with 1%N. lia.
    + apply Forall2_app; [done|by repeat constructor].
  - intros (c' & Hc' & Hroot & Htr & _). apply chain_verified_sound in Hc' as (_ & Hn' & _ & _ & Hv' & Hl').
    rewrite Hroot, Htr in *. rewrite len_app in Hn'. change (len [p]) with 1%N in Hn'.
    apply linked_snoc_inv in Hl' as (h' & Hl' & Hc & _).
    apply Forall2_app_inv in Hv' as [_ Hp]; [|by rewrite (Forall2_length Hv)].
    inversion_clear Hp as [|? ? ? ? Hp' _]. unfold MAX_CONTINUITY_TRANSITIONS, u32_max in *.
    split_and!; [lia|lia|done|].
    replace (report_head (vc_report chain)) with h'; [done|].
    clear -Hl Hl'. remember (vc_transitions chain) as vs. clear Heqvs.
    destruct Hl as [|vs h v Hl Hc]; inversion Hl' as [Hnil|vs' h'' v' Hl2 Hc2 Heq]; subst; try done.
    all: try by destruct vs. by destruct vs'. by apply app_inj_tail in Heq as [_ ->].
Qed.

(** ** No input makes verification panic *)

Lemma chain_fold_no_panic root qs st :
  (ch_index st + len qs <= MAX_CONTINUITY_TRANSITIONS)%N →
  no_panic (fold_result (chain_step root) st qs).
Proof.
  revert st. induction qs as [|q qs IH]; intros st Hb; cbn [fold_result]; [done|].
  rewrite len_cons in Hb. apply no_panic_bind.
  - unfold chain_step. apply no_panic_bind; [apply verify_persona_transition_proof_no_panic|].
    intros v _. apply no_panic_bind.
    + apply no_panic_expect. unfold u32_try_from. rewrite (proj2 (N.leb_le _ _)); [done|].
      unfold u32_max, MAX_CONTINUITY_TRANSITIONS in *. lia.
    + intros s _. apply no_panic_bind; [apply validate_at_head_no_panic|done].
  - intros st' (v & _ & _ & _ & ->)%chain_step_Ok. apply IH. cbn. lia.
Qed.

Lemma chain_verification_no_panic rp ps digest :
  no_panic (verify_persona_continuity_chain_with_verified_sequence rp ps digest).
Proof.
  unfold verify_persona_continuity_chain_with_verified_sequence.
  apply no_panic_bind; [apply validate_sha256_no_panic|]. intros _ _.
  apply no_panic_bind; [apply no_panic_reject_if|]. intros [] Hlen%reject_if_Ok%N.ltb_ge.
  apply no_panic_bind; [apply verify_persona_root_proof_no_panic|]. intros root _.
  apply no_panic_bind; [apply no_panic_reject_if|]. intros _ _.
  apply no_panic_bind; [by apply chain_fold_no_panic|]. intros st _.
  apply no_panic_bind; [|done]. apply no_panic_expect. unfold u32_try_from.
  rewrite (proj2 (N.leb_le _ _)); [done|]. unfold u32_max, MAX_CONTINUITY_TRANSITIONS in *. lia.
Qed.

(** Verifying a chain, with or without a checkpoint, and extending one
    never panics, whatever the proofs contain: the [expect]s on the transition
    count are unreachable. *)
Theorem chain_verification_never_panics rp ps digest cp chain p :
  no_panic (verify_persona_continuity_chain_at_checkpoint rp ps digest cp) ∧
  no_panic (verify_persona_continuity_chain_extension chain p).
Proof.
  pose proof validate_sha256_no_panic. split.
  - unfold verify_persona_continuity_chain_at_checkpoint, verify_persona_continuity_chain,
      match_continuity_head_checkpoint.
    apply no_panic_bind; [|no_panics]. apply no_panic_bind; [|done].
    apply chain_verification_no_panic.
  - unfold verify_persona_continuity_chain_extension,
      validate_verified_persona_continuity_chain_extension,
      require_persona_continuity_chain_extension_capacity.
    pose proof verify_with_receipt_no_panic. pose proof validate_at_head_no_panic.
    no_panics.
Qed.

(** ** What is created verifies *)

Section created.
Context {keygen : SshKeygen} {crates_ok : CratesOk}.

(** The integers of a statement are in the range that RFC 8785 writes exactly. *)
Definition root_in_range (st : PersonaRootStatement) : Prop :=
  (rs_root_version st <= u32_max)%N ∧ (0 <= rs_issued_at st <= MAX_JCS_SAFE_INTEGER)%Z.

Definition transition_in_range (st : PersonaTransitionStatement) : Prop :=
  (ts_sequence st <= u32_max)%N ∧ (0 <= ts_issued_at st <= MAX_JCS_SAFE_INTEGER)%Z.

Context {json_root_ok : SerdeOk PersonaRootStatement root_in_range}
  {json_transition_ok : SerdeOk PersonaTransitionStatement transition_in_range}.

Lemma validate_jcs_time_Ok field v :
  validate_jcs_time field v = Ok tt ↔ (0 <= v <= MAX_JCS_SAFE_INTEGER)%Z.
Proof.
  unfold validate_jcs_time.
  destruct (Z.leb_spec 0 v), (Z.leb_spec v MAX_JCS_SAFE_INTEGER); cbn; naive_solver lia.
Qed.

Lemma validate_payload_bound_Ok bs :
  validate_payload_bound bs = Ok tt ↔ (len bs <= MAX_CONTINUITY_PAYLOAD_BYTES)%N.
Proof.
  unfold validate_payload_bound.
  destruct (N.leb_spec (len bs) MAX_CONTINUITY_PAYLOAD_BYTES); naive_solver lia.
Qed.

Lemma decode_continuity_payload_encode payload :
  (len payload <= MAX_CONTINUITY_PAYLOAD_BYTES)%N →
  decode_continuity_payload (URL_SAFE_NO_PAD_encode payload) = Ok payload.
Proof.
  intros Hb. unfold decode_continuity_payload. rewrite decode_payload_encode.
  - apply validate_payload_bound_Ok in Hb. rewrite bind_Ok_l, Hb, bind_Ok_l.
    by rewrite bool_decide_eq_true_2.
  - pose proof (url_safe_length payload).
    unfold MAX_PROOF_BYTES, MAX_CONTINUITY_PAYLOAD_BYTES in *. lia.
Qed.

Lemma canonical_root_Ok st payload :
  canonical_persona_root_statement_bytes st = Ok payload →
  (len payload <= MAX_CONTINUITY_PAYLOAD_BYTES)%N ∧ json_from_slice payload = inr st.
Proof.
  unfold canonical_persona_root_statement_bytes. rewrite seq_Ok. intros [Hv H].
  unbind H as bs Hj. rewrite seq_Ok in H. destruct H as [Hb [= <-]]. oks Hj.
  split; [by apply validate_payload_bound_Ok|]. apply jcs_round_trip; [|done].
  unfold validate_persona_root_statement in Hv. rewrite !seq_Ok in Hv. destruct Hv as (_ & _ & _ & Hv).
  unbind Hv as persona Hp. rewrite !seq_Ok in Hv. destruct Hv as (Hver & Ht & _). oks Hver.
  apply N.eqb_eq in Hver. apply validate_jcs_time_Ok in Ht. split; [|done]. rewrite Hver. done.
Qed.

Lemma canonical_transition_Ok st payload :
  (ts_sequence st <= u32_max)%N →
  canonical_persona_transition_statement_bytes st = Ok payload →
  (len payload <= MAX_CONTINUITY_PAYLOAD_BYTES)%N ∧ json_from_slice payload = inr st.
Proof.
  intros Hseq. unfold canonical_persona_transition_statement_bytes. rewrite seq_Ok. intros [Hv H].
  unbind H as bs Hj. rewrite seq_Ok in H. destruct H as [Hb [= <-]]. oks Hj.
  split; [by apply validate_payload_bound_Ok|]. apply jcs_round_trip; [|done].
  unfold validate_persona_transition_statement in Hv. rewrite !seq_Ok in Hv.
  destruct Hv as (_ & _ & _ & Hv). unbind Hv as persona Hp. rewrite !seq_Ok in Hv.
  destruct Hv as (_ & Ht & _). split; [done|]. by apply validate_jcs_time_Ok in Ht.
Qed.

Definition signature_in_bounds (value : string) : Prop :=
  value ≠ "" ∧ (str_len value <= MAX_CONTINUITY_SIGNATURE_BYTES)%N.

Lemma validate_new_signature role namespace value key :
  signature_in_bounds value → normalize_public_key key = Ok key →
  cs_namespace (new_signature role value key) = namespace →
  validate_signature (new_signature role value key) role namespace = Ok key.
Proof.
  intros [Hne Hl] Hk Hn. unfold validate_signature. rewrite Hn.
  cbn [new_signature cs_role cs_format cs_value cs_public_key_format cs_public_key].
  apply N.ltb_ge in Hl. rewrite Hl, (bool_decide_eq_false_2 (value = "")) by done.
  by rewrite !bool_decide_eq_true_2.
Qed.

(** A root proof that was created verifies, for the statement and the key
    it was created with. *)
Theorem created_root_verifies st path key proof :
  utf8_valid key = true → create_persona_root_proof st path key = Ok proof →
  signature_in_bounds (cs_value (rp_signature proof)) →
  ∃ n, normalize_public_key key = Ok n ∧
    verify_persona_root_proof proof =
      Ok {| vpr_statement := st;
            vpr_root_statement_sha256 := default "" (
              match persona_root_statement_sha256 st with Ok d => Some d | _ => None end);
            vpr_initial_public_key := n |}.
Proof.
  intros Hu H Hs. unfold create_persona_root_proof in H. unbind H as payload Hp.
  unbind H as n Hn. unbind H as f Hf. rewrite seq_Ok in H. destruct H as [Hm H].
  unbind H as value Hv. rewrite seq_Ok in H. destruct H as [Hver [= <-]]. oks Hm. subst.
  cbn in Hs. exists n. split; [done|]. pose proof (normalize_canonical _ _ Hu Hn) as Hnn.
  destruct (canonical_root_Ok _ _ Hp) as [Hb Hj].
  unfold verify_persona_root_proof, preflight_persona_root_proof, persona_root_statement_sha256.
  cbn [rp_schema rp_payload rp_signature]. unfold require_proof_schema.
  rewrite bool_decide_eq_true_2, bind_Ok_l by done.
  rewrite decode_continuity_payload_encode, bind_Ok_l by done.
  rewrite (proj2 (parse_bounded_json_Ok _ _ _ st)) by done. cbn [map_err]. rewrite bind_Ok_l, Hp.
  rewrite !bind_Ok_l, bool_decide_eq_true_2 by done. cbn [negb reject_if]. rewrite bind_Ok_l.
  rewrite (validate_new_signature RoleRoot PERSONA_ROOT_NAMESPACE), bind_Ok_l, Hf, bind_Ok_l by done.
  rewrite bool_decide_eq_true_2 by done. cbn [negb reject_if]. rewrite !bind_Ok_l.
  cbn [rpf_payload rpf_public_key rpf_statement cs_value new_signature]. by rewrite Hver.
Qed.

Lemma created_transition_verifies st path1 key1 path2 key2 proof :
  utf8_valid key1 = true → utf8_valid key2 = true → (ts_sequence st <= u32_max)%N →
  create_routine_transition_proof st path1 key1 path2 key2 = Ok proof →
  Forall (λ s, signature_in_bounds (cs_value s)) (tp_signatures proof) →
  ∃ v, verify_persona_transition_proof proof = Ok v ∧ vpt_statement v = st.
Proof.
  intros Hu1 Hu2 Hseq H Hs. unfold create_routine_transition_proof in H. unbind H as payload Hp.
  unbind H as n1 Hn1. unbind H as n2 Hn2. rewrite seq_Ok in H. destruct H as [Hkeys H].
  unbind H as v1 Hv1. rewrite seq_Ok in H. destruct H as [Hver1 H].
  unbind H as v2 Hv2. rewrite seq_Ok in H. destruct H as [Hver2 [= <-]].
  cbn [tp_signatures] in Hs. rewrite !Forall_cons_iff in Hs. destruct Hs as (Hs1 & Hs2 & _).
  pose proof (normalize_canonical _ _ Hu1 Hn1). pose proof (normalize_canonical _ _ Hu2 Hn2).
  destruct (canonical_transition_Ok _ _ Hseq Hp) as [Hb Hj].
  unfold verify_persona_transition_proof, verify_persona_transition_proof_with_receipt,
    preflight_persona_transition_proof, require_proof_schema.
  cbn [tp_schema tp_payload tp_signatures]. rewrite bool_decide_eq_true_2 by done.
  change (len [new_signature RolePrevious v1 n1; new_signature RoleNext v2 n2] =? 2)%N with true.
  cbn [negb reject_if]. rewrite !bind_Ok_l, decode_continuity_payload_encode, bind_Ok_l by done.
  rewrite (proj2 (parse_bounded_json_Ok _ _ _ st)) by done. cbn [map_err]. rewrite bind_Ok_l, Hp.
  rewrite !bind_Ok_l, bool_decide_eq_true_2 by done. cbn [negb reject_if]. rewrite bind_Ok_l.
  change (fold_result take_signature _ _) with (@Ok ProofError _
    (Some (new_signature RolePrevious v1 n1), Some (new_signature RoleNext v2 n2))).
  rewrite bind_Ok_l. cbn [ok_or]. rewrite !bind_Ok_l.
  rewrite (validate_new_signature RolePrevious PERSONA_TRANSITION_NAMESPACE), bind_Ok_l by done.
  rewrite (validate_new_signature RoleNext PERSONA_TRANSITION_NAMESPACE), bind_Ok_l by done.
  rewrite Hkeys, !bind_Ok_l. cbn [tpf_payload tpf_previous tpf_next tpf_previous_public_key
    tpf_next_public_key tpf_statement cs_value new_signature]. rewrite Hver1, bind_Ok_l, Hver2.
  by eexists.
Qed.

(** A routine key rotation always extends the chain it was built for: a
    transition built at the head of a verified chain that still has room, from
    the key at its tip, and signed by both keys, is accepted by the extension
    check. *)
Theorem rotation_extends_chain rp ps digest chain path1 key1 path2 key2 issued_at st proof :
  verify_persona_continuity_chain_with_verified_sequence rp ps digest = Ok chain →
  (len ps < MAX_CONTINUITY_TRANSITIONS)%N →
  utf8_valid key1 = true → utf8_valid key2 = true →
  public_key_fingerprint key1 = Ok (cr_chain_tip_key_fingerprint (vc_report chain)) →
  (cr_last_issued_at (vc_report chain) <= issued_at)%Z →
  new_routine_transition_statement (vc_root chain) (cr_transition_count (vc_report chain) + 1)
    (cr_last_transition_sha256 (vc_report chain)) key1 key2 issued_at = Ok st →
  create_routine_transition_proof st path1 key1 path2 key2 = Ok proof →
  Forall (λ s, signature_in_bounds (cs_value s)) (tp_signatures proof) →
  ∃ v, verify_persona_continuity_chain_extension chain proof = Ok v ∧ vpt_statement v = st.
Proof.
  intros Hchain Hroom Hu1 Hu2 Htip Htime Hst Hproof Hs.
  pose proof (chain_verified_sound _ _ _ _ Hchain) as (_ & _ & _ & _ & Hv & Hl).
  pose proof (linked_sequence _ _ _ Hl) as Hlen. cbn in Hlen.
  assert (len (vc_transitions chain) = len ps) as Hlps by (unfold len; by rewrite (Forall2_length Hv)).
  unfold new_routine_transition_statement in Hst. unbind Hst as n1 Hn1. unbind Hst as n2 Hn2.
  unbind Hst as f1 Hf1. unbind Hst as f2 Hf2. rewrite !seq_Ok in Hst. destruct Hst as (_ & _ & _ & [= <-]).
  rewrite (fingerprint_normalize key1 n1) in Hf1 by eauto using normalize_canonical.
  unfold MAX_CONTINUITY_TRANSITIONS, u32_max in *.
  eapply created_transition_verifies in Hproof as (v & Hver & Hvst); [|done|done| |done].
  2:{ cbn [ts_sequence]. unfold u32_max. lia. }
  exists v. split; [|done].
  apply extension_Ok. unfold MAX_CONTINUITY_TRANSITIONS, u32_max.
  split_and!; [lia|lia|done|]. split; rewrite Hvst; cbn; congruence || done.
Qed.

End created.
End facts.
