(* ===== verification/RecoveryPolicy.v ===== *)
(** * Recovery policies ([crates/a-quo-core/src/recovery.rs], first half)

    A recovery policy lists the authority keys of a persona and the threshold
    of them that may replace or revoke its online key. This file has the
    statement, its validator, the signature sets (signing and checking a
    quorum of distinct authorised keys), enrollment and update proofs, and the
    verification of a policy chain from a pinned root digest to a pinned
    latest policy digest.

    [recovery.rs] has private copies of [validate_persona_anchor],
    [validate_canonical_persona], [validate_jcs_time], [validate_sha256],
    [validate_payload_bound] and [sha256_hex] that are line for line those of
    [continuity.rs]; the definitions of [Continuity.v] stand for both. *)

From stdpp Require Import base numbers list strings pretty sorting option.
From Stdlib Require Import Strings.Byte Ascii.
From S2P Require Import Prelude Text Ordered Display Crates ArtifactProof Continuity.

(** ** Constants *)

Definition RECOVERY_POLICY_STATEMENT_SCHEMA : string :=
  "urn:a-quo:statement:persona-recovery-policy:v1".
Definition RECOVERY_POLICY_STATEMENT_SCHEMA_V2 : string :=
  "urn:a-quo:statement:persona-recovery-policy:v2".
Definition RECOVERY_POLICY_PROOF_SCHEMA : string :=
  "urn:a-quo:proof:persona-recovery-policy:sshsig:v1".
Definition RECOVERY_POLICY_ENROLLMENT_NAMESPACE : string := "a-quo-recovery-policy-enrollment-v1".
Definition RECOVERY_POLICY_UPDATE_PREVIOUS_NAMESPACE : string :=
  "a-quo-recovery-policy-update-previous-v1".
Definition RECOVERY_POLICY_UPDATE_CURRENT_NAMESPACE : string :=
  "a-quo-recovery-policy-update-current-v1".
Definition MIN_RECOVERY_AUTHORITIES : N := 2.
Definition MAX_RECOVERY_AUTHORITIES : N := 32.
Definition MAX_RECOVERY_POLICY_VERSIONS : N := 1024.
Definition MAX_RECOVERY_POLICY_VALIDITY_SECONDS : Z := 315576000.

(** ** Data *)

Inductive RecoveryPolicyCapability := KeyRecovery | TerminalRevocation.
Record RecoveryContinuityCheckpoint := {
  rc_transition_sequence : N;
  rc_transition_sha256 : option string;
}.
Record RecoveryPolicyStatement := {
  ps_schema : string;
  ps_canonicalization : string;
  ps_persona_anchor : string;
  ps_persona : string;
  ps_root_statement_sha256 : string;
  ps_policy_version : N;
  ps_previous_policy_sha256 : option string;
  ps_continuity_checkpoint : RecoveryContinuityCheckpoint;
  ps_issued_at : Z;
  ps_expires_at : Z;
  ps_threshold : N;
  ps_recovery_key_fingerprints : list string;
  ps_capabilities : list RecoveryPolicyCapability;
}.
Record RecoverySignature := {
  sg_format : string;
  sg_namespace : string;
  sg_value : string;
  sg_public_key_format : string;
  sg_public_key : string;
}.
Inductive RecoveryPolicyAuthorization :=
| Enrollment (signatures : list RecoverySignature)
| Update (previous_policy_signatures current_policy_signatures : list RecoverySignature).
Record RecoveryPolicyProof := {
  pp_schema : string;
  pp_payload : string;
  pp_authorization : RecoveryPolicyAuthorization;
}.
Record RecoverySigner := { rsn_private_key_path : string; rsn_public_key : string }.
Record VerifiedRecoveryPolicy := {
  vp_statement : RecoveryPolicyStatement;
  vp_policy_statement_sha256 : string;
  vp_previous_authorization_fingerprints : list string;
  vp_current_authorization_fingerprints : list string;
}.
Inductive RecoveryPolicyTimeStatus := Active | NotYetValid | Expired.
Record RecoveryPolicyChainReport := {
  pr_root_signature : EvidenceStatus;
  pr_expected_root_digest : EvidenceStatus;
  pr_enrollment_proof : EvidenceStatus;
  pr_update_chain : EvidenceStatus;
  pr_expected_latest_policy_digest : EvidenceStatus;
  pr_persona : string;
  pr_persona_anchor : string;
  pr_root_statement_sha256 : string;
  pr_initial_policy_sha256 : string;
  pr_latest_policy_sha256 : string;
  pr_latest_policy_version : N;
  pr_threshold : N;
  pr_authority_count : N;
  pr_latest_checkpoint_sequence : N;
  pr_latest_checkpoint_sha256 : option string;
  pr_checkpoint_against_transition_chain : string;
  pr_issued_at : Z;
  pr_expires_at : Z;
  pr_checked_at : Z;
  pr_time_status : RecoveryPolicyTimeStatus;
  pr_not_established : list string;
}.
Record VerifiedRecoveryPolicyChain := {
  vpc_root : VerifiedPersonaRoot;
  vpc_policies : list VerifiedRecoveryPolicy;
  vpc_report : RecoveryPolicyChainReport;
}.
Record VerifiedRecoveryPolicySequence := {
  vps_root : VerifiedPersonaRoot;
  vps_policies : list VerifiedRecoveryPolicy;
}.

#[export] Instance RecoveryPolicyCapability_eq_dec : EqDecision RecoveryPolicyCapability.
Proof. solve_decision. Defined.
#[export] Instance RecoveryContinuityCheckpoint_eq_dec : EqDecision RecoveryContinuityCheckpoint.
Proof. solve_decision. Defined.
#[export] Instance RecoveryPolicyStatement_eq_dec : EqDecision RecoveryPolicyStatement.
Proof. solve_decision. Defined.
#[export] Instance RecoverySignature_eq_dec : EqDecision RecoverySignature.
Proof. solve_decision. Defined.
#[export] Instance RecoveryPolicyAuthorization_eq_dec : EqDecision RecoveryPolicyAuthorization.
Proof. solve_decision. Defined.
#[export] Instance RecoveryPolicyProof_eq_dec : EqDecision RecoveryPolicyProof.
Proof. solve_decision. Defined.
#[export] Instance VerifiedRecoveryPolicy_eq_dec : EqDecision VerifiedRecoveryPolicy.
Proof. solve_decision. Defined.
#[export] Instance RecoveryPolicyTimeStatus_eq_dec : EqDecision RecoveryPolicyTimeStatus.
Proof. solve_decision. Defined.

Abbreviation invalid_statement := InvalidContinuityStatement (only parsing).
Abbreviation invalid_proof := InvalidContinuityProof (only parsing).

(** ** Capabilities *)

(** The derived order: [KeyRecovery] before [TerminalRevocation]. *)
Definition capability_index (c : RecoveryPolicyCapability) : N :=
  match c with KeyRecovery => 0 | TerminalRevocation => 1 end.

Definition capability_compare (a b : RecoveryPolicyCapability) : comparison :=
  (capability_index a ?= capability_index b)%N.

Definition capability_le (a b : RecoveryPolicyCapability) : Prop :=
  (capability_index a <= capability_index b)%N.

#[export] Instance capability_le_dec : RelDecision capability_le.
Proof. intros a b. unfold capability_le. apply _. Defined.

Definition authorizes (statement : RecoveryPolicyStatement) (capability : RecoveryPolicyCapability) :
    bool :=
  if ps_schema statement == RECOVERY_POLICY_STATEMENT_SCHEMA then capability == KeyRecovery
  else binary_search_by_is_ok (λ c, capability_compare c capability) (ps_capabilities statement).

Definition effective_capabilities (statement : RecoveryPolicyStatement) :
    list RecoveryPolicyCapability :=
  if ps_schema statement == RECOVERY_POLICY_STATEMENT_SCHEMA then [KeyRecovery]
  else ps_capabilities statement.

Definition canonical_policy_capabilities (capabilities : list RecoveryPolicyCapability) :
    Result (list RecoveryPolicyCapability) :=
  reject_if (capabilities == [])
    (invalid_statement "schema-v2 recovery policies require at least one capability");;
  let canonical := merge_sort capability_le capabilities in
  reject_if (windows2_any (λ a b, a == b) canonical)
    (invalid_statement "recovery policy capabilities must be distinct");;
  Ok canonical.

Definition policy_time_status (statement : RecoveryPolicyStatement) (checked_at : Z) :
    RecoveryPolicyTimeStatus :=
  if (checked_at <? ps_issued_at statement)%Z then NotYetValid
  else if (ps_expires_at statement <=? checked_at)%Z then Expired
  else Active.

Section recovery_policy.
Context {crates : Crates}.

Abbreviation decode_canonical_payload := decode_continuity_payload.
Abbreviation require_schema := require_proof_schema.

(** ** The policy statement *)

Definition authorities_error : string :=
  "recovery policy must contain " +:+ pretty MIN_RECOVERY_AUTHORITIES +:+ " through " +:+
  pretty MAX_RECOVERY_AUTHORITIES +:+ " authority keys".

Definition authority_count_ok (n : N) : bool :=
  ((MIN_RECOVERY_AUTHORITIES <=? n) && (n <=? MAX_RECOVERY_AUTHORITIES))%N.

Definition validate_recovery_checkpoint (checkpoint : RecoveryContinuityCheckpoint) : Result unit :=
  maximum_sequence ← expect (u32_try_from MAX_CONTINUITY_TRANSITIONS)
    "continuity transition bound fits in u32";
  reject_if (maximum_sequence <? rc_transition_sequence checkpoint)%N
    (invalid_statement ("continuity checkpoint cannot exceed transition " +:+
      pretty maximum_sequence));;
  match (rc_transition_sequence checkpoint =? 0)%N, rc_transition_sha256 checkpoint with
  | true, None => Ok tt
  | true, Some _ => Err (invalid_statement
      "continuity checkpoint sequence 0 cannot name a transition digest")
  | false, Some digest => validate_sha256 "continuity checkpoint transition digest" digest
  | false, None => Err (invalid_statement
      "a nonzero continuity checkpoint requires a transition digest")
  end.

(** One round of the loop over the authority fingerprints; the state is the
    fingerprint before. *)
Definition next_authority_fingerprint (previous : option string) (fingerprint : string) :
    Result (option string) :=
  validate_key_fingerprint fingerprint;;
  reject_if (match previous with
             | Some value => negb (str_ltb value fingerprint)
             | None => false
             end)
    (invalid_statement "recovery key fingerprints must be distinct and sorted");;
  Ok (Some fingerprint).

Definition validate_policy_schema (statement : RecoveryPolicyStatement) : Result unit :=
  if ps_schema statement == RECOVERY_POLICY_STATEMENT_SCHEMA then
    reject_if (ps_capabilities statement != [])
      (invalid_statement "schema-v1 recovery policies must omit capabilities")
  else if ps_schema statement == RECOVERY_POLICY_STATEMENT_SCHEMA_V2 then
    reject_if (ps_capabilities statement == [])
      (invalid_statement "schema-v2 recovery policies require at least one capability");;
    reject_if ((2 <? len (ps_capabilities statement))%N ||
               windows2_any (λ a b, (capability_index b <=? capability_index a)%N)
                 (ps_capabilities statement))
      (invalid_statement "recovery policy capabilities must be distinct and sorted")
  else Err (invalid_statement ("unsupported recovery policy schema " +:+
    escape_untrusted_text_for_terminal (ps_schema statement))).

Definition validate_recovery_policy_statement (statement : RecoveryPolicyStatement) : Result unit :=
  validate_policy_schema statement;;
  reject_if (ps_canonicalization statement != CONTINUITY_CANONICALIZATION)
    (invalid_statement ("unsupported recovery policy canonicalization " +:+
      escape_untrusted_text_for_terminal (ps_canonicalization statement)));;
  validate_persona_anchor (ps_persona_anchor statement);;
  _ ← validate_canonical_persona (ps_persona statement);
  validate_sha256 "recovery policy root digest" (ps_root_statement_sha256 statement);;
  match (ps_policy_version statement =? 0)%N, (ps_policy_version statement =? 1)%N,
        ps_previous_policy_sha256 statement with
  | true, _, _ => Err (invalid_statement "recovery policy version must start at 1")
  | false, true, None => Ok tt
  | false, true, Some _ => Err (invalid_statement
      "recovery policy version 1 cannot name a predecessor")
  | false, false, Some digest => validate_sha256 "previous recovery policy digest" digest
  | false, false, None => Err (invalid_statement
      "recovery policy versions after 1 require a predecessor digest")
  end;;
  validate_recovery_checkpoint (ps_continuity_checkpoint statement);;
  validate_jcs_time "recovery policy issued_at" (ps_issued_at statement);;
  validate_jcs_time "recovery policy expires_at" (ps_expires_at statement);;
  validity ← ok_or (checked_sub_i64 (ps_expires_at statement) (ps_issued_at statement))
    (invalid_statement "recovery policy validity underflow");
  reject_if ((validity <=? 0)%Z || (MAX_RECOVERY_POLICY_VALIDITY_SECONDS <? validity)%Z)
    (invalid_statement ("recovery policy validity must be 1 through " +:+
      pretty MAX_RECOVERY_POLICY_VALIDITY_SECONDS +:+ " seconds"));;
  reject_if (negb (authority_count_ok (len (ps_recovery_key_fingerprints statement))))
    (invalid_statement authorities_error);;
  let threshold := ps_threshold statement in
  reject_if ((threshold <? MIN_RECOVERY_AUTHORITIES)%N ||
             (len (ps_recovery_key_fingerprints statement) <? threshold)%N)
    (invalid_statement
      "recovery threshold must be at least 2 and no greater than the authority count");;
  _ ← fold_result next_authority_fingerprint None (ps_recovery_key_fingerprints statement);
  Ok tt.

Definition validate_policy_root_binding (root : VerifiedPersonaRoot)
    (statement : RecoveryPolicyStatement) : Result unit :=
  reject_if ((ps_persona_anchor statement != rs_persona_anchor (vpr_statement root)) ||
             (ps_persona statement != rs_persona (vpr_statement root)) ||
             (ps_root_statement_sha256 statement != vpr_root_statement_sha256 root))
    (chain_mismatch "recovery policy is bound to a different persona root");;
  reject_if (ps_issued_at statement <? rs_issued_at (vpr_statement root))%Z
    (chain_mismatch "recovery policy predates its persona root").

Definition validate_policy_successor (previous : VerifiedRecoveryPolicy)
    (statement : RecoveryPolicyStatement) : Result unit :=
  validate_recovery_policy_statement statement;;
  reject_if ((ps_schema (vp_statement previous) == RECOVERY_POLICY_STATEMENT_SCHEMA_V2) &&
             (ps_schema statement != RECOVERY_POLICY_STATEMENT_SCHEMA_V2))
    (chain_mismatch "schema-v2 recovery policies cannot be downgraded to schema v1");;
  reject_if ((ps_persona_anchor statement != ps_persona_anchor (vp_statement previous)) ||
             (ps_persona statement != ps_persona (vp_statement previous)) ||
             (ps_root_statement_sha256 statement != ps_root_statement_sha256 (vp_statement previous)))
    (chain_mismatch "recovery policy successor is bound to a different persona root");;
  expected_version ← ok_or (checked_add_u32 (ps_policy_version (vp_statement previous)) 1)
    (chain_mismatch "recovery policy version overflow");
  reject_if ((ps_policy_version statement != expected_version) ||
             (ps_previous_policy_sha256 statement != Some (vp_policy_statement_sha256 previous)))
    (chain_mismatch
      "recovery policies must advance by one and bind the exact previous statement digest");;
  reject_if (ps_issued_at statement <? ps_issued_at (vp_statement previous))%Z
    (chain_mismatch "recovery policy issuance times move backward");;
  let previous_checkpoint := ps_continuity_checkpoint (vp_statement previous) in
  let current_checkpoint := ps_continuity_checkpoint statement in
  reject_if ((rc_transition_sequence current_checkpoint <?
                rc_transition_sequence previous_checkpoint)%N ||
             ((rc_transition_sequence current_checkpoint ==
                 rc_transition_sequence previous_checkpoint) &&
              (rc_transition_sha256 current_checkpoint !=
                 rc_transition_sha256 previous_checkpoint)))
    (chain_mismatch
      "recovery policy continuity checkpoints cannot move backward or rewrite the same sequence").

Definition authority_fingerprints (public_keys : list string) : Result (list string) :=
  reject_if (negb (authority_count_ok (len public_keys))) (invalid_statement authorities_error);;
  fingerprints ← collect_result
    (λ key, key ← normalize_public_key key; public_key_fingerprint key) public_keys;
  let fingerprints := sort_strings fingerprints in
  reject_if (windows2_any (λ a b, a == b) fingerprints)
    (invalid_statement "recovery authority public keys must be distinct");;
  Ok fingerprints.

(** ** Building policy statements *)

Definition new_initial_recovery_policy_statement_for_schema (root : VerifiedPersonaRoot)
    (authority_public_keys : list string) (threshold : N)
    (capabilities : list RecoveryPolicyCapability)
    (continuity_checkpoint : RecoveryContinuityCheckpoint) (issued_at expires_at : Z)
    (schema : string) : Result RecoveryPolicyStatement :=
  reject_if (issued_at <? rs_issued_at (vpr_statement root))%Z
    (invalid_statement "a recovery policy cannot predate its persona root");;
  fingerprints ← authority_fingerprints authority_public_keys;
  let statement :=
    {| ps_schema := schema;
       ps_canonicalization := CONTINUITY_CANONICALIZATION;
       ps_persona_anchor := rs_persona_anchor (vpr_statement root);
       ps_persona := rs_persona (vpr_statement root);
       ps_root_statement_sha256 := vpr_root_statement_sha256 root;
       ps_policy_version := 1;
       ps_previous_policy_sha256 := None;
       ps_continuity_checkpoint := continuity_checkpoint;
       ps_issued_at := issued_at;
       ps_expires_at := expires_at;
       ps_threshold := threshold;
       ps_recovery_key_fingerprints := fingerprints;
       ps_capabilities := capabilities |} in
  validate_recovery_policy_statement statement;;
  validate_policy_root_binding root statement;;
  reject_if (binary_search_is_ok (ps_recovery_key_fingerprints statement)
               (rs_initial_key_fingerprint (vpr_statement root)))
    (invalid_statement "the online persona key cannot also be a recovery authority key");;
  Ok statement.

Definition new_initial_recovery_policy_statement (root : VerifiedPersonaRoot)
    (authority_public_keys : list string) (threshold : N)
    (continuity_checkpoint : RecoveryContinuityCheckpoint) (issued_at expires_at : Z) :
    Result RecoveryPolicyStatement :=
  new_initial_recovery_policy_statement_for_schema root authority_public_keys threshold []
    continuity_checkpoint issued_at expires_at RECOVERY_POLICY_STATEMENT_SCHEMA.

Definition new_initial_recovery_policy_statement_with_capabilities (root : VerifiedPersonaRoot)
    (authority_public_keys : list string) (threshold : N)
    (capabilities : list RecoveryPolicyCapability)
    (continuity_checkpoint : RecoveryContinuityCheckpoint) (issued_at expires_at : Z) :
    Result RecoveryPolicyStatement :=
  capabilities ← canonical_policy_capabilities capabilities;
  new_initial_recovery_policy_statement_for_schema root authority_public_keys threshold capabilities
    continuity_checkpoint issued_at expires_at RECOVERY_POLICY_STATEMENT_SCHEMA_V2.

Definition new_recovery_policy_update_statement_for_schema (previous : VerifiedRecoveryPolicy)
    (authority_public_keys : list string) (threshold : N)
    (capabilities : list RecoveryPolicyCapability)
    (continuity_checkpoint : RecoveryContinuityCheckpoint) (issued_at expires_at : Z)
    (schema : string) : Result RecoveryPolicyStatement :=
  reject_if (issued_at <? ps_issued_at (vp_statement previous))%Z
    (invalid_statement "recovery policy issuance times cannot move backward");;
  policy_version ← ok_or (checked_add_u32 (ps_policy_version (vp_statement previous)) 1)
    (invalid_statement "recovery policy version overflow");
  fingerprints ← authority_fingerprints authority_public_keys;
  let statement :=
    {| ps_schema := schema;
       ps_canonicalization := CONTINUITY_CANONICALIZATION;
       ps_persona_anchor := ps_persona_anchor (vp_statement previous);
       ps_persona := ps_persona (vp_statement previous);
       ps_root_statement_sha256 := ps_root_statement_sha256 (vp_statement previous);
       ps_policy_version := policy_version;
       ps_previous_policy_sha256 := Some (vp_policy_statement_sha256 previous);
       ps_continuity_checkpoint := continuity_checkpoint;
       ps_issued_at := issued_at;
       ps_expires_at := expires_at;
       ps_threshold := threshold;
       ps_recovery_key_fingerprints := fingerprints;
       ps_capabilities := capabilities |} in
  validate_recovery_policy_statement statement;;
  validate_policy_successor previous statement;;
  Ok statement.

Definition new_recovery_policy_update_statement (previous : VerifiedRecoveryPolicy)
    (authority_public_keys : list string) (threshold : N)
    (continuity_checkpoint : RecoveryContinuityCheckpoint) (issued_at expires_at : Z) :
    Result RecoveryPolicyStatement :=
  new_recovery_policy_update_statement_for_schema previous authority_public_keys threshold []
    continuity_checkpoint issued_at expires_at RECOVERY_POLICY_STATEMENT_SCHEMA.

Definition new_recovery_policy_update_statement_with_capabilities
    (previous : VerifiedRecoveryPolicy) (authority_public_keys : list string) (threshold : N)
    (capabilities : list RecoveryPolicyCapability)
    (continuity_checkpoint : RecoveryContinuityCheckpoint) (issued_at expires_at : Z) :
    Result RecoveryPolicyStatement :=
  capabilities ← canonical_policy_capabilities capabilities;
  new_recovery_policy_update_statement_for_schema previous authority_public_keys threshold
    capabilities continuity_checkpoint issued_at expires_at RECOVERY_POLICY_STATEMENT_SCHEMA_V2.

(** ** Signature sets *)

Definition validate_recovery_signature (signature : RecoverySignature) (namespace : string) :
    Result string :=
  reject_if ((sg_format signature != SIGNATURE_FORMAT) ||
             (sg_namespace signature != namespace) ||
             (sg_public_key_format signature != PUBLIC_KEY_FORMAT) ||
             (sg_value signature == "") ||
             (MAX_CONTINUITY_SIGNATURE_BYTES <? str_len (sg_value signature))%N)
    (invalid_proof "recovery signature format, namespace, key format, or size is invalid");;
  normalize_public_key (sg_public_key signature).

Record RecoverySignatureCheck := {
  ck_signature : RecoverySignature;
  ck_public_key : string;
  ck_fingerprint : string;
}.
Record AuthoritySignaturePreflight := {
  apf_checks : list RecoverySignatureCheck;
  apf_fingerprints : list string;
}.

Definition duplicate_authority : ProofError :=
  invalid_proof "a recovery authority key cannot count more than once".

(** One round of the loop: the set [seen] and the checks so far. *)
Definition preflight_one_signature (namespace : string)
    (st : list string * list RecoverySignatureCheck) (signature : RecoverySignature) :
    Result (list string * list RecoverySignatureCheck) :=
  public_key ← validate_recovery_signature signature namespace;
  fingerprint ← public_key_fingerprint public_key;
  let '(seen, fresh) := bset_insert fingerprint st.1 in
  reject_if (negb fresh) duplicate_authority;;
  Ok (seen, st.2 ++ [{| ck_signature := signature; ck_public_key := public_key;
                        ck_fingerprint := fingerprint |}]).

Definition preflight_unbound_signature_set (signatures : list RecoverySignature)
    (namespace : string) : Result AuthoritySignaturePreflight :=
  reject_if (negb (authority_count_ok (len signatures)))
    (invalid_proof ("recovery signature set must contain " +:+ pretty MIN_RECOVERY_AUTHORITIES +:+
      " through " +:+ pretty MAX_RECOVERY_AUTHORITIES +:+ " entries"));;
  '(seen, checks) ← fold_result (preflight_one_signature namespace) ([], []) signatures;
  Ok {| apf_checks := checks; apf_fingerprints := seen |}.

Definition signature_set_error (minimum allowed : N) : ProofError :=
  invalid_proof ("signature set requires " +:+ pretty minimum +:+ " through " +:+ pretty allowed +:+
    " distinct authorized keys").

Definition preflight_authority_signatures (signatures : list RecoverySignature)
    (allowed_fingerprints : list string) (minimum : N) (require_all : bool) (namespace : string) :
    Result AuthoritySignaturePreflight :=
  reject_if ((len signatures <? minimum)%N || (len allowed_fingerprints <? len signatures)%N)
    (signature_set_error minimum (len allowed_fingerprints));;
  let allowed := bset_of_list allowed_fingerprints in
  preflight ← preflight_unbound_signature_set signatures namespace;
  each_result (λ check, reject_if (negb (bset_contains (ck_fingerprint check) allowed))
    (invalid_proof "a signature key is not authorized by the recovery policy"))
    (apf_checks preflight);;
  reject_if (require_all && negb (len (apf_fingerprints preflight) =? len allowed)%N)
    (invalid_proof "every enrolled recovery authority must prove key possession");;
  Ok preflight.

Definition verify_authority_signatures (payload : bytes) (signatures : list RecoverySignature)
    (allowed_fingerprints : list string) (minimum : N) (require_all : bool) (namespace : string) :
    Result (list string) :=
  preflight ← preflight_authority_signatures signatures allowed_fingerprints minimum require_all
    namespace;
  each_result (λ check, sshsig_verify payload (sg_value (ck_signature check)) (ck_public_key check)
    namespace) (apf_checks preflight);;
  Ok (apf_fingerprints preflight).

Section signing.
Context {keygen : SshKeygen}.

Definition recovery_signature (namespace value public_key : string) : RecoverySignature :=
  {| sg_format := SIGNATURE_FORMAT;
     sg_namespace := namespace;
     sg_value := value;
     sg_public_key_format := PUBLIC_KEY_FORMAT;
     sg_public_key := public_key |}.

(** One round of the signing loop: [seen] and the signatures so far. *)
Definition sign_one_authority (payload : bytes) (allowed : list string) (namespace : string)
    (st : list string * list (string * RecoverySignature)) (signer : RecoverySigner) :
    Result (list string * list (string * RecoverySignature)) :=
  public_key ← normalize_public_key (rsn_public_key signer);
  fingerprint ← public_key_fingerprint public_key;
  reject_if (negb (bset_contains fingerprint allowed))
    (invalid_proof "a signing key is not authorized by the recovery policy");;
  let '(seen, fresh) := bset_insert fingerprint st.1 in
  reject_if (negb fresh) duplicate_authority;;
  value ← sshsig_sign payload (rsn_private_key_path signer) namespace;
  sshsig_verify payload value public_key namespace;;
  Ok (seen, st.2 ++ [(fingerprint, recovery_signature namespace value public_key)]).

(** [sort_by(|left, right| left.0.cmp(&right.0))] *)
Definition sort_signed (signed : list (string * RecoverySignature)) :
    list (string * RecoverySignature) :=
  merge_sort (λ left right, String.le left.1 right.1) signed.

Definition sign_with_authorities (payload : bytes) (signers : list RecoverySigner)
    (allowed_fingerprints : list string) (minimum : N) (require_all : bool) (namespace : string) :
    Result (list RecoverySignature) :=
  reject_if ((len signers <? minimum)%N || (len allowed_fingerprints <? len signers)%N)
    (signature_set_error minimum (len allowed_fingerprints));;
  let allowed := bset_of_list allowed_fingerprints in
  '(seen, signed) ← fold_result (sign_one_authority payload allowed namespace) ([], []) signers;
  reject_if (require_all && negb (len seen =? len allowed)%N)
    (invalid_proof "every newly enrolled recovery authority must prove key possession");;
  Ok (snd <$> sort_signed signed).

Definition sign_one (payload : bytes) (private_key_path public_key namespace : string) :
    Result RecoverySignature :=
  public_key ← normalize_public_key public_key;
  value ← sshsig_sign payload private_key_path namespace;
  sshsig_verify payload value public_key namespace;;
  Ok (recovery_signature namespace value public_key).

End signing.

(** ** Policy proofs *)

Section json.
Context {json_policy : Serde RecoveryPolicyStatement}.

Definition canonical_recovery_policy_statement_bytes (statement : RecoveryPolicyStatement) :
    Result bytes :=
  validate_recovery_policy_statement statement;;
  bs ← map_err Json (of_sum (jcs_to_vec statement));
  validate_payload_bound bs;;
  Ok bs.

Definition recovery_policy_statement_sha256 (statement : RecoveryPolicyStatement) : Result string :=
  bs ← canonical_recovery_policy_statement_bytes statement;
  Ok (sha256_hex bs).

Definition enrollment_version_error : ProofError :=
  invalid_proof "an enrollment proof requires policy version 1 without a predecessor".

Definition not_enrollment_version (statement : RecoveryPolicyStatement) : bool :=
  negb (ps_policy_version statement =? 1)%N ||
  bool_decide (is_Some (ps_previous_policy_sha256 statement)).

Definition create_initial_recovery_policy_proof {keygen : SshKeygen}
    (statement : RecoveryPolicyStatement) (signers : list RecoverySigner) :
    Result RecoveryPolicyProof :=
  reject_if (not_enrollment_version statement) enrollment_version_error;;
  payload ← canonical_recovery_policy_statement_bytes statement;
  signatures ← sign_with_authorities payload signers (ps_recovery_key_fingerprints statement)
    (len (ps_recovery_key_fingerprints statement)) true RECOVERY_POLICY_ENROLLMENT_NAMESPACE;
  Ok {| pp_schema := RECOVERY_POLICY_PROOF_SCHEMA;
        pp_payload := URL_SAFE_NO_PAD_encode payload;
        pp_authorization := Enrollment signatures |}.

Definition create_recovery_policy_update_proof {keygen : SshKeygen}
    (statement : RecoveryPolicyStatement) (previous : VerifiedRecoveryPolicy)
    (previous_signers current_signers : list RecoverySigner) : Result RecoveryPolicyProof :=
  validate_policy_successor previous statement;;
  payload ← canonical_recovery_policy_statement_bytes statement;
  let previous_threshold := ps_threshold (vp_statement previous) in
  previous_policy_signatures ← sign_with_authorities payload previous_signers
    (ps_recovery_key_fingerprints (vp_statement previous)) previous_threshold false
    RECOVERY_POLICY_UPDATE_PREVIOUS_NAMESPACE;
  current_policy_signatures ← sign_with_authorities payload current_signers
    (ps_recovery_key_fingerprints statement) (len (ps_recovery_key_fingerprints statement)) true
    RECOVERY_POLICY_UPDATE_CURRENT_NAMESPACE;
  Ok {| pp_schema := RECOVERY_POLICY_PROOF_SCHEMA;
        pp_payload := URL_SAFE_NO_PAD_encode payload;
        pp_authorization := Update previous_policy_signatures current_policy_signatures |}.

Definition preflight_recovery_policy_proof (proof : RecoveryPolicyProof) :
    Result (bytes * RecoveryPolicyStatement) :=
  require_schema (pp_schema proof) RECOVERY_POLICY_PROOF_SCHEMA;;
  payload ← decode_canonical_payload (pp_payload proof);
  statement ← map_err invalid_statement
    (parse_bounded_json payload MAX_CONTINUITY_PAYLOAD_BYTES "recovery policy statement");
  canonical ← canonical_recovery_policy_statement_bytes statement;
  reject_if (canonical != payload) NonCanonicalContinuityStatement;;
  match pp_authorization proof with
  | Enrollment signatures =>
      reject_if (not_enrollment_version statement) enrollment_version_error;;
      _ ← preflight_authority_signatures signatures (ps_recovery_key_fingerprints statement)
        (len (ps_recovery_key_fingerprints statement)) true RECOVERY_POLICY_ENROLLMENT_NAMESPACE;
      Ok tt
  | Update previous_policy_signatures current_policy_signatures =>
      reject_if ((ps_policy_version statement <=? 1)%N ||
                 negb (bool_decide (is_Some (ps_previous_policy_sha256 statement))))
        (invalid_proof
          "an update proof requires a policy version after 1 and a predecessor digest");;
      _ ← preflight_unbound_signature_set previous_policy_signatures
        RECOVERY_POLICY_UPDATE_PREVIOUS_NAMESPACE;
      _ ← preflight_authority_signatures current_policy_signatures
        (ps_recovery_key_fingerprints statement) (ps_threshold statement) false
        RECOVERY_POLICY_UPDATE_CURRENT_NAMESPACE;
      Ok tt
  end;;
  Ok (payload, statement).

Definition validate_recovery_policy_proof_structure (proof : RecoveryPolicyProof) : Result unit :=
  _ ← preflight_recovery_policy_proof proof; Ok tt.

Definition parse_recovery_policy_proof_bytes `{!Serde RecoveryPolicyProof} (bs : bytes) :
    Result RecoveryPolicyProof :=
  proof ← map_err invalid_proof (parse_bounded_json bs MAX_PROOF_BYTES "recovery policy proof");
  _ ← preflight_recovery_policy_proof proof;
  Ok proof.

Definition verify_recovery_policy_proof (root : VerifiedPersonaRoot)
    (previous : option VerifiedRecoveryPolicy) (proof : RecoveryPolicyProof) :
    Result VerifiedRecoveryPolicy :=
  '(payload, statement) ← preflight_recovery_policy_proof proof;
  validate_policy_root_binding root statement;;
  let policy_statement_sha256 := sha256_hex payload in
  '(previous_authorization_fingerprints, current_authorization_fingerprints) ←
    match previous, pp_authorization proof with
    | None, Enrollment signatures =>
        reject_if (not_enrollment_version statement) enrollment_version_error;;
        current ← verify_authority_signatures payload signatures
          (ps_recovery_key_fingerprints statement) (len (ps_recovery_key_fingerprints statement))
          true RECOVERY_POLICY_ENROLLMENT_NAMESPACE;
        Ok ([], current)
    | Some previous, Update previous_policy_signatures current_policy_signatures =>
        validate_policy_successor previous statement;;
        previous_fingerprints ← verify_authority_signatures payload previous_policy_signatures
          (ps_recovery_key_fingerprints (vp_statement previous))
          (ps_threshold (vp_statement previous)) false RECOVERY_POLICY_UPDATE_PREVIOUS_NAMESPACE;
        current_fingerprints ← verify_authority_signatures payload current_policy_signatures
          (ps_recovery_key_fingerprints statement) (ps_threshold statement) false
          RECOVERY_POLICY_UPDATE_CURRENT_NAMESPACE;
        Ok (previous_fingerprints, current_fingerprints)
    | None, Update _ _ =>
        Err (invalid_proof "the initial recovery policy cannot use update authorization")
    | Some _, Enrollment _ =>
        Err (invalid_proof "a recovery policy successor cannot use enrollment authorization")
    end;
  Ok {| vp_statement := statement;
        vp_policy_statement_sha256 := policy_statement_sha256;
        vp_previous_authorization_fingerprints := previous_authorization_fingerprints;
        vp_current_authorization_fingerprints := current_authorization_fingerprints |}.

Definition verify_initial_recovery_policy_proof (root : VerifiedPersonaRoot)
    (proof : RecoveryPolicyProof) : Result VerifiedRecoveryPolicy :=
  verify_recovery_policy_proof root None proof.

Definition verify_recovery_policy_update_proof (root : VerifiedPersonaRoot)
    (previous : VerifiedRecoveryPolicy) (proof : RecoveryPolicyProof) :
    Result VerifiedRecoveryPolicy :=
  verify_recovery_policy_proof root (Some previous) proof.

(** ** Policy chains *)

Definition policy_step (root : VerifiedPersonaRoot) (verified : list VerifiedRecoveryPolicy)
    (proof : RecoveryPolicyProof) : Result (list VerifiedRecoveryPolicy) :=
  policy ← verify_recovery_policy_proof root (list.last verified) proof;
  Ok (verified ++ [policy]).

Definition verify_recovery_policy_proof_sequence (root : VerifiedPersonaRoot)
    (policies : list RecoveryPolicyProof) : Result (list VerifiedRecoveryPolicy) :=
  reject_if ((len policies =? 0)%N || (MAX_RECOVERY_POLICY_VERSIONS <? len policies)%N)
    (chain_mismatch ("recovery policy chain must contain 1 through " +:+
      pretty MAX_RECOVERY_POLICY_VERSIONS +:+ " proofs"));;
  fold_result (policy_step root) [] policies.

Context {json_root : Serde PersonaRootStatement}.

Definition verified_recovery_policy_sequence (root_proof : PersonaRootProof)
    (policies : list RecoveryPolicyProof)
    (expected_root_statement_sha256 expected_latest_policy_sha256 : string) :
    Result VerifiedRecoveryPolicySequence :=
  validate_sha256 "expected root statement digest" expected_root_statement_sha256;;
  validate_sha256 "expected latest recovery policy digest" expected_latest_policy_sha256;;
  root ← verify_persona_root_proof root_proof;
  reject_if (vpr_root_statement_sha256 root != expected_root_statement_sha256)
    (chain_mismatch "root statement digest does not match the independently expected digest");;
  verified ← verify_recovery_policy_proof_sequence root policies;
  latest ← expect (list.last verified)
    "a non-empty policy input produces a non-empty verified chain";
  reject_if (vp_policy_statement_sha256 latest != expected_latest_policy_sha256)
    (chain_mismatch
      "latest recovery policy digest does not match the independently expected digest");;
  Ok {| vps_root := root; vps_policies := verified |}.

Definition recovery_policy_chain_report (chain : VerifiedRecoveryPolicySequence) (checked_at : Z) :
    Result RecoveryPolicyChainReport :=
  validate_jcs_time "recovery policy check time" checked_at;;
  initial ← expect (list.head (vps_policies chain)) "a verified recovery policy chain is non-empty";
  latest ← expect (list.last (vps_policies chain)) "a verified recovery policy chain is non-empty";
  let time_status := policy_time_status (vp_statement latest) checked_at in
  authority_count ← expect
    (u32_try_from (len (ps_recovery_key_fingerprints (vp_statement latest))))
    "bounded authority count fits in u32";
  Ok {| pr_root_signature := Verified;
        pr_expected_root_digest := Verified;
        pr_enrollment_proof := Verified;
        pr_update_chain := Verified;
        pr_expected_latest_policy_digest := Verified;
        pr_persona := rs_persona (vpr_statement (vps_root chain));
        pr_persona_anchor := rs_persona_anchor (vpr_statement (vps_root chain));
        pr_root_statement_sha256 := vpr_root_statement_sha256 (vps_root chain);
        pr_initial_policy_sha256 := vp_policy_statement_sha256 initial;
        pr_latest_policy_sha256 := vp_policy_statement_sha256 latest;
        pr_latest_policy_version := ps_policy_version (vp_statement latest);
        pr_threshold := ps_threshold (vp_statement latest);
        pr_authority_count := authority_count;
        pr_latest_checkpoint_sequence :=
          rc_transition_sequence (ps_continuity_checkpoint (vp_statement latest));
        pr_latest_checkpoint_sha256 :=
          rc_transition_sha256 (ps_continuity_checkpoint (vp_statement latest));
        pr_checkpoint_against_transition_chain := "not_checked_without_transition_chain";
        pr_issued_at := ps_issued_at (vp_statement latest);
        pr_expires_at := ps_expires_at (vp_statement latest);
        pr_checked_at := checked_at;
        pr_time_status := time_status;
        pr_not_established :=
          ["when_or_how_the_root_and_latest_policy_digests_were_pinned";
           "whether_a_newer_policy_was_withheld_from_the_verifier";
           "whether_policy_checkpoints_match_the_transition_chain";
           "a_trusted_timestamp_for_policy_issuance";
           "the_legal_identity_or_independence_of_recovery_key_holders";
           "artifact_or_software_safety"] |}.

Definition verify_recovery_policy_chain_with_verified_sequence (root_proof : PersonaRootProof)
    (policies : list RecoveryPolicyProof)
    (expected_root_statement_sha256 expected_latest_policy_sha256 : string) (checked_at : Z) :
    Result VerifiedRecoveryPolicyChain :=
  sequence ← verified_recovery_policy_sequence root_proof policies expected_root_statement_sha256
    expected_latest_policy_sha256;
  report ← recovery_policy_chain_report sequence checked_at;
  Ok {| vpc_root := vps_root sequence; vpc_policies := vps_policies sequence; vpc_report := report |}.

Definition verify_recovery_policy_chain (root_proof : PersonaRootProof)
    (policies : list RecoveryPolicyProof)
    (expected_root_statement_sha256 expected_latest_policy_sha256 : string) (checked_at : Z) :
    Result RecoveryPolicyChainReport :=
  chain ← verify_recovery_policy_chain_with_verified_sequence root_proof policies
    expected_root_statement_sha256 expected_latest_policy_sha256 checked_at;
  Ok (vpc_report chain).

End json.
End recovery_policy.
