(* ===== verification/RecoveryPolicyFacts.v ===== *)
(** * Theorems about recovery policies

    A validated policy has between 2 and 32 distinct sorted authorities and a
    threshold between 2 and their number; a signature set that verifies is a
    quorum of distinct authorised keys that each signed the payload; a policy
    chain is a linked sequence of such policies, each successor authorised by
    its predecessor; its pinned latest digest determines it; what is created
    verifies; and no input makes policy verification panic. *)

From stdpp Require Import base numbers list strings pretty sorting option sets.
From Stdlib Require Import Strings.Byte Ascii.
From S2P Require Import Prelude Text Ordered Display Crates ArtifactProof ArtifactFacts.
From S2P Require Import Continuity ContinuityFacts RecoveryPolicy.

Section facts.
Context {crates : Crates}.

(** ** Well-formed policies *)

Record policy_wf (st : RecoveryPolicyStatement) : Prop := {
  pw_authorities : (2 <= len (ps_recovery_key_fingerprints st) <= 32)%N;
  pw_threshold : (2 <= ps_threshold st <= len (ps_recovery_key_fingerprints st))%N;
  pw_sorted : strictly_sorted (ps_recovery_key_fingerprints st);
  pw_fingerprints : Forall (λ f, validate_key_fingerprint f = Ok tt) (ps_recovery_key_fingerprints st);
  pw_version : (1 <= ps_policy_version st)%N;
  pw_first : ps_policy_version st = 1%N ↔ ps_previous_policy_sha256 st = None;
  pw_window : (0 <= ps_issued_at st < ps_expires_at st)%Z ∧
    (ps_expires_at st - ps_issued_at st <= MAX_RECOVERY_POLICY_VALIDITY_SECONDS)%Z ∧
    (ps_expires_at st <= MAX_JCS_SAFE_INTEGER)%Z;
  pw_checkpoint : (rc_transition_sequence (ps_continuity_checkpoint st) <= MAX_CONTINUITY_TRANSITIONS)%N ∧
    (rc_transition_sequence (ps_continuity_checkpoint st) = 0%N ↔
     rc_transition_sha256 (ps_continuity_checkpoint st) = None);
  pw_schema : (ps_schema st = RECOVERY_POLICY_STATEMENT_SCHEMA ∧ ps_capabilities st = []) ∨
    (ps_schema st = RECOVERY_POLICY_STATEMENT_SCHEMA_V2 ∧
     ps_capabilities st ∈ [[KeyRecovery]; [TerminalRevocation]; [KeyRecovery; TerminalRevocation]]);
}.

Lemma authority_loop_sorted l st :
  fold_result next_authority_fingerprint None l = Ok st →
  strictly_sorted l ∧ Forall (λ f, validate_key_fingerprint f = Ok tt) l.
Proof.
  intros H. eapply (fold_result_ind _ (λ l st, st = list.last l ∧ strictly_sorted l ∧
    Forall (λ f, validate_key_fingerprint f = Ok tt) l)) in H; [tauto|by repeat constructor|].
  clear. intros done x st st' (-> & Hs & Hf) H. unfold next_authority_fingerprint in H.
  rewrite !seq_Ok in H. destruct H as (Hx & Hlt & [= <-]).
  rewrite list.last_snoc, Forall_app. split_and!; [done| |done|by repeat constructor].
  destruct done as [|y done _] using rev_ind; [repeat constructor|].
  rewrite list.last_snoc in Hlt. oks Hlt. unfold str_ltb in Hlt. apply bool_decide_eq_true in Hlt.
  apply StronglySorted_app_2; [|done|repeat constructor]. intros a b Ha Hb%list_elem_of_singleton.
  subst b. apply elem_of_app in Ha as [Ha|Ha]; [|by apply list_elem_of_singleton in Ha as ->].
  apply StronglySorted_app in Hs as (Hyx & _). apply str_lt_trans with y; [apply Hyx; [done|left]|done].
Qed.

Lemma capabilities_sorted l :
  l ≠ [] → (len l <= 2)%N → windows2_any (λ a b, (capability_index b <=? capability_index a)%N) l = false →
  l ∈ [[KeyRecovery]; [TerminalRevocation]; [KeyRecovery; TerminalRevocation]].
Proof.
  intros Hne Hlen Hw. destruct l as [|a [|b [|c l]]]; [done|destruct a; set_solver| |].
  - cbn in Hw. destruct a, b; cbn in Hw; try done. set_solver.
  - rewrite !len_cons in Hlen. lia.
Qed.

Lemma validated_policy_wf st : validate_recovery_policy_statement st = Ok tt → policy_wf st.
Proof.
  unfold validate_recovery_policy_statement. rewrite !seq_Ok. intros (Hschema & _ & _ & H).
  unbind H as persona Hp. rewrite !seq_Ok in H. destruct H as (_ & Hv & Hc & Hi & He & H).
  unbind H as validity Hval. rewrite !seq_Ok in H. destruct H as (Hval2 & Hn & Ht & H).
  unbind H as lastfp Hl. apply authority_loop_sorted in Hl as [Hs Hf].
  apply validate_jcs_time_Ok in Hi, He. rewrite ok_or_Ok, checked_sub_i64_Some in Hval.
  destruct Hval as [-> _]. rewrite reject_if_Ok, orb_false_iff, Z.leb_gt, Z.ltb_ge in Hval2.
  rewrite reject_if_Ok, orb_false_iff, !N.ltb_ge in Ht.
  unfold authority_count_ok, MIN_RECOVERY_AUTHORITIES, MAX_RECOVERY_AUTHORITIES in *.
  rewrite reject_if_Ok, negb_false_iff, andb_true_iff, !N.leb_le in Hn.
  split; [done|done|done|done| | |lia| |].
  - destruct (N.eqb_spec (ps_policy_version st) 0); [done|lia].
  - destruct (N.eqb_spec (ps_policy_version st) 0); [done|].
    destruct (N.eqb_spec (ps_policy_version st) 1), (ps_previous_policy_sha256 st); naive_solver.
  - unfold validate_recovery_checkpoint in Hc.
    change (expect (u32_try_from MAX_CONTINUITY_TRANSITIONS) _)
      with (@Ok ProofError N MAX_CONTINUITY_TRANSITIONS) in Hc.
    rewrite bind_Ok_l, seq_Ok, reject_if_Ok, N.ltb_ge in Hc. destruct Hc as [Hb Hc]. split; [done|].
    destruct (N.eqb_spec (rc_transition_sequence (ps_continuity_checkpoint st)) 0),
      (rc_transition_sha256 (ps_continuity_checkpoint st)); naive_solver.
  - unfold validate_policy_schema in Hschema. case_bool_decide; [left; by oks Hschema|].
    case_bool_decide; [right|done]. split; [done|]. rewrite seq_Ok in Hschema.
    destruct Hschema as [Hne Hw]. oks Hne. rewrite reject_if_Ok, orb_false_iff, N.ltb_ge in Hw.
    destruct Hw. by apply capabilities_sorted.
Qed.

(** ** Quorums *)

Definition checked_signature (namespace : string) (c : RecoverySignatureCheck) : Prop :=
  validate_recovery_signature (ck_signature c) namespace = Ok (ck_public_key c) ∧
  public_key_fingerprint (ck_public_key c) = Ok (ck_fingerprint c).

Lemma preflight_loop_sound namespace sigs seen checks :
  fold_result (preflight_one_signature namespace) ([], []) sigs = Ok (seen, checks) →
  strictly_sorted seen ∧ (∀ f, f ∈ seen ↔ f ∈ ck_fingerprint <$> checks) ∧
  ck_signature <$> checks = sigs ∧ len seen = len sigs ∧ Forall (checked_signature namespace) checks.
Proof.
  apply (fold_result_ind _ (λ sigs st, strictly_sorted st.1 ∧
    (∀ f, f ∈ st.1 ↔ f ∈ ck_fingerprint <$> st.2) ∧ ck_signature <$> st.2 = sigs ∧
    len st.1 = len sigs ∧ Forall (checked_signature namespace) st.2)).
  { split_and!; [constructor|done|done|done|constructor]. }
  intros done s [seen0 checks0] st' (Hs & Hel & Hm & Hlen & Hf) H. cbn [fst snd] in *.
  unfold preflight_one_signature in H. unbind H as key Hk. unbind H as f Hfp. cbn [fst snd] in H.
  pose proof (bset_insert_sorted f seen0 Hs) as Hs'. pose proof (λ y, bset_insert_elem f y seen0) as He.
  pose proof (bset_insert_len f seen0) as Hl.
  destruct (bset_insert f seen0) as [seen1 fresh]. cbn [fst snd] in *.
  rewrite seq_Ok in H. destruct H as [Hfr [= <-]]. oks Hfr. subst. cbn [fst snd].
  split_and!; [done| | | |].
  - intros g. rewrite He, fmap_app, elem_of_app, Hel. cbn. set_solver.
  - rewrite fmap_app. done.
  - rewrite Hl, len_app, Hlen. change (len [s]) with 1%N. lia.
  - rewrite Forall_app. split; [done|]. by repeat constructor.
Qed.

(** A quorum: distinct authorised keys, at least the minimum, each with a
    signature of the set that verifies over the payload. *)
Record quorum (payload : bytes) (namespace : string) (sigs : list RecoverySignature)
    (allowed : list string) (minimum : N) (fps : list string) : Prop := {
  q_distinct : NoDup fps;
  q_allowed f : f ∈ fps → f ∈ allowed;
  q_minimum : (minimum <= len fps)%N;
  q_bounds : (2 <= len fps <= 32)%N;
  q_signed f : f ∈ fps → ∃ s key, s ∈ sigs ∧ sg_namespace s = namespace ∧
    normalize_public_key (sg_public_key s) = Ok key ∧ public_key_fingerprint key = Ok f ∧
    sshsig_verify payload (sg_value s) key namespace = Ok tt;
}.

Lemma preflight_authority_sound sigs allowed minimum all namespace pre :
  preflight_authority_signatures sigs allowed minimum all namespace = Ok pre →
  strictly_sorted (apf_fingerprints pre) ∧
  (∀ f, f ∈ apf_fingerprints pre ↔ f ∈ ck_fingerprint <$> apf_checks pre) ∧
  ck_signature <$> apf_checks pre = sigs ∧ len (apf_fingerprints pre) = len sigs ∧
  Forall (checked_signature namespace) (apf_checks pre) ∧
  (∀ f, f ∈ apf_fingerprints pre → f ∈ allowed) ∧
  (minimum <= len sigs)%N ∧ (2 <= len sigs <= 32)%N ∧
  (all = true → len (apf_fingerprints pre) = len (bset_of_list allowed)).
Proof.
  unfold preflight_authority_signatures, preflight_unbound_signature_set. rewrite seq_Ok.
  intros [Hb H]. unbind H as p Hp. rewrite seq_Ok in Hp. destruct Hp as [Hn Hp].
  unbind Hp as [seen checks] Hfold. injection Hp as <-. rewrite !seq_Ok in H.
  destruct H as (Ha & Hall & [= <-]). apply preflight_loop_sound in Hfold as (Hs & Hel & Hm & Hl & Hf).
  rewrite reject_if_Ok, orb_false_iff, !N.ltb_ge in Hb.
  unfold authority_count_ok, MIN_RECOVERY_AUTHORITIES, MAX_RECOVERY_AUTHORITIES in Hn.
  rewrite reject_if_Ok, negb_false_iff, andb_true_iff, !N.leb_le in Hn.
  cbn [apf_checks apf_fingerprints] in *. split_and!; try (done || lia).
  - intros f Hin. rewrite Hel, list_elem_of_fmap in Hin. destruct Hin as (c & -> & Hc).
    rewrite each_result_Ok, list.Forall_forall in Ha. specialize (Ha c Hc). oks Ha.
    rewrite bset_contains_iff, bset_of_list_elem in Ha. done.
  - intros ->. rewrite reject_if_Ok in Hall. cbn in Hall. by apply negb_false_iff, N.eqb_eq in Hall.
Qed.

Lemma validate_recovery_signature_Ok s namespace key :
  validate_recovery_signature s namespace = Ok key →
  sg_namespace s = namespace ∧ normalize_public_key (sg_public_key s) = Ok key.
Proof. unfold validate_recovery_signature. rewrite seq_Ok. intros [H Hk]. oks H. done. Qed.

Lemma verify_authority_signatures_quorum payload sigs allowed minimum all namespace fps :
  verify_authority_signatures payload sigs allowed minimum all namespace = Ok fps →
  quorum payload namespace sigs allowed minimum fps ∧
  (all = true → ∀ f, f ∈ allowed → f ∈ fps).
Proof.
  unfold verify_authority_signatures. intros H. unbind H as pre Hpre. rewrite seq_Ok in H.
  destruct H as [Hv [= <-]].
  apply preflight_authority_sound in Hpre as (Hs & Hel & Hm & Hl & Hf & Hal & Hmin & Hb & Hall).
  pose proof (strictly_sorted_NoDup _ Hs) as Hnd. split.
  - split; [done|done|by rewrite Hl|by rewrite Hl|]. intros f Hin.
    rewrite Hel, list_elem_of_fmap in Hin. destruct Hin as (c & -> & Hc).
    rewrite each_result_Ok, list.Forall_forall in Hv. rewrite list.Forall_forall in Hf.
    destruct (Hf c Hc) as [Hsig Hfp]. apply validate_recovery_signature_Ok in Hsig as [Hns Hkey].
    exists (ck_signature c), (ck_public_key c). split_and!; [|done..|by apply Hv].
    rewrite <- Hm. by apply list_elem_of_fmap_2.
  - intros Ht f Hin. specialize (Hall Ht). rewrite <- bset_of_list_elem in Hin.
    assert (Permutation (apf_fingerprints pre) (bset_of_list allowed)) as ->; [|done].
    apply submseteq_length_Permutation; [|unfold len in Hall; lia].
    apply NoDup_submseteq; [done|]. intros g Hg. rewrite bset_of_list_elem. by apply Hal.
Qed.

(** The converse of [preflight_loop_sound]: checks of distinct keys pass. *)
Lemma preflight_loop_checks namespace checks :
  NoDup (ck_fingerprint <$> checks) → Forall (checked_signature namespace) checks →
  ∃ seen, fold_result (preflight_one_signature namespace) ([], []) (ck_signature <$> checks) =
      Ok (seen, checks) ∧
    strictly_sorted seen ∧ (∀ f, f ∈ seen ↔ f ∈ ck_fingerprint <$> checks) ∧ len seen = len checks.
Proof.
  induction checks as [|c checks IH] using rev_ind; intros Hnd Hc.
  { exists []. by split_and!; try constructor. }
  rewrite !fmap_app in *. cbn in *. apply NoDup_app in Hnd as (Hnd & Hfresh & _).
  rewrite Forall_app, Forall_cons_iff in Hc. destruct Hc as (Hc & [Hval Hfp] & _).
  destruct (IH Hnd Hc) as (seen & Hfold & Hs & Hel & Hl).
  rewrite fold_result_app, Hfold, bind_Ok_l. cbn [fold_result]. unfold preflight_one_signature at 1.
  rewrite Hval, bind_Ok_l, Hfp, bind_Ok_l. cbn [fst snd].
  pose proof (bset_insert_sorted (ck_fingerprint c) seen Hs) as Hs'.
  pose proof (λ y, bset_insert_elem (ck_fingerprint c) y seen) as He.
  pose proof (bset_insert_len (ck_fingerprint c) seen) as Hl'.
  pose proof (bset_insert_fresh (ck_fingerprint c) seen Hs) as Hfr.
  destruct (bset_insert (ck_fingerprint c) seen) as [seen1 fresh]. cbn [fst snd] in *.
  assert (fresh = true) as ->.
  { apply Hfr. rewrite Hel. intros Hin. apply (Hfresh _ Hin). left. }
  cbn. exists seen1. split_and!; [by destruct c|done| |].
  - intros g. rewrite He, Hel, elem_of_app. set_solver.
  - rewrite Hl', len_app, Hl, len_cons. change (len (@nil RecoverySignatureCheck)) with 0%N. lia.
Qed.

Lemma checks_verify payload namespace allowed minimum checks :
  NoDup (ck_fingerprint <$> checks) → Forall (checked_signature namespace) checks →
  Forall (λ c, ck_fingerprint c ∈ allowed ∧
    sshsig_verify payload (sg_value (ck_signature c)) (ck_public_key c) namespace = Ok tt) checks →
  (2 <= len checks <= 32)%N → (minimum <= len checks)%N →
  ∃ seen, preflight_unbound_signature_set (ck_signature <$> checks) namespace =
      Ok {| apf_checks := checks; apf_fingerprints := seen |} ∧
    verify_authority_signatures payload (ck_signature <$> checks) allowed minimum false namespace =
      Ok seen ∧ (∀ f, f ∈ seen ↔ f ∈ ck_fingerprint <$> checks).
Proof.
  intros Hnd Hc Hok Hn Hmin. destruct (preflight_loop_checks _ _ Hnd Hc) as (seen & Hfold & _ & Hel & _).
  assert (len (ck_signature <$> checks) = len checks) as Hlen by apply len_fmap.
  assert (len checks <= len allowed)%N as Hmax.
  { rewrite <- (len_fmap ck_fingerprint). apply NoDup_len_le; [done|].
    intros f (c & -> & Hin)%list_elem_of_fmap. rewrite list.Forall_forall in Hok. by apply Hok. }
  assert (preflight_unbound_signature_set (ck_signature <$> checks) namespace =
    Ok {| apf_checks := checks; apf_fingerprints := seen |}) as Hun.
  { unfold preflight_unbound_signature_set, authority_count_ok, MIN_RECOVERY_AUTHORITIES,
      MAX_RECOVERY_AUTHORITIES. rewrite Hlen.
    rewrite (proj2 (N.leb_le 2 _)), (proj2 (N.leb_le _ 32)) by lia. cbn [andb negb reject_if].
    by rewrite bind_Ok_l, Hfold. }
  exists seen. split_and!; [done| |done].
  unfold verify_authority_signatures, preflight_authority_signatures. rewrite Hlen.
  rewrite (proj2 (N.ltb_ge _ minimum)), (proj2 (N.ltb_ge (len allowed) _)) by lia.
  cbn [orb reject_if]. rewrite bind_Ok_l, Hun, bind_Ok_l. cbn [apf_checks apf_fingerprints andb reject_if].
  rewrite (proj2 (each_result_Ok _ _)), !bind_Ok_l, (proj2 (each_result_Ok _ _)); [done|..];
    cbn [apf_checks]; (eapply list.Forall_impl; [exact Hok|]); intros c [Ha Hv]; [done|].
  apply reject_if_Ok, negb_false_iff, bset_contains_iff. by apply bset_of_list_elem.
Qed.

(** C4: recovery needs a real quorum: when a signature set verifies, the
    fingerprints it reports are distinct, all authorised by the policy, at
    least the required minimum in number, and each of them belongs to a key
    with a signature of the set over exactly this payload and namespace; and
    when every authority is required none is missing. *)
Theorem authority_quorum payload sigs allowed minimum all namespace fps :
  verify_authority_signatures payload sigs allowed minimum all namespace = Ok fps →
  quorum payload namespace sigs allowed minimum fps ∧
  (all = true → ∀ f, f ∈ allowed → f ∈ fps).
Proof. apply verify_authority_signatures_quorum. Qed.

(** ** Policy proofs *)

Section chain.
Context {json_policy : Serde RecoveryPolicyStatement}.

(** A successor: next version, linked to the exact statement before it, same
    root, not earlier, checkpoint not behind, no return from schema v2. *)
Record policy_follows (p q : VerifiedRecoveryPolicy) : Prop := {
  pf_version : ps_policy_version (vp_statement q) = (ps_policy_version (vp_statement p) + 1)%N;
  pf_digest : ps_previous_policy_sha256 (vp_statement q) = Some (vp_policy_statement_sha256 p);
  pf_root : ps_root_statement_sha256 (vp_statement q) = ps_root_statement_sha256 (vp_statement p);
  pf_issued : (ps_issued_at (vp_statement p) <= ps_issued_at (vp_statement q))%Z;
  pf_checkpoint :
    (rc_transition_sequence (ps_continuity_checkpoint (vp_statement p)) <
       rc_transition_sequence (ps_continuity_checkpoint (vp_statement q)))%N ∨
    ps_continuity_checkpoint (vp_statement p) = ps_continuity_checkpoint (vp_statement q);
  pf_schema : ps_schema (vp_statement p) = RECOVERY_POLICY_STATEMENT_SCHEMA_V2 →
    ps_schema (vp_statement q) = RECOVERY_POLICY_STATEMENT_SCHEMA_V2;
}.

Lemma validate_policy_successor_Ok p st digest a b :
  validate_policy_successor p st = Ok tt →
  policy_follows p {| vp_statement := st; vp_policy_statement_sha256 := digest;
    vp_previous_authorization_fingerprints := a; vp_current_authorization_fingerprints := b |}.
Proof.
  unfold validate_policy_successor. rewrite !seq_Ok. intros (_ & Hs & Hr & H).
  unbind H as v Hv. rewrite !seq_Ok in H. destruct H as (Hd & Hi & Hc).
  rewrite ok_or_Ok, checked_add_u32_Some in Hv. destruct Hv as [-> _].
  oks Hr. oks Hd. rewrite reject_if_Ok, Z.ltb_ge in Hi.
  rewrite reject_if_Ok, orb_false_iff, N.ltb_ge, andb_false_iff, negb_false_iff,
    bool_decide_eq_false, bool_decide_eq_true in Hc. destruct Hc as [Hle Hc].
  rewrite reject_if_Ok, andb_false_iff, negb_false_iff, bool_decide_eq_false, bool_decide_eq_true in Hs.
  split; cbn; [done..| |naive_solver].
  destruct (ps_continuity_checkpoint (vp_statement p)) as [n1 d1].
  destruct (ps_continuity_checkpoint st) as [n2 d2]; cbn in *.
  destruct (decide (n1 = n2)) as [->|]; [right|left; lia]. destruct Hc as [Hne| ->]; [lia|done].
Qed.

Definition bound_to_root (root : VerifiedPersonaRoot) (st : RecoveryPolicyStatement) : Prop :=
  ps_persona_anchor st = rs_persona_anchor (vpr_statement root) ∧
  ps_persona st = rs_persona (vpr_statement root) ∧
  ps_root_statement_sha256 st = vpr_root_statement_sha256 root ∧
  (rs_issued_at (vpr_statement root) <= ps_issued_at st)%Z.

Lemma validate_policy_root_binding_Ok root st :
  validate_policy_root_binding root st = Ok tt ↔ bound_to_root root st.
Proof.
  unfold validate_policy_root_binding, bound_to_root. autorewrite with ok.
  rewrite Z.ltb_ge. tauto.
Qed.

Lemma validate_policy_successor_version p st :
  validate_policy_successor p st = Ok tt →
  ps_policy_version st = (ps_policy_version (vp_statement p) + 1)%N ∧
  (ps_policy_version st <= u32_max)%N ∧
  ps_previous_policy_sha256 st = Some (vp_policy_statement_sha256 p).
Proof.
  unfold validate_policy_successor. rewrite !seq_Ok. intros (_ & _ & _ & H).
  unbind H as v Hv. rewrite !seq_Ok in H. destruct H as (Hd & _).
  rewrite ok_or_Ok, checked_add_u32_Some in Hv. destruct Hv as [-> Hb]. oks Hd. subst. by rewrite H.
Qed.

Lemma successor_bound_to_root root p st :
  bound_to_root root (vp_statement p) → validate_policy_successor p st = Ok tt → bound_to_root root st.
Proof.
  intros (Ha & Hp & Hr & Hi) Hs. pose proof (validate_policy_successor_Ok p st "" [] [] Hs) as [_ _ _ Hi' _ _].
  unfold validate_policy_successor in Hs. rewrite !seq_Ok in Hs. destruct Hs as (_ & _ & Hs & _). oks Hs.
  unfold bound_to_root. cbn in Hi'. split_and!; [congruence..|lia].
Qed.

(** What authorised a verified policy. *)
Definition authorised (payload : bytes) (previous : option VerifiedRecoveryPolicy)
    (v : VerifiedRecoveryPolicy) : Prop :=
  match previous with
  | None =>
      ps_policy_version (vp_statement v) = 1%N ∧
      (∀ f, f ∈ ps_recovery_key_fingerprints (vp_statement v) →
        f ∈ vp_current_authorization_fingerprints v) ∧
      ∃ sigs, quorum payload RECOVERY_POLICY_ENROLLMENT_NAMESPACE sigs
        (ps_recovery_key_fingerprints (vp_statement v))
        (len (ps_recovery_key_fingerprints (vp_statement v)))
        (vp_current_authorization_fingerprints v)
  | Some p =>
      policy_follows p v ∧
      (∃ sigs, quorum payload RECOVERY_POLICY_UPDATE_PREVIOUS_NAMESPACE sigs
        (ps_recovery_key_fingerprints (vp_statement p)) (ps_threshold (vp_statement p))
        (vp_previous_authorization_fingerprints v)) ∧
      ∃ sigs, quorum payload RECOVERY_POLICY_UPDATE_CURRENT_NAMESPACE sigs
        (ps_recovery_key_fingerprints (vp_statement v)) (ps_threshold (vp_statement v))
        (vp_current_authorization_fingerprints v)
  end.

Record policy_verified (root : VerifiedPersonaRoot) (previous : option VerifiedRecoveryPolicy)
    (v : VerifiedRecoveryPolicy) (payload : bytes) : Prop := {
  pv_parsed : json_from_slice payload = inr (vp_statement v);
  pv_canonical : canonical_recovery_policy_statement_bytes (vp_statement v) = Ok payload;
  pv_digest : vp_policy_statement_sha256 v = sha256_hex payload;
  pv_wf : policy_wf (vp_statement v);
  pv_root : bound_to_root root (vp_statement v);
  pv_authorised : authorised payload previous v;
}.

Lemma canonical_policy_wf st payload :
  canonical_recovery_policy_statement_bytes st = Ok payload → policy_wf st.
Proof.
  unfold canonical_recovery_policy_statement_bytes. rewrite seq_Ok. intros [H _].
  by apply validated_policy_wf.
Qed.

Lemma preflight_policy_Ok proof payload st :
  preflight_recovery_policy_proof proof = Ok (payload, st) →
  json_from_slice payload = inr st ∧ policy_wf st ∧
  canonical_recovery_policy_statement_bytes st = Ok payload.
Proof.
  unfold preflight_recovery_policy_proof. rewrite seq_Ok. intros [_ H]. unbind H as p Hp.
  unbind H as s Hs. unbind H as c Hc. rewrite !seq_Ok in H. destruct H as (Hm & _ & [= -> ->]).
  rewrite map_err_Ok, parse_bounded_json_Ok in Hs. oks Hm. subst.
  split_and!; [tauto|by eapply canonical_policy_wf|done].
Qed.

Lemma verify_policy_proof_sound root previous proof v :
  verify_recovery_policy_proof root previous proof = Ok v →
  ∃ payload, policy_verified root previous v payload.
Proof.
  unfold verify_recovery_policy_proof. intros H. unbind H as [payload st] Hpre.
  apply preflight_policy_Ok in Hpre as (Hj & Hwf & Hcan). rewrite seq_Ok in H. destruct H as [Hroot H].
  apply validate_policy_root_binding_Ok in Hroot. unbind H as [prev cur] Hauth. injection H as <-.
  exists payload. split; [done..|].
  destruct previous as [p|], (pp_authorization proof) as [sigs|s1 s2]; try done; cbn.
  - rewrite seq_Ok in Hauth. destruct Hauth as [Hs Hauth]. unbind Hauth as f1 Hf1.
    unbind Hauth as f2 Hf2. injection Hauth as <- <-.
    apply verify_authority_signatures_quorum in Hf1 as [Q1 _], Hf2 as [Q2 _].
    split_and!; [by apply validate_policy_successor_Ok|eauto|eauto].
  - rewrite seq_Ok in Hauth. destruct Hauth as [Hv Hauth]. unbind Hauth as f Hf.
    injection Hauth as <- <-. apply verify_authority_signatures_quorum in Hf as [Q Hall].
    split_and!; [|by apply Hall|eauto].
    rewrite reject_if_Ok in Hv. unfold not_enrollment_version in Hv.
    apply orb_false_iff in Hv as [Hv _]. by apply negb_false_iff, N.eqb_eq in Hv.
Qed.

(** ** Policy histories *)

Inductive policy_history (root : VerifiedPersonaRoot) : list VerifiedRecoveryPolicy → Prop :=
| policy_history_nil : policy_history root []
| policy_history_snoc ps v payload :
    policy_history root ps → policy_verified root (list.last ps) v payload →
    policy_history root (ps ++ [v]).

Lemma policy_sequence_sound root proofs vs :
  verify_recovery_policy_proof_sequence root proofs = Ok vs →
  policy_history root vs ∧ length vs = length proofs ∧ vs ≠ [].
Proof.
  unfold verify_recovery_policy_proof_sequence. rewrite seq_Ok, reject_if_Ok, orb_false_iff.
  intros [[Hne _] H].
  eapply (fold_result_ind _ (λ ps vs, policy_history root vs ∧ length vs = length ps)) in H.
  - destruct H as [Hh Hl]. split_and!; [done..|]. intros ->. apply N.eqb_neq in Hne.
    unfold len in Hne. cbn in Hl. lia.
  - by split; [constructor|].
  - intros done p st st' [Hh Hl] Hstep. unfold policy_step in Hstep. unbind Hstep as v Hv.
    injection Hstep as <-. apply verify_policy_proof_sound in Hv as [payload Hv].
    split; [by econstructor|]. rewrite !length_app, Hl. done.
Qed.

Lemma policy_history_lookup root vs i v :
  policy_history root vs → vs !! i = Some v →
  ps_policy_version (vp_statement v) = N.of_nat (S i) ∧
  ∃ payload, policy_verified root (match i with O => None | S j => vs !! j end) v payload.
Proof.
  intros Hh. revert i v. induction Hh as [|vs w payload Hh IH Hv]; intros i v Hi; [done|].
  apply lookup_snoc_Some in Hi as [[Hlt Hi]|[-> <-]].
  - destruct (IH i v Hi) as (Hver & pl & Hpv). split; [done|]. exists pl.
    destruct i as [|j]; [done|]. by rewrite lookup_app_l by lia.
  - rewrite last_lookup in Hv. destruct (length vs) as [|n] eqn:Hn; cbn in Hv.
    + apply nil_length_inv in Hn as ->. cbn in Hv. split; [|eauto].
      by destruct (pv_authorised _ _ _ _ Hv).
    + destruct (lookup_lt_is_Some_2 vs n ltac:(lia)) as [p Hp]. rewrite Hp in Hv.
      destruct (IH n p Hp) as [Hver _]. split.
      * destruct (pv_authorised _ _ _ _ Hv) as [Hf _]. rewrite (pf_version _ _ Hf), Hver. lia.
      * exists payload. by rewrite lookup_app_l, Hp by lia.
Qed.

Context {json_root : Serde PersonaRootStatement}.

Lemma policy_chain_sound root_proof proofs d1 d2 seq :
  verified_recovery_policy_sequence root_proof proofs d1 d2 = Ok seq →
  verify_persona_root_proof root_proof = Ok (vps_root seq) ∧
  vpr_root_statement_sha256 (vps_root seq) = d1 ∧
  policy_history (vps_root seq) (vps_policies seq) ∧ length (vps_policies seq) = length proofs ∧
  ∃ latest, list.last (vps_policies seq) = Some latest ∧ vp_policy_statement_sha256 latest = d2.
Proof.
  unfold verified_recovery_policy_sequence. rewrite !seq_Ok. intros (_ & _ & H).
  unbind H as root Hr. rewrite seq_Ok in H. destruct H as [Hd1 H]. unbind H as vs Hvs.
  unbind H as latest Hl. rewrite seq_Ok in H. destruct H as [Hd2 [= <-]].
  apply policy_sequence_sound in Hvs as (Hh & Hlen & _). oks Hd1. oks Hl. oks Hd2. cbn. eauto 10.
Qed.

(** In a verified policy chain the policies are versioned from one
    without a gap; each is well formed (2 to 32 distinct authorities, a
    threshold between 2 and their number, a bounded validity window) and bound
    to the pinned root; the first was signed by every authority it lists; each
    later one follows its predecessor (digest link, no earlier issue, no
    earlier checkpoint, no downgrade) and was signed by a quorum of the
    predecessor's authorities and by a quorum of its own. *)
Theorem verified_policy_chain root_proof proofs d1 d2 checked_at chain i v :
  verify_recovery_policy_chain_with_verified_sequence root_proof proofs d1 d2 checked_at = Ok chain →
  vpc_policies chain !! i = Some v →
  ps_policy_version (vp_statement v) = N.of_nat (S i) ∧
  policy_wf (vp_statement v) ∧ bound_to_root (vpc_root chain) (vp_statement v) ∧
  vpr_root_statement_sha256 (vpc_root chain) = d1 ∧
  ∃ payload, vp_policy_statement_sha256 v = sha256_hex payload ∧
    authorised payload (match i with O => None | S j => vpc_policies chain !! j end) v.
Proof.
  unfold verify_recovery_policy_chain_with_verified_sequence. intros H Hi.
  unbind H as seq Hseq. unbind H as report _. injection H as <-. cbn in *.
  apply policy_chain_sound in Hseq as (_ & Hd & Hh & _).
  destruct (policy_history_lookup _ _ _ _ Hh Hi) as (Hver & payload & Hv).
  destruct Hv. eauto 10.
Qed.

(** The bytes that were hashed for the policies of a chain. *)
Definition policy_payload (vs : list VerifiedRecoveryPolicy) (x : bytes) : Prop :=
  ∃ v, v ∈ vs ∧ canonical_recovery_policy_statement_bytes (vp_statement v) = Ok x.

Lemma policy_payload_sub vs vs' x : vs ⊆ vs' → policy_payload vs x → policy_payload vs' x.
Proof. intros Hs (v & Hv & Hx). exists v. split; [by apply Hs|done]. Qed.

Lemma policy_histories_determined r1 r2 vs1 vs2 :
  policy_history r1 vs1 → policy_history r2 vs2 →
  vp_policy_statement_sha256 <$> list.last vs1 = vp_policy_statement_sha256 <$> list.last vs2 →
  vp_statement <$> vs1 = vp_statement <$> vs2 ∨
  sha256_collision (policy_payload vs1) (policy_payload vs2).
Proof.
  intros H1. revert vs2. induction H1 as [|vs1 v1 p1 H1 IH V1]; intros vs2 H2 Hd.
  - destruct H2 as [|vs2 v2 p2 H2 V2]; [by left|]. by rewrite list.last_snoc in Hd.
  - destruct H2 as [|vs2 v2 p2 H2 V2]; [by rewrite list.last_snoc in Hd|].
    rewrite !list.last_snoc in Hd. cbn in Hd. injection Hd as Hd.
    rewrite (pv_digest _ _ _ _ V1), (pv_digest _ _ _ _ V2) in Hd.
    destruct (sha256_hex_binds (policy_payload (vs1 ++ [v1])) (policy_payload (vs2 ++ [v2])) p1 p2)
      as [->|]; [exists v1; split; [set_solver|apply V1]|exists v2; split; [set_solver|apply V2]|done| |by right].
    assert (vp_statement v1 = vp_statement v2) as Hst.
    { pose proof (pv_parsed _ _ _ _ V1). pose proof (pv_parsed _ _ _ _ V2). congruence. }
    destruct (IH vs2 H2) as [Heq|Hcol];
      [| |right; revert Hcol; apply sha256_collision_mono; intros x; apply policy_payload_sub; set_solver].
    + pose proof (pv_authorised _ _ _ _ V1) as A1. pose proof (pv_authorised _ _ _ _ V2) as A2.
      destruct (list.last vs1) as [q1|], (list.last vs2) as [q2|]; [| | |done]; cbn in A1, A2 |- *.
      * destruct A1 as [F1 _], A2 as [F2 _]. rewrite <- (pf_digest _ _ F1), <- (pf_digest _ _ F2).
        by rewrite Hst.
      * destruct A1 as [F1 _], A2 as [E2 _]. pose proof (pf_digest _ _ F1) as E.
        rewrite Hst in E. apply (pw_first _ (pv_wf _ _ _ _ V2)) in E2. congruence.
      * destruct A1 as [E1 _], A2 as [F2 _]. pose proof (pf_digest _ _ F2) as E.
        rewrite <- Hst in E. apply (pw_first _ (pv_wf _ _ _ _ V1)) in E1. congruence.
    + left. rewrite !fmap_app. cbn. by rewrite Heq, Hst.
Qed.

(** Pinning the latest policy digest pins the whole policy history: two
    verified policy chains with the same latest digest carry the same policy
    statements, unless two of these collide under SHA-256. *)
Theorem policy_digest_determines_history rp1 rp2 ps1 ps2 r1 r2 d t1 t2 c1 c2 :
  verify_recovery_policy_chain_with_verified_sequence rp1 ps1 r1 d t1 = Ok c1 →
  verify_recovery_policy_chain_with_verified_sequence rp2 ps2 r2 d t2 = Ok c2 →
  vp_statement <$> vpc_policies c1 = vp_statement <$> vpc_policies c2 ∨
  sha256_collision (policy_payload (vpc_policies c1)) (policy_payload (vpc_policies c2)).
Proof.
  unfold verify_recovery_policy_chain_with_verified_sequence. intros H1 H2.
  unbind H1 as s1 S1. unbind H1 as q1 _. injection H1 as <-.
  unbind H2 as s2 S2. unbind H2 as q2 _. injection H2 as <-. cbn.
  apply policy_chain_sound in S1 as (_ & _ & Hh1 & _ & l1 & L1 & D1).
  apply policy_chain_sound in S2 as (_ & _ & Hh2 & _ & l2 & L2 & D2).
  eapply policy_histories_determined; [done..|]. rewrite L1, L2. cbn. congruence.
Qed.

End chain.

(** ** What is signed verifies *)

Section created.
Context {keygen : SshKeygen} {crates_ok : CratesOk}.

(** What the signing loop puts in its list: the fingerprint and a signature
    that the checking loop accepts, when it is within the size bound. *)
Definition good_entry (payload : bytes) (allowed : list string) (namespace : string)
    (entry : string * RecoverySignature) : Prop :=
  ∃ value key, entry.2 = recovery_signature namespace value key ∧
    normalize_public_key key = Ok key ∧ public_key_fingerprint key = Ok entry.1 ∧
    sshsig_verify payload value key namespace = Ok tt ∧ entry.1 ∈ allowed.

Definition signatures_in_bounds (sigs : list RecoverySignature) : Prop :=
  Forall (λ s, signature_in_bounds (sg_value s)) sigs.

Lemma sign_loop_sound payload allowed namespace signers seen signed :
  Forall (λ s, utf8_valid (rsn_public_key s) = true) signers →
  fold_result (sign_one_authority payload allowed namespace) ([], []) signers = Ok (seen, signed) →
  strictly_sorted seen ∧ (∀ f, f ∈ seen ↔ f ∈ signed.*1) ∧ len seen = len signed ∧
  len signed = len signers ∧ NoDup (signed.*1) ∧ Forall (good_entry payload allowed namespace) signed.
Proof.
  intros Hu H. revert Hu.
  refine (fold_result_ind _ (λ signers st,
    Forall (λ s, utf8_valid (rsn_public_key s) = true) signers →
    strictly_sorted st.1 ∧ (∀ f, f ∈ st.1 ↔ f ∈ st.2.*1) ∧ len st.1 = len st.2 ∧
    len st.2 = len signers ∧ NoDup (st.2.*1) ∧
    Forall (good_entry payload allowed namespace) st.2) _ _ _ _ _ H).
  { intros _. by split_and!; try constructor. }
  clear. intros done s [seen0 signed0] st' IH H Hu. rewrite Forall_app, Forall_cons_iff in Hu.
  destruct Hu as [Hu [Hus _]]. destruct (IH Hu) as (Hs & Hel & Hl1 & Hl2 & Hnd & Hf). clear IH.
  cbn [fst snd] in *. unfold sign_one_authority in H. unbind H as key Hk. unbind H as f Hfp.
  rewrite seq_Ok in H. destruct H as [Ha H]. cbn [fst snd] in H.
  pose proof (bset_insert_sorted f seen0 Hs) as Hs'. pose proof (λ y, bset_insert_elem f y seen0) as He.
  pose proof (bset_insert_len f seen0) as Hl. pose proof (bset_insert_fresh f seen0 Hs) as Hfr.
  destruct (bset_insert f seen0) as [seen1 fresh]. cbn [fst snd] in *.
  rewrite seq_Ok in H. destruct H as [Hdup H]. rewrite reject_if_Ok, negb_false_iff in Hdup. subst fresh.
  unbind H as value Hsig. rewrite seq_Ok in H. destruct H as [Hver [= <-]]. cbn [fst snd].
  rewrite reject_if_Ok, negb_false_iff, bset_contains_iff in Ha.
  assert (∀ (l k : list (string * RecoverySignature)), (l ++ k).*1 = l.*1 ++ k.*1) as Hfst
    by (intros; apply fmap_app).
  split_and!; [done| | | | |].
  - intros g. rewrite He, Hfst, elem_of_app, Hel. cbn. set_solver.
  - rewrite Hl, len_app, Hl1. rewrite len_cons. change (len (@nil (string * RecoverySignature))) with 0%N. lia.
  - rewrite !len_app, Hl2, !len_cons. done.
  - rewrite Hfst. apply NoDup_app. split_and!; [done| |repeat constructor; set_solver].
    intros g Hg Hg'%list_elem_of_singleton. cbn in Hg'. subst g. apply (proj1 Hfr eq_refl). by apply Hel.
  - rewrite Forall_app, Forall_cons_iff. split_and!; [done| |constructor].
    exists value, key. cbn. split_and!; [done| |done|done|done]. by eapply normalize_canonical.
Qed.

Lemma good_entry_validates payload allowed namespace f s :
  good_entry payload allowed namespace (f, s) → signature_in_bounds (sg_value s) →
  validate_recovery_signature s namespace = Ok (sg_public_key s) ∧
  public_key_fingerprint (sg_public_key s) = Ok f ∧
  sshsig_verify payload (sg_value s) (sg_public_key s) namespace = Ok tt ∧ f ∈ allowed.
Proof.
  intros (value & key & Hs & Hk & Hf & Hv & Ha) [Hne Hb]. cbn in Hs. subst s. cbn in *.
  split_and!; [|done..]. unfold validate_recovery_signature. cbn -[normalize_public_key].
  apply N.ltb_ge in Hb. rewrite Hb, (bool_decide_eq_false_2 (value = "")), !bool_decide_eq_true_2 by done.
  done.
Qed.

Lemma preflight_loop_complete payload allowed namespace entries :
  NoDup (entries.*1) → Forall (good_entry payload allowed namespace) entries →
  signatures_in_bounds (entries.*2) →
  ∃ seen, fold_result (preflight_one_signature namespace) ([], []) (entries.*2) = Ok (seen,
      (λ '(f, s), {| ck_signature := s; ck_public_key := sg_public_key s; ck_fingerprint := f |})
        <$> entries) ∧ strictly_sorted seen ∧ (∀ f, f ∈ seen ↔ f ∈ entries.*1) ∧
    len seen = len entries.
Proof.
  intros Hnd Hg Hb. set (checks := (λ '(f, s), _) <$> entries).
  assert (ck_fingerprint <$> checks = entries.*1) as Ef.
  { unfold checks. rewrite <- list_fmap_compose. by apply list_fmap_ext; intros ? [f s] _. }
  assert (ck_signature <$> checks = entries.*2) as Es.
  { unfold checks. rewrite <- list_fmap_compose. by apply list_fmap_ext; intros ? [f s] _. }
  destruct (preflight_loop_checks namespace checks) as (seen & Hfold & Hs & Hel & Hl).
  - by rewrite Ef.
  - unfold checks. apply Forall_fmap, list.Forall_forall. intros [f s] Hin. cbn.
    rewrite list.Forall_forall in Hg. unfold signatures_in_bounds in Hb. rewrite list.Forall_forall in Hb.
    assert (s ∈ entries.*2) as Hin2 by by eapply (list_elem_of_fmap_2' snd) in Hin.
    by destruct (good_entry_validates _ _ _ _ _ (Hg _ Hin) (Hb _ Hin2)) as (? & ? & _).
  - exists seen. rewrite <- Es. split_and!; [done|done|by rewrite <- Ef|].
    rewrite Hl. unfold checks, len. by rewrite length_fmap.
Qed.

(** The signatures of a signing loop, put in order, pass the checking loop and
    report the fingerprints that were signed with. *)
Lemma signed_preflights payload allowed namespace signers seen signed :
  Forall (λ s, utf8_valid (rsn_public_key s) = true) signers →
  fold_result (sign_one_authority payload allowed namespace) ([], []) signers = Ok (seen, signed) →
  signatures_in_bounds ((sort_signed signed).*2) → (2 <= len signers <= 32)%N →
  len ((sort_signed signed).*2) = len signers ∧
  ∃ pre, preflight_unbound_signature_set ((sort_signed signed).*2) namespace = Ok pre ∧
    apf_fingerprints pre = seen ∧
    Forall (λ c, ck_fingerprint c ∈ allowed ∧ sshsig_verify payload (sg_value (ck_signature c))
      (ck_public_key c) namespace = Ok tt) (apf_checks pre).
Proof.
  intros Hu Hfold Hb Hn. apply sign_loop_sound in Hfold as (Hs & Hel & Hl1 & Hl2 & Hnd & Hf); [|done].
  assert (Permutation (sort_signed signed) signed) as Hperm by apply merge_sort_Permutation.
  assert (len ((sort_signed signed).*2) = len signers) as Hlen2.
  { rewrite <- Hl2. unfold len. by rewrite length_fmap, (Permutation_length Hperm). }
  split; [done|]. assert (∀ f, f ∈ signed.*1 ↔ f ∈ (sort_signed signed).*1) as Hel2
    by (intros f; by rewrite Hperm).
  rewrite <- Hperm in Hnd, Hf.
  destruct (preflight_loop_complete _ _ _ _ Hnd Hf Hb) as (seen' & Hfold' & Hs' & Hel' & _).
  assert (seen' = seen) as ->.
  { apply strictly_sorted_ext; [done..|]. intros f. by rewrite Hel', <- Hel2, Hel. }
  unfold preflight_unbound_signature_set, authority_count_ok, MIN_RECOVERY_AUTHORITIES,
    MAX_RECOVERY_AUTHORITIES. rewrite Hlen2.
  rewrite (proj2 (N.leb_le 2 _)), (proj2 (N.leb_le _ 32)) by lia. cbn [andb negb reject_if].
  rewrite bind_Ok_l, Hfold', bind_Ok_l. eexists. split_and!; [done..|]. cbn.
  apply list.Forall_forall. intros c Hc. apply list_elem_of_fmap in Hc as ([f s] & -> & Hin).
  rewrite list.Forall_forall in Hf. unfold signatures_in_bounds in Hb. rewrite list.Forall_forall in Hb.
  assert (s ∈ (sort_signed signed).*2) as Hin2 by by eapply (list_elem_of_fmap_2' snd) in Hin.
  destruct (good_entry_validates _ _ _ _ _ (Hf _ Hin) (Hb _ Hin2)) as (_ & _ & Hv & Ha). done.
Qed.

(** The signatures of a signing ceremony are a quorum, for the minimum they
    were made for and for every smaller one. *)
Lemma signed_verifies payload signers allowed minimum minimum' all all' namespace sigs :
  Forall (λ s, utf8_valid (rsn_public_key s) = true) signers →
  sign_with_authorities payload signers allowed minimum all namespace = Ok sigs →
  signatures_in_bounds sigs → (2 <= minimum)%N → (len allowed <= 32)%N →
  (minimum' <= minimum)%N → (all' = true → all = true) →
  ∃ pre, preflight_authority_signatures sigs allowed minimum' all' namespace = Ok pre ∧
    verify_authority_signatures payload sigs allowed minimum' all' namespace =
      Ok (apf_fingerprints pre) ∧
    preflight_unbound_signature_set sigs namespace = Ok pre.
Proof.
  intros Hu H Hb Hmin Hmax Hmin' Hall'. unfold sign_with_authorities in H. rewrite seq_Ok in H.
  destruct H as [Hlen H]. unbind H as [seen signed] Hfold. rewrite seq_Ok in H.
  destruct H as [Hall [= <-]]. rewrite reject_if_Ok, orb_false_iff, !N.ltb_ge in Hlen.
  destruct (signed_preflights _ _ _ _ _ _ Hu Hfold Hb ltac:(lia)) as (Hl & pre & Hpre & Hseen & Hchk).
  assert (preflight_authority_signatures ((sort_signed signed).*2) allowed minimum' all' namespace = Ok pre)
    as Hap.
  { unfold preflight_authority_signatures. rewrite Hl.
    rewrite (proj2 (N.ltb_ge _ minimum')), (proj2 (N.ltb_ge (len allowed) _)) by lia.
    cbn [orb reject_if]. rewrite bind_Ok_l, Hpre, bind_Ok_l, (proj2 (each_result_Ok _ _)), bind_Ok_l.
    2:{ eapply list.Forall_impl; [exact Hchk|]. intros c [Hin _].
        apply reject_if_Ok, negb_false_iff. by apply bset_contains_iff. }
    rewrite Hseen. rewrite reject_if_Ok in Hall. destruct all'; [|done].
    rewrite Hall' in Hall by done. cbn in Hall |- *. by rewrite Hall. }
  exists pre. split_and!; [done| |done]. unfold verify_authority_signatures.
  rewrite Hap, bind_Ok_l, (proj2 (each_result_Ok _ _)); [done|].
  eapply list.Forall_impl; [exact Hchk|]. by intros c [_ Hv].
Qed.

Definition policy_in_range (st : RecoveryPolicyStatement) : Prop :=
  (ps_policy_version st <= u32_max)%N ∧ (ps_threshold st <= u32_max)%N ∧
  (rc_transition_sequence (ps_continuity_checkpoint st) <= u32_max)%N ∧
  (0 <= ps_issued_at st <= MAX_JCS_SAFE_INTEGER)%Z ∧ (0 <= ps_expires_at st <= MAX_JCS_SAFE_INTEGER)%Z.

Context {json_policy : Serde RecoveryPolicyStatement}
  {json_policy_ok : SerdeOk RecoveryPolicyStatement policy_in_range}.

Lemma policy_wf_in_range st :
  policy_wf st → (ps_policy_version st <= u32_max)%N → policy_in_range st.
Proof.
  intros [Ha Ht _ _ _ _ Hw [Hc _] _] Hv. unfold policy_in_range, MAX_CONTINUITY_TRANSITIONS, u32_max in *.
  split_and!; lia.
Qed.

(** The front of the policy verifier on a payload just written. *)
Lemma created_policy_preflight st payload auth :
  (ps_policy_version st <= u32_max)%N →
  canonical_recovery_policy_statement_bytes st = Ok payload →
  preflight_recovery_policy_proof {| pp_schema := RECOVERY_POLICY_PROOF_SCHEMA;
    pp_payload := URL_SAFE_NO_PAD_encode payload; pp_authorization := auth |} =
  (match auth with
   | Enrollment signatures =>
       reject_if (not_enrollment_version st) enrollment_version_error;;
       _ ← preflight_authority_signatures signatures (ps_recovery_key_fingerprints st)
         (len (ps_recovery_key_fingerprints st)) true RECOVERY_POLICY_ENROLLMENT_NAMESPACE;
       Ok tt
   | Update s1 s2 =>
       reject_if ((ps_policy_version st <=? 1)%N ||
                  negb (bool_decide (is_Some (ps_previous_policy_sha256 st))))
         (invalid_proof "an update proof requires a policy version after 1 and a predecessor digest");;
       _ ← preflight_unbound_signature_set s1 RECOVERY_POLICY_UPDATE_PREVIOUS_NAMESPACE;
       _ ← preflight_authority_signatures s2 (ps_recovery_key_fingerprints st) (ps_threshold st)
         false RECOVERY_POLICY_UPDATE_CURRENT_NAMESPACE;
       Ok tt
   end;; Ok (payload, st)).
Proof.
  intros Hv Hc. pose proof (canonical_policy_wf _ _ Hc) as Hwf. pose proof Hc as Hc0.
  unfold canonical_recovery_policy_statement_bytes in Hc. rewrite seq_Ok in Hc.
  destruct Hc as [_ H]. unbind H as bs Hj. rewrite seq_Ok in H. destruct H as [Hb [= <-]]. oks Hj.
  apply validate_payload_bound_Ok in Hb. apply jcs_round_trip in Hj; [|by apply policy_wf_in_range].
  unfold preflight_recovery_policy_proof. cbn [pp_schema pp_payload pp_authorization].
  unfold require_proof_schema. rewrite bool_decide_eq_true_2, bind_Ok_l by done.
  rewrite decode_continuity_payload_encode, bind_Ok_l by done.
  rewrite (proj2 (parse_bounded_json_Ok _ _ _ st)) by done. cbn [map_err]. rewrite bind_Ok_l, Hc0.
  rewrite !bind_Ok_l, (bool_decide_eq_true_2 (bs = bs)) by done. cbn [negb reject_if].
  by rewrite bind_Ok_l.
Qed.

Lemma created_enrollment_verifies root st signers proof sigs :
  bound_to_root root st → Forall (λ s, utf8_valid (rsn_public_key s) = true) signers →
  create_initial_recovery_policy_proof st signers = Ok proof →
  pp_authorization proof = Enrollment sigs → signatures_in_bounds sigs →
  ∃ v, verify_initial_recovery_policy_proof root proof = Ok v ∧ vp_statement v = st.
Proof.
  intros Hroot Hu H Ha Hb. unfold create_initial_recovery_policy_proof in H. rewrite seq_Ok in H.
  destruct H as [Hv H]. unbind H as payload Hp. unbind H as s Hs. injection H as <-.
  cbn in Ha. injection Ha as ->. pose proof (canonical_policy_wf _ _ Hp) as [Hn Ht _ _ _ _ _ _ _].
  destruct (signed_verifies _ _ _ _ (len (ps_recovery_key_fingerprints st)) _ true _ _ Hu Hs Hb)
    as (pre & Hpre & Hver & _); [lia|lia|done|done|].
  unfold verify_initial_recovery_policy_proof, verify_recovery_policy_proof.
  rewrite (created_policy_preflight st); [|  |done].
  2:{ rewrite reject_if_Ok in Hv. unfold not_enrollment_version in Hv. apply orb_false_iff in Hv as [Hv _].
      apply negb_false_iff, N.eqb_eq in Hv. rewrite Hv. done. }
  rewrite Hv, bind_Ok_l, Hpre, !bind_Ok_l. apply validate_policy_root_binding_Ok in Hroot.
  rewrite Hroot, bind_Ok_l. cbn [pp_authorization]. rewrite Hv, bind_Ok_l, Hver, !bind_Ok_l. by eexists.
Qed.

(** A policy update that was created verifies against the policy it
    succeeds, for the statement it was created with. *)
Theorem created_policy_update_verifies root previous st signers1 signers2 proof s1 s2 :
  bound_to_root root (vp_statement previous) → policy_wf (vp_statement previous) →
  Forall (λ s, utf8_valid (rsn_public_key s) = true) (signers1 ++ signers2) →
  create_recovery_policy_update_proof st previous signers1 signers2 = Ok proof →
  pp_authorization proof = Update s1 s2 → signatures_in_bounds (s1 ++ s2) →
  ∃ v, verify_recovery_policy_update_proof root previous proof = Ok v ∧ vp_statement v = st.
Proof.
  intros Hroot Hpwf Hu H Ha Hb. unfold create_recovery_policy_update_proof in H. rewrite seq_Ok in H.
  destruct H as [Hsucc H]. unbind H as payload Hp. unbind H as a1 Hs1. unbind H as a2 Hs2.
  injection H as <-. cbn in Ha. injection Ha as -> ->. apply Forall_app in Hu as [Hu1 Hu2].
  unfold signatures_in_bounds in Hb. apply Forall_app in Hb as [Hb1 Hb2].
  pose proof (canonical_policy_wf _ _ Hp) as Hwf. destruct (pw_threshold _ Hpwf), (pw_authorities _ Hpwf).
  destruct (pw_threshold _ Hwf), (pw_authorities _ Hwf).
  destruct (signed_verifies _ _ _ _ (ps_threshold (vp_statement previous)) _ false _ _ Hu1 Hs1 Hb1)
    as (pre1 & Hpre1 & Hver1 & Hun1); [lia|lia|done|done|].
  destruct (signed_verifies _ _ _ _ (ps_threshold st) _ false _ _ Hu2 Hs2 Hb2)
    as (pre2 & Hpre2 & Hver2 & _); [lia|lia|done|done|].
  pose proof (validate_policy_successor_version _ _ Hsucc) as (Hver & Hmax & Hprev).
  unfold verify_recovery_policy_update_proof, verify_recovery_policy_proof.
  rewrite (created_policy_preflight st); [| |done]; [|lia].
  rewrite Hprev, bool_decide_eq_true_2 by done. pose proof (pw_version _ Hpwf).
  rewrite (proj2 (N.leb_gt (ps_policy_version st) 1)) by lia. cbn [negb orb reject_if].
  rewrite !bind_Ok_l, Hun1, bind_Ok_l, Hpre2, !bind_Ok_l.
  rewrite (proj2 (validate_policy_root_binding_Ok root st)); [|by eapply successor_bound_to_root].
  rewrite bind_Ok_l. cbn [pp_authorization]. rewrite Hsucc, bind_Ok_l, Hver1, bind_Ok_l, Hver2, !bind_Ok_l.
  by eexists.
Qed.

End created.
End facts.
