(* ===== verification/RecoveryChain.v ===== *)
(** * Recovery-aware continuity ([crates/a-quo-core/src/recovery.rs], second half)

    Recovery transitions (a policy quorum replaces the online key), terminal
    revocations (a policy quorum ends the persona), and the verification of
    the mixed chain of routine, recovery and terminal entries together with
    its recovery policies, its one-step extensions and its head checkpoint. *)

From stdpp Require Import base numbers list strings pretty sorting option.
From Stdlib Require Import Strings.Byte Ascii.
From S2P Require Import Prelude Text Ordered Display Crates ArtifactProof Continuity.
From S2P Require Import RecoveryPolicy.

(** ** Constants *)

Definition RECOVERY_TRANSITION_STATEMENT_SCHEMA : string :=
  "urn:a-quo:statement:persona-recovery-transition:v1".
Definition RECOVERY_TRANSITION_STATEMENT_SCHEMA_V2 : string :=
  "urn:a-quo:statement:persona-recovery-transition:v2".
Definition RECOVERY_TRANSITION_PROOF_SCHEMA : string :=
  "urn:a-quo:proof:persona-recovery-transition:sshsig:v1".
Definition RECOVERY_TRANSITION_AUTHORITY_NAMESPACE : string := "a-quo-persona-recovery-authority-v1".
Definition RECOVERY_TRANSITION_NEXT_NAMESPACE : string := "a-quo-persona-recovery-next-v1".
Definition TERMINAL_PERSONA_REVOCATION_STATEMENT_SCHEMA : string :=
  "urn:a-quo:statement:persona-terminal-revocation:v1".
Definition TERMINAL_PERSONA_REVOCATION_PROOF_SCHEMA : string :=
  "urn:a-quo:proof:persona-terminal-revocation:sshsig:v1".
Definition TERMINAL_PERSONA_REVOCATION_AUTHORITY_NAMESPACE : string :=
  "a-quo-persona-terminal-revocation-authority-v1".
Definition TERMINAL_PERSONA_REVOCATION_EFFECT : string := "persona_permanently_deauthorized".
Definition MAX_RECOVERY_CEREMONY_VALIDITY_SECONDS : Z := 604800.
Definition MAX_TERMINAL_PERSONA_REVOCATION_SEQUENCE : N := 4097.
Definition RECOVERY_CEREMONY_ID_BYTES : N := 32.

(** ** Data *)

Inductive RecoveryTransitionReason := ReasonRecovery | ReasonCompromise.
Record RecoveryTransitionStatement := {
  xs_schema : string;
  xs_canonicalization : string;
  xs_persona_anchor : string;
  xs_persona : string;
  xs_sequence : N;
  xs_issued_at : Z;
  xs_root_statement_sha256 : string;
  xs_previous_transition_sha256 : option string;
  xs_previous_key_fingerprint : string;
  xs_next_key_fingerprint : string;
  xs_recovery_policy_sha256 : string;
  xs_recovery_policy_version : N;
  xs_reason : RecoveryTransitionReason;
  xs_ceremony_id : option string;
  xs_expires_at : option Z;
}.
Record RecoveryTransitionProof := {
  xp_schema : string;
  xp_payload : string;
  xp_recovery_signatures : list RecoverySignature;
  xp_next_signature : RecoverySignature;
}.
Record VerifiedRecoveryTransition := {
  vx_statement : RecoveryTransitionStatement;
  vx_transition_statement_sha256 : string;
  vx_recovery_signer_fingerprints : list string;
  vx_next_public_key : string;
}.
Record VerifiedRecoveryTransitionReceipt := {
  xr_policy_statement : RecoveryPolicyStatement;
  xr_policy_statement_sha256 : string;
  xr_transition : VerifiedRecoveryTransition;
}.
Inductive TerminalPersonaRevocationReason := TerminalCompromise | TerminalCessation.
Record TerminalPersonaRevocationStatement := {
  zs_schema : string;
  zs_canonicalization : string;
  zs_persona_anchor : string;
  zs_persona : string;
  zs_sequence : N;
  zs_issued_at : Z;
  zs_root_statement_sha256 : string;
  zs_previous_transition_sha256 : option string;
  zs_previous_key_fingerprint : string;
  zs_recovery_policy_sha256 : string;
  zs_recovery_policy_version : N;
  zs_reason : TerminalPersonaRevocationReason;
  zs_effect : string;
}.
Record TerminalPersonaRevocationProof := {
  zp_schema : string;
  zp_payload : string;
  zp_recovery_signatures : list RecoverySignature;
}.
Record VerifiedTerminalPersonaRevocation := {
  vz_statement : TerminalPersonaRevocationStatement;
  vz_revocation_statement_sha256 : string;
  vz_recovery_signer_fingerprints : list string;
}.
Record VerifiedTerminalPersonaRevocationReceipt := {
  zr_policy_statement : RecoveryPolicyStatement;
  zr_policy_statement_sha256 : string;
  zr_revocation : VerifiedTerminalPersonaRevocation;
}.
Inductive PersonaContinuityTransitionProof :=
| ProofRoutine (proof : PersonaTransitionProof)
| ProofRecovery (proof : RecoveryTransitionProof)
| ProofTerminalRevocation (proof : TerminalPersonaRevocationProof).
Inductive VerifiedPersonaContinuityTransition :=
| VerifiedRoutine (v : VerifiedPersonaTransition)
| VerifiedRecovery (v : VerifiedRecoveryTransition)
| VerifiedTerminalRevocation (v : VerifiedTerminalPersonaRevocation).
Record RecoveryAwareContinuityChainReport := {
  mr_root_signature : EvidenceStatus;
  mr_expected_root_digest : EvidenceStatus;
  mr_policy_chain : EvidenceStatus;
  mr_policy_transition_checkpoints : EvidenceStatus;
  mr_expected_latest_policy_digest : EvidenceStatus;
  mr_transition_chain : EvidenceStatus;
  mr_persona : string;
  mr_persona_anchor : string;
  mr_root_statement_sha256 : string;
  mr_latest_policy_sha256 : string;
  mr_latest_policy_version : N;
  mr_latest_policy_time_status : RecoveryPolicyTimeStatus;
  mr_latest_policy_checkpoint_sequence : N;
  mr_latest_policy_checkpoint_sha256 : option string;
  mr_chain_tip_key_fingerprint : string;
  mr_current_key_fingerprint : option string;
  mr_terminally_revoked : bool;
  mr_terminal_revocation_count : N;
  mr_terminal_revocation_statement_sha256 : option string;
  mr_terminal_revoked_key_fingerprint : option string;
  mr_terminal_revocation_reason : option TerminalPersonaRevocationReason;
  mr_transition_count : N;
  mr_routine_transition_count : N;
  mr_recovery_transition_count : N;
  mr_last_issued_at : Z;
  mr_last_transition_sha256 : option string;
  mr_checked_at : Z;
  mr_expected_head_checkpoint : option EvidenceStatus;
  mr_not_established : list string;
}.
Record VerifiedRecoveryAwareContinuityChain := {
  mc_root : VerifiedPersonaRoot;
  mc_policies : list VerifiedRecoveryPolicy;
  mc_transitions : list VerifiedPersonaContinuityTransition;
  mc_report : RecoveryAwareContinuityChainReport;
}.

#[export] Instance RecoveryTransitionReason_eq_dec : EqDecision RecoveryTransitionReason.
Proof. solve_decision. Defined.
#[export] Instance RecoveryTransitionStatement_eq_dec : EqDecision RecoveryTransitionStatement.
Proof. solve_decision. Defined.
#[export] Instance RecoveryTransitionProof_eq_dec : EqDecision RecoveryTransitionProof.
Proof. solve_decision. Defined.
#[export] Instance TerminalPersonaRevocationReason_eq_dec :
  EqDecision TerminalPersonaRevocationReason.
Proof. solve_decision. Defined.
#[export] Instance TerminalPersonaRevocationStatement_eq_dec :
  EqDecision TerminalPersonaRevocationStatement.
Proof. solve_decision. Defined.

Section recovery_chain.
Context {crates : Crates}.

Abbreviation decode_canonical_payload := decode_continuity_payload.
Abbreviation require_schema := require_proof_schema.

(** ** Recovery transitions: validation *)

Definition validate_recovery_ceremony_id (ceremony_id : string) : Result unit :=
  decoded ← map_err (λ _, invalid_statement "ceremony_id must be canonical unpadded Base64url")
    (of_sum (URL_SAFE_NO_PAD_decode ceremony_id));
  reject_if (negb (len decoded =? RECOVERY_CEREMONY_ID_BYTES)%N ||
             (URL_SAFE_NO_PAD_encode decoded != ceremony_id))
    (invalid_statement "ceremony_id must encode exactly 32 bytes as canonical unpadded Base64url").

Definition validate_recovery_transition_schema (statement : RecoveryTransitionStatement) :
    Result unit :=
  if xs_schema statement == RECOVERY_TRANSITION_STATEMENT_SCHEMA then
    reject_if (bool_decide (is_Some (xs_ceremony_id statement)) ||
               bool_decide (is_Some (xs_expires_at statement)))
      (invalid_statement "schema-v1 recovery transitions must omit ceremony_id and expires_at")
  else if xs_schema statement == RECOVERY_TRANSITION_STATEMENT_SCHEMA_V2 then
    ceremony_id ← ok_or (xs_ceremony_id statement)
      (invalid_statement "schema-v2 recovery transitions require ceremony_id");
    validate_recovery_ceremony_id ceremony_id;;
    expires_at ← ok_or (xs_expires_at statement)
      (invalid_statement "schema-v2 recovery transitions require expires_at");
    validate_jcs_time "recovery transition expires_at" expires_at;;
    validity ← ok_or (checked_sub_i64 expires_at (xs_issued_at statement))
      (invalid_statement "recovery transition ceremony validity overflows");
    reject_if (negb ((1 <=? validity) && (validity <=? MAX_RECOVERY_CEREMONY_VALIDITY_SECONDS))%Z)
      (invalid_statement ("recovery transition ceremony validity must be 1 through " +:+
        pretty MAX_RECOVERY_CEREMONY_VALIDITY_SECONDS +:+ " seconds"))
  else Err (invalid_statement ("unsupported recovery transition schema " +:+
    escape_untrusted_text_for_terminal (xs_schema statement))).

Definition validate_recovery_transition_statement (statement : RecoveryTransitionStatement) :
    Result unit :=
  validate_recovery_transition_schema statement;;
  reject_if (xs_canonicalization statement != CONTINUITY_CANONICALIZATION)
    (invalid_statement ("unsupported recovery transition canonicalization " +:+
      escape_untrusted_text_for_terminal (xs_canonicalization statement)));;
  validate_persona_anchor (xs_persona_anchor statement);;
  _ ← validate_canonical_persona (xs_persona statement);
  reject_if (xs_sequence statement =? 0)%N
    (invalid_statement "recovery transition sequence must start at 1");;
  validate_jcs_time "recovery transition issued_at" (xs_issued_at statement);;
  validate_sha256 "recovery transition root digest" (xs_root_statement_sha256 statement);;
  match (xs_sequence statement =? 1)%N, xs_previous_transition_sha256 statement with
  | true, None => Ok tt
  | true, Some _ => Err (invalid_statement
      "recovery transition 1 cannot name a previous transition digest")
  | false, Some digest => validate_sha256 "previous transition digest" digest
  | false, None => Err (invalid_statement
      "recovery transitions after sequence 1 require a previous transition digest")
  end;;
  validate_key_fingerprint (xs_previous_key_fingerprint statement);;
  validate_key_fingerprint (xs_next_key_fingerprint statement);;
  reject_if (xs_previous_key_fingerprint statement == xs_next_key_fingerprint statement)
    (invalid_statement "recovery must replace the current key with a distinct next key");;
  validate_sha256 "recovery transition policy digest" (xs_recovery_policy_sha256 statement);;
  reject_if (xs_recovery_policy_version statement =? 0)%N
    (invalid_statement "recovery transition policy version must start at 1").

Definition validate_recovery_transition_policy_binding (policy : VerifiedRecoveryPolicy)
    (statement : RecoveryTransitionStatement) : Result unit :=
  reject_if ((xs_persona_anchor statement != ps_persona_anchor (vp_statement policy)) ||
             (xs_persona statement != ps_persona (vp_statement policy)) ||
             (xs_root_statement_sha256 statement != ps_root_statement_sha256 (vp_statement policy)) ||
             (xs_recovery_policy_sha256 statement != vp_policy_statement_sha256 policy) ||
             (xs_recovery_policy_version statement != ps_policy_version (vp_statement policy)))
    (chain_mismatch "recovery transition is not bound to the selected recovery policy");;
  reject_if (negb (authorizes (vp_statement policy) KeyRecovery))
    (chain_mismatch "selected recovery policy does not authorize key recovery");;
  reject_if (policy_time_status (vp_statement policy) (xs_issued_at statement) != Active)
    (chain_mismatch
      "recovery transition was not issued during the selected policy's claimed validity window");;
  reject_if (match xs_expires_at statement with
             | Some expires_at => (ps_expires_at (vp_statement policy) <? expires_at)%Z
             | None => false
             end)
    (chain_mismatch "recovery transition ceremony cannot outlive its selected recovery policy");;
  reject_if (binary_search_is_ok (ps_recovery_key_fingerprints (vp_statement policy))
               (xs_previous_key_fingerprint statement))
    (chain_mismatch "the replaced online key must be distinct from every recovery authority key");;
  reject_if (binary_search_is_ok (ps_recovery_key_fingerprints (vp_statement policy))
               (xs_next_key_fingerprint statement))
    (chain_mismatch "the new online signing key must be distinct from every recovery authority key").

Definition validate_recovery_transition_binding (root : VerifiedPersonaRoot)
    (policy : VerifiedRecoveryPolicy) (statement : RecoveryTransitionStatement) : Result unit :=
  validate_recovery_transition_statement statement;;
  validate_policy_root_binding root (vp_statement policy);;
  validate_recovery_transition_policy_binding policy statement;;
  reject_if ((xs_persona_anchor statement != rs_persona_anchor (vpr_statement root)) ||
             (xs_persona statement != rs_persona (vpr_statement root)) ||
             (xs_root_statement_sha256 statement != vpr_root_statement_sha256 root))
    (chain_mismatch "recovery transition is bound to a different persona root");;
  reject_if (xs_issued_at statement <? rs_issued_at (vpr_statement root))%Z
    (chain_mismatch "recovery transition predates its persona root").

(** ** Terminal revocations: validation *)

Definition validate_terminal_persona_revocation_statement
    (statement : TerminalPersonaRevocationStatement) : Result unit :=
  reject_if (zs_schema statement != TERMINAL_PERSONA_REVOCATION_STATEMENT_SCHEMA)
    (invalid_statement ("unsupported terminal persona revocation schema " +:+
      escape_untrusted_text_for_terminal (zs_schema statement)));;
  reject_if (zs_canonicalization statement != CONTINUITY_CANONICALIZATION)
    (invalid_statement ("unsupported terminal persona revocation canonicalization " +:+
      escape_untrusted_text_for_terminal (zs_canonicalization statement)));;
  validate_persona_anchor (zs_persona_anchor statement);;
  _ ← validate_canonical_persona (zs_persona statement);
  reject_if ((zs_sequence statement =? 0)%N ||
             (MAX_TERMINAL_PERSONA_REVOCATION_SEQUENCE <? zs_sequence statement)%N)
    (invalid_statement ("terminal persona revocation sequence must be 1 through " +:+
      pretty MAX_TERMINAL_PERSONA_REVOCATION_SEQUENCE));;
  validate_jcs_time "terminal persona revocation issued_at" (zs_issued_at statement);;
  validate_sha256 "terminal persona revocation root digest" (zs_root_statement_sha256 statement);;
  match (zs_sequence statement =? 1)%N, zs_previous_transition_sha256 statement with
  | true, None => Ok tt
  | true, Some _ => Err (invalid_statement
      "terminal persona revocation 1 cannot name a previous transition digest")
  | false, Some digest => validate_sha256 "previous transition digest" digest
  | false, None => Err (invalid_statement
      "terminal persona revocations after sequence 1 require a previous transition digest")
  end;;
  validate_key_fingerprint (zs_previous_key_fingerprint statement);;
  validate_sha256 "terminal persona revocation policy digest" (zs_recovery_policy_sha256 statement);;
  reject_if (zs_recovery_policy_version statement =? 0)%N
    (invalid_statement "terminal persona revocation policy version must start at 1");;
  reject_if (zs_effect statement != TERMINAL_PERSONA_REVOCATION_EFFECT)
    (invalid_statement ("unsupported terminal persona revocation effect " +:+
      escape_untrusted_text_for_terminal (zs_effect statement))).

Definition validate_terminal_persona_revocation_policy_binding (policy : VerifiedRecoveryPolicy)
    (statement : TerminalPersonaRevocationStatement) : Result unit :=
  reject_if ((zs_persona_anchor statement != ps_persona_anchor (vp_statement policy)) ||
             (zs_persona statement != ps_persona (vp_statement policy)) ||
             (zs_root_statement_sha256 statement != ps_root_statement_sha256 (vp_statement policy)) ||
             (zs_recovery_policy_sha256 statement != vp_policy_statement_sha256 policy) ||
             (zs_recovery_policy_version statement != ps_policy_version (vp_statement policy)))
    (chain_mismatch "terminal persona revocation is not bound to the selected recovery policy");;
  reject_if (negb (authorizes (vp_statement policy) TerminalRevocation))
    (chain_mismatch "selected recovery policy does not authorize terminal revocation");;
  reject_if (policy_time_status (vp_statement policy) (zs_issued_at statement) != Active)
    (chain_mismatch
      "terminal persona revocation was not issued during the selected policy's claimed validity window");;
  reject_if (binary_search_is_ok (ps_recovery_key_fingerprints (vp_statement policy))
               (zs_previous_key_fingerprint statement))
    (chain_mismatch
      "the terminally revoked online key must be distinct from every recovery authority key").

Definition validate_terminal_persona_revocation_binding (root : VerifiedPersonaRoot)
    (policy : VerifiedRecoveryPolicy) (statement : TerminalPersonaRevocationStatement) : Result unit :=
  validate_terminal_persona_revocation_statement statement;;
  validate_policy_root_binding root (vp_statement policy);;
  validate_terminal_persona_revocation_policy_binding policy statement;;
  reject_if ((zs_persona_anchor statement != rs_persona_anchor (vpr_statement root)) ||
             (zs_persona statement != rs_persona (vpr_statement root)) ||
             (zs_root_statement_sha256 statement != vpr_root_statement_sha256 root))
    (chain_mismatch "terminal persona revocation is bound to a different persona root");;
  reject_if (zs_issued_at statement <? rs_issued_at (vpr_statement root))%Z
    (chain_mismatch "terminal persona revocation predates its persona root").

(** ** Building recovery statements *)

Definition new_recovery_transition_statement_for_schema (root : VerifiedPersonaRoot) (sequence : N)
    (previous_transition_sha256 : option string) (previous_key_fingerprint next_public_key : string)
    (policy : VerifiedRecoveryPolicy) (issued_at : Z) (reason : RecoveryTransitionReason)
    (schema : string) (ceremony_id : option string) (expires_at : option Z) :
    Result RecoveryTransitionStatement :=
  validate_policy_root_binding root (vp_statement policy);;
  validate_key_fingerprint previous_key_fingerprint;;
  reject_if ((sequence =? 1)%N &&
             (previous_key_fingerprint != rs_initial_key_fingerprint (vpr_statement root)))
    (chain_mismatch "recovery transition 1 must replace the root's initial key");;
  reject_if (issued_at <? rs_issued_at (vpr_statement root))%Z
    (invalid_statement "a recovery transition cannot predate its persona root");;
  next_public_key ← normalize_public_key next_public_key;
  next_key_fingerprint ← public_key_fingerprint next_public_key;
  let statement :=
    {| xs_schema := schema;
       xs_canonicalization := CONTINUITY_CANONICALIZATION;
       xs_persona_anchor := rs_persona_anchor (vpr_statement root);
       xs_persona := rs_persona (vpr_statement root);
       xs_sequence := sequence;
       xs_issued_at := issued_at;
       xs_root_statement_sha256 := vpr_root_statement_sha256 root;
       xs_previous_transition_sha256 := previous_transition_sha256;
       xs_previous_key_fingerprint := previous_key_fingerprint;
       xs_next_key_fingerprint := next_key_fingerprint;
       xs_recovery_policy_sha256 := vp_policy_statement_sha256 policy;
       xs_recovery_policy_version := ps_policy_version (vp_statement policy);
       xs_reason := reason;
       xs_ceremony_id := ceremony_id;
       xs_expires_at := expires_at |} in
  validate_recovery_transition_statement statement;;
  validate_recovery_transition_binding root policy statement;;
  Ok statement.

Definition new_recovery_transition_statement (root : VerifiedPersonaRoot) (sequence : N)
    (previous_transition_sha256 : option string) (previous_key_fingerprint next_public_key : string)
    (policy : VerifiedRecoveryPolicy) (issued_at : Z) (reason : RecoveryTransitionReason) :
    Result RecoveryTransitionStatement :=
  new_recovery_transition_statement_for_schema root sequence previous_transition_sha256
    previous_key_fingerprint next_public_key policy issued_at reason
    RECOVERY_TRANSITION_STATEMENT_SCHEMA None None.

Definition new_recovery_transition_ceremony_statement_with_id (root : VerifiedPersonaRoot)
    (sequence : N) (previous_transition_sha256 : option string)
    (previous_key_fingerprint next_public_key : string) (policy : VerifiedRecoveryPolicy)
    (issued_at expires_at : Z) (reason : RecoveryTransitionReason) (ceremony_id : string) :
    Result RecoveryTransitionStatement :=
  new_recovery_transition_statement_for_schema root sequence previous_transition_sha256
    previous_key_fingerprint next_public_key policy issued_at reason
    RECOVERY_TRANSITION_STATEMENT_SCHEMA_V2 (Some ceremony_id) (Some expires_at).

(** [ceremony_id] is what [getrandom::fill] gave. *)
Definition new_recovery_transition_ceremony_statement (ceremony_id : option bytes)
    (root : VerifiedPersonaRoot) (sequence : N) (previous_transition_sha256 : option string)
    (previous_key_fingerprint next_public_key : string) (policy : VerifiedRecoveryPolicy)
    (issued_at expires_at : Z) (reason : RecoveryTransitionReason) :
    Result RecoveryTransitionStatement :=
  ceremony_id ← ok_or ceremony_id EntropyUnavailable;
  new_recovery_transition_ceremony_statement_with_id root sequence previous_transition_sha256
    previous_key_fingerprint next_public_key policy issued_at expires_at reason
    (URL_SAFE_NO_PAD_encode ceremony_id).

Definition new_terminal_persona_revocation_statement (root : VerifiedPersonaRoot) (sequence : N)
    (previous_transition_sha256 : option string) (previous_key_fingerprint : string)
    (policy : VerifiedRecoveryPolicy) (issued_at : Z) (reason : TerminalPersonaRevocationReason) :
    Result TerminalPersonaRevocationStatement :=
  validate_policy_root_binding root (vp_statement policy);;
  validate_key_fingerprint previous_key_fingerprint;;
  reject_if ((sequence =? 1)%N &&
             (previous_key_fingerprint != rs_initial_key_fingerprint (vpr_statement root)))
    (chain_mismatch "terminal revocation 1 must revoke the root's initial key");;
  reject_if (issued_at <? rs_issued_at (vpr_statement root))%Z
    (invalid_statement "a terminal persona revocation cannot predate its persona root");;
  let statement :=
    {| zs_schema := TERMINAL_PERSONA_REVOCATION_STATEMENT_SCHEMA;
       zs_canonicalization := CONTINUITY_CANONICALIZATION;
       zs_persona_anchor := rs_persona_anchor (vpr_statement root);
       zs_persona := rs_persona (vpr_statement root);
       zs_sequence := sequence;
       zs_issued_at := issued_at;
       zs_root_statement_sha256 := vpr_root_statement_sha256 root;
       zs_previous_transition_sha256 := previous_transition_sha256;
       zs_previous_key_fingerprint := previous_key_fingerprint;
       zs_recovery_policy_sha256 := vp_policy_statement_sha256 policy;
       zs_recovery_policy_version := ps_policy_version (vp_statement policy);
       zs_reason := reason;
       zs_effect := TERMINAL_PERSONA_REVOCATION_EFFECT |} in
  validate_terminal_persona_revocation_binding root policy statement;;
  Ok statement.

Section json.
Context {json_transition : Serde PersonaTransitionStatement}
  {json_recovery : Serde RecoveryTransitionStatement}
  {json_terminal : Serde TerminalPersonaRevocationStatement}.

(** ** Recovery transition proofs *)

Definition canonical_recovery_transition_statement_bytes (statement : RecoveryTransitionStatement) :
    Result bytes :=
  validate_recovery_transition_statement statement;;
  bs ← map_err Json (of_sum (jcs_to_vec statement));
  validate_payload_bound bs;;
  Ok bs.

Definition recovery_transition_statement_sha256 (statement : RecoveryTransitionStatement) :
    Result string :=
  bs ← canonical_recovery_transition_statement_bytes statement;
  Ok (sha256_hex bs).

Definition create_recovery_transition_proof {keygen : SshKeygen}
    (statement : RecoveryTransitionStatement) (policy : VerifiedRecoveryPolicy)
    (authority_signers : list RecoverySigner) (next_private_key_path next_public_key : string) :
    Result RecoveryTransitionProof :=
  validate_recovery_transition_policy_binding policy statement;;
  payload ← canonical_recovery_transition_statement_bytes statement;
  let threshold := ps_threshold (vp_statement policy) in
  recovery_signatures ← sign_with_authorities payload authority_signers
    (ps_recovery_key_fingerprints (vp_statement policy)) threshold false
    RECOVERY_TRANSITION_AUTHORITY_NAMESPACE;
  next_public_key ← normalize_public_key next_public_key;
  fingerprint ← public_key_fingerprint next_public_key;
  reject_if (fingerprint != xs_next_key_fingerprint statement) FingerprintMismatch;;
  next_signature ← sign_one payload next_private_key_path next_public_key
    RECOVERY_TRANSITION_NEXT_NAMESPACE;
  Ok {| xp_schema := RECOVERY_TRANSITION_PROOF_SCHEMA;
        xp_payload := URL_SAFE_NO_PAD_encode payload;
        xp_recovery_signatures := recovery_signatures;
        xp_next_signature := next_signature |}.

Definition decode_recovery_transition_proof (proof : RecoveryTransitionProof) :
    Result (bytes * RecoveryTransitionStatement) :=
  require_schema (xp_schema proof) RECOVERY_TRANSITION_PROOF_SCHEMA;;
  payload ← decode_canonical_payload (xp_payload proof);
  statement ← map_err invalid_statement
    (parse_bounded_json payload MAX_CONTINUITY_PAYLOAD_BYTES "recovery transition statement");
  canonical ← canonical_recovery_transition_statement_bytes statement;
  reject_if (canonical != payload) NonCanonicalContinuityStatement;;
  Ok (payload, statement).

Record RecoveryTransitionProofPreflight := {
  xpf_payload : bytes;
  xpf_statement : RecoveryTransitionStatement;
  xpf_next_public_key : string;
}.

Definition preflight_recovery_transition_proof (proof : RecoveryTransitionProof) :
    Result RecoveryTransitionProofPreflight :=
  '(payload, statement) ← decode_recovery_transition_proof proof;
  _ ← preflight_unbound_signature_set (xp_recovery_signatures proof)
    RECOVERY_TRANSITION_AUTHORITY_NAMESPACE;
  next_public_key ← validate_recovery_signature (xp_next_signature proof)
    RECOVERY_TRANSITION_NEXT_NAMESPACE;
  fingerprint ← public_key_fingerprint next_public_key;
  reject_if (fingerprint != xs_next_key_fingerprint statement) FingerprintMismatch;;
  Ok {| xpf_payload := payload; xpf_statement := statement; xpf_next_public_key := next_public_key |}.

Definition validate_recovery_transition_proof_structure (proof : RecoveryTransitionProof) :
    Result unit :=
  _ ← preflight_recovery_transition_proof proof; Ok tt.

Definition parse_recovery_transition_proof_bytes `{!Serde RecoveryTransitionProof} (bs : bytes) :
    Result RecoveryTransitionProof :=
  proof ← map_err invalid_proof (parse_bounded_json bs MAX_PROOF_BYTES "recovery transition proof");
  _ ← preflight_recovery_transition_proof proof;
  Ok proof.

Definition inspect_recovery_transition_proof (proof : RecoveryTransitionProof) :
    Result RecoveryTransitionStatement :=
  pre ← preflight_recovery_transition_proof proof;
  Ok (xpf_statement pre).

Definition verify_recovery_transition_proof_with_receipt (root : VerifiedPersonaRoot)
    (policy : VerifiedRecoveryPolicy) (proof : RecoveryTransitionProof) :
    Result VerifiedRecoveryTransitionReceipt :=
  pre ← preflight_recovery_transition_proof proof;
  validate_recovery_transition_binding root policy (xpf_statement pre);;
  let threshold := ps_threshold (vp_statement policy) in
  recovery_signer_fingerprints ← verify_authority_signatures (xpf_payload pre)
    (xp_recovery_signatures proof) (ps_recovery_key_fingerprints (vp_statement policy)) threshold
    false RECOVERY_TRANSITION_AUTHORITY_NAMESPACE;
  sshsig_verify (xpf_payload pre) (sg_value (xp_next_signature proof)) (xpf_next_public_key pre)
    RECOVERY_TRANSITION_NEXT_NAMESPACE;;
  Ok {| xr_policy_statement := vp_statement policy;
        xr_policy_statement_sha256 := vp_policy_statement_sha256 policy;
        xr_transition :=
          {| vx_transition_statement_sha256 := sha256_hex (xpf_payload pre);
             vx_statement := xpf_statement pre;
             vx_recovery_signer_fingerprints := recovery_signer_fingerprints;
             vx_next_public_key := xpf_next_public_key pre |} |}.

Definition verify_recovery_transition_proof (root : VerifiedPersonaRoot)
    (policy : VerifiedRecoveryPolicy) (proof : RecoveryTransitionProof) :
    Result VerifiedRecoveryTransition :=
  receipt ← verify_recovery_transition_proof_with_receipt root policy proof;
  Ok (xr_transition receipt).

(** ** Terminal revocation proofs *)

Definition canonical_terminal_persona_revocation_statement_bytes
    (statement : TerminalPersonaRevocationStatement) : Result bytes :=
  validate_terminal_persona_revocation_statement statement;;
  bs ← map_err Json (of_sum (jcs_to_vec statement));
  validate_payload_bound bs;;
  Ok bs.

Definition terminal_persona_revocation_statement_sha256
    (statement : TerminalPersonaRevocationStatement) : Result string :=
  bs ← canonical_terminal_persona_revocation_statement_bytes statement;
  Ok (sha256_hex bs).

Definition create_terminal_persona_revocation_proof {keygen : SshKeygen}
    (statement : TerminalPersonaRevocationStatement) (policy : VerifiedRecoveryPolicy)
    (authority_signers : list RecoverySigner) : Result TerminalPersonaRevocationProof :=
  validate_terminal_persona_revocation_policy_binding policy statement;;
  payload ← canonical_terminal_persona_revocation_statement_bytes statement;
  let threshold := ps_threshold (vp_statement policy) in
  recovery_signatures ← sign_with_authorities payload authority_signers
    (ps_recovery_key_fingerprints (vp_statement policy)) threshold false
    TERMINAL_PERSONA_REVOCATION_AUTHORITY_NAMESPACE;
  Ok {| zp_schema := TERMINAL_PERSONA_REVOCATION_PROOF_SCHEMA;
        zp_payload := URL_SAFE_NO_PAD_encode payload;
        zp_recovery_signatures := recovery_signatures |}.

Definition decode_terminal_persona_revocation_proof (proof : TerminalPersonaRevocationProof) :
    Result (bytes * TerminalPersonaRevocationStatement) :=
  require_schema (zp_schema proof) TERMINAL_PERSONA_REVOCATION_PROOF_SCHEMA;;
  payload ← decode_canonical_payload (zp_payload proof);
  statement ← map_err invalid_statement
    (parse_bounded_json payload MAX_CONTINUITY_PAYLOAD_BYTES
      "terminal persona revocation statement");
  canonical ← canonical_terminal_persona_revocation_statement_bytes statement;
  reject_if (canonical != payload) NonCanonicalContinuityStatement;;
  Ok (payload, statement).

Definition preflight_terminal_persona_revocation_proof (proof : TerminalPersonaRevocationProof) :
    Result (bytes * TerminalPersonaRevocationStatement) :=
  '(payload, statement) ← decode_terminal_persona_revocation_proof proof;
  _ ← preflight_unbound_signature_set (zp_recovery_signatures proof)
    TERMINAL_PERSONA_REVOCATION_AUTHORITY_NAMESPACE;
  Ok (payload, statement).

Definition validate_terminal_persona_revocation_proof_structure
    (proof : TerminalPersonaRevocationProof) : Result unit :=
  _ ← preflight_terminal_persona_revocation_proof proof; Ok tt.

Definition parse_terminal_persona_revocation_proof_bytes `{!Serde TerminalPersonaRevocationProof}
    (bs : bytes) : Result TerminalPersonaRevocationProof :=
  proof ← map_err invalid_proof
    (parse_bounded_json bs MAX_PROOF_BYTES "terminal persona revocation proof");
  _ ← preflight_terminal_persona_revocation_proof proof;
  Ok proof.

Definition inspect_terminal_persona_revocation_proof (proof : TerminalPersonaRevocationProof) :
    Result TerminalPersonaRevocationStatement :=
  '(_, statement) ← preflight_terminal_persona_revocation_proof proof;
  Ok statement.

Definition verify_terminal_persona_revocation_proof_with_receipt (root : VerifiedPersonaRoot)
    (policy : VerifiedRecoveryPolicy) (proof : TerminalPersonaRevocationProof) :
    Result VerifiedTerminalPersonaRevocationReceipt :=
  '(payload, statement) ← preflight_terminal_persona_revocation_proof proof;
  validate_terminal_persona_revocation_binding root policy statement;;
  let threshold := ps_threshold (vp_statement policy) in
  recovery_signer_fingerprints ← verify_authority_signatures payload (zp_recovery_signatures proof)
    (ps_recovery_key_fingerprints (vp_statement policy)) threshold false
    TERMINAL_PERSONA_REVOCATION_AUTHORITY_NAMESPACE;
  Ok {| zr_policy_statement := vp_statement policy;
        zr_policy_statement_sha256 := vp_policy_statement_sha256 policy;
        zr_revocation :=
          {| vz_revocation_statement_sha256 := sha256_hex payload;
             vz_statement := statement;
             vz_recovery_signer_fingerprints := recovery_signer_fingerprints |} |}.

Definition verify_terminal_persona_revocation_proof (root : VerifiedPersonaRoot)
    (policy : VerifiedRecoveryPolicy) (proof : TerminalPersonaRevocationProof) :
    Result VerifiedTerminalPersonaRevocation :=
  receipt ← verify_terminal_persona_revocation_proof_with_receipt root policy proof;
  Ok (zr_revocation receipt).

Definition parse_persona_continuity_transition_proof_bytes
    `{!Serde PersonaContinuityTransitionProof} (bs : bytes) :
    Result PersonaContinuityTransitionProof :=
  proof ← map_err invalid_proof
    (parse_bounded_json bs MAX_PROOF_BYTES "routine or recovery transition proof");
  match proof with
  | ProofRoutine proof => validate_persona_transition_proof_structure proof
  | ProofRecovery proof => _ ← preflight_recovery_transition_proof proof; Ok tt
  | ProofTerminalRevocation proof =>
      _ ← preflight_terminal_persona_revocation_proof proof; Ok tt
  end;;
  Ok proof.

(** ** The mixed chain *)

Definition recovery_policy_for_transition (policies : list VerifiedRecoveryPolicy)
    (statement : RecoveryTransitionStatement) : Result VerifiedRecoveryPolicy :=
  '(policy_index, policy) ← ok_or
    (list_find (λ candidate,
       vp_policy_statement_sha256 candidate = xs_recovery_policy_sha256 statement) policies)
    (chain_mismatch "recovery transition references a policy outside the verified chain");
  reject_if (ps_policy_version (vp_statement policy) != xs_recovery_policy_version statement)
    (chain_mismatch "recovery transition is not bound to the selected recovery policy");;
  reject_if (xs_sequence statement <=?
               rc_transition_sequence (ps_continuity_checkpoint (vp_statement policy)))%N
    (chain_mismatch "recovery transition is not after its policy's signed continuity checkpoint");;
  reject_if (match policies !! (policy_index + 1) with
             | Some successor =>
                 (rc_transition_sequence (ps_continuity_checkpoint (vp_statement successor)) <?
                    xs_sequence statement)%N
             | None => false
             end)
    (chain_mismatch
      "recovery transition uses a superseded policy beyond its successor's signed continuity checkpoint");;
  Ok policy.

(** The fields of one verified entry that the loop checks and keeps. *)
Record ChainEntry := {
  en_verified : VerifiedPersonaContinuityTransition;
  en_sequence : N;
  en_persona_anchor : string;
  en_persona : string;
  en_root_statement_sha256 : string;
  en_linked_previous_transition : option string;
  en_previous_key : string;
  en_next_key : option string;
  en_issued_at : Z;
  en_statement_sha256 : string;
}.

Definition entry_of (verified : VerifiedPersonaContinuityTransition) : ChainEntry :=
  match verified with
  | VerifiedRoutine v =>
      {| en_verified := verified;
         en_sequence := ts_sequence (vpt_statement v);
         en_persona_anchor := ts_persona_anchor (vpt_statement v);
         en_persona := ts_persona (vpt_statement v);
         en_root_statement_sha256 := ts_root_statement_sha256 (vpt_statement v);
         en_linked_previous_transition := ts_previous_transition_sha256 (vpt_statement v);
         en_previous_key := ts_previous_key_fingerprint (vpt_statement v);
         en_next_key := Some (ts_next_key_fingerprint (vpt_statement v));
         en_issued_at := ts_issued_at (vpt_statement v);
         en_statement_sha256 := vpt_transition_statement_sha256 v |}
  | VerifiedRecovery v =>
      {| en_verified := verified;
         en_sequence := xs_sequence (vx_statement v);
         en_persona_anchor := xs_persona_anchor (vx_statement v);
         en_persona := xs_persona (vx_statement v);
         en_root_statement_sha256 := xs_root_statement_sha256 (vx_statement v);
         en_linked_previous_transition := xs_previous_transition_sha256 (vx_statement v);
         en_previous_key := xs_previous_key_fingerprint (vx_statement v);
         en_next_key := Some (xs_next_key_fingerprint (vx_statement v));
         en_issued_at := xs_issued_at (vx_statement v);
         en_statement_sha256 := vx_transition_statement_sha256 v |}
  | VerifiedTerminalRevocation v =>
      {| en_verified := verified;
         en_sequence := zs_sequence (vz_statement v);
         en_persona_anchor := zs_persona_anchor (vz_statement v);
         en_persona := zs_persona (vz_statement v);
         en_root_statement_sha256 := zs_root_statement_sha256 (vz_statement v);
         en_linked_previous_transition := zs_previous_transition_sha256 (vz_statement v);
         en_previous_key := zs_previous_key_fingerprint (vz_statement v);
         en_next_key := None;
         en_issued_at := zs_issued_at (vz_statement v);
         en_statement_sha256 := vz_revocation_statement_sha256 v |}
  end.

(** The locals of the loop over the transitions. *)
Record MixedState := {
  mx_index : N;
  mx_current_key_fingerprint : string;
  mx_previous_transition_sha256 : option string;
  mx_previous_issued_at : Z;
  mx_routine_transition_count : N;
  mx_recovery_transition_count : N;
  mx_terminal_revocation_count : N;
  mx_terminal_revocation_statement_sha256 : option string;
  mx_terminal_revoked_key_fingerprint : option string;
  mx_terminal_revocation_reason : option TerminalPersonaRevocationReason;
  mx_verified_transitions : list VerifiedPersonaContinuityTransition;
  mx_transition_statement_sha256s : list string;
  mx_transition_issued_ats : list Z;
  mx_online_key_fingerprints : list string;
}.

Definition mixed_start (root : VerifiedPersonaRoot) : MixedState :=
  {| mx_index := 0;
     mx_current_key_fingerprint := rs_initial_key_fingerprint (vpr_statement root);
     mx_previous_transition_sha256 := None;
     mx_previous_issued_at := rs_issued_at (vpr_statement root);
     mx_routine_transition_count := 0;
     mx_recovery_transition_count := 0;
     mx_terminal_revocation_count := 0;
     mx_terminal_revocation_statement_sha256 := None;
     mx_terminal_revoked_key_fingerprint := None;
     mx_terminal_revocation_reason := None;
     mx_verified_transitions := [];
     mx_transition_statement_sha256s := [];
     mx_transition_issued_ats := [];
     mx_online_key_fingerprints :=
       (bset_insert (rs_initial_key_fingerprint (vpr_statement root)) []).1 |}.

Definition counter_increment (n : N) (site : string) : Result N := expect (checked_add_u32 n 1) site.

(** The [match proof] of the loop: the verified entry and the three counters
    with the one of its kind incremented. *)
Definition verify_entry (root : VerifiedPersonaRoot) (policies : list VerifiedRecoveryPolicy)
    (latest_policy : VerifiedRecoveryPolicy) (st : MixedState)
    (proof : PersonaContinuityTransitionProof) :
    Result (VerifiedPersonaContinuityTransition * (N * N * N)) :=
  match proof with
  | ProofRoutine proof =>
      verified ← verify_persona_transition_proof proof;
      count ← counter_increment (mx_routine_transition_count st)
        "bounded transition count fits in u32";
      Ok (VerifiedRoutine verified,
          (count, mx_recovery_transition_count st, mx_terminal_revocation_count st))
  | ProofRecovery proof =>
      '(_, unverified_statement) ← decode_recovery_transition_proof proof;
      policy ← recovery_policy_for_transition policies unverified_statement;
      verified ← verify_recovery_transition_proof root policy proof;
      count ← counter_increment (mx_recovery_transition_count st)
        "bounded transition count fits in u32";
      Ok (VerifiedRecovery verified,
          (mx_routine_transition_count st, count, mx_terminal_revocation_count st))
  | ProofTerminalRevocation proof =>
      '(_, unverified_statement) ← decode_terminal_persona_revocation_proof proof;
      reject_if ((zs_recovery_policy_sha256 unverified_statement !=
                    vp_policy_statement_sha256 latest_policy) ||
                 (zs_recovery_policy_version unverified_statement !=
                    ps_policy_version (vp_statement latest_policy)))
        (chain_mismatch "terminal persona revocation must use the verified latest recovery policy");;
      reject_if (zs_sequence unverified_statement <=?
                   rc_transition_sequence (ps_continuity_checkpoint (vp_statement latest_policy)))%N
        (chain_mismatch
          "terminal persona revocation is not after its policy's signed continuity checkpoint");;
      verified ← verify_terminal_persona_revocation_proof root latest_policy proof;
      count ← counter_increment (mx_terminal_revocation_count st)
        "terminal revocation count is bounded to one";
      Ok (VerifiedTerminalRevocation verified,
          (mx_routine_transition_count st, mx_recovery_transition_count st, count))
  end.

(** The checks every entry goes through. *)
Definition validate_entry_at_head (root : VerifiedPersonaRoot) (entry : ChainEntry)
    (expected_sequence : N) (previous_transition_sha256 : option string)
    (current_key_fingerprint : string) (previous_issued_at : Z) : Result unit :=
  reject_if (en_sequence entry != expected_sequence)
    (chain_mismatch ("transition sequence " +:+ pretty (en_sequence entry) +:+
      " is out of order; expected " +:+ pretty expected_sequence));;
  reject_if ((en_persona_anchor entry != rs_persona_anchor (vpr_statement root)) ||
             (en_persona entry != rs_persona (vpr_statement root)) ||
             (en_root_statement_sha256 entry != vpr_root_statement_sha256 root))
    (chain_mismatch "transition is bound to a different persona root");;
  reject_if (en_linked_previous_transition entry != previous_transition_sha256)
    (chain_mismatch "transition does not link to the exact previous statement");;
  reject_if (en_previous_key entry != current_key_fingerprint)
    (chain_mismatch "transition previous key is not the chain's current key");;
  reject_if (en_issued_at entry <? previous_issued_at)%Z
    (chain_mismatch "transition issuance times move backward").

(** The end of a round: the key and the online keys move on, or the revocation
    is recorded; the entry is pushed. *)
Definition push_entry (st : MixedState) (entry : ChainEntry) (counts : N * N * N) :
    Result MixedState :=
  terminal_reason ←
    match en_next_key entry, en_verified entry with
    | Some _, _ => Ok (mx_terminal_revocation_reason st)
    | None, VerifiedTerminalRevocation revocation => Ok (Some (zs_reason (vz_statement revocation)))
    | None, _ => Panic "a transition without a next key is terminal"
    end;
  let '(routine, recovery, terminal) := counts in
  Ok {| mx_index := mx_index st + 1;
        mx_current_key_fingerprint := default (mx_current_key_fingerprint st) (en_next_key entry);
        mx_previous_transition_sha256 := Some (en_statement_sha256 entry);
        mx_previous_issued_at := en_issued_at entry;
        mx_routine_transition_count := routine;
        mx_recovery_transition_count := recovery;
        mx_terminal_revocation_count := terminal;
        mx_terminal_revocation_statement_sha256 :=
          match en_next_key entry with
          | Some _ => mx_terminal_revocation_statement_sha256 st
          | None => Some (en_statement_sha256 entry)
          end;
        mx_terminal_revoked_key_fingerprint :=
          match en_next_key entry with
          | Some _ => mx_terminal_revoked_key_fingerprint st
          | None => Some (mx_current_key_fingerprint st)
          end;
        mx_terminal_revocation_reason := terminal_reason;
        mx_verified_transitions := mx_verified_transitions st ++ [en_verified entry];
        mx_transition_statement_sha256s :=
          mx_transition_statement_sha256s st ++ [en_statement_sha256 entry];
        mx_transition_issued_ats := mx_transition_issued_ats st ++ [en_issued_at entry];
        mx_online_key_fingerprints :=
          match en_next_key entry with
          | Some next_key => (bset_insert next_key (mx_online_key_fingerprints st)).1
          | None => mx_online_key_fingerprints st
          end |}.

Definition mixed_step (root : VerifiedPersonaRoot) (policies : list VerifiedRecoveryPolicy)
    (latest_policy : VerifiedRecoveryPolicy) (st : MixedState)
    (proof : PersonaContinuityTransitionProof) : Result MixedState :=
  expected_sequence ← expect (u32_try_from (mx_index st + 1))
    "bounded continuity chain length fits in u32";
  '(verified, counts) ← verify_entry root policies latest_policy st proof;
  let entry := entry_of verified in
  validate_entry_at_head root entry expected_sequence (mx_previous_transition_sha256 st)
    (mx_current_key_fingerprint st) (mx_previous_issued_at st);;
  push_entry st entry counts.

(** The check of one policy's checkpoint against the transitions. *)
Definition check_policy_checkpoint (digests : list string) (issued_ats : list Z) (count : N)
    (policy : VerifiedRecoveryPolicy) : Result unit :=
  let checkpoint := ps_continuity_checkpoint (vp_statement policy) in
  let version := pretty (ps_policy_version (vp_statement policy)) in
  if (rc_transition_sequence checkpoint =? 0)%N then Ok tt
  else
    let checkpoint_index := N.to_nat (rc_transition_sequence checkpoint - 1) in
    actual_digest ← ok_or (digests !! checkpoint_index)
      (chain_mismatch ("recovery policy v" +:+ version +:+ " checkpoints transition " +:+
        pretty (rc_transition_sequence checkpoint) +:+ ", but the supplied chain ends at " +:+
        pretty count));
    reject_if (rc_transition_sha256 checkpoint != Some actual_digest)
      (chain_mismatch ("recovery policy v" +:+ version +:+
        " checkpoint does not match transition " +:+ pretty (rc_transition_sequence checkpoint)));;
    transition_issued_at ← expect (issued_ats !! checkpoint_index) "index out of bounds";
    reject_if (ps_issued_at (vp_statement policy) <? transition_issued_at)%Z
      (chain_mismatch ("recovery policy v" +:+ version +:+
        " claims to predate its checkpointed transition")).

Definition check_policy_keys (online_key_fingerprints : list string)
    (policy : VerifiedRecoveryPolicy) : Result unit :=
  reject_if (existsb (λ fingerprint, bset_contains fingerprint online_key_fingerprints)
               (ps_recovery_key_fingerprints (vp_statement policy)))
    (chain_mismatch ("recovery policy v" +:+ pretty (ps_policy_version (vp_statement policy)) +:+
      " reuses an online persona key as a recovery authority")).

Definition is_terminal (proof : PersonaContinuityTransitionProof) : bool :=
  match proof with ProofTerminalRevocation _ => true | _ => false end.

(** The positions of the terminal entries, in order. *)
Definition terminal_positions (transitions : list PersonaContinuityTransitionProof) : list nat :=
  omap (λ '(index, proof), if is_terminal proof then Some index else None)
    (imap pair transitions).

Definition validate_terminal_positions (transitions : list PersonaContinuityTransitionProof) :
    Result unit :=
  let positions := terminal_positions transitions in
  reject_if (1 <? len positions)%N
    (chain_mismatch "a continuity chain cannot contain more than one terminal persona revocation");;
  reject_if (match list.head positions with
             | Some index => negb (N.of_nat index + 1 =? len transitions)%N
             | None => false
             end)
    (chain_mismatch "terminal persona revocation must be the final continuity entry");;
  let maximum_entries :=
    if positions == [] then MAX_CONTINUITY_TRANSITIONS
    else MAX_TERMINAL_PERSONA_REVOCATION_SEQUENCE in
  reject_if (maximum_entries <? len transitions)%N
    (chain_mismatch ("chain cannot contain more than " +:+ pretty maximum_entries +:+
      " continuity entries")).

Definition mixed_report (root : VerifiedPersonaRoot) (latest_policy : VerifiedRecoveryPolicy)
    (st : MixedState) (transition_count : N) (checked_at : Z) :
    RecoveryAwareContinuityChainReport :=
  let terminally_revoked := (mx_terminal_revocation_count st =? 1)%N in
  let not_established :=
    ["when_or_how_the_root_and_latest_policy_digests_were_pinned";
     "whether_a_newer_policy_or_transition_was_withheld";
     "trusted_time_for_policy_or_transition_issuance";
     "legal_identity_or_guardian_independence";
     "artifact_or_software_safety"] ++
    (if terminally_revoked then
       ["whether_a_competing_pre_terminal_transition_was_also_authorized_or_withheld";
        "whether_recovery_signers_are_distinct_people_or_devices"]
     else ["current_online_key_non_revocation"]) in
  {| mr_root_signature := Verified;
     mr_expected_root_digest := Verified;
     mr_policy_chain := Verified;
     mr_policy_transition_checkpoints := Verified;
     mr_expected_latest_policy_digest := Verified;
     mr_transition_chain := Verified;
     mr_persona := rs_persona (vpr_statement root);
     mr_persona_anchor := rs_persona_anchor (vpr_statement root);
     mr_root_statement_sha256 := vpr_root_statement_sha256 root;
     mr_latest_policy_sha256 := vp_policy_statement_sha256 latest_policy;
     mr_latest_policy_version := ps_policy_version (vp_statement latest_policy);
     mr_latest_policy_time_status := policy_time_status (vp_statement latest_policy) checked_at;
     mr_latest_policy_checkpoint_sequence :=
       rc_transition_sequence (ps_continuity_checkpoint (vp_statement latest_policy));
     mr_latest_policy_checkpoint_sha256 :=
       rc_transition_sha256 (ps_continuity_checkpoint (vp_statement latest_policy));
     mr_chain_tip_key_fingerprint := mx_current_key_fingerprint st;
     mr_current_key_fingerprint :=
       if terminally_revoked then None else Some (mx_current_key_fingerprint st);
     mr_terminally_revoked := terminally_revoked;
     mr_terminal_revocation_count := mx_terminal_revocation_count st;
     mr_terminal_revocation_statement_sha256 := mx_terminal_revocation_statement_sha256 st;
     mr_terminal_revoked_key_fingerprint := mx_terminal_revoked_key_fingerprint st;
     mr_terminal_revocation_reason := mx_terminal_revocation_reason st;
     mr_transition_count := transition_count;
     mr_routine_transition_count := mx_routine_transition_count st;
     mr_recovery_transition_count := mx_recovery_transition_count st;
     mr_last_issued_at := mx_previous_issued_at st;
     mr_last_transition_sha256 := mx_previous_transition_sha256 st;
     mr_checked_at := checked_at;
     mr_expected_head_checkpoint := None;
     mr_not_established := not_established |}.

Context {json_root : Serde PersonaRootStatement} {json_policy : Serde RecoveryPolicyStatement}.

Definition verify_persona_continuity_chain_with_recovery_with_verified_sequence
    (root_proof : PersonaRootProof) (transitions : list PersonaContinuityTransitionProof)
    (policies : list RecoveryPolicyProof)
    (expected_root_statement_sha256 expected_latest_policy_sha256 : string) (checked_at : Z) :
    Result VerifiedRecoveryAwareContinuityChain :=
  validate_terminal_positions transitions;;
  validate_jcs_time "continuity check time" checked_at;;
  policy_chain ← verified_recovery_policy_sequence root_proof policies
    expected_root_statement_sha256 expected_latest_policy_sha256;
  let root := vps_root policy_chain in
  latest_policy ← expect (list.last (vps_policies policy_chain))
    "a verified recovery policy chain is non-empty";
  st ← fold_result (mixed_step root (vps_policies policy_chain) latest_policy) (mixed_start root)
    transitions;
  each_result (check_policy_checkpoint (mx_transition_statement_sha256s st)
    (mx_transition_issued_ats st) (len transitions)) (vps_policies policy_chain);;
  each_result (check_policy_keys (mx_online_key_fingerprints st)) (vps_policies policy_chain);;
  transition_count ← expect (u32_try_from (len transitions))
    "bounded transition count fits in u32";
  Ok {| mc_root := root;
        mc_policies := vps_policies policy_chain;
        mc_transitions := mx_verified_transitions st;
        mc_report := mixed_report root latest_policy st transition_count checked_at |}.

Definition verify_persona_continuity_chain_with_recovery
    (root_proof : PersonaRootProof) (transitions : list PersonaContinuityTransitionProof)
    (policies : list RecoveryPolicyProof)
    (expected_root_statement_sha256 expected_latest_policy_sha256 : string) (checked_at : Z) :
    Result RecoveryAwareContinuityChainReport :=
  chain ← verify_persona_continuity_chain_with_recovery_with_verified_sequence root_proof
    transitions policies expected_root_statement_sha256 expected_latest_policy_sha256 checked_at;
  Ok (mc_report chain).

(** ** Extensions of a verified mixed chain *)

Definition terminally_revoked_error : ProofError :=
  chain_mismatch "terminally revoked continuity cannot be extended".

Definition not_extensible (chain : VerifiedRecoveryAwareContinuityChain) : bool :=
  mr_terminally_revoked (mc_report chain) ||
  negb (bool_decide (is_Some (mr_current_key_fingerprint (mc_report chain)))).

Definition validate_recovery_aware_transition_at_head (chain : VerifiedRecoveryAwareContinuityChain)
    (sequence : N) (persona_anchor persona root_statement_sha256 : string)
    (previous_transition_sha256 : option string)
    (previous_key_fingerprint next_key_fingerprint : string) (issued_at : Z) : Result unit :=
  reject_if (not_extensible chain) terminally_revoked_error;;
  reject_if (MAX_CONTINUITY_TRANSITIONS <=? len (mc_transitions chain))%N
    (chain_mismatch ("chain cannot contain more than " +:+ pretty MAX_CONTINUITY_TRANSITIONS +:+
      " transitions"));;
  expected_sequence ← ok_or (checked_add_u32 (mr_transition_count (mc_report chain)) 1)
    (chain_mismatch "transition sequence overflow");
  reject_if (sequence != expected_sequence)
    (chain_mismatch ("transition sequence " +:+ pretty sequence +:+ " is out of order; expected " +:+
      pretty expected_sequence));;
  reject_if ((persona_anchor != rs_persona_anchor (vpr_statement (mc_root chain))) ||
             (persona != rs_persona (vpr_statement (mc_root chain))) ||
             (root_statement_sha256 != vpr_root_statement_sha256 (mc_root chain)))
    (chain_mismatch "transition is bound to a different persona root");;
  reject_if (previous_transition_sha256 != mr_last_transition_sha256 (mc_report chain))
    (chain_mismatch "transition does not link to the exact previous statement");;
  reject_if (Some previous_key_fingerprint != mr_current_key_fingerprint (mc_report chain))
    (chain_mismatch "transition previous key is not the chain's current key");;
  reject_if (issued_at <? mr_last_issued_at (mc_report chain))%Z
    (chain_mismatch "transition issuance times move backward");;
  each_result (λ candidate,
    reject_if (binary_search_is_ok (ps_recovery_key_fingerprints (vp_statement candidate))
                 next_key_fingerprint)
      (chain_mismatch ("recovery policy v" +:+ pretty (ps_policy_version (vp_statement candidate)) +:+
        " reuses the proposed online key as a recovery authority"))) (mc_policies chain).

Definition validate_verified_recovery_aware_continuity_chain_extension
    (chain : VerifiedRecoveryAwareContinuityChain) (receipt : VerifiedRecoveryTransitionReceipt) :
    Result unit :=
  let statement := vx_statement (xr_transition receipt) in
  validate_recovery_aware_transition_at_head chain (xs_sequence statement)
    (xs_persona_anchor statement) (xs_persona statement) (xs_root_statement_sha256 statement)
    (xs_previous_transition_sha256 statement) (xs_previous_key_fingerprint statement)
    (xs_next_key_fingerprint statement) (xs_issued_at statement);;
  policy ← recovery_policy_for_transition (mc_policies chain) statement;
  reject_if ((xr_policy_statement receipt != vp_statement policy) ||
             (xr_policy_statement_sha256 receipt != vp_policy_statement_sha256 policy))
    (chain_mismatch "recovery receipt was verified against a different policy");;
  validate_recovery_transition_policy_binding policy statement.

Definition validate_recovery_ceremony_candidate (chain : VerifiedRecoveryAwareContinuityChain)
    (statement : RecoveryTransitionStatement) (next_public_key : string) :
    Result VerifiedRecoveryPolicy :=
  reject_if (xs_schema statement != RECOVERY_TRANSITION_STATEMENT_SCHEMA_V2)
    (invalid_statement "recovery ceremonies require a schema-v2 recovery transition");;
  validate_recovery_transition_statement statement;;
  next_public_key ← normalize_public_key next_public_key;
  fingerprint ← public_key_fingerprint next_public_key;
  reject_if (fingerprint != xs_next_key_fingerprint statement) FingerprintMismatch;;
  validate_recovery_aware_transition_at_head chain (xs_sequence statement)
    (xs_persona_anchor statement) (xs_persona statement) (xs_root_statement_sha256 statement)
    (xs_previous_transition_sha256 statement) (xs_previous_key_fingerprint statement)
    (xs_next_key_fingerprint statement) (xs_issued_at statement);;
  policy ← recovery_policy_for_transition (mc_policies chain) statement;
  validate_recovery_transition_binding (mc_root chain) policy statement;;
  Ok policy.

Definition validate_verified_recovery_aware_continuity_chain_routine_extension
    (chain : VerifiedRecoveryAwareContinuityChain) (receipt : VerifiedPersonaTransitionReceipt) :
    Result unit :=
  let statement := vpt_statement (receipt_transition receipt) in
  validate_recovery_aware_transition_at_head chain (ts_sequence statement)
    (ts_persona_anchor statement) (ts_persona statement) (ts_root_statement_sha256 statement)
    (ts_previous_transition_sha256 statement) (ts_previous_key_fingerprint statement)
    (ts_next_key_fingerprint statement) (ts_issued_at statement).

Definition validate_verified_recovery_aware_continuity_chain_terminal_revocation_extension
    (chain : VerifiedRecoveryAwareContinuityChain)
    (receipt : VerifiedTerminalPersonaRevocationReceipt) : Result unit :=
  reject_if (not_extensible chain) terminally_revoked_error;;
  reject_if (MAX_CONTINUITY_TRANSITIONS <? len (mc_transitions chain))%N
    (chain_mismatch ("terminal revocation cannot follow more than " +:+
      pretty MAX_CONTINUITY_TRANSITIONS +:+ " key transitions"));;
  let statement := vz_statement (zr_revocation receipt) in
  expected_sequence ← ok_or (checked_add_u32 (mr_transition_count (mc_report chain)) 1)
    (chain_mismatch "terminal revocation sequence overflow");
  reject_if ((MAX_TERMINAL_PERSONA_REVOCATION_SEQUENCE <? expected_sequence)%N ||
             (zs_sequence statement != expected_sequence))
    (chain_mismatch ("terminal revocation sequence " +:+ pretty (zs_sequence statement) +:+
      " is out of order; expected " +:+ pretty expected_sequence));;
  reject_if ((zs_persona_anchor statement != rs_persona_anchor (vpr_statement (mc_root chain))) ||
             (zs_persona statement != rs_persona (vpr_statement (mc_root chain))) ||
             (zs_root_statement_sha256 statement != vpr_root_statement_sha256 (mc_root chain)))
    (chain_mismatch "terminal persona revocation is bound to a different persona root");;
  reject_if (zs_previous_transition_sha256 statement != mr_last_transition_sha256 (mc_report chain))
    (chain_mismatch "terminal persona revocation does not link to the exact previous statement");;
  reject_if (Some (zs_previous_key_fingerprint statement) !=
               mr_current_key_fingerprint (mc_report chain))
    (chain_mismatch "terminal persona revocation does not name the chain's current key");;
  reject_if (zs_issued_at statement <? mr_last_issued_at (mc_report chain))%Z
    (chain_mismatch "terminal persona revocation issuance time moves backward");;
  latest_policy ← expect (list.last (mc_policies chain))
    "a recovery-aware chain has a latest policy";
  reject_if ((zs_recovery_policy_sha256 statement != vp_policy_statement_sha256 latest_policy) ||
             (zs_recovery_policy_version statement != ps_policy_version (vp_statement latest_policy)))
    (chain_mismatch "terminal persona revocation must use the verified latest recovery policy");;
  reject_if (zs_sequence statement <=?
               rc_transition_sequence (ps_continuity_checkpoint (vp_statement latest_policy)))%N
    (chain_mismatch
      "terminal persona revocation is not after its policy's signed continuity checkpoint");;
  reject_if ((zr_policy_statement receipt != vp_statement latest_policy) ||
             (zr_policy_statement_sha256 receipt != vp_policy_statement_sha256 latest_policy))
    (chain_mismatch "terminal revocation receipt was verified against a different policy");;
  validate_terminal_persona_revocation_policy_binding latest_policy statement.

(** ** Head checkpoints of the mixed chain *)

Definition match_recovery_aware_continuity_head_checkpoint (actual_sequence : N)
    (actual_transition_sha256 : option string) (expected : PersonaContinuityCheckpoint) :
    Result unit :=
  maximum_sequence ← expect (u32_try_from MAX_CONTINUITY_TRANSITIONS)
    "transition bound fits in u32";
  if (cp_transition_sequence expected <=? maximum_sequence)%N then
    match_continuity_head_checkpoint actual_sequence actual_transition_sha256 expected
  else
    reject_if (negb (cp_transition_sequence expected =? MAX_TERMINAL_PERSONA_REVOCATION_SEQUENCE)%N)
      (chain_mismatch ("expected head sequence cannot exceed " +:+
        pretty MAX_TERMINAL_PERSONA_REVOCATION_SEQUENCE));;
    expected_digest ← ok_or (cp_transition_sha256 expected)
      (chain_mismatch "a nonzero expected head sequence requires a transition digest");
    validate_sha256 "expected head transition digest" expected_digest;;
    reject_if ((actual_sequence != cp_transition_sequence expected) ||
               (actual_transition_sha256 != Some expected_digest))
      (chain_mismatch "supplied chain does not end at the independently expected checkpoint").

(** The report after the checkpoint matched. *)
Definition checkpointed_report (r : RecoveryAwareContinuityChainReport) :
    RecoveryAwareContinuityChainReport :=
  {| mr_root_signature := mr_root_signature r;
     mr_expected_root_digest := mr_expected_root_digest r;
     mr_policy_chain := mr_policy_chain r;
     mr_policy_transition_checkpoints := mr_policy_transition_checkpoints r;
     mr_expected_latest_policy_digest := mr_expected_latest_policy_digest r;
     mr_transition_chain := mr_transition_chain r;
     mr_persona := mr_persona r;
     mr_persona_anchor := mr_persona_anchor r;
     mr_root_statement_sha256 := mr_root_statement_sha256 r;
     mr_latest_policy_sha256 := mr_latest_policy_sha256 r;
     mr_latest_policy_version := mr_latest_policy_version r;
     mr_latest_policy_time_status := mr_latest_policy_time_status r;
     mr_latest_policy_checkpoint_sequence := mr_latest_policy_checkpoint_sequence r;
     mr_latest_policy_checkpoint_sha256 := mr_latest_policy_checkpoint_sha256 r;
     mr_chain_tip_key_fingerprint := mr_chain_tip_key_fingerprint r;
     mr_current_key_fingerprint := mr_current_key_fingerprint r;
     mr_terminally_revoked := mr_terminally_revoked r;
     mr_terminal_revocation_count := mr_terminal_revocation_count r;
     mr_terminal_revocation_statement_sha256 := mr_terminal_revocation_statement_sha256 r;
     mr_terminal_revoked_key_fingerprint := mr_terminal_revoked_key_fingerprint r;
     mr_terminal_revocation_reason := mr_terminal_revocation_reason r;
     mr_transition_count := mr_transition_count r;
     mr_routine_transition_count := mr_routine_transition_count r;
     mr_recovery_transition_count := mr_recovery_transition_count r;
     mr_last_issued_at := mr_last_issued_at r;
     mr_last_transition_sha256 := mr_last_transition_sha256 r;
     mr_checked_at := mr_checked_at r;
     mr_expected_head_checkpoint := Some Verified;
     mr_not_established :=
       filter (λ claim, claim ≠ "whether_a_newer_policy_or_transition_was_withheld")
         (mr_not_established r) ++
       ["when_or_how_the_head_checkpoint_was_pinned";
        "whether_a_newer_policy_was_withheld";
        "whether_a_competing_transition_or_policy_branch_was_also_authorized_or_withheld"] ++
       (if mr_terminally_revoked r then []
        else ["whether_a_newer_transition_exists_after_the_expected_checkpoint"]) |}.

Definition verify_persona_continuity_chain_with_recovery_with_verified_sequence_at_checkpoint
    (root_proof : PersonaRootProof) (transitions : list PersonaContinuityTransitionProof)
    (policy_proofs : list RecoveryPolicyProof)
    (expected_root_statement_sha256 expected_latest_policy_sha256 : string) (checked_at : Z)
    (expected_head : PersonaContinuityCheckpoint) : Result VerifiedRecoveryAwareContinuityChain :=
  chain ← verify_persona_continuity_chain_with_recovery_with_verified_sequence root_proof
    transitions policy_proofs expected_root_statement_sha256 expected_latest_policy_sha256 checked_at;
  match_recovery_aware_continuity_head_checkpoint (mr_transition_count (mc_report chain))
    (mr_last_transition_sha256 (mc_report chain)) expected_head;;
  Ok {| mc_root := mc_root chain;
        mc_policies := mc_policies chain;
        mc_transitions := mc_transitions chain;
        mc_report := checkpointed_report (mc_report chain) |}.

Definition verify_persona_continuity_chain_with_recovery_at_checkpoint
    (root_proof : PersonaRootProof) (transitions : list PersonaContinuityTransitionProof)
    (policy_proofs : list RecoveryPolicyProof)
    (expected_root_statement_sha256 expected_latest_policy_sha256 : string) (checked_at : Z)
    (expected_head : PersonaContinuityCheckpoint) : Result RecoveryAwareContinuityChainReport :=
  chain ← verify_persona_continuity_chain_with_recovery_with_verified_sequence_at_checkpoint
    root_proof transitions policy_proofs expected_root_statement_sha256
    expected_latest_policy_sha256 checked_at expected_head;
  Ok (mc_report chain).

End json.
End recovery_chain.
