(* ===== verification/RecoveryChainFacts.v ===== *)
(** * Theorems about recovery-aware continuity

    [mixed_linked] extends the histories of [ContinuityFacts.v] to routine,
    recovery and terminal entries. Verifying a mixed chain is exactly deciding
    the specification [mixed_accepted]; from it: every recovery entry was
    authorised by a quorum of the policy in force at its position, a terminal
    revocation ends the chain for good, online keys and recovery keys never
    meet, the receipts that extend a chain accept exactly what verifying the
    longer chain accepts, and no input makes verification panic. *)

From stdpp Require Import base numbers list strings pretty sorting option sets.
From Stdlib Require Import Strings.Byte Ascii.
From S2P Require Import Prelude Text Ordered Display Crates ArtifactProof ArtifactFacts.
From S2P Require Import Continuity ContinuityFacts RecoveryPolicy RecoveryPolicyFacts.
From S2P Require Import RecoveryChain.

Section facts.
Context {crates : Crates} {json_transition : Serde PersonaTransitionStatement}
  {json_recovery : Serde RecoveryTransitionStatement}
  {json_terminal : Serde TerminalPersonaRevocationStatement}.

(** ** The loop as a pure function of the verified entries *)

Definition counts_after (st : MixedState) (v : VerifiedPersonaContinuityTransition) : N * N * N :=
  let r := mx_routine_transition_count st in
  let x := mx_recovery_transition_count st in
  let z := mx_terminal_revocation_count st in
  match v with
  | VerifiedRoutine _ => (r + 1, x, z)%N
  | VerifiedRecovery _ => (r, x + 1, z)%N
  | VerifiedTerminalRevocation _ => (r, x, z + 1)%N
  end.

Definition counts_in_range (st : MixedState) : Prop :=
  (mx_index st < u32_max)%N ∧ (mx_routine_transition_count st < u32_max)%N ∧
  (mx_recovery_transition_count st < u32_max)%N ∧ (mx_terminal_revocation_count st < u32_max)%N.

Definition push_verified (st : MixedState) (v : VerifiedPersonaContinuityTransition) : MixedState :=
  match push_entry st (entry_of v) (counts_after st v) with Ok st' => st' | _ => st end.

Lemma push_entry_Ok st v :
  push_entry st (entry_of v) (counts_after st v) = Ok (push_verified st v).
Proof. unfold push_verified. by destruct v. Qed.

Definition mixed_state (root : VerifiedPersonaRoot) (vs : list VerifiedPersonaContinuityTransition) :
    MixedState :=
  foldl push_verified (mixed_start root) vs.

Lemma mixed_state_snoc root vs v :
  mixed_state root (vs ++ [v]) = push_verified (mixed_state root vs) v.
Proof. unfold mixed_state. by rewrite foldl_snoc. Qed.

(** ** Linked histories of all three kinds *)

Record entry_continues (root : VerifiedPersonaRoot) (h : ChainHead) (e : ChainEntry) : Prop := {
  ec_sequence : en_sequence e = (hd_sequence h + 1)%N;
  ec_anchor : en_persona_anchor e = rs_persona_anchor (vpr_statement root);
  ec_persona : en_persona e = rs_persona (vpr_statement root);
  ec_root : en_root_statement_sha256 e = vpr_root_statement_sha256 root;
  ec_digest : en_linked_previous_transition e = hd_digest h;
  ec_key : en_previous_key e = hd_key_fingerprint h;
  ec_time : (hd_issued_at h <= en_issued_at e)%Z;
}.

Definition entry_head (h : ChainHead) (e : ChainEntry) : ChainHead :=
  {| hd_sequence := en_sequence e;
     hd_key_fingerprint := default (hd_key_fingerprint h) (en_next_key e);
     hd_digest := Some (en_statement_sha256 e);
     hd_issued_at := en_issued_at e |}.

Inductive mixed_linked (root : VerifiedPersonaRoot) :
    list VerifiedPersonaContinuityTransition → ChainHead → Prop :=
| mixed_linked_root : mixed_linked root [] (root_head root)
| mixed_linked_next vs h v :
    mixed_linked root vs h → entry_continues root h (entry_of v) →
    mixed_linked root (vs ++ [v]) (entry_head h (entry_of v)).

Definition mixed_head (st : MixedState) : ChainHead :=
  {| hd_sequence := mx_index st;
     hd_key_fingerprint := mx_current_key_fingerprint st;
     hd_digest := mx_previous_transition_sha256 st;
     hd_issued_at := mx_previous_issued_at st |}.

Lemma validate_entry_at_head_Ok root e h :
  validate_entry_at_head root e (hd_sequence h + 1) (hd_digest h) (hd_key_fingerprint h)
    (hd_issued_at h) = Ok tt ↔ entry_continues root h e.
Proof.
  unfold validate_entry_at_head. autorewrite with ok. rewrite Z.ltb_ge.
  split; [intros; destruct_and!; by split|intros []; tauto].
Qed.

Lemma mixed_head_push root st v :
  entry_continues root (mixed_head st) (entry_of v) →
  mixed_head (push_verified st v) = entry_head (mixed_head st) (entry_of v).
Proof.
  intros Hc. pose proof (ec_sequence _ _ _ Hc) as Hs.
  unfold mixed_head, entry_head, push_verified, push_entry in *. destruct v; cbn in *; by rewrite Hs.
Qed.

Lemma mixed_linked_sequence root vs h : mixed_linked root vs h → hd_sequence h = len vs.
Proof.
  induction 1 as [|vs h v Hl IH Hc]; [done|]. cbn.
  rewrite (ec_sequence _ _ _ Hc), IH, len_app. done.
Qed.

Lemma mixed_linked_snoc_inv root vs v h :
  mixed_linked root (vs ++ [v]) h →
  ∃ h', mixed_linked root vs h' ∧ entry_continues root h' (entry_of v) ∧ h = entry_head h' (entry_of v).
Proof.
  inversion 1 as [Hnil|vs' h' v' Hl Hc Heq]; [by destruct vs|].
  apply app_inj_tail in Heq as [-> ->]. eauto.
Qed.

Lemma mixed_linked_head root vs h : mixed_linked root vs h → h = mixed_head (mixed_state root vs).
Proof.
  induction 1 as [|vs h v Hl IH Hc]; [done|]. rewrite mixed_state_snoc, (mixed_head_push root).
  - by rewrite IH.
  - by rewrite <- IH.
Qed.

(** ** What verifying one entry means *)

Definition policy_in_force (policies : list VerifiedRecoveryPolicy) (st : RecoveryTransitionStatement)
    (policy : VerifiedRecoveryPolicy) : Prop :=
  ∃ i, list_find (λ c, vp_policy_statement_sha256 c = xs_recovery_policy_sha256 st) policies =
      Some (i, policy) ∧
    ps_policy_version (vp_statement policy) = xs_recovery_policy_version st ∧
    (rc_transition_sequence (ps_continuity_checkpoint (vp_statement policy)) < xs_sequence st)%N ∧
    ∀ successor, policies !! (i + 1) = Some successor →
      (xs_sequence st <= rc_transition_sequence (ps_continuity_checkpoint (vp_statement successor)))%N.

Lemma recovery_policy_for_transition_Ok policies st policy :
  recovery_policy_for_transition policies st = Ok policy ↔ policy_in_force policies st policy.
Proof.
  unfold recovery_policy_for_transition, policy_in_force. split.
  - intros H. unbind H as [i p] Hf. rewrite !seq_Ok in H. destruct H as (Hv & Hc & Hs & [= ->]).
    oks Hf. oks Hv. rewrite reject_if_Ok, N.leb_gt in Hc. rewrite reject_if_Ok in Hs.
    exists i. split_and!; [done..|]. intros s Hl. rewrite Hl in Hs. by apply N.ltb_ge in Hs.
  - intros (i & Hf & Hv & Hc & Hs). rewrite Hf. cbn [ok_or]. rewrite bind_Ok_l.
    rewrite bool_decide_eq_true_2 by done. cbn [negb reject_if]. rewrite bind_Ok_l.
    apply N.leb_gt in Hc. rewrite Hc. cbn [reject_if]. rewrite bind_Ok_l.
    destruct (policies !! (i + 1)) as [s|]; [|done].
    rewrite (proj2 (N.ltb_ge _ _) (Hs s eq_refl)). done.
Qed.

Definition entry_verified (root : VerifiedPersonaRoot) (policies : list VerifiedRecoveryPolicy)
    (latest : VerifiedRecoveryPolicy) (p : PersonaContinuityTransitionProof)
    (v : VerifiedPersonaContinuityTransition) : Prop :=
  match p, v with
  | ProofRoutine p, VerifiedRoutine v => verify_persona_transition_proof p = Ok v
  | ProofRecovery p, VerifiedRecovery v =>
      ∃ payload st policy, decode_recovery_transition_proof p = Ok (payload, st) ∧
        policy_in_force policies st policy ∧ verify_recovery_transition_proof root policy p = Ok v
  | ProofTerminalRevocation p, VerifiedTerminalRevocation v =>
      ∃ payload st, decode_terminal_persona_revocation_proof p = Ok (payload, st) ∧
        zs_recovery_policy_sha256 st = vp_policy_statement_sha256 latest ∧
        zs_recovery_policy_version st = ps_policy_version (vp_statement latest) ∧
        (rc_transition_sequence (ps_continuity_checkpoint (vp_statement latest)) < zs_sequence st)%N ∧
        verify_terminal_persona_revocation_proof root latest p = Ok v
  | _, _ => False
  end.

Lemma counter_increment_Ok n site m :
  counter_increment n site = Ok m ↔ m = (n + 1)%N ∧ (n < u32_max)%N.
Proof.
  unfold counter_increment. rewrite expect_Ok, checked_add_u32_Some. naive_solver lia.
Qed.

Lemma verify_entry_sound root policies latest st p v counts :
  verify_entry root policies latest st p = Ok (v, counts) →
  entry_verified root policies latest p v ∧ counts = counts_after st v.
Proof.
  unfold verify_entry. destruct p as [p|p|p]; intros H.
  - unbind H as x Hx. unbind H as c Hc. injection H as <- <-.
    apply counter_increment_Ok in Hc as [-> _]. done.
  - unbind H as [pl st0] Hd. unbind H as policy Hp. unbind H as x Hx. unbind H as c Hc.
    injection H as <- <-. apply counter_increment_Ok in Hc as [-> _].
    apply recovery_policy_for_transition_Ok in Hp. split; [|done]. cbn. eauto 10.
  - unbind H as [pl st0] Hd. rewrite !seq_Ok in H. destruct H as (Hp & Hs & H).
    unbind H as x Hx. unbind H as c Hc. injection H as <- <-.
    apply counter_increment_Ok in Hc as [-> _]. split; [|done]. oks Hp.
    rewrite reject_if_Ok, N.leb_gt in Hs. cbn. eauto 10.
Qed.

Lemma verify_entry_complete root policies latest st p v :
  counts_in_range st → entry_verified root policies latest p v →
  verify_entry root policies latest st p = Ok (v, counts_after st v).
Proof.
  intros (_ & Hr & Hx & Hz) Hv.
  destruct p as [p|p|p], v as [v|v|v]; cbn in Hv; try done; cbn [verify_entry].
  - rewrite Hv, bind_Ok_l.
    rewrite (proj2 (counter_increment_Ok _ _ (mx_routine_transition_count st + 1))) by done. done.
  - destruct Hv as (pl & st0 & policy & -> & Hp & Hver). rewrite bind_Ok_l.
    apply recovery_policy_for_transition_Ok in Hp. rewrite Hp, bind_Ok_l, Hver, bind_Ok_l.
    rewrite (proj2 (counter_increment_Ok _ _ (mx_recovery_transition_count st + 1))) by done. done.
  - destruct Hv as (pl & st0 & -> & Hd & Hn & Hc & Hver). rewrite bind_Ok_l.
    rewrite !bool_decide_eq_true_2 by done. cbn [negb orb reject_if]. rewrite bind_Ok_l.
    apply N.leb_gt in Hc. rewrite Hc. cbn [reject_if]. rewrite bind_Ok_l, Hver, bind_Ok_l.
    rewrite (proj2 (counter_increment_Ok _ _ (mx_terminal_revocation_count st + 1))) by done. done.
Qed.

(** ** The loop decides linked histories *)

Lemma mixed_step_sound root policies latest st p st' :
  mixed_step root policies latest st p = Ok st' →
  ∃ v, entry_verified root policies latest p v ∧
    entry_continues root (mixed_head st) (entry_of v) ∧ st' = push_verified st v.
Proof.
  unfold mixed_step. intros H. unbind H as seq Hs. unbind H as [v counts] Hv. rewrite seq_Ok in H.
  destruct H as [Hc Hp]. oks Hs. subst. apply verify_entry_sound in Hv as [Hv ->].
  rewrite push_entry_Ok in Hp. injection Hp as <-. exists v. split_and!; [done| |done].
  by apply (validate_entry_at_head_Ok root (entry_of v) (mixed_head st)).
Qed.

Lemma mixed_step_complete root policies latest st p v :
  counts_in_range st → entry_verified root policies latest p v →
  entry_continues root (mixed_head st) (entry_of v) →
  mixed_step root policies latest st p = Ok (push_verified st v).
Proof.
  intros Hr Hv Hc. unfold mixed_step.
  rewrite (proj2 (expect_Ok _ _ (mx_index st + 1)%N)).
  2:{ apply u32_try_from_Some. destruct Hr as [Hr _]. unfold u32_max in *. lia. }
  rewrite bind_Ok_l, (verify_entry_complete _ _ _ _ _ v), bind_Ok_l by done.
  apply validate_entry_at_head_Ok in Hc. cbn in Hc. rewrite Hc, bind_Ok_l. apply push_entry_Ok.
Qed.

Definition entries_verified (root : VerifiedPersonaRoot) (policies : list VerifiedRecoveryPolicy)
    (latest : VerifiedRecoveryPolicy) : list PersonaContinuityTransitionProof →
    list VerifiedPersonaContinuityTransition → Prop :=
  Forall2 (entry_verified root policies latest).

Lemma mixed_fold_sound root policies latest ps st :
  fold_result (mixed_step root policies latest) (mixed_start root) ps = Ok st →
  ∃ vs, entries_verified root policies latest ps vs ∧ st = mixed_state root vs ∧
    mixed_linked root vs (mixed_head st).
Proof.
  apply (fold_result_ind _ (λ ps st, ∃ vs, entries_verified root policies latest ps vs ∧
    st = mixed_state root vs ∧ mixed_linked root vs (mixed_head st))).
  - exists []. split_and!; [constructor|done|constructor].
  - intros done p st0 st' (vs & Hvs & -> & Hl) (v & Hv & Hc & ->)%mixed_step_sound.
    exists (vs ++ [v]). rewrite mixed_state_snoc. split_and!; [|done|].
    + apply Forall2_app; [done|by repeat constructor].
    + rewrite (mixed_head_push root) by done. by constructor.
Qed.

(** ** The state of the loop, field by field *)

Definition is_terminal_entry (v : VerifiedPersonaContinuityTransition) : bool :=
  match v with VerifiedTerminalRevocation _ => true | _ => false end.

Lemma mixed_state_fields root vs :
  let st := mixed_state root vs in
  mx_index st = len vs ∧ mx_verified_transitions st = vs ∧
  mx_transition_statement_sha256s st = en_statement_sha256 ∘ entry_of <$> vs ∧
  mx_transition_issued_ats st = en_issued_at ∘ entry_of <$> vs ∧
  (mx_routine_transition_count st + mx_recovery_transition_count st +
     mx_terminal_revocation_count st = len vs)%N ∧
  mx_terminal_revocation_count st = len (filter is_terminal_entry vs) ∧
  (∀ k, k ∈ mx_online_key_fingerprints st ↔
     k = rs_initial_key_fingerprint (vpr_statement root) ∨ ∃ v, v ∈ vs ∧ en_next_key (entry_of v) = Some k).
Proof.
  induction vs as [|v vs IH] using rev_ind; cbn zeta in *.
  - split_and!; try done. intros k. cbn. set_solver.
  - rewrite mixed_state_snoc. destruct IH as (Hi & Hv & Hd & Ht & Hc & Hz & Ho).
    rewrite !fmap_app, filter_app, !len_app.
    destruct v as [v|v|v]; unfold push_verified, push_entry; cbn in *; split_and!;
      try (rewrite ?Hi, ?Hv, ?Hd, ?Ht, ?Hz, ?len_cons; done || lia).
    all: try (intros k; rewrite ?bset_insert_elem, Ho; set_solver).
    all: rewrite ?decide_False by tauto; unfold len in *; cbn [length]; lia.
Qed.

Lemma mixed_state_in_range root vs :
  (len vs < u32_max)%N → counts_in_range (mixed_state root vs).
Proof.
  intros H. destruct (mixed_state_fields root vs) as (Hi & _ & _ & _ & Hc & _). cbn zeta in *.
  unfold counts_in_range. split_and!; lia.
Qed.

Lemma mixed_fold_complete root policies latest ps vs h :
  entries_verified root policies latest ps vs → mixed_linked root vs h → (len ps <= u32_max)%N →
  fold_result (mixed_step root policies latest) (mixed_start root) ps = Ok (mixed_state root vs).
Proof.
  intros Hv Hl. revert ps Hv. induction Hl as [|vs h v Hl IH Hc]; intros ps Hv Hb.
  - by inversion Hv.
  - apply Forall2_app_inv_r in Hv as (qs & q & Hvs & Hq & ->).
    inversion Hq as [|p ? ? ? Hp Hnil]; subst. inversion Hnil; subst.
    rewrite len_app in Hb. change (len [p]) with 1%N in Hb.
    assert (len vs = len qs) as Hlen by by rewrite (Forall2_len _ _ _ Hvs).
    rewrite fold_result_app, (IH qs) by (done || lia). cbn [fold_result]. rewrite bind_Ok_l.
    rewrite (mixed_step_complete _ _ _ _ _ v); [by rewrite mixed_state_snoc| |done|].
    + apply mixed_state_in_range. lia.
    + by rewrite <- (mixed_linked_head _ _ _ Hl).
Qed.

(** ** The position of a terminal revocation *)

Definition terminal_ok (ps : list PersonaContinuityTransitionProof) : Prop :=
  ∃ qs, Forall (λ p, is_terminal p = false) qs ∧ (len qs <= MAX_CONTINUITY_TRANSITIONS)%N ∧
    (ps = qs ∨ ∃ z, ps = qs ++ [ProofTerminalRevocation z]).

Lemma terminal_positions_snoc ps p :
  terminal_positions (ps ++ [p]) =
  terminal_positions ps ++ (if is_terminal p then [length ps] else []).
Proof.
  unfold terminal_positions. rewrite imap_app, omap_app. f_equal. cbn.
  rewrite Nat.add_0_r. by destruct (is_terminal p).
Qed.

Lemma terminal_positions_nil ps :
  terminal_positions ps = [] ↔ Forall (λ p, is_terminal p = false) ps.
Proof.
  induction ps as [|p ps IH] using rev_ind; [by split; [constructor|]|].
  rewrite terminal_positions_snoc, Forall_app, <- IH, Forall_cons_iff.
  destruct (is_terminal p); split.
  - intros H. by apply app_eq_nil in H as [_ ?].
  - intros (_ & ? & _). done.
  - rewrite app_nil_r. intros ->. repeat split; constructor.
  - rewrite app_nil_r. tauto.
Qed.

Lemma terminal_positions_bound ps i : i ∈ terminal_positions ps → i < length ps.
Proof.
  induction ps as [|p ps IH] using rev_ind; [by intros ?%elem_of_nil|].
  rewrite terminal_positions_snoc, length_app, elem_of_app. cbn.
  intros [Hi|Hi]; [apply IH in Hi; lia|]. destruct (is_terminal p); [|by apply elem_of_nil in Hi].
  apply list_elem_of_singleton in Hi. lia.
Qed.

Lemma validate_terminal_positions_Ok ps :
  validate_terminal_positions ps = Ok tt ↔ terminal_ok ps.
Proof.
  unfold validate_terminal_positions, terminal_ok, MAX_TERMINAL_PERSONA_REVOCATION_SEQUENCE,
    MAX_CONTINUITY_TRANSITIONS.
  rewrite !seq_Ok, !reject_if_Ok, !N.ltb_ge.
  destruct ps as [|p ps _] using rev_ind.
  { split; [|done]. intros _. exists []. split_and!; [constructor|done|by left]. }
  rewrite terminal_positions_snoc, !len_app. change (len [p]) with 1%N.
  destruct (terminal_positions ps) as [|i js] eqn:Hps.
  - apply terminal_positions_nil in Hps as Hf. destruct (is_terminal p) eqn:Hp; cbn [app list.head].
    + rewrite bool_decide_eq_false_2 by done. split.
      * intros (_ & _ & Hb). exists ps. destruct p; try done. split_and!; [done|lia|eauto].
      * intros (qs & Hq & Hb & [<-|[z Hz]]).
        { rewrite Forall_app, Forall_cons_iff in Hq. destruct Hq as (_ & ? & _). congruence. }
        apply app_inj_tail in Hz as [-> _]. split_and!; [done| |lia].
        apply negb_false_iff, N.eqb_eq. unfold len. lia.
    + rewrite bool_decide_eq_true_2 by done. split.
      * intros (_ & _ & Hb). exists (ps ++ [p]). rewrite Forall_app, len_app.
        change (len [p]) with 1%N. split_and!; [done|by repeat constructor|lia|by left].
      * intros (qs & Hq & Hb & [<-|[z Hz]]).
        { rewrite len_app in Hb. change (len [p]) with 1%N in Hb. done. }
        apply app_inj_tail in Hz as [-> ->]. done.
  - assert (i < length ps) as Hi by (apply terminal_positions_bound; rewrite Hps; left).
    split.
    + cbn [app list.head]. intros (_ & Hh & _). apply negb_false_iff, N.eqb_eq in Hh.
      unfold len in Hh. lia.
    + intros (qs & Hq & _ & Heq). exfalso. assert (Forall (λ p, is_terminal p = false) ps) as Hf.
      { destruct Heq as [<-|[z Hz]]; [by apply Forall_app in Hq as [? _]|].
        by apply app_inj_tail in Hz as [-> _]. }
      apply terminal_positions_nil in Hf. congruence.
Qed.

Lemma entry_verified_terminal root policies latest p v :
  entry_verified root policies latest p v → is_terminal p = is_terminal_entry v.
Proof. by destruct p, v. Qed.

(** ** Checkpoints and keys of the policies *)

(** The transition a policy was checkpointed at is in the chain, with the
    digest the policy names, and the policy is not older. *)
Definition checkpoint_matches (vs : list VerifiedPersonaContinuityTransition)
    (policy : VerifiedRecoveryPolicy) : Prop :=
  let cp := ps_continuity_checkpoint (vp_statement policy) in
  rc_transition_sequence cp = 0%N ∨
  ∃ v, vs !! N.to_nat (rc_transition_sequence cp - 1) = Some v ∧
    rc_transition_sha256 cp = Some (en_statement_sha256 (entry_of v)) ∧
    (en_issued_at (entry_of v) <= ps_issued_at (vp_statement policy))%Z.

Lemma check_policy_checkpoint_Ok vs count policy :
  check_policy_checkpoint (en_statement_sha256 ∘ entry_of <$> vs) (en_issued_at ∘ entry_of <$> vs)
    count policy = Ok tt ↔ checkpoint_matches vs policy.
Proof.
  unfold check_policy_checkpoint, checkpoint_matches. cbn zeta.
  destruct (N.eqb_spec (rc_transition_sequence (ps_continuity_checkpoint (vp_statement policy))) 0);
    [naive_solver|]. rewrite !list_lookup_fmap.
  destruct (vs !! _) as [v|]; cbn [fmap option_fmap option_map ok_or].
  - rewrite bind_Ok_l. cbn [expect]. rewrite seq_Ok, bind_Ok_l, !reject_if_Ok, negb_false_iff,
      bool_decide_eq_true, Z.ltb_ge. cbn. naive_solver.
  - split; [done|naive_solver].
Qed.

Definition keys_disjoint (root : VerifiedPersonaRoot) (vs : list VerifiedPersonaContinuityTransition)
    (policy : VerifiedRecoveryPolicy) : Prop :=
  ∀ f, f ∈ ps_recovery_key_fingerprints (vp_statement policy) →
    f ≠ rs_initial_key_fingerprint (vpr_statement root) ∧
    ∀ v, v ∈ vs → en_next_key (entry_of v) ≠ Some f.

Lemma check_policy_keys_Ok root vs policy :
  check_policy_keys (mx_online_key_fingerprints (mixed_state root vs)) policy = Ok tt ↔
  keys_disjoint root vs policy.
Proof.
  destruct (mixed_state_fields root vs) as (_ & _ & _ & _ & _ & _ & Ho). cbn zeta in Ho.
  unfold check_policy_keys, keys_disjoint. rewrite reject_if_Ok.
  rewrite <- not_true_iff_false, existsb_exists. setoid_rewrite bset_contains_iff.
  setoid_rewrite Ho. setoid_rewrite <- list_elem_of_In. split.
  - intros Hn f Hf. split; [intros ->; eauto 10|]. intros v Hv Hk. eauto 10.
  - intros Hd (f & Hf & Hor). destruct (Hd f Hf) as [Hne Hk].
    destruct Hor as [|(v & Hv & Hn)]; [done|by eapply Hk].
Qed.

(** ** The specification of a mixed chain *)

Context {json_root : Serde PersonaRootStatement} {json_policy : Serde RecoveryPolicyStatement}.

Record mixed_accepted (rp : PersonaRootProof) (ps : list PersonaContinuityTransitionProof)
    (pols : list RecoveryPolicyProof) (d1 d2 : string) (t : Z) (root : VerifiedPersonaRoot)
    (policies : list VerifiedRecoveryPolicy) (latest : VerifiedRecoveryPolicy)
    (vs : list VerifiedPersonaContinuityTransition) (h : ChainHead) : Prop := {
  ma_terminal : terminal_ok ps;
  ma_time : (0 <= t <= MAX_JCS_SAFE_INTEGER)%Z;
  ma_policies : verified_recovery_policy_sequence rp pols d1 d2 =
    Ok {| vps_root := root; vps_policies := policies |};
  ma_latest : list.last policies = Some latest;
  ma_entries : entries_verified root policies latest ps vs;
  ma_linked : mixed_linked root vs h;
  ma_checkpoints : Forall (checkpoint_matches vs) policies;
  ma_keys : Forall (keys_disjoint root vs) policies;
}.

Lemma terminal_ok_len ps : terminal_ok ps → (len ps <= 4097)%N.
Proof.
  intros (qs & _ & Hb & [->|[z ->]]); unfold MAX_CONTINUITY_TRANSITIONS in Hb; [lia|].
  rewrite len_app. change (len [ProofTerminalRevocation z]) with 1%N. lia.
Qed.

(** What a verified mixed chain holds: the specification's parts and the
    report computed from them. *)
Definition chain_of (root : VerifiedPersonaRoot) (policies : list VerifiedRecoveryPolicy)
    (latest : VerifiedRecoveryPolicy) (vs : list VerifiedPersonaContinuityTransition) (t : Z) :
    VerifiedRecoveryAwareContinuityChain :=
  {| mc_root := root; mc_policies := policies; mc_transitions := vs;
     mc_report := mixed_report root latest (mixed_state root vs) (len vs) t |}.

Lemma mixed_verified_iff rp ps pols d1 d2 t chain :
  verify_persona_continuity_chain_with_recovery_with_verified_sequence rp ps pols d1 d2 t = Ok chain ↔
  ∃ root policies latest vs h, mixed_accepted rp ps pols d1 d2 t root policies latest vs h ∧
    chain = chain_of root policies latest vs t.
Proof.
  unfold verify_persona_continuity_chain_with_recovery_with_verified_sequence. split.
  - rewrite !seq_Ok. intros (Ht & Hjcs & H). unbind H as [root policies] Hseq. unbind H as latest Hl.
    unbind H as st Hfold. rewrite !seq_Ok in H. destruct H as (Hcp & Hk & H). unbind H as c Hc.
    injection H as <-. cbn [vps_root vps_policies] in *. oks Hl. oks Hc. subst.
    apply mixed_fold_sound in Hfold as (vs & Hvs & -> & Hlk).
    destruct (mixed_state_fields root vs) as (_ & Hv & Hd & Hi & _). cbn zeta in *.
    rewrite Hd, Hi in Hcp. rewrite each_result_Ok in Hcp, Hk.
    exists root, policies, latest, vs, (mixed_head (mixed_state root vs)). split.
    + split; [by apply validate_terminal_positions_Ok|by apply validate_jcs_time_Ok in Hjcs|done..| |].
      * eapply list.Forall_impl; [exact Hcp|]. intros q. apply check_policy_checkpoint_Ok.
      * eapply list.Forall_impl; [exact Hk|]. intros q. apply check_policy_keys_Ok.
    + unfold chain_of. by rewrite Hv, (Forall2_len _ _ _ Hvs).
  - intros (root & policies & latest & vs & h & [Ht Hjcs Hseq Hl Hvs Hlk Hcp Hk] & ->).
    pose proof (terminal_ok_len _ Ht) as Hlen.
    apply validate_terminal_positions_Ok in Ht. rewrite Ht, bind_Ok_l.
    apply (validate_jcs_time_Ok "continuity check time") in Hjcs. rewrite Hjcs, bind_Ok_l, Hseq, bind_Ok_l.
    cbn [vps_root vps_policies]. rewrite Hl. cbn [expect]. rewrite bind_Ok_l.
    rewrite (mixed_fold_complete _ _ _ _ vs h), bind_Ok_l by (done || (unfold u32_max; lia)).
    destruct (mixed_state_fields root vs) as (_ & Hv & Hd & Hi & _). cbn zeta in *.
    rewrite Hd, Hi, (proj2 (each_result_Ok (check_policy_checkpoint _ _ _) _)), bind_Ok_l.
    2:{ eapply list.Forall_impl; [exact Hcp|]. intros q Hq. by apply check_policy_checkpoint_Ok. }
    rewrite (proj2 (each_result_Ok _ _)), bind_Ok_l.
    2:{ eapply list.Forall_impl; [exact Hk|]. intros q Hq. by apply check_policy_keys_Ok. }
    rewrite (proj2 (expect_Ok _ _ (len ps))), bind_Ok_l.
    2:{ apply u32_try_from_Some. unfold u32_max. lia. }
    unfold chain_of. by rewrite Hv, (Forall2_len _ _ _ Hvs).
Qed.

(** C1: verifying a recovery-aware chain is exactly deciding the
    specification: it succeeds if and only if there are a pinned root, a
    verified policy history ending at the pinned policy, and verified entries
    forming a linked history with at most one terminal revocation, at the end,
    such that every policy checkpoint names the transition at its position and
    no recovery key is ever an online key. *)
Theorem mixed_chain_refines_specification rp ps pols d1 d2 t root policies vs :
  (∃ chain, verify_persona_continuity_chain_with_recovery_with_verified_sequence rp ps pols d1 d2 t =
      Ok chain ∧ mc_root chain = root ∧ mc_policies chain = policies ∧ mc_transitions chain = vs) ↔
  ∃ latest h, mixed_accepted rp ps pols d1 d2 t root policies latest vs h.
Proof.
  setoid_rewrite mixed_verified_iff. split.
  - intros (chain & (r & pp & latest & ws & h & Ha & ->) & <- & <- & <-). eauto.
  - intros (latest & h & Ha). exists (chain_of root policies latest vs t). split_and!; eauto 10.
Qed.

(** ** What authorised a recovery or a revocation *)

Lemma decode_recovery_Ok p payload st :
  decode_recovery_transition_proof p = Ok (payload, st) →
  json_from_slice payload = inr st ∧ canonical_recovery_transition_statement_bytes st = Ok payload.
Proof.
  unfold decode_recovery_transition_proof. rewrite seq_Ok. intros [_ H]. unbind H as pl Hp.
  unbind H as s Hs. unbind H as c Hc. rewrite seq_Ok in H. destruct H as [Hm [= -> ->]].
  rewrite map_err_Ok, parse_bounded_json_Ok in Hs. oks Hm. subst. tauto.
Qed.

Lemma decode_terminal_Ok p payload st :
  decode_terminal_persona_revocation_proof p = Ok (payload, st) →
  json_from_slice payload = inr st ∧
  canonical_terminal_persona_revocation_statement_bytes st = Ok payload.
Proof.
  unfold decode_terminal_persona_revocation_proof. rewrite seq_Ok. intros [_ H]. unbind H as pl Hp.
  unbind H as s Hs. unbind H as c Hc. rewrite seq_Ok in H. destruct H as [Hm [= -> ->]].
  rewrite map_err_Ok, parse_bounded_json_Ok in Hs. oks Hm. subst. tauto.
Qed.

(** The policy permits the use of one of its capabilities at a time. *)
Record permits (policy : VerifiedRecoveryPolicy) (capability : RecoveryPolicyCapability)
    (issued_at : Z) (digest : string) (version : N) : Prop := {
  pm_digest : digest = vp_policy_statement_sha256 policy;
  pm_version : version = ps_policy_version (vp_statement policy);
  pm_capability : authorizes (vp_statement policy) capability = true;
  pm_window : (ps_issued_at (vp_statement policy) <= issued_at < ps_expires_at (vp_statement policy))%Z;
}.

Lemma policy_time_status_active st t :
  policy_time_status st t = Active ↔ (ps_issued_at st <= t < ps_expires_at st)%Z.
Proof.
  unfold policy_time_status.
  destruct (Z.ltb_spec t (ps_issued_at st)), (Z.leb_spec (ps_expires_at st) t); naive_solver lia.
Qed.

Lemma recovery_binding_permits policy st :
  validate_recovery_transition_policy_binding policy st = Ok tt →
  permits policy KeyRecovery (xs_issued_at st) (xs_recovery_policy_sha256 st)
    (xs_recovery_policy_version st).
Proof.
  unfold validate_recovery_transition_policy_binding. rewrite !seq_Ok.
  intros (Hb & Ha & Hw & _). oks Hb. oks Ha. oks Hw. split; [done..|].
  by apply policy_time_status_active.
Qed.

Lemma terminal_binding_permits policy st :
  validate_terminal_persona_revocation_policy_binding policy st = Ok tt →
  permits policy TerminalRevocation (zs_issued_at st) (zs_recovery_policy_sha256 st)
    (zs_recovery_policy_version st).
Proof.
  unfold validate_terminal_persona_revocation_policy_binding. rewrite !seq_Ok.
  intros (Hb & Ha & Hw & _). oks Hb. oks Ha. oks Hw. split; [done..|].
  by apply policy_time_status_active.
Qed.

(** What a verified recovery transition went through. *)
Record recovery_authorised (root : VerifiedPersonaRoot) (policy : VerifiedRecoveryPolicy)
    (p : RecoveryTransitionProof) (v : VerifiedRecoveryTransition) (payload : bytes) : Prop := {
  ra_decoded : decode_recovery_transition_proof p = Ok (payload, vx_statement v);
  ra_digest : vx_transition_statement_sha256 v = sha256_hex payload;
  ra_binding : validate_recovery_transition_binding root policy (vx_statement v) = Ok tt;
  ra_quorum : quorum payload RECOVERY_TRANSITION_AUTHORITY_NAMESPACE (xp_recovery_signatures p)
    (ps_recovery_key_fingerprints (vp_statement policy)) (ps_threshold (vp_statement policy))
    (vx_recovery_signer_fingerprints v);
  ra_next_key : public_key_fingerprint (vx_next_public_key v) = Ok (xs_next_key_fingerprint (vx_statement v));
  ra_custody : sshsig_verify payload (sg_value (xp_next_signature p)) (vx_next_public_key v)
    RECOVERY_TRANSITION_NEXT_NAMESPACE = Ok tt;
}.

Lemma verify_recovery_sound root policy p v :
  verify_recovery_transition_proof root policy p = Ok v →
  ∃ payload, recovery_authorised root policy p v payload.
Proof.
  unfold verify_recovery_transition_proof, verify_recovery_transition_proof_with_receipt. intros H.
  unbind H as r Hr. injection H as <-. unbind Hr as pre Hpre. rewrite seq_Ok in Hr.
  destruct Hr as [Hb Hr]. unbind Hr as fps Hq. rewrite seq_Ok in Hr. destruct Hr as [Hn [= <-]].
  unfold preflight_recovery_transition_proof in Hpre. unbind Hpre as [pl st] Hd.
  unbind Hpre as un _. unbind Hpre as key Hk. unbind Hpre as f Hf. rewrite seq_Ok in Hpre.
  destruct Hpre as [Hm [= <-]]. oks Hm. subst. exists pl.
  apply verify_authority_signatures_quorum in Hq as [Hq _]. by split.
Qed.

Record terminal_authorised (root : VerifiedPersonaRoot) (policy : VerifiedRecoveryPolicy)
    (p : TerminalPersonaRevocationProof) (v : VerifiedTerminalPersonaRevocation) (payload : bytes) :
    Prop := {
  ta_decoded : decode_terminal_persona_revocation_proof p = Ok (payload, vz_statement v);
  ta_digest : vz_revocation_statement_sha256 v = sha256_hex payload;
  ta_binding : validate_terminal_persona_revocation_binding root policy (vz_statement v) = Ok tt;
  ta_quorum : quorum payload TERMINAL_PERSONA_REVOCATION_AUTHORITY_NAMESPACE
    (zp_recovery_signatures p) (ps_recovery_key_fingerprints (vp_statement policy))
    (ps_threshold (vp_statement policy)) (vz_recovery_signer_fingerprints v);
}.

Lemma verify_terminal_sound root policy p v :
  verify_terminal_persona_revocation_proof root policy p = Ok v →
  ∃ payload, terminal_authorised root policy p v payload.
Proof.
  unfold verify_terminal_persona_revocation_proof,
    verify_terminal_persona_revocation_proof_with_receipt. intros H.
  unbind H as r Hr. injection H as <-. unbind Hr as [pl st] Hpre. rewrite seq_Ok in Hr.
  destruct Hr as [Hb Hr]. unbind Hr as fps Hq. injection Hr as <-.
  unfold preflight_terminal_persona_revocation_proof in Hpre. unbind Hpre as [pl' st'] Hd.
  unbind Hpre as un _. injection Hpre as -> ->. exists pl.
  apply verify_authority_signatures_quorum in Hq as [Hq _]. by split.
Qed.

Lemma entries_lookup root policies latest ps vs i v :
  entries_verified root policies latest ps vs → vs !! i = Some v →
  ∃ p, ps !! i = Some p ∧ entry_verified root policies latest p v.
Proof. intros H Hi. by eapply Forall2_lookup_r in H. Qed.

Lemma mixed_linked_lookup root vs h i v :
  mixed_linked root vs h → vs !! i = Some v →
  ∃ h', entry_continues root h' (entry_of v) ∧ mixed_linked root (take i vs) h'.
Proof.
  intros Hl. revert i v. induction Hl as [|vs h w Hl IH Hc]; intros i v Hi; [done|].
  apply lookup_snoc_Some in Hi as [[Hlt Hi]|[-> <-]].
  - destruct (IH i v Hi) as (h' & ? & ?). exists h'. by rewrite take_app_le by lia.
  - exists h. by rewrite take_app_length.
Qed.

Lemma mixed_linked_lookup_sequence root vs h i v :
  mixed_linked root vs h → vs !! i = Some v → en_sequence (entry_of v) = N.of_nat (S i).
Proof.
  intros Hl Hi. destruct (mixed_linked_lookup _ _ _ _ _ Hl Hi) as (h' & Hc & Hl').
  rewrite (ec_sequence _ _ _ Hc), (mixed_linked_sequence _ _ _ Hl'). unfold len.
  apply lookup_lt_Some in Hi. rewrite length_take. lia.
Qed.

(** C15: every recovery entry of a verified chain was authorised by the policy
    in force at its position: a policy of the verified policy history whose
    checkpoint lies before the entry and whose successor's checkpoint, if
    there is one, does not; that policy permits key recovery, was valid when
    the entry was issued, and at least its threshold of distinct authorities
    signed this entry; and the new online key proved custody. *)
Theorem recovery_entry_authorised rp ps pols d1 d2 t chain i v :
  verify_persona_continuity_chain_with_recovery_with_verified_sequence rp ps pols d1 d2 t = Ok chain →
  mc_transitions chain !! i = Some (VerifiedRecovery v) →
  ∃ p j policy payload, ps !! i = Some (ProofRecovery p) ∧ mc_policies chain !! j = Some policy ∧
    permits policy KeyRecovery (xs_issued_at (vx_statement v))
      (xs_recovery_policy_sha256 (vx_statement v)) (xs_recovery_policy_version (vx_statement v)) ∧
    recovery_authorised (mc_root chain) policy p v payload ∧
    (rc_transition_sequence (ps_continuity_checkpoint (vp_statement policy)) < N.of_nat (S i))%N ∧
    (∀ successor, mc_policies chain !! (j + 1) = Some successor →
      (N.of_nat (S i) <= rc_transition_sequence (ps_continuity_checkpoint (vp_statement successor)))%N).
Proof.
  intros (root & policies & latest & vs & h & [_ _ _ _ Hvs Hl _ _] & ->)%mixed_verified_iff Hi.
  cbn [mc_transitions mc_policies mc_root chain_of] in *.
  pose proof (mixed_linked_lookup_sequence _ _ _ _ _ Hl Hi) as Hseq. cbn in Hseq.
  destruct (entries_lookup _ _ _ _ _ _ _ Hvs Hi) as ([p|p|p] & Hp & Hv); [done| |done].
  destruct Hv as (payload & st & policy & Hd & (j & Hf & _ & Hc & Hs) & Hver).
  destruct (verify_recovery_sound _ _ _ _ Hver) as [pl Hra].
  pose proof (ra_decoded _ _ _ _ _ Hra) as Hd'. rewrite Hd in Hd'. injection Hd' as -> ->.
  apply list_find_Some in Hf as (Hj & _ & _). exists p, j, policy, pl. rewrite <- Hseq.
  split_and!; [done|done| |done|done|done].
  pose proof (ra_binding _ _ _ _ _ Hra) as Hb. unfold validate_recovery_transition_binding in Hb.
  rewrite !seq_Ok in Hb. destruct Hb as (_ & _ & Hb & _). by apply recovery_binding_permits.
Qed.

(** ** Terminal revocation *)

(** The shape of an accepted history: key entries, then possibly one
    revocation. *)
Lemma accepted_shape rp ps pols d1 d2 t root policies latest vs h :
  mixed_accepted rp ps pols d1 d2 t root policies latest vs h →
  ∃ ws, Forall (λ v, is_terminal_entry v = false) ws ∧ (len ws <= MAX_CONTINUITY_TRANSITIONS)%N ∧
    (vs = ws ∨ ∃ z, vs = ws ++ [VerifiedTerminalRevocation z]).
Proof.
  intros [Ht _ _ _ Hvs _ _ _]. destruct Ht as (qs & Hq & Hb & Hps).
  assert (∀ qs ws, entries_verified root policies latest qs ws →
    Forall (λ p, is_terminal p = false) qs → Forall (λ v, is_terminal_entry v = false) ws) as Hnt.
  { clear. intros qs ws. induction 1 as [|p v qs ws Hv _ IH]; [constructor|].
    rewrite !Forall_cons_iff. intros [Hp Hqs]. split; [|by apply IH].
    by rewrite <- (entry_verified_terminal _ _ _ _ _ Hv). }
  destruct Hps as [->|[z ->]].
  - exists vs. rewrite <- (Forall2_len _ _ _ Hvs). eauto 10.
  - apply Forall2_app_inv_l in Hvs as (ws & zs & Hws & Hz & ->). inversion Hz as [|? x ? ? Hx Hnil]; subst.
    inversion Hnil; subst. destruct x as [x|x|x]; cbn in Hx; try done.
    exists ws. rewrite <- (Forall2_len _ _ _ Hws). split_and!; [by eapply Hnt|done|eauto].
Qed.

Lemma no_terminal_fields root ws :
  Forall (λ v, is_terminal_entry v = false) ws →
  let st := mixed_state root ws in
  mx_terminal_revocation_count st = 0%N ∧ mx_terminal_revocation_statement_sha256 st = None ∧
  mx_terminal_revoked_key_fingerprint st = None ∧ mx_terminal_revocation_reason st = None.
Proof.
  induction ws as [|v ws IH] using rev_ind; [done|]. rewrite Forall_app, Forall_cons_iff.
  intros (Hws & Hv & _). rewrite mixed_state_snoc. destruct v; try done; by apply IH.
Qed.

(** A verified chain reports a terminal revocation exactly when it ends
    with one; then there is no current key, the report names the revoked key,
    the digest and the reason of that entry, and the entry was authorised by a
    quorum of the latest policy, which permits terminal revocation; otherwise
    the tip is the current key and no terminal field is set. The three
    counters always add up to the number of entries. *)
Theorem terminal_revocation_report rp ps pols d1 d2 t chain :
  verify_persona_continuity_chain_with_recovery_with_verified_sequence rp ps pols d1 d2 t = Ok chain →
  let r := mc_report chain in
  (mr_routine_transition_count r + mr_recovery_transition_count r + mr_terminal_revocation_count r =
     mr_transition_count r)%N ∧ mr_transition_count r = len ps ∧
  match list.last (mc_transitions chain) with
  | Some (VerifiedTerminalRevocation z) =>
      mr_terminally_revoked r = true ∧ mr_current_key_fingerprint r = None ∧
      mr_terminal_revocation_count r = 1%N ∧
      mr_terminal_revocation_statement_sha256 r = Some (vz_revocation_statement_sha256 z) ∧
      mr_terminal_revoked_key_fingerprint r = Some (zs_previous_key_fingerprint (vz_statement z)) ∧
      mr_terminal_revocation_reason r = Some (zs_reason (vz_statement z)) ∧
      ∃ p payload latest, list.last (mc_policies chain) = Some latest ∧
        terminal_authorised (mc_root chain) latest p z payload ∧
        permits latest TerminalRevocation (zs_issued_at (vz_statement z))
          (zs_recovery_policy_sha256 (vz_statement z)) (zs_recovery_policy_version (vz_statement z))
  | _ =>
      mr_terminally_revoked r = false ∧
      mr_current_key_fingerprint r = Some (mr_chain_tip_key_fingerprint r) ∧
      mr_terminal_revocation_count r = 0%N ∧ mr_terminal_revocation_statement_sha256 r = None ∧
      mr_terminal_revoked_key_fingerprint r = None ∧ mr_terminal_revocation_reason r = None
  end.
Proof.
  intros (root & policies & latest & vs & h & Ha & ->)%mixed_verified_iff. cbn zeta.
  destruct (accepted_shape _ _ _ _ _ _ _ _ _ _ _ Ha) as (ws & Hws & _ & Hvs).
  pose proof (no_terminal_fields root ws Hws) as (Hz & Hzd & Hzk & Hzr).
  destruct (mixed_state_fields root vs) as (_ & _ & _ & _ & Hc & _). cbn zeta in *.
  pose proof (Forall2_len _ _ _ (ma_entries _ _ _ _ _ _ _ _ _ _ _ Ha)) as Hlen.
  split_and!; [done|done|]. cbn [mc_transitions mc_policies mc_root mc_report chain_of].
  destruct Hvs as [->|[z ->]].
  - assert (∀ v, list.last ws = Some v → is_terminal_entry v = false) as Hlast.
    { intros v Hv. rewrite list.Forall_forall in Hws. by apply Hws, last_Some_elem_of. }
    destruct (list.last ws) as [[v|v|v]|]; cbn; rewrite ?Hz, ?Hzd, ?Hzk, ?Hzr; try done.
    discriminate (Hlast _ eq_refl).
  - rewrite list.last_snoc. cbn [mixed_report mr_terminally_revoked mr_current_key_fingerprint
      mr_terminal_revocation_count mr_terminal_revocation_statement_sha256
      mr_terminal_revoked_key_fingerprint mr_terminal_revocation_reason]. rewrite mixed_state_snoc.
    destruct Ha as [_ _ _ Hlatest Hv Hl _ _]. apply mixed_linked_snoc_inv in Hl as (h' & Hl & Hc' & _).
    pose proof (mixed_linked_head _ _ _ Hl) as ->. pose proof (ec_key _ _ _ Hc') as Hk. cbn in Hk.
    unfold push_verified, push_entry. cbn. rewrite Hz, Hk. split_and!; try done.
    apply Forall2_app_inv_r in Hv as (qs & q & _ & Hq & _). inversion Hq as [|p ? ? ? Hp _]; subst.
    destruct p as [p|p|p]; try done. destruct Hp as (pl & st & _ & _ & _ & _ & Hver).
    destruct (verify_terminal_sound _ _ _ _ Hver) as [payload Hta]. exists p, payload, latest.
    split_and!; [done..|]. pose proof (ta_binding _ _ _ _ _ Hta) as Hb.
    unfold validate_terminal_persona_revocation_binding in Hb. rewrite !seq_Ok in Hb.
    destruct Hb as (_ & _ & Hb & _). by apply terminal_binding_permits.
Qed.

Lemma revoked_iff_terminal rp ps pols d1 d2 t root policies latest vs h :
  mixed_accepted rp ps pols d1 d2 t root policies latest vs h →
  not_extensible (chain_of root policies latest vs t) = true ↔
  ∃ ws z, vs = ws ++ [VerifiedTerminalRevocation z].
Proof.
  intros Ha. destruct (accepted_shape _ _ _ _ _ _ _ _ _ _ _ Ha) as (ws & Hws & _ & Hvs).
  pose proof (no_terminal_fields root ws Hws) as (Hz & _). unfold not_extensible.
  cbn [mc_report chain_of mixed_report mr_terminally_revoked mr_current_key_fingerprint].
  destruct Hvs as [->|[z ->]].
  - rewrite Hz. cbn. split; [done|]. intros (xs & z & ->). rewrite Forall_app, Forall_cons_iff in Hws.
    by destruct Hws as (_ & ? & _).
  - rewrite mixed_state_snoc. unfold push_verified, push_entry. cbn. rewrite Hz. cbn. naive_solver.
Qed.

(** C14: terminal revocation is final: a chain that ends with one cannot be
    extended by any entry, with any policies, at any time, and each of the
    three extension checks refuses every receipt. *)
Theorem terminal_revocation_is_final rp ps pols d1 d2 t chain :
  verify_persona_continuity_chain_with_recovery_with_verified_sequence rp ps pols d1 d2 t = Ok chain →
  mr_terminally_revoked (mc_report chain) = true →
  (∀ p rest rp' pols' d1' d2' t' chain',
     verify_persona_continuity_chain_with_recovery_with_verified_sequence rp' (ps ++ p :: rest) pols'
       d1' d2' t' ≠ Ok chain') ∧
  (∀ receipt, validate_verified_recovery_aware_continuity_chain_extension chain receipt =
     Err terminally_revoked_error) ∧
  (∀ receipt, validate_verified_recovery_aware_continuity_chain_routine_extension chain receipt =
     Err terminally_revoked_error) ∧
  (∀ receipt, validate_verified_recovery_aware_continuity_chain_terminal_revocation_extension chain
     receipt = Err terminally_revoked_error).
Proof.
  intros (root & policies & latest & vs & h & Ha & ->)%mixed_verified_iff Hr.
  assert (not_extensible (chain_of root policies latest vs t) = true) as Hne.
  { unfold not_extensible. by rewrite Hr. }
  split_and!.
  - intros p rest rp' pols' d1' d2' t' chain' (r & q & l & ws & h' & Hb & _)%mixed_verified_iff.
    apply (revoked_iff_terminal _ _ _ _ _ _ _ _ _ _ _ Ha) in Hne as (xs & z & ->).
    pose proof (ma_entries _ _ _ _ _ _ _ _ _ _ _ Ha) as Hv.
    apply Forall2_app_inv_r in Hv as (qs & zq & _ & Hz & ->). inversion Hz as [|y ? ? ? Hy Hnil]; subst.
    inversion Hnil; subst. destruct y as [y|y|y]; try done.
    destruct (ma_terminal _ _ _ _ _ _ _ _ _ _ _ Hb) as (us & Hus & _ & Heq).
    assert (∀ k, us = (qs ++ [ProofTerminalRevocation y]) ++ k → False) as Hbad.
    { intros k ->. rewrite !Forall_app, Forall_cons_iff in Hus. naive_solver. }
    destruct Heq as [Heq|[z' Heq]]; [by eapply Hbad|].
    destruct (exists_last (l:=p :: rest)) as (rest' & w & Hrest); [done|].
    rewrite Hrest, app_assoc in Heq. apply app_inj_tail in Heq as [Heq _]. by eapply Hbad.
  - intros receipt. unfold validate_verified_recovery_aware_continuity_chain_extension,
      validate_recovery_aware_transition_at_head. by rewrite Hne.
  - intros receipt. unfold validate_verified_recovery_aware_continuity_chain_routine_extension,
      validate_recovery_aware_transition_at_head. by rewrite Hne.
  - intros receipt.
    unfold validate_verified_recovery_aware_continuity_chain_terminal_revocation_extension.
    by rewrite Hne.
Qed.

(** ** Online keys and recovery keys *)

Lemma tip_is_online root vs h :
  mixed_linked root vs h →
  hd_key_fingerprint h = rs_initial_key_fingerprint (vpr_statement root) ∨
  ∃ v, v ∈ vs ∧ en_next_key (entry_of v) = Some (hd_key_fingerprint h).
Proof.
  induction 1 as [|vs h v Hl IH Hc]; [by left|]. cbn.
  destruct (en_next_key (entry_of v)) as [k|] eqn:Hk; cbn.
  - right. exists v. split; [set_solver|done].
  - destruct IH as [IH|(w & Hw & Hn)]; [by left|right]. exists w. split; [set_solver|done].
Qed.

(** C25: in a verified chain no key is ever both an online signing key and a
    recovery authority: no policy of the history, old or current, lists the
    root's first key, any key a transition installed, or the tip key. *)
Theorem online_and_recovery_keys_disjoint rp ps pols d1 d2 t chain policy f :
  verify_persona_continuity_chain_with_recovery_with_verified_sequence rp ps pols d1 d2 t = Ok chain →
  policy ∈ mc_policies chain → f ∈ ps_recovery_key_fingerprints (vp_statement policy) →
  f ≠ rs_initial_key_fingerprint (vpr_statement (mc_root chain)) ∧
  (∀ v, v ∈ mc_transitions chain → en_next_key (entry_of v) ≠ Some f) ∧
  f ≠ mr_chain_tip_key_fingerprint (mc_report chain).
Proof.
  intros (root & policies & latest & vs & h & Ha & ->)%mixed_verified_iff Hp Hf. cbn in *.
  pose proof (ma_keys _ _ _ _ _ _ _ _ _ _ _ Ha) as Hk. rewrite list.Forall_forall in Hk.
  destruct (Hk policy Hp f Hf) as [Hi Hn]. split_and!; [done..|].
  pose proof (ma_linked _ _ _ _ _ _ _ _ _ _ _ Ha) as Hl.
  pose proof (tip_is_online _ _ _ Hl) as Ht. rewrite (mixed_linked_head _ _ _ Hl) in Ht. cbn in Ht.
  destruct Ht as [->|(v & Hv & Hkey)]; [done|]. intros ->. by eapply Hn.
Qed.

(** ** Extension is verification of the longer chain *)

(** What one more entry must satisfy at the end of an accepted chain. *)
Record extends (root : VerifiedPersonaRoot) (policies : list VerifiedRecoveryPolicy)
    (latest : VerifiedRecoveryPolicy) (ps : list PersonaContinuityTransitionProof) (h : ChainHead)
    (p : PersonaContinuityTransitionProof) (v : VerifiedPersonaContinuityTransition) : Prop := {
  ex_open : Forall (λ q, is_terminal q = false) ps;
  ex_room : (len ps + (if is_terminal p then 0 else 1) <= MAX_CONTINUITY_TRANSITIONS)%N;
  ex_verified : entry_verified root policies latest p v;
  ex_continues : entry_continues root h (entry_of v);
  ex_keys policy k : policy ∈ policies → en_next_key (entry_of v) = Some k →
    k ∉ ps_recovery_key_fingerprints (vp_statement policy);
}.

Lemma terminal_ok_snoc ps p :
  terminal_ok ps → terminal_ok (ps ++ [p]) ↔
  Forall (λ q, is_terminal q = false) ps ∧
  (len ps + (if is_terminal p then 0 else 1) <= MAX_CONTINUITY_TRANSITIONS)%N.
Proof.
  intros _. unfold terminal_ok. split.
  - intros (qs & Hq & Hb & [<-|[z Heq]]).
    + rewrite Forall_app, Forall_cons_iff in Hq. destruct Hq as (Hq & Hp & _). rewrite Hp.
      rewrite len_app in Hb. by split.
    + apply app_inj_tail in Heq as [-> ->]. cbn. split; [done|lia].
  - intros [Hq Hb]. destruct (is_terminal p) eqn:Hp.
    + exists ps. destruct p; try done. split_and!; [done|lia|eauto].
    + exists (ps ++ [p]). rewrite Forall_app, len_app. split_and!; [done|by repeat constructor|done|by left].
Qed.

Lemma keys_disjoint_snoc root vs v policy :
  keys_disjoint root vs policy → keys_disjoint root (vs ++ [v]) policy ↔
  ∀ k, en_next_key (entry_of v) = Some k → k ∉ ps_recovery_key_fingerprints (vp_statement policy).
Proof.
  intros H. split.
  - intros Hd k Hk Hin. destruct (Hd k Hin) as [_ Hn]. apply (Hn v); [set_solver|done].
  - intros Hk f Hf. destruct (H f Hf) as [Hi Hn]. split; [done|]. intros w.
    rewrite elem_of_app, list_elem_of_singleton. intros [Hw| ->]; [by apply Hn|].
    intros Hw. by eapply Hk.
Qed.

Lemma accepted_snoc rp ps pols d1 d2 t root policies latest vs h p v :
  mixed_accepted rp ps pols d1 d2 t root policies latest vs h →
  mixed_accepted rp (ps ++ [p]) pols d1 d2 t root policies latest (vs ++ [v])
    (entry_head h (entry_of v)) ↔ extends root policies latest ps h p v.
Proof.
  intros [Ht Htm Hseq Hlast Hvs Hl Hcp Hk]. split.
  - intros [Ht' _ _ _ Hvs' Hl' _ Hk']. apply terminal_ok_snoc in Ht' as [Ho Hr]; [|done].
    apply mixed_linked_snoc_inv in Hl' as (h' & Hl2 & Hc & _).
    rewrite (mixed_linked_head _ _ _ Hl2), <- (mixed_linked_head _ _ _ Hl) in Hc.
    apply Forall2_app_inv in Hvs' as [_ Hp]; [|by eapply Forall2_length].
    inversion_clear Hp as [|? ? ? ? Hp' _]. split; [done..|]. intros policy k Hpol Hn.
    rewrite list.Forall_forall in Hk, Hk'. by apply (keys_disjoint_snoc root vs v policy); auto.
  - intros [Ho Hr Hv Hc Hkeys]. split; [by apply terminal_ok_snoc|done..| | | |].
    + apply Forall2_app; [done|by repeat constructor].
    + by constructor.
    + eapply list.Forall_impl; [exact Hcp|]. intros q [Hz|(w & Hw & Hd)]; [by left|right].
      exists w. split; [|done]. rewrite lookup_app_l; [done|by eapply lookup_lt_Some].
    + rewrite list.Forall_forall in Hk |- *. intros q Hq. apply keys_disjoint_snoc; [by apply Hk|].
      intros k. by apply Hkeys.
Qed.

(** Verifying one entry more, given the chain so far. *)
Lemma batch_extends rp ps pols d1 d2 t root policies latest vs h p v :
  mixed_accepted rp ps pols d1 d2 t root policies latest vs h →
  (∃ chain', verify_persona_continuity_chain_with_recovery_with_verified_sequence rp (ps ++ [p]) pols
      d1 d2 t = Ok chain' ∧ mc_transitions chain' = vs ++ [v]) ↔
  extends root policies latest ps h p v.
Proof.
  intros Ha. rewrite <- accepted_snoc by done. split.
  - intros (c & (r & q & l & ws & h' & Hb & ->)%mixed_verified_iff & Heq). cbn in Heq. subst ws.
    pose proof (ma_policies _ _ _ _ _ _ _ _ _ _ _ Ha) as E1.
    pose proof (ma_policies _ _ _ _ _ _ _ _ _ _ _ Hb) as E2. rewrite E1 in E2. injection E2 as <- <-.
    pose proof (ma_latest _ _ _ _ _ _ _ _ _ _ _ Ha) as L1.
    pose proof (ma_latest _ _ _ _ _ _ _ _ _ _ _ Hb) as L2. rewrite L1 in L2. injection L2 as <-.
    pose proof (ma_linked _ _ _ _ _ _ _ _ _ _ _ Hb) as Hl'. pose proof Hl' as Hl2.
    apply mixed_linked_snoc_inv in Hl2 as (h0 & Hl0 & Hc & ->).
    pose proof (ma_linked _ _ _ _ _ _ _ _ _ _ _ Ha) as Hl.
    by rewrite (mixed_linked_head _ _ _ Hl), <- (mixed_linked_head _ _ _ Hl0).
  - intros Hb. exists (chain_of root policies latest (vs ++ [v]) t). split; [|done].
    apply mixed_verified_iff. eauto 10.
Qed.

Lemma accepted_policies_sorted rp ps pols d1 d2 t root policies latest vs h policy :
  mixed_accepted rp ps pols d1 d2 t root policies latest vs h → policy ∈ policies →
  policy_wf (vp_statement policy).
Proof.
  intros Ha Hin. pose proof (ma_policies _ _ _ _ _ _ _ _ _ _ _ Ha) as Hp.
  apply policy_chain_sound in Hp as (_ & _ & Hh & _). cbn in Hh.
  apply list_elem_of_lookup in Hin as [i Hi].
  destruct (policy_history_lookup _ _ _ _ Hh Hi) as (_ & pl & Hv). by destruct Hv.
Qed.

Lemma open_iff rp ps pols d1 d2 t root policies latest vs h :
  mixed_accepted rp ps pols d1 d2 t root policies latest vs h →
  not_extensible (chain_of root policies latest vs t) = false ↔
  Forall (λ q, is_terminal q = false) ps.
Proof.
  intros Ha. rewrite <- not_true_iff_false, (revoked_iff_terminal _ _ _ _ _ _ _ _ _ _ _ Ha).
  pose proof (ma_entries _ _ _ _ _ _ _ _ _ _ _ Ha) as Hv.
  destruct (ma_terminal _ _ _ _ _ _ _ _ _ _ _ Ha) as (qs & Hq & _ & [->|[z ->]]).
  - split; [done|]. intros _ (ws & z & ->). apply Forall2_app_inv_r in Hv as (us & k & _ & Hz & ->).
    inversion Hz as [|y ? ? ? Hy _]; subst. rewrite Forall_app, Forall_cons_iff in Hq.
    destruct Hq as (_ & Hyt & _). by destruct y.
  - split.
    + intros Hn. destruct Hn. apply Forall2_app_inv_l in Hv as (ws & k & _ & Hz & ->).
      inversion Hz as [|? y ? ? Hy Hnil]; subst. inversion Hnil; subst. destruct y; try done. eauto.
    + rewrite Forall_app, Forall_cons_iff. by intros (_ & ? & _).
Qed.

(** The head checks of the receipts are the conditions of one more entry that
    installs a key. *)
Lemma at_head_Ok rp ps pols d1 d2 t root policies latest vs h e next :
  mixed_accepted rp ps pols d1 d2 t root policies latest vs h → en_next_key e = Some next →
  validate_recovery_aware_transition_at_head (chain_of root policies latest vs t) (en_sequence e)
    (en_persona_anchor e) (en_persona e) (en_root_statement_sha256 e)
    (en_linked_previous_transition e) (en_previous_key e) next (en_issued_at e) = Ok tt ↔
  Forall (λ q, is_terminal q = false) ps ∧ (len ps + 1 <= MAX_CONTINUITY_TRANSITIONS)%N ∧
  entry_continues root h e ∧
  ∀ policy, policy ∈ policies → next ∉ ps_recovery_key_fingerprints (vp_statement policy).
Proof.
  intros Ha Hnext. rewrite <- (open_iff _ _ _ _ _ _ _ _ _ _ _ Ha).
  pose proof (Forall2_len _ _ _ (ma_entries _ _ _ _ _ _ _ _ _ _ _ Ha)) as Hlen.
  pose proof (mixed_linked_head _ _ _ (ma_linked _ _ _ _ _ _ _ _ _ _ _ Ha)) as ->.
  destruct (mixed_state_fields root vs) as (Hidx & _). cbn zeta in Hidx.
  unfold validate_recovery_aware_transition_at_head. rewrite !seq_Ok, !reject_if_Ok.
  destruct (not_extensible _) eqn:Hne; [split; [by intros [? _]|by intros [? _]]|].
  assert (mr_current_key_fingerprint (mc_report (chain_of root policies latest vs t)) =
    Some (mx_current_key_fingerprint (mixed_state root vs))) as Hcur.
  { apply orb_false_iff in Hne as [Hr _]. cbn in Hr |- *. by rewrite Hr. }
  rewrite Hcur. cbn [chain_of mc_transitions mc_report mc_root mc_policies mixed_report
    mr_transition_count mr_last_transition_sha256 mr_last_issued_at].
  rewrite N.leb_gt, <- Hlen. unfold MAX_CONTINUITY_TRANSITIONS.
  assert (∀ (x : Result unit), (len ps < 4096)%N →
    (n ← ok_or (checked_add_u32 (len ps) 1) (chain_mismatch "transition sequence overflow");
     reject_if (en_sequence e != n) (chain_mismatch ("transition sequence " +:+ pretty (en_sequence e) +:+
       " is out of order; expected " +:+ pretty n));; x) = Ok tt ↔
    en_sequence e = (len ps + 1)%N ∧ x = Ok tt) as Hseq.
  { intros x Hb. unfold checked_add_u32. rewrite (proj2 (N.leb_le _ _)) by (unfold u32_max; lia).
    cbn [ok_or]. rewrite bind_Ok_l, seq_Ok. by autorewrite with ok. }
  assert (∀ policy, policy ∈ policies →
    binary_search_is_ok (ps_recovery_key_fingerprints (vp_statement policy)) next = false ↔
    next ∉ ps_recovery_key_fingerprints (vp_statement policy)) as Hbs.
  { intros policy Hp. rewrite <- not_true_iff_false, binary_search_sorted; [done|].
    by eapply pw_sorted, accepted_policies_sorted. }
  split.
  - intros (_ & Hb & H). rewrite Hseq in H by done. destruct H as [Hs H]. rewrite !seq_Ok in H.
    destruct H as (H1 & H2 & H3 & H4 & H5). oks H1. oks H2. oks H3. rewrite reject_if_Ok, Z.ltb_ge in H4.
    rewrite each_result_Ok, list.Forall_forall in H5. split_and!; [done|lia| |].
    + split; cbn; first [done|congruence].
    + intros policy Hp. apply Hbs; [done|]. specialize (H5 policy Hp). by rewrite reject_if_Ok in H5.
  - intros (_ & Hb & Hc & Hk). destruct Hc. cbn in *. split_and!; [done|lia|].
    apply Hseq; [lia|]. split; [by rewrite ec_sequence0, Hidx, Hlen|].
    rewrite !seq_Ok, each_result_Ok, list.Forall_forall. autorewrite with ok.
    split_and!; try congruence; [by apply Z.ltb_ge|]. intros policy Hp. apply reject_if_Ok, Hbs; auto.
Qed.

Lemma routine_extension_iff rp ps pols d1 d2 t root policies latest vs h p v :
  mixed_accepted rp ps pols d1 d2 t root policies latest vs h →
  (∃ receipt, verify_persona_transition_proof_with_receipt p = Ok receipt ∧
     receipt_transition receipt = v ∧
     validate_verified_recovery_aware_continuity_chain_routine_extension
       (chain_of root policies latest vs t) receipt = Ok tt) ↔
  extends root policies latest ps h (ProofRoutine p) (VerifiedRoutine v).
Proof.
  intros Ha. pose proof (at_head_Ok _ _ _ _ _ _ _ _ _ _ _ (entry_of (VerifiedRoutine v)) _ Ha eq_refl)
    as Hh. cbn [entry_of en_sequence en_persona_anchor en_persona en_root_statement_sha256
    en_linked_previous_transition en_previous_key en_issued_at] in Hh.
  unfold validate_verified_recovery_aware_continuity_chain_routine_extension. split.
  - intros (receipt & Hv & <- & Hx). apply Hh in Hx as (Ho & Hr & Hc & Hk).
    split; [done|done|by apply verify_receipt_Ok|done|]. intros policy k Hp [= <-]. by apply Hk.
  - intros [Ho Hr Hv Hc Hk]. cbn in Hv. unfold verify_persona_transition_proof in Hv.
    unbind Hv as receipt Hrec. injection Hv as <-. exists receipt. split_and!; [done..|].
    apply Hh. split_and!; [done..|]. intros policy Hp. by apply Hk.
Qed.

(** The verifier of a recovery proof looks only at the statement and the
    digest of the policy. *)
Lemma verify_recovery_policy_ext root p1 p2 proof :
  vp_statement p1 = vp_statement p2 → vp_policy_statement_sha256 p1 = vp_policy_statement_sha256 p2 →
  verify_recovery_transition_proof_with_receipt root p1 proof =
  verify_recovery_transition_proof_with_receipt root p2 proof.
Proof.
  intros Hs Hd. unfold verify_recovery_transition_proof_with_receipt,
    validate_recovery_transition_binding, validate_recovery_transition_policy_binding.
  by rewrite Hs, Hd.
Qed.

Lemma recovery_receipt_Ok root policy p receipt :
  verify_recovery_transition_proof_with_receipt root policy p = Ok receipt →
  verify_recovery_transition_proof root policy p = Ok (xr_transition receipt) ∧
  xr_policy_statement receipt = vp_statement policy ∧
  xr_policy_statement_sha256 receipt = vp_policy_statement_sha256 policy.
Proof.
  intros H. unfold verify_recovery_transition_proof. rewrite H. split; [done|].
  unfold verify_recovery_transition_proof_with_receipt in H. unbind H as pre Hpre. rewrite seq_Ok in H.
  destruct H as [_ H]. unbind H as fps _. rewrite seq_Ok in H. by destruct H as [_ [= <-]].
Qed.

Lemma policy_in_force_elem policies st policy : policy_in_force policies st policy → policy ∈ policies.
Proof. intros (i & (Hi & _)%list_find_Some & _). by eapply list_elem_of_lookup_2. Qed.

Lemma recovery_extension_iff rp ps pols d1 d2 t root policies latest vs h p v :
  mixed_accepted rp ps pols d1 d2 t root policies latest vs h →
  (∃ policy receipt, policy ∈ policies ∧
     verify_recovery_transition_proof_with_receipt root policy p = Ok receipt ∧
     xr_transition receipt = v ∧
     validate_verified_recovery_aware_continuity_chain_extension
       (chain_of root policies latest vs t) receipt = Ok tt) ↔
  extends root policies latest ps h (ProofRecovery p) (VerifiedRecovery v).
Proof.
  intros Ha. pose proof (at_head_Ok _ _ _ _ _ _ _ _ _ _ _ (entry_of (VerifiedRecovery v)) _ Ha eq_refl)
    as Hh. cbn [entry_of en_sequence en_persona_anchor en_persona en_root_statement_sha256
    en_linked_previous_transition en_previous_key en_issued_at] in Hh.
  unfold validate_verified_recovery_aware_continuity_chain_extension.
  cbn [chain_of mc_policies]. split.
  - intros (policy & receipt & Hpol & Hv & <- & Hx). rewrite seq_Ok in Hx. destruct Hx as [Hx Hsel].
    apply Hh in Hx as (Ho & Hr & Hc & Hk). unbind Hsel as sel Hf. rewrite seq_Ok in Hsel.
    destruct Hsel as [Heq _]. oks Heq. apply recovery_policy_for_transition_Ok in Hf.
    destruct (recovery_receipt_Ok _ _ _ _ Hv) as (Hver & Es & Ed).
    rewrite (verify_recovery_policy_ext _ _ sel) in Hv by congruence.
    destruct (recovery_receipt_Ok _ _ _ _ Hv) as (Hver' & _ & _).
    destruct (verify_recovery_sound _ _ _ _ Hver') as [payload Hra].
    split; [done|done| |done|].
    + cbn. exists payload, (vx_statement (xr_transition receipt)), sel.
      split_and!; [by destruct Hra|done|done].
    + intros q k Hq [= <-]. by apply Hk.
  - intros [Ho Hr Hv Hc Hk]. destruct Hv as (payload & st & policy & Hd & Hf & Hver).
    destruct (verify_recovery_sound _ _ _ _ Hver) as [pl Hra].
    pose proof (ra_decoded _ _ _ _ _ Hra) as Hd'. rewrite Hd in Hd'. injection Hd' as -> ->.
    unfold verify_recovery_transition_proof in Hver. unbind Hver as receipt Hrec. injection Hver as <-.
    exists policy, receipt. destruct (recovery_receipt_Ok _ _ _ _ Hrec) as (_ & Es & Ed).
    split_and!; [by eapply policy_in_force_elem|done|done|].
    rewrite (proj2 Hh), bind_Ok_l by (split_and!; [done..|]; intros q Hq; by apply Hk).
    apply recovery_policy_for_transition_Ok in Hf. rewrite Hf, bind_Ok_l.
    rewrite !bool_decide_eq_true_2 by done. cbn [negb orb reject_if]. rewrite bind_Ok_l.
    pose proof (ra_binding _ _ _ _ _ Hra) as Hb. unfold validate_recovery_transition_binding in Hb.
    rewrite !seq_Ok in Hb. tauto.
Qed.

Lemma verify_terminal_policy_ext root p1 p2 proof :
  vp_statement p1 = vp_statement p2 → vp_policy_statement_sha256 p1 = vp_policy_statement_sha256 p2 →
  verify_terminal_persona_revocation_proof_with_receipt root p1 proof =
  verify_terminal_persona_revocation_proof_with_receipt root p2 proof.
Proof.
  intros Hs Hd. unfold verify_terminal_persona_revocation_proof_with_receipt,
    validate_terminal_persona_revocation_binding, validate_terminal_persona_revocation_policy_binding.
  by rewrite Hs, Hd.
Qed.

Lemma terminal_receipt_Ok root policy p receipt :
  verify_terminal_persona_revocation_proof_with_receipt root policy p = Ok receipt →
  verify_terminal_persona_revocation_proof root policy p = Ok (zr_revocation receipt) ∧
  zr_policy_statement receipt = vp_statement policy ∧
  zr_policy_statement_sha256 receipt = vp_policy_statement_sha256 policy.
Proof.
  intros H. unfold verify_terminal_persona_revocation_proof. rewrite H. split; [done|].
  unfold verify_terminal_persona_revocation_proof_with_receipt in H. unbind H as [pl st] Hpre.
  rewrite seq_Ok in H. destruct H as [_ H]. unbind H as fps _. by injection H as <-.
Qed.

(** The head checks of the terminal receipt. *)
Lemma terminal_at_head_Ok rp ps pols d1 d2 t root policies latest vs h receipt :
  mixed_accepted rp ps pols d1 d2 t root policies latest vs h →
  let v := zr_revocation receipt in let st := vz_statement v in
  validate_verified_recovery_aware_continuity_chain_terminal_revocation_extension
    (chain_of root policies latest vs t) receipt = Ok tt ↔
  Forall (λ q, is_terminal q = false) ps ∧ (len ps <= MAX_CONTINUITY_TRANSITIONS)%N ∧
  entry_continues root h (entry_of (VerifiedTerminalRevocation v)) ∧
  zs_recovery_policy_sha256 st = vp_policy_statement_sha256 latest ∧
  zs_recovery_policy_version st = ps_policy_version (vp_statement latest) ∧
  (rc_transition_sequence (ps_continuity_checkpoint (vp_statement latest)) < zs_sequence st)%N ∧
  zr_policy_statement receipt = vp_statement latest ∧
  zr_policy_statement_sha256 receipt = vp_policy_statement_sha256 latest ∧
  validate_terminal_persona_revocation_policy_binding latest st = Ok tt.
Proof.
  intros Ha. cbn zeta. rewrite <- (open_iff _ _ _ _ _ _ _ _ _ _ _ Ha).
  pose proof (Forall2_len _ _ _ (ma_entries _ _ _ _ _ _ _ _ _ _ _ Ha)) as Hlen.
  pose proof (mixed_linked_head _ _ _ (ma_linked _ _ _ _ _ _ _ _ _ _ _ Ha)) as ->.
  destruct (mixed_state_fields root vs) as (Hidx & _). cbn zeta in Hidx.
  unfold validate_verified_recovery_aware_continuity_chain_terminal_revocation_extension.
  destruct (not_extensible _) eqn:Hne; [split; [done|by intros [? _]]|]. cbn [reject_if]. rewrite bind_Ok_l.
  assert (mr_current_key_fingerprint (mc_report (chain_of root policies latest vs t)) =
    Some (mx_current_key_fingerprint (mixed_state root vs))) as Hcur.
  { apply orb_false_iff in Hne as [Hr _]. cbn in Hr |- *. by rewrite Hr. }
  rewrite Hcur. cbn [chain_of mc_transitions mc_report mc_root mc_policies mixed_report
    mr_transition_count mr_last_transition_sha256 mr_last_issued_at].
  rewrite (ma_latest _ _ _ _ _ _ _ _ _ _ _ Ha), <- Hlen.
  unfold MAX_CONTINUITY_TRANSITIONS, MAX_TERMINAL_PERSONA_REVOCATION_SEQUENCE.
  rewrite seq_Ok, reject_if_Ok, N.ltb_ge.
  destruct (N.le_gt_cases (len ps) 4096) as [Hb|Hb].
  2:{ split; [intros [? _]; lia|intros (_ & ? & _); lia]. }
  unfold checked_add_u32. rewrite (proj2 (N.leb_le _ _)) by (unfold u32_max; lia).
  cbn [ok_or expect]. rewrite bind_Ok_l, !seq_Ok, bind_Ok_l, !seq_Ok. autorewrite with ok.
  rewrite N.ltb_ge, Z.ltb_ge, N.leb_gt. split.
  - intros. destruct_and!. split_and!; try done. split; cbn; first [done|congruence].
  - intros (_ & _ & [] & ?). cbn in *. destruct_and!. split_and!; first [done|lia|congruence].
Qed.

Lemma terminal_extension_iff rp ps pols d1 d2 t root policies latest vs h p v :
  mixed_accepted rp ps pols d1 d2 t root policies latest vs h →
  (∃ policy receipt, policy ∈ policies ∧
     verify_terminal_persona_revocation_proof_with_receipt root policy p = Ok receipt ∧
     zr_revocation receipt = v ∧
     validate_verified_recovery_aware_continuity_chain_terminal_revocation_extension
       (chain_of root policies latest vs t) receipt = Ok tt) ↔
  extends root policies latest ps h (ProofTerminalRevocation p) (VerifiedTerminalRevocation v).
Proof.
  intros Ha. split.
  - intros (policy & receipt & Hpol & Hv & <- & Hx).
    apply (terminal_at_head_Ok _ _ _ _ _ _ _ _ _ _ _ _ Ha) in Hx
      as (Ho & Hr & Hc & Hd & Hn & Hcp & Es & Ed & _).
    destruct (terminal_receipt_Ok _ _ _ _ Hv) as (_ & Es' & Ed').
    rewrite (verify_terminal_policy_ext _ _ latest) in Hv by congruence.
    destruct (terminal_receipt_Ok _ _ _ _ Hv) as (Hver & _ & _).
    destruct (verify_terminal_sound _ _ _ _ Hver) as [payload Hta].
    split; [done|cbn; lia| |done|done]. cbn. exists payload, (vz_statement (zr_revocation receipt)).
    split_and!; [by destruct Hta|done..].
  - intros [Ho Hr Hv Hc _]. destruct Hv as (payload & st & Hd & Hs & Hn & Hcp & Hver).
    destruct (verify_terminal_sound _ _ _ _ Hver) as [pl Hta].
    pose proof (ta_decoded _ _ _ _ _ Hta) as Hd'. rewrite Hd in Hd'. injection Hd' as -> ->.
    unfold verify_terminal_persona_revocation_proof in Hver. unbind Hver as receipt Hrec.
    injection Hver as <-. exists latest, receipt.
    destruct (terminal_receipt_Ok _ _ _ _ Hrec) as (_ & Es & Ed). split_and!; [|done|done|].
    + pose proof (ma_latest _ _ _ _ _ _ _ _ _ _ _ Ha) as Hl. by apply last_Some_elem_of.
    + apply (terminal_at_head_Ok _ _ _ _ _ _ _ _ _ _ _ _ Ha). cbn in Hr.
      pose proof (ta_binding _ _ _ _ _ Hta) as Hb. unfold validate_terminal_persona_revocation_binding in Hb.
      rewrite !seq_Ok in Hb. destruct_and!. split_and!; try done. lia.
Qed.

(** Extending a verified recovery-aware chain with a receipt, routine,
    recovery or terminal, accepts exactly when verifying the whole longer
    chain with the same policies does, so appending entries one by one keeps a
    chain that verifies as a whole. *)
Theorem mixed_extension_is_batch_verification rp ps pols d1 d2 t chain :
  verify_persona_continuity_chain_with_recovery_with_verified_sequence rp ps pols d1 d2 t = Ok chain →
  (∀ p v,
    (∃ receipt, verify_persona_transition_proof_with_receipt p = Ok receipt ∧
       receipt_transition receipt = v ∧
       validate_verified_recovery_aware_continuity_chain_routine_extension chain receipt = Ok tt) ↔
    ∃ chain', verify_persona_continuity_chain_with_recovery_with_verified_sequence rp
        (ps ++ [ProofRoutine p]) pols d1 d2 t = Ok chain' ∧
      mc_transitions chain' = mc_transitions chain ++ [VerifiedRoutine v]) ∧
  (∀ p v,
    (∃ policy receipt, policy ∈ mc_policies chain ∧
       verify_recovery_transition_proof_with_receipt (mc_root chain) policy p = Ok receipt ∧
       xr_transition receipt = v ∧
       validate_verified_recovery_aware_continuity_chain_extension chain receipt = Ok tt) ↔
    ∃ chain', verify_persona_continuity_chain_with_recovery_with_verified_sequence rp
        (ps ++ [ProofRecovery p]) pols d1 d2 t = Ok chain' ∧
      mc_transitions chain' = mc_transitions chain ++ [VerifiedRecovery v]) ∧
  (∀ p v,
    (∃ policy receipt, policy ∈ mc_policies chain ∧
       verify_terminal_persona_revocation_proof_with_receipt (mc_root chain) policy p = Ok receipt ∧
       zr_revocation receipt = v ∧
       validate_verified_recovery_aware_continuity_chain_terminal_revocation_extension chain receipt =
         Ok tt) ↔
    ∃ chain', verify_persona_continuity_chain_with_recovery_with_verified_sequence rp
        (ps ++ [ProofTerminalRevocation p]) pols d1 d2 t = Ok chain' ∧
      mc_transitions chain' = mc_transitions chain ++ [VerifiedTerminalRevocation v]).
Proof.
  intros (root & policies & latest & vs & h & Ha & ->)%mixed_verified_iff.
  cbn [mc_transitions mc_policies mc_root chain_of]. split_and!; intros p v.
  - rewrite (batch_extends _ _ _ _ _ _ _ _ _ _ _ _ _ Ha). by eapply routine_extension_iff.
  - rewrite (batch_extends _ _ _ _ _ _ _ _ _ _ _ _ _ Ha). by eapply recovery_extension_iff.
  - rewrite (batch_extends _ _ _ _ _ _ _ _ _ _ _ _ _ Ha). by eapply terminal_extension_iff.
Qed.

(** ** Panic freedom *)

Lemma validate_recovery_checkpoint_no_panic c : no_panic (validate_recovery_checkpoint c).
Proof.
  unfold validate_recovery_checkpoint. apply no_panic_bind; [done|]. intros m _.
  pose proof validate_sha256_no_panic. no_panics.
Qed.

Lemma validate_recovery_policy_statement_no_panic st :
  no_panic (validate_recovery_policy_statement st).
Proof.
  pose proof validate_sha256_no_panic. pose proof validate_jcs_time_no_panic.
  pose proof validate_persona_anchor_no_panic. pose proof validate_canonical_persona_no_panic.
  pose proof validate_recovery_checkpoint_no_panic.
  assert (no_panic (fold_result next_authority_fingerprint None (ps_recovery_key_fingerprints st))).
  { apply no_panic_fold_result with (λ _, True); [done| |done]. intros.
    unfold next_authority_fingerprint. no_panics. }
  unfold validate_recovery_policy_statement, validate_policy_schema. no_panics.
Qed.

#[local] Hint Resolve validate_sha256_no_panic validate_jcs_time_no_panic
  validate_persona_anchor_no_panic validate_canonical_persona_no_panic
  validate_payload_bound_no_panic decode_continuity_payload_no_panic
  require_proof_schema_no_panic validate_recovery_checkpoint_no_panic
  validate_recovery_policy_statement_no_panic : panics.

Lemma validate_policy_root_binding_no_panic root st : no_panic (validate_policy_root_binding root st).
Proof. unfold validate_policy_root_binding. no_panics. Qed.

Lemma validate_policy_successor_no_panic p st : no_panic (validate_policy_successor p st).
Proof. unfold validate_policy_successor. no_panics. Qed.

Lemma validate_recovery_signature_no_panic s ns : no_panic (validate_recovery_signature s ns).
Proof. unfold validate_recovery_signature. no_panics. Qed.

#[local] Hint Resolve validate_policy_root_binding_no_panic validate_policy_successor_no_panic
  validate_recovery_signature_no_panic : panics.

Lemma preflight_unbound_no_panic sigs ns : no_panic (preflight_unbound_signature_set sigs ns).
Proof.
  assert (no_panic (fold_result (preflight_one_signature ns) ([], []) sigs)).
  { apply no_panic_fold_result with (λ _, True); [done| |done]. intros.
    unfold preflight_one_signature. no_panics. }
  unfold preflight_unbound_signature_set. no_panics.
Qed.

Lemma preflight_authority_no_panic sigs allowed m all ns :
  no_panic (preflight_authority_signatures sigs allowed m all ns).
Proof.
  pose proof preflight_unbound_no_panic. unfold preflight_authority_signatures. no_panics.
  apply no_panic_each_result. intros. no_panics.
Qed.

Lemma verify_authority_no_panic pl sigs allowed m all ns :
  no_panic (verify_authority_signatures pl sigs allowed m all ns).
Proof.
  pose proof preflight_authority_no_panic. unfold verify_authority_signatures. no_panics.
  apply no_panic_each_result. intros. no_panics.
Qed.

#[local] Hint Resolve preflight_unbound_no_panic preflight_authority_no_panic
  verify_authority_no_panic : panics.

Lemma preflight_policy_no_panic proof : no_panic (preflight_recovery_policy_proof proof).
Proof. unfold preflight_recovery_policy_proof, canonical_recovery_policy_statement_bytes. no_panics. Qed.

Lemma verify_policy_no_panic root prev proof : no_panic (verify_recovery_policy_proof root prev proof).
Proof. pose proof preflight_policy_no_panic. unfold verify_recovery_policy_proof. no_panics. Qed.

Lemma policy_proof_sequence_no_panic root pols :
  no_panic (verify_recovery_policy_proof_sequence root pols).
Proof.
  unfold verify_recovery_policy_proof_sequence. apply no_panic_bind; [no_panics|]. intros _ _.
  apply no_panic_fold_result with (λ _, True); [done| |done]. intros. unfold policy_step.
  pose proof verify_policy_no_panic. no_panics.
Qed.

Lemma policy_sequence_no_panic rp pols d1 d2 :
  no_panic (verified_recovery_policy_sequence rp pols d1 d2).
Proof.
  pose proof verify_persona_root_proof_no_panic. pose proof policy_proof_sequence_no_panic.
  unfold verified_recovery_policy_sequence. no_panics.
  apply no_panic_expect.
  match goal with Hs : verify_recovery_policy_proof_sequence _ _ = Ok _ |- _ =>
    apply policy_sequence_sound in Hs as (_ & _ & Hne) end.
  by apply last_is_Some.
Qed.

Lemma decode_recovery_no_panic p : no_panic (decode_recovery_transition_proof p).
Proof.
  unfold decode_recovery_transition_proof, canonical_recovery_transition_statement_bytes,
    validate_recovery_transition_statement, validate_recovery_transition_schema,
    validate_recovery_ceremony_id. no_panics.
Qed.

Lemma decode_terminal_no_panic p : no_panic (decode_terminal_persona_revocation_proof p).
Proof.
  unfold decode_terminal_persona_revocation_proof,
    canonical_terminal_persona_revocation_statement_bytes,
    validate_terminal_persona_revocation_statement. no_panics.
Qed.

#[local] Hint Resolve decode_recovery_no_panic decode_terminal_no_panic : panics.

Lemma verify_recovery_no_panic root policy p :
  no_panic (verify_recovery_transition_proof root policy p).
Proof.
  unfold verify_recovery_transition_proof, verify_recovery_transition_proof_with_receipt,
    preflight_recovery_transition_proof, validate_recovery_transition_binding,
    validate_recovery_transition_statement, validate_recovery_transition_schema,
    validate_recovery_ceremony_id, validate_recovery_transition_policy_binding. no_panics.
Qed.

Lemma verify_terminal_no_panic root policy p :
  no_panic (verify_terminal_persona_revocation_proof root policy p).
Proof.
  unfold verify_terminal_persona_revocation_proof,
    verify_terminal_persona_revocation_proof_with_receipt,
    preflight_terminal_persona_revocation_proof, validate_terminal_persona_revocation_binding,
    validate_terminal_persona_revocation_statement,
    validate_terminal_persona_revocation_policy_binding. no_panics.
Qed.

Lemma recovery_policy_for_transition_no_panic pols st :
  no_panic (recovery_policy_for_transition pols st).
Proof. unfold recovery_policy_for_transition. no_panics. Qed.

#[local] Hint Resolve verify_recovery_no_panic verify_terminal_no_panic
  recovery_policy_for_transition_no_panic verify_persona_transition_proof_no_panic : panics.

Lemma verify_entry_no_panic root policies latest st p :
  counts_in_range st → no_panic (verify_entry root policies latest st p).
Proof.
  intros (_ & Hr & Hx & Hz).
  assert (∀ n site, (n < u32_max)%N → no_panic (counter_increment n site)) as Hc.
  { intros n site Hn. by rewrite (proj2 (counter_increment_Ok n site (n + 1))). }
  unfold verify_entry. no_panics; by apply Hc.
Qed.

Lemma mixed_fold_no_panic root policies latest ps vs :
  (len vs + len ps < u32_max)%N →
  no_panic (fold_result (mixed_step root policies latest) (mixed_state root vs) ps).
Proof.
  revert vs. induction ps as [|p ps IH]; intros vs Hb; cbn [fold_result]; [done|].
  rewrite len_cons in Hb. destruct (mixed_state_in_range root vs ltac:(lia)) as (Hi & Hrange).
  apply no_panic_bind.
  - unfold mixed_step. apply no_panic_bind.
    { apply no_panic_expect. eexists. apply u32_try_from_Some. split; [done|]. lia. }
    intros seq _. apply no_panic_bind; [by apply verify_entry_no_panic|]. intros [v counts] Hv.
    apply no_panic_bind; [unfold validate_entry_at_head; no_panics|]. intros _ _.
    apply verify_entry_sound in Hv as [_ ->]. by rewrite push_entry_Ok.
  - intros st' (v & _ & _ & ->)%mixed_step_sound. rewrite <- mixed_state_snoc. apply IH.
    rewrite len_app. change (len [v]) with 1%N. lia.
Qed.

Lemma mixed_sequence_no_panic rp ps pols d1 d2 t :
  no_panic (verify_persona_continuity_chain_with_recovery_with_verified_sequence rp ps pols d1 d2 t).
Proof.
  unfold verify_persona_continuity_chain_with_recovery_with_verified_sequence.
  apply no_panic_bind; [unfold validate_terminal_positions; no_panics|].
  intros [] Hterm%validate_terminal_positions_Ok%terminal_ok_len.
  apply no_panic_bind; [no_panics|]. intros _ _.
  apply no_panic_bind; [apply policy_sequence_no_panic|]. intros [root policies] Hseq.
  apply policy_chain_sound in Hseq as (_ & _ & _ & _ & latest & Hl & _).
  cbn [vps_root vps_policies] in *. rewrite Hl. cbn [expect]. rewrite bind_Ok_l.
  apply no_panic_bind.
  { apply (mixed_fold_no_panic root policies latest ps []). unfold u32_max, len in *. cbn [length]. lia. }
  intros st (vs & Hvs & -> & _)%mixed_fold_sound.
  destruct (mixed_state_fields root vs) as (_ & _ & Hd & Hi & _). cbn zeta in *. rewrite Hd, Hi.
  apply no_panic_bind; [|intros _ _; apply no_panic_bind].
  - apply no_panic_each_result. intros policy. unfold check_policy_checkpoint. case_match; [done|].
    rewrite !list_lookup_fmap. destruct (vs !! _); cbn; no_panics.
  - apply no_panic_each_result. intros policy. unfold check_policy_keys. no_panics.
  - intros _ _. apply no_panic_bind; [|done]. apply no_panic_expect. eexists.
    apply u32_try_from_Some. split; [done|]. unfold u32_max. lia.
Qed.

Lemma mixed_checkpoint_no_panic rp ps pols d1 d2 t cp :
  no_panic (verify_persona_continuity_chain_with_recovery_with_verified_sequence_at_checkpoint
    rp ps pols d1 d2 t cp).
Proof.
  unfold verify_persona_continuity_chain_with_recovery_with_verified_sequence_at_checkpoint.
  apply no_panic_bind; [apply mixed_sequence_no_panic|]. intros chain _.
  unfold match_recovery_aware_continuity_head_checkpoint, match_continuity_head_checkpoint. no_panics.
Qed.

(** C34: verifying a recovery-aware chain, with or without a head checkpoint,
    never panics, whatever the proofs contain: the expectations on counts, the
    indexing of the issue times, the unwrapping of the latest policy and the
    unreachable branch are all unreachable. *)
Theorem mixed_verification_never_panics rp ps pols d1 d2 t cp :
  no_panic (verify_persona_continuity_chain_with_recovery_with_verified_sequence_at_checkpoint
    rp ps pols d1 d2 t cp).
Proof. apply mixed_checkpoint_no_panic. Qed.

End facts.
