(* ===== verification/RecoveryCreated.v ===== *)
(** * Recovery: what is created verifies, and the head pins the history

    Recovery and terminal proofs made by the creation functions are accepted
    by the verifiers, and the head digest of a recovery-aware chain determines
    the whole sequence of statements below it. *)

From stdpp Require Import base numbers list strings pretty sorting option sets.
From Stdlib Require Import Strings.Byte Ascii.
From S2P Require Import Prelude Text Ordered Display Crates ArtifactProof ArtifactFacts.
From S2P Require Import Continuity ContinuityFacts RecoveryPolicy RecoveryPolicyFacts.
From S2P Require Import RecoveryChain RecoveryChainFacts.

Section facts.
Context {crates : Crates} {json_recovery : Serde RecoveryTransitionStatement}
  {json_terminal : Serde TerminalPersonaRevocationStatement}.

(** ** Round trips *)

Section created.
Context {keygen : SshKeygen} {crates_ok : CratesOk}.

Definition recovery_in_range (st : RecoveryTransitionStatement) : Prop :=
  (xs_sequence st <= u32_max)%N ∧ (xs_recovery_policy_version st <= u32_max)%N ∧
  (0 <= xs_issued_at st <= MAX_JCS_SAFE_INTEGER)%Z ∧
  match xs_expires_at st with
  | Some e => (0 <= e <= MAX_JCS_SAFE_INTEGER)%Z
  | None => True
  end.

Definition terminal_in_range (st : TerminalPersonaRevocationStatement) : Prop :=
  (zs_sequence st <= u32_max)%N ∧ (zs_recovery_policy_version st <= u32_max)%N ∧
  (0 <= zs_issued_at st <= MAX_JCS_SAFE_INTEGER)%Z.

Context {json_recovery_ok : SerdeOk RecoveryTransitionStatement recovery_in_range}
  {json_terminal_ok : SerdeOk TerminalPersonaRevocationStatement terminal_in_range}.

Lemma validated_recovery_in_range st :
  validate_recovery_transition_statement st = Ok tt → (xs_sequence st <= u32_max)%N →
  (xs_recovery_policy_version st <= u32_max)%N → recovery_in_range st.
Proof.
  unfold validate_recovery_transition_statement. rewrite !seq_Ok. intros (Hs & _ & _ & H) Hq Hv.
  unbind H as persona Hp. rewrite !seq_Ok in H. destruct H as (_ & Ht & _).
  apply validate_jcs_time_Ok in Ht. split_and!; [done|done|lia|lia|].
  unfold validate_recovery_transition_schema in Hs. destruct (xs_expires_at st) as [e|]; [|done].
  case_bool_decide; [oks Hs; exfalso; eauto|].
  case_bool_decide; [|done]. unbind Hs as c Hc. rewrite seq_Ok in Hs. destruct Hs as [_ Hs].
  cbn [ok_or] in Hs. rewrite bind_Ok_l, seq_Ok in Hs. destruct Hs as [He _].
  by apply validate_jcs_time_Ok in He.
Qed.

Lemma canonical_recovery_Ok st payload :
  (xs_sequence st <= u32_max)%N → (xs_recovery_policy_version st <= u32_max)%N →
  canonical_recovery_transition_statement_bytes st = Ok payload →
  (len payload <= MAX_CONTINUITY_PAYLOAD_BYTES)%N ∧ json_from_slice payload = inr st.
Proof.
  intros Hq Hv. unfold canonical_recovery_transition_statement_bytes. rewrite seq_Ok. intros [Hs H].
  unbind H as bs Hj. rewrite seq_Ok in H. destruct H as [Hb [= <-]]. oks Hj.
  split; [by apply validate_payload_bound_Ok|]. apply jcs_round_trip; [|done].
  by apply validated_recovery_in_range.
Qed.

Lemma created_recovery_decodes st payload sigs next :
  (xs_sequence st <= u32_max)%N → (xs_recovery_policy_version st <= u32_max)%N →
  canonical_recovery_transition_statement_bytes st = Ok payload →
  decode_recovery_transition_proof {| xp_schema := RECOVERY_TRANSITION_PROOF_SCHEMA;
    xp_payload := URL_SAFE_NO_PAD_encode payload; xp_recovery_signatures := sigs;
    xp_next_signature := next |} = Ok (payload, st).
Proof.
  intros Hq Hv Hp. destruct (canonical_recovery_Ok _ _ Hq Hv Hp) as [Hb Hj].
  unfold decode_recovery_transition_proof. cbn [xp_schema xp_payload]. unfold require_proof_schema.
  rewrite bool_decide_eq_true_2, bind_Ok_l by done.
  rewrite decode_continuity_payload_encode, bind_Ok_l by done.
  rewrite (proj2 (parse_bounded_json_Ok _ _ _ st)) by done. cbn [map_err]. rewrite bind_Ok_l, Hp.
  by rewrite !bind_Ok_l, bool_decide_eq_true_2.
Qed.

Lemma normalize_idem_sign payload path key n namespace s :
  normalize_public_key key = Ok n → utf8_valid key = true →
  sign_one payload path n namespace = Ok s → signature_in_bounds (sg_value s) →
  validate_recovery_signature s namespace = Ok n ∧ sshsig_verify payload (sg_value s) n namespace = Ok tt.
Proof.
  intros Hk Hu H [Hne Hb]. pose proof (normalize_canonical _ _ Hu Hk) as Hn.
  unfold sign_one in H. rewrite Hn, bind_Ok_l in H. unbind H as value Hv.
  rewrite seq_Ok in H. destruct H as [Hver [= <-]]. split; [|done].
  unfold validate_recovery_signature.
  cbn [recovery_signature sg_format sg_namespace sg_public_key_format sg_value sg_public_key] in *.
  apply N.ltb_ge in Hb. by rewrite Hb, (bool_decide_eq_false_2 (value = "")), !bool_decide_eq_true_2.
Qed.

(** A recovery made by the program is accepted by the program: when the
    statement was built for a root and a well-formed policy, and signed by
    enough of the policy's authorities and by the next key, the verifier
    returns a receipt for exactly that statement and that policy. *)
Theorem created_recovery_verifies root seq prev prev_key next_key policy issued_at reason schema cid
    expires_at st signers path proof :
  policy_wf (vp_statement policy) → (seq <= u32_max)%N →
  (ps_policy_version (vp_statement policy) <= u32_max)%N → utf8_valid next_key = true →
  Forall (λ s, utf8_valid (rsn_public_key s) = true) signers →
  new_recovery_transition_statement_for_schema root seq prev prev_key next_key policy issued_at
    reason schema cid expires_at = Ok st →
  create_recovery_transition_proof st policy signers path next_key = Ok proof →
  signatures_in_bounds (xp_next_signature proof :: xp_recovery_signatures proof) →
  ∃ receipt, verify_recovery_transition_proof_with_receipt root policy proof = Ok receipt ∧
    vx_statement (xr_transition receipt) = st ∧ xr_policy_statement receipt = vp_statement policy ∧
    xr_policy_statement_sha256 receipt = vp_policy_statement_sha256 policy.
Proof.
  intros Hwf Hseq Hver Hu Hus Hst Hc Hb. unfold signatures_in_bounds in Hb.
  rewrite Forall_cons_iff in Hb. destruct Hb as [Hbn Hbs].
  unfold new_recovery_transition_statement_for_schema in Hst. rewrite !seq_Ok in Hst.
  destruct Hst as (_ & _ & _ & _ & Hst). unbind Hst as n Hn. unbind Hst as f Hf.
  rewrite !seq_Ok in Hst. destruct Hst as (_ & Hbind & [= <-]).
  unfold create_recovery_transition_proof in Hc. rewrite seq_Ok in Hc. destruct Hc as [_ Hc].
  unbind Hc as payload Hp. unbind Hc as sigs Hs. unbind Hc as n' Hn'. rewrite Hn in Hn'.
  injection Hn' as <-. unbind Hc as f' Hf'. rewrite Hf in Hf'. injection Hf' as <-.
  rewrite seq_Ok in Hc. destruct Hc as [_ Hc]. unbind Hc as ns Hns. injection Hc as <-.
  cbn [xp_next_signature xp_recovery_signatures] in *.
  destruct (normalize_idem_sign _ _ _ _ _ _ Hn Hu Hns Hbn) as [Hval Hsv].
  destruct (pw_authorities _ Hwf), (pw_threshold _ Hwf).
  destruct (signed_verifies _ _ _ _ (ps_threshold (vp_statement policy)) _ false _ _ Hus Hs Hbs)
    as (pre & _ & Hq & Hun); [lia|lia|done|done|].
  unfold verify_recovery_transition_proof_with_receipt, preflight_recovery_transition_proof.
  pose proof (λ a b, created_recovery_decodes _ payload sigs ns a b Hp) as Hdec.
  rewrite (Hdec Hseq Hver), bind_Ok_l.
  cbn [xp_recovery_signatures xp_next_signature]. rewrite Hun, bind_Ok_l, Hval, bind_Ok_l, Hf, bind_Ok_l.
  cbn [xs_next_key_fingerprint]. rewrite bool_decide_eq_true_2 by done. cbn [negb reject_if].
  rewrite !bind_Ok_l. cbn [xpf_statement xpf_payload xpf_next_public_key].
  rewrite Hbind, bind_Ok_l, Hq, bind_Ok_l, Hsv, bind_Ok_l. eexists. by split_and!.
Qed.

End created.

(** ** The head digest determines a recovery-aware history *)

(** One JSON object has one [schema] member, whichever statement type reads
    it. *)
Class SchemaMember (A B : Type) `{!Serde A, !Serde B} (schema_a : A → string) (schema_b : B → string) := {
  schema_member bs a b :
    json_from_slice bs = inr a → json_from_slice bs = inr b → schema_a a = schema_b b;
}.

Context {json_transition : Serde PersonaTransitionStatement}
  `{!SchemaMember PersonaTransitionStatement RecoveryTransitionStatement ts_schema xs_schema}
  `{!SchemaMember PersonaTransitionStatement TerminalPersonaRevocationStatement ts_schema zs_schema}
  `{!SchemaMember RecoveryTransitionStatement TerminalPersonaRevocationStatement xs_schema zs_schema}.

(** The statement of an entry, whatever its kind. *)
Inductive AnyStatement :=
| AnyRoutine (st : PersonaTransitionStatement)
| AnyRecovery (st : RecoveryTransitionStatement)
| AnyTerminal (st : TerminalPersonaRevocationStatement).

Definition statement_of (v : VerifiedPersonaContinuityTransition) : AnyStatement :=
  match v with
  | VerifiedRoutine v => AnyRoutine (vpt_statement v)
  | VerifiedRecovery v => AnyRecovery (vx_statement v)
  | VerifiedTerminalRevocation v => AnyTerminal (vz_statement v)
  end.

Definition parses_to (payload : bytes) (st : AnyStatement) : Prop :=
  match st with
  | AnyRoutine st => json_from_slice payload = inr st ∧ ts_schema st = PERSONA_TRANSITION_STATEMENT_SCHEMA
  | AnyRecovery st => json_from_slice payload = inr st ∧
      xs_schema st ∈ [RECOVERY_TRANSITION_STATEMENT_SCHEMA; RECOVERY_TRANSITION_STATEMENT_SCHEMA_V2]
  | AnyTerminal st => json_from_slice payload = inr st ∧
      zs_schema st = TERMINAL_PERSONA_REVOCATION_STATEMENT_SCHEMA
  end.

(** The bytes that are hashed for a statement. *)
Definition canonical_statement_bytes (st : AnyStatement) : Result bytes :=
  match st with
  | AnyRoutine st => canonical_persona_transition_statement_bytes st
  | AnyRecovery st => canonical_recovery_transition_statement_bytes st
  | AnyTerminal st => canonical_terminal_persona_revocation_statement_bytes st
  end.

Lemma parses_to_unique payload s1 s2 : parses_to payload s1 → parses_to payload s2 → s1 = s2.
Proof.
  destruct s1 as [a|a|a], s2 as [b|b|b]; cbn; intros [Ha Sa] [Hb Sb]; try congruence; exfalso.
  - pose proof (schema_member payload a b Ha Hb) as E. rewrite E in Sa. rewrite Sa in Sb. set_solver.
  - pose proof (schema_member payload a b Ha Hb). by rewrite Sa, Sb in *.
  - pose proof (schema_member payload b a Hb Ha) as E. rewrite <- E, Sb in Sa. set_solver.
  - pose proof (schema_member payload a b Ha Hb) as E. rewrite E, Sb in Sa. set_solver.
  - pose proof (schema_member payload b a Hb Ha). by rewrite Sa, Sb in *.
  - pose proof (schema_member payload b a Hb Ha) as E. rewrite E, Sa in Sb. set_solver.
Qed.

Lemma entry_payload root policies latest p v :
  entry_verified root policies latest p v →
  ∃ payload, en_statement_sha256 (entry_of v) = sha256_hex payload ∧ parses_to payload (statement_of v) ∧
    canonical_statement_bytes (statement_of v) = Ok payload.
Proof.
  destruct p as [p|p|p], v as [v|v|v]; cbn; try done.
  - intros (pl & Hc & Hj & Hd & _)%verified_transition_payload. exists pl. split_and!; [done..| |done].
    unfold canonical_persona_transition_statement_bytes, validate_persona_transition_statement in Hc.
    rewrite !seq_Ok in Hc. destruct Hc as [(Hs & _) _]. by oks Hs.
  - intros (_ & _ & policy & _ & _ & Hv). destruct (verify_recovery_sound _ _ _ _ Hv) as [pl Hra].
    destruct (decode_recovery_Ok _ _ _ (ra_decoded _ _ _ _ _ Hra)) as [Hj Hc]. exists pl.
    split_and!; [by destruct Hra|done| |done]. unfold canonical_recovery_transition_statement_bytes,
      validate_recovery_transition_statement, validate_recovery_transition_schema in Hc.
    rewrite !seq_Ok in Hc. destruct Hc as [(Hs & _) _].
    case_bool_decide; [set_solver|]. case_bool_decide; [set_solver|done].
  - intros (_ & _ & _ & _ & _ & _ & Hv). destruct (verify_terminal_sound _ _ _ _ Hv) as [pl Hta].
    destruct (decode_terminal_Ok _ _ _ (ta_decoded _ _ _ _ _ Hta)) as [Hj Hc]. exists pl.
    split_and!; [by destruct Hta|done| |done]. unfold canonical_terminal_persona_revocation_statement_bytes,
      validate_terminal_persona_revocation_statement in Hc.
    rewrite !seq_Ok in Hc. destruct Hc as [(Hs & _) _]. by oks Hs.
Qed.

Lemma linked_previous_of v1 v2 :
  statement_of v1 = statement_of v2 →
  en_linked_previous_transition (entry_of v1) = en_linked_previous_transition (entry_of v2).
Proof. destruct v1, v2; cbn; try done; by intros [= ->]. Qed.

(** The digest of an entry is that of the bytes its statement was read from. *)
Definition stated (v : VerifiedPersonaContinuityTransition) : Prop :=
  ∃ payload, en_statement_sha256 (entry_of v) = sha256_hex payload ∧ parses_to payload (statement_of v) ∧
    canonical_statement_bytes (statement_of v) = Ok payload.

(** The bytes that were hashed for the entries of a history. *)
Definition entry_payload_of (vs : list VerifiedPersonaContinuityTransition) (x : bytes) : Prop :=
  ∃ v, v ∈ vs ∧ canonical_statement_bytes (statement_of v) = Ok x.

Lemma entry_payload_sub vs vs' x : vs ⊆ vs' → entry_payload_of vs x → entry_payload_of vs' x.
Proof. intros Hs (v & Hv & Hx). exists v. split; [by apply Hs|done]. Qed.

Lemma entries_stated root policies latest ps vs :
  entries_verified root policies latest ps vs → Forall stated vs.
Proof. induction 1 as [|p v ps vs Hv _ IH]; constructor; [by eapply entry_payload|done]. Qed.

(** Two histories that end at the same digest carry the same statements,
    unless two of these collide under SHA-256. *)
Lemma statements_determined r1 r2 vs1 vs2 h1 h2 :
  Forall stated vs1 → Forall stated vs2 → mixed_linked r1 vs1 h1 → mixed_linked r2 vs2 h2 →
  hd_digest h1 = hd_digest h2 →
  statement_of <$> vs1 = statement_of <$> vs2 ∨
  sha256_collision (entry_payload_of vs1) (entry_payload_of vs2).
Proof.
  intros A1 A2 L1 L2. revert vs2 h2 A1 A2 L2.
  induction L1 as [|vs1 h1 v1 L1 IH C1]; intros vs2 h2 A1 A2 L2 Hd.
  - destruct L2; [by left|done].
  - destruct L2 as [|vs2 h2 v2 L2 C2]; [done|]. cbn in Hd. injection Hd as Hd.
    rewrite Forall_app, Forall_singleton in A1, A2.
    destruct A1 as [A1 (x & Dx & Px & Cx)], A2 as [A2 (y & Dy & Py & Cy)]. rewrite Dx, Dy in Hd.
    destruct (sha256_hex_binds (entry_payload_of (vs1 ++ [v1])) (entry_payload_of (vs2 ++ [v2])) x y)
      as [->|]; [exists v1; split; [set_solver|done]|exists v2; split; [set_solver|done]|done| |by right].
    pose proof (parses_to_unique _ _ _ Px Py) as Hst.
    destruct (IH vs2 h2 A1 A2 L2) as [Heq|Hcol];
      [| |right; revert Hcol; apply sha256_collision_mono; intros z; apply entry_payload_sub; set_solver].
    + rewrite <- (ec_digest _ _ _ C1), <- (ec_digest _ _ _ C2). by apply linked_previous_of.
    + left. rewrite !fmap_app. cbn. by rewrite Heq, Hst.
Qed.

Context {json_root : Serde PersonaRootStatement} {json_policy : Serde RecoveryPolicyStatement}.

Lemma match_mixed_checkpoint_Ok seq d cp :
  match_recovery_aware_continuity_head_checkpoint seq d cp = Ok tt →
  seq = cp_transition_sequence cp ∧ d = cp_transition_sha256 cp.
Proof.
  unfold match_recovery_aware_continuity_head_checkpoint. intros H. unbind H as m _.
  case_match; [apply match_checkpoint_Ok in H; tauto|]. rewrite seq_Ok in H. destruct H as [_ H].
  unbind H as e He. rewrite seq_Ok in H. destruct H as [_ H]. oks He. oks H. by rewrite He.
Qed.

(** C29: pinning the head of a recovery-aware chain pins its history: two
    chains accepted at the same checkpoint carry the same sequence of
    statements, routine, recovery and terminal, unless a statement of the one
    and a statement of the other have different canonical bytes with one
    SHA-256 digest; and with the same pinned policy digest also the same
    policies, unless two of their policy statements collide in this way. *)
Theorem mixed_checkpoint_determines_history rp1 rp2 ps1 ps2 pols1 pols2 r1 r2 d t1 t2 cp c1 c2 :
  verify_persona_continuity_chain_with_recovery_with_verified_sequence_at_checkpoint rp1 ps1 pols1 r1 d
    t1 cp = Ok c1 →
  verify_persona_continuity_chain_with_recovery_with_verified_sequence_at_checkpoint rp2 ps2 pols2 r2 d
    t2 cp = Ok c2 →
  (statement_of <$> mc_transitions c1 = statement_of <$> mc_transitions c2 ∨
   sha256_collision (entry_payload_of (mc_transitions c1)) (entry_payload_of (mc_transitions c2))) ∧
  (vp_statement <$> mc_policies c1 = vp_statement <$> mc_policies c2 ∨
   sha256_collision (policy_payload (mc_policies c1)) (policy_payload (mc_policies c2))).
Proof.
  unfold verify_persona_continuity_chain_with_recovery_with_verified_sequence_at_checkpoint.
  intros H1 H2. unbind H1 as k1 K1. unbind H2 as k2 K2. rewrite seq_Ok in H1, H2.
  destruct H1 as [(_ & E1)%match_mixed_checkpoint_Ok [= <-]],
    H2 as [(_ & E2)%match_mixed_checkpoint_Ok [= <-]].
  apply mixed_verified_iff in K1 as (a1 & b1 & e1 & vs1 & h1 & [_ _ P1 L1 V1 M1 _ _] & ->).
  apply mixed_verified_iff in K2 as (a2 & b2 & e2 & vs2 & h2 & [_ _ P2 L2 V2 M2 _ _] & ->). cbn in *.
  apply entries_stated in V1, V2.
  split.
  { eapply statements_determined; [done..|].
    rewrite (mixed_linked_head _ _ _ M1), (mixed_linked_head _ _ _ M2). cbn. congruence. }
  apply policy_chain_sound in P1 as (_ & _ & Q1 & _ & l1 & La1 & D1).
  apply policy_chain_sound in P2 as (_ & _ & Q2 & _ & l2 & La2 & D2). cbn in *.
  eapply policy_histories_determined; [done..|]. rewrite La1, La2. cbn. congruence.
Qed.

End facts.
