(* ===== verification/Ceremony.v ===== *)
(** * Recovery ceremonies ([crates/a-quo-core/src/recovery_ceremony.rs])

    A distributed recovery: a portable request that carries the whole verified
    history and a candidate statement, the participants' responses (each a
    signature over the statement and one over the request), and the assembly
    of responses into a recovery proof.

    The private [validate_jcs_time] and [validate_sha256] of this file differ
    from those of [continuity.rs] in the error they return; they are
    [validate_ceremony_time] and [validate_ceremony_sha256] here. *)

From stdpp Require Import base numbers list strings pretty sorting option.
From Stdlib Require Import Strings.Byte Ascii.
From S2P Require Import Prelude Text Ordered Display Crates ArtifactProof Continuity.
From S2P Require Import RecoveryPolicy RecoveryChain.

(** ** Constants *)

Definition RECOVERY_TRANSITION_CEREMONY_REQUEST_SCHEMA : string :=
  "urn:a-quo:recovery-transition-ceremony-request:v1".
Definition RECOVERY_TRANSITION_CEREMONY_RESPONSE_SCHEMA : string :=
  "urn:a-quo:recovery-transition-ceremony-response:v1".
Definition RECOVERY_CEREMONY_REQUEST_BINDING_NAMESPACE : string :=
  "a-quo-persona-recovery-ceremony-request-v1".
Definition MAX_RECOVERY_CEREMONY_REQUEST_BYTES : N := 8388608.
Definition MAX_RECOVERY_CEREMONY_RESPONSE_BYTES : N := 131072.
Definition MAX_RECOVERY_CEREMONY_RESPONSES : N := 33.
Definition MAX_RECOVERY_CEREMONY_SIGNATURE_VERIFICATIONS : N := 2048.

(** ** Data *)

Record RecoveryCeremonyRequest := {
  cq_schema : string;
  cq_canonicalization : string;
  cq_root_proof : PersonaRootProof;
  cq_recovery_policies : list RecoveryPolicyProof;
  cq_prior_transitions : list PersonaContinuityTransitionProof;
  cq_expected_root_statement_sha256 : string;
  cq_expected_latest_policy_sha256 : string;
  cq_expected_head : PersonaContinuityCheckpoint;
  cq_statement : RecoveryTransitionStatement;
  cq_next_public_key : string;
}.
Inductive RecoveryCeremonyParticipantRole := RecoveryAuthority | NextKey.
Record RecoveryCeremonyResponse := {
  cx_schema : string;
  cx_canonicalization : string;
  cx_request_sha256 : string;
  cx_participant_fingerprint : string;
  cx_role : RecoveryCeremonyParticipantRole;
  cx_request_binding_signature : RecoverySignature;
  cx_signature : RecoverySignature;
}.
Record RecoveryCeremonyParticipantReview := {
  cw_request_sha256 : string;
  cw_ceremony_id : string;
  cw_persona : string;
  cw_role : RecoveryCeremonyParticipantRole;
  cw_participant_fingerprint : string;
  cw_root_statement_sha256 : string;
  cw_recovery_policy_sha256 : string;
  cw_recovery_policy_version : N;
  cw_previous_head : PersonaContinuityCheckpoint;
  cw_sequence : N;
  cw_previous_key_fingerprint : string;
  cw_next_key_fingerprint : string;
  cw_reason : RecoveryTransitionReason;
  cw_issued_at : Z;
  cw_expires_at : Z;
}.
Record VerifiedRecoveryCeremonyRequest := {
  vq_request : RecoveryCeremonyRequest;
  vq_request_sha256 : string;
  vq_statement_payload : bytes;
  vq_next_public_key : string;
  vq_selected_policy : VerifiedRecoveryPolicy;
  vq_chain : VerifiedRecoveryAwareContinuityChain;
  vq_verified_at : Z;
}.
Record VerifiedRecoveryCeremonyResponse := { vrx_response : RecoveryCeremonyResponse }.

#[export] Instance RecoveryCeremonyParticipantRole_eq_dec :
  EqDecision RecoveryCeremonyParticipantRole.
Proof. solve_decision. Defined.
#[export] Instance RecoveryCeremonyResponse_eq_dec : EqDecision RecoveryCeremonyResponse.
Proof. solve_decision. Defined.

Definition role_namespace (role : RecoveryCeremonyParticipantRole) : string :=
  match role with
  | RecoveryAuthority => RECOVERY_TRANSITION_AUTHORITY_NAMESPACE
  | NextKey => RECOVERY_TRANSITION_NEXT_NAMESPACE
  end.

Definition vq_statement (verified : VerifiedRecoveryCeremonyRequest) : RecoveryTransitionStatement :=
  cq_statement (vq_request verified).

Section ceremony.
Context {crates : Crates}.

(** ** Validators *)

Definition validate_ceremony_time (field : string) (value : Z) : Result unit :=
  if ((0 <=? value) && (value <=? MAX_JCS_SAFE_INTEGER))%Z then Ok tt
  else Err (invalid_proof (field +:+ " must be an exact non-negative RFC 8785 integer")).

Definition validate_ceremony_sha256 (field value : string) : Result unit :=
  if (str_len value =? 64)%N && str_all is_lower_hex value then Ok tt
  else Err (invalid_proof (field +:+ " must be 64 lowercase hexadecimal characters")).

Definition require_bound (bs : bytes) (maximum : N) (description : string) : Result unit :=
  if (len bs <=? maximum)%N then Ok tt
  else Err (invalid_proof (description +:+ " exceeds " +:+ pretty maximum +:+ " bytes")).

Definition validate_head (head : PersonaContinuityCheckpoint) : Result unit :=
  maximum ← expect (u32_try_from MAX_CONTINUITY_TRANSITIONS) "continuity bound fits in u32";
  reject_if (maximum <? cp_transition_sequence head)%N
    (invalid_proof ("expected recovery ceremony head cannot exceed transition " +:+ pretty maximum));;
  match (cp_transition_sequence head =? 0)%N, cp_transition_sha256 head with
  | true, None => Ok tt
  | true, Some _ => Err (invalid_proof "expected head sequence 0 cannot name a transition digest")
  | false, Some digest => validate_ceremony_sha256 "expected head transition digest" digest
  | false, None => Err (invalid_proof "a nonzero expected head requires a transition digest")
  end.

Definition ensure_ceremony_current (statement : RecoveryTransitionStatement) (checked_at : Z) :
    Result unit :=
  expires_at ← ok_or (xs_expires_at statement)
    (invalid_proof "recovery ceremony statement has no signed expiry");
  reject_if (checked_at <? xs_issued_at statement)%Z
    (invalid_proof "recovery ceremony statement is not yet valid at the checked time");;
  reject_if (expires_at <=? checked_at)%Z
    (invalid_proof "recovery ceremony statement expired at the checked time").

Definition ensure_not_before_prior_verification (verified : VerifiedRecoveryCeremonyRequest)
    (checked_at : Z) : Result unit :=
  validate_ceremony_time "recovery ceremony check time" checked_at;;
  reject_if (checked_at <? vq_verified_at verified)%Z
    (invalid_proof "recovery ceremony check time moved backward after request verification").

Definition participant_role (verified : VerifiedRecoveryCeremonyRequest) (fingerprint : string) :
    Result RecoveryCeremonyParticipantRole :=
  if fingerprint == xs_next_key_fingerprint (vq_statement verified) then Ok NextKey
  else if binary_search_is_ok
            (ps_recovery_key_fingerprints (vp_statement (vq_selected_policy verified))) fingerprint
  then Ok RecoveryAuthority
  else Err (invalid_proof
    "participant key is neither an authorized recovery authority nor the exact next key").

(** ** The signature work of a request *)

Definition work_overflow : ProofError := invalid_proof "recovery ceremony signature work overflowed".

Definition policy_signature_work (policy : RecoveryPolicyProof) : Result N :=
  match pp_authorization policy with
  | Enrollment signatures => Ok (len signatures)
  | Update previous_policy_signatures current_policy_signatures =>
      ok_or (checked_add_usize (len previous_policy_signatures) (len current_policy_signatures))
        work_overflow
  end.

Definition transition_signature_work (transition : PersonaContinuityTransitionProof) : Result N :=
  match transition with
  | ProofRoutine proof => Ok (len (tp_signatures proof))
  | ProofRecovery proof =>
      ok_or (checked_add_usize (len (xp_recovery_signatures proof)) 1) work_overflow
  | ProofTerminalRevocation proof => Ok (len (zp_recovery_signatures proof))
  end.

Definition add_work {A} (count : A → Result N) (work : N) (x : A) : Result N :=
  signatures ← count x;
  ok_or (checked_add_usize work signatures) work_overflow.

Definition require_request_signature_work_bound (request : RecoveryCeremonyRequest) : Result unit :=
  work ← fold_result (add_work policy_signature_work) 1%N (cq_recovery_policies request);
  work ← fold_result (add_work transition_signature_work) work (cq_prior_transitions request);
  reject_if (MAX_RECOVERY_CEREMONY_SIGNATURE_VERIFICATIONS <? work)%N
    (invalid_proof ("recovery ceremony requires " +:+ pretty work +:+
      " signature verifications; the limit is " +:+
      pretty MAX_RECOVERY_CEREMONY_SIGNATURE_VERIFICATIONS)).

(** ** Requests *)

Section json.
Context {json_root : Serde PersonaRootStatement} {json_policy : Serde RecoveryPolicyStatement}
  {json_transition : Serde PersonaTransitionStatement}
  {json_recovery : Serde RecoveryTransitionStatement}
  {json_terminal : Serde TerminalPersonaRevocationStatement}
  {json_request : Serde RecoveryCeremonyRequest} {json_response : Serde RecoveryCeremonyResponse}.

Definition validate_transition_structure (transition : PersonaContinuityTransitionProof) :
    Result unit :=
  match transition with
  | ProofRoutine proof => validate_persona_transition_proof_structure proof
  | ProofRecovery proof => validate_recovery_transition_proof_structure proof
  | ProofTerminalRevocation proof => validate_terminal_persona_revocation_proof_structure proof
  end.

Definition validate_request_structure (request : RecoveryCeremonyRequest) : Result unit :=
  require_request_signature_work_bound request;;
  reject_if (cq_schema request != RECOVERY_TRANSITION_CEREMONY_REQUEST_SCHEMA)
    (invalid_proof "unsupported recovery ceremony request schema");;
  reject_if (cq_canonicalization request != CONTINUITY_CANONICALIZATION)
    (invalid_proof "unsupported recovery ceremony request canonicalization");;
  reject_if ((len (cq_recovery_policies request) =? 0)%N ||
             (MAX_RECOVERY_POLICY_VERSIONS <? len (cq_recovery_policies request))%N)
    (invalid_proof ("recovery ceremony policy chain must contain 1 through " +:+
      pretty MAX_RECOVERY_POLICY_VERSIONS +:+ " proofs"));;
  reject_if (MAX_CONTINUITY_TRANSITIONS <? len (cq_prior_transitions request))%N
    (invalid_proof ("recovery ceremony history cannot contain more than " +:+
      pretty MAX_CONTINUITY_TRANSITIONS +:+ " transitions"));;
  each_result validate_recovery_policy_proof_structure (cq_recovery_policies request);;
  each_result validate_transition_structure (cq_prior_transitions request);;
  validate_ceremony_sha256 "expected root statement digest"
    (cq_expected_root_statement_sha256 request);;
  validate_ceremony_sha256 "expected latest recovery policy digest"
    (cq_expected_latest_policy_sha256 request);;
  validate_head (cq_expected_head request);;
  reject_if (xs_schema (cq_statement request) != RECOVERY_TRANSITION_STATEMENT_SCHEMA_V2)
    (invalid_proof "recovery ceremony request requires a schema-v2 transition statement");;
  _ ← canonical_recovery_transition_statement_bytes (cq_statement request);
  next_public_key ← normalize_public_key (cq_next_public_key request);
  fingerprint ← public_key_fingerprint next_public_key;
  reject_if (fingerprint != xs_next_key_fingerprint (cq_statement request)) FingerprintMismatch.

Definition canonical_recovery_ceremony_request_bytes (request : RecoveryCeremonyRequest) :
    Result bytes :=
  validate_request_structure request;;
  bs ← map_err Json (of_sum (jcs_to_vec request));
  require_bound bs MAX_RECOVERY_CEREMONY_REQUEST_BYTES "recovery ceremony request";;
  Ok bs.

Definition recovery_ceremony_request_sha256 (request : RecoveryCeremonyRequest) : Result string :=
  bs ← canonical_recovery_ceremony_request_bytes request;
  Ok (sha256_hex bs).

Definition new_recovery_ceremony_request (root_proof : PersonaRootProof)
    (recovery_policies : list RecoveryPolicyProof)
    (prior_transitions : list PersonaContinuityTransitionProof)
    (expected_root_statement_sha256 expected_latest_policy_sha256 : string)
    (expected_head : PersonaContinuityCheckpoint) (statement : RecoveryTransitionStatement)
    (next_public_key : string) : Result RecoveryCeremonyRequest :=
  let request :=
    {| cq_schema := RECOVERY_TRANSITION_CEREMONY_REQUEST_SCHEMA;
       cq_canonicalization := CONTINUITY_CANONICALIZATION;
       cq_root_proof := root_proof;
       cq_recovery_policies := recovery_policies;
       cq_prior_transitions := prior_transitions;
       cq_expected_root_statement_sha256 := expected_root_statement_sha256;
       cq_expected_latest_policy_sha256 := expected_latest_policy_sha256;
       cq_expected_head := expected_head;
       cq_statement := statement;
       cq_next_public_key := next_public_key |} in
  _ ← canonical_recovery_ceremony_request_bytes request;
  Ok request.

Definition parse_recovery_ceremony_request_bytes (bs : bytes) : Result RecoveryCeremonyRequest :=
  request ← map_err invalid_proof
    (parse_bounded_json bs MAX_RECOVERY_CEREMONY_REQUEST_BYTES "recovery ceremony request");
  canonical ← canonical_recovery_ceremony_request_bytes request;
  reject_if (canonical != bs) NonCanonicalContinuityStatement;;
  Ok request.

Definition verify_recovery_ceremony_request (request : RecoveryCeremonyRequest) (checked_at : Z) :
    Result VerifiedRecoveryCeremonyRequest :=
  validate_ceremony_time "recovery ceremony check time" checked_at;;
  request_bytes ← canonical_recovery_ceremony_request_bytes request;
  chain ← verify_persona_continuity_chain_with_recovery_with_verified_sequence_at_checkpoint
    (cq_root_proof request) (cq_prior_transitions request) (cq_recovery_policies request)
    (cq_expected_root_statement_sha256 request) (cq_expected_latest_policy_sha256 request)
    checked_at (cq_expected_head request);
  selected_policy ← validate_recovery_ceremony_candidate chain (cq_statement request)
    (cq_next_public_key request);
  ensure_ceremony_current (cq_statement request) checked_at;;
  statement_payload ← canonical_recovery_transition_statement_bytes (cq_statement request);
  next_public_key ← normalize_public_key (cq_next_public_key request);
  Ok {| vq_request := request;
        vq_request_sha256 := sha256_hex request_bytes;
        vq_statement_payload := statement_payload;
        vq_next_public_key := next_public_key;
        vq_selected_policy := selected_policy;
        vq_chain := chain;
        vq_verified_at := checked_at |}.

Definition review_recovery_ceremony_participant (verified : VerifiedRecoveryCeremonyRequest)
    (participant_public_key : string) (checked_at : Z) : Result RecoveryCeremonyParticipantReview :=
  ensure_not_before_prior_verification verified checked_at;;
  ensure_ceremony_current (vq_statement verified) checked_at;;
  public_key ← normalize_public_key participant_public_key;
  participant_fingerprint ← public_key_fingerprint public_key;
  role ← participant_role verified participant_fingerprint;
  let statement := vq_statement verified in
  ceremony_id ← expect (xs_ceremony_id statement)
    "a verified ceremony request contains a schema-v2 statement";
  expires_at ← expect (xs_expires_at statement)
    "a verified ceremony request contains a schema-v2 statement";
  Ok {| cw_request_sha256 := vq_request_sha256 verified;
        cw_ceremony_id := ceremony_id;
        cw_persona := xs_persona statement;
        cw_role := role;
        cw_participant_fingerprint := participant_fingerprint;
        cw_root_statement_sha256 := xs_root_statement_sha256 statement;
        cw_recovery_policy_sha256 := xs_recovery_policy_sha256 statement;
        cw_recovery_policy_version := xs_recovery_policy_version statement;
        cw_previous_head := cq_expected_head (vq_request verified);
        cw_sequence := xs_sequence statement;
        cw_previous_key_fingerprint := xs_previous_key_fingerprint statement;
        cw_next_key_fingerprint := xs_next_key_fingerprint statement;
        cw_reason := xs_reason statement;
        cw_issued_at := xs_issued_at statement;
        cw_expires_at := expires_at |}.

(** ** Responses *)

Definition validate_response_structure (response : RecoveryCeremonyResponse) : Result unit :=
  reject_if (cx_schema response != RECOVERY_TRANSITION_CEREMONY_RESPONSE_SCHEMA)
    (invalid_proof "unsupported recovery ceremony response schema");;
  reject_if (cx_canonicalization response != CONTINUITY_CANONICALIZATION)
    (invalid_proof "unsupported recovery ceremony response canonicalization");;
  validate_ceremony_sha256 "recovery ceremony request digest" (cx_request_sha256 response);;
  public_key ← validate_recovery_signature (cx_signature response)
    (role_namespace (cx_role response));
  fingerprint ← public_key_fingerprint public_key;
  reject_if (fingerprint != cx_participant_fingerprint response) FingerprintMismatch;;
  binding_public_key ← validate_recovery_signature (cx_request_binding_signature response)
    RECOVERY_CEREMONY_REQUEST_BINDING_NAMESPACE;
  binding_fingerprint ← public_key_fingerprint binding_public_key;
  reject_if (binding_fingerprint != fingerprint) FingerprintMismatch.

Definition canonical_recovery_ceremony_response_bytes (response : RecoveryCeremonyResponse) :
    Result bytes :=
  validate_response_structure response;;
  bs ← map_err Json (of_sum (jcs_to_vec response));
  require_bound bs MAX_RECOVERY_CEREMONY_RESPONSE_BYTES "recovery ceremony response";;
  Ok bs.

Definition parse_recovery_ceremony_response_bytes (bs : bytes) : Result RecoveryCeremonyResponse :=
  response ← map_err invalid_proof
    (parse_bounded_json bs MAX_RECOVERY_CEREMONY_RESPONSE_BYTES "recovery ceremony response");
  canonical ← canonical_recovery_ceremony_response_bytes response;
  reject_if (canonical != bs) NonCanonicalContinuityStatement;;
  Ok response.

Definition new_recovery_ceremony_response (verified : VerifiedRecoveryCeremonyRequest)
    (signature request_binding_signature : RecoverySignature) (checked_at : Z) :
    Result RecoveryCeremonyResponse :=
  ensure_not_before_prior_verification verified checked_at;;
  ensure_ceremony_current (vq_statement verified) checked_at;;
  public_key ← normalize_public_key (sg_public_key signature);
  participant_fingerprint ← public_key_fingerprint public_key;
  role ← participant_role verified participant_fingerprint;
  _ ← validate_recovery_signature signature (role_namespace role);
  binding_public_key ← validate_recovery_signature request_binding_signature
    RECOVERY_CEREMONY_REQUEST_BINDING_NAMESPACE;
  binding_fingerprint ← public_key_fingerprint binding_public_key;
  reject_if (binding_fingerprint != participant_fingerprint) FingerprintMismatch;;
  sshsig_verify (vq_statement_payload verified) (sg_value signature) public_key (role_namespace role);;
  request_bytes ← canonical_recovery_ceremony_request_bytes (vq_request verified);
  sshsig_verify request_bytes (sg_value request_binding_signature) binding_public_key
    RECOVERY_CEREMONY_REQUEST_BINDING_NAMESPACE;;
  let response :=
    {| cx_schema := RECOVERY_TRANSITION_CEREMONY_RESPONSE_SCHEMA;
       cx_canonicalization := CONTINUITY_CANONICALIZATION;
       cx_request_sha256 := vq_request_sha256 verified;
       cx_participant_fingerprint := participant_fingerprint;
       cx_role := role;
       cx_request_binding_signature := request_binding_signature;
       cx_signature := signature |} in
  _ ← canonical_recovery_ceremony_response_bytes response;
  Ok response.

Definition sign_recovery_ceremony_request {keygen : SshKeygen}
    (verified : VerifiedRecoveryCeremonyRequest) (signer : RecoverySigner) (checked_at : Z) :
    Result RecoveryCeremonyResponse :=
  review ← review_recovery_ceremony_participant verified (rsn_public_key signer) checked_at;
  signature ← sign_one (vq_statement_payload verified) (rsn_private_key_path signer)
    (rsn_public_key signer) (role_namespace (cw_role review));
  request_bytes ← canonical_recovery_ceremony_request_bytes (vq_request verified);
  request_binding_signature ← sign_one request_bytes (rsn_private_key_path signer)
    (rsn_public_key signer) RECOVERY_CEREMONY_REQUEST_BINDING_NAMESPACE;
  new_recovery_ceremony_response verified signature request_binding_signature checked_at.

Definition verify_recovery_ceremony_response (verified : VerifiedRecoveryCeremonyRequest)
    (response : RecoveryCeremonyResponse) (checked_at : Z) :
    Result VerifiedRecoveryCeremonyResponse :=
  ensure_not_before_prior_verification verified checked_at;;
  ensure_ceremony_current (vq_statement verified) checked_at;;
  _ ← canonical_recovery_ceremony_response_bytes response;
  reject_if (cx_request_sha256 response != vq_request_sha256 verified)
    (invalid_proof "recovery ceremony response names a different request digest");;
  public_key ← validate_recovery_signature (cx_signature response)
    (role_namespace (cx_role response));
  fingerprint ← public_key_fingerprint public_key;
  reject_if (fingerprint != cx_participant_fingerprint response) FingerprintMismatch;;
  expected_role ← participant_role verified fingerprint;
  reject_if (expected_role != cx_role response)
    (invalid_proof "recovery ceremony response role is not authorized for its signing key");;
  binding_public_key ← validate_recovery_signature (cx_request_binding_signature response)
    RECOVERY_CEREMONY_REQUEST_BINDING_NAMESPACE;
  binding_fingerprint ← public_key_fingerprint binding_public_key;
  reject_if (binding_fingerprint != fingerprint) FingerprintMismatch;;
  sshsig_verify (vq_statement_payload verified) (sg_value (cx_signature response)) public_key
    (role_namespace (cx_role response));;
  request_bytes ← canonical_recovery_ceremony_request_bytes (vq_request verified);
  sshsig_verify request_bytes (sg_value (cx_request_binding_signature response)) binding_public_key
    RECOVERY_CEREMONY_REQUEST_BINDING_NAMESPACE;;
  Ok {| vrx_response := response |}.

(** ** Assembly *)

(** One round of the first loop: [distinct] by participant fingerprint. *)
Definition collect_response (verified : VerifiedRecoveryCeremonyRequest) (checked_at : Z)
    (distinct : list (string * VerifiedRecoveryCeremonyResponse))
    (response : RecoveryCeremonyResponse) :
    Result (list (string * VerifiedRecoveryCeremonyResponse)) :=
  candidate ← verify_recovery_ceremony_response verified response checked_at;
  let fingerprint := cx_participant_fingerprint (vrx_response candidate) in
  match bmap_get fingerprint distinct with
  | Some existing =>
      if vrx_response existing == vrx_response candidate then Ok distinct
      else Err (invalid_proof
        "conflicting recovery ceremony responses use the same participant fingerprint")
  | None => Ok (bmap_insert fingerprint candidate distinct)
  end.

(** One round of the second loop: the authority signatures and the next key's. *)
Definition take_response (st : list RecoverySignature * option RecoverySignature)
    (response : VerifiedRecoveryCeremonyResponse) :
    Result (list RecoverySignature * option RecoverySignature) :=
  let signature := cx_signature (vrx_response response) in
  match cx_role (vrx_response response) with
  | RecoveryAuthority => Ok (st.1 ++ [signature], st.2)
  | NextKey =>
      reject_if (bool_decide (is_Some st.2))
        (invalid_proof "recovery ceremony contains more than one next-key response");;
      Ok (st.1, Some signature)
  end.

Definition assemble_recovery_ceremony_proof (verified : VerifiedRecoveryCeremonyRequest)
    (responses : list RecoveryCeremonyResponse) (checked_at : Z) : Result RecoveryTransitionProof :=
  ensure_not_before_prior_verification verified checked_at;;
  ensure_ceremony_current (vq_statement verified) checked_at;;
  reject_if ((len responses =? 0)%N || (MAX_RECOVERY_CEREMONY_RESPONSES <? len responses)%N)
    (invalid_proof ("recovery ceremony must contain 1 through " +:+
      pretty MAX_RECOVERY_CEREMONY_RESPONSES +:+ " responses"));;
  distinct ← fold_result (collect_response verified checked_at) [] responses;
  let threshold := ps_threshold (vp_statement (vq_selected_policy verified)) in
  '(recovery_signatures, next_signature) ← fold_result take_response ([], None) (snd <$> distinct);
  reject_if (len recovery_signatures <? threshold)%N
    (invalid_proof ("recovery ceremony requires at least " +:+ pretty threshold +:+
      " distinct authority responses"));;
  next_signature ← ok_or next_signature
    (invalid_proof "recovery ceremony requires the exact next key to sign");
  let proof :=
    {| xp_schema := RECOVERY_TRANSITION_PROOF_SCHEMA;
       xp_payload := URL_SAFE_NO_PAD_encode (vq_statement_payload verified);
       xp_recovery_signatures := recovery_signatures;
       xp_next_signature := next_signature |} in
  receipt ← verify_recovery_transition_proof_with_receipt (mc_root (vq_chain verified))
    (vq_selected_policy verified) proof;
  validate_verified_recovery_aware_continuity_chain_extension (vq_chain verified) receipt;;
  Ok proof.

End json.
End ceremony.
