(* ===== verification/CeremonyFacts.v ===== *)
(** * Theorems about recovery ceremonies

    What a verified response establishes, when responses assemble into a
    proof, that the assembly does not depend on the order or repetition of
    responses, and that the assembled proof extends the history of the
    request. *)

From stdpp Require Import base numbers list strings pretty sorting option sets.
From Stdlib Require Import Strings.Byte Ascii.
From S2P Require Import Prelude Text Ordered Display Crates ArtifactProof ArtifactFacts.
From S2P Require Import Continuity ContinuityFacts RecoveryPolicy RecoveryPolicyFacts.
From S2P Require Import RecoveryChain RecoveryChainFacts RecoveryCreated Ceremony.

Section facts.
Context {crates : Crates}
  {json_root : Serde PersonaRootStatement} {json_policy : Serde RecoveryPolicyStatement}
  {json_transition : Serde PersonaTransitionStatement}
  {json_recovery : Serde RecoveryTransitionStatement}
  {json_terminal : Serde TerminalPersonaRevocationStatement}
  {json_request : Serde RecoveryCeremonyRequest} {json_response : Serde RecoveryCeremonyResponse}.

(** ** Responses *)

(** What a participant commits to: a signature over the transition for its
    role, and one by the same key over the exact request. *)
Record committed (verified : VerifiedRecoveryCeremonyRequest) (r : RecoveryCeremonyResponse)
    (key binding_key : string) (request_bytes : bytes) : Prop := {
  cm_request : cx_request_sha256 r = vq_request_sha256 verified;
  cm_key : validate_recovery_signature (cx_signature r) (role_namespace (cx_role r)) = Ok key;
  cm_fingerprint : public_key_fingerprint key = Ok (cx_participant_fingerprint r);
  cm_role : participant_role verified (cx_participant_fingerprint r) = Ok (cx_role r);
  cm_signed : sshsig_verify (vq_statement_payload verified) (sg_value (cx_signature r)) key
    (role_namespace (cx_role r)) = Ok tt;
  cm_binding_key : public_key_fingerprint binding_key = Ok (cx_participant_fingerprint r);
  cm_bytes : canonical_recovery_ceremony_request_bytes (vq_request verified) = Ok request_bytes;
  cm_bound : sshsig_verify request_bytes (sg_value (cx_request_binding_signature r)) binding_key
    RECOVERY_CEREMONY_REQUEST_BINDING_NAMESPACE = Ok tt;
}.

Definition response_ok (verified : VerifiedRecoveryCeremonyRequest) (t : Z)
    (r : RecoveryCeremonyResponse) : Prop :=
  verify_recovery_ceremony_response verified r t = Ok {| vrx_response := r |}.

Lemma response_ok_iff verified t r v :
  verify_recovery_ceremony_response verified r t = Ok v ↔
  v = {| vrx_response := r |} ∧ response_ok verified t r.
Proof.
  unfold response_ok. split; [|by intros [-> ?]]. intros H. rewrite H. pose proof H as H0.
  unfold verify_recovery_ceremony_response in H0. rewrite !seq_Ok in H0. destruct H0 as (_ & _ & H0).
  unbind H0 as bs _. rewrite seq_Ok in H0. destruct H0 as [_ H0]. unbind H0 as key _.
  unbind H0 as f _. rewrite seq_Ok in H0. destruct H0 as [_ H0]. unbind H0 as role _.
  rewrite seq_Ok in H0. destruct H0 as [_ H0]. unbind H0 as bk _. unbind H0 as bf _.
  rewrite !seq_Ok in H0. destruct H0 as (_ & _ & H0). unbind H0 as rb _. rewrite seq_Ok in H0.
  destruct H0 as [_ [= <-]]. done.
Qed.

Lemma response_committed verified t r :
  response_ok verified t r → ∃ key binding_key request_bytes, committed verified r key binding_key request_bytes.
Proof.
  unfold response_ok, verify_recovery_ceremony_response. rewrite !seq_Ok. intros (_ & _ & H).
  unbind H as bs _. rewrite seq_Ok in H. destruct H as [Hreq H]. unbind H as key Hkey.
  unbind H as f Hf. rewrite seq_Ok in H. destruct H as [Hfp H]. unbind H as role Hrole.
  rewrite seq_Ok in H. destruct H as [Hr H]. unbind H as bk _. unbind H as bf Hbf.
  rewrite !seq_Ok in H. destruct H as (Hb & Hs & H). unbind H as rb Hrb. rewrite seq_Ok in H.
  destruct H as [Hv _]. oks Hreq. oks Hfp. oks Hr. oks Hb. subst. exists key, bk, rb. by split.
Qed.

Lemma committed_next_key verified r key bk rb :
  committed verified r key bk rb → cx_role r = NextKey →
  cx_participant_fingerprint r = xs_next_key_fingerprint (vq_statement verified).
Proof.
  intros [_ _ _ Hr _ _ _ _] E. rewrite E in Hr. unfold participant_role in Hr.
  case_bool_decide; [done|]. by case_match.
Qed.

Lemma committed_authority verified r key bk rb :
  committed verified r key bk rb → cx_role r = RecoveryAuthority →
  strictly_sorted (ps_recovery_key_fingerprints (vp_statement (vq_selected_policy verified))) →
  cx_participant_fingerprint r ∈
    ps_recovery_key_fingerprints (vp_statement (vq_selected_policy verified)).
Proof.
  intros [_ _ _ Hr _ _ _ _] E Hs. rewrite E in Hr. unfold participant_role in Hr.
  case_bool_decide; [done|]. destruct (binary_search_is_ok _ _) eqn:Eb; [|done].
  by apply binary_search_sorted in Eb.
Qed.

(** ** The first loop of the assembly *)

(** No participant sent two different responses. *)
Definition no_conflict (rs : list RecoveryCeremonyResponse) : Prop :=
  ∀ r1 r2, r1 ∈ rs → r2 ∈ rs →
    cx_participant_fingerprint r1 = cx_participant_fingerprint r2 → r1 = r2.

(** The map from participants to their responses. *)
Definition responses_map (rs : list RecoveryCeremonyResponse)
    (m : list (string * VerifiedRecoveryCeremonyResponse)) : Prop :=
  strictly_sorted (m.*1) ∧
  ∀ kv, kv ∈ m ↔ ∃ r, r ∈ rs ∧ kv = (cx_participant_fingerprint r, {| vrx_response := r |}).

Lemma responses_map_get rs m r :
  responses_map rs m → no_conflict rs → r ∈ rs →
  bmap_get (cx_participant_fingerprint r) m = Some {| vrx_response := r |}.
Proof. intros [Hs Hel] Hn Hr. apply bmap_get_Some; [done|]. apply Hel. eauto. Qed.

Lemma responses_map_fresh rs m k :
  responses_map rs m → bmap_get k m = None → ∀ r, r ∈ rs → cx_participant_fingerprint r ≠ k.
Proof.
  intros [Hs Hel] Hn r Hr <-. apply bmap_get_None in Hn. apply Hn.
  apply list_elem_of_fmap. exists (cx_participant_fingerprint r, {| vrx_response := r |}).
  split; [done|]. apply Hel. eauto.
Qed.

Lemma responses_map_snoc rs m r :
  responses_map rs m → bmap_get (cx_participant_fingerprint r) m = None →
  responses_map (rs ++ [r]) (bmap_insert (cx_participant_fingerprint r) {| vrx_response := r |} m).
Proof.
  intros [Hs Hel] Hn. split.
  - rewrite bmap_insert_keys. by apply bset_insert_sorted.
  - intros kv. rewrite bmap_insert_elem, Hel by done. setoid_rewrite elem_of_app.
    setoid_rewrite list_elem_of_singleton. naive_solver.
Qed.

Lemma no_conflict_app_l rs r : no_conflict (rs ++ [r]) → no_conflict rs.
Proof. intros H r1 r2 H1 H2. apply H; apply elem_of_app; by left. Qed.

Lemma no_conflict_snoc rs r :
  no_conflict rs → (∀ r', r' ∈ rs → cx_participant_fingerprint r' = cx_participant_fingerprint r → r' = r) →
  no_conflict (rs ++ [r]).
Proof.
  intros Hn Hr r1 r2. rewrite !elem_of_app, !list_elem_of_singleton.
  intros [H1| ->] [H2| ->] E; [by apply Hn|by apply Hr|by symmetry; apply Hr|done].
Qed.

Lemma responses_map_again rs m r :
  responses_map rs m → r ∈ rs → responses_map (rs ++ [r]) m.
Proof.
  intros [Hs Hel] Hr. split; [done|]. intros kv. rewrite Hel. setoid_rewrite elem_of_app.
  setoid_rewrite list_elem_of_singleton. naive_solver.
Qed.

(** The loop succeeds exactly on responses that verify and do not conflict,
    and gives the map of them. *)
Lemma collect_fold_sound verified t rs m :
  fold_result (collect_response verified t) [] rs = Ok m →
  Forall (response_ok verified t) rs ∧ no_conflict rs ∧ responses_map rs m.
Proof.
  apply (fold_result_ind _ (λ rs m,
    Forall (response_ok verified t) rs ∧ no_conflict rs ∧ responses_map rs m)).
  { split_and!; [done|by intros ? ? ?%not_elem_of_nil|]. split; [constructor|].
    intros kv. split; [by intros ?%not_elem_of_nil|]. by intros (? & ?%not_elem_of_nil & _). }
  clear. intros rs r m m' (Hok & Hnc & Hm) H. unfold collect_response in H. unbind H as c Hc.
  apply response_ok_iff in Hc as [-> Hr]. cbn [vrx_response] in H.
  split; [by rewrite Forall_app; auto|].
  destruct (bmap_get (cx_participant_fingerprint r) m) as [e|] eqn:Eg.
  - case_bool_decide as He; [|done]. injection H as <-. pose proof (proj1 Hm) as Hs.
    apply bmap_get_Some in Eg; [|done]. apply (proj2 Hm) in Eg as (r' & Hin & [= Hf ->]).
    cbn in He. subst r'. split; [|by apply responses_map_again].
    apply no_conflict_snoc; [done|]. intros r' Hr' E. by apply Hnc.
  - injection H as <-. split; [|by apply responses_map_snoc].
    apply no_conflict_snoc; [done|]. intros r' Hr' E. exfalso. by eapply responses_map_fresh.
Qed.

Lemma collect_fold_total verified t rs :
  Forall (response_ok verified t) rs → no_conflict rs →
  ∃ m, fold_result (collect_response verified t) [] rs = Ok m.
Proof.
  intros Hok Hnc. induction rs as [|r rs IH] using rev_ind; [by eexists|].
  rewrite Forall_app, Forall_cons_iff in Hok. destruct Hok as (Hok & Hr & _).
  destruct (IH Hok (no_conflict_app_l _ _ Hnc)) as [m Hm]. rewrite fold_result_app, Hm, bind_Ok_l.
  apply collect_fold_sound in Hm as (_ & _ & Hm). cbn [fold_result]. unfold collect_response, response_ok in *.
  rewrite Hr, bind_Ok_l. cbn [vrx_response].
  destruct (bmap_get (cx_participant_fingerprint r) m) as [e|] eqn:Eg; [|by eexists].
  apply bmap_get_Some in Eg; [|apply Hm]. apply (proj2 Hm) in Eg as (r' & Hin & [= Hf ->]).
  rewrite bool_decide_eq_true_2; [by eexists|]. cbn. apply Hnc; [..|done]; apply elem_of_app; set_solver.
Qed.

Lemma collect_fold_complete verified t rs m :
  Forall (response_ok verified t) rs → no_conflict rs → responses_map rs m →
  fold_result (collect_response verified t) [] rs = Ok m.
Proof.
  intros Hok Hnc Hm. destruct (collect_fold_total verified t rs Hok Hnc) as [m' H]. rewrite H. f_equal.
  apply collect_fold_sound in H as (_ & _ & Hm').
  apply bmap_ext; [apply Hm'|apply Hm|]. intros kv. by rewrite (proj2 Hm'), (proj2 Hm).
Qed.

Lemma responses_map_ext rs rs' m :
  (∀ r, r ∈ rs ↔ r ∈ rs') → responses_map rs m → responses_map rs' m.
Proof. intros Heq [Hs Hel]. split; [done|]. intros kv. rewrite Hel. by setoid_rewrite Heq. Qed.

(** ** Order and repetition do not matter *)

(** The assembled proof depends only on which responses were sent: any
    list with the same responses, in another order or with exact repetitions,
    assembles to the same proof, as long as it is within the bound on
    responses. *)
Theorem assembly_depends_on_the_set verified rs rs' t proof :
  assemble_recovery_ceremony_proof verified rs t = Ok proof →
  (∀ r, r ∈ rs ↔ r ∈ rs') → (len rs' <= MAX_RECOVERY_CEREMONY_RESPONSES)%N →
  assemble_recovery_ceremony_proof verified rs' t = Ok proof.
Proof.
  unfold assemble_recovery_ceremony_proof. rewrite !seq_Ok. intros (H1 & H2 & Hb & H) Heq Hlen.
  split_and!; [done..| |].
  - rewrite !reject_if_Ok, orb_false_iff, N.eqb_neq, N.ltb_ge in *. split; [|done].
    destruct Hb as [Hne _]. rewrite len_nil in Hne |- *. intros ->. apply Hne, elem_of_nil_inv.
    intros r Hr. apply Heq in Hr. by apply not_elem_of_nil in Hr.
  - unbind H as m Hm. apply collect_fold_sound in Hm as (Hok & Hnc & Hm).
    rewrite (collect_fold_complete verified t rs' m), bind_Ok_l; [done|..].
    + rewrite list.Forall_forall in Hok |- *. intros r Hr. by apply Hok, Heq.
    + intros r1 r2 Hr1 Hr2. apply Hnc; by apply Heq.
    + by eapply responses_map_ext.
Qed.

(** ** The second loop of the assembly *)

Definition authority_signature (v : VerifiedRecoveryCeremonyResponse) : option RecoverySignature :=
  match cx_role (vrx_response v) with
  | RecoveryAuthority => Some (cx_signature (vrx_response v))
  | NextKey => None
  end.

Definition next_key_signature (v : VerifiedRecoveryCeremonyResponse) : option RecoverySignature :=
  match cx_role (vrx_response v) with
  | RecoveryAuthority => None
  | NextKey => Some (cx_signature (vrx_response v))
  end.

Lemma take_fold l sigs next :
  length (option_list next ++ omap next_key_signature l) <= 1 →
  fold_result take_response (sigs, next) l =
    Ok (sigs ++ omap authority_signature l, list.head (option_list next ++ omap next_key_signature l)).
Proof.
  revert sigs next. induction l as [|v l IH]; intros sigs next Hl; cbn [fold_result].
  { cbn. rewrite !app_nil_r. by destruct next. }
  assert (omap next_key_signature (v :: l) =
    option_list (next_key_signature v) ++ omap next_key_signature l) as En
    by (cbn; by destruct (next_key_signature v)).
  assert (omap authority_signature (v :: l) =
    option_list (authority_signature v) ++ omap authority_signature l) as Ea
    by (cbn; by destruct (authority_signature v)).
  rewrite En in Hl |- *. rewrite Ea. clear En Ea.
  assert (take_response (sigs, next) v = match cx_role (vrx_response v) with
    | RecoveryAuthority => Ok (sigs ++ [cx_signature (vrx_response v)], next)
    | NextKey => reject_if (bool_decide (is_Some next))
        (invalid_proof "recovery ceremony contains more than one next-key response");;
        Ok (sigs, Some (cx_signature (vrx_response v))) end) as -> by done.
  unfold next_key_signature at 1 in Hl. unfold next_key_signature at 1, authority_signature at 1.
  destruct (cx_role (vrx_response v)); cbn [option_list fst snd app] in *.
  - rewrite bind_Ok_l, IH by done. by rewrite <- app_assoc.
  - destruct next as [n|]; cbn in Hl; [lia|]. rewrite bool_decide_eq_false_2 by by intros [].
    cbn [reject_if]. rewrite !bind_Ok_l, IH by done. done.
Qed.

(** The entries of the map, each with a commitment. *)
Definition entries_committed (verified : VerifiedRecoveryCeremonyRequest)
    (m : list (string * VerifiedRecoveryCeremonyResponse)) : Prop :=
  NoDup (m.*1) ∧ Forall (λ kv, kv.1 = cx_participant_fingerprint (vrx_response kv.2) ∧
    ∃ key bk rb, committed verified (vrx_response kv.2) key bk rb) m.

Lemma responses_map_committed verified t rs m :
  Forall (response_ok verified t) rs → responses_map rs m → entries_committed verified m.
Proof.
  intros Hok [Hs Hel]. split; [by apply strictly_sorted_NoDup|]. apply list.Forall_forall.
  intros kv (r & Hr & ->)%Hel. split; [done|]. cbn. rewrite list.Forall_forall in Hok.
  by eapply response_committed, Hok.
Qed.

Lemma entries_committed_cons verified k v m :
  entries_committed verified ((k, v) :: m) →
  k ∉ m.*1 ∧ k = cx_participant_fingerprint (vrx_response v) ∧
  (∃ key bk rb, committed verified (vrx_response v) key bk rb) ∧ entries_committed verified m.
Proof.
  intros [Hnd Hf]. cbn in Hnd. apply NoDup_cons in Hnd as [Hk Hnd]. apply Forall_cons_iff in Hf as [[? ?] Hf].
  by split_and!.
Qed.

(** At most one participant is the next key. *)
Lemma one_next_key verified m :
  entries_committed verified m → length (omap next_key_signature (m.*2)) <= 1.
Proof.
  assert (∀ m, entries_committed verified m →
    xs_next_key_fingerprint (vq_statement verified) ∉ m.*1 → omap next_key_signature (m.*2) = []) as H0.
  { clear m. intros m. induction m as [|[k v] m IH]; intros Hm Hk; [done|].
    apply entries_committed_cons in Hm as (_ & -> & (key & bk & rb & Hc) & Hm).
    cbn in Hk |- *. unfold next_key_signature at 1.
    destruct (cx_role (vrx_response v)) eqn:Er; [apply IH; set_solver|].
    apply (committed_next_key _ _ _ _ _ Hc) in Er. set_solver. }
  induction m as [|[k v] m IH]; intros Hm; [cbn; lia|].
  apply entries_committed_cons in Hm as (Hk & -> & (key & bk & rb & Hc) & Hm).
  cbn. unfold next_key_signature at 1. destruct (cx_role (vrx_response v)) eqn:Er; [by apply IH|].
  apply (committed_next_key _ _ _ _ _ Hc) in Er. rewrite H0; [done|done|by rewrite <- Er].
Qed.

(** The authority signatures pass the checks of a signature set. *)
Lemma authority_checks verified m :
  strictly_sorted (ps_recovery_key_fingerprints (vp_statement (vq_selected_policy verified))) →
  entries_committed verified m →
  ∃ checks, ck_signature <$> checks = omap authority_signature (m.*2) ∧
    NoDup (ck_fingerprint <$> checks) ∧
    (∀ f, f ∈ ck_fingerprint <$> checks ↔
      ∃ v, (f, v) ∈ m ∧ cx_role (vrx_response v) = RecoveryAuthority) ∧
    Forall (checked_signature RECOVERY_TRANSITION_AUTHORITY_NAMESPACE) checks ∧
    Forall (λ c, ck_fingerprint c ∈
        ps_recovery_key_fingerprints (vp_statement (vq_selected_policy verified)) ∧
      sshsig_verify (vq_statement_payload verified) (sg_value (ck_signature c)) (ck_public_key c)
        RECOVERY_TRANSITION_AUTHORITY_NAMESPACE = Ok tt) checks.
Proof.
  intros Hs. induction m as [|[k v] m IH]; intros Hm.
  { exists []. split_and!; [done|constructor| |constructor|constructor].
    intros f. split; [by intros ?%not_elem_of_nil|]. by intros (? & ?%not_elem_of_nil & _). }
  apply entries_committed_cons in Hm as (Hk & -> & (key & bk & rb & Hc) & Hm).
  destruct (IH Hm) as (checks & Hsig & Hnd & Hel & Hck & Hok). cbn. unfold authority_signature at 1.
  destruct (cx_role (vrx_response v)) eqn:Er.
  - exists ({| ck_signature := cx_signature (vrx_response v); ck_public_key := key;
               ck_fingerprint := cx_participant_fingerprint (vrx_response v) |} :: checks).
    pose proof (committed_authority _ _ _ _ _ Hc Er Hs) as Ha. destruct Hc as [_ Hv Hf _ Hsv _ _ _].
    rewrite Er in Hv, Hsv. cbn. split_and!.
    + by rewrite Hsig.
    + apply NoDup_cons. split; [|done]. rewrite Hel. intros (v' & Hin & _). apply Hk.
      by eapply (list_elem_of_fmap_2' fst) in Hin.
    + intros f. rewrite elem_of_cons, Hel. setoid_rewrite elem_of_cons. naive_solver.
    + by constructor.
    + by constructor.
  - exists checks. split_and!; [done|done| |done|done]. intros f. rewrite Hel.
    setoid_rewrite elem_of_cons. naive_solver congruence.
Qed.

(** ** Verified requests *)

(** What verifying a request establishes: the history it carries is accepted
    up to its head, and the candidate is bound to the policy in force. *)
Record request_verified (request : RecoveryCeremonyRequest) (t : Z)
    (verified : VerifiedRecoveryCeremonyRequest) (root : VerifiedPersonaRoot)
    (policies : list VerifiedRecoveryPolicy) (latest : VerifiedRecoveryPolicy)
    (vs : list VerifiedPersonaContinuityTransition) (h : ChainHead) : Prop := {
  rv_request : vq_request verified = request;
  rv_accepted : mixed_accepted (cq_root_proof request) (cq_prior_transitions request)
    (cq_recovery_policies request) (cq_expected_root_statement_sha256 request)
    (cq_expected_latest_policy_sha256 request) t root policies latest vs h;
  rv_root : mc_root (vq_chain verified) = root;
  rv_transitions : mc_transitions (vq_chain verified) = vs;
  rv_extension receipt :
    validate_verified_recovery_aware_continuity_chain_extension (vq_chain verified) receipt =
    validate_verified_recovery_aware_continuity_chain_extension (chain_of root policies latest vs t)
      receipt;
  rv_at_head : validate_recovery_aware_transition_at_head (vq_chain verified)
    (xs_sequence (cq_statement request)) (xs_persona_anchor (cq_statement request))
    (xs_persona (cq_statement request)) (xs_root_statement_sha256 (cq_statement request))
    (xs_previous_transition_sha256 (cq_statement request))
    (xs_previous_key_fingerprint (cq_statement request))
    (xs_next_key_fingerprint (cq_statement request)) (xs_issued_at (cq_statement request)) = Ok tt;
  rv_policies : mc_policies (vq_chain verified) = policies;
  rv_policy : recovery_policy_for_transition policies (cq_statement request) =
    Ok (vq_selected_policy verified);
  rv_binding : validate_recovery_transition_binding root (vq_selected_policy verified)
    (cq_statement request) = Ok tt;
  rv_payload : canonical_recovery_transition_statement_bytes (cq_statement request) =
    Ok (vq_statement_payload verified);
  rv_policy_count : (len (cq_recovery_policies request) <= MAX_RECOVERY_POLICY_VERSIONS)%N;
}.

Lemma request_policy_count request bs :
  canonical_recovery_ceremony_request_bytes request = Ok bs →
  (len (cq_recovery_policies request) <= MAX_RECOVERY_POLICY_VERSIONS)%N.
Proof.
  unfold canonical_recovery_ceremony_request_bytes, validate_request_structure.
  rewrite !seq_Ok. intros [(_ & _ & _ & Hc & _) _].
  rewrite reject_if_Ok, orb_false_iff, N.ltb_ge in Hc. tauto.
Qed.

Lemma verified_request_sound request t verified :
  verify_recovery_ceremony_request request t = Ok verified →
  ∃ root policies latest vs h, request_verified request t verified root policies latest vs h.
Proof.
  unfold verify_recovery_ceremony_request. rewrite seq_Ok. intros [_ H]. unbind H as bs Hbs.
  unbind H as chain Hchain. unbind H as policy Hpol. rewrite seq_Ok in H. destruct H as [_ H].
  unbind H as payload Hpl. unbind H as key _. injection H as <-.
  unfold verify_persona_continuity_chain_with_recovery_with_verified_sequence_at_checkpoint in Hchain.
  unbind Hchain as c Hc. rewrite seq_Ok in Hchain. destruct Hchain as [_ [= <-]].
  apply mixed_verified_iff in Hc as (root & policies & latest & vs & h & Ha & ->).
  unfold validate_recovery_ceremony_candidate in Hpol. rewrite !seq_Ok in Hpol.
  destruct Hpol as (_ & _ & Hpol). unbind Hpol as n _. unbind Hpol as f _. rewrite !seq_Ok in Hpol.
  destruct Hpol as (_ & Hh & Hpol). unbind Hpol as p Hp. rewrite seq_Ok in Hpol.
  destruct Hpol as [Hb [= <-]]. exists root, policies, latest, vs, h.
  split; try done. by eapply request_policy_count.
Qed.

(** The integers of the candidate are within their widths. *)
Lemma request_in_range request t verified root policies latest vs h :
  request_verified request t verified root policies latest vs h →
  (xs_sequence (cq_statement request) <= u32_max)%N ∧
  (xs_recovery_policy_version (cq_statement request) <= u32_max)%N ∧
  policy_wf (vp_statement (vq_selected_policy verified)).
Proof.
  intros Hr. pose proof (rv_accepted _ _ _ _ _ _ _ _ Hr) as Ha.
  pose proof (proj1 (recovery_policy_for_transition_Ok _ _ _) (rv_policy _ _ _ _ _ _ _ _ Hr)) as Hf.
  pose proof (policy_in_force_elem _ _ _ Hf) as Hin. destruct Hf as (i & Hi & Hv & _).
  split_and!; [| |by eapply accepted_policies_sorted].
  - pose proof (rv_at_head _ _ _ _ _ _ _ _ Hr) as H. unfold validate_recovery_aware_transition_at_head in H.
    rewrite !seq_Ok in H. destruct H as (_ & _ & H). unbind H as s Hs. rewrite seq_Ok in H.
    destruct H as [Hq _]. oks Hq. oks Hs. subst. lia.
  - apply list_find_Some in Hi as (Hi & _). rewrite <- Hv.
    pose proof (ma_policies _ _ _ _ _ _ _ _ _ _ _ Ha) as Hp.
    apply policy_chain_sound in Hp as (_ & _ & Hh & Hl & _). cbn in Hh, Hl.
    destruct (policy_history_lookup _ _ _ _ Hh Hi) as (-> & _). apply lookup_lt_Some in Hi.
    pose proof (rv_policy_count _ _ _ _ _ _ _ _ Hr) as Hc. unfold len, MAX_RECOVERY_POLICY_VERSIONS, u32_max in *. lia.
Qed.

(** The last step of the assembly accepts what the responses were checked for. *)
Lemma assembled_proof_verifies {crates_ok : CratesOk}
    {json_recovery_ok : SerdeOk RecoveryTransitionStatement recovery_in_range}
    request t verified root policies latest vs h m next :
  request_verified request t verified root policies latest vs h → entries_committed verified m →
  (ps_threshold (vp_statement (vq_selected_policy verified)) <=
     len (omap authority_signature (m.*2)))%N →
  list.head (omap next_key_signature (m.*2)) = Some next →
  let proof := {| xp_schema := RECOVERY_TRANSITION_PROOF_SCHEMA;
                  xp_payload := URL_SAFE_NO_PAD_encode (vq_statement_payload verified);
                  xp_recovery_signatures := omap authority_signature (m.*2);
                  xp_next_signature := next |} in
  ∃ receipt, verify_recovery_transition_proof_with_receipt root (vq_selected_policy verified) proof =
      Ok receipt ∧
    validate_verified_recovery_aware_continuity_chain_extension (vq_chain verified) receipt = Ok tt.
Proof.
  intros Hr Hm Hth Hn proof.
  destruct (request_in_range _ _ _ _ _ _ _ _ Hr) as (Hq & Hv & Hwf).
  destruct (authority_checks verified m (pw_sorted _ Hwf) Hm) as (checks & Hsig & Hnd & Hel & Hck & Hok).
  assert (len checks = len (omap authority_signature (m.*2))) as Hlen
    by (by rewrite <- Hsig, len_fmap).
  assert (len checks <= 32)%N as Hmax.
  { pose proof (pw_authorities _ Hwf) as Ha. rewrite <- (len_fmap ck_fingerprint). etrans; [|apply Ha].
    apply NoDup_len_le; [done|]. intros f (c & -> & Hin)%list_elem_of_fmap.
    rewrite list.Forall_forall in Hok. by apply Hok. }
  pose proof (pw_threshold _ Hwf) as Ht.
  destruct (checks_verify (vq_statement_payload verified) _ _
    (ps_threshold (vp_statement (vq_selected_policy verified))) checks Hnd Hck Hok)
    as (seen & Hun & Hver & _); [lia|lia|]. rewrite Hsig in Hun, Hver.
  assert (∃ r key bk rb, committed verified r key bk rb ∧ cx_role r = NextKey ∧ cx_signature r = next)
    as (r & key & bk & rb & Hc & Er & <-).
  { destruct (omap next_key_signature (m.*2)) as [|s l] eqn:El; [done|]. cbn in Hn. injection Hn as ->.
    assert (next ∈ omap next_key_signature (m.*2)) as Hin by (rewrite El; left).
    apply list_elem_of_omap in Hin as (v & Hvm & Hs). apply list_elem_of_fmap in Hvm as ([k v'] & -> & Hkv).
    destruct Hm as [_ Hm]. rewrite list.Forall_forall in Hm. destruct (Hm _ Hkv) as (_ & key & bk & rb & Hc).
    unfold next_key_signature in Hs. cbn in *. destruct (cx_role (vrx_response v')) eqn:Er; [done|].
    injection Hs as <-. eauto 10. }
  pose proof (committed_next_key _ _ _ _ _ Hc Er) as Efp.
  destruct Hc as [_ Hkey Hkf _ Hsv _ _ _]. rewrite Er in Hkey, Hsv. rewrite Efp in Hkf.
  unfold vq_statement in Hkf. rewrite (rv_request _ _ _ _ _ _ _ _ Hr) in Hkf. cbn in Hkey, Hsv.
  eexists. split.
  - unfold verify_recovery_transition_proof_with_receipt, preflight_recovery_transition_proof, proof.
    rewrite (created_recovery_decodes (cq_statement request) _ _ _ Hq Hv (rv_payload _ _ _ _ _ _ _ _ Hr)).
    cbn [xp_recovery_signatures xp_next_signature]. rewrite bind_Ok_l, Hun, bind_Ok_l, Hkey, bind_Ok_l, Hkf, bind_Ok_l.
    rewrite bool_decide_eq_true_2 by done. cbn [negb reject_if]. rewrite !bind_Ok_l.
    cbn [xpf_statement xpf_payload xpf_next_public_key].
    rewrite (rv_binding _ _ _ _ _ _ _ _ Hr), bind_Ok_l, Hver, bind_Ok_l, Hsv, bind_Ok_l. done.
  - unfold validate_verified_recovery_aware_continuity_chain_extension. cbn [xr_transition vx_statement].
    rewrite (rv_at_head _ _ _ _ _ _ _ _ Hr), bind_Ok_l, (rv_policies _ _ _ _ _ _ _ _ Hr).
    rewrite (rv_policy _ _ _ _ _ _ _ _ Hr), bind_Ok_l. cbn [xr_policy_statement xr_policy_statement_sha256].
    rewrite !bool_decide_eq_true_2 by done. cbn [negb orb reject_if]. rewrite bind_Ok_l.
    pose proof (rv_binding _ _ _ _ _ _ _ _ Hr) as Hb. unfold validate_recovery_transition_binding in Hb.
    rewrite !seq_Ok in Hb. tauto.
Qed.

(** ** When the responses suffice *)

Definition current_at (st : RecoveryTransitionStatement) (t : Z) : Prop :=
  ∃ e, xs_expires_at st = Some e ∧ (xs_issued_at st <= t < e)%Z.

Lemma ensure_ceremony_current_Ok st t : ensure_ceremony_current st t = Ok tt ↔ current_at st t.
Proof.
  unfold ensure_ceremony_current, current_at. rewrite bind_Ok. setoid_rewrite ok_or_Ok.
  setoid_rewrite seq_Ok. setoid_rewrite reject_if_Ok. setoid_rewrite Z.ltb_ge.
  setoid_rewrite Z.leb_gt. naive_solver lia.
Qed.

Lemma validate_ceremony_time_Ok field t :
  validate_ceremony_time field t = Ok tt ↔ (0 <= t <= MAX_JCS_SAFE_INTEGER)%Z.
Proof.
  unfold validate_ceremony_time.
  destruct (Z.leb_spec 0 t), (Z.leb_spec t MAX_JCS_SAFE_INTEGER); cbn; naive_solver lia.
Qed.

Lemma not_before_Ok verified t :
  ensure_not_before_prior_verification verified t = Ok tt ↔
  (0 <= t <= MAX_JCS_SAFE_INTEGER)%Z ∧ (vq_verified_at verified <= t)%Z.
Proof.
  unfold ensure_not_before_prior_verification.
  by rewrite seq_Ok, validate_ceremony_time_Ok, reject_if_Ok, Z.ltb_ge.
Qed.

(** The participants of one role, by fingerprint. *)
Definition participated (rs : list RecoveryCeremonyResponse) (role : RecoveryCeremonyParticipantRole)
    (f : string) : Prop :=
  ∃ r, r ∈ rs ∧ cx_role r = role ∧ cx_participant_fingerprint r = f.

Record assembly_complete (verified : VerifiedRecoveryCeremonyRequest)
    (rs : list RecoveryCeremonyResponse) (t : Z) : Prop := {
  ac_time : (0 <= t <= MAX_JCS_SAFE_INTEGER)%Z ∧ (vq_verified_at verified <= t)%Z;
  ac_current : current_at (vq_statement verified) t;
  ac_count : (1 <= len rs <= MAX_RECOVERY_CEREMONY_RESPONSES)%N;
  ac_responses : Forall (response_ok verified t) rs;
  ac_no_conflict : no_conflict rs;
  ac_threshold : ∃ fps, NoDup fps ∧
    (ps_threshold (vp_statement (vq_selected_policy verified)) <= len fps)%N ∧
    ∀ f, f ∈ fps → participated rs RecoveryAuthority f;
  ac_next_key : ∃ f, participated rs NextKey f;
}.

Lemma authority_count_iff verified rs m :
  policy_wf (vp_statement (vq_selected_policy verified)) →
  responses_map rs m → entries_committed verified m →
  (∃ fps, NoDup fps ∧ (ps_threshold (vp_statement (vq_selected_policy verified)) <= len fps)%N ∧
    ∀ f, f ∈ fps → participated rs RecoveryAuthority f) ↔
  (ps_threshold (vp_statement (vq_selected_policy verified)) <=
     len (omap authority_signature (m.*2)))%N.
Proof.
  intros Hwf [_ Hmap] Hm.
  destruct (authority_checks verified m (pw_sorted _ Hwf) Hm) as (checks & Hsig & Hnd & Hel & _).
  assert (len (omap authority_signature (m.*2)) = len (ck_fingerprint <$> checks)) as ->.
  { by rewrite <- Hsig, !len_fmap. }
  assert (∀ f, f ∈ ck_fingerprint <$> checks ↔ participated rs RecoveryAuthority f) as Hp.
  { intros f. rewrite Hel. setoid_rewrite Hmap. unfold participated. naive_solver. }
  split.
  - intros (fps & Hnf & Hle & Hin). etrans; [exact Hle|].
    apply NoDup_len_le; [done|]. intros f Hf. by apply Hp, Hin.
  - intros Hle. exists (ck_fingerprint <$> checks). split_and!; [done..|]. intros f. apply Hp.
Qed.

Lemma next_key_iff rs m :
  responses_map rs m →
  (∃ f, participated rs NextKey f) ↔ is_Some (list.head (omap next_key_signature (m.*2))).
Proof.
  intros [_ Hmap]. transitivity (∃ s, s ∈ omap next_key_signature (m.*2)).
  - setoid_rewrite list_elem_of_omap. setoid_rewrite list_elem_of_fmap. unfold participated, next_key_signature.
    split.
    + intros (f & r & Hr & Er & _). exists (cx_signature r), {| vrx_response := r |}. cbn. rewrite Er.
      split; [|done]. exists (cx_participant_fingerprint r, {| vrx_response := r |}).
      split; [done|]. apply Hmap. eauto.
    + intros (s & v & ([k v'] & -> & Hin) & Hs). cbn in Hs. apply Hmap in Hin as (r & Hr & [= -> ->]).
      cbn in Hs. destruct (cx_role r) eqn:Er; [done|]. eauto.
  - destruct (omap next_key_signature (m.*2)) as [|s l].
    + split; [by intros (s & ?%not_elem_of_nil)|by intros [? ?]].
    + split; [by eexists|]. intros _. exists s. left.
Qed.

(** A ceremony can be completed exactly when its participants did their
    part: for a verified request, assembling succeeds if and only if the time
    is after the verification and within the statement's life, there are 1 to
    33 responses, all of them verify, no participant sent two different ones,
    a threshold of distinct authorities is among them and so is the next key.
    The final verification of the assembled proof, against the policy and
    against the head of the history, never refuses. *)
Theorem assembly_succeeds_when_complete {crates_ok : CratesOk}
    {json_recovery_ok : SerdeOk RecoveryTransitionStatement recovery_in_range}
    request t0 verified rs t :
  verify_recovery_ceremony_request request t0 = Ok verified →
  is_ok (assemble_recovery_ceremony_proof verified rs t) = true ↔ assembly_complete verified rs t.
Proof.
  intros (root & policies & latest & vs & h & Hr)%verified_request_sound.
  destruct (request_in_range _ _ _ _ _ _ _ _ Hr) as (_ & _ & Hwf).
  unfold assemble_recovery_ceremony_proof. split.
  - intros H. destruct (_;; _) as [proof| |] eqn:E in H; [clear H|done..]. rewrite !seq_Ok in E.
    destruct E as (Ht & Hc & Hn & E). unbind E as m Hm. apply collect_fold_sound in Hm as (Hok & Hnc & Hm).
    pose proof (responses_map_committed _ _ _ _ Hok Hm) as Hcm.
    rewrite take_fold, bind_Ok_l in E by (cbn; by apply (one_next_key verified)).
    rewrite seq_Ok in E. destruct E as [Hth E]. unbind E as next Hnext. clear E.
    rewrite reject_if_Ok, N.ltb_ge in Hth. rewrite ok_or_Ok in Hnext. cbn in Hth, Hnext.
    rewrite reject_if_Ok, orb_false_iff, N.eqb_neq, N.ltb_ge in Hn.
    split; [by apply not_before_Ok|by apply ensure_ceremony_current_Ok|lia|done|done| |].
    + by apply (authority_count_iff verified rs m).
    + apply (next_key_iff rs m); [done|]. by rewrite Hnext.
  - intros [Ht Hc Hn Hok Hnc Hth Hnk]. rewrite (proj2 (not_before_Ok _ _) Ht), bind_Ok_l.
    rewrite (proj2 (ensure_ceremony_current_Ok _ _) Hc), bind_Ok_l.
    rewrite (proj2 (N.eqb_neq _ 0)), (proj2 (N.ltb_ge _ (len rs))) by lia. cbn [orb reject_if].
    destruct (collect_fold_total verified t rs Hok Hnc) as [m Hfold]. rewrite bind_Ok_l, Hfold, bind_Ok_l.
    apply collect_fold_sound in Hfold as (_ & _ & Hm).
    pose proof (responses_map_committed _ _ _ _ Hok Hm) as Hcm.
    rewrite take_fold, bind_Ok_l by (cbn; by apply (one_next_key verified)).
    apply (authority_count_iff verified rs m Hwf Hm Hcm) in Hth. apply (next_key_iff rs m Hm) in Hnk as [next Hnext].
    change (option_list None ++ ?l) with l. rewrite !app_nil_l.
    rewrite (proj2 (N.ltb_ge _ _) Hth), Hnext. cbn [reject_if ok_or]. rewrite !bind_Ok_l.
    destruct (assembled_proof_verifies _ _ _ _ _ _ _ _ _ _ Hr Hcm Hth Hnext) as (receipt & Hv & Hx).
    by rewrite (rv_root _ _ _ _ _ _ _ _ Hr), Hv, bind_Ok_l, Hx.
Qed.

(** ** What an assembled proof is worth *)

Lemma assemble_inv verified rs t proof :
  assemble_recovery_ceremony_proof verified rs t = Ok proof →
  ∃ m next receipt, Forall (response_ok verified t) rs ∧ no_conflict rs ∧ responses_map rs m ∧
    proof = {| xp_schema := RECOVERY_TRANSITION_PROOF_SCHEMA;
               xp_payload := URL_SAFE_NO_PAD_encode (vq_statement_payload verified);
               xp_recovery_signatures := omap authority_signature (m.*2);
               xp_next_signature := next |} ∧
    verify_recovery_transition_proof_with_receipt (mc_root (vq_chain verified))
      (vq_selected_policy verified) proof = Ok receipt ∧
    validate_verified_recovery_aware_continuity_chain_extension (vq_chain verified) receipt = Ok tt.
Proof.
  unfold assemble_recovery_ceremony_proof. rewrite !seq_Ok. intros (_ & _ & _ & H).
  unbind H as m Hm. apply collect_fold_sound in Hm as (Hok & Hnc & Hm).
  pose proof (responses_map_committed _ _ _ _ Hok Hm) as Hcm.
  rewrite take_fold, bind_Ok_l in H by (cbn; by apply (one_next_key verified)).
  rewrite seq_Ok in H. destruct H as [_ H]. unbind H as next _. unbind H as receipt Hrec.
  rewrite seq_Ok in H. destruct H as [Hx [= <-]]. exists m, next, receipt. by split_and!.
Qed.

(** A counted signature comes from a response of its key's holder. *)
Lemma signature_committed verified t rs m s key f :
  Forall (response_ok verified t) rs → responses_map rs m →
  s ∈ omap authority_signature (m.*2) → normalize_public_key (sg_public_key s) = Ok key →
  public_key_fingerprint key = Ok f →
  ∃ r key' binding_key request_bytes, r ∈ rs ∧ cx_participant_fingerprint r = f ∧
    cx_role r = RecoveryAuthority ∧ committed verified r key' binding_key request_bytes.
Proof.
  intros Hok [_ Hel] (v & Hv & Hs)%list_elem_of_omap Hkey Hf.
  apply list_elem_of_fmap in Hv as ([k w] & -> & Hin). apply Hel in Hin as (r & Hr & [= -> ->]).
  unfold authority_signature in Hs. cbn in Hs. destruct (cx_role r) eqn:Er; [|done]. injection Hs as <-.
  rewrite list.Forall_forall in Hok. destruct (response_committed _ _ _ (Hok r Hr)) as (key' & bk & rb & Hc).
  exists r, key', bk, rb. split_and!; [done| |done|done]. pose proof (cm_key _ _ _ _ _ Hc) as Hk.
  apply validate_recovery_signature_Ok in Hk as [_ Hk]. rewrite Hkey in Hk. injection Hk as <-.
  pose proof (cm_fingerprint _ _ _ _ _ Hc). congruence.
Qed.

(** C35: an assembled proof extends the history of its request, and every
    authority it counts approved exactly that request: verifying the prior
    entries followed by the assembled recovery, with the same policies and
    pins, succeeds and ends with the request's statement, and each counted
    authority sent a response with a signature over the statement and another
    one, by a key with the same fingerprint, over the bytes of the request. *)
Theorem assembled_recovery_extends_history {crates_ok : CratesOk}
    {json_recovery_ok : SerdeOk RecoveryTransitionStatement recovery_in_range}
    request t0 verified rs t proof :
  verify_recovery_ceremony_request request t0 = Ok verified →
  assemble_recovery_ceremony_proof verified rs t = Ok proof →
  ∃ v chain', verify_persona_continuity_chain_with_recovery_with_verified_sequence
      (cq_root_proof request) (cq_prior_transitions request ++ [ProofRecovery proof])
      (cq_recovery_policies request) (cq_expected_root_statement_sha256 request)
      (cq_expected_latest_policy_sha256 request) t0 = Ok chain' ∧
    mc_transitions chain' = mc_transitions (vq_chain verified) ++ [VerifiedRecovery v] ∧
    vx_statement v = cq_statement request ∧
    (ps_threshold (vp_statement (vq_selected_policy verified)) <=
       len (vx_recovery_signer_fingerprints v))%N ∧
    ∀ f, f ∈ vx_recovery_signer_fingerprints v → ∃ r key binding_key request_bytes,
      r ∈ rs ∧ cx_participant_fingerprint r = f ∧ cx_role r = RecoveryAuthority ∧
      committed verified r key binding_key request_bytes.
Proof.
  intros (root & policies & latest & vs & h & Hr)%verified_request_sound Hasm.
  pose proof (rv_accepted _ _ _ _ _ _ _ _ Hr) as Ha.
  apply assemble_inv in Hasm as (m & next & receipt & Hok & _ & Hm & Hp & Hv & Hx).
  rewrite (rv_root _ _ _ _ _ _ _ _ Hr) in Hv. rewrite (rv_extension _ _ _ _ _ _ _ _ Hr) in Hx.
  assert (vq_selected_policy verified ∈ policies) as Hin.
  { eapply policy_in_force_elem, recovery_policy_for_transition_Ok, (rv_policy _ _ _ _ _ _ _ _ Hr). }
  assert (∃ chain', verify_persona_continuity_chain_with_recovery_with_verified_sequence
      (cq_root_proof request) (cq_prior_transitions request ++ [ProofRecovery proof])
      (cq_recovery_policies request) (cq_expected_root_statement_sha256 request)
      (cq_expected_latest_policy_sha256 request) t0 = Ok chain' ∧
    mc_transitions chain' = vs ++ [VerifiedRecovery (xr_transition receipt)]) as (chain' & Hc & Ht).
  { apply (batch_extends _ _ _ _ _ _ _ _ _ _ _ _ _ Ha).
    apply (recovery_extension_iff _ _ _ _ _ _ _ _ _ _ _ _ _ Ha). eauto 10. }
  destruct (recovery_receipt_Ok _ _ _ _ Hv) as (Hver & _ & _).
  destruct (verify_recovery_sound _ _ _ _ Hver) as [payload Hra].
  exists (xr_transition receipt), chain'. rewrite (rv_transitions _ _ _ _ _ _ _ _ Hr).
  split_and!; [done..| | |].
  - destruct (request_in_range _ _ _ _ _ _ _ _ Hr) as (Hq & Hpv & _).
    pose proof (ra_decoded _ _ _ _ _ Hra) as Hd. rewrite Hp in Hd.
    rewrite (created_recovery_decodes (cq_statement request) _ _ _ Hq Hpv (rv_payload _ _ _ _ _ _ _ _ Hr)) in Hd.
    by injection Hd.
  - apply (q_minimum _ _ _ _ _ _ (ra_quorum _ _ _ _ _ Hra)).
  - intros f Hf. apply (q_signed _ _ _ _ _ _ (ra_quorum _ _ _ _ _ Hra)) in Hf
      as (s & key & Hs & _ & Hkey & Hfp & _). rewrite Hp in Hs. cbn in Hs.
    by apply (signature_committed verified t rs m s key f).
Qed.

(** ** Responses that were made verify *)

Lemma new_response_verifies verified s b t t' r :
  new_recovery_ceremony_response verified s b t = Ok r →
  (0 <= t' <= MAX_JCS_SAFE_INTEGER)%Z → (vq_verified_at verified <= t')%Z →
  current_at (vq_statement verified) t' → response_ok verified t' r.
Proof.
  unfold new_recovery_ceremony_response. rewrite !seq_Ok. intros (_ & _ & H) Ht Hb Hc.
  unbind H as key Hkey. unbind H as f Hf. unbind H as role Hrole. unbind H as key' Hval.
  pose proof (validate_recovery_signature_Ok _ _ _ Hval) as [_ Hkey']. rewrite Hkey in Hkey'.
  injection Hkey' as <-. unbind H as bk Hbk. unbind H as bf Hbf. rewrite !seq_Ok in H.
  destruct H as (Hm & Hsv & H). rewrite reject_if_Ok, negb_false_iff, bool_decide_eq_true in Hm. subst bf.
  unbind H as rb Hrb. rewrite seq_Ok in H.
  destruct H as [Hbv H]. unbind H as bs Hbs. injection H as <-.
  unfold response_ok, verify_recovery_ceremony_response.
  rewrite (proj2 (not_before_Ok _ _) (conj Ht Hb)), bind_Ok_l.
  rewrite (proj2 (ensure_ceremony_current_Ok _ _) Hc), bind_Ok_l, Hbs, bind_Ok_l.
  cbn [cx_request_sha256 cx_signature cx_role cx_participant_fingerprint cx_request_binding_signature].
  rewrite bool_decide_eq_true_2 by done. cbn [negb reject_if]. rewrite bind_Ok_l, Hval, bind_Ok_l, Hf, bind_Ok_l.
  rewrite bool_decide_eq_true_2 by done. cbn [negb reject_if]. rewrite bind_Ok_l, Hrole, bind_Ok_l.
  rewrite bool_decide_eq_true_2 by done. cbn [negb reject_if]. rewrite bind_Ok_l, Hbk, bind_Ok_l, Hbf, bind_Ok_l.
  rewrite bool_decide_eq_true_2 by done. cbn [negb reject_if].
  by rewrite bind_Ok_l, Hsv, bind_Ok_l, Hrb, bind_Ok_l, Hbv.
Qed.

(** A response signed by the program verifies for as long as the ceremony
    runs, and states the role that the review showed the participant. *)
Theorem signed_response_verifies {keygen : SshKeygen} verified signer t t' r :
  sign_recovery_ceremony_request verified signer t = Ok r →
  (t <= t' <= MAX_JCS_SAFE_INTEGER)%Z → current_at (vq_statement verified) t' →
  verify_recovery_ceremony_response verified r t' = Ok {| vrx_response := r |} ∧
  ∃ review, review_recovery_ceremony_participant verified (rsn_public_key signer) t = Ok review ∧
    (utf8_valid (rsn_public_key signer) = true →
     cw_role review = cx_role r ∧ cw_participant_fingerprint review = cx_participant_fingerprint r).
Proof.
  unfold sign_recovery_ceremony_request. intros H Ht Hc. unbind H as review Hrev.
  unbind H as s Hs. unbind H as rb Hrb. unbind H as b Hbind. pose proof H as Hnew.
  assert ((0 <= t <= MAX_JCS_SAFE_INTEGER)%Z ∧ (vq_verified_at verified <= t)%Z) as [Ht0 Ht1].
  { unfold new_recovery_ceremony_response in H. rewrite !seq_Ok in H. by apply not_before_Ok, H. }
  split; [apply (new_response_verifies _ _ _ _ _ _ H); [lia|lia|done]|].
  exists review. split; [done|]. intros Hu.
  unfold sign_one in Hs. unbind Hs as n Hn. unbind Hs as value _. rewrite seq_Ok in Hs.
  destruct Hs as [_ [= <-]]. pose proof (normalize_canonical _ _ Hu Hn) as Hnn.
  unfold new_recovery_ceremony_response in Hnew. cbn [recovery_signature sg_public_key] in Hnew.
  rewrite !seq_Ok in Hnew. destruct Hnew as (_ & _ & Hnew). rewrite Hnn, bind_Ok_l in Hnew.
  unbind Hnew as f Hf. unbind Hnew as role Hrole. unbind Hnew as key' _. unbind Hnew as bk _.
  unbind Hnew as bf _. rewrite !seq_Ok in Hnew. destruct Hnew as (_ & _ & Hnew). unbind Hnew as rb' _.
  rewrite seq_Ok in Hnew. destruct Hnew as [_ Hnew]. unbind Hnew as bs _. injection Hnew as <-.
  cbn [cx_role cx_participant_fingerprint].
  unfold review_recovery_ceremony_participant in Hrev. rewrite !seq_Ok in Hrev.
  destruct Hrev as (_ & _ & Hrev). rewrite Hn, bind_Ok_l, Hf, bind_Ok_l, Hrole, bind_Ok_l in Hrev.
  unbind Hrev as cid _. unbind Hrev as e _. by injection Hrev as <-.
Qed.

End facts.
