(* ===== verification/Names.v ===== *)
(** * DNS names and address literals

    The parts of [core::str] and [core::net] that the domain proofs use:
    searching, suffixes, splitting at a character, ASCII lower case, and
    whether a text parses as an [IpAddr]. *)

From stdpp Require Import base numbers list strings option.
From Stdlib Require Import Strings.Byte Ascii.
From S2P Require Import Prelude Text.

(** ** Searching and splitting *)

(** [str::starts_with] *)
Definition starts_with (p s : string) : bool := bool_decide (is_Some (strip_prefix p s)).

(** [str::contains] *)
Fixpoint str_contains (p s : string) : bool :=
  starts_with p s || match s with EmptyString => false | String _ s' => str_contains p s' end.

(** [str::ends_with] *)
Fixpoint ends_with (p s : string) : bool :=
  bool_decide (s = p) || match s with EmptyString => false | String _ s' => ends_with p s' end.

(** [str::strip_suffix] of one character *)
Fixpoint strip_suffix_char (c : ascii) (s : string) : option string :=
  match s with
  | EmptyString => None
  | String a EmptyString => if Ascii.eqb a c then Some EmptyString else None
  | String a s' => String a <$> strip_suffix_char c s'
  end.

(** [str::split] at one character *)
Fixpoint split_on (sep : ascii) (s : string) : list string :=
  match s with
  | EmptyString => [EmptyString]
  | String c s' =>
      if Ascii.eqb c sep then EmptyString :: split_on sep s'
      else match split_on sep s' with
           | w :: ws => String c w :: ws
           | [] => []
           end
  end.

(** [str::to_ascii_lowercase] *)
Definition ascii_lower (c : ascii) : ascii :=
  if is_ascii_uppercase c then ascii_of_N (ascii_val c + 32) else c.

Fixpoint to_ascii_lowercase (s : string) : string :=
  match s with
  | EmptyString => EmptyString
  | String c s' => String (ascii_lower c) (to_ascii_lowercase s')
  end.

(** ** [IpAddr::from_str] *)

(** [char::to_digit] *)
Definition to_digit (radix : N) (c : ascii) : option N :=
  let n := ascii_val c in
  let d := if in_range 48 57 n then Some (n - 48)%N
    else if in_range 97 122 n then Some (n - 87)%N
    else if in_range 65 90 n then Some (n - 55)%N
    else None in
  d ≫= λ d, if (d <? radix)%N then Some d else None.

(** The leading digits of a text and what follows them. *)
Fixpoint leading_digits (radix : N) (s : string) : list N * string :=
  match s with
  | EmptyString => ([], EmptyString)
  | String c s' =>
      match to_digit radix c with
      | Some d => let '(ds, rest) := leading_digits radix s' in (d :: ds, rest)
      | None => ([], s)
      end
  end.

(** [Parser::read_number]: at most [max_digits] digits, a value of at most
    [max_value]; the text after them. *)
Definition read_number (radix max_digits max_value : N) (allow_zero_prefix : bool) (s : string) :
    option string :=
  let '(ds, rest) := leading_digits radix s in
  let count := len ds in
  let has_leading_zero := match ds with 0%N :: _ => true | _ => false end in
  if (max_digits <? count)%N then None
  else if (count =? 0)%N then None
  else if negb allow_zero_prefix && has_leading_zero && (1 <? count)%N then None
  else if (foldl (λ r d, r * radix + d) 0 ds <=? max_value)%N then Some rest
  else None.

(** [Parser::read_separator] *)
Definition read_separator (sep : ascii) (index : nat) (inner : string → option string) (s : string) :
    option string :=
  match index with
  | O => inner s
  | S _ => strip_prefix (String sep EmptyString) s ≫= inner
  end.

Definition read_octet : string → option string := read_number 10 3 255 false.

(** [Parser::read_ipv4_addr] *)
Definition read_ipv4_addr (s : string) : option string :=
  foldl (λ st i, st ≫= read_separator "." i read_octet) (Some s) [0; 1; 2; 3]%nat.

(** [read_groups] of [Parser::read_ipv6_addr], from the group [i] of [limit]:
    the number of groups read, whether they end in an IPv4 address, the rest. *)
Fixpoint read_groups (limit i : nat) (left : nat) (s : string) : nat * bool * string :=
  match left with
  | O => (limit, false, s)
  | S left' =>
      let ipv4 := match left' with
        | O => None
        | S _ => read_separator ":" i read_ipv4_addr s
        end in
      match ipv4 with
      | Some rest => (i + 2, true, rest)
      | None =>
          match read_separator ":" i (read_number 16 4 65535 true) s with
          | Some rest => read_groups limit (S i) left' rest
          | None => (i, false, s)
          end
      end
  end.

(** [Parser::read_ipv6_addr] *)
Definition read_ipv6_addr (s : string) : option string :=
  let '(head_size, head_ipv4, rest) := read_groups 8 0 8 s in
  if bool_decide (head_size = 8) then Some rest
  else if head_ipv4 then None
  else
    rest ← strip_prefix "::" rest;
    let limit := 8 - (head_size + 1) in
    let '(_, _, rest) := read_groups limit 0 limit rest in
    Some rest.

(** [IpAddr::from_str(s).is_ok()] *)
Definition ip_addr_parses (s : string) : bool :=
  match (match read_ipv4_addr s with Some rest => Some rest | None => read_ipv6_addr s end) with
  | Some EmptyString => true
  | _ => false
  end.

Example ip_literals :
  ip_addr_parses "192.0.2.1" = true ∧ ip_addr_parses "192.0.2.01" = false ∧
  ip_addr_parses "192.0.2.256" = false ∧ ip_addr_parses "::1" = true ∧
  ip_addr_parses "2001:db8::192.0.2.1" = true ∧ ip_addr_parses "1:2:3:4:5:6:7:8" = true ∧
  ip_addr_parses "1:2:3:4:5:6:7" = false ∧ ip_addr_parses "a.example" = false.
Proof. vm_compute. done. Qed.
