(* ===== verification/Domain.v ===== *)
(** * Domain control proofs ([crates/a-quo-core/src/domain.rs])

    The signed statement that a persona controls a DNS name, its canonical
    name, its bounded validity, what is reviewed before it is signed, and the
    TXT record that commits to it. [idna] is outside the repository: [Idna]
    holds the one function that is called. *)

From stdpp Require Import base numbers list strings pretty option.
From Stdlib Require Import Strings.Byte Ascii.
From S2P Require Import Prelude Text Ordered Display Crates ArtifactProof Names.

Definition DOMAIN_CONTROL_STATEMENT_SCHEMA : string := "urn:a-quo:statement:domain-control:v1".
Definition DOMAIN_CONTROL_NAMESPACE : string := "a-quo-domain-control-v1".
Definition DOMAIN_DEFAULT_VALIDITY_SECONDS : Z := (7 * 24 * 60 * 60)%Z.
Definition DOMAIN_MAX_VALIDITY_SECONDS : Z := (30 * 24 * 60 * 60)%Z.
Definition DOMAIN_CLOCK_SKEW_SECONDS : Z := (5 * 60)%Z.
Definition DOMAIN_NONCE_BYTES : N := 32.
Definition DNS_COMMITMENT_CONTEXT : bytes := as_bytes "a-quo-domain-dns-txt-v1" ++ [x00].
Definition DNS_TXT_PREFIX : string := "a-quo-domain-v1=".
Definition MAX_DNS_NAME_BYTES : N := 253.

Record DomainControlStatement := {
  ds_schema : string;
  ds_domain : string;
  ds_nonce : string;
  ds_issued_at : Z;
  ds_expires_at : Z;
  ds_signer : SignerClaim;
}.
Record DomainControlVerification := {
  dv_signature : EvidenceStatus;
  dv_validity : EvidenceStatus;
  dv_domain : string;
  dv_dns_record_name : string;
  dv_dns_txt_value : string;
  dv_issued_at : Z;
  dv_expires_at : Z;
  dv_signer : VerifiedSigner;
  dv_not_established : list string;
}.
Record DomainControlReview := {
  dw_domain : string;
  dw_dns_record_name : string;
  dw_dns_txt_value : string;
  dw_issued_at : Z;
  dw_expires_at : Z;
  dw_signer : SignerClaim;
}.

(** [idna::domain_to_ascii_strict]; its errors are dropped by the caller. *)
Class Idna := { domain_to_ascii_strict : string → option string }.

(** Converting to ASCII gives lower case, and converting the result again
    changes nothing (Unicode TS 46, section 4.2). *)
Class IdnaOk `{!Idna} := {
  idna_lower s a : domain_to_ascii_strict s = Some a → to_ascii_lowercase a = a;
  idna_idempotent s a : domain_to_ascii_strict s = Some a → domain_to_ascii_strict a = Some a;
}.

Definition invalid_domain (reason : string) : ProofError := InvalidDomain reason.

(** ** Names *)

Definition SPECIAL_SUFFIXES : list string :=
  ["alt"; "example"; "example.com"; "example.net"; "example.org"; "home.arpa"; "invalid";
   "local"; "localhost"; "onion"; "test"].

Definition is_special_use_domain (domain : string) : bool :=
  existsb (λ suffix, (domain == suffix) || ends_with ("." +:+ suffix) domain) SPECIAL_SUFFIXES.

Definition is_label_byte (c : ascii) : bool :=
  is_ascii_lowercase c || is_ascii_digit c || Ascii.eqb c "-".

(** The condition on a label that [canonicalize_domain] rejects. *)
Definition invalid_label (label : string) : bool :=
  (label == "") || (63 <? str_len label)%N || starts_with "-" label || ends_with "-" label ||
  negb (str_all is_label_byte label).

Section domain.
Context {crates : Crates} {idna : Idna} {json_domain : Serde DomainControlStatement}.

Definition canonicalize_domain (input : string) : Result string :=
  reject_if ((input == "") || (trim input != input))
    (invalid_domain "the name cannot be empty or contain surrounding whitespace");;
  reject_if (contains_unsafe_display_characters input)
    (invalid_domain "control, line/paragraph separator, or default-ignorable Unicode characters are not allowed");;
  reject_if (str_contains "://" input || str_contains "/" input || str_contains "\" input ||
             str_contains "@" input || str_contains ":" input || starts_with "*." input)
    (invalid_domain "expected one DNS name, not a URL, wildcard, address, or host with a port");;
  let without_root := default input (strip_suffix_char "." input) in
  reject_if ((without_root == "") || ends_with "." without_root)
    (invalid_domain "the name contains an empty DNS label");;
  converted ← ok_or (domain_to_ascii_strict without_root)
    (invalid_domain "strict IDNA conversion failed");
  let ascii := to_ascii_lowercase converted in
  reject_if (MAX_DNS_NAME_BYTES <? str_len ascii)%N
    (invalid_domain "the DNS name exceeds 253 ASCII bytes");;
  reject_if (ip_addr_parses ascii) (invalid_domain "IP address literals are not domain names");;
  let labels := split_on "." ascii in
  reject_if (len labels <? 2)%N (invalid_domain "a global DNS name requires at least two labels");;
  reject_if (existsb invalid_label labels)
    (invalid_domain "the name contains an invalid ASCII DNS label");;
  reject_if (is_special_use_domain ascii)
    (invalid_domain "special-use and documentation domains cannot carry a global control proof");;
  Ok ascii.

(** ** Statements *)

Definition validate_nonce (nonce : string) : Result unit :=
  decoded ← map_err (λ _, InvalidDomainChallenge "the nonce must be canonical unpadded Base64url")
    (of_sum (URL_SAFE_NO_PAD_decode nonce));
  reject_if ((len decoded != DOMAIN_NONCE_BYTES) || (URL_SAFE_NO_PAD_encode decoded != nonce))
    (InvalidDomainChallenge "the nonce must encode exactly 32 random bytes").

Definition validate_validity (issued_at expires_at : Z) : Result unit :=
  reject_if ((issued_at <? 0) || (expires_at <? 0))%Z
    (InvalidDomainValidity "timestamps cannot be negative");;
  duration ← ok_or (checked_sub_i64 expires_at issued_at)
    (InvalidDomainValidity "expiry must follow issuance");
  reject_if (duration <=? 0)%Z (InvalidDomainValidity "expiry must follow issuance");;
  reject_if (DOMAIN_MAX_VALIDITY_SECONDS <? duration)%Z
    (InvalidDomainValidity ("the validity window cannot exceed " +:+
      pretty DOMAIN_MAX_VALIDITY_SECONDS +:+ " seconds")).

Definition validate_current_time (statement : DomainControlStatement) (now : Z) : Result unit :=
  reject_if (saturating_add_i64 now DOMAIN_CLOCK_SKEW_SECONDS <? ds_issued_at statement)%Z
    (DomainProofNotYetValid now (ds_issued_at statement));;
  reject_if (ds_expires_at statement <? saturating_sub_i64 now DOMAIN_CLOCK_SKEW_SECONDS)%Z
    (DomainProofExpired now (ds_expires_at statement)).

Definition validate_domain_statement (statement : DomainControlStatement) : Result unit :=
  reject_if (ds_schema statement != DOMAIN_CONTROL_STATEMENT_SCHEMA)
    (Unsupported "statement schema" (escape_untrusted_text_for_terminal (ds_schema statement)));;
  canonical ← canonicalize_domain (ds_domain statement);
  reject_if (canonical != ds_domain statement)
    (invalid_domain "the signed name is not in canonical lowercase ASCII A-label form");;
  validate_nonce (ds_nonce statement);;
  validate_validity (ds_issued_at statement) (ds_expires_at statement);;
  _ ← validate_persona (sc_persona (ds_signer statement));
  validate_key_fingerprint (sc_key_fingerprint (ds_signer statement)).

Definition canonical_domain_control_statement_bytes (statement : DomainControlStatement) :
    Result bytes :=
  validate_domain_statement statement;;
  map_err Json (of_sum (json_to_vec statement)).

Definition dns_txt_commitment (payload : bytes) : string :=
  DNS_TXT_PREFIX +:+ URL_SAFE_NO_PAD_encode (Sha256_digest (DNS_COMMITMENT_CONTEXT ++ payload)).

(** [entropy] is what [getrandom::fill] puts into the nonce, or its failure. *)
Definition new_domain_control_statement (entropy : option bytes) (domain : string)
    (issued_at expires_at : Z) (public_key persona : string) : Result DomainControlStatement :=
  domain ← canonicalize_domain domain;
  validate_validity issued_at expires_at;;
  persona ← validate_persona persona;
  public_key ← normalize_public_key public_key;
  nonce ← ok_or entropy EntropyUnavailable;
  key_fingerprint ← public_key_fingerprint public_key;
  Ok {| ds_schema := DOMAIN_CONTROL_STATEMENT_SCHEMA;
        ds_domain := domain;
        ds_nonce := URL_SAFE_NO_PAD_encode nonce;
        ds_issued_at := issued_at;
        ds_expires_at := expires_at;
        ds_signer := {| sc_persona := persona; sc_key_fingerprint := key_fingerprint |} |}.

(** ** Review *)

Definition review_domain_control_statement (statement : DomainControlStatement) (now : Z)
    (public_key persona : string) : Result DomainControlReview :=
  payload ← canonical_domain_control_statement_bytes statement;
  reject_if (now <? 0)%Z (InvalidDomainValidity "review time cannot be negative");;
  validate_current_time statement now;;
  persona ← validate_persona persona;
  reject_if (sc_persona (ds_signer statement) != persona) DomainPersonaMismatch;;
  public_key ← normalize_public_key public_key;
  fingerprint ← public_key_fingerprint public_key;
  reject_if (fingerprint != sc_key_fingerprint (ds_signer statement)) FingerprintMismatch;;
  Ok {| dw_domain := ds_domain statement;
        dw_dns_record_name := ds_domain statement +:+ ".";
        dw_dns_txt_value := dns_txt_commitment payload;
        dw_issued_at := ds_issued_at statement;
        dw_expires_at := ds_expires_at statement;
        dw_signer := ds_signer statement |}.

Definition review_domain_control_statement_bytes (bs : bytes) (now : Z) (public_key persona : string) :
    Result (DomainControlStatement * DomainControlReview) :=
  statement ← map_err Json (of_sum (json_from_slice bs));
  review ← review_domain_control_statement statement now public_key persona;
  canonical ← canonical_domain_control_statement_bytes statement;
  reject_if (canonical != bs) NonCanonicalDomainStatement;;
  Ok (statement, review).

(** ** Proofs *)

Definition create_domain_control_proof_for_statement {keygen : SshKeygen}
    (statement : DomainControlStatement) (private_key_path public_key : string) :
    Result ProofBundle :=
  payload ← canonical_domain_control_statement_bytes statement;
  public_key ← normalize_public_key public_key;
  fingerprint ← public_key_fingerprint public_key;
  reject_if (fingerprint != sc_key_fingerprint (ds_signer statement)) FingerprintMismatch;;
  create_sshsig_payload_proof payload private_key_path public_key DOMAIN_CONTROL_NAMESPACE.

Definition create_domain_control_proof_with_public_key {keygen : SshKeygen} (entropy : option bytes)
    (domain : string) (issued_at expires_at : Z) (private_key_path public_key persona : string) :
    Result ProofBundle :=
  statement ← new_domain_control_statement entropy domain issued_at expires_at public_key persona;
  create_domain_control_proof_for_statement statement private_key_path public_key.

Definition create_domain_control_proof {keygen : SshKeygen} (fs : Fs) (entropy : option bytes)
    (domain : string) (issued_at expires_at : Z)
    (private_key_path public_key_path persona : string) : Result ProofBundle :=
  public_key ← read_public_key fs public_key_path;
  create_domain_control_proof_with_public_key entropy domain issued_at expires_at private_key_path
    public_key persona.

Definition verify_domain_control_proof (proof : ProofBundle) (now : Z) :
    Result DomainControlVerification :=
  reject_if (now <? 0)%Z (InvalidDomainValidity "verification time cannot be negative");;
  '(payload, public_key) ← decode_sshsig_payload proof DOMAIN_CONTROL_NAMESPACE;
  statement ← map_err Json (of_sum (json_from_slice payload));
  review ← review_domain_control_statement statement now public_key
    (sc_persona (ds_signer statement));
  sshsig_verify payload (se_value (pb_signature proof)) public_key DOMAIN_CONTROL_NAMESPACE;;
  Ok {| dv_signature := Verified;
        dv_validity := Verified;
        dv_domain := dw_domain review;
        dv_dns_record_name := dw_dns_record_name review;
        dv_dns_txt_value := dns_txt_commitment payload;
        dv_issued_at := dw_issued_at review;
        dv_expires_at := dw_expires_at review;
        dv_signer :=
          {| vs_persona := sc_persona (ds_signer statement);
             vs_key_fingerprint := sc_key_fingerprint (ds_signer statement);
             vs_identity_binding := "self_asserted" |};
        dv_not_established :=
          ["dns_publication"; "legal_domain_ownership"; "registrant_identity";
           "parent_or_subdomain_control"; "website_content_control"; "historical_dns_control";
           "trusted_timestamp"] |}.

Definition inspect_domain_control_proof (proof : ProofBundle) : Result DomainControlStatement :=
  validate_envelope proof DOMAIN_CONTROL_NAMESPACE;;
  payload ← decode_payload (pb_payload proof);
  statement ← map_err Json (of_sum (json_from_slice payload));
  validate_domain_statement statement;;
  Ok statement.

End domain.
