(* ===== verification/DomainFacts.v ===== *)
(** * Theorems about domain control proofs

    Canonical names are a fixed point of canonicalisation, a proof verifies
    exactly within its validity window and shows what was reviewed, and the
    TXT record commits to the whole statement. *)

From stdpp Require Import base numbers list strings pretty option.
From Stdlib Require Import Strings.Byte Ascii.
From S2P Require Import Prelude Text Ordered Display Crates ArtifactProof ArtifactFacts.
From S2P Require Import Continuity ContinuityFacts Names Domain.

(** ** Splitting a name *)

Lemma split_on_nonempty sep s : split_on sep s ≠ [].
Proof.
  induction s as [|c s IH]; cbn; [done|]. destruct (Ascii.eqb c sep); [done|].
  by destruct (split_on sep s).
Qed.

Lemma split_on_snoc sep s :
  split_on sep (s +:+ String sep EmptyString) = split_on sep s ++ [EmptyString].
Proof.
  induction s as [|c s IH]; [rewrite append_nil_l; cbn [split_on]; by rewrite Ascii.eqb_refl|].
  rewrite append_cons. cbn [split_on]. rewrite IH. case_match; [done|].
  destruct (split_on sep s) eqn:E; [by apply split_on_nonempty in E|done].
Qed.

Lemma split_on_forall (p q : ascii → bool) sep s :
  q sep = true → (∀ c, p c = true → q c = true) →
  Forall (λ w, str_all p w = true) (split_on sep s) → str_all q s = true.
Proof.
  intros Hsep Hpq. induction s as [|c s IH]; [done|]. cbn [split_on str_all].
  destruct (Ascii.eqb_spec c sep) as [->|Hne].
  - intros [_ H]%Forall_cons_iff. by rewrite Hsep, IH.
  - destruct (split_on sep s) as [|w ws] eqn:E; [by apply split_on_nonempty in E|].
    intros [H1 H]%Forall_cons_iff. cbn in H1. apply andb_true_iff in H1 as [Hc Hw].
    rewrite (Hpq _ Hc). apply IH. by constructor.
Qed.

Lemma ends_with_Some p s : ends_with p s = true ↔ ∃ r, s = r +:+ p.
Proof.
  induction s as [|c s IH]; cbn [ends_with]; rewrite orb_true_iff, bool_decide_eq_true.
  - split; [intros [<-|]; [by exists ""|done]|].
    intros [r Hr]. left. destruct r; [done|]. by rewrite append_cons in Hr.
  - rewrite IH. split.
    + intros [<-|[r ->]]; [by exists ""|]. exists (String c r). by rewrite append_cons.
    + intros [[|c' r] Hr]; [by left|]. rewrite append_cons in Hr. injection Hr as -> ->. eauto.
Qed.

Lemma strip_suffix_char_Some c s r :
  strip_suffix_char c s = Some r → s = r +:+ String c EmptyString.
Proof.
  revert r. induction s as [|a s IH]; intros r; cbn [strip_suffix_char]; [done|].
  destruct s as [|b s].
  - destruct (Ascii.eqb_spec a c) as [->|]; [|done]. by intros [= <-].
  - rewrite fmap_Some. intros (r' & Hr & ->). by rewrite append_cons, <- (IH _ Hr).
Qed.

(** ** Graphic ASCII *)

(** The visible ASCII characters: none is trimmed or unsafe to display. *)
Definition is_graphic (c : ascii) : bool := in_range 33 126 (ascii_val c).

Lemma graphic_facts c :
  is_graphic c = true →
  (ascii_val c <? 128)%N = true ∧ is_whitespace (ascii_val c) = false ∧
  is_unsafe_display_character (ascii_val c) = false.
Proof. destruct c as [[] [] [] [] [] [] [] []]; vm_compute; naive_solver. Qed.

Lemma graphic_units s :
  str_all is_graphic s = true →
  Forall (λ u, unit_is_whitespace u = false ∧
    ∃ n, u.1 = Some n ∧ is_unsafe_display_character n = false) (str_units s).
Proof.
  induction s as [|c s IH]; [by constructor|]. cbn [str_all]. rewrite andb_true_iff.
  intros [(Hl & Hw & Hu)%graphic_facts Hs]. cbn [str_units]. rewrite Hl.
  constructor; [|by apply IH]. split; [done|]. by exists (ascii_val c).
Qed.

Lemma drop_whitespace_none us :
  Forall (λ u, unit_is_whitespace u = false) us → drop_whitespace us = us.
Proof. intros [|u us' Hu _]; cbn; [done|]. by rewrite Hu. Qed.

Lemma graphic_trim s : str_all is_graphic s = true → trim s = s.
Proof.
  intros H%graphic_units. assert (Forall (λ u, unit_is_whitespace u = false) (str_units s)) as Hw.
  { eapply list.Forall_impl; [done|]. by intros u [? _]. }
  unfold trim. rewrite (drop_whitespace_none (str_units s)) by done.
  rewrite drop_whitespace_none by (by apply Forall_reverse). by rewrite reverse_involutive, join_str_units.
Qed.

Lemma graphic_displayable s : str_all is_graphic s = true → contains_unsafe_display_characters s = false.
Proof.
  intros H%graphic_units. unfold contains_unsafe_display_characters, chars.
  induction H as [|[o r] us (_ & n & Hn & Hu) _ IH]; [done|]. cbn in Hn |- *. subst o. cbn.
  by rewrite Hu, IH.
Qed.

Lemma str_all_weaken (p q : ascii → bool) s :
  (∀ c, p c = true → q c = true) → str_all p s = true → str_all q s = true.
Proof.
  intros H. induction s as [|c s IH]; [done|]. cbn. rewrite !andb_true_iff. naive_solver.
Qed.

(** ** Plain names *)

(** The bytes of a canonical name. *)
Definition is_name_byte (c : ascii) : bool := is_label_byte c || Ascii.eqb c ".".

Lemma name_byte_facts c : is_name_byte c = true → is_graphic c = true ∧ ascii_lower c = c.
Proof. destruct c as [[] [] [] [] [] [] [] []]; vm_compute; naive_solver. Qed.

Lemma name_graphic s : str_all is_name_byte s = true → str_all is_graphic s = true.
Proof. apply str_all_weaken. by intros c [? _]%name_byte_facts. Qed.

Lemma name_trim s : str_all is_name_byte s = true → trim s = s.
Proof. by intros H%name_graphic%graphic_trim. Qed.

Lemma name_displayable s : str_all is_name_byte s = true → contains_unsafe_display_characters s = false.
Proof. by intros H%name_graphic%graphic_displayable. Qed.

Lemma name_lower s : str_all is_name_byte s = true → to_ascii_lowercase s = s.
Proof.
  induction s as [|c s IH]; [done|]. cbn [str_all]. rewrite andb_true_iff.
  intros [(_ & Hc)%name_byte_facts Hs]. cbn. by rewrite Hc, IH.
Qed.

Lemma name_starts_with a p s :
  is_name_byte a = false → str_all is_name_byte s = true → starts_with (String a p) s = false.
Proof.
  intros Ha Hs. apply bool_decide_eq_false. intros [r Hr]. apply strip_prefix_Some in Hr as ->.
  rewrite append_cons in Hs. cbn in Hs. by rewrite Ha in Hs.
Qed.

Lemma name_contains a p s :
  is_name_byte a = false → str_all is_name_byte s = true → str_contains (String a p) s = false.
Proof.
  intros Ha. induction s as [|c s IH]; intros Hs; cbn [str_contains];
    rewrite name_starts_with by done; [done|].
  cbn in Hs. apply andb_true_iff in Hs as [_ Hs]. by apply IH.
Qed.

(** ** Canonical names *)

(** A canonical name: at most 253 bytes in at least two labels, each of 1 to
    63 lower-case letters, digits and inner hyphens, and not a special name. *)
Definition canonical_name (d : string) : Prop :=
  (str_len d <= MAX_DNS_NAME_BYTES)%N ∧ (2 <= len (split_on "." d))%N ∧
  Forall (λ l, (1 <= str_len l <= 63)%N ∧ str_all is_label_byte l = true ∧
    starts_with "-" l = false ∧ ends_with "-" l = false) (split_on "." d) ∧
  is_special_use_domain d = false.

Lemma valid_labels ls :
  existsb invalid_label ls = false ↔
  Forall (λ l, (1 <= str_len l <= 63)%N ∧ str_all is_label_byte l = true ∧
    starts_with "-" l = false ∧ ends_with "-" l = false) ls.
Proof.
  induction ls as [|l ls IH]; cbn [existsb]; [by split; constructor|].
  rewrite orb_false_iff, IH, Forall_cons_iff. apply and_iff_compat_r. unfold invalid_label.
  rewrite !orb_false_iff, negb_false_iff, bool_decide_eq_false, N.ltb_ge, <- str_len_0. naive_solver lia.
Qed.

Lemma canonical_name_bytes d : canonical_name d → str_all is_name_byte d = true.
Proof.
  intros (_ & _ & H & _). apply (split_on_forall is_label_byte _ "."); [done| |].
  - intros c Hc. unfold is_name_byte. by rewrite Hc.
  - eapply list.Forall_impl; [done|]. naive_solver.
Qed.

Lemma canonical_name_no_dot d : canonical_name d → ends_with "." d = false.
Proof.
  intros (_ & _ & H & _). apply not_true_iff_false. intros [r ->]%ends_with_Some.
  rewrite split_on_snoc in H. apply Forall_app in H as [_ [H _]%Forall_cons_iff].
  destruct H as [[H _] _]. vm_compute in H. done.
Qed.

Section facts.
Context {crates : Crates} {idna : Idna} {json_domain : Serde DomainControlStatement}.

(** What canonicalisation returns is a canonical name. *)
Lemma canonicalize_name input d : canonicalize_domain input = Ok d → canonical_name d.
Proof.
  unfold canonicalize_domain. rewrite !seq_Ok. intros (_ & _ & _ & _ & H). unbind H as a Ha.
  rewrite !seq_Ok, !reject_if_Ok in H. destruct H as (Hlen & Hip & Hlab & Hvalid & Hspecial & [= <-]).
  split_and!; [by apply N.ltb_ge|by apply N.ltb_ge|by apply valid_labels|done].
Qed.

(** A name that canonicalisation returns is a canonical name, of which
    nothing is lost or changed by canonicalising it again. *)
Theorem canonical_domain_stable {idna_ok : IdnaOk} input d :
  canonicalize_domain input = Ok d → canonical_name d ∧ canonicalize_domain d = Ok d.
Proof.
  intros H. pose proof (canonicalize_name _ _ H) as Hc. split; [done|]. revert H.
  unfold canonicalize_domain. rewrite !seq_Ok. intros (_ & _ & _ & _ & H). unbind H as a Ha.
  rewrite ok_or_Ok in Ha. rewrite (idna_lower _ _ Ha) in H. rewrite !seq_Ok, !reject_if_Ok in H.
  destruct H as (Hlen & Hip & Hlab & Hvalid & Hspecial & [= <-]).
  pose proof (canonical_name_bytes _ Hc) as Hb. pose proof (canonical_name_no_dot _ Hc) as Hd.
  assert (a ≠ "") as Hne by (intros ->; by vm_compute in Hlab).
  rewrite name_trim, name_displayable, !name_contains, name_starts_with by done.
  rewrite bool_decide_eq_false_2, bool_decide_eq_true_2 by done. cbn [negb orb reject_if].
  assert (strip_suffix_char "." a = None) as Hs.
  { destruct (strip_suffix_char "." a) as [r|] eqn:E; [|done]. apply strip_suffix_char_Some in E.
    apply not_true_iff_false in Hd as []. apply ends_with_Some. by exists r. }
  rewrite Hs. cbn [default]. rewrite Hd, bool_decide_eq_false_2 by done.
  split_and!; [done..|]. rewrite (idna_idempotent _ _ Ha). cbn [ok_or].
  by rewrite bind_Ok_l, (idna_lower _ _ Ha), Hlen, Hip, Hlab, Hvalid, Hspecial.
Qed.

(** ** Validity *)

Lemma validate_validity_Ok issued expires :
  validate_validity issued expires = Ok tt →
  (0 <= issued)%Z ∧ (0 < expires - issued <= DOMAIN_MAX_VALIDITY_SECONDS)%Z.
Proof.
  unfold validate_validity. rewrite seq_Ok. intros [Hn H]. unbind H as d Hd.
  rewrite ok_or_Ok, checked_sub_i64_Some in Hd. destruct Hd as [-> _].
  rewrite seq_Ok, !reject_if_Ok, Z.leb_gt, Z.ltb_ge in H.
  rewrite reject_if_Ok, orb_false_iff, !Z.ltb_ge in Hn. lia.
Qed.

(** The window in which a statement is current: its validity, widened by the
    clock skew. *)
Definition in_window (st : DomainControlStatement) (now : Z) : Prop :=
  (ds_issued_at st - DOMAIN_CLOCK_SKEW_SECONDS <= now <=
   ds_expires_at st + DOMAIN_CLOCK_SKEW_SECONDS)%Z.

(** The arithmetic of [validate_current_time] saturates without effect. *)
Lemma validate_current_time_Ok st now :
  (i64_min <= now <= i64_max)%Z → (0 <= ds_issued_at st <= i64_max)%Z → (0 <= ds_expires_at st)%Z →
  validate_current_time st now = Ok tt ↔ in_window st now.
Proof.
  unfold validate_current_time, in_window, saturating_add_i64, saturating_sub_i64,
    DOMAIN_CLOCK_SKEW_SECONDS, i64_min, i64_max.
  rewrite seq_Ok, !reject_if_Ok, !Z.ltb_ge. lia.
Qed.

Lemma validated_statement st payload :
  canonical_domain_control_statement_bytes st = Ok payload →
  json_to_vec st = inr payload ∧ canonicalize_domain (ds_domain st) = Ok (ds_domain st) ∧
  (0 <= ds_issued_at st)%Z ∧
  (0 < ds_expires_at st - ds_issued_at st <= DOMAIN_MAX_VALIDITY_SECONDS)%Z ∧
  validate_persona (sc_persona (ds_signer st)) = Ok (sc_persona (ds_signer st)).
Proof.
  unfold canonical_domain_control_statement_bytes, validate_domain_statement. rewrite !seq_Ok.
  intros ((_ & H) & Hj). unbind H as d Hd. rewrite !seq_Ok in H. destruct H as (Heq & _ & Hv & H).
  unbind H as p Hp. rewrite reject_if_Ok, negb_false_iff, bool_decide_eq_true in Heq. subst d.
  rewrite map_err_Ok, of_sum_Ok in Hj. apply validate_validity_Ok in Hv as [? ?].
  pose proof (validate_persona_Ok _ _ Hp) as ->. done.
Qed.

(** What a review that succeeds has checked, and what it shows. *)
Lemma review_Ok st now key persona review :
  review_domain_control_statement st now key persona = Ok review ↔
  ∃ payload n, canonical_domain_control_statement_bytes st = Ok payload ∧ (0 <= now)%Z ∧
    validate_current_time st now = Ok tt ∧ persona = sc_persona (ds_signer st) ∧
    normalize_public_key key = Ok n ∧
    public_key_fingerprint n = Ok (sc_key_fingerprint (ds_signer st)) ∧
    review = {| dw_domain := ds_domain st; dw_dns_record_name := ds_domain st +:+ ".";
      dw_dns_txt_value := dns_txt_commitment payload; dw_issued_at := ds_issued_at st;
      dw_expires_at := ds_expires_at st; dw_signer := ds_signer st |}.
Proof.
  unfold review_domain_control_statement. split.
  - intros H. unbind H as payload Hp. rewrite !seq_Ok in H. destruct H as (Hn & Ht & H).
    unbind H as p Hper. pose proof (validate_persona_Ok _ _ Hper) as ->.
    rewrite seq_Ok in H. destruct H as [Hs H]. unbind H as n Hk. unbind H as f Hf.
    rewrite seq_Ok in H. destruct H as [Hm [= <-]].
    rewrite reject_if_Ok, negb_false_iff, bool_decide_eq_true in Hs, Hm. subst.
    rewrite reject_if_Ok, Z.ltb_ge in Hn. eauto 10.
  - intros (payload & n & Hp & Hn & Ht & -> & Hk & Hf & ->). rewrite Hp, bind_Ok_l.
    apply Z.ltb_ge in Hn. rewrite Hn. cbn [reject_if]. rewrite bind_Ok_l, Ht, bind_Ok_l.
    apply validated_statement in Hp as (_ & _ & _ & _ & Hper). rewrite Hper, bind_Ok_l.
    rewrite bool_decide_eq_true_2 by done. cbn [negb reject_if]. rewrite bind_Ok_l, Hk, bind_Ok_l, Hf.
    by rewrite bind_Ok_l, bool_decide_eq_true_2.
Qed.

(** Verification of a bundle, as the review of its statement and the check of
    its signature. *)
Lemma verify_domain_Ok proof now v :
  verify_domain_control_proof proof now = Ok v ↔
  (0 <= now)%Z ∧ ∃ payload key st review,
    decode_sshsig_payload proof DOMAIN_CONTROL_NAMESPACE = Ok (payload, key) ∧
    json_from_slice payload = inr st ∧
    review_domain_control_statement st now key (sc_persona (ds_signer st)) = Ok review ∧
    sshsig_verify payload (se_value (pb_signature proof)) key DOMAIN_CONTROL_NAMESPACE = Ok tt ∧
    v = {| dv_signature := Verified; dv_validity := Verified; dv_domain := dw_domain review;
           dv_dns_record_name := dw_dns_record_name review;
           dv_dns_txt_value := dns_txt_commitment payload;
           dv_issued_at := dw_issued_at review; dv_expires_at := dw_expires_at review;
           dv_signer := {| vs_persona := sc_persona (ds_signer st);
             vs_key_fingerprint := sc_key_fingerprint (ds_signer st);
             vs_identity_binding := "self_asserted" |};
           dv_not_established := ["dns_publication"; "legal_domain_ownership";
             "registrant_identity"; "parent_or_subdomain_control"; "website_content_control";
             "historical_dns_control"; "trusted_timestamp"] |}.
Proof.
  unfold verify_domain_control_proof. rewrite seq_Ok, reject_if_Ok, Z.ltb_ge. apply and_iff_compat_l. split.
  - intros H. unbind H as [payload key] Hdec. unbind H as st Hj. rewrite map_err_Ok, of_sum_Ok in Hj.
    unbind H as review Hr. rewrite seq_Ok in H. destruct H as [Hv [= <-]]. eauto 10.
  - intros (payload & key & st & review & Hdec & Hj & Hr & Hv & ->).
    rewrite Hdec, bind_Ok_l, Hj. cbn [of_sum map_err]. by rewrite bind_Ok_l, Hr, bind_Ok_l, Hv.
Qed.

(** A statement that was reviewed as bytes and then signed with the
    reviewed key verifies exactly within its validity window widened by the
    clock skew, and verification then reports the name, the TXT record, the
    times and the signer that the review showed. *)
Theorem reviewed_domain_statement_verifies {keygen : SshKeygen} {crates_ok : CratesOk}
    bs t key persona st review path proof now :
  utf8_valid key = true → review_domain_control_statement_bytes bs t key persona = Ok (st, review) →
  create_domain_control_proof_for_statement st path key = Ok proof →
  (str_len (pb_payload proof) <= MAX_PROOF_BYTES)%N →
  (ds_expires_at st <= i64_max)%Z → (i64_min <= now <= i64_max)%Z →
  (is_ok (verify_domain_control_proof proof now) = true ↔ (0 <= now)%Z ∧ in_window st now) ∧
  ∀ v, verify_domain_control_proof proof now = Ok v →
    dv_domain v = dw_domain review ∧ dv_dns_record_name v = dw_dns_record_name review ∧
    dv_dns_txt_value v = dw_dns_txt_value review ∧ dv_issued_at v = dw_issued_at review ∧
    dv_expires_at v = dw_expires_at review ∧ vs_persona (dv_signer v) = persona ∧
    public_key_fingerprint key = Ok (vs_key_fingerprint (dv_signer v)).
Proof.
  intros Hu H Hc Hlen Hexp Hnow. unfold review_domain_control_statement_bytes in H.
  unbind H as st' Hj. unbind H as rev Hr. unbind H as bs' Hb. rewrite seq_Ok in H.
  destruct H as [Heq [= -> ->]]. rewrite reject_if_Ok, negb_false_iff, bool_decide_eq_true in Heq. subst bs'.
  rewrite map_err_Ok, of_sum_Ok in Hj. pose proof (validated_statement _ _ Hb) as (_ & _ & Hi & Hd & _).
  apply review_Ok in Hr as (payload & n & Hb' & _ & _ & -> & Hn & Hf & ->).
  rewrite Hb in Hb'. injection Hb' as <-.
  unfold create_domain_control_proof_for_statement in Hc. rewrite Hb, bind_Ok_l, Hn, bind_Ok_l, Hf, bind_Ok_l in Hc.
  rewrite seq_Ok in Hc. destruct Hc as [_ Hc]. pose proof (normalize_canonical _ _ Hu Hn) as Hnn.
  destruct (created_bundle_decodes _ _ _ _ _ Hc Hlen) as (n' & Hn' & _ & Hsig & Hdec).
  rewrite Hnn in Hn'. injection Hn' as <-. specialize (Hdec Hnn). clear Hc.
  rewrite <- (fingerprint_normalize key n Hn Hnn), Hf. split.
  - rewrite <- validate_current_time_Ok by lia. split.
    + destruct (verify_domain_control_proof proof now) as [v| |] eqn:Hv; [|done..]. intros _.
      apply verify_domain_Ok in Hv as (H0 & payload & k & st' & r & Hdec' & Hj' & Hr & _).
      rewrite Hdec in Hdec'. injection Hdec' as <- <-. rewrite Hj in Hj'. injection Hj' as <-.
      apply review_Ok in Hr as (? & ? & _ & _ & Ht & _). done.
    + intros [H0 Ht]. edestruct verify_domain_Ok as [_ H]. erewrite H; [done|].
      split; [done|]. exists bs, n, st. eexists. split_and!; [done..| |done|reflexivity].
      apply review_Ok. by exists bs, n.
  - intros v (_ & payload & k & st' & r & Hdec' & Hj' & Hr & _ & ->)%verify_domain_Ok.
    rewrite Hdec in Hdec'. injection Hdec' as <- <-. rewrite Hj in Hj'. injection Hj' as <-.
    by apply review_Ok in Hr as (? & ? & _ & _ & _ & _ & _ & _ & ->).
Qed.

(** The bytes that the TXT record of a proof is the digest of. *)
Definition committed_by (proof : ProofBundle) (x : bytes) : Prop :=
  ∃ payload key, decode_sshsig_payload proof DOMAIN_CONTROL_NAMESPACE = Ok (payload, key) ∧
    x = DNS_COMMITMENT_CONTEXT ++ payload.

Lemma txt_commitment_binds {crates_ok : CratesOk} x y :
  dns_txt_commitment x = dns_txt_commitment y →
  x = y ∨ sha256_collision (λ z, z = DNS_COMMITMENT_CONTEXT ++ x) (λ z, z = DNS_COMMITMENT_CONTEXT ++ y).
Proof.
  unfold dns_txt_commitment. intros H%(inj (String.append DNS_TXT_PREFIX)).
  apply (f_equal URL_SAFE_NO_PAD_decode) in H. rewrite !url_safe_round_trip in H. injection H as H.
  destruct (decide (x = y)); [by left|]. right. eexists _, _. split_and!; [reflexivity..| |exact H].
  by intros ?%(inj (app DNS_COMMITMENT_CONTEXT)).
Qed.

(** C38: at a time that is an [i64], a domain proof verifies only for a canonical name, with a signature
    of the claimed key in the domain namespace, a validity of at most thirty
    days, and a time within it up to the clock skew; and its TXT record
    commits to all of it: two verified proofs with one TXT value agree on the
    name, the times and the signer, unless the two signed payloads, each
    behind the commitment context, are different byte strings with one
    SHA-256 digest. *)
Theorem verified_domain_proof {crates_ok : CratesOk} proof now v :
  verify_domain_control_proof proof now = Ok v → (now <= i64_max)%Z →
  canonical_name (dv_domain v) ∧
  (0 < dv_expires_at v - dv_issued_at v <= DOMAIN_MAX_VALIDITY_SECONDS)%Z ∧
  (dv_issued_at v - DOMAIN_CLOCK_SKEW_SECONDS <= now <=
   dv_expires_at v + DOMAIN_CLOCK_SKEW_SECONDS)%Z ∧
  (∃ payload key n, decode_sshsig_payload proof DOMAIN_CONTROL_NAMESPACE = Ok (payload, key) ∧
    sshsig_verify payload (se_value (pb_signature proof)) key DOMAIN_CONTROL_NAMESPACE = Ok tt ∧
    normalize_public_key key = Ok n ∧
    public_key_fingerprint n = Ok (vs_key_fingerprint (dv_signer v))) ∧
  ∀ proof' now' v', verify_domain_control_proof proof' now' = Ok v' →
    dv_dns_txt_value v' = dv_dns_txt_value v →
    (dv_domain v' = dv_domain v ∧ dv_issued_at v' = dv_issued_at v ∧
     dv_expires_at v' = dv_expires_at v ∧ dv_signer v' = dv_signer v) ∨
    sha256_collision (committed_by proof') (committed_by proof).
Proof.
  intros (H0 & payload & key & st & r & Hdec & Hj & Hr & Hsig & ->)%verify_domain_Ok Hnow.
  apply review_Ok in Hr as (bs & n & Hb & _ & Ht & _ & Hn & Hf & ->). cbn.
  apply validated_statement in Hb as (_ & Hcan & Hi & Hd & _).
  split_and!; [by eapply canonicalize_name|lia|lia| | |by exists payload, key, n|].
  1,2: revert Ht; unfold validate_current_time, saturating_add_i64, saturating_sub_i64, i64_min, i64_max in *;
    rewrite seq_Ok, !reject_if_Ok, !Z.ltb_ge; unfold DOMAIN_CLOCK_SKEW_SECONDS; lia.
  - intros proof' now' v' (_ & payload' & key' & st' & r' & Hdec' & Hj' & Hr' & _ & ->)%verify_domain_Ok.
    apply review_Ok in Hr' as (? & ? & _ & _ & _ & _ & _ & _ & ->). cbn.
    intros [->|Hcol]%txt_commitment_binds; [|right; revert Hcol; apply sha256_collision_mono; unfold committed_by; naive_solver].
    left. rewrite Hj in Hj'. by injection Hj' as <-.
Qed.

End facts.
