(* ===== verification/RootDistribution.v ===== *)
(** * Root cards and pins ([crates/a-quo-core/src/root_distribution.rs])

    The unsigned contact card derived from a verified persona root, the pin a
    verifier keeps of a root digest, the digest-only pin URI, and the
    comparison of a root with a card and a pin.

    The private [validate_jcs_time], [validate_sha256] and [require_bound] of
    this file return the errors of root distribution; they are
    [validate_distribution_time], [validate_distribution_sha256] and
    [require_distribution_bound] here. *)

From stdpp Require Import base numbers list strings pretty option.
From Stdlib Require Import Strings.Byte Ascii.
From S2P Require Import Prelude Text Ordered Display Crates ArtifactProof ArtifactFacts Continuity ContinuityFacts.

(** ** Constants *)

Definition PERSONA_ROOT_CARD_SCHEMA : string := "urn:a-quo:persona-root-card:v1".
Definition PERSONA_ROOT_PIN_SCHEMA : string := "urn:a-quo:persona-root-pin:v1".
Definition PERSONA_ROOT_PIN_URI_PREFIX : string := "aquo:persona-root-pin:v1:".
Definition MAX_PERSONA_ROOT_CARD_BYTES : N := 4096.
Definition MAX_PERSONA_ROOT_PIN_BYTES : N := 4096.
Definition PERSONA_ROOT_LATE_FIRST_CONTACT_WARNING_SECONDS : N := 2592000.
Definition PERSONA_ROOT_PIN_REVIEW_WARNING_SECONDS : N := 31536000.

(** ** Data *)

Record PersonaRootCard := {
  rc_schema : string;
  rc_canonicalization : string;
  rc_persona : string;
  rc_persona_anchor : string;
  rc_root_version : N;
  rc_issued_at : Z;
  rc_initial_key_fingerprint : string;
  rc_root_statement_sha256 : string;
  rc_pin_uri : string;
}.
Inductive PersonaRootTrustBasis := TrustOnFirstUse | SameChannelCopy | OutOfBandUserConfirmed.
Inductive PersonaRootTrustBasisSource :=
| VerifierFirstObservation | PublisherCandidateChannel | VerifierUserConfirmation.
Inductive PersonaRootPinChannel := InPerson | Paper | Qr | Voice | ChannelFile | ChannelOther.
Inductive PersonaRootChannelIndependence := IndependenceNotEstablished | UserReportedSeparate.
Inductive PersonaRootProvenanceAssurance := UserRecordedNotCryptographicallyVerified.
Record PersonaRootPin := {
  pn_schema : string;
  pn_canonicalization : string;
  pn_root_statement_sha256 : string;
  pn_recorded_at : Z;
  pn_trust_basis : PersonaRootTrustBasis;
  pn_channel : PersonaRootPinChannel;
  pn_source_artifact_sha256 : option string;
}.
Inductive PersonaRootSignatureStatus := SignatureNotChecked | SignatureVerified.
Inductive PersonaRootMatchStatus := MatchNotChecked | Matched | Mismatched.
Inductive PersonaRootClaimStatus := ClaimNotEstablished.
Record PersonaRootCardValidationReport := {
  cv_card_sha256 : string;
  cv_root_statement_sha256 : string;
  cv_pin_uri : string;
  cv_root_signature : PersonaRootSignatureStatus;
}.
Record PersonaRootPinValidationReport := {
  pv_root_statement_sha256 : string;
  pv_recorded_at : Z;
  pv_trust_basis : PersonaRootTrustBasis;
  pv_trust_basis_source : PersonaRootTrustBasisSource;
  pv_channel : PersonaRootPinChannel;
  pv_channel_independence : PersonaRootChannelIndependence;
  pv_provenance_assurance : PersonaRootProvenanceAssurance;
  pv_source_artifact_sha256 : option string;
}.
Record PersonaRootDistributionComparisonReport := {
  dr_checked_at : Z;
  dr_root_signature : PersonaRootSignatureStatus;
  dr_card_match : PersonaRootMatchStatus;
  dr_pin_match : PersonaRootMatchStatus;
  dr_candidate_root_statement_sha256 : string;
  dr_pinned_root_statement_sha256 : string;
  dr_supplied_card_sha256 : option string;
  dr_candidate_card_sha256 : string;
  dr_trust_basis : PersonaRootTrustBasis;
  dr_trust_basis_source : PersonaRootTrustBasisSource;
  dr_channel : PersonaRootPinChannel;
  dr_channel_independence : PersonaRootChannelIndependence;
  dr_provenance_assurance : PersonaRootProvenanceAssurance;
  dr_source_artifact_sha256 : option string;
  dr_root_issued_after_local_observation : bool;
  dr_late_first_contact : option bool;
  dr_first_contact_delay_seconds : option N;
  dr_pin_observation_age_seconds : N;
  dr_pin_observation_review_due : bool;
  dr_trusted_time : PersonaRootClaimStatus;
  dr_current_history_freshness : PersonaRootClaimStatus;
  dr_legal_identity : PersonaRootClaimStatus;
  dr_current_signing_authority : PersonaRootClaimStatus;
  dr_current_recovery_authority : PersonaRootClaimStatus;
  dr_artifact_truth_or_safety : PersonaRootClaimStatus;
  dr_root_card_possession_grants_authority : bool;
}.

#[export] Instance PersonaRootCard_eq_dec : EqDecision PersonaRootCard.
Proof. solve_decision. Defined.
#[export] Instance PersonaRootMatchStatus_eq_dec : EqDecision PersonaRootMatchStatus.
Proof. solve_decision. Defined.

Definition trust_basis_source (basis : PersonaRootTrustBasis) : PersonaRootTrustBasisSource :=
  match basis with
  | TrustOnFirstUse => VerifierFirstObservation
  | SameChannelCopy => PublisherCandidateChannel
  | OutOfBandUserConfirmed => VerifierUserConfirmation
  end.

Definition trust_basis_independence (basis : PersonaRootTrustBasis) :
    PersonaRootChannelIndependence :=
  match basis with
  | TrustOnFirstUse | SameChannelCopy => IndependenceNotEstablished
  | OutOfBandUserConfirmed => UserReportedSeparate
  end.

Definition invalid_root_distribution (reason : string) : ProofError :=
  InvalidContinuityProof ("invalid persona root distribution material: " +:+ reason).

Section distribution.
Context {crates : Crates} {json_root : Serde PersonaRootStatement}
  {json_card : Serde PersonaRootCard} {json_pin : Serde PersonaRootPin}.

(** ** Validators *)

Definition validate_distribution_time (field : string) (value : Z) : Result unit :=
  if ((0 <=? value) && (value <=? MAX_JCS_SAFE_INTEGER))%Z then Ok tt
  else Err (invalid_root_distribution
    (field +:+ " must be an exact non-negative RFC 8785 integer")).

Definition validate_distribution_sha256 (field value : string) : Result unit :=
  if (str_len value =? SHA256_HEX_BYTES)%N && str_all is_lower_hex value then Ok tt
  else Err (invalid_root_distribution
    (field +:+ " must be 64 lowercase hexadecimal characters")).

Definition require_distribution_bound (bs : bytes) (maximum : N) (description : string) :
    Result unit :=
  if (len bs <=? maximum)%N then Ok tt
  else Err (invalid_root_distribution (description +:+ " exceeds " +:+ pretty maximum +:+ " bytes")).

(** ** The pin URI *)

Definition persona_root_pin_uri (root_statement_sha256 : string) : Result string :=
  validate_distribution_sha256 "root statement SHA-256" root_statement_sha256;;
  Ok (PERSONA_ROOT_PIN_URI_PREFIX +:+ root_statement_sha256).

Definition parse_persona_root_pin_uri (uri : string) : Result string :=
  root_statement_sha256 ← ok_or (strip_prefix PERSONA_ROOT_PIN_URI_PREFIX uri)
    (invalid_root_distribution "unsupported persona root pin URI");
  validate_distribution_sha256 "root statement SHA-256" root_statement_sha256;;
  Ok root_statement_sha256.

(** ** Cards *)

(** The statement that the fields of a card are copied from. *)
Definition card_statement (card : PersonaRootCard) : PersonaRootStatement :=
  {| rs_schema := PERSONA_ROOT_STATEMENT_SCHEMA;
     rs_canonicalization := CONTINUITY_CANONICALIZATION;
     rs_persona_anchor := rc_persona_anchor card;
     rs_persona := rc_persona card;
     rs_root_version := rc_root_version card;
     rs_issued_at := rc_issued_at card;
     rs_initial_key_fingerprint := rc_initial_key_fingerprint card |}.

Definition validate_persona_root_card_fields (card : PersonaRootCard) : Result unit :=
  reject_if (rc_schema card != PERSONA_ROOT_CARD_SCHEMA)
    (invalid_root_distribution "unsupported persona root card schema");;
  reject_if (rc_canonicalization card != CONTINUITY_CANONICALIZATION)
    (invalid_root_distribution "unsupported persona root card canonicalization");;
  validate_distribution_sha256 "root statement SHA-256" (rc_root_statement_sha256 card);;
  statement_bytes ← canonical_persona_root_statement_bytes (card_statement card);
  reject_if (sha256_hex statement_bytes != rc_root_statement_sha256 card)
    (invalid_root_distribution "persona root card digest does not match its copied root fields");;
  uri ← persona_root_pin_uri (rc_root_statement_sha256 card);
  reject_if (rc_pin_uri card != uri)
    (invalid_root_distribution "persona root card pin URI does not match its root digest").

Definition persona_root_card_from_verified_root (verified : VerifiedPersonaRoot) :
    Result PersonaRootCard :=
  statement_bytes ← canonical_persona_root_statement_bytes (vpr_statement verified);
  let statement_sha256 := sha256_hex statement_bytes in
  reject_if (vpr_root_statement_sha256 verified != statement_sha256)
    (invalid_root_distribution "verified root digest does not match its canonical statement");;
  fingerprint ← public_key_fingerprint (vpr_initial_public_key verified);
  reject_if (fingerprint != rs_initial_key_fingerprint (vpr_statement verified))
    (invalid_root_distribution
      "verified root public key does not match its initial-key fingerprint");;
  pin_uri ← persona_root_pin_uri statement_sha256;
  let card :=
    {| rc_schema := PERSONA_ROOT_CARD_SCHEMA;
       rc_canonicalization := CONTINUITY_CANONICALIZATION;
       rc_persona := rs_persona (vpr_statement verified);
       rc_persona_anchor := rs_persona_anchor (vpr_statement verified);
       rc_root_version := rs_root_version (vpr_statement verified);
       rc_issued_at := rs_issued_at (vpr_statement verified);
       rc_initial_key_fingerprint := rs_initial_key_fingerprint (vpr_statement verified);
       rc_pin_uri := pin_uri;
       rc_root_statement_sha256 := statement_sha256 |} in
  validate_persona_root_card_fields card;;
  Ok card.

Definition persona_root_card_from_proof (proof : PersonaRootProof) : Result PersonaRootCard :=
  verified ← verify_persona_root_proof proof;
  persona_root_card_from_verified_root verified.

Definition canonical_persona_root_card_bytes (card : PersonaRootCard) : Result bytes :=
  validate_persona_root_card_fields card;;
  bs ← map_err Json (of_sum (jcs_to_vec card));
  require_distribution_bound bs MAX_PERSONA_ROOT_CARD_BYTES "persona root card";;
  Ok bs.

Definition parse_persona_root_card_bytes (bs : bytes) : Result PersonaRootCard :=
  card ← map_err invalid_root_distribution
    (parse_bounded_json bs MAX_PERSONA_ROOT_CARD_BYTES "persona root card");
  canonical ← canonical_persona_root_card_bytes card;
  reject_if (canonical != bs)
    (invalid_root_distribution "persona root card is not canonical RFC 8785 JSON");;
  Ok card.

Definition persona_root_card_sha256 (card : PersonaRootCard) : Result string :=
  bs ← canonical_persona_root_card_bytes card;
  Ok (sha256_hex bs).

Definition validate_persona_root_card (card : PersonaRootCard) :
    Result PersonaRootCardValidationReport :=
  card_sha256 ← persona_root_card_sha256 card;
  Ok {| cv_card_sha256 := card_sha256;
        cv_root_statement_sha256 := rc_root_statement_sha256 card;
        cv_pin_uri := rc_pin_uri card;
        cv_root_signature := SignatureNotChecked |}.

(** ** Pins *)

Definition validate_persona_root_pin_fields (pin : PersonaRootPin) : Result unit :=
  reject_if (pn_schema pin != PERSONA_ROOT_PIN_SCHEMA)
    (invalid_root_distribution "unsupported persona root pin schema");;
  reject_if (pn_canonicalization pin != CONTINUITY_CANONICALIZATION)
    (invalid_root_distribution "unsupported persona root pin canonicalization");;
  validate_distribution_sha256 "root statement SHA-256" (pn_root_statement_sha256 pin);;
  validate_distribution_time "pin recorded_at" (pn_recorded_at pin);;
  match pn_source_artifact_sha256 pin with
  | Some source_artifact_sha256 =>
      validate_distribution_sha256 "source artifact SHA-256" source_artifact_sha256
  | None => Ok tt
  end.

Definition new_persona_root_pin (root_statement_sha256 : string) (recorded_at : Z)
    (trust_basis : PersonaRootTrustBasis) (channel : PersonaRootPinChannel)
    (source_artifact_sha256 : option string) : Result PersonaRootPin :=
  let pin :=
    {| pn_schema := PERSONA_ROOT_PIN_SCHEMA;
       pn_canonicalization := CONTINUITY_CANONICALIZATION;
       pn_root_statement_sha256 := root_statement_sha256;
       pn_recorded_at := recorded_at;
       pn_trust_basis := trust_basis;
       pn_channel := channel;
       pn_source_artifact_sha256 := source_artifact_sha256 |} in
  validate_persona_root_pin_fields pin;;
  Ok pin.

Definition canonical_persona_root_pin_bytes (pin : PersonaRootPin) : Result bytes :=
  validate_persona_root_pin_fields pin;;
  bs ← map_err Json (of_sum (jcs_to_vec pin));
  require_distribution_bound bs MAX_PERSONA_ROOT_PIN_BYTES "persona root pin";;
  Ok bs.

Definition parse_persona_root_pin_bytes (bs : bytes) : Result PersonaRootPin :=
  pin ← map_err invalid_root_distribution
    (parse_bounded_json bs MAX_PERSONA_ROOT_PIN_BYTES "persona root pin");
  canonical ← canonical_persona_root_pin_bytes pin;
  reject_if (canonical != bs)
    (invalid_root_distribution "persona root pin is not canonical RFC 8785 JSON");;
  Ok pin.

Definition persona_root_pin_sha256 (pin : PersonaRootPin) : Result string :=
  bs ← canonical_persona_root_pin_bytes pin;
  Ok (sha256_hex bs).

Definition validate_persona_root_pin (pin : PersonaRootPin) :
    Result PersonaRootPinValidationReport :=
  validate_persona_root_pin_fields pin;;
  Ok {| pv_root_statement_sha256 := pn_root_statement_sha256 pin;
        pv_recorded_at := pn_recorded_at pin;
        pv_trust_basis := pn_trust_basis pin;
        pv_trust_basis_source := trust_basis_source (pn_trust_basis pin);
        pv_channel := pn_channel pin;
        pv_channel_independence := trust_basis_independence (pn_trust_basis pin);
        pv_provenance_assurance := UserRecordedNotCryptographicallyVerified;
        pv_source_artifact_sha256 := pn_source_artifact_sha256 pin |}.

(** ** Comparison *)

(** [u64::try_from(a - b).expect(...)] on [i64]: the subtraction panics on
    overflow, the conversion on a negative difference. *)
Definition time_difference (a b : Z) : Result N :=
  d ← expect (checked_sub_i64 a b) "attempt to subtract with overflow";
  expect (if (0 <=? d)%Z then Some (Z.to_N d) else None)
    "validated non-negative JCS time difference fits u64".

Definition compare_verified_persona_root_distribution (verified : VerifiedPersonaRoot)
    (supplied_card : option PersonaRootCard) (pin : PersonaRootPin) (checked_at : Z) :
    Result PersonaRootDistributionComparisonReport :=
  validate_distribution_time "comparison checked_at" checked_at;;
  supplied_card_report ←
    match supplied_card with
    | Some card => report ← validate_persona_root_card card; Ok (Some report)
    | None => Ok None
    end;
  pin_report ← validate_persona_root_pin pin;
  reject_if (checked_at <? pn_recorded_at pin)%Z
    (invalid_root_distribution "comparison checked_at cannot predate the verifier pin record");;
  candidate_card ← persona_root_card_from_verified_root verified;
  candidate_card_sha256 ← persona_root_card_sha256 candidate_card;
  let card_match :=
    match supplied_card with
    | Some card => if card == candidate_card then Matched else Mismatched
    | None => MatchNotChecked
    end in
  let pin_match :=
    if pn_root_statement_sha256 pin == rc_root_statement_sha256 candidate_card then Matched
    else Mismatched in
  let root_issued_after_local_observation :=
    (pin_match == Matched) && (pn_recorded_at pin <? rc_issued_at candidate_card)%Z in
  '(late_first_contact, first_contact_delay_seconds) ←
    (if (pin_match == Matched) && negb root_issued_after_local_observation then
       delay ← time_difference (pn_recorded_at pin) (rc_issued_at candidate_card);
       Ok (Some (PERSONA_ROOT_LATE_FIRST_CONTACT_WARNING_SECONDS <? delay)%N, Some delay)
     else Ok (None, None));
  pin_observation_age_seconds ← time_difference checked_at (pn_recorded_at pin);
  Ok {| dr_checked_at := checked_at;
        dr_root_signature := SignatureVerified;
        dr_card_match := card_match;
        dr_pin_match := pin_match;
        dr_candidate_root_statement_sha256 := rc_root_statement_sha256 candidate_card;
        dr_pinned_root_statement_sha256 := pn_root_statement_sha256 pin;
        dr_supplied_card_sha256 := cv_card_sha256 <$> supplied_card_report;
        dr_candidate_card_sha256 := candidate_card_sha256;
        dr_trust_basis := pv_trust_basis pin_report;
        dr_trust_basis_source := pv_trust_basis_source pin_report;
        dr_channel := pv_channel pin_report;
        dr_channel_independence := pv_channel_independence pin_report;
        dr_provenance_assurance := pv_provenance_assurance pin_report;
        dr_source_artifact_sha256 := pv_source_artifact_sha256 pin_report;
        dr_root_issued_after_local_observation := root_issued_after_local_observation;
        dr_late_first_contact := late_first_contact;
        dr_first_contact_delay_seconds := first_contact_delay_seconds;
        dr_pin_observation_age_seconds := pin_observation_age_seconds;
        dr_pin_observation_review_due :=
          (PERSONA_ROOT_PIN_REVIEW_WARNING_SECONDS <? pin_observation_age_seconds)%N;
        dr_trusted_time := ClaimNotEstablished;
        dr_current_history_freshness := ClaimNotEstablished;
        dr_legal_identity := ClaimNotEstablished;
        dr_current_signing_authority := ClaimNotEstablished;
        dr_current_recovery_authority := ClaimNotEstablished;
        dr_artifact_truth_or_safety := ClaimNotEstablished;
        dr_root_card_possession_grants_authority := false |}.

Definition compare_persona_root_distribution (proof : PersonaRootProof)
    (supplied_card : option PersonaRootCard) (pin : PersonaRootPin) (checked_at : Z) :
    Result PersonaRootDistributionComparisonReport :=
  verified ← verify_persona_root_proof proof;
  compare_verified_persona_root_distribution verified supplied_card pin checked_at.

End distribution.

(** * Theorems about root cards and pins *)

Section facts.
Context {crates : Crates} {json_root : Serde PersonaRootStatement}
  {json_card : Serde PersonaRootCard} {json_pin : Serde PersonaRootPin}.

Lemma validate_distribution_sha256_Ok field v :
  validate_distribution_sha256 field v = Ok tt ↔ is_sha256_hex v = true.
Proof. unfold validate_distribution_sha256, is_sha256_hex, SHA256_HEX_BYTES. case_match; naive_solver. Qed.

Lemma validate_distribution_time_Ok field v :
  validate_distribution_time field v = Ok tt ↔ (0 <= v <= MAX_JCS_SAFE_INTEGER)%Z.
Proof.
  unfold validate_distribution_time.
  destruct (Z.leb_spec 0 v), (Z.leb_spec v MAX_JCS_SAFE_INTEGER); cbn; naive_solver lia.
Qed.

(** ** The pin URI *)

(** Pin URIs and digests correspond one to one: a URI parses to a digest
    exactly when it is the URI of that digest, so no two spellings of a URI
    pin the same root and no URI pins two. *)
Theorem pin_uri_round_trip uri digest :
  parse_persona_root_pin_uri uri = Ok digest ↔ persona_root_pin_uri digest = Ok uri.
Proof.
  unfold parse_persona_root_pin_uri, persona_root_pin_uri. rewrite bind_Ok.
  setoid_rewrite ok_or_Ok. setoid_rewrite strip_prefix_Some. setoid_rewrite seq_Ok.
  split; [intros (d & -> & Hv & [= ->])|intros [Hv [= <-]]]; eauto.
Qed.

(** ** Cards *)

(** A card with valid fields is determined by the statement it copies. *)
Lemma valid_card_determined card card' :
  validate_persona_root_card_fields card = Ok tt → validate_persona_root_card_fields card' = Ok tt →
  card_statement card = card_statement card' → card = card'.
Proof.
  unfold validate_persona_root_card_fields. rewrite !seq_Ok.
  intros (H1 & H2 & _ & H) (H1' & H2' & _ & H') Hst. rewrite Hst in H.
  unbind H as bs Hbs. unbind H' as bs' Hbs'. rewrite Hbs in Hbs'. injection Hbs' as <-.
  rewrite seq_Ok in H, H'. destruct H as [Hd H], H' as [Hd' H'].
  unbind H as u Hu. unbind H' as u' Hu'. oks H1. oks H2. oks H1'. oks H2'. oks Hd. oks Hd'. oks H. oks H'.
  destruct card, card'. cbn in *. injection Hst as -> -> -> -> ->. congruence.
Qed.

Lemma derived_card_spec verified card :
  persona_root_card_from_verified_root verified = Ok card →
  validate_persona_root_card_fields card = Ok tt ∧
  rc_root_statement_sha256 card = vpr_root_statement_sha256 verified ∧
  rc_issued_at card = rs_issued_at (vpr_statement verified) ∧
  (∃ bs, canonical_persona_root_statement_bytes (vpr_statement verified) = Ok bs) ∧
  (rs_schema (vpr_statement verified) = PERSONA_ROOT_STATEMENT_SCHEMA →
   rs_canonicalization (vpr_statement verified) = CONTINUITY_CANONICALIZATION →
   card_statement card = vpr_statement verified).
Proof.
  unfold persona_root_card_from_verified_root. intros H. unbind H as bs Hbs. rewrite seq_Ok in H.
  destruct H as [Hd H]. unbind H as f _. rewrite seq_Ok in H. destruct H as [_ H].
  unbind H as uri _. rewrite seq_Ok in H. destruct H as [Hv [= <-]]. oks Hd.
  split_and!; [done..|by eexists|]. cbn. intros H1 H2. unfold card_statement. cbn.
  destruct (vpr_statement verified). cbn in *. by subst.
Qed.

Lemma canonical_root_schema st bs :
  canonical_persona_root_statement_bytes st = Ok bs →
  rs_schema st = PERSONA_ROOT_STATEMENT_SCHEMA ∧ rs_canonicalization st = CONTINUITY_CANONICALIZATION ∧
  (0 <= rs_issued_at st <= MAX_JCS_SAFE_INTEGER)%Z.
Proof.
  unfold canonical_persona_root_statement_bytes, validate_persona_root_statement. rewrite !seq_Ok.
  intros ((H1 & H2 & _ & H) & _). unbind H as p _. rewrite !seq_Ok in H. destruct H as (_ & Ht & _).
  apply validate_jcs_time_Ok in Ht. oks H1. oks H2. done.
Qed.

Lemma derived_card_statement verified card :
  persona_root_card_from_verified_root verified = Ok card →
  validate_persona_root_card_fields card = Ok tt ∧
  rc_root_statement_sha256 card = vpr_root_statement_sha256 verified ∧
  rc_issued_at card = rs_issued_at (vpr_statement verified) ∧
  (0 <= rc_issued_at card <= MAX_JCS_SAFE_INTEGER)%Z ∧
  card_statement card = vpr_statement verified.
Proof.
  intros (Hv & Hd & Hi & (bs & Hbs) & Hst)%derived_card_spec.
  apply canonical_root_schema in Hbs as (H1 & H2 & Ht). split_and!; [done|done|done|rewrite Hi; lia..|by apply Hst].
Qed.

(** ** Comparison *)

Lemma time_difference_Ok a b :
  (0 <= b <= MAX_JCS_SAFE_INTEGER)%Z → (b <= a <= MAX_JCS_SAFE_INTEGER)%Z →
  time_difference a b = Ok (Z.to_N (a - b)).
Proof.
  unfold time_difference, checked_sub_i64, MAX_JCS_SAFE_INTEGER, i64_min, i64_max. intros Hb Ha.
  rewrite (proj2 (Z.leb_le _ _)), (proj2 (Z.leb_le _ _)) by lia. cbn [andb expect].
  rewrite bind_Ok_l, (proj2 (Z.leb_le _ _)) by lia. done.
Qed.

(** What a comparison that goes through has established, and its report. *)
Lemma comparison_inv verified card pin t report :
  compare_verified_persona_root_distribution verified card pin t = Ok report →
  ∃ candidate, persona_root_card_from_verified_root verified = Ok candidate ∧
    (0 <= pn_recorded_at pin <= t)%Z ∧
    (∀ c, card = Some c → validate_persona_root_card_fields c = Ok tt) ∧
    dr_card_match report = match card with
      | Some c => if bool_decide (c = candidate) then Matched else Mismatched
      | None => MatchNotChecked end ∧
    dr_pin_match report = (if bool_decide (pn_root_statement_sha256 pin =
      rc_root_statement_sha256 candidate) then Matched else Mismatched) ∧
    dr_pin_observation_age_seconds report = Z.to_N (t - pn_recorded_at pin) ∧
    dr_first_contact_delay_seconds report =
      (if bool_decide (dr_pin_match report = Matched) && (rc_issued_at candidate <=? pn_recorded_at pin)%Z
       then Some (Z.to_N (pn_recorded_at pin - rc_issued_at candidate)) else None).
Proof.
  unfold compare_verified_persona_root_distribution. rewrite seq_Ok. intros [Ht H].
  apply validate_distribution_time_Ok in Ht. unbind H as cr Hcr. unbind H as pr Hpr. rewrite seq_Ok in H.
  destruct H as [Hrec H]. rewrite reject_if_Ok, Z.ltb_ge in Hrec. unbind H as cand Hcand. unbind H as sha Hsha.
  unfold validate_persona_root_pin, validate_persona_root_pin_fields in Hpr. rewrite !seq_Ok in Hpr.
  destruct Hpr as ((_ & _ & _ & Hrt & _) & _). apply validate_distribution_time_Ok in Hrt.
  destruct (derived_card_statement _ _ Hcand) as (_ & _ & _ & Hit & _).
  unbind H as [late delay] Hd. rewrite time_difference_Ok, bind_Ok_l in H by lia.
  injection H as <-. exists cand. cbn. split_and!; [done|lia|lia| |done|done|done|].
  - intros c ->. unbind Hcr as rep Hrep. unfold validate_persona_root_card, persona_root_card_sha256,
      canonical_persona_root_card_bytes in Hrep. unbind Hrep as s Hs. unbind Hs as b Hb. rewrite seq_Ok in Hb. tauto.
  - case_bool_decide; cbn in Hd |- *; [|by injection Hd as <- <-].
    destruct (Z.ltb_spec (pn_recorded_at pin) (rc_issued_at cand)) as [Hlt|Hge]; cbn in Hd.
    + rewrite (proj2 (Z.leb_gt _ _)) by lia. by injection Hd as <- <-.
    + rewrite (proj2 (Z.leb_le _ _)) by lia. rewrite time_difference_Ok in Hd by lia.
      by injection Hd as <- <-.
Qed.

(** A comparison says exactly what the card and the pin are about: the
    proof's root verified, the pin matches if and only if it holds that root's
    digest, and a supplied card matches if and only if it copies that root's
    statement; and two roots that match one pin have the same statement,
    unless the bytes of the two statements collide under SHA-256. *)
Theorem comparison_identifies_root proof card pin t report :
  compare_persona_root_distribution proof card pin t = Ok report →
  ∃ verified, verify_persona_root_proof proof = Ok verified ∧
    (dr_pin_match report = Matched ↔
       pn_root_statement_sha256 pin = vpr_root_statement_sha256 verified) ∧
    (∀ c, card = Some c →
       dr_card_match report = Matched ↔ card_statement c = vpr_statement verified) ∧
    ∀ proof' card' t' report' verified', dr_pin_match report = Matched →
      compare_persona_root_distribution proof' card' pin t' = Ok report' →
      dr_pin_match report' = Matched → verify_persona_root_proof proof' = Ok verified' →
      vpr_statement verified' = vpr_statement verified ∨
      sha256_collision (root_payload verified') (root_payload verified).
Proof.
  assert (∀ proof card t report verified, verify_persona_root_proof proof = Ok verified →
    compare_verified_persona_root_distribution verified card pin t = Ok report →
    dr_pin_match report = Matched ↔
      pn_root_statement_sha256 pin = vpr_root_statement_sha256 verified) as Hpin.
  { clear. intros proof card t report verified Hv (cand & Hc & _ & _ & _ & Hm & _)%comparison_inv.
    apply derived_card_statement in Hc as (_ & <- & _). rewrite Hm. by case_bool_decide. }
  unfold compare_persona_root_distribution. intros H. unbind H as verified Hv. exists verified.
  split_and!; [done|by apply (Hpin _ _ _ _ _ Hv H)| |].
  - intros c ->. apply comparison_inv in H as (cand & Hc & _ & Hval & Hm & _).
    apply derived_card_statement in Hc as (Hcv & _ & _ & _ & Hst). rewrite Hm, <- Hst.
    case_bool_decide as Heq; [by subst|]. split; [done|]. intros E. exfalso. apply Heq.
    by apply valid_card_determined; auto.
  - intros proof' card' t' report' verified' Hm H' Hm' Hv'. rewrite Hv' in H'. cbn in H'.
    apply (Hpin _ _ _ _ _ Hv H) in Hm. apply (Hpin _ _ _ _ _ Hv' H') in Hm'.
    eapply roots_determined; [done..|]. congruence.
Qed.

Lemma distribution_sha256_no_panic field v : no_panic (validate_distribution_sha256 field v).
Proof. unfold validate_distribution_sha256. no_panics. Qed.

Lemma distribution_time_no_panic field v : no_panic (validate_distribution_time field v).
Proof. unfold validate_distribution_time. no_panics. Qed.

Lemma pin_uri_no_panic d : no_panic (persona_root_pin_uri d).
Proof. unfold persona_root_pin_uri. no_panics. apply distribution_sha256_no_panic. Qed.

Lemma distribution_bound_no_panic bs m d : no_panic (require_distribution_bound bs m d).
Proof. unfold require_distribution_bound. no_panics. Qed.

#[local] Hint Resolve distribution_sha256_no_panic distribution_time_no_panic pin_uri_no_panic
  distribution_bound_no_panic canonical_root_no_panic : panics.

Lemma card_fields_no_panic card : no_panic (validate_persona_root_card_fields card).
Proof. unfold validate_persona_root_card_fields. no_panics. Qed.

#[local] Hint Resolve card_fields_no_panic : panics.

Lemma card_sha256_no_panic card : no_panic (persona_root_card_sha256 card).
Proof. unfold persona_root_card_sha256, canonical_persona_root_card_bytes. no_panics. Qed.

Lemma derived_card_no_panic verified : no_panic (persona_root_card_from_verified_root verified).
Proof. unfold persona_root_card_from_verified_root, public_key_fingerprint. no_panics. Qed.

Lemma validate_pin_no_panic pin : no_panic (validate_persona_root_pin pin).
Proof. unfold validate_persona_root_pin, validate_persona_root_pin_fields. no_panics. Qed.

#[local] Hint Resolve card_sha256_no_panic derived_card_no_panic validate_pin_no_panic
  verify_persona_root_proof_no_panic : panics.

Lemma valid_pin_time pin r :
  validate_persona_root_pin pin = Ok r → (0 <= pn_recorded_at pin <= MAX_JCS_SAFE_INTEGER)%Z.
Proof.
  unfold validate_persona_root_pin, validate_persona_root_pin_fields. rewrite !seq_Ok.
  intros ((_ & _ & _ & Hrt & _) & _). by apply validate_distribution_time_Ok in Hrt.
Qed.

Lemma compare_verified_no_panic verified card pin t :
  no_panic (compare_verified_persona_root_distribution verified card pin t).
Proof.
  unfold compare_verified_persona_root_distribution, validate_persona_root_card.
  apply no_panic_bind; [no_panics|]. intros [] Ht%validate_distribution_time_Ok.
  apply no_panic_bind; [no_panics|]. intros cr _.
  apply no_panic_bind; [no_panics|]. intros pr Hpr%valid_pin_time.
  apply no_panic_bind; [no_panics|]. intros [] Hle. rewrite reject_if_Ok, Z.ltb_ge in Hle.
  apply no_panic_bind; [no_panics|]. intros cand (_ & _ & _ & Hi & _)%derived_card_statement.
  apply no_panic_bind; [no_panics|]. intros sha _. cbn zeta.
  apply no_panic_bind; [|intros [] _; rewrite time_difference_Ok by lia; exact I].
  case_match eqn:Hg; [|exact I]. rewrite time_difference_Ok; [exact I|done|].
  rewrite andb_true_iff, negb_true_iff, andb_false_iff, Z.ltb_ge in Hg. destruct Hg as [-> [?|?]]; [done|lia].
Qed.

(** Comparing a root, a card and a pin never panics: both differences of
    times are computed without overflow and are never negative; the reported
    age is the time since the pin was recorded, and a delay is reported
    exactly for a matching pin recorded at or after the root was issued. *)
Theorem comparison_times proof card pin t :
  no_panic (compare_persona_root_distribution proof card pin t) ∧
  ∀ report verified, verify_persona_root_proof proof = Ok verified →
    compare_persona_root_distribution proof card pin t = Ok report →
    Z.of_N (dr_pin_observation_age_seconds report) = (t - pn_recorded_at pin)%Z ∧
    dr_first_contact_delay_seconds report =
      (if bool_decide (dr_pin_match report = Matched) &&
          (rs_issued_at (vpr_statement verified) <=? pn_recorded_at pin)%Z
       then Some (Z.to_N (pn_recorded_at pin - rs_issued_at (vpr_statement verified))) else None).
Proof.
  unfold compare_persona_root_distribution. split.
  { apply no_panic_bind; [no_panics|]. intros v _. apply compare_verified_no_panic. }
  intros report verified -> H. cbn in H. apply comparison_inv in H as (cand & Hc & Hle & _ & _ & _ & -> & ->).
  apply derived_card_statement in Hc as (_ & _ & -> & _). split; [lia|done].
Qed.

End facts.
