(* ===== verification/Instances.v ===== *)
(** * Concrete instances of the foreign code

    The theorems take the third-party code as arguments with the laws of
    [Crates.v] as hypotheses. This file has one instance of every operation and
    law, computable and small: a byte per character for the Base64 engines, of
    which the URL-safe one fills up to its real length, a
    checksum of 32 printable bytes for SHA-256, a self-delimiting codec for
    JSON in which the first member of a statement is its schema, and a signer
    whose signature spells out key, namespace and payload digest. It shows that
    the laws can hold together and lets [Witness.v] evaluate the definitions on
    concrete proofs. *)

From stdpp Require Import base numbers list strings pretty option.
From Stdlib Require Import Strings.Byte Ascii.
From S2P Require Import Prelude Text Ordered Display Crates ArtifactProof ArtifactFacts.
From S2P Require Import Continuity ContinuityFacts RecoveryPolicy RecoveryPolicyFacts.
From S2P Require Import RecoveryChain RecoveryChainFacts RecoveryCreated Ceremony.

(** ** A self-delimiting codec *)

Class Codec (T : Type) := {
  enc : T → bytes;
  dec : bytes → option (T * bytes);
  dec_enc x rest : dec (enc x ++ rest) = Some (x, rest);
}.

(** A string ends at the byte 0; the bytes 0 and 1 of the string follow a 1. *)
Fixpoint enc_string (s : string) : bytes :=
  match s with
  | EmptyString => [x00]
  | String c s' =>
      match byte_of_ascii c with
      | (x00 | x01) as b => x01 :: b :: enc_string s'
      | b => b :: enc_string s'
      end
  end.

Fixpoint dec_string (bs : bytes) : option (string * bytes) :=
  match bs with
  | [] => None
  | x00 :: rest => Some (EmptyString, rest)
  | x01 :: rest =>
      match rest with
      | c :: rest' =>
          match dec_string rest' with
          | Some (s, r) => Some (String (ascii_of_byte c) s, r)
          | None => None
          end
      | [] => None
      end
  | c :: rest =>
      match dec_string rest with
      | Some (s, r) => Some (String (ascii_of_byte c) s, r)
      | None => None
      end
  end.

Lemma dec_enc_string s rest : dec_string (enc_string s ++ rest) = Some (s, rest).
Proof.
  induction s as [|c s IH]; [done|]. rewrite <- (ascii_of_byte_of_ascii c).
  destruct (byte_of_ascii c); cbn; rewrite IH; done.
Qed.

#[export] Instance codec_string : Codec string :=
  {| enc := enc_string; dec := dec_string; dec_enc := dec_enc_string |}.

Fixpoint enc_pos (p : positive) : bytes :=
  match p with
  | xH => [x00]
  | xO p' => x01 :: enc_pos p'
  | xI p' => x02 :: enc_pos p'
  end.

Fixpoint dec_pos (bs : bytes) : option (positive * bytes) :=
  match bs with
  | x00 :: rest => Some (xH, rest)
  | x01 :: rest => match dec_pos rest with Some (p, r) => Some (xO p, r) | None => None end
  | x02 :: rest => match dec_pos rest with Some (p, r) => Some (xI p, r) | None => None end
  | _ => None
  end.

Lemma dec_enc_pos p rest : dec_pos (enc_pos p ++ rest) = Some (p, rest).
Proof. induction p as [p IH|p IH|]; cbn; [by rewrite IH..|done]. Qed.

Definition enc_Z (z : Z) : bytes :=
  match z with Z0 => [x00] | Zpos p => x01 :: enc_pos p | Zneg p => x02 :: enc_pos p end.

Definition dec_Z (bs : bytes) : option (Z * bytes) :=
  match bs with
  | x00 :: rest => Some (0%Z, rest)
  | x01 :: rest => '(p, r) ← dec_pos rest; Some (Zpos p, r)
  | x02 :: rest => '(p, r) ← dec_pos rest; Some (Zneg p, r)
  | _ => None
  end.

Lemma dec_enc_Z z rest : dec_Z (enc_Z z ++ rest) = Some (z, rest).
Proof. destruct z; cbn; [done|by rewrite dec_enc_pos..]. Qed.

#[export] Instance codec_Z : Codec Z := {| enc := enc_Z; dec := dec_Z; dec_enc := dec_enc_Z |}.

(** A type that embeds in one with a codec. *)
Definition codec_via {A B} `{!Codec B} (to : A → B) (from : B → option A)
    (from_to : ∀ x, from (to x) = Some x) : Codec A.
Proof.
  refine {| enc x := enc (to x);
            dec bs := '(y, rest) ← dec bs; x ← from y; Some (x, rest) |}.
  abstract (intros x rest; rewrite dec_enc; cbn; by rewrite from_to).
Defined.

#[export] Instance codec_N : Codec N :=
  codec_via Z.of_N (λ z, Some (Z.to_N z)) (λ n, f_equal Some (N2Z.id n)).

#[export] Instance codec_pair {A B} `{!Codec A, !Codec B} : Codec (A * B).
Proof.
  refine {| enc p := enc p.1 ++ enc p.2;
            dec bs := '(a, bs) ← dec bs; '(b, bs) ← dec bs; Some ((a, b), bs) |}.
  abstract (intros [a b] rest; cbn; rewrite <- app_assoc, dec_enc; cbn; by rewrite dec_enc).
Defined.

#[export] Instance codec_option {A} `{!Codec A} : Codec (option A).
Proof.
  refine {| enc o := match o with Some a => x01 :: enc a | None => [x00] end;
            dec bs := match bs with
                      | x00 :: rest => Some (None, rest)
                      | x01 :: rest => '(a, r) ← dec rest; Some (Some a, r)
                      | _ => None
                      end |}.
  abstract (intros [a|] rest; cbn; [by rewrite dec_enc|done]).
Defined.

Fixpoint enc_list {A} `{!Codec A} (l : list A) : bytes :=
  match l with
  | [] => []
  | a :: l' => enc a ++ enc_list l'
  end.

Fixpoint dec_list {A} `{!Codec A} (n : nat) (bs : bytes) : option (list A * bytes) :=
  match n with
  | O => Some ([], bs)
  | S n' => '(a, r) ← dec bs; '(l, r) ← dec_list n' r; Some (a :: l, r)
  end.

Lemma dec_enc_list {A} `{!Codec A} (l : list A) rest :
  dec_list (length l) (enc_list l ++ rest) = Some (l, rest).
Proof.
  induction l as [|a l IH]; [done|]. cbn. rewrite <- app_assoc, dec_enc. cbn. by rewrite IH.
Qed.

#[export] Instance codec_list {A} `{!Codec A} : Codec (list A).
Proof.
  refine {| enc l := enc (len l) ++ enc_list l;
            dec bs := '(n, bs) ← dec bs; dec_list (N.to_nat n) bs |}.
  abstract (intros l rest; rewrite <- app_assoc, dec_enc; cbn;
            unfold len; rewrite Nat2N.id; apply dec_enc_list).
Defined.

(** ** JSON *)

Definition syntax_error : JsonError := {| je_category := JsonSyntax; je_line := 1; je_column := 0 |}.

Definition serde_of {T} `{!Codec T} : Serde T :=
  {| json_to_vec x := inr (enc x);
     jcs_to_vec x := inr (enc x);
     json_from_slice bs :=
       match dec bs with Some (x, []) => inr x | _ => inl syntax_error end |}.

Lemma serde_of_ok {T} `{!Codec T} (ok : T → Prop) : @SerdeOk T serde_of ok.
Proof.
  split; intros x bs _ [= <-]; cbn;
    by rewrite <- (app_nil_r (enc x)), dec_enc.
Qed.

(** A statement is the tuple of its members, the schema first. *)
#[export] Instance codec_ArtifactStatement : Codec ArtifactStatement :=
  codec_via
    (λ s, (as_schema s, (dg_algorithm (ad_digest (as_artifact s)),
           (dg_value (ad_digest (as_artifact s)), (ad_size (as_artifact s),
           (sc_persona (as_signer s), sc_key_fingerprint (as_signer s)))))))
    (λ '(schema, (algorithm, (value, (size, (persona, fingerprint))))),
      Some {| as_schema := schema;
              as_artifact := {| ad_digest := {| dg_algorithm := algorithm; dg_value := value |};
                                ad_size := size |};
              as_signer := {| sc_persona := persona; sc_key_fingerprint := fingerprint |} |})
    ltac:(by intros [? [[]] []]).

#[export] Instance codec_PersonaRootStatement : Codec PersonaRootStatement :=
  codec_via
    (λ s, (rs_schema s, (rs_canonicalization s, (rs_persona_anchor s, (rs_persona s,
          (rs_root_version s, (rs_issued_at s, rs_initial_key_fingerprint s)))))))
    (λ '(a, (b, (c, (d, (e, (f, g)))))), Some (Build_PersonaRootStatement a b c d e f g))
    ltac:(by intros []).

#[export] Instance codec_PersonaTransitionStatement : Codec PersonaTransitionStatement :=
  codec_via
    (λ s, (ts_schema s, (ts_canonicalization s, (ts_persona_anchor s, (ts_persona s,
          (ts_sequence s, (ts_issued_at s, (ts_root_statement_sha256 s,
          (ts_previous_transition_sha256 s, (ts_previous_key_fingerprint s,
           ts_next_key_fingerprint s))))))))))
    (λ '(a, (b, (c, (d, (e, (f, (g, (h, (i, j))))))))),
      Some (Build_PersonaTransitionStatement a b c d e f g h i j Routine))
    ltac:(by intros [?????????? []]).

Definition capability_of (n : N) : option RecoveryPolicyCapability :=
  match n with 0%N => Some KeyRecovery | 1%N => Some TerminalRevocation | _ => None end.

#[export] Instance codec_capability : Codec RecoveryPolicyCapability :=
  codec_via capability_index capability_of ltac:(by intros []).

#[export] Instance codec_RecoveryPolicyStatement : Codec RecoveryPolicyStatement :=
  codec_via
    (λ s, (ps_schema s, (ps_canonicalization s, (ps_persona_anchor s, (ps_persona s,
          (ps_root_statement_sha256 s, (ps_policy_version s, (ps_previous_policy_sha256 s,
          ((rc_transition_sequence (ps_continuity_checkpoint s),
            rc_transition_sha256 (ps_continuity_checkpoint s)),
          (ps_issued_at s, (ps_expires_at s, (ps_threshold s,
          (ps_recovery_key_fingerprints s, ps_capabilities s)))))))))))))
    (λ '(a, (b, (c, (d, (e, (f, (g, ((h1, h2), (i, (j, (k, (l, m)))))))))))),
      Some (Build_RecoveryPolicyStatement a b c d e f g (Build_RecoveryContinuityCheckpoint h1 h2)
        i j k l m))
    ltac:(by intros [??????? []]).

Definition reason_index (r : RecoveryTransitionReason) : N :=
  match r with ReasonRecovery => 0 | ReasonCompromise => 1 end.
Definition reason_of (n : N) : option RecoveryTransitionReason :=
  match n with 0%N => Some ReasonRecovery | 1%N => Some ReasonCompromise | _ => None end.

#[export] Instance codec_RecoveryTransitionReason : Codec RecoveryTransitionReason :=
  codec_via reason_index reason_of ltac:(by intros []).

#[export] Instance codec_RecoveryTransitionStatement : Codec RecoveryTransitionStatement :=
  codec_via
    (λ s, (xs_schema s, (xs_canonicalization s, (xs_persona_anchor s, (xs_persona s,
          (xs_sequence s, (xs_issued_at s, (xs_root_statement_sha256 s,
          (xs_previous_transition_sha256 s, (xs_previous_key_fingerprint s,
          (xs_next_key_fingerprint s, (xs_recovery_policy_sha256 s, (xs_recovery_policy_version s,
          (xs_reason s, (xs_ceremony_id s, xs_expires_at s)))))))))))))))
    (λ '(a, (b, (c, (d, (e, (f, (g, (h, (i, (j, (k, (l, (m, (n, o)))))))))))))),
      Some (Build_RecoveryTransitionStatement a b c d e f g h i j k l m n o))
    ltac:(by intros []).

Definition terminal_reason_index (r : TerminalPersonaRevocationReason) : N :=
  match r with TerminalCompromise => 0 | TerminalCessation => 1 end.
Definition terminal_reason_of (n : N) : option TerminalPersonaRevocationReason :=
  match n with 0%N => Some TerminalCompromise | 1%N => Some TerminalCessation | _ => None end.

#[export] Instance codec_TerminalPersonaRevocationReason : Codec TerminalPersonaRevocationReason :=
  codec_via terminal_reason_index terminal_reason_of ltac:(by intros []).

#[export] Instance codec_TerminalPersonaRevocationStatement :
    Codec TerminalPersonaRevocationStatement :=
  codec_via
    (λ s, (zs_schema s, (zs_canonicalization s, (zs_persona_anchor s, (zs_persona s,
          (zs_sequence s, (zs_issued_at s, (zs_root_statement_sha256 s,
          (zs_previous_transition_sha256 s, (zs_previous_key_fingerprint s,
          (zs_recovery_policy_sha256 s, (zs_recovery_policy_version s, (zs_reason s,
           zs_effect s)))))))))))))
    (λ '(a, (b, (c, (d, (e, (f, (g, (h, (i, (j, (k, (l, m)))))))))))),
      Some (Build_TerminalPersonaRevocationStatement a b c d e f g h i j k l m))
    ltac:(by intros []).

(** The proofs and the ceremony documents. *)
#[export] Instance codec_sum {A B} `{!Codec A, !Codec B} : Codec (A + B).
Proof.
  refine {| enc s := match s with inl a => x00 :: enc a | inr b => x01 :: enc b end;
            dec bs := match bs with
                      | x00 :: rest => '(a, r) ← dec rest; Some (inl a, r)
                      | x01 :: rest => '(b, r) ← dec rest; Some (inr b, r)
                      | _ => None
                      end |}.
  abstract (intros [a|b] rest; cbn; by rewrite dec_enc).
Defined.

Definition role_index (r : ContinuitySignatureRole) : N :=
  match r with RoleRoot => 0 | RolePrevious => 1 | RoleNext => 2 end.
Definition role_of (n : N) : option ContinuitySignatureRole :=
  match n with 0%N => Some RoleRoot | 1%N => Some RolePrevious | 2%N => Some RoleNext | _ => None end.

#[export] Instance codec_ContinuitySignatureRole : Codec ContinuitySignatureRole :=
  codec_via role_index role_of ltac:(by intros []).
#[export] Instance codec_ContinuitySignature : Codec ContinuitySignature :=
  codec_via
    (λ s, (cs_role s, (cs_format s, (cs_namespace s, (cs_value s, (cs_public_key_format s,
           cs_public_key s))))))
    (λ '(a, (b, (c, (d, (e, f))))), Some (Build_ContinuitySignature a b c d e f))
    ltac:(by intros []).
#[export] Instance codec_PersonaRootProof : Codec PersonaRootProof :=
  codec_via (λ p, (rp_schema p, (rp_payload p, rp_signature p)))
    (λ '(a, (b, c)), Some (Build_PersonaRootProof a b c)) ltac:(by intros []).
#[export] Instance codec_PersonaTransitionProof : Codec PersonaTransitionProof :=
  codec_via (λ p, (tp_schema p, (tp_payload p, tp_signatures p)))
    (λ '(a, (b, c)), Some (Build_PersonaTransitionProof a b c)) ltac:(by intros []).
#[export] Instance codec_RecoverySignature : Codec RecoverySignature :=
  codec_via
    (λ s, (sg_format s, (sg_namespace s, (sg_value s, (sg_public_key_format s, sg_public_key s)))))
    (λ '(a, (b, (c, (d, e)))), Some (Build_RecoverySignature a b c d e)) ltac:(by intros []).
#[export] Instance codec_RecoveryPolicyAuthorization : Codec RecoveryPolicyAuthorization :=
  codec_via
    (λ a, match a with Enrollment s => inl s | Update p c => inr (p, c) end)
    (λ s, match s with inl s => Some (Enrollment s) | inr (p, c) => Some (Update p c) end)
    ltac:(by intros []).
#[export] Instance codec_RecoveryPolicyProof : Codec RecoveryPolicyProof :=
  codec_via (λ p, (pp_schema p, (pp_payload p, pp_authorization p)))
    (λ '(a, (b, c)), Some (Build_RecoveryPolicyProof a b c)) ltac:(by intros []).
#[export] Instance codec_RecoveryTransitionProof : Codec RecoveryTransitionProof :=
  codec_via (λ p, (xp_schema p, (xp_payload p, (xp_recovery_signatures p, xp_next_signature p))))
    (λ '(a, (b, (c, d))), Some (Build_RecoveryTransitionProof a b c d)) ltac:(by intros []).
#[export] Instance codec_TerminalPersonaRevocationProof : Codec TerminalPersonaRevocationProof :=
  codec_via (λ p, (zp_schema p, (zp_payload p, zp_recovery_signatures p)))
    (λ '(a, (b, c)), Some (Build_TerminalPersonaRevocationProof a b c)) ltac:(by intros []).
#[export] Instance codec_PersonaContinuityTransitionProof : Codec PersonaContinuityTransitionProof :=
  codec_via
    (λ p, match p with
          | ProofRoutine p => inl p
          | ProofRecovery p => inr (inl p)
          | ProofTerminalRevocation p => inr (inr p)
          end)
    (λ s, match s with
          | inl p => Some (ProofRoutine p)
          | inr (inl p) => Some (ProofRecovery p)
          | inr (inr p) => Some (ProofTerminalRevocation p)
          end)
    ltac:(by intros []).
#[export] Instance codec_PersonaContinuityCheckpoint : Codec PersonaContinuityCheckpoint :=
  codec_via (λ c, (cp_transition_sequence c, cp_transition_sha256 c))
    (λ '(a, b), Some (Build_PersonaContinuityCheckpoint a b)) ltac:(by intros []).
#[export] Instance codec_RecoveryCeremonyRequest : Codec RecoveryCeremonyRequest :=
  codec_via
    (λ q, (cq_schema q, (cq_canonicalization q, (cq_root_proof q, (cq_recovery_policies q,
          (cq_prior_transitions q, (cq_expected_root_statement_sha256 q,
          (cq_expected_latest_policy_sha256 q, (cq_expected_head q, (cq_statement q,
           cq_next_public_key q))))))))))
    (λ '(a, (b, (c, (d, (e, (f, (g, (h, (i, j))))))))),
      Some (Build_RecoveryCeremonyRequest a b c d e f g h i j))
    ltac:(by intros []).

Definition participant_role_index (r : RecoveryCeremonyParticipantRole) : N :=
  match r with RecoveryAuthority => 0 | NextKey => 1 end.
Definition participant_role_of (n : N) : option RecoveryCeremonyParticipantRole :=
  match n with 0%N => Some RecoveryAuthority | 1%N => Some NextKey | _ => None end.

#[export] Instance codec_RecoveryCeremonyParticipantRole : Codec RecoveryCeremonyParticipantRole :=
  codec_via participant_role_index participant_role_of ltac:(by intros []).
#[export] Instance codec_RecoveryCeremonyResponse : Codec RecoveryCeremonyResponse :=
  codec_via
    (λ r, (cx_schema r, (cx_canonicalization r, (cx_request_sha256 r,
          (cx_participant_fingerprint r, (cx_role r, (cx_request_binding_signature r,
           cx_signature r)))))))
    (λ '(a, (b, (c, (d, (e, (f, g)))))), Some (Build_RecoveryCeremonyResponse a b c d e f g))
    ltac:(by intros []).

#[export] Instance json_RecoveryCeremonyRequest : Serde RecoveryCeremonyRequest := serde_of.
#[export] Instance json_RecoveryCeremonyResponse : Serde RecoveryCeremonyResponse := serde_of.
#[export] Instance json_ArtifactStatement : Serde ArtifactStatement := serde_of.
#[export] Instance json_PersonaRootStatement : Serde PersonaRootStatement := serde_of.
#[export] Instance json_PersonaTransitionStatement : Serde PersonaTransitionStatement := serde_of.
#[export] Instance json_RecoveryPolicyStatement : Serde RecoveryPolicyStatement := serde_of.
#[export] Instance json_RecoveryTransitionStatement : Serde RecoveryTransitionStatement := serde_of.
#[export] Instance json_TerminalPersonaRevocationStatement :
  Serde TerminalPersonaRevocationStatement := serde_of.

#[export] Instance json_ArtifactStatement_ok : SerdeOk ArtifactStatement statement_in_range :=
  serde_of_ok _.
#[export] Instance json_PersonaRootStatement_ok : SerdeOk PersonaRootStatement root_in_range :=
  serde_of_ok _.
#[export] Instance json_PersonaTransitionStatement_ok :
  SerdeOk PersonaTransitionStatement transition_in_range := serde_of_ok _.
#[export] Instance json_RecoveryPolicyStatement_ok :
  SerdeOk RecoveryPolicyStatement policy_in_range := serde_of_ok _.
#[export] Instance json_RecoveryTransitionStatement_ok :
  SerdeOk RecoveryTransitionStatement recovery_in_range := serde_of_ok _.
#[export] Instance json_TerminalPersonaRevocationStatement_ok :
  SerdeOk TerminalPersonaRevocationStatement terminal_in_range := serde_of_ok _.

(** Whatever statement is read, its schema is the first string of the bytes. *)
Lemma read_schema_first {T B} `{!Codec B} (to : T → string * B) (from : string * B → option T)
    from_to (schema : T → string) bs x :
  (∀ p t, from p = Some t → schema t = p.1) →
  @json_from_slice T (@serde_of T (codec_via to from from_to)) bs = inr x →
  ∃ rest, dec_string bs = Some (schema x, rest).
Proof.
  intros Hs H. cbn in H. destruct (dec_string bs) as [[s r]|]; cbn in H; [|done].
  destruct (dec r) as [[b r']|]; cbn in H; [|done].
  destruct (from (s, b)) as [t|] eqn:Ef; cbn in H; [|done].
  destruct r'; [|done]. injection H as ->. apply Hs in Ef. cbn in Ef. subst. by exists r.
Qed.

Lemma transition_schema_first bs (st : PersonaTransitionStatement) :
  json_from_slice bs = inr st → ∃ rest, dec_string bs = Some (ts_schema st, rest).
Proof. apply (read_schema_first _ _ _ ts_schema). intros p t H. by repeat case_match; simplify_eq/=. Qed.

Lemma recovery_schema_first bs (st : RecoveryTransitionStatement) :
  json_from_slice bs = inr st → ∃ rest, dec_string bs = Some (xs_schema st, rest).
Proof. apply (read_schema_first _ _ _ xs_schema). intros p t H. by repeat case_match; simplify_eq/=. Qed.

Lemma terminal_schema_first bs (st : TerminalPersonaRevocationStatement) :
  json_from_slice bs = inr st → ∃ rest, dec_string bs = Some (zs_schema st, rest).
Proof. apply (read_schema_first _ _ _ zs_schema). intros p t H. by repeat case_match; simplify_eq/=. Qed.

#[export] Instance schema_transition_recovery :
  SchemaMember PersonaTransitionStatement RecoveryTransitionStatement ts_schema xs_schema.
Proof.
  split. intros bs a b (r & Ha)%transition_schema_first (r' & Hb)%recovery_schema_first. congruence.
Qed.
#[export] Instance schema_transition_terminal :
  SchemaMember PersonaTransitionStatement TerminalPersonaRevocationStatement ts_schema zs_schema.
Proof.
  split. intros bs a b (r & Ha)%transition_schema_first (r' & Hb)%terminal_schema_first. congruence.
Qed.
#[export] Instance schema_recovery_terminal :
  SchemaMember RecoveryTransitionStatement TerminalPersonaRevocationStatement xs_schema zs_schema.
Proof.
  split. intros bs a b (r & Ha)%recovery_schema_first (r' & Hb)%terminal_schema_first. congruence.
Qed.

(** ** The crates *)

(** Six base-16 digits of a 24-bit checksum, as letters, and padding: 32
    printable bytes. *)
Definition checksum (bs : bytes) : N :=
  foldl (λ acc b, N.land (acc * 33 + byte_val b) 16777215) 5381%N bs.

Definition digest_letter (n i : N) : byte := byte_of (97 + N.land (N.shiftr n (4 * i)) 15).

Definition small_digest (bs : bytes) : bytes :=
  let n := checksum bs in
  ((digest_letter n <$> [0; 1; 2; 3; 4; 5]%N) : bytes) ++ repeat x2e 26.

(** What a holder of [key] signs: the key, the namespace and the digest. *)
Definition signature_text (key namespace : string) (payload : bytes) : string :=
  key +:+ "|" +:+ namespace +:+ "|" +:+ String.string_of_list_byte (small_digest payload).

(** Key blobs are written with two letters for the bytes of their length. *)
Definition escape_byte (b : byte) : byte :=
  match b with x00 => x41 | x02 => x43 | _ => b end.
Definition unescape_byte (b : byte) : byte :=
  match b with x41 => x00 | x43 => x02 | _ => b end.

(** The bytes, and hyphens up to the length of their Base64. *)
Definition url_pad (n : nat) : nat := (n + 2) / 3.
Definition url_encode (bs : bytes) : string :=
  String.string_of_list_byte (bs ++ repeat x2d (url_pad (length bs))).
Definition url_decode (s : string) : bytes :=
  let bs := String.list_byte_of_string s in take (3 * length bs / 4) bs.

#[export] Instance small_crates : Crates := {|
  URL_SAFE_NO_PAD_encode := url_encode;
  URL_SAFE_NO_PAD_decode s := inr (url_decode s);
  STANDARD_encode bs := String.string_of_list_byte (escape_byte <$> bs);
  STANDARD_decode s := inr (unescape_byte <$> String.list_byte_of_string s);
  STANDARD_NO_PAD_encode := String.string_of_list_byte;
  STANDARD_NO_PAD_decode s := inr (String.list_byte_of_string s);
  Sha256_digest := small_digest;
  SshPublicKey := string;
  SshSig := string;
  PublicKey_from_openssh := Some;
  key_data _ := Ed25519;
  SshSig_parse := Some;
  SshSig_algorithm _ := AlgorithmOther;
  PublicKey_verify key namespace payload signature :=
    bool_decide (signature = signature_text key namespace payload) |}.

Lemma string_of_list_byte_len bs : str_len (String.string_of_list_byte bs) = len bs.
Proof.
  induction bs as [|b bs IH]; [done|].
  change (String.string_of_list_byte (b :: bs))
    with (String (ascii_of_byte b) (String.string_of_list_byte bs)).
  by rewrite str_len_cons, len_cons, IH.
Qed.

Lemma url_pad_bounds n : n <= 3 * url_pad n <= n + 2.
Proof. unfold url_pad. pose proof (Nat.div_mod (n + 2) 3). pose proof (Nat.mod_upper_bound (n + 2) 3). lia. Qed.

Lemma url_decode_encode bs : url_decode (url_encode bs) = bs.
Proof.
  unfold url_decode, url_encode. rewrite String.list_byte_of_string_of_list_byte, length_app, repeat_length.
  pose proof (url_pad_bounds (length bs)).
  replace (3 * (length bs + url_pad (length bs)) / 4) with (length bs); [apply take_app_length|].
  apply Nat.div_unique with (r := 3 * (length bs + url_pad (length bs)) - 4 * length bs); lia.
Qed.

#[export] Instance small_crates_ok : CratesOk.
Proof.
  split.
  - intros bs. exact (f_equal inr (url_decode_encode bs)).
  - intros bs. cbn [URL_SAFE_NO_PAD_encode small_crates]. unfold url_encode.
    rewrite string_of_list_byte_len. pose proof (url_pad_bounds (length bs)). unfold len.
    rewrite length_app, repeat_length. lia.
  - intros bs. exact (f_equal inr (String.list_byte_of_string_of_list_byte bs)).
  - done.
Qed.

(** ** The signer *)

Definition keygen_file : Metadata :=
  {| md_is_symlink := false; md_is_file := true; md_is_dir := false; md_is_socket := false;
     md_len := 1; md_readonly := false;
     md_modified := inr 0%Z; md_dev := 1; md_ino := 7; md_uid := 0; md_mode := 0x1ed;
     md_mtime := 0; md_mtime_nsec := 0; md_ctime := 0; md_ctime_nsec := 0 |}.

(** The private key file of a public key is named by that key; signing answers
    at the first poll. *)
#[export] Instance small_keygen : SshKeygen := {|
  keygen_metadata := inr keygen_file;
  keygen_spawn args input :=
    match args with
    | [_; _; _; path; _; namespace; _] =>
        inr {| ch_stdin := true;
               ch_write_all := None;
               ch_try_wait _ := Exited;
               ch_wait_with_output :=
                 inr {| out_success := true; out_status := "";
                        out_stdout := as_bytes (signature_text path namespace input) |} |}
    | _ => inl "unknown command"
    end;
  instant_start := 0;
  instant_at i := (20 * N.of_nat i)%N |}.

#[export] Instance small_clock_ok : ClockOk.
Proof. split; [done|]. intros i. cbn [instant_at small_keygen]. lia. Qed.

(** A public key: its algorithm label and the blob that repeats it. *)
Definition key_of (id : byte) : string :=
  "k1 " +:+ String.string_of_list_byte [x41; x41; x41; x43; x6b; x31; id].
