(* ===== verification/Witness.v ===== *)
(** * Witnesses

    One persona, followed from its root through a routine rotation, two
    recovery policies, a recovery and a terminal revocation, all made by the
    create functions with the instances of [Instances.v]. Each theorem with
    hypotheses is applied to a part of this history that meets them. Then the
    persona takes part in a recovery ceremony, publishes its root, and proves
    the control of a domain. *)

From stdpp Require Import base numbers list strings pretty option.
From Stdlib Require Import Strings.Byte Ascii.
From S2P Require Import Prelude Text Ordered Display Crates ArtifactProof ArtifactFacts Continuity ContinuityFacts RecoveryPolicy.
From S2P Require Import RecoveryPolicyFacts RecoveryChain RecoveryChainFacts RecoveryCreated Instances Ceremony CeremonyFacts RootDistribution Names Domain.
From S2P Require Import DomainFacts.

(** ** A persona's history *)

(** The value of a computation that succeeds. *)
Definition ok_get {E A} (m : result E A) : is_ok m = true → A :=
  match m with
  | Ok a => λ _, a
  | Err _ | Panic _ => λ H, match diff_false_true H with end
  end.

Definition anchor : string := "0123456789abcdef0123456789abcdef-----------".
Definition key_a : string := Eval vm_compute in key_of x61.
Definition key_b : string := Eval vm_compute in key_of x62.
Definition key_c : string := Eval vm_compute in key_of x63.
Definition key_d : string := Eval vm_compute in key_of x64.
Definition key_e : string := Eval vm_compute in key_of x65.
Definition key_f : string := Eval vm_compute in key_of x66.

Definition signer (key : string) : RecoverySigner :=
  {| rsn_private_key_path := key; rsn_public_key := key |}.

Definition the_root_statement : PersonaRootStatement := Eval vm_compute in
  ok_get (new_persona_root_statement_with_anchor anchor "Ada" 100 key_a) eq_refl.
Definition the_root_proof : PersonaRootProof := Eval vm_compute in
  ok_get (create_persona_root_proof the_root_statement key_a key_a) eq_refl.
Definition the_root : VerifiedPersonaRoot := Eval vm_compute in
  ok_get (verify_persona_root_proof the_root_proof) eq_refl.
Definition root_digest : string := Eval vm_compute in vpr_root_statement_sha256 the_root.

(** The key [a] signs over to the key [e]. *)
Definition rotation_statement : PersonaTransitionStatement := Eval vm_compute in
  ok_get (new_routine_transition_statement the_root 1 None key_a key_e 120) eq_refl.
Definition rotation_proof : PersonaTransitionProof := Eval vm_compute in
  ok_get (create_routine_transition_proof rotation_statement key_a key_a key_e key_e) eq_refl.
Definition rotation : VerifiedPersonaTransition := Eval vm_compute in
  ok_get (verify_persona_transition_proof rotation_proof) eq_refl.
Definition rotation_digest : string := Eval vm_compute in vpt_transition_statement_sha256 rotation.

(** Two of [b], [c] and [d] may recover; later also revoke, after the rotation. *)
Definition policy1_statement : RecoveryPolicyStatement := Eval vm_compute in
  ok_get (new_initial_recovery_policy_statement the_root [key_d; key_b; key_c] 2
    {| rc_transition_sequence := 0; rc_transition_sha256 := None |} 110 100000) eq_refl.
Definition policy1_proof : RecoveryPolicyProof := Eval vm_compute in
  ok_get (create_initial_recovery_policy_proof policy1_statement
    [signer key_b; signer key_c; signer key_d]) eq_refl.
Definition policy1 : VerifiedRecoveryPolicy := Eval vm_compute in
  ok_get (verify_initial_recovery_policy_proof the_root policy1_proof) eq_refl.
Definition policy2_statement : RecoveryPolicyStatement := Eval vm_compute in
  ok_get (new_recovery_policy_update_statement_with_capabilities policy1 [key_b; key_c] 2
    [TerminalRevocation; KeyRecovery]
    {| rc_transition_sequence := 1; rc_transition_sha256 := Some rotation_digest |} 130 100000)
    eq_refl.
Definition policy2_proof : RecoveryPolicyProof := Eval vm_compute in
  ok_get (create_recovery_policy_update_proof policy2_statement policy1
    [signer key_c; signer key_d] [signer key_b; signer key_c]) eq_refl.
Definition policy2 : VerifiedRecoveryPolicy := Eval vm_compute in
  ok_get (verify_recovery_policy_update_proof the_root policy1 policy2_proof) eq_refl.
Definition policy_digest : string := Eval vm_compute in vp_policy_statement_sha256 policy2.
Definition policy_proofs : list RecoveryPolicyProof := [policy1_proof; policy2_proof].

(** The authorities replace the compromised [e] by [f] in a ceremony. *)
Definition recovery_statement : RecoveryTransitionStatement := Eval vm_compute in
  ok_get (new_recovery_transition_ceremony_statement_with_id the_root 2 (Some rotation_digest)
    (ts_next_key_fingerprint rotation_statement) key_f policy2 140 5000 ReasonCompromise anchor)
    eq_refl.
Definition recovery_proof : RecoveryTransitionProof := Eval vm_compute in
  ok_get (create_recovery_transition_proof recovery_statement policy2 [signer key_b; signer key_c]
    key_f key_f) eq_refl.
Definition recovery : VerifiedRecoveryTransition := Eval vm_compute in
  ok_get (verify_recovery_transition_proof the_root policy2 recovery_proof) eq_refl.

(** The authorities end the persona. *)
Definition revocation_statement : TerminalPersonaRevocationStatement := Eval vm_compute in
  ok_get (new_terminal_persona_revocation_statement the_root 3
    (Some (vx_transition_statement_sha256 recovery)) (xs_next_key_fingerprint recovery_statement)
    policy2 150 TerminalCessation) eq_refl.
Definition revocation_proof : TerminalPersonaRevocationProof := Eval vm_compute in
  ok_get (create_terminal_persona_revocation_proof revocation_statement policy2
    [signer key_c; signer key_b]) eq_refl.
Definition revocation : VerifiedTerminalPersonaRevocation := Eval vm_compute in
  ok_get (verify_terminal_persona_revocation_proof the_root policy2 revocation_proof) eq_refl.

Definition live_entries : list PersonaContinuityTransitionProof :=
  [ProofRoutine rotation_proof; ProofRecovery recovery_proof].
Definition all_entries : list PersonaContinuityTransitionProof :=
  live_entries ++ [ProofTerminalRevocation revocation_proof].

Definition live_chain : VerifiedRecoveryAwareContinuityChain := Eval vm_compute in
  ok_get (verify_persona_continuity_chain_with_recovery_with_verified_sequence the_root_proof
    live_entries policy_proofs root_digest policy_digest 200) eq_refl.
Definition ended_chain : VerifiedRecoveryAwareContinuityChain := Eval vm_compute in
  ok_get (verify_persona_continuity_chain_with_recovery_with_verified_sequence the_root_proof
    all_entries policy_proofs root_digest policy_digest 200) eq_refl.
Definition routine_chain : VerifiedPersonaContinuityChain := Eval vm_compute in
  ok_get (verify_persona_continuity_chain_with_verified_sequence the_root_proof [rotation_proof]
    root_digest) eq_refl.
Definition root_chain : VerifiedPersonaContinuityChain := Eval vm_compute in
  ok_get (verify_persona_continuity_chain_with_verified_sequence the_root_proof [] root_digest)
    eq_refl.
Definition policy_chain : VerifiedRecoveryPolicyChain := Eval vm_compute in
  ok_get (verify_recovery_policy_chain_with_verified_sequence the_root_proof policy_proofs
    root_digest policy_digest 200) eq_refl.

(** ** The verification functions accept it *)

Lemma live_chain_verifies :
  verify_persona_continuity_chain_with_recovery_with_verified_sequence the_root_proof live_entries
    policy_proofs root_digest policy_digest 200 = Ok live_chain.
Proof. vm_compute. reflexivity. Qed.

Lemma ended_chain_verifies :
  verify_persona_continuity_chain_with_recovery_with_verified_sequence the_root_proof all_entries
    policy_proofs root_digest policy_digest 200 = Ok ended_chain.
Proof. vm_compute. reflexivity. Qed.

Lemma routine_chain_verifies :
  verify_persona_continuity_chain_with_verified_sequence the_root_proof [rotation_proof] root_digest =
    Ok routine_chain.
Proof. vm_compute. reflexivity. Qed.

Lemma root_chain_verifies :
  verify_persona_continuity_chain_with_verified_sequence the_root_proof [] root_digest = Ok root_chain.
Proof. vm_compute. reflexivity. Qed.

Lemma policy_chain_verifies :
  verify_recovery_policy_chain_with_verified_sequence the_root_proof policy_proofs root_digest
    policy_digest 200 = Ok policy_chain.
Proof. vm_compute. reflexivity. Qed.

Lemma policy1_wf : policy_wf policy1_statement.
Proof. apply validated_policy_wf. vm_compute. reflexivity. Qed.

Lemma policy2_wf : policy_wf policy2_statement.
Proof. apply validated_policy_wf. vm_compute. reflexivity. Qed.

(** ** Artifact proofs *)

Definition the_data : bytes := [x61; x62; x63; x64].
Definition the_artifact : ArtifactDescriptor := Eval vm_compute in descriptor_of the_data 4.
Definition the_proof : ProofBundle := Eval vm_compute in
  ok_get (create_sshsig_proof_for_descriptor the_artifact key_a key_a "Ada") eq_refl.

Lemma create_verify_artifact_proof_witness :
  ∃ report, verify_sshsig_proof_for_descriptor the_artifact the_proof = Ok report ∧
    vs_persona (vr_signer report) = "Ada" ∧
    public_key_fingerprint key_a = Ok (vs_key_fingerprint (vr_signer report)).
Proof.
  apply (create_verify_artifact_proof the_artifact key_a key_a "Ada" the_proof);
    vm_compute; [reflexivity|discriminate|reflexivity].
Defined.

Definition the_report : VerificationReport := Eval vm_compute in
  ok_get (verify_sshsig_proof_for_descriptor the_artifact the_proof) eq_refl.

(** The checksum of this file does not tell the two contents apart. *)
Definition colliding_data : bytes := [x61; x62; x64; x43].

Lemma verified_proof_binds_one_artifact_witness :
  Sha256_digest the_data = Sha256_digest colliding_data ∧ len the_data = len colliding_data ∧
  vr_signer the_report = vr_signer the_report.
Proof.
  apply (verified_proof_binds_one_artifact the_data colliding_data the_proof the_report the_report);
    vm_compute; reflexivity.
Defined.

Lemma public_key_identity_witness :
  let presented := "  " +:+ key_a +:+ " ada@example.org" in
  normalize_public_key presented = Ok key_a ∧ normalize_public_key key_a = Ok key_a ∧
  ∃ f, public_key_fingerprint presented = Ok f ∧ public_key_fingerprint key_a = Ok f ∧
    validate_key_fingerprint f = Ok tt.
Proof.
  intros presented. split; [vm_compute; reflexivity|].
  apply (public_key_identity presented key_a); vm_compute; reflexivity.
Defined.

Lemma sshsig_sign_leaves_no_child_witness :
  let '(r, ended) := sshsig_sign_run the_data key_a SSHSIG_NAMESPACE in
  (∀ p, r ≠ Panic p) ∧
  (is_Some ended ↔ validate_ssh_keygen = Ok tt ∧
    ∃ child, keygen_spawn (sign_command key_a SSHSIG_NAMESPACE) the_data = inr child) ∧
  (is_ok r = true → ended = Some Reaped).
Proof. apply (sshsig_sign_leaves_no_child the_data key_a SSHSIG_NAMESPACE). Defined.

Lemma describe_reader_whole_witness :
  describe_reader [inr [x61]; inr [x62; x63]; inr [x64]; inr []; inl "never read"] "f" =
  Ok (descriptor_of the_data (len the_data)).
Proof.
  apply (describe_reader_whole [[x61]; [x62; x63]; [x64]] [inl "never read"] "f");
    [repeat constructor; discriminate|vm_compute; discriminate].
Defined.

(** A reader that gives one byte at a time. *)
Definition pread_byte (off : N) : string + bytes := inr (take 1 (drop (N.to_nat off) the_data)).

Lemma describe_open_artifact_whole_witness :
  describe_open_artifact pread_byte 5 = Some (Ok (descriptor_of the_data (len the_data))).
Proof.
  apply (describe_open_artifact_whole pread_byte the_data 5);
    [|vm_compute; discriminate|cbn; lia].
  intros off _. exists (take 1 (drop (N.to_nat off) the_data)), (drop 1 (drop (N.to_nat off) the_data)).
  split; [reflexivity|]. split; [by rewrite take_drop|].
  destruct (drop (N.to_nat off) the_data); [done|]. cbn. discriminate.
Defined.

Definition the_challenge : bytes := Eval vm_compute in
  ok_get (live_signer_binding_challenge OpensshFile "/k" key_a "SHA256:x" [x01; x02]) eq_refl.

Lemma live_challenge_injective_witness :
  live_signer_binding_challenge OpensshFile "/k" key_a "SHA256:x" [x01; x02] = Ok the_challenge ∧
  OpensshFile = OpensshFile ∧ "/k" = "/k" ∧ key_a = key_a ∧ "SHA256:x" = "SHA256:x" ∧
  [x01; x02] = [x01; x02].
Proof.
  split; [vm_compute; reflexivity|].
  apply (live_challenge_injective OpensshFile OpensshFile "/k" "/k" key_a key_a "SHA256:x" "SHA256:x"
    [x01; x02] [x01; x02] the_challenge); vm_compute; reflexivity.
Defined.

(** The file system in which the signer's key file is a regular file. *)
Definition the_fs : Fs :=
  {| symlink_metadata _ := inr keygen_file;
     metadata _ := inr keygen_file;
     canonicalize p := inr p;
     fs_read _ := inr [] |}.

(** The locator of this signer is the key itself. *)
Definition the_binding : VerifiedLiveSignerBinding := Eval vm_compute in
  ok_get (prove_live_signer_binding the_fs the_fs (Some [x01]) key_a key_a SshAgent) eq_refl.

Lemma live_binding_validation_witness :
  validate_verified_live_signer_binding the_fs the_binding SshAgent
    (lb_canonical_locator the_binding) key_a (lb_public_key_fingerprint the_binding) = Ok tt ∧
  ∀ fs provider' locator' key' fingerprint',
    validate_verified_live_signer_binding fs the_binding provider' locator' key' fingerprint' = Ok tt →
    provider' = SshAgent ∧ normalize_public_key key' = normalize_public_key key_a ∧
    fingerprint' = lb_public_key_fingerprint the_binding ∧
    ∃ current md, symlink_metadata fs current = inr md ∧ path_eqb current locator' = true ∧
      md_is_symlink md = false ∧ md_is_file md = true ∧
      md_ino md = li_inode (lb_locator_identity the_binding) ∧
      md_dev md = li_device (lb_locator_identity the_binding) ∧
      md_len md = li_length (lb_locator_identity the_binding).
Proof.
  apply (live_binding_validation the_fs the_fs (Some [x01]) key_a key_a SshAgent the_binding).
  vm_compute. reflexivity.
Defined.

(** ** Continuity *)

Lemma verified_chain_history_witness :
  vc_transitions routine_chain !! 0 = Some rotation ∧
  ts_sequence (vpt_statement rotation) = 1%N ∧
  ts_persona (vpt_statement rotation) = rs_persona (vpr_statement (vc_root routine_chain)) ∧
  ts_persona_anchor (vpt_statement rotation) =
    rs_persona_anchor (vpr_statement (vc_root routine_chain)) ∧
  ts_root_statement_sha256 (vpt_statement rotation) = root_digest ∧
  key_before (vc_root routine_chain) (vc_transitions routine_chain) 0 =
    Some (ts_previous_key_fingerprint (vpt_statement rotation)) ∧
  digest_before (vc_transitions routine_chain) 0 =
    ts_previous_transition_sha256 (vpt_statement rotation) ∧
  ∃ t, time_before (vc_root routine_chain) (vc_transitions routine_chain) 0 = Some t ∧
    (t <= ts_issued_at (vpt_statement rotation))%Z.
Proof.
  split; [reflexivity|].
  apply (verified_chain_history the_root_proof [rotation_proof] root_digest routine_chain 0 rotation
    routine_chain_verifies). reflexivity.
Defined.

Definition the_checkpoint : PersonaContinuityCheckpoint :=
  {| cp_transition_sequence := 1; cp_transition_sha256 := Some rotation_digest |}.

Definition checkpoint_report : ContinuityChainReport := Eval vm_compute in
  ok_get (verify_persona_continuity_chain_at_checkpoint the_root_proof [rotation_proof] root_digest
    the_checkpoint) eq_refl.

(** The same rotation, its signatures listed in the other order. *)
Definition reordered_rotation_proof : PersonaTransitionProof :=
  {| tp_schema := tp_schema rotation_proof;
     tp_payload := tp_payload rotation_proof;
     tp_signatures := reverse (tp_signatures rotation_proof) |}.

Lemma checkpoint_determines_history_witness :
  ∃ c1 c2, verify_persona_continuity_chain_with_verified_sequence the_root_proof [rotation_proof]
      root_digest = Ok c1 ∧
    verify_persona_continuity_chain_with_verified_sequence the_root_proof [reordered_rotation_proof]
      root_digest = Ok c2 ∧
    (vpr_statement (vc_root c1) = vpr_statement (vc_root c2) ∨
     sha256_collision (root_payload (vc_root c1)) (root_payload (vc_root c2))) ∧
    (vpt_statement <$> vc_transitions c1 = vpt_statement <$> vc_transitions c2 ∨
     sha256_collision (transition_payload (vc_transitions c1)) (transition_payload (vc_transitions c2))).
Proof.
  apply (checkpoint_determines_history the_root_proof the_root_proof [rotation_proof]
    [reordered_rotation_proof] root_digest the_checkpoint checkpoint_report checkpoint_report);
    vm_compute; reflexivity.
Defined.

Lemma extension_is_batch_verification_witness :
  verify_persona_continuity_chain_extension root_chain rotation_proof = Ok rotation ↔
  ∃ chain', verify_persona_continuity_chain_with_verified_sequence the_root_proof
      ([] ++ [rotation_proof]) root_digest = Ok chain' ∧
    vc_root chain' = vc_root root_chain ∧
    vc_transitions chain' = vc_transitions root_chain ++ [rotation] ∧
    report_head (vc_report chain') = transition_head rotation.
Proof.
  apply (extension_is_batch_verification the_root_proof [] root_digest root_chain rotation_proof
    rotation root_chain_verifies).
Defined.

Lemma created_root_verifies_witness :
  ∃ n, normalize_public_key key_a = Ok n ∧
    verify_persona_root_proof the_root_proof =
      Ok {| vpr_statement := the_root_statement;
            vpr_root_statement_sha256 := default "" (
              match persona_root_statement_sha256 the_root_statement with
              | Ok d => Some d | _ => None end);
            vpr_initial_public_key := n |}.
Proof.
  apply (created_root_verifies the_root_statement key_a key_a the_root_proof);
    [vm_compute; reflexivity..|]. split; vm_compute; discriminate.
Defined.

(** The key [a] still holds the root chain, so it can rotate to [e]. *)
Lemma rotation_extends_chain_witness :
  ∃ v, verify_persona_continuity_chain_extension root_chain rotation_proof = Ok v ∧
    vpt_statement v = rotation_statement.
Proof.
  apply (rotation_extends_chain the_root_proof [] root_digest root_chain key_a key_a key_e key_e 120
    rotation_statement rotation_proof root_chain_verifies);
    try (vm_compute; first [reflexivity | discriminate]).
  repeat constructor; vm_compute; discriminate.
Defined.

(** ** Recovery policies *)

Definition the_quorum : list RecoverySignature := xp_recovery_signatures recovery_proof.
Definition recovery_payload : bytes := Eval vm_compute in
  ok_get (canonical_recovery_transition_statement_bytes recovery_statement) eq_refl.

Lemma authority_quorum_witness :
  quorum recovery_payload RECOVERY_TRANSITION_AUTHORITY_NAMESPACE the_quorum
    (ps_recovery_key_fingerprints policy2_statement) 2 (vx_recovery_signer_fingerprints recovery) ∧
  (true = true → ∀ f, f ∈ ps_recovery_key_fingerprints policy2_statement →
    f ∈ vx_recovery_signer_fingerprints recovery).
Proof.
  apply (authority_quorum recovery_payload the_quorum
    (ps_recovery_key_fingerprints policy2_statement) 2 true RECOVERY_TRANSITION_AUTHORITY_NAMESPACE
    (vx_recovery_signer_fingerprints recovery)). vm_compute. reflexivity.
Defined.

Lemma verified_policy_chain_witness :
  vpc_policies policy_chain !! 1 = Some policy2 ∧
  ps_policy_version (vp_statement policy2) = 2%N ∧
  policy_wf (vp_statement policy2) ∧ bound_to_root (vpc_root policy_chain) (vp_statement policy2) ∧
  vpr_root_statement_sha256 (vpc_root policy_chain) = root_digest ∧
  ∃ payload, vp_policy_statement_sha256 policy2 = sha256_hex payload ∧
    authorised payload (vpc_policies policy_chain !! 0) policy2.
Proof.
  split; [reflexivity|].
  apply (verified_policy_chain the_root_proof policy_proofs root_digest policy_digest 200 policy_chain
    1 policy2 policy_chain_verifies). reflexivity.
Defined.

(** The same update, authorised by all three authorities of the first policy. *)
Definition policy2_proof_all : RecoveryPolicyProof := Eval vm_compute in
  ok_get (create_recovery_policy_update_proof policy2_statement policy1
    [signer key_d; signer key_c; signer key_b] [signer key_b; signer key_c]) eq_refl.
Definition policy_chain_all : VerifiedRecoveryPolicyChain := Eval vm_compute in
  ok_get (verify_recovery_policy_chain_with_verified_sequence the_root_proof
    [policy1_proof; policy2_proof_all] root_digest policy_digest 300) eq_refl.

Lemma policy_digest_determines_history_witness :
  vp_statement <$> vpc_policies policy_chain = vp_statement <$> vpc_policies policy_chain_all ∨
  sha256_collision (policy_payload (vpc_policies policy_chain)) (policy_payload (vpc_policies policy_chain_all)).
Proof.
  apply (policy_digest_determines_history the_root_proof the_root_proof policy_proofs
    [policy1_proof; policy2_proof_all] root_digest root_digest policy_digest 200 300 policy_chain
    policy_chain_all policy_chain_verifies). vm_compute. reflexivity.
Defined.

Lemma created_policy_update_verifies_witness :
  ∃ v, verify_recovery_policy_update_proof the_root policy1 policy2_proof = Ok v ∧
    vp_statement v = policy2_statement.
Proof.
  refine (created_policy_update_verifies the_root policy1 policy2_statement
    [signer key_c; signer key_d] [signer key_b; signer key_c] policy2_proof _ _
    _ policy1_wf _ _ eq_refl _).
  - split_and!; vm_compute; [reflexivity..|discriminate].
  - repeat constructor.
  - vm_compute. reflexivity.
  - repeat constructor; vm_compute; discriminate.
Defined.

(** ** Recovery-aware chains *)

Lemma recovery_entry_authorised_witness :
  mc_transitions live_chain !! 1 = Some (VerifiedRecovery recovery) ∧
  ∃ p j policy payload, live_entries !! 1 = Some (ProofRecovery p) ∧
    mc_policies live_chain !! j = Some policy ∧
    permits policy KeyRecovery (xs_issued_at (vx_statement recovery))
      (xs_recovery_policy_sha256 (vx_statement recovery))
      (xs_recovery_policy_version (vx_statement recovery)) ∧
    recovery_authorised (mc_root live_chain) policy p recovery payload ∧
    (rc_transition_sequence (ps_continuity_checkpoint (vp_statement policy)) < 2)%N ∧
    (∀ successor, mc_policies live_chain !! (j + 1) = Some successor →
      (2 <= rc_transition_sequence (ps_continuity_checkpoint (vp_statement successor)))%N).
Proof.
  split; [reflexivity|].
  apply (recovery_entry_authorised the_root_proof live_entries policy_proofs root_digest policy_digest
    200 live_chain 1 recovery live_chain_verifies). reflexivity.
Defined.

(** The chain that ends with the revocation. *)
Lemma terminal_revocation_report_witness :
  list.last (mc_transitions ended_chain) = Some (VerifiedTerminalRevocation revocation) ∧
  let r := mc_report ended_chain in
  (mr_routine_transition_count r + mr_recovery_transition_count r + mr_terminal_revocation_count r =
     mr_transition_count r)%N ∧ mr_transition_count r = len all_entries ∧
  mr_terminally_revoked r = true ∧ mr_current_key_fingerprint r = None ∧
  mr_terminal_revocation_count r = 1%N ∧
  mr_terminal_revocation_statement_sha256 r = Some (vz_revocation_statement_sha256 revocation) ∧
  mr_terminal_revoked_key_fingerprint r =
    Some (zs_previous_key_fingerprint (vz_statement revocation)) ∧
  mr_terminal_revocation_reason r = Some (zs_reason (vz_statement revocation)) ∧
  ∃ p payload latest, list.last (mc_policies ended_chain) = Some latest ∧
    terminal_authorised (mc_root ended_chain) latest p revocation payload ∧
    permits latest TerminalRevocation (zs_issued_at (vz_statement revocation))
      (zs_recovery_policy_sha256 (vz_statement revocation))
      (zs_recovery_policy_version (vz_statement revocation)).
Proof.
  split; [reflexivity|].
  exact (terminal_revocation_report the_root_proof all_entries policy_proofs root_digest policy_digest
    200 ended_chain ended_chain_verifies).
Defined.

Lemma terminal_revocation_is_final_witness :
  (∀ p rest rp' pols' d1' d2' t' chain',
     verify_persona_continuity_chain_with_recovery_with_verified_sequence rp'
       (all_entries ++ p :: rest) pols' d1' d2' t' ≠ Ok chain') ∧
  (∀ receipt, validate_verified_recovery_aware_continuity_chain_extension ended_chain receipt =
     Err terminally_revoked_error) ∧
  (∀ receipt, validate_verified_recovery_aware_continuity_chain_routine_extension ended_chain receipt =
     Err terminally_revoked_error) ∧
  (∀ receipt, validate_verified_recovery_aware_continuity_chain_terminal_revocation_extension
     ended_chain receipt = Err terminally_revoked_error).
Proof.
  apply (terminal_revocation_is_final the_root_proof all_entries policy_proofs root_digest
    policy_digest 200 ended_chain ended_chain_verifies). reflexivity.
Defined.

Lemma online_and_recovery_keys_disjoint_witness :
  let f := default "" (list.head (ps_recovery_key_fingerprints policy1_statement)) in
  f ≠ rs_initial_key_fingerprint (vpr_statement (mc_root ended_chain)) ∧
  (∀ v, v ∈ mc_transitions ended_chain → en_next_key (entry_of v) ≠ Some f) ∧
  f ≠ mr_chain_tip_key_fingerprint (mc_report ended_chain).
Proof.
  apply (online_and_recovery_keys_disjoint the_root_proof all_entries policy_proofs root_digest
    policy_digest 200 ended_chain policy1 _ ended_chain_verifies); apply list_elem_of_here.
Defined.

Lemma mixed_extension_is_batch_verification_witness :
  (∃ policy receipt, policy ∈ mc_policies live_chain ∧
     verify_terminal_persona_revocation_proof_with_receipt (mc_root live_chain) policy
       revocation_proof = Ok receipt ∧
     zr_revocation receipt = revocation ∧
     validate_verified_recovery_aware_continuity_chain_terminal_revocation_extension live_chain
       receipt = Ok tt) ↔
  ∃ chain', verify_persona_continuity_chain_with_recovery_with_verified_sequence the_root_proof
      (live_entries ++ [ProofTerminalRevocation revocation_proof]) policy_proofs root_digest
      policy_digest 200 = Ok chain' ∧
    mc_transitions chain' = mc_transitions live_chain ++ [VerifiedTerminalRevocation revocation].
Proof.
  apply (mixed_extension_is_batch_verification the_root_proof live_entries policy_proofs root_digest
    policy_digest 200 live_chain live_chain_verifies).
Defined.

Lemma created_recovery_verifies_witness :
  ∃ receipt, verify_recovery_transition_proof_with_receipt the_root policy2 recovery_proof =
      Ok receipt ∧
    vx_statement (xr_transition receipt) = recovery_statement ∧
    xr_policy_statement receipt = vp_statement policy2 ∧
    xr_policy_statement_sha256 receipt = vp_policy_statement_sha256 policy2.
Proof.
  apply (created_recovery_verifies the_root 2 (Some rotation_digest)
    (ts_next_key_fingerprint rotation_statement) key_f policy2 140 ReasonCompromise
    RECOVERY_TRANSITION_STATEMENT_SCHEMA_V2 (Some anchor) (Some 5000%Z) recovery_statement
    [signer key_b; signer key_c] key_f recovery_proof policy2_wf);
    try (vm_compute; first [reflexivity | discriminate]).
  - repeat constructor.
  - repeat constructor; vm_compute; discriminate.
Defined.

Definition mixed_checkpoint : PersonaContinuityCheckpoint :=
  {| cp_transition_sequence := 3;
     cp_transition_sha256 := Some (vz_revocation_statement_sha256 revocation) |}.
Definition checkpointed_chain : VerifiedRecoveryAwareContinuityChain := Eval vm_compute in
  ok_get (verify_persona_continuity_chain_with_recovery_with_verified_sequence_at_checkpoint
    the_root_proof all_entries policy_proofs root_digest policy_digest 200 mixed_checkpoint) eq_refl.

(** A history with other signatures over the same statements. *)
Definition other_entries : list PersonaContinuityTransitionProof :=
  ProofRoutine reordered_rotation_proof ::
  [ProofRecovery recovery_proof; ProofTerminalRevocation revocation_proof].
Definition other_chain : VerifiedRecoveryAwareContinuityChain := Eval vm_compute in
  ok_get (verify_persona_continuity_chain_with_recovery_with_verified_sequence_at_checkpoint
    the_root_proof other_entries [policy1_proof; policy2_proof_all] root_digest policy_digest 400
    mixed_checkpoint) eq_refl.

Lemma mixed_checkpoint_determines_history_witness :
  (statement_of <$> mc_transitions checkpointed_chain = statement_of <$> mc_transitions other_chain ∨
   sha256_collision (entry_payload_of (mc_transitions checkpointed_chain))
     (entry_payload_of (mc_transitions other_chain))) ∧
  (vp_statement <$> mc_policies checkpointed_chain = vp_statement <$> mc_policies other_chain ∨
   sha256_collision (policy_payload (mc_policies checkpointed_chain)) (policy_payload (mc_policies other_chain))).
Proof.
  apply (mixed_checkpoint_determines_history the_root_proof the_root_proof all_entries other_entries
    policy_proofs [policy1_proof; policy2_proof_all] root_digest root_digest policy_digest 200 400
    mixed_checkpoint checkpointed_chain other_chain); vm_compute; reflexivity.
Defined.

(** * Witnesses for ceremonies, root distribution and domain proofs *)

Definition the_request : RecoveryCeremonyRequest := Eval vm_compute in
  ok_get (new_recovery_ceremony_request the_root_proof policy_proofs [ProofRoutine rotation_proof]
    root_digest policy_digest the_checkpoint recovery_statement key_f) eq_refl.
Definition the_verified_request : VerifiedRecoveryCeremonyRequest := Eval vm_compute in
  ok_get (verify_recovery_ceremony_request the_request 200) eq_refl.

Definition response_of (key : string) : Result RecoveryCeremonyResponse :=
  sign_recovery_ceremony_request the_verified_request (signer key) 300.
Definition response_b : RecoveryCeremonyResponse := Eval vm_compute in
  ok_get (response_of key_b) eq_refl.
Definition response_c : RecoveryCeremonyResponse := Eval vm_compute in
  ok_get (response_of key_c) eq_refl.
Definition response_f : RecoveryCeremonyResponse := Eval vm_compute in
  ok_get (response_of key_f) eq_refl.
Definition the_responses : list RecoveryCeremonyResponse := [response_c; response_f; response_b].

Definition assembled : RecoveryTransitionProof := Eval vm_compute in
  ok_get (assemble_recovery_ceremony_proof the_verified_request the_responses 400) eq_refl.

Lemma the_request_verifies :
  verify_recovery_ceremony_request the_request 200 = Ok the_verified_request.
Proof. vm_compute. reflexivity. Qed.

Lemma the_responses_assemble :
  assemble_recovery_ceremony_proof the_verified_request the_responses 400 = Ok assembled.
Proof. vm_compute. reflexivity. Qed.

(** The responses again, reordered and one of them twice. *)
Lemma assembly_depends_on_the_set_witness :
  assemble_recovery_ceremony_proof the_verified_request
    [response_b; response_c; response_b; response_f] 400 = Ok assembled.
Proof.
  apply (assembly_depends_on_the_set the_verified_request the_responses
    [response_b; response_c; response_b; response_f] 400 assembled the_responses_assemble).
  - intros r. unfold the_responses. rewrite !elem_of_cons, elem_of_nil. tauto.
  - vm_compute. discriminate.
Defined.

Lemma assembly_succeeds_when_complete_witness :
  is_ok (assemble_recovery_ceremony_proof the_verified_request the_responses 400) = true ↔
  assembly_complete the_verified_request the_responses 400.
Proof.
  apply (assembly_succeeds_when_complete the_request 200 the_verified_request the_responses 400
    the_request_verifies).
Defined.

Lemma assembled_recovery_extends_history_witness :
  ∃ v chain', verify_persona_continuity_chain_with_recovery_with_verified_sequence
      the_root_proof ([ProofRoutine rotation_proof] ++ [ProofRecovery assembled])
      policy_proofs root_digest policy_digest 200 = Ok chain' ∧
    mc_transitions chain' = mc_transitions (vq_chain the_verified_request) ++ [VerifiedRecovery v] ∧
    vx_statement v = recovery_statement ∧
    (ps_threshold (vp_statement (vq_selected_policy the_verified_request)) <=
       len (vx_recovery_signer_fingerprints v))%N ∧
    ∀ f, f ∈ vx_recovery_signer_fingerprints v → ∃ r key binding_key request_bytes,
      r ∈ the_responses ∧ cx_participant_fingerprint r = f ∧ cx_role r = RecoveryAuthority ∧
      committed the_verified_request r key binding_key request_bytes.
Proof.
  apply (assembled_recovery_extends_history the_request 200 the_verified_request the_responses 400
    assembled the_request_verifies the_responses_assemble).
Defined.

Lemma signed_response_verifies_witness :
  verify_recovery_ceremony_response the_verified_request response_f 400 =
    Ok {| vrx_response := response_f |} ∧
  ∃ review, review_recovery_ceremony_participant the_verified_request key_f 300 = Ok review ∧
    (utf8_valid key_f = true → cw_role review = cx_role response_f ∧
     cw_participant_fingerprint review = cx_participant_fingerprint response_f).
Proof.
  apply (signed_response_verifies the_verified_request (signer key_f) 300 400 response_f).
  - vm_compute. reflexivity.
  - split; vm_compute; discriminate.
  - exists 5000%Z. split; [reflexivity|]. split; vm_compute; [discriminate|reflexivity].
Defined.

(** * Witnesses for root cards and pins *)

Definition trust_basis_index (b : PersonaRootTrustBasis) : N :=
  match b with TrustOnFirstUse => 0 | SameChannelCopy => 1 | OutOfBandUserConfirmed => 2 end.
Definition trust_basis_of (n : N) : option PersonaRootTrustBasis :=
  match n with
  | 0%N => Some TrustOnFirstUse | 1%N => Some SameChannelCopy
  | 2%N => Some OutOfBandUserConfirmed | _ => None
  end.
Definition channel_index (c : PersonaRootPinChannel) : N :=
  match c with
  | InPerson => 0 | Paper => 1 | Qr => 2 | Voice => 3 | ChannelFile => 4 | ChannelOther => 5
  end.
Definition channel_of (n : N) : option PersonaRootPinChannel :=
  match n with
  | 0%N => Some InPerson | 1%N => Some Paper | 2%N => Some Qr | 3%N => Some Voice
  | 4%N => Some ChannelFile | 5%N => Some ChannelOther | _ => None
  end.

#[export] Instance codec_PersonaRootTrustBasis : Codec PersonaRootTrustBasis :=
  codec_via trust_basis_index trust_basis_of ltac:(by intros []).
#[export] Instance codec_PersonaRootPinChannel : Codec PersonaRootPinChannel :=
  codec_via channel_index channel_of ltac:(by intros []).
#[export] Instance codec_PersonaRootCard : Codec PersonaRootCard :=
  codec_via
    (λ c, (rc_schema c, (rc_canonicalization c, (rc_persona c, (rc_persona_anchor c,
          (rc_root_version c, (rc_issued_at c, (rc_initial_key_fingerprint c,
          (rc_root_statement_sha256 c, rc_pin_uri c)))))))))
    (λ '(a, (b, (c, (d, (e, (f, (g, (h, i)))))))), Some (Build_PersonaRootCard a b c d e f g h i))
    ltac:(by intros []).
#[export] Instance codec_PersonaRootPin : Codec PersonaRootPin :=
  codec_via
    (λ p, (pn_schema p, (pn_canonicalization p, (pn_root_statement_sha256 p, (pn_recorded_at p,
          (pn_trust_basis p, (pn_channel p, pn_source_artifact_sha256 p)))))))
    (λ '(a, (b, (c, (d, (e, (f, g)))))), Some (Build_PersonaRootPin a b c d e f g))
    ltac:(by intros []).
#[export] Instance json_PersonaRootCard : Serde PersonaRootCard := serde_of.
#[export] Instance json_PersonaRootPin : Serde PersonaRootPin := serde_of.

Definition the_card : PersonaRootCard := Eval vm_compute in
  ok_get (persona_root_card_from_proof the_root_proof) eq_refl.
Definition the_pin : PersonaRootPin := Eval vm_compute in
  ok_get (new_persona_root_pin root_digest 864100 OutOfBandUserConfirmed Paper None) eq_refl.
Definition the_comparison : PersonaRootDistributionComparisonReport := Eval vm_compute in
  ok_get (compare_persona_root_distribution the_root_proof (Some the_card) the_pin 864200) eq_refl.

Lemma the_comparison_runs :
  compare_persona_root_distribution the_root_proof (Some the_card) the_pin 864200 = Ok the_comparison.
Proof. vm_compute. reflexivity. Qed.

Lemma comparison_identifies_root_witness :
  ∃ verified, verify_persona_root_proof the_root_proof = Ok verified ∧
    (dr_pin_match the_comparison = Matched ↔
       pn_root_statement_sha256 the_pin = vpr_root_statement_sha256 verified) ∧
    (∀ c, Some the_card = Some c →
       dr_card_match the_comparison = Matched ↔ card_statement c = vpr_statement verified) ∧
    ∀ proof' card' t' report' verified', dr_pin_match the_comparison = Matched →
      compare_persona_root_distribution proof' card' the_pin t' = Ok report' →
      dr_pin_match report' = Matched → verify_persona_root_proof proof' = Ok verified' →
      vpr_statement verified' = vpr_statement verified ∨
      sha256_collision (root_payload verified') (root_payload verified).
Proof.
  apply (comparison_identifies_root the_root_proof (Some the_card) the_pin 864200 the_comparison
    the_comparison_runs).
Defined.

Lemma comparison_times_witness :
  Z.of_N (dr_pin_observation_age_seconds the_comparison) = 100%Z ∧
  dr_first_contact_delay_seconds the_comparison = Some 864000%N.
Proof.
  destruct (comparison_times the_root_proof (Some the_card) the_pin 864200) as [_ H].
  destruct (H the_comparison the_root ltac:(vm_compute; reflexivity) the_comparison_runs) as [-> ->].
  split; vm_compute; reflexivity.
Defined.

(** * Witnesses for domain control proofs *)

(** Conversion to ASCII for names that are ASCII already. *)
#[export] Instance small_idna : Idna := {|
  domain_to_ascii_strict s :=
    if str_all (λ c, (ascii_val c <? 128)%N) s then Some (to_ascii_lowercase s) else None |}.

Lemma ascii_lower_twice c : ascii_lower (ascii_lower c) = ascii_lower c.
Proof. destruct c as [[] [] [] [] [] [] [] []]; vm_compute; done. Qed.

Lemma ascii_lower_128 c :
  (ascii_val c <? 128)%N = true → (ascii_val (ascii_lower c) <? 128)%N = true.
Proof. destruct c as [[] [] [] [] [] [] [] []]; vm_compute; done. Qed.

Lemma lowercase_twice s : to_ascii_lowercase (to_ascii_lowercase s) = to_ascii_lowercase s.
Proof. induction s as [|c s IH]; cbn [to_ascii_lowercase]; [done|]. by rewrite ascii_lower_twice, IH. Qed.

Lemma lowercase_ascii s :
  str_all (λ c, (ascii_val c <? 128)%N) s = true →
  str_all (λ c, (ascii_val c <? 128)%N) (to_ascii_lowercase s) = true.
Proof.
  induction s as [|c s IH]; cbn [to_ascii_lowercase str_all]; [done|].
  rewrite !andb_true_iff. intros [Hc Hs]. auto using ascii_lower_128.
Qed.

#[export] Instance small_idna_ok : IdnaOk.
Proof.
  split; cbn; intros s a; case_match eqn:E; try done; intros [= <-]; [apply lowercase_twice|].
  by rewrite lowercase_ascii, lowercase_twice.
Qed.

#[export] Instance codec_DomainControlStatement : Codec DomainControlStatement :=
  codec_via
    (λ s, (ds_schema s, (ds_domain s, (ds_nonce s, (ds_issued_at s, (ds_expires_at s,
          (sc_persona (ds_signer s), sc_key_fingerprint (ds_signer s))))))))
    (λ '(a, (b, (c, (d, (e, (f, g)))))),
      Some (Build_DomainControlStatement a b c d e (Build_SignerClaim f g)))
    ltac:(by intros [????? []]).
#[export] Instance json_DomainControlStatement : Serde DomainControlStatement := serde_of.

Definition domain_statement : DomainControlStatement := Eval vm_compute in
  ok_get (new_domain_control_statement (Some (repeat x6e 32)) "Ada.Aquo.net." 1000 605800 key_a "Ada")
    eq_refl.
Definition domain_bytes : bytes := Eval vm_compute in
  ok_get (canonical_domain_control_statement_bytes domain_statement) eq_refl.
Definition domain_review : DomainControlReview := Eval vm_compute in
  snd (ok_get (review_domain_control_statement_bytes domain_bytes 1100 key_a "Ada") eq_refl).
Definition domain_proof : ProofBundle := Eval vm_compute in
  ok_get (create_domain_control_proof_for_statement domain_statement key_a key_a) eq_refl.
Definition domain_report : DomainControlVerification := Eval vm_compute in
  ok_get (verify_domain_control_proof domain_proof 2000) eq_refl.

Lemma canonical_domain_stable_witness :
  canonical_name "ada.aquo.net" ∧ canonicalize_domain "ada.aquo.net" = Ok "ada.aquo.net".
Proof. apply (canonical_domain_stable "Ada.Aquo.net."). vm_compute. reflexivity. Defined.

(** Valid five minutes before it is issued, not one second earlier. *)
Lemma reviewed_domain_statement_verifies_witness :
  (is_ok (verify_domain_control_proof domain_proof 700) = true ↔
     (0 <= 700)%Z ∧ in_window domain_statement 700) ∧
  (is_ok (verify_domain_control_proof domain_proof 699) = true ↔
     (0 <= 699)%Z ∧ in_window domain_statement 699).
Proof.
  split.
  - apply (reviewed_domain_statement_verifies domain_bytes 1100 key_a "Ada" domain_statement
      domain_review key_a domain_proof 700); by vm_compute.
  - apply (reviewed_domain_statement_verifies domain_bytes 1100 key_a "Ada" domain_statement
      domain_review key_a domain_proof 699); by vm_compute.
Defined.

Lemma verified_domain_proof_witness :
  canonical_name (dv_domain domain_report) ∧
  (0 < dv_expires_at domain_report - dv_issued_at domain_report <= DOMAIN_MAX_VALIDITY_SECONDS)%Z.
Proof.
  destruct (verified_domain_proof domain_proof 2000 domain_report) as (H1 & H2 & _);
    [by vm_compute|by vm_compute|done].
Defined.
