(* ===== verification/Fields.v ===== *)
(** * Fields and frames of binary messages

    Byte slices with the panics of Rust indexing, big-endian integers at an
    offset, and what reading a field gives when the message is known as a
    sequence of fields. The two binary protocols ([IpcProtocol.v] and
    [Approval.v]) are decoded by such reads. Both frame a payload in the same
    way: a magic of eight bytes, a version, a message type, flags and the length
    of the payload. A [Framing] is what they differ in; a message decodes exactly
    when it is the header of its type and length followed by its payload. *)

From stdpp Require Import base numbers list strings pretty option.
From Stdlib Require Import Strings.Byte Ascii.
From S2P Require Import Prelude Text.

(** ** Byte slices *)

(** [bs[i]] *)
Definition index {E} (bs : bytes) (i : N) : result E byte :=
  expect (bs !! N.to_nat i) "index out of bounds".

(** [bs[a..b]] *)
Definition slice {E} (bs : bytes) (a b : N) : result E bytes :=
  expect (if (a <=? b)%N && (b <=? len bs)%N
          then Some (take (N.to_nat (b - a)) (drop (N.to_nat a) bs)) else None)
    "range out of bounds".

(** [bs.get(a..b)] *)
Definition get_range (bs : bytes) (a b : N) : option bytes :=
  if (a <=? b)%N && (b <=? len bs)%N
  then Some (take (N.to_nat (b - a)) (drop (N.to_nat a) bs)) else None.

(** Unchecked [a + b] of [usize], which panics on overflow. *)
Definition add_usize {E} (a b : N) : result E N :=
  expect (checked_add_usize a b) "attempt to add with overflow".

Definition debug_assert {E} (b : bool) : result E unit :=
  if b then Ok tt else Panic "assertion failed".

(** [extend_from_slice] of one slice after the other. *)
Definition extend (message : bytes) (slices : list bytes) : bytes := message ++ concat slices.

(** [u16::from_be_bytes] and its like at an offset. *)
Definition read_u16 {E} (bs : bytes) (offset : N) : result E N :=
  b0 ← index bs offset;
  b1 ← index bs (offset + 1);
  Ok (from_be_bytes [b0; b1]).

Definition read_u32 {E} (bs : bytes) (offset : N) : result E N :=
  b0 ← index bs offset;
  b1 ← index bs (offset + 1);
  b2 ← index bs (offset + 2);
  b3 ← index bs (offset + 3);
  Ok (from_be_bytes [b0; b1; b2; b3]).

Definition read_u64 {E} (bs : bytes) (offset : N) : result E N :=
  b0 ← index bs offset;
  b1 ← index bs (offset + 1);
  b2 ← index bs (offset + 2);
  b3 ← index bs (offset + 3);
  b4 ← index bs (offset + 4);
  b5 ← index bs (offset + 5);
  b6 ← index bs (offset + 6);
  b7 ← index bs (offset + 7);
  Ok (from_be_bytes [b0; b1; b2; b3; b4; b5; b6; b7]).

(** [i64::to_be_bytes] and [i64::from_be_bytes], in two's complement. *)
Definition i64_bytes (z : Z) : bytes := to_be_bytes 8 (Z.to_N (z `mod` 2 ^ 64)).
Definition i64_of (n : N) : Z :=
  if (n <? 2 ^ 63)%N then Z.of_N n else (Z.of_N n - 2 ^ 64)%Z.

Definition read_i64 {E} (bs : bytes) (offset : N) : result E Z :=
  n ← read_u64 bs offset;
  Ok (i64_of n).

(** ** Messages as sequences of fields *)

Definition total (ls : list N) : N := foldr N.add 0%N ls.

Lemma total_app ls ks : total (ls ++ ks) = (total ls + total ks)%N.
Proof. unfold total. induction ls as [|l ls IH]; cbn; [done|]. rewrite IH. lia. Qed.

Lemma concat_len (ps : list bytes) : len (concat ps) = total (len <$> ps).
Proof. induction ps as [|p ps IH]; [done|]. cbn. by rewrite len_app, IH. Qed.

Lemma concat_total (ps : list bytes) ls : len <$> ps = ls → len (concat ps) = foldr N.add 0%N ls.
Proof. intros <-. apply concat_len. Qed.

(** A message that is long enough is a sequence of fields of given lengths. *)
Lemma split_fields (ls : list N) (bs : bytes) :
  (total ls <= len bs)%N → ∃ ps rest, len <$> ps = ls ∧ bs = concat ps ++ rest.
Proof.
  revert bs. induction ls as [|n ls IH]; intros bs H; [by exists [], bs|]. cbn in H.
  destruct (IH (drop (N.to_nat n) bs)) as (ps & rest & Hps & Hbs).
  { unfold total, len in *. rewrite length_drop. lia. }
  exists (take (N.to_nat n) bs :: ps), rest. cbn. rewrite Hps, <- app_assoc, <- Hbs, take_drop.
  split; [|done]. f_equal. unfold len in *. rewrite length_take. lia.
Qed.

(** The same of a message that has exactly these lengths. *)
Lemma split_exactly (ls : list N) (bs : bytes) :
  len bs = total ls → ∃ ps, len <$> ps = ls ∧ bs = concat ps.
Proof.
  intros H. destruct (split_fields ls bs) as (ps & rest & Hps & ->); [lia|]. exists ps. split; [done|].
  rewrite len_app, concat_len, Hps in H. assert (rest = []) as -> by (apply len_nil; lia).
  apply app_nil_r.
Qed.

Lemma len_length {A} (l : list A) n : len l = n → length l = N.to_nat n.
Proof. unfold len. lia. Qed.

(** A field of one byte. *)
Lemma len_one (p : bytes) : len p = 1%N → ∃ x, p = [x].
Proof. intros H%len_length. destruct p as [|x []]; try done. by exists x. Qed.

Tactic Notation "byte_field" ident(p) "as" ident(x) :=
  let Hx := fresh in
  assert (∃ x, p = [x]) as [x Hx] by
    (apply len_one; match goal with Hls : len <$> _ = _ |- _ => injection Hls; by intros end); subst p.

Section reads.
Context {X : Type}.
#[local] Abbreviation slice := (slice (E:=X)).
#[local] Abbreviation index := (index (E:=X)).
#[local] Abbreviation read_u16 := (read_u16 (E:=X)).
#[local] Abbreviation read_u32 := (read_u32 (E:=X)).
#[local] Abbreviation read_u64 := (read_u64 (E:=X)).

Lemma slice_mid pre mid post a b :
  a = len pre → b = (a + len mid)%N → slice (pre ++ mid ++ post) a b = Ok mid.
Proof.
  intros -> ->. unfold slice. rewrite !len_app.
  rewrite (proj2 (N.leb_le _ _)), (proj2 (N.leb_le _ _)) by lia. cbn [andb expect]. f_equal.
  unfold len. replace (N.to_nat (_ - _)) with (length mid) by lia.
  rewrite Nat2N.id, drop_app_length, take_app_length. done.
Qed.

Lemma slice_tail pre mid a b :
  a = len pre → b = (a + len mid)%N → slice (pre ++ mid) a b = Ok mid.
Proof. intros Ha Hb. rewrite <- (app_nil_r mid) at 1. by apply slice_mid. Qed.

(** The [i]th field of a message lies between the sums of the lengths. *)
Lemma slice_field ps ls rest i p a b :
  len <$> ps = ls → ps !! i = Some p → a = total (take i ls) → b = total (take (S i) ls) →
  slice (concat ps ++ rest) a b = Ok p.
Proof.
  intros <- Hi Ha Hb. rewrite <- (take_drop_middle ps i p Hi), concat_app, <- !app_assoc. cbn [concat].
  rewrite <- app_assoc. apply slice_mid.
  - by rewrite concat_len, Ha, fmap_take.
  - rewrite Hb, (take_S_r _ _ (len p)), total_app, Ha by (by rewrite list_lookup_fmap, Hi). cbn. lia.
Qed.

Lemma index_slice bs a x : slice bs a (a + 1) = Ok [x] → index bs a = Ok x.
Proof.
  unfold slice, index. case_match eqn:Hc; [|done]. cbn [expect]. intros [= H].
  replace (N.to_nat (a + 1 - a)) with 1 in H by lia.
  destruct (drop (N.to_nat a) bs) as [|y l] eqn:Hd; [done|]. cbn in H. injection H as ->.
  rewrite <- (Nat.add_0_r (N.to_nat a)), <- lookup_drop, Hd. done.
Qed.

Lemma slice_slice bs a b p c d q :
  slice bs a b = Ok p → slice p c d = Ok q → slice bs (a + c) (a + d) = Ok q.
Proof.
  unfold slice. intros H1 H2. do 2 (case_match; [|done]). cbn [expect] in *.
  injection H1 as <-. injection H2 as <-. rewrite !andb_true_iff, !N.leb_le in *.
  unfold len in *. rewrite length_take, length_drop in *.
  rewrite (proj2 (N.leb_le _ _)), (proj2 (N.leb_le _ _)) by lia. cbn [andb expect]. f_equal.
  rewrite skipn_firstn_comm, take_take, drop_drop. f_equal; [lia|f_equal; lia].
Qed.

Lemma index_in bs a b p i j x :
  slice bs a b = Ok p → p !! i = Some x → j = (a + N.of_nat i)%N → index bs j = Ok x.
Proof.
  intros Hs Hx ->. apply index_slice. rewrite <- N.add_assoc. eapply slice_slice; [done|].
  rewrite <- (take_drop_middle p i x Hx). apply (slice_mid _ [x]); [|by unfold len].
  unfold len. rewrite length_take. apply lookup_lt_Some in Hx. lia.
Qed.

Lemma read_u16_slice bs a p :
  slice bs a (a + 2) = Ok p → len p = 2%N → read_u16 bs a = Ok (from_be_bytes p).
Proof.
  intros Hs Hl%len_length. destruct p as [|x0 [|x1 []]]; try done. unfold read_u16.
  rewrite (index_in _ _ _ _ 0 a x0 Hs), bind_Ok_l by (done || lia).
  rewrite (index_in _ _ _ _ 1 (a + 1) x1 Hs) by (done || lia). done.
Qed.

Lemma read_u32_slice bs a p :
  slice bs a (a + 4) = Ok p → len p = 4%N → read_u32 bs a = Ok (from_be_bytes p).
Proof.
  intros Hs Hl%len_length. destruct p as [|x0 [|x1 [|x2 [|x3 []]]]]; try done. unfold read_u32.
  rewrite (index_in _ _ _ _ 0 a x0 Hs), bind_Ok_l by (done || lia).
  rewrite (index_in _ _ _ _ 1 (a + 1) x1 Hs), bind_Ok_l by (done || lia).
  rewrite (index_in _ _ _ _ 2 (a + 2) x2 Hs), bind_Ok_l by (done || lia).
  rewrite (index_in _ _ _ _ 3 (a + 3) x3 Hs) by (done || lia). done.
Qed.

Lemma read_u64_slice bs a p :
  slice bs a (a + 8) = Ok p → len p = 8%N → read_u64 bs a = Ok (from_be_bytes p).
Proof.
  intros Hs Hl%len_length. destruct p as [|x0 [|x1 [|x2 [|x3 [|x4 [|x5 [|x6 [|x7 []]]]]]]]]; try done.
  unfold read_u64.
  rewrite (index_in _ _ _ _ 0 a x0 Hs), bind_Ok_l by (done || lia).
  rewrite (index_in _ _ _ _ 1 (a + 1) x1 Hs), bind_Ok_l by (done || lia).
  rewrite (index_in _ _ _ _ 2 (a + 2) x2 Hs), bind_Ok_l by (done || lia).
  rewrite (index_in _ _ _ _ 3 (a + 3) x3 Hs), bind_Ok_l by (done || lia).
  rewrite (index_in _ _ _ _ 4 (a + 4) x4 Hs), bind_Ok_l by (done || lia).
  rewrite (index_in _ _ _ _ 5 (a + 5) x5 Hs), bind_Ok_l by (done || lia).
  rewrite (index_in _ _ _ _ 6 (a + 6) x6 Hs), bind_Ok_l by (done || lia).
  rewrite (index_in _ _ _ _ 7 (a + 7) x7 Hs) by (done || lia). done.
Qed.

Lemma index_field ps ls rest i x a :
  len <$> ps = ls → ps !! i = Some [x] → a = total (take i ls) → index (concat ps ++ rest) a = Ok x.
Proof.
  intros Hls Hi Ha. apply index_slice. eapply slice_field; [done..|]. subst ls a.
  rewrite (take_S_r _ _ (len [x])), total_app by (by rewrite list_lookup_fmap, Hi). done.
Qed.

Lemma read_u16_field ps ls rest i p a :
  len <$> ps = ls → ps !! i = Some p → ls !! i = Some 2%N → a = total (take i ls) →
  read_u16 (concat ps ++ rest) a = Ok (from_be_bytes p).
Proof.
  intros Hls Hi Hl Ha. apply read_u16_slice.
  - eapply slice_field; [done..|]. rewrite (take_S_r _ _ 2%N), total_app, Ha by done. done.
  - subst ls. rewrite list_lookup_fmap, Hi in Hl. by injection Hl.
Qed.

Lemma read_u32_field ps ls rest i p a :
  len <$> ps = ls → ps !! i = Some p → ls !! i = Some 4%N → a = total (take i ls) →
  read_u32 (concat ps ++ rest) a = Ok (from_be_bytes p).
Proof.
  intros Hls Hi Hl Ha. apply read_u32_slice.
  - eapply slice_field; [done..|]. rewrite (take_S_r _ _ 4%N), total_app, Ha by done. done.
  - subst ls. rewrite list_lookup_fmap, Hi in Hl. by injection Hl.
Qed.

Lemma read_u64_field ps ls rest i p a :
  len <$> ps = ls → ps !! i = Some p → ls !! i = Some 8%N → a = total (take i ls) →
  read_u64 (concat ps ++ rest) a = Ok (from_be_bytes p).
Proof.
  intros Hls Hi Hl Ha. apply read_u64_slice.
  - eapply slice_field; [done..|]. rewrite (take_S_r _ _ 8%N), total_app, Ha by done. done.
  - subst ls. rewrite list_lookup_fmap, Hi in Hl. by injection Hl.
Qed.

End reads.

(** [read_fields] evaluates every read of a field of a message [concat ps]
    when the lengths [len <$> ps = ls] are known. *)
Ltac field_offset := clear; unfold total; cbn [firstn foldr]; lia.
Ltac read_slice ps ls rest i a b Hls :=
  erewrite (slice_field ps ls rest i _ a b Hls); [|reflexivity|field_offset|field_offset].
Ltac read_number lemma ps ls rest i a Hls :=
  erewrite (lemma _ ps ls rest i _ a Hls); [|reflexivity|reflexivity|field_offset].

(** The field at a constant offset is computed; the others are searched. *)
Fixpoint field_at (ls : list N) (a : N) : nat :=
  match ls with
  | [] => 0
  | l :: ls => if (a =? 0)%N then 0 else S (field_at ls (a - l))
  end.
Ltac with_field ls a tac :=
  lazymatch a with
  | Npos _ => let i := eval vm_compute in (field_at ls a) in tac i
  | N0 => tac 0
  | _ =>
      let rec go n :=
        first
          [ assert_succeeds (assert (a = total (take n ls)) by field_offset); tac n
          | lazymatch n with S ?m => go m end ] in
      let n := eval cbv in (length ls) in go n
  end.
Ltac read_field :=
  match goal with
  | Hls : len <$> ?ps = ?ls |- context [slice (concat ?ps ++ ?rest) ?a ?b] =>
      with_field ls a ltac:(fun i => read_slice ps ls rest i a b Hls)
  | Hls : len <$> ?ps = ?ls |- context [read_u16 (concat ?ps ++ ?rest) ?a] =>
      with_field ls a ltac:(fun i => read_number @read_u16_field ps ls rest i a Hls)
  | Hls : len <$> ?ps = ?ls |- context [read_u32 (concat ?ps ++ ?rest) ?a] =>
      with_field ls a ltac:(fun i => read_number @read_u32_field ps ls rest i a Hls)
  | Hls : len <$> ?ps = ?ls |- context [read_u64 (concat ?ps ++ ?rest) ?a] =>
      with_field ls a ltac:(fun i => read_number @read_u64_field ps ls rest i a Hls)
  | Hls : len <$> ?ps = ?ls |- context [index (concat ?ps ++ ?rest) ?a] =>
      with_field ls a ltac:(fun i =>
        erewrite (index_field ps ls rest i _ a Hls); [|reflexivity|field_offset])
  end.
Ltac read_fields := repeat (read_field; rewrite ?bind_Ok_l).

(** ** Integers *)

Lemma be_field p w n : length p = w → from_be_bytes p = n → p = to_be_bytes w n.
Proof. intros Hl <-. by rewrite to_from_be_bytes. Qed.

Lemma from_be_bytes_lt p w : length p = w → (from_be_bytes p < 256 ^ N.of_nat w)%N.
Proof. intros <-. apply from_be_bytes_bound. Qed.

Lemma u16_field_lt p : len p = 2%N → (from_be_bytes p < 65536)%N.
Proof. intros H%len_length. by apply (from_be_bytes_lt p 2) in H. Qed.

Lemma u32_field_le p : len p = 4%N → (from_be_bytes p <= u32_max)%N.
Proof.
  intros H%len_length. apply (from_be_bytes_lt p 4) in H. change (256 ^ N.of_nat 4)%N with 4294967296%N in H.
  unfold u32_max. lia.
Qed.

Lemma u64_field_le p : len p = 8%N → (from_be_bytes p <= u64_max)%N.
Proof.
  intros H%len_length. apply (from_be_bytes_lt p 8) in H.
  change (256 ^ N.of_nat 8)%N with 18446744073709551616%N in H. unfold u64_max. lia.
Qed.

Lemma from_to_u16 n : (n < 65536)%N → from_be_bytes (to_be_bytes 2 n) = n.
Proof. intros H. by apply from_to_be_bytes. Qed.

Lemma from_to_u32 n : (n <= u32_max)%N → from_be_bytes (to_be_bytes 4 n) = n.
Proof. intros H. apply from_to_be_bytes. unfold u32_max in H. change (256 ^ N.of_nat 4)%N with 4294967296%N. lia. Qed.

Lemma from_to_u64 n : (n <= u64_max)%N → from_be_bytes (to_be_bytes 8 n) = n.
Proof.
  intros H. apply from_to_be_bytes. unfold u64_max in H.
  change (256 ^ N.of_nat 8)%N with 18446744073709551616%N. lia.
Qed.

Lemma to_from_field w p : len p = N.of_nat w → to_be_bytes w (from_be_bytes p) = p.
Proof. intros H%len_length. apply to_from_be_bytes. by rewrite Nat2N.id in H. Qed.

Lemma i64_bytes_len z : len (i64_bytes z) = 8%N.
Proof. apply to_be_bytes_len. Qed.

Lemma i64_round_trip z : (i64_min <= z <= i64_max)%Z → i64_of (from_be_bytes (i64_bytes z)) = z.
Proof.
  intros H. unfold i64_bytes. assert (0 <= z `mod` 2 ^ 64 < 2 ^ 64)%Z as Hm by (apply Z.mod_pos_bound; lia).
  rewrite from_to_u64 by (unfold u64_max; lia). unfold i64_of, i64_min, i64_max in *.
  change (2 ^ 64)%Z with 18446744073709551616%Z in *. change (2 ^ 63)%N with 9223372036854775808%N.
  destruct (Z.le_gt_cases 0 z).
  - rewrite Z.mod_small by lia. rewrite (proj2 (N.ltb_lt _ _)) by lia. lia.
  - rewrite <- (Z.mod_add z 1), Z.mod_small by lia. rewrite (proj2 (N.ltb_ge _ _)) by lia. lia.
Qed.

Lemma i64_field p : len p = 8%N →
  i64_bytes (i64_of (from_be_bytes p)) = p ∧ (i64_min <= i64_of (from_be_bytes p) <= i64_max)%Z.
Proof.
  intros H. pose proof (u64_field_le p H) as Hb. unfold i64_bytes, i64_of, u64_max, i64_min, i64_max in *.
  change (2 ^ 64)%Z with 18446744073709551616%Z in *. change (2 ^ 63)%N with 9223372036854775808%N.
  assert ((if (from_be_bytes p <? 9223372036854775808)%N then Z.of_N (from_be_bytes p)
    else (Z.of_N (from_be_bytes p) - 18446744073709551616)%Z) `mod` 18446744073709551616 =
    Z.of_N (from_be_bytes p))%Z as ->.
  { destruct (N.ltb_spec (from_be_bytes p) 9223372036854775808); [rewrite Z.mod_small; lia|].
    rewrite <- (Z.mod_add _ 1), Z.mod_small by lia. lia. }
  rewrite N2Z.id, to_from_field by done. split; [done|].
  destruct (N.ltb_spec (from_be_bytes p) 9223372036854775808); lia.
Qed.

(** ** Texts and sums of lengths *)

Lemma as_bytes_len s : len (as_bytes s) = str_len s.
Proof.
  unfold as_bytes, len, str_len. f_equal. induction s as [|c s IH]; [done|].
  change (String.list_byte_of_string (String c s))
    with (byte_of_ascii c :: String.list_byte_of_string s). cbn. by rewrite IH.
Qed.

Lemma from_utf8_Some bs s : from_utf8 bs = Some s ↔ bs = as_bytes s ∧ utf8_valid s = true.
Proof.
  unfold from_utf8, as_bytes. split.
  - case_match eqn:Hv; [|done]. intros [= <-]. split; [|done].
    by rewrite String.list_byte_of_string_of_list_byte.
  - intros [-> Hs]. by rewrite String.string_of_list_byte_of_string, Hs.
Qed.

Lemma from_utf8_as_bytes s : utf8_valid s = true → from_utf8 (as_bytes s) = Some s.
Proof. intros H. by apply from_utf8_Some. Qed.

Lemma ok_or_utf8 {E} bs s (e : E) :
  ok_or (from_utf8 bs) e = Ok s ↔ bs = as_bytes s ∧ utf8_valid s = true.
Proof. rewrite ok_or_Ok. apply from_utf8_Some. Qed.

Lemma checked_add_small a b : (a + b <= usize_max)%N → checked_add_usize a b = Some (a + b)%N.
Proof. intros H. by apply checked_add_usize_Some. Qed.

Lemma add_usize_small {E} a b : (a + b <= usize_max)%N → add_usize (E:=E) a b = Ok (a + b)%N.
Proof. intros H. unfold add_usize. by rewrite checked_add_small. Qed.

Lemma bind_Some_l {A B} (x : A) (f : A → option B) : (Some x ≫= f) = f x.
Proof. reflexivity. Qed.

(** [add_lengths] evaluates sums of [usize] that are bounded by the context. *)
Ltac add_lengths :=
  repeat first
    [ rewrite checked_add_small by (unfold usize_max, u64_max in *; lia)
    | rewrite add_usize_small by (unfold usize_max, u64_max in *; lia)
    | rewrite bind_Ok_l
    | rewrite bind_Some_l
    | progress cbn [ok_or] ].

Lemma extend_app m ps qs : extend (extend m ps) qs = m ++ concat (ps ++ qs).
Proof. unfold extend. by rewrite concat_app, app_assoc. Qed.

(** ** Optional digests *)

(** [u8::from(digest.is_some())] and [unwrap_or([0_u8; 32])] *)
Definition presence (digest : option bytes) : bytes :=
  [match digest with Some _ => x01 | None => x00 end].
Definition digest_or_zeros (digest : option bytes) : bytes := default (repeat x00 32) digest.

(** The match on the presence byte of an optional digest. *)
Definition read_optional_digest {E} (present : byte) (previous : bytes) (layout : E) :
    result E (option bytes) :=
  match byte_val present with
  | 0%N => if previous == repeat x00 32 then Ok None else Err layout
  | 1%N => Ok (Some previous)
  | _ => Panic "presence byte was checked"
  end.

(** An array [[u8; 32]] has 32 bytes. *)
Definition digest_typed (o : option bytes) : Prop := ∀ d, o = Some d → len d = 32%N.

Lemma digest_or_zeros_len o : digest_typed o → len (digest_or_zeros o) = 32%N.
Proof. intros H. destruct o as [d|]; cbn; [by apply H|done]. Qed.

Lemma presence_len o : len (presence o) = 1%N.
Proof. done. Qed.

Lemma read_optional_digest_Ok {E} b prev o (layout : E) :
  len prev = 32%N →
  read_optional_digest b prev layout = Ok o ↔
  presence o = [b] ∧ digest_or_zeros o = prev ∧ digest_typed o.
Proof.
  intros Hl. unfold read_optional_digest, presence, digest_or_zeros, digest_typed. split.
  - destruct (byte_val b) as [|[]] eqn:Hb; try done.
    + case_bool_decide as Hz; [|done]. intros [= <-]. rewrite (byte_val_inj b x00) by done. done.
    + intros [= <-]. rewrite (byte_val_inj b x01) by done. split_and!; [done..|]. by intros d [= <-].
  - intros (Hb & Hd & _). destruct o as [d|]; injection Hb as <-; cbn in Hd |- *; subst.
    + done.
    + by rewrite bool_decide_eq_true_2.
Qed.

Lemma read_optional_digest_no_panic {E} b prev (layout : E) :
  (byte_val b <= 1)%N → no_panic (read_optional_digest b prev layout).
Proof.
  intros H. unfold read_optional_digest. destruct (byte_val b) as [|[p|p|]]; [by case_bool_decide|lia..|done].
Qed.

(** * Framed messages *)

Record Framing (E : Type) := {
  fr_magic : bytes;
  fr_major : N;
  fr_minor : N;
  fr_truncated_header : E;
  fr_invalid_magic : E;
  fr_unsupported_version : N → N → E;
  fr_unsupported_message_type : N → E;
  fr_unsupported_flags : N → E;
  fr_payload_too_large : E;
  fr_truncated_payload : E;
  fr_trailing_bytes : E;
}.
Arguments fr_magic {E}.
Arguments fr_major {E}.
Arguments fr_minor {E}.
Arguments fr_truncated_header {E}.
Arguments fr_invalid_magic {E}.
Arguments fr_unsupported_version {E}.
Arguments fr_unsupported_message_type {E}.
Arguments fr_unsupported_flags {E}.
Arguments fr_payload_too_large {E}.
Arguments fr_truncated_payload {E}.
Arguments fr_trailing_bytes {E}.

Section frames.
Context {E : Type} (F : Framing E).

Definition frame_header (message_type payload_len : N) : bytes :=
  extend [] [fr_magic F; to_be_bytes 2 (fr_major F); to_be_bytes 2 (fr_minor F);
    to_be_bytes 2 message_type; to_be_bytes 2 0; to_be_bytes 4 payload_len].

Definition frame_type (message : bytes) : result E N :=
  reject_if (len message <? 20)%N (fr_truncated_header F);;
  magic ← slice message 0 (len (fr_magic F));
  reject_if (magic != fr_magic F) (fr_invalid_magic F);;
  major ← read_u16 message 8;
  minor ← read_u16 message 10;
  reject_if ((major != fr_major F) || (minor != fr_minor F)) (fr_unsupported_version F major minor);;
  flags ← read_u16 message 14;
  reject_if (flags != 0%N) (fr_unsupported_flags F flags);;
  read_u16 message 12.

Definition frame_payload (message : bytes) (expected_type maximum_payload : N) : result E bytes :=
  message_type ← frame_type message;
  reject_if (message_type != expected_type) (fr_unsupported_message_type F message_type);;
  payload_len ← read_u32 message 16;
  reject_if (maximum_payload <? payload_len)%N (fr_payload_too_large F);;
  expected_len ← ok_or (checked_add_usize 20 payload_len) (fr_payload_too_large F);
  match (len message ?= expected_len)%N with
  | Lt => Err (fr_truncated_payload F)
  | Gt => Err (fr_trailing_bytes F)
  | Eq => slice message 20 (len message)
  end.

Context (magic_len : len (fr_magic F) = 8%N) (major_small : (fr_major F < 65536)%N)
  (minor_small : (fr_minor F < 65536)%N).

Definition header_fields (message_type : N) (length_field : bytes) : list bytes :=
  [fr_magic F; to_be_bytes 2 (fr_major F); to_be_bytes 2 (fr_minor F);
   to_be_bytes 2 message_type; to_be_bytes 2 0; length_field].

Lemma header_fields_len ty l : len l = 4%N → len <$> header_fields ty l = [8; 2; 2; 2; 2; 4]%N.
Proof. intros Hl. cbn [header_fields fmap list_fmap]. by rewrite magic_len, Hl, !to_be_bytes_len. Qed.

Lemma frame_type_fields p0 p1 p2 p3 p4 p5 rest :
  len <$> [p0; p1; p2; p3; p4; p5] = [8; 2; 2; 2; 2; 4]%N →
  frame_type (concat [p0; p1; p2; p3; p4; p5] ++ rest) =
    (reject_if (p0 != fr_magic F) (fr_invalid_magic F);;
     reject_if ((from_be_bytes p1 != fr_major F) || (from_be_bytes p2 != fr_minor F))
       (fr_unsupported_version F (from_be_bytes p1) (from_be_bytes p2));;
     reject_if (from_be_bytes p4 != 0%N) (fr_unsupported_flags F (from_be_bytes p4));;
     Ok (from_be_bytes p3)).
Proof.
  intros Hls. unfold frame_type.
  assert ((len (concat [p0; p1; p2; p3; p4; p5] ++ rest) <? 20)%N = false) as ->.
  { apply N.ltb_ge. rewrite len_app, concat_len, Hls. cbn. lia. }
  cbn [reject_if]. rewrite bind_Ok_l, magic_len. read_fields.
  destruct (p0 != fr_magic F); [done|]. cbn [reject_if]. rewrite !bind_Ok_l. by read_fields.
Qed.

Lemma frame_type_Ok m ty :
  frame_type m = Ok ty ↔
  (ty < 65536)%N ∧ ∃ l rest, len l = 4%N ∧ m = concat (header_fields ty l) ++ rest.
Proof.
  split.
  - intros H. assert (20 <= len m)%N as Hl.
    { unfold frame_type in H. rewrite seq_Ok in H. destruct H as [H _]. by rewrite reject_if_Ok, N.ltb_ge in H. }
    destruct (split_fields [8; 2; 2; 2; 2; 4]%N m) as (ps & rest & Hps & ->); [cbn; lia|].
    destruct ps as [|p0 [|p1 [|p2 [|p3 [|p4 [|p5 [|]]]]]]]; try done.
    rewrite frame_type_fields in H by done. injection Hps as H0 H1 H2 H3 H4 H5. rewrite !seq_Ok in H.
    rewrite !reject_if_Ok, orb_false_iff, !negb_false_iff, !bool_decide_eq_true in H.
    destruct H as (-> & (Hmaj & Hmin) & Hf & [= <-]).
    split; [by apply u16_field_lt|]. exists p5, rest. split; [done|].
    unfold header_fields. by rewrite <- Hmaj, <- Hmin, <- Hf, !to_from_field.
  - intros (Hty & l & rest & Hl & ->). pose proof (header_fields_len ty l Hl) as Hls. unfold header_fields in *.
    rewrite frame_type_fields by done. rewrite !from_to_u16 by done.
    by rewrite !bool_decide_eq_true_2.
Qed.

Lemma frame_header_fields ty n : frame_header ty n = concat (header_fields ty (to_be_bytes 4 n)).
Proof. done. Qed.

Lemma frame_header_len ty n : len (frame_header ty n) = 20%N.
Proof. rewrite frame_header_fields, concat_len, header_fields_len by apply to_be_bytes_len. done. Qed.

Lemma frame_type_header ty n rest : (ty < 65536)%N → frame_type (frame_header ty n ++ rest) = Ok ty.
Proof.
  intros Hty. apply frame_type_Ok. split; [done|]. exists (to_be_bytes 4 n), rest.
  by rewrite to_be_bytes_len.
Qed.

(** A message has a payload exactly when it is its frame. *)
Lemma frame_payload_Ok m ty max payload :
  (ty < 65536)%N → (max < 2 ^ 32)%N →
  frame_payload m ty max = Ok payload ↔
  m = frame_header ty (len payload) ++ payload ∧ (len payload <= max)%N.
Proof.
  intros Hty Hmax. unfold frame_payload. split.
  - intros H. unbind H as t Ht. apply frame_type_Ok in Ht as (_ & l & rest & Hl & ->).
    rewrite seq_Ok, reject_if_Ok, negb_false_iff, bool_decide_eq_true in H. destruct H as [-> H].
    pose proof (header_fields_len ty l Hl) as Hls. pose proof (concat_len (header_fields ty l)) as Hc.
    rewrite Hls in Hc. unfold header_fields in *. revert H. read_fields.
    intros H. rewrite seq_Ok, reject_if_Ok, N.ltb_ge in H.
    destruct H as [Hle H]. unbind H as e He. rewrite ok_or_Ok, checked_add_usize_Some in He.
    destruct He as [-> _]. rewrite len_app, Hc in H. change (total _) with 20%N in *.
    destruct (N.compare_spec (20 + len rest) (20 + from_be_bytes l)) as [Heq| |]; [|done..].
    assert (len rest = from_be_bytes l) as Hr by lia.
    rewrite slice_tail in H by (by rewrite ?Hc). injection H as <-. split; [|lia].
    by rewrite frame_header_fields, Hr, to_from_field.
  - intros [-> Hle]. pose proof (frame_header_len ty (len payload)) as Hl.
    rewrite frame_type_header, bind_Ok_l, bool_decide_eq_true_2 by done. cbn [negb reject_if].
    rewrite bind_Ok_l. rewrite frame_header_fields in *.
    pose proof (header_fields_len ty (to_be_bytes 4 (len payload)) (to_be_bytes_len _ _)) as Hls.
    unfold header_fields in *. read_fields.
    rewrite from_to_u32 by (unfold u32_max; lia). rewrite (proj2 (N.ltb_ge _ _)) by done. cbn [reject_if].
    rewrite bind_Ok_l. assert (checked_add_usize 20 (len payload) = Some (20 + len payload)%N) as ->.
    { apply checked_add_usize_Some. unfold usize_max, u64_max. split; [done|lia]. }
    cbn [ok_or]. rewrite bind_Ok_l, len_app, Hl, N.compare_refl. by apply slice_tail.
Qed.

Lemma frame_type_no_panic m : no_panic (frame_type m).
Proof.
  destruct (N.ltb_spec (len m) 20) as [Hl|Hl].
  { unfold frame_type. by rewrite (proj2 (N.ltb_lt _ _)). }
  destruct (split_fields [8; 2; 2; 2; 2; 4]%N m) as (ps & rest & Hps & ->); [cbn; lia|].
  destruct ps as [|p0 [|p1 [|p2 [|p3 [|p4 [|p5 [|]]]]]]]; try done.
  rewrite frame_type_fields by done. no_panics.
Qed.

Lemma frame_payload_no_panic m ty limit : no_panic (frame_payload m ty limit).
Proof.
  unfold frame_payload. apply no_panic_bind; [apply frame_type_no_panic|].
  intros t (_ & l & rest & Hl & ->)%frame_type_Ok. pose proof (header_fields_len t l Hl) as Hls.
  pose proof (concat_len (header_fields t l)) as Hc. rewrite Hls in Hc. change (total _) with 20%N in Hc.
  unfold header_fields in *. read_fields.
  apply no_panic_bind; [apply no_panic_reject_if|]. intros _ _.
  apply no_panic_bind; [apply no_panic_reject_if|]. intros _ _.
  apply no_panic_bind; [apply no_panic_ok_or|]. intros e _.
  destruct (_ ?= _)%N; [|done..]. rewrite slice_tail; [done|by rewrite Hc|by rewrite len_app, Hc].
Qed.

End frames.
