(* ===== verification/IpcProtocol.v ===== *)
(** * The consent protocol ([crates/a-quo-ipc/src/protocol.rs])

    The messages between a client that asks for a signature and the daemon
    that asks for consent: a fixed header of twenty bytes, five kinds of
    request, and the two responses. Encoders build a message by a sequence of
    [extend_from_slice] calls, which is [extend] here; decoders index into the
    received bytes, and an index out of range is a panic. *)

From stdpp Require Import base numbers list strings pretty option.
From Stdlib Require Import Strings.Byte Ascii.
From S2P Require Import Prelude Text Display Crates Names Fields.

(** ** Constants *)

Definition MAGIC : bytes := as_bytes "AQUOIPC" ++ [x00].
Definition HEADER_BYTES : N := 20.
Definition ARTIFACT_REQUEST_PREFIX_BYTES : N := 6.
Definition DOMAIN_REQUEST_PREFIX_BYTES : N := 4.
Definition PERSONA_TRANSITION_REQUEST_PREFIX_BYTES : N := 80.
Definition RECOVERY_PARTICIPATION_REQUEST_PREFIX_BYTES : N := 120.
Definition RESPONSE_PREFIX_BYTES : N := 4.
Definition MESSAGE_SIGN_REQUEST : N := 1.
Definition MESSAGE_SIGN_APPROVED : N := 2.
Definition MESSAGE_SIGN_REJECTED : N := 3.
Definition MESSAGE_DOMAIN_SIGN_REQUEST : N := 4.
Definition MESSAGE_PERSONA_ROOT_SIGN_REQUEST : N := 5.
Definition MESSAGE_PERSONA_TRANSITION_SIGN_REQUEST : N := 6.
Definition MESSAGE_RECOVERY_PARTICIPATION_REQUEST : N := 7.
Definition FLAGS_NONE : N := 0.
Definition MAX_PERSONA_ID_BYTES : N := 64.
Definition MAX_ARTIFACT_LABEL_BYTES : N := 256.
Definition MAX_NEXT_SIGNING_REFERENCE_BYTES : N := 4096.
Definition MAX_RECOVERY_PARTICIPANT_SIGNING_REFERENCE_BYTES : N := 4096.
Definition MAX_RECOVERY_PARTICIPANT_PUBLIC_KEY_BYTES : N := 16384.
Definition MAX_RECOVERY_POLICY_VERSION : N := 1024.
Definition MIN_RECOVERY_THRESHOLD : N := 2.
Definition MAX_RECOVERY_THRESHOLD : N := 32.
Definition PROTOCOL_MAJOR : N := 1.
Definition PROTOCOL_MINOR : N := 0.
Definition MAX_ARTIFACT_REQUEST_PAYLOAD_BYTES : N :=
  (ARTIFACT_REQUEST_PREFIX_BYTES + MAX_PERSONA_ID_BYTES + MAX_ARTIFACT_LABEL_BYTES)%N.
Definition MAX_DOMAIN_REQUEST_PAYLOAD_BYTES : N :=
  (DOMAIN_REQUEST_PREFIX_BYTES + MAX_PERSONA_ID_BYTES)%N.
Definition MAX_PERSONA_TRANSITION_REQUEST_PAYLOAD_BYTES : N :=
  (PERSONA_TRANSITION_REQUEST_PREFIX_BYTES + MAX_PERSONA_ID_BYTES +
   MAX_NEXT_SIGNING_REFERENCE_BYTES)%N.
Definition MAX_RECOVERY_PARTICIPATION_REQUEST_PAYLOAD_BYTES : N :=
  (RECOVERY_PARTICIPATION_REQUEST_PREFIX_BYTES +
   MAX_RECOVERY_PARTICIPANT_SIGNING_REFERENCE_BYTES +
   MAX_RECOVERY_PARTICIPANT_PUBLIC_KEY_BYTES)%N.
Definition MAX_ARTIFACT_OR_DOMAIN_REQUEST_PAYLOAD_BYTES : N :=
  if (MAX_DOMAIN_REQUEST_PAYLOAD_BYTES <? MAX_ARTIFACT_REQUEST_PAYLOAD_BYTES)%N
  then MAX_ARTIFACT_REQUEST_PAYLOAD_BYTES else MAX_DOMAIN_REQUEST_PAYLOAD_BYTES.
Definition MAX_EXISTING_REQUEST_PAYLOAD_BYTES : N :=
  if (MAX_PERSONA_TRANSITION_REQUEST_PAYLOAD_BYTES <?
      MAX_ARTIFACT_OR_DOMAIN_REQUEST_PAYLOAD_BYTES)%N
  then MAX_ARTIFACT_OR_DOMAIN_REQUEST_PAYLOAD_BYTES
  else MAX_PERSONA_TRANSITION_REQUEST_PAYLOAD_BYTES.
Definition MAX_REQUEST_PAYLOAD_BYTES : N :=
  if (MAX_RECOVERY_PARTICIPATION_REQUEST_PAYLOAD_BYTES <? MAX_EXISTING_REQUEST_PAYLOAD_BYTES)%N
  then MAX_EXISTING_REQUEST_PAYLOAD_BYTES
  else MAX_RECOVERY_PARTICIPATION_REQUEST_PAYLOAD_BYTES.
Definition MAX_REQUEST_PACKET_BYTES : N := (HEADER_BYTES + MAX_REQUEST_PAYLOAD_BYTES)%N.
Definition MAX_RESPONSE_PACKET_BYTES : N := (HEADER_BYTES + RESPONSE_PREFIX_BYTES)%N.

(** ** Data *)

Inductive ProtocolError :=
| TruncatedHeader
| InvalidMagic
| UnsupportedVersion (major minor : N)
| UnsupportedMessageType (message_type : N)
| UnsupportedFlags (flags : N)
| PayloadTooLarge
| TruncatedPayload
| TrailingBytes
| InvalidLayout
| UnsupportedArtifactKind (value : N)
| UnsupportedTransitionKeyProvider (value : N)
| UnsupportedRecoveryParticipantKeyProvider (value : N)
| InvalidPersonaId (reason : string)
| InvalidArtifactLabel (reason : string)
| InvalidTransitionSequence (reason : string)
| InvalidNextSigningReference (reason : string)
| InvalidRecoveryParticipantSigningReference (reason : string)
| InvalidRecoveryParticipantPublicKey (reason : string)
| InvalidRecoveryPolicyPin (reason : string)
| InvalidRecoveryHeadPin (reason : string)
| UnsupportedRejectionCode (value : N).

Abbreviation IpcResult := (result ProtocolError).

Inductive ArtifactKind := Generic | SoftwareRelease | Article | Image.
Inductive TransitionKeyProvider := TransitionOpensshFile | TransitionSshAgent | TransitionFido2.
Inductive RecoveryParticipantKeyProvider :=
| ParticipantOpensshFile | ParticipantSshAgent | ParticipantFido2.
Inductive RejectionCode :=
| UserDeclined | Cancelled | InvalidRequest | PersonaUnavailable | RejectedSignerUnavailable
| InternalError | ConsentUnavailable.
Inductive SignSubject :=
| Artifact (artifact_kind : ArtifactKind) (artifact_label : string)
| DomainControl
| PersonaRoot
| PersonaTransition (expected_sequence : N) (expected_root_sha256 : bytes)
    (expected_previous_transition_sha256 : option bytes)
    (next_key_provider : TransitionKeyProvider) (next_signing_reference : string)
| RecoveryParticipation (participant_key_provider : RecoveryParticipantKeyProvider)
    (participant_signing_reference participant_public_key : string)
    (expected_root_sha256 : bytes) (expected_policy_version : N) (expected_policy_sha256 : bytes)
    (expected_policy_threshold expected_previous_head_sequence : N)
    (expected_previous_head_sha256 : option bytes).
Record SignRequest := { sr_persona_id : option string; sr_subject : SignSubject }.
Inductive SignResponse := Approved | Rejected (code : RejectionCode).

(** The values of the [repr(u8)] and [repr(u16)] enumerations. *)
Definition artifact_kind_value (kind : ArtifactKind) : N :=
  match kind with Generic => 1 | SoftwareRelease => 2 | Article => 3 | Image => 4 end.
Definition transition_provider_value (provider : TransitionKeyProvider) : N :=
  match provider with
  | TransitionOpensshFile => 1 | TransitionSshAgent => 2 | TransitionFido2 => 3
  end.
Definition participant_provider_value (provider : RecoveryParticipantKeyProvider) : N :=
  match provider with
  | ParticipantOpensshFile => 1 | ParticipantSshAgent => 2 | ParticipantFido2 => 3
  end.
Definition rejection_code_value (code : RejectionCode) : N :=
  match code with
  | UserDeclined => 1 | Cancelled => 2 | InvalidRequest => 3 | PersonaUnavailable => 4
  | RejectedSignerUnavailable => 5 | InternalError => 6 | ConsentUnavailable => 7
  end.

Definition decode_artifact_kind (value : N) : IpcResult ArtifactKind :=
  match value with
  | 1%N => Ok Generic | 2%N => Ok SoftwareRelease | 3%N => Ok Article | 4%N => Ok Image
  | _ => Err (UnsupportedArtifactKind value)
  end.
Definition decode_transition_provider (value : N) : IpcResult TransitionKeyProvider :=
  match value with
  | 1%N => Ok TransitionOpensshFile | 2%N => Ok TransitionSshAgent | 3%N => Ok TransitionFido2
  | _ => Err (UnsupportedTransitionKeyProvider value)
  end.
Definition decode_participant_provider (value : N) : IpcResult RecoveryParticipantKeyProvider :=
  match value with
  | 1%N => Ok ParticipantOpensshFile | 2%N => Ok ParticipantSshAgent | 3%N => Ok ParticipantFido2
  | _ => Err (UnsupportedRecoveryParticipantKeyProvider value)
  end.
Definition decode_rejection_code (value : N) : IpcResult RejectionCode :=
  match value with
  | 1%N => Ok UserDeclined | 2%N => Ok Cancelled | 3%N => Ok InvalidRequest
  | 4%N => Ok PersonaUnavailable | 5%N => Ok RejectedSignerUnavailable
  | 6%N => Ok InternalError | 7%N => Ok ConsentUnavailable
  | _ => Err (UnsupportedRejectionCode value)
  end.

(** ** The header *)

Definition encode_header (message_type payload_len : N) : bytes :=
  extend [] [MAGIC; to_be_bytes 2 PROTOCOL_MAJOR; to_be_bytes 2 PROTOCOL_MINOR;
    to_be_bytes 2 message_type; to_be_bytes 2 FLAGS_NONE; to_be_bytes 4 payload_len].

Definition decode_common_header (message : bytes) : IpcResult N :=
  reject_if (len message <? HEADER_BYTES)%N TruncatedHeader;;
  magic ← slice message 0 (len MAGIC);
  reject_if (magic != MAGIC) InvalidMagic;;
  major ← read_u16 message 8;
  minor ← read_u16 message 10;
  reject_if ((major != PROTOCOL_MAJOR) || (minor != PROTOCOL_MINOR)) (UnsupportedVersion major minor);;
  flags ← read_u16 message 14;
  reject_if (flags != FLAGS_NONE) (UnsupportedFlags flags);;
  read_u16 message 12.

Definition decode_header (message : bytes) (expected_type maximum_payload : N) : IpcResult bytes :=
  message_type ← decode_common_header message;
  reject_if (message_type != expected_type) (UnsupportedMessageType message_type);;
  payload_len ← read_u32 message 16;
  reject_if (maximum_payload <? payload_len)%N PayloadTooLarge;;
  expected_len ← ok_or (checked_add_usize HEADER_BYTES payload_len) PayloadTooLarge;
  match (len message ?= expected_len)%N with
  | Lt => Err TruncatedPayload
  | Gt => Err TrailingBytes
  | Eq => slice message HEADER_BYTES (len message)
  end.

(** ** Validation *)

(** The [uuid] crate, which is outside the repository. *)
Class Uuids := {
  Uuid : Type;
  Uuid_parse_str : string → option Uuid;
  Uuid_to_string : Uuid → string;
}.

(** [str::split_once] at one character *)
Fixpoint split_once (sep : ascii) (s : string) : option (string * string) :=
  match s with
  | EmptyString => None
  | String c s' =>
      if Ascii.eqb c sep then Some (EmptyString, s')
      else match split_once sep s' with
           | Some (a, b) => Some (String c a, b)
           | None => None
           end
  end.

(** [u8::is_ascii_whitespace] *)
Definition is_ascii_whitespace (c : ascii) : bool :=
  let n := ascii_val c in (n =? 32)%N || (n =? 9)%N || (n =? 10)%N || (n =? 12)%N || (n =? 13)%N.

Definition unsafe_characters : string :=
  "control, line/paragraph separator, or default-ignorable Unicode characters are not allowed".

Definition validate_next_signing_reference (value : string) : IpcResult unit :=
  reject_if (value == "") (InvalidNextSigningReference "it cannot be empty");;
  reject_if (MAX_NEXT_SIGNING_REFERENCE_BYTES <? str_len value)%N
    (InvalidNextSigningReference
      ("it cannot exceed " +:+ pretty MAX_NEXT_SIGNING_REFERENCE_BYTES +:+ " UTF-8 bytes"));;
  reject_if (trim value != value)
    (InvalidNextSigningReference "leading and trailing whitespace are not allowed");;
  reject_if (negb (is_absolute value)) (InvalidNextSigningReference "it must be an absolute path");;
  reject_if (contains_unsafe_display_characters value)
    (InvalidNextSigningReference unsafe_characters).

Definition validate_recovery_participant_signing_reference (value : string) : IpcResult unit :=
  reject_if (value == "") (InvalidRecoveryParticipantSigningReference "it cannot be empty");;
  reject_if (MAX_RECOVERY_PARTICIPANT_SIGNING_REFERENCE_BYTES <? str_len value)%N
    (InvalidRecoveryParticipantSigningReference
      ("it cannot exceed " +:+ pretty MAX_RECOVERY_PARTICIPANT_SIGNING_REFERENCE_BYTES +:+
       " UTF-8 bytes"));;
  reject_if (trim value != value)
    (InvalidRecoveryParticipantSigningReference "leading and trailing whitespace are not allowed");;
  reject_if (negb (is_absolute value))
    (InvalidRecoveryParticipantSigningReference "it must be an absolute path");;
  reject_if (contains_unsafe_display_characters value)
    (InvalidRecoveryParticipantSigningReference unsafe_characters).

Section protocol.
Context {crates : Crates} {uuids : Uuids}.

Definition validate_recovery_participant_public_key (value : string) : IpcResult unit :=
  let invalid := InvalidRecoveryParticipantPublicKey in
  reject_if (value == "") (invalid "it cannot be empty");;
  reject_if (MAX_RECOVERY_PARTICIPANT_PUBLIC_KEY_BYTES <? str_len value)%N
    (invalid ("it cannot exceed " +:+ pretty MAX_RECOVERY_PARTICIPANT_PUBLIC_KEY_BYTES +:+
      " UTF-8 bytes"));;
  reject_if (contains_unsafe_display_characters value) (invalid unsafe_characters);;
  '(algorithm, encoded) ← ok_or (split_once " " value)
    (invalid "expected normalized OpenSSH public-key text");
  reject_if ((algorithm == "") || (encoded == "") ||
             negb (str_all (λ c, negb (is_ascii_whitespace c)) encoded) ||
             (value != algorithm +:+ " " +:+ encoded))
    (invalid "expected exactly an algorithm and key blob separated by one ASCII space");;
  blob ← map_err (λ _, invalid "key data must use canonical Base64") (of_sum (STANDARD_decode encoded));
  reject_if (STANDARD_encode blob != encoded) (invalid "key data must use canonical Base64");;
  length_bytes ← ok_or (get_range blob 0 4) (invalid "truncated OpenSSH key blob");
  algorithm_len ← read_u32 length_bytes 0;
  algorithm_end ← ok_or (checked_add_usize 4 algorithm_len)
    (invalid "invalid OpenSSH algorithm length");
  reject_if (get_range blob 4 algorithm_end != Some (as_bytes algorithm))
    (invalid "algorithm label does not match the OpenSSH key blob").

Definition is_recovery_participation (subject : SignSubject) : bool :=
  match subject with RecoveryParticipation _ _ _ _ _ _ _ _ _ => true | _ => false end.

(** The checks on the persona of a request. *)
Definition validate_persona_id (request : SignRequest) : IpcResult unit :=
  match sr_persona_id request, is_recovery_participation (sr_subject request) with
  | None, true => Ok tt
  | Some _, true =>
      Err (InvalidPersonaId
        "recovery participation must not expose a coordinator-local persona UUID")
  | None, false => Err (InvalidPersonaId "this request purpose requires a local persona UUID")
  | Some persona_id, false =>
      reject_if (MAX_PERSONA_ID_BYTES <? str_len persona_id)%N
        (InvalidPersonaId ("it cannot exceed " +:+ pretty MAX_PERSONA_ID_BYTES +:+ " bytes"));;
      parsed ← ok_or (Uuid_parse_str persona_id) (InvalidPersonaId "expected a UUID");
      reject_if (Uuid_to_string parsed != persona_id)
        (InvalidPersonaId "expected the canonical lowercase UUID form")
  end.

(** The checks on the subject of a request. *)
Definition validate_subject (subject : SignSubject) : IpcResult unit :=
  match subject with
  | Artifact _ artifact_label =>
      reject_if (artifact_label == "") (InvalidArtifactLabel "it cannot be empty");;
      reject_if (MAX_ARTIFACT_LABEL_BYTES <? str_len artifact_label)%N
        (InvalidArtifactLabel
          ("it cannot exceed " +:+ pretty MAX_ARTIFACT_LABEL_BYTES +:+ " UTF-8 bytes"));;
      reject_if (trim artifact_label != artifact_label)
        (InvalidArtifactLabel "leading and trailing whitespace are not allowed");;
      reject_if (contains_unsafe_display_characters artifact_label)
        (InvalidArtifactLabel unsafe_characters)
  | DomainControl | PersonaRoot => Ok tt
  | PersonaTransition expected_sequence _ expected_previous_transition_sha256 _
      next_signing_reference =>
      reject_if (expected_sequence == 0%N) (InvalidTransitionSequence "it must start at 1");;
      match (expected_sequence =? 1)%N, expected_previous_transition_sha256 with
      | true, None => Ok tt
      | true, Some _ => Err (InvalidTransitionSequence
          "sequence 1 cannot name a previous transition digest")
      | false, Some _ => Ok tt
      | false, None => Err (InvalidTransitionSequence
          "sequences after 1 require a previous transition digest")
      end;;
      validate_next_signing_reference next_signing_reference
  | RecoveryParticipation _ participant_signing_reference participant_public_key _
      expected_policy_version _ expected_policy_threshold expected_previous_head_sequence
      expected_previous_head_sha256 =>
      validate_recovery_participant_signing_reference participant_signing_reference;;
      validate_recovery_participant_public_key participant_public_key;;
      reject_if (negb ((1 <=? expected_policy_version) &&
                       (expected_policy_version <=? MAX_RECOVERY_POLICY_VERSION))%N)
        (InvalidRecoveryPolicyPin
          ("version must be 1 through " +:+ pretty MAX_RECOVERY_POLICY_VERSION));;
      reject_if (negb ((MIN_RECOVERY_THRESHOLD <=? expected_policy_threshold) &&
                       (expected_policy_threshold <=? MAX_RECOVERY_THRESHOLD))%N)
        (InvalidRecoveryPolicyPin
          ("threshold must be " +:+ pretty MIN_RECOVERY_THRESHOLD +:+ " through " +:+
           pretty MAX_RECOVERY_THRESHOLD));;
      match (expected_previous_head_sequence =? 0)%N, expected_previous_head_sha256 with
      | true, None => Ok tt
      | true, Some _ => Err (InvalidRecoveryHeadPin "the root head cannot name a transition digest")
      | false, Some _ => Ok tt
      | false, None => Err (InvalidRecoveryHeadPin "a transition head requires its exact digest")
      end
  end.

Definition validate_request (request : SignRequest) : IpcResult unit :=
  validate_persona_id request;;
  validate_subject (sr_subject request).

Definition required_persona_id (request : SignRequest) : IpcResult string :=
  ok_or (sr_persona_id request) (InvalidPersonaId "missing local persona UUID").

(** ** Constructors *)

Definition SignRequest_make (persona_id : option string) (subject : SignSubject) :
    IpcResult SignRequest :=
  let request := {| sr_persona_id := persona_id; sr_subject := subject |} in
  validate_request request;;
  Ok request.

Definition SignRequest_new (persona_id : string) (artifact_kind : ArtifactKind)
    (artifact_label : string) : IpcResult SignRequest :=
  SignRequest_make (Some persona_id) (Artifact artifact_kind artifact_label).
Definition new_domain (persona_id : string) : IpcResult SignRequest :=
  SignRequest_make (Some persona_id) DomainControl.
Definition new_persona_root (persona_id : string) : IpcResult SignRequest :=
  SignRequest_make (Some persona_id) PersonaRoot.
Definition new_persona_transition (persona_id : string) (expected_sequence : N)
    (expected_root_sha256 : bytes) (expected_previous_transition_sha256 : option bytes)
    (next_key_provider : TransitionKeyProvider) (next_signing_reference : string) :
    IpcResult SignRequest :=
  SignRequest_make (Some persona_id)
    (PersonaTransition expected_sequence expected_root_sha256 expected_previous_transition_sha256
      next_key_provider next_signing_reference).
Definition new_recovery_participation (participant_key_provider : RecoveryParticipantKeyProvider)
    (participant_signing_reference participant_public_key : string)
    (expected_root_sha256 : bytes) (expected_policy_version : N) (expected_policy_sha256 : bytes)
    (expected_policy_threshold expected_previous_head_sequence : N)
    (expected_previous_head_sha256 : option bytes) : IpcResult SignRequest :=
  SignRequest_make None
    (RecoveryParticipation participant_key_provider participant_signing_reference
      participant_public_key expected_root_sha256 expected_policy_version expected_policy_sha256
      expected_policy_threshold expected_previous_head_sequence expected_previous_head_sha256).

(** ** Encoding *)

Definition encode_artifact_sign_request (request : SignRequest) (artifact_kind : ArtifactKind)
    (artifact_label : string) : IpcResult bytes :=
  persona_id ← required_persona_id request;
  let persona := as_bytes persona_id in
  let label := as_bytes artifact_label in
  with_persona ← add_usize ARTIFACT_REQUEST_PREFIX_BYTES (len persona);
  payload_len ← add_usize with_persona (len label);
  let message := encode_header MESSAGE_SIGN_REQUEST payload_len in
  Ok (extend message [[byte_of (artifact_kind_value artifact_kind)]; [x00];
    to_be_bytes 2 (len persona); to_be_bytes 2 (len label); persona; label]).

Definition encode_single_persona_request (request : SignRequest) (message_type : N) :
    IpcResult bytes :=
  persona_id ← required_persona_id request;
  let persona := as_bytes persona_id in
  payload_len ← add_usize DOMAIN_REQUEST_PREFIX_BYTES (len persona);
  let message := encode_header message_type payload_len in
  Ok (extend message [to_be_bytes 2 (len persona); to_be_bytes 2 0; persona]).

Definition encode_domain_sign_request (request : SignRequest) : IpcResult bytes :=
  encode_single_persona_request request MESSAGE_DOMAIN_SIGN_REQUEST.
Definition encode_persona_root_sign_request (request : SignRequest) : IpcResult bytes :=
  encode_single_persona_request request MESSAGE_PERSONA_ROOT_SIGN_REQUEST.

Definition encode_persona_transition_sign_request (request : SignRequest) : IpcResult bytes :=
  match sr_subject request with
  | PersonaTransition expected_sequence expected_root_sha256 expected_previous_transition_sha256
      next_key_provider next_signing_reference =>
      persona_id ← required_persona_id request;
      let persona := as_bytes persona_id in
      let locator := as_bytes next_signing_reference in
      payload_len ← ok_or
        (checked_add_usize PERSONA_TRANSITION_REQUEST_PREFIX_BYTES (len persona) ≫= λ length,
         checked_add_usize length (len locator)) PayloadTooLarge;
      let message := extend (encode_header MESSAGE_PERSONA_TRANSITION_SIGN_REQUEST payload_len)
        [[byte_of (transition_provider_value next_key_provider)];
         presence expected_previous_transition_sha256; to_be_bytes 2 0;
         to_be_bytes 4 expected_sequence; to_be_bytes 2 (len persona);
         to_be_bytes 2 (len locator); to_be_bytes 4 0; expected_root_sha256;
         digest_or_zeros expected_previous_transition_sha256] in
      debug_assert (len message == (HEADER_BYTES + PERSONA_TRANSITION_REQUEST_PREFIX_BYTES)%N);;
      Ok (extend message [persona; locator])
  | _ => Err InvalidLayout
  end.

Definition encode_recovery_participation_request (request : SignRequest) : IpcResult bytes :=
  match sr_subject request with
  | RecoveryParticipation participant_key_provider participant_signing_reference
      participant_public_key expected_root_sha256 expected_policy_version expected_policy_sha256
      expected_policy_threshold expected_previous_head_sequence expected_previous_head_sha256 =>
      let locator := as_bytes participant_signing_reference in
      let public_key := as_bytes participant_public_key in
      payload_len ← ok_or
        (checked_add_usize RECOVERY_PARTICIPATION_REQUEST_PREFIX_BYTES (len locator) ≫= λ length,
         checked_add_usize length (len public_key)) PayloadTooLarge;
      let message := extend (encode_header MESSAGE_RECOVERY_PARTICIPATION_REQUEST payload_len)
        [[byte_of (participant_provider_value participant_key_provider)];
         presence expected_previous_head_sha256; to_be_bytes 2 0;
         to_be_bytes 4 expected_policy_version; to_be_bytes 4 expected_policy_threshold;
         to_be_bytes 4 expected_previous_head_sequence; to_be_bytes 2 (len locator);
         to_be_bytes 2 (len public_key); to_be_bytes 4 0; expected_root_sha256;
         expected_policy_sha256; digest_or_zeros expected_previous_head_sha256] in
      debug_assert (len message == (HEADER_BYTES + RECOVERY_PARTICIPATION_REQUEST_PREFIX_BYTES)%N);;
      Ok (extend message [locator; public_key])
  | _ => Err InvalidLayout
  end.

Definition encode_sign_request (request : SignRequest) : IpcResult bytes :=
  validate_request request;;
  match sr_subject request with
  | Artifact artifact_kind artifact_label =>
      encode_artifact_sign_request request artifact_kind artifact_label
  | DomainControl => encode_domain_sign_request request
  | PersonaRoot => encode_persona_root_sign_request request
  | PersonaTransition _ _ _ _ _ => encode_persona_transition_sign_request request
  | RecoveryParticipation _ _ _ _ _ _ _ _ _ => encode_recovery_participation_request request
  end.

Definition encode_sign_response (response : SignResponse) : bytes :=
  match response with
  | Approved => encode_header MESSAGE_SIGN_APPROVED 0
  | Rejected code =>
      extend (encode_header MESSAGE_SIGN_REJECTED RESPONSE_PREFIX_BYTES)
        [to_be_bytes 2 (rejection_code_value code); to_be_bytes 2 0]
  end.

(** ** Decoding *)

(** [std::str::from_utf8(&payload[start..end])] *)
Definition read_text (payload : bytes) (start_ end_ : N) (error : ProtocolError) : IpcResult string :=
  text ← slice payload start_ end_;
  ok_or (from_utf8 text) error.

(** The payload of an artifact request. *)
Definition artifact_request_of_payload (payload : bytes) : IpcResult SignRequest :=
  reject_if (len payload <? ARTIFACT_REQUEST_PREFIX_BYTES)%N InvalidLayout;;
  reserved ← index payload 1;
  reject_if (byte_val reserved != 0%N) InvalidLayout;;
  kind ← index payload 0;
  artifact_kind ← decode_artifact_kind (byte_val kind);
  persona_len ← read_u16 payload 2;
  label_len ← read_u16 payload 4;
  expected ← ok_or
    (checked_add_usize ARTIFACT_REQUEST_PREFIX_BYTES persona_len ≫= λ length,
     checked_add_usize length label_len) InvalidLayout;
  reject_if (expected != len payload) InvalidLayout;;
  persona_end ← add_usize ARTIFACT_REQUEST_PREFIX_BYTES persona_len;
  persona_id ← read_text payload ARTIFACT_REQUEST_PREFIX_BYTES persona_end
    (InvalidPersonaId "it must be UTF-8");
  artifact_label ← read_text payload persona_end (len payload)
    (InvalidArtifactLabel "it must be UTF-8");
  SignRequest_new persona_id artifact_kind artifact_label.

Definition decode_artifact_sign_request (message : bytes) : IpcResult SignRequest :=
  payload ← decode_header message MESSAGE_SIGN_REQUEST MAX_ARTIFACT_REQUEST_PAYLOAD_BYTES;
  artifact_request_of_payload payload.

(** The payload of a request that names one persona. *)
Definition persona_of_payload (payload : bytes) : IpcResult string :=
  reject_if (len payload <? DOMAIN_REQUEST_PREFIX_BYTES)%N InvalidLayout;;
  reserved ← slice payload 2 4;
  reject_if (reserved != [x00; x00]) InvalidLayout;;
  persona_len ← read_u16 payload 0;
  expected ← ok_or (checked_add_usize DOMAIN_REQUEST_PREFIX_BYTES persona_len) InvalidLayout;
  reject_if (expected != len payload) InvalidLayout;;
  read_text payload DOMAIN_REQUEST_PREFIX_BYTES (len payload) (InvalidPersonaId "it must be UTF-8").

Definition decode_single_persona_request (message : bytes) (message_type : N) : IpcResult string :=
  payload ← decode_header message message_type MAX_DOMAIN_REQUEST_PAYLOAD_BYTES;
  persona_of_payload payload.

Definition decode_domain_sign_request (message : bytes) : IpcResult SignRequest :=
  persona_id ← decode_single_persona_request message MESSAGE_DOMAIN_SIGN_REQUEST;
  new_domain persona_id.
Definition decode_persona_root_sign_request (message : bytes) : IpcResult SignRequest :=
  persona_id ← decode_single_persona_request message MESSAGE_PERSONA_ROOT_SIGN_REQUEST;
  new_persona_root persona_id.

(** The payload of a transition request. *)
Definition transition_request_of_payload (payload : bytes) : IpcResult SignRequest :=
  reject_if (len payload <? PERSONA_TRANSITION_REQUEST_PREFIX_BYTES)%N InvalidLayout;;
  reserved ← slice payload 2 4;
  reject_if (reserved != [x00; x00]) InvalidLayout;;
  reserved ← slice payload 12 16;
  reject_if (reserved != [x00; x00; x00; x00]) InvalidLayout;;
  present ← index payload 1;
  reject_if (1 <? byte_val present)%N InvalidLayout;;
  provider ← index payload 0;
  next_key_provider ← decode_transition_provider (byte_val provider);
  expected_sequence ← read_u32 payload 4;
  persona_len ← read_u16 payload 8;
  locator_len ← read_u16 payload 10;
  expected ← ok_or
    (checked_add_usize PERSONA_TRANSITION_REQUEST_PREFIX_BYTES persona_len ≫= λ length,
     checked_add_usize length locator_len) InvalidLayout;
  reject_if (expected != len payload) InvalidLayout;;
  expected_root_sha256 ← slice payload 16 48;
  previous ← slice payload 48 80;
  expected_previous_transition_sha256 ← read_optional_digest present previous InvalidLayout;
  persona_end ← add_usize PERSONA_TRANSITION_REQUEST_PREFIX_BYTES persona_len;
  persona_id ← read_text payload PERSONA_TRANSITION_REQUEST_PREFIX_BYTES persona_end
    (InvalidPersonaId "it must be UTF-8");
  next_signing_reference ← read_text payload persona_end (len payload)
    (InvalidNextSigningReference "it must be UTF-8");
  new_persona_transition persona_id expected_sequence expected_root_sha256
    expected_previous_transition_sha256 next_key_provider next_signing_reference.

Definition decode_persona_transition_sign_request (message : bytes) : IpcResult SignRequest :=
  payload ← decode_header message MESSAGE_PERSONA_TRANSITION_SIGN_REQUEST
    MAX_PERSONA_TRANSITION_REQUEST_PAYLOAD_BYTES;
  transition_request_of_payload payload.

(** The payload of a participation request. *)
Definition participation_request_of_payload (payload : bytes) : IpcResult SignRequest :=
  reject_if (len payload <? RECOVERY_PARTICIPATION_REQUEST_PREFIX_BYTES)%N InvalidLayout;;
  reserved ← slice payload 2 4;
  reject_if (reserved != [x00; x00]) InvalidLayout;;
  reserved ← slice payload 20 24;
  reject_if (reserved != [x00; x00; x00; x00]) InvalidLayout;;
  present ← index payload 1;
  reject_if (1 <? byte_val present)%N InvalidLayout;;
  provider ← index payload 0;
  participant_key_provider ← decode_participant_provider (byte_val provider);
  expected_policy_version ← read_u32 payload 4;
  expected_policy_threshold ← read_u32 payload 8;
  expected_previous_head_sequence ← read_u32 payload 12;
  locator_len ← read_u16 payload 16;
  public_key_len ← read_u16 payload 18;
  expected ← ok_or
    (checked_add_usize RECOVERY_PARTICIPATION_REQUEST_PREFIX_BYTES locator_len ≫= λ length,
     checked_add_usize length public_key_len) InvalidLayout;
  reject_if (expected != len payload) InvalidLayout;;
  expected_root_sha256 ← slice payload 24 56;
  expected_policy_sha256 ← slice payload 56 88;
  previous ← slice payload 88 120;
  expected_previous_head_sha256 ← read_optional_digest present previous InvalidLayout;
  locator_end ← add_usize RECOVERY_PARTICIPATION_REQUEST_PREFIX_BYTES locator_len;
  participant_signing_reference ← read_text payload RECOVERY_PARTICIPATION_REQUEST_PREFIX_BYTES
    locator_end (InvalidRecoveryParticipantSigningReference "it must be UTF-8");
  participant_public_key ← read_text payload locator_end (len payload)
    (InvalidRecoveryParticipantPublicKey "it must be UTF-8");
  new_recovery_participation participant_key_provider participant_signing_reference
    participant_public_key expected_root_sha256 expected_policy_version expected_policy_sha256
    expected_policy_threshold expected_previous_head_sequence expected_previous_head_sha256.

Definition decode_recovery_participation_request (message : bytes) : IpcResult SignRequest :=
  payload ← decode_header message MESSAGE_RECOVERY_PARTICIPATION_REQUEST
    MAX_RECOVERY_PARTICIPATION_REQUEST_PAYLOAD_BYTES;
  participation_request_of_payload payload.

Definition decode_sign_request (message : bytes) : IpcResult SignRequest :=
  message_type ← decode_common_header message;
  if message_type == MESSAGE_SIGN_REQUEST then decode_artifact_sign_request message
  else if message_type == MESSAGE_DOMAIN_SIGN_REQUEST then decode_domain_sign_request message
  else if message_type == MESSAGE_PERSONA_ROOT_SIGN_REQUEST then
    decode_persona_root_sign_request message
  else if message_type == MESSAGE_PERSONA_TRANSITION_SIGN_REQUEST then
    decode_persona_transition_sign_request message
  else if message_type == MESSAGE_RECOVERY_PARTICIPATION_REQUEST then
    decode_recovery_participation_request message
  else Err (UnsupportedMessageType message_type).

Definition decode_sign_response (message : bytes) : IpcResult SignResponse :=
  message_type ← decode_common_header message;
  if message_type == MESSAGE_SIGN_APPROVED then
    payload ← decode_header message MESSAGE_SIGN_APPROVED 0;
    debug_assert (payload == []);;
    Ok Approved
  else if message_type == MESSAGE_SIGN_REJECTED then
    payload ← decode_header message MESSAGE_SIGN_REJECTED RESPONSE_PREFIX_BYTES;
    reject_if (len payload != RESPONSE_PREFIX_BYTES) InvalidLayout;;
    reserved ← slice payload 2 (len payload);
    reject_if (reserved != [x00; x00]) InvalidLayout;;
    value ← read_u16 payload 0;
    code ← decode_rejection_code value;
    Ok (Rejected code)
  else Err (UnsupportedMessageType message_type).

End protocol.
