(* ===== verification/IpcFacts.v ===== *)
(** * Theorems about the consent protocol

    The decoders index into a message at fixed offsets. Each of them is
    evaluated on a payload that is given as a sequence of fields, and every
    other payload is shown to be rejected. Then messages and requests
    correspond one to one, messages are bounded, and neither decoding nor
    encoding panics. *)

From stdpp Require Import base numbers list strings pretty option.
From Stdlib Require Import Strings.Byte Ascii.
From S2P Require Import Prelude Text Display Crates Names Fields IpcProtocol.

(** ** The header *)

(** The framing of this protocol; its header functions are those of [Frames]. *)
Definition ipc_framing : Framing ProtocolError := {|
  fr_magic := MAGIC; fr_major := PROTOCOL_MAJOR; fr_minor := PROTOCOL_MINOR;
  fr_truncated_header := TruncatedHeader; fr_invalid_magic := InvalidMagic;
  fr_unsupported_version := UnsupportedVersion;
  fr_unsupported_message_type := UnsupportedMessageType;
  fr_unsupported_flags := UnsupportedFlags; fr_payload_too_large := PayloadTooLarge;
  fr_truncated_payload := TruncatedPayload; fr_trailing_bytes := TrailingBytes |}.

Lemma encode_header_frame ty n : encode_header ty n = frame_header ipc_framing ty n.
Proof. reflexivity. Qed.
Lemma decode_common_header_frame m : decode_common_header m = frame_type ipc_framing m.
Proof. reflexivity. Qed.
Lemma decode_header_frame m ty max : decode_header m ty max = frame_payload ipc_framing m ty max.
Proof. reflexivity. Qed.

Lemma encode_header_len ty n : len (encode_header ty n) = 20%N.
Proof. by apply (frame_header_len ipc_framing). Qed.

Lemma decode_header_Ok m ty max payload :
  (ty < 65536)%N → (max < 2 ^ 32)%N →
  decode_header m ty max = Ok payload ↔
  m = encode_header ty (len payload) ++ payload ∧ (len payload <= max)%N.
Proof. rewrite decode_header_frame. by apply (frame_payload_Ok ipc_framing). Qed.

(** ** Enumerations *)

Lemma decode_artifact_kind_Ok v k : decode_artifact_kind v = Ok k ↔ v = artifact_kind_value k.
Proof. split; [unfold decode_artifact_kind; by repeat case_match; intros [= <-]|by intros ->; destruct k]. Qed.
Lemma decode_transition_provider_Ok v k :
  decode_transition_provider v = Ok k ↔ v = transition_provider_value k.
Proof. split; [unfold decode_transition_provider; by repeat case_match; intros [= <-]|by intros ->; destruct k]. Qed.
Lemma decode_participant_provider_Ok v k :
  decode_participant_provider v = Ok k ↔ v = participant_provider_value k.
Proof. split; [unfold decode_participant_provider; by repeat case_match; intros [= <-]|by intros ->; destruct k]. Qed.
Lemma decode_rejection_code_Ok v k : decode_rejection_code v = Ok k ↔ v = rejection_code_value k.
Proof. split; [unfold decode_rejection_code; by repeat case_match; intros [= <-]|by intros ->; destruct k]. Qed.

Lemma enumerations_no_panic v :
  no_panic (decode_artifact_kind v) ∧ no_panic (decode_transition_provider v) ∧
  no_panic (decode_participant_provider v) ∧ no_panic (decode_rejection_code v).
Proof.
  unfold decode_artifact_kind, decode_transition_provider, decode_participant_provider,
    decode_rejection_code. split_and!; by repeat case_match.
Qed.

(** [rejected] closes the case of a payload that a guard rejects. *)
Ltac rejected := by (left; eexists).

Section facts.
Context {crates : Crates} {uuids : Uuids}.

(** ** Artifact requests *)

Definition artifact_fields (k : byte) (x y : bytes) : list bytes :=
  [[k]; [x00]; to_be_bytes 2 (len x); to_be_bytes 2 (len y); x; y].

Lemma artifact_fields_len k x y :
  len <$> artifact_fields k x y = [1; 1; 2; 2; len x; len y]%N.
Proof. cbn [artifact_fields fmap list_fmap]. by rewrite !to_be_bytes_len. Qed.

Lemma artifact_payload_eval k x y :
  (len x < 65536)%N → (len y < 65536)%N →
  artifact_request_of_payload (concat (artifact_fields k x y)) =
    (kind ← decode_artifact_kind (byte_val k);
     persona ← ok_or (from_utf8 x) (InvalidPersonaId "it must be UTF-8");
     label ← ok_or (from_utf8 y) (InvalidArtifactLabel "it must be UTF-8");
     SignRequest_new persona kind label).
Proof.
  intros Hx Hy. pose proof (artifact_fields_len k x y) as Hls.
  pose proof (concat_total _ _ Hls) as Hc. cbn [foldr] in Hc.
  unfold artifact_request_of_payload, artifact_fields, read_text, ARTIFACT_REQUEST_PREFIX_BYTES in *.
  rewrite Hc. rewrite <- (app_nil_r (concat _)). rewrite (proj2 (N.ltb_ge _ _)) by lia.
  cbn [reject_if]. rewrite bind_Ok_l. read_fields. change (byte_val x00) with 0%N.
  rewrite bool_decide_eq_true_2 by done. cbn [negb reject_if]. rewrite bind_Ok_l.
  destruct (decode_artifact_kind (byte_val k)); [|done..]. rewrite !bind_Ok_l.
  rewrite !from_to_u16 by done. add_lengths. rewrite bool_decide_eq_true_2 by lia. cbn [negb reject_if].
  add_lengths. read_fields. destruct (from_utf8 x); [|done]. cbn [ok_or]. rewrite !bind_Ok_l.
  by read_fields.
Qed.

Lemma artifact_payload_cases payload :
  (∃ e, artifact_request_of_payload payload = Err e) ∨
  ∃ k x y, payload = concat (artifact_fields k x y) ∧ (len x < 65536)%N ∧ (len y < 65536)%N.
Proof.
  unfold artifact_request_of_payload, ARTIFACT_REQUEST_PREFIX_BYTES.
  destruct (N.ltb_spec (len payload) 6) as [|Hl]; [rejected|]. cbn [reject_if]. rewrite bind_Ok_l.
  destruct (split_fields [1; 1; 2; 2]%N payload) as (ps & rest & Hls & ->); [cbn; lia|].
  destruct ps as [|p0 [|p1 [|p [|q []]]]]; try done.
  byte_field p0 as k. byte_field p1 as r. read_fields.
  rewrite len_app, concat_len, Hls. injection Hls as Hp Hq.
  destruct (bool_decide_reflect (byte_val r = 0%N)) as [Hr|]; [|rejected]. cbn [negb reject_if].
  rewrite bind_Ok_l. pose proof (proj1 (enumerations_no_panic (byte_val k))) as Hk.
  destruct (decode_artifact_kind (byte_val k)); [|rejected|done]. rewrite !bind_Ok_l.
  apply u16_field_lt in Hp as Hp', Hq as Hq'. add_lengths. case_bool_decide as He; [|rejected]. right.
  destruct (split_exactly [from_be_bytes p; from_be_bytes q] rest) as (ts & Hts & ->); [unfold total in *; cbn in *; lia|].
  destruct ts as [|x [|y []]]; try done. injection Hts as Hx Hy.
  exists k, x, y. rewrite <- concat_app. unfold artifact_fields. rewrite Hx, Hy, !to_from_field by done.
  by rewrite (byte_val_inj r x00).
Qed.

(** ** Requests that name one persona *)

Definition persona_fields (x : bytes) : list bytes := [to_be_bytes 2 (len x); to_be_bytes 2 0; x].

Lemma persona_fields_len x : len <$> persona_fields x = [2; 2; len x]%N.
Proof. cbn [persona_fields fmap list_fmap]. by rewrite !to_be_bytes_len. Qed.

Lemma persona_payload_eval x :
  (len x < 65536)%N →
  persona_of_payload (concat (persona_fields x)) =
    ok_or (from_utf8 x) (InvalidPersonaId "it must be UTF-8").
Proof.
  intros Hx. pose proof (persona_fields_len x) as Hls.
  pose proof (concat_total _ _ Hls) as Hc. cbn [foldr] in Hc.
  unfold persona_of_payload, persona_fields, read_text, DOMAIN_REQUEST_PREFIX_BYTES in *.
  rewrite Hc. rewrite <- (app_nil_r (concat _)). rewrite (proj2 (N.ltb_ge _ _)) by lia.
  cbn [reject_if]. rewrite bind_Ok_l. read_fields.
  rewrite (bool_decide_eq_true_2 (to_be_bytes 2 0 = _)) by done. cbn [negb reject_if].
  rewrite bind_Ok_l, from_to_u16 by done. add_lengths. rewrite bool_decide_eq_true_2 by lia.
  cbn [negb reject_if]. rewrite bind_Ok_l. by read_fields.
Qed.

Lemma persona_payload_cases payload :
  (∃ e, persona_of_payload payload = Err e) ∨
  ∃ x, payload = concat (persona_fields x) ∧ (len x < 65536)%N.
Proof.
  unfold persona_of_payload, DOMAIN_REQUEST_PREFIX_BYTES.
  destruct (N.ltb_spec (len payload) 4) as [|Hl]; [rejected|]. cbn [reject_if]. rewrite bind_Ok_l.
  destruct (split_fields [2; 2]%N payload) as (ps & rest & Hls & ->); [cbn; lia|].
  destruct ps as [|p [|q []]]; try done. read_fields. rewrite len_app, concat_len, Hls.
  injection Hls as Hp Hq. destruct (bool_decide_reflect (q = [x00; x00])) as [Hr|]; [|rejected].
  cbn [negb reject_if]. rewrite bind_Ok_l. apply u16_field_lt in Hp as Hp'. add_lengths.
  case_bool_decide as He; [|rejected]. right. exists rest. unfold persona_fields.
  assert (len rest = from_be_bytes p) as -> by (unfold total in *; cbn in *; lia).
  rewrite to_from_field by done. rewrite Hr. split; [|done]. cbn [concat]. by rewrite !app_nil_r, <- app_assoc.
Qed.

(** ** Transition requests *)

Definition transition_fields (k b : byte) (seq : N) (x y root prev : bytes) : list bytes :=
  [[k]; [b]; to_be_bytes 2 0; to_be_bytes 4 seq; to_be_bytes 2 (len x); to_be_bytes 2 (len y);
   to_be_bytes 4 0; root; prev; x; y].

Lemma transition_fields_len k b seq x y root prev :
  len root = 32%N → len prev = 32%N →
  len <$> transition_fields k b seq x y root prev = [1; 1; 2; 4; 2; 2; 4; 32; 32; len x; len y]%N.
Proof. intros Hr Hv. cbn [transition_fields fmap list_fmap]. by rewrite !to_be_bytes_len, Hr, Hv. Qed.

Lemma transition_payload_eval k b seq x y root prev :
  (len x < 65536)%N → (len y < 65536)%N → (seq <= u32_max)%N → (byte_val b <= 1)%N →
  len root = 32%N → len prev = 32%N →
  transition_request_of_payload (concat (transition_fields k b seq x y root prev)) =
    (provider ← decode_transition_provider (byte_val k);
     previous ← read_optional_digest b prev InvalidLayout;
     persona ← ok_or (from_utf8 x) (InvalidPersonaId "it must be UTF-8");
     reference ← ok_or (from_utf8 y) (InvalidNextSigningReference "it must be UTF-8");
     new_persona_transition persona seq root previous provider reference).
Proof.
  intros Hx Hy Hs Hb Hr Hv. pose proof (transition_fields_len k b seq x y root prev Hr Hv) as Hls.
  pose proof (concat_total _ _ Hls) as Hc. cbn [foldr] in Hc.
  unfold transition_request_of_payload, transition_fields, read_text,
    PERSONA_TRANSITION_REQUEST_PREFIX_BYTES in *.
  rewrite Hc. rewrite <- (app_nil_r (concat _)). rewrite (proj2 (N.ltb_ge _ _)) by lia.
  cbn [reject_if]. rewrite bind_Ok_l. read_fields. rewrite !(bool_decide_eq_true_2 (to_be_bytes _ 0 = _)) by done.
  cbn [negb reject_if]. rewrite !bind_Ok_l. rewrite (proj2 (N.ltb_ge _ _)) by done. cbn [reject_if].
  rewrite bind_Ok_l. destruct (decode_transition_provider (byte_val k)); [|done..]. rewrite !bind_Ok_l.
  rewrite !from_to_u16, from_to_u32 by done. add_lengths. rewrite bool_decide_eq_true_2 by lia.
  cbn [negb reject_if]. rewrite bind_Ok_l. destruct (read_optional_digest b prev InvalidLayout); [|done..].
  add_lengths. read_fields. destruct (from_utf8 x); [|done]. cbn [ok_or]. rewrite !bind_Ok_l. by read_fields.
Qed.

Lemma transition_payload_cases payload :
  (∃ e, transition_request_of_payload payload = Err e) ∨
  ∃ k b seq x y root prev,
    payload = concat (transition_fields k b seq x y root prev) ∧ (len x < 65536)%N ∧
    (len y < 65536)%N ∧ (seq <= u32_max)%N ∧ (byte_val b <= 1)%N ∧ len root = 32%N ∧ len prev = 32%N.
Proof.
  unfold transition_request_of_payload, PERSONA_TRANSITION_REQUEST_PREFIX_BYTES.
  destruct (N.ltb_spec (len payload) 80) as [|Hl]; [rejected|]. cbn [reject_if]. rewrite bind_Ok_l.
  destruct (split_fields [1; 1; 2; 4; 2; 2; 4; 32; 32]%N payload) as (ps & rest & Hls & ->); [cbn; lia|].
  destruct ps as [|p0 [|p1 [|z [|s [|p [|q [|z' [|root [|prev []]]]]]]]]]; try done.
  byte_field p0 as k. byte_field p1 as b.
  read_fields. rewrite len_app, concat_len, Hls. injection Hls as Hz Hs Hp Hq Hz' Hroot Hprev.
  destruct (bool_decide_reflect (z = [x00; x00])) as [H1|]; [|rejected]. cbn [negb reject_if]. rewrite bind_Ok_l.
  destruct (bool_decide_reflect (z' = [x00; x00; x00; x00])) as [H2|]; [|rejected]. cbn [negb reject_if].
  rewrite bind_Ok_l. destruct (N.ltb_spec 1 (byte_val b)) as [|Hb]; [rejected|]. cbn [reject_if]. rewrite bind_Ok_l.
  pose proof (proj1 (proj2 (enumerations_no_panic (byte_val k)))) as Hk.
  destruct (decode_transition_provider (byte_val k)); [|rejected|done]. rewrite !bind_Ok_l.
  apply u16_field_lt in Hp as Hp', Hq as Hq'. add_lengths. case_bool_decide as He; [|rejected]. right.
  destruct (split_exactly [from_be_bytes p; from_be_bytes q] rest) as (ts & Hts & ->); [unfold total in *; cbn in *; lia|].
  destruct ts as [|x [|y []]]; try done. injection Hts as Hx Hy.
  exists k, b, (from_be_bytes s), x, y, root, prev. rewrite <- concat_app. unfold transition_fields.
  rewrite Hx, Hy, !to_from_field by done. subst z z'.
  split_and!; [done..| |done|done|done]. by apply u32_field_le.
Qed.

(** ** Participation requests *)

Definition participation_fields (k b : byte) (version threshold seq : N)
    (x y root policy prev : bytes) : list bytes :=
  [[k]; [b]; to_be_bytes 2 0; to_be_bytes 4 version; to_be_bytes 4 threshold; to_be_bytes 4 seq;
   to_be_bytes 2 (len x); to_be_bytes 2 (len y); to_be_bytes 4 0; root; policy; prev; x; y].

Lemma participation_fields_len k b version threshold seq x y root policy prev :
  len root = 32%N → len policy = 32%N → len prev = 32%N →
  len <$> participation_fields k b version threshold seq x y root policy prev =
    [1; 1; 2; 4; 4; 4; 2; 2; 4; 32; 32; 32; len x; len y]%N.
Proof.
  intros Hr Hc Hv. cbn [participation_fields fmap list_fmap]. by rewrite !to_be_bytes_len, Hr, Hc, Hv.
Qed.

Lemma participation_payload_eval k b version threshold seq x y root policy prev :
  (len x < 65536)%N → (len y < 65536)%N → (version <= u32_max)%N → (threshold <= u32_max)%N →
  (seq <= u32_max)%N → (byte_val b <= 1)%N → len root = 32%N → len policy = 32%N → len prev = 32%N →
  participation_request_of_payload
      (concat (participation_fields k b version threshold seq x y root policy prev)) =
    (provider ← decode_participant_provider (byte_val k);
     previous ← read_optional_digest b prev InvalidLayout;
     reference ← ok_or (from_utf8 x)
       (InvalidRecoveryParticipantSigningReference "it must be UTF-8");
     key ← ok_or (from_utf8 y) (InvalidRecoveryParticipantPublicKey "it must be UTF-8");
     new_recovery_participation provider reference key root version policy threshold seq previous).
Proof.
  intros Hx Hy Hn Ht Hs Hb Hr Hp Hv.
  pose proof (participation_fields_len k b version threshold seq x y root policy prev Hr Hp Hv) as Hls.
  pose proof (concat_total _ _ Hls) as Hc. cbn [foldr] in Hc.
  unfold participation_request_of_payload, participation_fields, read_text,
    RECOVERY_PARTICIPATION_REQUEST_PREFIX_BYTES in *.
  rewrite Hc. rewrite <- (app_nil_r (concat _)). rewrite (proj2 (N.ltb_ge _ _)) by lia.
  cbn [reject_if]. rewrite bind_Ok_l. read_fields. rewrite !(bool_decide_eq_true_2 (to_be_bytes _ 0 = _)) by done.
  cbn [negb reject_if]. rewrite !bind_Ok_l. rewrite (proj2 (N.ltb_ge _ _)) by done. cbn [reject_if].
  rewrite bind_Ok_l. destruct (decode_participant_provider (byte_val k)); [|done..]. rewrite !bind_Ok_l.
  rewrite !from_to_u16, !from_to_u32 by done. add_lengths. rewrite bool_decide_eq_true_2 by lia.
  cbn [negb reject_if]. rewrite bind_Ok_l. destruct (read_optional_digest b prev InvalidLayout); [|done..].
  add_lengths. read_fields. destruct (from_utf8 x); [|done]. cbn [ok_or]. rewrite !bind_Ok_l. by read_fields.
Qed.

Lemma participation_payload_cases payload :
  (∃ e, participation_request_of_payload payload = Err e) ∨
  ∃ k b version threshold seq x y root policy prev,
    payload = concat (participation_fields k b version threshold seq x y root policy prev) ∧
    (len x < 65536)%N ∧ (len y < 65536)%N ∧ (version <= u32_max)%N ∧ (threshold <= u32_max)%N ∧
    (seq <= u32_max)%N ∧ (byte_val b <= 1)%N ∧
    len root = 32%N ∧ len policy = 32%N ∧ len prev = 32%N.
Proof.
  unfold participation_request_of_payload, RECOVERY_PARTICIPATION_REQUEST_PREFIX_BYTES.
  destruct (N.ltb_spec (len payload) 120) as [|Hl]; [rejected|]. cbn [reject_if]. rewrite bind_Ok_l.
  destruct (split_fields [1; 1; 2; 4; 4; 4; 2; 2; 4; 32; 32; 32]%N payload) as (ps & rest & Hls & ->);
    [cbn; lia|].
  destruct ps as [|p0 [|p1 [|z [|n [|t [|s [|p [|q [|z' [|root [|policy [|prev []]]]]]]]]]]]]; try done.
  byte_field p0 as k. byte_field p1 as b.
  read_fields. rewrite len_app, concat_len, Hls. injection Hls as Hz Hn Ht Hs Hp Hq Hz' Hroot Hpolicy Hprev.
  destruct (bool_decide_reflect (z = [x00; x00])) as [H1|]; [|rejected]. cbn [negb reject_if]. rewrite bind_Ok_l.
  destruct (bool_decide_reflect (z' = [x00; x00; x00; x00])) as [H2|]; [|rejected]. cbn [negb reject_if].
  rewrite bind_Ok_l. destruct (N.ltb_spec 1 (byte_val b)) as [|Hb]; [rejected|]. cbn [reject_if]. rewrite bind_Ok_l.
  pose proof (proj1 (proj2 (proj2 (enumerations_no_panic (byte_val k))))) as Hk.
  destruct (decode_participant_provider (byte_val k)); [|rejected|done]. rewrite !bind_Ok_l.
  apply u16_field_lt in Hp as Hp', Hq as Hq'. add_lengths. case_bool_decide as He; [|rejected]. right.
  destruct (split_exactly [from_be_bytes p; from_be_bytes q] rest) as (ts & Hts & ->); [unfold total in *; cbn in *; lia|].
  destruct ts as [|x [|y []]]; try done. injection Hts as Hx Hy.
  exists k, b, (from_be_bytes n), (from_be_bytes t), (from_be_bytes s), x, y, root, policy, prev.
  rewrite <- concat_app. unfold participation_fields. rewrite Hx, Hy, !to_from_field by done. subst z z'.
  split_and!; [done|done|done|by apply u32_field_le..|done|done|done|done].
Qed.

End facts.

(** * Theorems about the consent protocol *)

Section facts.
Context {crates : Crates} {uuids : Uuids}.

(** ** Requests on the wire *)

(** What the types of a Rust request say of its parts: strings are UTF-8,
    digests are arrays of 32 bytes and numbers are [u32]. *)
Definition request_typed (r : SignRequest) : Prop :=
  (∀ p, sr_persona_id r = Some p → utf8_valid p = true) ∧
  match sr_subject r with
  | Artifact _ label => utf8_valid label = true
  | DomainControl | PersonaRoot => True
  | PersonaTransition seq root prev _ reference =>
      (seq <= u32_max)%N ∧ len root = 32%N ∧ digest_typed prev ∧ utf8_valid reference = true
  | RecoveryParticipation _ reference key root version policy threshold seq prev =>
      (version <= u32_max)%N ∧ (threshold <= u32_max)%N ∧ (seq <= u32_max)%N ∧
      len root = 32%N ∧ len policy = 32%N ∧ digest_typed prev ∧
      utf8_valid reference = true ∧ utf8_valid key = true
  end.

Definition presence_byte (o : option bytes) : byte := match o with Some _ => x01 | None => x00 end.

(** The message type and the payload of a request. *)
Definition request_type (r : SignRequest) : N :=
  match sr_subject r with
  | Artifact _ _ => MESSAGE_SIGN_REQUEST
  | DomainControl => MESSAGE_DOMAIN_SIGN_REQUEST
  | PersonaRoot => MESSAGE_PERSONA_ROOT_SIGN_REQUEST
  | PersonaTransition _ _ _ _ _ => MESSAGE_PERSONA_TRANSITION_SIGN_REQUEST
  | RecoveryParticipation _ _ _ _ _ _ _ _ _ => MESSAGE_RECOVERY_PARTICIPATION_REQUEST
  end.

Definition request_payload (r : SignRequest) : bytes :=
  let x := as_bytes (default "" (sr_persona_id r)) in
  match sr_subject r with
  | Artifact kind label =>
      concat (artifact_fields (byte_of (artifact_kind_value kind)) x (as_bytes label))
  | DomainControl | PersonaRoot => concat (persona_fields x)
  | PersonaTransition seq root prev provider reference =>
      concat (transition_fields (byte_of (transition_provider_value provider)) (presence_byte prev)
        seq x (as_bytes reference) root (digest_or_zeros prev))
  | RecoveryParticipation provider reference key root version policy threshold seq prev =>
      concat (participation_fields (byte_of (participant_provider_value provider))
        (presence_byte prev) version threshold seq (as_bytes reference) (as_bytes key) root policy
        (digest_or_zeros prev))
  end.

Definition wire (r : SignRequest) : bytes :=
  encode_header (request_type r) (len (request_payload r)) ++ request_payload r.

Definition needs_persona (r : SignRequest) : Prop := is_recovery_participation (sr_subject r) = false.

Lemma validated_persona r :
  validate_request r = Ok tt → needs_persona r →
  ∃ p, sr_persona_id r = Some p ∧ (len (as_bytes p) <= 64)%N.
Proof.
  unfold validate_request, validate_persona_id, needs_persona. rewrite seq_Ok. intros [H _] Hn.
  rewrite Hn in H. destruct (sr_persona_id r) as [p|]; [|done]. exists p. split; [done|].
  rewrite seq_Ok, reject_if_Ok, N.ltb_ge in H. destruct H as [H _]. by rewrite as_bytes_len.
Qed.

Lemma validated_no_persona r :
  validate_request r = Ok tt → ¬ needs_persona r → sr_persona_id r = None.
Proof.
  unfold validate_request, validate_persona_id, needs_persona. rewrite seq_Ok.
  intros [H _] Hn. apply not_false_iff_true in Hn. rewrite Hn in H. by destruct (sr_persona_id r).
Qed.

Lemma validated_subject r :
  validate_request r = Ok tt →
  match sr_subject r with
  | Artifact _ label => (len (as_bytes label) <= 256)%N
  | DomainControl | PersonaRoot => True
  | PersonaTransition _ _ _ _ reference => (len (as_bytes reference) <= 4096)%N
  | RecoveryParticipation _ reference key _ _ _ _ _ _ =>
      (len (as_bytes reference) <= 4096)%N ∧ (len (as_bytes key) <= 16384)%N
  end.
Proof.
  unfold validate_request. rewrite seq_Ok. intros [_ H]. unfold validate_subject in H.
  destruct (sr_subject r); rewrite ?as_bytes_len; [|done|done| |]; rewrite !seq_Ok in H.
  - destruct H as (_ & H & _). by rewrite reject_if_Ok, N.ltb_ge in H.
  - destruct H as (_ & _ & H). unfold validate_next_signing_reference in H. rewrite !seq_Ok in H.
    destruct H as (_ & H & _). by rewrite reject_if_Ok, N.ltb_ge in H.
  - destruct H as (H1 & H2 & _). unfold validate_recovery_participant_signing_reference in H1.
    unfold validate_recovery_participant_public_key in H2. rewrite !seq_Ok in H1, H2.
    destruct H1 as (_ & H1 & _). destruct H2 as (_ & H2 & _). rewrite reject_if_Ok, N.ltb_ge in H1, H2. done.
Qed.

(** The bound of a payload of each kind. *)
Definition request_limit (r : SignRequest) : N :=
  match sr_subject r with
  | Artifact _ _ => MAX_ARTIFACT_REQUEST_PAYLOAD_BYTES
  | DomainControl | PersonaRoot => MAX_DOMAIN_REQUEST_PAYLOAD_BYTES
  | PersonaTransition _ _ _ _ _ => MAX_PERSONA_TRANSITION_REQUEST_PAYLOAD_BYTES
  | RecoveryParticipation _ _ _ _ _ _ _ _ _ => MAX_RECOVERY_PARTICIPATION_REQUEST_PAYLOAD_BYTES
  end.

Lemma request_limit_max r : (request_limit r <= MAX_REQUEST_PAYLOAD_BYTES)%N.
Proof. unfold request_limit. by destruct (sr_subject r). Qed.

Lemma request_payload_bound r :
  validate_request r = Ok tt → request_typed r → (len (request_payload r) <= request_limit r)%N.
Proof.
  intros Hv Ht. pose proof (validated_subject r Hv) as Hs. pose proof (validated_persona r Hv) as Hp.
  destruct Ht as [_ Ht]. unfold request_payload, request_limit, needs_persona in *.
  destruct (sr_subject r); cbn [is_recovery_participation] in Hp;
    try (destruct Hp as (p & -> & Hp); [done|]; change (default "" (Some p)) with p).
  - rewrite (concat_total _ _ (artifact_fields_len _ _ _)).
    change MAX_ARTIFACT_REQUEST_PAYLOAD_BYTES with 326%N. cbn [foldr]. lia.
  - rewrite (concat_total _ _ (persona_fields_len _)).
    change MAX_DOMAIN_REQUEST_PAYLOAD_BYTES with 68%N. cbn [foldr]. lia.
  - rewrite (concat_total _ _ (persona_fields_len _)).
    change MAX_DOMAIN_REQUEST_PAYLOAD_BYTES with 68%N. cbn [foldr]. lia.
  - destruct Ht as (_ & Hr & Hd%digest_or_zeros_len & _).
    rewrite (concat_total _ _ (transition_fields_len _ _ _ _ _ _ _ Hr Hd)).
    change MAX_PERSONA_TRANSITION_REQUEST_PAYLOAD_BYTES with 4240%N. cbn [foldr]. lia.
  - destruct Ht as (_ & _ & _ & Hr & Hc & Hd%digest_or_zeros_len & _).
    rewrite (concat_total _ _ (participation_fields_len _ _ _ _ _ _ _ _ _ _ Hr Hc Hd)).
    change MAX_RECOVERY_PARTICIPATION_REQUEST_PAYLOAD_BYTES with 20600%N. cbn [foldr]. lia.
Qed.

(** ** Encoding *)

Lemma extend_wire ty n fs ts :
  n = len (concat (fs ++ ts)) →
  extend (extend (encode_header ty n) fs) ts =
  encode_header ty (len (concat (fs ++ ts))) ++ concat (fs ++ ts).
Proof. intros ->. apply extend_app. Qed.

Lemma encode_artifact_wire p kind label :
  (len (as_bytes p) <= 64)%N → (len (as_bytes label) <= 256)%N →
  let r := {| sr_persona_id := Some p; sr_subject := Artifact kind label |} in
  encode_artifact_sign_request r kind label = Ok (wire r).
Proof.
  intros Hp Hl r. unfold encode_artifact_sign_request, required_persona_id. cbn [sr_persona_id r ok_or]. rewrite bind_Ok_l.
  unfold ARTIFACT_REQUEST_PREFIX_BYTES.
  add_lengths. f_equal.
  replace (6 + len (as_bytes p) + len (as_bytes label))%N with (len (request_payload r)); [done|].
  unfold request_payload. cbn [sr_subject sr_persona_id r]. change (default "" (Some p)) with p.
  rewrite (concat_total _ _ (artifact_fields_len _ _ _)). cbn [foldr]. lia.
Qed.

Lemma encode_persona_wire p subject ty :
  (len (as_bytes p) <= 64)%N →
  encode_single_persona_request {| sr_persona_id := Some p; sr_subject := subject |} ty =
  Ok (encode_header ty (len (concat (persona_fields (as_bytes p)))) ++
      concat (persona_fields (as_bytes p))).
Proof.
  intros Hp. unfold encode_single_persona_request, required_persona_id. cbn [sr_persona_id ok_or].
  rewrite bind_Ok_l. unfold DOMAIN_REQUEST_PREFIX_BYTES.
  add_lengths. rewrite (concat_total _ _ (persona_fields_len _)). cbn [foldr].
  replace (2 + (2 + (len (as_bytes p) + 0)))%N with (4 + len (as_bytes p))%N by lia. done.
Qed.

Lemma encode_transition_wire p seq root prev provider reference :
  let r := {| sr_persona_id := Some p;
              sr_subject := PersonaTransition seq root prev provider reference |} in
  (len (as_bytes p) <= 64)%N → (len (as_bytes reference) <= 4096)%N → len root = 32%N → digest_typed prev →
  encode_persona_transition_sign_request r = Ok (wire r).
Proof.
  intros r Hp Hl Hr Hd%digest_or_zeros_len. unfold encode_persona_transition_sign_request.
  cbn [sr_subject r]. unfold required_persona_id. cbn [sr_persona_id r ok_or]. rewrite bind_Ok_l.
  unfold PERSONA_TRANSITION_REQUEST_PREFIX_BYTES.
  add_lengths. rewrite bool_decide_eq_true_2.
  2: { unfold extend. rewrite len_app, encode_header_len, concat_len. cbn [fmap list_fmap].
       by rewrite Hr, Hd, !to_be_bytes_len. }
  cbn [debug_assert]. rewrite bind_Ok_l. f_equal. apply (extend_wire _ _ [_; _; _; _; _; _; _; _; _] [_; _]).
  etrans; [|exact (eq_sym (concat_total _ _ (transition_fields_len _ _ _ _ _ _ _ Hr Hd)))]. cbn [foldr]. lia.
Qed.

Lemma encode_participation_wire provider reference key root version policy threshold seq prev :
  let r := {| sr_persona_id := None; sr_subject := RecoveryParticipation provider reference key root
                version policy threshold seq prev |} in
  (len (as_bytes reference) <= 4096)%N → (len (as_bytes key) <= 16384)%N →
  len root = 32%N → len policy = 32%N → digest_typed prev →
  encode_recovery_participation_request r = Ok (wire r).
Proof.
  intros r Hl Hk Hr Hc Hd%digest_or_zeros_len. unfold encode_recovery_participation_request.
  cbn [sr_subject r]. unfold RECOVERY_PARTICIPATION_REQUEST_PREFIX_BYTES.
  add_lengths. rewrite bool_decide_eq_true_2.
  2: { unfold extend. rewrite len_app, encode_header_len, concat_len. cbn [fmap list_fmap].
       by rewrite Hr, Hc, Hd, !to_be_bytes_len. }
  cbn [debug_assert]. rewrite bind_Ok_l. f_equal.
  apply (extend_wire _ _ [_; _; _; _; _; _; _; _; _; _; _; _] [_; _]).
  etrans; [|exact (eq_sym (concat_total _ _ (participation_fields_len _ _ _ _ _ _ _ _ _ _ Hr Hc Hd)))]. cbn [foldr]. lia.
Qed.

(** A valid request is encoded as its message. *)
Lemma encode_wire r :
  validate_request r = Ok tt → request_typed r → encode_sign_request r = Ok (wire r).
Proof.
  intros Hv [_ Ht]. pose proof (validated_persona r Hv) as Hp. pose proof (validated_subject r Hv) as Hs.
  pose proof (validated_no_persona r Hv) as Hn.
  unfold encode_sign_request. rewrite Hv, bind_Ok_l. clear Hv. unfold needs_persona in *.
  destruct r as [o []]; cbn [sr_subject sr_persona_id is_recovery_participation] in *;
    try (destruct Hp as (p & -> & Hp); [done|]).
  - by apply encode_artifact_wire.
  - by apply encode_persona_wire.
  - by apply encode_persona_wire.
  - destruct Ht as (_ & Hr & Hd & _). by apply encode_transition_wire.
  - destruct Ht as (_ & _ & _ & Hr & Hc & Hd & _), Hs. rewrite Hn by done.
    by apply encode_participation_wire.
Qed.

(** ** Decoding *)

Lemma make_Ok o subject r :
  SignRequest_make o subject = Ok r ↔
  r = {| sr_persona_id := o; sr_subject := subject |} ∧ validate_request r = Ok tt.
Proof.
  unfold SignRequest_make. rewrite seq_Ok. split; [intros [H [= <-]]|intros [-> H]]; done.
Qed.

(** A request that decodes, as its parts. *)
Definition decodes (r : SignRequest) (m : bytes) : Prop :=
  request_typed r ∧ validate_request r = Ok tt ∧ m = wire r.

Lemma decode_artifact_wire m r :
  decode_artifact_sign_request m = Ok r → decodes r m.
Proof.
  unfold decode_artifact_sign_request. intros H. unbind H as payload Hh.
  apply decode_header_Ok in Hh as [-> _]; [|done..].
  destruct (artifact_payload_cases payload) as [[e He]|(k & x & y & -> & Hx & Hy)]; [congruence|].
  rewrite artifact_payload_eval in H by done. unbind H as kind Hk. unbind H as p Hp. unbind H as l Hl.
  rewrite ok_or_utf8 in Hp, Hl. destruct Hp as [-> Hp], Hl as [-> Hl].
  apply decode_artifact_kind_Ok in Hk. apply make_Ok in H as [-> Hv].
  split_and!; [|done|]. { split; [|done]. by intros ? [= <-]. }
  unfold wire, request_payload. cbn [sr_subject sr_persona_id]. by rewrite <- Hk, byte_of_val.
Qed.

Lemma decode_persona_wire m ty p :
  (ty < 65536)%N → decode_single_persona_request m ty = Ok p →
  utf8_valid p = true ∧
  m = encode_header ty (len (concat (persona_fields (as_bytes p)))) ++
      concat (persona_fields (as_bytes p)).
Proof.
  intros Hty. unfold decode_single_persona_request. intros H. unbind H as payload Hh.
  apply decode_header_Ok in Hh as [-> _]; [|done..].
  destruct (persona_payload_cases payload) as [[e He]|(x & -> & Hx)]; [congruence|].
  rewrite persona_payload_eval, ok_or_utf8 in H by done. by destruct H as [-> H].
Qed.

Lemma decode_transition_wire m r :
  decode_persona_transition_sign_request m = Ok r → decodes r m.
Proof.
  unfold decode_persona_transition_sign_request. intros H. unbind H as payload Hh.
  apply decode_header_Ok in Hh as [-> _]; [|done..].
  destruct (transition_payload_cases payload)
    as [[e He]|(k & b & seq & x & y & root & prev & -> & Hx & Hy & Hs & Hb & Hr & Hv)]; [congruence|].
  rewrite transition_payload_eval in H by done. unbind H as provider Hk. unbind H as o Ho.
  unbind H as p Hp. unbind H as l Hl.
  rewrite ok_or_utf8 in Hp, Hl. destruct Hp as [-> Hp], Hl as [-> Hl].
  apply decode_transition_provider_Ok in Hk. apply make_Ok in H as [-> Hval].
  apply read_optional_digest_Ok in Ho as (Hpres & Hz & Hd); [|done].
  split_and!; [|done|]. { split; [by intros ? [= <-]|done]. }
  unfold wire, request_payload. cbn [sr_subject sr_persona_id]. rewrite <- Hk, byte_of_val, Hz.
  assert (presence_byte o = b) as -> by (by injection Hpres). done.
Qed.

Lemma decode_participation_wire m r :
  decode_recovery_participation_request m = Ok r → decodes r m.
Proof.
  unfold decode_recovery_participation_request. intros H. unbind H as payload Hh.
  apply decode_header_Ok in Hh as [-> _]; [|done..].
  destruct (participation_payload_cases payload)
    as [[e He]|(k & b & version & threshold & seq & x & y & root & policy & prev & -> & Hx & Hy &
         Hn & Ht & Hs & Hb & Hr & Hc & Hv)]; [congruence|].
  rewrite participation_payload_eval in H by done. unbind H as provider Hk. unbind H as o Ho.
  unbind H as p Hp. unbind H as l Hl.
  rewrite ok_or_utf8 in Hp, Hl. destruct Hp as [-> Hp], Hl as [-> Hl].
  apply decode_participant_provider_Ok in Hk. apply make_Ok in H as [-> Hval].
  apply read_optional_digest_Ok in Ho as (Hpres & Hz & Hd); [|done].
  split_and!; [|done|]. { split; [done|]. cbn [sr_subject]. by split_and!. }
  unfold wire, request_payload. cbn [sr_subject sr_persona_id]. rewrite <- Hk, byte_of_val, Hz.
  assert (presence_byte o = b) as -> by (by injection Hpres). done.
Qed.

(** Whatever decodes is the message of its request. *)
Lemma decode_wire m r : decode_sign_request m = Ok r → decodes r m.
Proof.
  unfold decode_sign_request. intros H. unbind H as ty Hty.
  repeat case_bool_decide; [by apply decode_artifact_wire| | |by apply decode_transition_wire
    |by apply decode_participation_wire|done].
  all: unfold decode_domain_sign_request, decode_persona_root_sign_request, new_domain, new_persona_root in H;
    unbind H as p Hp; apply make_Ok in H as [-> Hv]; apply decode_persona_wire in Hp as [Hu ->]; [|done];
    split_and!; [|done|done]; split; [by intros ? [= <-]|done].
Qed.

(** And every message of a valid request decodes to it. *)
Lemma wire_decodes r :
  request_typed r → validate_request r = Ok tt → decode_sign_request (wire r) = Ok r.
Proof.
  intros Ht Hv. pose proof (request_payload_bound r Hv Ht) as Hb. pose proof (validated_subject r Hv) as Hs.
  pose proof (validated_persona r Hv) as Hp. pose proof (validated_no_persona r Hv) as Hno.
  destruct Ht as [Hu Ht]. unfold decode_sign_request.
  assert (decode_common_header (wire r) = Ok (request_type r)) as ->.
  { unfold wire. rewrite decode_common_header_frame, encode_header_frame.
    apply (frame_type_header ipc_framing eq_refl eq_refl eq_refl).
    unfold request_type. by destruct (sr_subject r). }
  rewrite bind_Ok_l.
  assert (∀ limit, request_limit r = limit → (limit < 2 ^ 32)%N →
    decode_header (wire r) (request_type r) limit = Ok (request_payload r)) as Hh.
  { intros limit <- Hl. apply decode_header_Ok; [unfold request_type; by destruct (sr_subject r)|done|done]. }
  unfold needs_persona in *. unfold request_limit in Hh. unfold request_type, request_payload in *.
  destruct r as [o [kind label| | |seq root prev provider reference|provider reference key root version policy threshold seq prev]];
    cbn [sr_subject sr_persona_id is_recovery_participation] in *;
    [destruct Hp as (p & -> & Hp); [done|]..|rewrite Hno in * by done];
    try (specialize (Hu p eq_refl); change (default "" (Some p)) with p in *).
  all: repeat match goal with
    | |- context [bool_decide (?a = ?b)] =>
        let v := eval vm_compute in (bool_decide (a = b)) in change (bool_decide (a = b)) with v; cbv iota
    end.
  - unfold decode_artifact_sign_request.
    rewrite Hh, bind_Ok_l, artifact_payload_eval by (done || lia).
    assert (decode_artifact_kind (byte_val (byte_of (artifact_kind_value kind))) = Ok kind) as ->
      by (by destruct kind).
    rewrite !from_utf8_as_bytes by done. by apply make_Ok.
  - unfold decode_domain_sign_request, decode_single_persona_request.
    rewrite Hh, bind_Ok_l, persona_payload_eval by (done || lia).
    rewrite !from_utf8_as_bytes by done. by apply make_Ok.
  - unfold decode_persona_root_sign_request, decode_single_persona_request.
    rewrite Hh, bind_Ok_l, persona_payload_eval by (done || lia).
    rewrite !from_utf8_as_bytes by done. by apply make_Ok.
  - unfold decode_persona_transition_sign_request. destruct Ht as (H1 & H2 & H3 & H4).
    rewrite Hh, bind_Ok_l, transition_payload_eval by
      first [done | lia | by destruct prev | by apply digest_or_zeros_len].
    assert (decode_transition_provider (byte_val (byte_of (transition_provider_value provider))) = Ok provider) as ->
      by (by destruct provider).
    rewrite (proj2 (read_optional_digest_Ok _ _ prev _ (digest_or_zeros_len prev H3))) by done.
    rewrite !bind_Ok_l, !from_utf8_as_bytes by done. by apply make_Ok.
  - unfold decode_recovery_participation_request. destruct Ht as (H1 & H2 & H3 & H4 & H5 & H6 & H7 & H8), Hs.
    rewrite Hh, bind_Ok_l, participation_payload_eval by
      first [done | lia | by destruct prev | by apply digest_or_zeros_len].
    assert (decode_participant_provider (byte_val (byte_of (participant_provider_value provider))) = Ok provider) as ->
      by (by destruct provider).
    rewrite (proj2 (read_optional_digest_Ok _ _ prev _ (digest_or_zeros_len prev H6))) by done.
    rewrite !bind_Ok_l, !from_utf8_as_bytes by done. by apply make_Ok.
Qed.

(** C36: messages and requests correspond one to one: a message decodes to a
    request exactly when it is the encoding of that request, so a request has
    one encoding and a message one reading. *)
Theorem wire_format_bijective m r :
  decode_sign_request m = Ok r ↔ request_typed r ∧ encode_sign_request r = Ok m.
Proof.
  split.
  - intros (Ht & Hv & ->)%decode_wire. split; [done|]. by apply encode_wire.
  - intros [Ht He]. assert (validate_request r = Ok tt) as Hv.
    { unfold encode_sign_request in He. rewrite seq_Ok in He. tauto. }
    rewrite encode_wire in He by done. injection He as <-. by apply wire_decodes.
Qed.

(** ** Responses *)

Lemma rejection_payload_eval p q :
  len p = 2%N → len q = 2%N →
  (reserved ← slice (p ++ q) 2 (len (p ++ q));
   reject_if (reserved != [x00; x00]) InvalidLayout;;
   value ← read_u16 (p ++ q) 0;
   code ← decode_rejection_code value;
   Ok (Rejected code)) =
  (reject_if (q != [x00; x00]) InvalidLayout;;
   code ← decode_rejection_code (from_be_bytes p);
   Ok (Rejected code)).
Proof.
  intros Hp Hq. rewrite slice_tail; [|by rewrite Hp|by rewrite len_app, Hp].
  rewrite bind_Ok_l, (read_u16_slice _ 0 p); [done| |done].
  apply (slice_mid [] p q); [done|]. by rewrite Hp.
Qed.

(** The same holds of the responses. *)
Theorem response_format_bijective m response :
  decode_sign_response m = Ok response ↔ m = encode_sign_response response.
Proof.
  unfold decode_sign_response. split.
  - intros H. unbind H as ty Hty. case_bool_decide; [|case_bool_decide; [|done]].
    + unbind H as payload Hh. apply decode_header_Ok in Hh as [-> Hl]; [|done..].
      assert (payload = []) as -> by (apply len_nil; lia). by injection H as <-.
    + unbind H as payload Hh. apply decode_header_Ok in Hh as [-> _]; [|done..].
      rewrite seq_Ok, reject_if_Ok, negb_false_iff, bool_decide_eq_true in H. destruct H as [Hl H].
      change RESPONSE_PREFIX_BYTES with 4%N in Hl.
      destruct (split_exactly [2; 2]%N payload) as (ps & Hps & ->); [done|].
      destruct ps as [|p [|q []]]; try done. injection Hps as Hp Hq.
      cbn [concat] in *. rewrite !app_nil_r in *. rewrite rejection_payload_eval in H by done.
      rewrite seq_Ok, reject_if_Ok, negb_false_iff, bool_decide_eq_true in H. destruct H as [-> H].
      unbind H as code Hc. injection H as <-. apply decode_rejection_code_Ok in Hc.
      unfold encode_sign_response, extend. cbn [concat]. rewrite Hl, <- Hc, to_from_field by done. done.
  - intros ->. destruct response as [|code]; [done|]. by destruct code.
Qed.

(** ** No panics *)

Lemma common_header_no_panic m : no_panic (decode_common_header m).
Proof. rewrite decode_common_header_frame. by apply (frame_type_no_panic ipc_framing). Qed.

Lemma header_no_panic m ty limit : no_panic (decode_header m ty limit).
Proof. rewrite decode_header_frame. by apply (frame_payload_no_panic ipc_framing). Qed.

Lemma get_range_length bs a b p : get_range bs a b = Some p → len p = (b - a)%N.
Proof.
  unfold get_range. case_match eqn:E; [|done]. intros [= <-].
  rewrite andb_true_iff, !N.leb_le in E. unfold len in *. rewrite length_take, length_drop. lia.
Qed.

Lemma public_key_no_panic v : no_panic (validate_recovery_participant_public_key v).
Proof.
  unfold validate_recovery_participant_public_key. no_panics; auto with panics.
  all: match goal with H : ok_or (get_range ?x 0 4) _ = Ok ?p |- _ =>
    rewrite ok_or_Ok in H; apply get_range_length in H; unfold len in H;
    destruct p as [|? [|? [|? [|? [|]]]]]; cbn in H; try lia; done end.
Qed.

Lemma validate_request_no_panic r : no_panic (validate_request r).
Proof.
  pose proof public_key_no_panic. unfold validate_request, validate_persona_id, validate_subject,
    validate_next_signing_reference, validate_recovery_participant_signing_reference.
  no_panics; auto.
Qed.

Lemma make_no_panic o subject : no_panic (SignRequest_make o subject).
Proof. pose proof validate_request_no_panic. unfold SignRequest_make. no_panics; auto. Qed.

Lemma payloads_no_panic payload :
  no_panic (artifact_request_of_payload payload) ∧ no_panic (persona_of_payload payload) ∧
  no_panic (transition_request_of_payload payload) ∧ no_panic (participation_request_of_payload payload).
Proof.
  pose proof make_no_panic as Hm. pose proof enumerations_no_panic as He. split_and!.
  - destruct (artifact_payload_cases payload) as [[e ->]|(k & x & y & -> & Hx & Hy)]; [done|].
    rewrite artifact_payload_eval by done. unfold SignRequest_new. no_panics; first [apply He|apply Hm].
  - destruct (persona_payload_cases payload) as [[e ->]|(x & -> & Hx)]; [done|].
    rewrite persona_payload_eval by done. no_panics.
  - destruct (transition_payload_cases payload)
      as [[e ->]|(k & b & seq & x & y & root & prev & -> & Hx & Hy & Hs & Hb & Hr & Hv)]; [done|].
    rewrite transition_payload_eval by done. unfold new_persona_transition.
    no_panics; first [apply He|by apply read_optional_digest_no_panic|apply Hm].
  - destruct (participation_payload_cases payload)
      as [[e ->]|(k & b & version & threshold & seq & x & y & root & policy & prev & -> & Hx & Hy &
           Hn & Ht & Hs & Hb & Hr & Hc & Hv)]; [done|].
    rewrite participation_payload_eval by done. unfold new_recovery_participation.
    no_panics; first [apply He|by apply read_optional_digest_no_panic|apply Hm].
Qed.

#[local] Hint Resolve common_header_no_panic header_no_panic make_no_panic : panics.
#[local] Hint Extern 1 (no_panic (artifact_request_of_payload _)) => apply payloads_no_panic : panics.
#[local] Hint Extern 1 (no_panic (persona_of_payload _)) => apply payloads_no_panic : panics.
#[local] Hint Extern 1 (no_panic (transition_request_of_payload _)) => apply payloads_no_panic : panics.
#[local] Hint Extern 1 (no_panic (participation_request_of_payload _)) => apply payloads_no_panic : panics.

Lemma decode_artifact_no_panic m : no_panic (decode_artifact_sign_request m).
Proof. unfold decode_artifact_sign_request. no_panics. Qed.
Lemma decode_single_no_panic m ty : no_panic (decode_single_persona_request m ty).
Proof. unfold decode_single_persona_request. no_panics. Qed.
#[local] Hint Resolve decode_single_no_panic : panics.
Lemma decode_domain_no_panic m : no_panic (decode_domain_sign_request m).
Proof. unfold decode_domain_sign_request, new_domain. no_panics. Qed.
Lemma decode_root_no_panic m : no_panic (decode_persona_root_sign_request m).
Proof. unfold decode_persona_root_sign_request, new_persona_root. no_panics. Qed.
Lemma decode_transition_no_panic m : no_panic (decode_persona_transition_sign_request m).
Proof. unfold decode_persona_transition_sign_request. no_panics. Qed.
Lemma decode_participation_no_panic m : no_panic (decode_recovery_participation_request m).
Proof. unfold decode_recovery_participation_request. no_panics. Qed.

Lemma decode_sign_request_no_panic m : no_panic (decode_sign_request m).
Proof.
  unfold decode_sign_request. apply no_panic_bind; [apply common_header_no_panic|]. intros ty _.
  repeat case_bool_decide; auto using decode_artifact_no_panic, decode_domain_no_panic,
    decode_root_no_panic, decode_transition_no_panic, decode_participation_no_panic. done.
Qed.

Lemma decode_sign_response_no_panic m : no_panic (decode_sign_response m).
Proof.
  unfold decode_sign_response. apply no_panic_bind; [apply common_header_no_panic|]. intros ty Hty.
  case_bool_decide; [|case_bool_decide; [|done]].
  - apply no_panic_bind; [apply header_no_panic|]. intros payload [_ Hl]%decode_header_Ok; [|done..].
    assert (payload = []) as -> by (apply len_nil; lia). done.
  - apply no_panic_bind; [apply header_no_panic|]. intros payload _.
    apply no_panic_bind; [no_panics|]. intros [] Hl.
    rewrite reject_if_Ok, negb_false_iff, bool_decide_eq_true in Hl. change RESPONSE_PREFIX_BYTES with 4%N in Hl.
    destruct payload as [|a [|b [|c [|d [|]]]]]; unfold len in Hl; cbn in Hl; try lia.
    change [a; b; c; d] with ([a; b] ++ [c; d]). rewrite rejection_payload_eval by done.
    no_panics. apply enumerations_no_panic.
Qed.

(** C37: decoding a message never panics, whatever its bytes, and neither does
    encoding a request; every encoded message fits the packet size that the
    transport reads. *)
Theorem protocol_never_panics m r response :
  no_panic (decode_sign_request m) ∧ no_panic (decode_sign_response m) ∧
  (request_typed r → no_panic (encode_sign_request r) ∧
     (encode_sign_request r = Ok m → (len m <= MAX_REQUEST_PACKET_BYTES)%N)) ∧
  (len (encode_sign_response response) <= MAX_RESPONSE_PACKET_BYTES)%N.
Proof.
  split_and!; [apply decode_sign_request_no_panic|apply decode_sign_response_no_panic| |].
  - intros Ht. assert (validate_request r = Ok tt ∨ ∃ e, encode_sign_request r = Err e) as [Hv|[e ->]]; [| |done].
    { unfold encode_sign_request. pose proof (validate_request_no_panic r) as Hp.
      destruct (validate_request r) as [[]|e|]; [by left| |done]. right. by exists e. }
    rewrite encode_wire by done. split; [done|]. intros [= <-]. unfold wire.
    rewrite len_app, encode_header_len. pose proof (request_payload_bound r Hv Ht).
    pose proof (request_limit_max r). unfold MAX_REQUEST_PACKET_BYTES, HEADER_BYTES. lia.
  - by destruct response as [|[]].
Qed.

End facts.
