(* ===== verification/Io.v ===== *)
(** * Input and output

    [std::io] and the open files of Linux as the crates use them. An error is
    its kind and its text. A stream is the list of what its successive reads
    find, a writer the bytes it was given, an open file the answers the kernel
    gives about it. *)

From stdpp Require Import base numbers list strings option.
From Stdlib Require Import Strings.Byte.
From S2P Require Import Prelude Text Crates.

(** ** Errors, streams and writers *)

(** [std::io::Error]: the kinds the code distinguishes, and the text. *)
Inductive ErrorKind := UnexpectedEof | Interrupted | WouldBlock | NotFound | OtherErrorKind.
Record IoError := { io_kind : ErrorKind; io_message : string }.

#[export] Instance ErrorKind_eq_dec : EqDecision ErrorKind.
Proof. solve_decision. Defined.

(** What the successive reads of an [impl Read] find: bytes that are there
    (none at the end of the file) or an error. After the last of them the
    stream is at its end. *)
Inductive ReadEvent := Data (bs : bytes) | ReadFails (error : IoError).
Abbreviation Stream := (list ReadEvent).

(** [Read::read_exact]: interrupted reads are retried. *)
Fixpoint read_exact (n : N) (input : Stream) {struct input} : (IoError + bytes) * Stream :=
  if (n =? 0)%N then (inr [], input)
  else
    let eof := {| io_kind := UnexpectedEof; io_message := "failed to fill whole buffer" |} in
    match input with
    | [] => (inl eof, [])
    | Data [] :: input' => (inl eof, input')
    | Data bs :: input' =>
        if (n <? len bs)%N then (inr (take (N.to_nat n) bs), Data (drop (N.to_nat n) bs) :: input')
        else
          match read_exact (n - len bs) input' with
          | (inr more, rest) => (inr (bs ++ more), rest)
          | (inl e, rest) => (inl e, rest)
          end
    | ReadFails e :: input' =>
        if io_kind e == Interrupted then read_exact n input' else (inl e, input')
    end.

(** [Read::read] into a buffer of one byte: the bytes that were read. *)
Definition read_byte (input : Stream) : IoError + bytes :=
  match input with
  | [] => inr []
  | Data bs :: _ => inr (take 1 bs)
  | ReadFails e :: _ => inl e
  end.

(** An [impl Write]: the bytes written so far, the error of the next
    [write_all] with the number of bytes written before it, and the error of
    the next [flush]. *)
Record Writer := {
  wr_written : bytes;
  wr_write_fault : option (IoError * nat);
  wr_flush_fault : option IoError;
}.

Definition write_all (output : Writer) (bs : bytes) : option IoError * Writer :=
  match wr_write_fault output with
  | None => (None, {| wr_written := wr_written output ++ bs; wr_write_fault := None;
                      wr_flush_fault := wr_flush_fault output |})
  | Some (e, n) => (Some e, {| wr_written := wr_written output ++ take n bs;
                      wr_write_fault := None; wr_flush_fault := wr_flush_fault output |})
  end.

(** ** Loops *)

(** [loop { ... }]: at most [n] rounds of [step], which either goes on with a
    new state or ends. [inl] means that the rounds did not suffice. *)
Fixpoint loop_pos {S R : Type} (step : S → S + R) (p : positive) (s : S) : S + R :=
  match p with
  | xH => step s
  | xO p' => match loop_pos step p' s with inl s' => loop_pos step p' s' | inr r => inr r end
  | xI p' =>
      match step s with
      | inl s1 =>
          match loop_pos step p' s1 with inl s2 => loop_pos step p' s2 | inr r => inr r end
      | inr r => inr r
      end
  end.

Definition loop_n {S R : Type} (step : S → S + R) (n : N) (s : S) : S + R :=
  match n with N0 => inl s | Npos p => loop_pos step p s end.

Section loops.
Context {S R : Type} (step : S → S + R).

(** The same rounds, counted down. *)
Fixpoint loop_nat (n : nat) (s : S) : S + R :=
  match n with
  | O => inl s
  | Datatypes.S n' => match step s with inl s' => loop_nat n' s' | inr r => inr r end
  end.

Lemma loop_nat_add n m s :
  loop_nat (n + m) s = match loop_nat n s with inl s' => loop_nat m s' | inr r => inr r end.
Proof. revert s. induction n as [|n IH]; intros s; cbn; [done|]. by destruct (step s). Qed.

Lemma loop_pos_nat p s : loop_pos step p s = loop_nat (Pos.to_nat p) s.
Proof.
  revert s. induction p as [p IH|p IH|]; intros s.
  - rewrite Pos2Nat.inj_xI. replace (Datatypes.S (2 * Pos.to_nat p))
      with (Datatypes.S (Pos.to_nat p + Pos.to_nat p)) by lia.
    cbn [loop_pos loop_nat]. destruct (step s) as [s'|]; [|done]. rewrite loop_nat_add, IH.
    destruct (loop_nat _ s'); [apply IH|done].
  - rewrite Pos2Nat.inj_xO. replace (2 * Pos.to_nat p) with (Pos.to_nat p + Pos.to_nat p) by lia.
    cbn [loop_pos]. rewrite loop_nat_add, IH. destruct (loop_nat _ s); [apply IH|done].
  - change (Pos.to_nat 1) with 1. cbn [loop_pos loop_nat]. by destruct (step s).
Qed.

Lemma loop_n_nat n s : loop_n step n s = loop_nat (N.to_nat n) s.
Proof. destruct n; [done|]. apply loop_pos_nat. Qed.

(** A measure that decreases in every round bounds the rounds. *)
Lemma loop_ends (I : S → Prop) (μ : S → N) n s :
  (∀ s s', I s → step s = inl s' → I s' ∧ (μ s' < μ s)%N) →
  I s → (μ s < n)%N → ∃ r, loop_n step n s = inr r.
Proof.
  intros Hstep. rewrite loop_n_nat. intros HI Hn.
  assert (N.to_nat (μ s) < N.to_nat n)%nat as Hlt by lia. clear Hn. revert s HI Hlt.
  induction (N.to_nat n) as [|m IH]; intros s HI Hlt; [lia|]. cbn.
  destruct (step s) as [s'|r] eqn:E; [|by exists r].
  destruct (Hstep _ _ HI E). apply IH; [done|lia].
Qed.

(** What holds initially and is kept holds when the last round starts. *)
Lemma loop_invariant (I : S → Prop) n s r :
  (∀ s s', I s → step s = inl s' → I s') →
  I s → loop_n step n s = inr r → ∃ s', I s' ∧ step s' = inr r.
Proof.
  intros Hstep. rewrite loop_n_nat. revert s.
  induction (N.to_nat n) as [|m IH]; intros s HI; cbn; [done|].
  destruct (step s) as [s'|r'] eqn:E; [intros H; apply (IH s'); eauto|].
  intros [= <-]. eauto.
Qed.
End loops.

(** ** Open files *)

(** [rustix::io::Errno] *)
Abbreviation Errno := N (only parsing).
Definition Errno_AGAIN : Errno := 11.

(** An open file: what [File::metadata] answers the [i]-th time it is asked,
    what the [i]-th [read_at] answers to an offset and the length of the
    buffer, [fcntl_get_seals], [seek] to the start, and a bound on the signals
    that interrupt a read. *)
Record File := {
  fl_metadata : nat → IoError + Metadata;
  fl_read_at : nat → N → N → IoError + bytes;
  fl_seals : Errno + N;
  fl_seek : option IoError;
  fl_signals : nat;
}.

(** What the kernel says of a regular file whose bytes do not change. *)
Record holds (f : File) (data : bytes) : Prop := {
  holds_metadata i : ∃ md, fl_metadata f i = inr md ∧ md_is_file md = true ∧ md_len md = len data;
  holds_read i off n : (0 < n)%N →
    match fl_read_at f i off n with
    | inr chunk => ∃ rest, drop (N.to_nat off) data = chunk ++ rest ∧ (len chunk <= n)%N ∧
        (chunk = [] → rest = [])
    | inl e => io_kind e = Interrupted
    end;
  holds_signals : ∃ signals, length signals <= fl_signals f ∧
    ∀ i off n e, fl_read_at f i off n = inl e → i ∈ signals;
}.

(** A fresh anonymous file: [memfd_create], the [i]-th [write_all], [flush],
    [fcntl_add_seals], and the file after some bytes were written to it. *)
Record Memfd := {
  mf_create : option Errno;
  mf_write_all : nat → option IoError;
  mf_flush : option IoError;
  mf_add_seals : option Errno;
  mf_file : bytes → File;
}.

(** A file in memory holds what was written to it. *)
Definition memfd_ok (m : Memfd) : Prop := ∀ data, holds (mf_file m data) data.
