(* ===== verification/Transport.v ===== *)
(** * The consent transport ([crates/a-quo-ipc/src/linux.rs])

    Packets over a Unix socket with one descriptor each way: the request comes
    with the input to sign, the approval goes back with the proof in a sealed
    anonymous file. The kernel's answers are arguments: a [Socket], a [File]
    for a descriptor, a [Memfd] for a fresh anonymous file. *)

From stdpp Require Import base numbers list strings pretty option.
From Stdlib Require Import Strings.Byte Ascii.
From S2P Require Import Prelude Text Ordered Display Crates Io ArtifactProof Continuity RecoveryPolicy RecoveryChain Ceremony.
From S2P Require Import Names Fields IpcProtocol.

(** ** Constants *)

Definition MAX_ARTIFACT_BYTES : N := (512 * 1024 * 1024)%N.
Definition MAX_DOMAIN_STATEMENT_BYTES : N := (4 * 1024)%N.
Definition MAX_PERSONA_ROOT_STATEMENT_BYTES : N := MAX_CONTINUITY_PAYLOAD_BYTES.
Definition MAX_PERSONA_TRANSITION_PUBLIC_KEY_BYTES : N := (16 * 1024)%N.
Definition MAX_RECOVERY_PARTICIPATION_REQUEST_BYTES : N := MAX_RECOVERY_CEREMONY_REQUEST_BYTES.

(** [SealFlags::SEAL], [SHRINK], [GROW] and [WRITE] *)
Definition SNAPSHOT_SEALS : N := N.lor (N.lor (N.lor 1 2) 4) 8.

(** [SealFlags::contains] *)
Definition seals_contain (seals required : N) : bool := N.land seals required == required.

(** ** Data *)

Inductive LinuxIpcError :=
| Protocol (error : ProtocolError)
| SocketError (errno : Errno)
| TruncatedPacket
| TruncatedDescriptors
| WrongDescriptorCount (count : N)
| UnsupportedAncillaryData
| PartialPacket
| ForeignPeer (actual expected : N)
| ArtifactNotRegular
| InvalidTransitionPublicKeyDescriptor
| TransitionPublicKeyTooLarge
| InvalidRecoveryParticipationRequestDescriptor
| RecoveryParticipationRequestTooLarge
| UnsealedRecoveryParticipationRequest
| ArtifactTooLarge (maximum : N)
| InvalidSnapshotLimit (maximum : N)
| FileIo (error : IoError)
| Sealing (errno : Errno)
| IncompleteSeals
| ProofTooLarge
| InvalidProofDescriptor
| UnsealedProof
| UnsafeSocketPath (path reason : string)
| SocketPathIo (path error : string).

Abbreviation LinuxResult := (result LinuxIpcError).

Record PeerCredentials := { pc_pid : Z; pc_uid : N; pc_gid : N }.
Inductive ConnectionState := Waiting | Closed | ExtraData.
Record ReceivedSignRequest := {
  rq_request : SignRequest;
  rq_input : File;
  rq_peer : PeerCredentials;
}.
Record SealedArtifact := { sa_file : File; sa_descriptor : ArtifactDescriptor }.
Record SealedProof := { sp_file : File; sp_size : N }.
Record ReceivedSignResponse := {
  rp_response : SignResponse;
  rp_proof : option SealedProof;
  rp_peer : PeerCredentials;
}.

(** [RecvAncillaryMessage] *)
Inductive RecvAncillaryMessage :=
| ScmRights (rights : list File)
| OtherAncillaryMessage.

(** [rustix::net::RecvMsg] with what the kernel put into the buffer and the
    ancillary messages: the length of the packet (its true length even when it
    did not fit) and the two truncation flags. *)
Record RecvMsg := {
  rm_bytes : N;
  rm_trunc : bool;
  rm_ctrunc : bool;
  rm_packet : bytes;
  rm_ancillary : list RecvAncillaryMessage;
}.

(** A connected socket: [SO_PEERCRED], the process's own user, [recv] of one
    byte with [DONTWAIT | PEEK], [recvmsg] into a buffer of some length,
    [SendAncillaryBuffer::push], [sendmsg] of a packet with descriptors, and
    [set_socket_timeout] in the two directions. *)
Inductive Timeout := Recv | Send.
Record Socket := {
  so_peercred : Errno + PeerCredentials;
  so_getuid : N;
  so_peek : Errno + N;
  so_recvmsg : N → Errno + RecvMsg;
  so_push : bool;
  so_sendmsg : bytes → list File → Errno + N;
  so_set_timeout : Timeout → option Errno;
}.

(** A failing system call. *)
Definition os_check {E F} (wrap : E → F) (failure : option E) : result F unit :=
  match failure with Some e => Err (wrap e) | None => Ok tt end.

(** The buffer [[0_u8; n]] after [packet] was copied into it. *)
Definition fill_buffer (n : N) (packet : bytes) : bytes :=
  take (N.to_nat n) (packet ++ repeat x00 (N.to_nat n - length packet)).

(** ** Sealed files *)

Definition apply_and_verify_seals (memfd : Memfd) (file : File) : LinuxResult unit :=
  os_check Sealing (mf_add_seals memfd);;
  applied ← map_err Sealing (of_sum (fl_seals file));
  reject_if (negb (seals_contain applied SNAPSHOT_SEALS)) IncompleteSeals.

Definition validate_proof_file (file : File) : LinuxResult N :=
  md ← map_err FileIo (of_sum (fl_metadata file 0));
  reject_if (negb (md_is_file md) || (md_len md =? 0)%N) InvalidProofDescriptor;;
  reject_if (MAX_PROOF_BYTES <? md_len md)%N ProofTooLarge;;
  seals ← map_err (λ _, UnsealedProof) (of_sum (fl_seals file));
  reject_if (negb (seals_contain seals SNAPSHOT_SEALS)) UnsealedProof;;
  Ok (md_len md).

Definition proof_from_descriptor (descriptor : File) : LinuxResult SealedProof :=
  size ← validate_proof_file descriptor;
  os_check FileIo (fl_seek descriptor);;
  Ok {| sp_file := descriptor; sp_size := size |}.

(** One round of the loop that fills a buffer of [length] bytes: the number of
    reads made and the bytes read so far. *)
Definition read_round (file : File) (length : N) (ended : string) (st : nat * bytes) :
    (nat * bytes) + LinuxResult bytes :=
  let '(i, read) := st in
  if (len read <? length)%N then
    match fl_read_at file i (len read) (length - len read) with
    | inr [] => inr (Err (FileIo {| io_kind := UnexpectedEof; io_message := ended |}))
    | inr chunk => inl (S i, read ++ chunk)
    | inl error =>
        if io_kind error == Interrupted then inl (S i, read) else inr (Err (FileIo error))
    end
  else inr (Ok read).

(** Every round reads a byte or is interrupted, and one more ends the loop. *)
Definition read_whole (file : File) (length : N) (ended : string) : LinuxResult bytes :=
  match loop_n (read_round file length ended) (length + N.of_nat (fl_signals file) + 1)
          (0%nat, []) with
  | inr r => r
  | inl _ => Panic "the reads did not end"
  end.

Definition read_bytes_bounded (artifact : SealedArtifact) (maximum : N) : LinuxResult bytes :=
  reject_if ((maximum =? 0)%N || (maximum <? ad_size (sa_descriptor artifact))%N)
    (ArtifactTooLarge maximum);;
  length ← ok_or (if (ad_size (sa_descriptor artifact) <=? usize_max)%N
                  then Some (ad_size (sa_descriptor artifact)) else None)
    (ArtifactTooLarge maximum);
  read_whole (sa_file artifact) length "sealed request input ended before its validated size".

Definition read_bytes (proof : SealedProof) : LinuxResult bytes :=
  length ← ok_or (if (sp_size proof <=? usize_max)%N then Some (sp_size proof) else None)
    ProofTooLarge;
  read_whole (sp_file proof) length "sealed proof ended before its validated size".

Definition seal_proof_bytes (memfd : Memfd) (bs : bytes) : LinuxResult SealedProof :=
  reject_if (len bs =? 0)%N InvalidProofDescriptor;;
  reject_if (MAX_PROOF_BYTES <? len bs)%N ProofTooLarge;;
  os_check Sealing (mf_create memfd);;
  os_check FileIo (mf_write_all memfd 0);;
  os_check FileIo (mf_flush memfd);;
  apply_and_verify_seals memfd (mf_file memfd bs);;
  os_check FileIo (fl_seek (mf_file memfd bs));;
  Ok {| sp_file := mf_file memfd bs; sp_size := len bs |}.

Section transport.
Context {crates : Crates} {uuids : Uuids}.

(** ** Snapshots *)

Definition SNAPSHOT_BUFFER_BYTES : N := (64 * 1024)%N.

(** What the copying loop holds: the number of reads made, the bytes that
    were written to the snapshot, the bytes that were fed to the hasher, and
    the counter [size]. *)
Record Copying := {
  cy_reads : nat;
  cy_written : bytes;
  cy_hashed : bytes;
  cy_size : N;
}.

Definition start_copying : Copying :=
  {| cy_reads := 0; cy_written := []; cy_hashed := []; cy_size := 0 |}.

(** [snapshot.write_all(&buffer[..read])] *)
Definition copy_write_all (memfd : Memfd) (chunk : bytes) (st : Copying) : LinuxResult Copying :=
  os_check FileIo (mf_write_all memfd (cy_reads st));;
  Ok {| cy_reads := cy_reads st; cy_written := cy_written st ++ chunk;
        cy_hashed := cy_hashed st; cy_size := cy_size st |}.

(** [hasher.update(&buffer[..read])] *)
Definition hasher_update (chunk : bytes) (st : Copying) : Copying :=
  {| cy_reads := cy_reads st; cy_written := cy_written st;
     cy_hashed := cy_hashed st ++ chunk; cy_size := cy_size st |}.

(** [size += read as u64] and the next round *)
Definition advance (read : N) (st : Copying) : Copying :=
  {| cy_reads := S (cy_reads st); cy_written := cy_written st;
     cy_hashed := cy_hashed st; cy_size := cy_size st + read |}.

(** One round of the copying loop. [read] is [source.read_at(buffer, size)],
    or [source.read(buffer)] for a stream. *)
Definition copy_round (read : nat → N → N → IoError + bytes) (memfd : Memfd) (maximum : N)
    (st : Copying) : Copying + LinuxResult Copying :=
  let remaining := (maximum - cy_size st)%N in
  let read_limit :=
    if (remaining <? SNAPSHOT_BUFFER_BYTES)%N then (remaining + 1)%N else SNAPSHOT_BUFFER_BYTES in
  match read (cy_reads st) (cy_size st) read_limit with
  | inl error => inr (Err (FileIo error))
  | inr chunk =>
      if (len chunk =? 0)%N then inr (Ok st)
      else if (remaining <? len chunk)%N then inr (Err (ArtifactTooLarge maximum))
      else match copy_write_all memfd chunk st with
      | Ok st => inl (advance (len chunk) (hasher_update chunk st))
      | Err e => inr (Err e)
      | Panic why => inr (Panic why)
      end
  end.

(** Every round copies a byte, at most [maximum] are copied, and one more
    round ends the loop. *)
Definition copy_all (read : nat → N → N → IoError + bytes) (memfd : Memfd) (maximum : N) :
    LinuxResult Copying :=
  match loop_n (copy_round read memfd maximum) (maximum + 1) start_copying with
  | inr r => r
  | inl _ => Panic "the copy did not end"
  end.

Definition finish_snapshot (memfd : Memfd) (st : Copying) : LinuxResult SealedArtifact :=
  let snapshot := mf_file memfd (cy_written st) in
  os_check FileIo (mf_flush memfd);;
  apply_and_verify_seals memfd snapshot;;
  os_check FileIo (fl_seek snapshot);;
  Ok {| sa_file := snapshot; sa_descriptor := descriptor_of (cy_hashed st) (cy_size st) |}.

Definition snapshot_artifact (memfd : Memfd) (source : File) (maximum : N) :
    LinuxResult SealedArtifact :=
  reject_if ((maximum =? 0)%N || (MAX_ARTIFACT_BYTES <? maximum)%N) (InvalidSnapshotLimit maximum);;
  md ← map_err FileIo (of_sum (fl_metadata source 1));
  reject_if (negb (md_is_file md)) ArtifactNotRegular;;
  reject_if (maximum <? md_len md)%N (ArtifactTooLarge maximum);;
  os_check Sealing (mf_create memfd);;
  copied ← copy_all (fl_read_at source) memfd maximum;
  finish_snapshot memfd copied.

(** [source] answers the [i]-th [Read::read] with a buffer of some length. *)
Definition snapshot_stream (memfd : Memfd) (source : nat → N → IoError + bytes) (maximum : N) :
    LinuxResult SealedArtifact :=
  reject_if ((maximum =? 0)%N || (MAX_ARTIFACT_BYTES <? maximum)%N) (InvalidSnapshotLimit maximum);;
  os_check Sealing (mf_create memfd);;
  copied ← copy_all (λ i _ limit, source i limit) memfd maximum;
  finish_snapshot memfd copied.

(** ** Packets *)

Definition peer_credentials (socket : Socket) : LinuxResult PeerCredentials :=
  map_err SocketError (of_sum (so_peercred socket)).

Definition connection_state (socket : Socket) : LinuxResult ConnectionState :=
  match so_peek socket with
  | inr n => Ok (if (n =? 0)%N then Closed else ExtraData)
  | inl errno => if errno == Errno_AGAIN then Ok Waiting else Err (SocketError errno)
  end.

Definition send_packet (socket : Socket) (packet : bytes) : LinuxResult unit :=
  sent ← map_err SocketError (of_sum (so_sendmsg socket packet []));
  reject_if (sent != len packet) PartialPacket.

Definition send_packet_with_descriptor (socket : Socket) (packet : bytes) (descriptor : File) :
    LinuxResult unit :=
  reject_if (negb (so_push socket)) PartialPacket;;
  sent ← map_err SocketError (of_sum (so_sendmsg socket packet [descriptor]));
  reject_if (sent != len packet) PartialPacket.

Definition send_sign_request (socket : Socket) (request : SignRequest) (artifact : File) :
    LinuxResult unit :=
  packet ← map_err Protocol (encode_sign_request request);
  send_packet_with_descriptor socket packet artifact.

Definition send_sign_approved (socket : Socket) (proof : SealedProof) : LinuxResult unit :=
  _ ← validate_proof_file (sp_file proof);
  send_packet_with_descriptor socket (encode_sign_response Approved) (sp_file proof).

Definition send_sign_rejected (socket : Socket) (code : RejectionCode) : LinuxResult unit :=
  send_packet socket (encode_sign_response (Rejected code)).

Definition validate_received_packet (received : RecvMsg) (buffer_len : N) : LinuxResult unit :=
  reject_if (rm_trunc received || (buffer_len <? rm_bytes received)%N) TruncatedPacket;;
  reject_if (rm_ctrunc received) TruncatedDescriptors.

Definition collect_message (descriptors : list File) (message : RecvAncillaryMessage) :
    LinuxResult (list File) :=
  match message with
  | ScmRights rights => Ok (descriptors ++ rights)
  | OtherAncillaryMessage => Err UnsupportedAncillaryData
  end.

Definition collect_descriptors (ancillary : list RecvAncillaryMessage) : LinuxResult (list File) :=
  fold_result collect_message [] ancillary.

Definition validate_transition_public_key_descriptor (descriptor : File) : LinuxResult File :=
  md ← map_err FileIo (of_sum (fl_metadata descriptor 0));
  reject_if (negb (md_is_file md) || (md_len md =? 0)%N) InvalidTransitionPublicKeyDescriptor;;
  reject_if (MAX_PERSONA_TRANSITION_PUBLIC_KEY_BYTES <? md_len md)%N TransitionPublicKeyTooLarge;;
  Ok descriptor.

Definition validate_recovery_participation_request_descriptor (descriptor : File) :
    LinuxResult File :=
  md ← map_err FileIo (of_sum (fl_metadata descriptor 0));
  reject_if (negb (md_is_file md) || (md_len md =? 0)%N)
    InvalidRecoveryParticipationRequestDescriptor;;
  reject_if (MAX_RECOVERY_PARTICIPATION_REQUEST_BYTES <? md_len md)%N
    RecoveryParticipationRequestTooLarge;;
  seals ← map_err (λ _, UnsealedRecoveryParticipationRequest) (of_sum (fl_seals descriptor));
  reject_if (negb (seals_contain seals SNAPSHOT_SEALS)) UnsealedRecoveryParticipationRequest;;
  Ok descriptor.

Definition validate_input (subject : SignSubject) (input : File) : LinuxResult File :=
  match subject with
  | PersonaTransition _ _ _ _ _ => validate_transition_public_key_descriptor input
  | RecoveryParticipation _ _ _ _ _ _ _ _ _ =>
      validate_recovery_participation_request_descriptor input
  | _ => Ok input
  end.

Definition receive_sign_request_from_peer (socket : Socket) (peer : PeerCredentials) :
    LinuxResult ReceivedSignRequest :=
  received ← map_err SocketError (of_sum (so_recvmsg socket MAX_REQUEST_PACKET_BYTES));
  let packet := fill_buffer MAX_REQUEST_PACKET_BYTES (rm_packet received) in
  validate_received_packet received MAX_REQUEST_PACKET_BYTES;;
  descriptors ← collect_descriptors (rm_ancillary received);
  reject_if (len descriptors != 1%N) (WrongDescriptorCount (len descriptors));;
  message ← slice packet 0 (rm_bytes received);
  request ← map_err Protocol (decode_sign_request message);
  input ← expect (list.last descriptors) "descriptor count was checked";
  input ← validate_input (sr_subject request) input;
  Ok {| rq_request := request; rq_input := input; rq_peer := peer |}.

(** The check on the user of the peer. *)
Definition require_own_user (socket : Socket) : LinuxResult PeerCredentials :=
  peer ← peer_credentials socket;
  reject_if (pc_uid peer != so_getuid socket) (ForeignPeer (pc_uid peer) (so_getuid socket));;
  Ok peer.

Definition receive_sign_request (socket : Socket) : LinuxResult ReceivedSignRequest :=
  peer ← require_own_user socket;
  receive_sign_request_from_peer socket peer.

Definition receive_sign_response_from_peer (socket : Socket) (peer : PeerCredentials) :
    LinuxResult ReceivedSignResponse :=
  received ← map_err SocketError (of_sum (so_recvmsg socket MAX_RESPONSE_PACKET_BYTES));
  let packet := fill_buffer MAX_RESPONSE_PACKET_BYTES (rm_packet received) in
  validate_received_packet received MAX_RESPONSE_PACKET_BYTES;;
  descriptors ← collect_descriptors (rm_ancillary received);
  message ← slice packet 0 (rm_bytes received);
  response ← map_err Protocol (decode_sign_response message);
  proof ← match response with
          | Approved =>
              if (len descriptors =? 1)%N then
                descriptor ← expect (list.last descriptors) "descriptor count was checked";
                proof ← proof_from_descriptor descriptor;
                Ok (Some proof)
              else Err (WrongDescriptorCount (len descriptors))
          | Rejected _ =>
              if (len descriptors =? 0)%N then Ok None
              else Err (WrongDescriptorCount (len descriptors))
          end;
  Ok {| rp_response := response; rp_proof := proof; rp_peer := peer |}.

Definition receive_sign_response (socket : Socket) : LinuxResult ReceivedSignResponse :=
  peer ← require_own_user socket;
  receive_sign_response_from_peer socket peer.

(** ** Connecting *)

(** [Path::parent] of an absolute path, written from its components. *)
Definition path_parent (path : string) : option string :=
  match path_components path with
  | root :: (_ :: _) as components =>
      Some (match removelast (tail components) with
            | [] => root
            | names => String.concat "" ((λ name, "/" +:+ name) <$> names)
            end)
  | _ => None
  end.

Definition private_directory : string :=
  "require a current-user-owned, non-symlink directory with mode 0700 or stricter".
Definition private_socket : string :=
  "require a current-user-owned, non-symlink socket with mode 0600".

Definition validate_consent_socket_path (fs : Fs) (expected_owner : N) (path : string) :
    LinuxResult (N * N) :=
  reject_if (negb (is_absolute path)) (UnsafeSocketPath path "the path must be absolute");;
  parent ← ok_or (path_parent path)
    (UnsafeSocketPath path "the path must have a parent directory");
  parent_metadata ← map_err (SocketPathIo parent) (of_sum (symlink_metadata fs parent));
  reject_if (md_is_symlink parent_metadata || negb (md_is_dir parent_metadata) ||
             (md_uid parent_metadata != expected_owner) ||
             (N.land (md_mode parent_metadata) 0x3f != 0%N))
    (UnsafeSocketPath parent private_directory);;
  md ← map_err (SocketPathIo path) (of_sum (symlink_metadata fs path));
  reject_if (negb (md_is_socket md) || (md_uid md != expected_owner) ||
             (N.land (md_mode md) 0x7f != 0%N))
    (UnsafeSocketPath path private_socket);;
  Ok (md_dev md, md_ino md).

(** What the kernel answers while connecting: the file system before and
    after, the effective user, [socket], the address and [connect]. *)
Record Connecting := {
  cn_before : Fs;
  cn_after : Fs;
  cn_euid : N;
  cn_socket : Errno + Socket;
  cn_address : option Errno;
  cn_connect : option Errno;
}.

Definition connect_consent_socket (kernel : Connecting) (path : string) : LinuxResult Socket :=
  identity ← validate_consent_socket_path (cn_before kernel) (cn_euid kernel) path;
  socket ← map_err SocketError (of_sum (cn_socket kernel));
  each_result (λ timeout, os_check SocketError (so_set_timeout socket timeout)) [Recv; Send];;
  os_check SocketError (cn_address kernel);;
  os_check SocketError (cn_connect kernel);;
  after ← validate_consent_socket_path (cn_after kernel) (cn_euid kernel) path;
  reject_if (after != identity)
    (UnsafeSocketPath path "the socket device or inode changed during connect");;
  _ ← require_own_user socket;
  Ok socket.

End transport.
