(* ===== verification/TransportFacts.v ===== *)
(** * Theorems about the consent transport

    What is snapshotted is what is hashed, whatever happens to the source
    meanwhile; sealed files read back as they were written; requests and
    proofs survive the socket; nothing panics. *)

From stdpp Require Import base numbers list strings pretty option.
From Stdlib Require Import Strings.Byte Ascii.
From S2P Require Import Prelude Text Ordered Display Crates Io ArtifactProof Continuity RecoveryPolicy RecoveryChain Ceremony.
From S2P Require Import Names Fields IpcProtocol IpcFacts Transport.

Lemma os_check_Ok {E F} (wrap : E → F) o : os_check wrap o = Ok tt ↔ o = None.
Proof. destruct o; cbn; naive_solver. Qed.
#[export] Hint Rewrite @os_check_Ok : ok.

Lemma no_panic_os_check {E F} (wrap : E → F) o : no_panic (os_check wrap o).
Proof. by destruct o. Qed.
#[export] Hint Resolve no_panic_os_check : panics.

(** ** Reading a sealed file *)

(** The interruptions still to come at the [i]-th read. *)
Definition pending (signals : list nat) (i : nat) : nat := length (filter (λ j, i <= j) signals).

Lemma pending_le signals i : pending signals i <= length signals.
Proof. apply length_filter. Qed.

Lemma pending_S signals i : pending signals (S i) <= pending signals i.
Proof.
  unfold pending. induction signals as [|j signals IH]; [done|].
  rewrite !filter_cons. repeat case_decide; cbn; lia.
Qed.

Lemma pending_now signals i : i ∈ signals → pending signals (S i) < pending signals i.
Proof.
  unfold pending. induction signals as [|j signals IH]; [by intros ?%elem_of_nil|].
  pose proof (pending_S signals i) as Hle. unfold pending in Hle.
  rewrite !filter_cons. intros [->|H]%elem_of_cons.
  - rewrite decide_False, decide_True by lia. cbn. lia.
  - specialize (IH H). repeat case_decide; cbn; lia.
Qed.

Section reading.
Context (f : File) (data : bytes) (Hf : holds f data) (ended : string).

Definition read_invariant (st : nat * bytes) : Prop := ∃ rest, data = st.2 ++ rest.

(** A read inside the file gives a non-empty piece of what comes next. *)
Lemma read_round_step st :
  read_invariant st →
  match read_round f (len data) ended st with
  | inl st' => read_invariant st' ∧
      ((len st.2 < len st'.2)%N ∧ st'.1 = S st.1 ∨
       st'.2 = st.2 ∧ st'.1 = S st.1 ∧
         ∃ off n e, fl_read_at f st.1 off n = inl e)
  | inr r => r = Ok data
  end.
Proof.
  destruct st as [i read]. intros [rest Hd]. cbn [fst snd] in *. cbn [read_round].
  destruct (N.ltb_spec (len read) (len data)) as [Hlt|Hge].
  - pose proof (holds_read f data Hf i (len read) (len data - len read)) as Hr.
    destruct (fl_read_at f i (len read) (len data - len read)) as [e|chunk] eqn:E.
    + rewrite bool_decide_true by (apply Hr; lia). split; [by exists rest|]. right. eauto 6.
    + destruct Hr as (more & Hdrop & Hn & Hend); [lia|].
      rewrite Hd in Hdrop. unfold len in Hdrop. rewrite Nat2N.id, drop_app_length in Hdrop.
      destruct chunk as [|b chunk].
      * exfalso. rewrite Hend in Hdrop by done. cbn in Hdrop. subst rest.
        rewrite app_nil_r in Hd. rewrite Hd in Hlt. lia.
      * split; [|left; cbn [fst snd]; rewrite len_app, len_cons; split; [lia|done]].
        exists more. cbn. by rewrite <- app_assoc, Hd, Hdrop.
  - rewrite Hd, len_app in Hge. destruct rest as [|b rest]; [|rewrite len_cons in Hge; lia].
    by rewrite app_nil_r in Hd; subst.
Qed.

Lemma read_whole_holds : read_whole f (len data) ended = Ok data.
Proof using Hf.
  destruct (holds_signals f data Hf) as (signals & Hlen & Hsig). unfold read_whole.
  destruct (loop_ends (read_round f (len data) ended) read_invariant
    (λ st, len data - len st.2 + N.of_nat (pending signals st.1))%N
    (len data + N.of_nat (fl_signals f) + 1) (0, [])) as [r Hr].
  - intros st st' HI Hst. pose proof (read_round_step st HI) as H. rewrite Hst in H.
    destruct H as [HI' H]. split; [done|]. destruct HI' as [rest' Hd'].
    assert (len st'.2 <= len data)%N by (rewrite Hd', len_app; lia).
    destruct H as [[Hlt ->]|(-> & -> & off & n & e & He)].
    + pose proof (pending_S signals st.1). lia.
    + pose proof (pending_now signals st.1 (Hsig _ _ _ _ He)). lia.
  - by exists data.
  - cbn [fst snd]. pose proof (pending_le signals 0). unfold len at 2. cbn. lia.
  - rewrite Hr. destruct (loop_invariant (read_round f (len data) ended) read_invariant
      (len data + N.of_nat (fl_signals f) + 1) (0, []) r) as (st & HI & Hst).
    + intros st st' HI Hst. pose proof (read_round_step st HI) as H. rewrite Hst in H. by destruct H.
    + by exists data.
    + done.
    + pose proof (read_round_step st HI) as H. by rewrite Hst in H.
Qed.
End reading.

(** ** Snapshots *)

Section transport.
Context {crates : Crates} {uuids : Uuids}.

Section copying.
Context (read : nat → N → N → IoError + bytes) (memfd : Memfd) (maximum : N).

(** The pieces that the successive reads of a source gave, each of them asked
    for at the offset where the previous ones end. *)
Definition read_pieces (chunks : list bytes) : Prop :=
  ∀ i chunk, chunks !! i = Some chunk →
    chunk ≠ [] ∧ ∃ limit, (0 < limit)%N ∧ read i (len (concat (take i chunks))) limit = inr chunk.

(** They are all there was when the read after them gave nothing. *)
Definition read_to_end (chunks : list bytes) : Prop :=
  read_pieces chunks ∧
  ∃ limit, (0 < limit)%N ∧ read (length chunks) (len (concat chunks)) limit = inr [].

(** What was written, what was hashed and what was counted are the pieces that
    were read. *)
Definition copying_invariant (st : Copying) : Prop :=
  (cy_size st <= maximum)%N ∧
  ∃ chunks, read_pieces chunks ∧ cy_reads st = length chunks ∧ cy_written st = concat chunks ∧
    cy_hashed st = concat chunks ∧ cy_size st = len (concat chunks).

Lemma read_pieces_snoc chunks chunk limit :
  read_pieces chunks → chunk ≠ [] → (0 < limit)%N →
  read (length chunks) (len (concat chunks)) limit = inr chunk → read_pieces (chunks ++ [chunk]).
Proof.
  intros Hp Hne Hl Hr i c Hi. apply lookup_snoc_Some in Hi as [[Hlt Hi]|[-> <-]].
  - rewrite take_app_le by lia. by apply Hp.
  - rewrite take_app_length. eauto.
Qed.

Lemma read_limit_pos remaining :
  (0 < (if (remaining <? SNAPSHOT_BUFFER_BYTES)%N then remaining + 1 else SNAPSHOT_BUFFER_BYTES))%N.
Proof. destruct (N.ltb_spec remaining SNAPSHOT_BUFFER_BYTES); [lia|done]. Qed.

Lemma copy_round_step st st' :
  copying_invariant st → copy_round read memfd maximum st = inl st' →
  copying_invariant st' ∧ (maximum - cy_size st' < maximum - cy_size st)%N.
Proof.
  intros [Hle (chunks & Hp & Hi & Hw & Hh & Hs)]. unfold copy_round, copy_write_all.
  pose proof (read_limit_pos (maximum - cy_size st)) as Hl.
  destruct (read _ _ _) as [e|chunk] eqn:Hr; [done|].
  destruct (N.eqb_spec (len chunk) 0) as [|Hne]; [done|].
  destruct (N.ltb_spec (maximum - cy_size st) (len chunk)); [done|].
  destruct (mf_write_all memfd (cy_reads st)); [done|]. intros [= <-]. cbn.
  split; [|lia]. split; [cbn; lia|]. exists (chunks ++ [chunk]). cbn.
  rewrite length_app, concat_app, Hi, Hw, Hh, Hs. cbn. rewrite app_nil_r, len_app.
  split_and!; [|lia|done..]. rewrite Hs in Hl. rewrite Hi, Hs in Hr. eapply read_pieces_snoc; [done| |exact Hl|exact Hr].
  by intros ->.
Qed.

(** The loop ends, and it ends where the source did. *)
Lemma copy_all_ends : ∃ st r, copying_invariant st ∧
  copy_round read memfd maximum st = inr r ∧ copy_all read memfd maximum = r.
Proof.
  assert (copying_invariant start_copying) as H0 by (split; [apply N.le_0_l|by exists []]).
  unfold copy_all.
  destruct (loop_ends (copy_round read memfd maximum) copying_invariant
    (λ st, maximum - cy_size st)%N (maximum + 1) start_copying) as [r Hr];
    [apply copy_round_step|done|cbn; lia|].
  rewrite Hr. destruct (loop_invariant (copy_round read memfd maximum) copying_invariant
    (maximum + 1) start_copying r) as (st & HI & Hst); [|done..|by exists st, r].
  intros st st' HI Hst. by eapply copy_round_step.
Qed.

Lemma copy_all_read st :
  copy_all read memfd maximum = Ok st →
  ∃ chunks, read_to_end chunks ∧ cy_written st = concat chunks ∧ cy_hashed st = concat chunks ∧
    cy_size st = len (concat chunks) ∧ (cy_size st <= maximum)%N.
Proof.
  destruct copy_all_ends as (st0 & r & [Hle (chunks & Hp & Hi & Hw & Hh & Hs)] & Hst & ->). intros ->.
  unfold copy_round, copy_write_all in Hst.
  pose proof (read_limit_pos (maximum - cy_size st0)) as Hl.
  destruct (read _ _ _) as [e|chunk] eqn:Hr; [done|].
  destruct (N.eqb_spec (len chunk) 0) as [He|]; [|repeat case_match; simplify_eq; done].
  injection Hst as <-. destruct chunk; [|done]. exists chunks. rewrite Hs in Hl. rewrite Hi, Hs in Hr.
  split_and!; [|done..]. split; [done|]. by eexists.
Qed.

Lemma copy_all_no_panic : no_panic (copy_all read memfd maximum).
Proof.
  destruct copy_all_ends as (st & r & _ & Hst & ->). unfold copy_round, copy_write_all in Hst.
  destruct (read _ _ _); [by injection Hst as <-|]. destruct (mf_write_all memfd (cy_reads st));
  repeat case_match; by simplify_eq.
Qed.
End copying.

(** A source that does not change is copied as it is. *)
Lemma read_to_end_holds source data chunks :
  holds source data → read_to_end (fl_read_at source) chunks → concat chunks = data.
Proof.
  intros Hf [Hp (limit & Hl & Hend)].
  assert (∀ n, n <= length chunks → ∃ rest, data = concat (take n chunks) ++ rest) as Hpre.
  { induction n as [|n IH]; intros Hn; [by exists data|]. destruct IH as [rest Hrest]; [lia|].
    destruct (lookup_lt_is_Some_2 chunks n) as [chunk Hc]; [lia|].
    destruct (Hp n chunk Hc) as (_ & limit' & Hl' & Hr).
    pose proof (holds_read _ _ Hf n (len (concat (take n chunks))) limit' Hl') as H. rewrite Hr in H.
    destruct H as (rest' & Hd & _). rewrite Hrest in Hd at 1. unfold len in Hd.
    rewrite Nat2N.id, drop_app_length in Hd. subst rest.
    exists rest'. by rewrite (take_S_r _ _ _ Hc), concat_app, <- app_assoc; cbn; rewrite app_nil_r. }
  destruct (Hpre (length chunks)) as [rest Hrest]; [done|]. rewrite firstn_all in Hrest.
  pose proof (holds_read _ _ Hf (length chunks) (len (concat chunks)) limit Hl) as H. rewrite Hend in H.
  destruct H as (rest' & Hd & _ & He). rewrite (He eq_refl), Hrest in Hd. unfold len in Hd.
  rewrite Nat2N.id, drop_app_length in Hd. cbn in Hd. by rewrite Hrest, Hd, app_nil_r.
Qed.

Lemma finish_snapshot_Ok memfd st a :
  finish_snapshot memfd st = Ok a →
  a = {| sa_file := mf_file memfd (cy_written st);
         sa_descriptor := descriptor_of (cy_hashed st) (cy_size st) |} ∧
  ∃ seals, fl_seals (sa_file a) = inr seals ∧ N.land seals SNAPSHOT_SEALS = SNAPSHOT_SEALS.
Proof.
  unfold finish_snapshot. rewrite !seq_Ok. intros (_ & Hs & _ & [= <-]). split; [done|].
  unfold apply_and_verify_seals in Hs. apply seq_Ok in Hs as [_ Hs]. unbind Hs as seals Hseals.
  oks Hs. oks Hseals. exists seals. split; [done|]. unfold seals_contain in Hs.
  by apply bool_decide_eq_true in Hs.
Qed.

Lemma snapshot_artifact_copied memfd source maximum a :
  snapshot_artifact memfd source maximum = Ok a →
  ∃ chunks, let copied := concat chunks in
    read_to_end (fl_read_at source) chunks ∧ (0 < maximum <= MAX_ARTIFACT_BYTES)%N ∧
    (len copied <= maximum)%N ∧
    a = {| sa_file := mf_file memfd copied; sa_descriptor := descriptor_of copied (len copied) |} ∧
    ∃ seals, fl_seals (sa_file a) = inr seals ∧ N.land seals SNAPSHOT_SEALS = SNAPSHOT_SEALS.
Proof.
  unfold snapshot_artifact. intros H. apply seq_Ok in H as [Hm H].
  unbind H as md Hmd. apply seq_Ok in H as [_ H]. apply seq_Ok in H as [_ H].
  apply seq_Ok in H as [_ H]. unbind H as st Hc.
  apply reject_if_Ok, orb_false_iff in Hm as [H0%N.eqb_neq Hm]. apply N.ltb_ge in Hm.
  apply copy_all_read in Hc as (chunks & Hr & Hw & Hh & Hs & Hle).
  apply finish_snapshot_Ok in H as [Ha Hseals]. rewrite Hw, Hh, Hs in Ha. rewrite Hs in Hle.
  exists chunks. cbn zeta. split_and!; [done|lia|done..].
Qed.

Lemma read_bytes_bounded_sealed memfd copied maximum :
  memfd_ok memfd → (0 < maximum)%N → (len copied <= maximum)%N → (maximum <= MAX_ARTIFACT_BYTES)%N →
  read_bytes_bounded
    {| sa_file := mf_file memfd copied; sa_descriptor := descriptor_of copied (len copied) |}
    maximum = Ok copied.
Proof.
  intros Hm H0 Hle Hmax. unfold read_bytes_bounded. cbn [sa_file sa_descriptor ad_size descriptor_of].
  rewrite (proj2 (N.eqb_neq maximum 0)) by lia. rewrite (proj2 (N.ltb_ge maximum (len copied))) by lia.
  cbn [orb reject_if mbind result_bind].
  assert (len copied <=? usize_max = true)%N as ->.
  { apply N.leb_le. etrans; [exact Hle|]. etrans; [exact Hmax|]. by vm_compute. }
  cbn [ok_or mbind result_bind]. apply read_whole_holds, Hm.
Qed.

(** C40: a snapshot fixes what is signed. Assume that the anonymous file keeps
    what is written to it. Whatever the sender does to the file while it is read, the bytes that are later parsed, reviewed and
    signed, the bytes whose digest and size the descriptor states, and the
    pieces that the reads of the source gave, one after the other up to the
    read that gave nothing, are the same bytes; they are sealed against change,
    and they are no more than the limit of the purpose. A source that does not
    change meanwhile is copied as it is. *)
Theorem snapshot_is_what_was_hashed memfd source maximum a :
  memfd_ok memfd → snapshot_artifact memfd source maximum = Ok a →
  ∃ chunks, let copied := concat chunks in
    read_to_end (fl_read_at source) chunks ∧
    read_bytes_bounded a maximum = Ok copied ∧
    ad_digest (sa_descriptor a) = {| dg_algorithm := "sha256"; dg_value := sha256_hex copied |} ∧
    ad_size (sa_descriptor a) = len copied ∧ (len copied <= maximum)%N ∧
    (∃ seals, fl_seals (sa_file a) = inr seals ∧ N.land seals SNAPSHOT_SEALS = SNAPSHOT_SEALS) ∧
    ∀ data, holds source data → copied = data.
Proof.
  intros Hm (chunks & Hr & Hmax & Hle & -> & Hs)%snapshot_artifact_copied. exists chunks. cbn zeta.
  split_and!; [done| |done..|].
  - apply read_bytes_bounded_sealed; [done|lia|done|lia].
  - intros data Hd. by eapply read_to_end_holds.
Qed.

(** ** Packets *)

(** What [recvmsg] gives for a packet sent with some descriptors: the packet is
    cut to the buffer, its length is not. *)
Definition delivered (packet : bytes) (descriptors : list File) (buffer_len : N) : RecvMsg :=
  {| rm_bytes := len packet;
     rm_trunc := (buffer_len <? len packet)%N;
     rm_ctrunc := false;
     rm_packet := take (N.to_nat buffer_len) packet;
     rm_ancillary := match descriptors with [] => [] | _ => [ScmRights descriptors] end |}.

Lemma fill_buffer_slice {E} n packet :
  (len packet <= n)%N → slice (E:=E) (fill_buffer n packet) 0 (len packet) = Ok packet.
Proof.
  intros H. unfold fill_buffer.
  assert (N.to_nat n = length (packet ++ repeat x00 (N.to_nat n - length packet))) as Hn.
  { rewrite length_app, repeat_length. unfold len in H. lia. }
  rewrite Hn at 1. rewrite firstn_all. apply (slice_mid [] packet); [done|].
  change (len []) with 0%N. lia.
Qed.

Lemma collect_delivered packet descriptors n :
  collect_descriptors (rm_ancillary (delivered packet descriptors n)) = Ok descriptors.
Proof. by destruct descriptors. Qed.

Lemma validate_delivered packet descriptors n :
  (len packet <= n)%N → validate_received_packet (delivered packet descriptors n) n = Ok tt.
Proof.
  intros H. unfold validate_received_packet. cbn [rm_trunc rm_bytes rm_ctrunc delivered].
  by rewrite (proj2 (N.ltb_ge n (len packet)) H).
Qed.

Lemma take_whole {A} n (l : list A) : (len l <= n)%N → take (N.to_nat n) l = l.
Proof. unfold len. intros H. apply firstn_all2. lia. Qed.

Lemma wire_len r :
  validate_request r = Ok tt → request_typed r → (len (wire r) <= MAX_REQUEST_PACKET_BYTES)%N.
Proof.
  intros Hv Ht. unfold wire. rewrite len_app, encode_header_len.
  pose proof (request_payload_bound r Hv Ht). pose proof (request_limit_max r).
  unfold MAX_REQUEST_PACKET_BYTES. change HEADER_BYTES with 20%N. lia.
Qed.

(** The peer's user is the process's own. *)
Definition own_peer (socket : Socket) (peer : PeerCredentials) : Prop :=
  so_peercred socket = inr peer ∧ pc_uid peer = so_getuid socket.

Lemma require_own_user_Ok socket peer :
  require_own_user socket = Ok peer ↔ own_peer socket peer.
Proof.
  unfold require_own_user, peer_credentials, own_peer. split.
  - intros H. unbind H as p Hp. oks H. oks Hp. by subst.
  - intros [-> Hu]. cbn. by rewrite bool_decide_true.
Qed.

(** A request that was sent is the request that is received, with its input. *)
Theorem request_through_socket socket peer r m input :
  request_typed r → encode_sign_request r = Ok m → own_peer socket peer →
  so_recvmsg socket MAX_REQUEST_PACKET_BYTES = inr (delivered m [input] MAX_REQUEST_PACKET_BYTES) →
  receive_sign_request socket =
    input ← validate_input (sr_subject r) input;
    Ok {| rq_request := r; rq_input := input; rq_peer := peer |}.
Proof.
  intros Ht He Hpeer Hrecv.
  assert (validate_request r = Ok tt) as Hv.
  { unfold encode_sign_request in He. rewrite seq_Ok in He. tauto. }
  rewrite encode_wire in He by done. injection He as <-.
  pose proof (wire_len r Hv Ht) as Hl.
  unfold receive_sign_request. rewrite (proj2 (require_own_user_Ok socket peer)), bind_Ok_l by done.
  unfold receive_sign_request_from_peer. rewrite Hrecv. cbn [of_sum map_err]. rewrite bind_Ok_l.
  rewrite validate_delivered, collect_delivered by done. rewrite !bind_Ok_l.
  cbn [rm_packet rm_bytes delivered]. rewrite take_whole, fill_buffer_slice by done.
  change (reject_if (len [input] != 1%N) (WrongDescriptorCount (len [input]))) with
    (@Ok LinuxIpcError unit tt). rewrite !bind_Ok_l, wire_decodes by done. done.
Qed.

(** ** Proofs *)

Lemma seal_proof_Ok memfd bs p :
  seal_proof_bytes memfd bs = Ok p →
  p = {| sp_file := mf_file memfd bs; sp_size := len bs |} ∧ (0 < len bs <= MAX_PROOF_BYTES)%N ∧
  fl_seek (mf_file memfd bs) = None ∧
  ∃ seals, fl_seals (mf_file memfd bs) = inr seals ∧ seals_contain seals SNAPSHOT_SEALS = true.
Proof.
  unfold seal_proof_bytes, apply_and_verify_seals. intros H. oks H.
  match goal with H : _ ≫= _ = Ok tt |- _ => unbind H as seals Hs; oks H; oks Hs end.
  rewrite N.eqb_neq, N.ltb_ge in *. split; [done|]. split; [lia|]. split; [done|]. by exists seals.
Qed.

Lemma sealed_proof_validates memfd bs p :
  memfd_ok memfd → seal_proof_bytes memfd bs = Ok p → validate_proof_file (sp_file p) = Ok (len bs).
Proof.
  intros Hm (-> & [H0 Hmax] & _ & seals & Hs & Hc)%seal_proof_Ok. cbn [sp_file].
  destruct (holds_metadata _ _ (Hm bs) 0) as (md & Hmd & Hf & Hl). unfold validate_proof_file.
  rewrite Hmd. cbn [of_sum map_err]. rewrite bind_Ok_l, Hf, Hl.
  rewrite (proj2 (N.eqb_neq (len bs) 0)), (proj2 (N.ltb_ge MAX_PROOF_BYTES (len bs))) by lia.
  cbn [negb orb reject_if]. rewrite !bind_Ok_l, Hs. cbn [of_sum map_err]. by rewrite bind_Ok_l, Hc.
Qed.

Lemma sealed_proof_reads memfd bs p :
  memfd_ok memfd → seal_proof_bytes memfd bs = Ok p → read_bytes p = Ok bs.
Proof.
  intros Hm (-> & [_ Hmax] & _)%seal_proof_Ok. unfold read_bytes. cbn [sp_size sp_file].
  assert (len bs <=? usize_max = true)%N as ->.
  { apply N.leb_le. etrans; [exact Hmax|]. by vm_compute. }
  cbn [ok_or]. rewrite bind_Ok_l. apply read_whole_holds, Hm.
Qed.

(** A proof survives the way to the client. When the daemon seals some
    bytes and the approval it sends arrives with its descriptor at a socket of
    the same user, the client receives an approval whose proof reads back as
    exactly those bytes. *)
Theorem proof_through_socket memfd bs p daemon client peer packet :
  memfd_ok memfd → seal_proof_bytes memfd bs = Ok p →
  send_sign_approved daemon p = Ok tt → own_peer client peer →
  packet = encode_sign_response Approved →
  so_recvmsg client MAX_RESPONSE_PACKET_BYTES =
    inr (delivered packet [sp_file p] MAX_RESPONSE_PACKET_BYTES) →
  so_sendmsg daemon packet [sp_file p] = inr (len packet) ∧
  ∃ received, receive_sign_response client =
      Ok {| rp_response := Approved; rp_proof := Some received; rp_peer := peer |} ∧
    read_bytes received = Ok bs.
Proof.
  intros Hm Hseal Hsend Hpeer -> Hrecv. split.
  - unfold send_sign_approved in Hsend. unbind Hsend as size Hsize.
    unfold send_packet_with_descriptor in Hsend. apply seq_Ok in Hsend as [_ H].
    unbind H as sent Hsent. oks H. oks Hsent. by subst.
  - exists p. split; [|by eapply sealed_proof_reads].
    pose proof (sealed_proof_validates _ _ _ Hm Hseal) as Hval.
    destruct (seal_proof_Ok _ _ _ Hseal) as (Hp & _ & Hseek & _).
    unfold receive_sign_response. rewrite (proj2 (require_own_user_Ok client peer)), bind_Ok_l by done.
    unfold receive_sign_response_from_peer. rewrite Hrecv. cbn [of_sum map_err]. rewrite bind_Ok_l.
    rewrite validate_delivered, collect_delivered by done. rewrite !bind_Ok_l.
    cbn [rm_packet rm_bytes delivered]. rewrite take_whole, fill_buffer_slice by done.
    rewrite bind_Ok_l, (proj2 (response_format_bijective _ Approved)) by done.
    cbn [map_err]. rewrite bind_Ok_l. change (len [sp_file p] =? 1)%N with true. cbv iota.
    cbn [list.last expect]. unfold proof_from_descriptor. rewrite !bind_Ok_l, Hval, bind_Ok_l.
    rewrite Hp. cbn [sp_file]. rewrite Hseek. done.
Qed.

(** ** Connecting *)

(** A connection is made only to a socket that is private to the user, in a
    directory that is, whose device and inode are the same after connecting,
    and only with a peer of the same user. *)
Theorem connects_to_own_socket kernel path socket :
  connect_consent_socket kernel path = Ok socket →
  ∃ parent md md' peer, path_parent path = Some parent ∧
    symlink_metadata (cn_before kernel) path = inr md ∧
    symlink_metadata (cn_after kernel) path = inr md' ∧
    md_dev md' = md_dev md ∧ md_ino md' = md_ino md ∧
    md_is_socket md' = true ∧ md_uid md' = cn_euid kernel ∧ N.land (md_mode md') 0x7f = 0%N ∧
    own_peer socket peer ∧
    ∃ dir, symlink_metadata (cn_after kernel) parent = inr dir ∧ md_is_symlink dir = false ∧
      md_is_dir dir = true ∧ md_uid dir = cn_euid kernel ∧ N.land (md_mode dir) 0x3f = 0%N.
Proof.
  unfold connect_consent_socket. intros H. unbind H as identity Hid. unbind H as s Hs.
  apply seq_Ok in H as [_ H]. apply seq_Ok in H as [_ H]. apply seq_Ok in H as [_ H].
  unbind H as after Ha. apply seq_Ok in H as [Heq H]. oks Heq. subst after.
  unbind H as peer Hpeer. injection H as ->. apply require_own_user_Ok in Hpeer.
  unfold validate_consent_socket_path in *.
  apply seq_Ok in Hid as [_ Hid]. unbind Hid as parent Hparent. unbind Hid as dir0 Hdir0.
  apply seq_Ok in Hid as [_ Hid]. unbind Hid as md Hmd. apply seq_Ok in Hid as [_ Hid]. oks Hid.
  apply seq_Ok in Ha as [_ Ha]. unbind Ha as parent' Hparent'. unbind Ha as dir Hdir.
  apply seq_Ok in Ha as [Hsafe Ha]. unbind Ha as md' Hmd'. apply seq_Ok in Ha as [Hsock Ha].
  oks Hsafe. oks Hsock. oks Ha. oks Hparent. oks Hparent'. oks Hdir. oks Hmd. oks Hmd'. simplify_eq.
  exists parent, md, md', peer. split_and!; try done. by exists dir.
Qed.

(** ** No panics *)

Lemma fill_buffer_len n packet : len (fill_buffer n packet) = n.
Proof. unfold fill_buffer, len. rewrite length_take, length_app, repeat_length. lia. Qed.

Lemma received_slice_no_panic (m : RecvMsg) n :
  validate_received_packet m n = Ok tt →
  no_panic (E:=LinuxIpcError) (slice (fill_buffer n (rm_packet m)) 0 (rm_bytes m)).
Proof.
  unfold validate_received_packet. intros H. oks H. unfold slice. rewrite fill_buffer_len.
  rewrite N.ltb_ge in *. by rewrite (proj2 (N.leb_le (rm_bytes m) n)), (proj2 (N.leb_le 0 _)) by lia.
Qed.

Lemma collect_no_panic ms : no_panic (collect_descriptors ms).
Proof. apply (no_panic_fold_result _ (λ _, True)); [done| |done]. intros st m _ _. by destruct m. Qed.

Lemma last_no_panic {E} (l : list File) s :
  len l = 1%N → no_panic (E:=E) (expect (list.last l) s).
Proof. destruct l as [|x l]; [done|]. intros _. apply no_panic_expect, last_is_Some. done. Qed.

Lemma seals_no_panic memfd f : no_panic (apply_and_verify_seals memfd f).
Proof. unfold apply_and_verify_seals. no_panics. Qed.

Lemma validate_proof_no_panic f : no_panic (validate_proof_file f).
Proof. unfold validate_proof_file. no_panics. Qed.

Lemma own_user_no_panic socket : no_panic (require_own_user socket).
Proof. unfold require_own_user, peer_credentials. no_panics. Qed.

Lemma validate_input_no_panic subject f : no_panic (validate_input subject f).
Proof.
  unfold validate_input, validate_transition_public_key_descriptor,
    validate_recovery_participation_request_descriptor. no_panics.
Qed.

Lemma finish_snapshot_no_panic memfd copied : no_panic (finish_snapshot memfd copied).
Proof. unfold finish_snapshot. pose proof (seals_no_panic memfd). no_panics. Qed.

#[local] Hint Resolve collect_no_panic seals_no_panic validate_proof_no_panic own_user_no_panic
  validate_input_no_panic finish_snapshot_no_panic copy_all_no_panic decode_sign_request_no_panic
  decode_sign_response_no_panic : panics.

Lemma receive_request_no_panic socket : no_panic (receive_sign_request socket).
Proof.
  unfold receive_sign_request, receive_sign_request_from_peer. apply no_panic_bind; [auto with panics|].
  intros peer _. apply no_panic_bind; [auto with panics|]. intros m _.
  apply no_panic_bind; [unfold validate_received_packet; no_panics|]. intros [] Hv.
  apply no_panic_bind; [auto with panics|]. intros ds _.
  apply no_panic_bind; [auto with panics|]. intros [] Hd. oks Hd.
  apply no_panic_bind; [by apply received_slice_no_panic|]. intros message _.
  apply no_panic_bind; [auto with panics|]. intros r _.
  apply no_panic_bind; [by apply last_no_panic|]. intros input _. no_panics.
Qed.

Lemma receive_response_no_panic socket : no_panic (receive_sign_response socket).
Proof.
  unfold receive_sign_response, receive_sign_response_from_peer. apply no_panic_bind; [auto with panics|].
  intros peer _. apply no_panic_bind; [auto with panics|]. intros m _.
  apply no_panic_bind; [unfold validate_received_packet; no_panics|]. intros [] Hv.
  apply no_panic_bind; [auto with panics|]. intros ds _.
  apply no_panic_bind; [by apply received_slice_no_panic|]. intros message _.
  apply no_panic_bind; [auto with panics|]. intros r _. apply no_panic_bind; [|done].
  destruct r as [|code]; [|no_panics]. destruct (N.eqb_spec (len ds) 1); [|done].
  apply no_panic_bind; [by apply last_no_panic|]. intros f _. unfold proof_from_descriptor. no_panics.
Qed.

Lemma snapshot_no_panic memfd source maximum : no_panic (snapshot_artifact memfd source maximum).
Proof. unfold snapshot_artifact. no_panics. Qed.
Lemma seal_no_panic memfd bs : no_panic (seal_proof_bytes memfd bs).
Proof. unfold seal_proof_bytes. no_panics. Qed.
Lemma send_approved_no_panic socket p : no_panic (send_sign_approved socket p).
Proof. unfold send_sign_approved, send_packet_with_descriptor. no_panics. Qed.
Lemma send_rejected_no_panic socket code : no_panic (send_sign_rejected socket code).
Proof. unfold send_sign_rejected, send_packet. no_panics. Qed.

(** A snapshot in a file that keeps its bytes can be read. *)
Lemma snapshot_readable memfd source maximum a :
  memfd_ok memfd → snapshot_artifact memfd source maximum = Ok a →
  no_panic (read_bytes_bounded a maximum).
Proof.
  intros Hm (chunks & _ & Hmax & Hle & -> & _)%snapshot_artifact_copied.
  rewrite read_bytes_bounded_sealed; [done|done|lia|done|lia].
Qed.

(** No packet, no descriptor and no answer of the kernel makes the
    transport panic, and copying an input ends however it is fed: the
    index into the receive buffer stays within it, the descriptor that is
    taken is there, and the copy stops at its limit. *)
Theorem transport_never_panics socket memfd source stream maximum bs p code kernel path :
  no_panic (receive_sign_request socket) ∧ no_panic (receive_sign_response socket) ∧
  no_panic (snapshot_artifact memfd source maximum) ∧
  no_panic (snapshot_stream memfd stream maximum) ∧
  no_panic (seal_proof_bytes memfd bs) ∧ no_panic (send_sign_approved socket p) ∧
  no_panic (send_sign_rejected socket code) ∧ no_panic (connect_consent_socket kernel path).
Proof.
  split_and!; [apply receive_request_no_panic|apply receive_response_no_panic|..].
  - apply snapshot_no_panic.
  - unfold snapshot_stream. no_panics.
  - apply seal_no_panic.
  - apply send_approved_no_panic.
  - apply send_rejected_no_panic.
  - assert (∀ fs owner, no_panic (validate_consent_socket_path fs owner path)).
    { intros. unfold validate_consent_socket_path. no_panics. }
    unfold connect_consent_socket. cbn [each_result]. no_panics.
Qed.
End transport.
