(* ===== verification/TransportWitness.v ===== *)
(** * Witnesses for the consent protocol and its transport

    A transition request and a rejection, encoded and decoded; anonymous files
    that keep what is written to them, a source that is read three bytes at a
    time, and two ends of a socket. *)

From stdpp Require Import base numbers list strings pretty option.
From Stdlib Require Import Strings.Byte Ascii.
From S2P Require Import Prelude Text Display Crates Names Fields IpcProtocol IpcFacts Instances Witness.
From S2P Require Import Ordered Io ArtifactProof Continuity RecoveryPolicy RecoveryChain Ceremony Transport TransportFacts.

(** Names of 36 characters stand for UUIDs. *)
#[export] Instance small_uuids : Uuids := {|
  Uuid := string;
  Uuid_parse_str s := if (str_len s =? 36)%N then Some s else None;
  Uuid_to_string s := s |}.

Definition transition_request : SignRequest :=
  {| sr_persona_id := Some "01234567-89ab-cdef-0123-456789abcdef";
     sr_subject := PersonaTransition 2 (repeat x11 32) (Some (repeat x00 32)) TransitionSshAgent
       "/keys/next" |}.
Definition transition_message : bytes := Eval vm_compute in
  ok_get (encode_sign_request transition_request) eq_refl.

Lemma transition_request_typed : request_typed transition_request.
Proof.
  split; [by intros p [= <-]|]. cbn [sr_subject transition_request].
  split_and!; [done|done|by intros d [= <-]|done].
Qed.

Lemma wire_format_bijective_witness : decode_sign_request transition_message = Ok transition_request.
Proof.
  apply (wire_format_bijective transition_message transition_request).
  split; [exact transition_request_typed|]. vm_compute. reflexivity.
Defined.

Lemma protocol_never_panics_witness : (len transition_message <= MAX_REQUEST_PACKET_BYTES)%N.
Proof.
  destruct (protocol_never_panics transition_message transition_request Approved) as (_ & _ & H & _).
  apply (H transition_request_typed). vm_compute. reflexivity.
Defined.

(** A message with one more byte, or with a reserved byte set, does not decode. *)
Example mutilated_messages :
  decode_sign_request (transition_message ++ [x00]) = Err TrailingBytes ∧
  decode_sign_request (<[22 := x01]> transition_message) = Err InvalidLayout ∧
  decode_sign_response transition_message = Err (UnsupportedMessageType 6).
Proof. vm_compute. done. Qed.

(** * Witnesses for the consent transport *)

(** ** Files *)

Definition regular_file (size : N) : Metadata :=
  {| md_is_symlink := false; md_is_file := true; md_is_dir := false; md_is_socket := false;
     md_len := size; md_readonly := false;
     md_modified := inr 0%Z; md_dev := 1; md_ino := 9; md_uid := 1000; md_mode := 0x180;
     md_mtime := 0; md_mtime_nsec := 0; md_ctime := 0; md_ctime_nsec := 0 |}.

(** A file with some bytes, of which a read finds at most [step]. *)
Definition file_of (step : N) (data : bytes) : File :=
  {| fl_metadata _ := inr (regular_file (len data));
     fl_read_at _ off n := inr (take (N.to_nat (N.min step n)) (drop (N.to_nat off) data));
     fl_seals := inr SNAPSHOT_SEALS;
     fl_seek := None;
     fl_signals := 0 |}.

Lemma file_of_holds step data : (0 < step)%N → holds (file_of step data) data.
Proof.
  intros Hs. split.
  - intros i. by eexists.
  - intros i off n Hn. cbn. eexists. split; [symmetry; apply take_drop|]. split.
    + unfold len. rewrite length_take. lia.
    + intros H. apply (f_equal length) in H. rewrite length_take in H. cbn in H.
      assert (length (drop (N.to_nat off) data) = 0) as H0 by lia.
      apply nil_length_inv in H0. rewrite H0. by rewrite drop_nil.
  - exists []. split; [done|]. by intros i off n e [=].
Qed.

Definition small_memfd : Memfd :=
  {| mf_create := None; mf_write_all _ := None; mf_flush := None; mf_add_seals := None;
     mf_file := file_of 1024 |}.

Lemma small_memfd_ok : memfd_ok small_memfd.
Proof. intros data. by apply file_of_holds. Qed.

(** ** A snapshot *)

Definition the_source : File := file_of 3 the_data.
Definition the_snapshot : SealedArtifact :=
  {| sa_file := file_of 1024 the_data; sa_descriptor := descriptor_of the_data 4 |}.

Lemma snapshot_is_what_was_hashed_witness :
  memfd_ok small_memfd ∧ snapshot_artifact small_memfd the_source 100 = Ok the_snapshot ∧
  ∃ chunks, concat chunks = the_data ∧ read_to_end (fl_read_at the_source) chunks ∧
    read_bytes_bounded the_snapshot 100 = Ok (concat chunks).
Proof.
  assert (snapshot_artifact small_memfd the_source 100 = Ok the_snapshot) as H by (vm_compute; reflexivity).
  split; [exact small_memfd_ok|]. split; [exact H|].
  destruct (snapshot_is_what_was_hashed small_memfd the_source 100 the_snapshot small_memfd_ok H)
    as (chunks & Hr & Hb & _ & _ & _ & _ & Hd).
  exists chunks. split; [apply Hd; by apply file_of_holds|]. split; [exact Hr|exact Hb].
Defined.

(** ** A proof on its way *)

Definition the_peer : PeerCredentials := {| pc_pid := 42; pc_uid := 1000; pc_gid := 1000 |}.

(** A socket that sends whole packets and receives one. *)
Definition socket_with (message : bytes) (descriptors : list File) : Socket :=
  {| so_peercred := inr the_peer;
     so_getuid := 1000;
     so_peek := inl Errno_AGAIN;
     so_recvmsg n := inr (delivered message descriptors n);
     so_push := true;
     so_sendmsg packet _ := inr (len packet);
     so_set_timeout _ := None |}.

Definition proof_text : bytes := [x7b; x7d; x0a].
Definition sealed_text : SealedProof := {| sp_file := file_of 1024 proof_text; sp_size := 3 |}.

Lemma proof_through_socket_witness :
  ∃ received, receive_sign_response (socket_with (encode_sign_response Approved) [sp_file sealed_text]) =
      Ok {| rp_response := Approved; rp_proof := Some received; rp_peer := the_peer |} ∧
    read_bytes received = Ok proof_text.
Proof.
  apply (proof_through_socket small_memfd proof_text sealed_text (socket_with [] [])
    (socket_with (encode_sign_response Approved) [sp_file sealed_text]) the_peer
    (encode_sign_response Approved)).
  - exact small_memfd_ok.
  - vm_compute. reflexivity.
  - vm_compute. reflexivity.
  - split; reflexivity.
  - reflexivity.
  - reflexivity.
Defined.
