(* ===== verification/Approval.v ===== *)
(** * The approval protocol ([crates/a-quo-approval/src/lib.rs])

    The pipe between the signing daemon and its one-shot consent process: a
    prompt with the evidence to display, and one decision bound to the request.
    Messages are framed as in the consent protocol; encoders build a message by
    [extend_from_slice] ([extend] here) and decoders index into the bytes.
    Reading takes one message from a stream and nothing may follow it. *)

From stdpp Require Import base numbers list strings pretty option.
From Stdlib Require Import Strings.Byte Ascii.
From S2P Require Import Prelude Text Display Crates Io Names Fields.

(** ** Constants *)

Definition MAGIC : bytes := as_bytes "AQUOAPR" ++ [x00].
Definition HEADER_BYTES : N := 20.
Definition ARTIFACT_PROMPT_PREFIX_BYTES : N := 96.
Definition DOMAIN_PROMPT_PREFIX_BYTES : N := 76.
Definition PERSONA_ROOT_PROMPT_PREFIX_BYTES : N := 96.
Definition PERSONA_TRANSITION_PROMPT_PREFIX_BYTES : N := 168.
Definition RECOVERY_PARTICIPATION_PROMPT_PREFIX_BYTES : N := 200.
Definition DECISION_PAYLOAD_BYTES : N := 16.
Definition MESSAGE_ARTIFACT_PROMPT : N := 1.
Definition MESSAGE_APPROVE : N := 2.
Definition MESSAGE_DECLINE : N := 3.
Definition MESSAGE_CANCEL : N := 4.
Definition MESSAGE_DOMAIN_PROMPT : N := 5.
Definition MESSAGE_PERSONA_ROOT_PROMPT : N := 6.
Definition MESSAGE_PERSONA_TRANSITION_PROMPT : N := 7.
Definition MESSAGE_RECOVERY_PARTICIPATION_PROMPT : N := 8.
Definition FLAGS_NONE : N := 0.
Definition DOMAIN_MAX_VALIDITY_SECONDS : Z := (30 * 24 * 60 * 60)%Z.
Definition DNS_TXT_PREFIX : string := "a-quo-domain-v1=".
Definition PROTOCOL_MAJOR : N := 1.
Definition PROTOCOL_MINOR : N := 0.
Definition MAX_PERSONA_LABEL_BYTES : N := 256.
Definition MAX_KEY_FINGERPRINT_BYTES : N := 128.
Definition MAX_ARTIFACT_LABEL_BYTES : N := 256.
Definition MAX_DOMAIN_BYTES : N := 253.
Definition MAX_DNS_TXT_VALUE_BYTES : N := 128.
Definition MAX_PERSONA_ANCHOR_BYTES : N := 43.
Definition MAX_RECOVERY_CEREMONY_ID_BYTES : N := 43.
Definition MAX_RECOVERY_POLICY_VERSION : N := 1024.
Definition MIN_RECOVERY_THRESHOLD : N := 2.
Definition MAX_RECOVERY_THRESHOLD : N := 32.
Definition MAX_ARTIFACT_PROMPT_PAYLOAD_BYTES : N :=
  (ARTIFACT_PROMPT_PREFIX_BYTES + MAX_PERSONA_LABEL_BYTES + MAX_KEY_FINGERPRINT_BYTES +
   MAX_ARTIFACT_LABEL_BYTES)%N.
Definition MAX_DOMAIN_PROMPT_PAYLOAD_BYTES : N :=
  (DOMAIN_PROMPT_PREFIX_BYTES + MAX_PERSONA_LABEL_BYTES + MAX_KEY_FINGERPRINT_BYTES +
   MAX_DOMAIN_BYTES + MAX_DNS_TXT_VALUE_BYTES)%N.
Definition MAX_PERSONA_ROOT_PROMPT_PAYLOAD_BYTES : N :=
  (PERSONA_ROOT_PROMPT_PREFIX_BYTES + MAX_PERSONA_LABEL_BYTES + MAX_KEY_FINGERPRINT_BYTES +
   MAX_PERSONA_ANCHOR_BYTES)%N.
Definition MAX_PERSONA_TRANSITION_PROMPT_PAYLOAD_BYTES : N :=
  (PERSONA_TRANSITION_PROMPT_PREFIX_BYTES + MAX_PERSONA_LABEL_BYTES + MAX_KEY_FINGERPRINT_BYTES +
   MAX_KEY_FINGERPRINT_BYTES + MAX_PERSONA_ANCHOR_BYTES)%N.
Definition MAX_RECOVERY_PARTICIPATION_PROMPT_PAYLOAD_BYTES : N :=
  (RECOVERY_PARTICIPATION_PROMPT_PREFIX_BYTES + MAX_PERSONA_LABEL_BYTES +
   MAX_KEY_FINGERPRINT_BYTES + MAX_KEY_FINGERPRINT_BYTES + MAX_KEY_FINGERPRINT_BYTES +
   MAX_PERSONA_ANCHOR_BYTES + MAX_RECOVERY_CEREMONY_ID_BYTES)%N.
Definition MAX_ARTIFACT_OR_DOMAIN_PROMPT_PAYLOAD_BYTES : N :=
  if (MAX_DOMAIN_PROMPT_PAYLOAD_BYTES <? MAX_ARTIFACT_PROMPT_PAYLOAD_BYTES)%N
  then MAX_ARTIFACT_PROMPT_PAYLOAD_BYTES else MAX_DOMAIN_PROMPT_PAYLOAD_BYTES.
Definition MAX_ROOT_OR_TRANSITION_PROMPT_PAYLOAD_BYTES : N :=
  if (MAX_PERSONA_TRANSITION_PROMPT_PAYLOAD_BYTES <? MAX_PERSONA_ROOT_PROMPT_PAYLOAD_BYTES)%N
  then MAX_PERSONA_ROOT_PROMPT_PAYLOAD_BYTES else MAX_PERSONA_TRANSITION_PROMPT_PAYLOAD_BYTES.
Definition MAX_EXISTING_PROMPT_PAYLOAD_BYTES : N :=
  if (MAX_ROOT_OR_TRANSITION_PROMPT_PAYLOAD_BYTES <?
      MAX_ARTIFACT_OR_DOMAIN_PROMPT_PAYLOAD_BYTES)%N
  then MAX_ARTIFACT_OR_DOMAIN_PROMPT_PAYLOAD_BYTES
  else MAX_ROOT_OR_TRANSITION_PROMPT_PAYLOAD_BYTES.
Definition MAX_PROMPT_PAYLOAD_BYTES : N :=
  if (MAX_RECOVERY_PARTICIPATION_PROMPT_PAYLOAD_BYTES <? MAX_EXISTING_PROMPT_PAYLOAD_BYTES)%N
  then MAX_EXISTING_PROMPT_PAYLOAD_BYTES
  else MAX_RECOVERY_PARTICIPATION_PROMPT_PAYLOAD_BYTES.
Definition MAX_MESSAGE_BYTES : N := (HEADER_BYTES + MAX_PROMPT_PAYLOAD_BYTES)%N.

(** ** Errors *)

Inductive ProtocolError :=
| TruncatedHeader
| InvalidMagic
| UnsupportedVersion (major minor : N)
| UnsupportedMessageType (message_type : N)
| UnsupportedFlags (flags : N)
| PayloadTooLarge
| TruncatedPayload
| TrailingBytes
| InvalidLayout
| UnsupportedArtifactKind (value : N)
| UnsupportedPersonaPurpose (value : N)
| UnsupportedRecoveryParticipantRole (value : N)
| UnsupportedRecoveryReason (value : N)
| InvalidField (field reason : string)
| Read (error : IoError)
| Write (error : IoError).

Abbreviation ApprovalResult := (result ProtocolError).

(** ** Enumerations *)

Inductive ArtifactKind := Generic | SoftwareRelease | Article | Image.
Inductive PersonaPurpose := Personal | Pseudonymous | Project | Organization | LegalBridge.
Inductive RecoveryParticipantRole := RecoveryAuthority | NextSigningKey.
Inductive RecoveryReason := Recovery | Compromise.

Definition kind_value (kind : ArtifactKind) : N :=
  match kind with Generic => 1 | SoftwareRelease => 2 | Article => 3 | Image => 4 end.
Definition purpose_value (purpose : PersonaPurpose) : N :=
  match purpose with
  | Personal => 1 | Pseudonymous => 2 | Project => 3 | Organization => 4 | LegalBridge => 5
  end.
Definition role_value (role : RecoveryParticipantRole) : N :=
  match role with RecoveryAuthority => 1 | NextSigningKey => 2 end.
Definition reason_value (reason : RecoveryReason) : N :=
  match reason with Recovery => 1 | Compromise => 2 end.

Definition kind_label (kind : ArtifactKind) : string :=
  match kind with
  | Generic => "generic artifact" | SoftwareRelease => "software release"
  | Article => "article" | Image => "image"
  end.
Definition purpose_label (purpose : PersonaPurpose) : string :=
  match purpose with
  | Personal => "personal" | Pseudonymous => "pseudonymous" | Project => "project"
  | Organization => "organization" | LegalBridge => "legal bridge"
  end.
Definition role_label (role : RecoveryParticipantRole) : string :=
  match role with
  | RecoveryAuthority => "recovery authority" | NextSigningKey => "next signing key"
  end.
Definition reason_label (reason : RecoveryReason) : string :=
  match reason with Recovery => "recovery" | Compromise => "compromise" end.

Definition decode_kind (value : N) : ApprovalResult ArtifactKind :=
  match value with
  | 1%N => Ok Generic | 2%N => Ok SoftwareRelease | 3%N => Ok Article | 4%N => Ok Image
  | _ => Err (UnsupportedArtifactKind value)
  end.
Definition decode_purpose (value : N) : ApprovalResult PersonaPurpose :=
  match value with
  | 1%N => Ok Personal | 2%N => Ok Pseudonymous | 3%N => Ok Project | 4%N => Ok Organization
  | 5%N => Ok LegalBridge
  | _ => Err (UnsupportedPersonaPurpose value)
  end.
Definition decode_role (value : N) : ApprovalResult RecoveryParticipantRole :=
  match value with
  | 1%N => Ok RecoveryAuthority | 2%N => Ok NextSigningKey
  | _ => Err (UnsupportedRecoveryParticipantRole value)
  end.
Definition decode_reason (value : N) : ApprovalResult RecoveryReason :=
  match value with
  | 1%N => Ok Recovery | 2%N => Ok Compromise
  | _ => Err (UnsupportedRecoveryReason value)
  end.

(** ** Data *)

(** [uuid::Uuid] as the protocol uses it: [as_bytes], [from_slice] and
    [is_nil]. The crate is outside the repository. *)
Class UuidBytes := {
  Uuid : Type;
  uuid_as_bytes : Uuid → bytes;
  uuid_from_slice : bytes → option Uuid;
  uuid_is_nil : Uuid → bool;
}.

(** A UUID is its sixteen bytes, and [from_slice] fails only on other lengths. *)
Class UuidBytesOk `{!UuidBytes} := {
  uuid_length u : len (uuid_as_bytes u) = 16%N;
  uuid_from_as_bytes u : uuid_from_slice (uuid_as_bytes u) = Some u;
  uuid_as_from_slice bs u : uuid_from_slice bs = Some u → uuid_as_bytes u = bs;
  uuid_from_slice_total bs : len bs = 16%N → is_Some (uuid_from_slice bs);
}.

Record PeerIdentity := { pid : N; uid : N; gid : N }.
Record ArtifactApproval := {
  aa_artifact_kind : ArtifactKind;
  aa_artifact_label : string;
  aa_artifact_sha256 : bytes;
  aa_artifact_size : N;
}.
Record DomainApproval := {
  da_domain : string;
  da_dns_txt_value : string;
  da_issued_at : Z;
  da_expires_at : Z;
}.
Record PersonaRootApproval := {
  ra_persona_anchor : string;
  ra_root_statement_sha256 : bytes;
  ra_issued_at : Z;
}.
Record PersonaTransitionApproval := {
  ta_persona_anchor : string;
  ta_root_statement_sha256 : bytes;
  ta_sequence : N;
  ta_previous_transition_sha256 : option bytes;
  ta_issued_at : Z;
  ta_previous_key_fingerprint : string;
  ta_next_key_fingerprint : string;
  ta_transition_statement_sha256 : bytes;
}.
Record RecoveryParticipationApproval := {
  pa_request_sha256 : bytes;
  pa_ceremony_id : string;
  pa_ceremony_expires_at : Z;
  pa_persona_anchor : string;
  pa_root_statement_sha256 : bytes;
  pa_recovery_policy_version : N;
  pa_recovery_policy_sha256 : bytes;
  pa_recovery_policy_threshold : N;
  pa_previous_head_sequence : N;
  pa_previous_head_sha256 : option bytes;
  pa_reason : RecoveryReason;
  pa_previous_key_fingerprint : string;
  pa_next_key_fingerprint : string;
  pa_participant_role : RecoveryParticipantRole;
  pa_participant_key_fingerprint : string;
}.
Inductive ApprovalSubject :=
| Artifact (artifact : ArtifactApproval)
| Domain (domain : DomainApproval)
| PersonaRoot (root : PersonaRootApproval)
| PersonaTransition (transition : PersonaTransitionApproval)
| RecoveryParticipation (recovery : RecoveryParticipationApproval).

Inductive ApprovalDecision := Approve | Decline | Cancel.

(** ** Digests as text *)

Definition HEX : string := "0123456789abcdef".

(** [HEX[i]] for a nibble, which is in range. *)
Definition hex_at (i : N) : ascii := default "0"%char (String.get (N.to_nat i) HEX).

Fixpoint encode_hex (bs : bytes) : string :=
  match bs with
  | [] => EmptyString
  | byte :: bs' =>
      String (hex_at (N.shiftr (byte_val byte) 4))
        (String (hex_at (N.land (byte_val byte) 15)) (encode_hex bs'))
  end.

Definition artifact_sha256_hex (artifact : ArtifactApproval) : string :=
  encode_hex (aa_artifact_sha256 artifact).
Definition root_root_sha256_hex (root : PersonaRootApproval) : string :=
  encode_hex (ra_root_statement_sha256 root).
Definition transition_root_sha256_hex (transition : PersonaTransitionApproval) : string :=
  encode_hex (ta_root_statement_sha256 transition).
Definition previous_sha256_hex (transition : PersonaTransitionApproval) : option string :=
  encode_hex <$> ta_previous_transition_sha256 transition.
Definition transition_sha256_hex (transition : PersonaTransitionApproval) : string :=
  encode_hex (ta_transition_statement_sha256 transition).
Definition request_sha256_hex (recovery : RecoveryParticipationApproval) : string :=
  encode_hex (pa_request_sha256 recovery).
Definition recovery_root_sha256_hex (recovery : RecoveryParticipationApproval) : string :=
  encode_hex (pa_root_statement_sha256 recovery).
Definition policy_sha256_hex (recovery : RecoveryParticipationApproval) : string :=
  encode_hex (pa_recovery_policy_sha256 recovery).
Definition previous_head_sha256_hex (recovery : RecoveryParticipationApproval) : option string :=
  encode_hex <$> pa_previous_head_sha256 recovery.

(** ** The header *)

Definition encode_header (message_type payload_len : N) : bytes :=
  extend [] [MAGIC; to_be_bytes 2 PROTOCOL_MAJOR; to_be_bytes 2 PROTOCOL_MINOR;
    to_be_bytes 2 message_type; to_be_bytes 2 FLAGS_NONE; to_be_bytes 4 payload_len].

Definition decode_common_header (message : bytes) : ApprovalResult N :=
  reject_if (len message <? HEADER_BYTES)%N TruncatedHeader;;
  magic ← slice message 0 (len MAGIC);
  reject_if (magic != MAGIC) InvalidMagic;;
  major ← read_u16 message 8;
  minor ← read_u16 message 10;
  reject_if ((major != PROTOCOL_MAJOR) || (minor != PROTOCOL_MINOR)) (UnsupportedVersion major minor);;
  flags ← read_u16 message 14;
  reject_if (flags != FLAGS_NONE) (UnsupportedFlags flags);;
  read_u16 message 12.

Definition decode_header (message : bytes) (expected_type maximum_payload : N) :
    ApprovalResult bytes :=
  message_type ← decode_common_header message;
  reject_if (message_type != expected_type) (UnsupportedMessageType message_type);;
  payload_len ← read_u32 message 16;
  reject_if (maximum_payload <? payload_len)%N PayloadTooLarge;;
  expected ← ok_or (checked_add_usize HEADER_BYTES payload_len) PayloadTooLarge;
  match (len message ?= expected)%N with
  | Lt => Err TruncatedPayload
  | Gt => Err TrailingBytes
  | Eq => slice message HEADER_BYTES (len message)
  end.

Definition decode_text (field : string) (bs : bytes) : ApprovalResult string :=
  ok_or (from_utf8 bs) (InvalidField field "it must be UTF-8").

(** ** Validation *)

Definition validate_text (field value : string) (maximum : N) : ApprovalResult unit :=
  reject_if (value == "") (InvalidField field "it cannot be empty");;
  reject_if (maximum <? str_len value)%N
    (InvalidField field ("it cannot exceed " +:+ pretty maximum +:+ " UTF-8 bytes"));;
  reject_if (trim value != value)
    (InvalidField field "leading and trailing whitespace are not allowed");;
  reject_if (contains_unsafe_display_characters value)
    (InvalidField field
      "control, line/paragraph separator, or default-ignorable Unicode characters are not allowed").

Definition is_label_byte (c : ascii) : bool :=
  is_ascii_lowercase c || is_ascii_digit c || Ascii.eqb c "-".

(** The condition on a label that [validate_domain_approval] rejects. *)
Definition invalid_label (label : string) : bool :=
  (label == "") || (63 <? str_len label)%N || starts_with "-" label || ends_with "-" label ||
  negb (str_all is_label_byte label).

Definition SPECIAL_SUFFIXES : list string :=
  ["alt"; "example"; "example.com"; "example.net"; "example.org"; "home.arpa"; "invalid";
   "local"; "localhost"; "onion"; "test"].

Definition is_special_use_domain (domain : string) : bool :=
  existsb (λ suffix, (domain == suffix) || ends_with ("." +:+ suffix) domain) SPECIAL_SUFFIXES.

Section validation.
Context {crates : Crates}.

Definition validate_key_fingerprint (field value : string) : ApprovalResult unit :=
  validate_text field value MAX_KEY_FINGERPRINT_BYTES;;
  fingerprint ← ok_or (strip_prefix "SHA256:" value)
    (InvalidField field "expected the canonical OpenSSH SHA256 form");
  decoded ← map_err
    (λ _, InvalidField field "expected canonical unpadded Base64 after SHA256:")
    (of_sum (STANDARD_NO_PAD_decode fingerprint));
  reject_if ((len decoded != 32%N) || (STANDARD_NO_PAD_encode decoded != fingerprint))
    (InvalidField field "expected the canonical 32-byte OpenSSH SHA256 digest").

Definition validate_persona_anchor (anchor : string) : ApprovalResult unit :=
  validate_text "persona anchor" anchor MAX_PERSONA_ANCHOR_BYTES;;
  decoded ← map_err
    (λ _, InvalidField "persona anchor" "expected canonical unpadded Base64url")
    (of_sum (URL_SAFE_NO_PAD_decode anchor));
  reject_if ((len decoded != 32%N) || (URL_SAFE_NO_PAD_encode decoded != anchor))
    (InvalidField "persona anchor" "expected one canonical 32-byte persona anchor").

Definition validate_recovery_ceremony_id (value : string) : ApprovalResult unit :=
  validate_text "ceremony ID" value MAX_RECOVERY_CEREMONY_ID_BYTES;;
  decoded ← map_err
    (λ _, InvalidField "ceremony ID" "expected canonical unpadded Base64url")
    (of_sum (URL_SAFE_NO_PAD_decode value));
  reject_if ((len decoded != 32%N) || (URL_SAFE_NO_PAD_encode decoded != value))
    (InvalidField "ceremony ID" "expected one canonical 32-byte ceremony identifier").

Definition validate_persona_root_approval (root : PersonaRootApproval) : ApprovalResult unit :=
  validate_persona_anchor (ra_persona_anchor root);;
  reject_if (ra_issued_at root <? 0)%Z
    (InvalidField "root issuance time" "it must be nonnegative").

Definition validate_domain_approval (domain : DomainApproval) : ApprovalResult unit :=
  validate_text "domain" (da_domain domain) MAX_DOMAIN_BYTES;;
  let labels := split_on "." (da_domain domain) in
  reject_if ((len labels <? 2)%N || existsb invalid_label labels ||
             is_special_use_domain (da_domain domain))
    (InvalidField "domain" "expected a canonical global lowercase ASCII DNS name");;
  validate_text "DNS TXT value" (da_dns_txt_value domain) MAX_DNS_TXT_VALUE_BYTES;;
  encoded ← ok_or (strip_prefix DNS_TXT_PREFIX (da_dns_txt_value domain))
    (InvalidField "DNS TXT value" "expected the A Quo domain commitment prefix");
  digest ← map_err
    (λ _, InvalidField "DNS TXT value" "expected canonical unpadded Base64url")
    (of_sum (URL_SAFE_NO_PAD_decode encoded));
  reject_if ((len digest != 32%N) || (URL_SAFE_NO_PAD_encode digest != encoded))
    (InvalidField "DNS TXT value" "expected one canonical 32-byte SHA-256 commitment");;
  validity ← ok_or (checked_sub_i64 (da_expires_at domain) (da_issued_at domain))
    (InvalidField "domain validity" "expiry must follow issuance");
  reject_if ((da_issued_at domain <? 0) || (validity <=? 0) ||
             (DOMAIN_MAX_VALIDITY_SECONDS <? validity))%Z
    (InvalidField "domain validity"
      ("timestamps must be nonnegative and span at most " +:+
       pretty DOMAIN_MAX_VALIDITY_SECONDS +:+ " seconds")).

End validation.

(** ** Prompts *)

Section protocol.
Context {crates : Crates} {uuids : UuidBytes}.

Record ApprovalPrompt := {
  ap_request_id : Uuid;
  ap_persona_id : option Uuid;
  ap_persona_label : string;
  ap_persona_purpose : option PersonaPurpose;
  ap_key_fingerprint : string;
  ap_subject : ApprovalSubject;
  ap_peer : PeerIdentity;
}.

Record DecisionResponse := { dr_request_id : Uuid; dr_decision : ApprovalDecision }.

Definition validate_persona_transition_approval (prompt : ApprovalPrompt)
    (transition : PersonaTransitionApproval) : ApprovalResult unit :=
  validate_persona_anchor (ta_persona_anchor transition);;
  reject_if (ta_issued_at transition <? 0)%Z
    (InvalidField "transition issuance time" "it must be nonnegative");;
  reject_if (ta_sequence transition == 0%N)
    (InvalidField "transition sequence" "it must start at 1");;
  match (ta_sequence transition =? 1)%N, ta_previous_transition_sha256 transition with
  | true, None => Ok tt
  | true, Some _ => Err (InvalidField "previous transition digest"
      "sequence 1 cannot name a previous transition")
  | false, Some _ => Ok tt
  | false, None => Err (InvalidField "previous transition digest"
      "sequences after 1 require a previous transition")
  end;;
  reject_if (ap_key_fingerprint prompt != ta_previous_key_fingerprint transition)
    (InvalidField "previous key fingerprint" "it must equal the prompt's selected signing key");;
  validate_key_fingerprint "previous key fingerprint" (ta_previous_key_fingerprint transition);;
  validate_key_fingerprint "next key fingerprint" (ta_next_key_fingerprint transition);;
  reject_if (ta_previous_key_fingerprint transition == ta_next_key_fingerprint transition)
    (InvalidField "next key fingerprint" "it must differ from the previous key").

(** The condition on the participant of each role. *)
Definition validate_participant_role (recovery : RecoveryParticipationApproval) :
    ApprovalResult unit :=
  match pa_participant_role recovery with
  | RecoveryAuthority =>
      reject_if
        ((pa_participant_key_fingerprint recovery == pa_previous_key_fingerprint recovery) ||
         (pa_participant_key_fingerprint recovery == pa_next_key_fingerprint recovery))
        (InvalidField "participant key fingerprint"
          "a recovery authority must be distinct from both online signing keys")
  | NextSigningKey =>
      reject_if (pa_participant_key_fingerprint recovery != pa_next_key_fingerprint recovery)
        (InvalidField "participant key fingerprint"
          "the next-key participant must match the proposed next signing key")
  end.

Definition validate_recovery_participation_approval (prompt : ApprovalPrompt)
    (recovery : RecoveryParticipationApproval) : ApprovalResult unit :=
  validate_persona_anchor (pa_persona_anchor recovery);;
  validate_recovery_ceremony_id (pa_ceremony_id recovery);;
  reject_if (pa_ceremony_expires_at recovery <=? 0)%Z
    (InvalidField "ceremony expiry" "it must be positive");;
  reject_if (negb ((1 <=? pa_recovery_policy_version recovery) &&
                   (pa_recovery_policy_version recovery <=? MAX_RECOVERY_POLICY_VERSION))%N)
    (InvalidField "recovery policy version"
      ("it must be 1 through " +:+ pretty MAX_RECOVERY_POLICY_VERSION));;
  reject_if (negb ((MIN_RECOVERY_THRESHOLD <=? pa_recovery_policy_threshold recovery) &&
                   (pa_recovery_policy_threshold recovery <=? MAX_RECOVERY_THRESHOLD))%N)
    (InvalidField "recovery policy threshold"
      ("it must be " +:+ pretty MIN_RECOVERY_THRESHOLD +:+ " through " +:+
       pretty MAX_RECOVERY_THRESHOLD));;
  match (pa_previous_head_sequence recovery =? 0)%N, pa_previous_head_sha256 recovery with
  | true, None => Ok tt
  | true, Some _ => Err (InvalidField "previous head digest"
      "the root head cannot name a transition digest")
  | false, Some _ => Ok tt
  | false, None => Err (InvalidField "previous head digest"
      "a transition head requires its exact digest")
  end;;
  validate_key_fingerprint "participant key fingerprint"
    (pa_participant_key_fingerprint recovery);;
  reject_if (ap_key_fingerprint prompt != pa_participant_key_fingerprint recovery)
    (InvalidField "participant key fingerprint"
      "it must equal the prompt's selected participant key");;
  validate_key_fingerprint "previous key fingerprint" (pa_previous_key_fingerprint recovery);;
  validate_key_fingerprint "next key fingerprint" (pa_next_key_fingerprint recovery);;
  reject_if (pa_previous_key_fingerprint recovery == pa_next_key_fingerprint recovery)
    (InvalidField "next key fingerprint"
      "recovery must replace the previous key with a distinct key");;
  validate_participant_role recovery.

Definition is_recovery_participation (subject : ApprovalSubject) : bool :=
  match subject with RecoveryParticipation _ => true | _ => false end.

(** The checks on the local persona of a prompt. *)
Definition validate_local_persona (prompt : ApprovalPrompt) : ApprovalResult unit :=
  match ap_persona_id prompt, ap_persona_purpose prompt,
        is_recovery_participation (ap_subject prompt) with
  | None, None, true => Ok tt
  | Some _, _, true | _, Some _, true => Err (InvalidField "local persona metadata"
      "recovery participation must not expose a coordinator-local persona UUID or purpose")
  | Some persona_id, Some _, false =>
      reject_if (uuid_is_nil persona_id) (InvalidField "persona ID" "it cannot be the nil UUID")
  | _, _, _ => Err (InvalidField "local persona metadata"
      "this prompt purpose requires both a persona UUID and purpose")
  end.

Definition validate_prompt_subject (prompt : ApprovalPrompt) : ApprovalResult unit :=
  match ap_subject prompt with
  | Artifact artifact =>
      validate_text "artifact label" (aa_artifact_label artifact) MAX_ARTIFACT_LABEL_BYTES
  | Domain domain => validate_domain_approval domain
  | PersonaRoot root => validate_persona_root_approval root
  | PersonaTransition transition => validate_persona_transition_approval prompt transition
  | RecoveryParticipation recovery => validate_recovery_participation_approval prompt recovery
  end.

Definition validate_prompt (prompt : ApprovalPrompt) : ApprovalResult unit :=
  reject_if (uuid_is_nil (ap_request_id prompt))
    (InvalidField "request ID" "it cannot be the nil UUID");;
  validate_local_persona prompt;;
  validate_text "persona label" (ap_persona_label prompt) MAX_PERSONA_LABEL_BYTES;;
  validate_key_fingerprint "key fingerprint" (ap_key_fingerprint prompt);;
  validate_prompt_subject prompt;;
  reject_if (pid (ap_peer prompt) == 0%N) (InvalidField "peer PID" "it must be nonzero").

Definition required_persona_id (prompt : ApprovalPrompt) : ApprovalResult Uuid :=
  ok_or (ap_persona_id prompt)
    (InvalidField "persona ID" "it is required for this prompt purpose").
Definition required_persona_purpose (prompt : ApprovalPrompt) : ApprovalResult PersonaPurpose :=
  ok_or (ap_persona_purpose prompt)
    (InvalidField "persona purpose" "it is required for this prompt purpose").

(** ** Constructors *)

Definition new_with_subject (request_id : Uuid) (persona_id : option Uuid) (persona_label : string)
    (persona_purpose : option PersonaPurpose) (key_fingerprint : string)
    (subject : ApprovalSubject) (peer : PeerIdentity) : ApprovalResult ApprovalPrompt :=
  let prompt := {| ap_request_id := request_id; ap_persona_id := persona_id;
    ap_persona_label := persona_label; ap_persona_purpose := persona_purpose;
    ap_key_fingerprint := key_fingerprint; ap_subject := subject; ap_peer := peer |} in
  validate_prompt prompt;;
  Ok prompt.

Definition ApprovalPrompt_new (request_id persona_id : Uuid) (persona_label : string)
    (persona_purpose : PersonaPurpose) (key_fingerprint : string) (artifact_kind : ArtifactKind)
    (artifact_label : string) (artifact_sha256 : bytes) (artifact_size : N)
    (peer : PeerIdentity) : ApprovalResult ApprovalPrompt :=
  new_with_subject request_id (Some persona_id) persona_label (Some persona_purpose)
    key_fingerprint
    (Artifact {| aa_artifact_kind := artifact_kind; aa_artifact_label := artifact_label;
       aa_artifact_sha256 := artifact_sha256; aa_artifact_size := artifact_size |}) peer.

Definition new_domain (request_id persona_id : Uuid) (persona_label : string)
    (persona_purpose : PersonaPurpose) (key_fingerprint domain dns_txt_value : string)
    (issued_at expires_at : Z) (peer : PeerIdentity) : ApprovalResult ApprovalPrompt :=
  new_with_subject request_id (Some persona_id) persona_label (Some persona_purpose)
    key_fingerprint
    (Domain {| da_domain := domain; da_dns_txt_value := dns_txt_value;
       da_issued_at := issued_at; da_expires_at := expires_at |}) peer.

Definition new_persona_root (request_id persona_id : Uuid) (persona_label : string)
    (persona_purpose : PersonaPurpose) (key_fingerprint persona_anchor : string)
    (root_statement_sha256 : bytes) (issued_at : Z) (peer : PeerIdentity) :
    ApprovalResult ApprovalPrompt :=
  new_with_subject request_id (Some persona_id) persona_label (Some persona_purpose)
    key_fingerprint
    (PersonaRoot {| ra_persona_anchor := persona_anchor;
       ra_root_statement_sha256 := root_statement_sha256; ra_issued_at := issued_at |}) peer.

Definition new_persona_transition (request_id persona_id : Uuid) (persona_label : string)
    (persona_purpose : PersonaPurpose) (previous_key_fingerprint persona_anchor : string)
    (root_statement_sha256 : bytes) (sequence : N) (previous_transition_sha256 : option bytes)
    (issued_at : Z) (next_key_fingerprint : string) (transition_statement_sha256 : bytes)
    (peer : PeerIdentity) : ApprovalResult ApprovalPrompt :=
  new_with_subject request_id (Some persona_id) persona_label (Some persona_purpose)
    previous_key_fingerprint
    (PersonaTransition {| ta_persona_anchor := persona_anchor;
       ta_root_statement_sha256 := root_statement_sha256; ta_sequence := sequence;
       ta_previous_transition_sha256 := previous_transition_sha256; ta_issued_at := issued_at;
       ta_previous_key_fingerprint := previous_key_fingerprint;
       ta_next_key_fingerprint := next_key_fingerprint;
       ta_transition_statement_sha256 := transition_statement_sha256 |}) peer.

Definition new_recovery_participation (request_id : Uuid)
    (persona_label participant_key_fingerprint : string) (request_sha256 : bytes)
    (ceremony_id : string) (ceremony_expires_at : Z) (persona_anchor : string)
    (root_statement_sha256 : bytes) (recovery_policy_version : N)
    (recovery_policy_sha256 : bytes) (recovery_policy_threshold previous_head_sequence : N)
    (previous_head_sha256 : option bytes) (reason : RecoveryReason)
    (previous_key_fingerprint next_key_fingerprint : string)
    (participant_role : RecoveryParticipantRole) (peer : PeerIdentity) :
    ApprovalResult ApprovalPrompt :=
  new_with_subject request_id None persona_label None participant_key_fingerprint
    (RecoveryParticipation {| pa_request_sha256 := request_sha256; pa_ceremony_id := ceremony_id;
       pa_ceremony_expires_at := ceremony_expires_at; pa_persona_anchor := persona_anchor;
       pa_root_statement_sha256 := root_statement_sha256;
       pa_recovery_policy_version := recovery_policy_version;
       pa_recovery_policy_sha256 := recovery_policy_sha256;
       pa_recovery_policy_threshold := recovery_policy_threshold;
       pa_previous_head_sequence := previous_head_sequence;
       pa_previous_head_sha256 := previous_head_sha256; pa_reason := reason;
       pa_previous_key_fingerprint := previous_key_fingerprint;
       pa_next_key_fingerprint := next_key_fingerprint;
       pa_participant_role := participant_role;
       pa_participant_key_fingerprint := participant_key_fingerprint |}) peer.

End protocol.
