(* ===== verification/ApprovalCodec.v ===== *)
(** * Messages of the approval protocol ([crates/a-quo-approval/src/lib.rs])

    Encoding and decoding of the five kinds of prompt and of the decisions, and
    the reads and writes of one message. A decoder first takes the payload from
    the frame and then reads its fields: the second half of each is a
    definition of its own ([..._of_payload]). *)

From stdpp Require Import base numbers list strings pretty option.
From Stdlib Require Import Strings.Byte Ascii.
From S2P Require Import Prelude Text Display Crates Io Names Fields Approval.

Section protocol.
Context {crates : Crates} {uuids : UuidBytes}.

(** ** Encoding *)

(** [start.checked_add(a).and_then(|length| length.checked_add(b))...] *)
Definition checked_sum (start : N) (lengths : list N) : option N :=
  foldl (λ sum length, sum ≫= λ sum, checked_add_usize sum length) (Some start) lengths.

(** The identity of the peer, which every prompt carries. *)
Definition peer_bytes (peer : PeerIdentity) : list bytes :=
  [to_be_bytes 4 (pid peer); to_be_bytes 4 (uid peer); to_be_bytes 4 (gid peer)].

Definition encode_artifact_prompt (prompt : ApprovalPrompt) (artifact : ArtifactApproval) :
    ApprovalResult bytes :=
  let persona_label := as_bytes (ap_persona_label prompt) in
  let fingerprint := as_bytes (ap_key_fingerprint prompt) in
  let artifact_label := as_bytes (aa_artifact_label artifact) in
  payload_len ← ok_or
    (checked_sum ARTIFACT_PROMPT_PREFIX_BYTES
      [len persona_label; len fingerprint; len artifact_label]) PayloadTooLarge;
  purpose ← required_persona_purpose prompt;
  persona_id ← required_persona_id prompt;
  let message := extend (encode_header MESSAGE_ARTIFACT_PROMPT payload_len)
    ([[byte_of (kind_value (aa_artifact_kind artifact))]; [byte_of (purpose_value purpose)];
      to_be_bytes 2 0] ++ peer_bytes (ap_peer prompt) ++
     [to_be_bytes 8 (aa_artifact_size artifact); uuid_as_bytes (ap_request_id prompt);
      uuid_as_bytes persona_id; aa_artifact_sha256 artifact; to_be_bytes 2 (len persona_label);
      to_be_bytes 2 (len fingerprint); to_be_bytes 2 (len artifact_label); to_be_bytes 2 0]) in
  debug_assert (len message == (HEADER_BYTES + ARTIFACT_PROMPT_PREFIX_BYTES)%N);;
  Ok (extend message [persona_label; fingerprint; artifact_label]).

Definition encode_domain_prompt (prompt : ApprovalPrompt) (domain : DomainApproval) :
    ApprovalResult bytes :=
  let persona_label := as_bytes (ap_persona_label prompt) in
  let fingerprint := as_bytes (ap_key_fingerprint prompt) in
  let domain_name := as_bytes (da_domain domain) in
  let dns_txt_value := as_bytes (da_dns_txt_value domain) in
  payload_len ← ok_or
    (checked_sum DOMAIN_PROMPT_PREFIX_BYTES
      [len persona_label; len fingerprint; len domain_name; len dns_txt_value]) PayloadTooLarge;
  purpose ← required_persona_purpose prompt;
  persona_id ← required_persona_id prompt;
  let message := extend (encode_header MESSAGE_DOMAIN_PROMPT payload_len)
    ([[byte_of (purpose_value purpose)]; repeat x00 3] ++ peer_bytes (ap_peer prompt) ++
     [i64_bytes (da_issued_at domain); i64_bytes (da_expires_at domain);
      uuid_as_bytes (ap_request_id prompt); uuid_as_bytes persona_id;
      to_be_bytes 2 (len persona_label); to_be_bytes 2 (len fingerprint);
      to_be_bytes 2 (len domain_name); to_be_bytes 2 (len dns_txt_value); to_be_bytes 4 0]) in
  debug_assert (len message == (HEADER_BYTES + DOMAIN_PROMPT_PREFIX_BYTES)%N);;
  Ok (extend message [persona_label; fingerprint; domain_name; dns_txt_value]).

Definition encode_persona_root_prompt (prompt : ApprovalPrompt) (root : PersonaRootApproval) :
    ApprovalResult bytes :=
  let persona_label := as_bytes (ap_persona_label prompt) in
  let fingerprint := as_bytes (ap_key_fingerprint prompt) in
  let persona_anchor := as_bytes (ra_persona_anchor root) in
  payload_len ← ok_or
    (checked_sum PERSONA_ROOT_PROMPT_PREFIX_BYTES
      [len persona_label; len fingerprint; len persona_anchor]) PayloadTooLarge;
  purpose ← required_persona_purpose prompt;
  persona_id ← required_persona_id prompt;
  let message := extend (encode_header MESSAGE_PERSONA_ROOT_PROMPT payload_len)
    ([[byte_of (purpose_value purpose)]; repeat x00 3] ++ peer_bytes (ap_peer prompt) ++
     [i64_bytes (ra_issued_at root); uuid_as_bytes (ap_request_id prompt);
      uuid_as_bytes persona_id; ra_root_statement_sha256 root;
      to_be_bytes 2 (len persona_label); to_be_bytes 2 (len fingerprint);
      to_be_bytes 2 (len persona_anchor); to_be_bytes 2 0]) in
  debug_assert (len message == (HEADER_BYTES + PERSONA_ROOT_PROMPT_PREFIX_BYTES)%N);;
  Ok (extend message [persona_label; fingerprint; persona_anchor]).

Definition encode_persona_transition_prompt (prompt : ApprovalPrompt)
    (transition : PersonaTransitionApproval) : ApprovalResult bytes :=
  let persona_label := as_bytes (ap_persona_label prompt) in
  let previous_fingerprint := as_bytes (ta_previous_key_fingerprint transition) in
  let next_fingerprint := as_bytes (ta_next_key_fingerprint transition) in
  let persona_anchor := as_bytes (ta_persona_anchor transition) in
  payload_len ← ok_or
    (checked_sum PERSONA_TRANSITION_PROMPT_PREFIX_BYTES
      [len persona_label; len previous_fingerprint; len next_fingerprint; len persona_anchor])
    PayloadTooLarge;
  purpose ← required_persona_purpose prompt;
  persona_id ← required_persona_id prompt;
  let message := extend (encode_header MESSAGE_PERSONA_TRANSITION_PROMPT payload_len)
    ([[byte_of (purpose_value purpose)]; presence (ta_previous_transition_sha256 transition);
      to_be_bytes 2 0] ++ peer_bytes (ap_peer prompt) ++
     [to_be_bytes 4 (ta_sequence transition); i64_bytes (ta_issued_at transition);
      uuid_as_bytes (ap_request_id prompt); uuid_as_bytes persona_id;
      ta_root_statement_sha256 transition;
      digest_or_zeros (ta_previous_transition_sha256 transition);
      ta_transition_statement_sha256 transition; to_be_bytes 2 (len persona_label);
      to_be_bytes 2 (len previous_fingerprint); to_be_bytes 2 (len next_fingerprint);
      to_be_bytes 2 (len persona_anchor); to_be_bytes 4 0]) in
  debug_assert (len message == (HEADER_BYTES + PERSONA_TRANSITION_PROMPT_PREFIX_BYTES)%N);;
  Ok (extend message [persona_label; previous_fingerprint; next_fingerprint; persona_anchor]).

Definition encode_recovery_participation_prompt (prompt : ApprovalPrompt)
    (recovery : RecoveryParticipationApproval) : ApprovalResult bytes :=
  let persona_label := as_bytes (ap_persona_label prompt) in
  let participant_fingerprint := as_bytes (pa_participant_key_fingerprint recovery) in
  let previous_fingerprint := as_bytes (pa_previous_key_fingerprint recovery) in
  let next_fingerprint := as_bytes (pa_next_key_fingerprint recovery) in
  let persona_anchor := as_bytes (pa_persona_anchor recovery) in
  let ceremony_id := as_bytes (pa_ceremony_id recovery) in
  payload_len ← ok_or
    (checked_sum RECOVERY_PARTICIPATION_PROMPT_PREFIX_BYTES
      [len persona_label; len participant_fingerprint; len previous_fingerprint;
       len next_fingerprint; len persona_anchor; len ceremony_id]) PayloadTooLarge;
  let message := extend (encode_header MESSAGE_RECOVERY_PARTICIPATION_PROMPT payload_len)
    ([[byte_of (role_value (pa_participant_role recovery))];
      [byte_of (reason_value (pa_reason recovery))];
      presence (pa_previous_head_sha256 recovery); [x00]] ++ peer_bytes (ap_peer prompt) ++
     [to_be_bytes 4 (pa_recovery_policy_version recovery);
      to_be_bytes 4 (pa_recovery_policy_threshold recovery);
      to_be_bytes 4 (pa_previous_head_sequence recovery); to_be_bytes 4 0;
      i64_bytes (pa_ceremony_expires_at recovery); uuid_as_bytes (ap_request_id prompt);
      pa_request_sha256 recovery; pa_root_statement_sha256 recovery;
      pa_recovery_policy_sha256 recovery; digest_or_zeros (pa_previous_head_sha256 recovery);
      to_be_bytes 2 (len persona_label); to_be_bytes 2 (len participant_fingerprint);
      to_be_bytes 2 (len previous_fingerprint); to_be_bytes 2 (len next_fingerprint);
      to_be_bytes 2 (len persona_anchor); to_be_bytes 2 (len ceremony_id); to_be_bytes 4 0]) in
  debug_assert (len message == (HEADER_BYTES + RECOVERY_PARTICIPATION_PROMPT_PREFIX_BYTES)%N);;
  Ok (extend message [persona_label; participant_fingerprint; previous_fingerprint;
    next_fingerprint; persona_anchor; ceremony_id]).

Definition encode_prompt (prompt : ApprovalPrompt) : ApprovalResult bytes :=
  validate_prompt prompt;;
  match ap_subject prompt with
  | Artifact artifact => encode_artifact_prompt prompt artifact
  | Domain domain => encode_domain_prompt prompt domain
  | PersonaRoot root => encode_persona_root_prompt prompt root
  | PersonaTransition transition => encode_persona_transition_prompt prompt transition
  | RecoveryParticipation recovery => encode_recovery_participation_prompt prompt recovery
  end.

(** ** Decoding *)

Definition read_peer (payload : bytes) : ApprovalResult PeerIdentity :=
  pid ← read_u32 payload 4;
  uid ← read_u32 payload 8;
  gid ← read_u32 payload 12;
  Ok {| pid := pid; uid := uid; gid := gid |}.

(** [Uuid::from_slice(&payload[a..b])] *)
Definition read_uuid (payload : bytes) (a b : N) : ApprovalResult Uuid :=
  bs ← slice payload a b;
  ok_or (uuid_from_slice bs) InvalidLayout.

Definition text_at (field : string) (payload : bytes) (a b : N) : ApprovalResult string :=
  bs ← slice payload a b;
  decode_text field bs.

Definition artifact_prompt_of_payload (payload : bytes) : ApprovalResult ApprovalPrompt :=
  reject_if (len payload <? ARTIFACT_PROMPT_PREFIX_BYTES)%N InvalidLayout;;
  reserved ← slice payload 2 4;
  reject_if (reserved != [x00; x00]) InvalidLayout;;
  reserved ← slice payload 94 96;
  reject_if (reserved != [x00; x00]) InvalidLayout;;
  kind ← index payload 0;
  artifact_kind ← decode_kind (byte_val kind);
  purpose ← index payload 1;
  persona_purpose ← decode_purpose (byte_val purpose);
  peer ← read_peer payload;
  artifact_size ← read_u64 payload 16;
  request_id ← read_uuid payload 24 40;
  persona_id ← read_uuid payload 40 56;
  artifact_sha256 ← slice payload 56 88;
  persona_label_len ← read_u16 payload 88;
  fingerprint_len ← read_u16 payload 90;
  artifact_label_len ← read_u16 payload 92;
  expected ← ok_or
    (checked_sum ARTIFACT_PROMPT_PREFIX_BYTES
      [persona_label_len; fingerprint_len; artifact_label_len]) InvalidLayout;
  reject_if (expected != len payload) InvalidLayout;;
  persona_end ← add_usize ARTIFACT_PROMPT_PREFIX_BYTES persona_label_len;
  fingerprint_end ← add_usize persona_end fingerprint_len;
  persona_label ← text_at "persona label" payload ARTIFACT_PROMPT_PREFIX_BYTES persona_end;
  key_fingerprint ← text_at "key fingerprint" payload persona_end fingerprint_end;
  artifact_label ← text_at "artifact label" payload fingerprint_end (len payload);
  ApprovalPrompt_new request_id persona_id persona_label persona_purpose key_fingerprint
    artifact_kind artifact_label artifact_sha256 artifact_size peer.

Definition domain_prompt_of_payload (payload : bytes) : ApprovalResult ApprovalPrompt :=
  reject_if (len payload <? DOMAIN_PROMPT_PREFIX_BYTES)%N InvalidLayout;;
  reserved ← slice payload 1 4;
  reject_if (reserved != [x00; x00; x00]) InvalidLayout;;
  reserved ← slice payload 72 76;
  reject_if (reserved != [x00; x00; x00; x00]) InvalidLayout;;
  purpose ← index payload 0;
  persona_purpose ← decode_purpose (byte_val purpose);
  peer ← read_peer payload;
  issued_at ← read_i64 payload 16;
  expires_at ← read_i64 payload 24;
  request_id ← read_uuid payload 32 48;
  persona_id ← read_uuid payload 48 64;
  persona_label_len ← read_u16 payload 64;
  fingerprint_len ← read_u16 payload 66;
  domain_len ← read_u16 payload 68;
  dns_txt_len ← read_u16 payload 70;
  expected ← ok_or
    (checked_sum DOMAIN_PROMPT_PREFIX_BYTES
      [persona_label_len; fingerprint_len; domain_len; dns_txt_len]) InvalidLayout;
  reject_if (expected != len payload) InvalidLayout;;
  persona_end ← add_usize DOMAIN_PROMPT_PREFIX_BYTES persona_label_len;
  fingerprint_end ← add_usize persona_end fingerprint_len;
  domain_end ← add_usize fingerprint_end domain_len;
  persona_label ← text_at "persona label" payload DOMAIN_PROMPT_PREFIX_BYTES persona_end;
  key_fingerprint ← text_at "key fingerprint" payload persona_end fingerprint_end;
  domain ← text_at "domain" payload fingerprint_end domain_end;
  dns_txt_value ← text_at "DNS TXT value" payload domain_end (len payload);
  new_domain request_id persona_id persona_label persona_purpose key_fingerprint domain
    dns_txt_value issued_at expires_at peer.

Definition persona_root_prompt_of_payload (payload : bytes) : ApprovalResult ApprovalPrompt :=
  reject_if (len payload <? PERSONA_ROOT_PROMPT_PREFIX_BYTES)%N InvalidLayout;;
  reserved ← slice payload 1 4;
  reject_if (reserved != [x00; x00; x00]) InvalidLayout;;
  reserved ← slice payload 94 96;
  reject_if (reserved != [x00; x00]) InvalidLayout;;
  purpose ← index payload 0;
  persona_purpose ← decode_purpose (byte_val purpose);
  peer ← read_peer payload;
  issued_at ← read_i64 payload 16;
  request_id ← read_uuid payload 24 40;
  persona_id ← read_uuid payload 40 56;
  root_statement_sha256 ← slice payload 56 88;
  persona_label_len ← read_u16 payload 88;
  fingerprint_len ← read_u16 payload 90;
  persona_anchor_len ← read_u16 payload 92;
  expected ← ok_or
    (checked_sum PERSONA_ROOT_PROMPT_PREFIX_BYTES
      [persona_label_len; fingerprint_len; persona_anchor_len]) InvalidLayout;
  reject_if (expected != len payload) InvalidLayout;;
  persona_end ← add_usize PERSONA_ROOT_PROMPT_PREFIX_BYTES persona_label_len;
  fingerprint_end ← add_usize persona_end fingerprint_len;
  persona_label ← text_at "persona label" payload PERSONA_ROOT_PROMPT_PREFIX_BYTES persona_end;
  key_fingerprint ← text_at "key fingerprint" payload persona_end fingerprint_end;
  persona_anchor ← text_at "persona anchor" payload fingerprint_end (len payload);
  new_persona_root request_id persona_id persona_label persona_purpose key_fingerprint
    persona_anchor root_statement_sha256 issued_at peer.

Definition persona_transition_prompt_of_payload (payload : bytes) :
    ApprovalResult ApprovalPrompt :=
  reject_if (len payload <? PERSONA_TRANSITION_PROMPT_PREFIX_BYTES)%N InvalidLayout;;
  reserved ← slice payload 2 4;
  reject_if (reserved != [x00; x00]) InvalidLayout;;
  reserved ← slice payload 164 168;
  reject_if (reserved != [x00; x00; x00; x00]) InvalidLayout;;
  present ← index payload 1;
  reject_if (1 <? byte_val present)%N InvalidLayout;;
  purpose ← index payload 0;
  persona_purpose ← decode_purpose (byte_val purpose);
  peer ← read_peer payload;
  sequence ← read_u32 payload 16;
  issued_at ← read_i64 payload 20;
  request_id ← read_uuid payload 28 44;
  persona_id ← read_uuid payload 44 60;
  root_statement_sha256 ← slice payload 60 92;
  previous ← slice payload 92 124;
  previous_transition_sha256 ← read_optional_digest present previous InvalidLayout;
  transition_statement_sha256 ← slice payload 124 156;
  persona_label_len ← read_u16 payload 156;
  previous_fingerprint_len ← read_u16 payload 158;
  next_fingerprint_len ← read_u16 payload 160;
  persona_anchor_len ← read_u16 payload 162;
  expected ← ok_or
    (checked_sum PERSONA_TRANSITION_PROMPT_PREFIX_BYTES
      [persona_label_len; previous_fingerprint_len; next_fingerprint_len; persona_anchor_len])
    InvalidLayout;
  reject_if (expected != len payload) InvalidLayout;;
  persona_end ← add_usize PERSONA_TRANSITION_PROMPT_PREFIX_BYTES persona_label_len;
  previous_end ← add_usize persona_end previous_fingerprint_len;
  next_end ← add_usize previous_end next_fingerprint_len;
  persona_label ←
    text_at "persona label" payload PERSONA_TRANSITION_PROMPT_PREFIX_BYTES persona_end;
  previous_key_fingerprint ← text_at "previous key fingerprint" payload persona_end previous_end;
  next_key_fingerprint ← text_at "next key fingerprint" payload previous_end next_end;
  persona_anchor ← text_at "persona anchor" payload next_end (len payload);
  new_persona_transition request_id persona_id persona_label persona_purpose
    previous_key_fingerprint persona_anchor root_statement_sha256 sequence
    previous_transition_sha256 issued_at next_key_fingerprint transition_statement_sha256 peer.

Definition recovery_participation_prompt_of_payload (payload : bytes) :
    ApprovalResult ApprovalPrompt :=
  reject_if (len payload <? RECOVERY_PARTICIPATION_PROMPT_PREFIX_BYTES)%N InvalidLayout;;
  reserved ← index payload 3;
  reject_if (byte_val reserved != 0%N) InvalidLayout;;
  reserved ← slice payload 28 32;
  reject_if (reserved != [x00; x00; x00; x00]) InvalidLayout;;
  reserved ← slice payload 196 200;
  reject_if (reserved != [x00; x00; x00; x00]) InvalidLayout;;
  present ← index payload 2;
  reject_if (1 <? byte_val present)%N InvalidLayout;;
  role ← index payload 0;
  participant_role ← decode_role (byte_val role);
  reason ← index payload 1;
  reason ← decode_reason (byte_val reason);
  peer ← read_peer payload;
  recovery_policy_version ← read_u32 payload 16;
  recovery_policy_threshold ← read_u32 payload 20;
  previous_head_sequence ← read_u32 payload 24;
  ceremony_expires_at ← read_i64 payload 32;
  request_id ← read_uuid payload 40 56;
  request_sha256 ← slice payload 56 88;
  root_statement_sha256 ← slice payload 88 120;
  recovery_policy_sha256 ← slice payload 120 152;
  previous_head ← slice payload 152 184;
  previous_head_sha256 ← read_optional_digest present previous_head InvalidLayout;
  persona_label_len ← read_u16 payload 184;
  participant_fingerprint_len ← read_u16 payload 186;
  previous_fingerprint_len ← read_u16 payload 188;
  next_fingerprint_len ← read_u16 payload 190;
  persona_anchor_len ← read_u16 payload 192;
  ceremony_id_len ← read_u16 payload 194;
  expected ← ok_or
    (checked_sum RECOVERY_PARTICIPATION_PROMPT_PREFIX_BYTES
      [persona_label_len; participant_fingerprint_len; previous_fingerprint_len;
       next_fingerprint_len; persona_anchor_len; ceremony_id_len]) InvalidLayout;
  reject_if (expected != len payload) InvalidLayout;;
  persona_end ← add_usize RECOVERY_PARTICIPATION_PROMPT_PREFIX_BYTES persona_label_len;
  participant_end ← add_usize persona_end participant_fingerprint_len;
  previous_end ← add_usize participant_end previous_fingerprint_len;
  next_end ← add_usize previous_end next_fingerprint_len;
  anchor_end ← add_usize next_end persona_anchor_len;
  persona_label ←
    text_at "persona label" payload RECOVERY_PARTICIPATION_PROMPT_PREFIX_BYTES persona_end;
  participant_key_fingerprint ←
    text_at "participant key fingerprint" payload persona_end participant_end;
  previous_key_fingerprint ←
    text_at "previous key fingerprint" payload participant_end previous_end;
  next_key_fingerprint ← text_at "next key fingerprint" payload previous_end next_end;
  persona_anchor ← text_at "persona anchor" payload next_end anchor_end;
  ceremony_id ← text_at "ceremony ID" payload anchor_end (len payload);
  new_recovery_participation request_id persona_label participant_key_fingerprint request_sha256
    ceremony_id ceremony_expires_at persona_anchor root_statement_sha256
    recovery_policy_version recovery_policy_sha256 recovery_policy_threshold
    previous_head_sequence previous_head_sha256 reason previous_key_fingerprint
    next_key_fingerprint participant_role peer.

Definition decode_artifact_prompt (message : bytes) : ApprovalResult ApprovalPrompt :=
  payload ← decode_header message MESSAGE_ARTIFACT_PROMPT MAX_ARTIFACT_PROMPT_PAYLOAD_BYTES;
  artifact_prompt_of_payload payload.
Definition decode_domain_prompt (message : bytes) : ApprovalResult ApprovalPrompt :=
  payload ← decode_header message MESSAGE_DOMAIN_PROMPT MAX_DOMAIN_PROMPT_PAYLOAD_BYTES;
  domain_prompt_of_payload payload.
Definition decode_persona_root_prompt (message : bytes) : ApprovalResult ApprovalPrompt :=
  payload ← decode_header message MESSAGE_PERSONA_ROOT_PROMPT
    MAX_PERSONA_ROOT_PROMPT_PAYLOAD_BYTES;
  persona_root_prompt_of_payload payload.
Definition decode_persona_transition_prompt (message : bytes) : ApprovalResult ApprovalPrompt :=
  payload ← decode_header message MESSAGE_PERSONA_TRANSITION_PROMPT
    MAX_PERSONA_TRANSITION_PROMPT_PAYLOAD_BYTES;
  persona_transition_prompt_of_payload payload.
Definition decode_recovery_participation_prompt (message : bytes) :
    ApprovalResult ApprovalPrompt :=
  payload ← decode_header message MESSAGE_RECOVERY_PARTICIPATION_PROMPT
    MAX_RECOVERY_PARTICIPATION_PROMPT_PAYLOAD_BYTES;
  recovery_participation_prompt_of_payload payload.

Definition decode_prompt (message : bytes) : ApprovalResult ApprovalPrompt :=
  message_type ← decode_common_header message;
  if message_type == MESSAGE_ARTIFACT_PROMPT then decode_artifact_prompt message
  else if message_type == MESSAGE_DOMAIN_PROMPT then decode_domain_prompt message
  else if message_type == MESSAGE_PERSONA_ROOT_PROMPT then decode_persona_root_prompt message
  else if message_type == MESSAGE_PERSONA_TRANSITION_PROMPT
  then decode_persona_transition_prompt message
  else if message_type == MESSAGE_RECOVERY_PARTICIPATION_PROMPT
  then decode_recovery_participation_prompt message
  else Err (UnsupportedMessageType message_type).

(** ** Decisions *)

Definition decision_type (decision : ApprovalDecision) : N :=
  match decision with
  | Approve => MESSAGE_APPROVE | Decline => MESSAGE_DECLINE | Cancel => MESSAGE_CANCEL
  end.

Definition encode_decision (response : DecisionResponse) : bytes :=
  extend (encode_header (decision_type (dr_decision response)) DECISION_PAYLOAD_BYTES)
    [uuid_as_bytes (dr_request_id response)].

Definition decision_of_type (message_type : N) : ApprovalResult ApprovalDecision :=
  if message_type == MESSAGE_APPROVE then Ok Approve
  else if message_type == MESSAGE_DECLINE then Ok Decline
  else if message_type == MESSAGE_CANCEL then Ok Cancel
  else Err (UnsupportedMessageType message_type).

Definition decode_decision (message : bytes) : ApprovalResult DecisionResponse :=
  message_type ← decode_common_header message;
  decision ← decision_of_type message_type;
  payload ← decode_header message message_type DECISION_PAYLOAD_BYTES;
  reject_if (len payload != DECISION_PAYLOAD_BYTES) InvalidLayout;;
  request_id ← ok_or (uuid_from_slice payload) InvalidLayout;
  Ok {| dr_request_id := request_id; dr_decision := decision |}.

(** ** Reading and writing *)

Definition map_read_header_error (error : IoError) : ProtocolError :=
  if io_kind error == UnexpectedEof then TruncatedHeader else Read error.
Definition map_read_payload_error (error : IoError) : ProtocolError :=
  if io_kind error == UnexpectedEof then TruncatedPayload else Read error.

(** [read_exact(...).map_err(f)?]; what is left of the stream. *)
Definition read_or {E} (f : IoError → E) (n : N) (input : Stream) : result E (bytes * Stream) :=
  match read_exact n input with
  | (inr bs, rest) => Ok (bs, rest)
  | (inl e, _) => Err (f e)
  end.

Definition read_one_message (input : Stream) (maximum_payload : N) : ApprovalResult bytes :=
  '(header, input) ← read_or map_read_header_error HEADER_BYTES input;
  decode_common_header header;;
  payload_len ← read_u32 header 16;
  reject_if (maximum_payload <? payload_len)%N PayloadTooLarge;;
  message_len ← add_usize HEADER_BYTES payload_len;
  '(payload, input) ← read_or map_read_payload_error (message_len - HEADER_BYTES) input;
  match read_byte input with
  | inr [] => Ok (header ++ payload)
  | inr _ => Err TrailingBytes
  | inl error => Err (Read error)
  end.

Definition read_prompt (input : Stream) : ApprovalResult ApprovalPrompt :=
  message ← read_one_message input MAX_PROMPT_PAYLOAD_BYTES;
  decode_prompt message.
Definition read_decision (input : Stream) : ApprovalResult DecisionResponse :=
  message ← read_one_message input DECISION_PAYLOAD_BYTES;
  decode_decision message.

(** [write_all(...).map_err(Write)?; flush().map_err(Write)] *)
Definition write_and_flush (output : Writer) (bs : bytes) : ApprovalResult unit * Writer :=
  match write_all output bs with
  | (Some e, output) => (Err (Write e), output)
  | (None, output) =>
      (match wr_flush_fault output with Some e => Err (Write e) | None => Ok tt end, output)
  end.

Definition write_prompt (output : Writer) (prompt : ApprovalPrompt) :
    ApprovalResult unit * Writer :=
  match encode_prompt prompt with
  | Ok bs => write_and_flush output bs
  | Err e => (Err e, output)
  | Panic p => (Panic p, output)
  end.
Definition write_decision (output : Writer) (response : DecisionResponse) :
    ApprovalResult unit * Writer :=
  write_and_flush output (encode_decision response).

End protocol.
