(* ===== verification/ApprovalFacts.v ===== *)
(** * Reading the fields of a prompt

    Each payload decoder is evaluated on the fields of a prompt, and every
    other payload is shown to be rejected. *)

From stdpp Require Import base numbers list strings pretty option.
From Stdlib Require Import Strings.Byte Ascii.
From S2P Require Import Prelude Text Display Crates Io Names Fields Approval ApprovalCodec.

(** ** The header *)

(** The framing of this protocol; its header functions are those of [Frames]. *)
Definition approval_framing : Framing ProtocolError := {|
  fr_magic := MAGIC; fr_major := PROTOCOL_MAJOR; fr_minor := PROTOCOL_MINOR;
  fr_truncated_header := TruncatedHeader; fr_invalid_magic := InvalidMagic;
  fr_unsupported_version := UnsupportedVersion;
  fr_unsupported_message_type := UnsupportedMessageType;
  fr_unsupported_flags := UnsupportedFlags; fr_payload_too_large := PayloadTooLarge;
  fr_truncated_payload := TruncatedPayload; fr_trailing_bytes := TrailingBytes |}.

Lemma approval_encode_header_frame ty n : encode_header ty n = frame_header approval_framing ty n.
Proof. reflexivity. Qed.
Lemma approval_common_header_frame m : decode_common_header m = frame_type approval_framing m.
Proof. reflexivity. Qed.
Lemma approval_decode_header_frame m ty max :
  decode_header m ty max = frame_payload approval_framing m ty max.
Proof. reflexivity. Qed.

Lemma approval_header_len ty n : len (encode_header ty n) = 20%N.
Proof. by apply (frame_header_len approval_framing). Qed.

Lemma approval_decode_header_Ok m ty max payload :
  (ty < 65536)%N → (max < 2 ^ 32)%N →
  decode_header m ty max = Ok payload ↔
  m = encode_header ty (len payload) ++ payload ∧ (len payload <= max)%N.
Proof. rewrite approval_decode_header_frame. by apply (frame_payload_Ok approval_framing). Qed.

Lemma approval_common_header ty n rest :
  (ty < 65536)%N → decode_common_header (encode_header ty n ++ rest) = Ok ty.
Proof.
  rewrite approval_common_header_frame, approval_encode_header_frame.
  by apply (frame_type_header approval_framing eq_refl eq_refl eq_refl).
Qed.

Lemma approval_common_header_no_panic m : no_panic (decode_common_header m).
Proof. rewrite approval_common_header_frame. by apply (frame_type_no_panic approval_framing). Qed.

Lemma approval_header_no_panic m ty limit : no_panic (decode_header m ty limit).
Proof. rewrite approval_decode_header_frame. by apply (frame_payload_no_panic approval_framing). Qed.

(** ** Enumerations *)

Lemma decode_kind_value k : decode_kind (byte_val (byte_of (kind_value k))) = Ok k.
Proof. by destruct k. Qed.
Lemma decode_purpose_value p : decode_purpose (byte_val (byte_of (purpose_value p))) = Ok p.
Proof. by destruct p. Qed.
Lemma decode_role_value r : decode_role (byte_val (byte_of (role_value r))) = Ok r.
Proof. by destruct r. Qed.
Lemma decode_reason_value r : decode_reason (byte_val (byte_of (reason_value r))) = Ok r.
Proof. by destruct r. Qed.

(** A byte that decodes is the value of what it decodes to; the rest is an error. *)
Lemma decode_kind_cases b :
  (∃ e, decode_kind (byte_val b) = Err e) ∨ ∃ k, b = byte_of (kind_value k).
Proof.
  destruct (decode_kind (byte_val b)) as [k|e|p] eqn:H; [right|left; by exists e|].
  - exists k. rewrite <- (byte_of_val b). f_equal. revert H. unfold decode_kind.
    by repeat case_match; intros [= <-].
  - revert H. unfold decode_kind. by repeat case_match.
Qed.
Lemma decode_purpose_cases b :
  (∃ e, decode_purpose (byte_val b) = Err e) ∨ ∃ p, b = byte_of (purpose_value p).
Proof.
  destruct (decode_purpose (byte_val b)) as [k|e|p] eqn:H; [right|left; by exists e|].
  - exists k. rewrite <- (byte_of_val b). f_equal. revert H. unfold decode_purpose.
    by repeat case_match; intros [= <-].
  - revert H. unfold decode_purpose. by repeat case_match.
Qed.
Lemma decode_role_cases b :
  (∃ e, decode_role (byte_val b) = Err e) ∨ ∃ r, b = byte_of (role_value r).
Proof.
  destruct (decode_role (byte_val b)) as [k|e|p] eqn:H; [right|left; by exists e|].
  - exists k. rewrite <- (byte_of_val b). f_equal. revert H. unfold decode_role.
    by repeat case_match; intros [= <-].
  - revert H. unfold decode_role. by repeat case_match.
Qed.
Lemma decode_reason_cases b :
  (∃ e, decode_reason (byte_val b) = Err e) ∨ ∃ r, b = byte_of (reason_value r).
Proof.
  destruct (decode_reason (byte_val b)) as [k|e|p] eqn:H; [right|left; by exists e|].
  - exists k. rewrite <- (byte_of_val b). f_equal. revert H. unfold decode_reason.
    by repeat case_match; intros [= <-].
  - revert H. unfold decode_reason. by repeat case_match.
Qed.

Lemma decode_text_cases field bs :
  (∃ e, decode_text field bs = Err e) ∨ ∃ s, bs = as_bytes s ∧ utf8_valid s = true.
Proof.
  unfold decode_text. destruct (from_utf8 bs) as [s|] eqn:H; [right|left; by eexists].
  exists s. by apply from_utf8_Some.
Qed.

Lemma decode_text_as_bytes field s : utf8_valid s = true → decode_text field (as_bytes s) = Ok s.
Proof. intros H. unfold decode_text. by rewrite from_utf8_as_bytes. Qed.

Section facts.
Context {crates : Crates} {uuids : UuidBytes} {uuids_ok : UuidBytesOk}.

(** ** Prompts as fields *)

Definition peer_typed (peer : PeerIdentity) : Prop :=
  (pid peer <= u32_max)%N ∧ (uid peer <= u32_max)%N ∧ (gid peer <= u32_max)%N.

Definition i64_typed (z : Z) : Prop := (i64_min <= z <= i64_max)%Z.

Lemma checked_sum_small start ls :
  (start + total ls <= usize_max)%N → checked_sum start ls = Some (start + total ls)%N.
Proof.
  unfold checked_sum. revert start. induction ls as [|l ls IH]; intros start H; cbn in *.
  - by rewrite N.add_0_r.
  - unfold total in IH. rewrite checked_add_small, IH by lia. f_equal. lia.
Qed.

(** [decode_steps] evaluates a decoder on known fields. *)
Ltac decode_step :=
  first
    [ rewrite bind_Ok_l
    | progress cbn [negb orb reject_if ok_or]
    | read_field
    | rewrite decode_kind_value | rewrite decode_purpose_value
    | rewrite decode_role_value | rewrite decode_reason_value
    | rewrite uuid_from_as_bytes
    | rewrite (proj2 (N.ltb_ge 1 (byte_val _))) by done
    | rewrite from_to_u16 by done
    | rewrite from_to_u32 by done
    | rewrite from_to_u64 by done
    | rewrite i64_round_trip by done
    | rewrite checked_sum_small by (unfold total, usize_max, u64_max; cbn [foldr]; lia)
    | rewrite add_usize_small by (unfold usize_max, u64_max; lia)
    | rewrite bool_decide_eq_true_2 by first [unfold total; cbn [foldr]; lia | reflexivity] ].
Ltac decode_steps := repeat decode_step.

(** Sixteen bytes are a UUID, twelve are a peer. *)
Lemma uuid_field p : len p = 16%N → ∃ u, p = uuid_as_bytes u.
Proof.
  intros H. destruct (uuid_from_slice_total p H) as [u Hu]. exists u. by apply uuid_as_from_slice in Hu.
Qed.

Lemma peer_field a b c :
  len a = 4%N → len b = 4%N → len c = 4%N →
  ∃ peer, peer_typed peer ∧ a = to_be_bytes 4 (pid peer) ∧ b = to_be_bytes 4 (uid peer) ∧
          c = to_be_bytes 4 (gid peer).
Proof.
  intros Ha Hb Hc. exists {| pid := from_be_bytes a; uid := from_be_bytes b; gid := from_be_bytes c |}.
  cbn [pid uid gid]. rewrite !to_from_field by done. split_and!; [|done..]. by split_and!; apply u32_field_le.
Qed.

Lemma i64_bytes_field p : len p = 8%N → ∃ t, i64_typed t ∧ p = i64_bytes t.
Proof. intros [He Hb]%i64_field. by exists (i64_of (from_be_bytes p)). Qed.

Lemma be_bytes_field w p :
  len p = N.of_nat w → ∃ n, (n < 256 ^ N.of_nat w)%N ∧ p = to_be_bytes w n.
Proof.
  intros H. exists (from_be_bytes p). rewrite to_from_field by done. split; [|done].
  rewrite <- H. apply from_be_bytes_bound.
Qed.

Lemma u16_bytes_field p : len p = 2%N → ∃ n, (n < 65536)%N ∧ p = to_be_bytes 2 n.
Proof. apply (be_bytes_field 2). Qed.
Lemma u32_bytes_field p : len p = 4%N → ∃ n, (n <= u32_max)%N ∧ p = to_be_bytes 4 n.
Proof. intros H. exists (from_be_bytes p). rewrite to_from_field by done. split; [by apply u32_field_le|done]. Qed.
Lemma u64_bytes_field p : len p = 8%N → ∃ n, (n <= u64_max)%N ∧ p = to_be_bytes 8 n.
Proof. intros H. exists (from_be_bytes p). rewrite to_from_field by done. split; [by apply u64_field_le|done]. Qed.

(** [reject_steps] follows a decoder past its guards on arbitrary fields. *)
Ltac rejected := by (left; eexists).
Ltac reject_step :=
  first
    [ rewrite bind_Ok_l
    | progress cbn [negb orb reject_if ok_or]
    | rewrite uuid_from_as_bytes
    | match goal with
      | |- context [decode_kind (byte_val ?b)] =>
          let k := fresh "kind" in
          destruct (decode_kind_cases b) as [[? ->]|[k ->]]; [rejected|rewrite decode_kind_value]
      | |- context [decode_purpose (byte_val ?b)] =>
          let k := fresh "purpose" in
          destruct (decode_purpose_cases b) as [[? ->]|[k ->]]; [rejected|rewrite decode_purpose_value]
      | |- context [decode_role (byte_val ?b)] =>
          let k := fresh "role" in
          destruct (decode_role_cases b) as [[? ->]|[k ->]]; [rejected|rewrite decode_role_value]
      | |- context [decode_reason (byte_val ?b)] =>
          let k := fresh "reason" in
          destruct (decode_reason_cases b) as [[? ->]|[k ->]]; [rejected|rewrite decode_reason_value]
      | |- context [bool_decide (?q = ?v)] =>
          let H := fresh "Hres" in
          is_var q; destruct (bool_decide_reflect (q = v)) as [H|]; [subst q|rejected]
      | |- context [bool_decide (byte_val ?q = 0%N)] =>
          let H := fresh "Hres" in
          destruct (bool_decide_reflect (byte_val q = 0%N)) as [H|]; [|rejected];
          apply (byte_val_inj q x00) in H; subst q
      | |- context [(1 <? byte_val ?b)%N] =>
          let H := fresh "Hb" in
          destruct (N.ltb_spec 1 (byte_val b)) as [?|H]; [rejected|]
      end ].
Ltac reject_steps := repeat reject_step.

(** ** Artifact prompts *)

Definition artifact_fields
    (kind : ArtifactKind) (purpose : PersonaPurpose) (peer : PeerIdentity) (size : N)
    (request : Uuid) (persona : Uuid) (sha : bytes) (x y z : bytes) : list bytes :=
  [[byte_of (kind_value kind)]; [byte_of (purpose_value purpose)]; to_be_bytes 2 0;
  to_be_bytes 4 (pid peer); to_be_bytes 4 (uid peer); to_be_bytes 4 (gid peer);
  to_be_bytes 8 size; uuid_as_bytes request; uuid_as_bytes persona; sha; to_be_bytes 2 (len x);
  to_be_bytes 2 (len y); to_be_bytes 2 (len z); to_be_bytes 2 0; x; y; z].

Lemma artifact_prompt_fields_len kind purpose peer size request persona sha x y z :
  len sha = 32%N →
  len <$> artifact_fields kind purpose peer size request persona sha x y z =
    [1; 1; 2; 4; 4; 4; 8; 16; 16; 32; 2; 2; 2; 2;
     len x; len y; len z]%N.
Proof.
  intros Hsha. cbn [artifact_fields fmap list_fmap].
  by rewrite !to_be_bytes_len, !uuid_length, Hsha.
Qed.

Lemma artifact_prompt_eval kind purpose peer size request persona sha x y z :
  peer_typed peer → (size <= u64_max)%N → len sha = 32%N → (len x < 65536)%N →
  (len y < 65536)%N → (len z < 65536)%N →
  artifact_prompt_of_payload
    (concat (artifact_fields kind purpose peer size request persona sha x y z)) =
    (persona_label ← decode_text "persona label" x;
     key_fingerprint ← decode_text "key fingerprint" y;
     artifact_label ← decode_text "artifact label" z;
     ApprovalPrompt_new request persona persona_label purpose key_fingerprint kind artifact_label
       sha size peer).
Proof.
  intros (Hp & Hu & Hg) Hsize Hsha Hx Hy Hz.
  pose proof (artifact_prompt_fields_len kind purpose peer size request persona sha x y z Hsha) as Hls.
  pose proof (concat_total _ _ Hls) as Hc. cbn [foldr] in Hc.
  unfold artifact_prompt_of_payload, artifact_fields, read_peer, read_uuid, read_i64, text_at,
    ARTIFACT_PROMPT_PREFIX_BYTES in *.
  rewrite Hc, (proj2 (N.ltb_ge _ _)) by lia. rewrite <- (app_nil_r (concat _)).
  decode_steps. by destruct peer.
Qed.

Lemma artifact_prompt_cases payload :
  (∃ e, artifact_prompt_of_payload payload = Err e) ∨
  ∃ kind purpose peer size request persona sha x y z,
    payload = concat (artifact_fields kind purpose peer size request persona sha x y z) ∧
    peer_typed peer ∧ (size <= u64_max)%N ∧ len sha = 32%N ∧ (len x < 65536)%N ∧
    (len y < 65536)%N ∧ (len z < 65536)%N.
Proof.
  unfold artifact_prompt_of_payload, read_peer, read_uuid, read_i64, text_at, ARTIFACT_PROMPT_PREFIX_BYTES.
  destruct (N.ltb_spec (len payload) 96) as [|Hl]; [rejected|].
  destruct (split_fields [1; 1; 2; 4; 4; 4; 8; 16; 16; 32; 2; 2; 2; 2]%N payload)
    as (ps & rest & Hls & ->); [cbn; lia|].
  destruct ps as [|c0 [|c1 [|r0 [|pp [|pu [|pg [|f_size [|f_request [|f_persona [|sha [|nx [|ny [|nz [|r1 []]]]]]]]]]]]]]]; try done.
  byte_field c0 as k0. byte_field c1 as k1. read_fields.
  rewrite len_app, concat_len, Hls.
  injection Hls as H_r0 H_pp H_pu H_pg H_f_size H_f_request H_f_persona H_sha H_nx H_ny H_nz H_r1.
  destruct (uuid_field f_request H_f_request) as [request ->].
  destruct (uuid_field f_persona H_f_persona) as [persona ->].
  reject_steps.
  pose proof (u16_field_lt nx H_nx).
  pose proof (u16_field_lt ny H_ny).
  pose proof (u16_field_lt nz H_nz).
  rewrite checked_sum_small by (unfold total, usize_max, u64_max; cbn [foldr]; lia).
  cbn [ok_or]. rewrite bind_Ok_l. case_bool_decide as He; [|rejected]. right.
  destruct (split_exactly [from_be_bytes nx; from_be_bytes ny; from_be_bytes nz] rest)
    as (ts & Hts & ->); [unfold total in *; cbn in *; lia|].
  destruct ts as [|x [|y [|z []]]]; try done. injection Hts as Hx Hy Hz.
  destruct (peer_field pp pu pg) as (peer & Hpeer & -> & -> & ->); [done..|].
  destruct (u64_bytes_field f_size H_f_size) as (size & Hsize & ->).
  exists kind, purpose, peer, size, request, persona, sha, x, y, z.
  rewrite <- concat_app. unfold artifact_fields. rewrite Hx, Hy, Hz.
  rewrite !to_from_field by done. by split_and!.
Qed.

(** ** Domain prompts *)

Definition domain_fields
    (purpose : PersonaPurpose) (peer : PeerIdentity) (issued : Z) (expires : Z) (request : Uuid)
    (persona : Uuid) (x y z w : bytes) : list bytes :=
  [[byte_of (purpose_value purpose)]; repeat x00 3; to_be_bytes 4 (pid peer);
  to_be_bytes 4 (uid peer); to_be_bytes 4 (gid peer); i64_bytes issued; i64_bytes expires;
  uuid_as_bytes request; uuid_as_bytes persona; to_be_bytes 2 (len x); to_be_bytes 2 (len y);
  to_be_bytes 2 (len z); to_be_bytes 2 (len w); to_be_bytes 4 0; x; y; z; w].

Lemma domain_prompt_fields_len purpose peer issued expires request persona x y z w :
  len <$> domain_fields purpose peer issued expires request persona x y z w =
    [1; 3; 4; 4; 4; 8; 8; 16; 16; 2; 2; 2; 2; 4;
     len x; len y; len z; len w]%N.
Proof.
  cbn [domain_fields fmap list_fmap].
  by rewrite !to_be_bytes_len, !uuid_length, !i64_bytes_len.
Qed.

Lemma domain_prompt_eval purpose peer issued expires request persona x y z w :
  peer_typed peer → i64_typed issued → i64_typed expires → (len x < 65536)%N →
  (len y < 65536)%N → (len z < 65536)%N → (len w < 65536)%N →
  domain_prompt_of_payload
    (concat (domain_fields purpose peer issued expires request persona x y z w)) =
    (persona_label ← decode_text "persona label" x;
     key_fingerprint ← decode_text "key fingerprint" y;
     domain ← decode_text "domain" z;
     dns_txt_value ← decode_text "DNS TXT value" w;
     new_domain request persona persona_label purpose key_fingerprint domain dns_txt_value
       issued expires peer).
Proof.
  intros (Hp & Hu & Hg) Hissued Hexpires Hx Hy Hz Hw.
  pose proof (domain_prompt_fields_len purpose peer issued expires request persona x y z w) as Hls.
  pose proof (concat_total _ _ Hls) as Hc. cbn [foldr] in Hc.
  unfold domain_prompt_of_payload, domain_fields, read_peer, read_uuid, read_i64, text_at,
    DOMAIN_PROMPT_PREFIX_BYTES in *.
  rewrite Hc, (proj2 (N.ltb_ge _ _)) by lia. rewrite <- (app_nil_r (concat _)).
  decode_steps. by destruct peer.
Qed.

Lemma domain_prompt_cases payload :
  (∃ e, domain_prompt_of_payload payload = Err e) ∨
  ∃ purpose peer issued expires request persona x y z w,
    payload = concat (domain_fields purpose peer issued expires request persona x y z w) ∧
    peer_typed peer ∧ i64_typed issued ∧ i64_typed expires ∧ (len x < 65536)%N ∧
    (len y < 65536)%N ∧ (len z < 65536)%N ∧ (len w < 65536)%N.
Proof.
  unfold domain_prompt_of_payload, read_peer, read_uuid, read_i64, text_at, DOMAIN_PROMPT_PREFIX_BYTES.
  destruct (N.ltb_spec (len payload) 76) as [|Hl]; [rejected|].
  destruct (split_fields [1; 3; 4; 4; 4; 8; 8; 16; 16; 2; 2; 2; 2; 4]%N payload)
    as (ps & rest & Hls & ->); [cbn; lia|].
  destruct ps as [|c0 [|r0 [|pp [|pu [|pg [|f_issued [|f_expires [|f_request [|f_persona [|nx [|ny [|nz [|nw [|r1 []]]]]]]]]]]]]]]; try done.
  byte_field c0 as k0. read_fields.
  rewrite len_app, concat_len, Hls.
  injection Hls as H_r0 H_pp H_pu H_pg H_f_issued H_f_expires H_f_request H_f_persona H_nx H_ny H_nz H_nw H_r1.
  destruct (uuid_field f_request H_f_request) as [request ->].
  destruct (uuid_field f_persona H_f_persona) as [persona ->].
  reject_steps.
  pose proof (u16_field_lt nx H_nx).
  pose proof (u16_field_lt ny H_ny).
  pose proof (u16_field_lt nz H_nz).
  pose proof (u16_field_lt nw H_nw).
  rewrite checked_sum_small by (unfold total, usize_max, u64_max; cbn [foldr]; lia).
  cbn [ok_or]. rewrite bind_Ok_l. case_bool_decide as He; [|rejected]. right.
  destruct (split_exactly [from_be_bytes nx; from_be_bytes ny; from_be_bytes nz; from_be_bytes nw] rest)
    as (ts & Hts & ->); [unfold total in *; cbn in *; lia|].
  destruct ts as [|x [|y [|z [|w []]]]]; try done. injection Hts as Hx Hy Hz Hw.
  destruct (peer_field pp pu pg) as (peer & Hpeer & -> & -> & ->); [done..|].
  destruct (i64_bytes_field f_issued H_f_issued) as (issued & Hissued & ->).
  destruct (i64_bytes_field f_expires H_f_expires) as (expires & Hexpires & ->).
  exists purpose, peer, issued, expires, request, persona, x, y, z, w.
  rewrite <- concat_app. unfold domain_fields. rewrite Hx, Hy, Hz, Hw.
  rewrite !to_from_field by done. by split_and!.
Qed.

(** ** Persona root prompts *)

Definition root_fields
    (purpose : PersonaPurpose) (peer : PeerIdentity) (issued : Z) (request : Uuid)
    (persona : Uuid) (sha : bytes) (x y z : bytes) : list bytes :=
  [[byte_of (purpose_value purpose)]; repeat x00 3; to_be_bytes 4 (pid peer);
  to_be_bytes 4 (uid peer); to_be_bytes 4 (gid peer); i64_bytes issued; uuid_as_bytes request;
  uuid_as_bytes persona; sha; to_be_bytes 2 (len x); to_be_bytes 2 (len y);
  to_be_bytes 2 (len z); to_be_bytes 2 0; x; y; z].

Lemma root_prompt_fields_len purpose peer issued request persona sha x y z :
  len sha = 32%N →
  len <$> root_fields purpose peer issued request persona sha x y z =
    [1; 3; 4; 4; 4; 8; 16; 16; 32; 2; 2; 2; 2;
     len x; len y; len z]%N.
Proof.
  intros Hsha. cbn [root_fields fmap list_fmap].
  by rewrite !to_be_bytes_len, !uuid_length, !i64_bytes_len, Hsha.
Qed.

Lemma root_prompt_eval purpose peer issued request persona sha x y z :
  peer_typed peer → i64_typed issued → len sha = 32%N → (len x < 65536)%N → (len y < 65536)%N →
  (len z < 65536)%N →
  persona_root_prompt_of_payload
    (concat (root_fields purpose peer issued request persona sha x y z)) =
    (persona_label ← decode_text "persona label" x;
     key_fingerprint ← decode_text "key fingerprint" y;
     persona_anchor ← decode_text "persona anchor" z;
     new_persona_root request persona persona_label purpose key_fingerprint persona_anchor
       sha issued peer).
Proof.
  intros (Hp & Hu & Hg) Hissued Hsha Hx Hy Hz.
  pose proof (root_prompt_fields_len purpose peer issued request persona sha x y z Hsha) as Hls.
  pose proof (concat_total _ _ Hls) as Hc. cbn [foldr] in Hc.
  unfold persona_root_prompt_of_payload, root_fields, read_peer, read_uuid, read_i64, text_at,
    PERSONA_ROOT_PROMPT_PREFIX_BYTES in *.
  rewrite Hc, (proj2 (N.ltb_ge _ _)) by lia. rewrite <- (app_nil_r (concat _)).
  decode_steps. by destruct peer.
Qed.

Lemma root_prompt_cases payload :
  (∃ e, persona_root_prompt_of_payload payload = Err e) ∨
  ∃ purpose peer issued request persona sha x y z,
    payload = concat (root_fields purpose peer issued request persona sha x y z) ∧
    peer_typed peer ∧ i64_typed issued ∧ len sha = 32%N ∧ (len x < 65536)%N ∧ (len y < 65536)%N ∧
    (len z < 65536)%N.
Proof.
  unfold persona_root_prompt_of_payload, read_peer, read_uuid, read_i64, text_at, PERSONA_ROOT_PROMPT_PREFIX_BYTES.
  destruct (N.ltb_spec (len payload) 96) as [|Hl]; [rejected|].
  destruct (split_fields [1; 3; 4; 4; 4; 8; 16; 16; 32; 2; 2; 2; 2]%N payload)
    as (ps & rest & Hls & ->); [cbn; lia|].
  destruct ps as [|c0 [|r0 [|pp [|pu [|pg [|f_issued [|f_request [|f_persona [|sha [|nx [|ny [|nz [|r1 []]]]]]]]]]]]]]; try done.
  byte_field c0 as k0. read_fields.
  rewrite len_app, concat_len, Hls.
  injection Hls as H_r0 H_pp H_pu H_pg H_f_issued H_f_request H_f_persona H_sha H_nx H_ny H_nz H_r1.
  destruct (uuid_field f_request H_f_request) as [request ->].
  destruct (uuid_field f_persona H_f_persona) as [persona ->].
  reject_steps.
  pose proof (u16_field_lt nx H_nx).
  pose proof (u16_field_lt ny H_ny).
  pose proof (u16_field_lt nz H_nz).
  rewrite checked_sum_small by (unfold total, usize_max, u64_max; cbn [foldr]; lia).
  cbn [ok_or]. rewrite bind_Ok_l. case_bool_decide as He; [|rejected]. right.
  destruct (split_exactly [from_be_bytes nx; from_be_bytes ny; from_be_bytes nz] rest)
    as (ts & Hts & ->); [unfold total in *; cbn in *; lia|].
  destruct ts as [|x [|y [|z []]]]; try done. injection Hts as Hx Hy Hz.
  destruct (peer_field pp pu pg) as (peer & Hpeer & -> & -> & ->); [done..|].
  destruct (i64_bytes_field f_issued H_f_issued) as (issued & Hissued & ->).
  exists purpose, peer, issued, request, persona, sha, x, y, z.
  rewrite <- concat_app. unfold root_fields. rewrite Hx, Hy, Hz.
  rewrite !to_from_field by done. by split_and!.
Qed.

(** ** Persona transition prompts *)

Definition transition_fields
    (purpose : PersonaPurpose) (b : byte) (peer : PeerIdentity) (sequence : N) (issued : Z)
    (request : Uuid) (persona : Uuid) (root : bytes) (prev : bytes) (sha : bytes)
    (x y z w : bytes) : list bytes :=
  [[byte_of (purpose_value purpose)]; [b]; to_be_bytes 2 0; to_be_bytes 4 (pid peer);
  to_be_bytes 4 (uid peer); to_be_bytes 4 (gid peer); to_be_bytes 4 sequence; i64_bytes issued;
  uuid_as_bytes request; uuid_as_bytes persona; root; prev; sha; to_be_bytes 2 (len x);
  to_be_bytes 2 (len y); to_be_bytes 2 (len z); to_be_bytes 2 (len w); to_be_bytes 4 0; x; y; z;
  w].

Lemma transition_prompt_fields_len purpose b peer sequence issued request persona root prev sha x y z w :
  len root = 32%N → len prev = 32%N → len sha = 32%N →
  len <$> transition_fields purpose b peer sequence issued request persona root prev sha x y z w =
    [1; 1; 2; 4; 4; 4; 4; 8; 16; 16; 32; 32; 32; 2; 2; 2; 2; 4;
     len x; len y; len z; len w]%N.
Proof.
  intros Hroot Hprev Hsha. cbn [transition_fields fmap list_fmap].
  by rewrite !to_be_bytes_len, !uuid_length, !i64_bytes_len, Hroot, Hprev, Hsha.
Qed.

Lemma transition_prompt_eval purpose b peer sequence issued request persona root prev sha x y z w :
  (byte_val b <= 1)%N → peer_typed peer → (sequence <= u32_max)%N → i64_typed issued →
  len root = 32%N → len prev = 32%N → len sha = 32%N → (len x < 65536)%N → (len y < 65536)%N →
  (len z < 65536)%N → (len w < 65536)%N →
  persona_transition_prompt_of_payload
    (concat (transition_fields purpose b peer sequence issued request persona root prev sha x y z w)) =
    (previous ← read_optional_digest b prev InvalidLayout;
     persona_label ← decode_text "persona label" x;
     previous_key ← decode_text "previous key fingerprint" y;
     next_key ← decode_text "next key fingerprint" z;
     persona_anchor ← decode_text "persona anchor" w;
     new_persona_transition request persona persona_label purpose previous_key persona_anchor root
       sequence previous issued next_key sha peer).
Proof.
  intros Hb (Hp & Hu & Hg) Hsequence Hissued Hroot Hprev Hsha Hx Hy Hz Hw.
  pose proof (transition_prompt_fields_len purpose b peer sequence issued request persona root prev sha x y z w Hroot Hprev Hsha) as Hls.
  pose proof (concat_total _ _ Hls) as Hc. cbn [foldr] in Hc.
  unfold persona_transition_prompt_of_payload, transition_fields, read_peer, read_uuid, read_i64, text_at,
    PERSONA_TRANSITION_PROMPT_PREFIX_BYTES in *.
  rewrite Hc, (proj2 (N.ltb_ge _ _)) by lia. rewrite <- (app_nil_r (concat _)).
  decode_steps. destruct (read_optional_digest b prev InvalidLayout); [|done..]. decode_steps.
  by destruct peer.
Qed.

Lemma transition_prompt_cases payload :
  (∃ e, persona_transition_prompt_of_payload payload = Err e) ∨
  ∃ purpose b peer sequence issued request persona root prev sha x y z w,
    payload = concat (transition_fields purpose b peer sequence issued request persona root prev sha x y z w) ∧
    (byte_val b <= 1)%N ∧ peer_typed peer ∧ (sequence <= u32_max)%N ∧ i64_typed issued ∧
    len root = 32%N ∧ len prev = 32%N ∧ len sha = 32%N ∧ (len x < 65536)%N ∧ (len y < 65536)%N ∧
    (len z < 65536)%N ∧ (len w < 65536)%N.
Proof.
  unfold persona_transition_prompt_of_payload, read_peer, read_uuid, read_i64, text_at, PERSONA_TRANSITION_PROMPT_PREFIX_BYTES.
  destruct (N.ltb_spec (len payload) 168) as [|Hl]; [rejected|].
  destruct (split_fields [1; 1; 2; 4; 4; 4; 4; 8; 16; 16; 32; 32; 32; 2; 2; 2; 2; 4]%N payload)
    as (ps & rest & Hls & ->); [cbn; lia|].
  destruct ps as [|c0 [|cb [|r0 [|pp [|pu [|pg [|f_sequence [|f_issued [|f_request [|f_persona [|root [|prev [|sha [|nx [|ny [|nz [|nw [|r1 []]]]]]]]]]]]]]]]]]]; try done.
  byte_field c0 as k0. byte_field cb as b. read_fields.
  rewrite len_app, concat_len, Hls.
  injection Hls as H_r0 H_pp H_pu H_pg H_f_sequence H_f_issued H_f_request H_f_persona H_root H_prev H_sha H_nx H_ny H_nz H_nw H_r1.
  destruct (uuid_field f_request H_f_request) as [request ->].
  destruct (uuid_field f_persona H_f_persona) as [persona ->].
  reject_steps.
  pose proof (read_optional_digest_no_panic b prev InvalidLayout Hb) as Hd.
  destruct (read_optional_digest b prev InvalidLayout); [clear Hd; rewrite !bind_Ok_l|rejected|done].
  pose proof (u16_field_lt nx H_nx).
  pose proof (u16_field_lt ny H_ny).
  pose proof (u16_field_lt nz H_nz).
  pose proof (u16_field_lt nw H_nw).
  rewrite checked_sum_small by (unfold total, usize_max, u64_max; cbn [foldr]; lia).
  cbn [ok_or]. rewrite bind_Ok_l. case_bool_decide as He; [|rejected]. right.
  destruct (split_exactly [from_be_bytes nx; from_be_bytes ny; from_be_bytes nz; from_be_bytes nw] rest)
    as (ts & Hts & ->); [unfold total in *; cbn in *; lia|].
  destruct ts as [|x [|y [|z [|w []]]]]; try done. injection Hts as Hx Hy Hz Hw.
  destruct (peer_field pp pu pg) as (peer & Hpeer & -> & -> & ->); [done..|].
  destruct (u32_bytes_field f_sequence H_f_sequence) as (sequence & Hsequence & ->).
  destruct (i64_bytes_field f_issued H_f_issued) as (issued & Hissued & ->).
  exists purpose, b, peer, sequence, issued, request, persona, root, prev, sha, x, y, z, w.
  rewrite <- concat_app. unfold transition_fields. rewrite Hx, Hy, Hz, Hw.
  rewrite !to_from_field by done. by split_and!.
Qed.

(** ** Recovery participation prompts *)

Definition participation_fields
    (role : RecoveryParticipantRole) (reason : RecoveryReason) (b : byte) (peer : PeerIdentity)
    (version : N) (threshold : N) (sequence : N) (expires : Z) (request : Uuid) (sha : bytes)
    (root : bytes) (policy : bytes) (prev : bytes) (x y z w v t : bytes) : list bytes :=
  [[byte_of (role_value role)]; [byte_of (reason_value reason)]; [b]; [x00];
  to_be_bytes 4 (pid peer); to_be_bytes 4 (uid peer); to_be_bytes 4 (gid peer);
  to_be_bytes 4 version; to_be_bytes 4 threshold; to_be_bytes 4 sequence; to_be_bytes 4 0;
  i64_bytes expires; uuid_as_bytes request; sha; root; policy; prev; to_be_bytes 2 (len x);
  to_be_bytes 2 (len y); to_be_bytes 2 (len z); to_be_bytes 2 (len w); to_be_bytes 2 (len v);
  to_be_bytes 2 (len t); to_be_bytes 4 0; x; y; z; w; v; t].

Lemma participation_prompt_fields_len role reason b peer version threshold sequence expires request sha root policy prev x y z w v t :
  len sha = 32%N → len root = 32%N → len policy = 32%N → len prev = 32%N →
  len <$> participation_fields role reason b peer version threshold sequence expires request sha root policy prev x y z w v t =
    [1; 1; 1; 1; 4; 4; 4; 4; 4; 4; 4; 8; 16; 32; 32; 32; 32; 2; 2; 2; 2; 2; 2; 4;
     len x; len y; len z; len w; len v; len t]%N.
Proof.
  intros Hsha Hroot Hpolicy Hprev. cbn [participation_fields fmap list_fmap].
  by rewrite !to_be_bytes_len, !uuid_length, !i64_bytes_len, Hsha, Hroot, Hpolicy, Hprev.
Qed.

Lemma participation_prompt_eval role reason b peer version threshold sequence expires request sha root policy prev x y z w v t :
  (byte_val b <= 1)%N → peer_typed peer → (version <= u32_max)%N → (threshold <= u32_max)%N →
  (sequence <= u32_max)%N → i64_typed expires → len sha = 32%N → len root = 32%N →
  len policy = 32%N → len prev = 32%N → (len x < 65536)%N → (len y < 65536)%N →
  (len z < 65536)%N → (len w < 65536)%N → (len v < 65536)%N → (len t < 65536)%N →
  recovery_participation_prompt_of_payload
    (concat (participation_fields role reason b peer version threshold sequence expires request sha root policy prev x y z w v t)) =
    (previous ← read_optional_digest b prev InvalidLayout;
     persona_label ← decode_text "persona label" x;
     participant_key ← decode_text "participant key fingerprint" y;
     previous_key ← decode_text "previous key fingerprint" z;
     next_key ← decode_text "next key fingerprint" w;
     persona_anchor ← decode_text "persona anchor" v;
     ceremony_id ← decode_text "ceremony ID" t;
     new_recovery_participation request persona_label participant_key sha ceremony_id expires
       persona_anchor root version policy threshold sequence previous reason previous_key next_key
       role peer).
Proof.
  intros Hb (Hp & Hu & Hg) Hversion Hthreshold Hsequence Hexpires Hsha Hroot Hpolicy Hprev Hx Hy Hz Hw Hv Ht.
  pose proof (participation_prompt_fields_len role reason b peer version threshold sequence expires request sha root policy prev x y z w v t Hsha Hroot Hpolicy Hprev) as Hls.
  pose proof (concat_total _ _ Hls) as Hc. cbn [foldr] in Hc.
  unfold recovery_participation_prompt_of_payload, participation_fields, read_peer, read_uuid, read_i64, text_at,
    RECOVERY_PARTICIPATION_PROMPT_PREFIX_BYTES in *.
  rewrite Hc, (proj2 (N.ltb_ge _ _)) by lia. rewrite <- (app_nil_r (concat _)).
  decode_steps. destruct (read_optional_digest b prev InvalidLayout); [|done..]. decode_steps.
  by destruct peer.
Qed.

Lemma participation_prompt_cases payload :
  (∃ e, recovery_participation_prompt_of_payload payload = Err e) ∨
  ∃ role reason b peer version threshold sequence expires request sha root policy prev x y z w v
  t,
    payload = concat (participation_fields role reason b peer version threshold sequence expires request sha root policy prev x y z w v t) ∧
    (byte_val b <= 1)%N ∧ peer_typed peer ∧ (version <= u32_max)%N ∧ (threshold <= u32_max)%N ∧
    (sequence <= u32_max)%N ∧ i64_typed expires ∧ len sha = 32%N ∧ len root = 32%N ∧
    len policy = 32%N ∧ len prev = 32%N ∧ (len x < 65536)%N ∧ (len y < 65536)%N ∧
    (len z < 65536)%N ∧ (len w < 65536)%N ∧ (len v < 65536)%N ∧ (len t < 65536)%N.
Proof.
  unfold recovery_participation_prompt_of_payload, read_peer, read_uuid, read_i64, text_at, RECOVERY_PARTICIPATION_PROMPT_PREFIX_BYTES.
  destruct (N.ltb_spec (len payload) 200) as [|Hl]; [rejected|].
  destruct (split_fields [1; 1; 1; 1; 4; 4; 4; 4; 4; 4; 4; 8; 16; 32; 32; 32; 32; 2; 2; 2; 2; 2; 2; 4]%N payload)
    as (ps & rest & Hls & ->); [cbn; lia|].
  destruct ps as [|c0 [|c1 [|cb [|cz [|pp [|pu [|pg [|f_version [|f_threshold [|f_sequence [|r0 [|f_expires [|f_request [|sha [|root [|policy [|prev [|nx [|ny [|nz [|nw [|nv [|nt [|r1 []]]]]]]]]]]]]]]]]]]]]]]]]; try done.
  byte_field c0 as k0. byte_field c1 as k1. byte_field cb as b. byte_field cz as z0. read_fields.
  rewrite len_app, concat_len, Hls.
  injection Hls as H_pp H_pu H_pg H_f_version H_f_threshold H_f_sequence H_r0 H_f_expires H_f_request H_sha H_root H_policy H_prev H_nx H_ny H_nz H_nw H_nv H_nt H_r1.
  destruct (uuid_field f_request H_f_request) as [request ->].
  reject_steps.
  pose proof (read_optional_digest_no_panic b prev InvalidLayout Hb) as Hd.
  destruct (read_optional_digest b prev InvalidLayout); [clear Hd; rewrite !bind_Ok_l|rejected|done].
  pose proof (u16_field_lt nx H_nx).
  pose proof (u16_field_lt ny H_ny).
  pose proof (u16_field_lt nz H_nz).
  pose proof (u16_field_lt nw H_nw).
  pose proof (u16_field_lt nv H_nv).
  pose proof (u16_field_lt nt H_nt).
  rewrite checked_sum_small by (unfold total, usize_max, u64_max; cbn [foldr]; lia).
  cbn [ok_or]. rewrite bind_Ok_l. case_bool_decide as He; [|rejected]. right.
  destruct (split_exactly [from_be_bytes nx; from_be_bytes ny; from_be_bytes nz; from_be_bytes nw; from_be_bytes nv; from_be_bytes nt] rest)
    as (ts & Hts & ->); [unfold total in *; cbn in *; lia|].
  destruct ts as [|x [|y [|z [|w [|v [|t []]]]]]]; try done. injection Hts as Hx Hy Hz Hw Hv Ht.
  destruct (peer_field pp pu pg) as (peer & Hpeer & -> & -> & ->); [done..|].
  destruct (u32_bytes_field f_version H_f_version) as (version & Hversion & ->).
  destruct (u32_bytes_field f_threshold H_f_threshold) as (threshold & Hthreshold & ->).
  destruct (u32_bytes_field f_sequence H_f_sequence) as (sequence & Hsequence & ->).
  destruct (i64_bytes_field f_expires H_f_expires) as (expires & Hexpires & ->).
  exists role, reason, b, peer, version, threshold, sequence, expires, request, sha, root, policy, prev, x, y, z, w, v, t.
  rewrite <- concat_app. unfold participation_fields. rewrite Hx, Hy, Hz, Hw, Hv, Ht.
  rewrite !to_from_field by done. by split_and!.
Qed.

End facts.
