(* ===== verification/ApprovalWire.v ===== *)
(** * Theorems about the approval protocol

    Prompts and messages correspond one to one, so do decisions; messages are
    bounded, reading takes exactly one message from a stream, and nothing
    panics. *)

From stdpp Require Import base numbers list strings pretty option.
From Stdlib Require Import Strings.Byte Ascii.
From S2P Require Import Prelude Text Display Crates Io Names Fields Approval ApprovalCodec ApprovalFacts.

Section facts.
Context {crates : Crates} {uuids : UuidBytes} {uuids_ok : UuidBytesOk}.

(** ** Prompts on the wire *)

(** What the Rust types say of a prompt: strings are UTF-8, digests are
    arrays of 32 bytes, and integers have their widths. *)
Definition subject_typed (subject : ApprovalSubject) : Prop :=
  match subject with
  | Artifact a =>
      utf8_valid (aa_artifact_label a) = true ∧ len (aa_artifact_sha256 a) = 32%N ∧
      (aa_artifact_size a <= u64_max)%N
  | Domain d =>
      utf8_valid (da_domain d) = true ∧ utf8_valid (da_dns_txt_value d) = true ∧
      i64_typed (da_issued_at d) ∧ i64_typed (da_expires_at d)
  | PersonaRoot r =>
      utf8_valid (ra_persona_anchor r) = true ∧ len (ra_root_statement_sha256 r) = 32%N ∧
      i64_typed (ra_issued_at r)
  | PersonaTransition t =>
      (utf8_valid (ta_persona_anchor t) = true ∧ utf8_valid (ta_previous_key_fingerprint t) = true ∧
       utf8_valid (ta_next_key_fingerprint t) = true) ∧
      (len (ta_root_statement_sha256 t) = 32%N ∧ digest_typed (ta_previous_transition_sha256 t) ∧
       len (ta_transition_statement_sha256 t) = 32%N) ∧
      (ta_sequence t <= u32_max)%N ∧ i64_typed (ta_issued_at t)
  | RecoveryParticipation r =>
      (utf8_valid (pa_participant_key_fingerprint r) = true ∧
       utf8_valid (pa_previous_key_fingerprint r) = true ∧
       utf8_valid (pa_next_key_fingerprint r) = true ∧
       utf8_valid (pa_persona_anchor r) = true ∧ utf8_valid (pa_ceremony_id r) = true) ∧
      (len (pa_request_sha256 r) = 32%N ∧ len (pa_root_statement_sha256 r) = 32%N ∧
       len (pa_recovery_policy_sha256 r) = 32%N ∧ digest_typed (pa_previous_head_sha256 r)) ∧
      (pa_recovery_policy_version r <= u32_max)%N ∧
      (pa_recovery_policy_threshold r <= u32_max)%N ∧
      (pa_previous_head_sequence r <= u32_max)%N ∧ i64_typed (pa_ceremony_expires_at r)
  end.

Definition prompt_typed (p : ApprovalPrompt) : Prop :=
  (utf8_valid (ap_persona_label p) = true ∧ utf8_valid (ap_key_fingerprint p) = true ∧
   peer_typed (ap_peer p)) ∧ subject_typed (ap_subject p).

Definition prompt_type (p : ApprovalPrompt) : N :=
  match ap_subject p with
  | Artifact _ => MESSAGE_ARTIFACT_PROMPT
  | Domain _ => MESSAGE_DOMAIN_PROMPT
  | PersonaRoot _ => MESSAGE_PERSONA_ROOT_PROMPT
  | PersonaTransition _ => MESSAGE_PERSONA_TRANSITION_PROMPT
  | RecoveryParticipation _ => MESSAGE_RECOVERY_PARTICIPATION_PROMPT
  end.

Definition prompt_limit (p : ApprovalPrompt) : N :=
  match ap_subject p with
  | Artifact _ => MAX_ARTIFACT_PROMPT_PAYLOAD_BYTES
  | Domain _ => MAX_DOMAIN_PROMPT_PAYLOAD_BYTES
  | PersonaRoot _ => MAX_PERSONA_ROOT_PROMPT_PAYLOAD_BYTES
  | PersonaTransition _ => MAX_PERSONA_TRANSITION_PROMPT_PAYLOAD_BYTES
  | RecoveryParticipation _ => MAX_RECOVERY_PARTICIPATION_PROMPT_PAYLOAD_BYTES
  end.

Definition presence_byte (o : option bytes) : byte :=
  match o with Some _ => x01 | None => x00 end.

(** The fields of a prompt whose local persona is [local]. *)
Definition prompt_fields (p : ApprovalPrompt) : list bytes :=
  let x := as_bytes (ap_persona_label p) in
  let y := as_bytes (ap_key_fingerprint p) in
  match ap_subject p, ap_persona_id p, ap_persona_purpose p with
  | Artifact a, Some persona, Some purpose =>
      artifact_fields (aa_artifact_kind a) purpose (ap_peer p) (aa_artifact_size a)
        (ap_request_id p) persona (aa_artifact_sha256 a) x y (as_bytes (aa_artifact_label a))
  | Domain d, Some persona, Some purpose =>
      domain_fields purpose (ap_peer p) (da_issued_at d) (da_expires_at d) (ap_request_id p)
        persona x y (as_bytes (da_domain d)) (as_bytes (da_dns_txt_value d))
  | PersonaRoot r, Some persona, Some purpose =>
      root_fields purpose (ap_peer p) (ra_issued_at r) (ap_request_id p) persona
        (ra_root_statement_sha256 r) x y (as_bytes (ra_persona_anchor r))
  | PersonaTransition t, Some persona, Some purpose =>
      transition_fields purpose (presence_byte (ta_previous_transition_sha256 t)) (ap_peer p)
        (ta_sequence t) (ta_issued_at t) (ap_request_id p) persona (ta_root_statement_sha256 t)
        (digest_or_zeros (ta_previous_transition_sha256 t)) (ta_transition_statement_sha256 t)
        x (as_bytes (ta_previous_key_fingerprint t)) (as_bytes (ta_next_key_fingerprint t))
        (as_bytes (ta_persona_anchor t))
  | RecoveryParticipation r, _, _ =>
      participation_fields (pa_participant_role r) (pa_reason r)
        (presence_byte (pa_previous_head_sha256 r)) (ap_peer p) (pa_recovery_policy_version r)
        (pa_recovery_policy_threshold r) (pa_previous_head_sequence r)
        (pa_ceremony_expires_at r) (ap_request_id p) (pa_request_sha256 r)
        (pa_root_statement_sha256 r) (pa_recovery_policy_sha256 r)
        (digest_or_zeros (pa_previous_head_sha256 r)) x
        (as_bytes (pa_participant_key_fingerprint r)) (as_bytes (pa_previous_key_fingerprint r))
        (as_bytes (pa_next_key_fingerprint r)) (as_bytes (pa_persona_anchor r))
        (as_bytes (pa_ceremony_id r))
  | _, _, _ => []
  end.

Definition prompt_payload (p : ApprovalPrompt) : bytes := concat (prompt_fields p).

Definition prompt_message (p : ApprovalPrompt) : bytes :=
  encode_header (prompt_type p) (len (prompt_payload p)) ++ prompt_payload p.

(** ** What validation establishes *)

Lemma validate_text_bound field s n : validate_text field s n = Ok tt → (len (as_bytes s) <= n)%N.
Proof.
  unfold validate_text. rewrite !seq_Ok, as_bytes_len. intros (_ & H & _).
  by rewrite reject_if_Ok, N.ltb_ge in H.
Qed.

Lemma fingerprint_bound field s :
  validate_key_fingerprint field s = Ok tt → (len (as_bytes s) <= 128)%N.
Proof. unfold validate_key_fingerprint. rewrite seq_Ok. intros [H _]. by apply validate_text_bound in H. Qed.

Lemma anchor_bound s : validate_persona_anchor s = Ok tt → (len (as_bytes s) <= 43)%N.
Proof. unfold validate_persona_anchor. rewrite seq_Ok. intros [H _]. by apply validate_text_bound in H. Qed.

Lemma ceremony_bound s : validate_recovery_ceremony_id s = Ok tt → (len (as_bytes s) <= 43)%N.
Proof. unfold validate_recovery_ceremony_id. rewrite seq_Ok. intros [H _]. by apply validate_text_bound in H. Qed.

(** The shape and the bounds of a valid prompt. *)
Definition subject_bounded (p : ApprovalPrompt) : Prop :=
  match ap_subject p with
  | Artifact a => (len (as_bytes (aa_artifact_label a)) <= 256)%N
  | Domain d =>
      (len (as_bytes (da_domain d)) <= 253)%N ∧ (len (as_bytes (da_dns_txt_value d)) <= 128)%N
  | PersonaRoot r => (len (as_bytes (ra_persona_anchor r)) <= 43)%N
  | PersonaTransition t =>
      ap_key_fingerprint p = ta_previous_key_fingerprint t ∧
      (len (as_bytes (ta_previous_key_fingerprint t)) <= 128)%N ∧
      (len (as_bytes (ta_next_key_fingerprint t)) <= 128)%N ∧
      (len (as_bytes (ta_persona_anchor t)) <= 43)%N
  | RecoveryParticipation r =>
      ap_key_fingerprint p = pa_participant_key_fingerprint r ∧
      (len (as_bytes (pa_participant_key_fingerprint r)) <= 128)%N ∧
      (len (as_bytes (pa_previous_key_fingerprint r)) <= 128)%N ∧
      (len (as_bytes (pa_next_key_fingerprint r)) <= 128)%N ∧
      (len (as_bytes (pa_persona_anchor r)) <= 43)%N ∧ (len (as_bytes (pa_ceremony_id r)) <= 43)%N
  end.

Definition local_persona (p : ApprovalPrompt) : Prop :=
  if is_recovery_participation (ap_subject p)
  then ap_persona_id p = None ∧ ap_persona_purpose p = None
  else ∃ persona purpose, ap_persona_id p = Some persona ∧ ap_persona_purpose p = Some purpose.

Lemma validated_local p : validate_local_persona p = Ok tt → local_persona p.
Proof.
  unfold validate_local_persona, local_persona.
  destruct (ap_persona_id p), (ap_persona_purpose p), (is_recovery_participation _); naive_solver.
Qed.

Lemma transition_bounded p t :
  ap_subject p = PersonaTransition t → validate_persona_transition_approval p t = Ok tt →
  subject_bounded p.
Proof.
  unfold validate_persona_transition_approval, subject_bounded. intros -> H. rewrite !seq_Ok in H.
  destruct H as (Ha & _ & _ & _ & Hk & Hp & Hn & _).
  rewrite reject_if_Ok, negb_false_iff, bool_decide_eq_true in Hk.
  split_and!; eauto using fingerprint_bound, anchor_bound.
Qed.

Lemma participation_bounded p r :
  ap_subject p = RecoveryParticipation r → validate_recovery_participation_approval p r = Ok tt →
  subject_bounded p.
Proof.
  unfold validate_recovery_participation_approval, subject_bounded. intros -> H. rewrite !seq_Ok in H.
  destruct H as (Ha & Hc & _ & _ & _ & _ & Hk & He & Hp & Hn & _).
  rewrite reject_if_Ok, negb_false_iff, bool_decide_eq_true in He.
  split_and!; eauto using fingerprint_bound, anchor_bound, ceremony_bound.
Qed.

Lemma validated_prompt p :
  validate_prompt p = Ok tt →
  local_persona p ∧ (len (as_bytes (ap_persona_label p)) <= 256)%N ∧
  (len (as_bytes (ap_key_fingerprint p)) <= 128)%N ∧ subject_bounded p.
Proof.
  unfold validate_prompt. rewrite !seq_Ok. intros (_ & Hl & Ht & Hk & Hs & _).
  split_and!; [by apply validated_local|by apply validate_text_bound in Ht|by apply fingerprint_bound in Hk|].
  unfold validate_prompt_subject in Hs. destruct (ap_subject p) as [a|d|r|t|r] eqn:Hp.
  - unfold subject_bounded. rewrite Hp. by apply validate_text_bound in Hs.
  - unfold subject_bounded. rewrite Hp. unfold validate_domain_approval in Hs. rewrite !seq_Ok in Hs.
    destruct Hs as (Hd & _ & Hx & _). by apply validate_text_bound in Hd, Hx.
  - unfold subject_bounded. rewrite Hp. unfold validate_persona_root_approval in Hs. rewrite seq_Ok in Hs.
    by apply anchor_bound, Hs.
  - exact (transition_bounded p t Hp Hs).
  - exact (participation_bounded p r Hp Hs).
Qed.

(** ** Lengths *)

Lemma prompt_payload_len p :
  prompt_typed p → local_persona p →
  len (prompt_payload p) =
    match ap_subject p with
    | Artifact a =>
        (96 + (len (as_bytes (ap_persona_label p)) + (len (as_bytes (ap_key_fingerprint p)) +
         len (as_bytes (aa_artifact_label a)))))%N
    | Domain d =>
        (76 + (len (as_bytes (ap_persona_label p)) + (len (as_bytes (ap_key_fingerprint p)) +
         (len (as_bytes (da_domain d)) + len (as_bytes (da_dns_txt_value d))))))%N
    | PersonaRoot r =>
        (96 + (len (as_bytes (ap_persona_label p)) + (len (as_bytes (ap_key_fingerprint p)) +
         len (as_bytes (ra_persona_anchor r)))))%N
    | PersonaTransition t =>
        (168 + (len (as_bytes (ap_persona_label p)) +
         (len (as_bytes (ta_previous_key_fingerprint t)) +
          (len (as_bytes (ta_next_key_fingerprint t)) + len (as_bytes (ta_persona_anchor t))))))%N
    | RecoveryParticipation r =>
        (200 + (len (as_bytes (ap_persona_label p)) +
         (len (as_bytes (pa_participant_key_fingerprint r)) +
          (len (as_bytes (pa_previous_key_fingerprint r)) +
           (len (as_bytes (pa_next_key_fingerprint r)) +
            (len (as_bytes (pa_persona_anchor r)) + len (as_bytes (pa_ceremony_id r))))))))%N
    end.
Proof.
  intros [_ Ht] Hl. unfold prompt_payload, prompt_fields, local_persona, subject_typed in *.
  destruct (ap_subject p) as [a|d|r|t|r]; cbn [is_recovery_participation] in Hl.
  1-4: destruct Hl as (persona & purpose & -> & ->).
  - destruct Ht as (_ & Hs & _). rewrite (concat_total _ _ (artifact_prompt_fields_len _ _ _ _ _ _ _ _ _ _ Hs)).
    cbn [foldr]. lia.
  - rewrite (concat_total _ _ (domain_prompt_fields_len _ _ _ _ _ _ _ _ _ _)). cbn [foldr]. lia.
  - destruct Ht as (_ & Hs & _). rewrite (concat_total _ _ (root_prompt_fields_len _ _ _ _ _ _ _ _ _ Hs)).
    cbn [foldr]. lia.
  - destruct Ht as (_ & (Hr & Hd%digest_or_zeros_len & Hs) & _).
    rewrite (concat_total _ _ (transition_prompt_fields_len _ _ _ _ _ _ _ _ _ _ _ _ _ _ Hr Hd Hs)).
    cbn [foldr]. lia.
  - destruct Ht as (_ & (Hs & Hr & Hc & Hd%digest_or_zeros_len) & _).
    rewrite (concat_total _ _ (participation_prompt_fields_len _ _ _ _ _ _ _ _ _ _ _ _ _ _ _ _ _ _ _ Hs Hr Hc Hd)).
    cbn [foldr]. lia.
Qed.

Lemma prompt_payload_bound p :
  prompt_typed p → validate_prompt p = Ok tt → (len (prompt_payload p) <= prompt_limit p)%N.
Proof.
  intros Ht (Hl & Hx & Hy & Hs)%validated_prompt. rewrite prompt_payload_len by done.
  unfold prompt_limit, subject_bounded in *. destruct (ap_subject p).
  - change MAX_ARTIFACT_PROMPT_PAYLOAD_BYTES with 736%N. lia.
  - change MAX_DOMAIN_PROMPT_PAYLOAD_BYTES with 841%N. lia.
  - change MAX_PERSONA_ROOT_PROMPT_PAYLOAD_BYTES with 523%N. lia.
  - change MAX_PERSONA_TRANSITION_PROMPT_PAYLOAD_BYTES with 723%N. lia.
  - change MAX_RECOVERY_PARTICIPATION_PROMPT_PAYLOAD_BYTES with 926%N. lia.
Qed.

Lemma prompt_limit_max p : (prompt_limit p <= MAX_PROMPT_PAYLOAD_BYTES)%N.
Proof. unfold prompt_limit. by destruct (ap_subject p). Qed.

(** ** Encoding *)

(** A message built from its prefix and then its texts. *)
Lemma prompt_extend p n fs ts :
  prompt_fields p = fs ++ ts → n = len (prompt_payload p) →
  extend (extend (encode_header (prompt_type p) n) fs) ts = prompt_message p.
Proof.
  intros Hf ->. unfold prompt_message. rewrite extend_app. f_equal. unfold prompt_payload. by rewrite Hf.
Qed.

Lemma prefix_len ty n fs k :
  total (len <$> fs) = k → len (extend (encode_header ty n) fs) = (20 + k)%N.
Proof. intros <-. unfold extend. by rewrite len_app, approval_header_len, concat_len. Qed.

Ltac sums := unfold total; cbn [foldr]; unfold usize_max, u64_max; lia.

(** [encode_message H k fs ts] closes the goal that an encoder gives
    [prompt_message], for prefix fields [fs] of [k] bytes and texts [ts]. *)
Ltac encode_message :=
  cbn [ok_or]; rewrite !bind_Ok_l;
  rewrite bool_decide_eq_true_2 by
    (apply prefix_len; cbn [app peer_bytes fmap list_fmap];
     rewrite ?to_be_bytes_len, ?uuid_length, ?i64_bytes_len; cbn [foldr];
     repeat match goal with H : len _ = 32%N |- _ => rewrite H; clear H end; reflexivity);
  cbn [debug_assert]; rewrite bind_Ok_l; f_equal.

Lemma encode_prompt_message p :
  prompt_typed p → validate_prompt p = Ok tt → encode_prompt p = Ok (prompt_message p).
Proof.
  intros Ht Hv. pose proof (prompt_payload_len p Ht) as Hlen. unfold encode_prompt. rewrite Hv, bind_Ok_l.
  apply validated_prompt in Hv as (Hl & Hx & Hy & Hs). specialize (Hlen Hl).
  destruct Ht as [_ Ht]. pose proof (prompt_extend p) as He.
  unfold prompt_type, prompt_fields, local_persona, subject_typed, subject_bounded in *.
  destruct (ap_subject p) as [a|d|r|t|r]; cbn [is_recovery_participation] in Hl.
  1-4: destruct Hl as (persona & purpose & Hpe & Hpu); rewrite Hpe, Hpu in He.
  - unfold encode_artifact_prompt, required_persona_purpose, required_persona_id, ARTIFACT_PROMPT_PREFIX_BYTES.
    rewrite Hpe, Hpu, checked_sum_small by sums. destruct Ht as (_ & Hsha & _). encode_message.
    apply He; [done|]. rewrite Hlen. sums.
  - unfold encode_domain_prompt, required_persona_purpose, required_persona_id, DOMAIN_PROMPT_PREFIX_BYTES.
    rewrite Hpe, Hpu, checked_sum_small by sums. encode_message.
    apply He; [done|]. rewrite Hlen. sums.
  - unfold encode_persona_root_prompt, required_persona_purpose, required_persona_id,
      PERSONA_ROOT_PROMPT_PREFIX_BYTES.
    rewrite Hpe, Hpu, checked_sum_small by sums. destruct Ht as (_ & Hsha & _). encode_message.
    apply He; [done|]. rewrite Hlen. sums.
  - unfold encode_persona_transition_prompt, required_persona_purpose, required_persona_id,
      PERSONA_TRANSITION_PROMPT_PREFIX_BYTES.
    rewrite Hpe, Hpu, checked_sum_small by sums.
    destruct Ht as (_ & (Hr & Hd%digest_or_zeros_len & Hsha) & _). encode_message.
    apply He; [done|]. rewrite Hlen. sums.
  - unfold encode_recovery_participation_prompt, RECOVERY_PARTICIPATION_PROMPT_PREFIX_BYTES.
    rewrite checked_sum_small by sums.
    destruct Ht as (_ & (Hsha & Hr & Hc & Hd%digest_or_zeros_len) & _). encode_message.
    apply He; [done|]. rewrite Hlen. sums.
Qed.

(** ** Decoding *)

(** A prompt that a message decodes to. *)
Definition prompt_decodes (q : ApprovalPrompt) (m : bytes) : Prop :=
  prompt_typed q ∧ validate_prompt q = Ok tt ∧ m = prompt_message q.

Lemma new_with_subject_Ok request persona label purpose fingerprint subject peer q :
  new_with_subject request persona label purpose fingerprint subject peer = Ok q ↔
  q = {| ap_request_id := request; ap_persona_id := persona; ap_persona_label := label;
         ap_persona_purpose := purpose; ap_key_fingerprint := fingerprint;
         ap_subject := subject; ap_peer := peer |} ∧ validate_prompt q = Ok tt.
Proof.
  unfold new_with_subject. rewrite seq_Ok. split; [intros [H [= <-]]|intros [-> H]]; done.
Qed.

Lemma decode_text_Ok field bs s :
  decode_text field bs = Ok s ↔ bs = as_bytes s ∧ utf8_valid s = true.
Proof. apply ok_or_utf8. Qed.

(** [decoded_texts H] reads the texts that a successful decoder went through. *)
Ltac decoded_text H :=
  let s := fresh "s" in let Hs := fresh "Hs" in
  unbind H as s Hs; apply decode_text_Ok in Hs as [-> Hs].
Ltac decoded_prompt H :=
  repeat decoded_text H; apply new_with_subject_Ok in H as [-> H].

Lemma decode_artifact_message m q : decode_artifact_prompt m = Ok q → prompt_decodes q m.
Proof.
  unfold decode_artifact_prompt. intros H. unbind H as payload Hh.
  apply approval_decode_header_Ok in Hh as [-> _]; [|done..].
  destruct (artifact_prompt_cases payload) as
    [[e He]|(kind & purpose & peer & size & request & persona & sha & x & y & z & -> & Hp & Hz & Hs & Hx & Hy & Hz')];
    [congruence|].
  rewrite artifact_prompt_eval in H by done. decoded_prompt H.
  split_and!; [by split_and!|done|done].
Qed.

Lemma decode_domain_message m q : decode_domain_prompt m = Ok q → prompt_decodes q m.
Proof.
  unfold decode_domain_prompt. intros H. unbind H as payload Hh.
  apply approval_decode_header_Ok in Hh as [-> _]; [|done..].
  destruct (domain_prompt_cases payload) as
    [[e He]|(purpose & peer & issued & expires & request & persona & x & y & z & w & -> & Hp & Hi & He & Hx & Hy & Hz & Hw)];
    [congruence|].
  rewrite domain_prompt_eval in H by done. decoded_prompt H.
  split_and!; [by split_and!|done|done].
Qed.

Lemma decode_root_message m q : decode_persona_root_prompt m = Ok q → prompt_decodes q m.
Proof.
  unfold decode_persona_root_prompt. intros H. unbind H as payload Hh.
  apply approval_decode_header_Ok in Hh as [-> _]; [|done..].
  destruct (root_prompt_cases payload) as
    [[e He]|(purpose & peer & issued & request & persona & sha & x & y & z & -> & Hp & Hi & Hs & Hx & Hy & Hz)];
    [congruence|].
  rewrite root_prompt_eval in H by done. decoded_prompt H.
  split_and!; [by split_and!|done|done].
Qed.

Lemma presence_byte_Ok o b : presence o = [b] → presence_byte o = b.
Proof. by intros [= <-]. Qed.

Lemma decode_transition_message m q : decode_persona_transition_prompt m = Ok q → prompt_decodes q m.
Proof.
  unfold decode_persona_transition_prompt. intros H. unbind H as payload Hh.
  apply approval_decode_header_Ok in Hh as [-> _]; [|done..].
  destruct (transition_prompt_cases payload) as
    [[e He]|(purpose & b & peer & sequence & issued & request & persona & root & prev & sha & x & y & z & w & -> &
      Hb & Hp & Hs & Hi & Hroot & Hprev & Hsha & Hx & Hy & Hz & Hw)];
    [congruence|].
  rewrite transition_prompt_eval in H by done. unbind H as o Ho.
  apply read_optional_digest_Ok in Ho as (Hpr%presence_byte_Ok & <- & Hd); [|done]. subst b. decoded_prompt H.
  split_and!; [by split_and!|done|done].
Qed.

Lemma decode_participation_message m q :
  decode_recovery_participation_prompt m = Ok q → prompt_decodes q m.
Proof.
  unfold decode_recovery_participation_prompt. intros H. unbind H as payload Hh.
  apply approval_decode_header_Ok in Hh as [-> _]; [|done..].
  destruct (participation_prompt_cases payload) as
    [[e He]|(role & reason & b & peer & version & threshold & sequence & expires & request & sha & root & policy &
      prev & x & y & z & w & v & t & -> & Hb & Hp & Hn & Ht & Hs & Hi & Hsha & Hroot & Hpolicy & Hprev & Hx & Hy & Hz & Hw & Hv & Htt)];
    [congruence|].
  rewrite participation_prompt_eval in H by done. unbind H as o Ho.
  apply read_optional_digest_Ok in Ho as (Hpr%presence_byte_Ok & <- & Hd); [|done]. subst b. decoded_prompt H.
  split_and!; [by split_and!|done|done].
Qed.

Lemma decode_prompt_message m q : decode_prompt m = Ok q → prompt_decodes q m.
Proof.
  unfold decode_prompt. intros H. unbind H as ty Hty.
  repeat case_bool_decide; auto using decode_artifact_message, decode_domain_message,
    decode_root_message, decode_transition_message, decode_participation_message. done.
Qed.

Lemma prompt_frame q :
  prompt_typed q → validate_prompt q = Ok tt →
  decode_common_header (prompt_message q) = Ok (prompt_type q) ∧
  decode_header (prompt_message q) (prompt_type q) (prompt_limit q) = Ok (prompt_payload q).
Proof.
  intros Ht Hv. assert (prompt_type q < 65536)%N as Hty by (unfold prompt_type; by destruct (ap_subject q)).
  split; [unfold prompt_message; by rewrite approval_common_header|].
  rewrite approval_decode_header_Ok; [split; [reflexivity|by apply prompt_payload_bound]|done|].
  unfold prompt_limit. by destruct (ap_subject q).
Qed.

Lemma presence_byte_le o : (byte_val (presence_byte o) <= 1)%N.
Proof. by destruct o. Qed.

Lemma optional_digest_eval o :
  digest_typed o →
  read_optional_digest (presence_byte o) (digest_or_zeros o) InvalidLayout = Ok o.
Proof. intros H. apply read_optional_digest_Ok; [by apply digest_or_zeros_len|]. by destruct o. Qed.

Ltac message_texts :=
  rewrite ?bind_Ok_l;
  repeat (rewrite decode_text_as_bytes by done; rewrite ?bind_Ok_l).

Lemma message_decodes q :
  prompt_typed q → validate_prompt q = Ok tt → decode_prompt (prompt_message q) = Ok q.
Proof.
  intros Ht Hv. destruct (prompt_frame q Ht Hv) as [Hc Hh]. unfold decode_prompt. rewrite Hc, bind_Ok_l. clear Hc.
  pose proof (validated_prompt q Hv) as (Hl & Hx & Hy & Hb). destruct Ht as [(Hux & Huy & Hpe) Ht].
  unfold prompt_type, prompt_limit, prompt_payload, prompt_fields, local_persona, subject_typed, subject_bounded in *.
  destruct q as [request pid label pp fingerprint subject peer];
    cbn [ap_request_id ap_persona_id ap_persona_label ap_persona_purpose ap_key_fingerprint ap_subject ap_peer] in *.
  destruct subject as [a|d|r|t|r]; cbn [is_recovery_participation] in Hl;
    [destruct Hl as (persona & purpose & -> & ->)..|destruct Hl as [-> ->]];
    repeat match goal with
    | |- context [bool_decide (?a = ?b)] =>
        let v := eval vm_compute in (bool_decide (a = b)) in change (bool_decide (a = b)) with v; cbv iota
    end.
  - destruct Ht as (H1 & H2 & H3). unfold decode_artifact_prompt.
    rewrite Hh, bind_Ok_l, artifact_prompt_eval by (done || lia). message_texts.
    destruct a. by apply new_with_subject_Ok.
  - destruct Ht as (H1 & H2 & H3 & H4), Hb. unfold decode_domain_prompt.
    rewrite Hh, bind_Ok_l, domain_prompt_eval by (done || lia). message_texts.
    destruct d. by apply new_with_subject_Ok.
  - destruct Ht as (H1 & H2 & H3). unfold decode_persona_root_prompt.
    rewrite Hh, bind_Ok_l, root_prompt_eval by (done || lia). message_texts.
    destruct r. by apply new_with_subject_Ok.
  - destruct Ht as ((H1 & H2 & H3) & (H4 & H5 & H6) & H7 & H8), Hb as (-> & ? & ? & ?).
    unfold decode_persona_transition_prompt.
    rewrite Hh, bind_Ok_l, transition_prompt_eval by
      first [done | lia | apply presence_byte_le | by apply digest_or_zeros_len].
    rewrite optional_digest_eval by done. message_texts. destruct t. by apply new_with_subject_Ok.
  - destruct Ht as ((H1 & H2 & H3 & H4 & H5) & (H6 & H7 & H8 & H9) & H10 & H11 & H12 & H13),
      Hb as (-> & ? & ? & ? & ? & ?). unfold decode_recovery_participation_prompt.
    rewrite Hh, bind_Ok_l, participation_prompt_eval by
      first [done | lia | apply presence_byte_le | by apply digest_or_zeros_len].
    rewrite optional_digest_eval by done. message_texts. destruct r. by apply new_with_subject_Ok.
Qed.

Lemma encoded_prompt q m :
  prompt_typed q → encode_prompt q = Ok m → validate_prompt q = Ok tt ∧ m = prompt_message q.
Proof.
  intros Ht He. assert (validate_prompt q = Ok tt) as Hv.
  { unfold encode_prompt in He. rewrite seq_Ok in He. tauto. }
  rewrite encode_prompt_message in He by done. by injection He as <-.
Qed.

(** Prompts and messages correspond one to one: a message decodes to a
    prompt exactly when it is the encoding of that prompt, so what the consent
    process displays is what the daemon encoded, to the byte. *)
Theorem prompt_format_bijective m q :
  decode_prompt m = Ok q ↔ prompt_typed q ∧ encode_prompt q = Ok m.
Proof.
  split.
  - intros (Ht & Hv & ->)%decode_prompt_message. split; [done|]. by apply encode_prompt_message.
  - intros [Ht He]. apply encoded_prompt in He as [Hv ->]; [|done]. by apply message_decodes.
Qed.

End facts.

(** * One message from a stream *)

(** ** Streams *)

(** The bytes of a stream, up to its end or its first real error. *)
Fixpoint stream_data (input : Stream) : bytes :=
  match input with
  | [] | Data [] :: _ => []
  | Data bs :: input' => bs ++ stream_data input'
  | ReadFails e :: input' => if io_kind e == Interrupted then stream_data input' else []
  end.

(** The stream ends after its bytes: no error cuts it short, and no read is
    interrupted once the last byte was read. *)
Fixpoint stream_ends (input : Stream) : bool :=
  match input with
  | [] | Data [] :: _ => true
  | Data _ :: input' => stream_ends input'
  | ReadFails e :: input' =>
      (io_kind e == Interrupted) && (stream_data input' != []) && stream_ends input'
  end.

Lemma read_exact_sound n input bs rest :
  read_exact n input = (inr bs, rest) →
  len bs = n ∧ stream_data input = bs ++ stream_data rest ∧ stream_ends input = stream_ends rest.
Proof.
  revert n bs rest. induction input as [|[[|c cs]|e] input IH]; intros n bs rest; cbn [read_exact];
    destruct (N.eqb_spec n 0) as [->|Hn]; try done; try (by intros [= <- <-]).
  - destruct (N.ltb_spec n (len (c :: cs))) as [Hlt|Hge].
    + intros [= <- <-]. unfold len in *. split; [rewrite length_take; lia|].
      destruct (drop (N.to_nat n) (c :: cs)) as [|d ds] eqn:Hd.
      { apply (f_equal length) in Hd. rewrite length_drop in Hd. cbn [length] in *. lia. }
      cbn [stream_data stream_ends]. split; [|done].
      by rewrite app_assoc, <- Hd, take_drop.
    + destruct (read_exact _ input) as [[e|more] r] eqn:Hr; [done|]. intros [= <- <-].
      apply IH in Hr as (Hl & Hd & He). cbn [stream_data stream_ends].
      change (c :: cs ++ more) with ((c :: cs) ++ more). rewrite len_app, Hl, Hd, He, app_assoc.
      split_and!; [lia|done..].
  - case_bool_decide as Hi; [|done]. intros (Hl & Hd & He)%IH. cbn [stream_data stream_ends].
    rewrite bool_decide_eq_true_2 by done. split_and!; [done..|].
    rewrite bool_decide_eq_false_2; [done|]. rewrite Hd. intros [-> _]%app_nil. done.
Qed.

Lemma read_exact_complete n input :
  (n <= len (stream_data input))%N → ∃ bs rest, read_exact n input = (inr bs, rest).
Proof.
  revert n. induction input as [|[[|c cs]|e] input IH]; intros n H; cbn [read_exact stream_data] in *;
    destruct (N.eqb_spec n 0) as [->|Hn]; try (by repeat eexists); try (unfold len in H; cbn in H; lia).
  - destruct (N.ltb_spec n (len (c :: cs))) as [Hlt|Hge]; [by repeat eexists|].
    destruct (IH (n - len (c :: cs))%N) as (bs & rest & ->); [rewrite len_app in H; lia|]. by repeat eexists.
  - case_bool_decide; [by apply IH|]. unfold len in H; cbn in H; lia.
Qed.

Lemma read_byte_end input :
  read_byte input = inr [] ↔ stream_data input = [] ∧ stream_ends input = true.
Proof.
  destruct input as [|[[|c cs]|e] input]; cbn; try naive_solver.
  split; [done|]. case_bool_decide; cbn; [|naive_solver]. by intros [-> He].
Qed.

Lemma read_or_Ok {E} (f : IoError → E) n input bs rest :
  read_or f n input = Ok (bs, rest) ↔ read_exact n input = (inr bs, rest).
Proof. unfold read_or. destruct (read_exact n input) as [[e|x] r]; naive_solver. Qed.

(** A message of at most [limit] payload bytes, with its header. *)
Definition framed (m : bytes) (limit : N) : Prop :=
  ∃ ty payload, (ty < 65536)%N ∧ m = encode_header ty (len payload) ++ payload ∧
    (len payload <= limit)%N.

(** The header of a frame, read on its own. *)
Lemma header_alone h ty :
  len h = 20%N → decode_common_header h = Ok ty →
  ∃ n, (n <= u32_max)%N ∧ h = encode_header ty n ∧ read_u32 (E:=ProtocolError) h 16 = Ok n ∧ (ty < 65536)%N.
Proof.
  rewrite approval_common_header_frame. intros Hl (Hty & l & rest & Hl4 & ->)%frame_type_Ok; [|done..].
  pose proof (header_fields_len approval_framing eq_refl ty l Hl4) as Hls.
  pose proof (concat_total _ _ Hls) as Hc. cbn [foldr] in Hc.
  assert (rest = []) as -> by (rewrite len_app, Hc in Hl; apply len_nil; lia).
  exists (from_be_bytes l). split; [by apply u32_field_le|]. split_and!; [| |done].
  - rewrite app_nil_r, approval_encode_header_frame, frame_header_fields. by rewrite to_from_field.
  - unfold header_fields in *. by read_fields.
Qed.

Lemma header_read_u32 ty n :
  (n <= u32_max)%N → read_u32 (E:=ProtocolError) (encode_header ty n) 16 = Ok n.
Proof.
  intros Hn. pose proof (header_fields_len approval_framing eq_refl ty (to_be_bytes 4 n) (to_be_bytes_len _ _)) as Hls.
  change (encode_header ty n) with (concat (header_fields approval_framing ty (to_be_bytes 4 n))).
  rewrite <- (app_nil_r (concat _)). unfold header_fields in *. read_fields. by rewrite from_to_u32.
Qed.

Lemma framed_read_one input limit m :
  (limit <= u32_max)%N →
  read_one_message input limit = Ok m ↔
  m = stream_data input ∧ stream_ends input = true ∧ framed m limit.
Proof.
  intros Hlim. unfold read_one_message. split.
  - intros H. unbind H as [h r1] Hh. apply read_or_Ok, read_exact_sound in Hh as (Hl & Hd & He).
    change HEADER_BYTES with 20%N in Hl. unbind H as ty Hty.
    apply header_alone in Hty as (n & Hn & -> & Hr & Ht); [|done]. rewrite Hr, bind_Ok_l, seq_Ok, reject_if_Ok, N.ltb_ge in H.
    destruct H as [Hle H]. rewrite add_usize_small, bind_Ok_l in H by (unfold usize_max, u64_max, u32_max, HEADER_BYTES in *; lia).
    unbind H as [p r2] Hp. apply read_or_Ok, read_exact_sound in Hp as (Hlp & Hdp & Hep).
    replace (HEADER_BYTES + n - HEADER_BYTES)%N with n in Hlp by lia.
    destruct (read_byte r2) as [|[]] eqn:Hb; [done| |done]. injection H as <-.
    apply read_byte_end in Hb as [Hb1 Hb2]. rewrite Hd, Hdp, Hb1, app_nil_r. rewrite He, Hep.
    split_and!; [done..|]. exists ty, p. by rewrite Hlp.
  - intros (Hm & He & ty & payload & Hty & Hf & Hle).
    assert (len (stream_data input) = 20 + len payload)%N as Hlen.
    { rewrite <- Hm, Hf, len_app, approval_header_len. done. }
    destruct (read_exact_complete HEADER_BYTES input) as (h & r1 & Hh); [unfold HEADER_BYTES; lia|].
    pose proof (read_exact_sound _ _ _ _ Hh) as (Hlh & Hd & Hend1).
    rewrite (proj2 (read_or_Ok _ _ _ h r1)) by done. rewrite bind_Ok_l.
    rewrite <- Hm, Hf in Hd. apply app_inj_1 in Hd as [<- Hd].
    2: { apply Nat2N.inj. change (len (encode_header ty (len payload)) = len h). by rewrite approval_header_len. }
    rewrite <- (app_nil_r (encode_header _ _)) at 1. rewrite approval_common_header, bind_Ok_l by done.
    rewrite header_read_u32, bind_Ok_l, (proj2 (N.ltb_ge _ _)) by lia. cbn [reject_if].
    rewrite bind_Ok_l, add_usize_small, bind_Ok_l by (unfold usize_max, u64_max, u32_max, HEADER_BYTES in *; lia).
    replace (HEADER_BYTES + len payload - HEADER_BYTES)%N with (len payload) by lia.
    destruct (read_exact_complete (len payload) r1) as (p & r2 & Hp); [by rewrite <- Hd|].
    pose proof (read_exact_sound _ _ _ _ Hp) as (Hlp & Hdp & Hend2).
    rewrite (proj2 (read_or_Ok _ _ _ p r2)) by done. rewrite bind_Ok_l.
    rewrite <- (app_nil_r payload), Hdp in Hd. apply app_inj_1 in Hd as [<- Hd];
      [|apply Nat2N.inj; by change (len payload = len p)].
    rewrite (proj2 (read_byte_end r2)); [by rewrite Hf|]. by rewrite <- Hend2, <- Hend1.
Qed.

Section facts.
Context {crates : Crates} {uuids : UuidBytes} {uuids_ok : UuidBytesOk}.

Lemma prompt_message_framed q :
  prompt_typed q → validate_prompt q = Ok tt → framed (prompt_message q) MAX_PROMPT_PAYLOAD_BYTES.
Proof.
  intros Ht Hv. exists (prompt_type q), (prompt_payload q). split_and!; [|done|].
  - unfold prompt_type. by destruct (ap_subject q).
  - etrans; [by apply prompt_payload_bound|apply prompt_limit_max].
Qed.

(** C39: reading gives a prompt exactly when the bytes of the stream are the
    encoding of that prompt and the stream ends there. It does not matter how the
    bytes of the header and the payload are split over reads or how often a read of
    them is interrupted; the one read that looks for the end is not retried, so the
    stream must end right there, without an interruption or an error. Neither a
    missing nor a following byte is accepted. *)
Theorem read_prompt_exact input q :
  read_prompt input = Ok q ↔
  prompt_typed q ∧ encode_prompt q = Ok (stream_data input) ∧ stream_ends input = true.
Proof.
  unfold read_prompt. split.
  - intros H. unbind H as m Hm. apply framed_read_one in Hm as (-> & He & _); [|done].
    apply decode_prompt_message in H as (Ht & Hv & Hd). rewrite Hd. by rewrite encode_prompt_message.
  - intros (Ht & He & Hend).
    apply encoded_prompt in He as [Hv Hd]; [|done].
    rewrite (proj2 (framed_read_one input MAX_PROMPT_PAYLOAD_BYTES (stream_data input) ltac:(done))), Hd.
    + by apply message_decodes.
    + rewrite Hd. split_and!; [done..|]. by apply prompt_message_framed.
Qed.

(** ** Decisions *)

Lemma decision_of_type_Ok ty d : decision_of_type ty = Ok d ↔ ty = decision_type d.
Proof.
  unfold decision_of_type. split.
  - repeat case_bool_decide; by intros [= <-].
  - intros ->. by destruct d.
Qed.

Lemma decision_of_type_no_panic ty : no_panic (decision_of_type ty).
Proof. unfold decision_of_type. by repeat case_bool_decide. Qed.

Lemma decision_format_bijective m r : decode_decision m = Ok r ↔ m = encode_decision r.
Proof.
  unfold decode_decision, encode_decision. split.
  - intros H. unbind H as ty Hty. unbind H as d Hd. unbind H as payload Hh.
    apply decision_of_type_Ok in Hd. subst ty.
    apply approval_decode_header_Ok in Hh as [-> _]; [|by destruct d|done].
    rewrite seq_Ok, reject_if_Ok, negb_false_iff, bool_decide_eq_true in H. destruct H as [Hl H].
    unbind H as u Hu. injection H as <-. apply ok_or_Ok, uuid_as_from_slice in Hu as <-.
    unfold extend. cbn [concat dr_decision dr_request_id]. by rewrite app_nil_r, Hl.
  - destruct r as [u d]. intros ->. unfold extend. cbn [concat dr_decision dr_request_id]. rewrite app_nil_r.
    assert (decision_type d < 65536)%N as Hty by (by destruct d).
    rewrite approval_common_header, bind_Ok_l by done. rewrite (proj2 (decision_of_type_Ok _ d)) by done.
    rewrite bind_Ok_l. pose proof (uuid_length u) as Hl.
    assert (decode_header (encode_header (decision_type d) DECISION_PAYLOAD_BYTES ++ uuid_as_bytes u)
      (decision_type d) DECISION_PAYLOAD_BYTES = Ok (uuid_as_bytes u)) as ->.
    { apply approval_decode_header_Ok; [done..|]. by rewrite Hl. }
    rewrite bind_Ok_l, Hl. rewrite bool_decide_eq_true_2 by done. cbn [negb reject_if].
    by rewrite bind_Ok_l, uuid_from_as_bytes.
Qed.

(** A decision is read exactly from a stream that is its encoding: the kind
    of decision and all sixteen bytes of the request it answers, and nothing
    after them. *)
Theorem read_decision_exact input r :
  read_decision input = Ok r ↔ stream_data input = encode_decision r ∧ stream_ends input = true.
Proof.
  unfold read_decision. split.
  - intros H. unbind H as m Hm. apply framed_read_one in Hm as (-> & He & _); [|done].
    by apply decision_format_bijective in H.
  - intros (He & Hend).
    assert (decode_decision (stream_data input) = Ok r) as Hd by (by apply decision_format_bijective).
    rewrite (proj2 (framed_read_one input DECISION_PAYLOAD_BYTES (stream_data input) ltac:(done))); [done|].
    split_and!; [done..|]. rewrite He. exists (decision_type (dr_decision r)), (uuid_as_bytes (dr_request_id r)).
    split_and!; [by destruct (dr_decision r)| |by rewrite uuid_length].
    unfold encode_decision, extend. cbn [concat]. by rewrite app_nil_r, uuid_length.
Qed.

(** ** The pipe *)

Lemma encode_header_inj ty ty' n n' :
  (n <= u32_max)%N → (n' <= u32_max)%N → encode_header ty n = encode_header ty' n' → n = n'.
Proof.
  intros Hn Hn' H. pose proof (header_read_u32 ty n Hn) as Hr. rewrite H, header_read_u32 in Hr by done.
  by injection Hr.
Qed.

(** A frame is not a proper prefix of another. *)
Lemma framed_prefix m n limit limit' :
  (limit <= u32_max)%N → (limit' <= u32_max)%N →
  framed m limit → framed (take n m) limit' → take n m = m.
Proof.
  intros Hl Hl' (ty & p & _ & -> & Hp) (ty' & p' & _ & Hm & Hp').
  pose proof (approval_header_len ty (len p)) as Hh. pose proof (approval_header_len ty' (len p')) as Hh'.
  set (m := encode_header ty (len p) ++ p) in *.
  assert (take n m ++ drop n m = m) as Hsplit by apply take_drop. rewrite Hm in Hsplit.
  subst m. rewrite <- app_assoc in Hsplit. apply app_inj_1 in Hsplit as [He Hd].
  2: { unfold len in *. lia. }
  apply encode_header_inj in He; [|lia..]. rewrite <- He in *.
  apply take_ge. apply (f_equal length) in Hm. rewrite length_take, !length_app in Hm.
  unfold len in *. rewrite length_app. lia.
Qed.

Lemma prompt_message_inj q q' :
  prompt_typed q → validate_prompt q = Ok tt → prompt_typed q' → validate_prompt q' = Ok tt →
  prompt_message q = prompt_message q' → q = q'.
Proof.
  intros Ht Hv Ht' Hv' Hm. pose proof (message_decodes q Ht Hv) as Hd. rewrite Hm, message_decodes in Hd by done.
  by injection Hd.
Qed.

Lemma prompt_message_nonempty q : [] ≠ prompt_message q.
Proof.
  intros H%(f_equal len). unfold prompt_message in H. rewrite len_app, approval_header_len in H.
  change (0 = 20 + len (prompt_payload q))%N in H. lia.
Qed.

(** A prompt written to the pipe and read at its other end is the same
    prompt, whether or not the write failed part of the way: a reader of the
    bytes that were written gets this prompt or none, and it gets this prompt
    whenever the write succeeded and the stream ends. *)
Theorem prompt_through_pipe output q res output' input :
  prompt_typed q → wr_written output = [] → write_prompt output q = (res, output') →
  stream_data input = wr_written output' →
  (∀ q', read_prompt input = Ok q' → q' = q) ∧
  (res = Ok tt → stream_ends input = true → read_prompt input = Ok q).
Proof.
  intros Ht Hw Hwrite Hin. unfold write_prompt in Hwrite.
  assert (∀ q', read_prompt input = Ok q' →
    prompt_typed q' ∧ validate_prompt q' = Ok tt ∧ wr_written output' = prompt_message q') as Hread.
  { intros q' H. unfold read_prompt in H. unbind H as m Hm.
    apply framed_read_one in Hm as (-> & _ & _); [|done]. rewrite <- Hin. by apply decode_prompt_message. }
  destruct (encode_prompt q) as [m|e|s] eqn:He.
  - apply encoded_prompt in He as [Hv ->]; [|done]. unfold write_and_flush, write_all in Hwrite.
    destruct (wr_write_fault output) as [[e n]|]; injection Hwrite as <- <-; cbn [wr_written] in *;
      rewrite Hw in *; cbn [app] in *.
    + split; [|done]. intros q' (Ht' & Hv' & Hm)%Hread. symmetry. apply prompt_message_inj; [done..|].
      rewrite <- Hm. symmetry. apply (framed_prefix _ _ MAX_PROMPT_PAYLOAD_BYTES MAX_PROMPT_PAYLOAD_BYTES); [done..| |].
      * by apply prompt_message_framed.
      * rewrite Hm. by apply prompt_message_framed.
    + split; [intros q' (Ht' & Hv' & Hm)%Hread; symmetry; by apply prompt_message_inj|].
      intros _ Hend. unfold read_prompt.
      rewrite (proj2 (framed_read_one input MAX_PROMPT_PAYLOAD_BYTES (stream_data input) ltac:(done))), Hin.
      * by apply message_decodes.
      * rewrite Hin. split_and!; [done..|]. by apply prompt_message_framed.
  - injection Hwrite as <- <-. split; [|done]. intros q' (_ & _ & Hm)%Hread.
    by rewrite Hw in Hm; apply prompt_message_nonempty in Hm.
  - injection Hwrite as <- <-. split; [|done]. intros q' (_ & _ & Hm)%Hread.
    by rewrite Hw in Hm; apply prompt_message_nonempty in Hm.
Qed.

End facts.
