(* ===== verification/ApprovalSafety.v ===== *)
(** * Safety of the approval protocol

    Nothing panics, messages are bounded, and what a prompt for recovery
    participation may show. The daemon shows the review of a domain statement in
    a prompt, which checks the name, the TXT value and the validity again with
    its own code; the two agree. *)

From stdpp Require Import base numbers list strings pretty option.
From Stdlib Require Import Strings.Byte Ascii.
From S2P Require Import Prelude Text Ordered Display Crates Io ArtifactProof Names Domain DomainFacts Fields.
From S2P Require Import Approval ApprovalCodec ApprovalFacts ApprovalWire.

Section facts.
Context {crates : Crates} {uuids : UuidBytes} {uuids_ok : UuidBytesOk}.

(** ** No panics *)

Lemma validate_text_no_panic field value maximum : no_panic (validate_text field value maximum).
Proof. unfold validate_text. no_panics. Qed.
#[local] Hint Resolve validate_text_no_panic : panics.
Lemma prompt_fingerprint_no_panic field value : no_panic (validate_key_fingerprint field value).
Proof. unfold validate_key_fingerprint. no_panics. Qed.
Lemma prompt_anchor_no_panic anchor : no_panic (validate_persona_anchor anchor).
Proof. unfold validate_persona_anchor. no_panics. Qed.
Lemma validate_ceremony_id_no_panic value : no_panic (validate_recovery_ceremony_id value).
Proof. unfold validate_recovery_ceremony_id. no_panics. Qed.
#[local] Hint Resolve prompt_fingerprint_no_panic prompt_anchor_no_panic
  validate_ceremony_id_no_panic : panics.
Lemma validate_subject_no_panic q : no_panic (validate_prompt_subject q).
Proof.
  unfold validate_prompt_subject, validate_domain_approval, validate_persona_root_approval,
    validate_persona_transition_approval, validate_recovery_participation_approval,
    validate_participant_role. no_panics.
Qed.
#[local] Hint Resolve validate_subject_no_panic : panics.
Lemma validate_prompt_no_panic q : no_panic (validate_prompt q).
Proof. unfold validate_prompt, validate_local_persona. no_panics. Qed.
#[local] Hint Resolve validate_prompt_no_panic : panics.
Lemma new_with_subject_no_panic request persona label purpose fingerprint subject peer :
  no_panic (new_with_subject request persona label purpose fingerprint subject peer).
Proof. unfold new_with_subject. no_panics. Qed.
#[local] Hint Resolve new_with_subject_no_panic : panics.
Lemma decode_text_no_panic field bs : no_panic (decode_text field bs).
Proof. apply no_panic_ok_or. Qed.
#[local] Hint Resolve decode_text_no_panic : panics.

Ltac fields_of H :=
  repeat match type of H with ∃ _, _ => destruct H as [? H] end; destruct_and! H; subst.

(** A payload is an error or the fields of a prompt; neither panics. *)
Lemma prompt_payloads_no_panic payload :
  no_panic (artifact_prompt_of_payload payload) ∧ no_panic (domain_prompt_of_payload payload) ∧
  no_panic (persona_root_prompt_of_payload payload) ∧
  no_panic (persona_transition_prompt_of_payload payload) ∧
  no_panic (recovery_participation_prompt_of_payload payload).
Proof.
  split_and!.
  - destruct (artifact_prompt_cases payload) as [[e ->]|H]; [done|]. fields_of H.
    rewrite artifact_prompt_eval by done. unfold ApprovalPrompt_new. no_panics.
  - destruct (domain_prompt_cases payload) as [[e ->]|H]; [done|]. fields_of H.
    rewrite domain_prompt_eval by done. unfold new_domain. no_panics.
  - destruct (root_prompt_cases payload) as [[e ->]|H]; [done|]. fields_of H.
    rewrite root_prompt_eval by done. unfold new_persona_root. no_panics.
  - destruct (transition_prompt_cases payload) as [[e ->]|H]; [done|]. fields_of H.
    rewrite transition_prompt_eval by done. unfold new_persona_transition.
    apply no_panic_bind; [by apply read_optional_digest_no_panic|]. no_panics.
  - destruct (participation_prompt_cases payload) as [[e ->]|H]; [done|]. fields_of H.
    rewrite participation_prompt_eval by done. unfold new_recovery_participation.
    apply no_panic_bind; [by apply read_optional_digest_no_panic|]. no_panics.
Qed.

Lemma decode_prompt_no_panic m : no_panic (decode_prompt m).
Proof.
  unfold decode_prompt, decode_artifact_prompt, decode_domain_prompt, decode_persona_root_prompt,
    decode_persona_transition_prompt, decode_recovery_participation_prompt.
  apply no_panic_bind; [apply approval_common_header_no_panic|]. intros ty _.
  repeat case_bool_decide; [..|done]; (apply no_panic_bind; [apply approval_header_no_panic|]; intros payload _;
    apply prompt_payloads_no_panic).
Qed.

Lemma decode_decision_no_panic m : no_panic (decode_decision m).
Proof.
  unfold decode_decision. apply no_panic_bind; [apply approval_common_header_no_panic|]. intros ty _.
  apply no_panic_bind; [apply decision_of_type_no_panic|]. intros d _.
  apply no_panic_bind; [apply approval_header_no_panic|]. intros payload _. no_panics.
Qed.

Lemma read_one_message_no_panic input limit : no_panic (read_one_message input limit).
Proof.
  unfold read_one_message, read_or. destruct (read_exact HEADER_BYTES input) as [[e|h] r1] eqn:Hh; [done|].
  apply read_exact_sound in Hh as (Hl & _ & _). rewrite bind_Ok_l.
  apply no_panic_bind; [apply approval_common_header_no_panic|]. intros ty Hty.
  apply header_alone in Hty as (n & Hn & -> & Hr & _); [|done]. rewrite Hr, bind_Ok_l.
  apply no_panic_bind; [apply no_panic_reject_if|]. intros _ _.
  rewrite add_usize_small, bind_Ok_l by (unfold usize_max, u64_max, u32_max, HEADER_BYTES in *; lia).
  destruct (read_exact _ r1) as [[e|p] r2]; [done|]. rewrite bind_Ok_l. by destruct (read_byte r2) as [|[]].
Qed.

(** Decoding and reading never panic, whatever the bytes and however they
    arrive; encoding a prompt never panics; and an encoded prompt is at most
    [MAX_MESSAGE_BYTES] long, which the reader accepts. *)
Theorem approval_never_panics input m q :
  no_panic (decode_prompt m) ∧ no_panic (decode_decision m) ∧
  no_panic (read_prompt input) ∧ no_panic (read_decision input) ∧
  (prompt_typed q → no_panic (encode_prompt q) ∧
     (encode_prompt q = Ok m → (len m <= MAX_MESSAGE_BYTES)%N)).
Proof.
  split_and!.
  - apply decode_prompt_no_panic.
  - apply decode_decision_no_panic.
  - unfold read_prompt. apply no_panic_bind; [apply read_one_message_no_panic|]. intros; apply decode_prompt_no_panic.
  - unfold read_decision. apply no_panic_bind; [apply read_one_message_no_panic|]. intros; apply decode_decision_no_panic.
  - intros Ht. pose proof (validate_prompt_no_panic q) as Hp. destruct (validate_prompt q) as [[]|e|] eqn:Hv; [| |done].
    + rewrite encode_prompt_message by done. split; [done|]. intros [= <-].
      unfold prompt_message, MAX_MESSAGE_BYTES. rewrite len_app, approval_header_len.
      pose proof (prompt_payload_bound q Ht Hv). pose proof (prompt_limit_max q). unfold HEADER_BYTES. lia.
    + unfold encode_prompt. by rewrite Hv.
Qed.

(** ** What a participant is shown *)

Lemma valid_participation q r :
  ap_subject q = RecoveryParticipation r → validate_prompt q = Ok tt →
  (ap_persona_id q = None ∧ ap_persona_purpose q = None) ∧
  ap_key_fingerprint q = pa_participant_key_fingerprint r ∧
  pa_previous_key_fingerprint r ≠ pa_next_key_fingerprint r ∧
  (pa_participant_role r = NextSigningKey ↔
     pa_participant_key_fingerprint r = pa_next_key_fingerprint r) ∧
  (pa_participant_role r = RecoveryAuthority →
     pa_participant_key_fingerprint r ≠ pa_previous_key_fingerprint r).
Proof.
  intros Hs Hv. unfold validate_prompt in Hv. rewrite !seq_Ok in Hv. destruct Hv as (_ & Hl & _ & _ & Hv & _).
  apply validated_local in Hl. unfold local_persona in Hl. unfold validate_prompt_subject in Hv. rewrite Hs in *.
  cbn [is_recovery_participation] in Hl. unfold validate_recovery_participation_approval in Hv. rewrite !seq_Ok in Hv.
  destruct Hv as (_ & _ & _ & _ & _ & _ & _ & Hk & _ & _ & Hne & Hrole).
  rewrite reject_if_Ok, negb_false_iff, bool_decide_eq_true in Hk.
  rewrite reject_if_Ok, bool_decide_eq_false in Hne. split; [done|]. split; [done|]. split; [done|].
  unfold validate_participant_role in Hrole. destruct (pa_participant_role r).
  - rewrite reject_if_Ok, orb_false_iff, !bool_decide_eq_false in Hrole. naive_solver.
  - rewrite reject_if_Ok, negb_false_iff, bool_decide_eq_true in Hrole. naive_solver.
Qed.

(** A prompt for recovery participation that reaches the consent process
    shows the participant's own key, names no local persona, replaces the key
    by another, and its role is determined by its keys: the next key signs as
    the next key and an authority is neither online key. *)
Theorem participant_role_determined m m' q q' r r' :
  decode_prompt m = Ok q → ap_subject q = RecoveryParticipation r →
  decode_prompt m' = Ok q' → ap_subject q' = RecoveryParticipation r' →
  (ap_persona_id q = None ∧ ap_persona_purpose q = None ∧
   pa_previous_key_fingerprint r ≠ pa_next_key_fingerprint r ∧
   ap_key_fingerprint q ≠ pa_previous_key_fingerprint r) ∧
  (pa_next_key_fingerprint r = pa_next_key_fingerprint r' →
   ap_key_fingerprint q = ap_key_fingerprint q' →
   pa_participant_role r = pa_participant_role r').
Proof.
  intros (_ & Hv & _)%decode_prompt_message Hs (_ & Hv' & _)%decode_prompt_message Hs'.
  apply (valid_participation q r Hs) in Hv as ((Hi & Hp) & Hk & Hne & Hn & Ha).
  apply (valid_participation q' r' Hs') in Hv' as (_ & Hk' & _ & Hn' & _).
  rewrite Hk, Hk'. split.
  - split_and!; [done..|]. destruct (pa_participant_role r); [by apply Ha|].
    rewrite (proj1 Hn eq_refl). congruence.
  - intros He Hf. destruct (pa_participant_role r), (pa_participant_role r'); try done.
    + apply Hn. rewrite Hf, He. by apply Hn'.
    + symmetry. apply Hn'. rewrite <- Hf, <- He. by apply Hn.
Qed.

End facts.

(** * Domain reviews and domain prompts *)

(** The alphabet of the engine (RFC 4648, section 5). *)
Definition is_url_safe (c : ascii) : bool :=
  is_ascii_uppercase c || is_ascii_lowercase c || is_ascii_digit c ||
  Ascii.eqb c "-" || Ascii.eqb c "_".

Class UrlSafeAlphabet `{!Crates} := {
  url_safe_alphabet bs : str_all is_url_safe (URL_SAFE_NO_PAD_encode bs) = true;
}.

Lemma url_safe_graphic s : str_all is_url_safe s = true → str_all is_graphic s = true.
Proof.
  apply str_all_weaken. intros c. destruct c as [[] [] [] [] [] [] [] []]; vm_compute; naive_solver.
Qed.

(** Text of graphic characters passes the checks on text. *)
Lemma graphic_text field s n :
  s ≠ "" → (str_len s <= n)%N → str_all is_graphic s = true → validate_text field s n = Ok tt.
Proof.
  intros Hne Hl Hg. unfold validate_text.
  rewrite (graphic_trim s Hg), (graphic_displayable s Hg), (proj2 (N.ltb_ge n (str_len s)) Hl).
  by rewrite (bool_decide_eq_false_2 _ Hne), (bool_decide_eq_true_2 (s = s)).
Qed.

Lemma domain_labels_agree d :
  canonical_name d →
  (len (split_on "." d) <? 2)%N || existsb Approval.invalid_label (split_on "." d) ||
    Approval.is_special_use_domain d = false.
Proof.
  intros (_ & Hl & Hf & Hs). rewrite !orb_false_iff. split_and!; [by apply N.ltb_ge| |exact Hs].
  exact (proj2 (valid_labels _) Hf).
Qed.

Section facts.
Context {crates : Crates} {idna : Idna} {json_domain : Serde DomainControlStatement}.
Context {crates_ok : CratesOk} {alphabet : UrlSafeAlphabet}.

(** The part of a prompt that shows a review. *)
Definition approval_of_review (review : DomainControlReview) : DomainApproval :=
  {| da_domain := dw_domain review; da_dns_txt_value := dw_dns_txt_value review;
     da_issued_at := dw_issued_at review; da_expires_at := dw_expires_at review |}.

Lemma commitment_text payload :
  ∃ digest, len digest = 32%N ∧
    dns_txt_commitment payload = Approval.DNS_TXT_PREFIX +:+ URL_SAFE_NO_PAD_encode digest.
Proof. eexists. split; [|reflexivity]. apply sha256_length. Qed.

(** The name, the TXT value and the validity of every review of a domain
    statement pass the checks that a prompt makes of them. *)
Theorem reviewed_domain_can_be_shown st now key persona review :
  review_domain_control_statement st now key persona = Ok review →
  validate_domain_approval (approval_of_review review) = Ok tt.
Proof.
  intros (payload & n & Hp & _ & _ & _ & _ & _ & ->)%review_Ok.
  apply validated_statement in Hp as (_ & Hcan%canonicalize_name & Hi & Hd & _).
  destruct (commitment_text payload) as (digest & Hl & Htxt).
  unfold validate_domain_approval, approval_of_review. cbn [da_domain da_dns_txt_value da_issued_at da_expires_at
    dw_domain dw_dns_txt_value dw_issued_at dw_expires_at].
  rewrite (graphic_text "domain"), bind_Ok_l.
  2: { intros He. destruct Hcan as (_ & Hc & _). rewrite He in Hc. vm_compute in Hc. done. }
  2: { apply Hcan. }
  2: { by apply name_graphic, canonical_name_bytes. }
  rewrite domain_labels_agree by done. cbn [reject_if]. rewrite bind_Ok_l, Htxt, graphic_text, bind_Ok_l.
  2: done.
  2: { rewrite str_len_app. pose proof (url_safe_length digest). change (str_len Approval.DNS_TXT_PREFIX) with 16%N.
       change MAX_DNS_TXT_VALUE_BYTES with 128%N. lia. }
  2: { rewrite str_all_app. by rewrite (url_safe_graphic (URL_SAFE_NO_PAD_encode digest)) by apply url_safe_alphabet. }
  rewrite (proj2 (strip_prefix_Some _ _ _) eq_refl). cbn [ok_or]. rewrite bind_Ok_l, url_safe_round_trip. cbn [of_sum map_err].
  rewrite bind_Ok_l, Hl, !bool_decide_eq_true_2 by done. cbn [negb orb reject_if]. rewrite bind_Ok_l.
  unfold Domain.DOMAIN_MAX_VALIDITY_SECONDS in Hd.
  rewrite (proj2 (checked_sub_i64_Some _ _ (ds_expires_at st - ds_issued_at st)%Z)) by (unfold i64_min, i64_max; lia).
  cbn [ok_or]. rewrite bind_Ok_l, (proj2 (Z.ltb_ge (ds_issued_at st) 0)), (proj2 (Z.leb_gt _ _)), (proj2 (Z.ltb_ge _ _));
    [done| |lia|lia]. unfold DOMAIN_MAX_VALIDITY_SECONDS. lia.
Qed.

End facts.
