(* ===== verification/ApprovalWitness.v ===== *)
(** * Witnesses for the approval protocol

    A prompt for a recovery authority, written to a pipe that delivers it in
    pieces, and its decision; the review of a domain that is then shown. *)

From stdpp Require Import base numbers list strings pretty option.
From Stdlib Require Import Strings.Byte Ascii.
From S2P Require Import Prelude Text Ordered Display Crates Io ArtifactProof Names Domain DomainFacts Fields.
From S2P Require Import Approval ApprovalCodec ApprovalFacts ApprovalWire ApprovalSafety.
From S2P Require Import Instances Witness.

(** ** UUIDs *)

(** UUIDs as arrays of sixteen bytes. *)
#[export] Instance small_uuid_bytes : UuidBytes := {|
  Uuid := {bs : bytes | (len bs =? 16)%N = true};
  uuid_as_bytes := proj1_sig;
  uuid_from_slice bs :=
    match decide ((len bs =? 16)%N = true) with left H => Some (bs ↾ H) | right _ => None end;
  uuid_is_nil u := bool_decide (proj1_sig u = repeat x00 16) |}.

#[export] Instance small_uuid_bytes_ok : UuidBytesOk.
Proof.
  split; cbn [uuid_as_bytes uuid_from_slice small_uuid_bytes].
  - intros [bs H]. by apply N.eqb_eq.
  - intros [bs H]. cbn. destruct (decide _) as [H'|]; [|done]. f_equal. by apply (sig_eq_pi _).
  - intros bs u. destruct (decide _) as [H'|]; [|done]. by intros [= <-].
  - intros bs H%N.eqb_eq. destruct (decide _); [by eexists|done].
Qed.

Definition the_request : Uuid := repeat x07 16 ↾ eq_refl.
Definition fingerprint_of (key : string) : string := "SHA256:" +:+ key.
Definition thirty_two (s : string) : string := s +:+ "-0123456789-0123456789-01".

(** ** A participant's prompt *)

Definition the_recovery : RecoveryParticipationApproval := {|
  pa_request_sha256 := repeat x11 32; pa_ceremony_id := url_encode (as_bytes (thirty_two "ceremon"));
  pa_ceremony_expires_at := 9000; pa_persona_anchor := url_encode (as_bytes (thirty_two "anchor."));
  pa_root_statement_sha256 := repeat x22 32; pa_recovery_policy_version := 1;
  pa_recovery_policy_sha256 := repeat x33 32; pa_recovery_policy_threshold := 2;
  pa_previous_head_sequence := 3; pa_previous_head_sha256 := Some (repeat x44 32);
  pa_reason := Compromise; pa_previous_key_fingerprint := fingerprint_of (thirty_two "old-key");
  pa_next_key_fingerprint := fingerprint_of (thirty_two "new-key");
  pa_participant_role := RecoveryAuthority;
  pa_participant_key_fingerprint := fingerprint_of (thirty_two "keeper1") |}.
Definition the_prompt : ApprovalPrompt := {|
  ap_request_id := the_request; ap_persona_id := None; ap_persona_label := "Ada";
  ap_persona_purpose := None;
  ap_key_fingerprint := pa_participant_key_fingerprint the_recovery;
  ap_subject := RecoveryParticipation the_recovery;
  ap_peer := {| pid := 77; uid := 1000; gid := 1000 |} |}.
Example the_prompt_valid : validate_prompt the_prompt = Ok tt.
Proof. vm_compute. reflexivity. Qed.

Lemma the_prompt_typed : prompt_typed the_prompt.
Proof.
  split; [split_and!; [done|done|by split_and!]|]. cbn [ap_subject the_prompt]. unfold subject_typed.
  split_and!; [done..| |done|done|done|done]. by intros d [= <-].
Qed.

Definition the_message : bytes := Eval vm_compute in ok_get (encode_prompt the_prompt) eq_refl.

Lemma prompt_format_bijective_witness : decode_prompt the_message = Ok the_prompt.
Proof.
  apply (prompt_format_bijective the_message the_prompt).
  split; [exact the_prompt_typed|]. vm_compute. reflexivity.
Defined.

(** The message arrives in two pieces, with an interrupted read between them. *)
Definition interruption : ReadEvent := ReadFails {| io_kind := Interrupted; io_message := "EINTR" |}.
Definition the_stream : Stream :=
  [Data (take 33 the_message); interruption; Data (drop 33 the_message)].

Lemma read_prompt_exact_witness : read_prompt the_stream = Ok the_prompt.
Proof.
  apply (read_prompt_exact the_stream the_prompt).
  split; [exact the_prompt_typed|]. split; vm_compute; reflexivity.
Defined.

(** A byte after the message, and an interruption of the last read. *)
Example refused_streams :
  read_prompt [Data (the_message ++ [x00])] = Err TrailingBytes ∧
  read_prompt [Data (take 33 the_message)] = Err TruncatedPayload ∧
  is_ok (read_prompt [Data the_message; interruption]) = false.
Proof. vm_compute. done. Qed.

Definition the_decision : DecisionResponse :=
  {| dr_request_id := the_request; dr_decision := Decline |}.

Lemma read_decision_exact_witness :
  read_decision [Data (encode_decision the_decision)] = Ok the_decision.
Proof. apply (read_decision_exact [Data (encode_decision the_decision)] the_decision). split; done. Defined.

Lemma prompt_through_pipe_witness : read_prompt the_stream = Ok the_prompt.
Proof.
  apply (prompt_through_pipe
    {| wr_written := []; wr_write_fault := None; wr_flush_fault := None |} the_prompt (Ok tt)
    {| wr_written := the_message; wr_write_fault := None; wr_flush_fault := None |} the_stream);
    [exact the_prompt_typed|vm_compute; reflexivity..].
Defined.

Lemma approval_never_panics_witness : (len the_message <= MAX_MESSAGE_BYTES)%N.
Proof.
  destruct (approval_never_panics [] the_message the_prompt) as (_ & _ & _ & _ & H).
  apply (H the_prompt_typed). vm_compute. reflexivity.
Defined.

Lemma participant_role_determined_witness :
  ap_persona_id the_prompt = None ∧ ap_key_fingerprint the_prompt ≠ pa_previous_key_fingerprint the_recovery.
Proof.
  destruct (participant_role_determined the_message the_message the_prompt the_prompt the_recovery the_recovery)
    as [(H1 & _ & _ & H2) _]; [vm_compute; reflexivity|reflexivity|vm_compute; reflexivity|reflexivity|done].
Defined.

(** ** A domain that is reviewed and shown *)

(** An engine whose texts are hexadecimal, for the alphabet of [UrlSafeAlphabet]. *)
Fixpoint unhex (s : string) : bytes :=
  match s with
  | String h (String l rest) => byte_of (hex_value h * 16 + hex_value l)%N :: unhex rest
  | _ => []
  end.

Lemma unhex_lower_hex bs : unhex (lower_hex bs) = bs.
Proof.
  induction bs as [|b bs IH]; [done|]. cbn [lower_hex unhex]. rewrite IH. f_equal. by destruct b.
Qed.

Definition hex_crates : Crates := {|
  URL_SAFE_NO_PAD_encode := lower_hex;
  URL_SAFE_NO_PAD_decode s := inr (unhex s);
  STANDARD_encode := @STANDARD_encode small_crates;
  STANDARD_decode := @STANDARD_decode small_crates;
  STANDARD_NO_PAD_encode := @STANDARD_NO_PAD_encode small_crates;
  STANDARD_NO_PAD_decode := @STANDARD_NO_PAD_decode small_crates;
  Sha256_digest := @Sha256_digest small_crates;
  SshPublicKey := @SshPublicKey small_crates;
  SshSig := @SshSig small_crates;
  PublicKey_from_openssh := @PublicKey_from_openssh small_crates;
  key_data := @key_data small_crates;
  SshSig_parse := @SshSig_parse small_crates;
  SshSig_algorithm := @SshSig_algorithm small_crates;
  PublicKey_verify := @PublicKey_verify small_crates |}.

Lemma hex_crates_ok : @CratesOk hex_crates.
Proof.
  split; cbn [URL_SAFE_NO_PAD_encode URL_SAFE_NO_PAD_decode hex_crates].
  - intros bs. by rewrite unhex_lower_hex.
  - intros bs. rewrite lower_hex_len. lia.
  - apply small_crates_ok.
  - apply small_crates_ok.
Qed.

Lemma hex_alphabet : @UrlSafeAlphabet hex_crates.
Proof.
  split. intros bs. cbn [URL_SAFE_NO_PAD_encode hex_crates].
  apply (str_all_weaken is_lower_hex); [|apply lower_hex_all].
  intros c. destruct c as [[] [] [] [] [] [] [] []]; vm_compute; naive_solver.
Qed.

Definition shown_statement : DomainControlStatement := Eval vm_compute in
  ok_get (new_domain_control_statement (crates:=hex_crates) (Some (repeat x6e 32)) "Ada.Aquo.net." 1000
    605800 key_a "Ada") eq_refl.
Definition shown_review : DomainControlReview := Eval vm_compute in
  ok_get (review_domain_control_statement (crates:=hex_crates) shown_statement 1100 key_a "Ada") eq_refl.

Lemma reviewed_domain_can_be_shown_witness :
  validate_domain_approval (crates:=hex_crates) (approval_of_review shown_review) = Ok tt.
Proof.
  apply (reviewed_domain_can_be_shown (crates:=hex_crates) (crates_ok:=hex_crates_ok) (alphabet:=hex_alphabet)
    shown_statement 1100 key_a "Ada" shown_review).
  vm_compute. reflexivity.
Defined.
