(* ===== verification/CoreTotal.v ===== *)
(** * The core never panics under the daemon

    The functions of the core crate that the daemon calls return a value or an
    error, whatever they are given; signing needs a clock that advances. *)

From stdpp Require Import base numbers list strings pretty option.
From Stdlib Require Import Strings.Byte Ascii.
From S2P Require Import Prelude Text Ordered Display Crates ArtifactProof ArtifactFacts Continuity ContinuityFacts.
From S2P Require Import RecoveryPolicy RecoveryPolicyFacts RecoveryChain RecoveryChainFacts Ceremony Names Domain.

#[local] Hint Resolve normalize_public_key_no_panic public_key_fingerprint_no_panic
  validate_key_fingerprint_no_panic require_value_no_panic validate_persona_no_panic
  decode_payload_no_panic sshsig_verify_no_panic parse_bounded_json_no_panic
  validate_jcs_time_no_panic validate_sha256_no_panic validate_canonical_persona_no_panic
  validate_persona_anchor_no_panic validate_payload_bound_no_panic
  canonical_root_no_panic canonical_transition_no_panic require_key_pair_no_panic
  verify_persona_root_proof_no_panic verify_persona_transition_proof_no_panic : panics.

Section total.
Context {crates : Crates} {idna : Idna}
  {json_statement : Serde ArtifactStatement} {json_bundle : Serde ProofBundle}
  {json_domain : Serde DomainControlStatement}
  {json_root : Serde PersonaRootStatement} {json_root_proof : Serde PersonaRootProof}
  {json_transition : Serde PersonaTransitionStatement}
  {json_transition_proof : Serde PersonaTransitionProof}
  {json_policy : Serde RecoveryPolicyStatement}
  {json_recovery : Serde RecoveryTransitionStatement}
  {json_terminal : Serde TerminalPersonaRevocationStatement}
  {json_request : Serde RecoveryCeremonyRequest} {json_response : Serde RecoveryCeremonyResponse}.

(** ** Domains *)

Lemma canonical_domain_no_panic st : no_panic (canonical_domain_control_statement_bytes st).
Proof.
  unfold canonical_domain_control_statement_bytes, validate_domain_statement, canonicalize_domain,
    validate_nonce, validate_validity. no_panics.
Qed.
#[local] Hint Resolve canonical_domain_no_panic : panics.

Lemma review_domain_no_panic st now key persona :
  no_panic (review_domain_control_statement st now key persona).
Proof. unfold review_domain_control_statement, validate_current_time. no_panics. Qed.
#[local] Hint Resolve review_domain_no_panic : panics.

Lemma review_domain_bytes_no_panic bs now key persona :
  no_panic (review_domain_control_statement_bytes bs now key persona).
Proof. unfold review_domain_control_statement_bytes. no_panics. Qed.

Lemma verify_domain_no_panic proof now : no_panic (verify_domain_control_proof proof now).
Proof. unfold verify_domain_control_proof, decode_sshsig_payload, validate_envelope. no_panics. Qed.

(** ** Roots and transitions *)

Lemma review_root_no_panic st now key persona :
  no_panic (review_persona_root_statement st now key persona).
Proof. unfold review_persona_root_statement. no_panics. Qed.
#[local] Hint Resolve review_root_no_panic : panics.

Lemma review_root_bytes_no_panic bs now key persona :
  no_panic (review_persona_root_statement_bytes bs now key persona).
Proof. unfold review_persona_root_statement_bytes. no_panics. Qed.

Lemma new_transition_statement_no_panic root sequence previous key next_key issued_at :
  no_panic (new_routine_transition_statement root sequence previous key next_key issued_at).
Proof. unfold new_routine_transition_statement, persona_root_statement_sha256. no_panics. Qed.

Lemma review_transition_no_panic st now root sequence previous key next_key :
  no_panic (review_persona_transition_statement st now root sequence previous key next_key).
Proof. unfold review_persona_transition_statement, persona_root_statement_sha256. no_panics. Qed.

Lemma verify_chain_no_panic root proofs digest :
  no_panic (verify_persona_continuity_chain root proofs digest).
Proof.
  pose proof chain_verification_no_panic. unfold verify_persona_continuity_chain. no_panics.
Qed.

Lemma verify_mixed_chain_no_panic root proofs policies digest latest now :
  no_panic (verify_persona_continuity_chain_with_recovery root proofs policies digest latest now).
Proof.
  pose proof mixed_sequence_no_panic. unfold verify_persona_continuity_chain_with_recovery. no_panics.
Qed.

(** ** Ceremonies *)

Lemma validate_recovery_statement_no_panic st : no_panic (validate_recovery_transition_statement st).
Proof.
  unfold validate_recovery_transition_statement, validate_recovery_transition_schema,
    validate_recovery_ceremony_id. no_panics.
Qed.
#[local] Hint Resolve validate_recovery_statement_no_panic : panics.

Lemma canonical_recovery_no_panic st : no_panic (canonical_recovery_transition_statement_bytes st).
Proof. unfold canonical_recovery_transition_statement_bytes. no_panics. Qed.

Lemma structure_no_panic p : no_panic (validate_transition_structure p).
Proof.
  pose proof decode_recovery_no_panic as Hr. pose proof decode_terminal_no_panic as Hz.
  pose proof preflight_unbound_no_panic as Hu. pose proof preflight_authority_no_panic as Ha.
  pose proof validate_recovery_signature_no_panic as Hs. pose proof take_signatures_no_panic as Ht.
  pose proof validate_signature_no_panic as Hv. pose proof require_proof_schema_no_panic as Hq.
  pose proof decode_continuity_payload_no_panic as Hd.
  destruct p; cbn [validate_transition_structure].
  - unfold validate_persona_transition_proof_structure, preflight_persona_transition_proof. no_panics.
  - unfold validate_recovery_transition_proof_structure, preflight_recovery_transition_proof. no_panics.
  - unfold validate_terminal_persona_revocation_proof_structure,
      preflight_terminal_persona_revocation_proof. no_panics.
Qed.
#[local] Hint Resolve canonical_recovery_no_panic structure_no_panic : panics.

Lemma signature_work_no_panic request : no_panic (require_request_signature_work_bound request).
Proof.
  unfold require_request_signature_work_bound. apply no_panic_bind.
  { apply (no_panic_fold_result _ (λ _, True)); [done| |done]. intros. unfold add_work, policy_signature_work.
    no_panics. }
  intros work _. apply no_panic_bind; [|no_panics].
  apply (no_panic_fold_result _ (λ _, True)); [done| |done]. intros.
  unfold add_work, transition_signature_work. no_panics.
Qed.

Lemma validate_head_no_panic head : no_panic (validate_head head).
Proof.
  unfold validate_head, validate_ceremony_sha256. apply no_panic_bind; [done|]. intros. no_panics.
Qed.

Lemma canonical_request_no_panic request : no_panic (canonical_recovery_ceremony_request_bytes request).
Proof.
  pose proof signature_work_no_panic. pose proof preflight_policy_no_panic.
  assert (no_panic (each_result validate_recovery_policy_proof_structure (cq_recovery_policies request))).
  { apply no_panic_each_result. intros. unfold validate_recovery_policy_proof_structure. no_panics. }
  assert (no_panic (each_result validate_transition_structure (cq_prior_transitions request))).
  { apply no_panic_each_result, structure_no_panic. }
  unfold canonical_recovery_ceremony_request_bytes, validate_request_structure,
    validate_ceremony_sha256, require_bound. pose proof validate_head_no_panic. no_panics.
Qed.
#[local] Hint Resolve canonical_request_no_panic : panics.

Lemma parse_request_no_panic bs : no_panic (parse_recovery_ceremony_request_bytes bs).
Proof. unfold parse_recovery_ceremony_request_bytes. no_panics. Qed.

Lemma at_head_no_panic chain sequence anchor persona root previous key next_key issued_at :
  no_panic (validate_recovery_aware_transition_at_head chain sequence anchor persona root previous key
    next_key issued_at).
Proof.
  unfold validate_recovery_aware_transition_at_head.
  assert (∀ policies, no_panic (each_result (λ candidate,
    reject_if (binary_search_is_ok (ps_recovery_key_fingerprints (vp_statement candidate)) next_key)
      (chain_mismatch ("recovery policy v" +:+ pretty (ps_policy_version (vp_statement candidate)) +:+
        " reuses the proposed online key as a recovery authority"))) policies)).
  { intros. apply no_panic_each_result. intros. no_panics. }
  no_panics.
Qed.

Lemma verify_request_no_panic request t : no_panic (verify_recovery_ceremony_request request t).
Proof.
  pose proof mixed_checkpoint_no_panic. pose proof at_head_no_panic.
  pose proof recovery_policy_for_transition_no_panic.
  unfold verify_recovery_ceremony_request, validate_ceremony_time, ensure_ceremony_current,
    validate_recovery_ceremony_candidate,
    validate_recovery_transition_binding, validate_recovery_transition_policy_binding. no_panics.
Qed.

Lemma ensure_current_no_panic st t : no_panic (ensure_ceremony_current st t).
Proof. unfold ensure_ceremony_current. no_panics. Qed.
Lemma ensure_not_before_no_panic v t : no_panic (ensure_not_before_prior_verification v t).
Proof. unfold ensure_not_before_prior_verification, validate_ceremony_time. no_panics. Qed.
Lemma participant_role_no_panic v f : no_panic (participant_role v f).
Proof. unfold participant_role. no_panics. Qed.
Lemma canonical_response_no_panic r : no_panic (canonical_recovery_ceremony_response_bytes r).
Proof.
  pose proof validate_recovery_signature_no_panic.
  unfold canonical_recovery_ceremony_response_bytes, validate_response_structure,
    validate_ceremony_sha256, require_bound. no_panics.
Qed.
#[local] Hint Resolve ensure_current_no_panic ensure_not_before_no_panic participant_role_no_panic
  canonical_response_no_panic : panics.

(** A verified request has the identifier and the expiry its reviews show. *)
Definition ceremony_complete (verified : VerifiedRecoveryCeremonyRequest) : Prop :=
  is_Some (xs_ceremony_id (vq_statement verified)) ∧ is_Some (xs_expires_at (vq_statement verified)).

Lemma verified_request_complete request t verified :
  verify_recovery_ceremony_request request t = Ok verified → ceremony_complete verified.
Proof.
  unfold verify_recovery_ceremony_request. intros H. apply seq_Ok in H as [_ H]. unbind H as bs Hbs.
  unbind H as chain Hc. unbind H as policy Hp. apply seq_Ok in H as [_ H]. unbind H as payload Hpl.
  unbind H as key Hk. injection H as <-. unfold ceremony_complete. cbn [vq_statement vq_request].
  unfold validate_recovery_ceremony_candidate in Hp. apply seq_Ok in Hp as [Hs Hp].
  apply seq_Ok in Hp as [Hv _]. oks Hs. unfold validate_recovery_transition_statement in Hv.
  apply seq_Ok in Hv as [Hv _]. unfold validate_recovery_transition_schema in Hv.
  rewrite Hs in Hv. rewrite bool_decide_false, bool_decide_true in Hv by done.
  unbind Hv as id Hid. apply seq_Ok in Hv as [_ Hv]. unbind Hv as e He. oks Hid. oks He.
  split; eexists; done.
Qed.

Lemma review_participant_no_panic verified key t :
  ceremony_complete verified → no_panic (review_recovery_ceremony_participant verified key t).
Proof.
  intros [Hid He]. unfold review_recovery_ceremony_participant.
  pose proof (no_panic_expect (E:=ProofError) _ "a verified ceremony request contains a schema-v2 statement" Hid).
  pose proof (no_panic_expect (E:=ProofError) _ "a verified ceremony request contains a schema-v2 statement" He).
  no_panics.
Qed.

Lemma verify_response_no_panic verified response t :
  no_panic (verify_recovery_ceremony_response verified response t).
Proof.
  pose proof validate_recovery_signature_no_panic. unfold verify_recovery_ceremony_response. no_panics.
Qed.

(** ** Signing *)

Section signing.
Context {keygen : SshKeygen} {clock : ClockOk}.

#[local] Hint Resolve sshsig_sign_no_panic : panics.

Lemma create_artifact_no_panic artifact path key persona :
  no_panic (create_sshsig_proof_for_descriptor artifact path key persona).
Proof.
  unfold create_sshsig_proof_for_descriptor, create_sshsig_payload_proof,
    validate_artifact_descriptor. no_panics.
Qed.

Lemma create_domain_no_panic st path key :
  no_panic (create_domain_control_proof_for_statement st path key).
Proof.
  unfold create_domain_control_proof_for_statement, create_sshsig_payload_proof. no_panics.
Qed.

Lemma create_root_no_panic st path key : no_panic (create_persona_root_proof st path key).
Proof. unfold create_persona_root_proof. no_panics. Qed.

Lemma create_transition_no_panic st path key next_path next_key :
  no_panic (create_routine_transition_proof st path key next_path next_key).
Proof. unfold create_routine_transition_proof. no_panics. Qed.

Lemma sign_ceremony_no_panic verified signer t :
  ceremony_complete verified → no_panic (sign_recovery_ceremony_request verified signer t).
Proof.
  intros Hc. pose proof (λ key, review_participant_no_panic verified key t Hc).
  pose proof validate_recovery_signature_no_panic.
  assert (∀ payload path key ns, no_panic (sign_one payload path key ns)).
  { intros. unfold sign_one. no_panics. }
  unfold sign_recovery_ceremony_request, new_recovery_ceremony_response. no_panics.
Qed.
End signing.
End total.
