(* ===== verification/Interaction.v ===== *)
(** * Programs that interact with their environment

    A process that asks the system, the store or the user for something, and
    goes on with the answer, is a tree of such calls that ends in a result.
    [runs] relates a program to the traces it can leave and to its result;
    [guarded] says that a condition on the history holds whenever a call is
    made, also in a run that is cut short; [execute] runs a program against
    one environment. *)

From stdpp Require Import base numbers list strings option.
From S2P Require Import Prelude.

Section programs.
Context {Call : Type} (Answer : Call → Type).

Inductive prog (E A : Type) : Type :=
| Ret (r : result E A)
| Do (c : Call) (k : Answer c → prog E A).
Arguments Ret {E A} r.
Arguments Do {E A} c k.

(** Going on with whatever a program ends in. *)
Fixpoint handle {E F A B} (f : result E A → prog F B) (p : prog E A) : prog F B :=
  match p with
  | Ret r => f r
  | Do c k => Do c (λ x, handle f (k x))
  end.

#[export] Instance prog_ret E : MRet (prog E) := λ A a, Ret (Ok a).
#[export] Instance prog_bind E : MBind (prog E) := λ A B f p,
  handle (λ r, match r with Ok a => f a | Err e => Ret (Err e) | Panic s => Ret (Panic s) end) p.

Definition lift {E A} (r : result E A) : prog E A := Ret r.
Definition call {E} (c : Call) : prog E (Answer c) := Do c (λ x, Ret (Ok x)).

(** [.map_err(f)] *)
Definition map_error {E F A} (f : E → F) (p : prog E A) : prog F A :=
  handle (λ r, Ret (map_err f r)) p.

(** ** Runs *)

(** A call with its answer. *)
Definition Event : Type := { c : Call & Answer c }.
Definition occurs (c : Call) (x : Answer c) : Event := existT c x.

Fixpoint runs {E A} (p : prog E A) (t : list Event) (r : result E A) : Prop :=
  match p with
  | Ret r' => t = [] ∧ r = r'
  | Do c k => ∃ x t', t = occurs c x :: t' ∧ runs (k x) t' r
  end.

(** What holds of the history whenever a call is made. *)
Fixpoint guarded {E A} (P : list Event → Call → Prop) (h : list Event) (p : prog E A) : Prop :=
  match p with
  | Ret _ => True
  | Do c k => P h c ∧ ∀ x, guarded P (h ++ [occurs c x]) (k x)
  end.

(** Running against an environment that answers by the history. *)
Fixpoint execute {E A} (answer : list Event → ∀ c, Answer c) (h : list Event) (p : prog E A) :
    list Event * result E A :=
  match p with
  | Ret r => ([], r)
  | Do c k =>
      let x := answer h c in
      let '(t, r) := execute answer (h ++ [occurs c x]) (k x) in (occurs c x :: t, r)
  end.

(** ** Lemmas *)

Lemma runs_handle {E F A B} (f : result E A → prog F B) p t r :
  runs (handle f p) t r ↔ ∃ t1 t2 r1, t = t1 ++ t2 ∧ runs p t1 r1 ∧ runs (f r1) t2 r.
Proof.
  revert t. induction p as [r0|c k IH]; intros t; cbn.
  - split; [intros H; by exists [], t, r0|]. by intros (? & ? & ? & -> & [-> ->] & H).
  - split.
    + intros (x & t' & -> & H). apply IH in H as (t1 & t2 & r1 & -> & H1 & H2).
      exists (occurs c x :: t1), t2, r1. split_and!; [done| |done]. by exists x, t1.
    + intros (t1 & t2 & r1 & -> & (x & t' & -> & H1) & H2). exists x, (t' ++ t2).
      split; [done|]. apply IH. by exists t', t2, r1.
Qed.

Lemma runs_bind {E A B} (p : prog E A) (f : A → prog E B) t b :
  runs (p ≫= f) t (Ok b) ↔ ∃ t1 t2 a, t = t1 ++ t2 ∧ runs p t1 (Ok a) ∧ runs (f a) t2 (Ok b).
Proof.
  unfold mbind, prog_bind. rewrite runs_handle. split.
  - intros (t1 & t2 & [a| |] & -> & H1 & H2); [by exists t1, t2, a|by destruct H2..].
  - intros (t1 & t2 & a & -> & H1 & H2). by exists t1, t2, (Ok a).
Qed.

Lemma runs_lift {E A} (r r' : result E A) t : runs (lift r) t r' ↔ t = [] ∧ r = r'.
Proof. cbn. naive_solver. Qed.

Lemma runs_call {E} c t r :
  runs (E:=E) (call c) t r ↔ ∃ x, t = [occurs c x] ∧ r = Ok x.
Proof. cbn. split; [intros (x & ? & -> & -> & ->); eauto|]. intros (x & -> & ->). eauto. Qed.

Lemma runs_map_error {E F A} (f : E → F) (p : prog E A) t a :
  runs (map_error f p) t (Ok a) ↔ runs p t (Ok a).
Proof.
  unfold map_error. rewrite runs_handle. split.
  - intros (t1 & t2 & r & -> & H & [-> Hr]). rewrite app_nil_r. by destruct r; simplify_eq/=.
  - intros H. exists t, [], (Ok a). by rewrite app_nil_r.
Qed.

Lemma guarded_handle {E F A B} P h (f : result E A → prog F B) p :
  guarded P h p → (∀ t r, runs p t r → guarded P (h ++ t) (f r)) → guarded P h (handle f p).
Proof.
  revert h. induction p as [r|c k IH]; intros h; cbn.
  - intros _ H. specialize (H [] r (conj eq_refl eq_refl)). by rewrite app_nil_r in H.
  - intros [Hc Hk] H. split; [done|]. intros x. apply IH; [done|]. intros t r Hr.
    rewrite <- app_assoc. apply H. eauto.
Qed.

Lemma guarded_bind {E A B} P h (p : prog E A) (f : A → prog E B) :
  guarded P h p → (∀ t a, runs p t (Ok a) → guarded P (h ++ t) (f a)) → guarded P h (p ≫= f).
Proof. intros Hp Hf. apply guarded_handle; [done|]. intros t [a| |] Hr; [auto|done..]. Qed.

Lemma guarded_map_error {E F A} P h (f : E → F) (p : prog E A) :
  guarded P h p → guarded P h (map_error f p).
Proof. intros H. by apply guarded_handle. Qed.

(** Every call of every run was made with its condition satisfied. *)
Lemma guarded_sound {E A} P h (p : prog E A) t r t1 c x t2 :
  guarded P h p → runs p t r → t = t1 ++ occurs c x :: t2 → P (h ++ t1) c.
Proof.
  revert h t t1. induction p as [r0|c0 k IH]; intros h t t1; cbn.
  - intros _ [-> _] H. by destruct t1.
  - intros [Hc Hk] (y & t' & -> & Hr) Heq. destruct t1 as [|e t1]; cbn in Heq.
    + rewrite app_nil_r. unfold occurs in Heq. injection Heq as -> _ _. done.
    + injection Heq as <- ->. specialize (IH y (h ++ [occurs c0 y]) (t1 ++ occurs c x :: t2) t1).
      rewrite <- app_assoc in IH. by apply IH.
Qed.

Lemma execute_runs {E A} answer h (p : prog E A) :
  runs p (execute answer h p).1 (execute answer h p).2.
Proof.
  revert h. induction p as [r|c k IH]; intros h; cbn; [done|].
  specialize (IH (answer h c) (h ++ [occurs c (answer h c)])).
  destruct (execute answer (h ++ [occurs c (answer h c)]) (k (answer h c))) as [t r]. eauto.
Qed.

(** An environment that keeps to a rule leaves a trace that does. *)
Lemma execute_Forall {E A} (P : Event → Prop) answer h (p : prog E A) :
  (∀ h c, P (occurs c (answer h c))) → Forall P (execute answer h p).1.
Proof.
  intros HP. revert h. induction p as [r|c k IH]; intros h; cbn; [done|].
  specialize (IH (answer h c) (h ++ [occurs c (answer h c)])).
  destruct (execute answer (h ++ [occurs c (answer h c)]) (k (answer h c))) as [t r]. by constructor.
Qed.

End programs.

Arguments Ret {Call Answer E A} r.
Arguments Do {Call Answer E A} c k.
Arguments handle {Call Answer E F A B} f p.
Arguments lift {Call Answer E A} r.
Arguments call {Call Answer E} c.
Arguments map_error {Call Answer E F A} f p.
Arguments occurs {Call Answer} c x.
Arguments runs {Call Answer E A} p t r.
Arguments guarded {Call Answer E A} P h p.
Arguments execute {Call Answer E A} answer h p.

(** [went H as t x Hx] splits a successful run at its first bind. *)
Tactic Notation "went" hyp(H) "as" simple_intropattern(t) simple_intropattern(x)
    simple_intropattern(Hx) :=
  let t' := fresh "t" in
  apply runs_bind in H as (t & t' & x & -> & Hx & H).
