(* ===== verification/StoreTypes.v ===== *)
(** * The records of the persona store ([crates/a-quo-store/src/lib.rs])

    What the store hands to the daemon: the active signer of a persona, the
    verified continuity journal, and the identities of routine transitions.
    Two paths are equal when their components are, so the records that hold
    one have their own comparison. *)

From stdpp Require Import base numbers list strings option.
From S2P Require Import Prelude Text Ordered Crates ArtifactProof Continuity RecoveryPolicy RecoveryChain.

Inductive PersonaPurpose := Personal | Pseudonymous | Project | Organization | LegalBridge.
Inductive KeyProvider := KeyOpensshFile | KeySshAgent | KeyFido2.
Inductive KeyStatus := Active | Retired | Compromised.

Record Persona := {
  pe_id : string;
  pe_label : string;
  pe_purpose : PersonaPurpose;
  pe_created_at : Z;
  pe_archived_at : option Z;
}.
Record KeyRecord := {
  kr_fingerprint : string;
  kr_persona_id : string;
  kr_public_key : string;
  kr_provider : KeyProvider;
  kr_status : KeyStatus;
  kr_added_at : Z;
  kr_retired_at : option Z;
  kr_compromised_at : option Z;
}.
Record SigningReference := {
  sf_key_fingerprint : string;
  sf_locator : string;
  sf_configured_at : Z;
}.
Record ActiveSigner := {
  as_persona : Persona;
  as_key : KeyRecord;
  as_signing_reference : SigningReference;
}.
Record RecordedPersonaRoot := {
  rpr_persona_id : string;
  rpr_root_statement_sha256 : string;
  rpr_persona_anchor : string;
  rpr_initial_key_fingerprint : string;
  rpr_proof : PersonaRootProof;
  rpr_issued_at : Z;
  rpr_recorded_at : Z;
}.
Record ContinuityHead := {
  hd_persona_id : string;
  hd_revision : Z;
  hd_transition_sequence : N;
  hd_current_key_fingerprint : string;
  hd_last_transition_sha256 : option string;
  hd_last_issued_at : Z;
}.
Record RecordedRecoveryPolicy := {
  rrp_persona_id : string;
  rrp_policy_version : N;
  rrp_policy_statement_sha256 : string;
  rrp_previous_policy_sha256 : option string;
  rrp_root_statement_sha256 : string;
  rrp_checkpoint : RecoveryContinuityCheckpoint;
  rrp_issued_at : Z;
  rrp_expires_at : Z;
  rrp_proof : RecoveryPolicyProof;
  rrp_recorded_at : Z;
}.
Record RecoveryPolicyHead := {
  ph_persona_id : string;
  ph_revision : Z;
  ph_latest_policy_version : N;
  ph_latest_policy_sha256 : string;
  ph_recorded_at : Z;
}.
Record RecordedTerminalPersonaRevocation := {
  rtr_persona_id : string;
  rtr_sequence : N;
  rtr_revocation_statement_sha256 : string;
  rtr_root_statement_sha256 : string;
  rtr_previous_transition_sha256 : option string;
  rtr_previous_key_fingerprint : string;
  rtr_recovery_policy_sha256 : string;
  rtr_recovery_policy_version : N;
  rtr_reason : TerminalPersonaRevocationReason;
  rtr_issued_at : Z;
  rtr_proof : TerminalPersonaRevocationProof;
  rtr_committed_at : Z;
}.
Record LiveContinuitySnapshot := {
  lc_root : RecordedPersonaRoot;
  lc_head : ContinuityHead;
  lc_recovery_policy_head : option RecoveryPolicyHead;
  lc_recovery_policies : list RecordedRecoveryPolicy;
  lc_transitions : list PersonaContinuityTransitionProof;
  lc_terminal_revocation : option RecordedTerminalPersonaRevocation;
}.
Record RoutineTransitionIntent := {
  ti_persona_id : string;
  ti_sequence : N;
  ti_root_statement_sha256 : string;
  ti_previous_transition_sha256 : option string;
  ti_previous_key_fingerprint : string;
  ti_next_key_fingerprint : string;
  ti_issued_at : Z;
}.
Record RoutineRotationCandidate := {
  rk_statement : PersonaTransitionStatement;
  rk_intent : RoutineTransitionIntent;
  rk_public_key : string;
  rk_provider : KeyProvider;
  rk_signing_reference : SigningReference;
}.
Record CommittedRoutineTransition := {
  ct_intent : RoutineTransitionIntent;
  ct_transition_statement_sha256 : string;
  ct_proof : PersonaTransitionProof;
  ct_committed_at : Z;
  ct_replayed : bool;
}.
Record RoutineContinuityRetryMetadata := {
  rm_persona_id : string;
  rm_current_key_fingerprint : string;
  rm_provider : KeyProvider;
  rm_signing_locator : string;
}.

(** ** Equality *)

#[export] Instance PersonaPurpose_eq_dec : EqDecision PersonaPurpose.
Proof. solve_decision. Defined.
#[export] Instance KeyProvider_eq_dec : EqDecision KeyProvider.
Proof. solve_decision. Defined.
#[export] Instance KeyStatus_eq_dec : EqDecision KeyStatus.
Proof. solve_decision. Defined.
#[export] Instance Persona_eq_dec : EqDecision Persona.
Proof. solve_decision. Defined.
#[export] Instance KeyRecord_eq_dec : EqDecision KeyRecord.
Proof. solve_decision. Defined.
#[export] Instance ContinuitySignature_eq_dec : EqDecision ContinuitySignature.
Proof. solve_decision. Defined.
#[export] Instance PersonaRootProof_eq_dec : EqDecision PersonaRootProof.
Proof. solve_decision. Defined.
#[export] Instance PersonaTransitionProof_eq_dec : EqDecision PersonaTransitionProof.
Proof. solve_decision. Defined.
#[export] Instance PersonaTransitionReview_eq_dec : EqDecision PersonaTransitionReview.
Proof. solve_decision. Defined.
#[export] Instance PersonaRootReview_eq_dec : EqDecision PersonaRootReview.
Proof. solve_decision. Defined.
#[export] Instance TerminalPersonaRevocationProof_eq_dec :
  EqDecision TerminalPersonaRevocationProof.
Proof. solve_decision. Defined.
#[export] Instance PersonaContinuityTransitionProof_eq_dec :
  EqDecision PersonaContinuityTransitionProof.
Proof. solve_decision. Defined.
#[export] Instance PersonaContinuityCheckpoint_eq_dec : EqDecision PersonaContinuityCheckpoint.
Proof. solve_decision. Defined.
#[export] Instance RecordedPersonaRoot_eq_dec : EqDecision RecordedPersonaRoot.
Proof. solve_decision. Defined.
#[export] Instance ContinuityHead_eq_dec : EqDecision ContinuityHead.
Proof. solve_decision. Defined.
#[export] Instance RecordedRecoveryPolicy_eq_dec : EqDecision RecordedRecoveryPolicy.
Proof. solve_decision. Defined.
#[export] Instance RecoveryPolicyHead_eq_dec : EqDecision RecoveryPolicyHead.
Proof. solve_decision. Defined.
#[export] Instance RecordedTerminalPersonaRevocation_eq_dec :
  EqDecision RecordedTerminalPersonaRevocation.
Proof. solve_decision. Defined.
#[export] Instance LiveContinuitySnapshot_eq_dec : EqDecision LiveContinuitySnapshot.
Proof. solve_decision. Defined.

(** [PartialEq] of a [SigningReference] and of an [ActiveSigner]: locators are
    paths. *)
Definition signing_reference_eqb (a b : SigningReference) : bool :=
  (sf_key_fingerprint a == sf_key_fingerprint b) &&
  path_eqb (sf_locator a) (sf_locator b) &&
  (sf_configured_at a == sf_configured_at b).

Definition active_signer_eqb (a b : ActiveSigner) : bool :=
  (as_persona a == as_persona b) && (as_key a == as_key b) &&
  signing_reference_eqb (as_signing_reference a) (as_signing_reference b).
