(* ===== verification/Daemon.v ===== *)
(** * What the signing daemon asks of its surroundings

    The daemon talks to its client over a socket, to the store, to the trusted
    approval process, to the file system, to the clock and to the signer. Every
    such question is a [Call] here, and a handler is a program of them. A call
    names what is asked, so that the trace of a run shows it; a call that
    signs names the statement and the keys. *)

From stdpp Require Import base numbers list strings pretty option.
From Stdlib Require Import Strings.Byte Ascii.
From S2P Require Import Prelude Text Ordered Display Crates Io ArtifactProof Continuity RecoveryPolicy RecoveryChain Ceremony.
From S2P Require Import Names Domain Fields IpcProtocol Transport Approval Interaction StoreTypes.

(** [Uuid::parse_str] and [to_string], of the [uuid] crate. *)
Class UuidText `{!UuidBytes} := {
  uuid_parse_str : string → option Approval.Uuid;
  uuid_to_string : Approval.Uuid → string;
}.

#[export] Instance uuids_of_text `{UuidText} : Uuids := {|
  IpcProtocol.Uuid := Approval.Uuid;
  Uuid_parse_str := uuid_parse_str;
  Uuid_to_string := uuid_to_string |}.

Inductive ApprovalError := Unavailable | TimedOut | Failed.

#[export] Instance ApprovalError_eq_dec : EqDecision ApprovalError.
Proof. solve_decision. Defined.

Section daemon.
Context {crates : Crates} {uuid_bytes : UuidBytes} {uuid_text : UuidText} {idna : Idna}
  {json_statement : Serde ArtifactStatement} {json_bundle : Serde ProofBundle}
  {json_domain : Serde DomainControlStatement}
  {json_root : Serde PersonaRootStatement} {json_root_proof : Serde PersonaRootProof}
  {json_transition : Serde PersonaTransitionStatement}
  {json_transition_proof : Serde PersonaTransitionProof}
  {json_policy : Serde RecoveryPolicyStatement}
  {json_recovery : Serde RecoveryTransitionStatement}
  {json_terminal : Serde TerminalPersonaRevocationStatement}
  {json_request : Serde RecoveryCeremonyRequest} {json_response : Serde RecoveryCeremonyResponse}.

(** ** Signing *)

(** The signatures the daemon makes: the core function, with its arguments. *)
Inductive SigningTask :=
| SignDescriptor (artifact : ArtifactDescriptor) (private_key_path public_key persona : string)
| SignDomain (statement : DomainControlStatement) (private_key_path public_key : string)
| SignRoot (statement : PersonaRootStatement) (private_key_path public_key : string)
| SignTransition (statement : PersonaTransitionStatement)
    (previous_private_key_path previous_public_key next_private_key_path next_public_key : string)
| SignCeremony (verified : VerifiedRecoveryCeremonyRequest) (signer : RecoverySigner)
    (checked_at : Z).

Definition signed_by (task : SigningTask) : Type :=
  match task with
  | SignDescriptor _ _ _ _ | SignDomain _ _ _ => ProofBundle
  | SignRoot _ _ _ => PersonaRootProof
  | SignTransition _ _ _ _ _ => PersonaTransitionProof
  | SignCeremony _ _ _ => RecoveryCeremonyResponse
  end.

Definition sign_with (keygen : SshKeygen) (task : SigningTask) : Result (signed_by task) :=
  match task with
  | SignDescriptor artifact private_key_path public_key persona =>
      create_sshsig_proof_for_descriptor artifact private_key_path public_key persona
  | SignDomain statement private_key_path public_key =>
      create_domain_control_proof_for_statement statement private_key_path public_key
  | SignRoot statement private_key_path public_key =>
      create_persona_root_proof statement private_key_path public_key
  | SignTransition statement previous_path previous_key next_path next_key =>
      create_routine_transition_proof statement previous_path previous_key next_path next_key
  | SignCeremony verified signer checked_at =>
      sign_recovery_ceremony_request verified signer checked_at
  end.

(** ** Calls *)

(** What the connection is used for. *)
Inductive ConnectionUse :=
| Receiving
| Peeking
| SendingApproved (proof : SealedProof)
| SendingRejected (code : RejectionCode).

Inductive Call :=
| Connection (use : ConnectionUse)
| NewUuid
| SystemTime
| FreshMemfd
| Decide (prompt : ApprovalPrompt)
| Keygen (task : SigningTask)
| ActiveSignerForPersona (persona_id : string)
| RecordContinuityRoot (persona_id : string) (proof : PersonaRootProof) (expected_sha256 : string)
| ContinuitySnapshot (persona_id : string)
| ValidateRoutineRotationCandidate (persona_id next_public_key : string) (provider : KeyProvider)
    (signing_reference : string)
| CommittedRetryMetadata (intent : RoutineTransitionIntent)
| CommitRoutineTransition (persona_id : string) (proof : PersonaTransitionProof)
    (provider : KeyProvider) (locator : string)
| SymlinkMetadata (path : string)
| Canonicalize (path : string)
| Geteuid.

(** The answers. Of a store error or of a failed [canonicalize] the daemon
    uses only that there was one. [SystemTime::now] is the seconds since the
    epoch, [None] before it. *)
Definition Answer (c : Call) : Type :=
  match c with
  | Connection _ => Socket
  | NewUuid => Approval.Uuid
  | SystemTime => option N
  | FreshMemfd => Memfd
  | Decide _ => ApprovalError + ApprovalDecision
  | Keygen _ => SshKeygen
  | ActiveSignerForPersona _ => option ActiveSigner
  | RecordContinuityRoot _ _ _ => bool
  | ContinuitySnapshot _ => option LiveContinuitySnapshot
  | ValidateRoutineRotationCandidate _ _ _ _ => option RoutineRotationCandidate
  | CommittedRetryMetadata _ => option (option RoutineContinuityRetryMetadata)
  | CommitRoutineTransition _ _ _ _ => option CommittedRoutineTransition
  | SymlinkMetadata _ => IoError + Metadata
  | Canonicalize _ => option string
  | Geteuid => N
  end.

Abbreviation daemon := (prog Answer).

Definition sign (task : SigningTask) : daemon ProofError (signed_by task) :=
  keygen ← call (Answer:=Answer) (Keygen task);
  lift (sign_with keygen task).

End daemon.
