(* ===== verification/Service.v ===== *)
(** * The signing daemon ([crates/a-quo-daemon/src/service.rs])

    A request is received, its input is copied into a sealed file, reviewed and
    shown to the user, and only then signed; the proof goes back in a sealed
    file. [rejected] exits of a handler are the error of its program, which
    [rejecting] turns into the outcome. *)

From stdpp Require Import base numbers list strings pretty option.
From Stdlib Require Import Strings.Byte Ascii.
From S2P Require Import Prelude Text Ordered Display Crates Io ArtifactProof Continuity RecoveryPolicy RecoveryChain Ceremony.
From S2P Require Import Names Domain Fields IpcProtocol Transport Approval Interaction StoreTypes Daemon.

(** ** Failures and outcomes *)

Inductive FailureClass :=
| InvalidRequest
| ClientCancelled
| PersonaUnavailable
| ConsentUnavailable
| UserDeclined
| SignerUnavailable
| Internal.

#[export] Instance FailureClass_eq_dec : EqDecision FailureClass.
Proof. solve_decision. Defined.
#[export] Instance RecoveryCeremonyParticipantReview_eq_dec :
  EqDecision RecoveryCeremonyParticipantReview.
Proof. solve_decision. Defined.

Definition rejection_code (failure : FailureClass) : RejectionCode :=
  match failure with
  | InvalidRequest => IpcProtocol.InvalidRequest
  | ClientCancelled => IpcProtocol.Cancelled
  | PersonaUnavailable => IpcProtocol.PersonaUnavailable
  | ConsentUnavailable => IpcProtocol.ConsentUnavailable
  | UserDeclined => IpcProtocol.UserDeclined
  | SignerUnavailable => IpcProtocol.RejectedSignerUnavailable
  | Internal => IpcProtocol.InternalError
  end.

Inductive ApprovedSubject :=
| ApprovedArtifact (descriptor : ArtifactDescriptor)
| ApprovedDomainControl (review : DomainControlReview)
| ApprovedPersonaRoot (review : PersonaRootReview)
| ApprovedPersonaTransition (review : PersonaTransitionReview)
| ApprovedRecoveryParticipation (review : RecoveryCeremonyParticipantReview).

Inductive DaemonOutcome :=
| Approved (request_id signer_fingerprint : string) (subject : ApprovedSubject) (proof : SealedProof)
| Rejected (request_id : option string) (failure : FailureClass).

Definition outcome_request_id (outcome : DaemonOutcome) : option string :=
  match outcome with
  | Approved request_id _ _ _ => Some request_id
  | Rejected request_id _ => request_id
  end.

Definition rejected (request_id : option string) (failure : FailureClass) : DaemonOutcome :=
  Rejected request_id failure.

Record TransitionRequest := {
  tq_persona_id : string;
  tq_expected_sequence : N;
  tq_expected_root_sha256 : string;
  tq_expected_previous_transition_sha256 : option string;
  tq_next_key_provider : KeyProvider;
  tq_next_signing_reference : string;
}.

Inductive PreparedRequest :=
| PreparedArtifact (descriptor : ArtifactDescriptor) (artifact_kind : IpcProtocol.ArtifactKind)
    (artifact_label : string)
| PreparedDomainControl (statement : DomainControlStatement) (review : DomainControlReview)
| PreparedPersonaRoot (statement : PersonaRootStatement) (review : PersonaRootReview).

Inductive SignedProof :=
| Bundle (proof : ProofBundle)
| SignedPersonaRoot (proof : PersonaRootProof)
| SignedPersonaTransition (proof : PersonaTransitionProof).

(** ** Digests, enumerations and other conversions *)

Definition decode_hex_digit (value : byte) : option N :=
  let v := byte_val value in
  if in_range 48 57 v then Some (v - 48)%N
  else if in_range 97 102 v then Some (v - 97 + 10)%N
  else None.

Fixpoint decode_pairs (bs : bytes) : result unit bytes :=
  match bs with
  | b0 :: b1 :: bs' =>
      high ← ok_or (decode_hex_digit b0) tt;
      low ← ok_or (decode_hex_digit b1) tt;
      digest ← decode_pairs bs';
      Ok (byte_of (N.lor (N.shiftl high 4) low) :: digest)
  | _ => Ok []
  end.

Definition decode_sha256 (value : string) : result unit bytes :=
  reject_if (str_len value != 64%N) tt;;
  decode_pairs (as_bytes value).

(** [.as_deref().map(decode_sha256).transpose()?] *)
Definition decode_optional_sha256 (value : option string) : result unit (option bytes) :=
  match value with
  | None => Ok None
  | Some value => digest ← decode_sha256 value; Ok (Some digest)
  end.

Fixpoint encode_sha256 (digest : bytes) : string :=
  match digest with
  | [] => EmptyString
  | b :: digest' =>
      String (hex_at (N.shiftr (byte_val b) 4))
        (String (hex_at (N.land (byte_val b) 0x0f)) (encode_sha256 digest'))
  end.

Definition store_key_provider (provider : TransitionKeyProvider) : KeyProvider :=
  match provider with
  | TransitionOpensshFile => KeyOpensshFile
  | TransitionSshAgent => KeySshAgent
  | TransitionFido2 => KeyFido2
  end.

Definition prompt_artifact_kind (kind : IpcProtocol.ArtifactKind) : Approval.ArtifactKind :=
  match kind with
  | IpcProtocol.Generic => Approval.Generic
  | IpcProtocol.SoftwareRelease => Approval.SoftwareRelease
  | IpcProtocol.Article => Approval.Article
  | IpcProtocol.Image => Approval.Image
  end.

Definition prompt_persona_purpose (purpose : StoreTypes.PersonaPurpose) : Approval.PersonaPurpose :=
  match purpose with
  | StoreTypes.Personal => Approval.Personal
  | StoreTypes.Pseudonymous => Approval.Pseudonymous
  | StoreTypes.Project => Approval.Project
  | StoreTypes.Organization => Approval.Organization
  | StoreTypes.LegalBridge => Approval.LegalBridge
  end.

Definition normalized_public_key_text (public_key : string) : string :=
  let fields := split_whitespace public_key in
  default "" (fields !! 0%nat) +:+ " " +:+ default "" (fields !! 1%nat).

(** [u32::try_from] of an [i32] *)
Definition u32_try_from_i32 (z : Z) : option N := if (0 <=? z)%Z then Some (Z.to_N z) else None.

Definition peer_identity (peer : PeerCredentials) : result unit PeerIdentity :=
  process ← ok_or (u32_try_from_i32 (pc_pid peer)) tt;
  Ok {| pid := process; uid := pc_uid peer; gid := pc_gid peer |}.

Definition transition_request (request : SignRequest) : result FailureClass TransitionRequest :=
  match sr_subject request with
  | IpcProtocol.PersonaTransition expected_sequence expected_root_sha256
      expected_previous_transition_sha256 next_key_provider next_signing_reference =>
      persona_id ← ok_or (sr_persona_id request) InvalidRequest;
      Ok {| tq_persona_id := persona_id;
            tq_expected_sequence := expected_sequence;
            tq_expected_root_sha256 := encode_sha256 expected_root_sha256;
            tq_expected_previous_transition_sha256 :=
              encode_sha256 <$> expected_previous_transition_sha256;
            tq_next_key_provider := store_key_provider next_key_provider;
            tq_next_signing_reference := next_signing_reference |}
  | _ => Err InvalidRequest
  end.

Definition transition_request_matches_head (request : TransitionRequest)
    (snapshot : LiveContinuitySnapshot) : bool :=
  (checked_add_u32 (hd_transition_sequence (lc_head snapshot)) 1 ==
    Some (tq_expected_sequence request)) &&
  (rpr_root_statement_sha256 (lc_root snapshot) == tq_expected_root_sha256 request) &&
  (hd_last_transition_sha256 (lc_head snapshot) ==
    tq_expected_previous_transition_sha256 request).

Definition same_rotation_candidate (expected actual : RoutineRotationCandidate) : bool :=
  (ti_persona_id (rk_intent expected) == ti_persona_id (rk_intent actual)) &&
  (ti_sequence (rk_intent expected) == ti_sequence (rk_intent actual)) &&
  (ti_root_statement_sha256 (rk_intent expected) == ti_root_statement_sha256 (rk_intent actual)) &&
  (ti_previous_transition_sha256 (rk_intent expected) ==
    ti_previous_transition_sha256 (rk_intent actual)) &&
  (ti_previous_key_fingerprint (rk_intent expected) ==
    ti_previous_key_fingerprint (rk_intent actual)) &&
  (ti_next_key_fingerprint (rk_intent expected) == ti_next_key_fingerprint (rk_intent actual)) &&
  (rk_public_key expected == rk_public_key actual) &&
  (rk_provider expected == rk_provider actual) &&
  (sf_key_fingerprint (rk_signing_reference expected) ==
    sf_key_fingerprint (rk_signing_reference actual)) &&
  path_eqb (sf_locator (rk_signing_reference expected)) (sf_locator (rk_signing_reference actual)).

Section service.
Context {crates : Crates} {uuid_bytes : UuidBytes} {uuid_text : UuidText} {idna : Idna}
  {json_statement : Serde ArtifactStatement} {json_bundle : Serde ProofBundle}
  {json_domain : Serde DomainControlStatement}
  {json_root : Serde PersonaRootStatement} {json_root_proof : Serde PersonaRootProof}
  {json_transition : Serde PersonaTransitionStatement}
  {json_transition_proof : Serde PersonaTransitionProof}
  {json_policy : Serde RecoveryPolicyStatement}
  {json_recovery : Serde RecoveryTransitionStatement}
  {json_terminal : Serde TerminalPersonaRevocationStatement}
  {json_request : Serde RecoveryCeremonyRequest} {json_response : Serde RecoveryCeremonyResponse}
  {pretty_bundle : SerdePretty ProofBundle} {pretty_root : SerdePretty PersonaRootProof}
  {pretty_transition : SerdePretty PersonaTransitionProof}.

Abbreviation daemon := (prog Answer).

(** ** Shared steps *)

(** [match p { Ok(x) => x, Err(_) => return rejected(.., failure) }] *)
Definition or_reject {E A} (failure : FailureClass) (p : daemon E A) : daemon FailureClass A :=
  map_error (λ _, failure) p.

Definition require {A} (o : option A) (failure : FailureClass) : daemon FailureClass A :=
  lift (ok_or o failure).

Definition reject_when (bad : bool) (failure : FailureClass) : daemon FailureClass unit :=
  lift (reject_if bad failure).

(** The exits of a handler, as its outcome. *)
Definition rejecting (request_id : string) (handler : daemon FailureClass DaemonOutcome) :
    daemon FailureClass DaemonOutcome :=
  handle (λ r, match r with
               | Err failure => Ret (Ok (rejected (Some request_id) failure))
               | r => Ret r
               end) handler.

Definition current_unix_time : daemon unit Z :=
  now ← call SystemTime;
  seconds ← lift (ok_or now tt);
  lift (ok_or (if (Z.of_N seconds <=? i64_max)%Z then Some (Z.of_N seconds) else None) tt).

Definition connection_failure : daemon FailureClass (option FailureClass) :=
  socket ← call (Connection Peeking);
  Ret match connection_state socket with
      | Ok Waiting => Ok None
      | Ok ExtraData => Ok (Some InvalidRequest)
      | Ok Closed | Err _ => Ok (Some ClientCancelled)
      | Panic s => Panic s
      end.

(** [if let Some(failure) = connection_interrupted() { return rejected(..); }] *)
Definition unless_interrupted (connection_interrupted : daemon FailureClass (option FailureClass)) :
    daemon FailureClass unit :=
  interrupted ← connection_interrupted;
  lift (match interrupted with Some failure => Err failure | None => Ok tt end).

(** [match approval.decide(&prompt) { .. }]: only an approval goes on. *)
Definition require_approval (prompt : ApprovalPrompt) : daemon FailureClass unit :=
  decision ← call (Decide prompt);
  lift match decision with
       | inr Decline => Err UserDeclined
       | inr Cancel => Err ClientCancelled
       | inl _ => Err ConsentUnavailable
       | inr Approve => Ok tt
       end.

Definition sealed_proof (proof : SignedProof) : daemon unit SealedProof :=
  bs ← lift (map_err (λ _, tt) (of_sum match proof with
                                       | Bundle proof => json_to_vec_pretty proof
                                       | SignedPersonaRoot proof => json_to_vec_pretty proof
                                       | SignedPersonaTransition proof => json_to_vec_pretty proof
                                       end));
  memfd ← call FreshMemfd;
  lift (map_err (λ _, tt) (seal_proof_bytes memfd (bs ++ [x0a]))).

(** ** Artifacts, domains and roots *)

Definition maximum_input (subject : SignSubject) : result FailureClass N :=
  match subject with
  | IpcProtocol.Artifact _ _ => Ok MAX_ARTIFACT_BYTES
  | IpcProtocol.DomainControl => Ok MAX_DOMAIN_STATEMENT_BYTES
  | IpcProtocol.PersonaRoot => Ok MAX_PERSONA_ROOT_STATEMENT_BYTES
  | IpcProtocol.PersonaTransition _ _ _ _ _ => Panic "handled above"
  | IpcProtocol.RecoveryParticipation _ _ _ _ _ _ _ _ _ => Panic "handled above"
  end.

Definition prepare_request (request : SignRequest) (snapshot : SealedArtifact)
    (signer : ActiveSigner) : daemon FailureClass PreparedRequest :=
  match sr_subject request with
  | IpcProtocol.Artifact artifact_kind artifact_label =>
      lift (Ok (PreparedArtifact (sa_descriptor snapshot) artifact_kind artifact_label))
  | IpcProtocol.DomainControl =>
      bs ← lift (map_err (λ _, InvalidRequest)
                   (read_bytes_bounded snapshot MAX_DOMAIN_STATEMENT_BYTES));
      now ← or_reject Internal current_unix_time;
      '(statement, review) ← lift (map_err (λ _, InvalidRequest)
        (review_domain_control_statement_bytes bs now (kr_public_key (as_key signer))
          (pe_label (as_persona signer))));
      lift (Ok (PreparedDomainControl statement review))
  | IpcProtocol.PersonaRoot =>
      bs ← lift (map_err (λ _, InvalidRequest)
                   (read_bytes_bounded snapshot MAX_PERSONA_ROOT_STATEMENT_BYTES));
      now ← or_reject Internal current_unix_time;
      '(statement, review) ← lift (map_err (λ _, InvalidRequest)
        (review_persona_root_statement_bytes bs now (kr_public_key (as_key signer))
          (pe_label (as_persona signer))));
      lift (Ok (PreparedPersonaRoot statement review))
  | IpcProtocol.PersonaTransition _ _ _ _ _ => lift (Panic "handled before preparation")
  | IpcProtocol.RecoveryParticipation _ _ _ _ _ _ _ _ _ =>
      lift (Panic "handled before persona-backed request preparation")
  end.

Definition approval_prompt (request_id : Approval.Uuid) (prepared : PreparedRequest)
    (peer : PeerCredentials) (signer : ActiveSigner) : result unit ApprovalPrompt :=
  persona_id ← ok_or (uuid_parse_str (pe_id (as_persona signer))) tt;
  let persona_purpose := prompt_persona_purpose (pe_purpose (as_persona signer)) in
  let persona_label := pe_label (as_persona signer) in
  let fingerprint := kr_fingerprint (as_key signer) in
  peer ← peer_identity peer;
  match prepared with
  | PreparedArtifact descriptor artifact_kind artifact_label =>
      digest ← decode_sha256 (dg_value (ad_digest descriptor));
      map_err (λ _, tt)
        (ApprovalPrompt_new request_id persona_id persona_label persona_purpose fingerprint
          (prompt_artifact_kind artifact_kind) artifact_label digest (ad_size descriptor) peer)
  | PreparedDomainControl _ review =>
      map_err (λ _, tt)
        (Approval.new_domain request_id persona_id persona_label persona_purpose fingerprint
          (dw_domain review) (dw_dns_txt_value review) (dw_issued_at review)
          (dw_expires_at review) peer)
  | PreparedPersonaRoot _ review =>
      digest ← decode_sha256 (rr_root_statement_sha256 review);
      map_err (λ _, tt)
        (Approval.new_persona_root request_id persona_id persona_label persona_purpose fingerprint
          (rr_persona_anchor review) digest (rr_issued_at review) peer)
  end.

Definition sign_prepared_request (prepared : PreparedRequest) (signer : ActiveSigner) :
    daemon FailureClass (SignedProof * ApprovedSubject) :=
  let locator := sf_locator (as_signing_reference signer) in
  let public_key := kr_public_key (as_key signer) in
  let persona := pe_label (as_persona signer) in
  match prepared with
  | PreparedArtifact descriptor _ _ =>
      proof ← or_reject SignerUnavailable (sign (SignDescriptor descriptor locator public_key persona));
      lift (Ok (Bundle proof, ApprovedArtifact descriptor))
  | PreparedDomainControl statement review =>
      proof ← or_reject SignerUnavailable (sign (SignDomain statement locator public_key));
      now ← or_reject Internal current_unix_time;
      verified ← lift (map_err (λ _, InvalidRequest) (verify_domain_control_proof proof now));
      reject_when ((dv_domain verified != dw_domain review) ||
                   (dv_dns_record_name verified != dw_dns_record_name review) ||
                   (dv_dns_txt_value verified != dw_dns_txt_value review) ||
                   (dv_issued_at verified != dw_issued_at review) ||
                   (dv_expires_at verified != dw_expires_at review) ||
                   (vs_persona (dv_signer verified) != persona) ||
                   (vs_key_fingerprint (dv_signer verified) != kr_fingerprint (as_key signer)))
        Internal;;
      lift (Ok (Bundle proof, ApprovedDomainControl review))
  | PreparedPersonaRoot statement review =>
      now ← or_reject Internal current_unix_time;
      current_review ← lift (map_err (λ _, InvalidRequest)
        (review_persona_root_statement statement now public_key persona));
      reject_when (current_review != review) Internal;;
      proof ← or_reject SignerUnavailable (sign (SignRoot statement locator public_key));
      verified ← lift (map_err (λ _, InvalidRequest) (verify_persona_root_proof proof));
      reject_when ((vpr_statement verified != statement) ||
                   (vpr_root_statement_sha256 verified != rr_root_statement_sha256 review) ||
                   (rs_persona (vpr_statement verified) != persona) ||
                   (rs_initial_key_fingerprint (vpr_statement verified) !=
                     kr_fingerprint (as_key signer)))
        Internal;;
      lift (Ok (SignedPersonaRoot proof, ApprovedPersonaRoot review))
  end.

(** [match store.active_signer_for_persona(id) { Ok(s) if s == signer => s, .. }] *)
Definition same_active_signer (persona_id : string) (signer : ActiveSigner) :
    daemon FailureClass ActiveSigner :=
  answer ← call (ActiveSignerForPersona persona_id);
  current_signer ← require answer PersonaUnavailable;
  reject_when (negb (active_signer_eqb current_signer signer)) PersonaUnavailable;;
  lift (Ok current_signer).

(** The root that was just signed is recorded before it leaves the daemon. *)
Definition record_signed_root (connection_interrupted : daemon FailureClass (option FailureClass))
    (persona_id : string) (proof : SignedProof) (subject : ApprovedSubject) :
    daemon FailureClass unit :=
  match proof, subject with
  | SignedPersonaRoot root_proof, ApprovedPersonaRoot review =>
      unless_interrupted connection_interrupted;;
      recorded ← call (RecordContinuityRoot persona_id root_proof (rr_root_statement_sha256 review));
      reject_when (negb recorded) InvalidRequest
  | _, _ => lift (Ok tt)
  end.

Definition process_persona_request (request_uuid : Approval.Uuid) (request : SignRequest)
    (input : File) (peer : PeerCredentials)
    (connection_interrupted : daemon FailureClass (option FailureClass)) :
    daemon FailureClass DaemonOutcome :=
  persona_id ← require (sr_persona_id request) InvalidRequest;
  answer ← call (ActiveSignerForPersona persona_id);
  signer ← require answer PersonaUnavailable;
  maximum ← lift (maximum_input (sr_subject request));
  memfd ← call FreshMemfd;
  snapshot ← lift (map_err (λ _, InvalidRequest) (snapshot_artifact memfd input maximum));
  prepared ← prepare_request request snapshot signer;
  unless_interrupted connection_interrupted;;
  prompt ← lift (map_err (λ _, Internal) (approval_prompt request_uuid prepared peer signer));
  require_approval prompt;;
  unless_interrupted connection_interrupted;;
  signer ← same_active_signer persona_id signer;
  '(proof, subject) ← sign_prepared_request prepared signer;
  _ ← same_active_signer persona_id signer;
  record_signed_root connection_interrupted persona_id proof subject;;
  sealed ← or_reject Internal (sealed_proof proof);
  lift (Ok (Approved (uuid_to_string request_uuid) (kr_fingerprint (as_key signer)) subject sealed)).

(** ** Routine transitions *)

Definition retry_locator_matches (path stored : string) : daemon FailureClass bool :=
  if path_eqb path stored then lift (Ok true)
  else
    entry ← call (SymlinkMetadata path);
    match entry with
    | inl error =>
        lift (if io_kind error == NotFound then Ok false else Err SignerUnavailable)
    | inr md =>
        if md_is_symlink md || negb (md_is_file md) then lift (Ok false)
        else
          canonical ← call (Canonicalize path);
          canonical ← require canonical SignerUnavailable;
          lift (Ok (path_eqb canonical stored))
    end.

(** The review of a transition that is already committed. *)
Definition committed_review (verified : VerifiedPersonaTransition) : PersonaTransitionReview :=
  let statement := vpt_statement verified in
  {| tr_persona := ts_persona statement;
     tr_persona_anchor := ts_persona_anchor statement;
     tr_root_statement_sha256 := ts_root_statement_sha256 statement;
     tr_sequence := ts_sequence statement;
     tr_previous_transition_sha256 := ts_previous_transition_sha256 statement;
     tr_previous_key_fingerprint := ts_previous_key_fingerprint statement;
     tr_next_key_fingerprint := ts_next_key_fingerprint statement;
     tr_issued_at := ts_issued_at statement;
     tr_transition_statement_sha256 := vpt_transition_statement_sha256 verified |}.

Definition retry_intent (request : TransitionRequest) (statement : PersonaTransitionStatement) :
    RoutineTransitionIntent :=
  {| ti_persona_id := tq_persona_id request;
     ti_sequence := ts_sequence statement;
     ti_root_statement_sha256 := ts_root_statement_sha256 statement;
     ti_previous_transition_sha256 := ts_previous_transition_sha256 statement;
     ti_previous_key_fingerprint := ts_previous_key_fingerprint statement;
     ti_next_key_fingerprint := ts_next_key_fingerprint statement;
     ti_issued_at := ts_issued_at statement |}.

Definition retry_of_proof (snapshot : LiveContinuitySnapshot) (request : TransitionRequest)
    (next_public_key next_key_fingerprint : string) (proof : PersonaTransitionProof) :
    daemon FailureClass (option (PersonaTransitionProof * PersonaTransitionReview)) :=
  verified ← lift (map_err (λ _, InvalidRequest) (verify_persona_transition_proof proof));
  let statement := vpt_statement verified in
  if (rpr_root_statement_sha256 (lc_root snapshot) != tq_expected_root_sha256 request) ||
     (ts_sequence statement != tq_expected_sequence request) ||
     (ts_root_statement_sha256 statement != tq_expected_root_sha256 request) ||
     (ts_previous_transition_sha256 statement != tq_expected_previous_transition_sha256 request) ||
     (ts_next_key_fingerprint statement != next_key_fingerprint) ||
     (vpt_next_public_key verified != normalized_public_key_text next_public_key)
  then lift (Ok None)
  else
    answer ← call (CommittedRetryMetadata (retry_intent request statement));
    answer ← require answer InvalidRequest;
    retry_metadata ← require answer InvalidRequest;
    locator_matches ← retry_locator_matches (tq_next_signing_reference request)
      (rm_signing_locator retry_metadata);
    if (rm_persona_id retry_metadata != tq_persona_id request) ||
       (rm_current_key_fingerprint retry_metadata != ts_next_key_fingerprint statement) ||
       (rm_provider retry_metadata != tq_next_key_provider request) ||
       negb locator_matches
    then lift (Ok None)
    else lift (Ok (Some (proof, committed_review verified))).

Definition exact_transition_retry (snapshot : LiveContinuitySnapshot) (request : TransitionRequest)
    (next_public_key next_key_fingerprint : string) :
    daemon FailureClass (option (PersonaTransitionProof * PersonaTransitionReview)) :=
  if hd_transition_sequence (lc_head snapshot) != tq_expected_sequence request then lift (Ok None)
  else match list.last (lc_transitions snapshot) with
  | Some (ProofRoutine proof) =>
      retry_of_proof snapshot request next_public_key next_key_fingerprint proof
  | Some (ProofRecovery _) | Some (ProofTerminalRevocation _) => lift (Ok None)
  | None => lift (Err InvalidRequest)
  end.

Definition require_routine (proof : PersonaContinuityTransitionProof) :
    result unit PersonaTransitionProof :=
  match proof with
  | ProofRoutine proof => Ok proof
  | ProofRecovery _ | ProofTerminalRevocation _ => Err tt
  end.

(** The chain with the new transition, verified as a whole: its length, its
    key and its last statement. *)
Definition extended_chain (proof : PersonaTransitionProof) (previous : LiveContinuitySnapshot) :
    daemon unit (N * string * option string) :=
  let chain := lc_transitions previous ++ [ProofRoutine proof] in
  match lc_recovery_policy_head previous with
  | Some policy_head =>
      let policies := rrp_proof <$> lc_recovery_policies previous in
      now ← current_unix_time;
      report ← lift (map_err (λ _, tt)
        (verify_persona_continuity_chain_with_recovery (rpr_proof (lc_root previous)) chain policies
          (rpr_root_statement_sha256 (lc_root previous)) (ph_latest_policy_sha256 policy_head) now));
      current_key_fingerprint ← lift (ok_or (mr_current_key_fingerprint report) tt);
      lift (Ok (mr_transition_count report, current_key_fingerprint,
                mr_last_transition_sha256 report))
  | None =>
      lift (reject_if (negb (len (lc_recovery_policies previous) =? 0)%N) tt);;
      routine_chain ← lift (collect_result require_routine chain);
      report ← lift (map_err (λ _, tt)
        (verify_persona_continuity_chain (rpr_proof (lc_root previous)) routine_chain
          (rpr_root_statement_sha256 (lc_root previous))));
      lift (Ok (cr_transition_count report, cr_chain_tip_key_fingerprint report,
                cr_last_transition_sha256 report))
  end.

Definition verify_new_transition (proof : PersonaTransitionProof)
    (statement : PersonaTransitionStatement) (review : PersonaTransitionReview)
    (previous : LiveContinuitySnapshot) : daemon unit unit :=
  verified ← lift (map_err (λ _, tt) (verify_persona_transition_proof proof));
  lift (reject_if ((vpt_statement verified != statement) ||
                   (vpt_transition_statement_sha256 verified !=
                     tr_transition_statement_sha256 review)) tt);;
  '(transition_count, chain_tip_key_fingerprint, last_transition_sha256) ←
    extended_chain proof previous;
  lift (reject_if ((transition_count != tr_sequence review) ||
                   (chain_tip_key_fingerprint != tr_next_key_fingerprint review) ||
                   (last_transition_sha256 != Some (tr_transition_statement_sha256 review))) tt).

Definition transition_approval_prompt (request_id : Approval.Uuid) (review : PersonaTransitionReview)
    (peer : PeerCredentials) (signer : ActiveSigner) : result unit ApprovalPrompt :=
  persona_id ← ok_or (uuid_parse_str (pe_id (as_persona signer))) tt;
  root_statement_sha256 ← decode_sha256 (tr_root_statement_sha256 review);
  previous_transition_sha256 ← decode_optional_sha256 (tr_previous_transition_sha256 review);
  transition_statement_sha256 ← decode_sha256 (tr_transition_statement_sha256 review);
  peer ← peer_identity peer;
  map_err (λ _, tt)
    (Approval.new_persona_transition request_id persona_id (pe_label (as_persona signer))
      (prompt_persona_purpose (pe_purpose (as_persona signer)))
      (tr_previous_key_fingerprint review) (tr_persona_anchor review) root_statement_sha256
      (tr_sequence review) previous_transition_sha256 (tr_issued_at review)
      (tr_next_key_fingerprint review) transition_statement_sha256 peer).

(** [std::str::from_utf8] of the input, trimmed and not empty. *)
Definition next_public_key_text (bs : bytes) : result FailureClass string :=
  value ← ok_or (from_utf8 bs) InvalidRequest;
  reject_if (trim value == "") InvalidRequest;;
  Ok (trim value).

Definition review_transition (statement : PersonaTransitionStatement) (now : Z)
    (root : VerifiedPersonaRoot) (request : TransitionRequest)
    (previous_public_key next_public_key : string) : Result PersonaTransitionReview :=
  review_persona_transition_statement statement now root (tq_expected_sequence request)
    (tq_expected_previous_transition_sha256 request) previous_public_key next_public_key.

(** What the store says once the transition is committed. *)
Definition persisted_matches (snapshot : LiveContinuitySnapshot) (review : PersonaTransitionReview)
    (proof : PersonaTransitionProof) : bool :=
  (hd_transition_sequence (lc_head snapshot) == tr_sequence review) &&
  (hd_current_key_fingerprint (lc_head snapshot) == tr_next_key_fingerprint review) &&
  (list.last (lc_transitions snapshot) == Some (ProofRoutine proof)).

(** From the continuity snapshot on: a transition that is not yet committed. *)
Definition process_new_transition (request_uuid : Approval.Uuid)
    (transition_request : TransitionRequest) (next_public_key next_key_fingerprint : string)
    (continuity : LiveContinuitySnapshot) (peer : PeerCredentials)
    (connection_interrupted : daemon FailureClass (option FailureClass)) :
    daemon FailureClass DaemonOutcome :=
  let persona_id := tq_persona_id transition_request in
  reject_when (negb (transition_request_matches_head transition_request continuity)) InvalidRequest;;
  answer ← call (ActiveSignerForPersona persona_id);
  previous_signer ← require answer PersonaUnavailable;
  reject_when (kr_fingerprint (as_key previous_signer) !=
               hd_current_key_fingerprint (lc_head continuity)) PersonaUnavailable;;
  answer ← call (ValidateRoutineRotationCandidate persona_id next_public_key
                   (tq_next_key_provider transition_request)
                   (tq_next_signing_reference transition_request));
  candidate ← require answer SignerUnavailable;
  reject_when (sf_key_fingerprint (rk_signing_reference candidate) != next_key_fingerprint) Internal;;
  root ← lift (map_err (λ _, InvalidRequest)
    (verify_persona_root_proof (rpr_proof (lc_root continuity))));
  statement ← lift (map_err (λ _, InvalidRequest)
    (new_routine_transition_statement root (ti_sequence (rk_intent candidate))
      (ti_previous_transition_sha256 (rk_intent candidate))
      (kr_public_key (as_key previous_signer)) (rk_public_key candidate)
      (ti_issued_at (rk_intent candidate))));
  now ← or_reject Internal current_unix_time;
  review ← lift (map_err (λ _, InvalidRequest)
    (review_transition statement now root transition_request
      (kr_public_key (as_key previous_signer)) (rk_public_key candidate)));
  reject_when (tr_root_statement_sha256 review != tq_expected_root_sha256 transition_request)
    InvalidRequest;;
  unless_interrupted connection_interrupted;;
  prompt ← lift (map_err (λ _, Internal)
    (transition_approval_prompt request_uuid review peer previous_signer));
  require_approval prompt;;
  unless_interrupted connection_interrupted;;
  answer ← call (ContinuitySnapshot persona_id);
  current_continuity ← require answer PersonaUnavailable;
  reject_when (current_continuity != continuity) PersonaUnavailable;;
  current_previous_signer ← same_active_signer persona_id previous_signer;
  answer ← call (ValidateRoutineRotationCandidate persona_id next_public_key
                   (tq_next_key_provider transition_request)
                   (tq_next_signing_reference transition_request));
  current_candidate ← require answer SignerUnavailable;
  reject_when (negb (same_rotation_candidate candidate current_candidate)) SignerUnavailable;;
  reject_when (negb (same_rotation_candidate candidate current_candidate)) SignerUnavailable;;
  current_root ← lift (map_err (λ _, InvalidRequest)
    (verify_persona_root_proof (rpr_proof (lc_root current_continuity))));
  current_time ← or_reject InvalidRequest current_unix_time;
  current_review ← lift (map_err (λ _, InvalidRequest)
    (review_transition statement current_time current_root transition_request
      (kr_public_key (as_key current_previous_signer)) (rk_public_key current_candidate)));
  reject_when (current_review != review) InvalidRequest;;
  proof ← or_reject SignerUnavailable
    (sign (SignTransition statement
       (sf_locator (as_signing_reference current_previous_signer))
       (kr_public_key (as_key current_previous_signer))
       (sf_locator (rk_signing_reference current_candidate))
       (rk_public_key current_candidate)));
  or_reject Internal (verify_new_transition proof statement current_review current_continuity);;
  unless_interrupted connection_interrupted;;
  answer ← call (CommitRoutineTransition persona_id proof (rk_provider current_candidate)
                   (sf_locator (rk_signing_reference current_candidate)));
  committed ← require answer InvalidRequest;
  reject_when (ct_proof committed != proof) Internal;;
  answer ← call (ContinuitySnapshot persona_id);
  persisted ← require answer Internal;
  reject_when (negb (persisted_matches persisted review (ct_proof committed))) Internal;;
  sealed ← or_reject Internal (sealed_proof (SignedPersonaTransition (ct_proof committed)));
  lift (Ok (Approved (uuid_to_string request_uuid) (tr_previous_key_fingerprint review)
              (ApprovedPersonaTransition review) sealed)).

Definition process_persona_transition (request_uuid : Approval.Uuid) (request : SignRequest)
    (input : File) (peer : PeerCredentials)
    (connection_interrupted : daemon FailureClass (option FailureClass)) :
    daemon FailureClass DaemonOutcome :=
  transition_request ← lift (transition_request request);
  memfd ← call FreshMemfd;
  snapshot ← lift (map_err (λ _, InvalidRequest)
    (snapshot_artifact memfd input MAX_PERSONA_TRANSITION_PUBLIC_KEY_BYTES));
  next_public_key_bytes ← lift (map_err (λ _, InvalidRequest)
    (read_bytes_bounded snapshot MAX_PERSONA_TRANSITION_PUBLIC_KEY_BYTES));
  next_public_key ← lift (next_public_key_text next_public_key_bytes);
  next_key_fingerprint ← lift (map_err (λ _, InvalidRequest)
    (public_key_fingerprint next_public_key));
  answer ← call (ContinuitySnapshot (tq_persona_id transition_request));
  continuity ← require answer PersonaUnavailable;
  retry ← exact_transition_retry continuity transition_request next_public_key
    next_key_fingerprint;
  match retry with
  | Some (proof, review) =>
      unless_interrupted connection_interrupted;;
      sealed ← or_reject Internal (sealed_proof (SignedPersonaTransition proof));
      lift (Ok (Approved (uuid_to_string request_uuid) (tr_previous_key_fingerprint review)
                  (ApprovedPersonaTransition review) sealed))
  | None =>
      process_new_transition request_uuid transition_request next_public_key next_key_fingerprint
        continuity peer connection_interrupted
  end.

End service.
