(* ===== verification/Participation.v ===== *)
(** * Taking part in a recovery, and one connection
    ([crates/a-quo-daemon/src/service/recovery_participation.rs] and
    [service.rs])

    A recovery authority, or the holder of the next key, signs the request of a
    ceremony. The request is parsed, verified and compared with the digests the
    client pinned, shown to the user, and then checked again from the sealed
    bytes with a fresh clock before it is signed. A connection receives a
    request, dispatches it to its handler, and answers. *)

From stdpp Require Import base numbers list strings pretty option.
From Stdlib Require Import Strings.Byte Ascii.
From S2P Require Import Prelude Text Ordered Display Crates Io ArtifactProof Continuity RecoveryPolicy RecoveryChain.
From S2P Require Import Ceremony Names Domain Fields IpcProtocol Transport Approval Interaction StoreTypes Daemon.
From S2P Require Import Service.

Definition MAX_PRIVATE_SIGNING_REFERENCE_BYTES : N := (1024 * 1024)%N.

Record ParticipantRequest := {
  pq_provider : RecoveryParticipantKeyProvider;
  pq_signing_reference : string;
  pq_public_key : string;
  pq_expected_root_sha256 : bytes;
  pq_expected_policy_version : N;
  pq_expected_policy_sha256 : bytes;
  pq_expected_policy_threshold : N;
  pq_expected_previous_head_sequence : N;
  pq_expected_previous_head_sha256 : option bytes;
}.

Record SigningReferenceIdentity := {
  si_canonical_path : string;
  si_device : N;
  si_inode : N;
  si_length : N;
  si_mode : N;
  si_owner : N;
  si_modified_seconds : Z;
  si_modified_nanoseconds : Z;
  si_changed_seconds : Z;
  si_changed_nanoseconds : Z;
}.

#[export] Instance RecoveryParticipantKeyProvider_eq_dec :
  EqDecision RecoveryParticipantKeyProvider.
Proof. solve_decision. Defined.
#[export] Instance RecoveryCeremonyRequest_eq_dec : EqDecision RecoveryCeremonyRequest.
Proof. solve_decision. Defined.

(** [PartialEq] of an identity: its path is compared by components. *)
Definition signing_identity_eqb (a b : SigningReferenceIdentity) : bool :=
  path_eqb (si_canonical_path a) (si_canonical_path b) &&
  (si_device a == si_device b) && (si_inode a == si_inode b) &&
  (si_length a == si_length b) && (si_mode a == si_mode b) && (si_owner a == si_owner b) &&
  (si_modified_seconds a == si_modified_seconds b) &&
  (si_modified_nanoseconds a == si_modified_nanoseconds b) &&
  (si_changed_seconds a == si_changed_seconds b) &&
  (si_changed_nanoseconds a == si_changed_nanoseconds b).

Definition participant_request (request : SignRequest) : result FailureClass ParticipantRequest :=
  reject_if (bool_decide (is_Some (sr_persona_id request))) InvalidRequest;;
  match sr_subject request with
  | IpcProtocol.RecoveryParticipation participant_key_provider participant_signing_reference
      participant_public_key expected_root_sha256 expected_policy_version expected_policy_sha256
      expected_policy_threshold expected_previous_head_sequence expected_previous_head_sha256 =>
      Ok {| pq_provider := participant_key_provider;
            pq_signing_reference := participant_signing_reference;
            pq_public_key := participant_public_key;
            pq_expected_root_sha256 := expected_root_sha256;
            pq_expected_policy_version := expected_policy_version;
            pq_expected_policy_sha256 := expected_policy_sha256;
            pq_expected_policy_threshold := expected_policy_threshold;
            pq_expected_previous_head_sequence := expected_previous_head_sequence;
            pq_expected_previous_head_sha256 := expected_previous_head_sha256 |}
  | _ => Err InvalidRequest
  end.

(** [.ok()] *)
Definition result_ok {E A} (r : result E A) : option A :=
  match r with Ok a => Some a | _ => None end.

Definition pins_match (participant : ParticipantRequest)
    (review : RecoveryCeremonyParticipantReview) (verified : VerifiedRecoveryCeremonyRequest) : bool :=
  (result_ok (decode_sha256 (cw_root_statement_sha256 review)) ==
    Some (pq_expected_root_sha256 participant)) &&
  (cw_recovery_policy_version review == pq_expected_policy_version participant) &&
  (result_ok (decode_sha256 (cw_recovery_policy_sha256 review)) ==
    Some (pq_expected_policy_sha256 participant)) &&
  (ps_threshold (vp_statement (vq_selected_policy verified)) ==
    pq_expected_policy_threshold participant) &&
  (cp_transition_sequence (cw_previous_head review) ==
    pq_expected_previous_head_sequence participant) &&
  (mjoin (result_ok (decode_optional_sha256 (cp_transition_sha256 (cw_previous_head review)))) ==
    pq_expected_previous_head_sha256 participant).

Definition file_identity (path : string) (md : Metadata) : SigningReferenceIdentity :=
  {| si_canonical_path := path;
     si_device := md_dev md;
     si_inode := md_ino md;
     si_length := md_len md;
     si_mode := md_mode md;
     si_owner := md_uid md;
     si_modified_seconds := md_mtime md;
     si_modified_nanoseconds := md_mtime_nsec md;
     si_changed_seconds := md_ctime md;
     si_changed_nanoseconds := md_ctime_nsec md |}.

Definition prompt_role (role : RecoveryCeremonyParticipantRole) : RecoveryParticipantRole :=
  match role with
  | Ceremony.RecoveryAuthority => Approval.RecoveryAuthority
  | Ceremony.NextKey => Approval.NextSigningKey
  end.

Definition prompt_reason (reason : RecoveryTransitionReason) : RecoveryReason :=
  match reason with
  | ReasonRecovery => Approval.Recovery
  | ReasonCompromise => Approval.Compromise
  end.

Section participation.
Context {crates : Crates} {uuid_bytes : UuidBytes} {uuid_text : UuidText} {idna : Idna}
  {json_statement : Serde ArtifactStatement} {json_bundle : Serde ProofBundle}
  {json_domain : Serde DomainControlStatement}
  {json_root : Serde PersonaRootStatement} {json_root_proof : Serde PersonaRootProof}
  {json_transition : Serde PersonaTransitionStatement}
  {json_transition_proof : Serde PersonaTransitionProof}
  {json_policy : Serde RecoveryPolicyStatement}
  {json_recovery : Serde RecoveryTransitionStatement}
  {json_terminal : Serde TerminalPersonaRevocationStatement}
  {json_request : Serde RecoveryCeremonyRequest} {json_response : Serde RecoveryCeremonyResponse}
  {pretty_bundle : SerdePretty ProofBundle} {pretty_root : SerdePretty PersonaRootProof}
  {pretty_transition : SerdePretty PersonaTransitionProof}.

Abbreviation daemon := (prog Answer).

(** The algorithms of a hardware key. *)
Definition hardware_algorithm (public_key : string) : bool :=
  let algorithm := default "" (split_whitespace public_key !! 0%nat) in
  (algorithm == "sk-ssh-ed25519@openssh.com") || (algorithm == "sk-ecdsa-sha2-nistp256@openssh.com").

Definition validate_signing_reference (participant : ParticipantRequest) :
    daemon FailureClass SigningReferenceIdentity :=
  _ ← lift (map_err (λ _, InvalidRequest) (public_key_fingerprint (pq_public_key participant)));
  reject_when ((pq_provider participant == ParticipantFido2) &&
               negb (hardware_algorithm (pq_public_key participant))) SignerUnavailable;;
  reject_when ((pq_signing_reference participant == "") ||
               negb (is_absolute (pq_signing_reference participant))) SignerUnavailable;;
  answer ← call (SymlinkMetadata (pq_signing_reference participant));
  entry ← or_reject SignerUnavailable (lift (of_sum answer));
  reject_when (md_is_symlink entry || negb (md_is_file entry) || (md_len entry =? 0)%N)
    SignerUnavailable;;
  answer ← call (Canonicalize (pq_signing_reference participant));
  canonical_path ← require answer SignerUnavailable;
  answer ← call (SymlinkMetadata canonical_path);
  md ← or_reject SignerUnavailable (lift (of_sum answer));
  reject_when (md_is_symlink md || negb (md_is_file md) || (md_len md =? 0)%N ||
               (MAX_PRIVATE_SIGNING_REFERENCE_BYTES <? md_len md)%N) SignerUnavailable;;
  current_uid ← call Geteuid;
  let root_owned_agent_stub :=
    (pq_provider participant == ParticipantSshAgent) && (md_uid md =? 0)%N in
  reject_when ((md_uid md != current_uid) && negb root_owned_agent_stub) SignerUnavailable;;
  reject_when ((N.land (md_mode md) 0x12 != 0%N) ||
               ((pq_provider participant != ParticipantSshAgent) &&
                (N.land (md_mode md) 0x3f != 0%N))) SignerUnavailable;;
  lift (Ok (file_identity canonical_path md)).

Definition participation_prompt (request_id : Approval.Uuid)
    (review : RecoveryCeremonyParticipantReview) (verified : VerifiedRecoveryCeremonyRequest)
    (peer : PeerCredentials) : result unit ApprovalPrompt :=
  request_sha256 ← decode_sha256 (cw_request_sha256 review);
  root_statement_sha256 ← decode_sha256 (cw_root_statement_sha256 review);
  recovery_policy_sha256 ← decode_sha256 (cw_recovery_policy_sha256 review);
  previous_head_sha256 ← decode_optional_sha256 (cp_transition_sha256 (cw_previous_head review));
  peer ← peer_identity peer;
  map_err (λ _, tt)
    (Approval.new_recovery_participation request_id (cw_persona review)
      (cw_participant_fingerprint review) request_sha256 (cw_ceremony_id review)
      (cw_expires_at review) (xs_persona_anchor (vq_statement verified)) root_statement_sha256
      (cw_recovery_policy_version review) recovery_policy_sha256
      (ps_threshold (vp_statement (vq_selected_policy verified)))
      (cp_transition_sequence (cw_previous_head review)) previous_head_sha256
      (prompt_reason (cw_reason review)) (cw_previous_key_fingerprint review)
      (cw_next_key_fingerprint review) (prompt_role (cw_role review)) peer).

Definition process_with_clock (request_uuid : Approval.Uuid) (request : SignRequest) (input : File)
    (peer : PeerCredentials) (connection_interrupted : daemon FailureClass (option FailureClass))
    (clock : daemon unit Z) : daemon FailureClass DaemonOutcome :=
  participant ← lift (participant_request request);
  memfd ← call FreshMemfd;
  snapshot ← lift (map_err (λ _, InvalidRequest)
    (snapshot_artifact memfd input MAX_RECOVERY_PARTICIPATION_REQUEST_BYTES));
  request_bytes ← lift (map_err (λ _, InvalidRequest)
    (read_bytes_bounded snapshot MAX_RECOVERY_PARTICIPATION_REQUEST_BYTES));
  now ← or_reject Internal clock;
  request ← lift (map_err (λ _, InvalidRequest) (parse_recovery_ceremony_request_bytes request_bytes));
  verified ← lift (map_err (λ _, InvalidRequest) (verify_recovery_ceremony_request request now));
  review ← lift (map_err (λ _, InvalidRequest)
    (review_recovery_ceremony_participant verified (pq_public_key participant) now));
  reject_when (negb (pins_match participant review verified)) InvalidRequest;;
  signing_identity ← validate_signing_reference participant;
  unless_interrupted connection_interrupted;;
  prompt ← lift (map_err (λ _, Internal) (participation_prompt request_uuid review verified peer));
  require_approval prompt;;
  unless_interrupted connection_interrupted;;
  checked_at ← or_reject Internal clock;
  reject_when (checked_at <? now)%Z InvalidRequest;;
  current_request ← lift (map_err (λ _, InvalidRequest)
    (parse_recovery_ceremony_request_bytes request_bytes));
  reject_when (current_request != request) InvalidRequest;;
  current_verified ← lift (map_err (λ _, InvalidRequest)
    (verify_recovery_ceremony_request current_request checked_at));
  reject_when (vq_request_sha256 current_verified != vq_request_sha256 verified) InvalidRequest;;
  current_review ← lift (map_err (λ _, InvalidRequest)
    (review_recovery_ceremony_participant current_verified (pq_public_key participant) checked_at));
  reject_when (current_review != review) InvalidRequest;;
  reject_when (negb (pins_match participant current_review current_verified)) InvalidRequest;;
  current_signing_identity ← or_reject SignerUnavailable (validate_signing_reference participant);
  reject_when (negb (signing_identity_eqb current_signing_identity signing_identity))
    SignerUnavailable;;
  let signer := {| rsn_private_key_path := si_canonical_path current_signing_identity;
                   rsn_public_key := pq_public_key participant |} in
  response ← or_reject SignerUnavailable (sign (SignCeremony current_verified signer checked_at));
  unless_interrupted connection_interrupted;;
  completed_at ← or_reject Internal clock;
  _ ← lift (map_err (λ _, InvalidRequest)
    (verify_recovery_ceremony_response current_verified response completed_at));
  response_bytes ← lift (map_err (λ _, Internal)
    (canonical_recovery_ceremony_response_bytes response));
  memfd ← call FreshMemfd;
  proof ← lift (map_err (λ _, Internal) (seal_proof_bytes memfd response_bytes));
  lift (Ok (Approved (uuid_to_string request_uuid) (cw_participant_fingerprint current_review)
              (ApprovedRecoveryParticipation current_review) proof)).

Definition process (request_uuid : Approval.Uuid) (request : SignRequest) (input : File)
    (peer : PeerCredentials) (connection_interrupted : daemon FailureClass (option FailureClass)) :
    daemon FailureClass DaemonOutcome :=
  process_with_clock request_uuid request input peer connection_interrupted current_unix_time.

End participation.

(** * One connection of the signing daemon ([crates/a-quo-daemon/src/service.rs]) *)

Section dispatch.
Context {crates : Crates} {uuid_bytes : UuidBytes} {uuid_text : UuidText} {idna : Idna}
  {json_statement : Serde ArtifactStatement} {json_bundle : Serde ProofBundle}
  {json_domain : Serde DomainControlStatement}
  {json_root : Serde PersonaRootStatement} {json_root_proof : Serde PersonaRootProof}
  {json_transition : Serde PersonaTransitionStatement}
  {json_transition_proof : Serde PersonaTransitionProof}
  {json_policy : Serde RecoveryPolicyStatement}
  {json_recovery : Serde RecoveryTransitionStatement}
  {json_terminal : Serde TerminalPersonaRevocationStatement}
  {json_request : Serde RecoveryCeremonyRequest} {json_response : Serde RecoveryCeremonyResponse}
  {pretty_bundle : SerdePretty ProofBundle} {pretty_root : SerdePretty PersonaRootProof}
  {pretty_transition : SerdePretty PersonaTransitionProof}.

Abbreviation daemon := (prog Answer).

Definition process_received_request_inner (received : ReceivedSignRequest)
    (connection_interrupted : daemon FailureClass (option FailureClass)) :
    daemon FailureClass DaemonOutcome :=
  request_uuid ← call NewUuid;
  rejecting (uuid_to_string request_uuid)
    match sr_subject (rq_request received) with
    | IpcProtocol.RecoveryParticipation _ _ _ _ _ _ _ _ _ =>
        process request_uuid (rq_request received) (rq_input received) (rq_peer received)
          connection_interrupted
    | IpcProtocol.PersonaTransition _ _ _ _ _ =>
        process_persona_transition request_uuid (rq_request received) (rq_input received)
          (rq_peer received) connection_interrupted
    | _ =>
        process_persona_request request_uuid (rq_request received) (rq_input received)
          (rq_peer received) connection_interrupted
    end.

Definition process_received_request (received : ReceivedSignRequest) :
    daemon FailureClass DaemonOutcome :=
  process_received_request_inner received (lift (Ok None)).

(** [let _ = send_sign_rejected(connection, code);] *)
Definition answer_rejected (code : RejectionCode) : daemon FailureClass unit :=
  socket ← call (Connection (SendingRejected code));
  Ret match send_sign_rejected socket code with Panic s => Panic s | _ => Ok tt end.

(** [if failure == InvalidRequest { let _ = send_sign_rejected(..); }] *)
Definition answer_invalid (failure : FailureClass) : daemon FailureClass unit :=
  if failure == InvalidRequest then answer_rejected (rejection_code failure) else lift (Ok tt).

Definition answer_outcome (outcome : DaemonOutcome) : daemon FailureClass DaemonOutcome :=
  match outcome with
  | Approved request_id signer_fingerprint subject proof =>
      interrupted ← connection_failure;
      match interrupted with
      | Some failure =>
          answer_invalid failure;;
          lift (Ok (rejected (Some request_id) failure))
      | None =>
          socket ← call (Connection (SendingApproved proof));
          Ret match send_sign_approved socket proof with
              | Ok _ => Ok (Approved request_id signer_fingerprint subject proof)
              | Err _ => Ok (Rejected (Some request_id) ClientCancelled)
              | Panic s => Panic s
              end
      end
  | Rejected request_id failure =>
      answer_rejected (rejection_code failure);;
      lift (Ok (Rejected request_id failure))
  end.

Definition handle_connection : daemon FailureClass DaemonOutcome :=
  socket ← call (Connection Receiving);
  match receive_sign_request socket with
  | Panic s => lift (Panic s)
  | Err _ =>
      answer_rejected IpcProtocol.InvalidRequest;;
      lift (Ok (Rejected None InvalidRequest))
  | Ok received =>
      interrupted ← connection_failure;
      match interrupted with
      | Some failure =>
          answer_invalid failure;;
          lift (Ok (rejected None failure))
      | None =>
          outcome ← process_received_request_inner received connection_failure;
          answer_outcome outcome
      end
  end.

(** [UnavailableApprovalBackend::decide] *)
Definition unavailable_decide (_prompt : ApprovalPrompt) : ApprovalError + ApprovalDecision :=
  inl Unavailable.

End dispatch.
