(* ===== verification/DaemonFacts.v ===== *)
(** * Silent steps of the daemon

    A program is silent when it neither asks the user, nor signs, nor changes
    the store. Most steps of a handler are, which leaves the few calls that
    need an authorisation. *)

From stdpp Require Import base numbers list strings pretty option.
From Stdlib Require Import Strings.Byte Ascii.
From S2P Require Import Prelude Text Ordered Display Crates Io ArtifactProof Continuity RecoveryPolicy RecoveryChain Ceremony.
From S2P Require Import Names Domain Fields IpcProtocol Transport Approval Interaction StoreTypes Daemon Service Participation.

(** ** Digests *)

Lemma decode_hex_digit_hex b n : decode_hex_digit b = Some n → (n < 16)%N ∧ hex_at n = ascii_of_byte b.
Proof. by destruct b; vm_compute; intros [= <-]. Qed.

Lemma nibbles_byte high low :
  (high < 16)%N → (low < 16)%N →
  byte_val (byte_of (N.lor (N.shiftl high 4) low)) = (16 * high + low)%N.
Proof.
  intros Hh Hl. assert (high ∈ nibbles ∧ low ∈ nibbles) as [Hh' Hl'].
  { split; unfold nibbles; rewrite !elem_of_cons; lia. }
  assert (Forall (λ h, Forall (λ l,
    byte_val (byte_of (N.lor (N.shiftl h 4) l)) = (16 * h + l)%N) nibbles) nibbles) as H.
  { repeat constructor. }
  rewrite list.Forall_forall in H. specialize (H _ Hh'). rewrite list.Forall_forall in H. by apply H.
Qed.

Lemma decode_pairs_hex (n : nat) bs digest :
  length bs = 2 * n → decode_pairs bs = Ok digest →
  encode_hex digest = String.string_of_list_byte bs.
Proof.
  revert bs digest. induction n as [|n IH]; intros bs digest Hl.
  - destruct bs; [|done]. by intros [= <-].
  - destruct bs as [|b0 [|b1 bs]]; [cbn in Hl; lia..|]. cbn [decode_pairs]. intros H.
    unbind H as high Hh. unbind H as low Hlow. unbind H as rest Hr. injection H as <-.
    oks Hh. oks Hlow. apply decode_hex_digit_hex in Hh as [Hh1 Hh2], Hlow as [Hl1 Hl2].
    cbn [encode_hex].
    assert (N.shiftr (byte_val (byte_of (N.lor (N.shiftl high 4) low))) 4 = high) as ->.
    { rewrite nibbles_byte by done. rewrite N.shiftr_div_pow2. change (2 ^ 4)%N with 16%N.
      rewrite N.mul_comm, N.div_add_l by done. rewrite N.div_small by done. lia. }
    assert (N.land (byte_val (byte_of (N.lor (N.shiftl high 4) low))) 0xf = low) as ->.
    { rewrite nibbles_byte by done. change 0xf%N with (N.ones 4). rewrite N.land_ones.
      change (2 ^ 4)%N with 16%N. rewrite N.add_comm, N.mul_comm, N.Div0.mod_add.
      by apply N.mod_small. }
    rewrite Hh2, Hl2. change (String.string_of_list_byte (b0 :: b1 :: bs)) with
      (String (ascii_of_byte b0) (String (ascii_of_byte b1) (String.string_of_list_byte bs))).
    f_equal. f_equal. apply IH; [cbn in Hl; lia|done].
Qed.

(** A digest that is shown is the digest that was decoded. *)
Lemma decode_sha256_hex value digest : decode_sha256 value = Ok digest → encode_hex digest = value.
Proof.
  unfold decode_sha256. rewrite seq_Ok, reject_if_Ok, negb_false_iff, bool_decide_eq_true.
  intros [Hl H]. apply (decode_pairs_hex 32) in H.
  - by rewrite H, String.string_of_list_byte_of_string.
  - unfold as_bytes. pose proof (as_bytes_len value) as Hb. unfold as_bytes, len in Hb. lia.
Qed.

Lemma decode_optional_sha256_hex value digest :
  decode_optional_sha256 value = Ok digest → encode_hex <$> digest = value.
Proof.
  destruct value as [v|]; cbn; [|by intros [= <-]]. intros H. unbind H as d Hd.
  injection H as <-. apply decode_sha256_hex in Hd. cbn. by rewrite Hd.
Qed.

Section silence.
Context {uuid_bytes : UuidBytes}.

Abbreviation daemon := (prog Answer).
Abbreviation event := (Event Answer).

(** ** Silence *)

Definition quiet_call (c : Call) : Prop :=
  match c with
  | Decide _ | Keygen _ | RecordContinuityRoot _ _ _ | CommitRoutineTransition _ _ _ _
  | Connection (SendingApproved _) | Connection (SendingRejected _) => False
  | _ => True
  end.

Definition quiet (e : event) : Prop := quiet_call (projT1 e).

(** A program that only makes calls of some kind. *)
Definition only (Q : Call → Prop) {E A} (p : daemon E A) : Prop := ∀ h, guarded (λ _, Q) h p.
Definition silent {E A} (p : daemon E A) : Prop := only quiet_call p.

Lemma only_call Q {E} c : Q c → only Q (call (E:=E) c).
Proof. intros H h. by split. Qed.

Lemma only_bind Q {E A B} (p : daemon E A) (f : A → daemon E B) :
  only Q p → (∀ a, only Q (f a)) → only Q (p ≫= f).
Proof. intros Hp Hf h. apply guarded_bind; [done|]. intros t a _. apply Hf. Qed.

Lemma only_map_error Q {E F A} (f : E → F) (p : daemon E A) : only Q p → only Q (map_error f p).
Proof. intros Hp h. by apply guarded_map_error. Qed.

(** The trace of such a program has only such calls. *)
Lemma only_runs Q {E A} (p : daemon E A) t r : only Q p → runs p t r → Forall (λ e, Q (projT1 e)) t.
Proof.
  intros Hp Hr. apply list.Forall_forall. intros [c x] Hin.
  apply list_elem_of_split in Hin as (t1 & t2 & Ht).
  apply (guarded_sound _ (λ _, Q) [] p t r t1 c x t2); [apply Hp|done|done].
Qed.

(** Calls that are always allowed need nothing of the history. *)
Lemma only_guarded Q {E A} P h (p : daemon E A) :
  (∀ h c, Q c → P h c) → only Q p → guarded P h p.
Proof.
  intros HP Hp. specialize (Hp h). revert h Hp.
  induction p as [r|c k IH]; intros h; cbn; [done|]. intros [Hc Hk]. split; auto.
Qed.

Lemma only_mono (Q Q' : Call → Prop) {E A} (p : daemon E A) :
  (∀ c, Q c → Q' c) → only Q p → only Q' p.
Proof. intros H Hp h. eapply only_guarded; [|exact Hp]. auto. Qed.

Lemma silent_lift {E A} (r : result E A) : silent (lift r).
Proof. done. Qed.
Lemma silent_bind {E A B} (p : daemon E A) (f : A → daemon E B) :
  silent p → (∀ a, silent (f a)) → silent (p ≫= f).
Proof. apply only_bind. Qed.
Lemma silent_map_error {E F A} (f : E → F) (p : daemon E A) : silent p → silent (map_error f p).
Proof. apply only_map_error. Qed.
Lemma silent_runs {E A} (p : daemon E A) t r : silent p → runs p t r → Forall quiet t.
Proof. apply only_runs. Qed.
Lemma silent_require {A} (o : option A) f : silent (require o f).
Proof. done. Qed.
Lemma silent_reject_when b f : silent (reject_when b f).
Proof. done. Qed.
Lemma silent_or_reject {E A} f (p : daemon E A) : silent p → silent (or_reject f p).
Proof. apply silent_map_error. Qed.
End silence.

Create HintDb silence.
#[export] Hint Resolve silent_lift silent_map_error silent_require silent_reject_when silent_or_reject : silence.
#[export] Hint Extern 1 (silent (call _)) => apply only_call; exact I : silence.
#[export] Hint Extern 1 (silent (Ret _)) => intros ?; exact I : silence.

Ltac silence :=
  repeat first
    [ solve [auto 3 with silence nocore]
    | apply silent_bind
    | apply silent_map_error
    | progress intros
    | progress case_match
    | progress cbn beta iota zeta ].

Section steps.
Context {crates : Crates} {uuid_bytes : UuidBytes} {uuid_text : UuidText} {idna : Idna}
  {json_statement : Serde ArtifactStatement} {json_bundle : Serde ProofBundle}
  {json_domain : Serde DomainControlStatement}
  {json_root : Serde PersonaRootStatement} {json_root_proof : Serde PersonaRootProof}
  {json_transition : Serde PersonaTransitionStatement}
  {json_transition_proof : Serde PersonaTransitionProof}
  {json_policy : Serde RecoveryPolicyStatement}
  {json_recovery : Serde RecoveryTransitionStatement}
  {json_terminal : Serde TerminalPersonaRevocationStatement}
  {json_request : Serde RecoveryCeremonyRequest} {json_response : Serde RecoveryCeremonyResponse}
  {pretty_bundle : SerdePretty ProofBundle} {pretty_root : SerdePretty PersonaRootProof}
  {pretty_transition : SerdePretty PersonaTransitionProof}.

Lemma silent_unix_time : silent current_unix_time.
Proof. unfold current_unix_time. silence. Qed.
Lemma silent_connection_failure : silent connection_failure.
Proof. unfold connection_failure. silence. Qed.
Lemma silent_unless ci : silent ci → silent (unless_interrupted ci).
Proof. intros H. unfold unless_interrupted. silence. Qed.
Hint Resolve silent_unix_time silent_connection_failure silent_unless : silence.

Lemma silent_prepare r s a : silent (prepare_request r s a).
Proof. unfold prepare_request. silence. Qed.
Lemma silent_same_signer id s : silent (same_active_signer id s).
Proof. unfold same_active_signer. silence. Qed.
Lemma silent_sealed_proof p : silent (sealed_proof p).
Proof. unfold sealed_proof. silence. Qed.
Lemma silent_locator p s : silent (retry_locator_matches p s).
Proof. unfold retry_locator_matches. silence. Qed.
Hint Resolve silent_prepare silent_same_signer silent_sealed_proof silent_locator : silence.
Lemma silent_retry s r k f : silent (exact_transition_retry s r k f).
Proof. unfold exact_transition_retry, retry_of_proof. silence. Qed.
Lemma silent_verify_new p s r l : silent (verify_new_transition p s r l).
Proof. unfold verify_new_transition, extended_chain. silence. Qed.
Lemma silent_signing_reference p : silent (validate_signing_reference p).
Proof. unfold validate_signing_reference. silence. Qed.
Hint Resolve silent_retry silent_verify_new silent_signing_reference : silence.
End steps.

#[export] Hint Resolve silent_unix_time silent_connection_failure silent_unless silent_prepare silent_same_signer silent_sealed_proof silent_locator silent_retry silent_verify_new silent_signing_reference : silence.

(** [answered H as x] takes the answer of a call. *)
Tactic Notation "answered" hyp(H) "as" ident(x) :=
  match type of H with
  | runs (call ?c) _ _ =>
      let Heq := fresh in
      apply (runs_call Answer c) in H as (x & -> & Heq); injection Heq as ->
  end.

(** [member] finds an event in a history put together from pieces. *)
Ltac member :=
  lazymatch goal with
  | |- _ ∈ _ ++ _ => apply elem_of_app; first [right; member | left; member]
  | |- _ ∈ _ :: _ => apply elem_of_cons; first [left; reflexivity | right; member]
  | |- _ ∈ _ => eassumption
  end.
