(* ===== verification/Consent.v ===== *)
(** * Nothing is signed without consent

    Whenever the daemon starts the signer, the user has just approved a prompt
    that shows what is signed and with which key; since then the signer was
    looked up again, and a root, a transition or a ceremony was reviewed again
    by the clock. Whenever it changes the store, it does so with a proof made
    that way. *)

From stdpp Require Import base numbers list strings pretty option.
From Stdlib Require Import Strings.Byte Ascii.
From S2P Require Import Prelude Text Ordered Display Crates Io ArtifactProof ArtifactFacts Continuity ContinuityFacts RecoveryPolicy RecoveryChain Ceremony.
From S2P Require Import Names Domain DomainFacts Fields IpcProtocol Transport Approval Interaction StoreTypes Daemon Service Participation.
From S2P Require Import DaemonFacts.

Section consent.
Context {crates : Crates} {uuid_bytes : UuidBytes} {uuid_text : UuidText} {idna : Idna}
  {json_statement : Serde ArtifactStatement} {json_bundle : Serde ProofBundle}
  {json_domain : Serde DomainControlStatement}
  {json_root : Serde PersonaRootStatement} {json_root_proof : Serde PersonaRootProof}
  {json_transition : Serde PersonaTransitionStatement}
  {json_transition_proof : Serde PersonaTransitionProof}
  {json_policy : Serde RecoveryPolicyStatement}
  {json_recovery : Serde RecoveryTransitionStatement}
  {json_terminal : Serde TerminalPersonaRevocationStatement}
  {json_request : Serde RecoveryCeremonyRequest} {json_response : Serde RecoveryCeremonyResponse}
  {pretty_bundle : SerdePretty ProofBundle} {pretty_root : SerdePretty PersonaRootProof}
  {pretty_transition : SerdePretty PersonaTransitionProof}.

Abbreviation daemon := (prog Answer).
Abbreviation event := (Event Answer).

(** ** What a prompt shows *)

(** The fingerprint of a public key as it is given. *)
Definition key_has_fingerprint (key fingerprint : string) : Prop :=
  ∃ n, normalize_public_key key = Ok n ∧ public_key_fingerprint n = Ok fingerprint.

(** A prompt shows a task when it displays the digest of what is signed (or,
    for a domain, the statement and the record to publish), the persona and
    the fingerprints of the keys. *)
Definition shows (prompt : ApprovalPrompt) (task : SigningTask) : Prop :=
  match task with
  | SignDescriptor artifact _ _ persona =>
      ap_persona_label prompt = persona ∧
      ∃ shown, ap_subject prompt = Approval.Artifact shown ∧
        artifact_sha256_hex shown = dg_value (ad_digest artifact) ∧
        aa_artifact_size shown = ad_size artifact
  | SignDomain statement _ key =>
      ap_persona_label prompt = sc_persona (ds_signer statement) ∧
      key_has_fingerprint key (sc_key_fingerprint (ds_signer statement)) ∧
      ∃ shown payload, ap_subject prompt = Approval.Domain shown ∧
        canonical_domain_control_statement_bytes statement = Ok payload ∧
        da_domain shown = ds_domain statement ∧
        da_dns_txt_value shown = dns_txt_commitment payload ∧
        da_issued_at shown = ds_issued_at statement ∧
        da_expires_at shown = ds_expires_at statement
  | SignRoot statement _ key =>
      ap_persona_label prompt = rs_persona statement ∧
      key_has_fingerprint key (rs_initial_key_fingerprint statement) ∧
      ∃ shown, ap_subject prompt = Approval.PersonaRoot shown ∧
        persona_root_statement_sha256 statement = Ok (root_root_sha256_hex shown) ∧
        ra_persona_anchor shown = rs_persona_anchor statement ∧
        ra_issued_at shown = rs_issued_at statement
  | SignTransition statement _ previous_key _ next_key =>
      key_has_fingerprint previous_key (ap_key_fingerprint prompt) ∧
      ∃ shown, ap_subject prompt = Approval.PersonaTransition shown ∧
        key_has_fingerprint next_key (ta_next_key_fingerprint shown) ∧
        persona_transition_statement_sha256 statement = Ok (transition_sha256_hex shown) ∧
        transition_root_sha256_hex shown = ts_root_statement_sha256 statement ∧
        ta_sequence shown = ts_sequence statement ∧
        previous_sha256_hex shown = ts_previous_transition_sha256 statement
  | SignCeremony verified signer _ =>
      key_has_fingerprint (rsn_public_key signer) (ap_key_fingerprint prompt) ∧
      ∃ shown, ap_subject prompt = Approval.RecoveryParticipation shown ∧
        request_sha256_hex shown = vq_request_sha256 verified ∧
        pa_previous_key_fingerprint shown = xs_previous_key_fingerprint (vq_statement verified) ∧
        pa_next_key_fingerprint shown = xs_next_key_fingerprint (vq_statement verified)
  end.

(** What was checked again between the approval and the signature. The signer
    of a persona is looked up again. A root is reviewed again at a reading of the
    clock; a transition against the snapshot of the journal that was read again;
    a ceremony is verified and reviewed again, and the file of the private key
    is looked at again. What is signed of an artifact is the digest of the sealed
    copy, which cannot change, and a domain statement is not reviewed a second
    time: its proof is verified once it is made. *)
Definition rechecked (since : list event) (prompt : ApprovalPrompt) (task : SigningTask) : Prop :=
  let signer_is locator key (P : ActiveSigner → Prop) :=
    ∃ id signer, occurs (ActiveSignerForPersona id) (Some signer) ∈ since ∧
      locator = sf_locator (as_signing_reference signer) ∧ key = kr_public_key (as_key signer) ∧
      ap_persona_label prompt = pe_label (as_persona signer) ∧ P signer in
  match task with
  | SignDescriptor _ locator key _ | SignDomain _ locator key =>
      signer_is locator key (λ signer, ap_key_fingerprint prompt = kr_fingerprint (as_key signer))
  | SignRoot statement locator key =>
      signer_is locator key (λ signer, ap_key_fingerprint prompt = kr_fingerprint (as_key signer)) ∧
      ∃ now review, occurs SystemTime (Some now) ∈ since ∧
        review_persona_root_statement statement (Z.of_N now) key (ap_persona_label prompt) = Ok review
  | SignTransition statement locator key next_locator next_key =>
      signer_is locator key (λ _, True) ∧
      (∃ id key0 provider reference candidate,
        occurs (ValidateRoutineRotationCandidate id key0 provider reference) (Some candidate) ∈ since ∧
        next_locator = sf_locator (rk_signing_reference candidate) ∧
        next_key = rk_public_key candidate) ∧
      ∃ id snapshot root now sequence previous review,
        occurs (ContinuitySnapshot id) (Some snapshot) ∈ since ∧
        verify_persona_root_proof (rpr_proof (lc_root snapshot)) = Ok root ∧
        occurs SystemTime (Some now) ∈ since ∧
        review_persona_transition_statement statement (Z.of_N now) root sequence previous key next_key =
          Ok review
  | SignCeremony verified signer checked_at =>
      (∃ md, occurs (SymlinkMetadata (rsn_private_key_path signer)) (inr md) ∈ since ∧
        md_is_symlink md = false ∧ md_is_file md = true ∧ N.land (md_mode md) 0x12 = 0%N) ∧
      ∃ now request review, occurs SystemTime (Some now) ∈ since ∧ checked_at = Z.of_N now ∧
        verify_recovery_ceremony_request request checked_at = Ok verified ∧
        review_recovery_ceremony_participant verified (rsn_public_key signer) checked_at = Ok review
  end.

(** The user approved, and since then nothing was asked, signed or changed. *)
Definition consented (h : list event) (prompt : ApprovalPrompt) (since : list event) : Prop :=
  ∃ before, h = before ++ occurs (Decide prompt) (inr Approve) :: since ∧ Forall quiet since.

Definition authorised (h : list event) (task : SigningTask) : Prop :=
  ∃ prompt since, consented h prompt since ∧ shows prompt task ∧ rechecked since prompt task.

(** A proof that the daemon made itself. *)
Definition signed_root (h : list event) (proof : PersonaRootProof) (digest : string) : Prop :=
  ∃ statement locator key keygen,
    occurs (Keygen (SignRoot statement locator key)) keygen ∈ h ∧
    create_persona_root_proof (keygen:=keygen) statement locator key = Ok proof ∧
    persona_root_statement_sha256 statement = Ok digest.

Definition signed_transition (h : list event) (proof : PersonaTransitionProof) (locator : string) :
    Prop :=
  ∃ statement previous_locator previous_key next_key keygen,
    occurs (Keygen (SignTransition statement previous_locator previous_key locator next_key))
      keygen ∈ h ∧
    create_routine_transition_proof (keygen:=keygen) statement previous_locator previous_key
      locator next_key = Ok proof.

(** What the history must contain when a call is made. *)
Definition consent (h : list event) (c : Call) : Prop :=
  match c with
  | Keygen task => authorised h task
  | RecordContinuityRoot _ proof digest => signed_root h proof digest
  | CommitRoutineTransition _ proof _ locator => signed_transition h proof locator
  | _ => True
  end.

(** ** Steps *)

Lemma quiet_consent h c : quiet_call c → consent h c.
Proof. by destruct c. Qed.

Lemma consented_more h prompt since t :
  consented h prompt since → Forall quiet t → consented (h ++ t) prompt (since ++ t).
Proof.
  intros (before & -> & Hq) Ht. exists before. rewrite <- app_assoc. split; [done|].
  by apply Forall_app.
Qed.

(** Going through a silent step. *)
Lemma guarded_silent {E A B} h (p : daemon E A) (f : A → daemon E B) :
  silent p → (∀ t a, runs p t (Ok a) → Forall quiet t → guarded consent (h ++ t) (f a)) →
  guarded consent h (p ≫= f).
Proof.
  intros Hp Hf. apply guarded_bind; [by apply (only_guarded quiet_call); [apply quiet_consent|]|].
  intros t a Hr. apply Hf; [done|]. by eapply silent_runs.
Qed.

(** [quietly as a H] goes through a silent step with result [a]. *)
Tactic Notation "quietly" "as" simple_intropattern(a) simple_intropattern(H) :=
  apply guarded_silent; [silence|]; intros ? a H ?.

(** The same after an approval, which keeps [Hc]. *)
Tactic Notation "patiently" hyp(Hc) "as" simple_intropattern(a) simple_intropattern(H) :=
  let Hq := fresh in
  apply guarded_silent; [silence|]; intros ? a H Hq;
  apply (consented_more _ _ _ _ Hc) in Hq; clear Hc; rename Hq into Hc.

Lemma guarded_consent_silent {E A} h (p : daemon E A) : silent p → guarded consent h p.
Proof. by apply (only_guarded quiet_call), quiet_consent. Qed.

Lemma runs_require {A} (o : option A) f t a : runs (require o f) t (Ok a) ↔ t = [] ∧ o = Some a.
Proof. unfold require. rewrite runs_lift, ok_or_Ok. done. Qed.

Lemma runs_reject_when b f t a : runs (reject_when b f) t (Ok a) ↔ t = [] ∧ b = false.
Proof. unfold reject_when. rewrite runs_lift. destruct a, b; cbn; naive_solver. Qed.

Lemma runs_or_reject {E A} f (p : daemon E A) t a : runs (or_reject f p) t (Ok a) ↔ runs p t (Ok a).
Proof. apply runs_map_error. Qed.

Lemma runs_lift_map_err {E F A} (f : E → F) (r : result E A) t a :
  runs (Answer:=Answer) (lift (map_err f r)) t (Ok a) ↔ t = [] ∧ r = Ok a.
Proof. rewrite runs_lift, map_err_Ok. done. Qed.

Lemma runs_unix_time t now :
  runs current_unix_time t (Ok now) → ∃ n, t = [occurs SystemTime (Some n)] ∧ now = Z.of_N n.
Proof.
  unfold current_unix_time. intros H. went H as t1 answer H1. answered H1 as x.
  went H as t2 n H2. apply runs_lift in H2 as [-> H2]. apply ok_or_Ok in H2 as ->.
  apply runs_lift in H as [-> H]. apply ok_or_Ok in H. case_match; [|done]. injection H as <-. eauto.
Qed.

Lemma runs_same_signer id s t s' :
  runs (same_active_signer id s) t (Ok s') →
  t = [occurs (ActiveSignerForPersona id) (Some s')] ∧ active_signer_eqb s' s = true.
Proof.
  unfold same_active_signer. intros H. went H as t1 answer H1. answered H1 as x.
  went H as t2 c H2. apply runs_require in H2 as [-> ->].
  went H as t3 u H3. apply runs_reject_when in H3 as [-> Hb]. apply runs_lift in H as [-> [= ->]].
  by rewrite negb_false_iff in Hb.
Qed.

Lemma runs_approval prompt t u :
  runs (require_approval prompt) t (Ok u) → t = [occurs (Decide prompt) (inr Approve)].
Proof.
  unfold require_approval. intros H. went H as t1 d H1. answered H1 as x.
  apply runs_lift in H as [-> H]. by destruct x as [|[]].
Qed.

Lemma guarded_approval {B} h prompt (f : unit → daemon FailureClass B) :
  (consented (h ++ [occurs (Decide prompt) (inr Approve)]) prompt [] →
   guarded consent (h ++ [occurs (Decide prompt) (inr Approve)]) (f tt)) →
  guarded consent h (require_approval prompt ≫= f).
Proof.
  intros Hf. apply guarded_bind.
  - unfold require_approval. apply guarded_bind; [by split|]. done.
  - intros t [] ->%runs_approval. apply Hf. by exists h.
Qed.

Lemma guarded_sign {E B} h f0 task (f : signed_by task → daemon E B) :
  authorised h task →
  (∀ keygen proof, sign_with keygen task = Ok proof →
    guarded consent (h ++ [occurs (Keygen task) keygen]) (f proof)) →
  guarded consent h (map_error f0 (sign task) ≫= f).
Proof.
  intros Ha Hf. apply guarded_bind.
  - apply guarded_map_error. unfold sign. apply guarded_bind; [by split|]. done.
  - intros t proof Hr. apply runs_map_error in Hr. unfold sign in Hr. went Hr as t1 keygen H1.
    answered H1 as x. apply runs_lift in Hr as [-> Hr]. by apply Hf.
Qed.

(** ** Artifacts, domains and roots *)

Lemma active_signer_eqb_true a b :
  active_signer_eqb a b = true → as_persona a = as_persona b ∧ as_key a = as_key b.
Proof. unfold active_signer_eqb. rewrite !andb_true_iff, !bool_decide_eq_true. tauto. Qed.

(** What is prepared for a signer was reviewed with its key and its label. *)
Definition prepared_for (signer : ActiveSigner) (prepared : PreparedRequest) : Prop :=
  match prepared with
  | PreparedArtifact _ _ _ => True
  | PreparedDomainControl statement review => ∃ now,
      review_domain_control_statement statement now (kr_public_key (as_key signer))
        (pe_label (as_persona signer)) = Ok review
  | PreparedPersonaRoot statement review => ∃ now,
      review_persona_root_statement statement now (kr_public_key (as_key signer))
        (pe_label (as_persona signer)) = Ok review
  end.

Lemma prepared_for_same a b prepared :
  active_signer_eqb b a = true → prepared_for a prepared → prepared_for b prepared.
Proof. intros [Hp Hk]%active_signer_eqb_true. unfold prepared_for. by rewrite Hp, Hk. Qed.

Lemma runs_prepare request snapshot signer t prepared :
  runs (prepare_request request snapshot signer) t (Ok prepared) → prepared_for signer prepared.
Proof.
  unfold prepare_request. intros H. destruct (sr_subject request).
  - by apply runs_lift in H as [-> [= <-]].
  - went H as t1 bs H1. went H as t2 now H2. went H as t3 x H3. destruct x as [st review].
    apply runs_lift_map_err in H3 as [-> H3]. apply runs_lift in H as [-> [= <-]].
    unfold review_domain_control_statement_bytes in H3. unbind H3 as st' Hst. unbind H3 as r Hr.
    unbind H3 as c Hc. apply seq_Ok in H3 as [_ [= <- <-]]. by exists now.
  - went H as t1 bs H1. went H as t2 now H2. went H as t3 x H3. destruct x as [st review].
    apply runs_lift_map_err in H3 as [-> H3]. apply runs_lift in H as [-> [= <-]].
    unfold review_persona_root_statement_bytes in H3. unbind H3 as st' Hst. unbind H3 as r Hr.
    unbind H3 as c Hc. apply seq_Ok in H3 as [_ [= <- <-]]. by exists now.
  - by apply runs_lift in H as [_ H].
  - by apply runs_lift in H as [_ H].
Qed.

Lemma prompt_built r p l u k s peer q :
  new_with_subject r p l u k s peer = Ok q →
  q = {| ap_request_id := r; ap_persona_id := p; ap_persona_label := l; ap_persona_purpose := u;
         ap_key_fingerprint := k; ap_subject := s; ap_peer := peer |}.
Proof. unfold new_with_subject. intros H. apply seq_Ok in H as [_ [= <-]]. done. Qed.

Lemma review_root_Ok statement now key persona review :
  review_persona_root_statement statement now key persona = Ok review →
  persona = rs_persona statement ∧ key_has_fingerprint key (rs_initial_key_fingerprint statement) ∧
  rr_persona_anchor review = rs_persona_anchor statement ∧
  rr_issued_at review = rs_issued_at statement ∧
  persona_root_statement_sha256 statement = Ok (rr_root_statement_sha256 review).
Proof.
  unfold review_persona_root_statement. intros H. unbind H as payload Hp.
  apply seq_Ok in H as [_ H]. apply seq_Ok in H as [_ H]. unbind H as persona' Hper.
  apply seq_Ok in H as [Heq H]. unbind H as n Hn. unbind H as f Hf. apply seq_Ok in H as [Hfp H].
  injection H as <-. oks Heq. oks Hfp. subst. unfold validate_canonical_persona in Hper.
  unbind Hper as c Hc. oks Hper. subst. split; [done|]. split; [by exists n|].
  split; [done|]. split; [done|]. unfold persona_root_statement_sha256. by rewrite Hp.
Qed.

(** The prompt of a prepared request and the tasks it shows. *)
Lemma prompt_of_prepared request_id prepared peer signer prompt :
  approval_prompt request_id prepared peer signer = Ok prompt → prepared_for signer prepared →
  ap_persona_label prompt = pe_label (as_persona signer) ∧
  ap_key_fingerprint prompt = kr_fingerprint (as_key signer) ∧
  ∀ locator, match prepared with
  | PreparedArtifact descriptor _ _ => shows prompt
      (SignDescriptor descriptor locator (kr_public_key (as_key signer)) (pe_label (as_persona signer)))
  | PreparedDomainControl statement _ =>
      shows prompt (SignDomain statement locator (kr_public_key (as_key signer)))
  | PreparedPersonaRoot statement _ =>
      shows prompt (SignRoot statement locator (kr_public_key (as_key signer)))
  end.
Proof.
  unfold approval_prompt. intros H Hp. unbind H as pid Hpid. unbind H as id Hid.
  destruct prepared as [descriptor kind label|statement review|statement review].
  - unbind H as digest Hd. apply map_err_Ok, prompt_built in H as ->.
    split; [done|]. split; [done|]. intros locator. split; [done|]. eexists. split; [done|].
    split; [|done]. by apply decode_sha256_hex in Hd.
  - apply map_err_Ok, prompt_built in H as ->.
    split; [done|]. split; [done|]. intros locator. destruct Hp as [now Hr].
    apply review_Ok in Hr as (payload & n & Hpay & _ & _ & Hper & Hn & Hf & ->).
    split; [done|]. split; [by exists n|]. eexists _, payload. split; [done|]. done.
  - unbind H as digest Hd. apply map_err_Ok, prompt_built in H as ->.
    split; [done|]. split; [done|]. intros locator. destruct Hp as [now Hr].
    apply review_root_Ok in Hr as (Hper & Hk & Ha & Ht & Hs).
    split; [done|]. split; [done|]. eexists. split; [done|].
    apply decode_sha256_hex in Hd. unfold root_root_sha256_hex. cbn [ra_root_statement_sha256].
    by rewrite Hd.
Qed.

(** The prompt of a request stays true of the signer that was looked up again. *)
Lemma prompt_of_same request_id prepared peer signer0 signer prompt :
  approval_prompt request_id prepared peer signer0 = Ok prompt → prepared_for signer0 prepared →
  active_signer_eqb signer signer0 = true →
  ap_persona_label prompt = pe_label (as_persona signer) ∧
  ap_key_fingerprint prompt = kr_fingerprint (as_key signer) ∧
  ∀ locator, match prepared with
  | PreparedArtifact descriptor _ _ => shows prompt
      (SignDescriptor descriptor locator (kr_public_key (as_key signer)) (pe_label (as_persona signer)))
  | PreparedDomainControl statement _ =>
      shows prompt (SignDomain statement locator (kr_public_key (as_key signer)))
  | PreparedPersonaRoot statement _ =>
      shows prompt (SignRoot statement locator (kr_public_key (as_key signer)))
  end.
Proof.
  intros Hprompt Hfor [Hper Hkey]%active_signer_eqb_true. rewrite Hper, Hkey.
  by eapply prompt_of_prepared.
Qed.

(** Between the approval and the signature of a prepared request. *)
Lemma sign_prepared_consent h prompt since id signer prepared request_id peer signer0 :
  consented h prompt since → occurs (ActiveSignerForPersona id) (Some signer) ∈ since →
  approval_prompt request_id prepared peer signer0 = Ok prompt →
  prepared_for signer0 prepared → active_signer_eqb signer signer0 = true →
  guarded consent h (sign_prepared_request prepared signer).
Proof.
  intros Hc Hin Hprompt Hfor Heq.
  destruct (prompt_of_same _ _ _ _ _ _ Hprompt Hfor Heq) as (Hl & Hk & Hs). clear Hprompt Hfor Heq.
  destruct prepared as [descriptor kind label|statement review|statement review]; cbn [sign_prepared_request].
  - apply guarded_sign; [|by intros keygen proof _].
    exists prompt, since. split; [done|]. split; [apply Hs|]. by exists id, signer.
  - apply guarded_sign.
    + exists prompt, since. split; [done|]. split; [apply Hs|]. by exists id, signer.
    + intros keygen proof _. apply guarded_consent_silent. silence.
  - patiently Hc as now (n & -> & ->)%runs_or_reject%runs_unix_time.
    patiently Hc as review' [-> Hreview]%runs_lift_map_err. patiently Hc as u _.
    apply guarded_sign.
    + eexists prompt, _. split; [exact Hc|]. split; [apply Hs|]. split.
      * exists id, signer. split; [member|done].
      * exists n, review'. split; [member|]. by rewrite Hl.
    + intros keygen proof _. apply guarded_consent_silent. silence.
Qed.

(** The subject of a signed request, and for a root the call that made it. *)
Lemma runs_sign_prepared prepared signer t proof subject :
  runs (sign_prepared_request prepared signer) t (Ok (proof, subject)) →
  ∀ root_proof review, proof = SignedPersonaRoot root_proof → subject = ApprovedPersonaRoot review →
  (∃ signer0, prepared_for signer0 prepared) →
  signed_root t root_proof (rr_root_statement_sha256 review).
Proof.
  intros H root_proof review -> -> [signer0 Hfor].
  destruct prepared as [descriptor kind label|statement review'|statement review']; cbn [sign_prepared_request] in H.
  - went H as t1 p H1. by apply runs_lift in H as [_ H].
  - went H as t1 p H1. went H as t2 now H2. went H as t3 v H3. went H as t4 u H4.
    by apply runs_lift in H as [_ H].
  - went H as t1 now H1. went H as t2 r H2. went H as t3 u H3. went H as t4 p H4.
    went H as t5 v H5. went H as t6 u' H6. apply runs_lift in H as [-> [= -> ->]].
    apply runs_or_reject in H4. unfold sign in H4. went H4 as t7 keygen H7.
    answered H7 as keygen'. apply runs_lift in H4 as [-> H4].
    destruct Hfor as [now' Hr]. apply review_root_Ok in Hr as (_ & _ & _ & _ & Hsha).
    eexists statement, _, _, keygen'. split; [|done]. member.
Qed.

Lemma persona_request_consent h request_uuid request input peer ci :
  silent ci → guarded consent h (process_persona_request request_uuid request input peer ci).
Proof.
  intros Hci. unfold process_persona_request.
  quietly as persona_id _. quietly as answer _. quietly as signer0 _. quietly as maximum _.
  quietly as memfd _. quietly as snapshot _. quietly as prepared Hfor%runs_prepare.
  quietly as u7 _. quietly as prompt [_ Hprompt]%runs_lift_map_err.
  apply guarded_approval. intros Hc. apply guarded_silent; [silence|]. intros t9 u9 _ Hq9.
  apply (consented_more _ _ _ _ Hc) in Hq9 as Hc9. clear Hc.
  apply guarded_silent; [silence|]. intros t10 signer H10 Hq10.
  apply (consented_more _ _ _ _ Hc9) in Hq10 as Hc10. clear Hc9.
  apply runs_same_signer in H10 as [-> Heq].
  apply guarded_bind.
  { eapply (sign_prepared_consent _ _ _ persona_id); [exact Hc10| |exact Hprompt|exact Hfor|exact Heq]. member. }
  intros t11 [proof subject] Hsig. apply guarded_silent; [silence|]. intros t12 s12 _ _.
  apply guarded_bind; [|intros t13 u13 _; apply guarded_consent_silent; silence].
  unfold record_signed_root. destruct proof as [|root_proof|]; [done| |done].
  destruct subject as [| |review| |]; try done.
  apply guarded_silent; [silence|]. intros t14 u14 _ _. apply guarded_bind; [|done].
  split; [|done]. pose proof (runs_sign_prepared _ _ _ _ _ Hsig root_proof review eq_refl eq_refl)
    as (st & loc & key & keygen & Hin & Hrest); [by exists signer0|].
  exists st, loc, key, keygen. split; [member|done].
Qed.

(** ** Routine transitions *)

Lemma review_transition_Ok statement now root request key next_key review :
  review_transition statement now root request key next_key = Ok review →
  key_has_fingerprint key (tr_previous_key_fingerprint review) ∧
  key_has_fingerprint next_key (tr_next_key_fingerprint review) ∧
  persona_transition_statement_sha256 statement = Ok (tr_transition_statement_sha256 review) ∧
  tr_root_statement_sha256 review = ts_root_statement_sha256 statement ∧
  tr_sequence review = ts_sequence statement ∧
  tr_previous_transition_sha256 review = ts_previous_transition_sha256 statement.
Proof.
  unfold review_transition, review_persona_transition_statement. intros H. unbind H as payload Hp.
  apply seq_Ok in H as [_ H]. apply seq_Ok in H as [_ H]. unbind H as digest Hd.
  apply seq_Ok in H as [_ H]. apply seq_Ok in H as [_ H]. apply seq_Ok in H as [_ H].
  apply seq_Ok in H as [_ H]. unbind H as n1 Hn1. unbind H as n2 Hn2. apply seq_Ok in H as [Hk H].
  injection H as <-. unfold require_key_pair in Hk. unbind Hk as f1 Hf1. apply seq_Ok in Hk as [He1 Hk].
  unbind Hk as f2 Hf2. oks He1. oks Hk. subst. split; [by exists n1|]. split; [by exists n2|].
  split; [|done]. unfold persona_transition_statement_sha256. by rewrite Hp.
Qed.

Lemma transition_prompt_shows request_id review peer signer prompt statement key next_key loc loc' :
  transition_approval_prompt request_id review peer signer = Ok prompt →
  key_has_fingerprint key (tr_previous_key_fingerprint review) →
  key_has_fingerprint next_key (tr_next_key_fingerprint review) →
  persona_transition_statement_sha256 statement = Ok (tr_transition_statement_sha256 review) ∧
    tr_root_statement_sha256 review = ts_root_statement_sha256 statement ∧
    tr_sequence review = ts_sequence statement ∧
    tr_previous_transition_sha256 review = ts_previous_transition_sha256 statement →
  ap_persona_label prompt = pe_label (as_persona signer) ∧
  ap_key_fingerprint prompt = tr_previous_key_fingerprint review ∧
  shows prompt (SignTransition statement loc key loc' next_key).
Proof.
  unfold transition_approval_prompt. intros H Hk1 Hk2 (Hs & Hr & Hq & Hp).
  unbind H as id Hid. unbind H as root Hroot. unbind H as prev Hprev. unbind H as digest Hdigest.
  unbind H as peer' Hpeer. apply map_err_Ok, prompt_built in H as ->.
  apply decode_sha256_hex in Hroot, Hdigest. apply decode_optional_sha256_hex in Hprev.
  split; [done|]. split; [done|]. split; [done|]. eexists. split; [done|].
  unfold transition_sha256_hex, transition_root_sha256_hex, previous_sha256_hex.
  cbn [ta_next_key_fingerprint ta_transition_statement_sha256 ta_root_statement_sha256 ta_sequence
    ta_previous_transition_sha256]. by rewrite Hroot, Hdigest, Hprev.
Qed.

(** What was read again since the approval of a transition. *)
Lemma transition_rechecked since prompt statement signer signer0 id key0 provider reference candidate id'
    snapshot root now sequence previous review :
  ap_persona_label prompt = pe_label (as_persona signer0) → active_signer_eqb signer signer0 = true →
  occurs (ActiveSignerForPersona id) (Some signer) ∈ since →
  occurs (ValidateRoutineRotationCandidate id key0 provider reference) (Some candidate) ∈ since →
  occurs (ContinuitySnapshot id') (Some snapshot) ∈ since →
  verify_persona_root_proof (rpr_proof (lc_root snapshot)) = Ok root →
  occurs SystemTime (Some now) ∈ since →
  review_persona_transition_statement statement (Z.of_N now) root sequence previous
    (kr_public_key (as_key signer)) (rk_public_key candidate) = Ok review →
  rechecked since prompt (SignTransition statement (sf_locator (as_signing_reference signer))
    (kr_public_key (as_key signer)) (sf_locator (rk_signing_reference candidate)) (rk_public_key candidate)).
Proof.
  intros Hl [Hper _]%active_signer_eqb_true Hs Hv Hc Hroot Ht Hr. split_and!.
  - exists id, signer. by rewrite Hper.
  - by exists id, key0, provider, reference, candidate.
  - by exists id', snapshot, root, now, sequence, previous, review.
Qed.

Lemma new_transition_consent h request_uuid request key fingerprint continuity peer ci :
  silent ci →
  guarded consent h
    (process_new_transition request_uuid request key fingerprint continuity peer ci).
Proof.
  intros Hci. unfold process_new_transition.
  quietly as u1 _. quietly as a1 _. quietly as signer0 _. quietly as u2 _. quietly as a2 _.
  quietly as candidate _. quietly as u3 _. quietly as root _. quietly as statement _.
  quietly as now _. quietly as review _. quietly as u4 _. quietly as u5 _.
  quietly as prompt [_ Hprompt]%runs_lift_map_err.
  apply guarded_approval. intros Hc. patiently Hc as u6 _. patiently Hc as a7 Hsnap. answered Hsnap as a7'.
  patiently Hc as continuity' [-> ->]%runs_require. patiently Hc as u7 _. patiently Hc as signer [-> Heq]%runs_same_signer.
  patiently Hc as a8 Hans. answered Hans as a9. patiently Hc as candidate' [-> ->]%runs_require.
  patiently Hc as u9 _. patiently Hc as u10 _. patiently Hc as root' [-> Hroot]%runs_lift_map_err.
  patiently Hc as now' (n & -> & ->)%runs_or_reject%runs_unix_time.
  patiently Hc as review' [-> Hreview]%runs_lift_map_err.
  patiently Hc as u11 [-> Hsame]%runs_reject_when. oks Hsame. subst review'.
  pose proof Hreview as (Hk1 & Hk2 & Hrest)%review_transition_Ok.
  apply guarded_sign.
  - destruct (transition_prompt_shows _ _ _ _ _ statement _ _
      (sf_locator (as_signing_reference signer)) (sf_locator (rk_signing_reference candidate'))
      Hprompt Hk1 Hk2 Hrest) as (Hl & _ & Hs).
    eexists prompt, _. split; [exact Hc|]. split; [exact Hs|].
    eapply transition_rechecked; [exact Hl|exact Heq|member|member|member|exact Hroot|member|exact Hreview].
  - intros keygen proof Hproof. quietly as u12 _. quietly as u13 _. apply guarded_bind.
    + split; [|done]. eexists statement, _, _, _, keygen. split; [|exact Hproof]. member.
    + intros ? ? _. apply guarded_consent_silent. silence.
Qed.

Lemma transition_consent h request_uuid request input peer ci :
  silent ci → guarded consent h (process_persona_transition request_uuid request input peer ci).
Proof.
  intros Hci. unfold process_persona_transition.
  quietly as request' _. quietly as memfd _. quietly as snapshot _. quietly as bs _. quietly as key _.
  quietly as fingerprint _. quietly as answer _. quietly as continuity _. quietly as retry _.
  destruct retry as [[proof review]|]; [apply guarded_consent_silent; silence|].
  by apply new_transition_consent.
Qed.

(** ** Recovery *)

Lemma runs_signing_reference participant t identity :
  runs (validate_signing_reference participant) t (Ok identity) →
  ∃ md, occurs (SymlinkMetadata (si_canonical_path identity)) (inr md) ∈ t ∧
    md_is_symlink md = false ∧ md_is_file md = true ∧ N.land (md_mode md) 0x12 = 0%N.
Proof.
  unfold validate_signing_reference. intros H. went H as t1 f _. went H as t2 u2 _. went H as t3 u3 _.
  went H as t4 a4 _. went H as t5 entry _. went H as t6 u6 _. went H as t7 a7 _. went H as t8 path _.
  went H as t9 a9 H9. answered H9 as answer. went H as t10 md H10. apply runs_or_reject in H10.
  apply runs_lift in H10 as [-> H10]. apply of_sum_Ok in H10 as ->.
  went H as t11 u11 H11. apply runs_reject_when in H11 as [-> H11]. went H as t12 uid _.
  went H as t13 u13 _. went H as t14 u14 H14. apply runs_reject_when in H14 as [-> H14].
  apply runs_lift in H as [-> [= <-]]. oks H11. oks H14. exists md. cbn [si_canonical_path file_identity].
  split; [member|]. done.
Qed.

Lemma review_participant_Ok verified key now review :
  review_recovery_ceremony_participant verified key now = Ok review →
  cw_request_sha256 review = vq_request_sha256 verified ∧
  key_has_fingerprint key (cw_participant_fingerprint review) ∧
  cw_previous_key_fingerprint review = xs_previous_key_fingerprint (vq_statement verified) ∧
  cw_next_key_fingerprint review = xs_next_key_fingerprint (vq_statement verified).
Proof.
  unfold review_recovery_ceremony_participant. intros H. apply seq_Ok in H as [_ H].
  apply seq_Ok in H as [_ H]. unbind H as n Hn. unbind H as f Hf. unbind H as role Hrole.
  unbind H as id Hid. unbind H as e He. injection H as <-. split; [done|]. split; [by exists n|]. done.
Qed.

Lemma participation_prompt_shows uuid review verified verified' key now peer prompt path :
  participation_prompt uuid review verified peer = Ok prompt →
  review_recovery_ceremony_participant verified' key now = Ok review →
  ap_key_fingerprint prompt = cw_participant_fingerprint review ∧
  shows prompt (SignCeremony verified' {| rsn_private_key_path := path; rsn_public_key := key |} now).
Proof.
  intros Hprompt (Hsha & Hkey & Hprev & Hnext)%review_participant_Ok.
  unfold participation_prompt in Hprompt. unbind Hprompt as d1 Hd1. unbind Hprompt as d2 Hd2.
  unbind Hprompt as d3 Hd3. unbind Hprompt as d4 Hd4. unbind Hprompt as peer' Hpeer.
  apply map_err_Ok, prompt_built in Hprompt as ->. apply decode_sha256_hex in Hd1.
  split; [done|]. split; [done|]. eexists. split; [done|]. unfold request_sha256_hex.
  cbn [pa_request_sha256]. by rewrite Hd1.
Qed.

Lemma participation_consent h request_uuid request input peer ci :
  silent ci → guarded consent h (process request_uuid request input peer ci).
Proof.
  intros Hci. unfold process, process_with_clock.
  quietly as participant _. quietly as memfd _. quietly as snapshot _. quietly as bs _.
  quietly as now _. quietly as request' _. quietly as verified _. quietly as review _.
  quietly as u1 _. quietly as identity _. quietly as u2 _.
  quietly as prompt [_ Hprompt]%runs_lift_map_err.
  apply guarded_approval. intros Hc. patiently Hc as u3 _.
  patiently Hc as checked_at (n & -> & ->)%runs_or_reject%runs_unix_time.
  patiently Hc as u4 _. patiently Hc as request'' _. patiently Hc as u5 _.
  patiently Hc as verified' [-> Hver]%runs_lift_map_err. patiently Hc as u6 _.
  patiently Hc as review' [-> Hreview]%runs_lift_map_err.
  patiently Hc as u7 [-> Hsame]%runs_reject_when. oks Hsame. subst review'. patiently Hc as u8 _.
  patiently Hc as identity' Hid%runs_or_reject%runs_signing_reference. patiently Hc as u9 _.
  apply guarded_sign; [|intros keygen proof _; apply guarded_consent_silent; silence].
  eexists prompt, _. split; [exact Hc|].
  split; [by apply (participation_prompt_shows _ _ _ _ _ _ _ _ _ Hprompt Hreview)|]. split.
  - destruct Hid as (md & Hin & Hmd). exists md. split; [member|done].
  - exists n, request'', review. split; [member|done].
Qed.

(** ** A whole connection *)

Lemma answer_rejected_consent h code : guarded consent h (answer_rejected code).
Proof. unfold answer_rejected. by apply guarded_bind. Qed.

Lemma answer_invalid_consent h failure : guarded consent h (answer_invalid failure).
Proof. unfold answer_invalid. case_match; [apply answer_rejected_consent|done]. Qed.

Lemma answer_outcome_consent h outcome : guarded consent h (answer_outcome outcome).
Proof.
  destruct outcome as [id f subject proof|id failure]; cbn [answer_outcome].
  - quietly as interrupted _. destruct interrupted as [failure|].
    + apply guarded_bind; [apply answer_invalid_consent|done].
    + by apply guarded_bind.
  - apply guarded_bind; [apply answer_rejected_consent|done].
Qed.

Lemma inner_consent h received ci :
  silent ci → guarded consent h (process_received_request_inner received ci).
Proof.
  intros Hci. unfold process_received_request_inner. apply guarded_bind; [by split|].
  intros t uuid _. apply guarded_handle; [|by intros t' [| |] _].
  case_match; auto using persona_request_consent, transition_consent, participation_consent.
Qed.

Lemma connection_consent h : guarded consent h handle_connection.
Proof.
  unfold handle_connection. quietly as socket _.
  destruct (receive_sign_request socket) as [received|e|s]; [|by apply guarded_bind|done].
  quietly as interrupted _. destruct interrupted as [failure|].
  - apply guarded_bind; [apply answer_invalid_consent|done].
  - apply guarded_bind; [apply inner_consent, silent_connection_failure|].
    intros ? outcome _. apply answer_outcome_consent.
Qed.


End consent.

