(* ===== verification/Outcomes.v ===== *)
(** * What the daemon hands out

    An approved outcome carries a sealed proof that verifies for the subject
    that was shown; a root or a transition is in the journal by then. Every
    connection gets one answer, and it is the answer of the outcome. *)

From stdpp Require Import base numbers list strings pretty option.
From Stdlib Require Import Strings.Byte Ascii.
From S2P Require Import Prelude Text Ordered Display Crates Io ArtifactProof ArtifactFacts Continuity ContinuityFacts RecoveryPolicy RecoveryChain Ceremony.
From S2P Require Import Names Domain DomainFacts Fields IpcProtocol Transport TransportFacts Approval Interaction StoreTypes Daemon.
From S2P Require Import Service Participation DaemonFacts Consent.

Section outcomes.
Context {crates : Crates} {uuid_bytes : UuidBytes} {uuid_text : UuidText} {idna : Idna}
  {json_statement : Serde ArtifactStatement} {json_bundle : Serde ProofBundle}
  {json_domain : Serde DomainControlStatement}
  {json_root : Serde PersonaRootStatement} {json_root_proof : Serde PersonaRootProof}
  {json_transition : Serde PersonaTransitionStatement}
  {json_transition_proof : Serde PersonaTransitionProof}
  {json_policy : Serde RecoveryPolicyStatement}
  {json_recovery : Serde RecoveryTransitionStatement}
  {json_terminal : Serde TerminalPersonaRevocationStatement}
  {json_request : Serde RecoveryCeremonyRequest} {json_response : Serde RecoveryCeremonyResponse}
  {pretty_bundle : SerdePretty ProofBundle} {pretty_root : SerdePretty PersonaRootProof}
  {pretty_transition : SerdePretty PersonaTransitionProof}.

Abbreviation daemon := (prog Answer).
Abbreviation event := (Event Answer).

(** ** Released proofs *)

(** The anonymous files of a run hold what is written to them. *)
Definition files_hold (e : event) : Prop :=
  match e with
  | existT FreshMemfd m => memfd_ok m
  | _ => True
  end.

(** A proof as it is written for the client. *)
Definition written {T} `{!SerdePretty T} (proof : T) (bs : bytes) : Prop :=
  ∃ text, json_to_vec_pretty proof = inr text ∧ bs = text ++ [x0a].

(** A task that was signed in a run: the signer was started for it right
    after the user had approved a prompt that shows it and names the key of this
    fingerprint, with nothing asked, signed or changed in between, and after the
    checks that are made again since the approval. *)
Definition approved_and_signed (t : list event) (task : SigningTask) (keygen : SshKeygen)
    (fingerprint : string) : Prop :=
  ∃ h after prompt since, t = h ++ occurs (Keygen task) keygen :: after ∧ consented h prompt since ∧
    shows prompt task ∧ rechecked since prompt task ∧ ap_key_fingerprint prompt = fingerprint.

(** The proof of an approved subject, in the history of the run that made it:
    what the signer that was started for the approved task gave back, with what
    the daemon verified of it. A transition that was committed before is handed
    out again without being signed again. *)
Definition released (t : list event) (subject : ApprovedSubject) (fingerprint : string) (bs : bytes) :
    Prop :=
  match subject with
  | ApprovedArtifact descriptor => ∃ locator key persona keygen proof,
      approved_and_signed t (SignDescriptor descriptor locator key persona) keygen fingerprint ∧
      create_sshsig_proof_for_descriptor (keygen:=keygen) descriptor locator key persona = Ok proof ∧
      written proof bs
  | ApprovedDomainControl review => ∃ statement locator key keygen proof now v,
      approved_and_signed t (SignDomain statement locator key) keygen fingerprint ∧
      create_domain_control_proof_for_statement (keygen:=keygen) statement locator key = Ok proof ∧
      occurs SystemTime (Some now) ∈ t ∧
      verify_domain_control_proof proof (Z.of_N now) = Ok v ∧ dv_domain v = dw_domain review ∧
      dv_dns_txt_value v = dw_dns_txt_value review ∧ dv_issued_at v = dw_issued_at review ∧
      dv_expires_at v = dw_expires_at review ∧ vs_key_fingerprint (dv_signer v) = fingerprint ∧
      written proof bs
  | ApprovedPersonaRoot review => ∃ statement locator key keygen id proof root,
      approved_and_signed t (SignRoot statement locator key) keygen fingerprint ∧
      create_persona_root_proof (keygen:=keygen) statement locator key = Ok proof ∧
      occurs (RecordContinuityRoot id proof (rr_root_statement_sha256 review)) true ∈ t ∧
      verify_persona_root_proof proof = Ok root ∧ vpr_statement root = statement ∧
      vpr_root_statement_sha256 root = rr_root_statement_sha256 review ∧
      rs_initial_key_fingerprint statement = fingerprint ∧ written proof bs
  | ApprovedPersonaTransition review => ∃ id snapshot proof v,
      ((∃ statement locator key next_locator next_key keygen provider committed,
          approved_and_signed t (SignTransition statement locator key next_locator next_key) keygen
            fingerprint ∧
          create_routine_transition_proof (keygen:=keygen) statement locator key next_locator next_key =
            Ok proof ∧
          vpt_statement v = statement ∧
          occurs (CommitRoutineTransition id proof provider next_locator) (Some committed) ∈ t) ∨
       (∃ intent metadata, occurs (CommittedRetryMetadata intent) (Some (Some metadata)) ∈ t ∧
          ti_persona_id intent = id ∧ ti_sequence intent = tr_sequence review ∧
          ti_previous_key_fingerprint intent = fingerprint ∧
          ti_next_key_fingerprint intent = tr_next_key_fingerprint review ∧
          rm_persona_id metadata = id ∧
          rm_current_key_fingerprint metadata = tr_next_key_fingerprint review)) ∧
      occurs (ContinuitySnapshot id) (Some snapshot) ∈ t ∧
      list.last (lc_transitions snapshot) = Some (ProofRoutine proof) ∧
      hd_transition_sequence (lc_head snapshot) = tr_sequence review ∧
      verify_persona_transition_proof proof = Ok v ∧
      vpt_transition_statement_sha256 v = tr_transition_statement_sha256 review ∧
      tr_previous_key_fingerprint review = fingerprint ∧ written proof bs
  | ApprovedRecoveryParticipation review => ∃ verified signer checked_at keygen response now v,
      approved_and_signed t (SignCeremony verified signer checked_at) keygen fingerprint ∧
      sign_recovery_ceremony_request (keygen:=keygen) verified signer checked_at = Ok response ∧
      occurs SystemTime (Some now) ∈ t ∧
      verify_recovery_ceremony_response verified response (Z.of_N now) = Ok v ∧
      vq_request_sha256 verified = cw_request_sha256 review ∧
      cw_participant_fingerprint review = fingerprint ∧
      canonical_recovery_ceremony_response_bytes response = Ok bs
  end.

Lemma approved_and_signed_more t t' task keygen fingerprint :
  approved_and_signed t task keygen fingerprint → approved_and_signed (t ++ t') task keygen fingerprint.
Proof.
  intros (h & after & prompt & since & -> & H). exists h, (after ++ t'), prompt, since.
  by rewrite <- app_assoc.
Qed.

Lemma released_more t t' subject fingerprint bs :
  released t subject fingerprint bs → released (t ++ t') subject fingerprint bs.
Proof.
  assert (∀ e, e ∈ t → e ∈ t ++ t') as Hin by (intros; apply elem_of_app; auto).
  pose proof (λ task k f, approved_and_signed_more t t' task k f) as Ha. destruct subject; cbn.
  - intros (l & k & p & g & b & H & H'). exists l, k, p, g, b. auto.
  - intros (st & l & k & g & b & n & v & H & ? & ? & H'). exists st, l, k, g, b, n, v. auto.
  - intros (st & l & k & g & i & b & v & H & ? & ? & H'). exists st, l, k, g, i, b, v. auto.
  - intros (i & s & b & v & H & ? & H'). exists i, s, b, v. split; [|auto].
    destruct H as [(st & l & k & l' & k' & g & p & c & H & ? & ? & ?)|(n & m & ? & ?)]; [left|right].
    + exists st, l, k, l', k', g, p, c. auto.
    + exists n, m. auto.
  - intros (q & s & c & g & b & n & v & H & ? & ? & H'). exists q, s, c, g, b, n, v. auto.
Qed.

(** What the store, the file system or the client had said by the time of an
    approved outcome. *)
Definition sealed_as (sealed : SealedProof) (P : bytes → Prop) : Prop :=
  ∃ bs, read_bytes sealed = Ok bs ∧ P bs.

Lemma runs_sealed_proof proof t sealed :
  runs (sealed_proof proof) t (Ok sealed) → Forall files_hold t →
  sealed_as sealed (λ bs, match proof with
    | Bundle proof => written proof bs
    | SignedPersonaRoot proof => written proof bs
    | SignedPersonaTransition proof => written proof bs
    end).
Proof.
  unfold sealed_proof. intros H Hf. went H as t1 bs H1. apply runs_lift_map_err in H1 as [-> H1].
  went H as t2 memfd H2. answered H2 as m. apply runs_lift_map_err in H as [-> H].
  cbn [app] in Hf. apply Forall_cons_iff in Hf as [Hm _]. exists (bs ++ [x0a]).
  split; [exact (sealed_proof_reads m _ _ Hm H)|]. apply of_sum_Ok in H1. destruct proof; by exists bs.
Qed.

(** ** Going through a run *)

(** [Q] holds of the history and the result of every run that succeeds. *)
Definition reaches {E A} (h : list event) (p : daemon E A) (Q : list event → A → Prop) : Prop :=
  ∀ t a, runs p t (Ok a) → Q (h ++ t) a.

Lemma reaches_bind {E A B} h (p : daemon E A) (f : A → daemon E B) Q :
  (∀ t a, runs p t (Ok a) → reaches (h ++ t) (f a) Q) → reaches h (p ≫= f) Q.
Proof.
  intros Hf t b (t1 & t2 & a & -> & H1 & H2)%runs_bind. rewrite app_assoc. by eapply Hf.
Qed.

Lemma reaches_silent {E A B} h (p : daemon E A) (f : A → daemon E B) Q :
  silent p → (∀ t a, runs p t (Ok a) → Forall quiet t → reaches (h ++ t) (f a) Q) → reaches h (p ≫= f) Q.
Proof. intros Hp Hf. apply reaches_bind. intros t a Hr. apply Hf; [done|]. by eapply silent_runs. Qed.

Lemma reaches_approval {B} h prompt (f : unit → daemon FailureClass B) Q :
  (consented (h ++ [occurs (Decide prompt) (inr Approve)]) prompt [] →
   reaches (h ++ [occurs (Decide prompt) (inr Approve)]) (f tt) Q) →
  reaches h (require_approval prompt ≫= f) Q.
Proof. intros Hf. apply reaches_bind. intros t [] ->%runs_approval. apply Hf. by exists h. Qed.

Lemma reaches_sign {E B} h f0 task (f : signed_by task → daemon E B) Q :
  (∀ keygen proof, sign_with keygen task = Ok proof →
    reaches (h ++ [occurs (Keygen task) keygen]) (f proof) Q) →
  reaches h (map_error f0 (sign task) ≫= f) Q.
Proof.
  intros Hf. apply reaches_bind. intros t proof Hr. apply runs_map_error in Hr. unfold sign in Hr.
  went Hr as t1 keygen H1. answered H1 as x. apply runs_lift in Hr as [-> Hr]. by apply Hf.
Qed.

Lemma reaches_lift {E A} h (r : result E A) Q : (∀ a, r = Ok a → Q h a) → reaches h (lift r) Q.
Proof. intros H t a [-> Hr]%runs_lift. rewrite app_nil_r. by apply H. Qed.

(** [then as a H] goes through a step with result [a]. *)
Tactic Notation "next" "as" simple_intropattern(a) simple_intropattern(H) :=
  apply reaches_bind; intros ? a H.

(** The same after an approval, which keeps [Hc]. *)
Tactic Notation "carefully" hyp(Hc) "as" simple_intropattern(a) simple_intropattern(H) :=
  let Hq := fresh in
  apply reaches_silent; [silence|]; intros ? a H Hq;
  apply (consented_more _ _ _ _ Hc) in Hq; clear Hc; rename Hq into Hc.

Lemma signed_now h prompt since task keygen :
  consented h prompt since → shows prompt task → rechecked since prompt task →
  approved_and_signed (h ++ [occurs (Keygen task) keygen]) task keygen (ap_key_fingerprint prompt).
Proof. intros. by exists h, [], prompt, since. Qed.

(** The outcome of a handler. *)
Definition outcome_released (h : list event) (outcome : DaemonOutcome) : Prop :=
  match outcome with
  | Approved _ fingerprint subject sealed =>
      Forall files_hold h → sealed_as sealed (released h subject fingerprint)
  | Rejected _ _ => True
  end.

(** ** Handlers *)

(** What is known of a prepared request that was signed, before it is recorded. *)
Definition signed_as (t : list event) (proof : SignedProof) (subject : ApprovedSubject)
    (fingerprint : string) : Prop :=
  match proof, subject with
  | Bundle proof, ApprovedArtifact _ | Bundle proof, ApprovedDomainControl _ =>
      ∀ bs, written proof bs → released t subject fingerprint bs
  | SignedPersonaRoot proof, ApprovedPersonaRoot review =>
      ∀ t' id bs, occurs (RecordContinuityRoot id proof (rr_root_statement_sha256 review)) true ∈ t ++ t' →
        written proof bs → released (t ++ t') subject fingerprint bs
  | _, _ => False
  end.

Lemma signed_request h prompt since id signer prepared request_id peer signer0 :
  consented h prompt since → occurs (ActiveSignerForPersona id) (Some signer) ∈ since →
  approval_prompt request_id prepared peer signer0 = Ok prompt →
  prepared_for signer0 prepared → active_signer_eqb signer signer0 = true →
  reaches h (sign_prepared_request prepared signer)
    (λ t '(proof, subject), signed_as t proof subject (kr_fingerprint (as_key signer))).
Proof.
  intros Hc Hin Hprompt Hfor Heq.
  destruct (prompt_of_same _ _ _ _ _ _ Hprompt Hfor Heq) as (Hl & Hk & Hs). clear Hprompt Hfor Heq.
  rewrite <- Hk. destruct prepared as [descriptor kind label|statement review|statement review];
    cbn [sign_prepared_request].
  - apply reaches_sign. intros keygen proof Hproof. apply reaches_lift. intros ? [= <-]. intros bs Hw.
    eexists _, _, _, keygen, proof. split; [|done]. eapply signed_now; [exact Hc|apply Hs|].
    by exists id, signer.
  - apply reaches_sign. intros keygen proof Hproof.
    next as now (n & -> & ->)%runs_or_reject%runs_unix_time. next as v [-> Hv]%runs_lift_map_err.
    next as u [-> Hu]%runs_reject_when. oks Hu. apply reaches_lift. intros ? [= <-]. intros bs Hw.
    eexists statement, _, _, keygen, proof, n, v. split.
    { do 3 apply approved_and_signed_more. eapply signed_now; [exact Hc|apply Hs|].
      by exists id, signer. }
    split; [done|]. split; [member|]. by rewrite Hk.
  - carefully Hc as now (n & -> & ->)%runs_or_reject%runs_unix_time.
    carefully Hc as review' [-> Hreview]%runs_lift_map_err. carefully Hc as u _.
    apply reaches_sign. intros keygen proof Hproof.
    next as v [-> Hv]%runs_lift_map_err. next as u' [-> Hu]%runs_reject_when. oks Hu.
    apply reaches_lift. intros ? [= <-]. intros t' id' bs Hrec Hw.
    eexists statement, _, _, keygen, id', proof, v. split.
    { do 3 apply approved_and_signed_more.
      eapply signed_now; [exact Hc|apply Hs|]. split.
      - exists id, signer. split; [member|done].
      - exists n, review'. split; [member|]. by rewrite Hl. }
    split; [done|]. split; [done|]. split; [done|]. rewrite Hk. split_and!; [done..|congruence|done].
Qed.

Lemma runs_record ci id proof subject t u root_proof review :
  runs (record_signed_root ci id proof subject) t (Ok u) →
  proof = SignedPersonaRoot root_proof → subject = ApprovedPersonaRoot review →
  occurs (RecordContinuityRoot id root_proof (rr_root_statement_sha256 review)) true ∈ t.
Proof.
  intros H -> ->. cbn [record_signed_root] in H. went H as t1 u1 H1. went H as t2 b H2.
  answered H2 as ok. apply runs_reject_when in H as [-> H]. apply negb_false_iff in H. subst. member.
Qed.

Lemma persona_outcome h uuid request input peer ci : silent ci →
  reaches h (process_persona_request uuid request input peer ci) outcome_released.
Proof.
  intros Hci. unfold process_persona_request.
  next as persona_id _. next as answer _. next as signer0 _. next as maximum _. next as memfd _.
  next as snapshot _. next as prepared Hfor%runs_prepare. next as u8 _.
  next as prompt [_ Hprompt]%runs_lift_map_err. apply reaches_approval. intros Hc. carefully Hc as u11 _.
  carefully Hc as signer [-> Heq]%runs_same_signer.
  next as [proof subject] Hsig. eapply signed_request in Hsig; [|exact Hc|member|exact Hprompt|done..].
  next as s14 _. next as u15 H15. next as sealed H16%runs_or_reject.
  apply reaches_lift. intros ? [= <-] Hf. rewrite Forall_app in Hf.
  apply runs_sealed_proof in H16 as (bs & Hbs & Hw); [|tauto]. exists bs. split; [done|].
  destruct proof as [p|p|p], subject as [d|r|r|r|r]; try done; cbn in Hsig.
  - do 3 apply released_more. by apply Hsig.
  - do 3 apply released_more. by apply Hsig.
  - pose proof (runs_record _ _ _ _ _ _ _ _ H15 eq_refl eq_refl) as Hin.
    apply released_more. rewrite <- app_assoc. apply (Hsig _ persona_id); [member|done].
Qed.

Lemma verified_new proof statement review previous t u :
  runs (verify_new_transition proof statement review previous) t (Ok u) →
  ∃ v, verify_persona_transition_proof proof = Ok v ∧ vpt_statement v = statement ∧
    vpt_transition_statement_sha256 v = tr_transition_statement_sha256 review.
Proof.
  unfold verify_new_transition. intros H. went H as t1 v H1. apply runs_lift_map_err in H1 as [-> H1].
  went H as t2 u2 H2. apply runs_lift in H2 as [-> H2]. destruct u2. oks H2. by exists v.
Qed.

Lemma new_transition_outcome h uuid request key fp continuity peer ci : silent ci →
  reaches h (process_new_transition uuid request key fp continuity peer ci) outcome_released.
Proof.
  intros Hci. unfold process_new_transition.
  next as u1 _. next as a1 _. next as signer0 _. next as u2 _. next as a2 _. next as candidate _.
  next as u3 _. next as root _. next as statement _. next as now _. next as review _. next as u4 _.
  next as u5 _. next as prompt [_ Hprompt]%runs_lift_map_err.
  apply reaches_approval. intros Hc. carefully Hc as u6 _. carefully Hc as a7 Hsnap. answered Hsnap as a7'.
  carefully Hc as continuity' [-> ->]%runs_require. carefully Hc as u7 _.
  carefully Hc as signer [-> Heq]%runs_same_signer. carefully Hc as a8 Hans. answered Hans as a9.
  carefully Hc as candidate' [-> ->]%runs_require. carefully Hc as u9 _. carefully Hc as u10 _.
  carefully Hc as root' [-> Hroot]%runs_lift_map_err.
  carefully Hc as now' (n & -> & ->)%runs_or_reject%runs_unix_time.
  carefully Hc as review' [-> Hreview]%runs_lift_map_err.
  carefully Hc as u11 [-> Hsame]%runs_reject_when. oks Hsame. subst review'.
  pose proof Hreview as (Hk1 & Hk2 & Hrest)%review_transition_Ok.
  destruct (transition_prompt_shows _ _ _ _ _ statement _ _ (sf_locator (as_signing_reference signer))
    (sf_locator (rk_signing_reference candidate')) Hprompt Hk1 Hk2 Hrest) as (Hl & Hfp & Hs).
  apply reaches_sign. intros keygen proof Hproof.
  eapply (signed_now _ _ _ _ keygen) in Hc; [|exact Hs|eapply transition_rechecked;
    [exact Hl|exact Heq|member|member|member|exact Hroot|member|exact Hreview]].
  rewrite Hfp in Hc. clear Hprompt Hs Hl Hk1 Hk2 Hrest.
  next as u12 (v & Hv & Hst & Hsha)%runs_or_reject%verified_new. next as u13 _.
  next as a14 H14. answered H14 as a14'. next as committed [-> ->]%runs_require.
  next as u15 [-> H15]%runs_reject_when. oks H15.
  next as a16 H16. answered H16 as a16'. next as persisted [-> ->]%runs_require.
  next as u17 [-> H17]%runs_reject_when. next as sealed H18%runs_or_reject.
  apply reaches_lift. intros ? [= <-] Hf. rewrite Forall_app in Hf.
  apply runs_sealed_proof in H18 as (bs & Hbs & Hw); [|tauto]. exists bs. split; [done|].
  unfold persisted_matches in H17. oks H17.
  exists (tq_persona_id request), persisted, (ct_proof committed), v. split.
  { left. eexists statement, _, _, _, _, keygen, _, committed. split; [by do 9 apply approved_and_signed_more|].
    split; [rewrite H15; exact Hproof|]. split; [done|]. rewrite H15. member. }
  split; [member|]. split_and!; try done. by rewrite H15.
Qed.

Lemma runs_retry snapshot request key fp t proof review :
  runs (exact_transition_retry snapshot request key fp) t (Ok (Some (proof, review))) →
  list.last (lc_transitions snapshot) = Some (ProofRoutine proof) ∧
  hd_transition_sequence (lc_head snapshot) = tr_sequence review ∧
  (∃ v, verify_persona_transition_proof proof = Ok v ∧
    vpt_transition_statement_sha256 v = tr_transition_statement_sha256 review) ∧
  ∃ intent metadata, occurs (CommittedRetryMetadata intent) (Some (Some metadata)) ∈ t ∧
    ti_persona_id intent = tq_persona_id request ∧ ti_sequence intent = tr_sequence review ∧
    ti_previous_key_fingerprint intent = tr_previous_key_fingerprint review ∧
    ti_next_key_fingerprint intent = tr_next_key_fingerprint review ∧
    rm_persona_id metadata = tq_persona_id request ∧
    rm_current_key_fingerprint metadata = tr_next_key_fingerprint review.
Proof.
  unfold exact_transition_retry. case_bool_decide as Hseq; cbn [negb]; [|by intros [_ ?]%runs_lift].
  destruct (list.last (lc_transitions snapshot)) as [[p| |]|]; try by intros [_ ?]%runs_lift.
  unfold retry_of_proof. intros H. went H as t1 v H1. apply runs_lift_map_err in H1 as [-> H1].
  match type of H with context [if ?b then _ else _] => destruct b eqn:Hb end;
    [by apply runs_lift in H as [_ H]|].
  went H as t2 a2 H2. answered H2 as a2'. went H as t3 a3 H3. apply runs_require in H3 as [-> ->].
  went H as t4 md H4. apply runs_require in H4 as [-> ->]. went H as t5 lm _.
  match type of H with context [if ?b then _ else _] => destruct b eqn:Hm end;
    apply runs_lift in H as [_ H]; [done|]. injection H as -> <-. oks Hb. oks Hm.
  split; [done|]. split; [cbn; congruence|]. split; [by exists v|].
  eexists _, md. split; [member|]. by split_and!.
Qed.

Lemma transition_outcome h uuid request input peer ci : silent ci →
  reaches h (process_persona_transition uuid request input peer ci) outcome_released.
Proof.
  intros Hci. unfold process_persona_transition.
  next as request' _. next as memfd _. next as snapshot _. next as bs0 _. next as key _. next as fp _.
  next as a7 H7. answered H7 as a7'. next as continuity [-> ->]%runs_require. next as retry H9.
  destruct retry as [[proof review]|]; [|by apply new_transition_outcome].
  apply runs_retry in H9 as (Hlast & Hseq & (v & Hv & Hsha) & intent & metadata & Hin & Hm).
  next as u10 _. next as sealed H11%runs_or_reject. apply reaches_lift. intros ? [= <-] Hf.
  rewrite Forall_app in Hf. apply runs_sealed_proof in H11 as (bs & Hbs & Hw); [|tauto].
  exists bs. split; [done|]. exists (tq_persona_id request'), continuity, proof, v.
  split; [right; exists intent, metadata; split; [member|done]|]. split; [member|]. done.
Qed.

Lemma participation_outcome h uuid request input peer ci : silent ci →
  reaches h (process uuid request input peer ci) outcome_released.
Proof.
  intros Hci. unfold process, process_with_clock.
  next as participant _. next as memfd _. next as snapshot _. next as bs0 _. next as now _.
  next as request' _. next as verified _. next as review _. next as u1 _. next as identity _. next as u2 _.
  next as prompt [_ Hprompt]%runs_lift_map_err.
  apply reaches_approval. intros Hc. carefully Hc as u3 _.
  carefully Hc as checked_at (n & -> & ->)%runs_or_reject%runs_unix_time.
  carefully Hc as u4 _. carefully Hc as request'' _. carefully Hc as u5 _.
  carefully Hc as verified' [-> Hver]%runs_lift_map_err. carefully Hc as u6 _.
  carefully Hc as review' [-> Hreview]%runs_lift_map_err.
  carefully Hc as u7 [-> Hsame]%runs_reject_when. oks Hsame. subst review'. carefully Hc as u8 _.
  carefully Hc as identity' Hid%runs_or_reject%runs_signing_reference. carefully Hc as u9 _.
  apply reaches_sign. intros keygen response Hresponse.
  destruct (participation_prompt_shows _ _ _ _ _ _ _ _ (si_canonical_path identity') Hprompt Hreview) as [Hfp Hs].
  eapply (signed_now _ _ _ _ keygen) in Hc; [|exact Hs|].
  2: { split; [destruct Hid as (md & Hin & Hmd); exists md; split; [member|done]|].
       exists n, request'', review. split; [member|done]. }
  rewrite Hfp in Hc. next as u10 _. next as completed (m & -> & ->)%runs_or_reject%runs_unix_time.
  next as v [-> Hv]%runs_lift_map_err. next as bs [-> Hbs]%runs_lift_map_err.
  next as memfd' Hmem. answered Hmem as memfd''. next as sealed [-> Hsealed]%runs_lift_map_err.
  apply reaches_lift. intros ? [= <-] Hf. exists bs. split.
  - apply (sealed_proof_reads memfd'' bs sealed); [|done]. rewrite list.Forall_forall in Hf.
    apply (Hf (occurs FreshMemfd memfd'')). member.
  - eexists verified', _, _, keygen, response, m, v. split; [by do 6 apply approved_and_signed_more|].
    split; [exact Hresponse|]. split; [member|]. split; [done|]. split; [|done].
    by apply review_participant_Ok in Hreview as [-> _].
Qed.

Lemma inner_outcome h received ci : silent ci →
  reaches h (process_received_request_inner received ci) outcome_released.
Proof.
  intros Hci. unfold process_received_request_inner, rejecting. next as uuid _.
  intros t' outcome (t2 & t3 & r & -> & Hr & H)%runs_handle.
  destruct r as [o|f|s]; destruct H as [-> H]; [|by injection H as ->|done].
  injection H as ->. rewrite app_nil_r. revert Hr.
  destruct (sr_subject (rq_request received));
    [apply persona_outcome|apply persona_outcome|apply persona_outcome|
     apply transition_outcome|apply participation_outcome]; done.
Qed.

(** Sending is the last thing a connection does. *)
Lemma runs_answer_approved outcome t id fingerprint subject sealed :
  runs (answer_outcome outcome) t (Ok (Approved id fingerprint subject sealed)) →
  outcome = Approved id fingerprint subject sealed ∧
  ∃ t' socket, t = t' ++ [occurs (Connection (SendingApproved sealed)) socket] ∧
    send_sign_approved socket sealed = Ok tt.
Proof.
  destruct outcome as [id' f' s' p'|id' failure]; cbn [answer_outcome]; intros H.
  - went H as t1 interrupted _. destruct interrupted as [failure|].
    + went H as t2 u _. by apply runs_lift in H as [_ ?].
    + went H as t2 socket0 H2. answered H2 as socket. destruct H as [-> H].
      destruct (send_sign_approved socket p') as [[]| |] eqn:E; [|done|done].
      injection H as <- <- <- <-. split; [done|]. exists t1, socket. split; [|done].
      by rewrite app_nil_r.
  - went H as t1 u _. by apply runs_lift in H as [_ ?].
Qed.

(** C6: an approved request gets the proof that was made for it. Assume that
    anonymous files keep what is written to them. When a connection ends approved,
    the last thing the daemon did was to send the sealed file successfully, and the
    file reads back as the written form of the proof. That proof is what the signer
    gave back when it was started for a task of the approved subject, right after
    the user had approved a prompt that shows this task and names the key whose
    fingerprint the outcome reports, with the private key, the public key and the
    persona of the signer that the store named again since the approval, or the
    private key file of the recovery participant that was looked at again. What is
    verified of a proof for a domain, a root, a transition or a ceremony agrees with
    the review that was approved, and a root or a transition is in the store's
    journal by then. Only a transition that had been committed before is handed out
    again without an approval, as the store has it. *)
Theorem approved_outcome_is_released t id fingerprint subject sealed :
  runs handle_connection t (Ok (Approved id fingerprint subject sealed)) →
  Forall files_hold t →
  sealed_as sealed (released t subject fingerprint) ∧
  ∃ t' socket, t = t' ++ [occurs (Connection (SendingApproved sealed)) socket] ∧
    send_sign_approved socket sealed = Ok tt.
Proof.
  unfold handle_connection. intros H Hf. went H as t1 s0 H1. answered H1 as socket.
  destruct (receive_sign_request socket) as [received|e|s].
  - went H as t2 interrupted _. destruct interrupted as [failure|].
    { went H as t3 u _. by apply runs_lift in H as [_ ?]. }
    went H as t3 outcome H3. apply runs_answer_approved in H as (-> & t4 & s & -> & Hs).
    apply (inner_outcome ([occurs (Connection Receiving) socket] ++ t2)) in H3;
      [|apply silent_connection_failure]. rewrite !app_assoc in Hf |- *. rewrite !Forall_app in Hf. split.
    + destruct H3 as (bs & Hbs & Hrel); [rewrite !Forall_app; tauto|]. exists bs. split; [done|].
      by do 2 apply released_more.
    + eexists _, s. by split.
  - went H as t2 u _. by apply runs_lift in H as [_ ?].
  - by apply runs_lift in H as [_ ?].
Qed.

End outcomes.
