(* ===== verification/Answers.v ===== *)
(** * Every connection is answered

    Whatever the client sends and whatever the store, the user, the file system
    and the signer answer, a connection of the daemon ends in an outcome, and
    the client got exactly the one answer of that outcome, unless it was gone. *)

From stdpp Require Import base numbers list strings pretty option.
From Stdlib Require Import Strings.Byte Ascii.
From S2P Require Import Prelude Text Ordered Display Crates Io ArtifactProof ArtifactFacts Continuity ContinuityFacts RecoveryPolicy RecoveryChain Ceremony.
From S2P Require Import Names Domain DomainFacts Fields IpcProtocol Transport TransportFacts Approval ApprovalSafety CoreTotal Interaction.
From S2P Require Import StoreTypes Daemon Service Participation DaemonFacts Consent.

(** ** Calm programs *)

Section calm.
Context {uuid_bytes : UuidBytes}.

Abbreviation daemon := (prog Answer).
Abbreviation event := (Event Answer).

(** What the daemon relies on: anonymous files keep their bytes, and the clock
    by which a signer is awaited advances. *)
Definition event_ok (e : event) : Prop :=
  match e with
  | existT FreshMemfd m => memfd_ok m
  | existT (Keygen _) k => @ClockOk k
  | _ => True
  end.

(** A program that does not panic in such surroundings. *)
Definition calm {E A} (p : daemon E A) : Prop :=
  ∀ t r, runs p t r → Forall event_ok t → no_panic r.

Lemma calm_ret {E A} (r : result E A) : no_panic r → calm (Ret r).
Proof. by intros H t r' [_ ->] _. Qed.

Lemma calm_lift {E A} (r : result E A) : no_panic r → calm (lift r).
Proof. apply calm_ret. Qed.

Lemma calm_call {E} c : calm (call (E:=E) c).
Proof. intros t r H _. by apply (runs_call Answer c) in H as (x & _ & ->). Qed.

Lemma calm_handle {E F A B} (f : result E A → daemon F B) (p : daemon E A) :
  calm p → (∀ t r, runs p t r → Forall event_ok t → no_panic r → calm (f r)) → calm (handle f p).
Proof.
  intros Hp Hf t r (t1 & t2 & r1 & -> & H1 & H2)%runs_handle [Ht1 Ht2]%Forall_app.
  apply (Hf t1 r1 H1 Ht1 (Hp _ _ H1 Ht1) t2); done.
Qed.

Lemma calm_after {E A B} (p : daemon E A) (f : A → daemon E B) :
  calm p → (∀ t a, runs p t (Ok a) → Forall event_ok t → calm (f a)) → calm (p ≫= f).
Proof.
  intros Hp Hf. apply calm_handle; [done|]. intros t [a|e|s] Hr Ht Hn; [by eapply Hf|by apply calm_ret|done].
Qed.

Lemma calm_bind {E A B} (p : daemon E A) (f : A → daemon E B) :
  calm p → (∀ a, calm (f a)) → calm (p ≫= f).
Proof. intros Hp Hf. apply calm_after; [done|]. intros t a _ _. apply Hf. Qed.

Lemma calm_map_error {E F A} (f : E → F) (p : daemon E A) : calm p → calm (map_error f p).
Proof. intros H. apply calm_handle; [done|]. intros t r _ _ Hn. by apply calm_ret, no_panic_map_err. Qed.

Lemma calm_or_reject {E A} failure (p : daemon E A) : calm p → calm (or_reject failure p).
Proof. apply calm_map_error. Qed.
Lemma calm_require {A} (o : option A) failure : calm (require o failure).
Proof. apply calm_lift, no_panic_ok_or. Qed.
Lemma calm_reject_when b failure : calm (reject_when b failure).
Proof. apply calm_lift, no_panic_reject_if. Qed.
End calm.

Create HintDb calm.
#[export] Hint Resolve calm_require calm_reject_when : calm.
#[export] Hint Extern 1 (calm (call ?c)) => exact (calm_call c) : calm.

(** [calmly] walks a program; what is left are its results. *)
Ltac calmly :=
  repeat first
    [ solve [auto 2 with calm nocore]
    | apply calm_bind
    | apply calm_or_reject
    | apply calm_map_error
    | apply calm_lift; solve [no_panics]
    | apply calm_ret; solve [no_panics]
    | progress intros
    | progress case_match
    | progress cbn beta iota zeta ].

Section answers.
Context {crates : Crates} {uuid_bytes : UuidBytes} {uuid_text : UuidText} {idna : Idna}
  {json_statement : Serde ArtifactStatement} {json_bundle : Serde ProofBundle}
  {json_domain : Serde DomainControlStatement}
  {json_root : Serde PersonaRootStatement} {json_root_proof : Serde PersonaRootProof}
  {json_transition : Serde PersonaTransitionStatement}
  {json_transition_proof : Serde PersonaTransitionProof}
  {json_policy : Serde RecoveryPolicyStatement}
  {json_recovery : Serde RecoveryTransitionStatement}
  {json_terminal : Serde TerminalPersonaRevocationStatement}
  {json_request : Serde RecoveryCeremonyRequest} {json_response : Serde RecoveryCeremonyResponse}
  {pretty_bundle : SerdePretty ProofBundle} {pretty_root : SerdePretty PersonaRootProof}
  {pretty_transition : SerdePretty PersonaTransitionProof}.

Abbreviation daemon := (prog Answer).
Abbreviation event := (Event Answer).

(** ** No handler panics *)

Lemma decode_sha256_no_panic value : no_panic (decode_sha256 value).
Proof.
  unfold decode_sha256. apply no_panic_bind; [no_panics|]. intros _ _.
  generalize (as_bytes value). fix IH 1. intros [|b0 [|b1 bs]]; [done|done|]. cbn [decode_pairs].
  apply no_panic_bind; [no_panics|]. intros high _. apply no_panic_bind; [no_panics|]. intros low _.
  apply no_panic_bind; [apply IH|]. done.
Qed.

Lemma decode_optional_no_panic value : no_panic (decode_optional_sha256 value).
Proof.
  destruct value; [|done]. cbn. apply no_panic_bind; [apply decode_sha256_no_panic|done].
Qed.

Hint Resolve decode_sha256_no_panic decode_optional_no_panic new_with_subject_no_panic
  snapshot_no_panic seal_no_panic review_domain_bytes_no_panic review_root_bytes_no_panic
  verify_domain_no_panic review_root_no_panic verify_persona_root_proof_no_panic
  verify_persona_transition_proof_no_panic new_transition_statement_no_panic
  review_transition_no_panic verify_chain_no_panic verify_mixed_chain_no_panic
  public_key_fingerprint_no_panic parse_request_no_panic verify_request_no_panic
  verify_response_no_panic canonical_response_no_panic : panics.

Lemma approval_prompt_no_panic id prepared peer signer :
  no_panic (approval_prompt id prepared peer signer).
Proof.
  unfold approval_prompt, peer_identity, ApprovalPrompt_new, new_domain, new_persona_root. no_panics.
Qed.
Lemma transition_prompt_no_panic id review peer signer :
  no_panic (transition_approval_prompt id review peer signer).
Proof. unfold transition_approval_prompt, peer_identity, new_persona_transition. no_panics. Qed.
Lemma participation_prompt_no_panic id review verified peer :
  no_panic (participation_prompt id review verified peer).
Proof. unfold participation_prompt, peer_identity, new_recovery_participation. no_panics. Qed.
Hint Resolve approval_prompt_no_panic transition_prompt_no_panic participation_prompt_no_panic : panics.

Lemma calm_unix_time : calm current_unix_time.
Proof.
  unfold current_unix_time. calmly.
Qed.
Lemma calm_connection_failure : calm connection_failure.
Proof.
  unfold connection_failure. apply calm_bind; [calmly|]. intros socket. apply calm_ret.
  unfold connection_state. no_panics; congruence.
Qed.
Lemma calm_unless ci : calm ci → calm (unless_interrupted ci).
Proof. intros H. unfold unless_interrupted. calmly. Qed.
Lemma calm_approval prompt : calm (require_approval prompt).
Proof. unfold require_approval. calmly. Qed.
Lemma calm_sealed_proof proof : calm (sealed_proof proof).
Proof. unfold sealed_proof. calmly. Qed.
Lemma calm_same_signer id signer : calm (same_active_signer id signer).
Proof. unfold same_active_signer. calmly. Qed.
Hint Resolve calm_unix_time calm_connection_failure calm_unless calm_approval calm_sealed_proof
  calm_same_signer : calm.

(** Signing needs the clock of its own call. *)
Lemma calm_sign task :
  match task with SignCeremony verified _ _ => ceremony_complete verified | _ => True end →
  calm (sign task).
Proof.
  intros Hok t r Hr Ht. unfold sign in Hr.
  apply runs_handle in Hr as (t1 & t2 & r1 & -> & H1 & H2).
  apply (runs_call Answer (Keygen task)) in H1 as (keygen & -> & ->).
  cbn [app] in Ht. apply Forall_cons_iff in Ht as [Hk _]. destruct H2 as [_ ->].
  cbn in Hk. destruct task; cbn [sign_with].
  - by apply create_artifact_no_panic.
  - by apply create_domain_no_panic.
  - by apply create_root_no_panic.
  - by apply create_transition_no_panic.
  - by apply sign_ceremony_no_panic.
Qed.

Hint Extern 1 (calm (sign ?task)) => exact (calm_sign task I) : calm.

Lemma calm_sign_prepared prepared signer : calm (sign_prepared_request prepared signer).
Proof. destruct prepared; cbn [sign_prepared_request]; calmly. Qed.
Hint Resolve calm_sign_prepared : calm.

Lemma calm_record ci id proof subject : calm ci → calm (record_signed_root ci id proof subject).
Proof. intros H. unfold record_signed_root. calmly. Qed.
Lemma calm_locator path stored : calm (retry_locator_matches path stored).
Proof. unfold retry_locator_matches. calmly. Qed.
Hint Resolve calm_record calm_locator : calm.
Lemma calm_retry snapshot request key fp : calm (exact_transition_retry snapshot request key fp).
Proof. unfold exact_transition_retry, retry_of_proof. calmly. Qed.
Lemma calm_verify_new proof statement review previous :
  calm (verify_new_transition proof statement review previous).
Proof.
  assert (∀ chain, no_panic (collect_result require_routine chain)).
  { intros. apply no_panic_collect_result. by intros []. }
  unfold verify_new_transition, extended_chain. calmly.
Qed.
Lemma calm_signing_reference participant : calm (validate_signing_reference participant).
Proof. unfold validate_signing_reference. calmly. Qed.
Hint Resolve calm_retry calm_verify_new calm_signing_reference : calm.

(** The first steps of a handler that reads its input: the snapshot is in a
    file of this run, so reading it does not panic. *)
Lemma calm_snapshot {A} input maximum failure (f : SealedArtifact → daemon FailureClass A) :
  (∀ snapshot, no_panic (read_bytes_bounded snapshot maximum) → calm (f snapshot)) →
  calm (memfd ← call FreshMemfd;
        snapshot ← lift (map_err (λ _, failure) (snapshot_artifact memfd input maximum));
        f snapshot).
Proof.
  intros Hf. apply calm_after; [calmly|]. intros t memfd Hr Ht. answered Hr as m.
  apply Forall_cons_iff in Ht as [Hm _]. cbn in Hm. apply calm_after; [calmly|].
  intros t snapshot Hr _. apply runs_lift_map_err in Hr as [-> Hr]. apply Hf.
  by eapply snapshot_readable.
Qed.

Lemma calm_prepare request snapshot signer maximum :
  maximum_input (sr_subject request) = Ok maximum → no_panic (read_bytes_bounded snapshot maximum) →
  calm (prepare_request request snapshot signer).
Proof.
  intros Hm Hread. unfold prepare_request. destruct (sr_subject request); try discriminate Hm;
    injection Hm as <-; calmly.
Qed.

Lemma calm_persona uuid request input peer ci :
  calm ci → no_panic (maximum_input (sr_subject request)) →
  calm (process_persona_request uuid request input peer ci).
Proof.
  intros Hci Hn. unfold process_persona_request. do 3 (apply calm_bind; [calmly|intros ?]).
  apply calm_after; [by apply calm_lift|]. intros t maximum Hr _. apply runs_lift in Hr as [-> Hr].
  apply calm_snapshot. intros snapshot Hread.
  apply calm_bind; [by eapply calm_prepare|]. intros prepared. calmly.
Qed.

Lemma calm_new_transition uuid request key fp continuity peer ci :
  calm ci → calm (process_new_transition uuid request key fp continuity peer ci).
Proof. intros Hci. unfold process_new_transition, review_transition. calmly. Qed.

Lemma calm_transition uuid request input peer ci :
  calm ci → calm (process_persona_transition uuid request input peer ci).
Proof.
  intros Hci. pose proof (λ u q k f c p, calm_new_transition u q k f c p ci Hci).
  unfold process_persona_transition. apply calm_bind; [unfold transition_request; calmly|].
  intros request'. apply calm_snapshot. intros snapshot Hread. unfold next_public_key_text. calmly.
Qed.

Lemma calm_participation uuid request input peer ci :
  calm ci → calm (process uuid request input peer ci).
Proof.
  intros Hci. unfold process, process_with_clock.
  apply calm_bind; [unfold participant_request; calmly|]. intros participant.
  apply calm_snapshot. intros snapshot Hread. do 3 (apply calm_bind; [calmly|intros ?]).
  apply calm_after; [calmly|]. intros t verified Hv _. apply runs_lift_map_err in Hv as [_ Hv].
  pose proof (verified_request_complete _ _ _ Hv) as Hc. clear t Hv.
  pose proof (λ key t, review_participant_no_panic verified key t Hc).
  do 11 (apply calm_bind; [calmly|intros ?]).
  apply calm_after; [calmly|]. intros t verified' Hv _. apply runs_lift_map_err in Hv as [_ Hv].
  pose proof (verified_request_complete _ _ _ Hv) as Hc'. clear t Hv.
  pose proof (λ key t, review_participant_no_panic verified' key t Hc').
  do 6 (apply calm_bind; [calmly|intros ?]).
  apply calm_bind; [apply calm_or_reject, (calm_sign (SignCeremony _ _ _)), Hc'|]. intros response. calmly.
Qed.

Lemma calm_inner received ci : calm ci → calm (process_received_request_inner received ci).
Proof.
  intros Hci. unfold process_received_request_inner, rejecting. apply calm_bind; [calmly|].
  intros uuid. apply calm_handle; [|by intros t [o|f|s] _ _ Hn; [apply calm_ret..|]].
  destruct (sr_subject (rq_request received)) eqn:E;
    auto using calm_transition, calm_participation; apply calm_persona; rewrite ?E; done.
Qed.

(** ** The answer of a connection *)

Definition response (e : event) : option (ConnectionUse * Socket) :=
  match e with
  | existT (Connection (SendingApproved proof)) socket => Some (SendingApproved proof, socket)
  | existT (Connection (SendingRejected code)) socket => Some (SendingRejected code, socket)
  | _ => None
  end.

(** What was sent to the client, in order. *)
Definition responses (t : list event) : list (ConnectionUse * Socket) := omap response t.

Definition unsent (c : Call) : Prop :=
  match c with
  | Connection (SendingApproved _) | Connection (SendingRejected _) => False
  | _ => True
  end.

(** A look at the connection found it closed or broken. *)
Definition client_gone (t : list event) : Prop :=
  ∃ socket, occurs (Connection Peeking) socket ∈ t ∧
    connection_state socket ≠ Ok Waiting ∧ connection_state socket ≠ Ok ExtraData.

(** The answer that belongs to an outcome. *)
Definition answered_with (t : list event) (outcome : DaemonOutcome) : Prop :=
  match outcome with
  | Approved _ _ _ proof => ∃ socket,
      responses t = [(SendingApproved proof, socket)] ∧ send_sign_approved socket proof = Ok tt
  | Rejected _ ClientCancelled =>
      (∃ socket, responses t = [(SendingRejected Cancelled, socket)]) ∨
      (responses t = [] ∧ client_gone t) ∨
      (∃ proof socket e, responses t = [(SendingApproved proof, socket)] ∧
        send_sign_approved socket proof = Err e)
  | Rejected _ failure => ∃ socket,
      responses t = [(SendingRejected (rejection_code failure), socket)]
  end.

Lemma responses_app t t' : responses (t ++ t') = responses t ++ responses t'.
Proof. apply list.omap_app. Qed.

Lemma unsent_responses {E A} (p : daemon E A) t r : only unsent p → runs p t r → responses t = [].
Proof.
  intros Hp Hr. apply (only_runs unsent p t r Hp) in Hr. clear Hp.
  induction Hr as [|[c x] t Hc _ IH]; [done|]. unfold responses. cbn [omap list_omap].
  destruct c as [[]| | | | | | | | | | | | | |]; done.
Qed.

Lemma unsent_silent {E A} (p : daemon E A) : silent p → only unsent p.
Proof. apply only_mono. by intros [[]| | | | | | | | | | | | | |]. Qed.

Lemma unsent_sign task : only unsent (sign task).
Proof. apply only_bind; [by apply (only_call unsent (Keygen task))|done]. Qed.

(** [unsending] walks a handler that sends nothing. *)
Ltac unsending :=
  repeat first
    [ solve [apply unsent_silent; silence]
    | match goal with
      | |- only unsent (call ?c) => exact (only_call unsent c I)
      | |- only unsent (sign ?task) => exact (unsent_sign task)
      end
    | apply only_bind
    | apply only_map_error
    | progress intros
    | progress case_match
    | progress cbn beta iota zeta ].

Lemma persona_unsent uuid request input peer ci :
  silent ci → only unsent (process_persona_request uuid request input peer ci).
Proof.
  intros Hci. unfold process_persona_request, require_approval, sign_prepared_request,
    record_signed_root, or_reject. unsending.
Qed.

Lemma transition_unsent uuid request input peer ci :
  silent ci → only unsent (process_persona_transition uuid request input peer ci).
Proof.
  intros Hci. unfold process_persona_transition, process_new_transition, require_approval, or_reject.
  unsending.
Qed.

Lemma participation_unsent uuid request input peer ci :
  silent ci → only unsent (process uuid request input peer ci).
Proof.
  intros Hci. unfold process, process_with_clock, require_approval, or_reject. unsending.
Qed.

Lemma inner_unsent received ci : silent ci → only unsent (process_received_request_inner received ci).
Proof.
  intros Hci h. unfold process_received_request_inner, rejecting.
  apply guarded_bind; [by split|]. intros t uuid _. apply guarded_handle; [|by intros t' [| |] _].
  case_match; first [by apply persona_unsent|by apply transition_unsent|by apply participation_unsent].
Qed.

Lemma runs_connection_failure t interrupted :
  runs connection_failure t (Ok interrupted) →
  match interrupted with
  | Some ClientCancelled => client_gone t
  | Some failure => failure = InvalidRequest
  | None => True
  end.
Proof.
  unfold connection_failure. intros H. went H as t1 s H1. answered H1 as socket. destruct H as [-> H].
  destruct (connection_state socket) as [[]| |] eqn:E; simplify_eq; try done;
    exists socket; (split; [member|]); rewrite E; done.
Qed.

Lemma failure_responses t interrupted :
  runs connection_failure t (Ok interrupted) → responses t = [].
Proof. apply unsent_responses, unsent_silent, silent_connection_failure. Qed.

Lemma connection_failure_ends t (r : result FailureClass (option FailureClass)) :
  runs connection_failure t r → ∃ interrupted, r = Ok interrupted.
Proof.
  unfold connection_failure. intros H. apply runs_handle in H as (t1 & t2 & r1 & -> & H1 & H).
  apply (runs_call Answer (Connection Peeking)) in H1 as (socket & -> & ->). destruct H as [-> ->].
  unfold connection_state. repeat case_match; simplify_eq; by eexists.
Qed.

(** The exits of the handlers are outcomes. *)
Lemma inner_never_fails received ci t failure :
  runs (process_received_request_inner received ci) t (Err failure) → False.
Proof.
  unfold process_received_request_inner, rejecting. intros H.
  apply runs_handle in H as (t1 & t2 & r1 & -> & H1 & H).
  apply (runs_call Answer NewUuid) in H1 as (uuid & -> & ->).
  apply runs_handle in H as (t3 & t4 & [] & -> & _ & [_ H]); done.
Qed.

(** [answer_rejected] sends one rejection, whether or not it arrives. *)
Lemma runs_answer_rejected code t r :
  runs (answer_rejected code) t r →
  r = Ok tt ∧ ∃ socket, responses t = [(SendingRejected code, socket)].
Proof.
  unfold answer_rejected. intros H. apply runs_handle in H as (t1 & t2 & r1 & -> & H1 & H).
  apply (runs_call Answer (Connection (SendingRejected code))) in H1 as (socket & -> & ->).
  destruct H as [-> ->]. split; [|by exists socket].
  pose proof (send_rejected_no_panic socket code). by destruct (send_sign_rejected socket code).
Qed.

(** An interrupted connection is told when the interruption was its own data. *)
Lemma runs_answer_invalid failure t r :
  (failure = InvalidRequest ∨ failure = ClientCancelled) → runs (answer_invalid failure) t r →
  r = Ok tt ∧ (failure = InvalidRequest →
    ∃ socket, responses t = [(SendingRejected (rejection_code failure), socket)]) ∧
  (failure = ClientCancelled → responses t = []).
Proof.
  unfold answer_invalid. intros Hf H. case_bool_decide as Hi.
  - apply runs_answer_rejected in H as [-> [socket H]]. split; [done|]. split; [by exists socket|].
    by intros ->.
  - destruct H as [-> ->]. by destruct Hf.
Qed.

(** The two ways an interrupted connection ends. *)
Lemma interrupted_answered t1 t2 failure id r :
  runs connection_failure t1 (Ok (Some failure)) →
  runs (answer_invalid failure;; lift (Ok (rejected id failure))) t2 r →
  r = Ok (rejected id failure) ∧
  ∀ t0 t', t' = t0 ++ t1 ++ t2 → responses t0 = [] → answered_with t' (rejected id failure).
Proof.
  intros H1 H. pose proof (failure_responses _ _ H1) as Hr1. apply runs_connection_failure in H1.
  assert (failure = InvalidRequest ∨ failure = ClientCancelled) as Hf by (destruct failure; auto).
  apply runs_handle in H as (t3 & t4 & r3 & -> & H3 & H).
  apply runs_answer_invalid in H3 as (-> & Hinv & Hcan); [|done]. destruct H as [-> ->].
  split; [done|]. intros t0 t' -> Hr0. rewrite app_nil_r. unfold rejected, answered_with.
  rewrite !responses_app, Hr0, Hr1. destruct failure; try by destruct Hf.
  - destruct (Hinv eq_refl) as [socket ->]. by exists socket.
  - right. left. rewrite (Hcan eq_refl). split; [done|]. destruct H1 as (socket & Hin & Hs).
    exists socket. split; [member|done].
Qed.

Lemma rejected_answered t id failure socket :
  responses t = [(SendingRejected (rejection_code failure), socket)] →
  answered_with t (Rejected id failure).
Proof. intros H. destruct failure; [| left|..]; by exists socket. Qed.

Lemma outcome_answered outcome t r :
  runs (answer_outcome outcome) t r →
  ∃ outcome', r = Ok outcome' ∧
    ∀ t0 t', t' = t0 ++ t → responses t0 = [] → answered_with t' outcome'.
Proof.
  destruct outcome as [id f subject proof|id failure]; cbn [answer_outcome]; intros H;
    apply runs_handle in H as (t1 & t2 & r1 & -> & H1 & H).
  - destruct r1 as [interrupted|e|s]; [|by apply connection_failure_ends in H1 as [? ?]..].
    destruct interrupted as [failure|].
    + destruct (interrupted_answered _ _ _ _ _ H1 H) as [-> Ha]. by eexists.
    + apply failure_responses in H1. apply runs_handle in H as (t3 & t4 & r3 & -> & H3 & H).
      apply (runs_call Answer (Connection (SendingApproved proof))) in H3 as (socket & -> & ->).
      destruct H as [-> ->]. pose proof (send_approved_no_panic socket proof) as Hn.
      destruct (send_sign_approved socket proof) as [[]|e|s] eqn:E; [| |done];
        (eexists; split; [done|]); intros t0 t' -> Hr0; unfold answered_with;
        rewrite !responses_app, Hr0, H1; [by exists socket|].
      right. right. by exists proof, socket, e.
  - apply runs_answer_rejected in H1 as [-> [socket H1]]. destruct H as [-> ->]. eexists.
    split; [done|]. intros t0 t' -> Hr0. apply (rejected_answered _ _ _ socket).
    by rewrite !responses_app, Hr0, H1.
Qed.

(** C27: every connection is answered. Assume that anonymous files keep the
    bytes that are written to them and that the clock by which a signer is awaited
    advances. Then, whatever arrives and whatever the store, the user, the file
    system and the signer answer, handling a connection ends in an outcome without
    a panic, and the responses that the daemon tried to send are those of the
    outcome: for an approval, one approval with the proof, which was sent
    successfully; for a rejection other than a cancellation by the client, one
    rejection with the code of its failure; for a cancellation by the client, one
    rejection that says so, or nothing when a look at the connection had found it
    closed or broken, or one approval whose sending failed. *)
Theorem connection_is_answered t r :
  runs handle_connection t r → Forall event_ok t →
  ∃ outcome, r = Ok outcome ∧ answered_with t outcome.
Proof.
  intros H Ht. unfold handle_connection in H. apply runs_handle in H as (t1 & t2 & r1 & -> & H1 & H).
  apply (runs_call Answer (Connection Receiving)) in H1 as (socket & -> & ->).
  pose proof (receive_request_no_panic socket) as Hn.
  destruct (receive_sign_request socket) as [received|e|s]; [| |done];
    apply runs_handle in H as (t3 & t4 & r3 & -> & H3 & H).
  - destruct r3 as [interrupted|e|s]; [|by apply connection_failure_ends in H3 as [? ?]..].
    destruct interrupted as [failure|].
    { destruct (interrupted_answered _ _ _ _ _ H3 H) as [-> Ha]. eexists. split; [done|].
      by apply (Ha [occurs (Connection Receiving) socket]). }
    apply failure_responses in H3. apply runs_handle in H as (t5 & t6 & r5 & -> & H5 & H).
    rewrite !Forall_app in Ht.
    pose proof (calm_inner received _ calm_connection_failure _ _ H5 ltac:(tauto)) as Hn'.
    pose proof (unsent_responses _ _ _ (inner_unsent received _ silent_connection_failure) H5) as Hr5.
    destruct r5 as [outcome|failure|s]; [| |done].
    + apply outcome_answered in H as (outcome' & -> & Ha). exists outcome'. split; [done|].
      apply (Ha ([occurs (Connection Receiving) socket] ++ t3 ++ t5)); [by rewrite <- !app_assoc|].
      by rewrite !responses_app, H3, Hr5.
    + by apply inner_never_fails in H5.
  - apply runs_answer_rejected in H3 as [-> [socket' H3]]. destruct H as [-> ->]. eexists.
    split; [done|]. apply (rejected_answered _ _ _ socket'). by rewrite !responses_app, H3.
Qed.
End answers.
