(* ===== verification/DaemonWitness.v ===== *)
(** * Witnesses for the signing daemon

    One connection: a client asks for the signature of a small artifact, the
    user approves, and the proof goes back. *)

From stdpp Require Import base numbers list strings pretty option.
From Stdlib Require Import Strings.Byte Ascii.
From S2P Require Import Prelude Text Ordered Display Crates Io ArtifactProof Continuity RecoveryPolicy RecoveryChain Ceremony.
From S2P Require Import Names Domain Fields IpcProtocol Transport TransportFacts Approval Interaction StoreTypes Daemon Service.
From S2P Require Import Participation DaemonFacts Consent Outcomes Answers Instances Witness TransportWitness ApprovalWitness.

(** ** The parameters *)

(** Sixteen bytes as text, padded to the length of a UUID. *)
#[export] Instance small_uuid_text : UuidText := {|
  uuid_parse_str s :=
    if (str_len s =? 36)%N then uuid_from_slice (take 16 (as_bytes s)) else None;
  uuid_to_string u := String.string_of_list_byte (uuid_as_bytes u ++ repeat x30 20) |}.

#[export] Instance codec_ProofBundle : Codec ProofBundle :=
  codec_via
    (λ b, (pb_schema b, (pb_payload b, (se_format (pb_signature b), (se_namespace (pb_signature b),
           (se_value (pb_signature b), (vm_format (pb_verification_material b),
           vm_public_key (pb_verification_material b))))))))
    (λ '(schema, (payload, (kind, (namespace, (value, (material, key)))))),
      Some {| pb_schema := schema; pb_payload := payload;
              pb_signature := {| se_format := kind; se_namespace := namespace; se_value := value |};
              pb_verification_material := {| vm_format := material; vm_public_key := key |} |})
    ltac:(by intros [? ? [] []]).

#[export] Instance pretty_of {T} `{!Codec T} : SerdePretty T :=
  {| json_to_vec_pretty x := inr (enc x) |}.

(** ** An artifact *)

Definition persona_uuid : Approval.Uuid := repeat x61 16 ↾ eq_refl.
Definition persona_id : string := Eval vm_compute in uuid_to_string persona_uuid.

Definition ada : ActiveSigner :=
  {| as_persona := {| pe_id := persona_id; pe_label := "Ada"; pe_purpose := StoreTypes.Personal;
                      pe_created_at := 0; pe_archived_at := None |};
     as_key := {| kr_fingerprint := ok_get (public_key_fingerprint key_a) eq_refl;
                  kr_persona_id := persona_id;
                  kr_public_key := key_a; kr_provider := KeyOpensshFile; kr_status := Active;
                  kr_added_at := 0; kr_retired_at := None; kr_compromised_at := None |};
     as_signing_reference := {| sf_key_fingerprint := ok_get (public_key_fingerprint key_a) eq_refl;
                                sf_locator := key_a; sf_configured_at := 0 |} |}.

Definition artifact_request : SignRequest :=
  {| sr_persona_id := Some persona_id;
     sr_subject := IpcProtocol.Artifact IpcProtocol.Article "essay.txt" |}.
Definition artifact_packet : bytes := Eval vm_compute in
  ok_get (encode_sign_request artifact_request) eq_refl.

(** A system in which every call succeeds. *)
Definition willing (history : list (Event Answer)) (c : Call) : Answer c :=
  match c return Answer c with
  | Connection _ => socket_with artifact_packet [the_source]
  | NewUuid => the_request
  | SystemTime => Some 1100%N
  | FreshMemfd => small_memfd
  | Decide _ => inr Approve
  | Keygen _ => small_keygen
  | ActiveSignerForPersona _ => Some ada
  | RecordContinuityRoot _ _ _ => true
  | ContinuitySnapshot _ => None
  | ValidateRoutineRotationCandidate _ _ _ _ => None
  | CommittedRetryMetadata _ => None
  | CommitRoutineTransition _ _ _ _ => None
  | SymlinkMetadata _ => inr (regular_file 10)
  | Canonicalize path => Some path
  | Geteuid => 1000%N
  end.

Definition the_run : list (Event Answer) * result FailureClass DaemonOutcome :=
  execute willing [] handle_connection.


Lemma willing_ok : Forall event_ok the_run.1.
Proof.
  apply execute_Forall. intros h []; try exact I; [exact small_memfd_ok|exact small_clock_ok].
Qed.

Lemma connection_is_answered_witness :
  ∃ outcome, the_run.2 = Ok outcome ∧ answered_with the_run.1 outcome.
Proof.
  apply (connection_is_answered the_run.1 the_run.2); [apply execute_runs|exact willing_ok].
Defined.

(** The proof that the client gets in this run. *)
Definition the_bundle : bytes := Eval vm_compute in enc the_proof ++ [x0a].
Definition the_sealed : SealedProof :=
  {| sp_file := file_of 1024 the_bundle; sp_size := len the_bundle |}.

Lemma the_outcome :
  the_run.2 = Ok (Approved (uuid_to_string the_request) (kr_fingerprint (as_key ada))
    (ApprovedArtifact the_artifact) the_sealed).
Proof. vm_compute. reflexivity. Qed.

Lemma approved_outcome_is_released_witness :
  sealed_as the_sealed (released the_run.1 (ApprovedArtifact the_artifact) (kr_fingerprint (as_key ada))).
Proof.
  apply (approved_outcome_is_released the_run.1 (uuid_to_string the_request)
    (kr_fingerprint (as_key ada)) (ApprovedArtifact the_artifact) the_sealed).
  - rewrite <- the_outcome. apply execute_runs.
  - apply execute_Forall. intros h []; try exact I. exact small_memfd_ok.
Defined.
