(* ===== verification/StoreCommon.v ===== *)
(** * Shared rules of the persona store ([crates/a-quo-store/src/lib.rs])

    Its errors and limits, the text and time checks every stored or imported
    value passes, the words that stand for the enumerations in the database,
    and the checks on keys and on the files they are signed with. *)

From stdpp Require Import base numbers list strings pretty option.
From Stdlib Require Import Strings.Byte Ascii.
From S2P Require Import Prelude Text Ordered Display Crates Io ArtifactProof Continuity RecoveryPolicy RecoveryChain StoreTypes.

(** ** Constants *)

Definition SCHEMA_VERSION : Z := 11.
Definition MAX_LABEL_BYTES : N := 256.
Definition MAX_NOTE_BYTES : N := 2048.
Definition MAX_POLICY_BYTES : N := 512.
Definition MAX_ACTOR_BYTES : N := 256.
Definition MAX_SIGNING_REFERENCE_BYTES : N := 4096.
Definition MAX_PUBLIC_KEY_BYTES : N := 16384.
Definition MAX_PORTABLE_JSON_INTEGER : Z := 9007199254740991.
Definition MAX_PERSONA_BACKUP_KEYS : N := 256.
Definition MAX_PERSONA_BACKUP_EVENTS : N := 4096.
Definition MAX_PERSONA_BACKUP_CONTINUITY_TRANSITIONS : N := 256.
Definition MAX_PERSONA_BACKUP_RECOVERY_POLICIES : N := 256.
Definition MAX_PERSONA_BACKUP_SIGNATURES : N := 2048.
Definition MAX_STORED_CONTINUITY_PROOF_BYTES : N := (64 * 1024 * 1024)%N.
Definition MAX_STORED_CONTINUITY_SIGNATURE_VERIFICATIONS : N := 65536.
Definition MAX_STORED_PERSONA_KEYS : N := (MAX_CONTINUITY_TRANSITIONS + 1)%N.
Definition MAX_STORED_PERSONA_EVENTS : N := (MAX_STORED_PERSONA_KEYS * 3)%N.
Definition PERSONA_BACKUP_V1_SCHEMA : string := "urn:a-quo:persona-metadata-backup:v1".
Definition PERSONA_BACKUP_V2_SCHEMA : string := "urn:a-quo:persona-metadata-backup:v2".
Definition PERSONA_BACKUP_SCHEMA : string := "urn:a-quo:persona-metadata-backup:v3".
Definition MAX_PERSONA_BACKUP_BYTES : N := (4 * 1024 * 1024)%N.

(** ** Errors *)

(** Where the source keeps the text of an error of the core crate, the error
    itself is kept: [InvalidSigner] is an [InvalidField] of the next signing
    reference with the text of that error. *)
Inductive StoreError :=
| Database (message : string)
| Serialization (error : JsonError)
| StoreIo (path : string) (source : string)
| SymlinkDatabase (path : string)
| InvalidParent (path : string)
| InsecureDirectory (path : string)
| UnsupportedSchema (version : Z)
| InvalidField (field reason : string)
| InvalidSigner (error : ProofError)
| PersonaNotFound (persona_id : string)
| PersonaAlreadyKnown (persona_id : string)
| PersonaArchived (persona_id : string)
| PersonaLabelMismatch (fingerprint : string)
| KeyAlreadyKnown (fingerprint : string)
| KeyNotFound (fingerprint : string)
| InactiveSigningKey (fingerprint : string)
| AmbiguousActiveKeys (persona_id : string)
| SigningReferenceNotFound (fingerprint : string)
| UnsafeSigningReference (path display_path reason : string)
| NoActiveKey (persona_id : string)
| InvalidTransition (reason : string)
| CrossPersonaKeyEvent
| InvalidAuditHistory
| StoredPersonaKeyLimit (limit : N)
| StoredPersonaEventLimit (limit : N)
| InvalidPublicKey (error : ProofError)
| ContinuityNotFound (persona_id : string)
| ContinuityBypass (persona_id : string)
| ContinuityCompromiseRequiresJournal (fingerprint : string)
| ContinuityConflict (reason : string)
| ContinuityEvidenceOnly (persona_id : string)
| PersonaTerminallyRevoked (persona_id : string)
| InvalidContinuity (reason : ProofError + string)
| ContinuityProofTooLarge
| StoredContinuityProofBytesLimit (limit : N)
| StoredContinuityVerificationWorkLimit (limit : N)
| InvalidSystemTime
| NonMonotonicAuditTime (observed minimum : Z).

Abbreviation StoreResult := (result StoreError).

Definition invalid_continuity (error : ProofError) : StoreError := InvalidContinuity (inl error).
Definition bad_continuity (reason : string) : StoreError := InvalidContinuity (inr reason).

(** ** Text and time *)

Definition validate_required_text (field value : string) (maximum : N) : StoreResult string :=
  let value := trim value in
  reject_if (value == "") (InvalidField field "it cannot be empty");;
  reject_if (maximum <? str_len value)%N
    (InvalidField field ("it cannot exceed " +:+ pretty maximum +:+ " UTF-8 bytes"));;
  reject_if (contains_unsafe_display_characters value)
    (InvalidField field "control, line/paragraph separator, or default-ignorable Unicode characters are not allowed");;
  Ok value.

Definition validate_canonical_text (field value : string) (maximum : N) : StoreResult string :=
  canonical ← validate_required_text field value maximum;
  reject_if (canonical != value)
    (InvalidField field "surrounding whitespace is not canonical");;
  Ok canonical.

Definition validate_optional_text (field : string) (value : option string) (maximum : N) :
    StoreResult (option string) :=
  match value with
  | None => Ok None
  | Some value => value ← validate_required_text field value maximum; Ok (Some value)
  end.

(** [SystemTime::now()] as the seconds since the epoch, [None] before it. *)
Definition now_unix_seconds (now : option N) : StoreResult Z :=
  seconds ← ok_or now InvalidSystemTime;
  ok_or (if (Z.of_N seconds <=? i64_max)%Z then Some (Z.of_N seconds) else None) InvalidSystemTime.

Definition invalid_backup (reason : string) : StoreError :=
  InvalidField "persona backup" (escape_untrusted_text_for_terminal reason).

Definition validate_backup_text (field value : string) (maximum : N) : StoreResult unit :=
  _ ← validate_canonical_text field value maximum; Ok tt.

Definition validate_backup_time (field : string) (value minimum maximum : Z) : StoreResult unit :=
  reject_if (negb ((minimum <=? value) && (value <=? maximum))%Z)
    (invalid_backup (field +:+ " must be between " +:+ pretty minimum +:+ " and " +:+ pretty maximum +:+
      "; found " +:+ pretty value)).

(** ** Enumerations *)

Inductive RotationReason := RotationRoutine | RotationRecovery | RotationCompromise.

#[export] Instance RotationReason_eq_dec : EqDecision RotationReason.
Proof. solve_decision. Defined.

Definition purpose_as_str (purpose : PersonaPurpose) : string :=
  match purpose with
  | Personal => "personal"
  | Pseudonymous => "pseudonymous"
  | Project => "project"
  | Organization => "organization"
  | LegalBridge => "legal-bridge"
  end.

Definition purpose_from_str (value : string) : StoreResult PersonaPurpose :=
  if value == "personal" then Ok Personal
  else if value == "pseudonymous" then Ok Pseudonymous
  else if value == "project" then Ok Project
  else if value == "organization" then Ok Organization
  else if value == "legal-bridge" then Ok LegalBridge
  else Err (InvalidField "persona purpose"
    ("expected one of " +:+ "personal, pseudonymous, project, organization, legal-bridge")).

Definition provider_as_str (provider : KeyProvider) : string :=
  match provider with
  | KeyOpensshFile => "openssh-file"
  | KeySshAgent => "ssh-agent"
  | KeyFido2 => "fido2"
  end.

Definition provider_from_str (value : string) : StoreResult KeyProvider :=
  if value == "openssh-file" then Ok KeyOpensshFile
  else if value == "ssh-agent" then Ok KeySshAgent
  else if value == "fido2" then Ok KeyFido2
  else Err (InvalidField "key provider" ("expected one of " +:+ "openssh-file, ssh-agent, fido2")).

Definition status_as_str (status : KeyStatus) : string :=
  match status with
  | Active => "active"
  | Retired => "retired"
  | Compromised => "compromised"
  end.

Definition status_from_str (value : string) : StoreResult KeyStatus :=
  if value == "active" then Ok Active
  else if value == "retired" then Ok Retired
  else if value == "compromised" then Ok Compromised
  else Err (InvalidField "stored key status" value).

Definition rotation_as_str (reason : RotationReason) : string :=
  match reason with
  | RotationRoutine => "routine"
  | RotationRecovery => "recovery"
  | RotationCompromise => "compromise"
  end.

Definition rotation_from_str (value : string) : StoreResult RotationReason :=
  if value == "routine" then Ok RotationRoutine
  else if value == "recovery" then Ok RotationRecovery
  else if value == "compromise" then Ok RotationCompromise
  else Err (InvalidField "rotation reason" ("expected one of " +:+ "routine, recovery, compromise")).

Definition rotation_policy (reason : RotationReason) : string :=
  match reason with
  | RotationRoutine => "a-quo:key-rotation:routine:v1"
  | RotationRecovery => "a-quo:key-rotation:recovery:v1"
  | RotationCompromise => "a-quo:key-rotation:compromise:v1"
  end.

Definition live_signer_binding_provider (provider : KeyProvider) : LiveSignerBindingProvider :=
  match provider with
  | KeyOpensshFile => OpensshFile
  | KeySshAgent => SshAgent
  | KeyFido2 => Fido2
  end.

(** ** Keys *)

Definition validate_provider_key (public_key : string) (provider : KeyProvider) : StoreResult unit :=
  if provider != KeyFido2 then Ok tt
  else
    let algorithm := default "" (split_whitespace public_key !! 0%nat) in
    if (algorithm == "sk-ssh-ed25519@openssh.com") ||
       (algorithm == "sk-ecdsa-sha2-nistp256@openssh.com")
    then Ok tt
    else Err (InvalidField "key provider"
      "fido2 requires an OpenSSH security-key public-key algorithm").

Section keys.
Context {crates : Crates}.

Definition fingerprint (public_key : string) : StoreResult string :=
  map_err InvalidPublicKey (public_key_fingerprint public_key).

(** ** Signing references *)

Definition unsafe_signing_reference (path reason : string) : StoreError :=
  UnsafeSigningReference path (escape_untrusted_bytes_for_terminal (as_bytes path)) reason.

Definition validate_signing_reference_text (path : string) : StoreResult unit :=
  reject_if (negb (utf8_valid path)) (unsafe_signing_reference path "the path must be valid UTF-8");;
  reject_if (MAX_SIGNING_REFERENCE_BYTES <? str_len path)%N
    (unsafe_signing_reference path
      ("the path cannot exceed " +:+ pretty MAX_SIGNING_REFERENCE_BYTES +:+ " UTF-8 bytes"));;
  reject_if (contains_unsafe_display_characters path)
    (unsafe_signing_reference path
      "control, line/paragraph separator, or default-ignorable Unicode characters are not allowed").

Definition signing_locator_sha256 (path : string) : StoreResult string :=
  validate_signing_reference_text path;;
  Ok (lower_hex (Sha256_digest (as_bytes path))).

Definition validate_signing_reference_permissions (euid : N) (path : string) (md : Metadata)
    (provider : KeyProvider) : StoreResult unit :=
  let owner := md_uid md in
  let root_owned_public_stub := (provider == KeySshAgent) && (owner =? 0)%N in
  reject_if ((owner != euid) && negb root_owned_public_stub)
    (unsafe_signing_reference path ("owner UID " +:+ pretty owner +:+
      " is not the current effective UID " +:+ pretty euid));;
  reject_if (N.land (md_mode md) 0x12 != 0%N)
    (unsafe_signing_reference path "group/world-writable files are not allowed");;
  reject_if ((provider != KeySshAgent) && (N.land (md_mode md) 0x3f != 0%N))
    (unsafe_signing_reference path
      "private and hardware-key stubs cannot grant group/world permissions").

(** The stub of an agent key holds the public key itself. *)
Definition validate_agent_stub (fs : Fs) (canonical : string) (md : Metadata) (key : KeyRecord) :
    StoreResult unit :=
  if kr_provider key != KeySshAgent then Ok tt
  else
    reject_if (MAX_PUBLIC_KEY_BYTES <? md_len md)%N
      (unsafe_signing_reference canonical "the SSH-agent public-key stub is too large");;
    content ← map_err (StoreIo canonical) (of_sum (fs_read fs canonical));
    public_key ← ok_or (from_utf8 content)
      (StoreIo canonical "stream did not contain valid UTF-8");
    locator_fingerprint ← map_err (λ _, unsafe_signing_reference canonical
        "the SSH-agent stub is not a valid OpenSSH public key")
      (fingerprint (trim public_key));
    reject_if (locator_fingerprint != kr_fingerprint key)
      (unsafe_signing_reference canonical
        "the SSH-agent public-key stub does not match the registered key").

Definition validate_signing_reference_path (fs : Fs) (euid : N) (path : string) (key : KeyRecord) :
    StoreResult string :=
  reject_if (negb (is_absolute path)) (unsafe_signing_reference path "the path must be absolute");;
  validate_signing_reference_text path;;
  entry_metadata ← map_err (StoreIo path) (of_sum (symlink_metadata fs path));
  reject_if (md_is_symlink entry_metadata)
    (unsafe_signing_reference path "symbolic links are not allowed");;
  canonical ← map_err (StoreIo path) (of_sum (canonicalize fs path));
  validate_signing_reference_text canonical;;
  md ← map_err (StoreIo canonical) (of_sum (symlink_metadata fs canonical));
  reject_if (md_is_symlink md || negb (md_is_file md))
    (unsafe_signing_reference canonical "the target must be a regular non-symlink file");;
  reject_if (md_len md =? 0)%N
    (unsafe_signing_reference canonical "the referenced file cannot be empty");;
  validate_signing_reference_permissions euid canonical md (kr_provider key);;
  validate_agent_stub fs canonical md key;;
  Ok canonical.

End keys.

(** ** Facts *)

(** The words of the database are read back as what they stand for. *)
Lemma purpose_round_trip p : purpose_from_str (purpose_as_str p) = Ok p.
Proof. by destruct p. Qed.
Lemma provider_round_trip p : provider_from_str (provider_as_str p) = Ok p.
Proof. by destruct p. Qed.
Lemma status_round_trip s : status_from_str (status_as_str s) = Ok s.
Proof. by destruct s. Qed.
