(* ===== verification/Backup.v ===== *)
(** * Key lifecycle histories and portable backups ([crates/a-quo-store/src/lib.rs])

    A persona is backed up as its keys, the events of their lifecycle, and
    optionally public evidence of its continuity. The same replay of the events
    checks an imported backup and the rows of the live store. *)

From stdpp Require Import base numbers list strings pretty option gmap.
From Stdlib Require Import Strings.Byte Ascii.
From S2P Require Import Prelude Text Ordered Display Crates Io ArtifactProof Continuity RecoveryPolicy RecoveryChain.
From S2P Require Import Names Fields IpcProtocol StoreTypes StoreCommon.

(** ** Data *)

Record BackupPersona := {
  bp_id : string;
  bp_label : string;
  bp_purpose : PersonaPurpose;
  bp_created_at : Z;
  bp_archived_at : option Z;
}.
Record BackupKey := {
  bk_fingerprint : string;
  bk_public_key : string;
  bk_provider : KeyProvider;
  bk_status : KeyStatus;
  bk_added_at : Z;
  bk_retired_at : option Z;
  bk_compromised_at : option Z;
}.
Record BackupKeyEvent := {
  be_ordinal : N;
  be_key_fingerprint : string;
  be_event_type : string;
  be_occurred_at : Z;
  be_actor : string;
  be_policy : string;
  be_note : option string;
}.
Record BackupPersonaRootEvidence := { br_proof : PersonaRootProof; br_observed_at : option Z }.
Record BackupRecoveryPolicyEvidence := { bo_proof : RecoveryPolicyProof; bo_observed_at : option Z }.
Record BackupTransitionEvidence := {
  bt_proof : PersonaContinuityTransitionProof;
  bt_observed_at : option Z;
}.
Record BackupTerminalPersonaRevocationEvidence := {
  bz_proof : TerminalPersonaRevocationProof;
  bz_observed_at : option Z;
}.
Record BackupContinuityArchive := {
  bc_root : BackupPersonaRootEvidence;
  bc_recovery_policies : list BackupRecoveryPolicyEvidence;
  bc_transitions : list BackupTransitionEvidence;
  bc_terminal_revocation : option BackupTerminalPersonaRevocationEvidence;
}.
Inductive BackupContinuity := Unmanaged | EvidenceArchive (archive : BackupContinuityArchive).
Record PersonaBackup := {
  pb_backup_schema : string;
  pb_exported_at : Z;
  pb_persona : BackupPersona;
  pb_keys : list BackupKey;
  pb_events : list BackupKeyEvent;
  pb_continuity : option BackupContinuity;
}.

Inductive HistoryValidationScope := LiveStore | PortableBackup.

#[export] Instance HistoryValidationScope_eq_dec : EqDecision HistoryValidationScope.
Proof. solve_decision. Defined.

Section backup.
Context {crates : Crates} {uuids : Uuids}.

(** ** Keys *)

Definition validate_backup_public_key (key : BackupKey) : StoreResult unit :=
  let named := "public key " +:+ bk_fingerprint key in
  reject_if (bk_public_key key == "") (invalid_backup (named +:+ " cannot be empty"));;
  reject_if (MAX_PUBLIC_KEY_BYTES <? str_len (bk_public_key key))%N
    (invalid_backup (named +:+ " exceeds " +:+ pretty MAX_PUBLIC_KEY_BYTES +:+ " UTF-8 bytes"));;
  reject_if (trim (bk_public_key key) != bk_public_key key)
    (invalid_backup (named +:+ " has surrounding whitespace"));;
  reject_if (contains_unsafe_display_characters (bk_public_key key))
    (invalid_backup (named +:+
      " contains a control, line/paragraph separator, or default-ignorable Unicode character"));;
  validate_provider_key (bk_public_key key) (bk_provider key);;
  computed ← fingerprint (bk_public_key key);
  reject_if (computed != bk_fingerprint key)
    (invalid_backup ("public key fingerprint mismatch: recorded " +:+ bk_fingerprint key +:+
      ", computed " +:+ computed)).

(** The times of a key agree with its status. *)
Definition validate_key_times (key : BackupKey) : StoreResult unit :=
  match bk_status key, bk_retired_at key, bk_compromised_at key with
  | Active, None, None => Ok tt
  | Retired, Some _, None => Ok tt
  | Compromised, retired_at, Some compromised_at =>
      reject_if (match retired_at with
                 | Some retired_at => (compromised_at <? retired_at)%Z
                 | None => false
                 end)
        (invalid_backup ("key " +:+ bk_fingerprint key +:+
          " was compromised before its recorded retirement"))
  | status, _, _ =>
      Err (invalid_backup ("key " +:+ bk_fingerprint key +:+
        " has timestamps inconsistent with status " +:+ status_as_str status))
  end.

(** [if let Some(t) = time { validate_backup_time(..)?; }] *)
Definition validate_optional_time (field : string) (time : option Z) (minimum maximum : Z) :
    StoreResult unit :=
  match time with
  | Some time => validate_backup_time field time minimum maximum
  | None => Ok tt
  end.

(** One round of the loop over the keys: [keys_by_fingerprint] so far. *)
Definition add_history_key (backup : PersonaBackup) (keys_by_fingerprint : gmap string BackupKey)
    (key : BackupKey) : StoreResult (gmap string BackupKey) :=
  let exported_at := pb_exported_at backup in
  validate_backup_public_key key;;
  validate_backup_time "key.added_at" (bk_added_at key) (bp_created_at (pb_persona backup))
    exported_at;;
  validate_optional_time "key.retired_at" (bk_retired_at key) (bk_added_at key) exported_at;;
  validate_optional_time "key.compromised_at" (bk_compromised_at key) (bk_added_at key) exported_at;;
  reject_if (match bp_archived_at (pb_persona backup) with
             | Some archived_at => (archived_at <? bk_added_at key)%Z
             | None => false
             end)
    (invalid_backup "key.added_at cannot occur after persona.archived_at");;
  validate_key_times key;;
  reject_if (bool_decide (is_Some (keys_by_fingerprint !! bk_fingerprint key)))
    (invalid_backup ("duplicate key fingerprint " +:+ bk_fingerprint key));;
  Ok (<[bk_fingerprint key := key]> keys_by_fingerprint).

(** ** Events *)

Definition is_origin (event_type : string) : bool :=
  (event_type == "enrolled") || (event_type == "rotated_in").

(** What the loop over the events keeps. *)
Record Replay := {
  rp_states : gmap string KeyStatus;
  rp_last_event_times : gmap string Z;
  rp_last_persona_event_time : option Z;
  rp_observed_retirements : gset string;
  rp_observed_compromises : gset string;
}.

Definition replay_start : Replay :=
  {| rp_states := ∅; rp_last_event_times := ∅; rp_last_persona_event_time := None;
     rp_observed_retirements := ∅; rp_observed_compromises := ∅ |}.

(** The status a key has after an event. *)
Definition next_status (key : BackupKey) (event : BackupKeyEvent) (state : option KeyStatus) :
    StoreResult KeyStatus :=
  let fingerprint := bk_fingerprint key in
  let event_type := be_event_type event in
  match state with
  | None =>
      if is_origin event_type then
        if be_occurred_at event == bk_added_at key then Ok Active
        else Err (invalid_backup ("initial event time for key " +:+ fingerprint +:+
          " does not match added_at"))
      else if (event_type == "retired") || (event_type == "compromised")
      then Err (invalid_backup ("invalid " +:+ event_type +:+ " transition for key " +:+ fingerprint))
      else Err (invalid_backup ("unknown lifecycle event type " +:+ event_type))
  | Some status =>
      if (event_type == "retired") && (status == Active) &&
         (bk_retired_at key == Some (be_occurred_at event)) then Ok Retired
      else if (event_type == "compromised") && (status != Compromised) &&
         (bk_compromised_at key == Some (be_occurred_at event)) then Ok Compromised
      else if is_origin event_type || (event_type == "retired") || (event_type == "compromised")
      then Err (invalid_backup ("invalid " +:+ event_type +:+ " transition for key " +:+ fingerprint))
      else Err (invalid_backup ("unknown lifecycle event type " +:+ event_type))
  end.

Definition history_is_portable (backup : PersonaBackup) : StoreResult bool :=
  if pb_backup_schema backup == PERSONA_BACKUP_V1_SCHEMA then
    reject_if (bool_decide (is_Some (pb_continuity backup)))
      (invalid_backup "schema v1 must omit the continuity field");;
    Ok false
  else if (pb_backup_schema backup == PERSONA_BACKUP_V2_SCHEMA) ||
          (pb_backup_schema backup == PERSONA_BACKUP_SCHEMA) then
    reject_if (negb (bool_decide (is_Some (pb_continuity backup))))
      (invalid_backup "schema v2/v3 must include an explicit continuity field");;
    Ok true
  else Err (invalid_backup ("unsupported schema " +:+ pb_backup_schema backup +:+ "; expected " +:+
    PERSONA_BACKUP_V1_SCHEMA +:+ ", " +:+ PERSONA_BACKUP_V2_SCHEMA +:+ ", or " +:+
    PERSONA_BACKUP_SCHEMA)).

(** One round of the loop over the events, with the index of the event. *)
Definition replay_event (backup : PersonaBackup) (is_portable : bool)
    (keys_by_fingerprint : gmap string BackupKey) (st : N * Replay) (event : BackupKeyEvent) :
    StoreResult (N * Replay) :=
  let '(index, replay) := st in
  let persona := pb_persona backup in
  expected_ordinal ← expect (u32_try_from (index + 1)) "backup event bound fits in a u32 ordinal";
  reject_if (be_ordinal event != expected_ordinal)
    (invalid_backup ("event ordinal " +:+ pretty (be_ordinal event) +:+
      " is out of sequence; expected " +:+ pretty expected_ordinal));;
  key ← ok_or (keys_by_fingerprint !! be_key_fingerprint event)
    (invalid_backup ("event " +:+ pretty (be_ordinal event) +:+ " references unknown key " +:+
      be_key_fingerprint event));
  validate_backup_time "event.occurred_at" (be_occurred_at event) (bp_created_at persona)
    (pb_exported_at backup);;
  reject_if (is_origin (be_event_type event) &&
             match bp_archived_at persona with
             | Some archived_at => (archived_at <? be_occurred_at event)%Z
             | None => false
             end)
    (invalid_backup "authority-granting event cannot occur after persona.archived_at");;
  reject_if (is_portable &&
             match rp_last_persona_event_time replay with
             | Some previous_time => (be_occurred_at event <? previous_time)%Z
             | None => false
             end)
    (invalid_backup "schema-v2 lifecycle events move backward in persona-wide ordinal order");;
  validate_backup_text "backup event actor" (be_actor event) MAX_ACTOR_BYTES;;
  validate_backup_text "backup event policy" (be_policy event) MAX_POLICY_BYTES;;
  (match be_note event with
   | Some note => validate_backup_text "backup event note" note MAX_NOTE_BYTES
   | None => Ok tt
   end);;
  let fingerprint := bk_fingerprint key in
  reject_if (match rp_last_event_times replay !! fingerprint with
             | Some previous_time => (be_occurred_at event <? previous_time)%Z
             | None => false
             end)
    (invalid_backup ("events for key " +:+ fingerprint +:+ " move backward in time"));;
  status ← next_status key event (rp_states replay !! fingerprint);
  Ok ((index + 1)%N,
      {| rp_states := <[fingerprint := status]> (rp_states replay);
         rp_last_event_times := <[fingerprint := be_occurred_at event]> (rp_last_event_times replay);
         rp_last_persona_event_time := Some (be_occurred_at event);
         rp_observed_retirements :=
           if status == Retired then {[fingerprint]} ∪ rp_observed_retirements replay
           else rp_observed_retirements replay;
         rp_observed_compromises :=
           if status == Compromised then {[fingerprint]} ∪ rp_observed_compromises replay
           else rp_observed_compromises replay |}).

(** The replay ends in the recorded state of each key. *)
Definition check_replayed_key (replay : Replay) (key : BackupKey) : StoreResult unit :=
  let fingerprint := bk_fingerprint key in
  replayed ← ok_or (rp_states replay !! fingerprint)
    (invalid_backup ("key " +:+ fingerprint +:+ " has no enrollment or rotation event"));
  reject_if (replayed != bk_status key)
    (invalid_backup ("event history for key " +:+ fingerprint +:+ " ends as " +:+
      status_as_str replayed +:+ ", not " +:+ status_as_str (bk_status key)));;
  reject_if (negb (Bool.eqb (bool_decide (is_Some (bk_retired_at key)))
                     (bool_decide (fingerprint ∈ rp_observed_retirements replay))))
    (invalid_backup ("retirement timestamp/event mismatch for key " +:+ fingerprint));;
  reject_if (negb (Bool.eqb (bool_decide (is_Some (bk_compromised_at key)))
                     (bool_decide (fingerprint ∈ rp_observed_compromises replay))))
    (invalid_backup ("compromise timestamp/event mismatch for key " +:+ fingerprint)).

(** The persona itself. *)
Definition validate_history_persona (backup : PersonaBackup) (is_portable : bool)
    (scope : HistoryValidationScope) : StoreResult unit :=
  let persona := pb_persona backup in
  let exported_at := pb_exported_at backup in
  reject_if (exported_at <? 0)%Z (invalid_backup "exported_at cannot be negative");;
  reject_if (is_portable && (MAX_PORTABLE_JSON_INTEGER <? exported_at)%Z)
    (invalid_backup "schema-v2 exported_at is outside the portable JSON integer range");;
  parsed_id ← ok_or (Uuid_parse_str (bp_id persona))
    (invalid_backup "persona.id must be a canonical UUID");
  reject_if (Uuid_to_string parsed_id != bp_id persona)
    (invalid_backup "persona.id must use canonical lowercase UUID encoding");;
  validate_backup_text "backup persona label" (bp_label persona) MAX_LABEL_BYTES;;
  validate_backup_time "persona.created_at" (bp_created_at persona) 0 exported_at;;
  validate_optional_time "persona.archived_at" (bp_archived_at persona) (bp_created_at persona)
    exported_at;;
  reject_if ((scope == PortableBackup) && (MAX_PERSONA_BACKUP_KEYS <? len (pb_keys backup))%N)
    (invalid_backup ("keys cannot contain more than " +:+ pretty MAX_PERSONA_BACKUP_KEYS +:+ " entries"));;
  reject_if ((scope == PortableBackup) && (MAX_PERSONA_BACKUP_EVENTS <? len (pb_events backup))%N)
    (invalid_backup ("events cannot contain more than " +:+ pretty MAX_PERSONA_BACKUP_EVENTS +:+
      " entries")).

(** The keys and the events, without the continuity evidence. *)
Definition validate_history_replay (backup : PersonaBackup) (is_portable : bool) : StoreResult unit :=
  keys_by_fingerprint ← fold_result (add_history_key backup) ∅ (pb_keys backup);
  '(_, replay) ← fold_result (replay_event backup is_portable keys_by_fingerprint)
    (0%N, replay_start) (pb_events backup);
  each_result (check_replayed_key replay) (pb_keys backup).

(** ** Continuity evidence *)

Context {json_root_proof : Serde PersonaRootProof} {json_policy_proof : Serde RecoveryPolicyProof}
  {json_entry : Serde PersonaContinuityTransitionProof}
  {json_terminal_proof : Serde TerminalPersonaRevocationProof}
  {json_backup : Serde PersonaBackup} {pretty_backup : SerdePretty PersonaBackup}
  {json_archive : Serde BackupContinuityArchive}
  {json_root : Serde PersonaRootStatement} {json_transition : Serde PersonaTransitionStatement}
  {json_policy : Serde RecoveryPolicyStatement} {json_recovery : Serde RecoveryTransitionStatement}
  {json_terminal : Serde TerminalPersonaRevocationStatement}.

Definition validate_observed_time (field : string) (observed_at : option Z) (backup : PersonaBackup) :
    StoreResult unit :=
  validate_optional_time field observed_at (bp_created_at (pb_persona backup)) (pb_exported_at backup).

Definition require_nondecreasing_observation (evidence : string) (previous current : option Z) :
    StoreResult unit :=
  match previous, current with
  | Some previous, Some current =>
      reject_if (current <? previous)%Z
        (invalid_backup (evidence +:+ " observation times move backward"))
  | _, _ => Ok tt
  end.

(** [if current.is_some() { previous = current; }] *)
Definition later_observation (previous current : option Z) : option Z :=
  match current with Some _ => current | None => previous end.

Definition is_terminal_proof (proof : PersonaContinuityTransitionProof) : bool :=
  match proof with ProofTerminalRevocation _ => true | _ => false end.
Definition is_recovery_proof (proof : PersonaContinuityTransitionProof) : bool :=
  match proof with ProofRecovery _ => true | _ => false end.

Definition signature_overflow : StoreError := invalid_backup "continuity signature count overflow".

Definition checked_mul2 (n : N) : option N := if (2 * n <=? usize_max)%N then Some (2 * n)%N else None.

Definition archived_policy_signatures (proof : RecoveryPolicyProof) : StoreResult N :=
  match pp_authorization proof with
  | Enrollment signatures => Ok (len signatures)
  | Update previous_policy_signatures current_policy_signatures =>
      ok_or (checked_add_usize (len previous_policy_signatures) (len current_policy_signatures))
        signature_overflow
  end.

(** One policy: the signatures so far and the last observation. *)
Definition archived_policy (backup : PersonaBackup) (st : N * option Z)
    (policy : BackupRecoveryPolicyEvidence) : StoreResult (N * option Z) :=
  let '(signature_count, previous) := st in
  validate_observed_time "recovery policy observed_at" (bo_observed_at policy) backup;;
  require_nondecreasing_observation "recovery policy" previous (bo_observed_at policy);;
  policy_bytes ← map_err Serialization (of_sum (json_to_vec (bo_proof policy)));
  _ ← map_err invalid_continuity (parse_recovery_policy_proof_bytes policy_bytes);
  policy_signatures ← archived_policy_signatures (bo_proof policy);
  twice ← ok_or (checked_mul2 policy_signatures)
    (invalid_backup "continuity signature verification count overflow");
  signature_count ← ok_or (checked_add_usize signature_count twice) signature_overflow;
  Ok (signature_count, later_observation previous (bo_observed_at policy)).

Definition archived_transition_signatures (proof : PersonaContinuityTransitionProof) : StoreResult N :=
  match proof with
  | ProofRoutine proof => Ok (len (tp_signatures proof))
  | ProofRecovery proof =>
      ok_or (checked_add_usize (len (xp_recovery_signatures proof)) 1) signature_overflow
  | ProofTerminalRevocation proof => Ok (len (zp_recovery_signatures proof))
  end.

Definition archived_transition (backup : PersonaBackup) (st : N * option Z)
    (transition : BackupTransitionEvidence) : StoreResult (N * option Z) :=
  let '(signature_count, previous) := st in
  validate_observed_time "continuity transition observed_at" (bt_observed_at transition) backup;;
  require_nondecreasing_observation "continuity transition" previous (bt_observed_at transition);;
  proof_bytes ← map_err Serialization (of_sum (json_to_vec (bt_proof transition)));
  _ ← map_err invalid_continuity (parse_persona_continuity_transition_proof_bytes proof_bytes);
  transition_signatures ← archived_transition_signatures (bt_proof transition);
  signature_count ← ok_or (checked_add_usize signature_count transition_signatures)
    signature_overflow;
  Ok (signature_count, later_observation previous (bt_observed_at transition)).

Definition archived_terminal (backup : PersonaBackup) (st : N * option Z)
    (terminal : option BackupTerminalPersonaRevocationEvidence) : StoreResult N :=
  let '(signature_count, previous) := st in
  match terminal with
  | None => Ok signature_count
  | Some terminal =>
      validate_observed_time "terminal revocation observed_at" (bz_observed_at terminal) backup;;
      require_nondecreasing_observation "terminal revocation" previous (bz_observed_at terminal);;
      proof_bytes ← map_err Serialization (of_sum (json_to_vec (bz_proof terminal)));
      _ ← map_err invalid_continuity (parse_terminal_persona_revocation_proof_bytes proof_bytes);
      ok_or (checked_add_usize signature_count (len (zp_recovery_signatures (bz_proof terminal))))
        signature_overflow
  end.

Definition dedicated_field : StoreError :=
  invalid_backup "terminal revocation must use the dedicated schema-v3 archive field".

Definition validate_archive_structure (backup : PersonaBackup) (archive : BackupContinuityArchive) :
    StoreResult unit :=
  let has_terminal := bool_decide (is_Some (bc_terminal_revocation archive)) in
  reject_if ((pb_backup_schema backup != PERSONA_BACKUP_SCHEMA) && has_terminal)
    (invalid_backup "terminal revocation evidence requires schema v3");;
  reject_if (existsb (λ transition, is_terminal_proof (bt_proof transition)) (bc_transitions archive))
    dedicated_field;;
  reject_if (MAX_PERSONA_BACKUP_RECOVERY_POLICIES <? len (bc_recovery_policies archive))%N
    (invalid_backup ("continuity archive cannot contain more than " +:+
      pretty MAX_PERSONA_BACKUP_RECOVERY_POLICIES +:+ " recovery policies"));;
  reject_if (match checked_add_usize (len (bc_transitions archive)) (if has_terminal then 1 else 0) with
             | Some count => (MAX_PERSONA_BACKUP_CONTINUITY_TRANSITIONS <? count)%N
             | None => true
             end)
    (invalid_backup ("continuity archive cannot contain more than " +:+
      pretty MAX_PERSONA_BACKUP_CONTINUITY_TRANSITIONS +:+ " transitions"));;
  validate_observed_time "continuity root observed_at" (br_observed_at (bc_root archive)) backup;;
  root_bytes ← map_err Serialization (of_sum (json_to_vec (br_proof (bc_root archive))));
  _ ← map_err invalid_continuity (parse_persona_root_proof_bytes root_bytes);
  '(signature_count, _) ← fold_result (archived_policy backup)
    (2%N, br_observed_at (bc_root archive)) (bc_recovery_policies archive);
  st ← fold_result (archived_transition backup)
    (signature_count, br_observed_at (bc_root archive)) (bc_transitions archive);
  signature_count ← archived_terminal backup st (bc_terminal_revocation archive);
  reject_if ((len (bc_recovery_policies archive) =? 0)%N &&
             (existsb (λ transition, is_recovery_proof (bt_proof transition))
                (bc_transitions archive) || has_terminal))
    (invalid_backup "a recovery transition requires a recovery policy chain");;
  reject_if (MAX_PERSONA_BACKUP_SIGNATURES <? signature_count)%N
    (invalid_backup ("continuity archive cannot require more than " +:+
      pretty MAX_PERSONA_BACKUP_SIGNATURES +:+ " signature verifications")).

Definition validate_backup_continuity_structure (backup : PersonaBackup)
    (continuity : BackupContinuity) : StoreResult unit :=
  match continuity with
  | Unmanaged => Ok tt
  | EvidenceArchive archive => validate_archive_structure backup archive
  end.

Definition validate_persona_history (backup : PersonaBackup) (scope : HistoryValidationScope) :
    StoreResult unit :=
  is_portable ← history_is_portable backup;
  validate_history_persona backup is_portable scope;;
  validate_history_replay backup is_portable;;
  match pb_continuity backup with
  | Some continuity => validate_backup_continuity_structure backup continuity
  | None => Ok tt
  end.

Definition validate_persona_backup (backup : PersonaBackup) : StoreResult unit :=
  validate_persona_history backup PortableBackup.

Definition parse_persona_backup_bytes (bs : bytes) : StoreResult PersonaBackup :=
  reject_if (MAX_PERSONA_BACKUP_BYTES <? len bs)%N
    (invalid_backup ("backup exceeds " +:+ pretty MAX_PERSONA_BACKUP_BYTES +:+ " bytes"));;
  backup ← map_err (λ error,
      let category :=
        match je_category error with
        | JsonIo => "I/O"
        | JsonSyntax => "syntax"
        | JsonData => "data"
        | JsonEof => "end-of-input"
        end in
      invalid_backup ("invalid JSON (" +:+ category +:+ ") at line " +:+ pretty (je_line error) +:+
        ", column " +:+ pretty (je_column error)))
    (of_sum (json_from_slice bs));
  validate_persona_backup backup;;
  Ok backup.

Definition require_serialized_backup_bound (backup : PersonaBackup) : StoreResult unit :=
  compact ← map_err Serialization (of_sum (json_to_vec backup));
  reject_if (MAX_PERSONA_BACKUP_BYTES <? len compact)%N
    (invalid_backup ("serialized compact backup exceeds " +:+ pretty MAX_PERSONA_BACKUP_BYTES +:+
      " bytes"));;
  indented ← map_err Serialization (of_sum (json_to_vec_pretty backup));
  reject_if (MAX_PERSONA_BACKUP_BYTES <? N.min usize_max (len indented + 1))%N
    (invalid_backup ("serialized backup exceeds " +:+ pretty MAX_PERSONA_BACKUP_BYTES +:+ " bytes")).

End backup.
