(* ===== verification/BackupVerify.v ===== *)
(** * Verifying and comparing the continuity evidence of a backup
    ([crates/a-quo-store/src/lib.rs])

    The evidence is verified as a chain of the core crate and then bound to the
    keys of the backup: the tip of the chain is its only active key, or the
    chain is terminally revoked and no key is active. A verified archive is
    compared with a root, a head and a policy that were obtained elsewhere. *)

From stdpp Require Import base numbers list strings pretty option gmap.
From Stdlib Require Import Strings.Byte Ascii.
From S2P Require Import Prelude Text Ordered Display Crates Io ArtifactProof Continuity RecoveryPolicy RecoveryChain.
From S2P Require Import Names Fields IpcProtocol StoreTypes StoreCommon Backup.

(** ** Data *)

Record BackupContinuityVerificationReport := {
  bv_lifecycle_metadata_consistent : bool;
  bv_persona_label_binding_verified : bool;
  bv_root_signature_verified : bool;
  bv_transition_chain_verified : bool;
  bv_recovery_policy_chain_verified : option bool;
  bv_policy_transition_checkpoints_verified : option bool;
  bv_cryptographic_continuity : bool;
  bv_signing_authority : bool;
  bv_root_statement_sha256 : string;
  bv_chain_tip_key_fingerprint : string;
  bv_current_key_fingerprint : option string;
  bv_terminally_revoked : bool;
  bv_terminal_revocation_count : N;
  bv_terminal_revocation_statement_sha256 : option string;
  bv_terminal_revoked_key_fingerprint : option string;
  bv_terminal_revocation_reason : option TerminalPersonaRevocationReason;
  bv_transition_count : N;
  bv_routine_transition_count : N;
  bv_recovery_transition_count : N;
  bv_latest_policy_sha256 : option string;
  bv_latest_policy_version : option N;
  bv_latest_policy_time_status : option RecoveryPolicyTimeStatus;
  bv_checked_at : Z;
  bv_external_root_pin_checked : bool;
  bv_external_head_pin_checked : bool;
  bv_external_policy_pin_checked : bool;
  bv_not_established : list string;
}.

Inductive ExpectedBackupContinuityPolicy :=
| NoPolicy
| PinnedPolicy (version : N) (statement_sha256 : string).

Record BackupContinuityExpectedPins := {
  xn_root_statement_sha256 : string;
  xn_effective_head : PersonaContinuityCheckpoint;
  xn_latest_policy : ExpectedBackupContinuityPolicy;
}.

Inductive BackupContinuityHeadRelation :=
| Exact
| ExtensionBeyondPin
| DivergentAtOrBeforePin
| ShorterThanExpectedInconclusive.

Record BackupContinuityComparisonReport := {
  bx_archive_sha256 : string;
  bx_checked_at : Z;
  bx_persona_label : string;
  bx_root_statement_sha256 : string;
  bx_effective_head : PersonaContinuityCheckpoint;
  bx_head_relation : BackupContinuityHeadRelation;
  bx_latest_policy : ExpectedBackupContinuityPolicy;
  bx_latest_policy_time_status : option RecoveryPolicyTimeStatus;
  bx_chain_tip_key_fingerprint : string;
  bx_current_key_fingerprint : option string;
  bx_terminally_revoked : bool;
  bx_terminal_revocation_reason : option TerminalPersonaRevocationReason;
  bx_lifecycle_metadata_consistent : bool;
  bx_persona_label_binding_verified : bool;
  bx_root_signature_verified : bool;
  bx_transition_chain_verified : bool;
  bx_recovery_policy_chain_verified : option bool;
  bx_policy_transition_checkpoints_verified : option bool;
  bx_cryptographic_continuity : bool;
  bx_external_root_pin_matched : bool;
  bx_external_head_pin_matched : bool;
  bx_external_latest_policy_pin_matched : bool;
  bx_signer_custody_established : bool;
  bx_signing_authority : bool;
  bx_not_established : list string;
}.

Record VerifiedBackupContinuity := {
  vb_report : BackupContinuityVerificationReport;
  vb_transition_statement_sha256s : list string;
  vb_root : VerifiedPersonaRoot;
  vb_policies : list VerifiedRecoveryPolicy;
  vb_transitions : list VerifiedPersonaContinuityTransition;
}.
Record VerifiedBackupContinuityComparison := {
  vbc_report : BackupContinuityComparisonReport;
  vbc_verified : VerifiedBackupContinuity;
}.
Record VerifiedPersonaBackup := {
  vpb_backup : PersonaBackup;
  vpb_archive_json : option bytes;
  vpb_continuity_report : option BackupContinuityVerificationReport;
}.

#[export] Instance ExpectedBackupContinuityPolicy_eq_dec : EqDecision ExpectedBackupContinuityPolicy.
Proof. solve_decision. Defined.
#[export] Instance BackupContinuityHeadRelation_eq_dec : EqDecision BackupContinuityHeadRelation.
Proof. solve_decision. Defined.

(** The facts of the verified chain that the report and the checks use. *)
Record ChainFacts := {
  cf_chain_tip_key_fingerprint : string;
  cf_current_key_fingerprint : option string;
  cf_terminally_revoked : bool;
  cf_terminal_revocation_count : N;
  cf_terminal_revocation_statement_sha256 : option string;
  cf_terminal_revoked_key_fingerprint : option string;
  cf_terminal_revocation_reason : option TerminalPersonaRevocationReason;
  cf_transition_count : N;
  cf_routine_transition_count : N;
  cf_recovery_transition_count : N;
  cf_latest_policy_sha256 : option string;
  cf_latest_policy_version : option N;
  cf_latest_policy_time_status : option RecoveryPolicyTimeStatus;
  cf_transition_statement_sha256s : list string;
  cf_root : VerifiedPersonaRoot;
  cf_policies : list VerifiedRecoveryPolicy;
  cf_transitions : list VerifiedPersonaContinuityTransition;
}.

Definition verified_statement_sha256 (transition : VerifiedPersonaContinuityTransition) : string :=
  match transition with
  | VerifiedRoutine transition => vpt_transition_statement_sha256 transition
  | VerifiedRecovery transition => vx_transition_statement_sha256 transition
  | VerifiedTerminalRevocation revocation => vz_revocation_statement_sha256 revocation
  end.

(** The statement digest of the entry with a sequence number, none before the
    first. *)
Definition verified_transition_statement_sha256_at (transition_statement_sha256s : list string)
    (sequence : N) : StoreResult (option string) :=
  if (sequence =? 0)%N then Ok None
  else match transition_statement_sha256s !! N.to_nat (sequence - 1) with
  | Some digest => Ok (Some digest)
  | None => Err (bad_continuity
      "verified archive does not contain the requested effective-head sequence")
  end.

Definition validate_expected_sha256 (field value : string) : StoreResult unit :=
  reject_if (negb ((str_len value =? 64)%N &&
                   str_all (λ c, is_ascii_hexdigit c && negb (is_ascii_uppercase c)) value))
    (InvalidField field "must be 64 lowercase hexadecimal characters").

Definition validate_backup_continuity_expected_pins (expected : BackupContinuityExpectedPins) :
    StoreResult unit :=
  let head := xn_effective_head expected in
  validate_expected_sha256 "expected root statement SHA-256" (xn_root_statement_sha256 expected);;
  reject_if (MAX_TERMINAL_PERSONA_REVOCATION_SEQUENCE <? cp_transition_sequence head)%N
    (InvalidField "expected effective-head sequence"
      ("must not exceed " +:+ pretty MAX_TERMINAL_PERSONA_REVOCATION_SEQUENCE));;
  (match (cp_transition_sequence head =? 0)%N, cp_transition_sha256 head with
   | true, None => Ok tt
   | true, Some _ => Err (InvalidField "expected effective head"
       "sequence zero cannot name a transition digest")
   | false, None => Err (InvalidField "expected effective head"
       "a nonzero sequence requires a transition digest")
   | false, Some digest => validate_expected_sha256 "expected effective-head SHA-256" digest
   end);;
  match xn_latest_policy expected with
  | NoPolicy => Ok tt
  | PinnedPolicy version statement_sha256 =>
      maximum ← expect (u32_try_from MAX_RECOVERY_POLICY_VERSIONS)
        "recovery-policy version bound fits in u32";
      reject_if (negb ((1 <=? version) && (version <=? maximum))%N)
        (InvalidField "expected latest-policy version" ("must be 1 through " +:+ pretty maximum));;
      validate_expected_sha256 "expected latest-policy SHA-256" statement_sha256
  end.

Section verify.
Context {crates : Crates} {uuids : Uuids}
  {json_root_proof : Serde PersonaRootProof} {json_policy_proof : Serde RecoveryPolicyProof}
  {json_entry : Serde PersonaContinuityTransitionProof}
  {json_terminal_proof : Serde TerminalPersonaRevocationProof}
  {json_backup : Serde PersonaBackup} {pretty_backup : SerdePretty PersonaBackup}
  {json_archive : Serde BackupContinuityArchive}
  {json_root : Serde PersonaRootStatement} {json_transition : Serde PersonaTransitionStatement}
  {json_policy : Serde RecoveryPolicyStatement} {json_recovery : Serde RecoveryTransitionStatement}
  {json_terminal : Serde TerminalPersonaRevocationStatement}.

(** ** Keys of the evidence *)

(** The keys of a backup by fingerprint, the last of equal ones winning. *)
Definition keys_by_fingerprint (keys : list BackupKey) : gmap string BackupKey :=
  foldl (λ m key, <[bk_fingerprint key := key]> m) ∅ keys.

Definition require_backup_proof_key (keys : gmap string BackupKey)
    (expected_fingerprint proof_public_key : string) : StoreResult unit :=
  key ← ok_or (keys !! expected_fingerprint)
    (bad_continuity ("continuity proof key " +:+ expected_fingerprint +:+
      " is absent from backup metadata"));
  proof_fingerprint ← map_err invalid_continuity (public_key_fingerprint proof_public_key);
  reject_if ((proof_fingerprint != expected_fingerprint) || (bk_fingerprint key != proof_fingerprint))
    (bad_continuity "continuity proof public key does not match backup key metadata").

Definition policy_in_archive (policies : list VerifiedRecoveryPolicy) (sha256 : string) (version : N) :
    bool :=
  existsb (λ policy, (vp_policy_statement_sha256 policy == sha256) &&
                     (ps_policy_version (vp_statement policy) == version)) policies.

Definition require_entry_keys (keys : gmap string BackupKey) (policies : list VerifiedRecoveryPolicy)
    (entry : BackupTransitionEvidence) : StoreResult unit :=
  match bt_proof entry with
  | ProofRoutine proof =>
      each_result (λ signature,
        fp ← map_err invalid_continuity (public_key_fingerprint (cs_public_key signature));
        require_backup_proof_key keys fp (cs_public_key signature)) (tp_signatures proof)
  | ProofRecovery proof =>
      statement ← map_err invalid_continuity (inspect_recovery_transition_proof proof);
      reject_if (negb (bool_decide (is_Some (keys !! xs_previous_key_fingerprint statement))))
        (bad_continuity "recovery transition previous key is absent from backup metadata");;
      reject_if (negb (policy_in_archive policies (xs_recovery_policy_sha256 statement)
                         (xs_recovery_policy_version statement)))
        (bad_continuity "recovery transition references a policy outside the archive");;
      next_fingerprint ← map_err invalid_continuity
        (public_key_fingerprint (sg_public_key (xp_next_signature proof)));
      require_backup_proof_key keys next_fingerprint (sg_public_key (xp_next_signature proof))
  | ProofTerminalRevocation _ => Err dedicated_field
  end.

Definition require_terminal_keys (keys : gmap string BackupKey) (policies : list VerifiedRecoveryPolicy)
    (terminal : option BackupTerminalPersonaRevocationEvidence) : StoreResult unit :=
  match terminal with
  | None => Ok tt
  | Some terminal =>
      statement ← map_err invalid_continuity
        (inspect_terminal_persona_revocation_proof (bz_proof terminal));
      reject_if (negb (bool_decide (is_Some (keys !! zs_previous_key_fingerprint statement))))
        (bad_continuity "terminal revocation previous key is absent from backup metadata");;
      reject_if (negb (policy_in_archive policies (zs_recovery_policy_sha256 statement)
                         (zs_recovery_policy_version statement)))
        (bad_continuity "terminal revocation references a policy outside the archive")
  end.

(** The active keys of the backup against the end of the chain. *)
Definition require_active_key (keys : gmap string BackupKey) (backup : PersonaBackup)
    (facts : ChainFacts) : StoreResult unit :=
  let active := bk_fingerprint <$> filter (λ key, bk_status key = Active) (pb_keys backup) in
  if cf_terminally_revoked facts then
    reject_if (negb (len active =? 0)%N) (bad_continuity "terminal backup retains an active key");;
    revoked ← ok_or (cf_terminal_revoked_key_fingerprint facts)
      (bad_continuity "terminal report omits the revoked key fingerprint");
    key ← ok_or (keys !! revoked)
      (bad_continuity "terminal report names a key absent from backup metadata");
    expected ← match cf_terminal_revocation_reason facts with
               | Some TerminalCompromise => Ok Compromised
               | Some TerminalCessation => Ok Retired
               | None => Err (bad_continuity "terminal report omits the signed revocation reason")
               end;
    reject_if (bk_status key != expected)
      (bad_continuity "terminal backup lifecycle state does not reflect its signed reason")
  else
    reject_if (active != [cf_chain_tip_key_fingerprint facts])
      (bad_continuity "derived continuity tip is not the backup's unique active key").

(** ** The chain *)

Definition routine_of_archive (proof : PersonaContinuityTransitionProof) :
    StoreResult PersonaTransitionProof :=
  match proof with
  | ProofRoutine proof => Ok proof
  | ProofRecovery _ =>
      Err (invalid_backup "a recovery transition requires a recovery policy chain")
  | ProofTerminalRevocation _ =>
      Err (invalid_backup "a terminal revocation requires a recovery policy chain")
  end.

Definition routine_facts (chain : VerifiedPersonaContinuityChain) : ChainFacts :=
  let report := vc_report chain in
  {| cf_chain_tip_key_fingerprint := cr_chain_tip_key_fingerprint report;
     cf_current_key_fingerprint := Some (cr_chain_tip_key_fingerprint report);
     cf_terminally_revoked := false;
     cf_terminal_revocation_count := 0;
     cf_terminal_revocation_statement_sha256 := None;
     cf_terminal_revoked_key_fingerprint := None;
     cf_terminal_revocation_reason := None;
     cf_transition_count := cr_transition_count report;
     cf_routine_transition_count := cr_transition_count report;
     cf_recovery_transition_count := 0;
     cf_latest_policy_sha256 := None;
     cf_latest_policy_version := None;
     cf_latest_policy_time_status := None;
     cf_transition_statement_sha256s := vpt_transition_statement_sha256 <$> vc_transitions chain;
     cf_root := vc_root chain;
     cf_policies := [];
     cf_transitions := VerifiedRoutine <$> vc_transitions chain |}.

Definition mixed_facts (chain : VerifiedRecoveryAwareContinuityChain) : ChainFacts :=
  let report := mc_report chain in
  {| cf_chain_tip_key_fingerprint := mr_chain_tip_key_fingerprint report;
     cf_current_key_fingerprint := mr_current_key_fingerprint report;
     cf_terminally_revoked := mr_terminally_revoked report;
     cf_terminal_revocation_count := mr_terminal_revocation_count report;
     cf_terminal_revocation_statement_sha256 := mr_terminal_revocation_statement_sha256 report;
     cf_terminal_revoked_key_fingerprint := mr_terminal_revoked_key_fingerprint report;
     cf_terminal_revocation_reason := mr_terminal_revocation_reason report;
     cf_transition_count := mr_transition_count report;
     cf_routine_transition_count := mr_routine_transition_count report;
     cf_recovery_transition_count := mr_recovery_transition_count report;
     cf_latest_policy_sha256 := Some (mr_latest_policy_sha256 report);
     cf_latest_policy_version := Some (mr_latest_policy_version report);
     cf_latest_policy_time_status := Some (mr_latest_policy_time_status report);
     cf_transition_statement_sha256s := verified_statement_sha256 <$> mc_transitions chain;
     cf_root := mc_root chain;
     cf_policies := mc_policies chain;
     cf_transitions := mc_transitions chain |}.

(** The entries of an archive, the terminal revocation last. *)
Definition archive_transitions (archive : BackupContinuityArchive) :
    list PersonaContinuityTransitionProof :=
  (bt_proof <$> bc_transitions archive) ++
  match bc_terminal_revocation archive with
  | Some terminal => [ProofTerminalRevocation (bz_proof terminal)]
  | None => []
  end.

Definition verify_archive_chain (archive : BackupContinuityArchive)
    (verified_root : VerifiedPersonaRoot) (verified_policies : list VerifiedRecoveryPolicy)
    (checked_at : Z) : StoreResult ChainFacts :=
  let transitions := archive_transitions archive in
  let policies := bo_proof <$> bc_recovery_policies archive in
  if (len policies =? 0)%N then
    routine ← collect_result routine_of_archive transitions;
    chain ← map_err invalid_continuity
      (verify_persona_continuity_chain_with_verified_sequence (br_proof (bc_root archive)) routine
        (vpr_root_statement_sha256 verified_root));
    Ok (routine_facts chain)
  else
    latest ← expect (list.last verified_policies)
      "a non-empty policy input produces a non-empty verified chain";
    chain ← map_err invalid_continuity
      (verify_persona_continuity_chain_with_recovery_with_verified_sequence
        (br_proof (bc_root archive)) transitions policies (vpr_root_statement_sha256 verified_root)
        (vp_policy_statement_sha256 latest) checked_at);
    Ok (mixed_facts chain).

(** ** The report *)

Definition archive_not_established (terminally_revoked has_policies : bool) : list string :=
  ["when_or_how_the_root_was_pinned";
   "whether_a_newer_or_competing_transition_was_withheld";
   "independent_head_checkpoint_not_checked";
   "signing_or_recovery_authority";
   "trusted_time_for_signed_issuance_or_archive_export";
   "archive_freshness_completeness_or_authorship_as_a_whole";
   "exact_correspondence_between_unsigned_lifecycle_events_and_signed_transitions";
   "cryptographic_binding_of_persona_id_purpose_or_lifecycle_timestamps";
   "legal_or_government_identity";
   "current_signer_custody";
   "artifact_or_software_safety"] ++
  (if terminally_revoked
   then ["whether_a_competing_pre_terminal_transition_was_authorized_or_withheld"]
   else ["current_online_key_non_revocation"]) ++
  (if has_policies
   then ["when_or_how_the_latest_recovery_policy_was_pinned";
         "whether_a_newer_or_competing_recovery_policy_was_withheld"]
   else []).

Definition archive_report (facts : ChainFacts) (has_policies : bool) (checked_at : Z) :
    BackupContinuityVerificationReport :=
  let if_policies := if has_policies then Some true else None in
  {| bv_lifecycle_metadata_consistent := true;
     bv_persona_label_binding_verified := true;
     bv_root_signature_verified := true;
     bv_transition_chain_verified := true;
     bv_recovery_policy_chain_verified := if_policies;
     bv_policy_transition_checkpoints_verified := if_policies;
     bv_cryptographic_continuity := true;
     bv_signing_authority := false;
     bv_root_statement_sha256 := vpr_root_statement_sha256 (cf_root facts);
     bv_chain_tip_key_fingerprint := cf_chain_tip_key_fingerprint facts;
     bv_current_key_fingerprint := cf_current_key_fingerprint facts;
     bv_terminally_revoked := cf_terminally_revoked facts;
     bv_terminal_revocation_count := cf_terminal_revocation_count facts;
     bv_terminal_revocation_statement_sha256 := cf_terminal_revocation_statement_sha256 facts;
     bv_terminal_revoked_key_fingerprint := cf_terminal_revoked_key_fingerprint facts;
     bv_terminal_revocation_reason := cf_terminal_revocation_reason facts;
     bv_transition_count := cf_transition_count facts;
     bv_routine_transition_count := cf_routine_transition_count facts;
     bv_recovery_transition_count := cf_recovery_transition_count facts;
     bv_latest_policy_sha256 := cf_latest_policy_sha256 facts;
     bv_latest_policy_version := cf_latest_policy_version facts;
     bv_latest_policy_time_status := cf_latest_policy_time_status facts;
     bv_checked_at := checked_at;
     bv_external_root_pin_checked := false;
     bv_external_head_pin_checked := false;
     bv_external_policy_pin_checked := false;
     bv_not_established := archive_not_established (cf_terminally_revoked facts) has_policies |}.

(** The evidence of a backup whose history and size were accepted. *)
Definition verify_archive (backup : PersonaBackup) (archive : BackupContinuityArchive)
    (checked_at : Z) : StoreResult VerifiedBackupContinuity :=
  let keys := keys_by_fingerprint (pb_keys backup) in
  verified_root ← map_err invalid_continuity (verify_persona_root_proof (br_proof (bc_root archive)));
  reject_if (rs_persona (vpr_statement verified_root) != bp_label (pb_persona backup))
    (bad_continuity "continuity root persona does not match backup persona metadata");;
  require_backup_proof_key keys (rs_initial_key_fingerprint (vpr_statement verified_root))
    (vpr_initial_public_key verified_root);;
  reject_if (existsb (λ entry, is_terminal_proof (bt_proof entry)) (bc_transitions archive))
    dedicated_field;;
  let policies := bo_proof <$> bc_recovery_policies archive in
  let has_policies := negb (len policies =? 0)%N in
  verified_policies ← (if has_policies
    then map_err invalid_continuity (verify_recovery_policy_proof_sequence verified_root policies)
    else Ok []);
  facts ← verify_archive_chain archive verified_root verified_policies checked_at;
  each_result (require_entry_keys keys verified_policies) (bc_transitions archive);;
  require_terminal_keys keys verified_policies (bc_terminal_revocation archive);;
  require_active_key keys backup facts;;
  Ok {| vb_report := archive_report facts has_policies checked_at;
        vb_transition_statement_sha256s := cf_transition_statement_sha256s facts;
        vb_root := cf_root facts;
        vb_policies := cf_policies facts;
        vb_transitions := cf_transitions facts |}.

Definition verify_persona_backup_continuity_with_digests_at (backup : PersonaBackup)
    (checked_at : Z) : StoreResult (option VerifiedBackupContinuity) :=
  validate_persona_backup backup;;
  require_serialized_backup_bound backup;;
  reject_if (negb ((0 <=? checked_at) && (checked_at <=? MAX_PORTABLE_JSON_INTEGER))%Z)
    (invalid_backup "continuity verification time is outside the portable JSON integer range");;
  match pb_continuity backup with
  | Some (EvidenceArchive archive) =>
      verified ← verify_archive backup archive checked_at;
      Ok (Some verified)
  | _ => Ok None
  end.

Definition verify_persona_backup_continuity_at (backup : PersonaBackup) (checked_at : Z) :
    StoreResult (option BackupContinuityVerificationReport) :=
  verified ← verify_persona_backup_continuity_with_digests_at backup checked_at;
  Ok (option_map vb_report verified).

(** [now] is what the clock reads. *)
Definition verify_persona_backup_continuity (now : option N) (backup : PersonaBackup) :
    StoreResult (option BackupContinuityVerificationReport) :=
  checked_at ← now_unix_seconds now;
  verify_persona_backup_continuity_at backup checked_at.

Definition verify_persona_backup_for_import (now : option N) (backup : PersonaBackup) :
    StoreResult VerifiedPersonaBackup :=
  validate_persona_backup backup;;
  require_serialized_backup_bound backup;;
  '(archive_json, continuity_report) ←
    match pb_continuity backup with
    | Some (EvidenceArchive archive) =>
        verified ← verify_persona_backup_continuity now backup;
        report ← ok_or verified
          (bad_continuity "evidence archive did not produce a verification report");
        archive_json ← map_err Serialization (of_sum (json_to_vec archive));
        Ok (Some archive_json, Some report)
    | _ => Ok (None, None)
    end;
  Ok {| vpb_backup := backup; vpb_archive_json := archive_json;
        vpb_continuity_report := continuity_report |}.

(** ** Comparison *)

Definition actual_policy (report : BackupContinuityVerificationReport) :
    StoreResult ExpectedBackupContinuityPolicy :=
  match bv_latest_policy_version report, bv_latest_policy_sha256 report with
  | None, None => Ok NoPolicy
  | Some version, Some statement_sha256 => Ok (PinnedPolicy version statement_sha256)
  | _, _ => Err (bad_continuity "verified archive has an incomplete latest-policy identity")
  end.

Definition head_relation_of (sha256s : list string) (actual expected : PersonaContinuityCheckpoint) :
    StoreResult BackupContinuityHeadRelation :=
  if (cp_transition_sequence actual <? cp_transition_sequence expected)%N
  then Ok ShorterThanExpectedInconclusive
  else
    digest_at_expected ← verified_transition_statement_sha256_at sha256s
      (cp_transition_sequence expected);
    Ok (if digest_at_expected != cp_transition_sha256 expected then DivergentAtOrBeforePin
        else if (cp_transition_sequence actual =? cp_transition_sequence expected)%N then Exact
        else ExtensionBeyondPin).

Definition comparison_not_established (terminally_revoked : bool) : list string :=
  ["when_or_how_the_external_checkpoints_were_obtained";
   "external_checkpoint_freshness";
   "whether_a_newer_or_competing_transition_was_authorized_or_withheld";
   "whether_a_newer_or_competing_recovery_policy_was_authorized_or_withheld";
   "signing_or_recovery_authority";
   "current_signer_custody";
   "trusted_time_for_signed_issuance_or_archive_export";
   "archive_freshness_completeness_or_authorship_as_a_whole";
   "exact_correspondence_between_unsigned_lifecycle_events_and_signed_transitions";
   "cryptographic_binding_of_persona_id_purpose_or_lifecycle_timestamps";
   "legal_or_government_identity";
   "artifact_or_software_safety"] ++
  (if terminally_revoked
   then ["whether_a_competing_pre_terminal_transition_was_authorized_or_withheld"]
   else ["current_online_key_non_revocation"]).

Definition comparison_report (backup : PersonaBackup) (archive_bytes : bytes)
    (report : BackupContinuityVerificationReport) (actual_effective_head : PersonaContinuityCheckpoint)
    (head_relation : BackupContinuityHeadRelation) (policy : ExpectedBackupContinuityPolicy)
    (checked_at : Z) : BackupContinuityComparisonReport :=
  {| bx_archive_sha256 := lower_hex (Sha256_digest archive_bytes);
     bx_checked_at := checked_at;
     bx_persona_label := bp_label (pb_persona backup);
     bx_root_statement_sha256 := bv_root_statement_sha256 report;
     bx_effective_head := actual_effective_head;
     bx_head_relation := head_relation;
     bx_latest_policy := policy;
     bx_latest_policy_time_status := bv_latest_policy_time_status report;
     bx_chain_tip_key_fingerprint := bv_chain_tip_key_fingerprint report;
     bx_current_key_fingerprint := bv_current_key_fingerprint report;
     bx_terminally_revoked := bv_terminally_revoked report;
     bx_terminal_revocation_reason := bv_terminal_revocation_reason report;
     bx_lifecycle_metadata_consistent := bv_lifecycle_metadata_consistent report;
     bx_persona_label_binding_verified := bv_persona_label_binding_verified report;
     bx_root_signature_verified := bv_root_signature_verified report;
     bx_transition_chain_verified := bv_transition_chain_verified report;
     bx_recovery_policy_chain_verified := bv_recovery_policy_chain_verified report;
     bx_policy_transition_checkpoints_verified := bv_policy_transition_checkpoints_verified report;
     bx_cryptographic_continuity := bv_cryptographic_continuity report;
     bx_external_root_pin_matched := true;
     bx_external_head_pin_matched := head_relation == Exact;
     bx_external_latest_policy_pin_matched := true;
     bx_signer_custody_established := false;
     bx_signing_authority := false;
     bx_not_established := comparison_not_established (bv_terminally_revoked report) |}.

Definition compare_persona_backup_continuity_with_verified_at (backup : PersonaBackup)
    (expected : BackupContinuityExpectedPins) (checked_at : Z) :
    StoreResult VerifiedBackupContinuityComparison :=
  validate_backup_continuity_expected_pins expected;;
  verified ← verify_persona_backup_continuity_with_digests_at backup checked_at;
  verified ← ok_or verified
    (bad_continuity "persona backup does not contain a continuity evidence archive");
  archive ← match pb_continuity backup with
            | Some (EvidenceArchive archive) => Ok archive
            | _ => Panic "a continuity report is returned only for an evidence archive"
            end;
  let report := vb_report verified in
  let sha256s := vb_transition_statement_sha256s verified in
  reject_if (bv_root_statement_sha256 report != xn_root_statement_sha256 expected)
    (bad_continuity "archive root does not match the independently expected digest");;
  policy ← actual_policy report;
  reject_if (policy != xn_latest_policy expected)
    (bad_continuity
      "archive latest-policy state does not match the independently expected state");;
  actual_sha256 ← verified_transition_statement_sha256_at sha256s (bv_transition_count report);
  let actual_effective_head := {| cp_transition_sequence := bv_transition_count report;
                                  cp_transition_sha256 := actual_sha256 |} in
  head_relation ← head_relation_of sha256s actual_effective_head (xn_effective_head expected);
  archive_bytes ← map_err Serialization (of_sum (jcs_to_vec archive));
  Ok {| vbc_report := comparison_report backup archive_bytes report actual_effective_head
                        head_relation policy checked_at;
        vbc_verified := verified |}.

Definition compare_persona_backup_continuity_at (backup : PersonaBackup)
    (expected : BackupContinuityExpectedPins) (checked_at : Z) :
    StoreResult BackupContinuityComparisonReport :=
  comparison ← compare_persona_backup_continuity_with_verified_at backup expected checked_at;
  Ok (vbc_report comparison).

Definition compare_persona_backup_continuity (now : option N) (backup : PersonaBackup)
    (expected : BackupContinuityExpectedPins) : StoreResult BackupContinuityComparisonReport :=
  checked_at ← now_unix_seconds now;
  compare_persona_backup_continuity_at backup expected checked_at.
End verify.
