(* ===== verification/BackupFacts.v ===== *)
(** * Theorems about backups

    Replaying the events of a persona accepts exactly the histories in which
    every key has lived the life its record states: it was enrolled or rotated
    in, then possibly retired, then possibly compromised, at the recorded
    times, and nothing else happened to it. A verified archive holds one linked
    history of statements whose end is the key the backup says is active, and
    an archive that matches externally obtained pins is determined by them up
    to the pinned entry. *)

From stdpp Require Import base numbers list strings pretty sorting option gmap.
From Stdlib Require Import Strings.Byte Ascii.
From S2P Require Import Prelude Text Ordered Display Crates Io ArtifactProof Continuity RecoveryPolicy RecoveryChain.
From S2P Require Import Names Fields IpcProtocol StoreTypes StoreCommon Backup BackupVerify ArtifactFacts ContinuityFacts RecoveryPolicyFacts.
From S2P Require Import RecoveryChainFacts RecoveryCreated.

(** ** Lives *)

Inductive LifeKind := Born | WasRetired | WasCompromised.

#[export] Instance LifeKind_eq_dec : EqDecision LifeKind.
Proof. solve_decision. Defined.

Definition event_kind (event_type : string) : option LifeKind :=
  if is_origin event_type then Some Born
  else if event_type == "retired" then Some WasRetired
  else if event_type == "compromised" then Some WasCompromised
  else None.

(** What the events say happened to a key, with the times. *)
Definition life (fp : string) (events : list BackupKeyEvent) : list (option LifeKind * Z) :=
  (λ e, (event_kind (be_event_type e), be_occurred_at e)) <$>
    filter (λ e, be_key_fingerprint e = fp) events.

Definition opt_list {A} (o : option A) : list A := match o with Some a => [a] | None => [] end.

(** What the record of a key says happened to it. *)
Definition recorded_life (key : BackupKey) : list (option LifeKind * Z) :=
  (Some Born, bk_added_at key) ::
  ((λ t, (Some WasRetired, t)) <$> opt_list (bk_retired_at key)) ++
  ((λ t, (Some WasCompromised, t)) <$> opt_list (bk_compromised_at key)).

Definition recorded_status (key : BackupKey) : KeyStatus :=
  match bk_compromised_at key, bk_retired_at key with
  | Some _, _ => Compromised
  | None, Some _ => Retired
  | None, None => Active
  end.

(** ** The specification *)

Section spec.
Context {crates : Crates}.

Record key_fits (b : PersonaBackup) (key : BackupKey) : Prop := {
  kf_public : validate_backup_public_key key = Ok tt;
  kf_added : (bp_created_at (pb_persona b) <= bk_added_at key <= pb_exported_at b)%Z;
  kf_retired t : bk_retired_at key = Some t → (bk_added_at key <= t <= pb_exported_at b)%Z;
  kf_compromised t : bk_compromised_at key = Some t → (bk_added_at key <= t <= pb_exported_at b)%Z;
  kf_archived t : bp_archived_at (pb_persona b) = Some t → (bk_added_at key <= t)%Z;
  kf_status : bk_status key = recorded_status key;
  kf_order r c : bk_retired_at key = Some r → bk_compromised_at key = Some c → (r <= c)%Z;
}.

Record event_fits (b : PersonaBackup) (e : BackupKeyEvent) : Prop := {
  ef_time : (bp_created_at (pb_persona b) <= be_occurred_at e <= pb_exported_at b)%Z;
  ef_archived t : is_origin (be_event_type e) = true → bp_archived_at (pb_persona b) = Some t →
    (be_occurred_at e <= t)%Z;
  ef_actor : validate_backup_text "backup event actor" (be_actor e) MAX_ACTOR_BYTES = Ok tt;
  ef_policy : validate_backup_text "backup event policy" (be_policy e) MAX_POLICY_BYTES = Ok tt;
  ef_note note : be_note e = Some note →
    validate_backup_text "backup event note" note MAX_NOTE_BYTES = Ok tt;
}.

(** A history whose keys lived as recorded. *)
Record lived (b : PersonaBackup) (portable : bool) : Prop := {
  lv_keys : Forall (key_fits b) (pb_keys b);
  lv_distinct : NoDup (bk_fingerprint <$> pb_keys b);
  lv_bound : (len (pb_events b) <= u32_max)%N;
  lv_ordinals i e : pb_events b !! i = Some e → be_ordinal e = N.of_nat (S i);
  lv_known e : e ∈ pb_events b → ∃ key, key ∈ pb_keys b ∧ bk_fingerprint key = be_key_fingerprint e;
  lv_events : Forall (event_fits b) (pb_events b);
  lv_forward i e e' : portable = true → pb_events b !! i = Some e → pb_events b !! S i = Some e' →
    (be_occurred_at e <= be_occurred_at e')%Z;
  lv_lives key : key ∈ pb_keys b → life (bk_fingerprint key) (pb_events b) = recorded_life key;
}.
End spec.

(** ** Keys *)

Section keys.
Context {crates : Crates}.

Lemma validate_time_Ok field v lo hi : validate_backup_time field v lo hi = Ok tt ↔ (lo <= v <= hi)%Z.
Proof.
  unfold validate_backup_time. rewrite reject_if_Ok, negb_false_iff, andb_true_iff, !Z.leb_le. done.
Qed.

Lemma validate_optional_time_Ok field o lo hi :
  validate_optional_time field o lo hi = Ok tt ↔ ∀ t, o = Some t → (lo <= t <= hi)%Z.
Proof.
  destruct o; cbn [validate_optional_time]; [rewrite validate_time_Ok|]; naive_solver.
Qed.

Lemma key_times_Ok key :
  validate_key_times key = Ok tt ↔ bk_status key = recorded_status key ∧
    ∀ r c, bk_retired_at key = Some r → bk_compromised_at key = Some c → (r <= c)%Z.
Proof.
  unfold validate_key_times, recorded_status.
  destruct (bk_status key), (bk_retired_at key), (bk_compromised_at key);
    rewrite ?reject_if_Ok, ?Z.ltb_ge; naive_solver.
Qed.

Lemma add_key_Ok b m key m' :
  add_history_key b m key = Ok m' ↔
  key_fits b key ∧ m !! bk_fingerprint key = None ∧ m' = <[bk_fingerprint key := key]> m.
Proof.
  unfold add_history_key. rewrite !seq_Ok, validate_time_Ok, !validate_optional_time_Ok, !reject_if_Ok,
    key_times_Ok, bool_decide_eq_false, <- eq_None_not_Some, Ok_inj_iff.
  split.
  - intros (? & ? & ? & ? & Har & (? & ?) & ? & ->). split; [|done]. constructor; try done.
    intros t Ht. rewrite Ht in Har. by apply Z.ltb_ge in Har.
  - intros ([] & ? & ->). split_and!; try done; try lia.
    destruct (bp_archived_at (pb_persona b)); [|done]. apply Z.ltb_ge. auto.
Qed.

Lemma keys_map_lookup keys fp key :
  NoDup (bk_fingerprint <$> keys) →
  keys_by_fingerprint keys !! fp = Some key ↔ key ∈ keys ∧ bk_fingerprint key = fp.
Proof.
  unfold keys_by_fingerprint. induction keys as [|k keys IH] using rev_ind; intros Hnd.
  { cbn. rewrite lookup_empty. split; [done|]. intros [Hin _]. by apply elem_of_nil in Hin. }
  rewrite fmap_app, NoDup_app in Hnd. destruct Hnd as (Hnd & Hdisj & _).
  rewrite foldl_app. cbn [foldl]. rewrite lookup_insert_Some, IH by done.
  rewrite elem_of_app, list_elem_of_singleton. split; [naive_solver|].
  intros [[Hin| ->] <-]; [right|by left]. split; [|done]. intros Heq.
  apply (Hdisj (bk_fingerprint key)); [by apply list_elem_of_fmap_2|]. rewrite <- Heq. cbn. constructor.
Qed.

Lemma keys_fold_Ok b keys m :
  fold_result (add_history_key b) ∅ keys = Ok m ↔
  Forall (key_fits b) keys ∧ NoDup (bk_fingerprint <$> keys) ∧ m = keys_by_fingerprint keys.
Proof.
  revert m. induction keys as [|k keys IH] using rev_ind; intros m.
  { cbn. split; [intros [= <-]|intros (_ & _ & ->)]; split_and?; try done; constructor. }
  rewrite fold_result_app. rewrite bind_Ok. setoid_rewrite IH. clear IH.
  cbn [fold_result]. setoid_rewrite bind_Ok. setoid_rewrite Ok_inj_iff. setoid_rewrite add_key_Ok.
  rewrite Forall_app, fmap_app, NoDup_app. cbn [fmap list_fmap]. rewrite Forall_singleton.
  assert (keys_by_fingerprint (keys ++ [k]) = <[bk_fingerprint k := k]> (keys_by_fingerprint keys)) as ->.
  { unfold keys_by_fingerprint. by rewrite foldl_app. }
  split.
  - intros (? & (? & Hnd & ->) & ? & (? & Hnone & ->) & <-). split_and!; try done.
    + intros x (key & -> & Hin)%list_elem_of_fmap Hx%list_elem_of_singleton.
      rewrite <- Hx in Hnone. rewrite (proj2 (keys_map_lookup keys _ key Hnd)) in Hnone by done. done.
    + apply NoDup_singleton.
  - intros ((? & ?) & (Hnd & Hdisj & _) & ->). eexists. split; [done|]. eexists. split; [|done].
    split_and!; try done. destruct (keys_by_fingerprint keys !! bk_fingerprint k) as [key|] eqn:E; [|done].
    apply keys_map_lookup in E as [Hin Heq]; [|done]. exfalso. apply (Hdisj (bk_fingerprint k)).
    + rewrite <- Heq. by apply list_elem_of_fmap_2.
    + constructor.
Qed.
End keys.

(** ** The phases of a key *)

Inductive Phase := Unborn | Alive | Gone | Lost | GoneLost.

Definition phase_status (ph : Phase) : option KeyStatus :=
  match ph with
  | Unborn => None
  | Alive => Some Active
  | Gone => Some Retired
  | Lost | GoneLost => Some Compromised
  end.
Definition phase_retired (ph : Phase) : bool :=
  match ph with Gone | GoneLost => true | _ => false end.
Definition phase_compromised (ph : Phase) : bool :=
  match ph with Lost | GoneLost => true | _ => false end.
Definition phase_time (key : BackupKey) (ph : Phase) : option Z :=
  match ph with
  | Unborn => None
  | Alive => Some (bk_added_at key)
  | Gone => bk_retired_at key
  | Lost | GoneLost => bk_compromised_at key
  end.

(** The phase after what an event says happened. *)
Definition advance (key : BackupKey) (ph : Phase) (what : option LifeKind * Z) : option Phase :=
  match ph, what with
  | Unborn, (Some Born, t) => if t == bk_added_at key then Some Alive else None
  | Alive, (Some WasRetired, t) => if bk_retired_at key == Some t then Some Gone else None
  | Alive, (Some WasCompromised, t) => if bk_compromised_at key == Some t then Some Lost else None
  | Gone, (Some WasCompromised, t) => if bk_compromised_at key == Some t then Some GoneLost else None
  | _, _ => None
  end.

Fixpoint advances (key : BackupKey) (ph : Phase) (l : list (option LifeKind * Z)) : option Phase :=
  match l with
  | [] => Some ph
  | what :: l => match advance key ph what with Some ph => advances key ph l | None => None end
  end.

Definition final_phase (key : BackupKey) : Phase :=
  match bk_retired_at key, bk_compromised_at key with
  | None, None => Alive
  | Some _, None => Gone
  | None, Some _ => Lost
  | Some _, Some _ => GoneLost
  end.

Lemma advances_app key ph l k :
  advances key ph (l ++ k) =
  match advances key ph l with Some ph => advances key ph k | None => None end.
Proof. revert ph. induction l as [|w l IH]; intros ph; cbn; [done|]. by destruct (advance key ph w). Qed.

(** Reaching the recorded phase takes exactly the recorded life. *)
Lemma advances_final key l :
  advances key Unborn l = Some (final_phase key) ↔ l = recorded_life key.
Proof.
  unfold final_phase, recorded_life.
  split.
  - destruct (bk_retired_at key) as [r|] eqn:Hr, (bk_compromised_at key) as [c|] eqn:Hc;
      do 4 (destruct l as [|[[[]|] ?] l]; cbn; rewrite ?Hr, ?Hc; try done; try case_bool_decide; try done;
            simplify_eq; try done).
  - intros ->. destruct (bk_retired_at key) as [r|] eqn:Hr, (bk_compromised_at key) as [c|] eqn:Hc;
      repeat (cbn; rewrite ?Hr, ?Hc; rewrite bool_decide_true by done); done.
Qed.

(** ** Replaying *)

Section replay.
Context {crates : Crates}.

(** The replay holds what belongs to the phase of a key. *)
Record tracks (rp : Replay) (key : BackupKey) (ph : Phase) : Prop := {
  tr_status : rp_states rp !! bk_fingerprint key = phase_status ph;
  tr_time : rp_last_event_times rp !! bk_fingerprint key = phase_time key ph;
  tr_retired : bk_fingerprint key ∈ rp_observed_retirements rp ↔ phase_retired ph = true;
  tr_compromised : bk_fingerprint key ∈ rp_observed_compromises rp ↔ phase_compromised ph = true;
}.

(** The next status of a key is that of its next phase. *)
Lemma next_status_advance key e ph status :
  next_status key e (phase_status ph) = Ok status ↔
  ∃ ph', advance key ph (event_kind (be_event_type e), be_occurred_at e) = Some ph' ∧
    phase_status ph' = Some status.
Proof.
  unfold next_status, event_kind. destruct (is_origin (be_event_type e)) eqn:Ho.
  - assert (be_event_type e ≠ "retired") by (intros Hx; by rewrite Hx in Ho).
    assert (be_event_type e ≠ "compromised") by (intros Hx; by rewrite Hx in Ho).
    destruct ph; cbn; rewrite ?(bool_decide_false (_ = "retired")), ?(bool_decide_false (_ = "compromised"))
      by done; cbn; try case_bool_decide; naive_solver.
  - destruct (decide (be_event_type e = "retired")) as [->|?]; [|
      destruct (decide (be_event_type e = "compromised")) as [->|?]];
      rewrite ?(bool_decide_false (_ = "retired")), ?(bool_decide_false (_ = "compromised")) by done;
      destruct ph; cbn; repeat case_bool_decide; cbn; naive_solver.
Qed.

Lemma advance_status key ph w ph' : advance key ph w = Some ph' → is_Some (phase_status ph').
Proof. destruct w as [[[]|] t], ph; cbn; try done; case_bool_decide; try done; intros [= <-]; eauto. Qed.

(** A key that fits its times never goes back in time. *)
Lemma advance_forward b key ph what ph' :
  key_fits b key → advance key ph what = Some ph' →
  phase_time key ph' = Some what.2 ∧
  match phase_time key ph with Some previous_time => (what.2 <? previous_time)%Z | None => false end = false.
Proof.
  intros Hfit. destruct what as [[[]|] t]; destruct ph; cbn; try done; case_bool_decide as Ht; try done;
    intros [= <-]; cbn; try (by rewrite ?Ht); rewrite ?Ht; split; try done.
  - apply Z.ltb_ge. by apply (kf_retired b key).
  - apply Z.ltb_ge. by apply (kf_compromised b key).
  - destruct (bk_retired_at key) as [r|] eqn:Hr; [|done]. apply Z.ltb_ge. by apply (kf_order b key).
Qed.

(** What the replay becomes when a key gets a status. *)
Definition replay_next (rp : Replay) (fp : string) (t : Z) (status : KeyStatus) : Replay :=
  {| rp_states := <[fp := status]> (rp_states rp);
     rp_last_event_times := <[fp := t]> (rp_last_event_times rp);
     rp_last_persona_event_time := Some t;
     rp_observed_retirements :=
       if status == Retired then {[fp]} ∪ rp_observed_retirements rp
       else rp_observed_retirements rp;
     rp_observed_compromises :=
       if status == Compromised then {[fp]} ∪ rp_observed_compromises rp
       else rp_observed_compromises rp |}.

Lemma tracks_next_same b rp key ph what ph' status :
  key_fits b key → tracks rp key ph → advance key ph what = Some ph' → phase_status ph' = Some status →
  tracks (replay_next rp (bk_fingerprint key) what.2 status) key ph'.
Proof.
  intros Hfit [Hs Ht Hr Hc] Hadv Hst. destruct (advance_forward b _ _ _ _ Hfit Hadv) as [Htime _].
  constructor; cbn; rewrite ?lookup_insert_eq; [done..| |];
    destruct what as [[[]|] t], ph; cbn in Hadv; try done; case_bool_decide; try done; simplify_eq;
    cbn in *; simplify_eq; cbn; set_solver.
Qed.

Lemma tracks_next_other rp key fp t status ph :
  bk_fingerprint key ≠ fp → tracks rp key ph → tracks (replay_next rp fp t status) key ph.
Proof.
  intros Hne [Hs Ht Hr Hc].
  constructor; cbn; rewrite ?lookup_insert_ne by done; [done..| |]; case_bool_decide; set_solver.
Qed.

Lemma tracks_start key : tracks replay_start key Unborn.
Proof. constructor; cbn; set_solver. Qed.

(** ** The loop over the events *)

Definition what (e : BackupKeyEvent) : option LifeKind * Z :=
  (event_kind (be_event_type e), be_occurred_at e).

Lemma life_snoc fp pre e :
  life fp (pre ++ [e]) = life fp pre ++ (if decide (be_key_fingerprint e = fp) then [what e] else []).
Proof.
  unfold life. rewrite filter_app, fmap_app. f_equal. rewrite filter_cons, filter_nil.
  by destruct (decide (be_key_fingerprint e = fp)).
Qed.

Context (b : PersonaBackup) (portable : bool).

(** The event can follow a history. *)
Record next_fits (pre : list BackupKeyEvent) (e : BackupKeyEvent) : Prop := {
  nf_bound : (len pre + 1 <= u32_max)%N;
  nf_ordinal : be_ordinal e = (len pre + 1)%N;
  nf_event : event_fits b e;
  nf_forward e' : portable = true → last pre = Some e' → (be_occurred_at e' <= be_occurred_at e)%Z;
  nf_life : ∃ key, key ∈ pb_keys b ∧ bk_fingerprint key = be_key_fingerprint e ∧
    is_Some (advances key Unborn (life (bk_fingerprint key) pre ++ [what e]));
}.

Record replayed (pre : list BackupKeyEvent) (st : N * Replay) : Prop := {
  re_index : st.1 = len pre;
  re_last : rp_last_persona_event_time st.2 = be_occurred_at <$> last pre;
  re_tracks key : key ∈ pb_keys b → ∃ ph,
    advances key Unborn (life (bk_fingerprint key) pre) = Some ph ∧ tracks st.2 key ph;
}.

Hypothesis Hkeys : Forall (key_fits b) (pb_keys b).
Hypothesis Hdistinct : NoDup (bk_fingerprint <$> pb_keys b).

Lemma same_key k1 k2 :
  k1 ∈ pb_keys b → k2 ∈ pb_keys b → bk_fingerprint k1 = bk_fingerprint k2 → k1 = k2.
Proof.
  intros H1 H2 Heq.
  assert (keys_by_fingerprint (pb_keys b) !! bk_fingerprint k2 = Some k1) as E1 by by apply keys_map_lookup.
  assert (keys_by_fingerprint (pb_keys b) !! bk_fingerprint k2 = Some k2) as E2 by by apply keys_map_lookup.
  congruence.
Qed.

Lemma replayed_next pre rp e key ph ph' status :
  replayed pre (len pre, rp) → key ∈ pb_keys b → bk_fingerprint key = be_key_fingerprint e →
  advances key Unborn (life (bk_fingerprint key) pre) = Some ph → tracks rp key ph →
  advance key ph (what e) = Some ph' → phase_status ph' = Some status →
  replayed (pre ++ [e]) ((len pre + 1)%N, replay_next rp (bk_fingerprint key) (be_occurred_at e) status).
Proof.
  intros [_ Hl Htr] Hin Hfp Hadv Hph Hnext Hst. constructor; cbn.
  - rewrite len_app. done.
  - by rewrite last_snoc.
  - intros key' Hin'. destruct (decide (bk_fingerprint key' = bk_fingerprint key)) as [Heq|Hne].
    + apply same_key in Heq; [|done..]. subst key'. exists ph'. rewrite life_snoc, decide_True by done.
      rewrite advances_app, Hadv. cbn [advances]. rewrite Hnext. split; [done|].
      apply (tracks_next_same b rp key ph (what e)); try done. rewrite Forall_forall in Hkeys. auto.
    + destruct (Htr key' Hin') as (ph1 & Ha1 & Ht1). exists ph1.
      rewrite life_snoc, decide_False, app_nil_r by congruence. split; [done|].
      by apply tracks_next_other.
Qed.

Lemma event_note_Ok e :
  match be_note e with
  | Some note => validate_backup_text "backup event note" note MAX_NOTE_BYTES
  | None => Ok tt
  end = Ok tt ↔
  ∀ note, be_note e = Some note → validate_backup_text "backup event note" note MAX_NOTE_BYTES = Ok tt.
Proof. destruct (be_note e); naive_solver. Qed.

Lemma event_archived_Ok e :
  is_origin (be_event_type e) &&
  match bp_archived_at (pb_persona b) with
  | Some archived_at => (archived_at <? be_occurred_at e)%Z
  | None => false
  end = false ↔
  ∀ t, is_origin (be_event_type e) = true → bp_archived_at (pb_persona b) = Some t →
    (be_occurred_at e <= t)%Z.
Proof.
  destruct (is_origin (be_event_type e)), (bp_archived_at (pb_persona b)); cbn; rewrite ?Z.ltb_ge; naive_solver.
Qed.

Lemma event_forward_Ok pre rp e :
  rp_last_persona_event_time rp = be_occurred_at <$> last pre →
  portable &&
  match rp_last_persona_event_time rp with
  | Some previous_time => (be_occurred_at e <? previous_time)%Z
  | None => false
  end = false ↔
  ∀ e', portable = true → last pre = Some e' → (be_occurred_at e' <= be_occurred_at e)%Z.
Proof.
  intros ->. destruct portable, (last pre); cbn; rewrite ?Z.ltb_ge; naive_solver.
Qed.

(** One round of the loop succeeds exactly for an event that fits, and the
    replay then describes the longer history. *)
Lemma replay_event_Ok pre rp e st :
  replayed pre (len pre, rp) →
  replay_event b portable (keys_by_fingerprint (pb_keys b)) (len pre, rp) e = Ok st →
  next_fits pre e ∧ replayed (pre ++ [e]) st.
Proof.
  intros Hrep H. cbn [replay_event] in H. unbind H as n Hn. apply expect_Ok, u32_try_from_Some in Hn as [-> Hn].
  apply seq_Ok in H as [Hord H]. apply reject_if_Ok, negb_false_iff, bool_decide_eq_true in Hord.
  unbind H as key Hkey. apply ok_or_Ok, keys_map_lookup in Hkey as [Hin Hfp]; [|done].
  rewrite !seq_Ok, validate_time_Ok, !reject_if_Ok, event_note_Ok, event_archived_Ok in H.
  rewrite (event_forward_Ok pre) in H by apply Hrep.
  destruct H as (? & ? & ? & ? & ? & ? & _ & H). unbind H as status Hst. injection H as <-.
  destruct (re_tracks _ _ Hrep key Hin) as (ph & Hadv & Htr). cbn in Htr.
  rewrite (tr_status _ _ _ Htr) in Hst. apply next_status_advance in Hst as (ph' & Hnext & Hst).
  split; [|by apply (replayed_next pre rp e key ph ph')].
  constructor; [done..|by constructor|done|]. exists key. split; [done|]. split; [done|].
  rewrite advances_app, Hadv. cbn [advances]. fold (what e) in Hnext. by rewrite Hnext.
Qed.

Lemma replay_event_runs pre rp e :
  replayed pre (len pre, rp) → next_fits pre e →
  ∃ st, replay_event b portable (keys_by_fingerprint (pb_keys b)) (len pre, rp) e = Ok st.
Proof.
  intros Hrep [Hb Hord [] Hfwd (key & Hin & Hfp & Hlife)].
  destruct (re_tracks _ _ Hrep key Hin) as (ph & Hadv & Htr). cbn in Htr.
  rewrite advances_app, Hadv in Hlife. cbn [advances] in Hlife.
  destruct (advance key ph (what e)) as [ph'|] eqn:Hnext; [|by destruct Hlife].
  assert (key_fits b key) as Hfit by (rewrite Forall_forall in Hkeys; auto).
  assert (∃ status, phase_status ph' = Some status) as [status Hst].
  { by apply advance_status in Hnext. }
  assert (next_status key e (phase_status ph) = Ok status) as Hok by (apply next_status_advance; eauto).
  eexists. cbn [replay_event]. apply bind_Ok. eexists. split; [by apply expect_Ok, u32_try_from_Some|].
  apply seq_Ok. split; [by apply reject_if_Ok, negb_false_iff, bool_decide_eq_true|].
  apply bind_Ok. exists key. split; [by apply ok_or_Ok, keys_map_lookup|].
  rewrite !seq_Ok, validate_time_Ok, !reject_if_Ok, event_note_Ok, event_archived_Ok.
  rewrite (event_forward_Ok pre) by apply Hrep. rewrite (tr_status _ _ _ Htr), (tr_time _ _ _ Htr).
  destruct (advance_forward _ _ _ _ _ Hfit Hnext) as [_ Hback]. cbn in Hback. rewrite Hback, Hok. done.
Qed.

(** Every event fits the events before it. *)
Definition fits (pre : list BackupKeyEvent) : Prop :=
  ∀ i e, pre !! i = Some e → next_fits (take i pre) e.

Lemma fits_snoc pre e : fits (pre ++ [e]) ↔ fits pre ∧ next_fits pre e.
Proof.
  unfold fits. split.
  - intros H. split.
    + intros i x Hi. assert (i < length pre) by by eapply lookup_lt_Some.
      specialize (H i x). rewrite lookup_app_l, take_app_le in H by lia. auto.
    + specialize (H (length pre) e). rewrite take_app_length in H. apply H.
      by apply list_lookup_middle.
  - intros [Hpre He] i x [[Hi Hx]|[-> ->]]%lookup_snoc_Some.
    + rewrite take_app_le by lia. auto.
    + by rewrite take_app_length.
Qed.

Lemma replayed_start : replayed [] (0%N, replay_start).
Proof. constructor; [done..|]. intros key _. exists Unborn. split; [done|apply tracks_start]. Qed.

Lemma replay_fold_Ok pre st :
  fold_result (replay_event b portable (keys_by_fingerprint (pb_keys b))) (0%N, replay_start) pre = Ok st →
  fits pre ∧ replayed pre st.
Proof.
  apply (fold_result_ind _ (λ pre st, fits pre ∧ replayed pre st)).
  - split; [intros i e; by rewrite lookup_nil|apply replayed_start].
  - intros pre' e [i rp] st' [Hf Hrep] Hstep. pose proof (re_index _ _ Hrep) as Hi. cbn in Hi. subst i.
    apply replay_event_Ok in Hstep as [Hnext Hrep']; [|done]. rewrite fits_snoc. done.
Qed.

Lemma replay_fold_runs pre :
  fits pre → ∃ st,
  fold_result (replay_event b portable (keys_by_fingerprint (pb_keys b))) (0%N, replay_start) pre = Ok st.
Proof.
  induction pre as [|e pre IH] using rev_ind; [by eexists|]. intros [Hf Hnext]%fits_snoc.
  destruct (IH Hf) as [[i rp] Hst]. destruct (replay_fold_Ok _ _ Hst) as [_ Hrep].
  pose proof (re_index _ _ Hrep) as Hi. cbn in Hi. subst i.
  destruct (replay_event_runs pre rp e Hrep Hnext) as [st' Hst'].
  exists st'. rewrite fold_result_app, Hst, bind_Ok_l. cbn [fold_result]. by rewrite Hst'.
Qed.

(** The state at the end is compared with the record of each key. *)
Lemma check_replayed_Ok rp key ph :
  key_fits b key → tracks rp key ph → check_replayed_key rp key = Ok tt ↔ ph = final_phase key.
Proof.
  intros Hfit [Hs _ Hr Hc]. unfold check_replayed_key, final_phase.
  pose proof (kf_status b key Hfit) as Hst. unfold recorded_status in Hst. rewrite Hst, Hs.
  rewrite bind_Ok. setoid_rewrite ok_or_Ok. setoid_rewrite seq_Ok. setoid_rewrite seq_Ok.
  setoid_rewrite reject_if_Ok. rewrite (bool_decide_ext _ _ Hr), (bool_decide_ext _ _ Hc).
  destruct ph, (bk_retired_at key), (bk_compromised_at key); cbn; naive_solver.
Qed.

Lemma fits_iff pre :
  fits pre ↔ (len pre <= u32_max)%N ∧
    (∀ i e, pre !! i = Some e → be_ordinal e = N.of_nat (S i)) ∧
    (∀ e, e ∈ pre → ∃ key, key ∈ pb_keys b ∧ bk_fingerprint key = be_key_fingerprint e) ∧
    Forall (event_fits b) pre ∧
    (∀ i e e', portable = true → pre !! i = Some e → pre !! S i = Some e' →
       (be_occurred_at e <= be_occurred_at e')%Z) ∧
    (∀ key, key ∈ pb_keys b → is_Some (advances key Unborn (life (bk_fingerprint key) pre))).
Proof.
  induction pre as [|e pre IH] using rev_ind.
  { split; [intros _|intros _ i e; by rewrite lookup_nil]. split_and!; try done.
    intros e He. by apply elem_of_nil in He. }
  rewrite fits_snoc, IH. clear IH. split.
  - intros ((Hb & Ho & Hk & He & Hf & Hl) & [Hb' Ho' He' Hf' (key & Hin & Hfp & Hlife)]).
    split_and!.
    + rewrite len_app. done.
    + intros i x [[_ Hx]|[-> <-]]%lookup_snoc_Some; [auto|]. rewrite Ho'. unfold len. lia.
    + intros x. rewrite elem_of_app, list_elem_of_singleton. intros [?| ->]; [auto|eauto].
    + by rewrite Forall_app, Forall_singleton.
    + intros i x y Hp [[Hi Hx]|[-> <-]]%lookup_snoc_Some [[Hj Hy]|[Hj <-]]%lookup_snoc_Some; try lia; [eauto|].
      apply Hf'; [done|]. rewrite last_lookup, <- Hj. done.
    + intros key' Hin'. rewrite life_snoc. case_decide as Hd; [|rewrite app_nil_r; auto].
      assert (key' = key) as -> by (apply same_key; congruence). done.
  - rewrite len_app. intros (Hb & Ho & Hk & He & Hf & Hl). cbn in Hb.
    rewrite Forall_app, Forall_singleton in He. split.
    + split_and!; try (by apply He); [lia|..].
      * intros i x Hx. apply Ho. by apply lookup_app_l_Some.
      * intros x Hx. apply Hk. rewrite elem_of_app. by left.
      * intros i x y Hp Hx Hy. eapply Hf; [done| |]; by apply lookup_app_l_Some.
      * intros key Hin. specialize (Hl key Hin). rewrite life_snoc, advances_app in Hl.
        by destruct (advances key Unborn (life (bk_fingerprint key) pre)); [|destruct Hl].
    + constructor; [done| |by apply He| |].
      * rewrite (Ho (length pre)) by by apply list_lookup_middle. unfold len. lia.
      * intros x Hp Hx. rewrite last_lookup in Hx.
        assert (0 < length pre) by (destruct pre; [done|cbn; lia]).
        apply (Hf (pred (length pre))); [done|by apply lookup_app_l_Some|].
        rewrite Nat.succ_pred by lia. by apply list_lookup_middle.
      * destruct (Hk e) as (key & Hin & Hfp); [rewrite elem_of_app; right; constructor|].
        exists key. split_and!; [done..|]. specialize (Hl key Hin).
        rewrite life_snoc, decide_True in Hl by done. done.
Qed.
End replay.

Section claim.
Context {crates : Crates}.

(** The replay of the events decides whether the keys lived as recorded. *)
Lemma replay_lived b portable :
  validate_history_replay b portable = Ok tt ↔ lived b portable.
Proof.
  unfold validate_history_replay. rewrite bind_Ok. split.
  - intros (m & (Hk & Hnd & ->)%keys_fold_Ok & H). unbind H as [i rp] Hfold.
    apply replay_fold_Ok in Hfold as [Hfits Hrep]; [|done..].
    pose proof Hfits as (? & ? & ? & ? & ? & ?)%fits_iff; [|done..].
    constructor; try done. intros key Hin. rewrite each_result_Ok, Forall_forall in H.
    destruct (re_tracks _ _ _ Hrep key Hin) as (ph & Hadv & Htr).
    apply advances_final. rewrite Hadv. f_equal.
    apply (check_replayed_Ok b rp key ph); auto. rewrite Forall_forall in Hk. auto.
  - intros [Hk Hnd ? ? ? ? ? Hlives]. eexists. split; [by apply keys_fold_Ok|]. apply bind_Ok.
    assert (fits b portable (pb_events b)) as Hfits.
    { apply fits_iff; [done..|]. split_and!; try done. intros key Hin.
      eexists. by apply advances_final, Hlives. }
    destruct (replay_fold_runs b portable Hk Hnd _ Hfits) as [[i rp] Hst].
    exists (i, rp). split; [done|]. apply replay_fold_Ok in Hst as [_ Hrep]; [|done..].
    rewrite each_result_Ok, Forall_forall. intros key Hin.
    destruct (re_tracks _ _ _ Hrep key Hin) as (ph & Hadv & Htr).
    rewrite (proj2 (advances_final key _) (Hlives key Hin)) in Hadv. injection Hadv as <-.
    apply (check_replayed_Ok b rp key (final_phase key)); auto. rewrite Forall_forall in Hk. auto.
Qed.
Context {uuids : Uuids}
  {json_root_proof : Serde PersonaRootProof} {json_policy_proof : Serde RecoveryPolicyProof}
  {json_entry : Serde PersonaContinuityTransitionProof}
  {json_terminal_proof : Serde TerminalPersonaRevocationProof}
  {json_root : Serde PersonaRootStatement} {json_transition : Serde PersonaTransitionStatement}
  {json_policy : Serde RecoveryPolicyStatement} {json_recovery : Serde RecoveryTransitionStatement}
  {json_terminal : Serde TerminalPersonaRevocationStatement}.

(** *** The schema and the persona *)

(** Schema v1 has no continuity field, v2 and v3 have one; only these are
    known, and those with the field are the portable ones. *)
Definition schema_known (b : PersonaBackup) (portable : bool) : Prop :=
  (pb_backup_schema b = PERSONA_BACKUP_V1_SCHEMA ∧ pb_continuity b = None ∧ portable = false) ∨
  ((pb_backup_schema b = PERSONA_BACKUP_V2_SCHEMA ∨ pb_backup_schema b = PERSONA_BACKUP_SCHEMA) ∧
   is_Some (pb_continuity b) ∧ portable = true).

(** Trimmed text of some length that can be shown. *)
Definition backup_text (maximum : N) (value : string) : Prop :=
  trim value = value ∧ value ≠ EmptyString ∧ (str_len value <= maximum)%N ∧
  contains_unsafe_display_characters value = false.

Record persona_fits (b : PersonaBackup) (portable : bool) (scope : HistoryValidationScope) : Prop := {
  pf_exported : (0 <= pb_exported_at b)%Z ∧
    (portable = true → (pb_exported_at b <= MAX_PORTABLE_JSON_INTEGER)%Z);
  pf_id : ∃ id, Uuid_parse_str (bp_id (pb_persona b)) = Some id ∧ Uuid_to_string id = bp_id (pb_persona b);
  pf_label : backup_text MAX_LABEL_BYTES (bp_label (pb_persona b));
  pf_created : (0 <= bp_created_at (pb_persona b) <= pb_exported_at b)%Z;
  pf_archived t : bp_archived_at (pb_persona b) = Some t →
    (bp_created_at (pb_persona b) <= t <= pb_exported_at b)%Z;
  pf_bounds : scope = PortableBackup → (len (pb_keys b) <= MAX_PERSONA_BACKUP_KEYS)%N ∧
    (len (pb_events b) <= MAX_PERSONA_BACKUP_EVENTS)%N;
}.

Lemma history_is_portable_Ok b portable :
  history_is_portable b = Ok portable ↔ schema_known b portable.
Proof.
  unfold history_is_portable, schema_known.
  destruct (bool_decide_reflect (pb_backup_schema b = PERSONA_BACKUP_V1_SCHEMA)) as [E|E].
  - rewrite seq_Ok, reject_if_Ok, bool_decide_eq_false, <- eq_None_not_Some, Ok_inj_iff, E. clear E.
    split; [intros []; left; by split_and!|]. intros [(_ & ? & ->)|[[?|?] _]]; done.
  - destruct (bool_decide_reflect (pb_backup_schema b = PERSONA_BACKUP_V2_SCHEMA)) as [E2|E2],
      (bool_decide_reflect (pb_backup_schema b = PERSONA_BACKUP_SCHEMA)) as [E3|E3]; cbn [orb].
    4: { split; [done|]. intros [[? _]|[[?|?] _]]; done. }
    all: rewrite seq_Ok, reject_if_Ok, negb_false_iff, bool_decide_eq_true, Ok_inj_iff.
    all: split; [intros [? <-]; right; auto|]; intros [[? _]|(_ & ? & ->)]; done.
Qed.

Lemma validate_backup_text_Ok field value maximum :
  validate_backup_text field value maximum = Ok tt ↔ backup_text maximum value.
Proof.
  unfold validate_backup_text, validate_canonical_text, validate_required_text, backup_text.
  split.
  - intros H. unbind H as v Hv. unbind Hv as c Hc.
    rewrite !seq_Ok, !reject_if_Ok, bool_decide_eq_false, N.ltb_ge in Hc. destruct Hc as (? & ? & ? & [= <-]).
    rewrite seq_Ok, reject_if_Ok, negb_false_iff, bool_decide_eq_true in Hv. destruct Hv as [Ht _].
    rewrite Ht in *. done.
  - intros (Ht & Hne & Hl & Hs). rewrite Ht, bool_decide_eq_false_2 by done. cbn [reject_if].
    rewrite bind_Ok_l, (proj2 (N.ltb_ge _ _) Hl), Hs. cbn [reject_if]. rewrite !bind_Ok_l, bool_decide_eq_true_2 by done.
    done.
Qed.

Lemma validate_history_persona_Ok b portable scope :
  validate_history_persona b portable scope = Ok tt ↔ persona_fits b portable scope.
Proof.
  assert (∀ e e' (k : StoreResult unit), (parsed_id ← ok_or (Uuid_parse_str (bp_id (pb_persona b))) e;
      reject_if (Uuid_to_string parsed_id != bp_id (pb_persona b)) e';; k) = Ok tt ↔
    (∃ id, Uuid_parse_str (bp_id (pb_persona b)) = Some id ∧ Uuid_to_string id = bp_id (pb_persona b)) ∧
    k = Ok tt) as Hid.
  { intros e e' k. rewrite bind_Ok. setoid_rewrite ok_or_Ok. setoid_rewrite seq_Ok. setoid_rewrite reject_if_Ok.
    setoid_rewrite negb_false_iff. setoid_rewrite bool_decide_eq_true. clear. naive_solver. }
  unfold validate_history_persona. cbn zeta. rewrite !seq_Ok, Hid. clear Hid.
  rewrite !seq_Ok, !reject_if_Ok, !andb_false_iff, !Z.ltb_ge, validate_backup_text_Ok, validate_time_Ok, validate_optional_time_Ok,
    !bool_decide_eq_false, !N.ltb_ge.
  split.
  - intros (? & Hp & ? & ? & ? & ? & Hk & He). split; [|eauto|done..|].
    + split; [done|]. intros ->. by destruct Hp.
    + intros Hs. destruct Hk, He; done.
  - intros [[? Hp] ? ? ? ? Hb]. split; [done|]. split; [destruct portable; auto|].
    do 4 (split; [done|]). split; destruct (decide (scope = PortableBackup)) as [Hs|]; try (by left);
      right; by apply Hb.
Qed.

(** *** The archive of evidence *)

(** A proof of the archive serialises to bytes that parse. *)
Definition reparses {A B} `{!Serde A} (parse : bytes → Result B) (proof : A) : Prop :=
  ∃ bs r, json_to_vec proof = inr bs ∧ parse bs = Ok r.

Definition policy_signatures (e : BackupRecoveryPolicyEvidence) : N :=
  match pp_authorization (bo_proof e) with
  | Enrollment signatures => len signatures
  | Update previous current => (len previous + len current)%N
  end.

Definition entry_signatures (e : BackupTransitionEvidence) : N :=
  match bt_proof e with
  | ProofRoutine p => len (tp_signatures p)
  | ProofRecovery p => (len (xp_recovery_signatures p) + 1)%N
  | ProofTerminalRevocation p => len (zp_recovery_signatures p)
  end.

Definition sum_of {A} (f : A → N) (l : list A) : N := foldr (λ a n, f a + n)%N 0%N l.

(** The signatures that verifying an archive checks: two for the root, each
    signature of a policy twice, and those of the entries. *)
Definition archive_signatures (a : BackupContinuityArchive) : N :=
  (2 + sum_of (λ e, 2 * policy_signatures e) (bc_recovery_policies a) +
   sum_of entry_signatures (bc_transitions a) +
   sum_of (λ e, len (zp_recovery_signatures (bz_proof e))) (opt_list (bc_terminal_revocation a)))%N.

(** The observations that were recorded do not go back in time. *)
Definition observed_in_order (observed : list (option Z)) : Prop := Sorted Z.le (omap id observed).

Definition observed_within (b : PersonaBackup) (o : option Z) : Prop :=
  ∀ t, o = Some t → (bp_created_at (pb_persona b) <= t <= pb_exported_at b)%Z.

Record archive_fits (b : PersonaBackup) (a : BackupContinuityArchive) : Prop := {
  af_schema : is_Some (bc_terminal_revocation a) → pb_backup_schema b = PERSONA_BACKUP_SCHEMA;
  af_dedicated e p : e ∈ bc_transitions a → bt_proof e ≠ ProofTerminalRevocation p;
  af_policies : (len (bc_recovery_policies a) <= MAX_PERSONA_BACKUP_RECOVERY_POLICIES)%N;
  af_transitions : (len (bc_transitions a) + len (opt_list (bc_terminal_revocation a)) <=
    MAX_PERSONA_BACKUP_CONTINUITY_TRANSITIONS)%N;
  af_root : observed_within b (br_observed_at (bc_root a)) ∧
    reparses parse_persona_root_proof_bytes (br_proof (bc_root a));
  af_policy e : e ∈ bc_recovery_policies a → observed_within b (bo_observed_at e) ∧
    reparses parse_recovery_policy_proof_bytes (bo_proof e);
  af_entry e : e ∈ bc_transitions a → observed_within b (bt_observed_at e) ∧
    reparses parse_persona_continuity_transition_proof_bytes (bt_proof e);
  af_terminal e : bc_terminal_revocation a = Some e → observed_within b (bz_observed_at e) ∧
    reparses parse_terminal_persona_revocation_proof_bytes (bz_proof e);
  af_policies_forward :
    observed_in_order (br_observed_at (bc_root a) :: (bo_observed_at <$> bc_recovery_policies a));
  af_entries_forward :
    observed_in_order (br_observed_at (bc_root a) :: (bt_observed_at <$> bc_transitions a) ++
      (bz_observed_at <$> opt_list (bc_terminal_revocation a)));
  af_recoverable e p : bt_proof e = ProofRecovery p → e ∈ bc_transitions a → bc_recovery_policies a ≠ [];
  af_revocable : is_Some (bc_terminal_revocation a) → bc_recovery_policies a ≠ [];
  af_signatures : (archive_signatures a <= MAX_PERSONA_BACKUP_SIGNATURES)%N;
}.

(** A history that is accepted. *)
Record history_accepted (b : PersonaBackup) (scope : HistoryValidationScope) (portable : bool) : Prop := {
  ha_schema : schema_known b portable;
  ha_persona : persona_fits b portable scope;
  ha_lived : lived b portable;
  ha_archive a : pb_continuity b = Some (EvidenceArchive a) → archive_fits b a;
}.

Lemma observation_Ok evidence previous current :
  require_nondecreasing_observation evidence previous current = Ok tt ↔
  ∀ p c, previous = Some p → current = Some c → (p <= c)%Z.
Proof.
  unfold require_nondecreasing_observation. destruct previous, current; try naive_solver.
  rewrite reject_if_Ok, Z.ltb_ge. naive_solver.
Qed.

Lemma observed_in_order_cons previous o l :
  observed_in_order (previous :: o :: l) ↔
  (∀ p c, previous = Some p → o = Some c → (p <= c)%Z) ∧
  observed_in_order (later_observation previous o :: l).
Proof.
  unfold observed_in_order. destruct previous as [p|], o as [c|]; cbn.
  - split.
    + intros [Hs Hh]%Sorted_inv. split; [|done]. inversion Hh; naive_solver.
    + intros [Hle Hs]. constructor; [done|]. constructor. by apply Hle.
  - naive_solver.
  - naive_solver.
  - naive_solver.
Qed.

(** What a loop over evidence establishes, when one round is this. *)
Lemma evidence_fold_Ok {A} (step : N * option Z → A → StoreResult (N * option Z)) (ok : A → Prop)
    (signatures : A → N) (observed : A → option Z) :
  (∀ n o x st, step (n, o) x = Ok st ↔
    ok x ∧ (∀ p c, o = Some p → observed x = Some c → (p <= c)%Z) ∧ (n + signatures x <= usize_max)%N ∧
    st = ((n + signatures x)%N, later_observation o (observed x))) →
  ∀ l n o st, (n <= usize_max)%N → fold_result step (n, o) l = Ok st ↔
    Forall ok l ∧ observed_in_order (o :: (observed <$> l)) ∧ (n + sum_of signatures l <= usize_max)%N ∧
    st = ((n + sum_of signatures l)%N, foldl later_observation o (observed <$> l)).
Proof.
  intros Hstep. induction l as [|x l IH]; intros n o st Hn; cbn [fold_result].
  - rewrite Ok_inj_iff. cbn. rewrite N.add_0_r. split; [|by intros (_ & _ & _ & ->)].
    intros <-. split_and!; [done| |done..]. destruct o; repeat constructor.
  - rewrite bind_Ok. setoid_rewrite Hstep. cbn. rewrite observed_in_order_cons, Forall_cons_iff, N.add_assoc. split.
    + intros (st' & (Hok & Hle & Hs & ->) & H). apply IH in H as (? & ? & ? & ->); [|done]. done.
    + intros ((Hok & Hall) & [Hle Hobs] & Hs & ->). eexists. split; [split_and!; [done..| |done]|].
      * unfold sum_of in Hs. cbn in Hs. lia.
      * apply IH; [unfold sum_of in Hs; cbn in Hs; lia|]. split_and!; done.
Qed.

Lemma checked_add_usize_fits n m : (n + m <= usize_max)%N → checked_add_usize n m = Some (n + m)%N.
Proof. intros. by apply checked_add_usize_Some. Qed.

Lemma archived_policy_Ok b n o e st :
  archived_policy b (n, o) e = Ok st ↔
  (observed_within b (bo_observed_at e) ∧ reparses parse_recovery_policy_proof_bytes (bo_proof e)) ∧
  (∀ p c, o = Some p → bo_observed_at e = Some c → (p <= c)%Z) ∧
  (n + 2 * policy_signatures e <= usize_max)%N ∧
  st = ((n + 2 * policy_signatures e)%N, later_observation o (bo_observed_at e)).
Proof.
  unfold archived_policy, validate_observed_time, reparses.
  assert (∀ c, archived_policy_signatures (bo_proof e) = Ok c ↔
    c = policy_signatures e ∧ (c <= usize_max ∨ ∃ s, pp_authorization (bo_proof e) = Enrollment s)%N) as Hsig.
  { intros c. unfold archived_policy_signatures, policy_signatures.
    destruct (pp_authorization (bo_proof e)) as [s|s s'].
    - rewrite Ok_inj_iff. naive_solver.
    - rewrite ok_or_Ok, checked_add_usize_Some. naive_solver. }
  rewrite !seq_Ok, validate_optional_time_Ok, observation_Ok, bind_Ok. split.
  - intros (Ho & Hf & bs & Hbs & H). rewrite map_err_Ok, of_sum_Ok in Hbs. unbind H as r Hr.
    rewrite map_err_Ok in Hr. unbind H as c Hc. apply Hsig in Hc as [-> _].
    unbind H as twice Ht. unfold checked_mul2 in Ht. rewrite ok_or_Ok in Ht. case_match; [|done]. injection Ht as <-.
    unbind H as m Hm. rewrite ok_or_Ok, checked_add_usize_Some in Hm. destruct Hm as [-> Hm]. injection H as <-.
    split_and!; eauto.
  - intros ((Ho & bs & r & Hbs & Hr) & Hf & Hn & ->). split_and!; [done..|]. exists bs.
    rewrite Hbs. split; [done|]. rewrite Hr. cbn [map_err]. rewrite bind_Ok_l.
    rewrite (proj2 (Hsig (policy_signatures e))) by (split; [done|left; lia]). rewrite bind_Ok_l.
    unfold checked_mul2. rewrite (proj2 (N.leb_le _ _)) by lia. cbn [ok_or]. rewrite bind_Ok_l.
    by rewrite checked_add_usize_fits.
Qed.

Lemma archived_transition_Ok b n o e st :
  archived_transition b (n, o) e = Ok st ↔
  (observed_within b (bt_observed_at e) ∧
   reparses parse_persona_continuity_transition_proof_bytes (bt_proof e)) ∧
  (∀ p c, o = Some p → bt_observed_at e = Some c → (p <= c)%Z) ∧
  (n + entry_signatures e <= usize_max)%N ∧
  st = ((n + entry_signatures e)%N, later_observation o (bt_observed_at e)).
Proof.
  unfold archived_transition, validate_observed_time, reparses.
  assert (∀ c, archived_transition_signatures (bt_proof e) = Ok c → c = entry_signatures e) as Hs.
  { intros c. unfold archived_transition_signatures, entry_signatures.
    destruct (bt_proof e); rewrite ?ok_or_Ok, ?checked_add_usize_Some, ?Ok_inj_iff; naive_solver. }
  assert ((entry_signatures e <= usize_max)%N → archived_transition_signatures (bt_proof e) = Ok (entry_signatures e)) as Hs'.
  { unfold archived_transition_signatures, entry_signatures.
    destruct (bt_proof e); [done| |done]. by rewrite ok_or_Ok, checked_add_usize_Some. }
  rewrite !seq_Ok, validate_optional_time_Ok, observation_Ok, bind_Ok. split.
  - intros (Ho & Hf & bs & Hbs & H). rewrite map_err_Ok, of_sum_Ok in Hbs. unbind H as r Hr.
    rewrite map_err_Ok in Hr. unbind H as c Hc. apply Hs in Hc as ->.
    unbind H as m Hm. rewrite ok_or_Ok, checked_add_usize_Some in Hm. destruct Hm as [-> Hm]. injection H as <-.
    split_and!; eauto.
  - intros ((Ho & bs & r & Hbs & Hr) & Hf & Hn & ->). split_and!; [done..|]. exists bs.
    rewrite Hbs. split; [done|]. rewrite Hr. cbn [map_err]. rewrite bind_Ok_l, Hs', bind_Ok_l by lia.
    by rewrite checked_add_usize_fits.
Qed.

Lemma archived_terminal_Ok b n o terminal m : (n <= usize_max)%N →
  archived_terminal b (n, o) terminal = Ok m ↔
  (∀ e, terminal = Some e → observed_within b (bz_observed_at e) ∧
     reparses parse_terminal_persona_revocation_proof_bytes (bz_proof e)) ∧
  observed_in_order (o :: (bz_observed_at <$> opt_list terminal)) ∧
  let total := (n + sum_of (λ e, len (zp_recovery_signatures (bz_proof e))) (opt_list terminal))%N in
  (total <= usize_max)%N ∧ m = total.
Proof.
  intros Hn. destruct terminal as [e|]; cbn [archived_terminal opt_list fmap list_fmap sum_of foldr].
  - unfold validate_observed_time, reparses. rewrite observed_in_order_cons.
    rewrite !seq_Ok, validate_optional_time_Ok, observation_Ok, bind_Ok, N.add_0_r. split.
    + intros (Ho & Hf & bs & Hbs & H). rewrite map_err_Ok, of_sum_Ok in Hbs. unbind H as r Hr.
      rewrite map_err_Ok in Hr. rewrite ok_or_Ok, checked_add_usize_Some in H. destruct H as [-> Hm].
      split_and!; [intros ? [= <-]; eauto 10|done| |done..].
      destruct (later_observation o (bz_observed_at e)); repeat constructor.
    + intros (He & [Hf _] & Hm & ->). destruct (He e eq_refl) as (Ho & bs & r & Hbs & Hr).
      split_and!; [done..|]. exists bs. rewrite Hbs. split; [done|]. rewrite Hr. cbn [map_err]. rewrite bind_Ok_l.
      by rewrite checked_add_usize_fits.
  - rewrite Ok_inj_iff, N.add_0_r. split; [|by intros (_ & _ & _ & ->)].
    intros <-. split_and!; [done| |done..]. destruct o; repeat constructor.
Qed.

Lemma archive_transition_count (a : BackupContinuityArchive) :
  match checked_add_usize (len (bc_transitions a))
    (if bool_decide (is_Some (bc_terminal_revocation a)) then 1 else 0) with
  | Some count => (MAX_PERSONA_BACKUP_CONTINUITY_TRANSITIONS <? count)%N
  | None => true
  end = false ↔
  (len (bc_transitions a) + len (opt_list (bc_terminal_revocation a)) <=
    MAX_PERSONA_BACKUP_CONTINUITY_TRANSITIONS)%N.
Proof.
  assert ((if bool_decide (is_Some (bc_terminal_revocation a)) then 1 else 0)%N =
    len (opt_list (bc_terminal_revocation a))) as -> by by destruct (bc_terminal_revocation a).
  assert (MAX_PERSONA_BACKUP_CONTINUITY_TRANSITIONS <= usize_max)%N by by vm_compute.
  destruct (checked_add_usize _ _) as [count|] eqn:Hc.
  - apply checked_add_usize_Some in Hc as [-> _]. by rewrite N.ltb_ge.
  - split; [done|]. intros Hle. exfalso.
    by rewrite checked_add_usize_fits in Hc by lia.
Qed.

Lemma no_terminal_proof (l : list BackupTransitionEvidence) :
  existsb (λ transition, is_terminal_proof (bt_proof transition)) l = false ↔
  ∀ e p, e ∈ l → bt_proof e ≠ ProofTerminalRevocation p.
Proof.
  induction l as [|x l IH]; cbn; [split; [intros _ e p ?%elem_of_nil; done|done]|].
  rewrite orb_false_iff, IH. split.
  - intros [Hx Hl] e p [->|He]%elem_of_cons; [by intros E; rewrite E in Hx|by apply Hl].
  - intros H. split; [|intros e p He; apply H; by constructor].
    specialize (H x). destruct (bt_proof x) as [| |p]; [done..|]. by destruct (H p (list_elem_of_here _ _)).
Qed.

Lemma recovery_without_policy (a : BackupContinuityArchive) :
  (len (bc_recovery_policies a) =? 0)%N &&
  (existsb (λ transition, is_recovery_proof (bt_proof transition)) (bc_transitions a) ||
   bool_decide (is_Some (bc_terminal_revocation a))) = false ↔
  (∀ e p, bt_proof e = ProofRecovery p → e ∈ bc_transitions a → bc_recovery_policies a ≠ []) ∧
  (is_Some (bc_terminal_revocation a) → bc_recovery_policies a ≠ []).
Proof.
  destruct (bc_recovery_policies a) as [|x l];
    [|rewrite len_cons, (proj2 (N.eqb_neq _ _)) by lia; by split].
  change ((len (@nil BackupRecoveryPolicyEvidence) =? 0)%N) with true. cbn [andb].
  rewrite orb_false_iff, bool_decide_eq_false.
  assert (existsb (λ transition, is_recovery_proof (bt_proof transition)) (bc_transitions a) = false ↔
    ∀ e p, bt_proof e = ProofRecovery p → e ∈ bc_transitions a → False) as ->; [|naive_solver].
  induction (bc_transitions a) as [|x l IH]; cbn; [split; [intros _ e p _ ?%elem_of_nil; done|done]|].
  rewrite orb_false_iff, IH. split.
  - intros [Hx Hl] e p Hp [->|He]%elem_of_cons; [by rewrite Hp in Hx|by eapply Hl].
  - intros H. split; [|intros e p Hp He; eapply H; [done|by constructor]].
    specialize (H x). destruct (bt_proof x) as [|p|]; [done| |done]. by destruct (H p eq_refl (list_elem_of_here _ _)).
Qed.

Lemma observed_in_order_app o l k :
  observed_in_order (o :: l ++ k) ↔
  observed_in_order (o :: l) ∧ observed_in_order (foldl later_observation o l :: k).
Proof.
  revert o. induction l as [|x l IH]; intros o; cbn [app foldl].
  - split; [|tauto]. intros H. split; [|done]. destruct o; repeat constructor.
  - rewrite !observed_in_order_cons, IH. tauto.
Qed.

(** The structural check accepts exactly such an archive. *)
Lemma validate_archive_structure_Ok b a : validate_archive_structure b a = Ok tt ↔ archive_fits b a.
Proof.
  assert (MAX_PERSONA_BACKUP_SIGNATURES <= usize_max)%N as Hmax by by vm_compute.
  unfold validate_archive_structure. cbn zeta.
  rewrite !seq_Ok, !reject_if_Ok, no_terminal_proof, archive_transition_count, N.ltb_ge.
  unfold validate_observed_time. rewrite validate_optional_time_Ok, bind_Ok.
  rewrite andb_false_iff, negb_false_iff, bool_decide_eq_true, bool_decide_eq_false. split.
  - intros (Hsch & Hded & Hpol & Htr & Ho & bs & Hbs & H). rewrite map_err_Ok, of_sum_Ok in Hbs.
    unbind H as r Hr. rewrite map_err_Ok in Hr. unbind H as [n o] Hps.
    apply (evidence_fold_Ok _ _ _ _ (archived_policy_Ok b)) in Hps as (Hp & Hpo & Hpn & [= -> ->]); [|done].
    unbind H as [n o] Hts.
    apply (evidence_fold_Ok _ _ _ _ (archived_transition_Ok b)) in Hts as (Ht & Hto & Htn & [= -> ->]); [|done].
    unbind H as m Hm. apply archived_terminal_Ok in Hm as (Hz & Hzo & Hzn & ->); [|done].
    rewrite seq_Ok, !reject_if_Ok, recovery_without_policy, N.ltb_ge in H. destruct H as [[Hrec Hrev] Hsig].
    rewrite list.Forall_forall in Hp. rewrite list.Forall_forall in Ht.
    split; try done; [by intros Hz'; destruct Hsch|split; [done|by exists bs, r]|].
    by rewrite observed_in_order_app.
  - intros [Hsch Hded Hpol Htr [Ho (bs & r & Hbs & Hr)] Hp Ht Hz Hpo Hto Hrec Hrev Hsig].
    rewrite observed_in_order_app in Hto. destruct Hto as [Hto Hzo]. unfold archive_signatures in Hsig.
    split_and!; try done.
    { destruct (bc_terminal_revocation a); [left; by apply Hsch|right; by intros []]. }
    exists bs. rewrite Hbs. split; [done|]. rewrite Hr. cbn [map_err]. rewrite bind_Ok_l.
    apply bind_Ok. eexists (_, _). split.
    { apply (evidence_fold_Ok _ _ _ _ (archived_policy_Ok b)); [done|].
      rewrite list.Forall_forall. split_and!; [done|done| |reflexivity]. lia. }
    apply bind_Ok. eexists (_, _). split.
    { apply (evidence_fold_Ok _ _ _ _ (archived_transition_Ok b)); [lia|].
      rewrite list.Forall_forall. split_and!; [done|done| |reflexivity]. lia. }
    apply bind_Ok. eexists. split.
    { apply archived_terminal_Ok; [lia|]. cbn zeta. split_and!; [done|done|lia|reflexivity]. }
    rewrite seq_Ok, !reject_if_Ok, recovery_without_policy, N.ltb_ge. done.
Qed.

(** C30: a history is accepted exactly when it has a known schema, a persona
    record that fits it and keys that lived as recorded, and, where it carries
    an archive of evidence, when that archive fits it. The keys lived as
    recorded when they are well formed and distinct, every event belongs to one
    of them, fits its times and is numbered in order, and what the events say of
    a key is what its record says: it was enrolled or rotated in, then possibly
    retired, then possibly compromised, at the recorded times, and nothing else.
    An archive fits when its proofs are of the right kind, serialise and parse,
    its observations are within the history and in order, and its policies,
    transitions and signatures are within the limits. *)
Theorem history_refines_lived b scope :
  validate_persona_history b scope = Ok tt ↔ ∃ portable, history_accepted b scope portable.
Proof.
  unfold validate_persona_history. rewrite bind_Ok.
  assert ((match pb_continuity b with
           | Some continuity => validate_backup_continuity_structure b continuity
           | None => Ok tt
           end = Ok tt) ↔
    ∀ a, pb_continuity b = Some (EvidenceArchive a) → archive_fits b a) as Hc.
  { setoid_rewrite <- validate_archive_structure_Ok. destruct (pb_continuity b) as [[]|]; cbn; naive_solver. }
  split.
  - intros (portable & Hp & H). rewrite !seq_Ok, Hc, replay_lived, validate_history_persona_Ok in H.
    exists portable. destruct H as (? & ? & ?). by split; [apply history_is_portable_Ok|..].
  - intros (portable & [Hs Hp Hl Ha]). exists portable.
    rewrite !seq_Ok, Hc, replay_lived, validate_history_persona_Ok, history_is_portable_Ok. done.
Qed.
End claim.

(** * The continuity evidence of a backup *)

Section archive.
Context {crates : Crates} {uuids : Uuids}
  {json_root_proof : Serde PersonaRootProof} {json_policy_proof : Serde RecoveryPolicyProof}
  {json_entry : Serde PersonaContinuityTransitionProof}
  {json_terminal_proof : Serde TerminalPersonaRevocationProof}
  {json_backup : Serde PersonaBackup} {pretty_backup : SerdePretty PersonaBackup}
  {json_archive : Serde BackupContinuityArchive}
  {json_root : Serde PersonaRootStatement} {json_transition : Serde PersonaTransitionStatement}
  {json_policy : Serde RecoveryPolicyStatement} {json_recovery : Serde RecoveryTransitionStatement}
  {json_terminal : Serde TerminalPersonaRevocationStatement}
  `{!SchemaMember PersonaTransitionStatement RecoveryTransitionStatement ts_schema xs_schema}
  `{!SchemaMember PersonaTransitionStatement TerminalPersonaRevocationStatement ts_schema zs_schema}
  `{!SchemaMember RecoveryTransitionStatement TerminalPersonaRevocationStatement xs_schema zs_schema}.

(** ** Routine histories are mixed histories *)

Lemma continues_entry root h v : continues root h v → entry_continues root h (entry_of (VerifiedRoutine v)).
Proof. by intros []. Qed.

Lemma linked_mixed root vs h : linked root vs h → mixed_linked root (VerifiedRoutine <$> vs) h.
Proof.
  induction 1 as [|vs h v Hl IH Hc]; [constructor|]. rewrite fmap_app. cbn.
  by apply (mixed_linked_next _ _ _ (VerifiedRoutine v) IH), continues_entry.
Qed.

Lemma routine_stated ps vs : all_verify ps vs → Forall stated (VerifiedRoutine <$> vs).
Proof.
  induction 1 as [|p v ps vs Hv _ IH]; cbn; constructor; [|done].
  apply verified_transition_payload in Hv as (pl & Hc & Hj & Hd & _). exists pl. split_and!; [done..| |done].
  unfold canonical_persona_transition_statement_bytes, validate_persona_transition_statement in Hc.
  rewrite !seq_Ok in Hc. destruct Hc as [(Hs & _) _]. by oks Hs.
Qed.

(** ** What a verified archive holds *)

Record evidence (v : VerifiedBackupContinuity) : Prop := {
  ev_root : ∃ proof, verify_persona_root_proof proof = Ok (vb_root v);
  ev_root_digest : bv_root_statement_sha256 (vb_report v) = vpr_root_statement_sha256 (vb_root v);
  ev_policies : policy_history (vb_root v) (vb_policies v);
  ev_policy : bv_latest_policy_sha256 (vb_report v) =
    vp_policy_statement_sha256 <$> list.last (vb_policies v);
  ev_stated : Forall stated (vb_transitions v);
  ev_linked : ∃ h, mixed_linked (vb_root v) (vb_transitions v) h ∧
    bv_chain_tip_key_fingerprint (vb_report v) = hd_key_fingerprint h;
  ev_digests : vb_transition_statement_sha256s v = verified_statement_sha256 <$> vb_transitions v;
  ev_count : bv_transition_count (vb_report v) = len (vb_transitions v);
}.

Lemma routine_evidence rp ps d chain checked_at :
  verify_persona_continuity_chain_with_verified_sequence rp ps d = Ok chain →
  let facts := routine_facts chain in
  evidence {| vb_report := archive_report facts false checked_at;
              vb_transition_statement_sha256s := cf_transition_statement_sha256s facts;
              vb_root := cf_root facts; vb_policies := cf_policies facts;
              vb_transitions := cf_transitions facts |}.
Proof.
  intros Hc. pose proof (chain_verified_sound _ _ _ _ Hc) as (_ & _ & Hr & _ & Ha & Hl).
  constructor; cbn; try done; [by eexists|constructor|by eapply routine_stated| | |].
  - eexists. split; [by apply linked_mixed|done].
  - by rewrite <- list_fmap_compose.
  - rewrite len_fmap. by apply linked_sequence in Hl.
Qed.

Lemma mixed_evidence rp ps pols d1 d2 t chain checked_at :
  verify_persona_continuity_chain_with_recovery_with_verified_sequence rp ps pols d1 d2 t = Ok chain →
  let facts := mixed_facts chain in
  evidence {| vb_report := archive_report facts true checked_at;
              vb_transition_statement_sha256s := cf_transition_statement_sha256s facts;
              vb_root := cf_root facts; vb_policies := cf_policies facts;
              vb_transitions := cf_transitions facts |}.
Proof.
  intros (root & policies & latest & vs & h & Ha & ->)%mixed_verified_iff. destruct Ha as [_ _ Hp Hl He Hm _ _].
  apply policy_chain_sound in Hp as (Hr & _ & Hh & _). cbn in Hr, Hh.
  constructor; cbn; try done; [by eexists|by rewrite Hl|by eapply entries_stated|].
  exists h. split; [done|]. by rewrite (mixed_linked_head _ _ _ Hm).
Qed.

Lemma verify_archive_evidence b archive checked_at v :
  verify_archive b archive checked_at = Ok v →
  evidence v ∧ (bv_latest_policy_version (vb_report v) = None ↔ vb_policies v = []).
Proof.
  unfold verify_archive. intros H. unbind H as root Hr. rewrite !seq_Ok in H. destruct H as (_ & _ & _ & H).
  unbind H as policies Hp. unbind H as facts Hf. rewrite !seq_Ok in H. destruct H as (_ & _ & _ & [= <-]).
  unfold verify_archive_chain in Hf. cbn zeta in Hf. destruct (len (bo_proof <$> bc_recovery_policies archive) =? 0)%N.
  - unbind Hf as routine Hro. unbind Hf as chain Hc. injection Hf as <-. rewrite map_err_Ok in Hc.
    split; [by eapply routine_evidence|done].
  - unbind Hf as latest Hl. unbind Hf as chain Hc. injection Hf as <-. rewrite map_err_Ok in Hc.
    split; [by eapply mixed_evidence|]. cbn.
    apply mixed_verified_iff in Hc as (rt & ps & lt & vs & h & Ha & ->). cbn. split; [done|].
    intros ->. by destruct Ha as [_ _ _ Hlast _ _ _ _].
Qed.

(** ** Prefixes of a history *)

Definition digest_at (digests : list string) (n : N) : option string :=
  if (n =? 0)%N then None else digests !! N.to_nat (n - 1).

Lemma digest_at_Ok digests n d :
  verified_transition_statement_sha256_at digests n = Ok d →
  digest_at digests n = d ∧ (n <= len digests)%N.
Proof.
  unfold verified_transition_statement_sha256_at, digest_at. destruct (N.eqb_spec n 0) as [->|Hn].
  - intros [= <-]. split; [done|lia].
  - destruct (digests !! N.to_nat (n - 1)) as [x|] eqn:Hx; [|done]. intros [= <-]. split; [done|].
    apply lookup_lt_Some in Hx. unfold len. lia.
Qed.

Lemma mixed_linked_take root vs h n :
  mixed_linked root vs h → (n <= len vs)%N →
  ∃ h', mixed_linked root (take (N.to_nat n) vs) h' ∧
    hd_digest h' = digest_at (verified_statement_sha256 <$> vs) n.
Proof.
  intros Hl. induction Hl as [|vs h v Hl IH Hc]; intros Hn.
  - unfold len in Hn. cbn in Hn. assert (n = 0%N) as -> by lia. eexists. split; [constructor|done].
  - rewrite len_app in Hn. change (len [v]) with 1%N in Hn. destruct (decide (n = len vs + 1)%N) as [->|Hne].
    + exists (entry_head h (entry_of v)). rewrite take_ge by (rewrite length_app; unfold len; cbn; lia).
      split; [by constructor|]. unfold digest_at. destruct (N.eqb_spec (len vs + 1) 0); [lia|].
      rewrite fmap_app, lookup_app_r by (rewrite length_fmap; unfold len; lia).
      rewrite length_fmap. replace (N.to_nat (len vs + 1 - 1) - length vs) with 0 by (unfold len; lia).
      by destruct v.
    + destruct IH as (h' & Hl' & Hd); [lia|]. exists h'.
      rewrite take_app_le by (unfold len in *; lia). split; [done|]. rewrite Hd. unfold digest_at.
      destruct (N.eqb_spec n 0); [done|]. rewrite fmap_app, lookup_app_l; [done|].
      rewrite length_fmap. unfold len in *. lia.
Qed.

(** ** Comparison with pins *)

(** What a comparison that reached the pinned entry established. *)
Record matches_pins (pins : BackupContinuityExpectedPins) (v : VerifiedBackupContinuity) : Prop := {
  mp_evidence : evidence v;
  mp_root : vpr_root_statement_sha256 (vb_root v) = xn_root_statement_sha256 pins;
  mp_policy : vp_policy_statement_sha256 <$> list.last (vb_policies v) =
    match xn_latest_policy pins with PinnedPolicy _ d => Some d | NoPolicy => None end;
  mp_length : (cp_transition_sequence (xn_effective_head pins) <= len (vb_transitions v))%N;
  mp_head : digest_at (verified_statement_sha256 <$> vb_transitions v)
    (cp_transition_sequence (xn_effective_head pins)) = cp_transition_sha256 (xn_effective_head pins);
}.

Lemma head_relation_Ok digests actual expected relation :
  head_relation_of digests actual expected = Ok relation →
  relation = Exact ∨ relation = ExtensionBeyondPin →
  (cp_transition_sequence expected <= len digests)%N ∧
  digest_at digests (cp_transition_sequence expected) = cp_transition_sha256 expected ∧
  (relation = Exact ↔ cp_transition_sequence actual = cp_transition_sequence expected).
Proof.
  unfold head_relation_of. destruct (N.ltb_spec (cp_transition_sequence actual) (cp_transition_sequence expected)) as [_|_];
    [intros [= <-] [|]; done|].
  intros H. unbind H as d Hd. apply digest_at_Ok in Hd as [<- Hn]. injection H as <-.
  case_bool_decide as He; cbn; [|intros [|]; done].
  destruct (N.eqb_spec (cp_transition_sequence actual) (cp_transition_sequence expected)); intros _; naive_solver.
Qed.

Lemma compare_matches b pins t c :
  compare_persona_backup_continuity_with_verified_at b pins t = Ok c →
  let relation := bx_head_relation (vbc_report c) in
  relation = Exact ∨ relation = ExtensionBeyondPin →
  matches_pins pins (vbc_verified c) ∧
  (relation = Exact → len (vb_transitions (vbc_verified c)) = cp_transition_sequence (xn_effective_head pins)).
Proof.
  unfold compare_persona_backup_continuity_with_verified_at. rewrite seq_Ok. intros [_ H].
  unbind H as o Ho. unbind H as v Hv. apply ok_or_Ok in Hv as ->. unbind H as archive Ha.
  rewrite seq_Ok in H. destruct H as [Hroot H]. unbind H as policy Hp. rewrite seq_Ok in H.
  destruct H as [Hpol H]. unbind H as d Hd. unbind H as relation Hrel. unbind H as bs Hbs. injection H as <-.
  cbn. intros Hr. apply head_relation_Ok in Hrel as (Hn & Hdig & Hex); [|done]. cbn in Hex.
  oks Hroot. oks Hpol. unfold verify_persona_backup_continuity_with_digests_at in Ho. rewrite !seq_Ok in Ho.
  destruct Ho as (_ & _ & _ & Ho). case_match; [|done]. case_match; [done|]. unbind Ho as w Hw. injection Ho as ->.
  apply verify_archive_evidence in Hw as [Hev _]. pose proof Hev as [? Hrd ? Hlp ? ? Hds Hct].
  rewrite Hds in Hn, Hdig. rewrite len_fmap in Hn. split; [|intros Hx; apply Hex in Hx; congruence].
  constructor; [done|congruence| |done|done].
  rewrite <- Hlp, <- Hpol. unfold actual_policy in Hp.
  destruct (bv_latest_policy_version _), (bv_latest_policy_sha256 _); simplify_eq; by rewrite <- Hp.
Qed.

(** C31: pins that were obtained elsewhere determine the history of an archive.
    Two backups that were compared with the same pins and were both found to
    reach the pinned head carry the same root statement, the same policies and
    the same statements up to the pinned entry, routine, recovery and terminal;
    where the match was exact, that is the whole history. The alternative, for
    each of the three, is a SHA-256 collision between a statement of the one
    archive and a statement of the other. *)
Theorem pins_determine_archive b1 b2 pins t1 t2 c1 c2 :
  compare_persona_backup_continuity_with_verified_at b1 pins t1 = Ok c1 →
  compare_persona_backup_continuity_with_verified_at b2 pins t2 = Ok c2 →
  let n := N.to_nat (cp_transition_sequence (xn_effective_head pins)) in
  let v1 := vbc_verified c1 in
  let v2 := vbc_verified c2 in
  let reached c := bx_head_relation (vbc_report c) = Exact ∨
                   bx_head_relation (vbc_report c) = ExtensionBeyondPin in
  reached c1 → reached c2 →
  (vpr_statement (vb_root v1) = vpr_statement (vb_root v2) ∨
   sha256_collision (root_payload (vb_root v1)) (root_payload (vb_root v2))) ∧
  (vp_statement <$> vb_policies v1 = vp_statement <$> vb_policies v2 ∨
   sha256_collision (policy_payload (vb_policies v1)) (policy_payload (vb_policies v2))) ∧
  (statement_of <$> take n (vb_transitions v1) = statement_of <$> take n (vb_transitions v2) ∨
   sha256_collision (entry_payload_of (take n (vb_transitions v1)))
     (entry_payload_of (take n (vb_transitions v2)))) ∧
  (bx_head_relation (vbc_report c1) = Exact → take n (vb_transitions v1) = vb_transitions v1).
Proof.
  intros H1 H2. cbn zeta. intros R1 R2.
  destruct (compare_matches _ _ _ _ H1 R1) as [[E1 Hr1 Hp1 Hn1 Hd1] X1].
  destruct (compare_matches _ _ _ _ H2 R2) as [[E2 Hr2 Hp2 Hn2 Hd2] _].
  destruct E1 as [[p1 Hroot1] _ Hpol1 _ St1 (h1 & L1 & _) _ _], E2 as [[p2 Hroot2] _ Hpol2 _ St2 (h2 & L2 & _) _ _].
  destruct (mixed_linked_take _ _ _ _ L1 Hn1) as (k1 & K1 & D1).
  destruct (mixed_linked_take _ _ _ _ L2 Hn2) as (k2 & K2 & D2).
  split_and!.
  - apply (roots_determined _ _ _ _ Hroot1 Hroot2). congruence.
  - apply (policy_histories_determined _ _ _ _ Hpol1 Hpol2). congruence.
  - apply (statements_determined _ _ _ _ _ _ (Forall_take _ _ _ St1) (Forall_take _ _ _ St2) K1 K2). congruence.
  - intros Hx. apply take_ge. specialize (X1 Hx). unfold len in X1. lia.
Qed.

(** ** The keys of a verified backup *)

(** The record of the key a terminal revocation ends. *)
Definition ended_as (reason : TerminalPersonaRevocationReason) : KeyStatus :=
  match reason with TerminalCompromise => Compromised | TerminalCessation => Retired end.

(** The evidence of a verified backup agrees with its metadata. The keys of
    the backup lived as its events say; the entries of the evidence form one
    linked history from a verified root; its last key is the only active key of
    the backup, or the persona was terminally revoked, no key is active, and the
    record of the revoked key reflects the signed reason. *)
Theorem verified_backup_consistent b t v :
  verify_persona_backup_continuity_with_digests_at b t = Ok (Some v) →
  lived b true ∧ evidence v ∧
  let active := bk_fingerprint <$> filter (λ key, bk_status key = Active) (pb_keys b) in
  let report := vb_report v in
  if bv_terminally_revoked report
  then active = [] ∧ ∃ key reason, key ∈ pb_keys b ∧
    bv_terminal_revoked_key_fingerprint report = Some (bk_fingerprint key) ∧
    bv_terminal_revocation_reason report = Some reason ∧ bk_status key = ended_as reason
  else active = [bv_chain_tip_key_fingerprint report].
Proof.
  unfold verify_persona_backup_continuity_with_digests_at. rewrite !seq_Ok. intros (Hb & _ & _ & H).
  destruct (pb_continuity b) as [[|archive]|] eqn:Hc; [done| |done]. unbind H as w Hw. injection H as ->.
  unfold validate_persona_backup, validate_persona_history in Hb. unbind Hb as portable Hport.
  rewrite !seq_Ok in Hb. destruct Hb as (_ & Hreplay & _). apply replay_lived in Hreplay.
  assert (portable = true) as ->.
  { unfold history_is_portable in Hport. rewrite Hc in Hport.
    rewrite (bool_decide_true (is_Some _)) in Hport by eauto. cbn in Hport.
    by repeat case_match; simplify_eq. }
  split; [done|]. split; [by eapply verify_archive_evidence|].
  unfold verify_archive in Hw. unbind Hw as root Hr. rewrite !seq_Ok in Hw. destruct Hw as (_ & _ & _ & Hw).
  unbind Hw as policies Hp. unbind Hw as facts Hf. rewrite !seq_Ok in Hw.
  destruct Hw as (_ & _ & Hact & [= <-]). cbn. unfold require_active_key in Hact.
  destruct (cf_terminally_revoked facts).
  - rewrite seq_Ok in Hact. destruct Hact as [Hnone Hact]. oks Hnone. apply N.eqb_eq in Hnone.
    unbind Hact as revoked Hrev. apply ok_or_Ok in Hrev. unbind Hact as key Hkey.
    apply ok_or_Ok, keys_map_lookup in Hkey as [Hin Hfp]; [|by apply Hreplay].
    unbind Hact as status Hst. oks Hact. split.
    + apply length_zero_iff_nil. unfold len in Hnone. lia.
    + destruct (cf_terminal_revocation_reason facts) as [reason|] eqn:Hreason; [|done].
      exists key, reason. rewrite Hfp. split_and!; [done..|]. destruct reason; injection Hst as <-; done.
  - by oks Hact.
Qed.
End archive.
