(* ===== verification/Tables.v ===== *)
(** * The tables of the persona store ([crates/a-quo-store/src/lib.rs])

    The database is the rows of its tables; text columns hold the words the
    program writes. Each statement that changes a table checks what the schema
    of the eleven migrations checks for it: the [CHECK] constraints, primary
    and foreign keys, unique columns and the triggers that run before it. A
    statement that breaks one of them fails and leaves the table as it was. *)

From stdpp Require Import base numbers list strings pretty option.
From Stdlib Require Import Strings.Byte Ascii.
From S2P Require Import Prelude Text Ordered Display Crates ArtifactProof Continuity RecoveryPolicy RecoveryChain.
From S2P Require Import StoreTypes StoreCommon.

(** ** Rows *)

Record PersonaRow := {
  pr_id : string;
  pr_label : string;
  pr_purpose : string;
  pr_created_at : Z;
  pr_archived_at : option Z;
}.
Record KeyRow := {
  kw_fingerprint : string;
  kw_persona_id : string;
  kw_public_key : string;
  kw_provider : string;
  kw_status : string;
  kw_added_at : Z;
  kw_retired_at : option Z;
  kw_compromised_at : option Z;
}.
Record EventRow := {
  ew_sequence : Z;
  ew_persona_id : string;
  ew_key_fingerprint : string;
  ew_event_type : string;
  ew_occurred_at : Z;
  ew_actor : string;
  ew_policy : string;
  ew_note : option string;
}.
Record ReferenceRow := {
  fw_key_fingerprint : string;
  fw_locator : string;
  fw_configured_at : Z;
}.
Record ReferenceEventRow := {
  fe_sequence : Z;
  fe_key_fingerprint : string;
  fe_event_type : string;
  fe_occurred_at : Z;
  fe_locator_sha256 : option string;
}.
Record RootRow := {
  ow_persona_id : string;
  ow_root_statement_sha256 : string;
  ow_persona_anchor : string;
  ow_initial_key_fingerprint : string;
  ow_root_proof_json : bytes;
  ow_issued_at : Z;
  ow_recorded_at : Z;
}.
Record HeadRow := {
  hw_persona_id : string;
  hw_revision : Z;
  hw_transition_sequence : Z;
  hw_current_key_fingerprint : string;
  hw_last_transition_sha256 : option string;
  hw_last_issued_at : Z;
}.
Record TransitionRow := {
  tw_persona_id : string;
  tw_sequence : Z;
  tw_transition_statement_sha256 : string;
  tw_root_statement_sha256 : string;
  tw_previous_transition_sha256 : option string;
  tw_previous_key_fingerprint : string;
  tw_next_key_fingerprint : string;
  tw_issued_at : Z;
  tw_proof_json : bytes;
  tw_committed_at : Z;
  tw_transition_kind : string;
  tw_recovery_policy_sha256 : option string;
  tw_recovery_policy_version : option Z;
  tw_recovery_reason : option string;
}.
Record PolicyRow := {
  yw_persona_id : string;
  yw_policy_version : Z;
  yw_policy_statement_sha256 : string;
  yw_previous_policy_sha256 : option string;
  yw_root_statement_sha256 : string;
  yw_checkpoint_sequence : Z;
  yw_checkpoint_sha256 : option string;
  yw_issued_at : Z;
  yw_expires_at : Z;
  yw_proof_json : bytes;
  yw_recorded_at : Z;
}.
Record PolicyHeadRow := {
  yh_persona_id : string;
  yh_revision : Z;
  yh_latest_policy_version : Z;
  yh_latest_policy_sha256 : string;
  yh_recorded_at : Z;
}.
Record TerminalRow := {
  zw_persona_id : string;
  zw_sequence : Z;
  zw_revocation_statement_sha256 : string;
  zw_root_statement_sha256 : string;
  zw_previous_transition_sha256 : option string;
  zw_previous_key_fingerprint : string;
  zw_recovery_policy_sha256 : string;
  zw_recovery_policy_version : Z;
  zw_reason : string;
  zw_issued_at : Z;
  zw_proof_json : bytes;
  zw_committed_at : Z;
}.
Record ArchiveRow := {
  aw_persona_id : string;
  aw_archive_json : bytes;
  aw_imported_at : Z;
}.
(** The columns of a materialization that other statements read. *)
Record MaterializationRow := {
  mw_persona_id : string;
  mw_state : string;
  mw_method : string;
  mw_stored_archive_json_length : Z;
  mw_archive_imported_at : Z;
  mw_expected_root_statement_sha256 : string;
  mw_expected_policy_version : option Z;
  mw_expected_policy_sha256 : option string;
  mw_source_head_sequence : Z;
  mw_source_head_sha256 : option string;
  mw_result_head_sequence : Z;
  mw_result_head_sha256 : option string;
  mw_preexisting_signing_reference_event_sequence_boundary : Z;
  mw_result_signing_reference_event_sequence : option Z;
  mw_materialized_at : Z;
  mw_imported_event_sequence_boundary : Z;
}.

#[export] Instance PersonaRow_eq_dec : EqDecision PersonaRow.
Proof. solve_decision. Defined.
#[export] Instance KeyRow_eq_dec : EqDecision KeyRow.
Proof. solve_decision. Defined.
#[export] Instance EventRow_eq_dec : EqDecision EventRow.
Proof. solve_decision. Defined.
#[export] Instance ReferenceRow_eq_dec : EqDecision ReferenceRow.
Proof. solve_decision. Defined.
#[export] Instance ReferenceEventRow_eq_dec : EqDecision ReferenceEventRow.
Proof. solve_decision. Defined.
#[export] Instance RootRow_eq_dec : EqDecision RootRow.
Proof. solve_decision. Defined.
#[export] Instance HeadRow_eq_dec : EqDecision HeadRow.
Proof. solve_decision. Defined.
#[export] Instance TransitionRow_eq_dec : EqDecision TransitionRow.
Proof. solve_decision. Defined.

(** [db_event_sequence] and [db_reference_event_sequence] are the counters of
    the [AUTOINCREMENT] columns. *)
Record Db := {
  db_personas : list PersonaRow;
  db_keys : list KeyRow;
  db_events : list EventRow;
  db_event_sequence : Z;
  db_references : list ReferenceRow;
  db_reference_events : list ReferenceEventRow;
  db_reference_event_sequence : Z;
  db_roots : list RootRow;
  db_heads : list HeadRow;
  db_transitions : list TransitionRow;
  db_policies : list PolicyRow;
  db_policy_heads : list PolicyHeadRow;
  db_terminals : list TerminalRow;
  db_archives : list ArchiveRow;
  db_materializations : list MaterializationRow;
}.

Definition empty_db : Db :=
  {| db_personas := []; db_keys := []; db_events := []; db_event_sequence := 0; db_references := [];
     db_reference_events := []; db_reference_event_sequence := 0; db_roots := []; db_heads := [];
     db_transitions := []; db_policies := []; db_policy_heads := []; db_terminals := [];
     db_archives := []; db_materializations := [] |}.

(** ** SQL *)

(** [length] of a text: its characters before the first NUL. *)
Fixpoint sql_length (s : string) : Z :=
  match s with
  | EmptyString => 0
  | String c rest =>
      let n := N_of_ascii c in
      if (n =? 0)%N then 0
      else if ((128 <=? n) && (n <? 192))%N then sql_length rest
      else 1 + sql_length rest
  end.

Definition blob_length (bs : bytes) : Z := Z.of_N (len bs).

Definition between (lo x hi : Z) : bool := ((lo <=? x) && (x <=? hi))%Z.

Definition is_one_of (s : string) (words : list string) : bool := bool_decide (s ∈ words).

(** [length(x) = 64 AND x NOT GLOB '*[^0-9a-f]*'] *)
Definition lower_hex_char (c : ascii) : bool :=
  let n := N_of_ascii c in ((48 <=? n) && (n <=? 57) || (97 <=? n) && (n <=? 102))%N.
Definition sql_sha256 (s : string) : bool := (sql_length s =? 64)%Z && str_all lower_hex_char s.
Definition sql_sha256_opt (o : option string) : bool :=
  match o with Some s => sql_sha256 s | None => true end.

Definition is_null {A} (o : option A) : bool := match o with Some _ => false | None => true end.

(** A sequence number is zero exactly when the digest is absent. *)
Definition sql_linked (first sequence : Z) (digest : option string) : bool :=
  ((sequence =? first)%Z && is_null digest) || ((first <? sequence)%Z && negb (is_null digest)).

(** The first condition that fails aborts the statement. *)
Fixpoint sql_check (conditions : list (bool * string)) : StoreResult unit :=
  match conditions with
  | [] => Ok tt
  | (holds, message) :: rest => reject_if (negb holds) (Database message);; sql_check rest
  end.

(** [UPDATE .. SET .. WHERE p]: the rows in turn, and how many changed. *)
Fixpoint update_rows {A} (checks : A → A → list (bool * string)) (p : A → bool) (f : A → A)
    (rows : list A) : StoreResult (list A * N) :=
  match rows with
  | [] => Ok ([], 0%N)
  | row :: rows =>
      if p row then
        sql_check (checks row (f row));;
        '(rows, n) ← update_rows checks p f rows;
        Ok (f row :: rows, (n + 1)%N)
      else
        '(rows, n) ← update_rows checks p f rows;
        Ok (row :: rows, n)
  end.

(** [ORDER BY] with a total order on the sorting columns. *)
Fixpoint insert_by {A} (le : A → A → bool) (x : A) (l : list A) : list A :=
  match l with
  | [] => [x]
  | y :: l' => if le x y then x :: l else y :: insert_by le x l'
  end.
Definition order_by {A} (le : A → A → bool) (l : list A) : list A := foldr (insert_by le) [] l.

Definition exists_in {A} (p : A → bool) (rows : list A) : bool := existsb p rows.

(** ** Updating a table *)

Definition set_personas (db : Db) (rows : list PersonaRow) : Db :=
  {| db_personas := rows; db_keys := db_keys db; db_events := db_events db;
     db_event_sequence := db_event_sequence db; db_references := db_references db;
     db_reference_events := db_reference_events db;
     db_reference_event_sequence := db_reference_event_sequence db; db_roots := db_roots db;
     db_heads := db_heads db; db_transitions := db_transitions db; db_policies := db_policies db;
     db_policy_heads := db_policy_heads db; db_terminals := db_terminals db;
     db_archives := db_archives db; db_materializations := db_materializations db |}.
Definition set_keys (db : Db) (rows : list KeyRow) : Db :=
  {| db_personas := db_personas db; db_keys := rows; db_events := db_events db;
     db_event_sequence := db_event_sequence db; db_references := db_references db;
     db_reference_events := db_reference_events db;
     db_reference_event_sequence := db_reference_event_sequence db; db_roots := db_roots db;
     db_heads := db_heads db; db_transitions := db_transitions db; db_policies := db_policies db;
     db_policy_heads := db_policy_heads db; db_terminals := db_terminals db;
     db_archives := db_archives db; db_materializations := db_materializations db |}.
Definition set_events (db : Db) (rows : list EventRow) (sequence : Z) : Db :=
  {| db_personas := db_personas db; db_keys := db_keys db; db_events := rows;
     db_event_sequence := sequence; db_references := db_references db;
     db_reference_events := db_reference_events db;
     db_reference_event_sequence := db_reference_event_sequence db; db_roots := db_roots db;
     db_heads := db_heads db; db_transitions := db_transitions db; db_policies := db_policies db;
     db_policy_heads := db_policy_heads db; db_terminals := db_terminals db;
     db_archives := db_archives db; db_materializations := db_materializations db |}.
Definition set_references (db : Db) (rows : list ReferenceRow) : Db :=
  {| db_personas := db_personas db; db_keys := db_keys db; db_events := db_events db;
     db_event_sequence := db_event_sequence db; db_references := rows;
     db_reference_events := db_reference_events db;
     db_reference_event_sequence := db_reference_event_sequence db; db_roots := db_roots db;
     db_heads := db_heads db; db_transitions := db_transitions db; db_policies := db_policies db;
     db_policy_heads := db_policy_heads db; db_terminals := db_terminals db;
     db_archives := db_archives db; db_materializations := db_materializations db |}.
Definition set_reference_events (db : Db) (rows : list ReferenceEventRow) (sequence : Z) : Db :=
  {| db_personas := db_personas db; db_keys := db_keys db; db_events := db_events db;
     db_event_sequence := db_event_sequence db; db_references := db_references db;
     db_reference_events := rows; db_reference_event_sequence := sequence; db_roots := db_roots db;
     db_heads := db_heads db; db_transitions := db_transitions db; db_policies := db_policies db;
     db_policy_heads := db_policy_heads db; db_terminals := db_terminals db;
     db_archives := db_archives db; db_materializations := db_materializations db |}.
Definition set_journal (db : Db) (roots : list RootRow) (heads : list HeadRow)
    (transitions : list TransitionRow) (terminals : list TerminalRow) : Db :=
  {| db_personas := db_personas db; db_keys := db_keys db; db_events := db_events db;
     db_event_sequence := db_event_sequence db; db_references := db_references db;
     db_reference_events := db_reference_events db;
     db_reference_event_sequence := db_reference_event_sequence db; db_roots := roots;
     db_heads := heads; db_transitions := transitions; db_policies := db_policies db;
     db_policy_heads := db_policy_heads db; db_terminals := terminals;
     db_archives := db_archives db; db_materializations := db_materializations db |}.
Definition set_policies (db : Db) (rows : list PolicyRow) (heads : list PolicyHeadRow) : Db :=
  {| db_personas := db_personas db; db_keys := db_keys db; db_events := db_events db;
     db_event_sequence := db_event_sequence db; db_references := db_references db;
     db_reference_events := db_reference_events db;
     db_reference_event_sequence := db_reference_event_sequence db; db_roots := db_roots db;
     db_heads := db_heads db; db_transitions := db_transitions db; db_policies := rows;
     db_policy_heads := heads; db_terminals := db_terminals db;
     db_archives := db_archives db; db_materializations := db_materializations db |}.
Definition set_archives (db : Db) (rows : list ArchiveRow) : Db :=
  {| db_personas := db_personas db; db_keys := db_keys db; db_events := db_events db;
     db_event_sequence := db_event_sequence db; db_references := db_references db;
     db_reference_events := db_reference_events db;
     db_reference_event_sequence := db_reference_event_sequence db; db_roots := db_roots db;
     db_heads := db_heads db; db_transitions := db_transitions db; db_policies := db_policies db;
     db_policy_heads := db_policy_heads db; db_terminals := db_terminals db;
     db_archives := rows; db_materializations := db_materializations db |}.

(** ** Existence *)

Definition has_persona (db : Db) (id : string) : bool :=
  exists_in (λ row, pr_id row == id) (db_personas db).
Definition has_key (db : Db) (fp : string) : bool :=
  exists_in (λ row, kw_fingerprint row == fp) (db_keys db).
Definition has_key_of (db : Db) (fp persona_id : string) : bool :=
  exists_in (λ row, (kw_fingerprint row == fp) && (kw_persona_id row == persona_id)) (db_keys db).
Definition has_root (db : Db) (persona_id : string) : bool :=
  exists_in (λ row, ow_persona_id row == persona_id) (db_roots db).
Definition has_terminal (db : Db) (persona_id : string) : bool :=
  exists_in (λ row, zw_persona_id row == persona_id) (db_terminals db).
Definition has_archive (db : Db) (persona_id : string) : bool :=
  exists_in (λ row, aw_persona_id row == persona_id) (db_archives db).
(** The key belongs to a terminally revoked persona. *)
Definition key_is_frozen (db : Db) (fp : string) : bool :=
  exists_in (λ row, (kw_fingerprint row == fp) && has_terminal db (kw_persona_id row)) (db_keys db).

(** ** Personas *)

Definition persona_checks (row : PersonaRow) : list (bool * string) :=
  [(between 1 (sql_length (pr_label row)) 256, "CHECK constraint failed: label");
   (is_one_of (pr_purpose row)
      ["personal"; "pseudonymous"; "project"; "organization"; "legal-bridge"],
    "CHECK constraint failed: purpose");
   ((0 <=? pr_created_at row)%Z, "CHECK constraint failed: created_at")].

Definition insert_persona_row (db : Db) (row : PersonaRow) : StoreResult Db :=
  sql_check (persona_checks row ++
    [(negb (has_persona db (pr_id row)), "UNIQUE constraint failed: personas.id")]);;
  Ok (set_personas db (db_personas db ++ [row])).

(** ** Keys *)

Definition key_checks (row : KeyRow) : list (bool * string) :=
  [(between 1 (sql_length (kw_public_key row)) 16384, "CHECK constraint failed: public_key");
   (is_one_of (kw_provider row) ["openssh-file"; "ssh-agent"; "fido2"] &&
      ((kw_provider row != "fido2") || String.prefix "sk-" (kw_public_key row)),
    "CHECK constraint failed: provider");
   (is_one_of (kw_status row) ["active"; "retired"; "compromised"], "CHECK constraint failed: status");
   ((0 <=? kw_added_at row)%Z, "CHECK constraint failed: added_at")].

Definition insert_key_row (db : Db) (row : KeyRow) : StoreResult Db :=
  sql_check ((negb (has_terminal db (kw_persona_id row)), "terminal persona key state is frozen") ::
    key_checks row ++
    [(negb (has_key db (kw_fingerprint row)), "UNIQUE constraint failed: key_records.fingerprint");
     (has_persona db (kw_persona_id row), "FOREIGN KEY constraint failed")]);;
  Ok (set_keys db (db_keys db ++ [row])).

Definition update_keys (db : Db) (p : KeyRow → bool) (f : KeyRow → KeyRow) : StoreResult (Db * N) :=
  '(rows, n) ← update_rows (λ row row',
    (negb (has_terminal db (kw_persona_id row)), "terminal persona key state is frozen") ::
    key_checks row') p f (db_keys db);
  Ok (set_keys db rows, n).

(** ** Events *)

Definition same_event_class (a b : string) : bool :=
  let origin x := is_one_of x ["enrolled"; "rotated_in"] in
  (origin a && origin b) || ((a == "retired") && (b == "retired")) ||
  ((a == "compromised") && (b == "compromised")).

Definition event_checks (row : EventRow) : list (bool * string) :=
  [(is_one_of (ew_event_type row) ["enrolled"; "rotated_in"; "retired"; "compromised"],
    "CHECK constraint failed: event_type");
   ((0 <=? ew_occurred_at row)%Z, "CHECK constraint failed: occurred_at");
   (between 1 (sql_length (ew_actor row)) 256, "CHECK constraint failed: actor");
   (between 1 (sql_length (ew_policy row)) 512, "CHECK constraint failed: policy");
   (match ew_note row with Some note => (sql_length note <=? 2048)%Z | None => true end,
    "CHECK constraint failed: note")].

(** The row gets the next number of the [AUTOINCREMENT] column. *)
Definition insert_event_row (db : Db) (row : Z → EventRow) : StoreResult Db :=
  let sequence := (db_event_sequence db + 1)%Z in
  let row := row sequence in
  sql_check
    ((has_key_of db (ew_key_fingerprint row) (ew_persona_id row),
      "key lifecycle event key must belong to its persona") ::
     (negb (exists_in (λ old, (ew_key_fingerprint old == ew_key_fingerprint row) &&
              same_event_class (ew_event_type old) (ew_event_type row)) (db_events db)),
      "key lifecycle events are append-only") ::
     (negb (has_terminal db (ew_persona_id row)), "terminal persona key history is frozen") ::
     ((sequence <=? i64_max)%Z, "database or disk is full") ::
     event_checks row ++
     [(has_persona db (ew_persona_id row), "FOREIGN KEY constraint failed")]);;
  Ok (set_events db (db_events db ++ [row]) sequence).

(** ** Signing references *)

Definition reference_checks (db : Db) (row : ReferenceRow) : list (bool * string) :=
  [(negb (key_is_frozen db (fw_key_fingerprint row)), "terminal persona signing references are frozen");
   (between 1 (sql_length (fw_locator row)) 4096, "CHECK constraint failed: locator");
   ((0 <=? fw_configured_at row)%Z, "CHECK constraint failed: configured_at");
   (has_key db (fw_key_fingerprint row), "FOREIGN KEY constraint failed")].

Definition has_reference (db : Db) (fp : string) : bool :=
  exists_in (λ row, fw_key_fingerprint row == fp) (db_references db).

(** [INSERT .. ON CONFLICT(key_fingerprint) DO UPDATE] *)
Definition upsert_reference_row (db : Db) (row : ReferenceRow) : StoreResult Db :=
  sql_check (reference_checks db row);;
  Ok (set_references db
    (if has_reference db (fw_key_fingerprint row)
     then (λ old, if fw_key_fingerprint old == fw_key_fingerprint row then row else old) <$>
            db_references db
     else db_references db ++ [row])).

Definition insert_reference_row (db : Db) (row : ReferenceRow) : StoreResult Db :=
  sql_check (reference_checks db row ++
    [(negb (has_reference db (fw_key_fingerprint row)),
      "UNIQUE constraint failed: signing_references.key_fingerprint")]);;
  Ok (set_references db (db_references db ++ [row])).

(** The deletion and the number of deleted rows. *)
Definition delete_reference_row (db : Db) (fp : string) : StoreResult (Db * N) :=
  sql_check [(negb (has_reference db fp && key_is_frozen db fp),
    "terminal persona signing references are frozen")];;
  Ok (set_references db (filter (λ row, fw_key_fingerprint row ≠ fp) (db_references db)),
      len (filter (λ row, fw_key_fingerprint row = fp) (db_references db))).

Definition insert_reference_event_row (db : Db) (row : Z → ReferenceEventRow) : StoreResult Db :=
  let sequence := (db_reference_event_sequence db + 1)%Z in
  let row := row sequence in
  sql_check
    [(negb (key_is_frozen db (fe_key_fingerprint row)),
      "terminal persona signing-reference history is frozen");
     (match fe_locator_sha256 row with
      | Some digest => is_one_of (fe_event_type row) ["bound"; "rebound"] && sql_sha256 digest
      | None => fe_event_type row == "unbound"
      end, "signing reference event has no exact locator commitment");
     ((sequence <=? i64_max)%Z, "database or disk is full");
     (is_one_of (fe_event_type row) ["bound"; "rebound"; "unbound"],
      "CHECK constraint failed: event_type");
     ((0 <=? fe_occurred_at row)%Z, "CHECK constraint failed: occurred_at");
     (has_key db (fe_key_fingerprint row), "FOREIGN KEY constraint failed")];;
  Ok (set_reference_events db (db_reference_events db ++ [row]) sequence).

(** ** Continuity roots and heads *)

(** A live root next to an archive needs a pending materialization of it. *)
Definition pending_materialization_of (db : Db) (row : RootRow) : bool :=
  exists_in (λ archive,
    (aw_persona_id archive == ow_persona_id row) &&
    exists_in (λ m,
      (mw_persona_id m == aw_persona_id archive) && (mw_state m == "pending") &&
      (mw_archive_imported_at m =? aw_imported_at archive)%Z &&
      (mw_stored_archive_json_length m =? blob_length (aw_archive_json archive))%Z &&
      (mw_expected_root_statement_sha256 m == ow_root_statement_sha256 row) &&
      (aw_imported_at archive <=? mw_materialized_at m)%Z) (db_materializations db)) (db_archives db).

Definition insert_root_row (db : Db) (row : RootRow) : StoreResult Db :=
  sql_check
    [(negb (exists_in (λ old, (ow_persona_id old == ow_persona_id row) ||
              (ow_root_statement_sha256 old == ow_root_statement_sha256 row) ||
              (ow_persona_anchor old == ow_persona_anchor row)) (db_roots db)),
      "persona continuity roots are immutable");
     (negb (has_archive db (ow_persona_id row)) || pending_materialization_of db row,
      "live root requires an exact pending continuity materialization intent");
     (sql_sha256 (ow_root_statement_sha256 row), "CHECK constraint failed: root_statement_sha256");
     ((sql_length (ow_persona_anchor row) =? 43)%Z, "CHECK constraint failed: persona_anchor");
     (between 1 (blob_length (ow_root_proof_json row)) 1048576, "CHECK constraint failed: root_proof_json");
     ((0 <=? ow_issued_at row)%Z, "CHECK constraint failed: issued_at");
     ((0 <=? ow_recorded_at row)%Z, "CHECK constraint failed: recorded_at");
     (has_persona db (ow_persona_id row), "FOREIGN KEY constraint failed");
     (has_key db (ow_initial_key_fingerprint row), "FOREIGN KEY constraint failed")];;
  Ok (set_journal db (db_roots db ++ [row]) (db_heads db) (db_transitions db) (db_terminals db)).

Definition head_checks (db : Db) (row : HeadRow) : list (bool * string) :=
  [((0 <=? hw_revision row)%Z, "CHECK constraint failed: revision");
   (between 0 (hw_transition_sequence row) 4096, "CHECK constraint failed: transition_sequence");
   (sql_sha256_opt (hw_last_transition_sha256 row), "CHECK constraint failed: last_transition_sha256");
   ((0 <=? hw_last_issued_at row)%Z, "CHECK constraint failed: last_issued_at");
   (sql_linked 0 (hw_transition_sequence row) (hw_last_transition_sha256 row),
    "CHECK constraint failed: persona_continuity_heads");
   (has_root db (hw_persona_id row), "FOREIGN KEY constraint failed");
   (has_key db (hw_current_key_fingerprint row), "FOREIGN KEY constraint failed")].

Definition insert_head_row (db : Db) (row : HeadRow) : StoreResult Db :=
  sql_check
    ((negb (exists_in (λ old, hw_persona_id old == hw_persona_id row) (db_heads db)),
      "persona continuity heads cannot be replaced") :: head_checks db row);;
  Ok (set_journal db (db_roots db) (db_heads db ++ [row]) (db_transitions db) (db_terminals db)).

Definition update_heads (db : Db) (p : HeadRow → bool) (f : HeadRow → HeadRow) : StoreResult (Db * N) :=
  '(rows, n) ← update_rows (λ row row',
    (negb (has_terminal db (hw_persona_id row)), "terminal persona continuity head is frozen") ::
    head_checks db row') p f (db_heads db);
  Ok (set_journal db (db_roots db) rows (db_transitions db) (db_terminals db), n).

(** ** Transitions *)

Definition transition_kind_checks (row : TransitionRow) : bool :=
  ((tw_transition_kind row == "routine") && is_null (tw_recovery_policy_sha256 row) &&
   is_null (tw_recovery_policy_version row) && is_null (tw_recovery_reason row)) ||
  ((tw_transition_kind row == "recovery") && negb (is_null (tw_recovery_policy_sha256 row)) &&
   negb (is_null (tw_recovery_policy_version row)) && negb (is_null (tw_recovery_reason row))).

Definition insert_transition_row (db : Db) (row : TransitionRow) : StoreResult Db :=
  sql_check
    [(negb (exists_in (λ old,
         ((tw_persona_id old == tw_persona_id row) && (tw_sequence old =? tw_sequence row)%Z) ||
         (tw_transition_statement_sha256 old == tw_transition_statement_sha256 row))
         (db_transitions db)), "persona continuity transitions are append-only");
     (transition_kind_checks row, "continuity transition kind metadata is inconsistent");
     (negb (has_terminal db (tw_persona_id row)),
      "terminal persona cannot append continuity transitions");
     (between 1 (tw_sequence row) 4096, "CHECK constraint failed: sequence");
     (sql_sha256 (tw_transition_statement_sha256 row),
      "CHECK constraint failed: transition_statement_sha256");
     (sql_sha256 (tw_root_statement_sha256 row), "CHECK constraint failed: root_statement_sha256");
     (sql_sha256_opt (tw_previous_transition_sha256 row),
      "CHECK constraint failed: previous_transition_sha256");
     ((0 <=? tw_issued_at row)%Z, "CHECK constraint failed: issued_at");
     (between 1 (blob_length (tw_proof_json row)) 1048576, "CHECK constraint failed: proof_json");
     ((0 <=? tw_committed_at row)%Z, "CHECK constraint failed: committed_at");
     (is_one_of (tw_transition_kind row) ["routine"; "recovery"],
      "CHECK constraint failed: transition_kind");
     (sql_sha256_opt (tw_recovery_policy_sha256 row),
      "CHECK constraint failed: recovery_policy_sha256");
     (match tw_recovery_policy_version row with Some v => between 1 v 1024 | None => true end,
      "CHECK constraint failed: recovery_policy_version");
     (match tw_recovery_reason row with
      | Some r => is_one_of r ["recovery"; "compromise"]
      | None => true
      end, "CHECK constraint failed: recovery_reason");
     (has_root db (tw_persona_id row), "FOREIGN KEY constraint failed");
     (has_key db (tw_previous_key_fingerprint row), "FOREIGN KEY constraint failed");
     (has_key db (tw_next_key_fingerprint row), "FOREIGN KEY constraint failed")];;
  Ok (set_journal db (db_roots db) (db_heads db) (db_transitions db ++ [row]) (db_terminals db)).

(** ** Recovery policies *)

Definition insert_policy_row (db : Db) (row : PolicyRow) : StoreResult Db :=
  sql_check
    [(negb (exists_in (λ old,
         ((yw_persona_id old == yw_persona_id row) &&
          (yw_policy_version old =? yw_policy_version row)%Z) ||
         (yw_policy_statement_sha256 old == yw_policy_statement_sha256 row)) (db_policies db)),
      "recovery policies are append-only");
     (negb (has_terminal db (yw_persona_id row)), "terminal persona cannot append recovery policies");
     (between 1 (yw_policy_version row) 1024, "CHECK constraint failed: policy_version");
     (sql_sha256 (yw_policy_statement_sha256 row), "CHECK constraint failed: policy_statement_sha256");
     (sql_sha256_opt (yw_previous_policy_sha256 row), "CHECK constraint failed: previous_policy_sha256");
     (sql_sha256 (yw_root_statement_sha256 row), "CHECK constraint failed: root_statement_sha256");
     (between 0 (yw_checkpoint_sequence row) 4096, "CHECK constraint failed: checkpoint_sequence");
     (sql_sha256_opt (yw_checkpoint_sha256 row), "CHECK constraint failed: checkpoint_sha256");
     ((0 <=? yw_issued_at row)%Z, "CHECK constraint failed: issued_at");
     ((yw_issued_at row <? yw_expires_at row)%Z, "CHECK constraint failed: expires_at");
     (between 1 (blob_length (yw_proof_json row)) 1048576, "CHECK constraint failed: proof_json");
     ((0 <=? yw_recorded_at row)%Z, "CHECK constraint failed: recorded_at");
     (sql_linked 1 (yw_policy_version row) (yw_previous_policy_sha256 row),
      "CHECK constraint failed: persona_recovery_policies");
     (sql_linked 0 (yw_checkpoint_sequence row) (yw_checkpoint_sha256 row),
      "CHECK constraint failed: persona_recovery_policies");
     (has_root db (yw_persona_id row), "FOREIGN KEY constraint failed")];;
  Ok (set_policies db (db_policies db ++ [row]) (db_policy_heads db)).

Definition policy_head_checks (db : Db) (row : PolicyHeadRow) : list (bool * string) :=
  [((1 <=? yh_revision row)%Z, "CHECK constraint failed: revision");
   (between 1 (yh_latest_policy_version row) 1024, "CHECK constraint failed: latest_policy_version");
   (sql_sha256 (yh_latest_policy_sha256 row), "CHECK constraint failed: latest_policy_sha256");
   ((0 <=? yh_recorded_at row)%Z, "CHECK constraint failed: recorded_at");
   (has_root db (yh_persona_id row), "FOREIGN KEY constraint failed")].

Definition insert_policy_head_row (db : Db) (row : PolicyHeadRow) : StoreResult Db :=
  sql_check
    ((negb (exists_in (λ old, yh_persona_id old == yh_persona_id row) (db_policy_heads db)),
      "recovery policy heads cannot be replaced") :: policy_head_checks db row);;
  Ok (set_policies db (db_policies db) (db_policy_heads db ++ [row])).

Definition update_policy_heads (db : Db) (p : PolicyHeadRow → bool)
    (f : PolicyHeadRow → PolicyHeadRow) : StoreResult (Db * N) :=
  '(rows, n) ← update_rows (λ row row',
    (negb (has_terminal db (yh_persona_id row)), "terminal persona recovery-policy head is frozen") ::
    policy_head_checks db row') p f (db_policy_heads db);
  Ok (set_policies db (db_policies db) rows, n).

(** ** Terminal revocations *)

Definition terminal_policy_word (reason : string) : string :=
  "a-quo:persona-terminal-revocation:" +:+ reason +:+ ":v1".

(** The status and the event a revocation must find for its reason. *)
Definition terminal_status (reason : string) : option string :=
  if reason == "compromise" then Some "compromised"
  else if reason == "cessation" then Some "retired"
  else None.

(** What both ways of inserting a terminal revocation require of the heads. *)
Definition terminal_pins_heads (row : TerminalRow) (root : RootRow) (head : HeadRow)
    (policy_head : PolicyHeadRow) : bool :=
  (ow_root_statement_sha256 root == zw_root_statement_sha256 row) &&
  (zw_sequence row =? hw_transition_sequence head + 1)%Z &&
  (zw_previous_transition_sha256 row == hw_last_transition_sha256 head) &&
  (zw_previous_key_fingerprint row == hw_current_key_fingerprint head) &&
  (hw_last_issued_at head <=? zw_issued_at row)%Z &&
  (zw_recovery_policy_version row =? yh_latest_policy_version policy_head)%Z &&
  (zw_recovery_policy_sha256 row == yh_latest_policy_sha256 policy_head).

(** The persona has the three heads and the revoked key, and [p] holds of them. *)
Definition exists_heads (db : Db) (row : TerminalRow)
    (p : RootRow → HeadRow → PolicyHeadRow → KeyRow → bool) : bool :=
  exists_in (λ root, (ow_persona_id root == zw_persona_id row) &&
    exists_in (λ head, (hw_persona_id head == ow_persona_id root) &&
      exists_in (λ policy_head, (yh_persona_id policy_head == ow_persona_id root) &&
        exists_in (λ key, (kw_fingerprint key == zw_previous_key_fingerprint row) &&
                          (kw_persona_id key == ow_persona_id root) &&
                          p root head policy_head key) (db_keys db))
        (db_policy_heads db)) (db_heads db)) (db_roots db).

Definition no_active_key (db : Db) (persona_id : string) : bool :=
  negb (exists_in (λ key, (kw_persona_id key == persona_id) && (kw_status key == "active")) (db_keys db)).

Definition terminal_pins_live (db : Db) (row : TerminalRow) : bool :=
  exists_heads db row (λ root head policy_head key,
    terminal_pins_heads row root head policy_head &&
    (yh_recorded_at policy_head <=? zw_committed_at row)%Z &&
    (terminal_status (zw_reason row) == Some (kw_status key)) &&
    no_active_key db (zw_persona_id row) &&
    negb (has_reference db (zw_previous_key_fingerprint row)) &&
    exists_in (λ event,
      (ew_persona_id event == zw_persona_id row) &&
      (ew_key_fingerprint event == zw_previous_key_fingerprint row) &&
      (ew_occurred_at event =? zw_committed_at row)%Z &&
      (ew_actor event == "recovery-authority-threshold") &&
      (terminal_status (zw_reason row) == Some (ew_event_type event)) &&
      (ew_policy event == terminal_policy_word (zw_reason row))) (db_events db)).

(** The revocation is the hydration of a pending terminal materialization. *)
Definition terminal_pins_pending (db : Db) (row : TerminalRow) : bool :=
  exists_in (λ m,
    (mw_persona_id m == zw_persona_id row) && (mw_state m == "pending") &&
    (mw_method m == "terminal_hydration") &&
    (mw_expected_root_statement_sha256 m == zw_root_statement_sha256 row) &&
    (mw_expected_policy_version m == Some (zw_recovery_policy_version row)) &&
    (mw_expected_policy_sha256 m == Some (zw_recovery_policy_sha256 row)) &&
    (mw_source_head_sequence m =? zw_sequence row)%Z &&
    (mw_source_head_sha256 m == Some (zw_revocation_statement_sha256 row)) &&
    (mw_result_head_sequence m =? zw_sequence row)%Z &&
    (mw_result_head_sha256 m == Some (zw_revocation_statement_sha256 row)) &&
    (mw_materialized_at m =? zw_committed_at row)%Z &&
    (mw_preexisting_signing_reference_event_sequence_boundary m =? 0)%Z &&
    is_null (mw_result_signing_reference_event_sequence m) &&
    exists_heads db row (λ root head policy_head key,
      terminal_pins_heads row root head policy_head &&
      (ow_recorded_at root =? mw_materialized_at m)%Z &&
      (yh_recorded_at policy_head =? mw_materialized_at m)%Z &&
      (terminal_status (zw_reason row) == Some (kw_status key)) &&
      negb (is_null (if zw_reason row == "compromise" then kw_compromised_at key
                     else kw_retired_at key)) &&
      no_active_key db (zw_persona_id row) &&
      negb (exists_in (λ r, has_key_of db (fw_key_fingerprint r) (zw_persona_id row))
              (db_references db)) &&
      exists_in (λ event,
        (ew_persona_id event == zw_persona_id row) &&
        (ew_key_fingerprint event == zw_previous_key_fingerprint row) &&
        (ew_sequence event <=? mw_imported_event_sequence_boundary m)%Z &&
        (terminal_status (zw_reason row) == Some (ew_event_type event)) &&
        (Some (ew_occurred_at event) ==
           (if zw_reason row == "compromise" then kw_compromised_at key else kw_retired_at key)))
        (db_events db))) (db_materializations db).

Definition insert_terminal_row (db : Db) (row : TerminalRow) : StoreResult Db :=
  sql_check
    [(negb (exists_in (λ old, (zw_persona_id old == zw_persona_id row) ||
         (zw_revocation_statement_sha256 old == zw_revocation_statement_sha256 row))
         (db_terminals db)), "terminal persona revocations are immutable");
     (terminal_pins_live db row || terminal_pins_pending db row,
      "terminal revocation does not pin the exact live heads");
     (between 1 (zw_sequence row) 4097, "CHECK constraint failed: sequence");
     (sql_sha256 (zw_revocation_statement_sha256 row),
      "CHECK constraint failed: revocation_statement_sha256");
     (sql_sha256 (zw_root_statement_sha256 row), "CHECK constraint failed: root_statement_sha256");
     (sql_sha256_opt (zw_previous_transition_sha256 row),
      "CHECK constraint failed: previous_transition_sha256");
     (sql_sha256 (zw_recovery_policy_sha256 row), "CHECK constraint failed: recovery_policy_sha256");
     (between 1 (zw_recovery_policy_version row) 1024,
      "CHECK constraint failed: recovery_policy_version");
     (is_one_of (zw_reason row) ["compromise"; "cessation"], "CHECK constraint failed: reason");
     ((0 <=? zw_issued_at row)%Z, "CHECK constraint failed: issued_at");
     (between 1 (blob_length (zw_proof_json row)) 1048576, "CHECK constraint failed: proof_json");
     ((0 <=? zw_committed_at row)%Z, "CHECK constraint failed: committed_at");
     ((zw_issued_at row <=? zw_committed_at row)%Z,
      "CHECK constraint failed: persona_terminal_revocations");
     (sql_linked 1 (zw_sequence row) (zw_previous_transition_sha256 row),
      "CHECK constraint failed: persona_terminal_revocations");
     (has_root db (zw_persona_id row), "FOREIGN KEY constraint failed");
     (has_key db (zw_previous_key_fingerprint row), "FOREIGN KEY constraint failed")];;
  Ok (set_journal db (db_roots db) (db_heads db) (db_transitions db) (db_terminals db ++ [row])).

(** ** Archives *)

Definition insert_archive_row (db : Db) (row : ArchiveRow) : StoreResult Db :=
  sql_check
    [(negb (has_archive db (aw_persona_id row)), "imported continuity evidence is immutable");
     (negb (has_root db (aw_persona_id row)), "continuity archive cannot coexist with a live root");
     (between 1 (blob_length (aw_archive_json row)) 4194304, "CHECK constraint failed: archive_json");
     ((0 <=? aw_imported_at row)%Z, "CHECK constraint failed: imported_at");
     (has_persona db (aw_persona_id row), "FOREIGN KEY constraint failed")];;
  Ok (set_archives db (db_archives db ++ [row])).
