(* ===== verification/StoredKeys.v ===== *)
(** * Reading personas, keys and their history ([crates/a-quo-store/src/lib.rs])

    Rows become records only when their words parse and their text is
    canonical; the history of a persona is replayed, as that of a backup is,
    before it is used. *)

From stdpp Require Import base numbers list strings pretty option gmap.
From Stdlib Require Import Strings.Byte Ascii.
From S2P Require Import Prelude Text Ordered Display Crates Io ArtifactProof Continuity RecoveryPolicy RecoveryChain.
From S2P Require Import Names Fields IpcProtocol StoreTypes StoreCommon Backup Tables.

(** ** Data *)

Record KeyEvent := {
  kv_sequence : Z;
  kv_persona_id : string;
  kv_key_fingerprint : string;
  kv_event_type : string;
  kv_occurred_at : Z;
  kv_actor : string;
  kv_policy : string;
  kv_note : option string;
}.
Record StoredRecognizedKey := { sk_persona : Persona; sk_key : KeyRecord }.

(** ** Queries *)

(** [query_row(..).optional()] on a unique column. *)
Fixpoint find_row {A} (p : A → bool) (rows : list A) : option A :=
  match rows with
  | [] => None
  | row :: rows => if p row then Some row else find_row p rows
  end.

Definition continuity_managed_in (db : Db) (persona_id : string) : bool :=
  has_root db persona_id || has_archive db persona_id.
Definition continuity_archive_exists_in (db : Db) (persona_id : string) : bool :=
  has_archive db persona_id.
Definition continuity_root_exists_in (db : Db) (persona_id : string) : bool := has_root db persona_id.
Definition terminal_revocation_exists_in (db : Db) (persona_id : string) : bool :=
  has_terminal db persona_id.

Definition require_nonterminal_persona (db : Db) (persona_id : string) : StoreResult unit :=
  reject_if (terminal_revocation_exists_in db persona_id) (PersonaTerminallyRevoked persona_id).

Definition require_active_persona (db : Db) (persona_id : string) : StoreResult unit :=
  match find_row (λ row, pr_id row == persona_id) (db_personas db) with
  | None => Err (PersonaNotFound persona_id)
  | Some row => reject_if (negb (is_null (pr_archived_at row))) (PersonaArchived persona_id)
  end.

Definition require_unknown_key (db : Db) (fp : string) : StoreResult unit :=
  reject_if (has_key db fp) (KeyAlreadyKnown fp).

(** ** Personas and keys *)

Definition persona_from_row (row : PersonaRow) : StoreResult Persona :=
  label ← validate_canonical_text "stored persona label" (pr_label row) MAX_LABEL_BYTES;
  purpose ← purpose_from_str (pr_purpose row);
  Ok {| pe_id := pr_id row; pe_label := label; pe_purpose := purpose;
        pe_created_at := pr_created_at row; pe_archived_at := pr_archived_at row |}.

Definition persona_in (db : Db) (persona_id : string) : StoreResult Persona :=
  row ← ok_or (find_row (λ row, pr_id row == persona_id) (db_personas db)) (PersonaNotFound persona_id);
  persona_from_row row.

Definition key_from_row (row : KeyRow) : StoreResult KeyRecord :=
  provider ← provider_from_str (kw_provider row);
  status ← status_from_str (kw_status row);
  Ok {| kr_fingerprint := kw_fingerprint row; kr_persona_id := kw_persona_id row;
        kr_public_key := kw_public_key row; kr_provider := provider; kr_status := status;
        kr_added_at := kw_added_at row; kr_retired_at := kw_retired_at row;
        kr_compromised_at := kw_compromised_at row |}.

Definition keys_of (db : Db) (persona_id : string) : list KeyRow :=
  filter (λ row, kw_persona_id row = persona_id) (db_keys db).
Definition events_of (db : Db) (persona_id : string) : list EventRow :=
  filter (λ row, ew_persona_id row = persona_id) (db_events db).

Definition stored_persona_key_count (db : Db) (persona_id : string) : N := len (keys_of db persona_id).
Definition stored_persona_event_count (db : Db) (persona_id : string) : N := len (events_of db persona_id).

Definition require_stored_key_count (db : Db) (persona_id : string) (reserving_one : bool) :
    StoreResult N :=
  let count := stored_persona_key_count db persona_id in
  let allowed := if reserving_one then (count <? MAX_STORED_PERSONA_KEYS)%N
                 else (count <=? MAX_STORED_PERSONA_KEYS)%N in
  reject_if (negb allowed) (StoredPersonaKeyLimit MAX_STORED_PERSONA_KEYS);;
  Ok count.

Definition require_stored_event_count (db : Db) (persona_id : string) (reserving_one : bool) :
    StoreResult N :=
  let count := stored_persona_event_count db persona_id in
  let allowed := if reserving_one then (count <? MAX_STORED_PERSONA_EVENTS)%N
                 else (count <=? MAX_STORED_PERSONA_EVENTS)%N in
  reject_if (negb allowed) (StoredPersonaEventLimit MAX_STORED_PERSONA_EVENTS);;
  Ok count.

(** [ORDER BY added_at, fingerprint] *)
Definition key_row_le (a b : KeyRow) : bool :=
  (kw_added_at a <? kw_added_at b)%Z ||
  ((kw_added_at a =? kw_added_at b)%Z && negb (str_ltb (kw_fingerprint b) (kw_fingerprint a))).

Definition list_keys_in (db : Db) (persona_id : string) : StoreResult (list KeyRecord) :=
  require_stored_key_count db persona_id false;;
  collect_result key_from_row (order_by key_row_le (keys_of db persona_id)).

(** [ORDER BY fingerprint] *)
Definition active_key_fingerprints (db : Db) (persona_id : string) : list string :=
  order_by (λ a b, negb (str_ltb b a))
    (kw_fingerprint <$> filter (λ row, kw_status row = "active") (keys_of db persona_id)).

Definition lookup_key_in (db : Db) (fp : string) : StoreResult (option StoredRecognizedKey) :=
  match find_row (λ row, kw_fingerprint row == fp) (db_keys db) with
  | None => Ok None
  | Some row =>
      match find_row (λ p, pr_id p == kw_persona_id row) (db_personas db) with
      | None => Ok None
      | Some p =>
          persona ← persona_from_row p;
          key ← key_from_row row;
          Ok (Some {| sk_persona := persona; sk_key := key |})
      end
  end.

Definition lookup_signing_reference_in (db : Db) (fp : string) : option SigningReference :=
  option_map (λ row, {| sf_key_fingerprint := fw_key_fingerprint row; sf_locator := fw_locator row;
                        sf_configured_at := fw_configured_at row |})
    (find_row (λ row, fw_key_fingerprint row == fp) (db_references db)).

(** ** Time *)

(** Every time recorded for a persona. *)
Definition opt_times (o : option Z) : list Z := match o with Some t => [t] | None => [] end.

Definition persona_times (db : Db) (persona_id : string) : list Z :=
  let personas := filter (λ row, pr_id row = persona_id) (db_personas db) in
  (pr_created_at <$> personas) ++ (personas ≫= λ row, opt_times (pr_archived_at row)).
Definition key_times (db : Db) (persona_id : string) : list Z :=
  let keys := keys_of db persona_id in
  (kw_added_at <$> keys) ++ (keys ≫= λ row, opt_times (kw_retired_at row)) ++
  (keys ≫= λ row, opt_times (kw_compromised_at row)).

Definition audit_times (db : Db) (persona_id : string) : list Z :=
  persona_times db persona_id ++ key_times db persona_id ++
  (ew_occurred_at <$> events_of db persona_id) ++
  (fe_occurred_at <$> filter (λ row, has_key_of db (fe_key_fingerprint row) persona_id = true)
                        (db_reference_events db)) ++
  (fw_configured_at <$> filter (λ row, has_key_of db (fw_key_fingerprint row) persona_id = true)
                          (db_references db)) ++
  (ow_recorded_at <$> filter (λ row, ow_persona_id row = persona_id) (db_roots db)) ++
  (tw_committed_at <$> filter (λ row, tw_persona_id row = persona_id) (db_transitions db)) ++
  (yw_recorded_at <$> filter (λ row, yw_persona_id row = persona_id) (db_policies db)) ++
  (zw_committed_at <$> filter (λ row, zw_persona_id row = persona_id) (db_terminals db)).

(** [SELECT max(value)], absent on no rows. *)
Definition max_time (times : list Z) : option Z :=
  match times with [] => None | t :: times => Some (foldl Z.max t times) end.

Definition require_monotonic_audit_time (db : Db) (persona_id : string) (observed : Z) :
    StoreResult unit :=
  latest ← ok_or (max_time (audit_times db persona_id)) (PersonaNotFound persona_id);
  reject_if (observed <? latest)%Z (NonMonotonicAuditTime observed latest).

Definition latest_persona_backup_time_in (db : Db) (persona_id : string) : StoreResult Z :=
  ok_or (max_time (persona_times db persona_id ++ key_times db persona_id ++
      (ew_occurred_at <$> events_of db persona_id) ++
      (zw_committed_at <$> filter (λ row, zw_persona_id row = persona_id) (db_terminals db))))
    (PersonaNotFound persona_id).

(** ** The history of a persona *)

Section history.
Context {crates : Crates} {uuids : Uuids}
  {json_root_proof : Serde PersonaRootProof} {json_policy_proof : Serde RecoveryPolicyProof}
  {json_entry : Serde PersonaContinuityTransitionProof}
  {json_terminal_proof : Serde TerminalPersonaRevocationProof}
  {json_root : Serde PersonaRootStatement} {json_transition : Serde PersonaTransitionStatement}
  {json_policy : Serde RecoveryPolicyStatement} {json_recovery : Serde RecoveryTransitionStatement}
  {json_terminal : Serde TerminalPersonaRevocationStatement}.

Definition key_event_from_row (db : Db) (row : EventRow) : StoreResult KeyEvent :=
  reject_if (negb (has_key_of db (ew_key_fingerprint row) (ew_persona_id row))) CrossPersonaKeyEvent;;
  actor ← validate_canonical_text "stored key event actor" (ew_actor row) MAX_ACTOR_BYTES;
  policy ← validate_canonical_text "stored key event policy" (ew_policy row) MAX_POLICY_BYTES;
  note ← match ew_note row with
         | None => Ok None
         | Some note =>
             note ← validate_canonical_text "stored key event note" note MAX_NOTE_BYTES; Ok (Some note)
         end;
  Ok {| kv_sequence := ew_sequence row; kv_persona_id := ew_persona_id row;
        kv_key_fingerprint := ew_key_fingerprint row; kv_event_type := ew_event_type row;
        kv_occurred_at := ew_occurred_at row; kv_actor := actor; kv_policy := policy;
        kv_note := note |}.

Definition backup_persona (persona : Persona) : BackupPersona :=
  {| bp_id := pe_id persona; bp_label := pe_label persona; bp_purpose := pe_purpose persona;
     bp_created_at := pe_created_at persona; bp_archived_at := pe_archived_at persona |}.
Definition backup_key (key : KeyRecord) : BackupKey :=
  {| bk_fingerprint := kr_fingerprint key; bk_public_key := kr_public_key key;
     bk_provider := kr_provider key; bk_status := kr_status key; bk_added_at := kr_added_at key;
     bk_retired_at := kr_retired_at key; bk_compromised_at := kr_compromised_at key |}.

(** The events with their numbers, from an index on. *)
Fixpoint backup_events (index : N) (events : list KeyEvent) : StoreResult (list BackupKeyEvent) :=
  match events with
  | [] => Ok []
  | event :: events =>
      ordinal ← expect (u32_try_from (index + 1)) "stored event bound fits in a u32 ordinal";
      rest ← backup_events (index + 1) events;
      Ok ({| be_ordinal := ordinal; be_key_fingerprint := kv_key_fingerprint event;
             be_event_type := kv_event_type event; be_occurred_at := kv_occurred_at event;
             be_actor := kv_actor event; be_policy := kv_policy event;
             be_note := kv_note event |} :: rest)
  end.

(** The latest time of a persona, its keys and its events. *)
Definition history_exported_at (persona : Persona) (keys : list KeyRecord) (events : list KeyEvent) : Z :=
  foldl Z.max (pe_created_at persona)
    (opt_times (pe_archived_at persona) ++
     (keys ≫= λ key, kr_added_at key :: opt_times (kr_retired_at key) ++
                       opt_times (kr_compromised_at key)) ++
     (kv_occurred_at <$> events)).

Definition validate_stored_key_history (db : Db) (persona_id : string) (events : list KeyEvent) :
    StoreResult unit :=
  persona ← persona_in db persona_id;
  keys ← list_keys_in db persona_id;
  numbered ← backup_events 0 events;
  map_err (λ _, InvalidAuditHistory)
    (validate_persona_history
      {| pb_backup_schema := PERSONA_BACKUP_V1_SCHEMA;
         pb_exported_at := history_exported_at persona keys events;
         pb_persona := backup_persona persona;
         pb_keys := backup_key <$> keys;
         pb_events := numbered;
         pb_continuity := None |} LiveStore).

(** [ORDER BY sequence] *)
Definition event_row_le (a b : EventRow) : bool := (ew_sequence a <=? ew_sequence b)%Z.

Definition key_history_in (db : Db) (persona_id : string) : StoreResult (list KeyEvent) :=
  require_stored_event_count db persona_id false;;
  events ← collect_result (key_event_from_row db) (order_by event_row_le (events_of db persona_id));
  validate_stored_key_history db persona_id events;;
  Ok events.

Definition persona_backup_in (db : Db) (persona_id : string) (exported_at : Z)
    (continuity : BackupContinuity) : StoreResult PersonaBackup :=
  persona ← persona_in db persona_id;
  keys ← list_keys_in db persona_id;
  events ← key_history_in db persona_id;
  reject_if (MAX_PERSONA_BACKUP_KEYS <? len keys)%N
    (invalid_backup ("keys cannot contain more than " +:+ pretty MAX_PERSONA_BACKUP_KEYS +:+ " entries"));;
  reject_if (MAX_PERSONA_BACKUP_EVENTS <? len events)%N
    (invalid_backup ("events cannot contain more than " +:+ pretty MAX_PERSONA_BACKUP_EVENTS +:+
      " entries"));;
  numbered ← backup_events 0 events;
  Ok {| pb_backup_schema := PERSONA_BACKUP_SCHEMA; pb_exported_at := exported_at;
        pb_persona := backup_persona persona; pb_keys := backup_key <$> keys;
        pb_events := numbered; pb_continuity := Some continuity |}.
End history.

(** ** Writing keys and events *)

Definition insert_key (db : Db) (persona_id fp public_key : string) (provider : KeyProvider) (now : Z) :
    StoreResult Db :=
  require_stored_key_count db persona_id true;;
  insert_key_row db
    {| kw_fingerprint := fp; kw_persona_id := persona_id; kw_public_key := public_key;
       kw_provider := provider_as_str provider; kw_status := "active"; kw_added_at := now;
       kw_retired_at := None; kw_compromised_at := None |}.

Definition append_event (db : Db) (persona_id fp event_type : string) (occurred_at : Z)
    (actor policy : string) (note : option string) : StoreResult Db :=
  require_stored_event_count db persona_id true;;
  reject_if (negb (has_key_of db fp persona_id)) CrossPersonaKeyEvent;;
  insert_event_row db (λ sequence,
    {| ew_sequence := sequence; ew_persona_id := persona_id; ew_key_fingerprint := fp;
       ew_event_type := event_type; ew_occurred_at := occurred_at; ew_actor := actor;
       ew_policy := policy; ew_note := note |}).

(** The row of a key that got a status, the times it had kept. *)
Definition transitioned (status : KeyStatus) (now : Z) (row : KeyRow) : KeyRow :=
  {| kw_fingerprint := kw_fingerprint row; kw_persona_id := kw_persona_id row;
     kw_public_key := kw_public_key row; kw_provider := kw_provider row;
     kw_status := status_as_str status; kw_added_at := kw_added_at row;
     kw_retired_at := match status with Retired => Some now | _ => kw_retired_at row end;
     kw_compromised_at := match status with Compromised => Some now | _ => kw_compromised_at row end |}.

Definition transition_key (db : Db) (fp : string) (status : KeyStatus) (now : Z) : StoreResult Db :=
  reject_if (status == Active)
    (InvalidTransition "cannot transition an existing key back to active");;
  '(db, updated) ← update_keys db
    (λ row, (kw_fingerprint row == fp) && (kw_status row != "compromised"))
    (transitioned status now);
  reject_if (negb (updated =? 1)%N)
    (InvalidTransition ("cannot transition key " +:+ fp +:+ " to " +:+ status_as_str status));;
  Ok db.

Section references.
Context {crates : Crates}.

Definition append_signing_reference_event (db : Db) (fp event_type : string) (occurred_at : Z)
    (locator : option string) : StoreResult Db :=
  locator_sha256 ← match locator with
    | Some locator =>
        if (event_type == "bound") || (event_type == "rebound")
        then digest ← signing_locator_sha256 locator; Ok (Some digest)
        else Err InvalidAuditHistory
    | None => if event_type == "unbound" then Ok None else Err InvalidAuditHistory
    end;
  insert_reference_event_row db (λ sequence,
    {| fe_sequence := sequence; fe_key_fingerprint := fp; fe_event_type := event_type;
       fe_occurred_at := occurred_at; fe_locator_sha256 := locator_sha256 |}).
End references.
