(* ===== verification/Journal.v ===== *)
(** * The continuity journal of a persona ([crates/a-quo-store/src/lib.rs])

    The root, head, transitions, recovery policies and terminal revocation of
    a persona as the rows hold them, and the complete check they pass every
    time they are read: the proofs are verified again as one chain, and the
    columns, the observation times, the head and the keys must agree with it. *)

From stdpp Require Import base numbers list strings pretty option gmap.
From Stdlib Require Import Strings.Byte Ascii.
From S2P Require Import Prelude Text Ordered Display Crates Io ArtifactProof Continuity RecoveryPolicy RecoveryChain.
From S2P Require Import Names Fields IpcProtocol StoreTypes StoreCommon Backup BackupVerify Tables StoredKeys.

(** ** The clock *)

(** What the calls of [SystemTime::now()] return while an operation runs: each
    by the path of calls that leads to it, independently of the others. *)
Definition Clock := list nat → option N.
Definition reading (clock : Clock) : option N := clock [].
Definition call (n : nat) (clock : Clock) : Clock := λ path, clock (n :: path).

(** ** Data *)

Inductive ContinuityTransitionKind := KindRoutine | KindRecovery.

#[export] Instance ContinuityTransitionKind_eq_dec : EqDecision ContinuityTransitionKind.
Proof. solve_decision. Defined.

Record StoredTransitionColumns := {
  tc_kind : ContinuityTransitionKind;
  tc_sequence : N;
  tc_transition_statement_sha256 : string;
  tc_root_statement_sha256 : string;
  tc_previous_transition_sha256 : option string;
  tc_previous_key_fingerprint : string;
  tc_next_key_fingerprint : string;
  tc_issued_at : Z;
  tc_recovery_policy_sha256 : option string;
  tc_recovery_policy_version : option N;
  tc_recovery_reason : option RecoveryTransitionReason;
  tc_committed_at : Z;
}.
Inductive VerifiedLiveContinuityChain :=
| LiveRoutine (chain : VerifiedPersonaContinuityChain)
| LiveRecoveryAware (chain : VerifiedRecoveryAwareContinuityChain).
Record VerifiedLiveContinuitySnapshot := {
  vl_snapshot : LiveContinuitySnapshot;
  vl_chain : VerifiedLiveContinuityChain;
}.
Inductive PersonaAuthorityDisposition := Operational | EvidenceOnly | TerminallyRevoked | Archived.
Inductive ContinuityMaterializationMethod := DirectActivation | RecoveryActivation | TerminalHydration.

#[export] Instance PersonaAuthorityDisposition_eq_dec : EqDecision PersonaAuthorityDisposition.
Proof. solve_decision. Defined.

(** What readers use of the receipt of an activated archive: how it became
    live and the sequence of the last transition copied from it. *)
Record ContinuityMaterialization := {
  cm_method : ContinuityMaterializationMethod;
  cm_source_sequence : N;
}.

(** What the check of an activated archive promises its readers. A persona
    without a receipt has none to read, and none that can be sealed. *)
Class Materializations := {
  stored_continuity_materialization_in : Db → string → StoreResult (option ContinuityMaterialization);
  validate_sealed_continuity_materialization_in :
    Clock → Db → string → StoreResult ContinuityMaterialization;
}.
Class MaterializationsOk `{!Materializations} := {
  absent_materialization db persona_id :
    existsb (λ m, mw_persona_id m == persona_id) (db_materializations db) = false →
    stored_continuity_materialization_in db persona_id = Ok None;
  absent_materialization_is_not_sealed clock db persona_id m :
    validate_sealed_continuity_materialization_in clock db persona_id = Ok m →
    existsb (λ m, mw_persona_id m == persona_id) (db_materializations db) = true;
}.

(** ** Helpers *)

Definition kind_from_str (value : string) : StoreResult ContinuityTransitionKind :=
  if value == "routine" then Ok KindRoutine
  else if value == "recovery" then Ok KindRecovery
  else Err (bad_continuity "stored continuity transition has an unknown kind").

(** [u32::try_from] of a stored integer. *)
Definition u32_of_stored (value : Z) (reason : string) : StoreResult N :=
  ok_or (if ((0 <=? value) && (value <=? Z.of_N u32_max))%Z then Some (Z.to_N value) else None)
    (bad_continuity reason).

(** [Option::map(..).transpose()?] *)
Definition transpose {A B} (f : A → StoreResult B) (o : option A) : StoreResult (option B) :=
  match o with
  | None => Ok None
  | Some a => b ← f a; Ok (Some b)
  end.

Definition live_root (chain : VerifiedLiveContinuityChain) : VerifiedPersonaRoot :=
  match chain with LiveRoutine chain => vc_root chain | LiveRecoveryAware chain => mc_root chain end.

Definition serialize_continuity_proof {T} `{!Serde T} (proof : T) : StoreResult bytes :=
  bs ← map_err Serialization (of_sum (json_to_vec proof));
  reject_if (MAX_PROOF_BYTES <? len bs)%N ContinuityProofTooLarge;;
  Ok bs.

Definition require_recovery_ceremony_active_at (expires_at : option Z) (checked_at : Z) (phase : string) :
    StoreResult unit :=
  reject_if (match expires_at with Some expires_at => (expires_at <=? checked_at)%Z | None => false end)
    (bad_continuity ("signed recovery ceremony is not active at the store's " +:+ phase +:+ " time")).

(** ** Bounds *)

Definition transitions_of (db : Db) (persona_id : string) : list TransitionRow :=
  filter (λ row, tw_persona_id row = persona_id) (db_transitions db).
Definition policies_of (db : Db) (persona_id : string) : list PolicyRow :=
  filter (λ row, yw_persona_id row = persona_id) (db_policies db).
Definition terminals_of (db : Db) (persona_id : string) : list TerminalRow :=
  filter (λ row, zw_persona_id row = persona_id) (db_terminals db).
Definition roots_of (db : Db) (persona_id : string) : list RootRow :=
  filter (λ row, ow_persona_id row = persona_id) (db_roots db).

Definition blob_sum (blobs : list bytes) : N := foldr (λ b n, (len b + n)%N) 0%N blobs.

Definition aggregate_proof_bytes (db : Db) (persona_id : string) : N :=
  (blob_sum (ow_root_proof_json <$> roots_of db persona_id) +
   blob_sum (tw_proof_json <$> transitions_of db persona_id) +
   blob_sum (yw_proof_json <$> policies_of db persona_id) +
   blob_sum (zw_proof_json <$> terminals_of db persona_id))%N.

Definition require_stored_live_continuity_bounds_with_reservation (db : Db) (persona_id : string)
    (aggregate_proof_byte_limit reserved_proof_bytes reserved_transition_count
     reserved_policy_count : N) : StoreResult unit :=
  let transition_count := len (transitions_of db persona_id) in
  let terminal_count := len (terminals_of db persona_id) in
  let policy_count := len (policies_of db persona_id) in
  reject_if (1 <? terminal_count)%N
    (bad_continuity "stored journal has more than one terminal revocation");;
  reject_if (match (count ← checked_add_usize transition_count terminal_count;
                    checked_add_usize count reserved_transition_count) with
             | Some count => (MAX_TERMINAL_PERSONA_REVOCATION_SEQUENCE <? count)%N
             | None => true
             end)
    (bad_continuity ("stored journal exceeds " +:+ pretty MAX_TERMINAL_PERSONA_REVOCATION_SEQUENCE +:+
      " continuity entries"));;
  reject_if (match checked_add_usize policy_count reserved_policy_count with
             | Some count => (MAX_RECOVERY_POLICY_VERSIONS <? count)%N
             | None => true
             end)
    (bad_continuity ("stored recovery-policy chain exceeds " +:+ pretty MAX_RECOVERY_POLICY_VERSIONS +:+
      " versions"));;
  reject_if (match checked_add_u64 (aggregate_proof_bytes db persona_id) reserved_proof_bytes with
             | Some total => (aggregate_proof_byte_limit <? total)%N
             | None => true
             end)
    (StoredContinuityProofBytesLimit aggregate_proof_byte_limit).

Definition work_limit : StoreError :=
  StoredContinuityVerificationWorkLimit MAX_STORED_CONTINUITY_SIGNATURE_VERIFICATIONS.

Definition recovery_policy_signature_count (proof : RecoveryPolicyProof) : StoreResult N :=
  match pp_authorization proof with
  | Enrollment signatures => Ok (len signatures)
  | Update previous_policy_signatures current_policy_signatures =>
      ok_or (checked_add_usize (len previous_policy_signatures) (len current_policy_signatures)) work_limit
  end.

Definition continuity_transition_signature_count (proof : PersonaContinuityTransitionProof) :
    StoreResult N :=
  match proof with
  | ProofRoutine proof => Ok (len (tp_signatures proof))
  | ProofRecovery proof => ok_or (checked_add_usize (len (xp_recovery_signatures proof)) 1) work_limit
  | ProofTerminalRevocation proof => Ok (len (zp_recovery_signatures proof))
  end.

(** One more count of the work so far. *)
Definition add_work {A} (count : A → StoreResult N) (work : N) (item : A) : StoreResult N :=
  n ← count item;
  ok_or (checked_add_usize work n) work_limit.

Definition require_live_continuity_verification_work (policies : list RecordedRecoveryPolicy)
    (transitions : list PersonaContinuityTransitionProof) (reserved_signature_verifications : N) :
    StoreResult unit :=
  work ← fold_result (add_work (λ policy, recovery_policy_signature_count (rrp_proof policy))) 1%N policies;
  work ← fold_result (add_work continuity_transition_signature_count) work transitions;
  reject_if (match checked_add_usize work reserved_signature_verifications with
             | Some total => (MAX_STORED_CONTINUITY_SIGNATURE_VERIFICATIONS <? total)%N
             | None => true
             end) work_limit.

(** ** Reading the rows *)

Section journal.
Context {crates : Crates} {uuids : Uuids} {materializations : Materializations}
  {json_root_proof : Serde PersonaRootProof} {json_policy_proof : Serde RecoveryPolicyProof}
  {json_transition_proof : Serde PersonaTransitionProof}
  {json_recovery_proof : Serde RecoveryTransitionProof}
  {json_entry : Serde PersonaContinuityTransitionProof}
  {json_terminal_proof : Serde TerminalPersonaRevocationProof}
  {json_archive : Serde BackupContinuityArchive} {json_backup : Serde PersonaBackup}
  {pretty_backup : SerdePretty PersonaBackup}
  {json_root : Serde PersonaRootStatement} {json_transition : Serde PersonaTransitionStatement}
  {json_policy : Serde RecoveryPolicyStatement} {json_recovery : Serde RecoveryTransitionStatement}
  {json_terminal : Serde TerminalPersonaRevocationStatement}.

Definition terminal_reason_from_str (reason : string) : StoreResult TerminalPersonaRevocationReason :=
  if reason == "compromise" then Ok TerminalCompromise
  else if reason == "cessation" then Ok TerminalCessation
  else Err (bad_continuity "stored terminal revocation has an unknown reason").

Definition terminal_from_row (row : TerminalRow) : StoreResult RecordedTerminalPersonaRevocation :=
  reason ← terminal_reason_from_str (zw_reason row);
  sequence ← u32_of_stored (zw_sequence row) "stored terminal revocation sequence does not fit in u32";
  version ← u32_of_stored (zw_recovery_policy_version row)
    "stored terminal recovery-policy version does not fit in u32";
  proof ← map_err invalid_continuity (parse_terminal_persona_revocation_proof_bytes (zw_proof_json row));
  Ok {| rtr_persona_id := zw_persona_id row; rtr_sequence := sequence;
        rtr_revocation_statement_sha256 := zw_revocation_statement_sha256 row;
        rtr_root_statement_sha256 := zw_root_statement_sha256 row;
        rtr_previous_transition_sha256 := zw_previous_transition_sha256 row;
        rtr_previous_key_fingerprint := zw_previous_key_fingerprint row;
        rtr_recovery_policy_sha256 := zw_recovery_policy_sha256 row;
        rtr_recovery_policy_version := version; rtr_reason := reason;
        rtr_issued_at := zw_issued_at row; rtr_proof := proof;
        rtr_committed_at := zw_committed_at row |}.

Definition recorded_terminal_persona_revocation_in (db : Db) (persona_id : string) :
    StoreResult (option RecordedTerminalPersonaRevocation) :=
  transpose terminal_from_row (find_row (λ row, zw_persona_id row == persona_id) (db_terminals db)).

Definition root_from_row (row : RootRow) : StoreResult RecordedPersonaRoot :=
  proof ← map_err invalid_continuity (parse_persona_root_proof_bytes (ow_root_proof_json row));
  Ok {| rpr_persona_id := ow_persona_id row;
        rpr_root_statement_sha256 := ow_root_statement_sha256 row;
        rpr_persona_anchor := ow_persona_anchor row;
        rpr_initial_key_fingerprint := ow_initial_key_fingerprint row;
        rpr_proof := proof; rpr_issued_at := ow_issued_at row;
        rpr_recorded_at := ow_recorded_at row |}.

Definition parsed_persona_root_in (db : Db) (persona_id : string) :
    StoreResult (option RecordedPersonaRoot) :=
  transpose root_from_row (find_row (λ row, ow_persona_id row == persona_id) (db_roots db)).

Definition validate_recorded_persona_root (recorded : RecordedPersonaRoot) (verified : VerifiedPersonaRoot) :
    StoreResult unit :=
  let statement := vpr_statement verified in
  reject_if
    ((vpr_root_statement_sha256 verified != rpr_root_statement_sha256 recorded) ||
     (rs_persona_anchor statement != rpr_persona_anchor recorded) ||
     (rs_initial_key_fingerprint statement != rpr_initial_key_fingerprint recorded) ||
     (rs_issued_at statement != rpr_issued_at recorded))
    (bad_continuity "stored root columns do not match the reverified root proof").

Definition recorded_persona_root_in (db : Db) (persona_id : string) :
    StoreResult (option RecordedPersonaRoot) :=
  recorded ← parsed_persona_root_in db persona_id;
  match recorded with
  | None => Ok None
  | Some recorded =>
      verified ← map_err invalid_continuity (verify_persona_root_proof (rpr_proof recorded));
      validate_recorded_persona_root recorded verified;;
      Ok (Some recorded)
  end.

Definition head_from_row (row : HeadRow) : StoreResult ContinuityHead :=
  sequence ← u32_of_stored (hw_transition_sequence row) "stored transition sequence does not fit in u32";
  Ok {| hd_persona_id := hw_persona_id row; hd_revision := hw_revision row;
        hd_transition_sequence := sequence;
        hd_current_key_fingerprint := hw_current_key_fingerprint row;
        hd_last_transition_sha256 := hw_last_transition_sha256 row;
        hd_last_issued_at := hw_last_issued_at row |}.

Definition continuity_head_in (db : Db) (persona_id : string) : StoreResult (option ContinuityHead) :=
  transpose head_from_row (find_row (λ row, hw_persona_id row == persona_id) (db_heads db)).

Definition recovery_reason_from_str (reason : string) : StoreResult RecoveryTransitionReason :=
  if reason == "recovery" then Ok ReasonRecovery
  else if reason == "compromise" then Ok ReasonCompromise
  else Err (bad_continuity "stored recovery transition has an unknown reason").

Definition transition_from_row (row : TransitionRow) :
    StoreResult (PersonaContinuityTransitionProof * StoredTransitionColumns) :=
  kind ← kind_from_str (tw_transition_kind row);
  proof ← match kind with
    | KindRoutine =>
        proof ← map_err invalid_continuity (parse_persona_transition_proof_bytes (tw_proof_json row));
        Ok (ProofRoutine proof)
    | KindRecovery =>
        proof ← map_err invalid_continuity (parse_recovery_transition_proof_bytes (tw_proof_json row));
        Ok (ProofRecovery proof)
    end;
  version ← transpose (λ version,
    u32_of_stored version "stored recovery policy version does not fit in u32")
    (tw_recovery_policy_version row);
  reason ← transpose recovery_reason_from_str (tw_recovery_reason row);
  sequence ← u32_of_stored (tw_sequence row) "stored transition sequence does not fit in u32";
  Ok (proof,
    {| tc_kind := kind; tc_sequence := sequence;
       tc_transition_statement_sha256 := tw_transition_statement_sha256 row;
       tc_root_statement_sha256 := tw_root_statement_sha256 row;
       tc_previous_transition_sha256 := tw_previous_transition_sha256 row;
       tc_previous_key_fingerprint := tw_previous_key_fingerprint row;
       tc_next_key_fingerprint := tw_next_key_fingerprint row;
       tc_issued_at := tw_issued_at row;
       tc_recovery_policy_sha256 := tw_recovery_policy_sha256 row;
       tc_recovery_policy_version := version;
       tc_recovery_reason := reason;
       tc_committed_at := tw_committed_at row |}).

(** The rows in turn; a row past the bound is refused before it is read. *)
Definition bounded_rows {A B} (limit : N) (too_many : StoreError) (f : A → StoreResult B)
    (rows : list A) : StoreResult (list B) :=
  fold_result (λ done row,
    reject_if (limit <=? len done)%N too_many;;
    b ← f row;
    Ok (done ++ [b])) [] rows.

(** [ORDER BY sequence] *)
Definition stored_transitions_in (db : Db) (persona_id : string) :
    StoreResult (list PersonaContinuityTransitionProof * list StoredTransitionColumns) :=
  rows ← bounded_rows MAX_CONTINUITY_TRANSITIONS
    (bad_continuity ("stored chain exceeds " +:+ pretty MAX_CONTINUITY_TRANSITIONS +:+ " transitions"))
    transition_from_row
    (order_by (λ a b, tw_sequence a <=? tw_sequence b)%Z (transitions_of db persona_id));
  Ok (map fst rows, map snd rows).

Definition recovery_policy_head_in (db : Db) (persona_id : string) :
    StoreResult (option RecoveryPolicyHead) :=
  transpose (λ row,
    version ← u32_of_stored (yh_latest_policy_version row)
      "stored latest recovery policy version does not fit in u32";
    Ok {| ph_persona_id := yh_persona_id row; ph_revision := yh_revision row;
          ph_latest_policy_version := version;
          ph_latest_policy_sha256 := yh_latest_policy_sha256 row;
          ph_recorded_at := yh_recorded_at row |})
    (find_row (λ row, yh_persona_id row == persona_id) (db_policy_heads db)).

Definition policy_from_row (row : PolicyRow) : StoreResult RecordedRecoveryPolicy :=
  version ← u32_of_stored (yw_policy_version row) "stored recovery policy version does not fit in u32";
  sequence ← u32_of_stored (yw_checkpoint_sequence row)
    "stored recovery checkpoint sequence does not fit in u32";
  proof ← map_err invalid_continuity (parse_recovery_policy_proof_bytes (yw_proof_json row));
  Ok {| rrp_persona_id := yw_persona_id row; rrp_policy_version := version;
        rrp_policy_statement_sha256 := yw_policy_statement_sha256 row;
        rrp_previous_policy_sha256 := yw_previous_policy_sha256 row;
        rrp_root_statement_sha256 := yw_root_statement_sha256 row;
        rrp_checkpoint := {| rc_transition_sequence := sequence;
                             rc_transition_sha256 := yw_checkpoint_sha256 row |};
        rrp_issued_at := yw_issued_at row; rrp_expires_at := yw_expires_at row;
        rrp_proof := proof; rrp_recorded_at := yw_recorded_at row |}.

Definition stored_recovery_policies_in (db : Db) (persona_id : string) :
    StoreResult (list RecordedRecoveryPolicy) :=
  bounded_rows MAX_RECOVERY_POLICY_VERSIONS
    (bad_continuity ("stored recovery-policy chain exceeds " +:+ pretty MAX_RECOVERY_POLICY_VERSIONS +:+
      " versions"))
    policy_from_row
    (order_by (λ a b, yw_policy_version a <=? yw_policy_version b)%Z (policies_of db persona_id)).

(** ** Agreement of the rows with the verified chain *)

Definition require_no_evidence_archive (clock : Clock) (db : Db) (persona_id : string) :
    StoreResult (option N) :=
  if negb (continuity_archive_exists_in db persona_id) then Ok None
  else
    reject_if (negb (continuity_root_exists_in db persona_id)) (ContinuityEvidenceOnly persona_id);;
    materialization ← validate_sealed_continuity_materialization_in clock db persona_id;
    match cm_method materialization with
    | DirectActivation | RecoveryActivation => Ok (Some (cm_source_sequence materialization))
    | TerminalHydration => Err (PersonaTerminallyRevoked persona_id)
    end.

(** One policy of [validate_live_observation_order]: the time of the previous. *)
Definition observe_policy (transitions : list StoredTransitionColumns) (previous : Z)
    (policy : RecordedRecoveryPolicy) : StoreResult Z :=
  reject_if (rrp_recorded_at policy <? previous)%Z
    (bad_continuity "recovery-policy observation times move backward");;
  let sequence := rc_transition_sequence (rrp_checkpoint policy) in
  (if (0 <? sequence)%N then
     checkpoint ← ok_or (transitions !! N.to_nat (sequence - 1))
       (bad_continuity "recovery-policy observation names an absent transition checkpoint");
     reject_if (rrp_recorded_at policy <? tc_committed_at checkpoint)%Z
       (bad_continuity ("recovery policy v" +:+ pretty (rrp_policy_version policy) +:+
         " was observed before its checkpointed transition"))
   else Ok tt);;
  Ok (rrp_recorded_at policy).

Definition find_policy (policies : list RecordedRecoveryPolicy) (version : N) (sha256 : string) :
    option RecordedRecoveryPolicy :=
  find_row (λ policy, (rrp_policy_version policy == version) &&
                      (rrp_policy_statement_sha256 policy == sha256)) policies.

Definition observe_transition (policies : list RecordedRecoveryPolicy) (previous : Z)
    (transition : StoredTransitionColumns) : StoreResult Z :=
  reject_if (tc_committed_at transition <? previous)%Z
    (bad_continuity "continuity-transition observation times move backward");;
  match tc_kind transition with
  | KindRoutine => Ok tt
  | KindRecovery =>
      policy_digest ← expect (tc_recovery_policy_sha256 transition)
        "validated recovery row has a policy digest";
      policy_version ← expect (tc_recovery_policy_version transition)
        "validated recovery row has a policy version";
      policy ← expect (find_policy policies policy_version policy_digest)
        "verified recovery transition names a verified stored policy";
      reject_if (tc_committed_at transition <? rrp_recorded_at policy)%Z
        (bad_continuity ("recovery transition " +:+ pretty (tc_sequence transition) +:+
          " was observed before its authorizing policy"))
  end;;
  Ok (tc_committed_at transition).

Definition observe_terminal (policies : list RecordedRecoveryPolicy) (previous : Z)
    (terminal : RecordedTerminalPersonaRevocation) : StoreResult unit :=
  reject_if ((rtr_committed_at terminal <? previous) ||
             (rtr_committed_at terminal <? rtr_issued_at terminal))%Z
    (bad_continuity "terminal-revocation observation time moves backward");;
  policy ← ok_or (find_policy policies (rtr_recovery_policy_version terminal)
      (rtr_recovery_policy_sha256 terminal))
    (bad_continuity "terminal revocation names an absent stored recovery policy");
  reject_if (rtr_committed_at terminal <? rrp_recorded_at policy)%Z
    (bad_continuity "terminal revocation was observed before its authorizing policy").

Definition validate_live_observation_order (root : RecordedPersonaRoot)
    (policies : list RecordedRecoveryPolicy) (transitions : list StoredTransitionColumns)
    (terminal : option RecordedTerminalPersonaRevocation) : StoreResult unit :=
  _ ← fold_result (observe_policy transitions) (rpr_recorded_at root) policies;
  previous ← fold_result (observe_transition policies) (rpr_recorded_at root) transitions;
  match terminal with
  | None => Ok tt
  | Some terminal => observe_terminal policies previous terminal
  end.

Definition validate_stored_policy (entry : RecordedRecoveryPolicy * VerifiedRecoveryPolicy) :
    StoreResult unit :=
  let '(recorded, verified) := entry in
  let statement := vp_statement verified in
  reject_if
    ((rrp_policy_version recorded != ps_policy_version statement) ||
     (rrp_policy_statement_sha256 recorded != vp_policy_statement_sha256 verified) ||
     (rrp_previous_policy_sha256 recorded != ps_previous_policy_sha256 statement) ||
     (rrp_root_statement_sha256 recorded != ps_root_statement_sha256 statement) ||
     (rrp_checkpoint recorded != ps_continuity_checkpoint statement) ||
     (rrp_issued_at recorded != ps_issued_at statement) ||
     (rrp_expires_at recorded != ps_expires_at statement) ||
     (rrp_recorded_at recorded <? ps_issued_at statement)%Z)
    (bad_continuity ("stored recovery policy row " +:+ pretty (rrp_policy_version recorded) +:+
      " does not match its reverified proof")).

Definition validate_stored_recovery_policies (stored : list RecordedRecoveryPolicy)
    (head : RecoveryPolicyHead) (chain : VerifiedRecoveryAwareContinuityChain) : StoreResult unit :=
  reject_if (len stored != len (mc_policies chain))
    (bad_continuity "stored and verified recovery policy counts differ");;
  each_result validate_stored_policy (zip stored (mc_policies chain));;
  latest ← expect (list.last stored) "verified recovery-policy chain is non-empty";
  reject_if
    ((ph_revision head != Z.of_N (rrp_policy_version latest)) ||
     (ph_latest_policy_version head != rrp_policy_version latest) ||
     (ph_latest_policy_sha256 head != rrp_policy_statement_sha256 latest) ||
     (ph_recorded_at head != rrp_recorded_at latest))
    (bad_continuity "stored recovery policy head does not match the verified policy chain").

(** [VerifiedTransitionRow] *)
Record VerifiedTransitionRow := {
  vr_kind : ContinuityTransitionKind;
  vr_sequence : N;
  vr_statement_sha256 : string;
  vr_root_statement_sha256 : string;
  vr_previous_transition_sha256 : option string;
  vr_previous_key_fingerprint : string;
  vr_next_key_fingerprint : string;
  vr_issued_at : Z;
  vr_recovery : option (string * N * RecoveryTransitionReason);
}.

Definition verified_routine_row (verified : VerifiedPersonaTransition) : VerifiedTransitionRow :=
  let statement := vpt_statement verified in
  {| vr_kind := KindRoutine; vr_sequence := ts_sequence statement;
     vr_statement_sha256 := vpt_transition_statement_sha256 verified;
     vr_root_statement_sha256 := ts_root_statement_sha256 statement;
     vr_previous_transition_sha256 := ts_previous_transition_sha256 statement;
     vr_previous_key_fingerprint := ts_previous_key_fingerprint statement;
     vr_next_key_fingerprint := ts_next_key_fingerprint statement;
     vr_issued_at := ts_issued_at statement; vr_recovery := None |}.

Definition verified_recovery_row (verified : VerifiedRecoveryTransition) : VerifiedTransitionRow :=
  let statement := vx_statement verified in
  {| vr_kind := KindRecovery; vr_sequence := xs_sequence statement;
     vr_statement_sha256 := vx_transition_statement_sha256 verified;
     vr_root_statement_sha256 := xs_root_statement_sha256 statement;
     vr_previous_transition_sha256 := xs_previous_transition_sha256 statement;
     vr_previous_key_fingerprint := xs_previous_key_fingerprint statement;
     vr_next_key_fingerprint := xs_next_key_fingerprint statement;
     vr_issued_at := xs_issued_at statement;
     vr_recovery := Some (xs_recovery_policy_sha256 statement, xs_recovery_policy_version statement,
                          xs_reason statement) |}.

Definition recovery_columns_match (stored : StoredTransitionColumns) (expected : VerifiedTransitionRow) :
    bool :=
  match vr_recovery expected with
  | None => is_null (tc_recovery_policy_sha256 stored) && is_null (tc_recovery_policy_version stored) &&
            is_null (tc_recovery_reason stored)
  | Some (digest, version, reason) =>
      (tc_recovery_policy_sha256 stored == Some digest) &&
      (tc_recovery_policy_version stored == Some version) &&
      (tc_recovery_reason stored == Some reason)
  end.

Definition validate_stored_transition_row (stored : StoredTransitionColumns)
    (expected : VerifiedTransitionRow) : StoreResult unit :=
  reject_if
    ((tc_kind stored != vr_kind expected) ||
     (tc_sequence stored != vr_sequence expected) ||
     (tc_transition_statement_sha256 stored != vr_statement_sha256 expected) ||
     (tc_root_statement_sha256 stored != vr_root_statement_sha256 expected) ||
     (tc_previous_transition_sha256 stored != vr_previous_transition_sha256 expected) ||
     (tc_previous_key_fingerprint stored != vr_previous_key_fingerprint expected) ||
     (tc_next_key_fingerprint stored != vr_next_key_fingerprint expected) ||
     (tc_issued_at stored != vr_issued_at expected) ||
     ((vr_kind expected == KindRecovery) && (tc_committed_at stored <? vr_issued_at expected)%Z) ||
     negb (recovery_columns_match stored expected))
    (bad_continuity ("stored transition row " +:+ pretty (tc_sequence stored) +:+
      " does not match its reverified proof")).

(** One row of the mixed chain; an expired ceremony counts only after the
    transitions copied from an archive. *)
Definition validate_mixed_row (prefix : option N)
    (entry : StoredTransitionColumns * VerifiedPersonaContinuityTransition) : StoreResult unit :=
  let '(columns, verified) := entry in
  match verified with
  | VerifiedRoutine verified => validate_stored_transition_row columns (verified_routine_row verified)
  | VerifiedRecovery verified =>
      let statement := vx_statement verified in
      validate_stored_transition_row columns (verified_recovery_row verified);;
      if match prefix with Some sequence => (xs_sequence statement <=? sequence)%N | None => false end
      then Ok tt
      else require_recovery_ceremony_active_at (xs_expires_at statement) (tc_committed_at columns)
             "stored commit"
  | VerifiedTerminalRevocation _ =>
      Err (bad_continuity "terminal revocation is not stored in the v8 overlay")
  end.

Definition validate_terminal_row (terminal : option RecordedTerminalPersonaRevocation)
    (leaf : option VerifiedPersonaContinuityTransition) : StoreResult unit :=
  match terminal, leaf with
  | Some stored, Some (VerifiedTerminalRevocation verified) =>
      let statement := vz_statement verified in
      reject_if
        ((rtr_sequence stored != zs_sequence statement) ||
         (rtr_revocation_statement_sha256 stored != vz_revocation_statement_sha256 verified) ||
         (rtr_root_statement_sha256 stored != zs_root_statement_sha256 statement) ||
         (rtr_previous_transition_sha256 stored != zs_previous_transition_sha256 statement) ||
         (rtr_previous_key_fingerprint stored != zs_previous_key_fingerprint statement) ||
         (rtr_recovery_policy_sha256 stored != zs_recovery_policy_sha256 statement) ||
         (rtr_recovery_policy_version stored != zs_recovery_policy_version statement) ||
         (rtr_reason stored != zs_reason statement) ||
         (rtr_issued_at stored != zs_issued_at statement) ||
         (rtr_committed_at stored <? zs_issued_at statement)%Z)
        (bad_continuity "stored terminal-revocation row does not match its reverified proof")
  | Some _, _ => Err (bad_continuity "stored terminal revocation is not the verified chain leaf")
  | None, Some (VerifiedTerminalRevocation _) =>
      Err (bad_continuity "verified terminal leaf has no stored overlay row")
  | None, _ => Ok tt
  end.

Definition validate_stored_transition_rows (stored : list StoredTransitionColumns)
    (terminal : option RecordedTerminalPersonaRevocation) (chain : VerifiedLiveContinuityChain)
    (prefix : option N) : StoreResult unit :=
  match chain with
  | LiveRoutine chain =>
      reject_if (negb (is_null terminal))
        (bad_continuity "terminal revocation verified without a recovery-policy chain");;
      reject_if (len stored != len (vc_transitions chain))
        (bad_continuity "stored and verified routine transition counts differ");;
      each_result (λ '(columns, verified),
        validate_stored_transition_row columns (verified_routine_row verified))
        (zip stored (vc_transitions chain))
  | LiveRecoveryAware chain =>
      reject_if ((len stored + (if is_null terminal then 0 else 1))%N != len (mc_transitions chain))
        (bad_continuity "stored and verified mixed transition counts differ");;
      each_result (validate_mixed_row prefix) (zip stored (mc_transitions chain));;
      validate_terminal_row terminal (list.last (mc_transitions chain))
  end.

(** ** The head and the keys *)

Definition saturating_add_u32 (a b : N) : N := N.min u32_max (a + b).

Definition terminal_head_matches (head : ContinuityHead) (terminal : RecordedTerminalPersonaRevocation)
    (report : RecoveryAwareContinuityChainReport) : bool :=
  (hd_revision head == Z.of_N (hd_transition_sequence head)) &&
  (rtr_sequence terminal == saturating_add_u32 (hd_transition_sequence head) 1) &&
  (rtr_previous_key_fingerprint terminal == hd_current_key_fingerprint head) &&
  (rtr_previous_transition_sha256 terminal == hd_last_transition_sha256 head) &&
  negb (rtr_issued_at terminal <? hd_last_issued_at head)%Z &&
  (mr_transition_count report == rtr_sequence terminal) &&
  (mr_chain_tip_key_fingerprint report == hd_current_key_fingerprint head) &&
  is_null (mr_current_key_fingerprint report) &&
  mr_terminally_revoked report &&
  (mr_terminal_revocation_count report == 1%N) &&
  (mr_terminal_revocation_statement_sha256 report == Some (rtr_revocation_statement_sha256 terminal)) &&
  (mr_terminal_revoked_key_fingerprint report == Some (hd_current_key_fingerprint head)) &&
  (mr_terminal_revocation_reason report == Some (rtr_reason terminal)) &&
  (mr_last_transition_sha256 report == Some (rtr_revocation_statement_sha256 terminal)) &&
  (mr_last_issued_at report == rtr_issued_at terminal).

Definition live_head_matches (head : ContinuityHead) (transition_count : N) (tip : string)
    (last_sha256 : option string) (last_issued_at : Z) : StoreResult unit :=
  reject_if
    ((transition_count != hd_transition_sequence head) ||
     (hd_revision head != Z.of_N transition_count) ||
     (tip != hd_current_key_fingerprint head) ||
     (last_sha256 != hd_last_transition_sha256 head) ||
     (last_issued_at != hd_last_issued_at head))
    (bad_continuity "stored continuity head does not match the reverified chain").

Definition validate_live_chain_head (head : ContinuityHead)
    (terminal : option RecordedTerminalPersonaRevocation) (chain : VerifiedLiveContinuityChain) :
    StoreResult unit :=
  match terminal, chain with
  | Some _, LiveRoutine _ =>
      Err (bad_continuity "terminal revocation has no recovery-aware verified chain")
  | Some terminal, LiveRecoveryAware chain =>
      reject_if (negb (terminal_head_matches head terminal (mc_report chain)))
        (bad_continuity "stored preterminal head does not match the terminal verified chain")
  | None, LiveRoutine chain =>
      let report := vc_report chain in
      live_head_matches head (cr_transition_count report) (cr_chain_tip_key_fingerprint report)
        (cr_last_transition_sha256 report) (cr_last_issued_at report)
  | None, LiveRecoveryAware chain =>
      let report := mc_report chain in
      reject_if (mr_terminally_revoked report || is_null (mr_current_key_fingerprint report))
        (bad_continuity "nonterminal store state produced a terminal continuity report");;
      live_head_matches head (mr_transition_count report) (mr_chain_tip_key_fingerprint report)
        (mr_last_transition_sha256 report) (mr_last_issued_at report)
  end.

Record KeyTransitionFacts := {
  kt_previous : string;
  kt_next : option string;
  kt_recovery_reason : option RecoveryTransitionReason;
  kt_terminal_reason : option TerminalPersonaRevocationReason;
}.

Definition routine_key_facts (transition : VerifiedPersonaTransition) : KeyTransitionFacts :=
  {| kt_previous := ts_previous_key_fingerprint (vpt_statement transition);
     kt_next := Some (ts_next_key_fingerprint (vpt_statement transition));
     kt_recovery_reason := None; kt_terminal_reason := None |}.

Definition key_facts (transition : VerifiedPersonaContinuityTransition) : KeyTransitionFacts :=
  match transition with
  | VerifiedRoutine transition => routine_key_facts transition
  | VerifiedRecovery transition =>
      {| kt_previous := xs_previous_key_fingerprint (vx_statement transition);
         kt_next := Some (xs_next_key_fingerprint (vx_statement transition));
         kt_recovery_reason := Some (xs_reason (vx_statement transition));
         kt_terminal_reason := None |}
  | VerifiedTerminalRevocation revocation =>
      {| kt_previous := zs_previous_key_fingerprint (vz_statement revocation);
         kt_next := None; kt_recovery_reason := None;
         kt_terminal_reason := Some (zs_reason (vz_statement revocation)) |}
  end.

Definition chain_key_facts (chain : VerifiedLiveContinuityChain) : list KeyTransitionFacts :=
  match chain with
  | LiveRoutine chain => routine_key_facts <$> vc_transitions chain
  | LiveRecoveryAware chain => key_facts <$> mc_transitions chain
  end.

Definition terminal_key_status (reason : TerminalPersonaRevocationReason) : KeyStatus :=
  match reason with TerminalCompromise => Compromised | TerminalCessation => Retired end.

Definition record_by_fingerprint (keys : list KeyRecord) : gmap string KeyRecord :=
  foldl (λ m key, <[kr_fingerprint key := key]> m) ∅ keys.

(** One transition of the chain: the reason of a terminal one so far. *)
Definition check_key_facts (keys : gmap string KeyRecord)
    (terminal : option TerminalPersonaRevocationReason) (facts : KeyTransitionFacts) :
    StoreResult (option TerminalPersonaRevocationReason) :=
  previous_key ← ok_or (keys !! kt_previous facts)
    (bad_continuity "signed previous key is not bound to the same local persona");
  reject_if (match kt_next facts with Some next => is_null (keys !! next) | None => false end)
    (bad_continuity "signed next key is not bound to the same local persona");;
  reject_if ((kt_recovery_reason facts == Some ReasonCompromise) && (kr_status previous_key != Compromised))
    (bad_continuity "compromise recovery proof is not reflected in key lifecycle state");;
  match kt_terminal_reason facts with
  | None => Ok terminal
  | Some reason =>
      reject_if (kr_status previous_key != terminal_key_status reason)
        (bad_continuity "terminal revocation is not reflected in key lifecycle state");;
      Ok (Some reason)
  end.

Definition validate_live_chain_keys (db : Db) (persona_id : string) (head : ContinuityHead)
    (chain : VerifiedLiveContinuityChain) : StoreResult unit :=
  keys ← list_keys_in db persona_id;
  let by_fingerprint := record_by_fingerprint keys in
  reject_if (is_null (by_fingerprint !! rs_initial_key_fingerprint (vpr_statement (live_root chain))))
    (bad_continuity "persona root key is not bound to the same local persona");;
  terminal_reason ← fold_result (check_key_facts by_fingerprint) None (chain_key_facts chain);
  let active_keys := map kr_fingerprint (filter (λ key, kr_status key = Active) keys) in
  match terminal_reason with
  | Some _ =>
      reject_if (negb (len active_keys =? 0)%N)
        (bad_continuity "terminal persona retains an active key");;
      reject_if (negb (is_null (lookup_signing_reference_in db (hd_current_key_fingerprint head))))
        (bad_continuity "terminal persona retains a signing reference for its revoked head key")
  | None =>
      reject_if (active_keys != [hd_current_key_fingerprint head])
        (bad_continuity "accepted continuity head is not the persona's unique active key")
  end.

(** ** The verified journal *)

Definition routine_of_stored (proof : PersonaContinuityTransitionProof) :
    StoreResult PersonaTransitionProof :=
  match proof with
  | ProofRoutine proof => Ok proof
  | ProofRecovery _ =>
      Err (bad_continuity "stored recovery transition has no recovery-policy chain")
  | ProofTerminalRevocation _ =>
      Err (bad_continuity "stored terminal revocation has no recovery-policy chain")
  end.

Definition verify_live_chain (root : RecordedPersonaRoot)
    (transitions : list PersonaContinuityTransitionProof) (head : option RecoveryPolicyHead)
    (policies : list RecordedRecoveryPolicy) (checked_at : Z) : StoreResult VerifiedLiveContinuityChain :=
  match head, policies with
  | None, [] =>
      routine ← collect_result routine_of_stored transitions;
      chain ← map_err invalid_continuity
        (verify_persona_continuity_chain_with_verified_sequence (rpr_proof root) routine
          (rpr_root_statement_sha256 root));
      Ok (LiveRoutine chain)
  | Some policy_head, _ :: _ =>
      chain ← map_err invalid_continuity
        (verify_persona_continuity_chain_with_recovery_with_verified_sequence (rpr_proof root)
          transitions (rrp_proof <$> policies) (rpr_root_statement_sha256 root)
          (ph_latest_policy_sha256 policy_head) checked_at);
      validate_stored_recovery_policies policies policy_head chain;;
      Ok (LiveRecoveryAware chain)
  | Some _, [] => Err (bad_continuity "recovery policy head exists without policy proofs")
  | None, _ :: _ => Err (bad_continuity "recovery policy proofs exist without a policy head")
  end.

Definition opt_terminal (terminal : option RecordedTerminalPersonaRevocation) :
    list PersonaContinuityTransitionProof :=
  match terminal with Some terminal => [ProofTerminalRevocation (rtr_proof terminal)] | None => [] end.

Definition verified_live_continuity_snapshot_with_archive_policy_in (clock : Clock) (db : Db)
    (persona_id : string) (aggregate_proof_byte_limit reserved_proof_bytes
     reserved_signature_verifications reserved_transition_count reserved_policy_count : N)
    (checked_at : Z) (authenticated_archive_prefix_sequence : option N) :
    StoreResult VerifiedLiveContinuitySnapshot :=
  prefix ← match authenticated_archive_prefix_sequence with
    | Some sequence => Ok (Some sequence)
    | None => require_no_evidence_archive clock db persona_id
    end;
  require_stored_live_continuity_bounds_with_reservation db persona_id aggregate_proof_byte_limit
    reserved_proof_bytes reserved_transition_count reserved_policy_count;;
  root ← parsed_persona_root_in db persona_id;
  root ← ok_or root (ContinuityNotFound persona_id);
  head ← continuity_head_in db persona_id;
  head ← ok_or head (bad_continuity "recorded root has no continuity head");
  '(transitions, transition_columns) ← stored_transitions_in db persona_id;
  terminal_revocation ← recorded_terminal_persona_revocation_in db persona_id;
  let transitions := transitions ++ opt_terminal terminal_revocation in
  recovery_policy_head ← recovery_policy_head_in db persona_id;
  recovery_policies ← stored_recovery_policies_in db persona_id;
  require_live_continuity_verification_work recovery_policies transitions
    reserved_signature_verifications;;
  chain ← verify_live_chain root transitions recovery_policy_head recovery_policies checked_at;
  validate_recorded_persona_root root (live_root chain);;
  validate_stored_transition_rows transition_columns terminal_revocation chain prefix;;
  validate_live_observation_order root recovery_policies transition_columns terminal_revocation;;
  validate_live_chain_head head terminal_revocation chain;;
  persona ← persona_in db persona_id;
  reject_if (rs_persona (vpr_statement (live_root chain)) != pe_label persona)
    (bad_continuity "signed continuity persona does not match the current local persona label");;
  _ ← key_history_in db persona_id;
  validate_live_chain_keys db persona_id head chain;;
  Ok {| vl_snapshot := {| lc_root := root; lc_head := head;
                          lc_recovery_policy_head := recovery_policy_head;
                          lc_recovery_policies := recovery_policies;
                          lc_transitions := transitions;
                          lc_terminal_revocation := terminal_revocation |};
        vl_chain := chain |}.

Definition verified_live_continuity_snapshot_with_reservation_in (clock : Clock) (db : Db)
    (persona_id : string) (aggregate_proof_byte_limit reserved_proof_bytes
     reserved_signature_verifications reserved_transition_count reserved_policy_count : N)
    (checked_at : Z) : StoreResult VerifiedLiveContinuitySnapshot :=
  verified_live_continuity_snapshot_with_archive_policy_in clock db persona_id aggregate_proof_byte_limit
    reserved_proof_bytes reserved_signature_verifications reserved_transition_count
    reserved_policy_count checked_at None.

Definition verified_live_continuity_snapshot_in (clock : Clock) (db : Db) (persona_id : string) :
    StoreResult VerifiedLiveContinuitySnapshot :=
  checked_at ← now_unix_seconds (reading clock);
  verified_live_continuity_snapshot_with_reservation_in (call 0 clock) db persona_id
    MAX_STORED_CONTINUITY_PROOF_BYTES 0 0 0 0 checked_at.

Definition live_continuity_snapshot_in (clock : Clock) (db : Db) (persona_id : string) :
    StoreResult LiveContinuitySnapshot :=
  verified ← verified_live_continuity_snapshot_in clock db persona_id;
  Ok (vl_snapshot verified).

Definition materialized_live_continuity_snapshot_in (clock : Clock) (db : Db) (persona_id : string)
    (authenticated_archive_prefix_sequence : N) : StoreResult LiveContinuitySnapshot :=
  checked_at ← now_unix_seconds (reading clock);
  verified ← verified_live_continuity_snapshot_with_archive_policy_in (call 0 clock) db persona_id
    MAX_STORED_CONTINUITY_PROOF_BYTES 0 0 0 0 checked_at (Some authenticated_archive_prefix_sequence);
  Ok (vl_snapshot verified).

(** ** Archives *)

Definition archive_observed_at_max (archive : BackupContinuityArchive) : option Z :=
  max_time (opt_times (br_observed_at (bc_root archive)) ++
    (bc_recovery_policies archive ≫= λ entry, opt_times (bo_observed_at entry)) ++
    (bc_transitions archive ≫= λ entry, opt_times (bt_observed_at entry)) ++
    match bc_terminal_revocation archive with
    | Some entry => opt_times (bz_observed_at entry)
    | None => []
    end).

Definition continuity_observed_at_max (continuity : BackupContinuity) : option Z :=
  match continuity with
  | Unmanaged => None
  | EvidenceArchive archive => archive_observed_at_max archive
  end.

Definition continuity_archive_in (db : Db) (persona_id : string) :
    StoreResult (option BackupContinuityArchive) :=
  match find_row (λ row, aw_persona_id row == persona_id) (db_archives db) with
  | None => Ok None
  | Some row =>
      reject_if (MAX_PERSONA_BACKUP_BYTES <? len (aw_archive_json row))%N
        (bad_continuity "stored continuity archive exceeds the portable byte bound");;
      archive ← map_err (λ _, bad_continuity "stored continuity archive is invalid JSON")
        (of_sum (json_from_slice (aw_archive_json row)));
      Ok (Some archive)
  end.

Definition archived_backup_in (db : Db) (persona_id : string) : StoreResult (option PersonaBackup) :=
  archive ← continuity_archive_in db persona_id;
  match archive with
  | None => Ok None
  | Some archive =>
      let observed_max := default 0%Z (archive_observed_at_max archive) in
      latest ← latest_persona_backup_time_in db persona_id;
      backup ← persona_backup_in db persona_id (Z.max latest observed_max) (EvidenceArchive archive);
      Ok (Some backup)
  end.

(** ** Authority *)

Definition validate_persona_authorization_state_in (clock : Clock) (db : Db) (persona_id : string) :
    StoreResult unit :=
  match continuity_root_exists_in db persona_id, continuity_archive_exists_in db persona_id with
  | true, true => _ ← validate_sealed_continuity_materialization_in clock db persona_id; Ok tt
  | true, false => _ ← live_continuity_snapshot_in clock db persona_id; Ok tt
  | false, true =>
      stored ← stored_continuity_materialization_in db persona_id;
      reject_if (negb (is_null stored))
        (bad_continuity "continuity materialization receipt has no live root");;
      backup ← archived_backup_in db persona_id;
      backup ← ok_or backup (bad_continuity "continuity archive disappeared during validation");
      report ← verify_persona_backup_continuity (reading clock) backup;
      _ ← ok_or report
        (bad_continuity "stored evidence archive did not produce a verification report");
      Ok tt
  | false, false =>
      stored ← stored_continuity_materialization_in db persona_id;
      reject_if (negb (is_null stored))
        (bad_continuity "continuity materialization receipt has no retained archive or live root");;
      _ ← key_history_in db persona_id; Ok tt
  end.

Definition persona_authority_disposition_in (clock : Clock) (db : Db) (persona_id : string) :
    StoreResult PersonaAuthorityDisposition :=
  persona ← persona_in db persona_id;
  validate_persona_authorization_state_in (call 0 clock) db persona_id;;
  let has_archive := continuity_archive_exists_in db persona_id in
  let has_live_root := continuity_root_exists_in db persona_id in
  if has_archive && negb has_live_root then Ok EvidenceOnly
  else if terminal_revocation_exists_in db persona_id then Ok TerminallyRevoked
  else if negb (is_null (pe_archived_at persona)) then Ok Archived
  else if has_archive then
    materialization ← validate_sealed_continuity_materialization_in (call 1 clock) db persona_id;
    match cm_method materialization with
    | DirectActivation | RecoveryActivation => Ok Operational
    | TerminalHydration => Ok EvidenceOnly
    end
  else Ok Operational.

Definition require_continuity_unmanaged (clock : Clock) (db : Db) (persona_id : string) :
    StoreResult unit :=
  _ ← require_no_evidence_archive clock db persona_id;
  reject_if (continuity_managed_in db persona_id) (ContinuityBypass persona_id).

Definition validated_lookup_key_in (clock : Clock) (db : Db) (fp : string) :
    StoreResult (option (StoredRecognizedKey * PersonaAuthorityDisposition)) :=
  stored ← lookup_key_in db fp;
  match stored with
  | None => Ok None
  | Some stored =>
      disposition ← persona_authority_disposition_in clock db (pe_id (sk_persona stored));
      Ok (Some (stored, disposition))
  end.

End journal.
