(* ===== verification/Store.v ===== *)
(** * The operations of the persona store ([crates/a-quo-store/src/lib.rs])

    What [PersonaStore] does with keys, signing references and backups. An
    operation that changes the store is one transaction: it returns the changed
    database with its result, and one that fails leaves the database as it was.
    The clock, a new identifier and the file system are what the operation
    finds; where the source reads one of them twice, the readings are separate. *)

From stdpp Require Import base numbers list strings pretty option gmap.
From Stdlib Require Import Strings.Byte Ascii.
From S2P Require Import Prelude Text Ordered Display Crates Io ArtifactProof Continuity RecoveryPolicy RecoveryChain.
From S2P Require Import Names Fields IpcProtocol StoreTypes StoreCommon Backup BackupVerify Tables StoredKeys Journal.

(** ** Data *)

Inductive PersonaListingAuthorityDisposition :=
| ListingTerminallyRevoked | ListingArchived | ListingEvidenceOnly | ListingNotChecked.
Record PersonaListing := {
  pl_persona : Persona;
  pl_authority_disposition : PersonaListingAuthorityDisposition;
}.
Record SigningReferenceEvent := {
  se_sequence : Z;
  se_key_fingerprint : string;
  se_event_type : string;
  se_occurred_at : Z;
  se_locator_sha256 : option string;
}.

Section store.
Context {crates : Crates} {uuids : Uuids} {materializations : Materializations}
  {json_root_proof : Serde PersonaRootProof} {json_policy_proof : Serde RecoveryPolicyProof}
  {json_transition_proof : Serde PersonaTransitionProof}
  {json_recovery_proof : Serde RecoveryTransitionProof}
  {json_entry : Serde PersonaContinuityTransitionProof}
  {json_terminal_proof : Serde TerminalPersonaRevocationProof}
  {json_archive : Serde BackupContinuityArchive} {json_backup : Serde PersonaBackup}
  {pretty_backup : SerdePretty PersonaBackup}
  {json_root : Serde PersonaRootStatement} {json_transition : Serde PersonaTransitionStatement}
  {json_policy : Serde RecoveryPolicyStatement} {json_recovery : Serde RecoveryTransitionStatement}
  {json_terminal : Serde TerminalPersonaRevocationStatement}.

(** ** Opening *)

(** A receipt next to an archive and a live root, and sealed. *)
Definition validate_continuity_materialization_shapes (clock : Clock) (db : Db) : StoreResult unit :=
  reject_if (exists_in (λ archive,
      has_root db (aw_persona_id archive) &&
      negb (exists_in (λ m, mw_persona_id m == aw_persona_id archive) (db_materializations db)))
      (db_archives db))
    (bad_continuity "archive and live continuity coexist without a materialization receipt");;
  each_result (λ '(i, persona_id),
      _ ← validate_sealed_continuity_materialization_in (call i clock) db persona_id; Ok tt)
    (imap pair (order_by (λ a b, negb (str_ltb b a)) (mw_persona_id <$> db_materializations db))).

(** ** Personas *)

(** [id] is the new random identifier. *)
Definition create_persona (clock : Clock) (id : string) (db : Db) (label : string)
    (purpose : PersonaPurpose) : StoreResult (Persona * Db) :=
  label ← validate_required_text "persona label" label MAX_LABEL_BYTES;
  now ← now_unix_seconds (reading clock);
  let persona := {| pe_id := id; pe_label := label; pe_purpose := purpose; pe_created_at := now;
                    pe_archived_at := None |} in
  db ← insert_persona_row db {| pr_id := id; pr_label := label; pr_purpose := purpose_as_str purpose;
                                pr_created_at := now; pr_archived_at := None |};
  Ok (persona, db).

(** [ORDER BY p.created_at, p.id] *)
Definition persona_row_le (a b : PersonaRow) : bool :=
  (pr_created_at a <? pr_created_at b)%Z ||
  ((pr_created_at a =? pr_created_at b)%Z && negb (str_ltb (pr_id b) (pr_id a))).

Definition persona_listing (db : Db) (row : PersonaRow) : StoreResult PersonaListing :=
  persona ← persona_from_row row;
  let id := pr_id row in
  let has_sealed_direct_receipt := exists_in (λ m,
    (mw_persona_id m == id) && (mw_state m == "sealed") && (mw_method m == "direct_activation"))
    (db_materializations db) in
  Ok {| pl_persona := persona;
        pl_authority_disposition :=
          if has_terminal db id then ListingTerminallyRevoked
          else if negb (is_null (pe_archived_at persona)) then ListingArchived
          else if has_archive db id && negb has_sealed_direct_receipt then ListingEvidenceOnly
          else ListingNotChecked |}.

Definition list_personas_with_listing_authority (db : Db) : StoreResult (list PersonaListing) :=
  collect_result (persona_listing db) (order_by persona_row_le (db_personas db)).

Definition list_personas (db : Db) : StoreResult (list Persona) :=
  rows ← list_personas_with_listing_authority db;
  Ok (map pl_persona rows).

(** ** Keys *)

Definition active_record (fp persona_id public_key : string) (provider : KeyProvider) (now : Z) : KeyRecord :=
  {| kr_fingerprint := fp; kr_persona_id := persona_id; kr_public_key := public_key;
     kr_provider := provider; kr_status := Active; kr_added_at := now; kr_retired_at := None;
     kr_compromised_at := None |}.

Definition enroll_key (clock : Clock) (db : Db) (persona_id public_key : string)
    (provider : KeyProvider) : StoreResult (KeyRecord * Db) :=
  now ← now_unix_seconds (reading clock);
  let public_key := trim public_key in
  validate_provider_key public_key provider;;
  fp ← fingerprint public_key;
  require_continuity_unmanaged (call 0 clock) db persona_id;;
  require_active_persona db persona_id;;
  validate_persona_authorization_state_in (call 1 clock) db persona_id;;
  require_monotonic_audit_time db persona_id now;;
  require_unknown_key db fp;;
  db ← insert_key db persona_id fp public_key provider now;
  db ← append_event db persona_id fp "enrolled" now "local-user" "a-quo:key-enrollment:v1" None;
  Ok (active_record fp persona_id public_key provider now, db).

(** One old key of a rotation. *)
Definition rotate_out (persona_id : string) (reason : RotationReason) (note : option string) (now : Z)
    (db : Db) (old_fingerprint : string) : StoreResult Db :=
  let old_status := if reason == RotationCompromise then Compromised else Retired in
  db ← transition_key db old_fingerprint old_status now;
  append_event db persona_id old_fingerprint (status_as_str old_status) now "local-user"
    (rotation_policy reason) note.

Definition rotate_key (clock : Clock) (db : Db) (persona_id public_key : string)
    (provider : KeyProvider) (reason : RotationReason) (note : option string) :
    StoreResult (KeyRecord * Db) :=
  now ← now_unix_seconds (reading clock);
  let public_key := trim public_key in
  validate_provider_key public_key provider;;
  fp ← fingerprint public_key;
  note ← validate_optional_text "rotation note" note MAX_NOTE_BYTES;
  require_continuity_unmanaged (call 0 clock) db persona_id;;
  require_active_persona db persona_id;;
  validate_persona_authorization_state_in (call 1 clock) db persona_id;;
  require_monotonic_audit_time db persona_id now;;
  require_unknown_key db fp;;
  let active_keys := active_key_fingerprints db persona_id in
  reject_if (len active_keys =? 0)%N (NoActiveKey persona_id);;
  db ← fold_result (rotate_out persona_id reason note now) db active_keys;
  db ← insert_key db persona_id fp public_key provider now;
  db ← append_event db persona_id fp "rotated_in" now "local-user" (rotation_policy reason) note;
  Ok (active_record fp persona_id public_key provider now, db).

Definition mark_key_compromised (clock : Clock) (db : Db) (fp actor policy : string)
    (note : option string) : StoreResult Db :=
  actor ← validate_required_text "revocation actor" actor MAX_ACTOR_BYTES;
  policy ← validate_required_text "revocation policy" policy MAX_POLICY_BYTES;
  note ← validate_optional_text "revocation note" note MAX_NOTE_BYTES;
  now ← now_unix_seconds (reading clock);
  key ← lookup_key_in db fp;
  key ← ok_or key (KeyNotFound fp);
  let persona_id := pe_id (sk_persona key) in
  let status := kr_status (sk_key key) in
  require_nonterminal_persona db persona_id;;
  let has_live_root := continuity_root_exists_in db persona_id in
  let has_evidence_archive := continuity_archive_exists_in db persona_id in
  reject_if (has_evidence_archive && negb has_live_root && (status == Active))
    (ContinuityEvidenceOnly persona_id);;
  require_monotonic_audit_time db persona_id now;;
  reject_if (status == Compromised)
    (InvalidTransition ("key " +:+ fp +:+ " is already compromised"));;
  (if has_live_root then
     snapshot ← live_continuity_snapshot_in (call 0 clock) db persona_id;
     reject_if ((status == Active) && (hd_current_key_fingerprint (lc_head snapshot) == fp))
       (ContinuityCompromiseRequiresJournal fp)
   else validate_persona_authorization_state_in (call 0 clock) db persona_id);;
  db ← transition_key db fp Compromised now;
  append_event db persona_id fp "compromised" now actor policy note.

Definition list_keys (clock : Clock) (db : Db) (persona_id : string) : StoreResult (list KeyRecord) :=
  validate_persona_authorization_state_in clock db persona_id;;
  list_keys_in db persona_id.

Definition persona_authority_disposition (clock : Clock) (db : Db) (persona_id : string) :
    StoreResult PersonaAuthorityDisposition := persona_authority_disposition_in clock db persona_id.

Definition key_history (clock : Clock) (db : Db) (persona_id : string) : StoreResult (list KeyEvent) :=
  validate_persona_authorization_state_in clock db persona_id;;
  key_history_in db persona_id.

Definition lookup_key (clock : Clock) (db : Db) (fp : string) :
    StoreResult (option (StoredRecognizedKey * PersonaAuthorityDisposition)) :=
  validated_lookup_key_in clock db fp.

Definition lookup_key_with_history (clock : Clock) (db : Db) (fp : string) :
    StoreResult (option (StoredRecognizedKey * PersonaAuthorityDisposition * list KeyEvent)) :=
  recognized ← validated_lookup_key_in clock db fp;
  match recognized with
  | None => Ok None
  | Some recognized =>
      events ← key_history_in db (pe_id (sk_persona recognized.1));
      Ok (Some (recognized, events))
  end.

(** The checks inside the transaction of [with_active_key_authorization], before
    its operation: the key that may sign. [from] is [E::from]. *)
Definition authorize_active_key {E} (from : StoreError → E) (clock : Clock) (db : Db)
    (fp expected_persona_label : string) : result E StoredRecognizedKey :=
  recognized ← map_err from (validated_lookup_key_in clock db fp);
  '(recognized, disposition) ← ok_or recognized (from (KeyNotFound fp));
  let persona := sk_persona recognized in
  match disposition with
  | Operational => Ok tt
  | TerminallyRevoked => Err (from (PersonaTerminallyRevoked (pe_id persona)))
  | Archived => Err (from (PersonaArchived (pe_id persona)))
  | EvidenceOnly => Err (from (ContinuityEvidenceOnly (pe_id persona)))
  end;;
  map_err from (require_active_persona db (pe_id persona));;
  reject_if (kr_status (sk_key recognized) != Active) (from (InactiveSigningKey fp));;
  reject_if (pe_label persona != expected_persona_label) (from (PersonaLabelMismatch fp));;
  Ok recognized.

(** [operation] runs only for a key that may sign. Beginning the transaction
    answers [begun], and committing it, once the operation succeeded, answers
    [committed]. *)
Definition with_active_key_authorization {T E} (from : StoreError → E) (clock : Clock) (db : Db)
    (begun committed : option StoreError) (fp expected_persona_label : string)
    (operation : StoredRecognizedKey → result E T) : result E T :=
  match begun with Some e => Err (from e) | None => Ok tt end;;
  recognized ← authorize_active_key from clock db fp expected_persona_label;
  completed ← operation recognized;
  match committed with Some e => Err (from e) | None => Ok completed end.

(** ** Signing references *)

Definition bind_signing_reference (clock : Clock) (fs : Fs) (euid : N) (db : Db) (fp locator : string) :
    StoreResult (SigningReference * Db) :=
  now ← now_unix_seconds (reading clock);
  recognized ← validated_lookup_key_in (call 0 clock) db fp;
  '(recognized, _) ← ok_or recognized (KeyNotFound fp);
  let persona_id := pe_id (sk_persona recognized) in
  _ ← require_no_evidence_archive (call 1 clock) db persona_id;
  require_nonterminal_persona db persona_id;;
  require_active_persona db persona_id;;
  reject_if (kr_status (sk_key recognized) != Active) (InactiveSigningKey fp);;
  require_monotonic_audit_time db persona_id now;;
  locator ← validate_signing_reference_path fs euid locator (sk_key recognized);
  let existed := has_reference db fp in
  db ← upsert_reference_row db
    {| fw_key_fingerprint := fp; fw_locator := locator; fw_configured_at := now |};
  db ← append_signing_reference_event db fp (if existed then "rebound" else "bound") now (Some locator);
  Ok ({| sf_key_fingerprint := fp; sf_locator := locator; sf_configured_at := now |}, db).

Definition unbind_signing_reference (clock : Clock) (db : Db) (fp : string) : StoreResult Db :=
  now ← now_unix_seconds (reading clock);
  key ← lookup_key_in db fp;
  key ← ok_or key (KeyNotFound fp);
  let persona_id := pe_id (sk_persona key) in
  _ ← require_no_evidence_archive (call 0 clock) db persona_id;
  require_nonterminal_persona db persona_id;;
  require_monotonic_audit_time db persona_id now;;
  '(db, deleted) ← delete_reference_row db fp;
  reject_if (negb (deleted =? 1)%N) (SigningReferenceNotFound fp);;
  append_signing_reference_event db fp "unbound" now None.

(** [ORDER BY sequence] *)
Definition signing_reference_history (db : Db) (fp : string) : list SigningReferenceEvent :=
  map (λ row, {| se_sequence := fe_sequence row; se_key_fingerprint := fe_key_fingerprint row;
                 se_event_type := fe_event_type row; se_occurred_at := fe_occurred_at row;
                 se_locator_sha256 := fe_locator_sha256 row |})
    (order_by (λ a b, fe_sequence a <=? fe_sequence b)%Z
      (filter (λ row, fe_key_fingerprint row = fp) (db_reference_events db))).

Definition active_signer_for_persona (clock : Clock) (fs : Fs) (euid : N) (db : Db) (persona_id : string) :
    StoreResult ActiveSigner :=
  _ ← require_no_evidence_archive (call 0 clock) db persona_id;
  require_active_persona db persona_id;;
  validate_persona_authorization_state_in (call 1 clock) db persona_id;;
  require_nonterminal_persona db persona_id;;
  keys ← list_keys_in db persona_id;
  key ← match filter (λ key, kr_status key = Active) keys with
    | [] => Err (NoActiveKey persona_id)
    | [key] => Ok key
    | _ => Err (AmbiguousActiveKeys persona_id)
    end;
  recognized ← lookup_key_in db (kr_fingerprint key);
  recognized ← ok_or recognized (KeyNotFound (kr_fingerprint key));
  signing_reference ← ok_or (lookup_signing_reference_in db (kr_fingerprint key))
    (SigningReferenceNotFound (kr_fingerprint key));
  resolved ← validate_signing_reference_path fs euid (sf_locator signing_reference) (sk_key recognized);
  reject_if (negb (path_eqb resolved (sf_locator signing_reference)))
    (unsafe_signing_reference (sf_locator signing_reference)
      "canonical target changed since this reference was bound");;
  Ok {| as_persona := sk_persona recognized; as_key := sk_key recognized;
        as_signing_reference := signing_reference |}.

(** ** Backups *)

(** The archive of a live journal: every proof with the time the store saw it. *)
Definition live_backup_archive_in (clock : Clock) (db : Db) (persona_id : string) :
    StoreResult BackupContinuityArchive :=
  retained ← (if continuity_archive_exists_in db persona_id then
                materialization ← validate_sealed_continuity_materialization_in (call 0 clock) db persona_id;
                Ok (Some materialization)
              else Ok None);
  reject_if (MAX_PERSONA_BACKUP_CONTINUITY_TRANSITIONS <?
             len (transitions_of db persona_id) + len (terminals_of db persona_id))%N
    (invalid_backup ("continuity archive cannot contain more than " +:+
      pretty MAX_PERSONA_BACKUP_CONTINUITY_TRANSITIONS +:+ " transitions"));;
  reject_if (MAX_PERSONA_BACKUP_RECOVERY_POLICIES <? len (policies_of db persona_id))%N
    (invalid_backup ("continuity archive cannot contain more than " +:+
      pretty MAX_PERSONA_BACKUP_RECOVERY_POLICIES +:+ " recovery policies"));;
  snapshot ← match retained with
    | Some {| cm_method := TerminalHydration; cm_source_sequence := sequence |} =>
        materialized_live_continuity_snapshot_in (call 1 clock) db persona_id sequence
    | _ => live_continuity_snapshot_in (call 1 clock) db persona_id
    end;
  '(transitions, terminal) ← match lc_terminal_revocation snapshot with
    | None => Ok (lc_transitions snapshot, None)
    | Some recorded =>
        match list.last (lc_transitions snapshot) with
        | Some (ProofTerminalRevocation proof) =>
            Ok (removelast (lc_transitions snapshot),
                Some {| bz_proof := proof; bz_observed_at := Some (rtr_committed_at recorded) |})
        | _ => Err (bad_continuity "terminal overlay is not the in-memory continuity leaf")
        end
    end;
  let observed_at := map tw_committed_at
    (order_by (λ a b, tw_sequence a <=? tw_sequence b)%Z (transitions_of db persona_id)) in
  reject_if (len observed_at != len transitions)
    (bad_continuity "transition proof and observation-time counts differ");;
  let policy_observed_at := map yw_recorded_at
    (order_by (λ a b, yw_policy_version a <=? yw_policy_version b)%Z (policies_of db persona_id)) in
  reject_if (len policy_observed_at != len (lc_recovery_policies snapshot))
    (bad_continuity "recovery policy proof and observation-time counts differ");;
  Ok {| bc_root := {| br_proof := rpr_proof (lc_root snapshot);
                      br_observed_at := Some (rpr_recorded_at (lc_root snapshot)) |};
        bc_recovery_policies := zip_with (λ policy t,
          {| bo_proof := rrp_proof policy; bo_observed_at := Some t |})
          (lc_recovery_policies snapshot) policy_observed_at;
        bc_transitions := zip_with (λ proof t, {| bt_proof := proof; bt_observed_at := Some t |})
          transitions observed_at;
        bc_terminal_revocation := terminal |}.

(** Whether the receipt of an activated archive lets it be exported again: all
    the ways of activating one do. *)
Definition exportable (materialization : ContinuityMaterialization) : bool :=
  match cm_method materialization with
  | DirectActivation | RecoveryActivation | TerminalHydration => true
  end.

Definition export_persona_backup_with_archive_and_report (clock : Clock) (db : Db)
    (persona_id : string) (supplied_archive : option BackupContinuityArchive) :
    StoreResult (PersonaBackup * option BackupContinuityVerificationReport) :=
  let has_live_root := continuity_root_exists_in db persona_id in
  imported_archive ← continuity_archive_in db persona_id;
  (if has_live_root && negb (is_null imported_archive) then
     materialization ← validate_sealed_continuity_materialization_in (call 0 clock) db persona_id;
     reject_if (negb (exportable materialization)) (ContinuityEvidenceOnly persona_id)
   else Ok tt);;
  reject_if (negb (is_null supplied_archive) && (has_live_root || negb (is_null imported_archive)))
    (ContinuityConflict ("persona " +:+ persona_id +:+
      " already has continuity that cannot be replaced during export"));;
  continuity ← (if has_live_root then
                  archive ← live_backup_archive_in (call 1 clock) db persona_id;
                  Ok (EvidenceArchive archive)
                else match imported_archive, supplied_archive with
                     | Some archive, _ => Ok (EvidenceArchive archive)
                     | None, Some archive => Ok (EvidenceArchive archive)
                     | None, None => Ok Unmanaged
                     end);
  now ← now_unix_seconds (reading clock);
  latest ← latest_persona_backup_time_in db persona_id;
  let exported_at := Z.max (Z.max now latest) (default 0%Z (continuity_observed_at_max continuity)) in
  backup ← persona_backup_in db persona_id exported_at continuity;
  validate_persona_backup backup;;
  require_serialized_backup_bound backup;;
  continuity_report ← match pb_continuity backup with
    | Some (EvidenceArchive _) =>
        report ← verify_persona_backup_continuity (reading (call 2 clock)) backup;
        report ← ok_or report (bad_continuity "evidence archive did not produce a verification report");
        Ok (Some report)
    | _ => Ok None
    end;
  Ok (backup, continuity_report).

Definition export_persona_backup (clock : Clock) (db : Db) (persona_id : string) :
    StoreResult PersonaBackup :=
  '(backup, _) ← export_persona_backup_with_archive_and_report clock db persona_id None;
  Ok backup.

Definition import_key (persona_id : string) (db : Db) (key : BackupKey) : StoreResult Db :=
  insert_key_row db
    {| kw_fingerprint := bk_fingerprint key; kw_persona_id := persona_id;
       kw_public_key := bk_public_key key; kw_provider := provider_as_str (bk_provider key);
       kw_status := status_as_str (bk_status key); kw_added_at := bk_added_at key;
       kw_retired_at := bk_retired_at key; kw_compromised_at := bk_compromised_at key |}.

Definition import_event (persona_id : string) (db : Db) (event : BackupKeyEvent) : StoreResult Db :=
  append_event db persona_id (be_key_fingerprint event) (be_event_type event) (be_occurred_at event)
    (be_actor event) (be_policy event) (be_note event).

Definition import_verified_persona_backup (clock : Clock) (db : Db) (verified : VerifiedPersonaBackup) :
    StoreResult (Persona * option BackupContinuityVerificationReport * Db) :=
  let backup := vpb_backup verified in
  let bp := pb_persona backup in
  let persona := {| pe_id := bp_id bp; pe_label := bp_label bp; pe_purpose := bp_purpose bp;
                    pe_created_at := bp_created_at bp; pe_archived_at := bp_archived_at bp |} in
  imported_at ← now_unix_seconds (reading clock);
  reject_if (has_persona db (pe_id persona)) (PersonaAlreadyKnown (pe_id persona));;
  each_result (λ key, require_unknown_key db (bk_fingerprint key)) (pb_keys backup);;
  db ← insert_persona_row db
    {| pr_id := pe_id persona; pr_label := pe_label persona;
       pr_purpose := purpose_as_str (pe_purpose persona); pr_created_at := pe_created_at persona;
       pr_archived_at := pe_archived_at persona |};
  db ← fold_result (import_key (pe_id persona)) db (pb_keys backup);
  db ← fold_result (import_event (pe_id persona)) db (pb_events backup);
  db ← match vpb_archive_json verified with
    | None => Ok db
    | Some archive_json =>
        insert_archive_row db {| aw_persona_id := pe_id persona; aw_archive_json := archive_json;
                                 aw_imported_at := imported_at |}
    end;
  Ok (persona, vpb_continuity_report verified, db).

Definition import_persona_backup (clock : Clock) (db : Db) (backup : PersonaBackup) :
    StoreResult (Persona * Db) :=
  verified ← verify_persona_backup_for_import (reading (call 0 clock)) backup;
  '(persona, _, db) ← import_verified_persona_backup (call 1 clock) db verified;
  Ok (persona, db).

End store.
