(* ===== verification/Commits.v ===== *)
(** * Writing the continuity journal ([crates/a-quo-store/src/lib.rs])

    Recording the root of a persona and its recovery policies, and accepting a
    routine transition. What is read before the writing transaction begins is
    read from a database of its own: another process can have committed between
    the two. *)

From stdpp Require Import base numbers list strings pretty option gmap.
From Stdlib Require Import Strings.Byte Ascii.
From S2P Require Import Prelude Text Ordered Display Crates Io ArtifactProof Continuity RecoveryPolicy RecoveryChain.
From S2P Require Import Names Fields IpcProtocol StoreTypes StoreCommon Backup BackupVerify Tables StoredKeys Journal Store.

(** ** Data *)

Record RecordedRecoveryPolicyChain := {
  rpc_head : RecoveryPolicyHead;
  rpc_policies : list RecordedRecoveryPolicy;
  rpc_replayed : bool;
}.

#[export] Instance RoutineTransitionIntent_eq_dec : EqDecision RoutineTransitionIntent.
Proof. solve_decision. Defined.

(** ** Heads *)

Definition next_routine_transition_sequence (head : ContinuityHead) : StoreResult N :=
  reject_if (MAX_CONTINUITY_TRANSITIONS <=? hd_transition_sequence head)%N
    (bad_continuity ("routine continuity journal has reached its " +:+
      pretty MAX_CONTINUITY_TRANSITIONS +:+ "-transition limit"));;
  ok_or (checked_add_u32 (hd_transition_sequence head) 1) (bad_continuity "transition sequence overflow").

Definition routine_transition_intent (persona_id : string) (statement : PersonaTransitionStatement) :
    RoutineTransitionIntent :=
  {| ti_persona_id := persona_id; ti_sequence := ts_sequence statement;
     ti_root_statement_sha256 := ts_root_statement_sha256 statement;
     ti_previous_transition_sha256 := ts_previous_transition_sha256 statement;
     ti_previous_key_fingerprint := ts_previous_key_fingerprint statement;
     ti_next_key_fingerprint := ts_next_key_fingerprint statement;
     ti_issued_at := ts_issued_at statement |}.

Definition require_intent_at_head (intent : RoutineTransitionIntent) (snapshot : LiveContinuitySnapshot) :
    StoreResult unit :=
  let head := lc_head snapshot in
  expected_sequence ← next_routine_transition_sequence head;
  reject_if
    ((ti_persona_id intent != rpr_persona_id (lc_root snapshot)) ||
     (ti_root_statement_sha256 intent != rpr_root_statement_sha256 (lc_root snapshot)) ||
     (ti_sequence intent != expected_sequence) ||
     (ti_previous_transition_sha256 intent != hd_last_transition_sha256 head) ||
     (ti_previous_key_fingerprint intent != hd_current_key_fingerprint head) ||
     (ti_issued_at intent <? hd_last_issued_at head)%Z)
    (ContinuityConflict "routine transition intent is stale, forked, or bound to a different root").

Definition require_expected_continuity_head (head : ContinuityHead)
    (expected : PersonaContinuityCheckpoint) : StoreResult unit :=
  reject_if ((cp_transition_sequence expected != hd_transition_sequence head) ||
             (cp_transition_sha256 expected != hd_last_transition_sha256 head))
    (ContinuityConflict
      "independently supplied continuity-head checkpoint does not match the live journal").

Definition require_clock_not_rollback (previous current : Z) : StoreResult unit :=
  reject_if (current <? previous)%Z (NonMonotonicAuditTime current previous).

Definition require_recovery_policy_active_at (policy : VerifiedRecoveryPolicy) (checked_at : Z)
    (phase : string) : StoreResult unit :=
  reject_if ((checked_at <? ps_issued_at (vp_statement policy)) ||
             (ps_expires_at (vp_statement policy) <=? checked_at))%Z
    (bad_continuity ("latest recovery policy is not active at the store's " +:+ phase +:+ " time")).

(** [UPDATE persona_continuity_heads SET .. WHERE ..]: compare and swap. *)
Definition advance_head (db : Db) (head : ContinuityHead) (persona_id : string) (sequence : N)
    (previous_key next_key : string) (previous_sha256 : option string) (sha256 : string)
    (issued_at : Z) (also : bool) : StoreResult (Db * N) :=
  update_heads db
    (λ row, (hw_persona_id row == persona_id) && (hw_revision row == hd_revision head) &&
            (hw_transition_sequence row == Z.of_N (hd_transition_sequence head)) &&
            (hw_current_key_fingerprint row == previous_key) &&
            (hw_last_transition_sha256 row == previous_sha256) && also)
    (λ row, {| hw_persona_id := hw_persona_id row; hw_revision := (hw_revision row + 1)%Z;
               hw_transition_sequence := Z.of_N sequence; hw_current_key_fingerprint := next_key;
               hw_last_transition_sha256 := Some sha256; hw_last_issued_at := issued_at |}).

Section commits.
Context {crates : Crates} {uuids : Uuids} {materializations : Materializations}
  {json_root_proof : Serde PersonaRootProof} {json_policy_proof : Serde RecoveryPolicyProof}
  {json_transition_proof : Serde PersonaTransitionProof}
  {json_recovery_proof : Serde RecoveryTransitionProof}
  {json_entry : Serde PersonaContinuityTransitionProof}
  {json_terminal_proof : Serde TerminalPersonaRevocationProof}
  {json_archive : Serde BackupContinuityArchive} {json_backup : Serde PersonaBackup}
  {pretty_backup : SerdePretty PersonaBackup}
  {json_root : Serde PersonaRootStatement} {json_transition : Serde PersonaTransitionStatement}
  {json_policy : Serde RecoveryPolicyStatement} {json_recovery : Serde RecoveryTransitionStatement}
  {json_terminal : Serde TerminalPersonaRevocationStatement}.

(** ** Roots *)

Definition record_continuity_root (clock : Clock) (early db : Db) (persona_id : string)
    (proof : PersonaRootProof) (expected_root_statement_sha256 : string) :
    StoreResult (RecordedPersonaRoot * Db) :=
  _ ← require_no_evidence_archive (call 0 clock) early persona_id;
  verified ← map_err invalid_continuity (verify_persona_root_proof proof);
  reject_if (vpr_root_statement_sha256 verified != expected_root_statement_sha256)
    (bad_continuity "verified root digest does not match the independently supplied digest");;
  proof_json ← serialize_continuity_proof proof;
  recorded_at ← now_unix_seconds (reading clock);
  _ ← require_no_evidence_archive (call 1 clock) db persona_id;
  require_nonterminal_persona db persona_id;;
  require_active_persona db persona_id;;
  validate_persona_authorization_state_in (call 2 clock) db persona_id;;
  existing ← recorded_persona_root_in db persona_id;
  match existing with
  | Some existing =>
      reject_if (negb ((rpr_proof existing == proof) &&
                       (rpr_root_statement_sha256 existing == vpr_root_statement_sha256 verified)))
        (ContinuityConflict ("persona " +:+ persona_id +:+ " already has a different immutable root"));;
      Ok (existing, db)
  | None =>
      let statement := vpr_statement verified in
      require_monotonic_audit_time db persona_id recorded_at;;
      persona ← persona_in db persona_id;
      reject_if (rs_persona statement != pe_label persona)
        (bad_continuity "root persona label does not match the local persona");;
      initial ← match active_key_fingerprints db persona_id with
        | [] => Err (NoActiveKey persona_id)
        | [initial_key_fingerprint] => Ok initial_key_fingerprint
        | _ => Err (AmbiguousActiveKeys persona_id)
        end;
      reject_if (initial != rs_initial_key_fingerprint statement)
        (bad_continuity "root initial key is not the persona's unique active key");;
      db ← insert_root_row db
        {| ow_persona_id := persona_id;
           ow_root_statement_sha256 := vpr_root_statement_sha256 verified;
           ow_persona_anchor := rs_persona_anchor statement;
           ow_initial_key_fingerprint := rs_initial_key_fingerprint statement;
           ow_root_proof_json := proof_json; ow_issued_at := rs_issued_at statement;
           ow_recorded_at := recorded_at |};
      db ← insert_head_row db
        {| hw_persona_id := persona_id; hw_revision := 0; hw_transition_sequence := 0;
           hw_current_key_fingerprint := rs_initial_key_fingerprint statement;
           hw_last_transition_sha256 := None; hw_last_issued_at := rs_issued_at statement |};
      Ok ({| rpr_persona_id := persona_id;
             rpr_root_statement_sha256 := vpr_root_statement_sha256 verified;
             rpr_persona_anchor := rs_persona_anchor statement;
             rpr_initial_key_fingerprint := rs_initial_key_fingerprint statement;
             rpr_proof := proof; rpr_issued_at := rs_issued_at statement;
             rpr_recorded_at := recorded_at |}, db)
  end.

Definition continuity_head (clock : Clock) (db : Db) (persona_id : string) :
    StoreResult (option ContinuityHead) :=
  disposition ← persona_authority_disposition_in clock db persona_id;
  match disposition with
  | Operational => continuity_head_in db persona_id
  | TerminallyRevoked => Err (PersonaTerminallyRevoked persona_id)
  | Archived => Err (PersonaArchived persona_id)
  | EvidenceOnly => Err (ContinuityEvidenceOnly persona_id)
  end.

Definition continuity_snapshot (clock : Clock) (db : Db) (persona_id : string) :
    StoreResult LiveContinuitySnapshot :=
  if continuity_archive_exists_in db persona_id && continuity_root_exists_in db persona_id then
    materialization ← validate_sealed_continuity_materialization_in (call 0 clock) db persona_id;
    materialized_live_continuity_snapshot_in (call 1 clock) db persona_id
      (cm_source_sequence materialization)
  else live_continuity_snapshot_in (call 1 clock) db persona_id.

(** ** Recovery policies *)

(** The bytes of the new policies, within the limit together. *)
Definition serialize_suffix (aggregate_proof_byte_limit : N) (st : list bytes * N)
    (proof : RecoveryPolicyProof) : StoreResult (list bytes * N) :=
  let '(serialized, suffix_bytes) := st in
  proof_json ← serialize_continuity_proof proof;
  total ← ok_or (total ← checked_add_u64 suffix_bytes (len proof_json);
                 if (total <=? aggregate_proof_byte_limit)%N then Some total else None)
    (StoredContinuityProofBytesLimit aggregate_proof_byte_limit);
  Ok (serialized ++ [proof_json], total).

Definition recorded_policy (persona_id : string) (recorded_at : Z) (proof : RecoveryPolicyProof)
    (policy : VerifiedRecoveryPolicy) : RecordedRecoveryPolicy :=
  let statement := vp_statement policy in
  {| rrp_persona_id := persona_id; rrp_policy_version := ps_policy_version statement;
     rrp_policy_statement_sha256 := vp_policy_statement_sha256 policy;
     rrp_previous_policy_sha256 := ps_previous_policy_sha256 statement;
     rrp_root_statement_sha256 := ps_root_statement_sha256 statement;
     rrp_checkpoint := ps_continuity_checkpoint statement;
     rrp_issued_at := ps_issued_at statement; rrp_expires_at := ps_expires_at statement;
     rrp_proof := proof; rrp_recorded_at := recorded_at |}.

Definition insert_policy (persona_id : string) (recorded_at : Z)
    (st : Db * list RecordedRecoveryPolicy)
    (entry : RecoveryPolicyProof * bytes * VerifiedRecoveryPolicy) :
    StoreResult (Db * list RecordedRecoveryPolicy) :=
  let '(db, recorded) := st in
  let '(proof, proof_json, policy) := entry in
  let statement := vp_statement policy in
  let checkpoint := ps_continuity_checkpoint statement in
  db ← insert_policy_row db
    {| yw_persona_id := persona_id; yw_policy_version := Z.of_N (ps_policy_version statement);
       yw_policy_statement_sha256 := vp_policy_statement_sha256 policy;
       yw_previous_policy_sha256 := ps_previous_policy_sha256 statement;
       yw_root_statement_sha256 := ps_root_statement_sha256 statement;
       yw_checkpoint_sequence := Z.of_N (rc_transition_sequence checkpoint);
       yw_checkpoint_sha256 := rc_transition_sha256 checkpoint;
       yw_issued_at := ps_issued_at statement; yw_expires_at := ps_expires_at statement;
       yw_proof_json := proof_json; yw_recorded_at := recorded_at |};
  Ok (db, recorded ++ [recorded_policy persona_id recorded_at proof policy]).

(** The head of the policies is inserted, or swapped if it is the one read. *)
Definition advance_policy_head (db : Db) (persona_id : string) (previous_head : option RecoveryPolicyHead)
    (latest : RecordedRecoveryPolicy) : StoreResult Db :=
  let version := Z.of_N (rrp_policy_version latest) in
  let row := {| yh_persona_id := persona_id; yh_revision := version; yh_latest_policy_version := version;
                yh_latest_policy_sha256 := rrp_policy_statement_sha256 latest;
                yh_recorded_at := rrp_recorded_at latest |} in
  match previous_head with
  | None => insert_policy_head_row db row
  | Some previous =>
      '(db, updated) ← update_policy_heads db
        (λ old, (yh_persona_id old == persona_id) && (yh_revision old == ph_revision previous) &&
                (yh_latest_policy_version old == Z.of_N (ph_latest_policy_version previous)) &&
                (yh_latest_policy_sha256 old == ph_latest_policy_sha256 previous))
        (λ _, row);
      reject_if (negb (updated =? 1)%N)
        (ContinuityConflict "recovery policy head changed before commit");;
      Ok db
  end.

Definition require_policy_prefix (entry : RecoveryPolicyProof * RecordedRecoveryPolicy) : StoreResult unit :=
  let '(supplied, recorded) := entry in
  reject_if (supplied != rrp_proof recorded)
    (ContinuityConflict ("recovery policy version " +:+ pretty (rrp_policy_version recorded) +:+
      " differs from the immutable recorded proof")).

Definition replayed_policies (snapshot : LiveContinuitySnapshot) (expected_latest_policy_sha256 : string) :
    StoreResult RecordedRecoveryPolicyChain :=
  head ← ok_or (lc_recovery_policy_head snapshot)
    (bad_continuity "recorded recovery policies have no recovery-policy head");
  reject_if (ph_latest_policy_sha256 head != expected_latest_policy_sha256)
    (ContinuityConflict
      "independently supplied latest recovery-policy digest does not match the live journal");;
  Ok {| rpc_head := head; rpc_policies := lc_recovery_policies snapshot; rpc_replayed := true |}.

(** The chain with the new policies ends at the live head and checkpoints it. *)
Definition policies_checkpoint_head (report : RecoveryAwareContinuityChainReport) (head : ContinuityHead) :
    StoreResult unit :=
  reject_if
    ((mr_transition_count report != hd_transition_sequence head) ||
     (mr_chain_tip_key_fingerprint report != hd_current_key_fingerprint head) ||
     (mr_last_transition_sha256 report != hd_last_transition_sha256 head) ||
     (mr_last_issued_at report != hd_last_issued_at head) ||
     (mr_latest_policy_checkpoint_sequence report != hd_transition_sequence head) ||
     (mr_latest_policy_checkpoint_sha256 report != hd_last_transition_sha256 head))
    (ContinuityConflict "recovery policy chain does not checkpoint the exact live continuity history").

Definition append_policies (clock : Clock) (db : Db) (persona_id : string)
    (proofs : list RecoveryPolicyProof) (expected_root_statement_sha256
     expected_latest_policy_sha256 : string) (aggregate_proof_byte_limit : N)
    (snapshot : LiveContinuitySnapshot) (snapshot_checked_at : Z) :
    StoreResult (RecordedRecoveryPolicyChain * Db) :=
  let suffix_start := length (lc_recovery_policies snapshot) in
  let suffix := drop suffix_start proofs in
  '(serialized_suffix, suffix_bytes) ←
    fold_result (serialize_suffix aggregate_proof_byte_limit) ([], 0%N) suffix;
  suffix_work ← fold_result (add_work recovery_policy_signature_count) 0%N suffix;
  require_stored_live_continuity_bounds_with_reservation db persona_id aggregate_proof_byte_limit
    suffix_bytes 0 (len suffix);;
  require_live_continuity_verification_work (lc_recovery_policies snapshot) (lc_transitions snapshot)
    suffix_work;;
  verified ← map_err invalid_continuity
    (verify_persona_continuity_chain_with_recovery_with_verified_sequence
      (rpr_proof (lc_root snapshot)) (lc_transitions snapshot) proofs
      expected_root_statement_sha256 expected_latest_policy_sha256 snapshot_checked_at);
  policies_checkpoint_head (mc_report verified) (lc_head snapshot);;
  recorded_at ← now_unix_seconds (reading (call 1 clock));
  require_clock_not_rollback snapshot_checked_at recorded_at;;
  verified_latest ← expect (list.last (mc_policies verified))
    "verified recovery-policy chain is non-empty";
  require_recovery_policy_active_at verified_latest recorded_at "recording";;
  require_monotonic_audit_time db persona_id recorded_at;;
  '(db, recorded) ← fold_result (insert_policy persona_id recorded_at)
    (db, lc_recovery_policies snapshot)
    (zip (zip suffix serialized_suffix) (drop suffix_start (mc_policies verified)));
  latest ← expect (list.last recorded) "verified recovery-policy chain is non-empty";
  db ← advance_policy_head db persona_id (lc_recovery_policy_head snapshot) latest;
  commit_checked_at ← now_unix_seconds (reading (call 2 clock));
  require_clock_not_rollback recorded_at commit_checked_at;;
  require_recovery_policy_active_at verified_latest commit_checked_at "commit";;
  Ok ({| rpc_head := {| ph_persona_id := persona_id;
                        ph_revision := Z.of_N (rrp_policy_version latest);
                        ph_latest_policy_version := rrp_policy_version latest;
                        ph_latest_policy_sha256 := rrp_policy_statement_sha256 latest;
                        ph_recorded_at := rrp_recorded_at latest |};
         rpc_policies := recorded; rpc_replayed := false |}, db).

Definition record_recovery_policy_chain_with_clock (clock : Clock) (db : Db) (persona_id : string)
    (proofs : list RecoveryPolicyProof) (expected_root_statement_sha256
     expected_latest_policy_sha256 : string) (expected_head : PersonaContinuityCheckpoint)
    (aggregate_proof_byte_limit : N) : StoreResult (RecordedRecoveryPolicyChain * Db) :=
  reject_if ((len proofs =? 0) || (MAX_RECOVERY_POLICY_VERSIONS <? len proofs))%N
    (bad_continuity ("recovery policy chain must contain 1 through " +:+
      pretty MAX_RECOVERY_POLICY_VERSIONS +:+ " proofs"));;
  _ ← require_no_evidence_archive (call 3 clock) db persona_id;
  require_nonterminal_persona db persona_id;;
  require_active_persona db persona_id;;
  snapshot_checked_at ← now_unix_seconds (reading (call 0 clock));
  current ← verified_live_continuity_snapshot_with_reservation_in (call 4 clock) db persona_id
    aggregate_proof_byte_limit 0 0 0 0 snapshot_checked_at;
  let snapshot := vl_snapshot current in
  reject_if (rpr_root_statement_sha256 (lc_root snapshot) != expected_root_statement_sha256)
    (ContinuityConflict "independently supplied root digest does not match the live journal");;
  require_expected_continuity_head (lc_head snapshot) expected_head;;
  reject_if (len proofs <? len (lc_recovery_policies snapshot))%N
    (ContinuityConflict "recovery policy input truncates the recorded policy chain");;
  each_result require_policy_prefix (zip proofs (lc_recovery_policies snapshot));;
  if len (lc_recovery_policies snapshot) == len proofs then
    replayed ← replayed_policies snapshot expected_latest_policy_sha256;
    Ok (replayed, db)
  else
    append_policies clock db persona_id proofs expected_root_statement_sha256
      expected_latest_policy_sha256 aggregate_proof_byte_limit snapshot snapshot_checked_at.

Definition record_recovery_policy_chain (clock : Clock) (db : Db) (persona_id : string)
    (proofs : list RecoveryPolicyProof) (expected_root_statement_sha256
     expected_latest_policy_sha256 : string) (expected_head : PersonaContinuityCheckpoint) :
    StoreResult (RecordedRecoveryPolicyChain * Db) :=
  record_recovery_policy_chain_with_clock clock db persona_id proofs expected_root_statement_sha256
    expected_latest_policy_sha256 expected_head MAX_STORED_CONTINUITY_PROOF_BYTES.

(** ** Routine transitions *)

Definition validate_routine_rotation_candidate (clock : Clock) (fs : Fs) (euid : N) (db : Db)
    (persona_id next_public_key : string) (provider : KeyProvider) (locator : string) :
    StoreResult RoutineRotationCandidate :=
  require_nonterminal_persona db persona_id;;
  verified_snapshot ← verified_live_continuity_snapshot_in (call 0 clock) db persona_id;
  let head := lc_head (vl_snapshot verified_snapshot) in
  sequence ← next_routine_transition_sequence head;
  let next_public_key := trim next_public_key in
  validate_provider_key next_public_key provider;;
  next_key_fingerprint ← fingerprint next_public_key;
  require_unknown_key db next_key_fingerprint;;
  current ← lookup_key_in db (hd_current_key_fingerprint head);
  current ← ok_or current (KeyNotFound (hd_current_key_fingerprint head));
  reject_if (kr_status (sk_key current) != Active)
    (InactiveSigningKey (hd_current_key_fingerprint head));;
  issued_at ← now_unix_seconds (reading clock);
  reject_if (issued_at <? hd_last_issued_at head)%Z
    (bad_continuity "system clock precedes the accepted continuity head");;
  statement ← map_err invalid_continuity
    (new_routine_transition_statement (live_root (vl_chain verified_snapshot)) sequence
      (hd_last_transition_sha256 head) (kr_public_key (sk_key current)) next_public_key issued_at);
  canonical_locator ← validate_signing_reference_path fs euid locator
    (active_record next_key_fingerprint persona_id next_public_key provider issued_at);
  Ok {| rk_statement := statement; rk_intent := routine_transition_intent persona_id statement;
        rk_public_key := next_public_key; rk_provider := provider;
        rk_signing_reference := {| sf_key_fingerprint := next_key_fingerprint;
                                   sf_locator := canonical_locator;
                                   sf_configured_at := issued_at |} |}.

Definition lookup_committed_routine_transition_in (db : Db) (intent : RoutineTransitionIntent) :
    StoreResult (option CommittedRoutineTransition) :=
  match find_row (λ row, (tw_persona_id row == ti_persona_id intent) &&
                         (tw_sequence row == Z.of_N (ti_sequence intent)) &&
                         (tw_transition_kind row == "routine")) (db_transitions db) with
  | None => Ok None
  | Some row =>
      proof ← map_err invalid_continuity (parse_persona_transition_proof_bytes (tw_proof_json row));
      verified ← map_err invalid_continuity (verify_persona_transition_proof proof);
      let stored_intent := routine_transition_intent (ti_persona_id intent) (vpt_statement verified) in
      reject_if (negb
        ((vpt_transition_statement_sha256 verified == tw_transition_statement_sha256 row) &&
         (tw_root_statement_sha256 row == ti_root_statement_sha256 stored_intent) &&
         (tw_previous_transition_sha256 row == ti_previous_transition_sha256 stored_intent) &&
         (tw_previous_key_fingerprint row == ti_previous_key_fingerprint stored_intent) &&
         (tw_next_key_fingerprint row == ti_next_key_fingerprint stored_intent) &&
         (tw_issued_at row == ti_issued_at stored_intent)))
        (bad_continuity "stored committed transition columns do not match its reverified proof");;
      reject_if (stored_intent != intent)
        (ContinuityConflict ("persona " +:+ ti_persona_id intent +:+ " sequence " +:+
          pretty (ti_sequence intent) +:+ " is already committed with different intent"));;
      Ok (Some {| ct_intent := stored_intent;
                  ct_transition_statement_sha256 := tw_transition_statement_sha256 row;
                  ct_proof := proof; ct_committed_at := tw_committed_at row; ct_replayed := true |})
  end.

Definition current_snapshot_for_committed_transition (clock : Clock) (db : Db)
    (intent : RoutineTransitionIntent) (committed : CommittedRoutineTransition) :
    StoreResult LiveContinuitySnapshot :=
  snapshot ← live_continuity_snapshot_in clock db (ti_persona_id intent);
  let head := lc_head snapshot in
  let exact_last_proof := list.last (lc_transitions snapshot) == Some (ProofRoutine (ct_proof committed)) in
  reject_if (negb
    ((hd_transition_sequence head == ti_sequence intent) &&
     (hd_current_key_fingerprint head == ti_next_key_fingerprint intent) &&
     (hd_last_transition_sha256 head == Some (ct_transition_statement_sha256 committed)) &&
     exact_last_proof))
    (ContinuityConflict ("persona " +:+ ti_persona_id intent +:+ " sequence " +:+
      pretty (ti_sequence intent) +:+ " is committed but is not the current continuity head"));;
  Ok snapshot.

Definition lookup_committed_routine_transition (db : Db) (intent : RoutineTransitionIntent) :
    StoreResult (option CommittedRoutineTransition) := lookup_committed_routine_transition_in db intent.

Definition committed_routine_transition_retry_metadata (clock : Clock) (db : Db)
    (intent : RoutineTransitionIntent) : StoreResult (option RoutineContinuityRetryMetadata) :=
  committed ← lookup_committed_routine_transition_in db intent;
  match committed with
  | None => Ok None
  | Some committed =>
      require_active_persona db (ti_persona_id intent);;
      snapshot ← current_snapshot_for_committed_transition clock db intent committed;
      let head_key := hd_current_key_fingerprint (lc_head snapshot) in
      current ← lookup_key_in db head_key;
      current ← ok_or current (KeyNotFound head_key);
      let key := sk_key current in
      reject_if ((pe_id (sk_persona current) != ti_persona_id intent) ||
                 (kr_persona_id key != ti_persona_id intent) ||
                 (kr_status key != Active) || (kr_fingerprint key != head_key))
        (bad_continuity "continuity retry key is not the active head key for this persona");;
      signing_reference ← ok_or (lookup_signing_reference_in db (kr_fingerprint key))
        (SigningReferenceNotFound (kr_fingerprint key));
      reject_if (sf_key_fingerprint signing_reference != kr_fingerprint key)
        (bad_continuity "continuity retry signing reference is bound to a different key");;
      Ok (Some {| rm_persona_id := ti_persona_id intent;
                  rm_current_key_fingerprint := kr_fingerprint key;
                  rm_provider := kr_provider key;
                  rm_signing_locator := sf_locator signing_reference |})
  end.

(** A retry of a committed proof returns it, if it is still the head. *)
Definition retry_routine (clock : Clock) (db : Db) (intent : RoutineTransitionIntent)
    (proof : PersonaTransitionProof) : StoreResult (option CommittedRoutineTransition) :=
  committed ← lookup_committed_routine_transition_in db intent;
  match committed with
  | None => Ok None
  | Some committed =>
      reject_if (ct_proof committed != proof)
        (ContinuityConflict "retry proof differs from the exact committed proof");;
      _ ← current_snapshot_for_committed_transition clock db intent committed;
      Ok (Some committed)
  end.

(** The new key with its reference and the events of both. *)
Definition activate_key (db : Db) (persona_id fp public_key : string) (provider : KeyProvider)
    (locator : string) (now : Z) (actor policy : string) : StoreResult Db :=
  db ← insert_key db persona_id fp public_key provider now;
  db ← append_event db persona_id fp "rotated_in" now actor policy None;
  db ← insert_reference_row db
    {| fw_key_fingerprint := fp; fw_locator := locator; fw_configured_at := now |};
  append_signing_reference_event db fp "bound" now (Some locator).

(** [UPDATE key_records SET status = 'retired' ..] of the previous key. *)
Definition retire_previous (db : Db) (persona_id previous_key : string) (now : Z) : StoreResult Db :=
  '(db, retired) ← update_keys db
    (λ row, (kw_fingerprint row == previous_key) && (kw_persona_id row == persona_id) &&
            (kw_status row == "active"))
    (transitioned Retired now);
  reject_if (negb (retired =? 1)%N)
    (ContinuityConflict "accepted head no longer has exactly one active previous key");;
  append_event db persona_id previous_key "retired" now "local-user"
    (rotation_policy RotationRoutine) None.

Definition insert_routine_row (db : Db) (intent : RoutineTransitionIntent) (sha256 : string)
    (proof_json : bytes) (now : Z) : StoreResult Db :=
  insert_transition_row db
    {| tw_persona_id := ti_persona_id intent; tw_sequence := Z.of_N (ti_sequence intent);
       tw_transition_statement_sha256 := sha256;
       tw_root_statement_sha256 := ti_root_statement_sha256 intent;
       tw_previous_transition_sha256 := ti_previous_transition_sha256 intent;
       tw_previous_key_fingerprint := ti_previous_key_fingerprint intent;
       tw_next_key_fingerprint := ti_next_key_fingerprint intent;
       tw_issued_at := ti_issued_at intent; tw_proof_json := proof_json; tw_committed_at := now;
       tw_transition_kind := "routine"; tw_recovery_policy_sha256 := None;
       tw_recovery_policy_version := None; tw_recovery_reason := None |}.

Definition validate_routine_extension (chain : VerifiedLiveContinuityChain)
    (receipt : VerifiedPersonaTransitionReceipt) : StoreResult unit :=
  map_err invalid_continuity
    match chain with
    | LiveRoutine chain => validate_verified_persona_continuity_chain_extension chain receipt
    | LiveRecoveryAware chain =>
        validate_verified_recovery_aware_continuity_chain_routine_extension chain receipt
    end.

(** The writing transaction of a routine transition. *)
Definition commit_routine_in (clock : Clock) (fs : Fs) (euid : N) (db : Db) (persona_id : string)
    (proof : PersonaTransitionProof) (proof_json : bytes) (receipt : VerifiedPersonaTransitionReceipt)
    (next_provider : KeyProvider) (candidate_locator : string) (aggregate_proof_byte_limit : N)
    (now : Z) : StoreResult (CommittedRoutineTransition * Db) :=
  let verified := receipt_transition receipt in
  let intent := routine_transition_intent persona_id (vpt_statement verified) in
  retried ← retry_routine (call 3 clock) db intent proof;
  match retried with
  | Some committed => Ok (committed, db)
  | None =>
      require_active_persona db persona_id;;
      require_unknown_key db (ti_next_key_fingerprint intent);;
      verified_snapshot ← verified_live_continuity_snapshot_with_reservation_in (call 4 clock) db
        persona_id aggregate_proof_byte_limit (len proof_json) (len (tp_signatures proof)) 1 0 now;
      let snapshot := vl_snapshot verified_snapshot in
      require_intent_at_head intent snapshot;;
      require_monotonic_audit_time db persona_id now;;
      validate_routine_extension (vl_chain verified_snapshot) receipt;;
      locator ← validate_signing_reference_path fs euid candidate_locator
        (active_record (ti_next_key_fingerprint intent) persona_id (vpt_next_public_key verified)
          next_provider now);
      db ← retire_previous db persona_id (ti_previous_key_fingerprint intent) now;
      db ← activate_key db persona_id (ti_next_key_fingerprint intent) (vpt_next_public_key verified)
        next_provider locator now "local-user" (rotation_policy RotationRoutine);
      db ← insert_routine_row db intent (vpt_transition_statement_sha256 verified) proof_json now;
      '(db, updated) ← advance_head db (lc_head snapshot) persona_id (ti_sequence intent)
        (ti_previous_key_fingerprint intent) (ti_next_key_fingerprint intent)
        (ti_previous_transition_sha256 intent) (vpt_transition_statement_sha256 verified)
        (ti_issued_at intent) true;
      reject_if (negb (updated =? 1)%N)
        (ContinuityConflict "continuity head changed before commit");;
      Ok ({| ct_intent := intent;
             ct_transition_statement_sha256 := vpt_transition_statement_sha256 verified;
             ct_proof := proof; ct_committed_at := now; ct_replayed := false |}, db)
  end.

(** [early] is read before the writing transaction begins. *)
Definition commit_routine_transition_inner (clock : Clock) (early_fs fs : Fs) (euid : N) (early db : Db)
    (persona_id : string) (proof : PersonaTransitionProof) (next_provider : KeyProvider)
    (next_signing_locator : string) (aggregate_proof_byte_limit : N) :
    StoreResult (CommittedRoutineTransition * Db) :=
  _ ← require_no_evidence_archive (call 0 clock) early persona_id;
  require_nonterminal_persona early persona_id;;
  receipt ← map_err invalid_continuity (verify_persona_transition_proof_with_receipt proof);
  let verified := receipt_transition receipt in
  let intent := routine_transition_intent persona_id (vpt_statement verified) in
  proof_json ← serialize_continuity_proof proof;
  retried ← retry_routine (call 1 clock) early intent proof;
  match retried with
  | Some committed => Ok (committed, db)
  | None =>
      validate_provider_key (vpt_next_public_key verified) next_provider;;
      now ← now_unix_seconds (reading clock);
      candidate_locator ← validate_signing_reference_path early_fs euid next_signing_locator
        (active_record (ti_next_key_fingerprint intent) persona_id (vpt_next_public_key verified)
          next_provider now);
      commit_routine_in clock fs euid db persona_id proof proof_json receipt next_provider
        candidate_locator aggregate_proof_byte_limit now
  end.

Definition commit_routine_transition (clock : Clock) (early_fs fs : Fs) (euid : N) (early db : Db)
    (persona_id : string) (proof : PersonaTransitionProof) (next_provider : KeyProvider)
    (next_signing_locator : string) : StoreResult (CommittedRoutineTransition * Db) :=
  commit_routine_transition_inner clock early_fs fs euid early db persona_id proof next_provider
    next_signing_locator MAX_STORED_CONTINUITY_PROOF_BYTES.

End commits.
