(* ===== verification/Recoveries.v ===== *)
(** * Recovery and terminal revocation of a live persona
    ([crates/a-quo-store/src/lib.rs])

    Accepting a threshold-signed recovery transition or terminal revocation as
    the next entry of the journal. Each is verified against the journal as it
    is read first, and the journal is verified again in the transaction that
    writes. The clock may not go back between the readings, and the policy must
    still be active when the transaction commits. *)

From stdpp Require Import base numbers list strings pretty option gmap.
From Stdlib Require Import Strings.Byte Ascii.
From S2P Require Import Prelude Text Ordered Display Crates Io ArtifactProof Continuity RecoveryPolicy RecoveryChain.
From S2P Require Import Names Fields IpcProtocol StoreTypes StoreCommon Backup BackupVerify Tables StoredKeys Journal Store Commits.

(** ** Data *)

Record RecoveryTransitionIntent := {
  xi_persona_id : string;
  xi_sequence : N;
  xi_root_statement_sha256 : string;
  xi_previous_transition_sha256 : option string;
  xi_previous_key_fingerprint : string;
  xi_next_key_fingerprint : string;
  xi_recovery_policy_sha256 : string;
  xi_recovery_policy_version : N;
  xi_reason : RecoveryTransitionReason;
  xi_issued_at : Z;
  xi_ceremony_id : option string;
  xi_expires_at : option Z;
}.
Record CommittedRecoveryTransition := {
  cx_intent : RecoveryTransitionIntent;
  cx_transition_statement_sha256 : string;
  cx_proof : RecoveryTransitionProof;
  cx_committed_at : Z;
  cx_replayed : bool;
}.
Record TerminalPersonaRevocationIntent := {
  zi_persona_id : string;
  zi_sequence : N;
  zi_root_statement_sha256 : string;
  zi_previous_transition_sha256 : option string;
  zi_previous_key_fingerprint : string;
  zi_recovery_policy_sha256 : string;
  zi_recovery_policy_version : N;
  zi_reason : TerminalPersonaRevocationReason;
  zi_issued_at : Z;
}.
Record CommittedTerminalPersonaRevocation := {
  cz_intent : TerminalPersonaRevocationIntent;
  cz_revocation_statement_sha256 : string;
  cz_proof : TerminalPersonaRevocationProof;
  cz_committed_at : Z;
  cz_replayed : bool;
}.
Record RecoveryContinuityRetryMetadata := {
  xm_persona_id : string;
  xm_current_key_fingerprint : string;
  xm_provider : KeyProvider;
  xm_signing_locator : string;
}.

#[export] Instance RecoveryTransitionIntent_eq_dec : EqDecision RecoveryTransitionIntent.
Proof. solve_decision. Defined.
#[export] Instance TerminalPersonaRevocationIntent_eq_dec : EqDecision TerminalPersonaRevocationIntent.
Proof. solve_decision. Defined.

(** ** Intents *)

Definition recovery_transition_intent (persona_id : string) (statement : RecoveryTransitionStatement) :
    RecoveryTransitionIntent :=
  {| xi_persona_id := persona_id; xi_sequence := xs_sequence statement;
     xi_root_statement_sha256 := xs_root_statement_sha256 statement;
     xi_previous_transition_sha256 := xs_previous_transition_sha256 statement;
     xi_previous_key_fingerprint := xs_previous_key_fingerprint statement;
     xi_next_key_fingerprint := xs_next_key_fingerprint statement;
     xi_recovery_policy_sha256 := xs_recovery_policy_sha256 statement;
     xi_recovery_policy_version := xs_recovery_policy_version statement;
     xi_reason := xs_reason statement; xi_issued_at := xs_issued_at statement;
     xi_ceremony_id := xs_ceremony_id statement; xi_expires_at := xs_expires_at statement |}.

Definition terminal_persona_revocation_intent (persona_id : string)
    (statement : TerminalPersonaRevocationStatement) : TerminalPersonaRevocationIntent :=
  {| zi_persona_id := persona_id; zi_sequence := zs_sequence statement;
     zi_root_statement_sha256 := zs_root_statement_sha256 statement;
     zi_previous_transition_sha256 := zs_previous_transition_sha256 statement;
     zi_previous_key_fingerprint := zs_previous_key_fingerprint statement;
     zi_recovery_policy_sha256 := zs_recovery_policy_sha256 statement;
     zi_recovery_policy_version := zs_recovery_policy_version statement;
     zi_reason := zs_reason statement; zi_issued_at := zs_issued_at statement |}.

Definition rotation_reason_name (reason : RecoveryTransitionReason) : string :=
  match reason with ReasonRecovery => "recovery" | ReasonCompromise => "compromise" end.

Definition terminal_revocation_reason_name (reason : TerminalPersonaRevocationReason) : string :=
  match reason with TerminalCompromise => "compromise" | TerminalCessation => "cessation" end.

Definition terminal_revocation_policy (reason : TerminalPersonaRevocationReason) : string :=
  match reason with
  | TerminalCompromise => "a-quo:persona-terminal-revocation:compromise:v1"
  | TerminalCessation => "a-quo:persona-terminal-revocation:cessation:v1"
  end.

(** ** Checks against the journal *)

(** The policy of the chain a digest and a version name. *)
Definition policy_for (chain : VerifiedRecoveryAwareContinuityChain) (sha256 : string) (version : N) :
    option VerifiedRecoveryPolicy :=
  find_row (λ policy, (vp_policy_statement_sha256 policy == sha256) &&
                      (ps_policy_version (vp_statement policy) == version)) (mc_policies chain).

Definition recovery_policy_for_intent (chain : VerifiedRecoveryAwareContinuityChain)
    (intent : RecoveryTransitionIntent) : StoreResult VerifiedRecoveryPolicy :=
  ok_or (policy_for chain (xi_recovery_policy_sha256 intent) (xi_recovery_policy_version intent))
    (ContinuityConflict "recovery proof names a policy outside the live verified policy journal").

Definition terminal_policy_for_intent (chain : VerifiedRecoveryAwareContinuityChain)
    (intent : TerminalPersonaRevocationIntent) : StoreResult VerifiedRecoveryPolicy :=
  ok_or (policy_for chain (zi_recovery_policy_sha256 intent) (zi_recovery_policy_version intent))
    (ContinuityConflict "terminal proof names a policy outside the live verified policy journal").

Definition latest_policy (chain : VerifiedRecoveryAwareContinuityChain) :
    StoreResult VerifiedRecoveryPolicy :=
  expect (list.last (mc_policies chain)) "recovery-aware chain has a latest policy".

Definition require_recovery_intent_uses_latest_policy (chain : VerifiedRecoveryAwareContinuityChain)
    (intent : RecoveryTransitionIntent) : StoreResult unit :=
  latest ← latest_policy chain;
  reject_if ((vp_policy_statement_sha256 latest != xi_recovery_policy_sha256 intent) ||
             (ps_policy_version (vp_statement latest) != xi_recovery_policy_version intent))
    (ContinuityConflict "new recovery proof does not name the live latest recovery policy").

Definition require_terminal_intent_uses_latest_policy (chain : VerifiedRecoveryAwareContinuityChain)
    (intent : TerminalPersonaRevocationIntent) : StoreResult unit :=
  latest ← latest_policy chain;
  reject_if ((vp_policy_statement_sha256 latest != zi_recovery_policy_sha256 intent) ||
             (ps_policy_version (vp_statement latest) != zi_recovery_policy_version intent))
    (ContinuityConflict "terminal proof does not name the live latest recovery policy");;
  reject_if (negb (authorizes (vp_statement latest) TerminalRevocation))
    (bad_continuity "latest recovery policy does not explicitly authorize terminal revocation").

Definition require_recovery_intent_at_head (intent : RecoveryTransitionIntent)
    (snapshot : LiveContinuitySnapshot) (expected_previous_head : PersonaContinuityCheckpoint) :
    StoreResult unit :=
  let head := lc_head snapshot in
  require_expected_continuity_head head expected_previous_head;;
  expected_sequence ← ok_or (checked_add_u32 (hd_transition_sequence head) 1)
    (bad_continuity "transition sequence overflow");
  policy_head ← ok_or (lc_recovery_policy_head snapshot)
    (bad_continuity "recovery transition requires a recorded recovery-policy head");
  reject_if
    ((xi_persona_id intent != rpr_persona_id (lc_root snapshot)) ||
     (xi_root_statement_sha256 intent != rpr_root_statement_sha256 (lc_root snapshot)) ||
     (xi_sequence intent != expected_sequence) ||
     (xi_previous_transition_sha256 intent != hd_last_transition_sha256 head) ||
     (xi_previous_key_fingerprint intent != hd_current_key_fingerprint head) ||
     (xi_recovery_policy_sha256 intent != ph_latest_policy_sha256 policy_head) ||
     (xi_recovery_policy_version intent != ph_latest_policy_version policy_head) ||
     (xi_issued_at intent <? hd_last_issued_at head)%Z)
    (ContinuityConflict "recovery transition no longer extends the exact pinned live head and policy").

Definition require_terminal_intent_at_head (intent : TerminalPersonaRevocationIntent)
    (snapshot : LiveContinuitySnapshot) (expected_previous_head : PersonaContinuityCheckpoint) :
    StoreResult unit :=
  let head := lc_head snapshot in
  require_expected_continuity_head head expected_previous_head;;
  expected_sequence ← ok_or (checked_add_u32 (hd_transition_sequence head) 1)
    (bad_continuity "transition sequence overflow");
  policy_head ← ok_or (lc_recovery_policy_head snapshot)
    (bad_continuity "terminal revocation requires a recorded recovery-policy head");
  reject_if
    (negb (is_null (lc_terminal_revocation snapshot)) ||
     (zi_persona_id intent != rpr_persona_id (lc_root snapshot)) ||
     (zi_root_statement_sha256 intent != rpr_root_statement_sha256 (lc_root snapshot)) ||
     (zi_sequence intent != expected_sequence) ||
     (MAX_TERMINAL_PERSONA_REVOCATION_SEQUENCE <? zi_sequence intent)%N ||
     (zi_previous_transition_sha256 intent != hd_last_transition_sha256 head) ||
     (zi_previous_key_fingerprint intent != hd_current_key_fingerprint head) ||
     (zi_recovery_policy_sha256 intent != ph_latest_policy_sha256 policy_head) ||
     (zi_recovery_policy_version intent != ph_latest_policy_version policy_head) ||
     (zi_issued_at intent <? hd_last_issued_at head)%Z)
    (ContinuityConflict "terminal revocation no longer extends the exact pinned live head and policy").

(** The entry follows the head its signers were shown. *)
Definition extends_checkpoint (sequence : N) (previous : option string)
    (expected : PersonaContinuityCheckpoint) (conflict : string) : StoreResult unit :=
  expected_sequence ← ok_or (checked_add_u32 (cp_transition_sequence expected) 1)
    (bad_continuity "transition sequence overflow");
  reject_if ((sequence != expected_sequence) || (previous != cp_transition_sha256 expected))
    (ContinuityConflict conflict).

Definition require_expected_previous_head_for_recovery_intent (intent : RecoveryTransitionIntent)
    (expected : PersonaContinuityCheckpoint) : StoreResult unit :=
  extends_checkpoint (xi_sequence intent) (xi_previous_transition_sha256 intent) expected
    "recovery proof does not extend the independently supplied previous-head checkpoint".

Definition require_expected_previous_head_for_terminal_intent (intent : TerminalPersonaRevocationIntent)
    (expected : PersonaContinuityCheckpoint) : StoreResult unit :=
  extends_checkpoint (zi_sequence intent) (zi_previous_transition_sha256 intent) expected
    "terminal proof does not extend the independently supplied previous-head checkpoint".

Definition require_expected_recovery_pins (snapshot : LiveContinuitySnapshot)
    (expected_root_statement_sha256 expected_latest_policy_sha256 : string) : StoreResult unit :=
  reject_if (rpr_root_statement_sha256 (lc_root snapshot) != expected_root_statement_sha256)
    (ContinuityConflict "independently supplied root digest does not match the live journal");;
  policy_head ← ok_or (lc_recovery_policy_head snapshot)
    (bad_continuity "recovery transition requires a recorded recovery-policy head");
  reject_if (ph_latest_policy_sha256 policy_head != expected_latest_policy_sha256)
    (ContinuityConflict "independently supplied latest-policy digest does not match the live journal").

Definition recovery_aware (chain : VerifiedLiveContinuityChain) (reason : string) :
    StoreResult VerifiedRecoveryAwareContinuityChain :=
  match chain with
  | LiveRecoveryAware chain => Ok chain
  | LiveRoutine _ => Err (bad_continuity reason)
  end.

Section recoveries.
Context {crates : Crates} {uuids : Uuids} {materializations : Materializations}
  {json_root_proof : Serde PersonaRootProof} {json_policy_proof : Serde RecoveryPolicyProof}
  {json_transition_proof : Serde PersonaTransitionProof}
  {json_recovery_proof : Serde RecoveryTransitionProof}
  {json_entry : Serde PersonaContinuityTransitionProof}
  {json_terminal_proof : Serde TerminalPersonaRevocationProof}
  {json_archive : Serde BackupContinuityArchive} {json_backup : Serde PersonaBackup}
  {pretty_backup : SerdePretty PersonaBackup}
  {json_root : Serde PersonaRootStatement} {json_transition : Serde PersonaTransitionStatement}
  {json_policy : Serde RecoveryPolicyStatement} {json_recovery : Serde RecoveryTransitionStatement}
  {json_terminal : Serde TerminalPersonaRevocationStatement}.

(** ** What is committed already *)

Definition lookup_committed_recovery_transition_in (db : Db) (intent : RecoveryTransitionIntent) :
    StoreResult (option CommittedRecoveryTransition) :=
  let named := "persona " +:+ xi_persona_id intent +:+ " sequence " +:+ pretty (xi_sequence intent) in
  match find_row (λ row, (tw_persona_id row == xi_persona_id intent) &&
                         (tw_sequence row == Z.of_N (xi_sequence intent))) (db_transitions db) with
  | None => Ok None
  | Some row =>
      reject_if (tw_transition_kind row != "recovery")
        (ContinuityConflict (named +:+ " is already a routine transition"));;
      proof ← map_err invalid_continuity (parse_recovery_transition_proof_bytes (tw_proof_json row));
      statement ← map_err invalid_continuity (inspect_recovery_transition_proof proof);
      let stored_intent := recovery_transition_intent (xi_persona_id intent) statement in
      digest ← map_err invalid_continuity (recovery_transition_statement_sha256 statement);
      reject_if (negb
        ((tw_transition_statement_sha256 row == digest) &&
         (tw_root_statement_sha256 row == xi_root_statement_sha256 stored_intent) &&
         (tw_previous_transition_sha256 row == xi_previous_transition_sha256 stored_intent) &&
         (tw_previous_key_fingerprint row == xi_previous_key_fingerprint stored_intent) &&
         (tw_next_key_fingerprint row == xi_next_key_fingerprint stored_intent) &&
         (tw_issued_at row == xi_issued_at stored_intent) &&
         (tw_recovery_policy_sha256 row == Some (xi_recovery_policy_sha256 stored_intent)) &&
         (tw_recovery_policy_version row == Some (Z.of_N (xi_recovery_policy_version stored_intent))) &&
         (tw_recovery_reason row == Some (rotation_reason_name (xi_reason stored_intent)))))
        (bad_continuity "stored committed recovery transition columns do not match its proof");;
      reject_if (stored_intent != intent)
        (ContinuityConflict (named +:+ " is already committed with different recovery intent"));;
      require_recovery_ceremony_active_at (xi_expires_at stored_intent) (tw_committed_at row)
        "stored commit";;
      Ok (Some {| cx_intent := stored_intent;
                  cx_transition_statement_sha256 := tw_transition_statement_sha256 row;
                  cx_proof := proof; cx_committed_at := tw_committed_at row; cx_replayed := true |})
  end.

Definition current_snapshot_for_committed_recovery_transition (clock : Clock) (db : Db)
    (intent : RecoveryTransitionIntent) (committed : CommittedRecoveryTransition) :
    StoreResult LiveContinuitySnapshot :=
  snapshot ← live_continuity_snapshot_in clock db (xi_persona_id intent);
  let head := lc_head snapshot in
  let exact_last_proof := list.last (lc_transitions snapshot) == Some (ProofRecovery (cx_proof committed)) in
  reject_if
    ((hd_transition_sequence head != xi_sequence intent) ||
     (hd_current_key_fingerprint head != xi_next_key_fingerprint intent) ||
     (hd_last_transition_sha256 head != Some (cx_transition_statement_sha256 committed)) ||
     negb exact_last_proof)
    (ContinuityConflict ("persona " +:+ xi_persona_id intent +:+ " sequence " +:+
      pretty (xi_sequence intent) +:+ " is committed but is not the current recovery head"));;
  Ok snapshot.

Definition lookup_committed_recovery_transition (clock : Clock) (db : Db)
    (intent : RecoveryTransitionIntent) : StoreResult (option CommittedRecoveryTransition) :=
  committed ← lookup_committed_recovery_transition_in db intent;
  match committed with
  | None => Ok None
  | Some committed =>
      _ ← current_snapshot_for_committed_recovery_transition clock db intent committed;
      Ok (Some committed)
  end.

Definition committed_recovery_transition_retry_metadata (clock : Clock) (db : Db)
    (intent : RecoveryTransitionIntent) : StoreResult (option RecoveryContinuityRetryMetadata) :=
  committed ← lookup_committed_recovery_transition_in db intent;
  match committed with
  | None => Ok None
  | Some committed =>
      require_active_persona db (xi_persona_id intent);;
      snapshot ← current_snapshot_for_committed_recovery_transition clock db intent committed;
      let head_key := hd_current_key_fingerprint (lc_head snapshot) in
      current ← lookup_key_in db head_key;
      current ← ok_or current (KeyNotFound head_key);
      let key := sk_key current in
      reject_if ((pe_id (sk_persona current) != xi_persona_id intent) ||
                 (kr_persona_id key != xi_persona_id intent) ||
                 (kr_status key != Active) || (kr_fingerprint key != head_key))
        (bad_continuity "recovery retry key is not the active head key for this persona");;
      signing_reference ← ok_or (lookup_signing_reference_in db (kr_fingerprint key))
        (SigningReferenceNotFound (kr_fingerprint key));
      Ok (Some {| xm_persona_id := xi_persona_id intent;
                  xm_current_key_fingerprint := kr_fingerprint key;
                  xm_provider := kr_provider key;
                  xm_signing_locator := sf_locator signing_reference |})
  end.

Definition lookup_committed_terminal_persona_revocation_in (db : Db)
    (intent : TerminalPersonaRevocationIntent) : StoreResult (option CommittedTerminalPersonaRevocation) :=
  recorded ← recorded_terminal_persona_revocation_in db (zi_persona_id intent);
  match recorded with
  | None => Ok None
  | Some recorded =>
      statement ← map_err invalid_continuity
        (inspect_terminal_persona_revocation_proof (rtr_proof recorded));
      let stored_intent := terminal_persona_revocation_intent (zi_persona_id intent) statement in
      digest ← map_err invalid_continuity (terminal_persona_revocation_statement_sha256 statement);
      reject_if
        ((rtr_sequence recorded != zi_sequence stored_intent) ||
         (rtr_revocation_statement_sha256 recorded != digest) ||
         (rtr_root_statement_sha256 recorded != zi_root_statement_sha256 stored_intent) ||
         (rtr_previous_transition_sha256 recorded != zi_previous_transition_sha256 stored_intent) ||
         (rtr_previous_key_fingerprint recorded != zi_previous_key_fingerprint stored_intent) ||
         (rtr_recovery_policy_sha256 recorded != zi_recovery_policy_sha256 stored_intent) ||
         (rtr_recovery_policy_version recorded != zi_recovery_policy_version stored_intent) ||
         (rtr_reason recorded != zi_reason stored_intent) ||
         (rtr_issued_at recorded != zi_issued_at stored_intent))
        (bad_continuity "stored terminal-revocation columns do not match its canonical proof");;
      reject_if (stored_intent != intent)
        (ContinuityConflict ("persona " +:+ zi_persona_id intent +:+
          " is already terminally revoked with different intent"));;
      Ok (Some {| cz_intent := stored_intent;
                  cz_revocation_statement_sha256 := rtr_revocation_statement_sha256 recorded;
                  cz_proof := rtr_proof recorded; cz_committed_at := rtr_committed_at recorded;
                  cz_replayed := true |})
  end.

Definition current_snapshot_for_committed_terminal_persona_revocation (clock : Clock) (db : Db)
    (intent : TerminalPersonaRevocationIntent) (committed : CommittedTerminalPersonaRevocation) :
    StoreResult LiveContinuitySnapshot :=
  snapshot ← live_continuity_snapshot_in clock db (zi_persona_id intent);
  let exact_last_proof :=
    list.last (lc_transitions snapshot) == Some (ProofTerminalRevocation (cz_proof committed)) in
  let exact_row := match lc_terminal_revocation snapshot with
    | Some recorded =>
        (rtr_sequence recorded == zi_sequence intent) &&
        (rtr_revocation_statement_sha256 recorded == cz_revocation_statement_sha256 committed) &&
        (rtr_committed_at recorded == cz_committed_at committed)
    | None => false
    end in
  reject_if (negb exact_last_proof || negb exact_row)
    (ContinuityConflict ("persona " +:+ zi_persona_id intent +:+
      " terminal revocation is recorded but is not the current verified leaf"));;
  Ok snapshot.

Definition lookup_committed_terminal_persona_revocation (clock : Clock) (db : Db)
    (intent : TerminalPersonaRevocationIntent) :
    StoreResult (option CommittedTerminalPersonaRevocation) :=
  committed ← lookup_committed_terminal_persona_revocation_in db intent;
  match committed with
  | None => Ok None
  | Some committed =>
      _ ← current_snapshot_for_committed_terminal_persona_revocation clock db intent committed;
      Ok (Some committed)
  end.

(** ** Committing a recovery transition *)

(** The file system at each time the candidate signer is looked at, and what
    the challenge it signs is made of. *)
Record SignerSightings := {
  sg_candidate : Fs;
  sg_before : Fs;
  sg_after : Fs;
  sg_commit : Fs;
  sg_binding : Fs;
  sg_nonce : option bytes;
  sg_euid : N;
}.

Definition recovered_status (reason : RecoveryTransitionReason) : KeyStatus :=
  match reason with ReasonRecovery => Retired | ReasonCompromise => Compromised end.
Definition recovered_rotation (reason : RecoveryTransitionReason) : RotationReason :=
  match reason with ReasonRecovery => RotationRecovery | ReasonCompromise => RotationCompromise end.

Definition insert_recovery_row (db : Db) (intent : RecoveryTransitionIntent) (sha256 : string)
    (proof_json : bytes) (committed_at : Z) : StoreResult Db :=
  insert_transition_row db
    {| tw_persona_id := xi_persona_id intent; tw_sequence := Z.of_N (xi_sequence intent);
       tw_transition_statement_sha256 := sha256;
       tw_root_statement_sha256 := xi_root_statement_sha256 intent;
       tw_previous_transition_sha256 := xi_previous_transition_sha256 intent;
       tw_previous_key_fingerprint := xi_previous_key_fingerprint intent;
       tw_next_key_fingerprint := xi_next_key_fingerprint intent;
       tw_issued_at := xi_issued_at intent; tw_proof_json := proof_json;
       tw_committed_at := committed_at; tw_transition_kind := "recovery";
       tw_recovery_policy_sha256 := Some (xi_recovery_policy_sha256 intent);
       tw_recovery_policy_version := Some (Z.of_N (xi_recovery_policy_version intent));
       tw_recovery_reason := Some (rotation_reason_name (xi_reason intent)) |}.

(** The policy head is still the one that was read. *)
Definition policy_head_stands (db : Db) (persona_id : string) (head : RecoveryPolicyHead) : bool :=
  exists_in (λ row, (yh_persona_id row == persona_id) && (yh_revision row == ph_revision head) &&
                    (yh_latest_policy_version row == Z.of_N (ph_latest_policy_version head)) &&
                    (yh_latest_policy_sha256 row == ph_latest_policy_sha256 head))
    (db_policy_heads db).

(** What the journal read before the transaction says of a recovery proof. *)
Definition review_recovery (clock : Clock) (early : Db) (persona_id : string)
    (proof : RecoveryTransitionProof) (inspected : RecoveryTransitionStatement)
    (expected_root_statement_sha256 expected_latest_policy_sha256 : string)
    (expected_previous_head : PersonaContinuityCheckpoint) (limit : N) (verification_time : Z) :
    StoreResult (VerifiedRecoveryTransitionReceipt * option CommittedRecoveryTransition) :=
  let intent := recovery_transition_intent persona_id inspected in
  require_active_persona early persona_id;;
  current ← verified_live_continuity_snapshot_with_reservation_in (call 1 clock) early persona_id
    limit 0 0 0 0 verification_time;
  require_expected_recovery_pins (vl_snapshot current) expected_root_statement_sha256
    expected_latest_policy_sha256;;
  chain ← recovery_aware (vl_chain current)
    "recovery transition requires a verified recovery-policy chain";
  policy ← recovery_policy_for_intent chain intent;
  receipt ← map_err invalid_continuity
    (verify_recovery_transition_proof_with_receipt (mc_root chain) policy proof);
  reject_if (vx_statement (xr_transition receipt) != inspected)
    (bad_continuity "recovery proof changed between inspection and verification");;
  committed ← lookup_committed_recovery_transition_in early intent;
  match committed with
  | Some committed =>
      _ ← current_snapshot_for_committed_recovery_transition (call 2 clock) early intent committed;
      Ok (receipt, Some committed)
  | None =>
      require_recovery_ceremony_active_at (xi_expires_at intent) verification_time "verification";;
      require_recovery_intent_uses_latest_policy chain intent;;
      require_recovery_intent_at_head intent (vl_snapshot current) expected_previous_head;;
      latest ← latest_policy chain;
      require_recovery_policy_active_at latest verification_time "verification";;
      reject_if (verification_time <? xi_issued_at intent)%Z
        (bad_continuity "recovery transition issuance time is in the future");;
      Ok (receipt, None)
  end.

(** The writes of a recovery: the old key, the new key, the entry, the head. *)
Definition write_recovery (db : Db) (intent : RecoveryTransitionIntent)
    (verified : VerifiedRecoveryTransition) (proof_json : bytes) (provider : KeyProvider)
    (locator : string) (snapshot : LiveContinuitySnapshot) (committed_at : Z) : StoreResult Db :=
  let persona_id := xi_persona_id intent in
  let status := recovered_status (xi_reason intent) in
  let policy := rotation_policy (recovered_rotation (xi_reason intent)) in
  db ← transition_key db (xi_previous_key_fingerprint intent) status committed_at;
  db ← append_event db persona_id (xi_previous_key_fingerprint intent) (status_as_str status)
    committed_at "recovery-authority-threshold" policy None;
  db ← activate_key db persona_id (xi_next_key_fingerprint intent) (vx_next_public_key verified)
    provider locator committed_at "recovery-authority-threshold" policy;
  db ← insert_recovery_row db intent (vx_transition_statement_sha256 verified) proof_json committed_at;
  policy_head ← expect (lc_recovery_policy_head snapshot) "recovery-aware snapshot has a policy head";
  '(db, updated) ← advance_head db (lc_head snapshot) persona_id (xi_sequence intent)
    (xi_previous_key_fingerprint intent) (xi_next_key_fingerprint intent)
    (xi_previous_transition_sha256 intent) (vx_transition_statement_sha256 verified)
    (xi_issued_at intent) (policy_head_stands db persona_id policy_head);
  reject_if (negb (updated =? 1)%N)
    (ContinuityConflict "continuity or recovery-policy head changed before commit");;
  Ok db.

(** The writing transaction of a recovery transition. *)
Definition commit_recovery_in (clock : Clock) (sightings : SignerSightings) (db : Db)
    (persona_id : string) (proof : RecoveryTransitionProof) (proof_json : bytes)
    (receipt : VerifiedRecoveryTransitionReceipt) (expected_root_statement_sha256
     expected_latest_policy_sha256 : string) (expected_previous_head : PersonaContinuityCheckpoint)
    (next_provider : KeyProvider) (candidate_locator : string)
    (binding : VerifiedLiveSignerBinding) (limit : N) (verification_time : Z) :
    StoreResult (CommittedRecoveryTransition * Db) :=
  let verified := xr_transition receipt in
  let intent := recovery_transition_intent persona_id (vx_statement verified) in
  committed ← lookup_committed_recovery_transition_in db intent;
  match committed with
  | Some committed =>
      snapshot ← current_snapshot_for_committed_recovery_transition (call 3 clock) db intent committed;
      require_expected_recovery_pins snapshot expected_root_statement_sha256
        expected_latest_policy_sha256;;
      Ok (committed, db)
  | None =>
      require_active_persona db persona_id;;
      require_unknown_key db (xi_next_key_fingerprint intent);;
      live_checked_at ← now_unix_seconds (reading (call 4 clock));
      require_clock_not_rollback verification_time live_checked_at;;
      require_recovery_ceremony_active_at (xi_expires_at intent) live_checked_at
        "transaction verification";;
      work ← ok_or (checked_add_usize (len (xp_recovery_signatures proof)) 1) work_limit;
      verified_snapshot ← verified_live_continuity_snapshot_with_reservation_in (call 5 clock) db
        persona_id limit (len proof_json) work 1 0 live_checked_at;
      let snapshot := vl_snapshot verified_snapshot in
      require_expected_recovery_pins snapshot expected_root_statement_sha256
        expected_latest_policy_sha256;;
      require_recovery_intent_at_head intent snapshot expected_previous_head;;
      chain ← recovery_aware (vl_chain verified_snapshot)
        "recovery transition requires a verified recovery-policy chain";
      require_recovery_intent_uses_latest_policy chain intent;;
      map_err invalid_continuity
        (validate_verified_recovery_aware_continuity_chain_extension chain receipt);;
      committed_at ← now_unix_seconds (reading (call 6 clock));
      require_clock_not_rollback live_checked_at committed_at;;
      require_recovery_ceremony_active_at (xi_expires_at intent) committed_at "recording";;
      latest ← latest_policy chain;
      require_recovery_policy_active_at latest committed_at "recording";;
      reject_if (committed_at <? xi_issued_at intent)%Z
        (bad_continuity "recovery transition issuance time is in the future");;
      require_monotonic_audit_time db persona_id committed_at;;
      locator ← validate_signing_reference_path (sg_commit sightings) (sg_euid sightings)
        candidate_locator (active_record (xi_next_key_fingerprint intent) persona_id
          (vx_next_public_key verified) next_provider committed_at);
      map_err InvalidSigner (validate_verified_live_signer_binding (sg_binding sightings) binding
        (live_signer_binding_provider next_provider) locator (vx_next_public_key verified)
        (xi_next_key_fingerprint intent));;
      db ← write_recovery db intent verified proof_json next_provider locator snapshot committed_at;
      commit_checked_at ← now_unix_seconds (reading (call 7 clock));
      require_clock_not_rollback committed_at commit_checked_at;;
      require_recovery_policy_active_at latest commit_checked_at "commit";;
      require_recovery_ceremony_active_at (xi_expires_at intent) commit_checked_at "commit";;
      Ok ({| cx_intent := intent;
             cx_transition_statement_sha256 := vx_transition_statement_sha256 verified;
             cx_proof := proof; cx_committed_at := committed_at; cx_replayed := false |}, db)
  end.

Definition commit_recovery_transition_with_clock {keygen : SshKeygen} (clock : Clock)
    (sightings : SignerSightings) (early db : Db) (persona_id : string)
    (proof : RecoveryTransitionProof) (expected_root_statement_sha256
     expected_latest_policy_sha256 : string) (expected_previous_head : PersonaContinuityCheckpoint)
    (next_provider : KeyProvider) (next_signing_locator : string) (limit : N) :
    StoreResult (CommittedRecoveryTransition * Db) :=
  _ ← require_no_evidence_archive (call 0 clock) early persona_id;
  require_nonterminal_persona early persona_id;;
  proof_json ← serialize_continuity_proof proof;
  inspected ← map_err invalid_continuity (inspect_recovery_transition_proof proof);
  let intent := recovery_transition_intent persona_id inspected in
  require_expected_previous_head_for_recovery_intent intent expected_previous_head;;
  verification_time ← now_unix_seconds (reading clock);
  '(receipt, committed) ← review_recovery clock early persona_id proof inspected
    expected_root_statement_sha256 expected_latest_policy_sha256 expected_previous_head limit
    verification_time;
  match committed with
  | Some committed => Ok (committed, db)
  | None =>
      let verified := xr_transition receipt in
      validate_provider_key (vx_next_public_key verified) next_provider;;
      candidate_locator ← validate_signing_reference_path (sg_candidate sightings)
        (sg_euid sightings) next_signing_locator
        (active_record (xi_next_key_fingerprint intent) persona_id (vx_next_public_key verified)
          next_provider verification_time);
      binding ← map_err InvalidSigner
        (prove_live_signer_binding (sg_before sightings) (sg_after sightings) (sg_nonce sightings)
          candidate_locator (vx_next_public_key verified)
          (live_signer_binding_provider next_provider));
      commit_recovery_in clock sightings db persona_id proof proof_json receipt
        expected_root_statement_sha256 expected_latest_policy_sha256 expected_previous_head
        next_provider candidate_locator binding limit verification_time
  end.

Definition commit_recovery_transition {keygen : SshKeygen} (clock : Clock) (sightings : SignerSightings)
    (early db : Db) (persona_id : string) (proof : RecoveryTransitionProof)
    (expected_root_statement_sha256 expected_latest_policy_sha256 : string)
    (expected_previous_head : PersonaContinuityCheckpoint) (next_provider : KeyProvider)
    (next_signing_locator : string) : StoreResult (CommittedRecoveryTransition * Db) :=
  commit_recovery_transition_with_clock clock sightings early db persona_id proof
    expected_root_statement_sha256 expected_latest_policy_sha256 expected_previous_head next_provider
    next_signing_locator MAX_STORED_CONTINUITY_PROOF_BYTES.

(** ** Committing a terminal revocation *)

(** What the journal read before the transaction says of a terminal proof. *)
Definition review_terminal (clock : Clock) (early : Db) (persona_id : string)
    (proof : TerminalPersonaRevocationProof) (inspected : TerminalPersonaRevocationStatement)
    (expected_root_statement_sha256 expected_latest_policy_sha256 : string)
    (expected_previous_head : PersonaContinuityCheckpoint) (limit : N) (verification_time : Z) :
    StoreResult (VerifiedTerminalPersonaRevocationReceipt * option CommittedTerminalPersonaRevocation) :=
  let intent := terminal_persona_revocation_intent persona_id inspected in
  require_active_persona early persona_id;;
  current ← verified_live_continuity_snapshot_with_reservation_in (call 1 clock) early persona_id
    limit 0 0 0 0 verification_time;
  require_expected_recovery_pins (vl_snapshot current) expected_root_statement_sha256
    expected_latest_policy_sha256;;
  chain ← recovery_aware (vl_chain current)
    "terminal revocation requires a verified recovery-policy chain";
  policy ← terminal_policy_for_intent chain intent;
  receipt ← map_err invalid_continuity
    (verify_terminal_persona_revocation_proof_with_receipt (mc_root chain) policy proof);
  reject_if (vz_statement (zr_revocation receipt) != inspected)
    (bad_continuity "terminal proof changed between inspection and verification");;
  committed ← lookup_committed_terminal_persona_revocation_in early intent;
  match committed with
  | Some committed =>
      _ ← current_snapshot_for_committed_terminal_persona_revocation (call 2 clock) early intent
            committed;
      Ok (receipt, Some committed)
  | None =>
      require_terminal_intent_uses_latest_policy chain intent;;
      require_terminal_intent_at_head intent (vl_snapshot current) expected_previous_head;;
      require_recovery_policy_active_at policy verification_time "verification";;
      reject_if (verification_time <? zi_issued_at intent)%Z
        (bad_continuity "terminal revocation issuance time is in the future");;
      Ok (receipt, None)
  end.

(** The writes of a terminal revocation: the last key goes, with its signing
    reference, and the revocation is recorded. *)
Definition write_terminal (db : Db) (intent : TerminalPersonaRevocationIntent) (sha256 : string)
    (proof_json : bytes) (committed_at : Z) : StoreResult Db :=
  let persona_id := zi_persona_id intent in
  let key := zi_previous_key_fingerprint intent in
  let status := terminal_key_status (zi_reason intent) in
  db ← transition_key db key status committed_at;
  db ← append_event db persona_id key (status_as_str status) committed_at
    "recovery-authority-threshold" (terminal_revocation_policy (zi_reason intent)) None;
  '(db, deleted) ← delete_reference_row db key;
  db ← (if (deleted =? 1)%N then append_signing_reference_event db key "unbound" committed_at None
        else Ok db);
  reject_if (negb (len (active_key_fingerprints db persona_id) =? 0)%N)
    (bad_continuity "terminal commit did not remove all active persona keys");;
  insert_terminal_row db
    {| zw_persona_id := persona_id; zw_sequence := Z.of_N (zi_sequence intent);
       zw_revocation_statement_sha256 := sha256;
       zw_root_statement_sha256 := zi_root_statement_sha256 intent;
       zw_previous_transition_sha256 := zi_previous_transition_sha256 intent;
       zw_previous_key_fingerprint := key;
       zw_recovery_policy_sha256 := zi_recovery_policy_sha256 intent;
       zw_recovery_policy_version := Z.of_N (zi_recovery_policy_version intent);
       zw_reason := terminal_revocation_reason_name (zi_reason intent);
       zw_issued_at := zi_issued_at intent; zw_proof_json := proof_json;
       zw_committed_at := committed_at |}.

(** The writing transaction of a terminal revocation. *)
Definition commit_terminal_in (clock : Clock) (db : Db) (persona_id : string)
    (proof : TerminalPersonaRevocationProof) (proof_json : bytes)
    (receipt : VerifiedTerminalPersonaRevocationReceipt) (expected_root_statement_sha256
     expected_latest_policy_sha256 : string) (expected_previous_head : PersonaContinuityCheckpoint)
    (limit : N) (verification_time : Z) : StoreResult (CommittedTerminalPersonaRevocation * Db) :=
  let verified := zr_revocation receipt in
  let intent := terminal_persona_revocation_intent persona_id (vz_statement verified) in
  committed ← lookup_committed_terminal_persona_revocation_in db intent;
  match committed with
  | Some committed =>
      snapshot ← current_snapshot_for_committed_terminal_persona_revocation (call 3 clock) db intent
                   committed;
      require_expected_recovery_pins snapshot expected_root_statement_sha256
        expected_latest_policy_sha256;;
      Ok (committed, db)
  | None =>
      require_active_persona db persona_id;;
      live_checked_at ← now_unix_seconds (reading (call 4 clock));
      require_clock_not_rollback verification_time live_checked_at;;
      verified_snapshot ← verified_live_continuity_snapshot_with_reservation_in (call 5 clock) db
        persona_id limit (len proof_json) (len (zp_recovery_signatures proof)) 1 0 live_checked_at;
      let snapshot := vl_snapshot verified_snapshot in
      require_expected_recovery_pins snapshot expected_root_statement_sha256
        expected_latest_policy_sha256;;
      require_terminal_intent_at_head intent snapshot expected_previous_head;;
      chain ← recovery_aware (vl_chain verified_snapshot)
        "terminal revocation requires a verified recovery-policy chain";
      require_terminal_intent_uses_latest_policy chain intent;;
      map_err invalid_continuity
        (validate_verified_recovery_aware_continuity_chain_terminal_revocation_extension chain receipt);;
      committed_at ← now_unix_seconds (reading (call 6 clock));
      require_clock_not_rollback live_checked_at committed_at;;
      latest ← latest_policy chain;
      require_recovery_policy_active_at latest committed_at "recording";;
      reject_if (committed_at <? zi_issued_at intent)%Z
        (bad_continuity "terminal revocation issuance time is in the future");;
      require_monotonic_audit_time db persona_id committed_at;;
      db ← write_terminal db intent (vz_revocation_statement_sha256 verified) proof_json committed_at;
      commit_checked_at ← now_unix_seconds (reading (call 7 clock));
      require_clock_not_rollback committed_at commit_checked_at;;
      require_recovery_policy_active_at latest commit_checked_at "commit";;
      Ok ({| cz_intent := intent;
             cz_revocation_statement_sha256 := vz_revocation_statement_sha256 verified;
             cz_proof := proof; cz_committed_at := committed_at; cz_replayed := false |}, db)
  end.

Definition commit_terminal_persona_revocation_inner (clock : Clock) (early db : Db)
    (persona_id : string) (proof : TerminalPersonaRevocationProof)
    (expected_root_statement_sha256 expected_latest_policy_sha256 : string)
    (expected_previous_head : PersonaContinuityCheckpoint) (limit : N) :
    StoreResult (CommittedTerminalPersonaRevocation * Db) :=
  _ ← require_no_evidence_archive (call 0 clock) early persona_id;
  proof_json ← serialize_continuity_proof proof;
  inspected ← map_err invalid_continuity (inspect_terminal_persona_revocation_proof proof);
  let intent := terminal_persona_revocation_intent persona_id inspected in
  require_expected_previous_head_for_terminal_intent intent expected_previous_head;;
  verification_time ← now_unix_seconds (reading clock);
  '(receipt, committed) ← review_terminal clock early persona_id proof inspected
    expected_root_statement_sha256 expected_latest_policy_sha256 expected_previous_head limit
    verification_time;
  match committed with
  | Some committed => Ok (committed, db)
  | None =>
      commit_terminal_in clock db persona_id proof proof_json receipt expected_root_statement_sha256
        expected_latest_policy_sha256 expected_previous_head limit verification_time
  end.

Definition commit_terminal_persona_revocation (clock : Clock) (early db : Db) (persona_id : string)
    (proof : TerminalPersonaRevocationProof) (expected_root_statement_sha256
     expected_latest_policy_sha256 : string) (expected_previous_head : PersonaContinuityCheckpoint) :
    StoreResult (CommittedTerminalPersonaRevocation * Db) :=
  commit_terminal_persona_revocation_inner clock early db persona_id proof
    expected_root_statement_sha256 expected_latest_policy_sha256 expected_previous_head
    MAX_STORED_CONTINUITY_PROOF_BYTES.

End recoveries.
