(* ===== verification/Writes.v ===== *)
(** * What the operations of the store write

    Every operation of the store changes the database by a sequence of the
    statements of [Tables], each within its constraints. What holds of every
    statement holds of every operation. *)

From stdpp Require Import base numbers list strings pretty option gmap relations.
From Stdlib Require Import Strings.Byte Ascii.
From S2P Require Import Prelude Text Ordered Display Crates Io ArtifactProof Continuity RecoveryPolicy RecoveryChain.
From S2P Require Import Names Fields IpcProtocol StoreTypes StoreCommon Backup BackupVerify Tables StoredKeys Journal Store Commits Recoveries.

(** ** Statements *)

(** How the row of a key can change: it gets a later status. *)
Definition status_rank (status : string) : nat :=
  if status == "active" then 0 else if status == "compromised" then 2 else 1.

Record key_ages (old new : KeyRow) : Prop := {
  ka_fingerprint : kw_fingerprint new = kw_fingerprint old;
  ka_persona : kw_persona_id new = kw_persona_id old;
  ka_public_key : kw_public_key new = kw_public_key old;
  ka_provider : kw_provider new = kw_provider old;
  ka_added : kw_added_at new = kw_added_at old;
  ka_rank : status_rank (kw_status old) <= status_rank (kw_status new);
  ka_final : kw_status old = "compromised" → new = old;
  ka_status : new = old ∨ is_one_of (kw_status new) ["retired"; "compromised"] = true;
}.

(** How a head can change: its revision grows. *)
Definition head_moves (old new : HeadRow) : Prop :=
  new = old ∨ hw_persona_id new = hw_persona_id old ∧ (hw_revision old < hw_revision new)%Z.

(** One statement that succeeds; one that writes the root, the head or a
    transition of a persona only if [journal] allows it. *)
Inductive write (journal : bool) (a : Db) : Db → Prop :=
| write_persona row b : insert_persona_row a row = Ok b → write journal a b
| write_key row b : insert_key_row a row = Ok b → write journal a b
| write_keys p f n b :
    update_keys a p f = Ok (b, n) →
    (∀ row, p row = true → key_ages row (f row) ∧ kw_status (f row) ≠ "active") → write journal a b
| write_event row b : insert_event_row a row = Ok b → (∀ n, ew_sequence (row n) = n) → write journal a b
| write_upsert_reference row b : upsert_reference_row a row = Ok b → write journal a b
| write_reference row b : insert_reference_row a row = Ok b → write journal a b
| write_unreference fp n b : delete_reference_row a fp = Ok (b, n) → write journal a b
| write_reference_event row b :
    insert_reference_event_row a row = Ok b → (∀ n, fe_sequence (row n) = n) → write journal a b
| write_root row b : insert_root_row a row = Ok b → journal = true → write journal a b
| write_head row b : insert_head_row a row = Ok b → journal = true → write journal a b
| write_heads p f n b :
    update_heads a p f = Ok (b, n) → (∀ row, p row = true → head_moves row (f row)) →
    journal = true → write journal a b
| write_transition row b : insert_transition_row a row = Ok b → journal = true → write journal a b
| write_policy row b : insert_policy_row a row = Ok b → write journal a b
| write_policy_head row b : insert_policy_head_row a row = Ok b → write journal a b
| write_policy_heads p f n b :
    update_policy_heads a p f = Ok (b, n) →
    (∀ row, p row = true → yh_persona_id (f row) = yh_persona_id row) → write journal a b
| write_revocation row b : insert_terminal_row a row = Ok b → write journal a b
| write_archive row b : insert_archive_row a row = Ok b → write journal a b.

Abbreviation writes journal := (rtc (write journal)).

(** ** Walking through an operation *)

(** [unwind H] splits the success of an operation into the successes of what it
    did. *)
Ltac unwind H :=
  repeat first
    [ match type of H with
      | mbind _ _ = Ok _ => first [apply seq_Ok in H as [? H] | apply bind_Ok in H as (? & ? & H)]
      | match ?x with _ => _ end = Ok _ => destruct x eqn:?; try discriminate H
      end
    | progress cbn beta iota zeta in H ].

Lemma sql_check_Ok conditions : sql_check conditions = Ok tt ↔ Forall (λ c, c.1 = true) conditions.
Proof.
  induction conditions as [|[holds message] rest IH]; cbn; [naive_solver|].
  by rewrite seq_Ok, reject_if_Ok, negb_false_iff, IH, Forall_cons_iff.
Qed.

Lemma one_write j a b : write j a b → writes j a b.
Proof. apply rtc_once. Qed.

(** What a function that only inserts, or a loop of such, writes. *)
Lemma fold_writes {A} j (body : Db → A → StoreResult Db) xs a b :
  (∀ a x b, body a x = Ok b → writes j a b) → fold_result body a xs = Ok b → writes j a b.
Proof.
  intros Hbody. revert a. induction xs as [|x xs IH]; intros a H; cbn in H; [by simplify_eq|].
  unbind H as c Hc. etrans; [by apply Hbody in Hc|auto].
Qed.

(** ** The functions that write *)

Lemma insert_key_writes j a persona_id fp public_key provider now b :
  insert_key a persona_id fp public_key provider now = Ok b → writes j a b.
Proof. unfold insert_key. intros H. unwind H. by eapply one_write, write_key. Qed.

Lemma append_event_writes j a persona_id fp event_type t actor policy note b :
  append_event a persona_id fp event_type t actor policy note = Ok b → writes j a b.
Proof. unfold append_event. intros H. unwind H. by eapply one_write, write_event. Qed.

Lemma transitioned_ages status now row :
  status ≠ Active → kw_status row ≠ "compromised" → key_ages row (transitioned status now row).
Proof.
  intros Hs Hc. constructor; try done.
  - assert (status_rank (kw_status row) <= 1) as Hrank.
    { unfold status_rank. rewrite (bool_decide_false (kw_status row = "compromised")) by done.
      case_bool_decide; lia. }
    etrans; [exact Hrank|]. destruct status; [done|by vm_compute; lia..].
  - right. by destruct status.
Qed.

Lemma transition_key_writes j a fp status now b : transition_key a fp status now = Ok b → writes j a b.
Proof.
  unfold transition_key. intros H. unwind H. oks H. simplify_eq.
  rename H0 into Hs, H1 into Hu. oks Hs.
  eapply one_write, write_keys; [done|]. intros row Hrow. oks Hrow.
  split; [by apply transitioned_ages|by destruct status].
Qed.

Lemma append_reference_event_writes j {crates : Crates} a fp event_type t locator b :
  append_signing_reference_event a fp event_type t locator = Ok b → writes j a b.
Proof.
  unfold append_signing_reference_event. intros Hok. unwind Hok.
  by eapply one_write, write_reference_event.
Qed.

(** [wrote] collects what the steps of an operation wrote. *)
Ltac note_write j H :=
  match type of H with
  | insert_key _ _ _ _ _ _ = _ => apply (insert_key_writes j) in H
  | append_event _ _ _ _ _ _ _ _ = _ => apply (append_event_writes j) in H
  | transition_key _ _ _ _ = _ => apply (transition_key_writes j) in H
  | append_signing_reference_event _ _ _ _ _ = _ => apply (append_reference_event_writes j) in H
  | insert_persona_row _ _ = _ => apply (write_persona j), one_write in H
  | insert_key_row _ _ = _ => apply (write_key j), one_write in H
  | upsert_reference_row _ _ = _ => apply (write_upsert_reference j), one_write in H
  | insert_reference_row _ _ = _ => apply (write_reference j), one_write in H
  | delete_reference_row _ _ = _ => apply (write_unreference j), one_write in H
  | insert_root_row _ _ = _ => apply (write_root true), one_write in H; [|done]
  | insert_head_row _ _ = _ => apply (write_head true), one_write in H; [|done]
  | insert_transition_row _ _ = _ => apply (write_transition true), one_write in H; [|done]
  | insert_policy_row _ _ = _ => apply (write_policy j), one_write in H
  | insert_policy_head_row _ _ = _ => apply (write_policy_head j), one_write in H
  | insert_terminal_row _ _ = _ => apply (write_revocation j), one_write in H
  | insert_archive_row _ _ = _ => apply (write_archive j), one_write in H
  end.

Ltac chain_writes :=
  repeat match goal with
  | H : writes ?j ?a _ |- writes ?j ?a _ => etrans; [exact H|clear H]
  end; reflexivity.

Ltac wrote :=
  repeat match goal with H : _ = Ok _ |- writes ?j _ _ => note_write j H end; simplify_eq; chain_writes.

(** ** Operations *)

Section operations.
Context {crates : Crates} {uuids : Uuids} {materializations : Materializations}
  {json_root_proof : Serde PersonaRootProof} {json_policy_proof : Serde RecoveryPolicyProof}
  {json_transition_proof : Serde PersonaTransitionProof}
  {json_recovery_proof : Serde RecoveryTransitionProof}
  {json_entry : Serde PersonaContinuityTransitionProof}
  {json_terminal_proof : Serde TerminalPersonaRevocationProof}
  {json_archive : Serde BackupContinuityArchive} {json_backup : Serde PersonaBackup}
  {pretty_backup : SerdePretty PersonaBackup}
  {json_root : Serde PersonaRootStatement} {json_transition : Serde PersonaTransitionStatement}
  {json_policy : Serde RecoveryPolicyStatement} {json_recovery : Serde RecoveryTransitionStatement}
  {json_terminal : Serde TerminalPersonaRevocationStatement}.

Lemma create_persona_writes j clock id a label purpose r b :
  create_persona clock id a label purpose = Ok (r, b) → writes j a b.
Proof. unfold create_persona. intros Hok. unwind Hok. simplify_eq. wrote. Qed.

Lemma enroll_key_writes j clock a persona_id public_key provider r b :
  enroll_key clock a persona_id public_key provider = Ok (r, b) → writes j a b.
Proof. unfold enroll_key. intros Hok. unwind Hok. simplify_eq. wrote. Qed.

Lemma rotate_out_writes j persona_id reason note now a fp b :
  rotate_out persona_id reason note now a fp = Ok b → writes j a b.
Proof. unfold rotate_out. intros Hok. unwind Hok. wrote. Qed.

Lemma rotate_key_writes j clock a persona_id public_key provider reason note r b :
  rotate_key clock a persona_id public_key provider reason note = Ok (r, b) → writes j a b.
Proof.
  unfold rotate_key. intros Hok. unwind Hok. simplify_eq.
  match goal with H : fold_result (rotate_out _ _ _ _) _ _ = Ok _ |- _ =>
    apply (fold_writes j) in H; [|by intros; eapply rotate_out_writes] end.
  wrote.
Qed.

Lemma mark_key_compromised_writes j clock a fp actor policy note b :
  mark_key_compromised clock a fp actor policy note = Ok b → writes j a b.
Proof. unfold mark_key_compromised. intros Hok. unwind Hok; wrote. Qed.

Lemma bind_signing_reference_writes j clock fs euid a fp locator r b :
  bind_signing_reference clock fs euid a fp locator = Ok (r, b) → writes j a b.
Proof. unfold bind_signing_reference. intros Hok. unwind Hok. simplify_eq. wrote. Qed.

Lemma unbind_signing_reference_writes j clock a fp b :
  unbind_signing_reference clock a fp = Ok b → writes j a b.
Proof. unfold unbind_signing_reference. intros Hok. unwind Hok. wrote. Qed.

Lemma import_key_writes j persona_id a key b : import_key persona_id a key = Ok b → writes j a b.
Proof. unfold import_key. intros Hok. wrote. Qed.

Lemma import_event_writes j persona_id a event b : import_event persona_id a event = Ok b → writes j a b.
Proof. unfold import_event. intros Hok. wrote. Qed.

Lemma import_writes j clock a verified r report b :
  import_verified_persona_backup clock a verified = Ok (r, report, b) → writes j a b.
Proof.
  unfold import_verified_persona_backup. intros Hok. unwind Hok. simplify_eq.
  repeat match goal with
  | H : fold_result (import_key _) _ _ = Ok _ |- _ =>
      apply (fold_writes j) in H; [|by intros; eapply import_key_writes]
  | H : fold_result (import_event _) _ _ = Ok _ |- _ =>
      apply (fold_writes j) in H; [|by intros; eapply import_event_writes]
  | H : match ?x with _ => _ end = Ok _ |- _ => destruct x
  end; wrote.
Qed.

Lemma record_continuity_root_writes clock early a persona_id proof expected r b :
  record_continuity_root clock early a persona_id proof expected = Ok (r, b) → writes true a b.
Proof. unfold record_continuity_root. intros Hok. unwind Hok; simplify_eq; wrote. Qed.

Lemma insert_policies_writes j persona_id t entries a recorded b recorded' :
  fold_result (insert_policy persona_id t) (a, recorded) entries = Ok (b, recorded') → writes j a b.
Proof.
  revert a recorded. induction entries as [|[[proof proof_json] policy] entries IH]; intros a recorded H;
    cbn [fold_result] in H; [by simplify_eq|].
  unbind H as [c recorded1] Hc. apply IH in H. unfold insert_policy in Hc. unwind Hc. simplify_eq. wrote.
Qed.

Lemma advance_policy_head_writes j a persona_id previous latest b :
  advance_policy_head a persona_id previous latest = Ok b → writes j a b.
Proof.
  unfold advance_policy_head. intros Hok. unwind Hok; simplify_eq; [|wrote].
  eapply one_write, write_policy_heads; [done|]. intros row Hrow. oks Hrow. done.
Qed.

Lemma record_recovery_policies_writes j clock a persona_id proofs root latest head limit r b :
  record_recovery_policy_chain_with_clock clock a persona_id proofs root latest head limit = Ok (r, b) →
  writes j a b.
Proof.
  unfold record_recovery_policy_chain_with_clock. intros Hok. unwind Hok; simplify_eq; [done|].
  unfold append_policies in Hok. unwind Hok. simplify_eq.
  repeat match goal with
  | H : fold_result (insert_policy _ _) _ _ = Ok _ |- _ => apply (insert_policies_writes j) in H
  | H : advance_policy_head _ _ _ _ = Ok _ |- _ => apply (advance_policy_head_writes j) in H
  end. chain_writes.
Qed.

Lemma advance_head_writes a head persona_id sequence previous next previous_sha sha t also b n :
  advance_head a head persona_id sequence previous next previous_sha sha t also = Ok (b, n) → writes true a b.
Proof.
  unfold advance_head. intros Hok. eapply one_write, write_heads; [done| |done].
  intros row _. right. cbn. split; [done|lia].
Qed.

Lemma activate_key_writes j a persona_id fp public_key provider locator now actor policy b :
  activate_key a persona_id fp public_key provider locator now actor policy = Ok b → writes j a b.
Proof. unfold activate_key. intros Hok. unwind Hok. wrote. Qed.

Lemma retire_previous_writes j a persona_id previous now b :
  retire_previous a persona_id previous now = Ok b → writes j a b.
Proof.
  unfold retire_previous. intros Hok. unwind Hok.
  match goal with H : update_keys _ _ _ = Ok (?c, _) |- _ =>
    assert (writes j a c) by (eapply one_write, write_keys; [exact H|]; intros row Hrow; oks Hrow;
      split; [apply transitioned_ages; [done|congruence]|done]) end.
  wrote.
Qed.

Lemma commit_routine_in_writes clock fs euid a persona_id proof proof_json receipt provider locator limit
    now r b :
  commit_routine_in clock fs euid a persona_id proof proof_json receipt provider locator limit now =
    Ok (r, b) → writes true a b.
Proof.
  unfold commit_routine_in, insert_routine_row. intros Hok. unwind Hok; simplify_eq; [done|].
  repeat match goal with
  | H : retire_previous _ _ _ _ = Ok _ |- _ => apply (retire_previous_writes true) in H
  | H : activate_key _ _ _ _ _ _ _ _ _ = Ok _ |- _ => apply (activate_key_writes true) in H
  | H : advance_head _ _ _ _ _ _ _ _ _ _ = Ok _ |- _ => apply advance_head_writes in H
  end. wrote.
Qed.

Lemma commit_routine_writes clock early_fs fs euid early a persona_id proof provider locator limit r b :
  commit_routine_transition_inner clock early_fs fs euid early a persona_id proof provider locator limit =
    Ok (r, b) → writes true a b.
Proof.
  unfold commit_routine_transition_inner. intros Hok. unwind Hok; simplify_eq; [done|].
  by eapply commit_routine_in_writes.
Qed.

Lemma write_recovery_writes a intent verified proof_json provider locator snapshot t b :
  write_recovery a intent verified proof_json provider locator snapshot t = Ok b → writes true a b.
Proof.
  unfold write_recovery, insert_recovery_row. intros Hok. unwind Hok; simplify_eq.
  repeat match goal with
  | H : activate_key _ _ _ _ _ _ _ _ _ = Ok _ |- _ => apply (activate_key_writes true) in H
  | H : advance_head _ _ _ _ _ _ _ _ _ _ = Ok _ |- _ => apply advance_head_writes in H
  end. wrote.
Qed.

Lemma commit_recovery_in_writes clock sightings a persona_id proof proof_json receipt root latest head
    provider locator binding limit t r b :
  commit_recovery_in clock sightings a persona_id proof proof_json receipt root latest head provider
    locator binding limit t = Ok (r, b) → writes true a b.
Proof.
  unfold commit_recovery_in. intros Hok. unwind Hok; simplify_eq; [done|].
  match goal with H : write_recovery _ _ _ _ _ _ _ _ = Ok _ |- _ => by apply write_recovery_writes in H end.
Qed.

Lemma commit_recovery_writes {keygen : SshKeygen} clock sightings early a persona_id proof root latest
    head provider locator limit r b :
  commit_recovery_transition_with_clock clock sightings early a persona_id proof root latest head
    provider locator limit = Ok (r, b) → writes true a b.
Proof.
  unfold commit_recovery_transition_with_clock. intros Hok. unwind Hok; simplify_eq; [done|].
  by eapply commit_recovery_in_writes.
Qed.

Lemma write_terminal_writes j a intent sha proof_json t b :
  write_terminal a intent sha proof_json t = Ok b → writes j a b.
Proof.
  unfold write_terminal. intros Hok. unwind Hok.
  match goal with H : (if ?c then _ else _) = Ok _ |- _ => destruct c; simplify_eq end; wrote.
Qed.

Lemma commit_terminal_in_writes j clock a persona_id proof proof_json receipt root latest head limit t r b :
  commit_terminal_in clock a persona_id proof proof_json receipt root latest head limit t = Ok (r, b) →
  writes j a b.
Proof.
  unfold commit_terminal_in. intros Hok. unwind Hok; simplify_eq; [done|].
  match goal with H : write_terminal _ _ _ _ _ = Ok _ |- _ =>
    by apply (write_terminal_writes j) in H end.
Qed.

Lemma commit_terminal_writes j clock early a persona_id proof root latest head limit r b :
  commit_terminal_persona_revocation_inner clock early a persona_id proof root latest head limit =
    Ok (r, b) → writes j a b.
Proof.
  unfold commit_terminal_persona_revocation_inner. intros Hok. unwind Hok; simplify_eq; [done|].
  by eapply commit_terminal_in_writes.
Qed.

(** ** Steps *)

(** One operation of the store that succeeds; one that fails changes nothing. The
    three operations that activate an imported continuity archive are not modelled
    and not among these. *)
Inductive step (a b : Db) : Prop :=
| step_create clock id label purpose r :
    create_persona clock id a label purpose = Ok (r, b) → step a b
| step_enroll clock persona_id public_key provider r :
    enroll_key clock a persona_id public_key provider = Ok (r, b) → step a b
| step_rotate clock persona_id public_key provider reason note r :
    rotate_key clock a persona_id public_key provider reason note = Ok (r, b) → step a b
| step_compromise clock fp actor policy note :
    mark_key_compromised clock a fp actor policy note = Ok b → step a b
| step_bind clock fs euid fp locator r :
    bind_signing_reference clock fs euid a fp locator = Ok (r, b) → step a b
| step_unbind clock fp : unbind_signing_reference clock a fp = Ok b → step a b
| step_import clock checked_at backup verified r report :
    verify_persona_backup_for_import checked_at backup = Ok verified →
    import_verified_persona_backup clock a verified = Ok (r, report, b) → step a b
| step_root clock early persona_id proof expected r :
    record_continuity_root clock early a persona_id proof expected = Ok (r, b) → step a b
| step_policies clock persona_id proofs root latest head limit r :
    record_recovery_policy_chain_with_clock clock a persona_id proofs root latest head limit =
      Ok (r, b) → step a b
| step_routine clock early_fs fs euid early persona_id proof provider locator limit r :
    commit_routine_transition_inner clock early_fs fs euid early a persona_id proof provider locator
      limit = Ok (r, b) → step a b
| step_recovery (keygen : SshKeygen) clock sightings early persona_id proof root latest head provider
    locator limit r :
    commit_recovery_transition_with_clock clock sightings early a persona_id proof root latest head
      provider locator limit = Ok (r, b) → step a b
| step_terminal clock early persona_id proof root latest head limit r :
    commit_terminal_persona_revocation_inner clock early a persona_id proof root latest head limit =
      Ok (r, b) → step a b.

Lemma step_writes a b : step a b → writes true a b.
Proof.
  destruct 1;
    eauto using create_persona_writes, enroll_key_writes, rotate_key_writes, mark_key_compromised_writes,
      bind_signing_reference_writes, unbind_signing_reference_writes, import_writes,
      record_continuity_root_writes, record_recovery_policies_writes, commit_routine_writes,
      commit_recovery_writes, commit_terminal_writes.
Qed.

Lemma steps_writes a b : rtc step a b → writes true a b.
Proof. induction 1; [done|]. etrans; [by apply step_writes|done]. Qed.

End operations.
