(* ===== verification/StoreFacts.v ===== *)
(** * Invariants of the persona store

    Whatever operations the store runs, in whatever order: its audit trail only
    grows, a key never becomes younger and a compromised one never changes, the
    rows stay well formed, and a terminally revoked persona is frozen; then the
    same for every sequence of operations, and what it says of the keys that may
    sign. *)

From stdpp Require Import base numbers list strings pretty option gmap relations.
From Stdlib Require Import Strings.Byte Ascii.
From S2P Require Import Prelude Text Ordered Display Crates Io ArtifactProof Continuity RecoveryPolicy RecoveryChain.
From S2P Require Import Names Fields IpcProtocol StoreTypes StoreCommon Backup BackupVerify Tables StoredKeys Journal.
From S2P Require Import Store Commits Recoveries Writes.

(** ** Existence *)

Lemma exists_in_true {A} (p : A → bool) rows : exists_in p rows = true ↔ ∃ row, row ∈ rows ∧ p row = true.
Proof.
  unfold exists_in. rewrite existsb_exists. by setoid_rewrite <- list_elem_of_In.
Qed.

Lemma exists_in_false {A} (p : A → bool) rows : exists_in p rows = false ↔ ∀ row, row ∈ rows → p row = false.
Proof.
  rewrite <- not_true_iff_false, exists_in_true. split.
  - intros Hno row Hin. apply not_true_iff_false. eauto.
  - intros Hall (row & Hin & Hp). by rewrite Hall in Hp.
Qed.

(** ** Statements, one by one *)

Lemma update_rows_Ok {A} checks (p : A → bool) f rows rows' n :
  update_rows checks p f rows = Ok (rows', n) →
  rows' = (λ row, if p row then f row else row) <$> rows ∧
  n = len (filter (λ row, p row = true) rows) ∧
  ∀ row, row ∈ rows → p row = true → Forall (λ c, c.1 = true) (checks row (f row)).
Proof.
  revert rows' n. induction rows as [|row rows IH]; intros rows' n H; cbn in H.
  { simplify_eq. split_and!; [done..|]. intros row Hin. by apply elem_of_nil in Hin. }
  rewrite filter_cons. cbn [fmap list_fmap]. destruct (p row) eqn:Hp.
  - apply seq_Ok in H as [Hc H]. unbind H as [rows1 n1] H1. apply IH in H1 as (-> & -> & Hrest). simplify_eq.
    rewrite decide_True by done. split_and!; [done|rewrite len_cons; lia|].
    intros x [->|Hin]%elem_of_cons; [intros _; by apply sql_check_Ok|auto].
  - unbind H as [rows1 n1] H1. apply IH in H1 as (-> & -> & Hrest). simplify_eq.
    rewrite decide_False by congruence. split_and!; [done..|].
    intros x [->|Hin]%elem_of_cons; [congruence|auto].
Qed.

(** ** The trail only grows *)

#[export] Instance key_ages_preorder : PreOrder key_ages.
Proof.
  split; [constructor; auto|]. intros x y z Hxy Hyz.
  constructor; try solve [etrans; [apply Hyz|apply Hxy]|etrans; [apply Hxy|apply Hyz]].
  - intros Hx. pose proof (ka_final _ _ Hxy Hx) as ->. by apply (ka_final _ _ Hyz).
  - destruct (ka_status _ _ Hyz) as [->|?]; [by apply ka_status|by right].
Qed.

#[export] Instance head_moves_preorder : PreOrder head_moves.
Proof.
  split; [by left|]. intros x y z [->|[? ?]] [->|[? ?]]; unfold head_moves; auto.
  right. split; [congruence|lia].
Qed.

Definition same_policy_persona (old new : PolicyHeadRow) : Prop := yh_persona_id new = yh_persona_id old.

#[export] Instance same_policy_persona_preorder : PreOrder same_policy_persona.
Proof. split; [done|]. unfold same_policy_persona. intros x y z. congruence. Qed.

(** The rows of a table, each possibly changed by [R], and new ones. *)
Definition extends {A} (R : relation A) (old new : list A) : Prop :=
  ∃ kept fresh, new = kept ++ fresh ∧ Forall2 R old kept.

#[export] Instance extends_preorder {A} (R : relation A) `{!PreOrder R} : PreOrder (extends R).
Proof.
  split.
  - intros l. exists l, []. rewrite app_nil_r. split; [done|]. by apply Forall_Forall2_diag, Forall_true.
  - intros x y z (k1 & f1 & -> & H1) (k2 & f2 & -> & H2).
    apply Forall2_app_inv_l in H2 as (k2a & k2b & H2a & H2b & ->).
    exists k2a, (k2b ++ f2). split; [by rewrite app_assoc|]. by etrans.
Qed.

Record grows (a b : Db) : Prop := {
  gr_personas : db_personas a `prefix_of` db_personas b;
  gr_keys : extends key_ages (db_keys a) (db_keys b);
  gr_events : db_events a `prefix_of` db_events b;
  gr_reference_events : db_reference_events a `prefix_of` db_reference_events b;
  gr_roots : db_roots a `prefix_of` db_roots b;
  gr_heads : extends head_moves (db_heads a) (db_heads b);
  gr_transitions : db_transitions a `prefix_of` db_transitions b;
  gr_policies : db_policies a `prefix_of` db_policies b;
  gr_policy_heads : extends same_policy_persona (db_policy_heads a) (db_policy_heads b);
  gr_terminals : db_terminals a `prefix_of` db_terminals b;
  gr_archives : db_archives a `prefix_of` db_archives b;
  gr_materializations : db_materializations a = db_materializations b;
}.

#[export] Instance grows_preorder : PreOrder grows.
Proof. split; [constructor; reflexivity|]. intros x y z [] []. constructor; by etrans. Qed.

Lemma extends_app {A} (R : relation A) `{!PreOrder R} l k : extends R l (l ++ k).
Proof.
  exists l, k. split; [done|]. by apply Forall_Forall2_diag, Forall_true.
Qed.

Lemma extends_fmap {A} (R : relation A) `{!PreOrder R} (p : A → bool) f l :
  (∀ x, p x = true → R x (f x)) → extends R l ((λ x, if p x then f x else x) <$> l).
Proof.
  intros Hf. eexists _, []. rewrite app_nil_r. split; [done|].
  apply Forall2_fmap_r, Forall_Forall2_diag, Forall_true. intros x.
  unfold compose. destruct (p x) eqn:Hp; [auto|reflexivity].
Qed.

(** [statement H] opens the success of a statement: its conditions and the
    tables after it. *)
Ltac statement H :=
  unfold insert_persona_row, insert_key_row, insert_event_row, upsert_reference_row,
    insert_reference_row, delete_reference_row, insert_reference_event_row, insert_root_row,
    insert_head_row, insert_transition_row, insert_policy_row, insert_policy_head_row,
    insert_terminal_row, insert_archive_row, update_keys, update_heads, update_policy_heads in H;
  cbn zeta in H;
  match type of H with
  | mbind _ (update_rows _ _ _ _) = Ok _ =>
      let rows := fresh "rows" in let n := fresh "n" in let Hu := fresh "Hupdate" in
      apply bind_Ok in H as ([rows n] & Hu & H); apply update_rows_Ok in Hu as (-> & -> & Hu)
  | mbind _ (sql_check _) = Ok _ =>
      let Hc := fresh "Hchecks" in apply seq_Ok in H as [Hc H]; apply sql_check_Ok in Hc
  end; simplify_eq.

Lemma write_grows j a b : write j a b → grows a b.
Proof.
  destruct 1 as [? ? H|? ? H|? ? ? ? H Hf|? ? H ?|? ? H|? ? H|? ? ? H|? ? H ?|? ? H ?|? ? H ?|? ? ? ? H Hf ?
    |? ? H ?|? ? H|? ? H|? ? ? ? H ?|? ? H|? ? H]; statement H; constructor; cbn;
    try reflexivity; try (by apply prefix_app_r); try (by apply extends_app; apply _).
  - apply extends_fmap; [apply _|]. intros row Hrow. by apply Hf.
  - by apply extends_fmap; [apply _|].
  - by apply extends_fmap; [apply _|].
Qed.

Lemma writes_grows j a b : writes j a b → grows a b.
Proof. induction 1; [done|]. etrans; [by eapply write_grows|done]. Qed.

(** ** Well-formed tables *)

(** The rows have distinct values in the columns [key]. *)
Definition unique {A K} (key : A → K) (rows : list A) : Prop := NoDup (key <$> rows).

Lemma unique_snoc {A K} (key : A → K) rows row :
  unique key rows → (∀ old, old ∈ rows → key old ≠ key row) → unique key (rows ++ [row]).
Proof.
  unfold unique. intros Hnd Hnew. rewrite fmap_app, NoDup_app. split_and!; [done| |apply NoDup_singleton].
  intros x (old & -> & Hin)%list_elem_of_fmap Hx%list_elem_of_singleton. by apply (Hnew old).
Qed.

Lemma unique_update {A K} (key : A → K) (p : A → bool) f rows :
  (∀ row, p row = true → key (f row) = key row) → unique key rows →
  unique key ((λ row, if p row then f row else row) <$> rows).
Proof.
  unfold unique. intros Hf Hnd.
  assert (key <$> ((λ row, if p row then f row else row) <$> rows) = key <$> rows) as ->; [|done].
  clear Hnd. induction rows as [|row rows IH]; cbn; [done|]. f_equal; [|done].
  destruct (p row) eqn:Hp; auto.
Qed.

Lemma unique_eq {A K} (key : A → K) rows x y :
  unique key rows → x ∈ rows → y ∈ rows → key x = key y → x = y.
Proof.
  unfold unique. intros Hnd (i & Hi)%list_elem_of_lookup (j & Hj)%list_elem_of_lookup Heq.
  assert (i = j) as ->; [|congruence].
  eapply NoDup_lookup; [done| |]; rewrite list_lookup_fmap; [rewrite Hi|rewrite Hj]; cbn; [done|].
  by rewrite Heq.
Qed.

Definition known_key (row : KeyRow) : Prop :=
  is_one_of (kw_provider row) ["openssh-file"; "ssh-agent"; "fido2"] = true ∧
  is_one_of (kw_status row) ["active"; "retired"; "compromised"] = true.

(** Events are of one key and class at most once. *)
Definition same_event (old new : EventRow) : bool :=
  (ew_key_fingerprint old == ew_key_fingerprint new) &&
  same_event_class (ew_event_type old) (ew_event_type new).

Definition events_once (events : list EventRow) : Prop :=
  ∀ i j e e', events !! i = Some e → events !! j = Some e' → i < j → same_event e e' = false.

Definition events_ordered (events : list EventRow) (counter : Z) : Prop :=
  (∀ i j e e', events !! i = Some e → events !! j = Some e' → i < j → (ew_sequence e < ew_sequence e')%Z) ∧
  ∀ e, e ∈ events → (ew_sequence e <= counter)%Z.

Definition has_head (db : Db) (persona_id : string) : bool :=
  exists_in (λ head, hw_persona_id head == persona_id) (db_heads db).
Definition has_policy_head (db : Db) (persona_id : string) : bool :=
  exists_in (λ head, yh_persona_id head == persona_id) (db_policy_heads db).

Record well_formed (db : Db) : Prop := {
  wf_personas : unique pr_id (db_personas db);
  wf_keys : unique kw_fingerprint (db_keys db);
  wf_owners row : row ∈ db_keys db → has_persona db (kw_persona_id row) = true;
  wf_known row : row ∈ db_keys db → known_key row;
  wf_event_keys e : e ∈ db_events db → has_key_of db (ew_key_fingerprint e) (ew_persona_id e) = true;
  wf_events_once : events_once (db_events db);
  wf_events_ordered : events_ordered (db_events db) (db_event_sequence db);
  wf_references : unique fw_key_fingerprint (db_references db);
  wf_roots : unique ow_persona_id (db_roots db);
  wf_rooted row : row ∈ db_roots db → has_persona db (ow_persona_id row) = true;
  wf_heads : unique hw_persona_id (db_heads db);
  wf_headed head : head ∈ db_heads db → has_root db (hw_persona_id head) = true;
  wf_transitions : unique (λ row, (tw_persona_id row, tw_sequence row)) (db_transitions db);
  wf_policies : unique (λ row, (yw_persona_id row, yw_policy_version row)) (db_policies db);
  wf_policy_heads : unique yh_persona_id (db_policy_heads db);
  wf_terminals : unique zw_persona_id (db_terminals db);
  wf_ended row : row ∈ db_terminals db → no_active_key db (zw_persona_id row) = true;
  wf_ended_head row : row ∈ db_terminals db → has_head db (zw_persona_id row) = true;
  wf_ended_policy row : row ∈ db_terminals db → has_policy_head db (zw_persona_id row) = true;
}.

Lemma empty_well_formed : well_formed empty_db.
Proof.
  constructor; cbn; try apply NoDup_nil_2; try (by intros row Hin%elem_of_nil); try done.
  all: unfold events_ordered; split; [done|]; by intros row Hin%elem_of_nil.
Qed.

(** What the growth of the tables carries over. *)
Lemma prefix_in {A} (l k : list A) x : l `prefix_of` k → x ∈ l → x ∈ k.
Proof. intros [m ->] Hin. rewrite elem_of_app. by left. Qed.

Lemma has_persona_grows a b id : grows a b → has_persona a id = true → has_persona b id = true.
Proof.
  unfold has_persona. rewrite !exists_in_true. intros Hg (row & Hin & Hp). exists row. split; [|done].
  eapply prefix_in; [apply Hg|done].
Qed.

Lemma has_root_grows a b id : grows a b → has_root a id = true → has_root b id = true.
Proof.
  unfold has_root. rewrite !exists_in_true. intros Hg (row & Hin & Hp). exists row. split; [|done].
  eapply prefix_in; [apply Hg|done].
Qed.

Lemma has_terminal_grows a b id : grows a b → has_terminal a id = true → has_terminal b id = true.
Proof.
  unfold has_terminal. rewrite !exists_in_true. intros Hg (row & Hin & Hp). exists row. split; [|done].
  eapply prefix_in; [apply Hg|done].
Qed.

Lemma extends_in {A} (R : relation A) old new x : extends R old new → x ∈ old → ∃ y, y ∈ new ∧ R x y.
Proof.
  intros (kept & fresh & -> & HR) (i & Hi)%list_elem_of_lookup.
  destruct (Forall2_lookup_l _ _ _ _ _ HR Hi) as (y & Hy & Hxy). exists y. split; [|done].
  rewrite elem_of_app. left. by eapply list_elem_of_lookup_2.
Qed.

Lemma has_key_of_grows a b fp id : grows a b → has_key_of a fp id = true → has_key_of b fp id = true.
Proof.
  unfold has_key_of. rewrite !exists_in_true. intros Hg (row & Hin & Hp).
  destruct (extends_in _ _ _ _ (gr_keys _ _ Hg) Hin) as (row' & Hin' & Hages). exists row'. split; [done|].
  by rewrite (ka_fingerprint _ _ Hages), (ka_persona _ _ Hages).
Qed.

Lemma has_head_grows a b id : grows a b → has_head a id = true → has_head b id = true.
Proof.
  unfold has_head. rewrite !exists_in_true. intros Hg (row & Hin & Hp).
  destruct (extends_in _ _ _ _ (gr_heads _ _ Hg) Hin) as (row' & Hin' & Hm). exists row'. split; [done|].
  by destruct Hm as [->|[-> _]].
Qed.

Lemma has_policy_head_grows a b id : grows a b → has_policy_head a id = true → has_policy_head b id = true.
Proof.
  unfold has_policy_head. rewrite !exists_in_true. intros Hg (row & Hin & Hp).
  destruct (extends_in _ _ _ _ (gr_policy_heads _ _ Hg) Hin) as (row' & Hin' & Hm).
  exists row'. split; [done|]. by rewrite Hm.
Qed.

(** ** Every statement keeps the tables well formed *)

Ltac conditions H :=
  repeat first [rewrite Forall_app in H | rewrite Forall_cons_iff in H]; cbn [fst] in H; destruct_and? H.

(** One goal for each statement that changes what the goal is about. *)
Ltac by_statement Hw :=
  destruct Hw as [row b H|row b H|p f n b H Hf|row b H Hrow|row b H|row b H|fp n b H|row b H Hrow|row b H Hj
    |row b H Hj|p f n b H Hf Hj|row b H Hj|row b H|row b H|p f n b H Hf|row b H|row b H];
  statement H; cbn; try done.

Lemma not_exists {A} (p : A → bool) rows : negb (exists_in p rows) = true → ∀ row, row ∈ rows → p row = false.
Proof. by rewrite negb_true_iff, exists_in_false. Qed.

Lemma write_personas j a b : write j a b → unique pr_id (db_personas a) → unique pr_id (db_personas b).
Proof.
  intros Hw Hu. by_statement Hw. conditions Hchecks. apply unique_snoc; [done|]. intros old Hin.
  eapply not_exists in Hin; [|eassumption]. by apply bool_decide_eq_false in Hin.
Qed.

(** The new row differs from the old ones, as one of the conditions says. *)
Ltac fresh_row :=
  cbn [fst] in *;
  match goal with Hin : _ ∈ _, H : negb (exists_in _ _) = true |- _ =>
    pose proof (not_exists _ _ H _ Hin) as Hfresh; clear H; cbn in Hfresh end.

Lemma write_key_fingerprints j a b :
  write j a b → unique kw_fingerprint (db_keys a) → unique kw_fingerprint (db_keys b).
Proof.
  intros Hw Hu. by_statement Hw.
  - conditions Hchecks. apply unique_snoc; [done|]. intros old Hin. unfold has_key in *. fresh_row.
    by apply bool_decide_eq_false in Hfresh.
  - apply unique_update; [|done]. intros row Hp. apply (Hf row Hp).
Qed.

(** A row of the keys after a statement is an old one, aged, or a new one. *)
Lemma write_key_rows j a b row' :
  write j a b → row' ∈ db_keys b →
  (∃ row, row ∈ db_keys a ∧ key_ages row row' ∧ (row' = row ∨
     kw_status row' ≠ "active" ∧ has_terminal a (kw_persona_id row) = false)) ∨
  has_persona a (kw_persona_id row') = true ∧ has_terminal a (kw_persona_id row') = false ∧
  Forall (λ c, c.1 = true) (key_checks row').
Proof.
  intros Hw Hin'. destruct (decide (row' ∈ db_keys a)) as [Hin|Hnew]; [left; exists row'; split_and!; [done..|by left]|].
  by_statement Hw.
  - cbn in Hin'. rewrite elem_of_app, list_elem_of_singleton in Hin'. destruct Hin' as [?| ->]; [done|].
    right. rewrite Forall_cons_iff, Forall_app, !Forall_cons_iff in Hchecks. cbn [fst] in Hchecks.
    rewrite negb_true_iff in Hchecks. destruct Hchecks as (? & ? & _ & ? & _). done.
  - left. cbn in Hin'. apply list_elem_of_fmap in Hin' as (row & -> & Hin). exists row.
    destruct (p row) eqn:Hp; [|done]. destruct (Hf row Hp) as [Hage Hst]. split_and!; [done..|].
    right. split; [done|]. specialize (Hupdate row Hin Hp). rewrite Forall_cons_iff in Hupdate.
    by apply negb_true_iff, Hupdate.
Qed.

Lemma write_owners j a b :
  write j a b → (∀ row, row ∈ db_keys a → has_persona a (kw_persona_id row) = true) →
  ∀ row, row ∈ db_keys b → has_persona b (kw_persona_id row) = true.
Proof.
  intros Hw Hall row' Hin'. pose proof (write_grows _ _ _ Hw) as Hg.
  eapply has_persona_grows; [done|].
  destruct (write_key_rows _ _ _ _ Hw Hin') as [(row & Hin & Hage & _)|(? & _)]; [|done].
  rewrite (ka_persona _ _ Hage). auto.
Qed.

Lemma write_known j a b :
  write j a b → (∀ row, row ∈ db_keys a → known_key row) → ∀ row, row ∈ db_keys b → known_key row.
Proof.
  intros Hw Hall row' Hin'. destruct (write_key_rows _ _ _ _ Hw Hin') as [(row & Hin & Hage & _)|(_ & _ & Hc)].
  - destruct (Hall row Hin) as [Hp Hs]. split; [by rewrite (ka_provider _ _ Hage)|].
    destruct (ka_status _ _ Hage) as [->|Hst]; [done|]. unfold is_one_of in *.
    rewrite bool_decide_eq_true in *. set_solver.
  - unfold key_checks in Hc. conditions Hc. split; [|done].
    match goal with H : _ && _ = true |- _ => by apply andb_true_iff in H as [? _] end.
Qed.

Lemma write_event_keys j a b :
  write j a b →
  (∀ e, e ∈ db_events a → has_key_of a (ew_key_fingerprint e) (ew_persona_id e) = true) →
  ∀ e, e ∈ db_events b → has_key_of b (ew_key_fingerprint e) (ew_persona_id e) = true.
Proof.
  intros Hw Hall e Hin. eapply has_key_of_grows; [by eapply write_grows|].
  destruct (decide (e ∈ db_events a)) as [|Hnew]; [auto|].
  by_statement Hw. cbn in Hin. rewrite elem_of_app, list_elem_of_singleton in Hin.
  destruct Hin as [?| ->]; [done|]. by conditions Hchecks.
Qed.

(** The events after a statement: one more at the end, or the same. *)
Lemma write_events_cases j a b :
  write j a b →
  db_events b = db_events a ∧ db_event_sequence b = db_event_sequence a ∨
  ∃ e, db_events b = db_events a ++ [e] ∧ db_event_sequence b = (db_event_sequence a + 1)%Z ∧
    ew_sequence e = (db_event_sequence a + 1)%Z ∧ has_terminal a (ew_persona_id e) = false ∧
    ∀ old, old ∈ db_events a → same_event old e = false.
Proof.
  intros Hw. by_statement Hw; try by left. right. eexists. split_and!; [done..| |].
  - conditions Hchecks. by apply negb_true_iff.
  - conditions Hchecks. by apply not_exists.
Qed.

Lemma write_events_once j a b : write j a b → events_once (db_events a) → events_once (db_events b).
Proof.
  intros Hw Ho. destruct (write_events_cases _ _ _ Hw) as [[-> _]|(e & -> & _ & _ & _ & Hnew)]; [done|].
  intros i k x y [[Hi Hx]|[-> <-]]%lookup_snoc_Some [[Hk Hy]|[-> <-]]%lookup_snoc_Some Hlt; try lia.
  - by eapply Ho.
  - apply Hnew. by eapply list_elem_of_lookup_2.
Qed.

Lemma write_events_ordered j a b :
  write j a b → events_ordered (db_events a) (db_event_sequence a) →
  events_ordered (db_events b) (db_event_sequence b).
Proof.
  intros Hw [Ho Hmax]. destruct (write_events_cases _ _ _ Hw) as [[-> ->]|(e & -> & -> & He & _)]; [done|]. split.
  - intros i k x y [[Hi Hx]|[-> <-]]%lookup_snoc_Some [[Hk Hy]|[-> <-]]%lookup_snoc_Some Hlt; try lia.
    + by eapply Ho.
    + apply list_elem_of_lookup_2, Hmax in Hx. lia.
  - intros x. rewrite elem_of_app, list_elem_of_singleton. intros [Hx| ->]; [apply Hmax in Hx|]; lia.
Qed.

Lemma write_references j a b :
  write j a b → unique fw_key_fingerprint (db_references a) → unique fw_key_fingerprint (db_references b).
Proof.
  intros Hw Hu. by_statement Hw.
  - destruct (has_reference a (fw_key_fingerprint row)) eqn:Hr.
    + apply (unique_update _ (λ old, fw_key_fingerprint old == fw_key_fingerprint row) (λ _, row)); [|done].
      intros old Hold. by apply bool_decide_eq_true in Hold.
    + apply unique_snoc; [done|]. intros old Hin Heq. unfold has_reference in Hr.
      rewrite exists_in_false in Hr. specialize (Hr old Hin). by apply bool_decide_eq_false in Hr.
  - conditions Hchecks. apply unique_snoc; [done|]. intros old Hin. unfold has_reference in *.
    match goal with H : negb (exists_in (λ r, fw_key_fingerprint r == _) _) = true |- _ =>
      apply not_exists with (row := old) in H; [|done]; by apply bool_decide_eq_false in H end.
  - unfold unique in *. eapply sublist_NoDup; [done|]. apply fmap_sublist, sublist_filter.
Qed.

Lemma write_roots j a b : write j a b → unique ow_persona_id (db_roots a) → unique ow_persona_id (db_roots b).
Proof.
  intros Hw Hu. by_statement Hw. apply Forall_cons_iff in Hchecks as [Hnew _].
  apply unique_snoc; [done|]. intros old Hin. fresh_row.
  rewrite !orb_false_iff in Hfresh. destruct Hfresh as [[Hfresh _] _]. by apply bool_decide_eq_false in Hfresh.
Qed.

Lemma write_rooted j a b :
  write j a b → (∀ row, row ∈ db_roots a → has_persona a (ow_persona_id row) = true) →
  ∀ row, row ∈ db_roots b → has_persona b (ow_persona_id row) = true.
Proof.
  intros Hw Hall new Hin. eapply has_persona_grows; [by eapply write_grows|].
  destruct (decide (new ∈ db_roots a)) as [|Hnew]; [auto|]. by_statement Hw.
  cbn in Hin. rewrite elem_of_app, list_elem_of_singleton in Hin. destruct Hin as [?| ->]; [done|].
  by conditions Hchecks.
Qed.

Lemma write_head_rows j a b : write j a b → unique hw_persona_id (db_heads a) → unique hw_persona_id (db_heads b).
Proof.
  intros Hw Hu. by_statement Hw.
  - apply Forall_cons_iff in Hchecks as [Hnew _]. apply unique_snoc; [done|]. intros old Hin. fresh_row.
    by apply bool_decide_eq_false in Hfresh.
  - apply unique_update; [|done]. intros row Hp. destruct (Hf row Hp) as [->|[? _]]; done.
Qed.

Lemma write_headed j a b :
  write j a b → (∀ head, head ∈ db_heads a → has_root a (hw_persona_id head) = true) →
  ∀ head, head ∈ db_heads b → has_root b (hw_persona_id head) = true.
Proof.
  intros Hw Hall head Hin. pose proof (write_grows _ _ _ Hw) as Hg. eapply has_root_grows; [done|].
  destruct (decide (head ∈ db_heads a)) as [|Hnew]; [auto|]. by_statement Hw.
  - cbn in Hin. rewrite elem_of_app, list_elem_of_singleton in Hin. destruct Hin as [?| ->]; [done|].
    unfold head_checks in Hchecks. by conditions Hchecks.
  - cbn in Hin. apply list_elem_of_fmap in Hin as (old & -> & Hin). destruct (p old) eqn:Hp; [|done].
    destruct (Hf old Hp) as [->|[-> _]]; auto.
Qed.

Lemma write_transitions j a b :
  write j a b → unique (λ row, (tw_persona_id row, tw_sequence row)) (db_transitions a) →
  unique (λ row, (tw_persona_id row, tw_sequence row)) (db_transitions b).
Proof.
  intros Hw Hu. by_statement Hw. apply Forall_cons_iff in Hchecks as [Hnew _].
  apply unique_snoc; [done|]. intros old Hin [= Hp Hs].
  fresh_row. rewrite orb_false_iff, andb_false_iff, bool_decide_eq_false, Z.eqb_neq in Hfresh. naive_solver.
Qed.

Lemma write_policies j a b :
  write j a b → unique (λ row, (yw_persona_id row, yw_policy_version row)) (db_policies a) →
  unique (λ row, (yw_persona_id row, yw_policy_version row)) (db_policies b).
Proof.
  intros Hw Hu. by_statement Hw. apply Forall_cons_iff in Hchecks as [Hnew _].
  apply unique_snoc; [done|]. intros old Hin [= Hp Hs].
  fresh_row. rewrite orb_false_iff, andb_false_iff, bool_decide_eq_false, Z.eqb_neq in Hfresh. naive_solver.
Qed.

Lemma write_policy_head_rows j a b :
  write j a b → unique yh_persona_id (db_policy_heads a) → unique yh_persona_id (db_policy_heads b).
Proof.
  intros Hw Hu. by_statement Hw; [|by apply unique_update].
  apply Forall_cons_iff in Hchecks as [Hnew _]. apply unique_snoc; [done|]. intros old Hin. fresh_row.
  by apply bool_decide_eq_false in Hfresh.
Qed.

Lemma write_terminals j a b :
  write j a b → unique zw_persona_id (db_terminals a) → unique zw_persona_id (db_terminals b).
Proof.
  intros Hw Hu. by_statement Hw. apply Forall_cons_iff in Hchecks as [Hnew _].
  apply unique_snoc; [done|]. intros old Hin. fresh_row.
  rewrite orb_false_iff in Hfresh. destruct Hfresh as [Hfresh _]. by apply bool_decide_eq_false in Hfresh.
Qed.

(** A statement never makes a key of a revoked persona active. *)
Lemma write_keeps_ended j a b persona_id :
  write j a b → has_terminal a persona_id = true → no_active_key a persona_id = true →
  no_active_key b persona_id = true.
Proof.
  unfold no_active_key. rewrite !negb_true_iff, !exists_in_false. intros Hw Ht Hno row' Hin'.
  apply not_true_iff_false. rewrite andb_true_iff, !bool_decide_eq_true. intros [Hp Hs].
  destruct (write_key_rows _ _ _ _ Hw Hin') as [(row & Hin & Hage & [->|[Hne _]])|(_ & Hf & _)].
  - specialize (Hno row Hin). by rewrite !bool_decide_true in Hno.
  - done.
  - rewrite Hp in Hf. congruence.
Qed.

Lemma exists_heads_true db row p :
  exists_heads db row p = true →
  has_head db (zw_persona_id row) = true ∧ has_policy_head db (zw_persona_id row) = true ∧
  ∃ root head policy_head key, p root head policy_head key = true.
Proof.
  unfold exists_heads. intros (root & _ & H)%exists_in_true.
  apply andb_true_iff in H as [Hroot (head & Hhin & H)%exists_in_true].
  apply andb_true_iff in H as [Hh (policy_head & Hyin & H)%exists_in_true].
  apply andb_true_iff in H as [Hy (key & _ & H)%exists_in_true].
  apply andb_true_iff in H as [_ H]. apply bool_decide_eq_true in Hroot. rewrite Hroot in Hh, Hy.
  unfold has_head, has_policy_head. rewrite !exists_in_true.
  split_and!; [by exists head|by exists policy_head|by exists root, head, policy_head, key].
Qed.

Lemma terminal_pins_ended db row :
  terminal_pins_live db row || terminal_pins_pending db row = true →
  no_active_key db (zw_persona_id row) = true ∧
  has_head db (zw_persona_id row) = true ∧ has_policy_head db (zw_persona_id row) = true.
Proof.
  intros [H|H]%orb_true_iff.
  - unfold terminal_pins_live in H. apply exists_heads_true in H as (? & ? & ? & ? & ? & ? & H).
    rewrite !andb_true_iff in H. tauto.
  - unfold terminal_pins_pending in H. apply exists_in_true in H as (m & _ & H).
    apply andb_true_iff in H as [_ (? & ? & ? & ? & ? & ? & H)%exists_heads_true].
    rewrite !andb_true_iff in H. tauto.
Qed.

(** A terminal revocation is an old one or pins the heads. *)
Lemma write_terminal_rows j a b ended :
  write j a b → ended ∈ db_terminals b →
  ended ∈ db_terminals a ∨
  no_active_key b (zw_persona_id ended) = true ∧
  has_head b (zw_persona_id ended) = true ∧ has_policy_head b (zw_persona_id ended) = true.
Proof.
  intros Hw Hin. by_statement Hw; try by left. cbn in Hin.
  rewrite elem_of_app, list_elem_of_singleton in Hin. destruct Hin as [?| ->]; [by left|right].
  apply Forall_cons_iff in Hchecks as [_ [Hc _]%Forall_cons_iff]. by apply terminal_pins_ended in Hc.
Qed.

Lemma has_terminal_in db row : row ∈ db_terminals db → has_terminal db (zw_persona_id row) = true.
Proof.
  intros Hin. unfold has_terminal. apply exists_in_true. exists row. split; [done|].
  by apply bool_decide_eq_true.
Qed.

Lemma write_ended j a b :
  write j a b → (∀ row, row ∈ db_terminals a → no_active_key a (zw_persona_id row) = true) →
  ∀ row, row ∈ db_terminals b → no_active_key b (zw_persona_id row) = true.
Proof.
  intros Hw Hall ended Hin. destruct (write_terminal_rows _ _ _ _ Hw Hin) as [Hold|[? _]]; [|done].
  eapply write_keeps_ended; [done|by apply has_terminal_in|auto].
Qed.

Lemma write_ended_head j a b :
  write j a b → (∀ row, row ∈ db_terminals a → has_head a (zw_persona_id row) = true) →
  ∀ row, row ∈ db_terminals b → has_head b (zw_persona_id row) = true.
Proof.
  intros Hw Hall ended Hin. destruct (write_terminal_rows _ _ _ _ Hw Hin) as [Hold|(_ & ? & _)]; [|done].
  eapply has_head_grows; [by eapply write_grows|auto].
Qed.

Lemma write_ended_policy j a b :
  write j a b → (∀ row, row ∈ db_terminals a → has_policy_head a (zw_persona_id row) = true) →
  ∀ row, row ∈ db_terminals b → has_policy_head b (zw_persona_id row) = true.
Proof.
  intros Hw Hall ended Hin. destruct (write_terminal_rows _ _ _ _ Hw Hin) as [Hold|(_ & _ & ?)]; [|done].
  eapply has_policy_head_grows; [by eapply write_grows|auto].
Qed.

Lemma write_well_formed j a b : write j a b → well_formed a → well_formed b.
Proof.
  intros Hw []. constructor; eauto using write_personas, write_key_fingerprints, write_owners, write_known,
    write_event_keys, write_events_once, write_events_ordered, write_references, write_roots, write_rooted,
    write_head_rows, write_headed, write_transitions, write_policies, write_policy_head_rows,
    write_terminals, write_ended, write_ended_head, write_ended_policy.
Qed.

Lemma writes_well_formed j a b : writes j a b → well_formed a → well_formed b.
Proof. induction 1; eauto using write_well_formed. Qed.

(** ** A revoked persona is frozen *)

(** What belongs to a persona, of every table that its authority depends on. *)
Definition heads_of (db : Db) (persona_id : string) : list HeadRow :=
  filter (λ row, hw_persona_id row = persona_id) (db_heads db).
Definition policy_heads_of (db : Db) (persona_id : string) : list PolicyHeadRow :=
  filter (λ row, yh_persona_id row = persona_id) (db_policy_heads db).

Record same_persona (persona_id : string) (a b : Db) : Prop := {
  sp_keys : keys_of b persona_id = keys_of a persona_id;
  sp_events : events_of b persona_id = events_of a persona_id;
  sp_heads : heads_of b persona_id = heads_of a persona_id;
  sp_transitions : transitions_of b persona_id = transitions_of a persona_id;
  sp_policies : policies_of b persona_id = policies_of a persona_id;
  sp_policy_heads : policy_heads_of b persona_id = policy_heads_of a persona_id;
  sp_terminals : terminals_of b persona_id = terminals_of a persona_id;
}.

#[export] Instance same_persona_preorder id : PreOrder (same_persona id).
Proof. split; [by constructor|]. intros x y z [] []. constructor; by etrans. Qed.

Lemma filter_snoc_other {A} (P : A → Prop) `{!∀ x, Decision (P x)} l x :
  ¬ P x → filter P (l ++ [x]) = filter P l.
Proof. intros Hx. rewrite filter_app, filter_cons, decide_False, filter_nil, app_nil_r by done. done. Qed.

Lemma filter_update_other {A} (P : A → Prop) `{!∀ x, Decision (P x)} (p : A → bool) f (l : list A) :
  (∀ x, x ∈ l → p x = true → ¬ P x ∧ ¬ P (f x)) →
  filter P ((λ x, if p x then f x else x) <$> l) = filter P l.
Proof.
  induction l as [|x l IH]; intros Hf; cbn [fmap list_fmap]; [done|]. rewrite !filter_cons, IH.
  - destruct (p x) eqn:Hp; [|done]. destruct (Hf x) as [? ?]; [constructor|done|].
    by rewrite !decide_False.
  - intros y Hy. apply Hf. by constructor.
Qed.

Lemma frozen_other db id row_id : has_terminal db id = true → negb (has_terminal db row_id) = true → row_id ≠ id.
Proof. intros Ht Hn ->. by rewrite Ht in Hn. Qed.

Lemma write_frozen j a b id :
  well_formed a → write j a b → has_terminal a id = true → same_persona id a b.
Proof.
  intros Hwf Hw Ht. pose proof Ht as (ended & Hended & Hid%bool_decide_eq_true)%exists_in_true.
  pose proof (wf_ended_head a Hwf _ Hended) as Hhead. pose proof (wf_ended_policy a Hwf _ Hended) as Hpolicy.
  rewrite Hid in Hhead, Hpolicy. clear Hwf Hended Hid.
  by_statement Hw; constructor; cbn; try done.
  - apply filter_snoc_other. apply Forall_cons_iff in Hchecks as [Hc _]. by eapply frozen_other.
  - apply filter_update_other. intros row Hin Hp. specialize (Hupdate row Hin Hp).
    apply Forall_cons_iff in Hupdate as [Hc _]. rewrite (ka_persona _ _ (proj1 (Hf row Hp))).
    split; by eapply frozen_other.
  - apply filter_snoc_other. conditions Hchecks. by eapply frozen_other.
  - apply filter_snoc_other. intros <-. apply Forall_cons_iff in Hchecks as [Hc _].
    unfold has_head in Hhead. cbn [fst] in Hc. by rewrite Hhead in Hc.
  - apply filter_update_other. intros row Hin Hp. specialize (Hupdate row Hin Hp).
    apply Forall_cons_iff in Hupdate as [Hc _]. apply frozen_other with (id := id) in Hc; [|done].
    by destruct (Hf row Hp) as [->|[-> _]].
  - apply filter_snoc_other. do 2 apply Forall_cons_iff in Hchecks as [_ Hchecks].
    apply Forall_cons_iff in Hchecks as [Hc _]. by eapply frozen_other.
  - apply filter_snoc_other. apply Forall_cons_iff in Hchecks as [_ [Hc _]%Forall_cons_iff].
    by eapply frozen_other.
  - apply filter_snoc_other. intros <-. apply Forall_cons_iff in Hchecks as [Hc _].
    unfold has_policy_head in Hpolicy. cbn [fst] in Hc. by rewrite Hpolicy in Hc.
  - apply filter_update_other. intros row Hin Hp. specialize (Hupdate row Hin Hp).
    apply Forall_cons_iff in Hupdate as [Hc _]. rewrite (Hf row Hp). split; by eapply frozen_other.
  - apply filter_snoc_other. intros Heq. apply Forall_cons_iff in Hchecks as [Hc _].
    apply exists_in_true in Ht as (old & Hin & Hold). apply not_exists with (row := old) in Hc; [|done].
    rewrite <- Heq in Hold. by rewrite Hold in Hc.
Qed.

Lemma writes_frozen j a b id :
  writes j a b → well_formed a → has_terminal a id = true → same_persona id a b.
Proof.
  induction 1 as [|a b c Hw _ IH]; [done|]. intros Hwf Ht. etrans; [by eapply write_frozen|].
  apply IH; [by eapply write_well_formed|]. eapply has_terminal_grows; [by eapply write_grows|done].
Qed.

(** * What the store guarantees over time *)

(** ** Queries *)

Lemma insert_by_perm {A} (le : A → A → bool) x l : insert_by le x l ≡ₚ x :: l.
Proof.
  induction l as [|y l IH]; cbn; [done|]. destruct (le x y); [done|]. rewrite IH. by constructor.
Qed.

Lemma order_by_perm {A} (le : A → A → bool) l : order_by le l ≡ₚ l.
Proof. unfold order_by. induction l as [|x l IH]; cbn; [done|]. by rewrite insert_by_perm, IH. Qed.

Lemma find_row_Some {A} (p : A → bool) rows row : find_row p rows = Some row → row ∈ rows ∧ p row = true.
Proof.
  induction rows as [|r rows IH]; cbn; [done|]. destruct (p r) eqn:Hp.
  - intros [= <-]. split; [constructor|done].
  - intros [? ?]%IH. split; [by constructor|done].
Qed.

Lemma find_row_unique {A K} (key : A → K) `{!EqDecision K} rows row :
  unique key rows → row ∈ rows → find_row (λ r, key r == key row) rows = Some row.
Proof.
  intros Hu Hin. destruct (find_row (λ r, key r == key row) rows) as [r|] eqn:Hf.
  - apply find_row_Some in Hf as [Hr Hk%bool_decide_eq_true]. f_equal. by eapply unique_eq.
  - exfalso. clear Hu. induction rows as [|x rows IH]; [by apply elem_of_nil in Hin|]. cbn in Hf.
    case_bool_decide as Hk; [done|]. apply elem_of_cons in Hin as [->|Hin]; [done|auto].
Qed.

Lemma status_from_active word : status_from_str word = Ok Active → word = "active".
Proof.
  unfold status_from_str. case_bool_decide as H1; [done|]. repeat case_bool_decide; done.
Qed.

(** A key that is read as active is stored as active. *)
Lemma key_from_row_active row key :
  key_from_row row = Ok key → kr_status key = Active →
  kr_fingerprint key = kw_fingerprint row ∧ kw_status row = "active".
Proof.
  unfold key_from_row. intros H. unbind H as provider Hp. unbind H as status Hs. simplify_eq. cbn.
  intros ->. split; [done|]. by apply status_from_active.
Qed.

Lemma key_from_row_fingerprint row key : key_from_row row = Ok key → kr_fingerprint key = kw_fingerprint row.
Proof.
  unfold key_from_row. intros H. unbind H as provider Hp. unbind H as status Hs. by simplify_eq.
Qed.

Lemma list_keys_rows db persona_id keys key :
  list_keys_in db persona_id = Ok keys → key ∈ keys →
  ∃ row, row ∈ db_keys db ∧ kw_persona_id row = persona_id ∧ key_from_row row = Ok key.
Proof.
  unfold list_keys_in. intros H Hin. unbind H as n Hn. clear Hn.
  apply collect_result_Ok in H. apply list_elem_of_lookup in Hin as [i Hi].
  destruct (Forall2_lookup_r _ _ _ _ _ H Hi) as (row & Hrow & Hkey). exists row.
  apply list_elem_of_lookup_2 in Hrow. rewrite order_by_perm in Hrow.
  unfold keys_of in Hrow. apply list_elem_of_filter in Hrow as [? ?]. done.
Qed.

Lemma lookup_key_row db fp stored :
  lookup_key_in db fp = Ok (Some stored) →
  ∃ row, row ∈ db_keys db ∧ kw_fingerprint row = fp ∧ key_from_row row = Ok (sk_key stored).
Proof.
  unfold lookup_key_in. intros H. destruct (find_row _ (db_keys db)) as [row|] eqn:Hf; [|done].
  apply find_row_Some in Hf as [Hin Hfp%bool_decide_eq_true].
  destruct (find_row _ (db_personas db)) as [p|]; [|done]. unbind H as persona Hp. unbind H as key Hk.
  simplify_eq. by exists row.
Qed.

(** ** Keys that may sign *)

(** The key is stored, and as active. *)
Definition active_row (db : Db) (fp : string) : Prop :=
  ∃ row, row ∈ db_keys db ∧ kw_fingerprint row = fp ∧ kw_status row = "active".

Section signers.
Context {crates : Crates} {uuids : Uuids} {materializations : Materializations}
  {json_root_proof : Serde PersonaRootProof} {json_policy_proof : Serde RecoveryPolicyProof}
  {json_transition_proof : Serde PersonaTransitionProof}
  {json_recovery_proof : Serde RecoveryTransitionProof}
  {json_entry : Serde PersonaContinuityTransitionProof}
  {json_terminal_proof : Serde TerminalPersonaRevocationProof}
  {json_archive : Serde BackupContinuityArchive} {json_backup : Serde PersonaBackup}
  {pretty_backup : SerdePretty PersonaBackup}
  {json_root : Serde PersonaRootStatement} {json_transition : Serde PersonaTransitionStatement}
  {json_policy : Serde RecoveryPolicyStatement} {json_recovery : Serde RecoveryTransitionStatement}
  {json_terminal : Serde TerminalPersonaRevocationStatement}.

Lemma active_signer_active clock fs euid db persona_id signer :
  active_signer_for_persona clock fs euid db persona_id = Ok signer →
  active_row db (kr_fingerprint (as_key signer)) ∧ has_terminal db persona_id = false.
Proof.
  unfold active_signer_for_persona. intros Hok. unwind Hok.
  match goal with H : require_nonterminal_persona _ _ = _ |- _ => apply reject_if_Ok in H; rename H into Hterm end.
  match goal with H : list_keys_in _ _ = Ok ?keys |- _ => rename keys into keys', H into Hkeys end.
  match goal with H : match filter _ _ with _ => _ end = Ok ?k |- _ => rename k into key, H into Hkey end.
  match goal with H : lookup_key_in _ _ = Ok _ |- _ => rename H into Hlook end.
  match goal with H : ok_or _ (KeyNotFound _) = _ |- _ => apply ok_or_Ok in H as -> end.
  injection Hok as <-. split; [|done]. cbn [as_key].
  assert (filter (λ key, kr_status key = Active) keys' = [key]) as Hone.
  { destruct (filter _ keys') as [|? [|]]; naive_solver. }
  assert (key ∈ filter (λ key, kr_status key = Active) keys') as [Hact Hin]%list_elem_of_filter
    by (rewrite Hone; constructor).
  destruct (list_keys_rows _ _ _ _ Hkeys Hin) as (row & Hrow & _ & Hfrom).
  destruct (key_from_row_active _ _ Hfrom Hact) as [Hfp Hst].
  destruct (lookup_key_row _ _ _ Hlook) as (row' & _ & Hfp' & Hfrom').
  exists row. split_and!; [done| |done]. by rewrite <- Hfp, <- Hfp', (key_from_row_fingerprint _ _ Hfrom').
Qed.

Lemma unauthorized {E} (from : StoreError → E) clock db fp label key :
  ¬ active_row db fp → authorize_active_key from clock db fp label ≠ Ok key.
Proof.
  intros Hno H. unfold authorize_active_key in H. unbind H as found Hl. rewrite map_err_Ok in Hl.
  unbind H as r Hr. rewrite ok_or_Ok in Hr. subst found. destruct r as [stored disposition].
  apply seq_Ok in H as [_ H]. apply seq_Ok in H as [_ H]. apply seq_Ok in H as [Hst _].
  apply reject_if_Ok, negb_false_iff, bool_decide_eq_true in Hst.
  apply Hno. unfold validated_lookup_key_in in Hl. unbind Hl as found Hf.
  destruct found as [found|]; [|done]. unbind Hl as d Hd. simplify_eq.
  destruct (lookup_key_row _ _ _ Hf) as (row & Hin & Hfp & Hfrom).
  exists row. by destruct (key_from_row_active _ _ Hfrom Hst).
Qed.

Lemma authorization_active {T E} (from : StoreError → E) clock db begun committed fp label
    (op op' : StoredRecognizedKey → result E T) :
  ¬ active_row db fp →
  with_active_key_authorization from clock db begun committed fp label op =
  with_active_key_authorization from clock db begun committed fp label op'.
Proof.
  intros Hno. unfold with_active_key_authorization. destruct begun; [done|].
  destruct (authorize_active_key from clock db fp label) as [key|e|s] eqn:Hkey; [|done..].
  by apply unauthorized in Hkey.
Qed.

(** A key that is not active never becomes active again. *)
Lemma inactive_forever j a b fp row :
  writes j a b → well_formed a → row ∈ db_keys a → kw_fingerprint row = fp → kw_status row ≠ "active" →
  ¬ active_row b fp.
Proof.
  intros Hw Hwf Hin Hfp Hst (row' & Hin' & Hfp' & Hst').
  destruct (extends_in _ _ _ _ (gr_keys _ _ (writes_grows _ _ _ Hw)) Hin) as (aged & Haged & Hages).
  assert (aged = row') as ->.
  { eapply (unique_eq kw_fingerprint); [apply (wf_keys b)|done..|].
    - by eapply writes_well_formed.
    - rewrite (ka_fingerprint _ _ Hages). congruence. }
  pose proof (ka_rank _ _ Hages) as Hrank. rewrite Hst' in Hrank.
  change (status_rank "active") with 0 in Hrank. unfold status_rank in Hrank.
  rewrite (bool_decide_false _ Hst) in Hrank. case_bool_decide; lia.
Qed.

(** ** Over time *)

(** C22: under the twelve operations of [step] the store's audit trail only
    grows. However creating a persona, enrolling, rotating and compromising keys,
    binding and unbinding signing references, importing a backup, recording a root
    and recovery policies, and committing routine, recovery and terminal
    transitions follow each other, with whatever readings of the clock and of the
    file system: the rows of personas, key events, signing-reference events, roots,
    transitions, recovery policies, terminal revocations and archives are a prefix
    of those afterwards; a key keeps its fingerprint, persona, text, provider and
    enrollment time and never gets an earlier status, and a compromised one does
    not change at all; the revision of a continuity head never falls. The three
    operations that activate an imported archive are not among them; one of these
    names a new provider for a key. *)
Theorem trail_only_grows a b : rtc step a b → grows a b.
Proof. intros H. by eapply writes_grows, steps_writes. Qed.

(** C26: every database the operations reach from an empty one is well formed:
    identifiers and fingerprints are unique, every key has a persona and known
    words, every event has its key and persona, is numbered in order and occurs
    once of its kind, every persona has at most one root, head, policy head and
    terminal revocation, every head a root, no two transitions of a persona have
    the same sequence number and no two policies the same version, and a
    terminally revoked persona has no active key. *)
Theorem reachable_is_well_formed db : rtc step empty_db db → well_formed db.
Proof.
  intros H. eapply writes_well_formed; [by apply steps_writes|apply empty_well_formed].
Qed.

(** C13: a terminally revoked persona is frozen. From any database that the
    operations reached, no further operation changes its keys, their events, its
    head, transitions, policies or revocation, and it never has a signer again. *)
Theorem terminal_persona_is_frozen a b id clock fs euid signer :
  rtc step empty_db a → has_terminal a id = true → rtc step a b →
  same_persona id a b ∧ active_signer_for_persona clock fs euid b id ≠ Ok signer.
Proof.
  intros Ha Ht Hab. apply steps_writes in Ha, Hab.
  assert (well_formed a) as Hwf by (eapply writes_well_formed; [done|apply empty_well_formed]).
  split; [by eapply writes_frozen|]. intros [_ Hn]%active_signer_active.
  rewrite (has_terminal_grows a b) in Hn; [done|by eapply writes_grows|done].
Qed.

(** C16: a key that was retired or compromised never signs again. From any
    database that the operations reached, whatever operations follow, no persona
    has it as its active signer, and an operation guarded by the authorization
    of that key is not run: the outcome does not depend on it, however the
    transaction begins and ends. *)
Theorem inactive_key_never_signs {T E} a b fp row :
  rtc step empty_db a → row ∈ db_keys a → kw_fingerprint row = fp → kw_status row ≠ "active" →
  rtc step a b →
  (∀ clock fs euid id signer, active_signer_for_persona clock fs euid b id = Ok signer →
     kr_fingerprint (as_key signer) ≠ fp) ∧
  ∀ (from : StoreError → E) clock begun committed label (op op' : StoredRecognizedKey → result E T),
    with_active_key_authorization from clock b begun committed fp label op =
    with_active_key_authorization from clock b begun committed fp label op'.
Proof.
  intros Ha Hin Hfp Hst Hab. apply steps_writes in Ha, Hab.
  assert (well_formed a) as Hwf by (eapply writes_well_formed; [done|apply empty_well_formed]).
  pose proof (inactive_forever true a b fp row Hab Hwf Hin Hfp Hst) as Hno. split.
  - intros clock fs euid id signer [Hact _]%active_signer_active Heq. by rewrite Heq in Hact.
  - intros from clock begun committed label op op'. by apply authorization_active.
Qed.
End signers.
