(* ===== verification/JournalFacts.v ===== *)
(** * The journal never forks

    The transitions of a persona form one chain from its root to its head:
    their sequence numbers are the positions, each names the digest and the key
    of the one before it, and the head is what the last one states. *)

From stdpp Require Import base numbers list strings pretty option gmap relations.
From Stdlib Require Import Strings.Byte Ascii.
From S2P Require Import Prelude Text Ordered Display Crates Io ArtifactProof Continuity RecoveryPolicy RecoveryChain.
From S2P Require Import Names Fields IpcProtocol StoreTypes StoreCommon Backup BackupVerify Tables StoredKeys Journal Store Commits Recoveries Writes StoreFacts.

(** ** Chains *)

(** Where a chain of transitions stands. *)
Record Tip := {
  tip_sequence : Z;
  tip_key : string;
  tip_sha256 : option string;
  tip_issued_at : Z;
}.

Definition root_tip (root : RootRow) : Tip :=
  {| tip_sequence := 0; tip_key := ow_initial_key_fingerprint root; tip_sha256 := None;
     tip_issued_at := ow_issued_at root |}.

(** The row follows on the tip. *)
Record follows (root : RootRow) (tip : Tip) (row : TransitionRow) : Prop := {
  fo_root : tw_root_statement_sha256 row = ow_root_statement_sha256 root;
  fo_sequence : tw_sequence row = (tip_sequence tip + 1)%Z;
  fo_sha256 : tw_previous_transition_sha256 row = tip_sha256 tip;
  fo_key : tw_previous_key_fingerprint row = tip_key tip;
  fo_issued : (tip_issued_at tip <= tw_issued_at row)%Z;
}.

Definition row_tip (row : TransitionRow) : Tip :=
  {| tip_sequence := tw_sequence row; tip_key := tw_next_key_fingerprint row;
     tip_sha256 := Some (tw_transition_statement_sha256 row); tip_issued_at := tw_issued_at row |}.

Inductive chain (root : RootRow) : list TransitionRow → Tip → Prop :=
| chain_root : chain root [] (root_tip root)
| chain_next rows tip row :
    chain root rows tip → follows root tip row → chain root (rows ++ [row]) (row_tip row).

Definition head_tip (head : HeadRow) : Tip :=
  {| tip_sequence := hw_transition_sequence head; tip_key := hw_current_key_fingerprint head;
     tip_sha256 := hw_last_transition_sha256 head; tip_issued_at := hw_last_issued_at head |}.

(** Every persona with a head has one chain from its root to that head, and a
    transition belongs to a persona with a root. *)
Record journaled (db : Db) : Prop := {
  jn_chains head : head ∈ db_heads db → ∃ root,
    root ∈ db_roots db ∧ ow_persona_id root = hw_persona_id head ∧
    chain root (transitions_of db (hw_persona_id head)) (head_tip head) ∧
    hw_revision head = hw_transition_sequence head;
  jn_rooted row : row ∈ db_transitions db → has_root db (tw_persona_id row) = true;
}.

Lemma empty_journaled : journaled empty_db.
Proof. constructor; by intros row Hin%elem_of_nil. Qed.

(** ** Operations that leave the journal alone *)

Record same_journal (a b : Db) : Prop := {
  sj_roots : db_roots b = db_roots a;
  sj_heads : db_heads b = db_heads a;
  sj_transitions : db_transitions b = db_transitions a;
}.

#[export] Instance same_journal_preorder : PreOrder same_journal.
Proof. split; [done|]. intros x y z [] []. constructor; by etrans. Qed.

Lemma same_journaled a b : same_journal a b → journaled a → journaled b.
Proof.
  intros [Hr Hh Ht] [Hc Hrooted]. constructor; unfold has_root, transitions_of in *.
  - rewrite Hr, Hh, Ht. done.
  - rewrite Hr, Ht. done.
Qed.

(** Statements outside the journal leave it alone. *)
Lemma write_same_journal a b : write false a b → same_journal a b.
Proof. intros Hw. by_statement Hw. Qed.

Lemma writes_same_journal a b : writes false a b → same_journal a b.
Proof. induction 1; [done|]. etrans; [by apply write_same_journal|done]. Qed.

(** ** Recording a root *)

Lemma filter_all_out {A} (P : A → Prop) `{!∀ x, Decision (P x)} (l : list A) :
  (∀ x, x ∈ l → ¬ P x) → filter P l = [].
Proof.
  induction l as [|x l IH]; intros Hno; [done|]. rewrite filter_cons, decide_False by (apply Hno; constructor).
  apply IH. intros y Hy. apply Hno. by constructor.
Qed.

Lemma no_root db id row : has_root db id = false → row ∈ db_roots db → ow_persona_id row ≠ id.
Proof.
  unfold has_root. rewrite exists_in_false. intros Hno Hin. specialize (Hno row Hin).
  by apply bool_decide_eq_false in Hno.
Qed.

(** A new root has a head at its start, and no transition is its persona's. *)
Lemma new_root_journaled a b root head c :
  journaled a → insert_root_row a root = Ok b → insert_head_row b head = Ok c →
  hw_persona_id head = ow_persona_id root → hw_revision head = 0%Z → head_tip head = root_tip root →
  journaled c.
Proof.
  intros [Hchains Hrooted] Hr Hh Hid Hrev Htip.
  assert (has_root a (ow_persona_id root) = false) as Hno.
  { statement Hr. apply Forall_cons_iff in Hchecks as [Hc _]. unfold has_root. apply exists_in_false.
    intros old Hin. apply not_exists with (row := old) in Hc; [|done]. rewrite !orb_false_iff in Hc. tauto. }
  assert (transitions_of a (ow_persona_id root) = []) as Hnone.
  { unfold transitions_of. apply filter_all_out. intros row Hin Heq. apply Hrooted in Hin. congruence. }
  statement Hr. statement Hh. constructor; cbn.
  - intros old. rewrite elem_of_app, list_elem_of_singleton. intros [Hin| ->].
    + destruct (Hchains old Hin) as (r & Hr & ? & ? & ?). exists r. rewrite elem_of_app. tauto.
    + exists root. rewrite elem_of_app, list_elem_of_singleton. split_and!; [by right|done| |].
      * unfold transitions_of in *. cbn. rewrite Hid, Hnone, Htip. constructor.
      * rewrite Hrev. by injection Htip as <- _ _ _.
  - intros row Hin. unfold has_root. cbn. apply Hrooted in Hin. unfold has_root in Hin.
    rewrite exists_in_true in *. destruct Hin as (r & ? & ?). exists r. rewrite elem_of_app. tauto.
Qed.

(** ** Extending the journal *)

Lemma filter_snoc_this {A} (P : A → Prop) `{!∀ x, Decision (P x)} (l : list A) x :
  P x → filter P (l ++ [x]) = filter P l ++ [x].
Proof. intros Hx. by rewrite filter_app, filter_cons, decide_True, filter_nil. Qed.

(** A transition that follows on the head of its persona, and the head moved to
    the end of it. *)
Lemma extended_journaled a b row p f c head :
  unique hw_persona_id (db_heads a) → journaled a →
  insert_transition_row a row = Ok b → update_heads b p f = Ok (c, 1%N) →
  head ∈ db_heads a → hw_persona_id head = tw_persona_id row →
  (∀ root, root ∈ db_roots a → ow_persona_id root = tw_persona_id row → follows root (head_tip head) row) →
  (∀ old, p old = true → hw_persona_id old = tw_persona_id row) →
  (∀ old, head_tip (f old) = row_tip row ∧ hw_persona_id (f old) = hw_persona_id old ∧
     hw_revision (f old) = (hw_revision old + 1)%Z) →
  journaled c.
Proof.
  intros Hu [Hchains Hrooted] Hins Hupd Hhead Hid Hfollows Hp Hf. statement Hins. statement Hupd. cbn in *.
  assert (p head = true) as Hphead.
  { destruct (filter (λ r, p r = true) (db_heads a)) as [|r l] eqn:Hone; [done|].
    assert (r ∈ filter (λ r, p r = true) (db_heads a)) as [Hpr Hin]%list_elem_of_filter
      by (rewrite Hone; constructor).
    assert (r = head) as <-; [|done]. eapply (unique_eq hw_persona_id); [done..|]. rewrite Hid. by apply Hp. }
  constructor; cbn.
  - intros new (old & -> & Hin)%list_elem_of_fmap. destruct (p old) eqn:Hpo.
    + assert (old = head) as -> by (eapply (unique_eq hw_persona_id); [done..|]; rewrite Hid; by apply Hp).
      destruct (Hchains head Hin) as (root & Hroot & Hrid & Hchain & Hrev). exists root.
      destruct (Hf head) as (Htip & Hfid & Hfrev). rewrite Hfid. split_and!; [done..| |].
      * unfold transitions_of in *. cbn. rewrite filter_snoc_this by congruence. rewrite Htip.
        econstructor; [done|]. apply Hfollows; congruence.
      * injection Htip as -> _ _ _. rewrite Hfrev, Hrev.
        rewrite (fo_sequence _ _ _ (Hfollows root Hroot ltac:(congruence))). done.
    + destruct (Hchains old Hin) as (root & ? & ? & ? & ?). exists root. split_and!; try done.
      unfold transitions_of in *. cbn. rewrite filter_snoc_other; [done|]. intros Heq.
      assert (old = head) as -> by (eapply (unique_eq hw_persona_id); [done..|]; congruence). congruence.
  - intros x. rewrite elem_of_app, list_elem_of_singleton. intros [Hin| ->]; [by apply Hrooted|].
    destruct (Hchains head Hhead) as (root & Hroot & Hrid & _). unfold has_root. apply exists_in_true.
    exists root. split; [done|]. apply bool_decide_eq_true. congruence.
Qed.

(** ** What a verified journal was read from *)

Lemma transpose_Some {A B} (f : A → StoreResult B) o b :
  transpose f o = Ok (Some b) → ∃ a, o = Some a ∧ f a = Ok b.
Proof. destruct o as [a|]; cbn; [|done]. intros H. unbind H as b' Hb. simplify_eq. eauto. Qed.

Lemma u32_of_stored_Ok value reason n : u32_of_stored value reason = Ok n → Z.of_N n = value.
Proof.
  unfold u32_of_stored. rewrite ok_or_Ok. destruct (_ && _) eqn:Hb; [|done].
  apply andb_true_iff in Hb as [Hb _]. intros [= <-]. apply Z.leb_le in Hb. lia.
Qed.

(** A head as it was read, and its row. *)
Definition reads_head (row : HeadRow) (head : ContinuityHead) : Prop :=
  hd_revision head = hw_revision row ∧
  head_tip row = {| tip_sequence := Z.of_N (hd_transition_sequence head);
                    tip_key := hd_current_key_fingerprint head;
                    tip_sha256 := hd_last_transition_sha256 head;
                    tip_issued_at := hd_last_issued_at head |}.

Section operations.
Context {crates : Crates} {uuids : Uuids} {materializations : Materializations}
  {json_root_proof : Serde PersonaRootProof} {json_policy_proof : Serde RecoveryPolicyProof}
  {json_transition_proof : Serde PersonaTransitionProof}
  {json_recovery_proof : Serde RecoveryTransitionProof}
  {json_entry : Serde PersonaContinuityTransitionProof}
  {json_terminal_proof : Serde TerminalPersonaRevocationProof}
  {json_archive : Serde BackupContinuityArchive} {json_backup : Serde PersonaBackup}
  {pretty_backup : SerdePretty PersonaBackup}
  {json_root : Serde PersonaRootStatement} {json_transition : Serde PersonaTransitionStatement}
  {json_policy : Serde RecoveryPolicyStatement} {json_recovery : Serde RecoveryTransitionStatement}
  {json_terminal : Serde TerminalPersonaRevocationStatement}.

Lemma snapshot_rows clock db id limit r1 r2 r3 r4 t prefix verified :
  verified_live_continuity_snapshot_with_archive_policy_in clock db id limit r1 r2 r3 r4 t prefix =
    Ok verified →
  (∃ row, row ∈ db_roots db ∧ ow_persona_id row = id ∧
     rpr_persona_id (lc_root (vl_snapshot verified)) = id ∧
     rpr_root_statement_sha256 (lc_root (vl_snapshot verified)) = ow_root_statement_sha256 row) ∧
  ∃ row, row ∈ db_heads db ∧ hw_persona_id row = id ∧ reads_head row (lc_head (vl_snapshot verified)).
Proof.
  unfold verified_live_continuity_snapshot_with_archive_policy_in. intros Hok. unwind Hok.
  match goal with H : parsed_persona_root_in _ _ = Ok _ |- _ => rename H into Hroot end.
  match goal with H : continuity_head_in _ _ = Ok _ |- _ => rename H into Hhead end.
  repeat match goal with H : ok_or _ _ = Ok _ |- _ => apply ok_or_Ok in H as -> end.
  injection Hok as <-. cbn. split.
  - apply transpose_Some in Hroot as (row & Hf & Hfrom). apply find_row_Some in Hf as [Hin Hid%bool_decide_eq_true].
    exists row. unfold root_from_row in Hfrom. unwind Hfrom. by simplify_eq.
  - apply transpose_Some in Hhead as (row & Hf & Hfrom). apply find_row_Some in Hf as [Hin Hid%bool_decide_eq_true].
    exists row. unfold head_from_row in Hfrom. unbind Hfrom as sequence Hs. apply u32_of_stored_Ok in Hs.
    simplify_eq. split_and!; [done..|]. unfold reads_head, head_tip. cbn. split; [done|]. by f_equal.
Qed.

Lemma next_sequence_Ok head n :
  next_routine_transition_sequence head = Ok n → n = (hd_transition_sequence head + 1)%N.
Proof.
  unfold next_routine_transition_sequence. intros H. unwind H. apply ok_or_Ok, checked_add_u32_Some in H. tauto.
Qed.

Lemma root_journaled clock early a id proof expected r b :
  journaled a → record_continuity_root clock early a id proof expected = Ok (r, b) → journaled b.
Proof.
  unfold record_continuity_root. intros Hj Hok. unwind Hok; simplify_eq; [done|].
  repeat match goal with H : context [match active_key_fingerprints _ _ with _ => _ end] |- _ => clear H end.
  match goal with Hr : insert_root_row _ _ = Ok _, Hh : insert_head_row _ _ = Ok _ |- _ =>
    by eapply (new_root_journaled a _ _ _ b Hj Hr Hh) end.
Qed.

(** The writes of a commit, whichever transition it is. *)
Lemma advanced_journaled a a1 a2 b row head hrow rrow sequence previous next prev_sha sha issued also :
  well_formed a → journaled a → writes false a a1 →
  insert_transition_row a1 row = Ok a2 →
  advance_head a2 head (tw_persona_id row) sequence previous next prev_sha sha issued also = Ok (b, 1%N) →
  hrow ∈ db_heads a → hw_persona_id hrow = tw_persona_id row → reads_head hrow head →
  rrow ∈ db_roots a → ow_persona_id rrow = tw_persona_id row →
  tw_root_statement_sha256 row = ow_root_statement_sha256 rrow →
  row_tip row = {| tip_sequence := Z.of_N sequence; tip_key := next; tip_sha256 := Some sha;
                   tip_issued_at := issued |} →
  sequence = (hd_transition_sequence head + 1)%N →
  tw_previous_transition_sha256 row = hd_last_transition_sha256 head →
  tw_previous_key_fingerprint row = hd_current_key_fingerprint head →
  (hd_last_issued_at head <= issued)%Z → journaled b.
Proof.
  intros Hwf Hj Hw Hins Hadv Hhin Hhid [Hrev Hread] Hrin Hrid Hroot Htip Hseq Hsha Hkey Htime.
  pose proof (writes_same_journal _ _ Hw) as Hsame. pose proof Hsame as [Hroots Hheads _].
  apply (same_journaled _ _ Hsame) in Hj. unfold advance_head in Hadv.
  eapply extended_journaled; [| |exact Hins|exact Hadv|..].
  - rewrite Hheads. apply Hwf.
  - done.
  - by rewrite Hheads.
  - done.
  - intros root Hin Hid. rewrite Hroots in Hin.
    assert (root = rrow) as -> by (eapply (unique_eq ow_persona_id); [apply Hwf|done..|congruence]).
    injection Htip as Hts _ _ Hti. constructor; rewrite ?Hread; cbn; [done| |done..|lia].
    rewrite Hts, Hseq. lia.
  - intros old Hold. oks Hold. done.
  - intros old. cbn. split; [|done]. rewrite Htip. done.
Qed.

(** The rows a reservation was checked against. *)
Lemma reserved_rows clock db id limit r1 r2 r3 r4 t verified :
  verified_live_continuity_snapshot_with_reservation_in clock db id limit r1 r2 r3 r4 t = Ok verified →
  (∃ row, row ∈ db_roots db ∧ ow_persona_id row = id ∧
     rpr_persona_id (lc_root (vl_snapshot verified)) = id ∧
     rpr_root_statement_sha256 (lc_root (vl_snapshot verified)) = ow_root_statement_sha256 row) ∧
  ∃ row, row ∈ db_heads db ∧ hw_persona_id row = id ∧ reads_head row (lc_head (vl_snapshot verified)).
Proof. unfold verified_live_continuity_snapshot_with_reservation_in. apply snapshot_rows. Qed.

Lemma routine_journaled clock early_fs fs euid early a id proof provider locator limit r b :
  well_formed a → journaled a →
  commit_routine_transition_inner clock early_fs fs euid early a id proof provider locator limit =
    Ok (r, b) → journaled b.
Proof.
  intros Hwf Hj. unfold commit_routine_transition_inner. intros Hok. unwind Hok; simplify_eq; [done|].
  unfold commit_routine_in in Hok. unwind Hok; simplify_eq; [done|].
  match goal with H : verified_live_continuity_snapshot_with_reservation_in _ _ _ _ _ _ _ _ _ = Ok _ |- _ =>
    apply reserved_rows in H as [(rrow & Hrin & Hrid & Hpid & Hsha) (hrow & Hhin & Hhid & Hread)] end.
  match goal with H : require_intent_at_head _ _ = Ok _ |- _ =>
    unfold require_intent_at_head in H; unbind H as expected Hn; apply next_sequence_Ok in Hn; rename H into Hat end.
  apply reject_if_Ok in Hat. rewrite !orb_false_iff, !negb_false_iff, !bool_decide_eq_true, Z.ltb_ge in Hat.
  destruct Hat as (((((_ & Hroot) & Hseq) & Hprev) & Hkey) & Htime).
  match goal with H : reject_if (negb (_ =? 1)%N) _ = Ok tt |- _ =>
    apply reject_if_Ok, negb_false_iff, N.eqb_eq in H as -> end.
  match goal with Hret : retire_previous _ _ _ _ = Ok ?c, Hact : activate_key ?c _ _ _ _ _ _ _ _ = Ok ?d,
      Hins : insert_routine_row ?d _ _ _ _ = Ok _, Hadv : advance_head _ _ _ _ _ _ _ _ _ _ = Ok _ |- _ =>
    apply (retire_previous_writes false) in Hret; apply (activate_key_writes false) in Hact;
    eapply (advanced_journaled a d); [done|done|by etrans|exact Hins|exact Hadv|..] end; cbn in *; try done; congruence.
Qed.

Lemma recovery_journaled {keygen : SshKeygen} clock sightings early a id proof root latest head provider
    locator limit r b :
  well_formed a → journaled a →
  commit_recovery_transition_with_clock clock sightings early a id proof root latest head provider
    locator limit = Ok (r, b) → journaled b.
Proof.
  intros Hwf Hj. unfold commit_recovery_transition_with_clock. intros Hok. unwind Hok; simplify_eq; [done|].
  unfold commit_recovery_in in Hok. unwind Hok; simplify_eq; [done|].
  match goal with H : verified_live_continuity_snapshot_with_reservation_in _ a _ _ _ _ _ _ _ = Ok _ |- _ =>
    apply reserved_rows in H as [(rrow & Hrin & Hrid & Hpid & Hsha) (hrow & Hhin & Hhid & Hread)] end.
  match goal with H : require_recovery_intent_at_head _ _ _ = Ok _ |- _ =>
    unfold require_recovery_intent_at_head in H; apply seq_Ok in H as [_ H]; unbind H as expected Hn;
    apply ok_or_Ok, checked_add_u32_Some in Hn as [Hn _]; unbind H as ph Hph; rename H into Hat end.
  apply reject_if_Ok in Hat. rewrite !orb_false_iff, !negb_false_iff, !bool_decide_eq_true, Z.ltb_ge in Hat.
  destruct Hat as (((((((_ & Hroot) & Hseq) & Hprev) & Hkey) & _) & _) & Htime).
  match goal with H : write_recovery _ _ _ _ _ _ _ _ = Ok _ |- _ =>
    unfold write_recovery in H; unwind H; simplify_eq end.
  match goal with H : reject_if (negb (_ =? 1)%N) _ = Ok tt |- _ =>
    apply reject_if_Ok, negb_false_iff, N.eqb_eq in H as -> end.
  match goal with Ht : transition_key _ _ _ _ = Ok ?c, He : append_event ?c _ _ _ _ _ _ _ = Ok ?e,
      Hact : activate_key ?e _ _ _ _ _ _ _ _ = Ok ?d,
      Hins : insert_recovery_row ?d _ _ _ _ = Ok _, Hadv : advance_head _ _ _ _ _ _ _ _ _ _ = Ok _ |- _ =>
    apply (transition_key_writes false) in Ht; apply (append_event_writes false) in He;
    apply (activate_key_writes false) in Hact;
    eapply (advanced_journaled a d); [done|done|by do 2 (etrans; [eassumption|])|exact Hins|exact Hadv|..]
  end; cbn in *; try done; congruence.
Qed.

Lemma step_journaled a b : well_formed a → step a b → journaled a → journaled b.
Proof.
  intros Hwf Hs Hj. destruct Hs;
    first
      [ by eapply routine_journaled | by eapply recovery_journaled | by eapply root_journaled
      | eapply same_journaled; [eapply writes_same_journal|done];
        solve [eauto using create_persona_writes, enroll_key_writes, rotate_key_writes,
          mark_key_compromised_writes, bind_signing_reference_writes, unbind_signing_reference_writes,
          import_writes, record_recovery_policies_writes, commit_terminal_writes] ].
Qed.

(** C5: the journal of a persona never forks. In every database the operations
    reach, the transitions of a persona with a head are one chain from its root:
    they are numbered without gaps, each names the root, the digest of the one
    before it and the key that one handed over to, their times do not go back,
    and the head states the number, digest, key and time of the last; its
    revision counts the transitions. *)
Theorem journal_never_forks db : rtc step empty_db db → journaled db.
Proof.
  intros H. apply rtc_ind_r with (P := λ db, well_formed db ∧ journaled db) in H; [by apply H| |].
  - split; [apply empty_well_formed|apply empty_journaled].
  - intros a b _ Hs [Hwf Hj]. split; [|by eapply step_journaled].
    eapply writes_well_formed; [by apply step_writes|done].
Qed.
End operations.
