(* ===== verification/HeadFacts.v ===== *)
(** * The head key of a persona is its active key

    While a persona with a journal is not revoked, the key its head names is
    active and no other key of the persona is: no operation activates a key
    behind the journal's back or takes the head's key away from it. *)

From stdpp Require Import base numbers list strings pretty option gmap relations.
From Stdlib Require Import Strings.Byte Ascii.
From S2P Require Import Prelude Text Ordered Display Crates Io ArtifactProof Continuity RecoveryPolicy RecoveryChain.
From S2P Require Import Names Fields IpcProtocol StoreTypes StoreCommon Backup BackupVerify Tables StoredKeys Journal Store Commits Recoveries Writes StoreFacts JournalFacts.

(** ** Active keys *)

Definition active_of (db : Db) (id : string) : list KeyRow :=
  filter (λ row, kw_persona_id row = id ∧ kw_status row = "active") (db_keys db).

(** The active keys of a persona stay as they are. *)
Definition spares (id : string) (a b : Db) : Prop := active_of b id = active_of a id.

#[export] Instance spares_preorder id : PreOrder (spares id).
Proof. split; [done|]. unfold spares. intros x y z. congruence. Qed.

Definition led (db : Db) : Prop :=
  ∀ head, head ∈ db_heads db → has_terminal db (hw_persona_id head) = false →
    kw_fingerprint <$> active_of db (hw_persona_id head) = [hw_current_key_fingerprint head].

(** ** Statements *)

Lemma insert_key_spares a row b id : insert_key_row a row = Ok b → kw_persona_id row ≠ id → spares id a b.
Proof. intros H Hid. statement H. unfold spares, active_of. cbn. apply filter_snoc_other. naive_solver. Qed.

Lemma update_keys_spares a p f n b id :
  update_keys a p f = Ok (b, n) →
  (∀ row, kw_persona_id (f row) = kw_persona_id row ∧ kw_status (f row) ≠ "active") →
  (∀ row, row ∈ db_keys a → p row = true → kw_persona_id row ≠ id ∨ kw_status row ≠ "active") → spares id a b.
Proof.
  intros H Hf Hp. statement H. unfold spares, active_of. cbn. apply filter_update_other. intros row Hin Hr.
  destruct (Hf row) as [-> Hst]. specialize (Hp row Hin Hr). naive_solver.
Qed.

Lemma transition_key_spares a fp status now b id :
  transition_key a fp status now = Ok b →
  (∀ row, row ∈ db_keys a → kw_fingerprint row = fp → kw_persona_id row ≠ id ∨ kw_status row ≠ "active") →
  spares id a b.
Proof.
  unfold transition_key. intros H Hp. unwind H. simplify_eq.
  match goal with H : reject_if (status == Active) _ = _ |- _ => oks H end.
  match goal with H : update_keys _ _ _ = Ok _ |- _ => eapply update_keys_spares; [exact H|..] end.
  - intros row. split; [done|]. by destruct status.
  - intros row Hin Hr. oks Hr. auto.
Qed.

(** Statements on other tables spare every key. *)
Lemma same_keys_spares id a b : db_keys b = db_keys a → spares id a b.
Proof. unfold spares, active_of. by intros ->. Qed.

Lemma append_event_keys a id fp event_type t actor policy note b :
  append_event a id fp event_type t actor policy note = Ok b → db_keys b = db_keys a.
Proof. unfold append_event. intros H. unwind H. statement H. done. Qed.

Lemma reference_event_keys {crates : Crates} a fp event_type t locator b :
  append_signing_reference_event a fp event_type t locator = Ok b → db_keys b = db_keys a.
Proof. unfold append_signing_reference_event. intros Hok. unwind Hok. statement Hok. done. Qed.

(** ** Owners *)

(** Every row of a key names the persona as its owner. *)
Definition owned (db : Db) (fp id : string) : Prop :=
  ∀ row, row ∈ db_keys db → kw_fingerprint row = fp → kw_persona_id row = id.

Lemma unique_owned db row :
  unique kw_fingerprint (db_keys db) → row ∈ db_keys db → owned db (kw_fingerprint row) (kw_persona_id row).
Proof.
  intros Hu Hin row' Hin' Hfp. f_equal. eapply (unique_eq kw_fingerprint); [done..|]. congruence.
Qed.

Lemma transition_key_owned a fp status now b fp' id :
  transition_key a fp status now = Ok b → owned a fp' id → owned b fp' id.
Proof.
  unfold transition_key. intros H Ho. unwind H. simplify_eq.
  match goal with H : update_keys _ _ _ = Ok _ |- _ => statement H end.
  intros row' (row & -> & Hin)%list_elem_of_fmap Hfp. destruct (_ && _); cbn in *; auto.
Qed.

(** ** Steps *)

(** A change of the keys and of the heads that keeps every persona led. *)
Lemma led_by_sparing a b :
  led a → grows a b → db_heads b = db_heads a →
  (∀ head, head ∈ db_heads a → has_terminal a (hw_persona_id head) = false →
     has_terminal b (hw_persona_id head) = false → spares (hw_persona_id head) a b) → led b.
Proof.
  intros Hled Hg Hh Hsp head Hin Ht. rewrite Hh in Hin.
  assert (has_terminal a (hw_persona_id head) = false) as Hta.
  { apply not_true_iff_false. intros Hta. rewrite (has_terminal_grows a b) in Ht; done. }
  rewrite (Hsp head Hin Hta Ht). auto.
Qed.

Section operations.
Context {crates : Crates} {uuids : Uuids} {materializations : Materializations}
  {json_root_proof : Serde PersonaRootProof} {json_policy_proof : Serde RecoveryPolicyProof}
  {json_transition_proof : Serde PersonaTransitionProof}
  {json_recovery_proof : Serde RecoveryTransitionProof}
  {json_entry : Serde PersonaContinuityTransitionProof}
  {json_terminal_proof : Serde TerminalPersonaRevocationProof}
  {json_archive : Serde BackupContinuityArchive} {json_backup : Serde PersonaBackup}
  {pretty_backup : SerdePretty PersonaBackup}
  {json_root : Serde PersonaRootStatement} {json_transition : Serde PersonaTransitionStatement}
  {json_policy : Serde RecoveryPolicyStatement} {json_recovery : Serde RecoveryTransitionStatement}
  {json_terminal : Serde TerminalPersonaRevocationStatement}.

Lemma unmanaged_headless clock a id head :
  well_formed a → require_continuity_unmanaged clock a id = Ok tt → head ∈ db_heads a →
  hw_persona_id head ≠ id.
Proof.
  unfold require_continuity_unmanaged. intros Hwf H Hin <-. unwind H. apply reject_if_Ok in H.
  unfold continuity_managed_in in H. apply orb_false_iff in H as [Hno _].
  by rewrite (wf_headed a Hwf head Hin) in Hno.
Qed.

Lemma insert_key_in_spares a p fp public_key provider now b id :
  insert_key a p fp public_key provider now = Ok b → p ≠ id → spares id a b.
Proof. unfold insert_key. intros H Hid. unwind H. by eapply insert_key_spares. Qed.

Lemma append_event_spares a p fp event_type t actor policy note b id :
  append_event a p fp event_type t actor policy note = Ok b → spares id a b.
Proof. intros H. by eapply same_keys_spares, append_event_keys. Qed.

Lemma enroll_led clock a p public_key provider r b :
  well_formed a → led a → enroll_key clock a p public_key provider = Ok (r, b) → led b.
Proof.
  intros Hwf Hled Hok. pose proof (enroll_key_writes false _ _ _ _ _ _ _ Hok) as Hw.
  eapply led_by_sparing; [done|by eapply writes_grows|apply (writes_same_journal _ _ Hw)|].
  intros head Hin _ _. unfold enroll_key in Hok. unwind Hok. simplify_eq.
  match goal with H : require_continuity_unmanaged _ _ _ = _ |- _ =>
    apply (unmanaged_headless _ _ _ head Hwf) in H; [|done] end.
  etrans; [eapply insert_key_in_spares; done|by eapply append_event_spares].
Qed.

Lemma active_fingerprints_owned a id fp :
  unique kw_fingerprint (db_keys a) → fp ∈ active_key_fingerprints a id → owned a fp id.
Proof.
  unfold active_key_fingerprints, keys_of. intros Hu. rewrite order_by_perm.
  intros (row & -> & Hin)%list_elem_of_fmap. rewrite !list_elem_of_filter in Hin.
  destruct Hin as (_ & <- & Hin). by apply unique_owned.
Qed.

Lemma rotate_out_spares p reason note now fps a b id :
  fold_result (rotate_out p reason note now) a fps = Ok b → (∀ fp, fp ∈ fps → owned a fp p) → p ≠ id →
  spares id a b.
Proof.
  intros H Ho Hid. revert a H Ho. induction fps as [|fp fps IH]; intros a H Ho; cbn in H; [by simplify_eq|].
  unbind H as c Hc. unfold rotate_out in Hc. unbind Hc as d Hd.
  pose proof (append_event_keys _ _ _ _ _ _ _ _ _ Hc) as Hkeys.
  transitivity d; [|transitivity c; [by apply same_keys_spares|]].
  - eapply transition_key_spares; [done|]. intros row Hin Hfp. left.
    rewrite (Ho fp ltac:(constructor) row Hin Hfp). done.
  - apply (IH c H). intros fp' Hfp'. unfold owned. rewrite Hkeys.
    eapply transition_key_owned; [done|]. apply Ho. by constructor.
Qed.

Lemma rotate_led clock a p public_key provider reason note r b :
  well_formed a → led a → rotate_key clock a p public_key provider reason note = Ok (r, b) → led b.
Proof.
  intros Hwf Hled Hok. pose proof (rotate_key_writes false _ _ _ _ _ _ _ _ _ Hok) as Hw.
  eapply led_by_sparing; [done|by eapply writes_grows|apply (writes_same_journal _ _ Hw)|].
  intros head Hin _ _. unfold rotate_key in Hok. unwind Hok. simplify_eq.
  match goal with H : require_continuity_unmanaged _ _ _ = _ |- _ =>
    apply (unmanaged_headless _ _ _ head Hwf) in H; [|done] end.
  match goal with H : fold_result (rotate_out _ _ _ _) _ _ = Ok _ |- _ =>
    eapply rotate_out_spares in H;
      [|intros fp Hfp; by eapply active_fingerprints_owned; [apply Hwf|]|by apply not_eq_sym] end.
  etrans; [done|]. etrans; [eapply insert_key_in_spares; done|by eapply append_event_spares].
Qed.

(** The persona and the status a stored key is read with. *)
Lemma lookup_key_persona db fp stored row :
  well_formed db → lookup_key_in db fp = Ok (Some stored) → row ∈ db_keys db → kw_fingerprint row = fp →
  pe_id (sk_persona stored) = kw_persona_id row ∧ key_from_row row = Ok (sk_key stored).
Proof.
  intros Hwf H Hin <-. unfold lookup_key_in in H.
  rewrite (find_row_unique kw_fingerprint) in H by (apply Hwf || done).
  destruct (find_row _ (db_personas db)) as [prow|] eqn:Hf; [|done].
  apply find_row_Some in Hf as [_ Hid%bool_decide_eq_true].
  unbind H as persona Hp. unbind H as key Hk. simplify_eq. cbn. split; [|done].
  unfold persona_from_row in Hp. unwind Hp. by simplify_eq.
Qed.

(** The active keys of a led persona are all the head's. *)
Lemma led_active a head row :
  led a → head ∈ db_heads a → has_terminal a (hw_persona_id head) = false → row ∈ db_keys a →
  kw_persona_id row = hw_persona_id head → kw_status row = "active" →
  kw_fingerprint row = hw_current_key_fingerprint head.
Proof.
  intros Hled Hh Ht Hin Hid Hst. specialize (Hled head Hh Ht).
  assert (kw_fingerprint row ∈ kw_fingerprint <$> active_of a (hw_persona_id head)) as Hx.
  { apply list_elem_of_fmap_2. unfold active_of. by rewrite list_elem_of_filter. }
  rewrite Hled in Hx. by apply list_elem_of_singleton in Hx.
Qed.

Lemma live_snapshot_key clock db head snapshot :
  well_formed db → live_continuity_snapshot_in clock db (hw_persona_id head) = Ok snapshot →
  head ∈ db_heads db → hd_current_key_fingerprint (lc_head snapshot) = hw_current_key_fingerprint head.
Proof.
  unfold live_continuity_snapshot_in, verified_live_continuity_snapshot_in. intros Hwf H Hin.
  unbind H as verified Hv. unbind Hv as t Ht. injection H as <-.
  apply reserved_rows in Hv as [_ (row & Hrow & Hid & [_ Hread])].
  assert (row = head) as -> by (eapply (unique_eq hw_persona_id); [apply Hwf|done..]).
  unfold head_tip in Hread. by injection Hread.
Qed.

Lemma key_from_active row key : key_from_row row = Ok key → kw_status row = "active" → kr_status key = Active.
Proof.
  unfold key_from_row. intros H Hst. unbind H as provider Hp. rewrite Hst in H. unbind H as status Hs.
  simplify_eq. cbn. by vm_compute in Hs; simplify_eq.
Qed.

Lemma compromise_led clock a fp actor policy note b :
  well_formed a → led a → mark_key_compromised clock a fp actor policy note = Ok b → led b.
Proof.
  intros Hwf Hled Hok. pose proof (mark_key_compromised_writes false _ _ _ _ _ _ _ Hok) as Hw.
  eapply led_by_sparing; [done|by eapply writes_grows|apply (writes_same_journal _ _ Hw)|].
  intros head Hin Ht _. unfold mark_key_compromised in Hok. unwind Hok.
  match goal with H : ok_or _ _ = Ok _ |- _ => apply ok_or_Ok in H as -> end.
  match goal with H : lookup_key_in _ _ = Ok (Some ?k) |- _ => rename k into stored, H into Hlook end.
  match goal with H : (if continuity_root_exists_in _ _ then _ else _) = _ |- _ => rename H into Hlive end.
  etrans; [|by eapply append_event_spares]. eapply transition_key_spares; [done|]. intros row Hrow Hfp.
  destruct (decide (kw_persona_id row = hw_persona_id head)) as [Hid|]; [right; intros Hst|by left].
  destruct (lookup_key_persona a fp stored row Hwf Hlook Hrow Hfp) as [Hpid Hfrom].
  rewrite Hpid, Hid in Hlive. unfold continuity_root_exists_in in Hlive.
  rewrite (wf_headed a Hwf head Hin) in Hlive. unbind Hlive as snapshot Hsnap.
  apply reject_if_Ok, andb_false_iff in Hlive. rewrite !bool_decide_eq_false in Hlive.
  rewrite (live_snapshot_key _ _ _ _ Hwf Hsnap Hin) in Hlive.
  pose proof (key_from_active _ _ Hfrom Hst). pose proof (led_active a head row Hled Hin Ht Hrow Hid Hst).
  destruct Hlive as [?|?]; congruence.
Qed.

(** Operations on personas and signing references do not touch the keys. *)
Lemma create_led clock id a label purpose r b :
  led a → create_persona clock id a label purpose = Ok (r, b) → led b.
Proof.
  intros Hled Hok. pose proof (create_persona_writes false _ _ _ _ _ _ _ Hok) as Hw.
  eapply led_by_sparing; [done|by eapply writes_grows|apply (writes_same_journal _ _ Hw)|].
  intros head _ _ _. unfold create_persona in Hok. unwind Hok. simplify_eq.
  match goal with H : insert_persona_row _ _ = Ok _ |- _ => statement H end. done.
Qed.

Lemma bind_led clock fs euid a fp locator r b :
  led a → bind_signing_reference clock fs euid a fp locator = Ok (r, b) → led b.
Proof.
  intros Hled Hok. pose proof (bind_signing_reference_writes false _ _ _ _ _ _ _ _ Hok) as Hw.
  eapply led_by_sparing; [done|by eapply writes_grows|apply (writes_same_journal _ _ Hw)|].
  intros head _ _ _. unfold bind_signing_reference in Hok. unwind Hok. simplify_eq.
  match goal with H : append_signing_reference_event _ _ _ _ _ = Ok _ |- _ =>
    apply reference_event_keys in H end.
  match goal with H : upsert_reference_row _ _ = Ok _ |- _ => statement H end. by apply same_keys_spares.
Qed.

Lemma unbind_led clock a fp b :
  led a → unbind_signing_reference clock a fp = Ok b → led b.
Proof.
  intros Hled Hok. pose proof (unbind_signing_reference_writes false _ _ _ _ Hok) as Hw.
  eapply led_by_sparing; [done|by eapply writes_grows|apply (writes_same_journal _ _ Hw)|].
  intros head _ _ _. unfold unbind_signing_reference in Hok. unwind Hok.
  apply reference_event_keys in Hok.
  match goal with H : delete_reference_row _ _ = Ok _ |- _ => statement H end. by apply same_keys_spares.
Qed.

Lemma insert_policies_keys p t entries a recorded b recorded' :
  fold_result (insert_policy p t) (a, recorded) entries = Ok (b, recorded') → db_keys b = db_keys a.
Proof.
  revert a recorded. induction entries as [|[[proof proof_json] policy] entries IH]; intros a recorded H;
    cbn [fold_result] in H; [by simplify_eq|].
  unbind H as [c recorded1] Hc. apply IH in H. unfold insert_policy in Hc. unwind Hc. simplify_eq.
  match goal with H : insert_policy_row _ _ = Ok _ |- _ => statement H end. done.
Qed.

Lemma policies_led clock a p proofs root latest head limit r b :
  led a → record_recovery_policy_chain_with_clock clock a p proofs root latest head limit = Ok (r, b) →
  led b.
Proof.
  intros Hled Hok. pose proof (record_recovery_policies_writes false _ _ _ _ _ _ _ _ _ _ Hok) as Hw.
  eapply led_by_sparing; [done|by eapply writes_grows|apply (writes_same_journal _ _ Hw)|].
  intros h _ _ _. apply same_keys_spares. unfold record_recovery_policy_chain_with_clock in Hok.
  unwind Hok; simplify_eq; [done|]. unfold append_policies in Hok. unwind Hok. simplify_eq.
  match goal with H : fold_result (insert_policy _ _) _ _ = Ok _ |- _ => apply insert_policies_keys in H end.
  match goal with H : advance_policy_head _ _ _ _ = Ok _ |- _ =>
    unfold advance_policy_head in H; unwind H; simplify_eq end.
  - match goal with H : update_policy_heads _ _ _ = Ok _ |- _ => statement H end. done.
  - match goal with H : insert_policy_head_row _ _ = Ok _ |- _ => statement H end. done.
Qed.

(** Importing gives keys to a new persona only. *)
Lemma headed_persona a head : well_formed a → head ∈ db_heads a → has_persona a (hw_persona_id head) = true.
Proof.
  intros Hwf Hin. pose proof (wf_headed a Hwf head Hin) as Hroot. unfold has_root in Hroot.
  apply exists_in_true in Hroot as (root & Hr & <-%bool_decide_eq_true). by apply (wf_rooted a Hwf).
Qed.

Lemma fold_spares {A} id (body : Db → A → StoreResult Db) xs a b :
  (∀ a x b, body a x = Ok b → spares id a b) → fold_result body a xs = Ok b → spares id a b.
Proof.
  intros Hbody. revert a. induction xs as [|x xs IH]; intros a H; cbn in H; [by simplify_eq|].
  unbind H as c Hc. etrans; [by eapply Hbody|auto].
Qed.

Lemma import_led clock a verified r report b :
  well_formed a → led a → import_verified_persona_backup clock a verified = Ok (r, report, b) → led b.
Proof.
  intros Hwf Hled Hok. pose proof (import_writes false _ _ _ _ _ _ Hok) as Hw.
  eapply led_by_sparing; [done|by eapply writes_grows|apply (writes_same_journal _ _ Hw)|].
  intros head Hin _ _. apply (headed_persona a head Hwf) in Hin.
  unfold import_verified_persona_backup in Hok. unwind Hok. simplify_eq. cbn [pe_id] in *.
  match goal with H : reject_if (has_persona _ _) _ = _ |- _ => apply reject_if_Ok in H; rename H into Hnew end.
  assert (bp_id (pb_persona (vpb_backup verified)) ≠ hw_persona_id head) as Hid by congruence.
  match goal with H : insert_persona_row _ _ = Ok ?c |- _ => assert (spares (hw_persona_id head) a c) by (by statement H) end.
  match goal with H : fold_result (import_key _) _ _ = Ok _ |- _ => eapply fold_spares in H;
    [|intros ? ? ? Hk; eapply insert_key_spares; [exact Hk|exact Hid]] end.
  match goal with H : fold_result (import_event _) _ _ = Ok _ |- _ => eapply fold_spares in H;
    [|intros ? ? ? Hk; eapply append_event_spares, Hk] end.
  etrans; [done|]. etrans; [done|]. etrans; [done|].
  match goal with H : match vpb_archive_json _ with _ => _ end = Ok _ |- _ => destruct (vpb_archive_json verified);
    [statement H; done|by simplify_eq] end.
Qed.

(** A root starts at the persona's only active key. *)
Lemma active_key_fingerprints_of a id fp :
  active_key_fingerprints a id = [fp] → kw_fingerprint <$> active_of a id = [fp].
Proof.
  unfold active_key_fingerprints, keys_of, active_of. intros H.
  pose proof (order_by_perm (λ a b, negb (str_ltb b a))
    (kw_fingerprint <$> filter (λ row, kw_status row = "active")
      (filter (λ row, kw_persona_id row = id) (db_keys a)))) as Hp.
  rewrite H, list_filter_filter in Hp. apply symmetry, Permutation_singleton_r in Hp. rewrite <- Hp. f_equal.
  apply list_filter_iff. naive_solver.
Qed.

Lemma root_led clock early a id proof expected r b :
  led a → record_continuity_root clock early a id proof expected = Ok (r, b) → led b.
Proof.
  unfold record_continuity_root. intros Hled Hok. unwind Hok; simplify_eq; [done|].
  match goal with H : match active_key_fingerprints _ _ with _ => _ end = Ok _ |- _ => rename H into Hone end.
  match goal with H : reject_if (_ != rs_initial_key_fingerprint _) _ = _ |- _ =>
    apply reject_if_Ok, negb_false_iff, bool_decide_eq_true in H; subst end.
  assert (kw_fingerprint <$> active_of a id = [rs_initial_key_fingerprint (vpr_statement x0)]) as Hkey.
  { apply active_key_fingerprints_of. destruct (active_key_fingerprints a id) as [|? [|]]; by simplify_eq. }
  match goal with Hr : insert_root_row _ _ = Ok _, Hh : insert_head_row _ _ = Ok _ |- _ =>
    statement Hr; statement Hh end.
  intros head. cbn. rewrite elem_of_app, list_elem_of_singleton. intros [Hin| ->]; [by apply Hled|done].
Qed.

(** *** Handing the head over *)

(** The persona's active key is exactly [next] and no other persona's keys have
    changed. *)
Record hands_over (id next : string) (a b : Db) : Prop := {
  ho_others id' : id' ≠ id → spares id' a b;
  ho_next : kw_fingerprint <$> active_of b id = [next];
}.

(** The key of a live head is stored for the persona of the head. *)
Lemma head_key_owned a head :
  well_formed a → led a → head ∈ db_heads a → has_terminal a (hw_persona_id head) = false →
  owned a (hw_current_key_fingerprint head) (hw_persona_id head).
Proof.
  intros Hwf Hled Hin Ht. specialize (Hled head Hin Ht).
  assert (hw_current_key_fingerprint head ∈ kw_fingerprint <$> active_of a (hw_persona_id head))
    as (row & -> & [[<- _] Hrow]%list_elem_of_filter)%list_elem_of_fmap
    by (rewrite Hled; constructor).
  apply unique_owned; [apply Hwf|done].
Qed.

(** An update that takes the active keys of the persona leaves none. *)
Lemma update_keys_none a p f n b id :
  update_keys a p f = Ok (b, n) →
  (∀ row, kw_persona_id (f row) = kw_persona_id row ∧ kw_status (f row) ≠ "active") →
  (∀ row, row ∈ db_keys a → kw_persona_id row = id → kw_status row = "active" → p row = true) →
  active_of b id = [].
Proof.
  intros H Hf Hp. statement H. unfold active_of. cbn. apply filter_all_out.
  intros row' (row & -> & Hin)%list_elem_of_fmap [Hid Hst]. destruct (p row) eqn:Hpr.
  - by destruct (Hf row).
  - by rewrite (Hp row Hin Hid Hst) in Hpr.
Qed.

Lemma activate_key_active a id fp public_key provider locator now actor policy b :
  activate_key a id fp public_key provider locator now actor policy = Ok b →
  (∀ id', id' ≠ id → spares id' a b) ∧
  kw_fingerprint <$> active_of b id = (kw_fingerprint <$> active_of a id) ++ [fp].
Proof.
  unfold activate_key. intros H. unwind H. apply reference_event_keys in H.
  match goal with H : insert_reference_row _ _ = Ok _ |- _ => statement H end.
  match goal with H : append_event _ _ _ _ _ _ _ _ = Ok _ |- _ => apply append_event_keys in H; rename H into He end.
  cbn in H. rewrite He in H.
  match goal with H : insert_key _ _ _ _ _ _ = Ok _ |- _ => unfold insert_key in H; unwind H; statement H end.
  cbn in H. split.
  - intros id' Hid. unfold spares, active_of. rewrite H. apply filter_snoc_other. cbn. naive_solver.
  - unfold active_of. rewrite H, filter_snoc_this by done. by rewrite fmap_app.
Qed.

(** The moved head names the key that took over. *)
Lemma moved_led a a1 a2 b id next p f row :
  well_formed a → led a → hands_over id next a a1 → writes false a a1 →
  insert_transition_row a1 row = Ok a2 → update_heads a2 p f = Ok (b, 1%N) →
  (∀ old, p old = true → hw_persona_id old = id) →
  (∀ old, hw_persona_id (f old) = hw_persona_id old ∧ hw_current_key_fingerprint (f old) = next) → led b.
Proof.
  intros Hwf Hled [Hothers Hnext] Hw Hins Hupd Hp Hf.
  pose proof (sj_heads _ _ (writes_same_journal _ _ Hw)) as Hheads.
  statement Hins. statement Hupd. cbn in *. rewrite Hheads in *.
  intros new. cbn. intros (old & -> & Hin)%list_elem_of_fmap Ht. destruct (p old) eqn:Hpo.
  - destruct (Hf old) as [-> ->]. by rewrite (Hp old Hpo).
  - assert (hw_persona_id old ≠ id) as Hid.
    { intros Hid. destruct (filter (λ r, p r = true) (db_heads a)) as [|r l] eqn:Hone; [done|].
      assert (r ∈ filter (λ r, p r = true) (db_heads a)) as [Hpr Hr]%list_elem_of_filter
        by (rewrite Hone; constructor).
      assert (r = old) as ->; [|congruence].
      eapply (unique_eq hw_persona_id); [apply Hwf|done..|]. rewrite Hid. by apply Hp. }
    assert (has_terminal a (hw_persona_id old) = false) as Hta.
    { apply not_true_iff_false. intros Hta. apply (has_terminal_grows a a1) in Hta; [|by eapply writes_grows].
      change (has_terminal a1 (hw_persona_id old) = false) in Ht. congruence. }
    specialize (Hothers _ Hid). unfold spares, active_of in *. cbn. rewrite Hothers. by apply Hled.
Qed.

Lemma advanced_led a a1 a2 b id head sequence previous next prev_sha sha issued also row :
  well_formed a → led a → hands_over id next a a1 → writes false a a1 →
  insert_transition_row a1 row = Ok a2 →
  advance_head a2 head id sequence previous next prev_sha sha issued also = Ok (b, 1%N) → led b.
Proof.
  intros Hwf Hled Hho Hw Hins Hadv. unfold advance_head in Hadv.
  eapply (moved_led a a1 a2 b id next); [done..|exact Hadv| |done]. intros old Hold. by oks Hold.
Qed.

(** Retiring the head's key and activating the next one hands the persona over. *)
Lemma handed_over a a1 a2 b id fp public_key provider locator now actor policy :
  (∀ id', id' ≠ id → spares id' a a1) → active_of a1 id = [] → db_keys a2 = db_keys a1 →
  activate_key a2 id fp public_key provider locator now actor policy = Ok b → hands_over id fp a b.
Proof.
  intros Hothers Hnone Hkeys [Hact Hnext]%activate_key_active. constructor.
  - intros id' Hid. etrans; [by apply Hothers|]. etrans; [by apply same_keys_spares|by apply Hact].
  - rewrite Hnext. unfold active_of in *. by rewrite Hkeys, Hnone.
Qed.

(** The persona of a commit is not revoked: the journal's triggers refuse it. *)
Lemma transition_nonterminal a a1 row a2 :
  writes false a a1 → insert_transition_row a1 row = Ok a2 → has_terminal a (tw_persona_id row) = false.
Proof.
  intros Hw Hins. apply not_true_iff_false. intros Ht.
  apply (has_terminal_grows a a1) in Ht; [|by eapply writes_grows].
  statement Hins. conditions Hchecks. rewrite Ht in *. done.
Qed.

Lemma routine_led clock early_fs fs euid early a id proof provider locator limit r b :
  well_formed a → led a →
  commit_routine_transition_inner clock early_fs fs euid early a id proof provider locator limit =
    Ok (r, b) → led b.
Proof.
  intros Hwf Hled. unfold commit_routine_transition_inner. intros Hok. unwind Hok; simplify_eq; [done|].
  unfold commit_routine_in in Hok. unwind Hok; simplify_eq; [done|].
  match goal with H : verified_live_continuity_snapshot_with_reservation_in _ _ _ _ _ _ _ _ _ = Ok _ |- _ =>
    apply reserved_rows in H as [_ (hrow & Hhin & Hhid & [_ Hread])] end.
  match goal with H : require_intent_at_head _ _ = Ok _ |- _ =>
    unfold require_intent_at_head in H; unbind H as expected Hn; rename H into Hat end.
  apply reject_if_Ok in Hat. rewrite !orb_false_iff, !negb_false_iff, !bool_decide_eq_true in Hat.
  destruct Hat as ((_ & Hkey) & _).
  match goal with H : reject_if (negb (_ =? 1)%N) _ = Ok tt |- _ =>
    apply reject_if_Ok, negb_false_iff, N.eqb_eq in H as -> end.
  match goal with Hret : retire_previous _ _ _ _ = Ok ?c, Hact : activate_key ?c _ _ _ _ _ _ _ _ = Ok ?d,
      Hins : insert_routine_row ?d _ _ _ _ = Ok _, Hadv : advance_head _ _ _ _ _ _ _ _ _ _ = Ok _ |- _ =>
    assert (writes false a d) as Hw
      by (etrans; [by eapply retire_previous_writes|by eapply activate_key_writes]);
    eapply (advanced_led a d); [done|done| |done|exact Hins|exact Hadv];
    pose proof (transition_nonterminal a d _ _ Hw Hins) as Ht; rename Hret into Hr, Hact into Ha end.
  cbn in Ht, Hkey. injection Hread as _ Hcur _ _.
  unfold retire_previous in Hr. unwind Hr. apply append_event_keys in Hr.
  match goal with H : update_keys a _ _ = Ok _ |- _ => rename H into Hupd end.
  eapply handed_over; [| |exact Hr|exact Ha].
  - intros id' Hid. eapply update_keys_spares; [exact Hupd|done|]. intros row _ Hrow. oks Hrow. left. congruence.
  - eapply update_keys_none; [exact Hupd|done|]. cbn. intros row Hrow Hpid Hst.
    rewrite <- Hhid in Hpid, Ht. rewrite (led_active a hrow row Hled Hhin Ht Hrow Hpid Hst), Hcur, <- Hkey.
    rewrite Hpid, Hhid, Hst. by rewrite !bool_decide_true.
Qed.

Lemma recovery_led {keygen : SshKeygen} clock sightings early a id proof root latest head provider
    locator limit r b :
  well_formed a → led a →
  commit_recovery_transition_with_clock clock sightings early a id proof root latest head provider
    locator limit = Ok (r, b) → led b.
Proof.
  intros Hwf Hled. unfold commit_recovery_transition_with_clock. intros Hok. unwind Hok; simplify_eq; [done|].
  unfold commit_recovery_in in Hok. unwind Hok; simplify_eq; [done|].
  match goal with H : verified_live_continuity_snapshot_with_reservation_in _ a _ _ _ _ _ _ _ = Ok _ |- _ =>
    apply reserved_rows in H as [_ (hrow & Hhin & Hhid & [_ Hread])] end.
  match goal with H : require_recovery_intent_at_head _ _ _ = Ok _ |- _ =>
    unfold require_recovery_intent_at_head in H; apply seq_Ok in H as [_ H]; unbind H as expected Hn;
    unbind H as ph Hph; rename H into Hat end.
  apply reject_if_Ok in Hat. rewrite !orb_false_iff, !negb_false_iff, !bool_decide_eq_true in Hat.
  destruct Hat as ((((_ & Hkey) & _) & _) & _).
  match goal with H : write_recovery _ _ _ _ _ _ _ _ = Ok _ |- _ =>
    unfold write_recovery in H; unwind H; simplify_eq end.
  match goal with H : reject_if (negb (_ =? 1)%N) _ = Ok tt |- _ =>
    apply reject_if_Ok, negb_false_iff, N.eqb_eq in H as -> end.
  match goal with Htr : transition_key _ _ _ _ = Ok ?c, He : append_event ?c _ _ _ _ _ _ _ = Ok ?e,
      Hact : activate_key ?e _ _ _ _ _ _ _ _ = Ok ?d,
      Hins : insert_recovery_row ?d _ _ _ _ = Ok _, Hadv : advance_head _ _ _ _ _ _ _ _ _ _ = Ok _ |- _ =>
    assert (writes false a d) as Hw
      by (etrans; [by eapply transition_key_writes|]; etrans; [by eapply append_event_writes|];
          by eapply activate_key_writes);
    eapply (advanced_led a d); [done|done| |done|exact Hins|exact Hadv];
    pose proof (transition_nonterminal a d _ _ Hw Hins) as Ht; apply append_event_keys in He;
    rename Htr into Hr, Hact into Ha, He into Hev end.
  cbn in Ht, Hkey. injection Hread as _ Hcur _ _.
  pose proof (head_key_owned a hrow Hwf Hled Hhin Ht) as Hown.
  eapply handed_over; [| |exact Hev|exact Ha].
  - intros id' Hid. eapply transition_key_spares; [exact Hr|]. intros row Hrow Hfp. left.
    cbn in Hid, Hfp. rewrite (Hown row Hrow) by congruence. congruence.
  - unfold transition_key in Hr. unwind Hr. simplify_eq.
    match goal with H : update_keys a _ _ = Ok _ |- _ => eapply update_keys_none; [exact H|..] end.
    + intros row. split; [done|]. by destruct (xi_reason _).
    + cbn. intros row Hrow Hpid Hst.
      rewrite (led_active a hrow row Hled Hhin Ht Hrow Hpid Hst), Hcur, <- Hkey, Hst.
      by rewrite bool_decide_true.
Qed.

(** A terminal revocation takes a key of its own persona only. *)
Lemma write_terminal_keys a intent sha proof_json t b :
  write_terminal a intent sha proof_json t = Ok b →
  has_terminal a (zi_persona_id intent) = false ∧ has_terminal b (zi_persona_id intent) = true ∧
  ∃ c, transition_key a (zi_previous_key_fingerprint intent) (terminal_key_status (zi_reason intent)) t =
         Ok c ∧ db_keys b = db_keys c.
Proof.
  unfold write_terminal. intros H. unwind H. split_and!.
  { apply not_true_iff_false. intros Ht.
    match type of H with insert_terminal_row ?d _ = _ => assert (writes false a d) as Hw end.
    { clear H. match goal with H : (if _ then _ else _) = Ok _ |- _ => destruct (_ =? 1)%N in H end;
        simplify_eq; wrote. }
    eapply has_terminal_grows in Ht; [|by eapply writes_grows]. statement H. conditions Hchecks.
    match goal with H : negb (exists_in _ _) = true |- _ => rename H into Hno end.
    unfold has_terminal in Ht. apply exists_in_true in Ht as (old & Hin & Hold).
    eapply not_exists in Hin; [|done]. cbn in Hin. by rewrite Hold in Hin. }
  all: statement H.
  { unfold has_terminal. apply exists_in_true. eexists. split; [apply elem_of_app; right; constructor|].
    by apply bool_decide_eq_true. }
  eexists. split; [done|]. cbn.
  match goal with H : append_event _ _ _ _ _ _ _ _ = Ok _ |- _ => apply append_event_keys in H as <- end.
  match goal with H : delete_reference_row _ _ = Ok _ |- _ => statement H end.
  match goal with H : (if _ then _ else _) = Ok _ |- _ => destruct (_ =? 1)%N in H end; [|by simplify_eq].
  match goal with H : append_signing_reference_event _ _ _ _ _ = Ok _ |- _ =>
    by apply reference_event_keys in H end.
Qed.

Lemma terminal_led clock early a id proof root latest head limit r b :
  well_formed a → led a →
  commit_terminal_persona_revocation_inner clock early a id proof root latest head limit = Ok (r, b) →
  led b.
Proof.
  intros Hwf Hled Hok. pose proof (commit_terminal_writes false _ _ _ _ _ _ _ _ _ _ _ Hok) as Hw.
  unfold commit_terminal_persona_revocation_inner in Hok. unwind Hok; simplify_eq; [done|].
  unfold commit_terminal_in in Hok. unwind Hok; simplify_eq; [done|].
  match goal with H : verified_live_continuity_snapshot_with_reservation_in _ a _ _ _ _ _ _ _ = Ok _ |- _ =>
    apply reserved_rows in H as [_ (hrow & Hhin & <- & [_ Hread])] end.
  match goal with H : require_terminal_intent_at_head _ _ _ = Ok _ |- _ =>
    unfold require_terminal_intent_at_head in H; apply seq_Ok in H as [_ H]; unbind H as expected Hn;
    unbind H as ph Hph; rename H into Hat end.
  apply reject_if_Ok in Hat. rewrite !orb_false_iff, !negb_false_iff, !bool_decide_eq_true in Hat.
  destruct Hat as ((((_ & Hkey) & _) & _) & _). injection Hread as _ Hcur _ _. cbn in Hkey.
  match goal with H : write_terminal _ _ _ _ _ = Ok _ |- _ =>
    apply write_terminal_keys in H as (Hnot & Hterm & c & Htr & Hkeys) end. cbn in Hnot, Hterm, Htr.
  eapply led_by_sparing; [done|by eapply writes_grows|apply (writes_same_journal _ _ Hw)|].
  intros h Hin Hta Htb. etrans; [|by apply same_keys_spares].
  eapply transition_key_spares; [exact Htr|]. intros row Hrow Hfp.
  destruct (decide (kw_persona_id row = hw_persona_id h)) as [Hid|]; [|by left]. right. intros Hst.
  pose proof (led_active a h row Hled Hin Hta Hrow Hid Hst) as Hhk.
  assert (h ≠ hrow) as Hne by (intros ->; congruence).
  pose proof (head_key_owned a hrow Hwf Hled Hhin Hnot row Hrow) as Hown.
  apply Hne. eapply (unique_eq hw_persona_id); [apply Hwf|done..|].
  rewrite <- Hid. apply Hown. congruence.
Qed.

Lemma step_led a b : well_formed a → step a b → led a → led b.
Proof.
  intros Hwf Hs Hled.
  destruct Hs as [????? H|????? H|??????? H|????? H|?????? H|?? H|?????? _ H|?????? H|???????? H|??????????? H
    |????????????? H|????????? H].
  - by eapply create_led, H.
  - by eapply enroll_led, H.
  - by eapply rotate_led, H.
  - by eapply compromise_led, H.
  - by eapply bind_led, H.
  - by eapply unbind_led, H.
  - by eapply import_led, H.
  - by eapply root_led, H.
  - by eapply policies_led, H.
  - by eapply routine_led, H.
  - by eapply recovery_led, H.
  - by eapply terminal_led, H.
Qed.

(** C3: the journal and the keys agree. In every database the operations reach,
    a persona with a journal that is not terminally revoked has exactly one
    active key, and it is the key its continuity head names: no operation
    activates a key beside the journal, and none retires or compromises the
    head's key without moving the head or revoking the persona. *)
Theorem head_key_is_the_active_key db : rtc step empty_db db → led db.
Proof.
  intros H. apply rtc_ind_r with (P := λ db, well_formed db ∧ led db) in H; [by apply H| |].
  - split; [apply empty_well_formed|]. by intros head Hin%elem_of_nil.
  - intros a b _ Hs [Hwf Hled]. split; [|by eapply step_led].
    eapply writes_well_formed; [by apply step_writes|done].
Qed.
End operations.
