(* ===== verification/StoreWitness.v ===== *)
(** * Witnesses for backups and the persona store

    The history of [Witness.v] as two backups of one persona, one taken while its
    third key was active, one after the authorities ended it; and its life in a
    store: it is created, enrolls its first key, records its root and its recovery
    policies, rotates, is recovered and is terminally revoked. Every step is an
    operation of the store that is evaluated here. *)

From stdpp Require Import base numbers list strings pretty option gmap relations.
From Stdlib Require Import Strings.Byte Ascii.
From S2P Require Import Prelude Text Ordered Display Crates Io ArtifactProof Continuity RecoveryPolicy RecoveryChain.
From S2P Require Import ContinuityFacts RecoveryPolicyFacts RecoveryCreated Instances Witness Names Fields IpcProtocol TransportWitness StoreTypes StoreCommon.
From S2P Require Import Backup BackupVerify BackupFacts Tables StoredKeys Journal Store Commits Recoveries Writes.
From S2P Require Import StoreFacts JournalFacts HeadFacts.

(** ** Codecs *)

Definition purpose_of (s : string) : option StoreTypes.PersonaPurpose :=
  match purpose_from_str s with Ok p => Some p | _ => None end.
Definition provider_of (s : string) : option KeyProvider :=
  match provider_from_str s with Ok p => Some p | _ => None end.
Definition status_of (s : string) : option KeyStatus :=
  match status_from_str s with Ok p => Some p | _ => None end.

#[export] Instance codec_PersonaPurpose : Codec StoreTypes.PersonaPurpose :=
  codec_via purpose_as_str purpose_of ltac:(by intros []).
#[export] Instance codec_KeyProvider : Codec KeyProvider :=
  codec_via provider_as_str provider_of ltac:(by intros []).
#[export] Instance codec_KeyStatus : Codec KeyStatus :=
  codec_via status_as_str status_of ltac:(by intros []).

#[export] Instance codec_BackupPersona : Codec BackupPersona :=
  codec_via (λ p, (bp_id p, (bp_label p, (bp_purpose p, (bp_created_at p, bp_archived_at p)))))
    (λ '(a, (b, (c, (d, e)))), Some (Build_BackupPersona a b c d e)) ltac:(by intros []).
#[export] Instance codec_BackupKey : Codec BackupKey :=
  codec_via (λ k, (bk_fingerprint k, (bk_public_key k, (bk_provider k, (bk_status k,
      (bk_added_at k, (bk_retired_at k, bk_compromised_at k)))))))
    (λ '(a, (b, (c, (d, (e, (f, g)))))), Some (Build_BackupKey a b c d e f g)) ltac:(by intros []).
#[export] Instance codec_BackupKeyEvent : Codec BackupKeyEvent :=
  codec_via (λ k, (be_ordinal k, (be_key_fingerprint k, (be_event_type k, (be_occurred_at k,
      (be_actor k, (be_policy k, be_note k)))))))
    (λ '(a, (b, (c, (d, (e, (f, g)))))), Some (Build_BackupKeyEvent a b c d e f g))
    ltac:(by intros []).
#[export] Instance codec_BackupPersonaRootEvidence : Codec BackupPersonaRootEvidence :=
  codec_via (λ p, (br_proof p, br_observed_at p))
    (λ '(a, b), Some (Build_BackupPersonaRootEvidence a b)) ltac:(by intros []).
#[export] Instance codec_BackupRecoveryPolicyEvidence : Codec BackupRecoveryPolicyEvidence :=
  codec_via (λ p, (bo_proof p, bo_observed_at p))
    (λ '(a, b), Some (Build_BackupRecoveryPolicyEvidence a b)) ltac:(by intros []).
#[export] Instance codec_BackupTransitionEvidence : Codec BackupTransitionEvidence :=
  codec_via (λ p, (bt_proof p, bt_observed_at p))
    (λ '(a, b), Some (Build_BackupTransitionEvidence a b)) ltac:(by intros []).
#[export] Instance codec_BackupTerminal : Codec BackupTerminalPersonaRevocationEvidence :=
  codec_via (λ p, (bz_proof p, bz_observed_at p))
    (λ '(a, b), Some (Build_BackupTerminalPersonaRevocationEvidence a b)) ltac:(by intros []).
#[export] Instance codec_BackupContinuityArchive : Codec BackupContinuityArchive :=
  codec_via (λ a, (bc_root a, (bc_recovery_policies a, (bc_transitions a, bc_terminal_revocation a))))
    (λ '(a, (b, (c, d))), Some (Build_BackupContinuityArchive a b c d)) ltac:(by intros []).
#[export] Instance codec_BackupContinuity : Codec BackupContinuity :=
  codec_via (λ c, match c with Unmanaged => None | EvidenceArchive a => Some a end)
    (λ o, Some match o with None => Unmanaged | Some a => EvidenceArchive a end) ltac:(by intros []).
#[export] Instance codec_PersonaBackup : Codec PersonaBackup :=
  codec_via (λ b, (pb_backup_schema b, (pb_exported_at b, (pb_persona b, (pb_keys b, (pb_events b,
      pb_continuity b))))))
    (λ '(a, (b, (c, (d, (e, f))))), Some (Build_PersonaBackup a b c d e f)) ltac:(by intros []).

#[export] Instance json_PersonaRootProof : Serde PersonaRootProof := serde_of.
#[export] Instance json_RecoveryPolicyProof : Serde RecoveryPolicyProof := serde_of.
#[export] Instance json_PersonaContinuityTransitionProof : Serde PersonaContinuityTransitionProof :=
  serde_of.
#[export] Instance json_TerminalPersonaRevocationProof : Serde TerminalPersonaRevocationProof :=
  serde_of.
#[export] Instance json_BackupContinuityArchive : Serde BackupContinuityArchive := serde_of.
#[export] Instance json_PersonaBackup : Serde PersonaBackup := serde_of.
#[export] Instance pretty_PersonaBackup : SerdePretty PersonaBackup :=
  {| json_to_vec_pretty x := inr (enc x) |}.

(** ** Two backups of one persona *)

Definition fp_of (key : string) : string :=
  match public_key_fingerprint key with Ok f => f | _ => "" end.

Definition a_key (key : string) (status : KeyStatus) (added : Z) (retired compromised : option Z) :
    BackupKey :=
  {| bk_fingerprint := fp_of key; bk_public_key := key; bk_provider := KeyOpensshFile;
     bk_status := status; bk_added_at := added; bk_retired_at := retired;
     bk_compromised_at := compromised |}.

Definition an_event (n : N) (key event_type : string) (t : Z) : BackupKeyEvent :=
  {| be_ordinal := n; be_key_fingerprint := fp_of key; be_event_type := event_type;
     be_occurred_at := t; be_actor := "local-user"; be_policy := "owner-present"; be_note := None |}.

Definition live_events : list BackupKeyEvent :=
  [an_event 1 key_a "enrolled" 100; an_event 2 key_a "retired" 120; an_event 3 key_e "rotated_in" 120;
   an_event 4 key_e "compromised" 140; an_event 5 key_f "rotated_in" 140].

Definition the_archive (terminal : option BackupTerminalPersonaRevocationEvidence) :
    BackupContinuityArchive :=
  {| bc_root := {| br_proof := the_root_proof; br_observed_at := Some 100%Z |};
     bc_recovery_policies :=
       [{| bo_proof := policy1_proof; bo_observed_at := Some 110%Z |};
        {| bo_proof := policy2_proof; bo_observed_at := None |}];
     bc_transitions :=
       [{| bt_proof := ProofRoutine rotation_proof; bt_observed_at := Some 120%Z |};
        {| bt_proof := ProofRecovery recovery_proof; bt_observed_at := Some 140%Z |}];
     bc_terminal_revocation := terminal |}.

Definition a_backup (keys : list BackupKey) (events : list BackupKeyEvent)
    (terminal : option BackupTerminalPersonaRevocationEvidence) : PersonaBackup :=
  {| pb_backup_schema := PERSONA_BACKUP_SCHEMA; pb_exported_at := 200;
     pb_persona := {| bp_id := "01234567-89ab-cdef-0123-456789abcdef"; bp_label := "Ada";
                      bp_purpose := StoreTypes.Personal; bp_created_at := 90; bp_archived_at := None |};
     pb_keys := keys; pb_events := events;
     pb_continuity := Some (EvidenceArchive (the_archive terminal)) |}.

Definition live_backup : PersonaBackup := Eval vm_compute in
  a_backup
    [a_key key_a Retired 100 (Some 120%Z) None; a_key key_e Compromised 120 None (Some 140%Z);
     a_key key_f Active 140 None None]
    live_events None.

Definition ended_backup : PersonaBackup := Eval vm_compute in
  a_backup
    [a_key key_a Retired 100 (Some 120%Z) None; a_key key_e Compromised 120 None (Some 140%Z);
     a_key key_f Retired 140 (Some 150%Z) None]
    (live_events ++ [an_event 6 key_f "retired" 150])
    (Some {| bz_proof := revocation_proof; bz_observed_at := Some 150%Z |}).

Definition the_pins : BackupContinuityExpectedPins := Eval vm_compute in
  {| xn_root_statement_sha256 := root_digest;
     xn_effective_head := {| cp_transition_sequence := 2;
                             cp_transition_sha256 := Some (vx_transition_statement_sha256 recovery) |};
     xn_latest_policy := PinnedPolicy 2 policy_digest |}.

Definition live_comparison : VerifiedBackupContinuityComparison := Eval vm_compute in
  ok_get (compare_persona_backup_continuity_with_verified_at live_backup the_pins 200) eq_refl.
Definition ended_comparison : VerifiedBackupContinuityComparison := Eval vm_compute in
  ok_get (compare_persona_backup_continuity_with_verified_at ended_backup the_pins 200) eq_refl.

(** ** Witnesses *)

Lemma pins_determine_archive_witness :
  compare_persona_backup_continuity_with_verified_at live_backup the_pins 200 = Ok live_comparison ∧
  compare_persona_backup_continuity_with_verified_at ended_backup the_pins 200 = Ok ended_comparison ∧
  bx_head_relation (vbc_report live_comparison) = Exact ∧
  bx_head_relation (vbc_report ended_comparison) = ExtensionBeyondPin ∧
  let v1 := vbc_verified live_comparison in
  let v2 := vbc_verified ended_comparison in
  (vpr_statement (vb_root v1) = vpr_statement (vb_root v2) ∨
   sha256_collision (root_payload (vb_root v1)) (root_payload (vb_root v2))) ∧
  (vp_statement <$> vb_policies v1 = vp_statement <$> vb_policies v2 ∨
   sha256_collision (policy_payload (vb_policies v1)) (policy_payload (vb_policies v2))) ∧
  (statement_of <$> take 2 (vb_transitions v1) = statement_of <$> take 2 (vb_transitions v2) ∨
   sha256_collision (entry_payload_of (take 2 (vb_transitions v1)))
     (entry_payload_of (take 2 (vb_transitions v2)))) ∧
  (bx_head_relation (vbc_report live_comparison) = Exact → take 2 (vb_transitions v1) = vb_transitions v1).
Proof.
  assert (compare_persona_backup_continuity_with_verified_at live_backup the_pins 200 = Ok live_comparison)
    as H1 by (vm_compute; reflexivity).
  assert (compare_persona_backup_continuity_with_verified_at ended_backup the_pins 200 = Ok ended_comparison)
    as H2 by (vm_compute; reflexivity).
  assert (bx_head_relation (vbc_report live_comparison) = Exact) as H3 by reflexivity.
  assert (bx_head_relation (vbc_report ended_comparison) = ExtensionBeyondPin) as H4 by reflexivity.
  split; [exact H1|]. split; [exact H2|]. split; [exact H3|]. split; [exact H4|].
  exact (pins_determine_archive live_backup ended_backup the_pins 200 200 live_comparison ended_comparison
    H1 H2 (or_introl H3) (or_intror H4)).
Defined.

Lemma verified_backup_consistent_witness :
  verify_persona_backup_continuity_with_digests_at ended_backup 200 =
    Ok (Some (vbc_verified ended_comparison)) ∧
  lived ended_backup true ∧ evidence (vbc_verified ended_comparison).
Proof.
  assert (verify_persona_backup_continuity_with_digests_at ended_backup 200 =
    Ok (Some (vbc_verified ended_comparison))) as H by (vm_compute; reflexivity).
  split; [exact H|].
  destruct (verified_backup_consistent ended_backup 200 (vbc_verified ended_comparison) H) as (Hl & He & _).
  exact (conj Hl He).
Defined.

(** * Witnesses for the persona store *)

(** ** The parameters *)

(** No archive was ever activated in this store. *)
#[export] Instance no_materializations : Materializations := {|
  stored_continuity_materialization_in _ _ := Ok None;
  validate_sealed_continuity_materialization_in _ _ _ :=
    Err (bad_continuity "continuity materialization is absent") |}.

#[export] Instance no_materializations_ok : MaterializationsOk.
Proof. split; done. Qed.

#[export] Instance json_PersonaTransitionProof : Serde PersonaTransitionProof := serde_of.
#[export] Instance json_RecoveryTransitionProof : Serde RecoveryTransitionProof := serde_of.

(** A clock that stands still during an operation. *)
Definition at_time (t : N) : Clock := λ _, Some t.

(** Private key files of the user 0. *)
Definition key_file : Metadata :=
  {| md_is_symlink := false; md_is_file := true; md_is_dir := false; md_is_socket := false;
     md_len := 1; md_readonly := false;
     md_modified := inr 0%Z; md_dev := 1; md_ino := 7; md_uid := 0; md_mode := 0x180;
     md_mtime := 0; md_mtime_nsec := 0; md_ctime := 0; md_ctime_nsec := 0 |}.
Definition key_files : Fs :=
  {| symlink_metadata _ := inr key_file; metadata _ := inr key_file; canonicalize p := inr p;
     fs_read _ := inr [] |}.

(** [ssh-keygen] with the private key of [f] in its file. *)
Definition file_keygen : SshKeygen := {|
  keygen_metadata := inr keygen_file;
  keygen_spawn args input :=
    match args with
    | [_; _; _; path; _; namespace; _] =>
        let key := if path == "/keys/f" then key_f else path in
        inr {| ch_stdin := true;
               ch_write_all := None;
               ch_try_wait _ := Exited;
               ch_wait_with_output :=
                 inr {| out_success := true; out_status := "";
                        out_stdout := as_bytes (signature_text key namespace input) |} |}
    | _ => inl "unknown command"
    end;
  instant_start := 0;
  instant_at i := (20 * N.of_nat i)%N |}.

(** ** A life *)

Definition ada_id : string := "01234567-89ab-cdef-0123-456789abcdef".
Definition ben_id : string := "11234567-89ab-cdef-0123-456789abcdef".

Definition created : StoreResult (Persona * Db) :=
  create_persona (at_time 90) ada_id empty_db "Ada" StoreTypes.Personal.
Definition created_result := Eval vm_compute in ok_get created eq_refl.
Definition db_created : Db := Eval cbv [snd created_result] in created_result.2.

Definition enrolled : StoreResult (KeyRecord * Db) :=
  enroll_key (at_time 95) db_created ada_id key_a KeyOpensshFile.
Definition enrolled_result := Eval vm_compute in ok_get enrolled eq_refl.
Definition db_enrolled : Db := Eval cbv [snd enrolled_result] in enrolled_result.2.

Definition rooted : StoreResult (RecordedPersonaRoot * Db) :=
  record_continuity_root (at_time 105) db_enrolled db_enrolled ada_id the_root_proof root_digest.
Definition rooted_result := Eval vm_compute in ok_get rooted eq_refl.
Definition db_rooted : Db := Eval cbv [snd rooted_result] in rooted_result.2.

Definition first_policy : StoreResult (RecordedRecoveryPolicyChain * Db) :=
  record_recovery_policy_chain (at_time 115) db_rooted ada_id [policy1_proof] root_digest
    (vp_policy_statement_sha256 policy1) {| cp_transition_sequence := 0; cp_transition_sha256 := None |}.
Definition first_policy_result := Eval vm_compute in ok_get first_policy eq_refl.
Definition db_guarded : Db := Eval cbv [snd first_policy_result] in first_policy_result.2.

Definition rotated : StoreResult (CommittedRoutineTransition * Db) :=
  commit_routine_transition (at_time 125) key_files key_files 0 db_guarded db_guarded ada_id
    rotation_proof KeyOpensshFile "/keys/e".
Definition rotated_result := Eval vm_compute in ok_get rotated eq_refl.
Definition db_rotated : Db := Eval cbv [snd rotated_result] in rotated_result.2.

Definition after_rotation : PersonaContinuityCheckpoint :=
  {| cp_transition_sequence := 1; cp_transition_sha256 := Some rotation_digest |}.

Definition second_policy : StoreResult (RecordedRecoveryPolicyChain * Db) :=
  record_recovery_policy_chain (at_time 135) db_rotated ada_id policy_proofs root_digest
    policy_digest after_rotation.
Definition second_policy_result := Eval vm_compute in ok_get second_policy eq_refl.
Definition db_armed : Db := Eval cbv [snd second_policy_result] in second_policy_result.2.

Definition the_sightings : SignerSightings :=
  {| sg_candidate := key_files; sg_before := key_files; sg_after := key_files; sg_commit := key_files;
     sg_binding := key_files; sg_nonce := Some [x01]; sg_euid := 0 |}.

Definition recovered : StoreResult (CommittedRecoveryTransition * Db) :=
  commit_recovery_transition (keygen := file_keygen) (at_time 145) the_sightings db_armed db_armed
    ada_id recovery_proof root_digest policy_digest after_rotation KeyOpensshFile "/keys/f".
Definition recovered_result := Eval vm_compute in ok_get recovered eq_refl.
Definition db_recovered : Db := Eval cbv [snd recovered_result] in recovered_result.2.

Definition revoked : StoreResult (CommittedTerminalPersonaRevocation * Db) :=
  commit_terminal_persona_revocation (at_time 155) db_recovered db_recovered ada_id revocation_proof
    root_digest policy_digest
    {| cp_transition_sequence := 2;
       cp_transition_sha256 := Some (vx_transition_statement_sha256 recovery) |}.
Definition revoked_result := Eval vm_compute in ok_get revoked eq_refl.
Definition db_revoked : Db := Eval cbv [snd revoked_result] in revoked_result.2.

(** Another persona comes after it. *)
Definition followed : StoreResult (Persona * Db) :=
  create_persona (at_time 160) ben_id db_revoked "Ben" StoreTypes.Personal.
Definition followed_result := Eval vm_compute in ok_get followed eq_refl.
Definition db_followed : Db := Eval cbv [snd followed_result] in followed_result.2.

(** ** Its steps *)

(** [evaluated m] is what the operation [m] returned. *)
Ltac evaluated := vm_compute; reflexivity.

Lemma created_Ok : created = Ok created_result.
Proof. evaluated. Qed.
Lemma step_created : step empty_db db_created.
Proof. pose proof created_Ok as H. unfold created in H. eapply step_create, H. Qed.
Lemma enrolled_Ok : enrolled = Ok enrolled_result.
Proof. evaluated. Qed.
Lemma step_enrolled : step db_created db_enrolled.
Proof. pose proof enrolled_Ok as H. unfold enrolled in H. eapply step_enroll, H. Qed.
Lemma rooted_Ok : rooted = Ok rooted_result.
Proof. evaluated. Qed.
Lemma step_rooted : step db_enrolled db_rooted.
Proof. pose proof rooted_Ok as H. unfold rooted in H. eapply step_root, H. Qed.
Lemma first_policy_Ok : first_policy = Ok first_policy_result.
Proof. evaluated. Qed.
Lemma step_guarded : step db_rooted db_guarded.
Proof. pose proof first_policy_Ok as H. unfold first_policy, record_recovery_policy_chain in H. eapply step_policies, H. Qed.
Lemma rotated_Ok : rotated = Ok rotated_result.
Proof. evaluated. Qed.
Lemma step_rotated : step db_guarded db_rotated.
Proof. pose proof rotated_Ok as H. unfold rotated, commit_routine_transition in H. eapply step_routine, H. Qed.
Lemma second_policy_Ok : second_policy = Ok second_policy_result.
Proof. evaluated. Qed.
Lemma step_armed : step db_rotated db_armed.
Proof. pose proof second_policy_Ok as H. unfold second_policy, record_recovery_policy_chain in H. eapply step_policies, H. Qed.
Lemma recovered_Ok : recovered = Ok recovered_result.
Proof. evaluated. Qed.
Lemma step_recovered : step db_armed db_recovered.
Proof. pose proof recovered_Ok as H. unfold recovered, commit_recovery_transition in H. exact (step_recovery _ _ file_keygen _ _ _ _ _ _ _ _ _ _ _ _ H). Qed.
Lemma revoked_Ok : revoked = Ok revoked_result.
Proof. evaluated. Qed.
Lemma step_revoked : step db_recovered db_revoked.
Proof. pose proof revoked_Ok as H. unfold revoked, commit_terminal_persona_revocation in H. eapply step_terminal, H. Qed.
Lemma followed_Ok : followed = Ok followed_result.
Proof. evaluated. Qed.
Lemma step_followed : step db_revoked db_followed.
Proof. pose proof followed_Ok as H. unfold followed in H. eapply step_create, H. Qed.

Lemma life_recovered : rtc step empty_db db_recovered.
Proof.
  eauto 10 using rtc_l, rtc_refl, step_created, step_enrolled, step_rooted, step_guarded, step_rotated,
    step_armed, step_recovered.
Qed.
Lemma life_revoked : rtc step empty_db db_revoked.
Proof. eapply rtc_r; [exact life_recovered|exact step_revoked]. Qed.
Lemma afterlife : rtc step db_revoked db_followed.
Proof. apply rtc_once, step_followed. Qed.

(** ** Witnesses *)

Lemma trail_only_grows_witness : grows empty_db db_revoked.
Proof. apply (trail_only_grows empty_db db_revoked life_revoked). Defined.

Lemma reachable_is_well_formed_witness : well_formed db_revoked.
Proof. apply (reachable_is_well_formed db_revoked life_revoked). Defined.

Lemma journal_never_forks_witness : journaled db_revoked ∧ length (transitions_of db_revoked ada_id) = 2.
Proof. split; [apply (journal_never_forks db_revoked life_revoked)|reflexivity]. Defined.

Lemma head_key_is_the_active_key_witness :
  led db_recovered ∧ kw_fingerprint <$> active_of db_recovered ada_id = [fp_of key_f].
Proof. split; [apply (head_key_is_the_active_key db_recovered life_recovered)|vm_compute; reflexivity]. Defined.

(** The last signer the persona had. *)
Definition last_signer_result := Eval vm_compute in
  ok_get (active_signer_for_persona (at_time 148) key_files 0 db_recovered ada_id) eq_refl.

Lemma terminal_persona_is_frozen_witness :
  has_terminal db_revoked ada_id = true ∧ same_persona ada_id db_revoked db_followed ∧
  active_signer_for_persona (at_time 148) key_files 0 db_followed ada_id ≠ Ok last_signer_result.
Proof.
  split; [reflexivity|].
  exact (terminal_persona_is_frozen db_revoked db_followed ada_id (at_time 148) key_files 0
    last_signer_result life_revoked eq_refl afterlife).
Defined.

(** The compromised key [e] after the recovery. *)
Definition row_e : KeyRow := Eval vm_compute in
  {| kw_fingerprint := fp_of key_e; kw_persona_id := ada_id; kw_public_key := key_e;
     kw_provider := "openssh-file"; kw_status := "compromised"; kw_added_at := 125;
     kw_retired_at := None; kw_compromised_at := Some 145%Z |}.

Lemma row_e_stored : row_e ∈ db_keys db_recovered.
Proof. apply (list_elem_of_lookup_2 _ 1). vm_compute. reflexivity. Qed.

Lemma inactive_key_never_signs_witness :
  kw_status row_e = "compromised" ∧
  (∀ clock fs euid id signer, active_signer_for_persona clock fs euid db_revoked id = Ok signer →
     kr_fingerprint (as_key signer) ≠ fp_of key_e) ∧
  with_active_key_authorization id (at_time 170) db_revoked None None (fp_of key_e) "Ada" (λ _, Ok true) =
  with_active_key_authorization id (at_time 170) db_revoked None None (fp_of key_e) "Ada" (λ _, Ok false).
Proof.
  split; [reflexivity|].
  destruct (inactive_key_never_signs (T := bool) (E := StoreError) db_recovered db_revoked (fp_of key_e) row_e
    life_recovered row_e_stored) as [Hsigner Hop]; [vm_compute; reflexivity|vm_compute; discriminate| |].
  - apply rtc_once, step_revoked.
  - split; [exact Hsigner|apply Hop].
Defined.
