(* ===== verification/Disk.v ===== *)
(** * Directories on disk

    The part of a file system below the places a package is unpacked to: which
    directories and regular files there are, with their permission bits and
    contents. A path is resolved when a call is made with it, so that [..] leads
    to the parent of the directory before it. The calls of [std::fs] that create
    nodes fail as Linux lets them fail, or when the environment says so. *)

From stdpp Require Import base numbers list strings option gmap.
From Stdlib Require Import Strings.Byte.
From S2P Require Import Prelude Text Crates Io.

(** ** Nodes *)

(** A place is the components of its path, the last one first, so that the
    parent is the tail. *)
Abbreviation place := (list string).

Inductive Node :=
| DirNode (mode : N)
| FileNode (mode : N) (content : bytes).

#[export] Instance Node_eq_dec : EqDecision Node.
Proof. solve_decision. Defined.

Abbreviation Nodes := (gmap (list string) Node).

(** The disk, and the number of calls made so far. *)
Record Disk := { dk_nodes : Nodes; dk_calls : nat }.

(** The environment: the file mode creation mask of the process, and the calls
    that fail for reasons outside of it (a full disk, say), with the text of the
    error; a write that fails has written some bytes before. That something is
    not found is only said when it is missing. *)
Class DiskEnv := {
  umask : N;
  disk_fault : nat → option (string * nat);
}.

Definition fault_error (message : string) : IoError :=
  {| io_kind := OtherErrorKind; io_message := message |}.

Definition AlreadyExists : IoError :=
  {| io_kind := OtherErrorKind; io_message := "File exists (os error 17)" |}.
Definition NotADirectory : IoError :=
  {| io_kind := OtherErrorKind; io_message := "Not a directory (os error 20)" |}.
Definition NoSuchFile : IoError :=
  {| io_kind := NotFound; io_message := "No such file or directory (os error 2)" |}.

(** [mode & !umask] *)
Definition masked `{!DiskEnv} (mode : N) : N := N.ldiff mode umask.

(** ** Programs that change the disk *)

(** A fallible program: it leaves a disk also when it fails. *)
Definition DiskM (E A : Type) : Type := Disk → result E A * Disk.

#[export] Instance disk_ret E : MRet (DiskM E) := λ A a d, (Ok a, d).
#[export] Instance disk_bind E : MBind (DiskM E) := λ A B f m d,
  match m d with
  | (Ok a, d') => f a d'
  | (Err e, d') => (Err e, d')
  | (Panic p, d') => (Panic p, d')
  end.

(** What does not touch the disk. *)
Definition lift {E A} (r : result E A) : DiskM E A := λ d, (r, d).

(** [.map_err(f)] *)
Definition disk_map_err {E F A} (f : E → F) (m : DiskM E A) : DiskM F A := λ d,
  let '(r, d') := m d in (map_err f r, d').

(** The loop [for x in xs { state = body(state, x)?; }]. *)
Fixpoint fold_disk {E S A} (body : S → A → DiskM E S) (s : S) (xs : list A) : DiskM E S :=
  match xs with
  | [] => mret s
  | x :: xs' => s' ← body s x; fold_disk body s' xs'
  end.

(** ** Calls *)

Section calls.
Context {env : DiskEnv}.

(** One system call: it counts, and may fail. *)
Definition disk_call {A} (f : Nodes → IoError + A * Nodes) : DiskM IoError A := λ d,
  let count nodes := {| dk_nodes := nodes; dk_calls := S (dk_calls d) |} in
  match disk_fault (dk_calls d) with
  | Some (e, _) => (Err (fault_error e), count (dk_nodes d))
  | None =>
      match f (dk_nodes d) with
      | inl e => (Err e, count (dk_nodes d))
      | inr (a, nodes) => (Ok a, count nodes)
      end
  end.

(** Resolving a path from the root on. *)
Definition parent_of (p : place) : place := match p with ["/"] => ["/"] | _ => tail p end.

Fixpoint walk (nodes : Nodes) (p : place) : IoError + place :=
  match p with
  | [] => inr []
  | c :: parent =>
      if c == "/" then inr ["/"]
      else
        match walk nodes parent with
        | inl e => inl e
        | inr q =>
            if (c == ".") || (c == "..") then
              match nodes !! q with
              | Some (DirNode _) => inr (if c == "." then q else parent_of q)
              | Some (FileNode _ _) => inl NotADirectory
              | None => inl NoSuchFile
              end
            else inr (c :: q)
        end
  end.

Definition at_place {A} (p : place) (f : place → Nodes → IoError + A * Nodes) (nodes : Nodes) :
    IoError + A * Nodes :=
  match walk nodes p with inl e => inl e | inr q => f q nodes end.

(** A new entry needs a directory to be in. *)
Definition create_node (p : place) (node : Node) (nodes : Nodes) : IoError + unit * Nodes :=
  match p with
  | [] => inl AlreadyExists
  | _ :: parent =>
      match nodes !! p, nodes !! parent with
      | Some _, _ => inl AlreadyExists
      | None, Some (DirNode _) => inr (tt, <[p := node]> nodes)
      | None, Some (FileNode _ _) => inl NotADirectory
      | None, None => inl NoSuchFile
      end
  end.

(** [fs::create_dir], with mode 0777 before the mask. *)
Definition create_dir (p : place) : DiskM IoError unit :=
  disk_call (at_place p (λ q, create_node q (DirNode (masked 511)))).

(** [Path::is_dir] *)
Definition is_dir (p : place) : Disk → bool := λ d,
  match walk (dk_nodes d) p with
  | inr q => match dk_nodes d !! q with Some (DirNode _) => true | _ => false end
  | inl _ => false
  end.

(** [fs::create_dir_all]: a missing parent is created first; an existing
    directory is not an error. *)
Definition create_dir_if_missing (p : place) (missing : DiskM IoError unit) : DiskM IoError unit := λ d,
  match create_dir p d with
  | (Err e, d') =>
      if io_kind e == NotFound then missing d'
      else if is_dir p d' then (Ok tt, d') else (Err e, d')
  | r => r
  end.

Definition create_dir_unless_there (p : place) : DiskM IoError unit := λ d,
  match create_dir p d with
  | (Err e, d') => if is_dir p d' then (Ok tt, d') else (Err e, d')
  | r => r
  end.

Fixpoint create_dir_all (p : place) : DiskM IoError unit :=
  create_dir_if_missing p
    match p with
    | [] => lift (Err {| io_kind := OtherErrorKind; io_message := "failed to create whole tree" |})
    | _ :: parent => create_dir_all parent;; create_dir_unless_there p
    end.

(** [fs::set_permissions] *)
Definition set_permissions (p : place) (mode : N) : DiskM IoError unit :=
  disk_call (at_place p (λ q nodes,
    match nodes !! q with
    | Some (DirNode _) => inr (tt, <[q := DirNode mode]> nodes)
    | Some (FileNode _ content) => inr (tt, <[q := FileNode mode content]> nodes)
    | None => inl NoSuchFile
    end)).

(** [OpenOptions::new().write(true).create_new(true).open], with mode 0666
    before the mask. *)
Definition create_new (p : place) : DiskM IoError unit :=
  disk_call (at_place p (λ q, create_node q (FileNode (masked 438) []))).

(** Bytes are added at the end of a file that is open for writing. *)
Definition append_node (p : place) (bs : bytes) (nodes : Nodes) : Nodes :=
  match walk nodes p with
  | inr q =>
      match nodes !! q with
      | Some (FileNode mode content) => <[q := FileNode mode (content ++ bs)]> nodes
      | _ => nodes
      end
  | inl _ => nodes
  end.

(** [File::write_all] on the file that was opened at [p]. *)
Definition file_write_all (p : place) (bs : bytes) : DiskM IoError unit := λ d,
  let count nodes := {| dk_nodes := nodes; dk_calls := S (dk_calls d) |} in
  match disk_fault (dk_calls d) with
  | Some (e, n) => (Err (fault_error e), count (append_node p (take n bs) (dk_nodes d)))
  | None => (Ok tt, count (append_node p bs (dk_nodes d)))
  end.

(** [File::flush] does nothing for a file; [File::sync_all] changes nothing
    that can be read, but can fail. *)
Definition file_flush (p : place) : DiskM IoError unit := mret tt.
Definition file_sync (p : place) : DiskM IoError unit := disk_call (λ nodes, inr (tt, nodes)).

End calls.

(** ** Laws of the programs *)

Lemma disk_bind_Ok {E A B} (m : DiskM E A) (f : A → DiskM E B) d b d' :
  (m ≫= f) d = (Ok b, d') ↔ ∃ a d1, m d = (Ok a, d1) ∧ f a d1 = (Ok b, d').
Proof.
  unfold mbind, disk_bind. destruct (m d) as [[a|e|p] d1].
  - split; [eauto|]. by intros (? & ? & [= -> ->] & ?).
  - split; [done|]. by intros (? & ? & ? & ?).
  - split; [done|]. by intros (? & ? & ? & ?).
Qed.

Lemma lift_Ok {E A} (r : result E A) d a d' : lift r d = (Ok a, d') ↔ r = Ok a ∧ d' = d.
Proof. unfold lift. naive_solver. Qed.

Lemma disk_map_err_Ok {E F A} (f : E → F) (m : DiskM E A) d a d' :
  disk_map_err f m d = (Ok a, d') ↔ m d = (Ok a, d').
Proof.
  unfold disk_map_err. destruct (m d) as [[]]; cbn; naive_solver.
Qed.

#[export] Hint Rewrite @lift_Ok @disk_map_err_Ok : ok.

(** [disk_split H as a d Ha] splits the success of a bind. *)
Tactic Notation "disk_split" hyp(H) "as" simple_intropattern(a) simple_intropattern(d) simple_intropattern(Ha) :=
  apply disk_bind_Ok in H as (a & d & Ha & H).

(** What a program does to the disk, whatever its outcome: a relation that is
    reflexive and transitive is kept by every composition. *)
Definition leaves (R : Disk → Disk → Prop) {E A} (m : DiskM E A) : Prop :=
  ∀ d, R d (m d).2.

Section leaves.
Context (R : Disk → Disk → Prop) `{!PreOrder R}.

Lemma leaves_lift {E A} (r : result E A) : leaves R (lift r).
Proof. intros d. cbn. reflexivity. Qed.

Lemma leaves_ret {E A} (a : A) : leaves R (mret (M:=DiskM E) a).
Proof. intros d. cbn. reflexivity. Qed.

Lemma leaves_bind {E A B} (m : DiskM E A) (f : A → DiskM E B) :
  leaves R m → (∀ a, leaves R (f a)) → leaves R (m ≫= f).
Proof.
  intros Hm Hf d. unfold mbind, disk_bind. specialize (Hm d).
  destruct (m d) as [[a|e|p] d1]; cbn in *; [|done..]. etrans; [exact Hm|apply Hf].
Qed.

Lemma leaves_map_err {E F A} (f : E → F) (m : DiskM E A) :
  leaves R m → leaves R (disk_map_err f m).
Proof.
  intros Hm d. specialize (Hm d). unfold disk_map_err. by destruct (m d).
Qed.

Lemma leaves_fold {E S A} (body : S → A → DiskM E S) s xs :
  (∀ s x, leaves R (body s x)) → leaves R (fold_disk body s xs).
Proof.
  intros Hb. revert s. induction xs as [|x xs IH]; intros s; cbn; [apply leaves_ret|].
  apply leaves_bind; [apply Hb|apply IH].
Qed.
End leaves.

(** The Hoare rule of the loop. *)
Lemma fold_disk_ind {E S A} (body : S → A → DiskM E S) (P : list A → S → Disk → Prop) xs s d s' d' :
  P [] s d →
  (∀ done x st d st' d', P done st d → body st x d = (Ok st', d') → P (done ++ [x]) st' d') →
  fold_disk body s xs d = (Ok s', d') → P xs s' d'.
Proof.
  intros H0 Hstep.
  cut (∀ done, P done s d → fold_disk body s xs d = (Ok s', d') → P (done ++ xs) s' d').
  { intros H. by apply (H []). }
  clear H0. revert s d. induction xs as [|x xs IH]; intros s d done HP Hf; cbn in Hf.
  - injection Hf as <- <-. by rewrite app_nil_r.
  - disk_split Hf as s1 d1 H1. rewrite cons_middle, app_assoc. eapply IH; eauto.
Qed.

(** ** Plain paths *)

(** A path that is what it says: only names, possibly below the root. *)
Definition plain_component (c : string) : Prop := c ≠ "/" ∧ c ≠ "." ∧ c ≠ "..".
Fixpoint plain (p : place) : Prop :=
  match p with
  | [] => True
  | c :: parent => plain_component c ∧ plain parent ∨ c = "/" ∧ parent = []
  end.

#[export] Instance plain_dec p : Decision (plain p).
Proof. induction p; cbn; apply _. Defined.

Lemma walk_plain nodes p : plain p → walk nodes p = inr p.
Proof.
  induction p as [|c p IH]; [done|]. cbn [plain walk]. intros [[(H1 & H2 & H3) Hp]|[-> ->]]; [|done].
  rewrite (IH Hp), !bool_decide_eq_false_2 by done. done.
Qed.

Lemma at_place_plain {A} (p : place) (f : place → Nodes → IoError + A * Nodes) nodes :
  plain p → at_place p f nodes = f p nodes.
Proof. intros Hp. unfold at_place. by rewrite walk_plain. Qed.

Lemma plain_parent c p : plain (c :: p) → plain p.
Proof. cbn. by intros [[_ ?]|[_ ->]]. Qed.

(** ** What the calls do *)

(** Everything lies in a directory. *)
Definition closed (nodes : Nodes) : Prop :=
  ∀ c p node, nodes !! (c :: p) = Some node → ∃ mode, nodes !! p = Some (DirNode mode).

Lemma closed_below nodes c p : closed nodes → nodes !! p = None → nodes !! (c :: p) = None.
Proof.
  intros Hc Hp. destruct (nodes !! (c :: p)) as [node|] eqn:E; [|done].
  destruct (Hc _ _ _ E) as [mode ?]. congruence.
Qed.

Lemma closed_below_app nodes q p : closed nodes → nodes !! p = None → nodes !! (q ++ p) = None.
Proof. intros Hc Hp. induction q as [|c q IH]; [done|]. by apply closed_below. Qed.

(** The kind of what is there does not change. *)
Definition same_kind (a b : Node) : Prop :=
  match a, b with DirNode _, DirNode _ | FileNode _ _, FileNode _ _ => True | _, _ => False end.

Lemma closed_update nodes p old new :
  closed nodes → nodes !! p = Some old → same_kind old new → closed (<[p := new]> nodes).
Proof.
  intros Hc Hp Hk c q node Hq. destruct (decide (c :: q = p)) as [<-|Hne].
  - rewrite lookup_insert_eq in Hq. destruct (Hc _ _ _ Hp) as [mode Hmode].
    exists mode. rewrite lookup_insert_ne; [done|]. intros Heq.
    by apply (f_equal length) in Heq; cbn in Heq; lia.
  - rewrite lookup_insert_ne in Hq by done. destruct (Hc _ _ _ Hq) as [mode Hmode].
    destruct (decide (q = p)) as [->|Hqp].
    + rewrite lookup_insert_eq. rewrite Hmode in Hp. injection Hp as <-.
      destruct new; [eauto|done].
    + rewrite lookup_insert_ne by done. eauto.
Qed.

Lemma closed_create nodes c parent mode node :
  closed nodes → nodes !! (c :: parent) = None → nodes !! parent = Some (DirNode mode) →
  closed (<[c :: parent := node]> nodes).
Proof.
  intros Hc Hp Hparent c' q node' Hq. destruct (decide (c' :: q = c :: parent)) as [[= -> ->]|Hne].
  - exists mode. rewrite lookup_insert_ne; [done|]. intros Heq.
    by apply (f_equal length) in Heq; cbn in Heq; lia.
  - rewrite lookup_insert_ne in Hq by done. destruct (Hc _ _ _ Hq) as [mode' Hmode].
    exists mode'. rewrite lookup_insert_ne; [done|]. intros <-. congruence.
Qed.

Section call_facts.
Context {env : DiskEnv}.

Lemma disk_call_Ok {A} (f : Nodes → IoError + A * Nodes) d a d' :
  disk_call f d = (Ok a, d') → f (dk_nodes d) = inr (a, dk_nodes d').
Proof.
  unfold disk_call. destruct (disk_fault (dk_calls d)) as [[]|]; [done|].
  destruct (f (dk_nodes d)) as [|[]]; [done|]. by intros [= <- <-].
Qed.

(** A call that fails changes nothing. *)
Lemma disk_call_Err {A} (f : Nodes → IoError + A * Nodes) d e d' :
  disk_call f d = (Err e, d') →
  dk_nodes d' = dk_nodes d ∧ (f (dk_nodes d) = inl e ∨ io_kind e ≠ NotFound).
Proof.
  unfold disk_call. destruct (disk_fault (dk_calls d)) as [[]|]; [by intros [= <- <-]; split; [|right]|].
  destruct (f (dk_nodes d)) as [|[]]; [|done]. intros [= <- <-]. split; [done|by left].
Qed.

Lemma disk_call_total {A} (f : Nodes → IoError + A * Nodes) d : no_panic (disk_call f d).1.
Proof.
  unfold disk_call. destruct (disk_fault (dk_calls d)) as [[]|]; [done|].
  by destruct (f (dk_nodes d)) as [|[]].
Qed.

(** A call with a plain path. *)
Lemma disk_call_at {A} (p : place) (f : place → Nodes → IoError + A * Nodes) d :
  plain p → disk_call (at_place p f) d = disk_call (f p) d.
Proof. intros Hp. unfold disk_call. by rewrite at_place_plain. Qed.

Lemma is_dir_plain p d :
  plain p → is_dir p d = match dk_nodes d !! p with Some (DirNode _) => true | _ => false end.
Proof. intros Hp. unfold is_dir. by rewrite walk_plain. Qed.

Lemma create_dir_plain p d : plain p → create_dir p d = disk_call (create_node p (DirNode (masked 511))) d.
Proof. exact (disk_call_at p (λ q, create_node q (DirNode (masked 511))) d). Qed.

Lemma create_node_Ok p node nodes a nodes' :
  create_node p node nodes = inr (a, nodes') →
  ∃ c parent mode, p = c :: parent ∧ nodes !! p = None ∧ nodes !! parent = Some (DirNode mode) ∧
    nodes' = <[p := node]> nodes.
Proof.
  unfold create_node. destruct p as [|c parent]; [done|].
  destruct (nodes !! (c :: parent)) eqn:Hp; [done|].
  destruct (nodes !! parent) as [[mode|]|] eqn:Hparent; [|done..]. intros [= <- <-]. eauto 10.
Qed.

Lemma create_node_missing p node nodes e :
  create_node p node nodes = inl e → io_kind e = NotFound → ∃ c parent, p = c :: parent ∧
    nodes !! p = None ∧ nodes !! parent = None.
Proof.
  unfold create_node. destruct p as [|c parent]; [by intros [= <-]|].
  destruct (nodes !! (c :: parent)) eqn:Hp; [by intros [= <-]|].
  destruct (nodes !! parent) as [[|]|] eqn:Hparent; [done|by intros [= <-]|]. intros [= <-] _. eauto.
Qed.

(** New directories at [p] and above it, and nothing else. *)
Definition grown (p : place) (a b : Nodes) : Prop :=
  ∀ r, b !! r = a !! r ∨ a !! r = None ∧ r `suffix_of` p ∧ b !! r = Some (DirNode (masked 511)).

Lemma grown_refl p a : grown p a a.
Proof. intros r. by left. Qed.

Lemma grown_trans p a b c : grown p a b → grown p b c → grown p a c.
Proof.
  intros Hab Hbc r. destruct (Hbc r) as [->|(Hb & Hs & Hc)]; [apply Hab|].
  destruct (Hab r) as [Heq|(? & ? & ?)]; [|congruence]. right. split_and!; [congruence|done..].
Qed.

Lemma grown_parent c p a b : grown p a b → grown (c :: p) a b.
Proof.
  intros H r. destruct (H r) as [?|(? & ? & ?)]; [by left|right]. split_and!; [done| |done].
  by apply suffix_cons_r.
Qed.

(** [fs::create_dir] makes one directory or changes nothing. *)
Lemma create_dir_cases p d : plain p →
  match create_dir p d with
  | (Ok _, d') => closed (dk_nodes d) →
      grown p (dk_nodes d) (dk_nodes d') ∧ closed (dk_nodes d') ∧ is_dir p d' = true ∧
      dk_nodes d !! p = None
  | (Err e, d') => dk_nodes d' = dk_nodes d ∧
      (io_kind e = NotFound → ∃ c parent, p = c :: parent ∧ dk_nodes d !! parent = None)
  | (Panic _, d') => False
  end.
Proof.
  intros Hplain. rewrite create_dir_plain by done.
  destruct (disk_call (create_node p (DirNode (masked 511))) d) as [[a|e|s] d'] eqn:E.
  - apply disk_call_Ok, create_node_Ok in E as (c & parent & mode & -> & Hp & Hparent & Hd).
    intros Hc. rewrite is_dir_plain, Hd by done. split_and!; [|by eapply closed_create| |done].
    + intros r. destruct (decide (r = c :: parent)) as [->|Hne].
      * right. by rewrite lookup_insert_eq.
      * left. by rewrite lookup_insert_ne.
    + by rewrite lookup_insert_eq.
  - apply disk_call_Err in E as [? [Hm|Hk]]; (split; [done|]); intros Hnf; [|done].
    destruct (create_node_missing _ _ _ _ Hm Hnf) as (c & parent & -> & ? & ?). eauto.
  - pose proof (disk_call_total (create_node p (DirNode (masked 511))) d) as H. by rewrite E in H.
Qed.

Lemma create_dir_unless_there_effect p d : plain p → closed (dk_nodes d) →
  let '(r, d') := create_dir_unless_there p d in
  grown p (dk_nodes d) (dk_nodes d') ∧ closed (dk_nodes d') ∧ (r = Ok tt → is_dir p d' = true) ∧
  no_panic r.
Proof.
  intros Hplain Hc. unfold create_dir_unless_there. pose proof (create_dir_cases p d Hplain) as H.
  destruct (create_dir p d) as [[[]|e|s] d']; [|destruct H as [Hd _]|done].
  - destruct (H Hc) as (? & ? & ? & _). done.
  - destruct (is_dir p d') eqn:E; rewrite Hd; (split_and!; [apply grown_refl|done|done|done]).
Qed.

(** [fs::create_dir_all] makes missing directories above the path, whatever its
    outcome, and the path is a directory when it succeeds. *)
Lemma create_dir_all_effect p d : plain p → closed (dk_nodes d) →
  let '(r, d') := create_dir_all p d in
  grown p (dk_nodes d) (dk_nodes d') ∧ closed (dk_nodes d') ∧ (r = Ok tt → is_dir p d' = true) ∧
  no_panic r.
Proof.
  intros Hplain. revert d. induction p as [|c p IH]; intros d Hc; cbn [create_dir_all]; unfold create_dir_if_missing.
  - pose proof (create_dir_cases [] d Hplain) as H.
    destruct (create_dir [] d) as [[[]|e|s] d']; [|destruct H as [Hd _]|done].
    + destruct (H Hc) as (? & ? & ? & _). done.
    + case_bool_decide; unfold lift; [|destruct (is_dir [] d') eqn:E];
        rewrite Hd; (split_and!; [apply grown_refl|done|done|done]).
  - specialize (IH (plain_parent _ _ Hplain)). pose proof (create_dir_cases (c :: p) d Hplain) as H.
    destruct (create_dir (c :: p) d) as [[[]|e|s] d']; [|destruct H as [Hd _]|done].
    { destruct (H Hc) as (? & ? & ? & _). done. }
    case_bool_decide as Hnf; [|destruct (is_dir (c :: p) d') eqn:E;
      rewrite Hd; (split_and!; [apply grown_refl|done|done|done])].
    unfold mbind, disk_bind. specialize (IH d'). rewrite Hd in IH. specialize (IH Hc).
    destruct (create_dir_all p d') as [[[]|e1|s1] d1];
      [|by destruct IH as (?%(grown_parent c) & ? & ? & ?)..].
    destruct IH as (Hg1%(grown_parent c) & Hc1 & _ & _).
    pose proof (create_dir_unless_there_effect (c :: p) d1 Hplain Hc1) as H1.
    destruct (create_dir_unless_there (c :: p) d1) as [r d2]. destruct H1 as (Hg2 & ? & ? & ?).
    split_and!; [by eapply grown_trans|done..].
Qed.

(** [fs::set_permissions] changes the mode of one node. *)
Lemma set_permissions_Ok p mode d a d' :
  plain p → set_permissions p mode d = (Ok a, d') → ∃ old, dk_nodes d !! p = Some old ∧
    dk_nodes d' = <[p := match old with DirNode _ => DirNode mode | FileNode _ bs => FileNode mode bs end]> (dk_nodes d).
Proof.
  intros Hp H%disk_call_Ok. rewrite at_place_plain in H by done.
  destruct (dk_nodes d !! p) as [[|]|] eqn:E; [..|done];
    injection H as _ <-; eauto.
Qed.

Lemma set_permissions_fails p mode d e d' :
  set_permissions p mode d = (Err e, d') → dk_nodes d' = dk_nodes d.
Proof. by intros [? _]%disk_call_Err. Qed.

(** A new file is empty and was not there. *)
Lemma create_new_Ok p d a d' :
  plain p → create_new p d = (Ok a, d') → ∃ c parent mode, p = c :: parent ∧ dk_nodes d !! p = None ∧
    dk_nodes d !! parent = Some (DirNode mode) ∧ dk_nodes d' = <[p := FileNode (masked 438) []]> (dk_nodes d).
Proof. intros Hp H%disk_call_Ok. rewrite at_place_plain in H by done. by apply create_node_Ok in H. Qed.

Lemma append_node_plain p bs nodes : plain p → append_node p bs nodes =
  match nodes !! p with
  | Some (FileNode mode content) => <[p := FileNode mode (content ++ bs)]> nodes
  | _ => nodes
  end.
Proof. intros Hp. unfold append_node. by rewrite walk_plain. Qed.

End call_facts.
