(* ===== verification/Package.v ===== *)
(** * Signed plugin packages ([crates/a-quo-omarchy/src])

    The errors of the package crate, its limits, the manifest of a plugin and
    the report about an archive, and the rules for the paths and the text of a
    package. *)

From stdpp Require Import base numbers list strings pretty option gmap.
From Stdlib Require Import Strings.Byte Ascii.
From S2P Require Import Prelude Text Ordered Display Crates Io ArtifactProof Names.
From S2P Require Import Transport StoreTypes StoreCommon Disk.

(** ** Errors and limits *)

Inductive OmarchyError :=
| ProofFailure (error : ProofError)
| StoreFailure (error : StoreError)
| IoAt (path : place) (source : IoError)
| ArchiveIo (source : IoError)
| PackageSnapshot (error : LinuxIpcError)
| PackageTooLarge (actual maximum : N)
| InvalidPackage (reason : string)
| UnsafeArchiveEntry (path reason : string)
| ArchiveLimit (limit_name : string) (maximum : N)
| DuplicateArchivePath (path : string)
| MissingManifest
| ManifestJson (error : JsonError)
| InvalidManifest (reason : string)
| UnrecognizedPublisher (fingerprint : string)
| EvidenceOnlyPublisher (fingerprint : string)
| ArchivedPublisher (fingerprint : string)
| TerminalPublisher (fingerprint : string)
| InactivePublisher (fingerprint status : string)
| PublisherLabelMismatch
| SymlinkBoundary (path : string)
| TargetExists (path : string)
| TargetMissing (path : string)
| PluginsDirectoryMissing (path : string)
| NotManagedInstall (path : string)
| InvalidInstallReceipt (reason : string)
| PublisherContinuityMismatch
| InvalidSemanticVersion (version reason : string)
| VersionNotNewer (installed candidate : string)
| StaleEnabledConfiguration (plugin_id : string)
| InvalidShellConfiguration (reason : string)
| UnsafeSystemCommand (path : string)
| ManifestValidationFailed (status : string)
| AtomicInstall (reason : string)
| InstallFailedRetained (cause : OmarchyError) (retained_state : string)
| InstallAuthorizationRefused (cause : OmarchyError) (retained_state : string)
| InstallAuthorizationFinalizationFailed (reason : string)
| InstallRolledBack (reason : string)
| InstallRollbackFailed (reason : string)
| InstallStateIndeterminate (reason : string)
| AtomicUpdate (reason : string)
| UpdateAuthorizationRefused (cause : OmarchyError) (retained_state : string)
| UpdateAuthorizationFinalizationFailed (reason : string)
| UpdateRolledBack (reason : string)
| UpdateRollbackFailed (reason : string)
| UpdateStateIndeterminate (reason : string)
| ReferencedPluginRemoval (plugin_id : string)
| AtomicRemoval (reason : string)
| RemovalRolledBack (reason : string)
| RemovalRollbackFailed (reason : string)
| RemovalStateIndeterminate (reason : string).

Abbreviation PackageResult := (result OmarchyError).

Definition MAX_COMPRESSED_BYTES : N := 134217728.
Definition MAX_DECOMPRESSED_STREAM_BYTES : N := 629145600.
Definition MAX_UNCOMPRESSED_FILE_BYTES : N := 536870912.
Definition MAX_SINGLE_FILE_BYTES : N := 134217728.
Definition MAX_ARCHIVE_ENTRIES : N := 4096.
Definition MAX_ARCHIVE_PATH_BYTES : N := 4096.
Definition MAX_ARCHIVE_PATH_COMPONENTS : N := 64.
Definition MAX_ARCHIVE_PATH_COMPONENT_BYTES : N := 255.
Definition MAX_EXTRACTED_TREE_ENTRIES : N := 8191.
Definition MAX_MANIFEST_BYTES : N := 65536.
Definition INSTALL_RECEIPT_NAME : string := ".a-quo-install.json".

(** ** Data *)

Record OmarchyManifest := {
  om_schema_version : N;
  om_id : string;
  om_name : string;
  om_version : string;
  om_kinds : list string;
  om_entry_points : list (string * string);
  om_description : option string;
}.

Record ArchiveReport := {
  ar_compressed_bytes : N;
  ar_entries : N;
  ar_files : N;
  ar_directories : N;
  ar_uncompressed_file_bytes : N;
  ar_executable_files : list string;
}.

Inductive TreeKind := TreeDirectory | TreeFile.

(** One entry of the extracted tree; the bytes of a component are read as a
    string. *)
Record ExtractedTreeEntry := {
  et_path : list string;
  et_kind : TreeKind;
  et_mode : N;
  et_size : N;
  et_sha256 : option bytes;
}.

Record ExtractedTreeManifest := { em_entries : list ExtractedTreeEntry }.

#[export] Instance OmarchyManifest_eq_dec : EqDecision OmarchyManifest.
Proof. solve_decision. Defined.
#[export] Instance ArchiveReport_eq_dec : EqDecision ArchiveReport.
Proof. solve_decision. Defined.
#[export] Instance TreeKind_eq_dec : EqDecision TreeKind.
Proof. solve_decision. Defined.
#[export] Instance ExtractedTreeEntry_eq_dec : EqDecision ExtractedTreeEntry.
Proof. solve_decision. Defined.

(** [semver] is outside the repository: parsing, the text of its error, and
    the order of precedence, which leaves build metadata out. *)
Class Semver := {
  Version : Type;
  Version_parse : string → string + Version;
  Version_compare : Version → Version → comparison;
}.

(** ** Paths *)

(** A [PathBuf] made only of normal components is the list of them; it shows
    as the components with slashes between. *)
Definition path_text (path : list string) : string := String.concat "/" path.

Definition escape_untrusted_path (path : string) : string :=
  escape_untrusted_bytes_for_terminal (as_bytes path).

Definition path_string (path : list string) : PackageResult string :=
  reject_if (negb (utf8_valid (path_text path)))
    (UnsafeArchiveEntry (escape_untrusted_path (path_text path)) "path must be UTF-8");;
  Ok (path_text path).

(** [Component::Normal] *)
Definition is_normal_component (component : string) : bool :=
  negb (existsb (λ special, component == special) ["/"; "."; ".."]).

(** One round of the loop over the components: [clean] are those that passed. *)
Definition validate_component (display : string) (clean : list string) (component : string) :
    PackageResult (list string) :=
  let unsafe := UnsafeArchiveEntry display in
  reject_if (negb (is_normal_component component)) (unsafe "path must be a normalized relative path");;
  reject_if (MAX_ARCHIVE_PATH_COMPONENTS <? len clean + 1)%N
    (ArchiveLimit "entry path components" MAX_ARCHIVE_PATH_COMPONENTS);;
  reject_if (MAX_ARCHIVE_PATH_COMPONENT_BYTES <? str_len component)%N
    (ArchiveLimit "entry path component bytes" MAX_ARCHIVE_PATH_COMPONENT_BYTES);;
  reject_if (negb (utf8_valid component)) (unsafe "path must be UTF-8");;
  reject_if (component == ".git") (unsafe ".git content is not allowed in release packages");;
  reject_if (component == INSTALL_RECEIPT_NAME)
    (unsafe "A Quo installation receipts are reserved local metadata");;
  reject_if (str_contains "\" component || str_contains ":" component)
    (unsafe "backslashes and colons are not portable path characters");;
  reject_if (contains_unsafe_display_characters component)
    (unsafe "control, line/paragraph separator, or default-ignorable Unicode characters are not allowed");;
  Ok (clean ++ [component]).

Definition validate_entry_path (path : string) : PackageResult (list string) :=
  reject_if (MAX_ARCHIVE_PATH_BYTES <? str_len path)%N
    (ArchiveLimit "entry path bytes" MAX_ARCHIVE_PATH_BYTES);;
  let display := escape_untrusted_path path in
  reject_if ((path == EmptyString) || negb (utf8_valid path))
    (UnsafeArchiveEntry display "path must be non-empty UTF-8");;
  clean ← fold_result (validate_component display) [] (path_components path);
  reject_if (clean == []) (UnsafeArchiveEntry display "path resolves to empty");;
  Ok clean.

(** ** The manifest of a plugin *)

Definition is_ascii_alphanumeric (c : ascii) : bool :=
  is_ascii_digit c || is_ascii_lowercase c || is_ascii_uppercase c.

Definition is_plugin_id_byte (c : ascii) : bool :=
  is_ascii_alphanumeric c || existsb (λ k, c == k) ["."; "_"; "-"]%char.

Definition validate_plugin_id (id : string) : PackageResult unit :=
  let bad_length := InvalidManifest "id must contain between 1 and 255 bytes" in
  reject_if ((id == EmptyString) || (255 <? str_len id)%N) bad_length;;
  match id with
  | EmptyString => Err bad_length
  | String first rest =>
      reject_if
        (negb (is_ascii_alphanumeric first) || negb (str_all is_plugin_id_byte rest) ||
         str_contains ".." id || starts_with "omarchy." id)
        (InvalidManifest ("invalid or reserved plugin id: " +:+
          escape_untrusted_bytes_for_terminal (as_bytes id)))
  end.

Definition validate_display_text (field value : string) (maximum : N) : PackageResult unit :=
  reject_if ((trim value == EmptyString) || (maximum <? str_len value)%N)
    (InvalidManifest (field +:+ " must contain between 1 and " +:+ pretty maximum +:+ " UTF-8 bytes"));;
  reject_if (contains_unsafe_display_characters value)
    (InvalidManifest (field +:+
      " contains a control, line/paragraph separator, or default-ignorable Unicode character")).

Definition parse_semantic_version `{!Semver} (value : string) : PackageResult Version :=
  map_err (λ reason, InvalidSemanticVersion (escape_untrusted_text_for_terminal value)
             (escape_untrusted_text_for_terminal reason)) (of_sum (Version_parse value)).

(** The key of the entry point that a kind of plugin needs. *)
Definition required_entry_points : list (string * string) :=
  [("bar", "bar"); ("bar-widget", "barWidget"); ("menu", "menu"); ("overlay", "overlay");
   ("panel", "panel"); ("service", "service")].

Definition validate_kind (unique : list string) (kind : string) : PackageResult (list string) :=
  validate_display_text "kind" kind 64;;
  reject_if (negb (bset_insert kind unique).2) (InvalidManifest ("duplicate kind: " +:+ kind));;
  Ok (bset_insert kind unique).1.

Definition validate_entry_point (files : gset (list string)) (entry : string * string) :
    PackageResult unit :=
  validate_display_text "entry-point kind" entry.1 64;;
  path ← validate_entry_path entry.2;
  reject_if (negb (bool_decide (path ∈ files)))
    (InvalidManifest ("entry point is not a regular archive file: " +:+ entry.2)).

Definition require_entry_point (entry_points : list (string * string)) (kind : string) :
    PackageResult unit :=
  match bmap_get kind required_entry_points with
  | Some key =>
      reject_if (negb (bool_decide (is_Some (bmap_get key entry_points))))
        (InvalidManifest ("kind '" +:+ kind +:+ "' requires entryPoints." +:+ key))
  | None => Ok tt
  end.

Definition validate_manifest `{!Semver} (manifest : OmarchyManifest) (files : gset (list string)) :
    PackageResult unit :=
  reject_if (om_schema_version manifest != 1%N) (InvalidManifest "schemaVersion must be exactly 1");;
  validate_plugin_id (om_id manifest);;
  validate_display_text "name" (om_name manifest) 256;;
  validate_display_text "version" (om_version manifest) 128;;
  _ ← parse_semantic_version (om_version manifest);
  match om_description manifest with
  | Some description => validate_display_text "description" description 4096
  | None => Ok tt
  end;;
  reject_if ((om_kinds manifest == []) || (16 <? len (om_kinds manifest))%N)
    (InvalidManifest "kinds must contain between 1 and 16 values");;
  _ ← fold_result validate_kind [] (om_kinds manifest);
  reject_if (32 <? len (om_entry_points manifest))%N
    (InvalidManifest "entryPoints cannot contain more than 32 values");;
  each_result (validate_entry_point files) (om_entry_points manifest);;
  each_result (require_entry_point (om_entry_points manifest)) (om_kinds manifest).
