(* ===== verification/PackageArchive.v ===== *)
(** * Reading and unpacking a package ([crates/a-quo-omarchy/src/archive.rs])

    A package is a tar archive under Zstandard. It is read once, entry by entry,
    either to inspect it or to unpack it below a new directory; both go through
    the same checks. [zstd] and [tar] are outside the repository: a decoder
    turns what the reads of a file find into what its reads find, and an
    archive gives its raw entries one after the other. *)

From stdpp Require Import base numbers list strings pretty sorting option gmap.
From Stdlib Require Import Strings.Byte Ascii.
From S2P Require Import Prelude Text Ordered Display Crates Io ArtifactProof Names.
From S2P Require Import Transport StoreTypes StoreCommon Disk Package.

(** ** Foreign formats *)

(** [tar::EntryType] *)
Inductive EntryType := RegularEntry | DirectoryEntry | OtherEntry (tag : byte).

(** One raw entry: what [path], [header().entry_type], [size] and
    [header().mode] answer, and what reading it finds. *)
Record TarEntry := {
  te_path : IoError + string;
  te_type : EntryType;
  te_size : N;
  te_mode : IoError + N;
  te_data : Stream;
}.

(** [zstd::stream::read::Decoder] over a buffered file; the raw entries of
    [tar::Archive] over a reader, and what is left of that reader after them. *)
Class ArchiveFormats := {
  zstd_decoder : Stream → IoError + Stream;
  tar_entries : Stream → IoError + list (IoError + TarEntry);
  tar_into_inner : Stream → Stream;
}.

(** An open package file: its metadata, the error of [try_clone] and of [seek]
    to the start, and what its reads find from there. *)
Record PackageFile := {
  pf_metadata : IoError + Metadata;
  pf_try_clone : option IoError;
  pf_seek : option IoError;
  pf_data : Stream;
}.

(** ** Bounded reads *)

Definition too_much (maximum : N) : IoError :=
  {| io_kind := OtherErrorKind;
     io_message := "decompressed stream exceeds " +:+ pretty maximum +:+ " bytes" |}.

(** [BoundedReader]: what its reads find, when those of the inner reader find
    [input] and [remaining] bytes are still allowed. After the last of them
    each read takes one byte more from the inner reader, and fails. *)
Fixpoint bounded_reader (maximum remaining : N) (input : Stream) : Stream :=
  match input with
  | [] => []
  | ReadFails e :: input' => ReadFails e :: bounded_reader maximum remaining input'
  | Data bs :: input' =>
      if (len bs <=? remaining)%N then Data bs :: bounded_reader maximum (remaining - len bs) input'
      else
        let excess := repeat (ReadFails (too_much maximum)) (length bs - N.to_nat remaining) in
        let rest := excess ++ bounded_reader maximum 0 input' in
        if (remaining =? 0)%N then rest else Data (take (N.to_nat remaining) bs) :: rest
  end.

(** [read] into a buffer of [n] bytes, and what is left. *)
Definition read (n : N) (input : Stream) : (IoError + bytes) * Stream :=
  match input with
  | [] => (inr [], [])
  | ReadFails e :: input' => (inl e, input')
  | Data bs :: input' =>
      (inr (take (N.to_nat n) bs),
       if (n <? len bs)%N then Data (drop (N.to_nat n) bs) :: input' else input')
  end.

(** Reads that are enough for any loop over a stream. *)
Definition stream_rounds (input : Stream) : N :=
  foldr (λ event n, match event with Data bs => len bs | ReadFails _ => 0 end + 1 + n)%N 1%N input.

(** [loop { let read = reader.read(&mut buffer)?; if read == 0 { break; } ... }]
    with a buffer of [n] bytes: what the reads found, and the error that ended
    them, if one did. *)
Definition read_round (n : N) (s : list bytes * Stream) : (list bytes * Stream) + (list bytes * option IoError) :=
  match read n s.2 with
  | (inl e, _) => inr (s.1, Some e)
  | (inr [], _) => inr (s.1, None)
  | (inr chunk, rest) => inl (s.1 ++ [chunk], rest)
  end.

Definition read_chunks (n : N) (input : Stream) : list bytes * option IoError :=
  match loop_n (read_round n) (stream_rounds input) ([], input) with
  | inr r => r
  | inl s => (s.1, None)
  end.

(** [Read::read_to_end]: interrupted reads are retried. *)
Fixpoint read_to_end (input : Stream) : IoError + bytes :=
  match input with
  | [] => inr []
  | Data [] :: _ => inr []
  | Data bs :: input' =>
      match read_to_end input' with inr more => inr (bs ++ more) | inl e => inl e end
  | ReadFails e :: input' => if io_kind e == Interrupted then read_to_end input' else inl e
  end.

Definition COPY_BUFFER : N := 65536.

(** ** The extracted tree *)

Record TreeState := {
  tr_directories : gset (list string);
  tr_files : list ExtractedTreeEntry;
}.

(** The paths of a set, in the order in which they are iterated. *)
Fixpoint path_compare (a b : list string) : comparison :=
  match a, b with
  | [], [] => Eq
  | [], _ :: _ => Lt
  | _ :: _, [] => Gt
  | x :: a', y :: b' =>
      match String.compare x y with Eq => path_compare a' b' | c => c end
  end.

Definition kind_byte (kind : TreeKind) : N := match kind with TreeDirectory => 100 | TreeFile => 102 end.

Definition tree_compare (a b : ExtractedTreeEntry) : comparison :=
  match path_compare (et_path a) (et_path b) with
  | Eq => N.compare (kind_byte (et_kind a)) (kind_byte (et_kind b))
  | c => c
  end.

Definition tree_le (a b : ExtractedTreeEntry) : Prop := tree_compare a b ≠ Gt.
#[export] Instance tree_le_dec : RelDecision tree_le.
Proof. intros a b. unfold tree_le. apply _. Defined.

Definition ensure_extracted_tree_limit (directory_count file_count : N) : PackageResult unit :=
  reject_if match checked_add_usize directory_count file_count with
            | Some count => (MAX_EXTRACTED_TREE_ENTRIES <? count)%N
            | None => true
            end (ArchiveLimit "extracted tree entries" MAX_EXTRACTED_TREE_ENTRIES).

Definition saturating_add_usize (a b : N) : N := (usize_max `min` (a + b))%N.

Definition insert_tree_directory (directory : list string) (directories : gset (list string))
    (file_count : N) : PackageResult (gset (list string)) :=
  if bool_decide (directory ∈ directories) then Ok directories
  else
    ensure_extracted_tree_limit (saturating_add_usize (N.of_nat (size directories)) 1) file_count;;
    Ok ({[directory]} ∪ directories).

(** [path.parent()], its parent and so on up to the empty path. *)
Fixpoint parents (path : list string) : list (list string) :=
  match path with
  | [] => []
  | component :: rest => map (cons component) (parents rest) ++ [[]]
  end.

Definition record_tree_parent_directories (path : list string) (directories : gset (list string))
    (file_count : N) : PackageResult (gset (list string)) :=
  fold_result (λ directories directory, insert_tree_directory directory directories file_count)
    directories (parents path).

Definition normalized_file_mode (executable : bool) : N := if executable then 493 else 420.

(** ** Writing *)

(** [root.join(relative)] *)
Definition join (root : place) (relative : list string) : place := reverse relative ++ root.

Section writing.
Context {crates : Crates} {env : DiskEnv}.

Definition set_directory_permissions (p : place) : DiskM OmarchyError unit :=
  disk_map_err (IoAt p) (set_permissions p 493).

Definition set_file_permissions (p : place) (executable : bool) : DiskM OmarchyError unit :=
  disk_map_err (IoAt p) (set_permissions p (if executable then 493 else 420)%N).

(** One round of the copying loop: the bytes hashed and their count. *)
Definition write_chunk (p : place) (st : bytes * N) (chunk : bytes) : DiskM OmarchyError (bytes * N) :=
  disk_map_err ArchiveIo (file_write_all p chunk);;
  copied ← lift (ok_or (checked_add_u64 st.2 (len chunk)) (InvalidPackage "extracted file size overflowed"));
  mret (st.1 ++ chunk, copied).

Definition write_file_new (p : place) (reader : Stream) (executable : bool) (expected_size : N) :
    DiskM OmarchyError bytes :=
  match p with
  | [] => lift (Err (InvalidPackage "output path has no parent"))
  | _ :: parent =>
      disk_map_err (IoAt parent) (create_dir_all parent);;
      set_directory_permissions parent;;
      disk_map_err (IoAt p) (create_new p);;
      let '(chunks, failure) := read_chunks COPY_BUFFER reader in
      '(hashed, copied) ← fold_disk (write_chunk p) ([], 0%N) chunks;
      match failure with Some e => lift (Err (ArchiveIo e)) | None => mret tt end;;
      lift (reject_if (copied != expected_size)
        (InvalidPackage ("file size mismatch for /" +:+ path_text (reverse p))));;
      disk_map_err (IoAt p) (file_flush p);;
      set_file_permissions p executable;;
      disk_map_err (IoAt p) (file_sync p);;
      mret (Sha256_digest hashed)
  end.

End writing.

(** ** The entries *)

(** The locals of the loop over the entries, less those of the tree. *)
Record ArchiveState := {
  sa_seen : gset (list string);
  sa_files : gset (list string);
  sa_manifest_bytes : option bytes;
  sa_executable_files : list string;
  sa_entry_count : N;
  sa_file_count : N;
  sa_directory_count : N;
  sa_total_file_bytes : N;
}.

Definition initial_archive_state : ArchiveState := {|
  sa_seen := ∅; sa_files := ∅; sa_manifest_bytes := None; sa_executable_files := [];
  sa_entry_count := 0; sa_file_count := 0; sa_directory_count := 0; sa_total_file_bytes := 0;
|}.

(** What is to be unpacked for an entry that was accepted. *)
Inductive Placement :=
| PlaceDirectory (relative : list string)
| PlaceFile (relative : list string) (reader : Stream) (executable : bool) (size : N).

Definition MANIFEST_PATH : list string := ["manifest.json"].

(** The manifest is read in full when its entry is met. *)
Definition read_manifest (entry : TarEntry) : PackageResult bytes :=
  let size := te_size entry in
  reject_if (MAX_MANIFEST_BYTES <? size)%N (ArchiveLimit "manifest bytes" MAX_MANIFEST_BYTES);;
  bs ← map_err ArchiveIo (of_sum (read_to_end (te_data entry)));
  reject_if (len bs != size) (InvalidPackage "manifest size does not match its tar header");;
  Ok bs.

Definition visit_file (st : ArchiveState) (relative : list string) (entry : TarEntry) :
    PackageResult (ArchiveState * Placement) :=
  let size := te_size entry in
  let over_total := ArchiveLimit "uncompressed file bytes" MAX_UNCOMPRESSED_FILE_BYTES in
  reject_if (MAX_SINGLE_FILE_BYTES <? size)%N (ArchiveLimit "single-file bytes" MAX_SINGLE_FILE_BYTES);;
  total ← ok_or (checked_add_u64 (sa_total_file_bytes st) size) over_total;
  reject_if (MAX_UNCOMPRESSED_FILE_BYTES <? total)%N over_total;;
  mode ← map_err ArchiveIo (of_sum (te_mode entry));
  let executable := N.land mode 73 != 0%N in
  executables ← (if executable then shown ← path_string relative; Ok (sa_executable_files st ++ [shown])
                 else Ok (sa_executable_files st));
  let next manifest_bytes := {|
    sa_seen := sa_seen st; sa_files := {[relative]} ∪ sa_files st;
    sa_manifest_bytes := manifest_bytes; sa_executable_files := executables;
    sa_entry_count := sa_entry_count st; sa_file_count := sa_file_count st + 1;
    sa_directory_count := sa_directory_count st; sa_total_file_bytes := total |}%N in
  if relative == MANIFEST_PATH then
    bs ← read_manifest entry;
    Ok (next (Some bs), PlaceFile relative [Data bs] executable size)
  else Ok (next (sa_manifest_bytes st), PlaceFile relative (te_data entry) executable size).

Definition visit_entry (st : ArchiveState) (item : IoError + TarEntry) :
    PackageResult (ArchiveState * Placement) :=
  entry ← map_err ArchiveIo (of_sum item);
  let too_many := ArchiveLimit "entry count" MAX_ARCHIVE_ENTRIES in
  entry_count ← ok_or (checked_add_u64 (sa_entry_count st) 1) too_many;
  reject_if (MAX_ARCHIVE_ENTRIES <? entry_count)%N too_many;;
  raw_path ← map_err ArchiveIo (of_sum (te_path entry));
  relative ← validate_entry_path raw_path;
  display ← path_string relative;
  reject_if (bool_decide (relative ∈ sa_seen st)) (DuplicateArchivePath display);;
  let counted directories := {|
    sa_seen := {[relative]} ∪ sa_seen st; sa_files := sa_files st;
    sa_manifest_bytes := sa_manifest_bytes st; sa_executable_files := sa_executable_files st;
    sa_entry_count := entry_count; sa_file_count := sa_file_count st;
    sa_directory_count := directories; sa_total_file_bytes := sa_total_file_bytes st |} in
  match te_type entry with
  | DirectoryEntry => Ok (counted (sa_directory_count st + 1)%N, PlaceDirectory relative)
  | OtherEntry _ =>
      Err (UnsafeArchiveEntry display "only regular files and directories are allowed")
  | RegularEntry => visit_file (counted (sa_directory_count st)) relative entry
  end.

Section processing.
Context {crates : Crates} {env : DiskEnv} {formats : ArchiveFormats} {semver : Semver}
  {json_manifest : Serde OmarchyManifest}.

Definition place_entry (root : place) (tree : TreeState) (placement : Placement) :
    DiskM OmarchyError TreeState :=
  match placement with
  | PlaceDirectory relative =>
      directories ← lift (record_tree_parent_directories relative (tr_directories tree) (len (tr_files tree)));
      directories ← lift (insert_tree_directory relative directories (len (tr_files tree)));
      let output := join root relative in
      disk_map_err (IoAt output) (create_dir_all output);;
      set_directory_permissions output;;
      mret {| tr_directories := directories; tr_files := tr_files tree |}
  | PlaceFile relative reader executable size =>
      directories ← lift (record_tree_parent_directories relative (tr_directories tree) (len (tr_files tree)));
      lift (ensure_extracted_tree_limit (N.of_nat (base.size directories))
        (saturating_add_usize (len (tr_files tree)) 1));;
      digest ← write_file_new (join root relative) reader executable size;
      mret {| tr_directories := directories;
              tr_files := tr_files tree ++ [{|
                et_path := relative; et_kind := TreeFile; et_mode := normalized_file_mode executable;
                et_size := size; et_sha256 := Some digest |}] |}
  end.

Definition process_entry (destination : option place) (s : ArchiveState * TreeState)
    (item : IoError + TarEntry) : DiskM OmarchyError (ArchiveState * TreeState) :=
  '(st, placement) ← lift (visit_entry s.1 item);
  match destination with
  | None => mret (st, s.2)
  | Some root => tree ← place_entry root s.2 placement; mret (st, tree)
  end.

(** Nothing but zero bytes may follow the logical end of the archive. *)
Definition check_trailing (trailing : Stream) : PackageResult unit :=
  let '(chunks, failure) := read_chunks COPY_BUFFER trailing in
  each_result (λ chunk, reject_if (existsb (λ b, b != Byte.x00) chunk)
    (InvalidPackage "archive contains non-zero data after the logical tar end")) chunks;;
  match failure with Some e => Err (ArchiveIo e) | None => Ok tt end.

Definition directory_entry (path : list string) : ExtractedTreeEntry :=
  {| et_path := path; et_kind := TreeDirectory; et_mode := 493; et_size := 0; et_sha256 := None |}.

Definition tree_manifest (tree : TreeState) : ExtractedTreeManifest :=
  {| em_entries := merge_sort tree_le (map directory_entry (elements (tr_directories tree)) ++ tr_files tree) |}.

(** What is decided after the last entry. *)
Definition finish_archive (compressed : N) (st : ArchiveState) (trailing : Stream) :
    PackageResult (OmarchyManifest * ArchiveReport) :=
  check_trailing trailing;;
  reject_if (sa_entry_count st == 0%N) (InvalidPackage "archive is empty");;
  manifest_bytes ← ok_or (sa_manifest_bytes st) MissingManifest;
  manifest ← map_err ManifestJson (of_sum (json_from_slice (T:=OmarchyManifest) manifest_bytes));
  validate_manifest manifest (sa_files st);;
  Ok (manifest, {|
    ar_compressed_bytes := compressed; ar_entries := sa_entry_count st;
    ar_files := sa_file_count st; ar_directories := sa_directory_count st;
    ar_uncompressed_file_bytes := sa_total_file_bytes st;
    ar_executable_files := sort_strings (sa_executable_files st) |}).

(** The checks on the file itself, and the bounded stream of its contents. *)
Definition open_stream (file : PackageFile) : PackageResult (N * Stream) :=
  md ← map_err ArchiveIo (of_sum (pf_metadata file));
  reject_if (negb (md_is_file md)) (InvalidPackage "package descriptor must refer to a regular file");;
  reject_if (MAX_COMPRESSED_BYTES <? md_len md)%N (PackageTooLarge (md_len md) MAX_COMPRESSED_BYTES);;
  match pf_try_clone file with Some e => Err (ArchiveIo e) | None => Ok tt end;;
  match pf_seek file with Some e => Err (ArchiveIo e) | None => Ok tt end;;
  decoder ← map_err ArchiveIo (of_sum (zstd_decoder (pf_data file)));
  Ok (md_len md, bounded_reader MAX_DECOMPRESSED_STREAM_BYTES MAX_DECOMPRESSED_STREAM_BYTES decoder).

Definition process_archive (file : PackageFile) (destination : option place) :
    DiskM OmarchyError (OmarchyManifest * ArchiveReport * option ExtractedTreeManifest) :=
  '(compressed, archive) ← lift (open_stream file);
  entries ← lift (map_err ArchiveIo (of_sum (tar_entries archive)));
  let tree := {| tr_directories := match destination with Some _ => {[[]]} | None => ∅ end; tr_files := [] |} in
  '(st, tree) ← fold_disk (process_entry destination) (initial_archive_state, tree) entries;
  result ← lift (finish_archive compressed st (tar_into_inner archive));
  mret (result, match destination with Some _ => Some (tree_manifest tree) | None => None end).

Definition inspect_archive_file (file : PackageFile) : DiskM OmarchyError (OmarchyManifest * ArchiveReport) :=
  '(result, _) ← process_archive file None;
  mret result.

(** [open_archive]: what [symlink_metadata] and [File::open] answer. *)
Definition open_archive (path : place) (md : IoError + Metadata) (opened : IoError + PackageFile) :
    PackageResult PackageFile :=
  md ← map_err (IoAt path) (of_sum md);
  reject_if (md_is_symlink md || negb (md_is_file md))
    (InvalidPackage "package path must be a regular, non-symlink file");;
  map_err (IoAt path) (of_sum opened).

Definition inspect_archive (path : place) (md : IoError + Metadata) (opened : IoError + PackageFile) :
    DiskM OmarchyError (OmarchyManifest * ArchiveReport) :=
  file ← lift (open_archive path md opened);
  '(result, _) ← process_archive file None;
  mret result.

Definition extract_archive_from_file (file : PackageFile) (destination : place) :
    DiskM OmarchyError (OmarchyManifest * ArchiveReport * ExtractedTreeManifest) :=
  disk_map_err (IoAt destination) (create_dir destination);;
  set_directory_permissions destination;;
  '(result, tree) ← process_archive file (Some destination);
  tree ← lift (ok_or tree (InvalidPackage "extraction did not produce a tree manifest"));
  mret (result, tree).

Definition extract_archive_file (file : PackageFile) (destination : place) :
    DiskM OmarchyError (OmarchyManifest * ArchiveReport * ExtractedTreeManifest) :=
  extract_archive_from_file file destination.

End processing.
