(* ===== verification/PackageFacts.v ===== *)
(** * What a package must be to pass inspection

    Inspecting a package accepts exactly the archives that a specification
    describes, and its report is what the listing of the archive says. *)

From stdpp Require Import base numbers list strings pretty sorting option gmap.
From Stdlib Require Import Strings.Byte Ascii.
From S2P Require Import Prelude Text Ordered Display Crates Io ArtifactProof Names.
From S2P Require Import Transport StoreTypes StoreCommon Disk Package PackageArchive.

(** ** Streams *)

(** The bytes up to the end of a stream or its first error. *)
Fixpoint stream_data (input : Stream) : bytes * option IoError :=
  match input with
  | [] | Data [] :: _ => ([], None)
  | ReadFails e :: _ => ([], Some e)
  | Data bs :: input' => let '(more, failure) := stream_data input' in (bs ++ more, failure)
  end.

Lemma read_round_data n s : (0 < n)%N →
  match read_round n s with
  | inl s' => concat s'.1 ++ (stream_data s'.2).1 = concat s.1 ++ (stream_data s.2).1 ∧
      (stream_data s'.2).2 = (stream_data s.2).2 ∧ (stream_rounds s'.2 < stream_rounds s.2)%N
  | inr r => concat r.1 = concat s.1 ++ (stream_data s.2).1 ∧ r.2 = (stream_data s.2).2
  end.
Proof.
  intros Hn. destruct s as [chunks [|[[|b bs]|e] input]]; unfold read_round; cbn -[N.ltb];
    destruct (N.to_nat n) as [|k] eqn:Hk; try lia; cbn -[N.ltb]; rewrite ?app_nil_r; try done.
  destruct (stream_data input) as [more failure] eqn:Hs.
  destruct (N.ltb_spec n (len (b :: bs))) as [Hlt|Hge]; cbn.
  - rewrite len_cons in Hlt. destruct (drop k bs) as [|b' bs'] eqn:Hd.
    { apply (f_equal length) in Hd. rewrite length_drop in Hd. unfold len in Hlt. cbn in Hd. lia. }
    cbn. rewrite Hs. cbn. rewrite <- Hd. split_and!; [|done|].
    + rewrite concat_app. cbn. rewrite app_nil_r, <- app_assoc. f_equal. cbn. f_equal.
      rewrite app_comm_cons, <- Hd, app_assoc. by rewrite take_drop.
    + unfold len. rewrite length_drop. cbn [length]. lia.
  - rewrite concat_app. cbn. rewrite Hs. cbn. split_and!; [|done|lia].
    rewrite app_nil_r, <- app_assoc. f_equal. cbn. f_equal.
    rewrite take_ge; [done|]. rewrite len_cons in Hge. unfold len in Hge. lia.
Qed.

Lemma stream_rounds_pos input : (0 < stream_rounds input)%N.
Proof. destruct input; cbn; lia. Qed.

(** A loop of reads finds the whole stream. *)
Lemma read_chunks_data n input : (0 < n)%N →
  concat (read_chunks n input).1 = (stream_data input).1 ∧
  (read_chunks n input).2 = (stream_data input).2.
Proof.
  intros Hn. unfold read_chunks.
  set (keeps := λ s : list bytes * Stream, concat s.1 ++ (stream_data s.2).1 = (stream_data input).1 ∧
    (stream_data s.2).2 = (stream_data input).2).
  assert (∀ s s', keeps s → read_round n s = inl s' → keeps s') as Hkeep.
  { intros s s' [H1 H2] Hs. pose proof (read_round_data n s Hn) as H. rewrite Hs in H.
    destruct H as (? & ? & _). split; congruence. }
  assert (keeps ([], input)) as H0 by done.
  assert (∃ r, loop_n (read_round n) (stream_rounds input) ([], input) = inr r) as [r Hr].
  { apply (loop_ends _ keeps (λ s, stream_rounds s.2 - 1)%N); [|done|].
    - intros s s' Hs Hround. split; [by eapply Hkeep|].
      pose proof (read_round_data n s Hn) as H. rewrite Hround in H. destruct H as (_ & _ & H).
      pose proof (stream_rounds_pos s'.2). lia.
    - pose proof (stream_rounds_pos input). cbn [snd]. lia. }
  rewrite Hr. destruct (loop_invariant _ keeps _ _ _ Hkeep H0 Hr) as (s & [H1 H2] & Hs).
  pose proof (read_round_data n s Hn) as H. rewrite Hs in H. destruct H. split; congruence.
Qed.

(** The bytes a stream delivers in all. *)
Definition stream_bytes (input : Stream) : N :=
  foldr (λ event n, match event with Data bs => len bs | ReadFails _ => 0 end + n)%N 0%N input.

Lemma stream_bytes_data bs input : stream_bytes (Data bs :: input) = (len bs + stream_bytes input)%N.
Proof. done. Qed.

Lemma stream_bytes_app a b : stream_bytes (a ++ b) = (stream_bytes a + stream_bytes b)%N.
Proof. unfold stream_bytes. induction a as [|[] a IH]; cbn in *; lia. Qed.

Lemma stream_bytes_repeat e n : stream_bytes (repeat (ReadFails e) n) = 0%N.
Proof. unfold stream_bytes. induction n; cbn in *; lia. Qed.

Lemma bounded_reader_bytes maximum remaining input :
  (stream_bytes (bounded_reader maximum remaining input) <= remaining)%N.
Proof.
  revert remaining. induction input as [|[bs|e] input IH]; intros remaining; cbn [bounded_reader]; [cbn; lia| |apply IH].
  destruct (N.leb_spec (len bs) remaining).
  - specialize (IH (remaining - len bs)%N). rewrite stream_bytes_data. lia.
  - pose proof (IH 0%N). destruct (N.eqb_spec remaining 0).
    + rewrite stream_bytes_app, stream_bytes_repeat. lia.
    + rewrite stream_bytes_data, stream_bytes_app, stream_bytes_repeat.
      unfold len. rewrite length_take. lia.
Qed.

Lemma bounded_reader_id maximum remaining input :
  (stream_bytes input <= remaining)%N → bounded_reader maximum remaining input = input.
Proof.
  revert remaining. induction input as [|[bs|e] input IH]; intros remaining Hle; cbn [bounded_reader]; [done| |].
  - rewrite stream_bytes_data in Hle. destruct (N.leb_spec (len bs) remaining); [|lia]. f_equal. apply IH. lia.
  - f_equal. by apply IH.
Qed.

(** ** Paths *)

Record safe_component (component : string) : Prop := {
  sc_normal : component ∉ ["/"; "."; ".."];
  sc_short : (str_len component <= MAX_ARCHIVE_PATH_COMPONENT_BYTES)%N;
  sc_utf8 : utf8_valid component = true;
  sc_not_git : component ≠ ".git";
  sc_not_receipt : component ≠ INSTALL_RECEIPT_NAME;
  sc_portable : str_contains "\" component = false ∧ str_contains ":" component = false;
  sc_displayable : contains_unsafe_display_characters component = false;
}.

Record safe_path (path : list string) : Prop := {
  sp_some : path ≠ [];
  sp_few : (len path <= MAX_ARCHIVE_PATH_COMPONENTS)%N;
  sp_safe : Forall safe_component path;
}.

Lemma is_normal_component_spec c : is_normal_component c = true ↔ c ∉ ["/"; "."; ".."].
Proof.
  unfold is_normal_component. cbn. rewrite negb_true_iff, !orb_false_iff, !bool_decide_eq_false.
  set_solver.
Qed.

Lemma validate_component_Ok display clean c r :
  validate_component display clean c = Ok r ↔
  r = clean ++ [c] ∧ safe_component c ∧ (len clean + 1 <= MAX_ARCHIVE_PATH_COMPONENTS)%N.
Proof.
  unfold validate_component. autorewrite with ok. rewrite is_normal_component_spec, !N.ltb_ge.
  split.
  - intros (? & ? & ? & ? & ? & ? & ? & ? & <-). done.
  - by intros (-> & [] & ?).
Qed.

Lemma validate_components_Ok display clean cs r :
  (len clean <= MAX_ARCHIVE_PATH_COMPONENTS)%N →
  fold_result (validate_component display) clean cs = Ok r ↔
  r = clean ++ cs ∧ Forall safe_component cs ∧ (len (clean ++ cs) <= MAX_ARCHIVE_PATH_COMPONENTS)%N.
Proof.
  revert clean. induction cs as [|c cs IH]; intros clean Hclean; cbn [fold_result].
  - rewrite app_nil_r. split; [by intros [= ->]|by intros (-> & _ & _)].
  - rewrite bind_Ok. setoid_rewrite validate_component_Ok. split.
    + intros (clean' & (-> & Hc & Hlen) & H). apply IH in H as (-> & Hcs & Hlen');
        [|by autorewrite with lens].
      rewrite <- app_assoc in *. split_and!; [done|by constructor|done].
    + intros (-> & [Hc Hcs]%Forall_cons_iff & Hlen). exists (clean ++ [c]).
      assert (len clean + 1 <= MAX_ARCHIVE_PATH_COMPONENTS)%N by (autorewrite with lens in Hlen; lia).
      split; [done|]. apply IH; [by autorewrite with lens|]. by rewrite <- app_assoc.
Qed.

(** A path is accepted exactly when its components are safe ones. *)
Lemma validate_entry_path_Ok raw path :
  validate_entry_path raw = Ok path ↔
  (str_len raw <= MAX_ARCHIVE_PATH_BYTES)%N ∧ utf8_valid raw = true ∧ path = path_components raw ∧
  safe_path path.
Proof.
  unfold validate_entry_path. autorewrite with ok. rewrite N.ltb_ge. rewrite bind_Ok.
  split.
  - intros (Hlen & (Hne & Hutf) & clean & Hf & Hr).
    apply validate_components_Ok in Hf as (-> & Hs & Hfew); [|done].
    autorewrite with ok in Hr. destruct Hr as [Hsome <-]. done.
  - intros (? & ? & -> & [Hne ? ?]). split_and!; [done| |done|].
    + intros ->. by apply Hne.
    + exists (path_components raw). split; [by apply validate_components_Ok|].
      autorewrite with ok. done.
Qed.

Lemma utf8_append a b : utf8_valid a = true → utf8_valid b = true → utf8_valid (a +:+ b) = true.
Proof.
  intros Ha Hb. unfold utf8_valid. rewrite <- (join_str_units a).
  rewrite str_units_join by by apply str_units_self_delimiting.
  rewrite forallb_app. by rewrite andb_true_iff.
Qed.

Lemma path_text_utf8 path : Forall safe_component path → utf8_valid (path_text path) = true.
Proof.
  unfold path_text. induction 1 as [|c path Hc _ IH]; [done|]. cbn [String.concat].
  destruct path as [|c' path]; [by apply sc_utf8|].
  apply utf8_append; [by apply sc_utf8|]. by apply utf8_append.
Qed.

Lemma path_string_Ok path shown :
  safe_path path → path_string path = Ok shown ↔ shown = path_text path.
Proof.
  intros [_ _ Hs]. unfold path_string. rewrite (path_text_utf8 path Hs). cbn. naive_solver.
Qed.

(** ** The listing of an archive *)

(** The entries of an archive with their paths. *)
Abbreviation Listing := (list (list string * TarEntry)).

Definition is_regular (entry : TarEntry) : bool :=
  match te_type entry with RegularEntry => true | _ => false end.

Definition is_executable (entry : TarEntry) : bool :=
  match te_mode entry with inr mode => N.land mode 73 != 0%N | inl _ => false end.

(** The regular files of a listing. *)
Definition regular_files (l : Listing) : Listing := filter (λ e, is_regular e.2 = true) l.

Definition total_size (l : Listing) : N := foldr (λ e n, te_size e.2 + n)%N 0%N l.

(** The bytes of the manifest, when the entry is the manifest. *)
Definition manifest_entry (e : list string * TarEntry) : option bytes :=
  if is_regular e.2 && (e.1 == MANIFEST_PATH) then
    match read_to_end (te_data e.2) with inr bs => Some bs | inl _ => None end
  else None.

Definition listed_manifest (l : Listing) : option bytes := list.last (omap manifest_entry l).

Record entry_accepted (e : list string * TarEntry) : Prop := {
  ea_path : ∃ raw, te_path e.2 = inr raw ∧ (str_len raw <= MAX_ARCHIVE_PATH_BYTES)%N ∧
    utf8_valid raw = true ∧ e.1 = path_components raw;
  ea_safe : safe_path e.1;
  ea_type : te_type e.2 = DirectoryEntry ∨ te_type e.2 = RegularEntry;
  ea_file : is_regular e.2 = true →
    (te_size e.2 <= MAX_SINGLE_FILE_BYTES)%N ∧ ∃ mode, te_mode e.2 = inr mode;
  ea_manifest : is_regular e.2 = true → e.1 = MANIFEST_PATH →
    ∃ bs, read_to_end (te_data e.2) = inr bs ∧ len bs = te_size e.2 ∧ (len bs <= MAX_MANIFEST_BYTES)%N;
}.

Record listing_accepted (l : Listing) : Prop := {
  la_entries : Forall entry_accepted l;
  la_unique : NoDup l.*1;
  la_few : (len l <= MAX_ARCHIVE_ENTRIES)%N;
  la_small : (total_size (regular_files l) <= MAX_UNCOMPRESSED_FILE_BYTES)%N;
}.

(** What the loop over the entries has found after a listing. *)
Definition found (l : Listing) : ArchiveState := {|
  sa_seen := list_to_set l.*1;
  sa_files := list_to_set (regular_files l).*1;
  sa_manifest_bytes := listed_manifest l;
  sa_executable_files := path_text <$> (filter (λ e, is_executable e.2 = true) (regular_files l)).*1;
  sa_entry_count := len l;
  sa_file_count := len (regular_files l);
  sa_directory_count := (len l - len (regular_files l))%N;
  sa_total_file_bytes := total_size (regular_files l);
|}.

(** What is unpacked for an entry. *)
Definition placed (e : list string * TarEntry) : Placement :=
  if is_regular e.2 then
    PlaceFile e.1 match manifest_entry e with Some bs => [Data bs] | None => te_data e.2 end
      (is_executable e.2) (te_size e.2)
  else PlaceDirectory e.1.

Lemma total_size_app l k : total_size (l ++ k) = (total_size l + total_size k)%N.
Proof. unfold total_size. induction l as [|e l IH]; cbn in *; [done|]. lia. Qed.

Lemma regular_files_len l : (len (regular_files l) <= len l)%N.
Proof. unfold len, regular_files. pose proof (length_filter (λ e : list string * TarEntry, is_regular e.2 = true) l). lia. Qed.

Lemma read_manifest_Ok entry bs :
  read_manifest entry = Ok bs ↔
  read_to_end (te_data entry) = inr bs ∧ len bs = te_size entry ∧ (len bs <= MAX_MANIFEST_BYTES)%N.
Proof.
  unfold read_manifest. autorewrite with ok. rewrite N.ltb_ge, bind_Ok.
  autorewrite with ok. split.
  - intros (Hs & bs' & Hr & H). autorewrite with ok in Hr, H. destruct H as [? <-].
    split_and!; [done|done|congruence].
  - intros (Hr & <- & Hs). split; [done|]. exists bs. by autorewrite with ok.
Qed.

Lemma regular_files_snoc l e :
  regular_files (l ++ [e]) = regular_files l ++ (if is_regular e.2 then [e] else []).
Proof.
  unfold regular_files. rewrite filter_app. f_equal. rewrite filter_cons, filter_nil.
  by destruct (is_regular e.2).
Qed.

Lemma set_snoc (l : Listing) e :
  list_to_set (C:=gset (list string)) (l ++ [e]).*1 = {[e.1]} ∪ list_to_set l.*1.
Proof. rewrite fmap_app, list_to_set_app_L, (comm_L (∪)). cbn. by rewrite (right_id_L ∅ (∪)). Qed.

Lemma len_snoc {A} (l : list A) x : len (l ++ [x]) = (len l + 1)%N.
Proof. by rewrite len_app. Qed.

Lemma found_directory l e : is_regular e.2 = false →
  found (l ++ [e]) = {|
    sa_seen := {[e.1]} ∪ sa_seen (found l); sa_files := sa_files (found l);
    sa_manifest_bytes := sa_manifest_bytes (found l);
    sa_executable_files := sa_executable_files (found l);
    sa_entry_count := (len l + 1)%N; sa_file_count := sa_file_count (found l);
    sa_directory_count := (sa_directory_count (found l) + 1)%N;
    sa_total_file_bytes := sa_total_file_bytes (found l) |}.
Proof.
  intros He. unfold found. rewrite regular_files_snoc, He, app_nil_r. cbn. f_equal.
  - apply set_snoc.
  - unfold listed_manifest. rewrite omap_app. cbn. unfold manifest_entry at 2. rewrite He. cbn.
    by rewrite app_nil_r.
  - apply len_snoc.
  - rewrite len_snoc. pose proof (regular_files_len l). lia.
Qed.

Lemma found_file l e : is_regular e.2 = true →
  found (l ++ [e]) = {|
    sa_seen := {[e.1]} ∪ sa_seen (found l); sa_files := {[e.1]} ∪ sa_files (found l);
    sa_manifest_bytes := match manifest_entry e with Some bs => Some bs | None => sa_manifest_bytes (found l) end;
    sa_executable_files := sa_executable_files (found l) ++ (if is_executable e.2 then [path_text e.1] else []);
    sa_entry_count := (len l + 1)%N; sa_file_count := (sa_file_count (found l) + 1)%N;
    sa_directory_count := sa_directory_count (found l);
    sa_total_file_bytes := (sa_total_file_bytes (found l) + te_size e.2)%N |}.
Proof.
  intros He. unfold found. rewrite regular_files_snoc, He. cbn. f_equal.
  - apply set_snoc.
  - apply set_snoc.
  - unfold listed_manifest. rewrite omap_app. cbn. destruct (manifest_entry e); cbn.
    + by rewrite last_snoc.
    + by rewrite app_nil_r.
  - rewrite filter_app, filter_cons, filter_nil, !fmap_app. f_equal. by destruct (is_executable e.2).
  - apply len_snoc.
  - apply len_snoc.
  - rewrite !len_snoc. lia.
  - rewrite total_size_app. cbn. lia.
Qed.

Lemma listing_accepted_snoc l e :
  listing_accepted (l ++ [e]) ↔ listing_accepted l ∧ entry_accepted e ∧ (e.1 ∉ l.*1) ∧
    (len l + 1 <= MAX_ARCHIVE_ENTRIES)%N ∧
    (is_regular e.2 = true →
      (total_size (regular_files l) + te_size e.2 <= MAX_UNCOMPRESSED_FILE_BYTES)%N).
Proof.
  assert (total_size (regular_files (l ++ [e])) =
    total_size (regular_files l) + (if is_regular e.2 then te_size e.2 else 0))%N as Htotal.
  { rewrite regular_files_snoc, total_size_app. destruct (is_regular e.2); cbn; lia. }
  split.
  - intros [He Hu Hf Hs]. rewrite Htotal in Hs. rewrite Forall_app, Forall_singleton in He.
    rewrite fmap_app, NoDup_app in Hu. cbn in Hu. destruct He as [Hl He], Hu as (Hul & Hne & _).
    rewrite len_snoc in Hf.
    split_and!; [split; [done|done|lia|destruct (is_regular e.2); lia]|done| |done|].
    + intros Hin. by apply (Hne _ Hin), list_elem_of_singleton.
    + intros Hr. by rewrite Hr in Hs.
  - intros ([He Hu Hf Hs] & Hacc & Hne & Hfew & Hsmall). split.
    + rewrite Forall_app, Forall_singleton. done.
    + rewrite fmap_app, NoDup_app. split_and!; [done| |by apply NoDup_singleton].
      intros p Hp ->%list_elem_of_singleton. done.
    + by rewrite len_snoc.
    + rewrite Htotal. destruct (is_regular e.2); [by apply Hsmall|lia].
Qed.

(** One round of the loop, after a listing that was accepted. *)
Lemma visit_file_Ok l e counted st pl :
  is_regular e.2 = true → safe_path e.1 →
  counted = {|
    sa_seen := {[e.1]} ∪ sa_seen (found l); sa_files := sa_files (found l);
    sa_manifest_bytes := sa_manifest_bytes (found l);
    sa_executable_files := sa_executable_files (found l);
    sa_entry_count := (len l + 1)%N; sa_file_count := sa_file_count (found l);
    sa_directory_count := sa_directory_count (found l);
    sa_total_file_bytes := sa_total_file_bytes (found l) |} →
  visit_file counted e.1 e.2 = Ok (st, pl) ↔
  (te_size e.2 <= MAX_SINGLE_FILE_BYTES)%N ∧ (∃ mode, te_mode e.2 = inr mode) ∧
  (total_size (regular_files l) + te_size e.2 <= MAX_UNCOMPRESSED_FILE_BYTES)%N ∧
  (e.1 = MANIFEST_PATH → ∃ bs, read_to_end (te_data e.2) = inr bs ∧ len bs = te_size e.2 ∧
    (len bs <= MAX_MANIFEST_BYTES)%N) ∧
  st = found (l ++ [e]) ∧ pl = placed e.
Proof.
  intros Hreg Hsafe ->. rewrite (found_file l e Hreg). unfold visit_file, placed.
  cbn [sa_total_file_bytes sa_executable_files sa_seen sa_files sa_entry_count sa_file_count
       sa_directory_count sa_manifest_bytes found].
  rewrite Hreg. autorewrite with ok. rewrite N.ltb_ge, bind_Ok.
  assert (∀ (l : list string) (b : bool), (if b then shown ← path_string e.1; Ok (l ++ [shown]) else Ok l) =
    @Ok OmarchyError _ (l ++ (if b then [path_text e.1] else []))) as Hshown.
  { intros k []; [|by rewrite app_nil_r]. by rewrite (proj2 (path_string_Ok e.1 _ Hsafe) eq_refl). }
  split.
  - intros (Hsize & total & Ht & H). rewrite ok_or_Ok, checked_add_u64_Some in Ht. destruct Ht as [-> Ht].
    rewrite seq_Ok, reject_if_Ok, N.ltb_ge in H. destruct H as [Htotal H].
    unbind H as mode Hmode. rewrite map_err_Ok, of_sum_Ok in Hmode. rewrite Hshown in H. cbn in H.
    assert (is_executable e.2 = (N.land mode 73 != 0%N)) as Hx by (unfold is_executable; by rewrite Hmode).
    rewrite Hx. unfold manifest_entry. rewrite Hreg. cbn.
    destruct (bool_decide_reflect (e.1 = MANIFEST_PATH)) as [Hman|Hman].
    + unbind H as bs Hbs. apply read_manifest_Ok in Hbs as (Hr & ? & ?). rewrite Hr. injection H as <- <-.
      split_and!; eauto.
    + injection H as <- <-. split_and!; eauto. done.
  - intros (Hsize & (mode & Hmode) & Htotal & Hman & -> & ->). split; [done|].
    eexists. split; [apply ok_or_Ok, checked_add_u64_Some; split; [done|]|].
    { etrans; [exact Htotal|done]. }
    rewrite seq_Ok, reject_if_Ok, N.ltb_ge. split; [done|].
    rewrite Hmode. cbn [of_sum map_err]. rewrite bind_Ok_l, Hshown. cbn.
    assert (is_executable e.2 = (N.land mode 73 != 0%N)) as Hx by (unfold is_executable; by rewrite Hmode).
    rewrite Hx. unfold manifest_entry. rewrite Hreg. cbn.
    destruct (bool_decide_reflect (e.1 = MANIFEST_PATH)) as [Hp|Hp]; [|done].
    destruct (Hman Hp) as (bs & Hr & Hlen & Hsz). rewrite (proj2 (read_manifest_Ok _ bs) (conj Hr (conj Hlen Hsz))).
    cbn. by rewrite Hr.
Qed.

Lemma visit_entry_Ok l item st pl : listing_accepted l →
  visit_entry (found l) item = Ok (st, pl) ↔
  ∃ e, item = inr e.2 ∧ listing_accepted (l ++ [e]) ∧ st = found (l ++ [e]) ∧ pl = placed e.
Proof.
  intros Hl. unfold visit_entry. setoid_rewrite listing_accepted_snoc. split.
  - intros H. unbind H as entry Hitem. rewrite map_err_Ok, of_sum_Ok in Hitem. subst item.
    unbind H as count Hcount. rewrite ok_or_Ok, checked_add_u64_Some in Hcount. destruct Hcount as [-> _].
    rewrite seq_Ok, reject_if_Ok, N.ltb_ge in H. destruct H as [Hfew H].
    unbind H as raw Hraw. rewrite map_err_Ok, of_sum_Ok in Hraw.
    unbind H as path Hpath. apply validate_entry_path_Ok in Hpath as (Hlen & Hutf & Hpath & Hsafe).
    unbind H as shown Hshown. rewrite path_string_Ok in Hshown by done. subst shown.
    rewrite seq_Ok, reject_if_Ok, bool_decide_eq_false in H. destruct H as [Hfresh H].
    cbn in Hfresh. rewrite elem_of_list_to_set in Hfresh.
    exists (path, entry). cbn [fst snd]. split; [done|].
    destruct (te_type entry) eqn:Htype; [| |done].
    + apply (visit_file_Ok l (path, entry)) in H as (Hs & Hmode & Ht & Hman & -> & ->);
        [|by unfold is_regular; cbn; rewrite Htype|done|done].
      split_and!; try done. split; cbn [fst snd]; eauto.
    + injection H as <- <-.
      assert (is_regular entry = false) as Hreg by (unfold is_regular; by rewrite Htype).
      split_and!; try done.
      * split; cbn [fst snd]; eauto; by rewrite Hreg.
      * by rewrite Hreg.
      * by rewrite (found_directory l (path, entry)).
      * unfold placed. cbn [fst snd]. by rewrite Hreg.
  - intros ([path entry] & -> & (_ & [(raw & Hraw & Hlen & Hutf & Hpath) Hsafe Htype Hfile Hman] & Hfresh & Hfew & Hsmall) & -> & ->).
    cbn [fst snd] in *. cbn [of_sum map_err]. rewrite bind_Ok_l.
    rewrite (proj2 (checked_add_u64_Some (sa_entry_count (found l)) 1 (len l + 1)));
      [|split; [done|]; etrans; [exact Hfew|done]].
    cbn [ok_or]. rewrite bind_Ok_l. apply seq_Ok. split; [by apply reject_if_Ok, N.ltb_ge|].
    rewrite Hraw. cbn [of_sum map_err]. rewrite bind_Ok_l.
    rewrite (proj2 (validate_entry_path_Ok raw path)) by done. rewrite bind_Ok_l.
    rewrite (proj2 (path_string_Ok path _ Hsafe) eq_refl). rewrite bind_Ok_l.
    apply seq_Ok. split.
    { apply reject_if_Ok, bool_decide_eq_false. cbn. by rewrite elem_of_list_to_set. }
    unfold is_regular in Hfile, Hman, Hsmall. cbn [fst snd] in *. destruct (te_type entry) eqn:Ht.
    + apply (visit_file_Ok l (path, entry)); [by unfold is_regular; cbn; rewrite Ht|done|done|].
      destruct (Hfile eq_refl). split_and!; auto.
    + rewrite (found_directory l (path, entry)) by (unfold is_regular; cbn; by rewrite Ht).
      unfold placed, is_regular. cbn [fst snd]. by rewrite Ht.
    + by destruct Htype.
Qed.

(** The loop over the entries, without what it unpacks. *)
Definition visit_all (st : ArchiveState) (items : list (IoError + TarEntry)) : PackageResult ArchiveState :=
  fold_result (λ st item, r ← visit_entry st item; Ok r.1) st items.

Lemma found_nil : found [] = initial_archive_state.
Proof. done. Qed.

Lemma listing_accepted_nil : listing_accepted [].
Proof. split; [by constructor|by constructor|done|done]. Qed.

Lemma visit_all_from l items st : listing_accepted l →
  visit_all (found l) items = Ok st ↔
  ∃ k, items = map (λ e, inr e.2) k ∧ listing_accepted (l ++ k) ∧ st = found (l ++ k).
Proof.
  revert l. induction items as [|item items IH]; intros l Hl; unfold visit_all; cbn [fold_result].
  - split.
    + intros [= <-]. exists []. by rewrite app_nil_r.
    + intros ([|? ?] & ? & ? & ->); [by rewrite app_nil_r|done].
  - split.
    + intros H. unbind H as st' Hst. unbind Hst as r Hr. destruct r as [st1 pl]. injection Hst as <-.
      apply visit_entry_Ok in Hr as (e & -> & He & -> & _); [|done].
      apply (IH _ He) in H as (k & -> & Hk & ->). exists (e :: k). rewrite <- app_assoc in *. done.
    + intros ([|e k] & Hitems & Hk & ->); [done|]. cbn in Hitems. injection Hitems as -> ->.
      rewrite (cons_middle e l k), app_assoc in *.
      assert (listing_accepted (l ++ [e])) as He.
      { destruct Hk as [H1 H2 H3 H4]. split.
        - by apply Forall_app in H1 as [? _].
        - rewrite fmap_app in H2. by apply NoDup_app in H2 as (? & _ & _).
        - rewrite len_app in H3. lia.
        - unfold regular_files in *. rewrite filter_app, total_size_app in H4. lia. }
      rewrite (proj2 (visit_entry_Ok l (inr e.2) (found (l ++ [e])) (placed e) Hl));
        [|by exists e]. cbn. apply IH; [done|]. by exists k.
Qed.

(** The loop accepts exactly the listings of the specification. *)
Lemma visit_all_Ok items st :
  visit_all initial_archive_state items = Ok st ↔
  ∃ l, items = map (λ e, inr e.2) l ∧ listing_accepted l ∧ st = found l.
Proof. rewrite <- found_nil. apply visit_all_from, listing_accepted_nil. Qed.

(** ** Inspection *)

Section inspection.
Context {crates : Crates} {env : DiskEnv} {formats : ArchiveFormats} {semver : Semver}
  {json_manifest : Serde OmarchyManifest}.

Lemma process_entry_inspect s item d :
  process_entry None s item d =
  (match visit_entry s.1 item with
   | Ok r => Ok (r.1, s.2)
   | Err e => Err e
   | Panic p => Panic p
   end, d).
Proof.
  unfold process_entry, mbind, disk_bind, lift. by destruct (visit_entry s.1 item) as [[]| |].
Qed.

Lemma process_entries_inspect st tree items d :
  fold_disk (process_entry None) (st, tree) items d =
  (match visit_all st items with
   | Ok st' => Ok (st', tree)
   | Err e => Err e
   | Panic p => Panic p
   end, d).
Proof.
  revert st. induction items as [|item items IH]; intros st; cbn [fold_disk]; [done|].
  unfold visit_all. cbn [fold_result]. unfold mbind at 1, disk_bind. rewrite process_entry_inspect.
  cbn [fst snd]. destruct (visit_entry st item) as [[st' pl]|e|p]; cbn; [|done..]. apply IH.
Qed.

(** The data after the logical end of the archive. *)
Definition zero_bytes (bs : bytes) : Prop := Forall (eq Byte.x00) bs.

Lemma check_trailing_Ok trailing :
  check_trailing trailing = Ok tt ↔
  zero_bytes (stream_data trailing).1 ∧ (stream_data trailing).2 = None.
Proof.
  unfold check_trailing. destruct (read_chunks_data COPY_BUFFER trailing ltac:(done)) as [H1 H2].
  destruct (read_chunks COPY_BUFFER trailing) as [chunks failure]. cbn in H1, H2.
  rewrite <- H1, <- H2, seq_Ok, each_result_Ok. unfold zero_bytes. rewrite Forall_concat.
  assert (∀ chunk, reject_if (E:=OmarchyError) (existsb (λ b, b != Byte.x00) chunk)
      (InvalidPackage "archive contains non-zero data after the logical tar end") = Ok tt ↔
    Forall (eq Byte.x00) chunk) as Hchunk.
  { intros chunk. rewrite reject_if_Ok. induction chunk as [|b chunk IH]; cbn; [by split; [constructor|]|].
    rewrite orb_false_iff, IH, Forall_cons_iff, negb_false_iff, bool_decide_eq_true. naive_solver. }
  assert (match failure with Some e => Err (ArchiveIo e) | None => Ok tt end = @Ok OmarchyError _ tt ↔
    failure = None) as -> by (destruct failure; naive_solver).
  by setoid_rewrite Hchunk.
Qed.

(** The report is what the listing says. *)
Definition report_of (compressed : N) (l : Listing) : ArchiveReport := {|
  ar_compressed_bytes := compressed;
  ar_entries := len l;
  ar_files := len (regular_files l);
  ar_directories := (len l - len (regular_files l))%N;
  ar_uncompressed_file_bytes := total_size (regular_files l);
  ar_executable_files := sort_strings (path_text <$>
    (filter (λ e, is_executable e.2 = true) (regular_files l)).*1);
|}.

(** ** What a package file must be *)

(** The contents of a regular file of at most [MAX_COMPRESSED_BYTES], as they
    decompress: at most [MAX_DECOMPRESSED_STREAM_BYTES] of them are ever read,
    and within that bound the archive is what the decoder gives. *)
Record file_accepted (file : PackageFile) (compressed : N) (archive : Stream) : Prop := {
  fa_regular : ∃ md, pf_metadata file = inr md ∧ md_is_file md = true ∧ md_len md = compressed;
  fa_small : (compressed <= MAX_COMPRESSED_BYTES)%N;
  fa_rewound : pf_try_clone file = None ∧ pf_seek file = None;
  fa_decoded : ∃ decoder, zstd_decoder (pf_data file) = inr decoder ∧
    archive = bounded_reader MAX_DECOMPRESSED_STREAM_BYTES MAX_DECOMPRESSED_STREAM_BYTES decoder ∧
    (stream_bytes archive <= MAX_DECOMPRESSED_STREAM_BYTES)%N ∧
    ((stream_bytes decoder <= MAX_DECOMPRESSED_STREAM_BYTES)%N → archive = decoder);
}.

Lemma open_stream_Ok file compressed archive :
  open_stream file = Ok (compressed, archive) ↔ file_accepted file compressed archive.
Proof.
  assert (∀ o : option IoError, match o with Some e => Err (ArchiveIo e) | None => Ok tt end =
    @Ok OmarchyError _ tt ↔ o = None) as Hnone by (intros []; naive_solver).
  unfold open_stream. split.
  - intros H. unbind H as md Hmd. rewrite map_err_Ok, of_sum_Ok in Hmd.
    rewrite !seq_Ok, !reject_if_Ok, negb_false_iff, N.ltb_ge, !Hnone in H.
    destruct H as (Hf & Hs & Hc & Hseek & H). unbind H as decoder Hd. rewrite map_err_Ok, of_sum_Ok in Hd.
    injection H as <- <-. split; [eauto|done|done|]. exists decoder.
    split_and!; [done..|apply bounded_reader_bytes|apply bounded_reader_id].
  - intros [(md & Hmd & Hf & <-) Hs [Hc Hseek] (decoder & Hd & -> & _)]. rewrite Hmd. cbn [of_sum map_err].
    rewrite bind_Ok_l, !seq_Ok, !reject_if_Ok, negb_false_iff, N.ltb_ge, !Hnone. split_and!; [done..|].
    by rewrite Hd.
Qed.

(** ** What a manifest must say *)

(** Text that can be shown: it is not blank, it is short, and it has no
    control, separator or invisible characters. *)
Record shown_text (maximum : N) (value : string) : Prop := {
  st_some : trim value ≠ EmptyString;
  st_short : (str_len value <= maximum)%N;
  st_visible : ∀ c, c ∈ chars value →
    is_control c = false ∧ c ≠ 0x2028%N ∧ c ≠ 0x2029%N ∧ is_unicode_17_default_ignorable c = false;
}.

(** An identifier of 1 to 255 letters, digits, dots, underscores and hyphens
    that starts with a letter or digit, has no two dots in a row and is not one
    of the reserved ones. *)
Record plugin_id (id : string) : Prop := {
  pid_short : (str_len id <= 255)%N;
  pid_grammar : ∃ first rest, id = String first rest ∧ is_ascii_alphanumeric first = true ∧
    ∀ c, c ∈ String.list_ascii_of_string rest →
      is_ascii_alphanumeric c = true ∨ c = "."%char ∨ c = "_"%char ∨ c = "-"%char;
  pid_no_dots : ∀ before after, id ≠ before +:+ ".." +:+ after;
  pid_free : ∀ rest, id ≠ "omarchy." +:+ rest;
}.

(** A manifest of schema version 1 whose texts can be shown, whose version is
    a semantic one, whose kinds are distinct, whose entry points are files of
    the package, and which has the entry point that each of its kinds needs. *)
Record manifest_accepted (manifest : OmarchyManifest) (files : list (list string)) : Prop := {
  ma_schema : om_schema_version manifest = 1%N;
  ma_id : plugin_id (om_id manifest);
  ma_name : shown_text 256 (om_name manifest);
  ma_version : shown_text 128 (om_version manifest) ∧ ∃ v, Version_parse (om_version manifest) = inr v;
  ma_description : ∀ text, om_description manifest = Some text → shown_text 4096 text;
  ma_kinds : (0 < len (om_kinds manifest) <= 16)%N ∧ NoDup (om_kinds manifest) ∧
    ∀ kind, kind ∈ om_kinds manifest → shown_text 64 kind;
  ma_entry_points : (len (om_entry_points manifest) <= 32)%N ∧
    ∀ key raw, (key, raw) ∈ om_entry_points manifest →
      shown_text 64 key ∧ (str_len raw <= MAX_ARCHIVE_PATH_BYTES)%N ∧ utf8_valid raw = true ∧
      safe_path (path_components raw) ∧ path_components raw ∈ files;
  ma_required : ∀ kind key, kind ∈ om_kinds manifest →
    (kind, key) ∈ [("bar", "bar"); ("bar-widget", "barWidget"); ("menu", "menu");
                   ("overlay", "overlay"); ("panel", "panel"); ("service", "service")] →
    key ∈ (om_entry_points manifest).*1;
}.

Lemma validate_display_text_Ok field value maximum :
  validate_display_text field value maximum = Ok tt ↔ shown_text maximum value.
Proof.
  unfold validate_display_text, contains_unsafe_display_characters.
  rewrite seq_Ok, !reject_if_Ok, orb_false_iff, bool_decide_eq_false, N.ltb_ge.
  assert (existsb is_unsafe_display_character (chars value) = false ↔
    ∀ c, c ∈ chars value → is_unsafe_display_character c = false) as ->.
  { rewrite <- not_true_iff_false, existsb_exists. split.
    - intros Hn c Hc. apply not_true_iff_false. intros Ht. apply Hn. exists c. by rewrite <- list_elem_of_In.
    - intros Hall (c & Hc%list_elem_of_In & Ht). rewrite (Hall c Hc) in Ht. done. }
  assert (∀ c, is_unsafe_display_character c = false ↔ is_control c = false ∧ c ≠ 0x2028%N ∧ c ≠ 0x2029%N ∧
    is_unicode_17_default_ignorable c = false) as Hchar.
  { intros c. unfold is_unsafe_display_character. rewrite !orb_false_iff, !N.eqb_neq. tauto. }
  setoid_rewrite Hchar. split; [by intros [[] ?]|by intros []].
Qed.

Lemma starts_with_spec p s : starts_with p s = false ↔ ∀ rest, s ≠ p +:+ rest.
Proof.
  unfold starts_with. rewrite bool_decide_eq_false. unfold is_Some.
  setoid_rewrite strip_prefix_Some. naive_solver.
Qed.

Lemma str_contains_spec p s :
  str_contains p s = false ↔ ∀ before after, s ≠ before +:+ p +:+ after.
Proof.
  induction s as [|c s IH]; cbn [str_contains]; rewrite orb_false_iff, starts_with_spec; [|rewrite IH]; split.
  - intros [H _] [|? ?] after; [apply H|done].
  - intros H. split; [|done]. intros rest. apply (H EmptyString).
  - intros [H Hs] [|c' before] after; [apply H|]. cbn. intros [= -> Heq]. by apply Hs in Heq.
  - intros H. split; [intros rest; apply (H EmptyString)|].
    intros before after ->. by apply (H (String c before) after).
Qed.

Lemma str_all_spec p s : str_all p s = true ↔ ∀ c, c ∈ String.list_ascii_of_string s → p c = true.
Proof.
  induction s as [|a s IH]; cbn; [set_solver|]. rewrite andb_true_iff, IH. set_solver.
Qed.

Lemma validate_plugin_id_Ok id : validate_plugin_id id = Ok tt ↔ plugin_id id.
Proof.
  unfold validate_plugin_id. rewrite seq_Ok, reject_if_Ok, orb_false_iff, bool_decide_eq_false, N.ltb_ge.
  assert (∀ rest, str_all is_plugin_id_byte rest = true ↔ ∀ c, c ∈ String.list_ascii_of_string rest →
      is_ascii_alphanumeric c = true ∨ c = "."%char ∨ c = "_"%char ∨ c = "-"%char) as Hall.
  { intros rest. rewrite str_all_spec. unfold is_plugin_id_byte. cbn [existsb].
    setoid_rewrite orb_true_iff. setoid_rewrite orb_true_iff. setoid_rewrite orb_true_iff.
    setoid_rewrite orb_true_iff. setoid_rewrite bool_decide_eq_true.
    split; intros H c Hc; specialize (H c Hc); naive_solver. }
  destruct id as [|first rest].
  - split; [by intros [[? _] _]|]. intros [_ (? & ? & ? & _) _ _]. done.
  - rewrite reject_if_Ok, !orb_false_iff, !negb_false_iff, Hall, str_contains_spec, starts_with_spec. split.
    + intros [[_ ?] [[[? ?] ?] ?]]. split; eauto 10.
    + intros [? (? & ? & [= <- <-] & ? & ?) ? ?]. done.
Qed.

Lemma validate_kinds_Ok unique kinds :
  strictly_sorted unique →
  (∃ r, fold_result validate_kind unique kinds = Ok r) ↔
  (NoDup kinds ∧ (∀ kind, kind ∈ kinds → kind ∉ unique)) ∧ ∀ kind, kind ∈ kinds → shown_text 64 kind.
Proof.
  revert unique. induction kinds as [|kind kinds IH]; intros unique Hs; cbn [fold_result].
  { split; [|by eauto]. intros _. split_and!; [constructor|set_solver..]. }
  assert (∀ r, validate_kind unique kind = Ok r ↔
    shown_text 64 kind ∧ kind ∉ unique ∧ r = (bset_insert kind unique).1) as Hkind.
  { intros r. unfold validate_kind. rewrite !seq_Ok, validate_display_text_Ok, reject_if_Ok, negb_false_iff,
      bset_insert_fresh by done. naive_solver. }
  setoid_rewrite bind_Ok. setoid_rewrite Hkind. split.
  - intros (r & u & (Hk & Hfresh & ->) & Hr).
    destruct (proj1 (IH _ (bset_insert_sorted _ _ Hs)) (ex_intro _ r Hr)) as [[Hnd Hn] Hall].
    setoid_rewrite bset_insert_elem in Hn. rewrite NoDup_cons. set_solver.
  - intros [[[Hf Hnd]%NoDup_cons Hn] Hall].
    destruct (proj2 (IH _ (bset_insert_sorted kind _ Hs))) as [r Hr].
    { setoid_rewrite bset_insert_elem. split_and!; [done|set_solver..]. }
    exists r, (bset_insert kind unique).1. split; [|done]. set_solver.
Qed.

Lemma validate_entry_point_Ok (files : list (list string)) key raw :
  validate_entry_point (list_to_set files) (key, raw) = Ok tt ↔
  shown_text 64 key ∧ (str_len raw <= MAX_ARCHIVE_PATH_BYTES)%N ∧ utf8_valid raw = true ∧
  safe_path (path_components raw) ∧ path_components raw ∈ files.
Proof.
  unfold validate_entry_point. cbn [fst snd]. rewrite seq_Ok, validate_display_text_Ok, bind_Ok.
  setoid_rewrite validate_entry_path_Ok. setoid_rewrite reject_if_Ok. setoid_rewrite negb_false_iff.
  setoid_rewrite bool_decide_eq_true. setoid_rewrite elem_of_list_to_set. naive_solver.
Qed.

Lemma require_entry_point_Ok entry_points kind :
  require_entry_point entry_points kind = Ok tt ↔
  ∀ key, (kind, key) ∈ required_entry_points → key ∈ entry_points.*1.
Proof.
  unfold require_entry_point.
  assert (strictly_sorted required_entry_points.*1) as Hs by (repeat constructor; vm_compute; done).
  setoid_rewrite <- (bmap_get_Some kind required_entry_points _ Hs).
  destruct (bmap_get kind required_entry_points) as [key|]; [|by split].
  rewrite reject_if_Ok, negb_false_iff, bool_decide_eq_true.
  assert (is_Some (bmap_get key entry_points) ↔ key ∈ entry_points.*1) as ->; [|naive_solver].
  rewrite <- not_eq_None_Some, bmap_get_None. destruct (decide (key ∈ entry_points.*1)); tauto.
Qed.

Lemma validate_manifest_Ok manifest files :
  validate_manifest manifest (list_to_set files) = Ok tt ↔ manifest_accepted manifest files.
Proof.
  unfold validate_manifest.
  assert (match om_description manifest with
    | Some description => validate_display_text "description" description 4096 | None => Ok tt end = Ok tt ↔
    ∀ text, om_description manifest = Some text → shown_text 4096 text) as Hdesc.
  { destruct (om_description manifest) as [text|]; [|by split].
    rewrite validate_display_text_Ok. naive_solver. }
  assert (∀ k : PackageResult unit, (_ ← parse_semantic_version (om_version manifest); k) = Ok tt ↔
    (∃ v, Version_parse (om_version manifest) = inr v) ∧ k = Ok tt) as Hversion.
  { intros k. unfold parse_semantic_version. rewrite bind_Ok. setoid_rewrite map_err_Ok.
    setoid_rewrite of_sum_Ok. clear. naive_solver. }
  assert (∀ k : PackageResult unit, (_ ← fold_result validate_kind [] (om_kinds manifest); k) = Ok tt ↔
    (NoDup (om_kinds manifest) ∧ ∀ kind, kind ∈ om_kinds manifest → shown_text 64 kind) ∧ k = Ok tt) as Hkinds.
  { intros k. rewrite bind_Ok. pose proof (validate_kinds_Ok [] (om_kinds manifest) ltac:(constructor)) as Hv.
    split; [intros (r & Hr & Hk)|intros [[Hn Hall] Hk]].
    - split; [|done]. apply proj1 in Hv. by destruct (Hv (ex_intro _ r Hr)) as [[? _] ?].
    - destruct (proj2 Hv) as [r Hr]; [split_and!; [done|set_solver|done]|]. eauto. }
  rewrite !seq_Ok, validate_plugin_id_Ok, !validate_display_text_Ok, Hversion, !seq_Ok, Hdesc, Hkinds, !seq_Ok.
  rewrite !reject_if_Ok, negb_false_iff, bool_decide_eq_true, orb_false_iff, bool_decide_eq_false, !N.ltb_ge,
    !each_result_Ok, !list.Forall_forall.
  setoid_rewrite require_entry_point_Ok.
  assert ((∀ x, x ∈ om_entry_points manifest → validate_entry_point (list_to_set files) x = Ok tt) ↔
    ∀ key raw, (key, raw) ∈ om_entry_points manifest →
      shown_text 64 key ∧ (str_len raw <= MAX_ARCHIVE_PATH_BYTES)%N ∧ utf8_valid raw = true ∧
      safe_path (path_components raw) ∧ path_components raw ∈ files) as ->.
  { setoid_rewrite <- validate_entry_point_Ok. split; [by intros H key raw; apply H|]. intros H [key raw]. apply H. }
  split.
  - intros (? & ? & ? & ? & ? & ? & [Hne ?] & ? & ? & ? & ?).
    assert (0 < len (om_kinds manifest))%N by (destruct (om_kinds manifest); [done|rewrite len_cons; lia]).
    split; eauto 10.
  - intros [? ? ? [? ?] ? [[Hpos ?] [? ?]] [? ?] Hreq]. split_and!; try done; [|intros kind Hk key; by apply Hreq].
    intros Hnil. rewrite Hnil in Hpos. by apply N.lt_irrefl in Hpos.
Qed.

(** What it takes for an archive to be accepted as the package of a plugin. *)
Record package_accepted (archive : Stream) (l : Listing) (manifest : OmarchyManifest) : Prop := {
  pa_listing : tar_entries archive = inr (map (λ e, inr e.2) l);
  pa_accepted : listing_accepted l;
  pa_some : l ≠ [];
  pa_trailing : zero_bytes (stream_data (tar_into_inner archive)).1 ∧
    (stream_data (tar_into_inner archive)).2 = None;
  pa_manifest : ∃ entry bs, (MANIFEST_PATH, entry) ∈ l ∧ is_regular entry = true ∧
    read_to_end (te_data entry) = inr bs ∧ json_from_slice bs = inr manifest;
  pa_valid : manifest_accepted manifest (regular_files l).*1;
}.

Lemma listed_manifest_Some l bs : listing_accepted l →
  listed_manifest l = Some bs ↔
  ∃ entry, (MANIFEST_PATH, entry) ∈ l ∧ is_regular entry = true ∧ read_to_end (te_data entry) = inr bs.
Proof.
  intros [Hacc Hu _ _]. unfold listed_manifest. split.
  - intros Hlast. assert (bs ∈ omap manifest_entry l) as Hin.
    { apply last_Some in Hlast as [k ->]. set_solver. }
    apply list_elem_of_omap in Hin as ([path entry] & Hin & He). unfold manifest_entry in He.
    cbn in He. destruct (is_regular entry) eqn:Hr; [|done]. cbn in He.
    destruct (bool_decide_reflect (path = MANIFEST_PATH)) as [->|]; [|done].
    destruct (read_to_end (te_data entry)) eqn:Hd; [done|]. injection He as ->. eauto.
  - intros (entry & Hin & Hr & Hd). apply list_elem_of_split in Hin as (l1 & l2 & ->).
    rewrite fmap_app in Hu. cbn in Hu. apply NoDup_app in Hu as (_ & _ & [Hfresh _]%NoDup_cons).
    assert (omap manifest_entry l2 = []) as Hnone.
    { clear -Hfresh. induction l2 as [|e l2 IH]; [done|]. cbn in *. rewrite not_elem_of_cons in Hfresh.
      destruct Hfresh as [Hne Hf]. unfold manifest_entry at 1.
      destruct (bool_decide_reflect (e.1 = MANIFEST_PATH)); [congruence|].
      rewrite andb_false_r. by apply IH. }
    rewrite omap_app. cbn. unfold manifest_entry at 2. cbn. rewrite Hr, Hd. cbn.
    rewrite Hnone, bool_decide_eq_true_2 by done. by rewrite last_snoc.
Qed.

Lemma finish_archive_Ok compressed archive l manifest report : listing_accepted l →
  tar_entries archive = inr (map (λ e, inr e.2) l) →
  finish_archive compressed (found l) (tar_into_inner archive) = Ok (manifest, report) ↔
  package_accepted archive l manifest ∧ report = report_of compressed l.
Proof.
  intros Hl Htar. unfold finish_archive. rewrite !seq_Ok, check_trailing_Ok, reject_if_Ok.
  split.
  - intros (Htr & Hne & H). unbind H as bs Hbs. rewrite ok_or_Ok in Hbs. cbn in Hbs.
    apply listed_manifest_Some in Hbs as (entry & ? & ? & ?); [|done].
    unbind H as m Hm. rewrite map_err_Ok, of_sum_Ok in Hm.
    rewrite seq_Ok in H. destruct H as [Hv%validate_manifest_Ok [= -> <-]]. split; [|done].
    split; eauto 10. intros ->. done.
  - intros ([_ _ Hsome Htr (entry & bs & Hin & Hr & Hd & Hm) Hv] & ->).
    split_and!; [apply Htr|apply Htr| |].
    + apply bool_decide_eq_false. cbn. by rewrite len_nil.
    + cbn [sa_manifest_bytes found]. rewrite (proj2 (listed_manifest_Some l bs Hl)) by eauto.
      cbn [ok_or]. rewrite bind_Ok_l, Hm. cbn [of_sum map_err]. rewrite bind_Ok_l.
      rewrite seq_Ok. split; [by apply validate_manifest_Ok|done].
Qed.

(** C18: inspecting a package succeeds, with a manifest and a report, exactly
    when the specification accepts the archive: the file is a regular one of at
    most [MAX_COMPRESSED_BYTES], no more than [MAX_DECOMPRESSED_STREAM_BYTES] of
    what it decompresses to are read, the entries have distinct safe paths and
    are regular files and directories within the limits, nothing but zeros
    follows them, and the manifest at the root says what a manifest must say for
    the files that are there. The report is what the listing says, and the disk
    is not touched. *)
Theorem inspection_refines_specification file d manifest report d' :
  inspect_archive_file file d = (Ok (manifest, report), d') ↔
  d' = d ∧ ∃ compressed archive l, file_accepted file compressed archive ∧
    package_accepted archive l manifest ∧ report = report_of compressed l.
Proof.
  setoid_rewrite <- open_stream_Ok. unfold inspect_archive_file, process_archive. split.
  - intros H. disk_split H as r d1 Hp. destruct r as [result tree]. injection H as -> <-.
    disk_split Hp as opened d2 Hopen. rewrite lift_Ok in Hopen. destruct Hopen as [Hopen ->].
    destruct opened as [compressed archive].
    disk_split Hp as items d3 Hitems. rewrite lift_Ok, map_err_Ok, of_sum_Ok in Hitems.
    destruct Hitems as [Hitems ->].
    disk_split Hp as s d4 Hfold. rewrite process_entries_inspect in Hfold.
    destruct (visit_all _ items) as [st|e|p] eqn:Hall; [|done..]. injection Hfold as <- <-.
    apply visit_all_Ok in Hall as (l & -> & Hl & ->).
    disk_split Hp as r d5 Hfin. rewrite lift_Ok in Hfin. destruct Hfin as [Hfin ->].
    injection Hp as -> _ <-. split; [done|]. exists compressed, archive, l.
    split; [done|]. by apply finish_archive_Ok in Hfin.
  - intros (-> & compressed & archive & l & Hopen & Hacc & ->).
    apply disk_bind_Ok. exists (manifest, report_of compressed l, None), d. split; [|done].
    apply disk_bind_Ok. exists (compressed, archive), d. split; [by apply lift_Ok|].
    apply disk_bind_Ok. exists (map (λ e, inr e.2) l), d.
    split; [apply lift_Ok; by rewrite (pa_listing _ _ _ Hacc)|].
    apply disk_bind_Ok. eexists (found l, _), d. split.
    { rewrite process_entries_inspect. rewrite (proj2 (visit_all_Ok _ (found l))); [done|].
      exists l. split_and!; [done|by apply pa_accepted in Hacc|done]. }
    apply disk_bind_Ok. exists (manifest, report_of compressed l), d. split; [|done].
    apply lift_Ok. split; [|done]. apply finish_archive_Ok; [by apply pa_accepted in Hacc|by apply pa_listing in Hacc|done].
Qed.

End inspection.
