(* ===== verification/UnpackFacts.v ===== *)
(** * What unpacking a package does to the disk

    Whatever the archive holds and whatever fails, nothing outside the new
    directory changes. When unpacking succeeds, the inspection of the same
    package does, with the same result, and the tree manifest describes what is
    on the disk. *)

From stdpp Require Import base numbers list strings pretty sorting option gmap.
From Stdlib Require Import Strings.Byte Ascii.
From S2P Require Import Prelude Text Ordered Display Crates Io ArtifactProof Names.
From S2P Require Import Transport StoreTypes StoreCommon Disk Package PackageArchive PackageFacts.

(** ** Staying below a directory *)

Definition is_directory (nodes : Nodes) (p : place) : Prop := ∃ mode, nodes !! p = Some (DirNode mode).

Lemma is_dir_spec p d : plain p → is_dir p d = true ↔ is_directory (dk_nodes d) p.
Proof.
  intros Hp. rewrite is_dir_plain by done. unfold is_directory. destruct (dk_nodes d !! p) as [[|]|]; naive_solver.
Qed.

(** Every place above a directory is one. *)
Lemma closed_above nodes r p :
  closed nodes → is_directory nodes p → r `suffix_of` p → is_directory nodes r.
Proof.
  intros Hc Hp [q ->]. induction q as [|c q IH]; [done|]. destruct Hp as [mode Hp].
  apply IH. by apply (Hc c (q ++ r) (DirNode mode)).
Qed.

(** Nothing changes but below [dest], which stays a directory. *)
Definition within (dest : place) (a b : Disk) : Prop :=
  closed (dk_nodes a) → is_directory (dk_nodes a) dest →
  closed (dk_nodes b) ∧ is_directory (dk_nodes b) dest ∧
  ∀ p, ¬ dest `suffix_of` p → dk_nodes b !! p = dk_nodes a !! p.

#[export] Instance within_preorder dest : PreOrder (within dest).
Proof.
  split; [by intros a|]. intros a b c Hab Hbc Hc Hd.
  destruct (Hab Hc Hd) as (Hc1 & Hd1 & H1). destruct (Hbc Hc1 Hd1) as (Hc2 & Hd2 & H2).
  split_and!; [done..|]. intros p Hp. rewrite H2, H1; done.
Qed.

Lemma within_same dest a b : dk_nodes b = dk_nodes a → within dest a b.
Proof. intros Heq Hc Hd. by rewrite Heq. Qed.

(** A node below [dest] is replaced by one of the same kind, or added. *)
Lemma within_insert dest p node a b :
  dest `suffix_of` p → dk_nodes b = <[p := node]> (dk_nodes a) →
  (∃ old, dk_nodes a !! p = Some old ∧ same_kind old node) ∨
    (∃ c parent mode, p = c :: parent ∧ dk_nodes a !! p = None ∧ dk_nodes a !! parent = Some (DirNode mode)) →
  within dest a b.
Proof.
  intros Hp Hb Hcase Hc [mode Hd]. rewrite Hb. split_and!.
  - destruct Hcase as [(old & ? & ?)|(c & parent & m & -> & ? & ?)];
      [by eapply closed_update|by eapply closed_create].
  - destruct (decide (p = dest)) as [->|Hne].
    + destruct Hcase as [(old & Hold & Hk)|(? & ? & ? & _ & ? & _)]; [|congruence].
      rewrite Hold in Hd. injection Hd as ->. destruct node; [|done].
      eexists. by rewrite lookup_insert_eq.
    + exists mode. by rewrite lookup_insert_ne.
  - intros r Hr. rewrite lookup_insert_ne; [done|]. by intros <-.
Qed.

Section unpacking.
Context {env : DiskEnv}.

Lemma within_create_dir_all dest p :
  plain p → dest `suffix_of` p → leaves (within dest) (create_dir_all p).
Proof.
  intros Hpl Hp d Hc Hd. pose proof (create_dir_all_effect p d Hpl Hc) as H.
  destruct (create_dir_all p d) as [r d']. destruct H as (Hg & Hc' & _ & _). cbn. split_and!; [done| |].
  - destruct Hd as [mode Hd]. exists mode. destruct (Hg dest) as [->|(? & _)]; [done|congruence].
  - intros r' Hr. destruct (Hg r') as [?|(Hnone & Hs & _)]; [done|]. exfalso.
    destruct (suffix_weak_total _ _ _ Hp Hs) as [?|?]; [done|].
    destruct (closed_above _ r' dest Hc Hd) as [m ?]; [done|]. congruence.
Qed.

Lemma within_set_permissions dest p mode :
  plain p → dest `suffix_of` p → leaves (within dest) (set_permissions p mode).
Proof.
  intros Hpl Hp d. destruct (set_permissions p mode d) as [[a|e|s] d'] eqn:E; cbn.
  - apply set_permissions_Ok in E as (old & Hold & Hd'); [|done].
    eapply within_insert; [done|exact Hd'|]. left. exists old. split; [done|by destruct old].
  - apply set_permissions_fails in E. by apply within_same.
  - pose proof (disk_call_total (at_place p (λ q nodes, match nodes !! q with
      | Some (DirNode _) => inr (tt, <[q := DirNode mode]> nodes)
      | Some (FileNode _ content) => inr (tt, <[q := FileNode mode content]> nodes)
      | None => inl NoSuchFile end)) d) as H. unfold set_permissions in E. by rewrite E in H.
Qed.

Lemma within_create_new dest p :
  plain p → dest `suffix_of` p → leaves (within dest) (create_new p).
Proof.
  intros Hpl Hp d. destruct (create_new p d) as [[a|e|s] d'] eqn:E; cbn.
  - apply create_new_Ok in E as (c & parent & mode & -> & Hnone & Hparent & Hd'); [|done].
    eapply within_insert; [done|exact Hd'|]. right. eauto 10.
  - apply disk_call_Err in E as [E _]. by apply within_same.
  - pose proof (disk_call_total (at_place p (λ q, create_node q (FileNode (masked 438) []))) d) as H.
    unfold create_new in E. by rewrite E in H.
Qed.

Lemma within_append dest p bs d n :
  plain p → dest `suffix_of` p →
  within dest d {| dk_nodes := append_node p bs (dk_nodes d); dk_calls := n |}.
Proof.
  intros Hpl Hp. rewrite append_node_plain by done. destruct (dk_nodes d !! p) as [[mode|mode content]|] eqn:E;
    [by apply within_same| |by apply within_same].
  eapply within_insert; [exact Hp|done|]. left. by exists (FileNode mode content).
Qed.

Lemma within_write_all dest p bs :
  plain p → dest `suffix_of` p → leaves (within dest) (file_write_all p bs).
Proof.
  intros Hpl Hp d. unfold file_write_all. destruct (disk_fault (dk_calls d)) as [[]|]; by apply within_append.
Qed.

Lemma within_sync dest p : leaves (within dest) (file_sync p).
Proof.
  intros d. apply within_same. unfold file_sync, disk_call.
  by destruct (disk_fault (dk_calls d)) as [[]|].
Qed.

End unpacking.

(** [stays] walks a program and leaves the calls. *)
Ltac stays :=
  repeat match goal with
    | |- leaves _ (lift _) => apply leaves_lift, _
    | |- leaves _ (mret _) => apply leaves_ret, _
    | |- leaves _ (disk_map_err _ _) => apply leaves_map_err
    | |- leaves _ (_ ≫= _) => apply leaves_bind; [apply _| |intros]
    | |- leaves _ (fold_disk _ _ _) => apply leaves_fold; [apply _|intros]
    | |- leaves _ (match ?x with _ => _ end) => destruct x
    end.

Section packages.
Context {crates : Crates} {env : DiskEnv} {formats : ArchiveFormats} {semver : Semver}
  {json_manifest : Serde OmarchyManifest}.

Lemma within_write_file_new dest c parent reader executable size :
  plain (c :: parent) → dest `suffix_of` parent →
  leaves (within dest) (write_file_new (c :: parent) reader executable size).
Proof.
  intros Hpl Hp. pose proof (plain_parent _ _ Hpl). assert (dest `suffix_of` c :: parent) as Hc by by apply suffix_cons_r.
  unfold write_file_new, set_directory_permissions, set_file_permissions, file_flush. stays;
    auto using within_create_dir_all, within_set_permissions, within_create_new, within_sync.
  unfold write_chunk. stays; auto using within_write_all.
Qed.

(** Whatever the loop has found so far, an entry is placed at a safe path. *)
Definition placement_path (placement : Placement) : list string :=
  match placement with PlaceDirectory relative | PlaceFile relative _ _ _ => relative end.

Lemma visit_entry_safe st item st' placement :
  visit_entry st item = Ok (st', placement) → safe_path (placement_path placement).
Proof.
  unfold visit_entry. intros H. unbind H as entry Hitem. unbind H as count Hcount.
  rewrite seq_Ok in H. destruct H as [_ H]. unbind H as raw Hraw. unbind H as path Hpath.
  apply validate_entry_path_Ok in Hpath as (_ & _ & _ & Hsafe).
  unbind H as shown Hshown. rewrite seq_Ok in H. destruct H as [_ H].
  destruct (te_type entry); [|by injection H as <- <-|done].
  unfold visit_file in H. rewrite seq_Ok in H. destruct H as [_ H]. unbind H as total Htotal.
  rewrite seq_Ok in H. destruct H as [_ H]. unbind H as mode Hmode. unbind H as executables Hx.
  clear Hx Hmode Htotal. destruct (path == MANIFEST_PATH); [unbind H as bs Hbs|]; by injection H as <- <-.
Qed.

Lemma join_snoc root relative c : join root (relative ++ [c]) = c :: join root relative.
Proof. unfold join. by rewrite reverse_snoc. Qed.

Lemma join_below root relative : root `suffix_of` join root relative.
Proof. by exists (reverse relative). Qed.

(** Safe paths are plain. *)
Lemma plain_app q p : Forall plain_component q → plain p → plain (q ++ p).
Proof. intros Hq Hp. induction Hq; cbn [app plain]; [done|]. by left. Qed.

Lemma plain_join root path : plain root → path = [] ∨ safe_path path → plain (join root path).
Proof.
  intros Hr [->|[_ _ Hs]]; [done|]. apply plain_app; [|done]. rewrite list.Forall_forall.
  intros c Hc. rewrite elem_of_reverse in Hc. rewrite list.Forall_forall in Hs. destruct (Hs c Hc) as [Hn _ _ _ _ _ _].
  unfold plain_component. set_solver.
Qed.

Lemma within_process_entry dest s item :
  plain dest → leaves (within dest) (process_entry (Some dest) s item).
Proof.
  intros Hpl d. unfold process_entry, mbind, disk_bind, lift.
  destruct (visit_entry s.1 item) as [[st placement]|e|p] eqn:Hv; [|done..].
  apply visit_entry_safe in Hv as Hsafe. pose proof (plain_join dest _ Hpl (or_intror Hsafe)) as Hj.
  destruct Hsafe as [Hsome _ _]. cbn [placement_path] in *. destruct placement as [relative|relative reader x size]; cbn in Hsome.
  - apply (leaves_bind (within dest) (place_entry _ _ _)); [|intros; by apply leaves_ret, _].
    unfold place_entry, set_directory_permissions. stays;
      auto using within_create_dir_all, within_set_permissions, join_below.
  - apply (leaves_bind (within dest) (place_entry _ _ _)); [|intros; by apply leaves_ret, _].
    destruct relative as [|c relative _] using rev_ind; [done|].
    cbn [placement_path] in Hj. rewrite join_snoc in Hj.
    unfold place_entry. rewrite join_snoc. stays. apply within_write_file_new; [done|apply join_below].
Qed.

Lemma within_process_archive dest file :
  plain dest → leaves (within dest) (process_archive file (Some dest)).
Proof. intros Hpl. unfold process_archive. stays. by apply within_process_entry. Qed.

Lemma disk_bind_map_err {E F A B} (f : E → F) (m : DiskM E A) (k : A → DiskM F B) d :
  (disk_map_err f m ≫= k) d =
  match m d with
  | (Ok a, d') => k a d'
  | (Err e, d') => (Err (f e), d')
  | (Panic p, d') => (Panic p, d')
  end.
Proof. unfold mbind, disk_bind, disk_map_err. by destruct (m d) as [[]]. Qed.

(** C17: unpacking never touches anything outside the new directory. Whatever
    the archive holds, [..] and absolute paths among it, whichever calls fail and
    whatever the outcome, every place that is not the destination or below it is
    as it was, and nothing that was there before was overwritten. The
    destination is a plain path, without [..] itself. *)
Theorem extraction_is_contained file dest d :
  plain dest → closed (dk_nodes d) →
  let d' := (extract_archive_file file dest d).2 in
  (∀ p, ¬ dest `suffix_of` p → dk_nodes d' !! p = dk_nodes d !! p) ∧
  (∀ p node, dk_nodes d !! p = Some node → dk_nodes d' !! p = Some node) ∧
  closed (dk_nodes d').
Proof.
  intros Hpl Hc. cbn zeta. unfold extract_archive_file, extract_archive_from_file.
  match goal with |- context [mbind ?f (disk_map_err _ (create_dir dest)) d] =>
    assert (leaves (within dest) (f tt)) as Hw; [|set (rest := f) in *] end.
  { unfold set_directory_permissions. stays; [by apply within_set_permissions|by apply within_process_archive]. }
  rewrite disk_bind_map_err. pose proof (create_dir_cases dest d Hpl) as Hcases.
  destruct (create_dir dest d) as [[[]|e|s] d1] eqn:Hmk; [|destruct Hcases as [Heq _]|done];
    [|by cbn; rewrite Heq].
  destruct (Hcases Hc) as (Hg & Hc1 & Hdir & Hnone). rewrite is_dir_spec in Hdir by done.
  assert (∀ p, ¬ dest `suffix_of` p → dk_nodes d1 !! p = dk_nodes d !! p) as Hout1.
  { intros p Hp. rewrite create_dir_plain in Hmk by done.
    apply disk_call_Ok, create_node_Ok in Hmk as (? & ? & ? & _ & _ & _ & ->).
    rewrite lookup_insert_ne; [done|]. by intros <-. }
  specialize (Hw d1 Hc1 Hdir) as (Hc2 & _ & Hout2).
  assert (∀ p, ¬ dest `suffix_of` p → dk_nodes (rest tt d1).2 !! p = dk_nodes d !! p) as Hout.
  { intros p Hp. by rewrite Hout2, Hout1. }
  split_and!; [exact Hout| |exact Hc2].
  intros p node Hp. rewrite Hout; [done|]. intros [q ->].
  by rewrite (closed_below_app _ q dest Hc Hnone) in Hp.
Qed.

(** ** The tree manifest *)

(** How a node is described. *)
Definition node_entry (path : list string) (node : Node) : ExtractedTreeEntry :=
  match node with
  | DirNode mode => {| et_path := path; et_kind := TreeDirectory; et_mode := mode; et_size := 0; et_sha256 := None |}
  | FileNode mode bs =>
      {| et_path := path; et_kind := TreeFile; et_mode := mode; et_size := len bs;
         et_sha256 := Some (Sha256_digest bs) |}
  end.

(** The record of the directories and files made so far is what is there. *)
Record describes (root : place) (tree : TreeState) (nodes : Nodes) : Prop := {
  de_directories path : is_directory nodes (join root path) ↔ path ∈ tr_directories tree;
  de_modes path mode : nodes !! join root path = Some (DirNode mode) → mode = 493%N ∨ mode = masked 511;
  de_files entry : entry ∈ tr_files tree ↔ ∃ mode bs,
    nodes !! join root (et_path entry) = Some (FileNode mode bs) ∧
    entry = node_entry (et_path entry) (FileNode mode bs);
}.

Lemma join_inj root : Inj (=) (=) (join root).
Proof. unfold join. intros a b H. by apply (inj (.++ root)), (inj reverse) in H. Qed.

Lemma join_suffix root a b : join root a `suffix_of` join root b ↔ a `prefix_of` b.
Proof.
  unfold join. split.
  - intros [k Hk]. rewrite app_assoc in Hk. apply (inj (.++ root)) in Hk. exists (reverse k).
    by rewrite <- (reverse_involutive b), Hk, reverse_app, reverse_involutive.
  - intros [k ->]. exists (reverse k). by rewrite reverse_app, app_assoc.
Qed.

Lemma parents_spec path p : p ∈ parents path ↔ p `prefix_of` path ∧ p ≠ path.
Proof.
  revert p. induction path as [|c path IH]; intros p; cbn.
  - split; [by intros ?%elem_of_nil|]. intros [?%prefix_nil_inv ?]. done.
  - rewrite elem_of_app, list_elem_of_singleton, list_elem_of_fmap. setoid_rewrite IH. split.
    + intros [(q & -> & Hq & Hne)| ->].
      * split; [by apply prefix_cons|]. by intros [=].
      * split; [apply prefix_nil|done].
    + intros [Hp Hne]. destruct p as [|c' p]; [by right|left].
      pose proof (prefix_cons_inv_1 _ _ _ _ Hp) as ->. apply prefix_cons_inv_2 in Hp.
      exists p. split_and!; [done|done|]. by intros ->.
Qed.

Lemma insert_tree_directory_Ok directory directories count directories' :
  insert_tree_directory directory directories count = Ok directories' →
  directories' = {[directory]} ∪ directories.
Proof.
  unfold insert_tree_directory. case_bool_decide as Hin; [intros [= <-]; set_solver|].
  intros H. apply seq_Ok in H as [_ [= <-]]. done.
Qed.

Lemma record_tree_parent_directories_Ok path directories count directories' :
  record_tree_parent_directories path directories count = Ok directories' →
  ∀ p, p ∈ directories' ↔ p ∈ directories ∨ p `prefix_of` path ∧ p ≠ path.
Proof.
  unfold record_tree_parent_directories. intros H p. rewrite <- parents_spec.
  revert directories H. induction (parents path) as [|q qs IH]; intros directories H; cbn in H.
  - injection H as <-. set_solver.
  - unbind H as directories1 H1. apply insert_tree_directory_Ok in H1 as ->. apply IH in H. set_solver.
Qed.

Section describing.
Context (root : place).

(** New directories up to a path that was not recorded before. *)
Lemma describes_grown tree a b path directories :
  describes root tree a → closed a → closed b → is_directory b (join root path) →
  grown (join root path) a b →
  (∀ p, p ∈ directories ↔ p ∈ tr_directories tree ∨ p `prefix_of` path) →
  describes root {| tr_directories := directories; tr_files := tr_files tree |} b.
Proof.
  intros [Hd Hm Hf] Ha Hb Hdir Hg Hdirs. split; cbn [tr_directories tr_files].
  - intros p. rewrite Hdirs, <- Hd. split.
    + intros [mode Hp]. destruct (Hg (join root p)) as [Heq|(_ & Hs & _)].
      * left. exists mode. congruence.
      * right. by apply join_suffix in Hs.
    + intros [[mode Hp]|Hp].
      * exists mode. destruct (Hg (join root p)) as [->|(? & _)]; [done|congruence].
      * by eapply closed_above, join_suffix.
  - intros p mode Hp. destruct (Hg (join root p)) as [Heq|(_ & _ & Hn)].
    + apply (Hm p). congruence.
    + right. congruence.
  - intros entry. rewrite Hf. split; intros (mode & bs & Hp & He); exists mode, bs; (split; [|exact He]).
    + destruct (Hg (join root (et_path entry))) as [->|(? & _)]; [done|congruence].
    + destruct (Hg (join root (et_path entry))) as [<-|(_ & _ & ?)]; [done|congruence].
Qed.

(** The mode of a directory is set to what the manifest says. *)
Lemma describes_chmod tree a path mode :
  describes root tree a → a !! join root path = Some (DirNode mode) →
  describes root tree (<[join root path := DirNode 493]> a).
Proof.
  intros [Hd Hm Hf] Hp. pose proof (join_inj root) as Hinj. split.
  - intros p. rewrite <- Hd. unfold is_directory. destruct (decide (path = p)) as [->|Hne].
    + rewrite lookup_insert_eq, Hp. naive_solver.
    + rewrite lookup_insert_ne; [done|]. by intros ?%Hinj.
  - intros p m. destruct (decide (path = p)) as [->|Hne].
    + rewrite lookup_insert_eq. intros [= <-]. by left.
    + rewrite lookup_insert_ne; [apply Hm|]. by intros ?%Hinj.
  - intros entry. rewrite Hf. destruct (decide (path = et_path entry)) as [Heq|Hne].
    + rewrite <- Heq, lookup_insert_eq, Hp. naive_solver.
    + rewrite lookup_insert_ne; [done|]. by intros ?%Hinj.
Qed.

(** A new file is written and recorded. *)
Lemma describes_file tree a path mode bs :
  describes root tree a → a !! join root path = None →
  describes root {| tr_directories := tr_directories tree;
                    tr_files := tr_files tree ++ [node_entry path (FileNode mode bs)] |}
    (<[join root path := FileNode mode bs]> a).
Proof.
  intros [Hd Hm Hf] Hp. pose proof (join_inj root) as Hinj. split; cbn [tr_directories tr_files].
  - intros p. rewrite <- Hd. unfold is_directory. destruct (decide (path = p)) as [->|Hne].
    + rewrite lookup_insert_eq, Hp. naive_solver.
    + rewrite lookup_insert_ne; [done|]. by intros ?%Hinj.
  - intros p m. destruct (decide (path = p)) as [->|Hne].
    + by rewrite lookup_insert_eq.
    + rewrite lookup_insert_ne; [apply Hm|]. by intros ?%Hinj.
  - intros entry. rewrite elem_of_app, list_elem_of_singleton, Hf.
    destruct (decide (path = et_path entry)) as [Heq|Hne].
    + rewrite <- Heq, lookup_insert_eq, Hp. naive_solver.
    + rewrite lookup_insert_ne by by intros ?%Hinj. split; [|naive_solver].
      intros [?| ->]; [done|]. by destruct Hne.
Qed.

End describing.

(** ** Writing one entry *)

Lemma write_chunks_Ok p mode chunks st d st' d' content :
  plain p → dk_nodes d !! p = Some (FileNode mode content) →
  fold_disk (write_chunk p) st chunks d = (Ok st', d') →
  st' = (st.1 ++ concat chunks, st.2 + len (concat chunks))%N ∧
  dk_nodes d' = <[p := FileNode mode (content ++ concat chunks)]> (dk_nodes d).
Proof.
  intros Hpl. revert st d content. induction chunks as [|chunk chunks IH]; intros st d content Hp H; cbn in H.
  - injection H as <- <-. cbn. rewrite !app_nil_r, N.add_0_r, insert_id by done. by destruct st.
  - disk_split H as st1 d1 H1. unfold write_chunk in H1. disk_split H1 as u d2 Hw.
    rewrite disk_map_err_Ok in Hw. unfold file_write_all in Hw.
    destruct (disk_fault (dk_calls d)) as [[]|]; [done|]. injection Hw as _ <-.
    disk_split H1 as copied d3 Hcopied. rewrite lift_Ok, ok_or_Ok, checked_add_u64_Some in Hcopied.
    destruct Hcopied as [[-> _] ->]. injection H1 as <- <-.
    apply (IH _ _ (content ++ chunk)) in H as [-> ->]; cbn [dk_nodes fst snd concat];
      rewrite append_node_plain, Hp by done.
    + rewrite insert_insert_eq, len_app, <- !app_assoc. split; [f_equal; lia|done].
    + by rewrite lookup_insert_eq.
Qed.

Lemma file_sync_Ok p d u d' : file_sync p d = (Ok u, d') → dk_nodes d' = dk_nodes d.
Proof. intros H%disk_call_Ok. by injection H. Qed.

Lemma write_file_new_Ok c parent reader executable size d digest d' :
  plain (c :: parent) → closed (dk_nodes d) → write_file_new (c :: parent) reader executable size d = (Ok digest, d') →
  ∃ d1 mode content, create_dir_all parent d = (Ok tt, d1) ∧ dk_nodes d1 !! parent = Some (DirNode mode) ∧
    <[parent := DirNode 493]> (dk_nodes d1) !! (c :: parent) = None ∧
    dk_nodes d' = <[c :: parent := FileNode (normalized_file_mode executable) content]>
      (<[parent := DirNode 493]> (dk_nodes d1)) ∧
    (stream_data reader).1 = content ∧ len content = size ∧ digest = Sha256_digest content.
Proof.
  intros Hpl Hc H. pose proof (plain_parent _ _ Hpl) as Hpp. unfold write_file_new in H.
  disk_split H as [] d1 Hall. rewrite disk_map_err_Ok in Hall.
  pose proof (create_dir_all_effect parent d Hpp Hc) as He. rewrite Hall in He.
  destruct He as (_ & _ & Hdir & _). specialize (Hdir eq_refl).
  rewrite is_dir_spec in Hdir by done. destruct Hdir as [mode Hmode].
  disk_split H as [] d2 Hperm. unfold set_directory_permissions in Hperm. rewrite disk_map_err_Ok in Hperm.
  apply set_permissions_Ok in Hperm as (old & Hold & Hd2); [|done]. rewrite Hmode in Hold. injection Hold as <-.
  disk_split H as [] d3 Hnew. rewrite disk_map_err_Ok in Hnew.
  apply create_new_Ok in Hnew as (? & ? & ? & [= <- <-] & Hnone & _ & Hd3); [|done].
  destruct (read_chunks_data COPY_BUFFER reader ltac:(done)) as [Hdata Hfail].
  destruct (read_chunks COPY_BUFFER reader) as [chunks failure]. cbn in Hdata, Hfail.
  disk_split H as st d4 Hcopy.
  apply (write_chunks_Ok _ (masked 438) _ _ _ _ _ []) in Hcopy as [-> Hd4];
    [|done|by rewrite Hd3, lookup_insert_eq].
  cbn [fst snd app] in H. disk_split H as [] d5 Hf. destruct failure; [done|]. injection Hf as <-.
  disk_split H as [] d6 Hsize. rewrite lift_Ok, reject_if_Ok, negb_false_iff, bool_decide_eq_true in Hsize.
  destruct Hsize as [Hsize ->].
  disk_split H as [] d7 Hflush. injection Hflush as <-.
  disk_split H as [] d8 Hmode2. unfold set_file_permissions in Hmode2. rewrite disk_map_err_Ok in Hmode2.
  apply set_permissions_Ok in Hmode2 as (old & Hold & Hd8); [|done].
  rewrite Hd4, lookup_insert_eq in Hold. injection Hold as <-.
  disk_split H as [] d9 Hsync. rewrite disk_map_err_Ok in Hsync. apply file_sync_Ok in Hsync.
  injection H as <- <-. exists d1, mode, (concat chunks). rewrite Hd2 in Hnone, Hd3.
  split_and!; [done|done|done| |done|by rewrite <- Hsize|done].
  by rewrite Hsync, Hd8, Hd4, Hd3, !insert_insert_eq.
Qed.

(** Nothing but safe paths is recorded. *)
Definition tree_safe (tree : TreeState) : Prop :=
  (∀ p, p ∈ tr_directories tree → p = [] ∨ safe_path p) ∧
  (∀ entry, entry ∈ tr_files tree → safe_path (et_path entry)).

Lemma safe_path_prefix p q : p `prefix_of` q → safe_path q → p = [] ∨ safe_path p.
Proof.
  intros [k ->] [_ Hfew Hsafe]. rewrite len_app in Hfew. apply Forall_app in Hsafe as [Hp _].
  destruct p as [|c p]; [by left|right]. split; [done|lia|done].
Qed.

Lemma prefix_snoc_strict {A} (p l : list A) c :
  p `prefix_of` l ++ [c] ∧ p ≠ l ++ [c] ↔ p `prefix_of` l.
Proof.
  split.
  - intros [[k Hk] Hne]. destruct k as [|x k _] using rev_ind; [by rewrite app_nil_r in Hk|].
    rewrite app_assoc in Hk. apply app_inj_tail in Hk as [-> _]. by exists k.
  - intros [k ->]. split; [by exists (k ++ [c]); rewrite app_assoc|]. intros H.
    apply (f_equal length) in H. rewrite !length_app in H. cbn in H. lia.
Qed.

(** One entry of the archive, unpacked. *)
Lemma place_entry_describes root tree placement d tree' d' :
  plain root → closed (dk_nodes d) → describes root tree (dk_nodes d) → tree_safe tree →
  safe_path (placement_path placement) →
  place_entry root tree placement d = (Ok tree', d') →
  describes root tree' (dk_nodes d') ∧ tree_safe tree'.
Proof.
  intros Hpl Hc Hdesc [Hsd Hsf] Hsafe H. pose proof (plain_join root _ Hpl (or_intror Hsafe)) as Hj.
  destruct placement as [path|path reader executable size]; unfold place_entry in H; cbn [placement_path] in Hsafe, Hj.
  - disk_split H as directories d1 Hrec. rewrite lift_Ok in Hrec. destruct Hrec as [Hrec ->].
    pose proof (record_tree_parent_directories_Ok _ _ _ _ Hrec) as Hdirs.
    disk_split H as directories' d1 Hins. rewrite lift_Ok in Hins. destruct Hins as [Hins ->].
    apply insert_tree_directory_Ok in Hins as ->.
    disk_split H as [] d1 Hall. rewrite disk_map_err_Ok in Hall.
    pose proof (create_dir_all_effect (join root path) d Hj Hc) as He. rewrite Hall in He.
    destruct He as (Hg & Hc1 & Hdir & _). specialize (Hdir eq_refl). rewrite is_dir_spec in Hdir by done.
    disk_split H as [] d2 Hperm. unfold set_directory_permissions in Hperm. rewrite disk_map_err_Ok in Hperm.
    apply set_permissions_Ok in Hperm as (old & Hold & Hd2); [|done]. injection H as <- <-.
    destruct Hdir as [mode Hmode]. rewrite Hmode in Hold. injection Hold as <-.
    assert (∀ p, p ∈ {[path]} ∪ directories ↔ p ∈ tr_directories tree ∨ p `prefix_of` path) as Hall'.
    { intros p. rewrite elem_of_union, elem_of_singleton, Hdirs.
      destruct (decide (p = path)) as [->|]; [|naive_solver]. split; [by right|by left]. }
    split.
    + rewrite Hd2. eapply describes_chmod; [|exact Hmode].
      eapply describes_grown; [exact Hdesc|done|done|by exists mode|done|done].
    + split; cbn; [|done]. intros p [?|?]%Hall'; [by apply Hsd|by eapply safe_path_prefix].
  - destruct path as [|c path _] using rev_ind; [by destruct Hsafe|]. rewrite join_snoc in H, Hj.
    disk_split H as directories d1 Hrec. rewrite lift_Ok in Hrec. destruct Hrec as [Hrec ->].
    pose proof (record_tree_parent_directories_Ok _ _ _ _ Hrec) as Hdirs.
    setoid_rewrite prefix_snoc_strict in Hdirs.
    disk_split H as u d1 Hlim. rewrite lift_Ok in Hlim. destruct Hlim as [_ ->].
    disk_split H as digest d1 Hw. injection H as <- <-.
    apply write_file_new_Ok in Hw as (d2 & mode & content & Hall & Hmode & Hnone & Hd1 & _ & <- & ->); [|done|done].
    pose proof (create_dir_all_effect (join root path) d (plain_parent _ _ Hj) Hc) as He. rewrite Hall in He.
    destruct He as (Hg & Hc2 & _ & _). split.
    + rewrite Hd1, <- join_snoc in *. apply (describes_file root {| tr_directories := directories; tr_files := tr_files tree |});
        [|done]. eapply describes_chmod; [|exact Hmode].
      eapply describes_grown; [exact Hdesc|done|done|by exists mode|done|done].
    + split; cbn.
      * intros p [?|?]%Hdirs; [by apply Hsd|]. eapply safe_path_prefix; [|exact Hsafe].
        etrans; [done|]. by exists [c].
      * intros entry [?| ->%list_elem_of_singleton]%elem_of_app; [by apply Hsf|done].
Qed.

(** The loop over the entries. *)
Lemma process_entries_visit root s items d s' d' :
  fold_disk (process_entry (Some root)) s items d = (Ok s', d') → visit_all s.1 items = Ok s'.1.
Proof.
  revert s d. induction items as [|item items IH]; intros s d H; cbn in H; [by injection H as <- _|].
  disk_split H as s1 d1 H1. unfold process_entry in H1. disk_split H1 as r d2 Hv.
  rewrite lift_Ok in Hv. destruct Hv as [Hv ->]. destruct r as [st placement].
  disk_split H1 as tree d3 Hp. injection H1 as <- <-.
  unfold visit_all. cbn [fold_result]. rewrite Hv. cbn. by eapply (IH (st, tree)).
Qed.

Lemma process_entries_describes root s items d s' d' :
  plain root → closed (dk_nodes d) → is_directory (dk_nodes d) root → describes root s.2 (dk_nodes d) → tree_safe s.2 →
  fold_disk (process_entry (Some root)) s items d = (Ok s', d') →
  describes root s'.2 (dk_nodes d') ∧ tree_safe s'.2.
Proof.
  intros Hpl Hc Hroot Hdesc Hsafe H.
  apply (fold_disk_ind _ (λ _ s d, closed (dk_nodes d) ∧ is_directory (dk_nodes d) root ∧
    describes root s.2 (dk_nodes d) ∧ tree_safe s.2)) in H; [naive_solver|naive_solver|].
  clear - Hpl. intros _ item s d s' d' (Hc & Hroot & Hdesc & Hsafe) H.
  pose proof (within_process_entry root s item Hpl d Hc Hroot) as Hw. rewrite H in Hw. cbn in Hw.
  destruct Hw as (? & ? & _). split_and!; [done|done|..]; unfold process_entry in H;
    disk_split H as r d2 Hv; rewrite lift_Ok in Hv; destruct Hv as [Hv ->]; destruct r as [st placement];
    apply visit_entry_safe in Hv; disk_split H as tree d3 Hp; injection H as <- <-;
    by eapply place_entry_describes in Hp as [? ?].
Qed.

(** A new directory is described by the empty tree. *)
Lemma describes_new root d d1 d2 :
  plain root → closed (dk_nodes d) → create_dir root d = (Ok tt, d1) → set_permissions root 493 d1 = (Ok tt, d2) →
  closed (dk_nodes d2) ∧ is_directory (dk_nodes d2) root ∧
  describes root {| tr_directories := {[[]]}; tr_files := [] |} (dk_nodes d2).
Proof.
  intros Hpl Hc Hmk Hperm. pose proof (create_dir_cases root d Hpl) as Hcases. rewrite Hmk in Hcases.
  destruct (Hcases Hc) as (_ & Hc1 & Hd & Hnone). rewrite is_dir_spec in Hd by done.
  destruct Hd as [mode Hdir]. rewrite create_dir_plain in Hmk by done.
  apply disk_call_Ok, create_node_Ok in Hmk as (c & parent & m & -> & _ & _ & Hd1).
  apply set_permissions_Ok in Hperm as (old & Hold & Hd2); [|done]. rewrite Hdir in Hold. injection Hold as <-.
  assert (∀ path, path ≠ [] → dk_nodes d2 !! join (c :: parent) path = None) as Hempty.
  { intros path Hne. rewrite Hd2, Hd1. unfold join. rewrite !lookup_insert_ne.
    - by apply closed_below_app.
    - intros Heq. apply (f_equal length) in Heq. rewrite length_app, length_reverse in Heq.
      by destruct path; cbn in Heq; [done|lia].
    - intros Heq. apply (f_equal length) in Heq. rewrite length_app, length_reverse in Heq.
      by destruct path; cbn in Heq; [done|lia]. }
  assert (dk_nodes d2 !! join (c :: parent) [] = Some (DirNode 493)) as Hroot.
  { rewrite Hd2. apply lookup_insert_eq. }
  split_and!; [by rewrite Hd2; eapply closed_update|by eexists|].
  split; cbn [tr_directories tr_files].
  - intros path. rewrite elem_of_singleton. destruct (decide (path = [])) as [->|Hne].
    + split; [done|]. by eexists.
    + split; [|done]. intros [? H]. by rewrite Hempty in H.
  - intros path m' H. destruct (decide (path = [])) as [->|Hne]; [|by rewrite Hempty in H].
    rewrite Hroot in H. injection H as <-. by left.
  - intros entry. split; [by intros ?%elem_of_nil|]. intros (m' & bs & H & _).
    destruct (decide (et_path entry = [])) as [Heq|Hne]; [|by rewrite Hempty in H].
    rewrite Heq, Hroot in H. done.
Qed.

Lemma tree_manifest_describes root tree nodes entry : masked 511 = 493%N → describes root tree nodes →
  entry ∈ em_entries (tree_manifest tree) ↔
  ∃ node, nodes !! join root (et_path entry) = Some node ∧ entry = node_entry (et_path entry) node.
Proof.
  intros Hmask [Hd Hm Hf]. cbn [em_entries tree_manifest].
  rewrite merge_sort_Permutation, elem_of_app, list_elem_of_fmap, Hf. split.
  - intros [(path & -> & [mode Hp]%elem_of_elements%Hd)|(mode & bs & ? & ?)]; [|eauto].
    exists (DirNode mode). split; [done|]. cbn. by destruct (Hm _ _ Hp) as [->| ->]; rewrite ?Hmask.
  - intros ([mode|mode bs] & Hp & He); [left|right; eauto]. exists (et_path entry). split.
    + rewrite He. cbn. by destruct (Hm _ _ Hp) as [->| ->]; rewrite ?Hmask.
    + apply elem_of_elements, Hd. by eexists.
Qed.

(** C24: when a package is unpacked, inspecting the same package gives the same
    manifest and report; and when the mask of the process is 022, the tree
    manifest lists exactly what is on the disk below the destination, every
    directory and file with its mode, size and SHA-256 digest, all of them at
    safe paths. *)
Theorem extraction_matches_inspection file dest d manifest report tree d' :
  plain dest → closed (dk_nodes d) → masked 511 = 493%N →
  extract_archive_file file dest d = (Ok (manifest, report, tree), d') →
  inspect_archive_file file d = (Ok (manifest, report), d) ∧
  (∀ entry, entry ∈ em_entries tree ↔ ∃ node,
    dk_nodes d' !! join dest (et_path entry) = Some node ∧ entry = node_entry (et_path entry) node) ∧
  (∀ entry, entry ∈ em_entries tree → et_path entry = [] ∨ safe_path (et_path entry)).
Proof.
  intros Hpl Hc Hmask H. unfold extract_archive_file, extract_archive_from_file in H.
  disk_split H as [] d1 Hmk. rewrite disk_map_err_Ok in Hmk.
  disk_split H as [] d2 Hperm. unfold set_directory_permissions in Hperm. rewrite disk_map_err_Ok in Hperm.
  destruct (describes_new dest d d1 d2 Hpl Hc Hmk Hperm) as (Hc2 & Hroot & Hdesc).
  disk_split H as r d3 Hp. destruct r as [result otree].
  disk_split H as t d4 Ht. rewrite lift_Ok, ok_or_Ok in Ht. destruct Ht as [-> ->].
  injection H as -> <- <-. unfold process_archive in Hp.
  disk_split Hp as opened d4 Hopen. rewrite lift_Ok in Hopen. destruct Hopen as [Hopen ->].
  destruct opened as [compressed archive].
  disk_split Hp as items d4 Hitems. rewrite lift_Ok in Hitems. destruct Hitems as [Hitems ->].
  disk_split Hp as s d4 Hfold. destruct s as [st tree'].
  disk_split Hp as fin d5 Hfin. rewrite lift_Ok in Hfin. destruct Hfin as [Hfin ->].
  injection Hp as -> <- <-. pose proof (process_entries_visit _ _ _ _ _ _ Hfold) as Hvisit.
  apply process_entries_describes in Hfold as [Hdesc' Hsafe]; [|done|done|done|done|].
  2: { split; cbn; [set_solver|]. intros ? ?%elem_of_nil. done. }
  split_and!.
  - unfold inspect_archive_file, process_archive.
    apply disk_bind_Ok. exists (manifest, report, None), d. split; [|done].
    apply disk_bind_Ok. exists (compressed, archive), d. split; [by apply lift_Ok|].
    apply disk_bind_Ok. exists items, d. split; [by apply lift_Ok|].
    apply disk_bind_Ok. eexists (st, _), d. split; [|apply disk_bind_Ok; exists (manifest, report), d;
      split; [by apply lift_Ok|done]].
    rewrite process_entries_inspect. cbn [fst] in Hvisit. by rewrite Hvisit.
  - intros entry. by apply tree_manifest_describes.
  - intros entry Hin. cbn [em_entries tree_manifest] in Hin.
    rewrite merge_sort_Permutation, elem_of_app, list_elem_of_fmap in Hin.
    destruct Hsafe as [Hsd Hsf], Hin as [(path & -> & Hin%elem_of_elements)|Hin]; [by apply Hsd|right].
    by apply Hsf.
Qed.

End packages.
