(* ===== verification/PackageTrust.v ===== *)
(** * Who published a package ([crates/a-quo-omarchy/src/lib.rs],
    [install/authorization.rs])

    The signature of a package is verified, its archive inspected, and the key
    that signed it is looked up in the persona store. Only a key that is active,
    of a persona that is operational and carries the signed label, may publish
    what is installed, and a key which was retired, compromised or terminally
    revoked is never accepted again. *)

From stdpp Require Import base numbers list strings pretty option gmap relations.
From Stdlib Require Import Strings.Byte Ascii.
From S2P Require Import Prelude Text Ordered Display Crates Io ArtifactProof Continuity RecoveryPolicy RecoveryChain.
From S2P Require Import Names Fields IpcProtocol Transport StoreTypes StoreCommon Backup BackupVerify Tables StoredKeys.
From S2P Require Import Journal Store Disk Package PackageArchive Commits Recoveries Writes StoreFacts.

Inductive OmarchyManifestValidationStatus :=
| NotRun
| Passed
| PassedPathObservationNotContinuous
| PassedPinnedRootObservationNotContentContinuous.
Inductive RuntimeSafetyStatus := NotEvaluated.
Inductive AQuoEnablementAction := NotPerformed.

Inductive PublisherRegistryStatus :=
| PublisherNotChecked
| PublisherUnrecognized
| PublisherEvidenceOnly
| PublisherArchived
| PublisherTerminallyRevoked
| PublisherActive
| PublisherRetired
| PublisherCompromised.

Record PublisherEvidence := {
  pv_registry_status : PublisherRegistryStatus;
  pv_local_label : option string;
  pv_local_purpose : option PersonaPurpose;
  pv_signed_label_agreement : option bool;
  pv_key_status : option KeyStatus;
  pv_meaning : string;
}.

Record PluginInspection := {
  pi_artifact_evidence : VerificationReport;
  pi_publisher_evidence : PublisherEvidence;
  pi_manifest : OmarchyManifest;
  pi_archive : ArchiveReport;
  pi_omarchy_manifest_validation : OmarchyManifestValidationStatus;
  pi_runtime_safety : RuntimeSafetyStatus;
  pi_a_quo_enablement_action : AQuoEnablementAction;
}.

(** The key and the label that a verified proof names. *)
Definition signer_fingerprint (inspection : PluginInspection) : string :=
  vs_key_fingerprint (vr_signer (pi_artifact_evidence inspection)).
Definition signer_label (inspection : PluginInspection) : string :=
  vs_persona (vr_signer (pi_artifact_evidence inspection)).

Section trust.
Context {crates : Crates} {uuids : Uuids} {materializations : Materializations}
  {json_root_proof : Serde PersonaRootProof} {json_policy_proof : Serde RecoveryPolicyProof}
  {json_transition_proof : Serde PersonaTransitionProof}
  {json_recovery_proof : Serde RecoveryTransitionProof}
  {json_entry : Serde PersonaContinuityTransitionProof}
  {json_terminal_proof : Serde TerminalPersonaRevocationProof}
  {json_archive : Serde BackupContinuityArchive} {json_backup : Serde PersonaBackup}
  {pretty_backup : SerdePretty PersonaBackup}
  {json_root : Serde PersonaRootStatement} {json_transition : Serde PersonaTransitionStatement}
  {json_policy : Serde RecoveryPolicyStatement} {json_recovery : Serde RecoveryTransitionStatement}
  {json_terminal : Serde TerminalPersonaRevocationStatement}
  {json_statement : Serde ArtifactStatement} {json_bundle : Serde ProofBundle}
  {env : DiskEnv} {formats : ArchiveFormats} {semver : Semver} {json_manifest : Serde OmarchyManifest}.

(** The persona store as it is read: its clock and its database. *)
Record StoreView := { sv_clock : Clock; sv_db : Db }.

Definition publisher_status (disposition : PersonaAuthorityDisposition) (status : KeyStatus) :
    PublisherRegistryStatus :=
  match disposition with
  | EvidenceOnly => PublisherEvidenceOnly
  | Archived => PublisherArchived
  | TerminallyRevoked => PublisherTerminallyRevoked
  | Operational =>
      match status with
      | Active => PublisherActive
      | Retired => PublisherRetired
      | Compromised => PublisherCompromised
      end
  end.

Definition publisher_meaning (disposition : PersonaAuthorityDisposition) : string :=
  match disposition with
  | Operational => "local metadata only; legal identity, review, and runtime safety are not established"
  | Archived => "archived local publisher metadata only; current publisher authorization, review, and runtime safety are not established"
  | TerminallyRevoked => "terminal persona evidence: this publisher is permanently deauthorized locally; historical signature validity does not authorize installation"
  | EvidenceOnly => "imported continuity evidence only; current publisher authorization, non-revocation, review, and runtime safety are not established"
  end.

Definition publisher_evidence (store : option StoreView) (fingerprint signed_label : string) :
    PackageResult PublisherEvidence :=
  let absent status meaning :=
    {| pv_registry_status := status; pv_local_label := None; pv_local_purpose := None;
       pv_signed_label_agreement := None; pv_key_status := None; pv_meaning := meaning |} in
  match store with
  | None => Ok (absent PublisherNotChecked "local publisher registry was not checked")
  | Some store =>
      recognized ← map_err StoreFailure (lookup_key (sv_clock store) (sv_db store) fingerprint);
      match recognized with
      | None =>
          Ok (absent PublisherUnrecognized
            "signature is valid, but this key has no local publisher binding")
      | Some (recognized, disposition) =>
          let persona := sk_persona recognized in
          let status := kr_status (sk_key recognized) in
          Ok {| pv_registry_status := publisher_status disposition status;
                pv_local_label := Some (pe_label persona);
                pv_local_purpose := Some (pe_purpose persona);
                pv_signed_label_agreement := Some (pe_label persona == signed_label);
                pv_key_status := Some status;
                pv_meaning := publisher_meaning disposition |}
      end
  end.

(** The three pieces of evidence put together. *)
Definition inspection_of (artifact_evidence : VerificationReport) (manifest : OmarchyManifest)
    (archive : ArchiveReport) (publisher : PublisherEvidence) : PluginInspection := {|
  pi_artifact_evidence := artifact_evidence; pi_publisher_evidence := publisher;
  pi_manifest := manifest; pi_archive := archive; pi_omarchy_manifest_validation := NotRun;
  pi_runtime_safety := NotEvaluated; pi_a_quo_enablement_action := NotPerformed |}.

(** The package is named by a path, which is opened once to hash it and once to
    read it. *)
Definition inspect_with_proof (opened : string + list (string + bytes)) (package_path : string)
    (md : IoError + Metadata) (reopened : IoError + PackageFile) (proof : ProofBundle)
    (store : option StoreView) : DiskM OmarchyError PluginInspection :=
  artifact_evidence ← lift (map_err ProofFailure (verify_sshsig_proof opened package_path proof));
  '(manifest, archive) ← inspect_archive (reverse (path_components package_path)) md reopened;
  publisher ← lift (publisher_evidence store (vs_key_fingerprint (vr_signer artifact_evidence))
    (vs_persona (vr_signer artifact_evidence)));
  mret (inspection_of artifact_evidence manifest archive publisher).

Definition inspect_signed_package (fs : Fs) (proof_path : string)
    (opened : string + list (string + bytes)) (package_path : string) (md : IoError + Metadata)
    (reopened : IoError + PackageFile) (store : option StoreView) : DiskM OmarchyError PluginInspection :=
  proof ← lift (map_err ProofFailure (load_proof fs proof_path));
  inspect_with_proof opened package_path md reopened proof store.

(** The package is an open file, which was described. *)
Definition inspect_described (described : Result ArtifactDescriptor) (package : PackageFile)
    (proof : ProofBundle) (store : option StoreView) : DiskM OmarchyError PluginInspection :=
  descriptor ← lift (map_err ProofFailure described);
  artifact_evidence ← lift (map_err ProofFailure (verify_sshsig_proof_for_descriptor descriptor proof));
  '(manifest, archive) ← inspect_archive_file package;
  publisher ← lift (publisher_evidence store (vs_key_fingerprint (vr_signer artifact_evidence))
    (vs_persona (vr_signer artifact_evidence)));
  mret (inspection_of artifact_evidence manifest archive publisher).

(** [pread] are the positional reads of the file, and [fuel] bounds those that
    describe it. *)
Definition inspect_file_with_proof (pread : N → string + bytes) (fuel : nat) (package : PackageFile)
    (proof : ProofBundle) (store : option StoreView) : option (DiskM OmarchyError PluginInspection) :=
  (λ described, inspect_described described package proof store) <$> describe_open_artifact pread fuel.

Definition require_installable_publisher (inspection : PluginInspection) : PackageResult unit :=
  let fingerprint := signer_fingerprint inspection in
  match pv_registry_status (pi_publisher_evidence inspection) with
  | PublisherActive => Ok tt
  | PublisherNotChecked | PublisherUnrecognized => Err (UnrecognizedPublisher fingerprint)
  | PublisherEvidenceOnly => Err (EvidenceOnlyPublisher fingerprint)
  | PublisherArchived => Err (ArchivedPublisher fingerprint)
  | PublisherTerminallyRevoked => Err (TerminalPublisher fingerprint)
  | PublisherRetired => Err (InactivePublisher fingerprint "retired")
  | PublisherCompromised => Err (InactivePublisher fingerprint "compromised")
  end;;
  reject_if (pv_signed_label_agreement (pi_publisher_evidence inspection) != Some true)
    PublisherLabelMismatch.

(** ** The persona that publishes *)

Definition publisher_persona_id (store : StoreView) (inspection : PluginInspection) :
    PackageResult string :=
  let fingerprint := signer_fingerprint inspection in
  recognized ← map_err StoreFailure (lookup_key (sv_clock store) (sv_db store) fingerprint);
  '(recognized, disposition) ← ok_or recognized (UnrecognizedPublisher fingerprint);
  match disposition with
  | Operational => Ok tt
  | EvidenceOnly => Err (EvidenceOnlyPublisher fingerprint)
  | TerminallyRevoked => Err (TerminalPublisher fingerprint)
  | Archived => Err (ArchivedPublisher fingerprint)
  end;;
  reject_if (bool_decide (is_Some (pe_archived_at (sk_persona recognized)))) (ArchivedPublisher fingerprint);;
  match kr_status (sk_key recognized) with
  | Active => Ok tt
  | Retired => Err (InactivePublisher fingerprint "retired")
  | Compromised => Err (InactivePublisher fingerprint "compromised")
  end;;
  reject_if (pe_label (sk_persona recognized) != signer_label inspection) PublisherLabelMismatch;;
  Ok (pe_id (sk_persona recognized)).

Definition normalize_final_authorization_error (error : OmarchyError) (fingerprint : string) : OmarchyError :=
  match error with
  | StoreFailure (PersonaTerminallyRevoked _) => TerminalPublisher fingerprint
  | StoreFailure (PersonaArchived _) => ArchivedPublisher fingerprint
  | StoreFailure (ContinuityEvidenceOnly _) => EvidenceOnlyPublisher fingerprint
  | StoreFailure (PersonaLabelMismatch _) => PublisherLabelMismatch
  | StoreFailure (InactiveSigningKey rejected) =>
      if rejected != fingerprint then StoreFailure (InactiveSigningKey rejected)
      else InactivePublisher rejected "inactive"
  | error => error
  end.

(** The checks of [with_final_publisher_operation] before its operation: those
    inside the transaction of [with_active_key_authorization], and the persona. *)
Definition final_publisher_check (store : StoreView) (fingerprint signed_label expected_persona_id : string) :
    PackageResult unit :=
  recognized ← authorize_active_key StoreFailure (sv_clock store) (sv_db store) fingerprint signed_label;
  reject_if (pe_id (sk_persona recognized) != expected_persona_id) PublisherContinuityMismatch.

End trust.

(** * Only a live publisher may install *)

Section trust.
Context {crates : Crates} {uuids : Uuids} {materializations : Materializations}
  {json_root_proof : Serde PersonaRootProof} {json_policy_proof : Serde RecoveryPolicyProof}
  {json_transition_proof : Serde PersonaTransitionProof}
  {json_recovery_proof : Serde RecoveryTransitionProof}
  {json_entry : Serde PersonaContinuityTransitionProof}
  {json_terminal_proof : Serde TerminalPersonaRevocationProof}
  {json_archive : Serde BackupContinuityArchive} {json_backup : Serde PersonaBackup}
  {pretty_backup : SerdePretty PersonaBackup}
  {json_root : Serde PersonaRootStatement} {json_transition : Serde PersonaTransitionStatement}
  {json_policy : Serde RecoveryPolicyStatement} {json_recovery : Serde RecoveryTransitionStatement}
  {json_terminal : Serde TerminalPersonaRevocationStatement}
  {json_statement : Serde ArtifactStatement} {json_bundle : Serde ProofBundle}
  {env : DiskEnv} {formats : ArchiveFormats} {semver : Semver} {json_manifest : Serde OmarchyManifest}.

(** A key that the store recognises as the active one of an operational persona
    with this label. *)
Record live_publisher (store : StoreView) (fingerprint label persona_id : string) : Prop := {
  lp_active : active_row (sv_db store) fingerprint;
  lp_known : ∃ recognized, lookup_key (sv_clock store) (sv_db store) fingerprint =
      Ok (Some (recognized, Operational)) ∧ kr_status (sk_key recognized) = Active ∧
      pe_label (sk_persona recognized) = label ∧ pe_id (sk_persona recognized) = persona_id;
}.

Lemma recognized_live store fingerprint recognized :
  lookup_key (sv_clock store) (sv_db store) fingerprint = Ok (Some (recognized, Operational)) →
  kr_status (sk_key recognized) = Active →
  live_publisher store fingerprint (pe_label (sk_persona recognized)) (pe_id (sk_persona recognized)).
Proof.
  intros Hl Hact. split; [|eauto]. unfold lookup_key, validated_lookup_key_in in Hl.
  unbind Hl as found Hf. destruct found as [found|]; [|done]. unbind Hl as d Hd. simplify_eq.
  destruct (lookup_key_row _ _ _ Hf) as (row & Hin & Hfp & Hfrom).
  exists row. by destruct (key_from_row_active _ _ Hfrom Hact).
Qed.

(** An inspection that may be installed names a live publisher. *)
Lemma described_live store described package proof d inspection d' :
  inspect_described described package proof (Some store) d = (Ok inspection, d') →
  require_installable_publisher inspection = Ok tt →
  (∃ descriptor, described = Ok descriptor ∧
    verify_sshsig_proof_for_descriptor descriptor proof = Ok (pi_artifact_evidence inspection)) ∧
  inspect_archive_file package d = (Ok (pi_manifest inspection, pi_archive inspection), d') ∧
  ∃ id, live_publisher store (signer_fingerprint inspection) (signer_label inspection) id.
Proof.
  unfold inspect_described. intros Hrun Hreq.
  disk_split Hrun as descriptor d1 Hd. rewrite lift_Ok, map_err_Ok in Hd. destruct Hd as [-> ->].
  disk_split Hrun as evidence d1 He. rewrite lift_Ok, map_err_Ok in He. destruct He as [He ->].
  disk_split Hrun as r d1 Hi. destruct r as [manifest archive].
  disk_split Hrun as publisher d2 Hp. rewrite lift_Ok in Hp. destruct Hp as [Hp ->].
  injection Hrun as <- <-. cbn [pi_artifact_evidence pi_manifest pi_archive inspection_of].
  split_and!; [eauto|done|]. unfold signer_fingerprint, signer_label. cbn.
  unfold publisher_evidence in Hp. unbind Hp as found Hf. rewrite map_err_Ok in Hf.
  unfold require_installable_publisher in Hreq. apply seq_Ok in Hreq as [Hst Hlabel].
  cbn in Hst, Hlabel. destruct found as [[recognized disposition]|]; injection Hp as <-; cbn in *; [|done].
  destruct disposition; try done. cbn in Hst. destruct (kr_status (sk_key recognized)) eqn:Hact; try done.
  apply reject_if_Ok, negb_false_iff, bool_decide_eq_true in Hlabel. injection Hlabel as Hlabel.
  apply bool_decide_eq_true in Hlabel. exists (pe_id (sk_persona recognized)). rewrite <- Hlabel.
  by apply recognized_live.
Qed.

Lemma publisher_persona_id_live store inspection id :
  publisher_persona_id store inspection = Ok id →
  live_publisher store (signer_fingerprint inspection) (signer_label inspection) id.
Proof.
  unfold publisher_persona_id. intros H. unbind H as found Hf. rewrite map_err_Ok in Hf.
  unbind H as r Hr. rewrite ok_or_Ok in Hr. subst found. destruct r as [recognized disposition].
  apply seq_Ok in H as [Hd H]. destruct disposition; try done. apply seq_Ok in H as [_ H].
  apply seq_Ok in H as [Hst H]. destruct (kr_status (sk_key recognized)) eqn:Hact; try done.
  apply seq_Ok in H as [Hlabel [= <-]].
  apply reject_if_Ok, negb_false_iff, bool_decide_eq_true in Hlabel. rewrite <- Hlabel.
  by apply recognized_live.
Qed.

Lemma final_publisher_check_live store fingerprint label id :
  final_publisher_check store fingerprint label id = Ok tt → live_publisher store fingerprint label id.
Proof.
  unfold final_publisher_check. intros H. unbind H as key Hkey. unfold authorize_active_key in Hkey.
  unbind Hkey as found Hf. rewrite map_err_Ok in Hf. unbind Hkey as r Hr. rewrite ok_or_Ok in Hr. subst found.
  destruct r as [recognized disposition]. apply seq_Ok in Hkey as [Hd Hkey]. destruct disposition; try done.
  apply seq_Ok in Hkey as [_ Hkey]. apply seq_Ok in Hkey as [Hst Hkey].
  apply seq_Ok in Hkey as [Hlabel [= ->]]. apply reject_if_Ok, negb_false_iff, bool_decide_eq_true in Hst, Hlabel, H. subst.
  by apply recognized_live.
Qed.

(** C23: a key that was retired, compromised or terminally revoked never
    publishes again. From any database that the operations of the store reached
    and whatever operations follow: an inspection of a package it signed is not
    installable, it has no publisher persona, and the final authorization that
    an installation needs is refused. *)
Theorem revoked_publisher_never_installs a b row clock :
  rtc step empty_db a → row ∈ db_keys a →
  kw_status row ≠ "active" ∨ has_terminal a (kw_persona_id row) = true →
  rtc step a b →
  let store := {| sv_clock := clock; sv_db := b |} in
  (∀ pread fuel package proof m d inspection d',
    inspect_file_with_proof pread fuel package proof (Some store) = Some m →
    m d = (Ok inspection, d') → signer_fingerprint inspection = kw_fingerprint row →
    require_installable_publisher inspection ≠ Ok tt) ∧
  (∀ inspection id, signer_fingerprint inspection = kw_fingerprint row →
    publisher_persona_id store inspection ≠ Ok id) ∧
  (∀ label id, final_publisher_check store (kw_fingerprint row) label id ≠ Ok tt).
Proof.
  intros Ha Hin Hst Hab. cbn. apply steps_writes in Ha, Hab.
  assert (well_formed a) as Hwf by (eapply writes_well_formed; [done|apply empty_well_formed]).
  assert (kw_status row ≠ "active") as Hinactive.
  { destruct Hst as [|Ht]; [done|]. intros Hact. unfold has_terminal, exists_in in Ht.
    apply existsb_exists in Ht as (t & Ht%list_elem_of_In & Hid%bool_decide_eq_true).
    pose proof (wf_ended a Hwf t Ht) as Hnone. unfold no_active_key, exists_in in Hnone.
    apply negb_true_iff in Hnone. rewrite (proj2 (existsb_exists _ _)) in Hnone; [done|]. exists row.
    split; [by apply list_elem_of_In|]. by rewrite Hid, Hact, !bool_decide_eq_true_2. }
  pose proof (inactive_forever true a b _ row Hab Hwf Hin eq_refl Hinactive) as Hno.
  split_and!.
  - intros pread fuel package proof m d inspection d' Hm Hrun Hfp Hreq.
    unfold inspect_file_with_proof in Hm. apply fmap_Some in Hm as (described & _ & ->).
    destruct (described_live _ _ _ _ _ _ _ Hrun Hreq) as (_ & _ & id & [Hact _]).
    rewrite Hfp in Hact. done.
  - intros inspection id Hfp [Hact _]%publisher_persona_id_live. by rewrite Hfp in Hact.
  - intros label id [Hact _]%final_publisher_check_live. done.
Qed.
End trust.
