(* ===== verification/ShellReference.v ===== *)
(** * Is a plugin referenced? ([crates/a-quo-omarchy/src/install/reference.rs])

    Before a plugin is installed or removed the persisted configuration of the
    shell is read, and must not name it at any of the places that enable a
    plugin. [serde_json]'s parser is outside the repository: [ShellJson] holds
    it, and a parsed text is a [Value]. *)

From stdpp Require Import base numbers list strings pretty option gmap.
From Stdlib Require Import Strings.Byte Ascii.
From S2P Require Import Prelude Text Ordered Display Crates Io ArtifactProof Names.
From S2P Require Import Transport StoreTypes StoreCommon Disk Package PackageArchive PackageFacts.

Definition DEFAULT_SHELL_CONFIG : string := "/usr/share/omarchy/config/omarchy/shell.json".
Definition MAX_SHELL_CONFIG_BYTES : N := 1048576.

Inductive PluginReferenceState := NotReferenced | Referenced.
Inductive ShellConfigSource := User | SystemDefault.

#[export] Instance PluginReferenceState_eq_dec : EqDecision PluginReferenceState.
Proof. solve_decision. Defined.

Record OmarchyReferenceObservation := {
  ro_plugin_id : string;
  ro_state : PluginReferenceState;
  ro_shell_config_source : ShellConfigSource;
  ro_shell_config_sha256 : string;
}.

(** [serde_json::Value]; of a number only [as_u64] is used, and an object is its
    [BTreeMap]. *)
Inductive Value :=
| VNull
| VBool (b : bool)
| VNumber (as_u64 : option N)
| VString (s : string)
| VArray (values : list Value)
| VObject (fields : list (string * Value)).

Class ShellJson := { value_from_slice : bytes → string + Value }.

(** ** The places that enable a plugin *)

Definition bad_configuration (location rest : string) : OmarchyError :=
  InvalidShellConfiguration (location +:+ rest).

Definition optional_shell_object (value : option Value) (location : string) :
    PackageResult (option (list (string * Value))) :=
  match value with
  | None => Ok None
  | Some (VObject fields) => Ok (Some fields)
  | Some _ => Err (bad_configuration location " must be an object when present")
  end.

Definition optional_shell_array (value : option Value) (location : string) :
    PackageResult (option (list Value)) :=
  match value with
  | None => Ok None
  | Some (VArray values) => Ok (Some values)
  | Some _ => Err (bad_configuration location " must be an array when present")
  end.

Definition shell_id_value (value : option Value) (location : string) : PackageResult (option string) :=
  match value with
  | None | Some VNull => Ok None
  | Some (VString value) => Ok (Some value)
  | Some _ => Err (bad_configuration location " must be a string when present")
  end.

Definition shell_entry_plugin_id (entry : Value) (allow_string : bool) (location : string) :
    PackageResult (option string) :=
  let missing := bad_configuration location " must contain a string plugin id" in
  match entry with
  | VString value => if allow_string then Ok (Some value) else Err missing
  | VObject fields =>
      id ← shell_id_value (bmap_get "id" fields) location;
      id ← ok_or id missing;
      Ok (Some id)
  | _ => Err missing
  end.

(** [for entry in entries { if id(entry)? == Some(plugin_id) { return Ok(true); } }] *)
Fixpoint any_entry (allow_string : bool) (location plugin_id : string) (entries : list Value) :
    PackageResult bool :=
  match entries with
  | [] => Ok false
  | entry :: entries' =>
      id ← shell_entry_plugin_id entry allow_string location;
      if id == Some plugin_id then Ok true else any_entry allow_string location plugin_id entries'
  end.

(** The three sections of the bar, one after the other. *)
Fixpoint any_section (layout : list (string * Value)) (plugin_id : string) (sections : list string) :
    PackageResult bool :=
  match sections with
  | [] => Ok false
  | section :: sections' =>
      entries ← optional_shell_array (bmap_get section layout) ("bar.layout." +:+ section);
      found ← any_entry true "bar.layout entry" plugin_id (default [] entries);
      if found : bool then Ok true else any_section layout plugin_id sections'
  end.

Definition bar_references_plugin (root : list (string * Value)) (plugin_id : string) : PackageResult bool :=
  bar ← optional_shell_object (bmap_get "bar" root) "bar";
  match bar with
  | None => Ok false
  | Some bar =>
      id ← shell_id_value (bmap_get "id" bar) "bar.id";
      if id == Some plugin_id then Ok true
      else
        layout ← optional_shell_object (bmap_get "layout" bar) "bar.layout";
        match layout with
        | None => Ok false
        | Some layout => any_section layout plugin_id ["left"; "center"; "right"]
        end
  end.

Definition shell_configuration_references_plugin (config : Value) (plugin_id : string) : PackageResult bool :=
  match config with
  | VObject root =>
      found ← bar_references_plugin root plugin_id;
      if found : bool then Ok true
      else
        entries ← optional_shell_array (bmap_get "plugins" root) "plugins";
        any_entry false "plugins entry" plugin_id (default [] entries)
  | _ => Err (InvalidShellConfiguration "shell configuration root must be an object")
  end.

(** ** Reading the configuration *)

(** [Read::take]: the stream ends after [n] bytes. *)
Fixpoint stream_take (n : N) (input : Stream) : Stream :=
  match input with
  | [] => []
  | ReadFails e :: input' => if (n =? 0)%N then [] else ReadFails e :: stream_take n input'
  | Data bs :: input' =>
      if (n =? 0)%N then []
      else if (len bs <=? n)%N then Data bs :: stream_take (n - len bs) input'
      else [Data (take (N.to_nat n) bs)]
  end.

(** A configuration file that was opened, and the answers about the files: the
    directory of the configuration, the user's file in it ([None] when there is
    none), the system default, and the user. An error of [open] is its text. *)
Record ConfigFile := { cf_metadata : IoError + Metadata; cf_data : Stream }.
Record ShellFiles := {
  sf_directory : option string;
  sf_user : string + option ConfigFile;
  sf_default : string + ConfigFile;
  sf_uid : N;
}.

Definition path_place (path : string) : place := reverse (path_components path).

Definition read_shell_configuration_bytes (file : ConfigFile) (path : string) : PackageResult bytes :=
  bs ← map_err (IoAt (path_place path))
    (of_sum (read_to_end (stream_take (MAX_SHELL_CONFIG_BYTES + 1) (cf_data file))));
  reject_if (MAX_SHELL_CONFIG_BYTES <? len bs)%N
    (bad_configuration path (" exceeds " +:+ pretty MAX_SHELL_CONFIG_BYTES +:+ " bytes"));;
  Ok bs.

Definition read_shell_configuration (files : ShellFiles) (omarchy_directory config_path : string) :
    PackageResult (option bytes) :=
  match sf_directory files with
  | Some e => Err (InvalidShellConfiguration ("cannot safely open " +:+ omarchy_directory +:+ ": " +:+ e))
  | None => Ok tt
  end;;
  match sf_user files with
  | inl e => Err (InvalidShellConfiguration ("cannot safely open " +:+ config_path +:+ ": " +:+ e))
  | inr None => Ok None
  | inr (Some file) =>
      md ← map_err (IoAt (path_place config_path)) (of_sum (cf_metadata file));
      reject_if (negb (md_is_file md) || (md_uid md != sf_uid files) || (N.land (md_mode md) 18 != 0%N))
        (bad_configuration config_path
          " must be a regular current-user-owned file that is not group/world writable");;
      bs ← read_shell_configuration_bytes file config_path;
      Ok (Some bs)
  end.

Definition read_default_shell_configuration (files : ShellFiles) (config_path : string) : PackageResult bytes :=
  match sf_default files with
  | inl e =>
      Err (InvalidShellConfiguration ("cannot safely open effective default " +:+ config_path +:+ ": " +:+ e))
  | inr file =>
      md ← map_err (IoAt (path_place config_path)) (of_sum (cf_metadata file));
      reject_if (negb (md_is_file md) || (md_uid md != 0%N) || (N.land (md_mode md) 18 != 0%N))
        (bad_configuration ("effective default " +:+ config_path)
          " must be a regular root-owned file that is not group/world writable");;
      read_shell_configuration_bytes file config_path
  end.

Section observing.
Context {crates : Crates} {shell_json : ShellJson}.

(** [config.get("version").and_then(Value::as_u64)] *)
Definition config_version (config : Value) : option N :=
  match config with
  | VObject root => match bmap_get "version" root with Some (VNumber n) => n | _ => None end
  | _ => None
  end.

Definition is_object (config : Value) : bool := match config with VObject _ => true | _ => false end.

Definition parse_reference_observation (plugin_id : string) (bs : bytes) (path : string)
    (source : ShellConfigSource) : PackageResult OmarchyReferenceObservation :=
  config ← map_err (λ e, bad_configuration path (" is not valid JSON: " +:+ e)) (of_sum (value_from_slice bs));
  reject_if (negb (is_object config) || (config_version config != Some 1%N))
    (bad_configuration path " must be an object with version 1");;
  referenced ← shell_configuration_references_plugin config plugin_id;
  Ok {| ro_plugin_id := plugin_id; ro_state := if referenced : bool then Referenced else NotReferenced;
        ro_shell_config_source := source; ro_shell_config_sha256 := lower_hex (Sha256_digest bs) |}.

(** [omarchy_directory] is the parent of the plugins directory, when it has one. *)
Definition observe_plugin_reference (files : ShellFiles) (omarchy_directory : option string)
    (plugin_id : string) : PackageResult OmarchyReferenceObservation :=
  validate_plugin_id plugin_id;;
  omarchy_directory ← ok_or omarchy_directory
    (InvalidShellConfiguration "plugins directory has no parent");
  let config_path := omarchy_directory +:+ "/shell.json" in
  user ← read_shell_configuration files omarchy_directory config_path;
  '(bs, path, source) ← match user with
    | Some bs => Ok (bs, config_path, User)
    | None =>
        bs ← read_default_shell_configuration files DEFAULT_SHELL_CONFIG;
        Ok (bs, DEFAULT_SHELL_CONFIG, SystemDefault)
    end;
  parse_reference_observation plugin_id bs path source.

Definition reject_stale_enabled_configuration (files : ShellFiles) (omarchy_directory : option string)
    (plugin_id : string) : PackageResult unit :=
  observed ← observe_plugin_reference files omarchy_directory plugin_id;
  reject_if (ro_state observed == Referenced) (StaleEnabledConfiguration plugin_id).

Definition reject_referenced_removal (files : ShellFiles) (omarchy_directory : option string)
    (plugin_id : string) : PackageResult unit :=
  match reject_stale_enabled_configuration files omarchy_directory plugin_id with
  | Err (StaleEnabledConfiguration referenced) => Err (ReferencedPluginRemoval referenced)
  | result => result
  end.

End observing.

(** ** Theorems *)

(** The place names the plugin. *)
Definition entry_names (allow_string : bool) (entry : Value) (plugin_id : string) : Prop :=
  (allow_string = true ∧ entry = VString plugin_id) ∨
  ∃ fields, entry = VObject fields ∧ bmap_get "id" fields = Some (VString plugin_id).

(** The configuration enables a plugin: as the bar itself, as an entry of a
    section of the bar, or as an entry of the plugins. *)
Inductive enables (root : list (string * Value)) (plugin_id : string) : Prop :=
| enables_bar bar :
    bmap_get "bar" root = Some (VObject bar) → bmap_get "id" bar = Some (VString plugin_id) →
    enables root plugin_id
| enables_layout bar layout section entries entry :
    bmap_get "bar" root = Some (VObject bar) → bmap_get "layout" bar = Some (VObject layout) →
    section ∈ ["left"; "center"; "right"] → bmap_get section layout = Some (VArray entries) →
    entry ∈ entries → entry_names true entry plugin_id → enables root plugin_id
| enables_plugin entries entry :
    bmap_get "plugins" root = Some (VArray entries) → entry ∈ entries →
    entry_names false entry plugin_id → enables root plugin_id.

(** A decision that reflects a proposition when it is made. *)
Definition decides (r : PackageResult bool) (P : Prop) : Prop :=
  match r with Ok true => P | Ok false => ¬ P | Err _ => True | Panic _ => False end.

Lemma decides_iff r P Q : (P ↔ Q) → decides r P → decides r Q.
Proof. destruct r as [[]| |]; cbn; tauto. Qed.

Lemma shell_entry_plugin_id_Ok entry allow location id :
  shell_entry_plugin_id entry allow location = Ok id → ∃ name, id = Some name ∧
    ∀ plugin_id, entry_names allow entry plugin_id ↔ plugin_id = name.
Proof.
  unfold shell_entry_plugin_id, entry_names. destruct entry; try done.
  - destruct allow; [|done]. intros [= <-]. eexists. split; [done|]. naive_solver.
  - intros H. unbind H as value Hv. unbind H as name Hn. rewrite ok_or_Ok in Hn. injection H as <-.
    exists name. split; [done|]. unfold shell_id_value in Hv.
    destruct (bmap_get "id" fields) as [[]|] eqn:E; naive_solver.
Qed.

Lemma no_panic_shell_id value location : no_panic (shell_id_value value location).
Proof. by destruct value as [[]|]. Qed.

Lemma no_panic_shell_entry entry allow location : no_panic (shell_entry_plugin_id entry allow location).
Proof.
  destruct entry; cbn; try done; [by destruct allow|].
  apply no_panic_bind; [apply no_panic_shell_id|]. intros [] _; done.
Qed.

Lemma any_entry_decides allow location plugin_id entries :
  decides (any_entry allow location plugin_id entries)
    (∃ entry, entry ∈ entries ∧ entry_names allow entry plugin_id).
Proof.
  induction entries as [|entry entries IH]; cbn [any_entry].
  { cbn. intros (entry & Hin%elem_of_nil & _). done. }
  pose proof (no_panic_shell_entry entry allow location) as Hp.
  destruct (shell_entry_plugin_id entry allow location) as [id|e|s] eqn:E; [|done..]. cbn.
  apply shell_entry_plugin_id_Ok in E as (name & -> & Hname).
  case_bool_decide as Heq.
  - injection Heq as ->. exists entry. split; [left|]. by apply Hname.
  - eapply decides_iff; [|exact IH]. split; [intros (x & ? & ?); exists x; split; [by right|done]|].
    intros (x & [->|Hin]%elem_of_cons & Hx); [|eauto]. apply Hname in Hx. congruence.
Qed.

(** The entries of an optional array. *)
Definition listed (value : option Value) (allow_string : bool) (plugin_id : string) : Prop :=
  ∃ entries entry, value = Some (VArray entries) ∧ entry ∈ entries ∧ entry_names allow_string entry plugin_id.

Lemma optional_array_decides value location allow where_ plugin_id :
  match optional_shell_array value location with
  | Ok entries => decides (any_entry allow where_ plugin_id (default [] entries)) (listed value allow plugin_id)
  | Err _ => True
  | Panic _ => False
  end.
Proof.
  destruct value as [[]|]; cbn; try done.
  - eapply decides_iff; [|apply any_entry_decides]. unfold listed. naive_solver.
  - intros (? & ? & ? & _). done.
Qed.

Lemma any_section_decides layout plugin_id sections :
  decides (any_section layout plugin_id sections)
    (∃ section, section ∈ sections ∧ listed (bmap_get section layout) true plugin_id).
Proof.
  induction sections as [|section sections IH]; cbn [any_section].
  { cbn. intros (section & Hin%elem_of_nil & _). done. }
  pose proof (optional_array_decides (bmap_get section layout) ("bar.layout." +:+ section) true
    "bar.layout entry" plugin_id) as H.
  destruct (optional_shell_array _ _) as [entries|e|s]; [|done..]. cbn.
  destruct (any_entry _ _ _ _) as [[]|e|s]; cbn in *; [|..|done|done].
  - exists section. split; [left|done].
  - eapply decides_iff; [|exact IH]. split; [intros (x & ? & ?); exists x; split; [by right|done]|].
    intros (x & [->|Hin]%elem_of_cons & Hx); [done|eauto].
Qed.

Lemma layout_decides bar plugin_id :
  decides (layout ← optional_shell_object (bmap_get "layout" bar) "bar.layout";
           match layout with
           | None => Ok false
           | Some layout => any_section layout plugin_id ["left"; "center"; "right"]
           end)
    (∃ layout section, bmap_get "layout" bar = Some (VObject layout) ∧
       section ∈ ["left"; "center"; "right"] ∧ listed (bmap_get section layout) true plugin_id).
Proof.
  destruct (bmap_get "layout" bar) as [[]|]; cbn [optional_shell_object]; try done; rewrite bind_Ok_l.
  - eapply decides_iff; [|apply any_section_decides]. naive_solver.
  - cbn. naive_solver.
Qed.

(** The search of the shell configuration is right: when it says that a
    plugin is referenced, one of the places that enable a plugin names it, and
    when it says that it is not, none does. It never panics; a malformed place
    that it meets is an error. *)
Theorem reference_search_is_right root plugin_id :
  decides (shell_configuration_references_plugin (VObject root) plugin_id) (enables root plugin_id).
Proof.
  cbn [shell_configuration_references_plugin].
  assert (decides (bar_references_plugin root plugin_id)
    (∃ bar, bmap_get "bar" root = Some (VObject bar) ∧
      (bmap_get "id" bar = Some (VString plugin_id) ∨
       ∃ layout section, bmap_get "layout" bar = Some (VObject layout) ∧
         section ∈ ["left"; "center"; "right"] ∧ listed (bmap_get section layout) true plugin_id))) as Hbar.
  { unfold bar_references_plugin. destruct (bmap_get "bar" root) as [[]|]; cbn [optional_shell_object]; try done.
    2: { cbn. naive_solver. }
    rewrite bind_Ok_l. pose proof (layout_decides fields plugin_id) as Hlayout.
    destruct (bmap_get "id" fields) as [[]|] eqn:Hid; cbn [shell_id_value]; try done; rewrite bind_Ok_l.
    - rewrite bool_decide_eq_false_2 by done. eapply decides_iff; [|exact Hlayout]. naive_solver.
    - case_bool_decide as Heq; [injection Heq as ->; cbn; naive_solver|].
      eapply decides_iff; [|exact Hlayout]. naive_solver.
    - rewrite bool_decide_eq_false_2 by done. eapply decides_iff; [|exact Hlayout]. naive_solver. }
  destruct (bar_references_plugin root plugin_id) as [[]|e|s]; cbn in *; [| |done|done].
  - destruct Hbar as (bar & ? & [?|(layout & section & ? & ? & entries & entry & ? & ? & ?)]);
      [by eapply enables_bar|by eapply enables_layout].
  - pose proof (optional_array_decides (bmap_get "plugins" root) "plugins" false "plugins entry" plugin_id) as H.
    destruct (optional_shell_array _ _) as [entries|e|s]; [|done..]. cbn.
    eapply decides_iff; [|exact H]. split.
    + intros (es & entry & ? & ? & ?). by eapply enables_plugin.
    + intros [bar ? ?|bar layout section es entry|es entry]; [| |by exists es, entry].
      * exfalso. apply Hbar. eauto.
      * exfalso. apply Hbar. exists bar. split; [done|]. right. exists layout, section.
        split_and!; [done..|]. by exists es, entry.
Qed.
