(* ===== verification/Risk.v ===== *)
(** * Risk records ([crates/a-quo-omarchy/src/risk.rs])

    The closed records of evidence about a plugin package: what is known of its
    publisher, the facts of its archive, the changes of an update, the local
    policy, the result of the policy and the assessment that binds them all by
    digest. Every record has a validator and one canonical encoding; a set of
    records is accepted when its bindings, its derived parts and the reasons of
    its policy result are those the bound evidence gives.

    The canonicalizer, Unicode normalisation and semantic versions are outside
    the repository ([JcsWriter], [Unicode], [Semver]). *)

From stdpp Require Import base numbers list strings pretty option.
From Stdlib Require Import Strings.Byte Ascii.
From S2P Require Import Prelude Text Ordered Display Crates Names Package ShellReference.

(** ** Schemas and limits *)

Definition PUBLISHER_EVIDENCE_SCHEMA : string := "urn:a-quo:omarchy-plugin-publisher-evidence:v1".
Definition STRUCTURAL_RECORD_SCHEMA : string := "urn:a-quo:omarchy-plugin-structural-evidence:v1".
Definition UPDATE_DELTA_SCHEMA : string := "urn:a-quo:omarchy-plugin-update-delta:v1".
Definition LOCAL_POLICY_SCHEMA : string := "urn:a-quo:omarchy-plugin-local-policy:v1".
Definition POLICY_RESULT_SCHEMA : string := "urn:a-quo:omarchy-plugin-policy-result:v1".
Definition OPERATION_ASSESSMENT_SCHEMA : string := "urn:a-quo:omarchy-plugin-risk-assessment:v1".

Definition MAX_RISK_RECORD_BYTES : N := 1048576.
Definition MAX_RISK_PATH_BYTES : N := 4096.
Definition MAX_RISK_ITEMS : N := 4096.
Definition MAX_PROVIDER_BINDINGS : N := 16.
Definition MAX_PROVIDER_DELTAS : N := MAX_PROVIDER_BINDINGS * 2.
Definition MAX_JCS_SAFE_INTEGER : N := 9007199254740991.
Definition MAX_PACKAGE_BYTES : N := 134217728.
Definition MAX_ANALYSIS_STREAM_BYTES : N := 629145600.
Definition MAX_UNCOMPRESSED_FILE_BYTES : N := 536870912.
Definition MAX_SINGLE_FILE_BYTES : N := 134217728.
Definition MAX_NATIVE_REPORT_BYTES : N := 16777216.
Definition MAX_JSON_DEPTH : N := 16.
Definition SHA256_HEX_BYTES : N := 64.

Inductive RiskContractError :=
| RiskTooLarge (record : string) (maximum : N)
| RiskJson (record category : string) (line column : N)
| RiskInvalid (record reason : string)
| RiskNonCanonical (record : string)
| RiskCanonicalization (record : string).

Abbreviation RiskResult := (result RiskContractError).

(** ** Data *)

(** [Nullable<T>] is an [Option<T>] whose JSON member may not be missing; as a
    value it is the option. *)
Record RiskSubject := {
  rsu_artifact_sha256 : string;
  rsu_artifact_size : N;
  rsu_package_format : string;
  rsu_plugin_id : option string;
  rsu_plugin_version : option string;
  rsu_manifest_sha256 : option string;
  rsu_analysis_stream_schema : string;
  rsu_analysis_stream_sha256 : string;
  rsu_analysis_stream_size : N;
}.

Inductive VerifiedStatus := StatusVerified.

Inductive RiskPublisherRegistryStatus :=
| RegistryNotChecked | RegistryUnrecognized | RegistryEvidenceOnly | RegistryArchived
| RegistryTerminallyRevoked | RegistryActive | RegistryRetired | RegistryCompromised.

Inductive RiskKeyStatus := RiskKeyActive | RiskKeyRetired | RiskKeyCompromised.

Inductive RiskContinuityStatus :=
| ContinuityNotChecked | ContinuityNotManaged | ContinuityVerified | ContinuityInvalid.

Inductive InstallationAuthority := Authorized | Denied.

Record PublisherEvidenceRecord := {
  rpe_schema : string;
  rpe_subject : RiskSubject;
  rpe_proof_sha256 : string;
  rpe_artifact_integrity : VerifiedStatus;
  rpe_signature : VerifiedStatus;
  rpe_signed_persona : string;
  rpe_signing_key_fingerprint : string;
  rpe_registry_status : RiskPublisherRegistryStatus;
  rpe_local_persona_id : option string;
  rpe_local_persona_root_sha256 : option string;
  rpe_signed_label_agreement : option bool;
  rpe_key_status : option RiskKeyStatus;
  rpe_continuity : RiskContinuityStatus;
  rpe_installation_authority : InstallationAuthority;
}.

Inductive ManifestValidatorStatus := ValidatorNotRun | ValidatorPassed | ValidatorFailed.

Record StructuralFile := {
  rsf_path : string;
  rsf_mode : N;
  rsf_size : N;
  rsf_sha256 : string;
  rsf_manifest_entry_point : bool;
}.

Record StructuralRecord := {
  rst_schema : string;
  rst_subject : RiskSubject;
  rst_archive_validation : VerifiedStatus;
  rst_entries : N;
  rst_regular_files : N;
  rst_directories : N;
  rst_uncompressed_file_bytes : N;
  rst_links : N;
  rst_special_entries : N;
  rst_files : list StructuralFile;
  rst_executable_paths : list string;
  rst_manifest_entry_point_paths : list string;
  rst_hidden_executable_paths : list string;
  rst_executable_not_manifest_entry_point_paths : list string;
  rst_omarchy_manifest_validation : ManifestValidatorStatus;
}.

Inductive PublisherContinuityDelta := DeltaMatched | DeltaMismatched | DeltaNotChecked.
Inductive PluginIdDelta := IdUnchanged | IdChanged.
Inductive VersionDelta := Upgrade | EqualVersion | Downgrade.
Inductive FileChangeKind := Added | Removed | ContentChanged | ModeChanged | ContentAndModeChanged.

Record FileState := { rfs_sha256 : string; rfs_mode : N }.

Record FileDelta := {
  rfd_path : string;
  rfd_change : FileChangeKind;
  rfd_previous : option FileState;
  rfd_current : option FileState;
}.

Record ProviderDelta := {
  rpd_provider_id : string;
  rpd_previous_native_report_sha256 : option string;
  rpd_current_native_report_sha256 : option string;
}.

Record UpdateDeltaRecord := {
  rud_schema : string;
  rud_previous_subject : RiskSubject;
  rud_subject : RiskSubject;
  rud_previous_publisher_evidence_sha256 : string;
  rud_publisher_evidence_sha256 : string;
  rud_previous_structural_record_sha256 : string;
  rud_structural_record_sha256 : string;
  rud_publisher_continuity : PublisherContinuityDelta;
  rud_plugin_id : PluginIdDelta;
  rud_version : VersionDelta;
  rud_files : list FileDelta;
  rud_providers : list ProviderDelta;
  rud_fresh_consent_required : bool;
}.

Inductive PolicyDisposition := Block | RequireConsent.

Record ProviderHandlingPolicy := {
  rph_missing_required : PolicyDisposition;
  rph_incomplete : PolicyDisposition;
  rph_error : PolicyDisposition;
  rph_unsupported : PolicyDisposition;
  rph_not_run : PolicyDisposition;
}.

Record UpdateHandlingPolicy := { ruh_indeterminate_comparison : PolicyDisposition }.

Record LocalPolicyRecord := {
  rlp_schema : string;
  rlp_policy_id : string;
  rlp_revision : N;
  rlp_required_provider_ids : list string;
  rlp_provider_handling : ProviderHandlingPolicy;
  rlp_update_handling : UpdateHandlingPolicy;
  rlp_interactive_approval : PolicyDisposition;
}.

Inductive OperationAction := InstallAction | UpdateAction.
Inductive EnablementIntent := LeaveUnreferenced | PreserveReferenceState.

Record EnablementContext := {
  rec_pre_operation : PluginReferenceState;
  rec_intent : EnablementIntent;
  rec_shell_config_source : ShellConfigSource;
  rec_shell_config_sha256 : string;
}.

Inductive AnalysisIntegrationStatus :=
| AnalysisComplete | AnalysisIncomplete | AnalysisError | AnalysisUnsupported | AnalysisNotRun.

Record NativeReportBinding := {
  rnb_provider_id : string;
  rnb_native_report_schema : option string;
  rnb_native_report_sha256 : option string;
  rnb_native_report_size : option N;
  rnb_integration_status : AnalysisIntegrationStatus;
}.

Inductive PolicyReasonCode :=
| InteractiveApprovalRequired | PublisherNotAuthorized | PublisherContinuityNotMatched
| ManifestValidatorNotPassed | MissingRequiredProvider | ProviderIncomplete | ProviderError
| ProviderUnsupported | ProviderNotRun | PluginIdChanged | VersionNotUpgrade
| IndeterminateComparison.

Record PolicyReason := {
  rpr_code : PolicyReasonCode;
  rpr_disposition : PolicyDisposition;
  rpr_provider_id : option string;
}.

Record PolicyResultRecord := {
  rrs_schema : string;
  rrs_operation_id : string;
  rrs_action : OperationAction;
  rrs_enablement : EnablementContext;
  rrs_subject : RiskSubject;
  rrs_policy_sha256 : string;
  rrs_publisher_evidence_sha256 : string;
  rrs_structural_record_sha256 : string;
  rrs_update_delta_sha256 : option string;
  rrs_native_reports : list NativeReportBinding;
  rrs_decision : PolicyDisposition;
  rrs_reasons : list PolicyReason;
}.

Record OperationAssessment := {
  roa_schema : string;
  roa_operation_id : string;
  roa_action : OperationAction;
  roa_enablement : EnablementContext;
  roa_subject : RiskSubject;
  roa_destination : string;
  roa_destination_parent_device : string;
  roa_destination_parent_inode : string;
  roa_registry_sha256 : string;
  roa_publisher_evidence_sha256 : string;
  roa_structural_record_sha256 : string;
  roa_update_delta_sha256 : option string;
  roa_policy_sha256 : string;
  roa_policy_result_sha256 : string;
  roa_native_reports : list NativeReportBinding;
  roa_issued_at_unix : N;
  roa_expires_at_unix : N;
}.

Record RiskRecordSet := {
  previous_publisher : option PublisherEvidenceRecord;
  previous_structural : option StructuralRecord;
  previous_native_reports : list NativeReportBinding;
  publisher : PublisherEvidenceRecord;
  structural : StructuralRecord;
  update_delta : option UpdateDeltaRecord;
  policy : LocalPolicyRecord;
  policy_result : PolicyResultRecord;
  assessment : OperationAssessment;
}.

(** ** Equality *)

#[export] Instance RiskContractError_eq_dec : EqDecision RiskContractError.
Proof. solve_decision. Defined.
#[export] Instance RiskSubject_eq_dec : EqDecision RiskSubject.
Proof. solve_decision. Defined.
#[export] Instance VerifiedStatus_eq_dec : EqDecision VerifiedStatus.
Proof. solve_decision. Defined.
#[export] Instance RiskPublisherRegistryStatus_eq_dec : EqDecision RiskPublisherRegistryStatus.
Proof. solve_decision. Defined.
#[export] Instance RiskKeyStatus_eq_dec : EqDecision RiskKeyStatus.
Proof. solve_decision. Defined.
#[export] Instance RiskContinuityStatus_eq_dec : EqDecision RiskContinuityStatus.
Proof. solve_decision. Defined.
#[export] Instance InstallationAuthority_eq_dec : EqDecision InstallationAuthority.
Proof. solve_decision. Defined.
#[export] Instance PublisherEvidenceRecord_eq_dec : EqDecision PublisherEvidenceRecord.
Proof. solve_decision. Defined.
#[export] Instance ManifestValidatorStatus_eq_dec : EqDecision ManifestValidatorStatus.
Proof. solve_decision. Defined.
#[export] Instance StructuralFile_eq_dec : EqDecision StructuralFile.
Proof. solve_decision. Defined.
#[export] Instance StructuralRecord_eq_dec : EqDecision StructuralRecord.
Proof. solve_decision. Defined.
#[export] Instance PublisherContinuityDelta_eq_dec : EqDecision PublisherContinuityDelta.
Proof. solve_decision. Defined.
#[export] Instance PluginIdDelta_eq_dec : EqDecision PluginIdDelta.
Proof. solve_decision. Defined.
#[export] Instance VersionDelta_eq_dec : EqDecision VersionDelta.
Proof. solve_decision. Defined.
#[export] Instance FileChangeKind_eq_dec : EqDecision FileChangeKind.
Proof. solve_decision. Defined.
#[export] Instance FileState_eq_dec : EqDecision FileState.
Proof. solve_decision. Defined.
#[export] Instance FileDelta_eq_dec : EqDecision FileDelta.
Proof. solve_decision. Defined.
#[export] Instance ProviderDelta_eq_dec : EqDecision ProviderDelta.
Proof. solve_decision. Defined.
#[export] Instance UpdateDeltaRecord_eq_dec : EqDecision UpdateDeltaRecord.
Proof. solve_decision. Defined.
#[export] Instance PolicyDisposition_eq_dec : EqDecision PolicyDisposition.
Proof. solve_decision. Defined.
#[export] Instance ProviderHandlingPolicy_eq_dec : EqDecision ProviderHandlingPolicy.
Proof. solve_decision. Defined.
#[export] Instance UpdateHandlingPolicy_eq_dec : EqDecision UpdateHandlingPolicy.
Proof. solve_decision. Defined.
#[export] Instance LocalPolicyRecord_eq_dec : EqDecision LocalPolicyRecord.
Proof. solve_decision. Defined.
#[export] Instance OperationAction_eq_dec : EqDecision OperationAction.
Proof. solve_decision. Defined.
#[export] Instance EnablementIntent_eq_dec : EqDecision EnablementIntent.
Proof. solve_decision. Defined.
#[export] Instance ShellConfigSource_eq_dec : EqDecision ShellConfigSource.
Proof. solve_decision. Defined.
#[export] Instance EnablementContext_eq_dec : EqDecision EnablementContext.
Proof. solve_decision. Defined.
#[export] Instance AnalysisIntegrationStatus_eq_dec : EqDecision AnalysisIntegrationStatus.
Proof. solve_decision. Defined.
#[export] Instance NativeReportBinding_eq_dec : EqDecision NativeReportBinding.
Proof. solve_decision. Defined.
#[export] Instance PolicyReasonCode_eq_dec : EqDecision PolicyReasonCode.
Proof. solve_decision. Defined.
#[export] Instance PolicyReason_eq_dec : EqDecision PolicyReason.
Proof. solve_decision. Defined.
#[export] Instance PolicyResultRecord_eq_dec : EqDecision PolicyResultRecord.
Proof. solve_decision. Defined.
#[export] Instance OperationAssessment_eq_dec : EqDecision OperationAssessment.
Proof. solve_decision. Defined.

(** ** Foreign code *)

(** [unicode_normalization]: the canonical composition of a text. *)
Class Unicode := { nfc : list N → list N }.

(** [serde_json_canonicalizer::to_writer]: the pieces it writes, in order, and
    the error it ends with when the value has no canonical form. *)
Class JcsWriter (T : Type) := { jcs_to_writer : T → list bytes * option JsonError }.

(** What [to_writer] writes in all is what [to_vec] returns. *)
Class JcsWriterOk (T : Type) `{!Serde T, !JcsWriter T} := {
  jcs_writer_to_vec x pieces :
    jcs_to_writer x = (pieces, None) → jcs_to_vec x = inr (mjoin pieces);
}.

(** ** Integers and ordered sets *)

Definition saturating_add_u64 (a b : N) : N := (u64_max `min` (a + b))%N.
Definition checked_mul_u64 (a b : N) : option N :=
  if (a * b <=? u64_max)%N then Some (a * b)%N else None.

(** [slice::windows(2).all(|pair| key(pair[0]) < key(pair[1]))] *)
Definition sorted_by_key {A} (key : A → string) (l : list A) : bool :=
  negb (windows2_any (λ a b, negb (str_ltb (key a) (key b))) l).

(** The derived [Ord] of an enum without data is the order of its variants. *)
Definition code_rank (code : PolicyReasonCode) : N :=
  match code with
  | InteractiveApprovalRequired => 0
  | PublisherNotAuthorized => 1
  | PublisherContinuityNotMatched => 2
  | ManifestValidatorNotPassed => 3
  | MissingRequiredProvider => 4
  | ProviderIncomplete => 5
  | ProviderError => 6
  | ProviderUnsupported => 7
  | ProviderNotRun => 8
  | PluginIdChanged => 9
  | VersionNotUpgrade => 10
  | IndeterminateComparison => 11
  end.

Definition disposition_rank (disposition : PolicyDisposition) : N :=
  match disposition with Block => 0 | RequireConsent => 1 end.

Definition provider_compare (a b : option string) : comparison :=
  match a, b with
  | None, None => Eq
  | None, Some _ => Lt
  | Some _, None => Gt
  | Some x, Some y => String.compare x y
  end.

Definition then_compare (a b : comparison) : comparison :=
  match a with Eq => b | _ => a end.

(** The derived [Ord] of [PolicyReason] *)
Definition reason_compare (a b : PolicyReason) : comparison :=
  then_compare (code_rank (rpr_code a) ?= code_rank (rpr_code b))%N
    (then_compare (disposition_rank (rpr_disposition a) ?= disposition_rank (rpr_disposition b))%N
       (provider_compare (rpr_provider_id a) (rpr_provider_id b))).

Definition reason_ltb (a b : PolicyReason) : bool :=
  match reason_compare a b with Lt => true | _ => false end.

(** [BTreeSet<PolicyReason>] as a sorted list *)
Fixpoint reason_insert (x : PolicyReason) (s : list PolicyReason) : list PolicyReason :=
  match s with
  | [] => [x]
  | y :: s' =>
      match reason_compare x y with
      | Lt => x :: s
      | Eq => s
      | Gt => y :: reason_insert x s'
      end
  end.

Definition reasons_of_list (l : list PolicyReason) : list PolicyReason :=
  foldl (λ s x, reason_insert x s) [] l.

(** ** Field rules *)

Class ValidateRiskRecord (T : Type) := {
  DESCRIPTION : string;
  validate : T → RiskResult unit;
}.

Definition invalid {A} (record reason : string) : RiskResult A := Err (RiskInvalid record reason).

Definition require_schema (actual expected record : string) : RiskResult unit :=
  if actual == expected then Ok tt else invalid record "unsupported schema identifier".

Definition validate_jcs_integer (record : string) (value : N) : RiskResult unit :=
  if (value <=? MAX_JCS_SAFE_INTEGER)%N then Ok tt
  else invalid record "integer exceeds the RFC 8785 exact-integer range".

Definition validate_sha256 (record value : string) : RiskResult unit :=
  if (str_len value =? SHA256_HEX_BYTES)%N && str_all is_lower_hex value then Ok tt
  else invalid record "SHA-256 must be 64 lowercase hexadecimal characters".

Definition validate_operation_id (record value : string) : RiskResult unit :=
  validate_sha256 record value;;
  if str_all (λ byte, byte == "0"%char) value then
    invalid record "operation ID is the reserved all-zero value"
  else Ok tt.

Definition identifier_first (byte : ascii) : bool := is_ascii_lowercase byte || is_ascii_digit byte.
Definition identifier_rest (byte : ascii) : bool :=
  is_ascii_lowercase byte || is_ascii_digit byte || existsb (λ k, byte == k) ["."; "_"; "-"]%char.

Definition validate_identifier (record value : string) : RiskResult unit :=
  if (64 <? str_len value)%N ||
     negb (match value with String first _ => identifier_first first | EmptyString => false end) ||
     negb (match value with String _ rest => str_all identifier_rest rest | EmptyString => true end)
  then invalid record "identifier does not use the closed 64-byte grammar"
  else Ok tt.

Definition validate_sorted_unique_identifiers (values : list string) (maximum : N) (record : string) :
    RiskResult unit :=
  reject_if (maximum <? len values)%N (RiskInvalid record "identifier list exceeds its item bound");;
  each_result (validate_identifier record) values;;
  if sorted_by_key id values then Ok tt
  else invalid record "identifier list must be strictly bytewise sorted".

Definition validate_nfc_text `{!Unicode} (minimum maximum : N) (record value : string) :
    RiskResult unit :=
  reject_if ((str_len value <? minimum) || (maximum <? str_len value))%N
    (RiskInvalid record "text exceeds its UTF-8 byte bounds");;
  reject_if (contains_unsafe_display_characters value)
    (RiskInvalid record "text contains a security-unsafe display character");;
  reject_if (nfc (chars value) != chars value) (RiskInvalid record "text is not Unicode NFC").

Definition validate_relative_path `{!Unicode} (record value : string) : RiskResult unit :=
  validate_nfc_text 1 MAX_RISK_PATH_BYTES record value;;
  reject_if
    (starts_with "/" value || ends_with "/" value || str_contains "//" value ||
     str_contains "\" value ||
     existsb (λ component, (component == EmptyString) || (component == ".") || (component == ".."))
       (split_on "/" value))
    (RiskInvalid record "path is not a normalized relative POSIX path").

(** [&value[1..]], after a first byte that is ASCII *)
Definition from_second_byte (value : string) : RiskResult string :=
  match value with
  | String _ rest => Ok rest
  | EmptyString => Panic "byte index 1 is out of bounds"
  end.

Definition validate_absolute_path `{!Unicode} (record value : string) : RiskResult unit :=
  validate_nfc_text 2 MAX_RISK_PATH_BYTES record value;;
  reject_if (negb (starts_with "/" value) || (value == "/"))
    (RiskInvalid record "path is not a non-root absolute POSIX path");;
  rest ← from_second_byte value;
  validate_relative_path record rest.

Definition validate_sorted_unique_paths `{!Unicode} (record : string) (values : list string) :
    RiskResult unit :=
  reject_if (MAX_RISK_ITEMS <? len values)%N (RiskInvalid record "path list exceeds its item bound");;
  each_result (validate_relative_path record) values;;
  if sorted_by_key id values then Ok tt
  else invalid record "path list must be strictly bytewise sorted".

Definition validate_plugin_id (record value : string) : RiskResult unit :=
  map_err (λ _, RiskInvalid record "plugin ID is invalid or reserved")
    (Package.validate_plugin_id value).

Definition validate_subject `{!Unicode, !Semver} (require_manifest : bool) (record : string)
    (subject : RiskSubject) : RiskResult unit :=
  validate_sha256 record (rsu_artifact_sha256 subject);;
  validate_jcs_integer record (rsu_artifact_size subject);;
  reject_if ((rsu_artifact_size subject =? 0) || (MAX_PACKAGE_BYTES <? rsu_artifact_size subject))%N
    (RiskInvalid record "artifact size is outside the package bound");;
  reject_if (rsu_package_format subject != "omarchy-zstd-tar-v1")
    (RiskInvalid record "unsupported package format");;
  match rsu_plugin_id subject, rsu_plugin_version subject, rsu_manifest_sha256 subject with
  | Some plugin_id, Some plugin_version, Some manifest_sha256 =>
      validate_plugin_id record plugin_id;;
      validate_nfc_text 1 128 record plugin_version;;
      _ ← map_err (λ _, RiskInvalid record "plugin version is not semantic versioning")
            (of_sum (Version_parse plugin_version));
      validate_sha256 record manifest_sha256
  | None, None, None =>
      if require_manifest then
        invalid record "manifest subject fields must be all present or all null"
      else Ok tt
  | _, _, _ => invalid record "manifest subject fields must be all present or all null"
  end;;
  reject_if (require_manifest && bool_decide (rsu_plugin_id subject = None))
    (RiskInvalid record "this record requires a valid manifest subject");;
  reject_if (rsu_analysis_stream_schema subject != "a-quo-regular-file-stream-v1")
    (RiskInvalid record "unsupported analysis-stream schema");;
  validate_sha256 record (rsu_analysis_stream_sha256 subject);;
  validate_jcs_integer record (rsu_analysis_stream_size subject);;
  reject_if ((rsu_analysis_stream_size subject <? 20) ||
             (MAX_ANALYSIS_STREAM_BYTES <? rsu_analysis_stream_size subject))%N
    (RiskInvalid record "analysis stream size is outside its bound").

Definition validate_key_fingerprint `{!Crates} (record value : string) : RiskResult unit :=
  match strip_prefix "SHA256:" value with
  | None => invalid record "key fingerprint is not OpenSSH SHA256 form"
  | Some encoded =>
      let decoded :=
        match STANDARD_NO_PAD_decode encoded with inr bs => Some bs | inl _ => None end in
      if match decoded with None => true | Some bs => len bs != 32%N end ||
         match decoded with None => true | Some bs => STANDARD_NO_PAD_encode bs != encoded end
      then invalid record "key fingerprint is not canonical unpadded SHA256 Base64"
      else Ok tt
  end.

Definition local_persona_id_byte (index : nat) (byte : ascii) : bool :=
  match index with
  | 8 | 13 | 18 | 23 => byte == "-"%char
  | _ => is_lower_hex byte
  end.

(** [iter().enumerate().all(p)], from an index *)
Fixpoint str_all_from (p : nat → ascii → bool) (index : nat) (s : string) : bool :=
  match s with
  | EmptyString => true
  | String c s' => p index c && str_all_from p (S index) s'
  end.

Definition validate_local_persona_id (record value : string) : RiskResult unit :=
  if (str_len value =? 36)%N && (value != "00000000-0000-0000-0000-000000000000") &&
     str_all_from local_persona_id_byte 0 value
  then Ok tt
  else invalid record "local persona ID is not canonical lowercase UUID text".

(** [if let Some(value) = option { check(value)?; }] *)
Definition check_some {A} (check : A → RiskResult unit) (value : option A) : RiskResult unit :=
  match value with Some a => check a | None => Ok tt end.

Definition validate_optional_sha256 (record : string) (value : option string) : RiskResult unit :=
  check_some (validate_sha256 record) value.

(** ** Publisher evidence *)

Definition recognized_status (status : RiskPublisherRegistryStatus) : bool :=
  match status with RegistryNotChecked | RegistryUnrecognized => false | _ => true end.

Definition key_status_agrees (status : RiskPublisherRegistryStatus) (key : option RiskKeyStatus) : bool :=
  match status, key with
  | RegistryActive, Some RiskKeyActive
  | RegistryRetired, Some RiskKeyRetired
  | RegistryCompromised, Some RiskKeyCompromised
  | RegistryEvidenceOnly, Some _
  | RegistryArchived, Some _
  | RegistryTerminallyRevoked, Some _
  | RegistryNotChecked, None
  | RegistryUnrecognized, None => true
  | _, _ => false
  end.

Definition publisher_authorized (self : PublisherEvidenceRecord) : bool :=
  (rpe_registry_status self == RegistryActive) &&
  (rpe_key_status self == Some RiskKeyActive) &&
  (rpe_signed_label_agreement self == Some true) &&
  match rpe_continuity self with ContinuityVerified | ContinuityNotManaged => true | _ => false end.

Definition is_some {A} (o : option A) : bool := match o with Some _ => true | None => false end.

Definition PublisherEvidenceRecord_validate `{!Crates, !Unicode, !Semver} (self : PublisherEvidenceRecord) : RiskResult unit :=
  let record := "publisher evidence" in
  require_schema (rpe_schema self) PUBLISHER_EVIDENCE_SCHEMA record;;
  validate_subject true record (rpe_subject self);;
  validate_sha256 record (rpe_proof_sha256 self);;
  validate_nfc_text 1 256 record (rpe_signed_persona self);;
  validate_key_fingerprint record (rpe_signing_key_fingerprint self);;
  check_some (validate_local_persona_id record) (rpe_local_persona_id self);;
  check_some (validate_sha256 record) (rpe_local_persona_root_sha256 self);;
  let recognized := recognized_status (rpe_registry_status self) in
  reject_if
    (recognized !=
      (is_some (rpe_local_persona_id self) && is_some (rpe_signed_label_agreement self) &&
       is_some (rpe_key_status self)))
    (RiskInvalid record "local recognition fields do not match registry status");;
  reject_if
    (negb recognized &&
      (is_some (rpe_local_persona_root_sha256 self) || (rpe_continuity self != ContinuityNotChecked)))
    (RiskInvalid record "unrecognized publisher carries local continuity evidence");;
  reject_if (recognized && (rpe_continuity self == ContinuityNotChecked))
    (RiskInvalid record
      "recognized publisher continuity must be verified, invalid, or not_managed");;
  match rpe_continuity self, rpe_local_persona_root_sha256 self with
  | (ContinuityVerified | ContinuityInvalid), None =>
      invalid record "continuity result is not bound to a persona root"
  | ContinuityNotManaged, Some _ => invalid record "unmanaged continuity carries a persona root"
  | _, _ => Ok tt
  end;;
  reject_if (negb (key_status_agrees (rpe_registry_status self) (rpe_key_status self)))
    (RiskInvalid record "key status contradicts publisher registry status");;
  reject_if (publisher_authorized self != (rpe_installation_authority self == Authorized))
    (RiskInvalid record "installation authority is not derived from publisher evidence").
#[export] Instance validate_publisher_evidence `{!Crates, !Unicode, !Semver} : ValidateRiskRecord PublisherEvidenceRecord :=
  {| DESCRIPTION := "publisher evidence"; validate := PublisherEvidenceRecord_validate |}.

(** ** Structural evidence *)

Definition hidden_path (path : string) : bool :=
  existsb (starts_with ".") (split_on "/" path).

Definition normal_mode (mode : N) : bool := (mode =? 420)%N || (mode =? 493)%N.

(** One round of the loop over the files: [total] is the sum of the sizes. *)
Definition validate_structural_file `{!Unicode} (record : string) (total : N) (file : StructuralFile) :
    RiskResult N :=
  validate_relative_path record (rsf_path file);;
  reject_if (negb (normal_mode (rsf_mode file)))
    (RiskInvalid record "file mode is not normalized to 0644 or 0755");;
  validate_jcs_integer record (rsf_size file);;
  reject_if (MAX_SINGLE_FILE_BYTES <? rsf_size file)%N
    (RiskInvalid record "one structural file exceeds the size bound");;
  validate_sha256 record (rsf_sha256 file);;
  ok_or (checked_add_u64 total (rsf_size file)) (RiskInvalid record "file-size sum overflowed").

(** The bytes of framing and content the analysis stream has. *)
Definition framing_step (size : N) (file : StructuralFile) : option N :=
  size ← checked_add_u64 size (str_len (rsf_path file));
  checked_add_u64 size (rsf_size file).

Fixpoint try_fold {S A} (f : S → A → option S) (s : S) (l : list A) : option S :=
  match l with [] => Some s | a :: l' => s' ← f s a; try_fold f s' l' end.

Definition analysis_stream_size_of (record : string) (regular_files : N) (files : list StructuralFile) :
    RiskResult N :=
  let overflowed := RiskInvalid record "analysis-stream framing size overflowed" in
  frames ← ok_or (checked_mul_u64 regular_files 48) overflowed;
  ok_or (size ← checked_add_u64 20 frames; try_fold framing_step size files) overflowed.

Definition paths_where (keep : StructuralFile → bool) (files : list StructuralFile) : list string :=
  rsf_path <$> List.filter keep files.

Definition is_executable (file : StructuralFile) : bool := (rsf_mode file =? 493)%N.

Definition StructuralRecord_validate `{!Unicode, !Semver} (self : StructuralRecord) : RiskResult unit :=
  let record := "structural record" in
  require_schema (rst_schema self) STRUCTURAL_RECORD_SCHEMA record;;
  validate_subject true record (rst_subject self);;
  each_result (validate_jcs_integer record)
    [rst_entries self; rst_regular_files self; rst_directories self;
     rst_uncompressed_file_bytes self; rst_links self; rst_special_entries self];;
  reject_if ((rst_links self != 0%N) || (rst_special_entries self != 0%N))
    (RiskInvalid record "accepted structural record contains a non-regular entry");;
  reject_if
    ((MAX_RISK_ITEMS <? rst_entries self)%N || (MAX_RISK_ITEMS <? rst_regular_files self)%N ||
     (MAX_RISK_ITEMS <? rst_directories self)%N ||
     (MAX_UNCOMPRESSED_FILE_BYTES <? rst_uncompressed_file_bytes self)%N)
    (RiskInvalid record "archive facts exceed the candidate v1 bounds");;
  reject_if (rst_entries self != saturating_add_u64 (rst_regular_files self) (rst_directories self))
    (RiskInvalid record "archive entry counts do not add up");;
  reject_if ((MAX_RISK_ITEMS <? len (rst_files self))%N || (len (rst_files self) != rst_regular_files self))
    (RiskInvalid record "file facts do not match the regular-file count");;
  reject_if (negb (sorted_by_key rsf_path (rst_files self)))
    (RiskInvalid record "file facts must be strictly path-sorted");;
  total ← fold_result (validate_structural_file record) 0%N (rst_files self);
  reject_if (total != rst_uncompressed_file_bytes self)
    (RiskInvalid record "file facts do not match the content-byte total");;
  analysis_stream_size ← analysis_stream_size_of record (rst_regular_files self) (rst_files self);
  reject_if (rsu_analysis_stream_size (rst_subject self) != analysis_stream_size)
    (RiskInvalid record "analysis-stream size does not match exact file framing");;
  each_result (validate_sorted_unique_paths record)
    [rst_executable_paths self; rst_manifest_entry_point_paths self;
     rst_hidden_executable_paths self; rst_executable_not_manifest_entry_point_paths self];;
  reject_if
    ((rst_executable_paths self != paths_where is_executable (rst_files self)) ||
     (rst_manifest_entry_point_paths self != paths_where rsf_manifest_entry_point (rst_files self)) ||
     (rst_hidden_executable_paths self !=
       paths_where (λ file, is_executable file && hidden_path (rsf_path file)) (rst_files self)) ||
     (rst_executable_not_manifest_entry_point_paths self !=
       paths_where (λ file, is_executable file && negb (rsf_manifest_entry_point file))
         (rst_files self)))
    (RiskInvalid record "derived executable path lists do not match file facts");;
  manifest ← ok_or (find (λ file, rsf_path file == "manifest.json") (rst_files self))
    (RiskInvalid record "structural record omits manifest.json");
  reject_if (MAX_MANIFEST_BYTES <? rsf_size manifest)%N
    (RiskInvalid record "manifest.json exceeds the archive validator bound");;
  reject_if (rsu_manifest_sha256 (rst_subject self) != Some (rsf_sha256 manifest))
    (RiskInvalid record "manifest file digest differs from the subject").
#[export] Instance validate_structural `{!Unicode, !Semver} : ValidateRiskRecord StructuralRecord :=
  {| DESCRIPTION := "structural record"; validate := StructuralRecord_validate |}.

(** ** Update deltas *)

Definition validate_file_state (record : string) (state : FileState) : RiskResult unit :=
  validate_sha256 record (rfs_sha256 state);;
  if normal_mode (rfs_mode state) then Ok tt
  else invalid record "file delta mode is not normalized to 0644 or 0755".

Definition change_tag_agrees (delta : FileDelta) : bool :=
  match rfd_change delta, rfd_previous delta, rfd_current delta with
  | Added, None, Some _ | Removed, Some _, None => true
  | ContentChanged, Some previous, Some current =>
      (rfs_sha256 previous != rfs_sha256 current) && (rfs_mode previous == rfs_mode current)
  | ModeChanged, Some previous, Some current =>
      (rfs_sha256 previous == rfs_sha256 current) && (rfs_mode previous != rfs_mode current)
  | ContentAndModeChanged, Some previous, Some current =>
      (rfs_sha256 previous != rfs_sha256 current) && (rfs_mode previous != rfs_mode current)
  | _, _, _ => false
  end.

Definition validate_file_delta `{!Unicode} (record : string) (delta : FileDelta) : RiskResult unit :=
  validate_relative_path record (rfd_path delta);;
  check_some (validate_file_state record) (rfd_previous delta);;
  check_some (validate_file_state record) (rfd_current delta);;
  if change_tag_agrees delta then Ok tt
  else invalid record "file change tag does not match its previous/current states".

Definition validate_provider_delta (record : string) (delta : ProviderDelta) : RiskResult unit :=
  validate_identifier record (rpd_provider_id delta);;
  each_result (validate_optional_sha256 record)
    [rpd_previous_native_report_sha256 delta; rpd_current_native_report_sha256 delta].

(** [Version::parse(subject.plugin_version.0.as_deref().expect(..)).expect(..)] *)
Definition subject_version `{!Semver} (subject : RiskSubject) : RiskResult Version :=
  text ← expect (rsu_plugin_version subject) "validated manifest subject has a version";
  match Version_parse text with
  | inr version => Ok version
  | inl _ => Panic "validated manifest subject has a semantic version"
  end.

Definition version_delta (comparison : comparison) : VersionDelta :=
  match comparison with Gt => Upgrade | Eq => EqualVersion | Lt => Downgrade end.

Definition material_change (self : UpdateDeltaRecord) : bool :=
  (rud_files self != []) || (rud_publisher_continuity self != DeltaMatched) ||
  (rud_plugin_id self != IdUnchanged) || (rud_version self != Upgrade) || (rud_providers self != []).

Definition UpdateDeltaRecord_validate `{!Unicode, !Semver} (self : UpdateDeltaRecord) : RiskResult unit :=
  let record := "update delta" in
  require_schema (rud_schema self) UPDATE_DELTA_SCHEMA record;;
  validate_subject true record (rud_previous_subject self);;
  validate_subject true record (rud_subject self);;
  each_result (validate_sha256 record)
    [rud_previous_publisher_evidence_sha256 self; rud_publisher_evidence_sha256 self;
     rud_previous_structural_record_sha256 self; rud_structural_record_sha256 self];;
  let plugin_id :=
    if rsu_plugin_id (rud_previous_subject self) == rsu_plugin_id (rud_subject self)
    then IdUnchanged else IdChanged in
  reject_if (rud_plugin_id self != plugin_id)
    (RiskInvalid record "plugin-ID delta does not match the two subjects");;
  previous_version ← subject_version (rud_previous_subject self);
  current_version ← subject_version (rud_subject self);
  let version := version_delta (Version_compare current_version previous_version) in
  reject_if (rud_version self != version)
    (RiskInvalid record "version delta does not match the two subjects");;
  reject_if ((MAX_RISK_ITEMS <? len (rud_files self))%N || negb (sorted_by_key rfd_path (rud_files self)))
    (RiskInvalid record "file deltas are not strictly path-sorted");;
  each_result (validate_file_delta record) (rud_files self);;
  reject_if ((MAX_PROVIDER_DELTAS <? len (rud_providers self))%N ||
             negb (sorted_by_key rpd_provider_id (rud_providers self)))
    (RiskInvalid record "provider deltas are not strictly provider-ID sorted");;
  each_result (validate_provider_delta record) (rud_providers self);;
  reject_if (rud_fresh_consent_required self != material_change self)
    (RiskInvalid record "fresh-consent flag does not match material update changes").
#[export] Instance validate_update_delta `{!Unicode, !Semver} : ValidateRiskRecord UpdateDeltaRecord :=
  {| DESCRIPTION := "update delta"; validate := UpdateDeltaRecord_validate |}.

(** ** Policies *)

Definition LocalPolicyRecord_validate (self : LocalPolicyRecord) : RiskResult unit :=
  let record := "local policy" in
  require_schema (rlp_schema self) LOCAL_POLICY_SCHEMA record;;
  validate_identifier record (rlp_policy_id self);;
  validate_jcs_integer record (rlp_revision self);;
  reject_if (rlp_revision self =? 0)%N (RiskInvalid record "policy revision must be positive");;
  validate_sorted_unique_identifiers (rlp_required_provider_ids self) MAX_PROVIDER_BINDINGS record;;
  reject_if (rlp_interactive_approval self != RequireConsent)
    (RiskInvalid record "interactive approval cannot be disabled or called safe").
#[export] Instance validate_local_policy : ValidateRiskRecord LocalPolicyRecord :=
  {| DESCRIPTION := "local policy"; validate := LocalPolicyRecord_validate |}.

(** ** Native reports *)

Definition is_ascii_graphic (byte : ascii) : bool := in_range 33 126 (ascii_val byte).
(** [u8::is_ascii_whitespace]: space, tab, line feed, form feed, carriage return *)
Definition is_ascii_whitespace (byte : ascii) : bool :=
  existsb (λ k, ascii_val byte =? k)%N [32; 9; 10; 12; 13]%N.

Definition validate_native_report_schema (record value : string) : RiskResult unit :=
  if (value == EmptyString) || (256 <? str_len value)%N ||
     negb (str_all (λ byte, is_ascii_graphic byte && negb (is_ascii_whitespace byte)) value)
  then invalid record "native-report schema is not bounded visible ASCII"
  else Ok tt.

Definition validate_native_report_size (record : string) (size : N) : RiskResult unit :=
  validate_jcs_integer record size;;
  reject_if ((size =? 0) || (MAX_NATIVE_REPORT_BYTES <? size))%N
    (RiskInvalid record "native report size is outside its bound").

Definition validate_native_report_binding (record : string) (binding : NativeReportBinding) :
    RiskResult unit :=
  validate_identifier record (rnb_provider_id binding);;
  check_some (validate_native_report_schema record) (rnb_native_report_schema binding);;
  validate_optional_sha256 record (rnb_native_report_sha256 binding);;
  check_some (validate_native_report_size record) (rnb_native_report_size binding);;
  let has_digest := is_some (rnb_native_report_sha256 binding) in
  let has_size := is_some (rnb_native_report_size binding) in
  reject_if (has_digest != has_size)
    (RiskInvalid record "native report digest and size presence differ");;
  reject_if (is_some (rnb_native_report_schema binding) && negb has_digest)
    (RiskInvalid record "native report schema exists without report bytes");;
  match rnb_integration_status binding with
  | AnalysisComplete | AnalysisIncomplete =>
      reject_if (negb (is_some (rnb_native_report_schema binding)) || negb has_digest)
        (RiskInvalid record "successful native report integration lacks schema or report bytes")
  | AnalysisNotRun =>
      reject_if (is_some (rnb_native_report_schema binding) || has_digest)
        (RiskInvalid record "not-run integration carries a native report")
  | _ => Ok tt
  end.

Definition validate_native_report_bindings (record : string) (bindings : list NativeReportBinding) :
    RiskResult unit :=
  reject_if ((MAX_PROVIDER_BINDINGS <? len bindings)%N || negb (sorted_by_key rnb_provider_id bindings))
    (RiskInvalid record "native reports are not strictly provider-ID sorted");;
  each_result (validate_native_report_binding record) bindings.

(** ** Policy results *)

Definition provider_required (code : PolicyReasonCode) : bool :=
  match code with
  | MissingRequiredProvider | ProviderIncomplete | ProviderError | ProviderUnsupported
  | ProviderNotRun | IndeterminateComparison => true
  | _ => false
  end.

Definition validate_policy_reason (record : string) (reason : PolicyReason) : RiskResult unit :=
  check_some (validate_identifier record) (rpr_provider_id reason);;
  reject_if (provider_required (rpr_code reason) != is_some (rpr_provider_id reason))
    (RiskInvalid record "policy reason has the wrong provider-ID nullability");;
  match rpr_code reason with
  | InteractiveApprovalRequired =>
      reject_if (rpr_disposition reason != RequireConsent)
        (RiskInvalid record "interactive approval reason is not require_consent")
  | PublisherNotAuthorized | PublisherContinuityNotMatched | ManifestValidatorNotPassed
  | PluginIdChanged | VersionNotUpgrade =>
      reject_if (rpr_disposition reason != Block)
        (RiskInvalid record "hard policy failure is not block")
  | _ => Ok tt
  end.

Definition validate_enablement_context (action : OperationAction) (enablement : EnablementContext)
    (record : string) : RiskResult unit :=
  validate_sha256 record (rec_shell_config_sha256 enablement);;
  match action, rec_pre_operation enablement, rec_intent enablement with
  | InstallAction, NotReferenced, LeaveUnreferenced
  | UpdateAction, (NotReferenced | Referenced), PreserveReferenceState => Ok tt
  | InstallAction, _, _ =>
      invalid record "install enablement context is not unreferenced with leave-unreferenced intent"
  | UpdateAction, _, _ =>
      invalid record "update enablement context does not preserve the observed reference state"
  end.

Definition decision_of (reasons : list PolicyReason) : PolicyDisposition :=
  if existsb (λ reason, rpr_disposition reason == Block) reasons then Block else RequireConsent.

Definition PolicyResultRecord_validate `{!Unicode, !Semver} (self : PolicyResultRecord) : RiskResult unit :=
  let record := "policy result" in
  require_schema (rrs_schema self) POLICY_RESULT_SCHEMA record;;
  validate_operation_id record (rrs_operation_id self);;
  validate_subject true record (rrs_subject self);;
  each_result (validate_sha256 record)
    [rrs_policy_sha256 self; rrs_publisher_evidence_sha256 self; rrs_structural_record_sha256 self];;
  validate_optional_sha256 record (rrs_update_delta_sha256 self);;
  reject_if ((rrs_action self == InstallAction) != negb (is_some (rrs_update_delta_sha256 self)))
    (RiskInvalid record "action does not match update-delta nullability");;
  validate_enablement_context (rrs_action self) (rrs_enablement self) record;;
  validate_native_report_bindings record (rrs_native_reports self);;
  reject_if
    ((rrs_reasons self == []) || (MAX_RISK_ITEMS <? len (rrs_reasons self))%N ||
     windows2_any (λ a b, negb (reason_ltb a b)) (rrs_reasons self))
    (RiskInvalid record "policy reasons are empty, duplicate, or unsorted");;
  each_result (validate_policy_reason record) (rrs_reasons self);;
  reject_if
    (negb (existsb
      (λ reason, (rpr_code reason == InteractiveApprovalRequired) &&
                 (rpr_disposition reason == RequireConsent)) (rrs_reasons self)))
    (RiskInvalid record "policy result omits mandatory interactive approval");;
  reject_if (rrs_decision self != decision_of (rrs_reasons self))
    (RiskInvalid record "policy decision does not match its reasons").
#[export] Instance validate_policy_result `{!Unicode, !Semver} : ValidateRiskRecord PolicyResultRecord :=
  {| DESCRIPTION := "policy result"; validate := PolicyResultRecord_validate |}.

(** ** Assessments *)

Definition validate_lower_hex_integer (record value : string) : RiskResult unit :=
  if (value == EmptyString) || (16 <? str_len value)%N ||
     ((1 <? str_len value)%N && starts_with "0" value) || negb (str_all is_lower_hex value)
  then invalid record "filesystem identity is not canonical lowercase hexadecimal"
  else Ok tt.

Definition OperationAssessment_validate `{!Unicode, !Semver} (self : OperationAssessment) : RiskResult unit :=
  let record := "operation assessment" in
  require_schema (roa_schema self) OPERATION_ASSESSMENT_SCHEMA record;;
  validate_operation_id record (roa_operation_id self);;
  validate_subject true record (roa_subject self);;
  validate_absolute_path record (roa_destination self);;
  validate_lower_hex_integer record (roa_destination_parent_device self);;
  validate_lower_hex_integer record (roa_destination_parent_inode self);;
  each_result (validate_sha256 record)
    [roa_registry_sha256 self; roa_publisher_evidence_sha256 self; roa_structural_record_sha256 self;
     roa_policy_sha256 self; roa_policy_result_sha256 self];;
  validate_optional_sha256 record (roa_update_delta_sha256 self);;
  reject_if ((roa_action self == InstallAction) != negb (is_some (roa_update_delta_sha256 self)))
    (RiskInvalid record "action does not match update-delta nullability");;
  validate_enablement_context (roa_action self) (roa_enablement self) record;;
  validate_native_report_bindings record (roa_native_reports self);;
  validate_jcs_integer record (roa_issued_at_unix self);;
  validate_jcs_integer record (roa_expires_at_unix self);;
  reject_if
    ((roa_expires_at_unix self <=? roa_issued_at_unix self) ||
     (600 <? roa_expires_at_unix self - roa_issued_at_unix self))%N
    (RiskInvalid record "assessment validity is not within 1 through 600 seconds").
#[export] Instance validate_assessment `{!Unicode, !Semver} : ValidateRiskRecord OperationAssessment :=
  {| DESCRIPTION := "operation assessment"; validate := OperationAssessment_validate |}.

(** ** Canonical records *)

(** The scanner of [validate_json_depth] between two bytes *)
Record DepthScan := { ds_depth : N; ds_in_string : bool; ds_escaped : bool }.

Definition depth_step (record : string) (scan : DepthScan) (byte : byte) : RiskResult DepthScan :=
  let '{| ds_depth := depth; ds_in_string := in_string; ds_escaped := escaped |} := scan in
  if in_string then
    if escaped then Ok {| ds_depth := depth; ds_in_string := true; ds_escaped := false |}
    else if byte == x5c then Ok {| ds_depth := depth; ds_in_string := true; ds_escaped := true |}
    else if byte == x22 then Ok {| ds_depth := depth; ds_in_string := false; ds_escaped := escaped |}
    else Ok scan
  else match byte with
  | x22 => Ok {| ds_depth := depth; ds_in_string := true; ds_escaped := escaped |}
  | x7b | x5b =>
      reject_if (MAX_JSON_DEPTH <? depth + 1)%N (RiskInvalid record "JSON nesting exceeds the depth bound");;
      Ok {| ds_depth := depth + 1; ds_in_string := in_string; ds_escaped := escaped |}
  | x7d | x5d => Ok {| ds_depth := depth - 1; ds_in_string := in_string; ds_escaped := escaped |}
  | _ => Ok scan
  end.

Definition validate_json_depth (record : string) (bs : bytes) : RiskResult unit :=
  _ ← fold_result (depth_step record)
        {| ds_depth := 0; ds_in_string := false; ds_escaped := false |} bs;
  Ok tt.

(** [CappedCanonicalWriter] *)
Record CappedCanonicalWriter := { cw_bytes : bytes; cw_exceeded : bool }.

Definition capped_new : CappedCanonicalWriter := {| cw_bytes := []; cw_exceeded := false |}.

(** [write]: the writer afterwards, and whether the bytes were taken. *)
Definition capped_write (writer : CappedCanonicalWriter) (piece : bytes) : CappedCanonicalWriter * bool :=
  match checked_add_usize (len (cw_bytes writer)) (len piece) with
  | None => ({| cw_bytes := cw_bytes writer; cw_exceeded := true |}, false)
  | Some new_len =>
      if (MAX_RISK_RECORD_BYTES <? new_len)%N
      then ({| cw_bytes := cw_bytes writer; cw_exceeded := true |}, false)
      else ({| cw_bytes := cw_bytes writer ++ piece; cw_exceeded := cw_exceeded writer |}, true)
  end.

(** [to_writer] over a capped writer: a refused write ends it. *)
Fixpoint capped_writes (writer : CappedCanonicalWriter) (pieces : list bytes) :
    CappedCanonicalWriter * bool :=
  match pieces with
  | [] => (writer, true)
  | piece :: pieces' =>
      let '(writer, written) := capped_write writer piece in
      if written then capped_writes writer pieces' else (writer, false)
  end.

Definition canonical_record {T} `{!ValidateRiskRecord T, !JcsWriter T} (value : T) : RiskResult bytes :=
  validate value;;
  let '(pieces, failure) := jcs_to_writer value in
  let '(writer, written) := capped_writes capped_new pieces in
  reject_if (cw_exceeded writer) (RiskTooLarge DESCRIPTION MAX_RISK_RECORD_BYTES);;
  reject_if (negb written || is_some failure) (RiskCanonicalization DESCRIPTION);;
  Ok (cw_bytes writer).

Definition json_category_text (category : JsonCategory) : string :=
  match category with
  | JsonIo => "I/O" | JsonSyntax => "syntax" | JsonData => "data" | JsonEof => "end-of-input"
  end.

Definition parse_record {T} `{!ValidateRiskRecord T, !Serde T, !JcsWriter T} (bs : bytes) : RiskResult T :=
  reject_if (MAX_RISK_RECORD_BYTES <? len bs)%N (RiskTooLarge DESCRIPTION MAX_RISK_RECORD_BYTES);;
  validate_json_depth DESCRIPTION bs;;
  value ← map_err (λ error, RiskJson DESCRIPTION (json_category_text (je_category error))
                      (je_line error) (je_column error)) (of_sum (json_from_slice bs));
  validate value;;
  canonical ← canonical_record value;
  reject_if (canonical != bs) (RiskNonCanonical DESCRIPTION);;
  Ok value.

Definition hex_sha256 `{!Crates} (bs : bytes) : string := lower_hex (Sha256_digest bs).

Definition record_sha256 {T} `{!Crates, !ValidateRiskRecord T, !JcsWriter T} (value : T) : RiskResult string :=
  canonical ← canonical_record value;
  Ok (hex_sha256 canonical).

(** ** What the evidence gives *)

Definition policy_reason (code : PolicyReasonCode) (disposition : PolicyDisposition)
    (provider_id : option string) : PolicyReason :=
  {| rpr_code := code; rpr_disposition := disposition; rpr_provider_id := provider_id |}.

Definition provider_status_reason (status : AnalysisIntegrationStatus) (policy : ProviderHandlingPolicy) :
    option (PolicyReasonCode * PolicyDisposition) :=
  match status with
  | AnalysisComplete => None
  | AnalysisIncomplete => Some (ProviderIncomplete, rph_incomplete policy)
  | AnalysisError => Some (ProviderError, rph_error policy)
  | AnalysisUnsupported => Some (ProviderUnsupported, rph_unsupported policy)
  | AnalysisNotRun => Some (ProviderNotRun, rph_not_run policy)
  end.

Definition require_digest (actual expected record : string) : RiskResult unit :=
  if actual == expected then Ok tt
  else invalid record "record digest binding does not match canonical bytes".

Definition structural_file_state (file : StructuralFile) : FileState :=
  {| rfs_sha256 := rsf_sha256 file; rfs_mode := rsf_mode file |}.

(** [files.iter().map(|file| (path, file)).collect::<BTreeMap<_, _>>()] *)
Definition files_by_path (files : list StructuralFile) : list (string * StructuralFile) :=
  foldl (λ m file, bmap_insert (rsf_path file) file m) [] files.

(** The closure of [filter_map]: the change of one path, if any. *)
Definition path_delta (previous current : list (string * StructuralFile)) (path : string) :
    RiskResult (option FileDelta) :=
  match bmap_get path previous, bmap_get path current with
  | None, Some current =>
      Ok (Some {| rfd_path := path; rfd_change := Added; rfd_previous := None;
                  rfd_current := Some (structural_file_state current) |})
  | Some previous, None =>
      Ok (Some {| rfd_path := path; rfd_change := Removed;
                  rfd_previous := Some (structural_file_state previous); rfd_current := None |})
  | Some previous, Some current =>
      let delta change :=
        Ok (Some {| rfd_path := path; rfd_change := change;
                    rfd_previous := Some (structural_file_state previous);
                    rfd_current := Some (structural_file_state current) |}) in
      match rsf_sha256 previous != rsf_sha256 current, rsf_mode previous != rsf_mode current with
      | true, true => delta ContentAndModeChanged
      | true, false => delta ContentChanged
      | false, true => delta ModeChanged
      | false, false => Ok None
      end
  | None, None => Panic "path came from one of the maps"
  end.

Definition derive_file_deltas (previous current : StructuralRecord) : RiskResult (list FileDelta) :=
  let previous := files_by_path (rst_files previous) in
  let current := files_by_path (rst_files current) in
  let paths := bset_of_list (previous.*1 ++ current.*1) in
  deltas ← collect_result (path_delta previous current) paths;
  Ok (omap (λ delta : option FileDelta, delta) (deltas : list (option FileDelta))).

Definition derive_publisher_continuity (previous current : PublisherEvidenceRecord) :
    PublisherContinuityDelta :=
  match rpe_local_persona_id previous, rpe_local_persona_id current with
  | Some previous_id, Some current_id =>
      if previous_id != current_id then DeltaMismatched
      else match rpe_continuity previous, rpe_continuity current with
      | ContinuityVerified, ContinuityVerified =>
          if is_some (rpe_local_persona_root_sha256 previous) &&
             (rpe_local_persona_root_sha256 previous == rpe_local_persona_root_sha256 current)
          then DeltaMatched else DeltaMismatched
      | ContinuityInvalid, _ | _, ContinuityInvalid => DeltaMismatched
      | _, _ => DeltaNotChecked
      end
  | _, _ => DeltaNotChecked
  end.

(** ** Sets of records *)

Definition binding_of (provider_id : string) (bindings : list NativeReportBinding) :
    option NativeReportBinding :=
  find (λ binding, rnb_provider_id binding == provider_id) bindings.

Definition RECORD : string := "risk record set".

Section sets.
Context {crates : Crates} {unicode : Unicode} {semver : Semver}
  {write_publisher : JcsWriter PublisherEvidenceRecord} {write_structural : JcsWriter StructuralRecord}
  {write_delta : JcsWriter UpdateDeltaRecord} {write_policy : JcsWriter LocalPolicyRecord}
  {write_result : JcsWriter PolicyResultRecord}.

Implicit Type records : RiskRecordSet.

(** The validators of all records, in the order they run. *)
Definition validate_each_record records : RiskResult unit :=
  validate (publisher records);;
  validate (structural records);;
  validate (policy records);;
  validate (policy_result records);;
  validate (assessment records);;
  check_some validate (previous_publisher records);;
  check_some validate (previous_structural records);;
  check_some validate (update_delta records);;
  validate_native_report_bindings RECORD (previous_native_reports records).

(** [require_digest(actual, digest(record)?, RECORD)?] *)
Definition require_bound {T} `{!ValidateRiskRecord T, !JcsWriter T} (actual : string) (value : T) :
    RiskResult unit :=
  expected ← record_sha256 value;
  require_digest actual expected RECORD.

Definition validate_current_bindings records : RiskResult unit :=
  let subject := rpe_subject (publisher records) in
  let result := policy_result records in
  let assessed := assessment records in
  reject_if ((rst_subject (structural records) != subject) || (rrs_subject result != subject) ||
             (roa_subject assessed != subject))
    (RiskInvalid RECORD "current subjects differ across records");;
  reject_if ((rrs_operation_id result != roa_operation_id assessed) ||
             (rrs_action result != roa_action assessed))
    (RiskInvalid RECORD "policy result and assessment operation bindings differ");;
  reject_if (rrs_enablement result != roa_enablement assessed)
    (RiskInvalid RECORD "policy result and assessment enablement contexts differ");;
  reject_if (rrs_native_reports result != roa_native_reports assessed)
    (RiskInvalid RECORD "policy result and assessment native-report bindings differ");;
  require_bound (rrs_publisher_evidence_sha256 result) (publisher records);;
  require_bound (roa_publisher_evidence_sha256 assessed) (publisher records);;
  require_bound (rrs_structural_record_sha256 result) (structural records);;
  require_bound (roa_structural_record_sha256 assessed) (structural records);;
  require_bound (rrs_policy_sha256 result) (policy records);;
  require_bound (roa_policy_sha256 assessed) (policy records);;
  require_bound (roa_policy_result_sha256 assessed) result.

(** One round of the loop over the provider deltas. *)
Definition validate_provider_binding records (provider : ProviderDelta) : RiskResult unit :=
  let previous := binding_of (rpd_provider_id provider) (previous_native_reports records) in
  reject_if (rpd_previous_native_report_sha256 provider != (previous ≫= rnb_native_report_sha256))
    (RiskInvalid RECORD "update provider binding does not match the previous native report");;
  let current := binding_of (rpd_provider_id provider) (rrs_native_reports (policy_result records)) in
  reject_if (rpd_current_native_report_sha256 provider != (current ≫= rnb_native_report_sha256))
    (RiskInvalid RECORD "update provider binding does not match the current native report");;
  reject_if (negb (is_some previous) && negb (is_some current))
    (RiskInvalid RECORD "update delta contains a ghost provider").

(** A native report whose provider the delta does not list. *)
Definition unlisted_report (delta : UpdateDeltaRecord) (bindings : list NativeReportBinding) : bool :=
  existsb (λ binding,
    negb (existsb (λ provider, rpd_provider_id provider == rnb_provider_id binding)
            (rud_providers delta))) bindings.

Definition validate_update_bindings records (previous_publisher : PublisherEvidenceRecord)
    (previous_structural : StructuralRecord) (delta : UpdateDeltaRecord) : RiskResult unit :=
  reject_if ((rud_subject delta != rpe_subject (publisher records)) ||
             (rud_previous_subject delta != rpe_subject previous_publisher) ||
             (rud_previous_subject delta != rst_subject previous_structural))
    (RiskInvalid RECORD "update-delta subjects differ from evidence records");;
  require_bound (rud_previous_publisher_evidence_sha256 delta) previous_publisher;;
  require_bound (rud_publisher_evidence_sha256 delta) (publisher records);;
  require_bound (rud_previous_structural_record_sha256 delta) previous_structural;;
  require_bound (rud_structural_record_sha256 delta) (structural records);;
  files ← derive_file_deltas previous_structural (structural records);
  reject_if (rud_files delta != files)
    (RiskInvalid RECORD "file deltas do not match old and new structural facts");;
  reject_if (rud_publisher_continuity delta !=
             derive_publisher_continuity previous_publisher (publisher records))
    (RiskInvalid RECORD "publisher continuity does not match old and new publisher evidence");;
  delta_sha256 ← record_sha256 delta;
  reject_if ((rrs_update_delta_sha256 (policy_result records) != Some delta_sha256) ||
             (roa_update_delta_sha256 (assessment records) != Some delta_sha256))
    (RiskInvalid RECORD "update-delta digest differs across operation records");;
  each_result (validate_provider_binding records) (rud_providers delta);;
  reject_if (unlisted_report delta (previous_native_reports records))
    (RiskInvalid RECORD "previous native report is absent from update delta");;
  reject_if (unlisted_report delta (rrs_native_reports (policy_result records)))
    (RiskInvalid RECORD "current native report is absent from update delta").

Definition validate_action_bindings records : RiskResult unit :=
  match roa_action (assessment records), previous_publisher records, previous_structural records,
        update_delta records with
  | InstallAction, None, None, None =>
      reject_if (previous_native_reports records != [])
        (RiskInvalid RECORD "install operation carries prior native reports");;
      reject_if (is_some (rrs_update_delta_sha256 (policy_result records)) ||
                 is_some (roa_update_delta_sha256 (assessment records)))
        (RiskInvalid RECORD "install operation carries an update delta")
  | UpdateAction, Some previous_publisher, Some previous_structural, Some delta =>
      validate_update_bindings records previous_publisher previous_structural delta
  | _, _, _, _ => invalid RECORD "action does not match prior-record and delta presence"
  end.

(** [if condition { expected_reasons.insert(..); }] *)
Definition insert_if (condition : bool) (reason : PolicyReason) (s : list PolicyReason) :
    list PolicyReason :=
  if condition then reason_insert reason s else s.

Definition missing_provider_step (records : RiskRecordSet) (s : list PolicyReason)
    (provider_id : string) : list PolicyReason :=
  insert_if
    (negb (existsb (λ binding, rnb_provider_id binding == provider_id)
             (rrs_native_reports (policy_result records))))
    (policy_reason MissingRequiredProvider
       (rph_missing_required (rlp_provider_handling (policy records))) (Some provider_id)) s.

Definition provider_status_step (records : RiskRecordSet) (s : list PolicyReason)
    (binding : NativeReportBinding) : list PolicyReason :=
  match provider_status_reason (rnb_integration_status binding)
          (rlp_provider_handling (policy records)) with
  | Some (code, disposition) =>
      reason_insert (policy_reason code disposition (Some (rnb_provider_id binding))) s
  | None => s
  end.

Definition update_reasons records (delta : UpdateDeltaRecord) (s : list PolicyReason) :
    list PolicyReason :=
  let s := insert_if (rud_publisher_continuity delta != DeltaMatched)
             (policy_reason PublisherContinuityNotMatched Block None) s in
  let s := insert_if (rud_plugin_id delta != IdUnchanged)
             (policy_reason PluginIdChanged Block None) s in
  let s := insert_if (rud_version delta != Upgrade)
             (policy_reason VersionNotUpgrade Block None) s in
  foldl (λ s provider,
    reason_insert (policy_reason IndeterminateComparison
      (ruh_indeterminate_comparison (rlp_update_handling (policy records)))
      (Some (rpd_provider_id provider))) s) s (rud_providers delta).

Definition expected_reasons records : list PolicyReason :=
  let s := reason_insert (policy_reason InteractiveApprovalRequired RequireConsent None) [] in
  let s := insert_if (rpe_installation_authority (publisher records) != Authorized)
             (policy_reason PublisherNotAuthorized Block None) s in
  let s := insert_if (rst_omarchy_manifest_validation (structural records) != ValidatorPassed)
             (policy_reason ManifestValidatorNotPassed Block None) s in
  let s := foldl (missing_provider_step records) s (rlp_required_provider_ids (policy records)) in
  let s := foldl (provider_status_step records) s (rrs_native_reports (policy_result records)) in
  match update_delta records with
  | Some delta => update_reasons records delta s
  | None => s
  end.

Definition validate_risk_record_set_shape_and_bindings records : RiskResult unit :=
  validate_each_record records;;
  validate_current_bindings records;;
  validate_action_bindings records;;
  reject_if (reasons_of_list (rrs_reasons (policy_result records)) != expected_reasons records)
    (RiskInvalid RECORD "policy reasons do not deterministically match bound evidence").

End sets.
