(* ===== verification/RiskFacts.v ===== *)
(** * The risk records are derived from the evidence

    What an accepted set of risk records says: the decision of its policy
    result is the one that the bound evidence and the local policy give
    ([decision_follows_evidence]); the file deltas of an update are exactly the
    differences of the two structural records ([file_deltas_are_exact]); the
    digest of an assessment fixes the records it was made from
    ([assessment_commits_to_evidence]); and no input makes the code panic
    ([risk_records_never_panic]). *)

From stdpp Require Import base numbers list strings sorting option gmap.
From Stdlib Require Import Strings.Byte Ascii.
From S2P Require Import Prelude Text Ordered Display Crates ArtifactProof Continuity ContinuityFacts Names Package ShellReference Risk.

(** ** Sets of reasons *)

Lemma then_compare_Eq a b : then_compare a b = Eq ↔ a = Eq ∧ b = Eq.
Proof. destruct a; cbn; naive_solver. Qed.

Lemma code_rank_inj a b : code_rank a = code_rank b → a = b.
Proof. by destruct a, b. Qed.

Lemma disposition_rank_inj a b : disposition_rank a = disposition_rank b → a = b.
Proof. by destruct a, b. Qed.

Lemma provider_compare_Eq a b : provider_compare a b = Eq → a = b.
Proof. destruct a, b; cbn; try done. by intros ->%str_compare_eq. Qed.

Lemma reason_compare_Eq a b : reason_compare a b = Eq → a = b.
Proof.
  unfold reason_compare. rewrite !then_compare_Eq, !N.compare_eq_iff.
  intros (Hc%code_rank_inj & Hd%disposition_rank_inj & Hp%provider_compare_Eq).
  destruct a, b; cbn in *; congruence.
Qed.

Lemma reason_insert_elem x y s : y ∈ reason_insert x s ↔ y = x ∨ y ∈ s.
Proof.
  induction s as [|z s IH]; cbn; [set_solver|].
  destruct (reason_compare x z) eqn:Hc; [|set_solver..].
  apply reason_compare_Eq in Hc as ->. set_solver.
Qed.

Lemma insert_if_elem b x y s : y ∈ insert_if b x s ↔ (b = true ∧ y = x) ∨ y ∈ s.
Proof. destruct b; cbn; [rewrite reason_insert_elem|]; naive_solver. Qed.

(** A loop that only inserts: what [P] says each round adds. *)
Lemma fold_insert_elem {A} (step : list PolicyReason → A → list PolicyReason)
    (P : A → Prop) l s y :
  (∀ s a, y ∈ step s a ↔ P a ∨ y ∈ s) →
  y ∈ foldl step s l ↔ (∃ a, a ∈ l ∧ P a) ∨ y ∈ s.
Proof.
  intros Hstep. revert s. induction l as [|a l IH]; intros s; cbn; [set_solver|].
  rewrite IH, Hstep. set_solver.
Qed.

Lemma reasons_of_list_elem l y : y ∈ reasons_of_list l ↔ y ∈ l.
Proof.
  unfold reasons_of_list. rewrite (fold_insert_elem _ (λ a, y = a)).
  - set_solver.
  - intros s a. apply reason_insert_elem.
Qed.

Lemma decision_of_Block reasons :
  decision_of reasons = Block ↔ ∃ reason, reason ∈ reasons ∧ rpr_disposition reason = Block.
Proof.
  unfold decision_of. destruct (existsb _ reasons) eqn:He.
  - split; [|done]. intros _. apply existsb_exists in He as (r & Hr & Hb).
    apply bool_decide_eq_true in Hb. exists r. split; [by apply list_elem_of_In|done].
  - split; [done|]. intros (r & Hr & Hb). exfalso.
    assert (existsb (λ reason, rpr_disposition reason == Block) reasons = true) as Ht; [|congruence].
    apply existsb_exists. exists r. split; [by apply list_elem_of_In|by apply bool_decide_eq_true].
Qed.

(** ** The decision *)

(** A publisher whose evidence authorises an installation. *)
Definition evidence_authorizes (p : PublisherEvidenceRecord) : Prop :=
  rpe_registry_status p = RegistryActive ∧ rpe_key_status p = Some RiskKeyActive ∧
  rpe_signed_label_agreement p = Some true ∧
  (rpe_continuity p = ContinuityVerified ∨ rpe_continuity p = ContinuityNotManaged).

(** Two releases of one persona, both with a verified history from one root. *)
Definition same_publisher (p q : PublisherEvidenceRecord) : Prop :=
  ∃ id root,
    rpe_local_persona_id p = Some id ∧ rpe_local_persona_id q = Some id ∧
    rpe_continuity p = ContinuityVerified ∧ rpe_continuity q = ContinuityVerified ∧
    rpe_local_persona_root_sha256 p = Some root ∧ rpe_local_persona_root_sha256 q = Some root.

(** The states of a report that a policy blocks on: an unfinished report, a
    failed one, one the provider does not support and one that was not run,
    each with the entry of the policy that is about it. *)
Inductive status_blocks (handling : ProviderHandlingPolicy) : AnalysisIntegrationStatus → Prop :=
| incomplete_blocks : rph_incomplete handling = Block → status_blocks handling AnalysisIncomplete
| error_blocks : rph_error handling = Block → status_blocks handling AnalysisError
| unsupported_blocks : rph_unsupported handling = Block → status_blocks handling AnalysisUnsupported
| not_run_blocks : rph_not_run handling = Block → status_blocks handling AnalysisNotRun.

(** The evidence and the policy that block an operation, without the derived
    parts of the records. *)
Inductive blocks `{!Semver} (records : RiskRecordSet) : Prop :=
| blocks_publisher :
    ¬ evidence_authorizes (publisher records) → blocks records
| blocks_manifest :
    rst_omarchy_manifest_validation (structural records) ≠ ValidatorPassed → blocks records
| blocks_missing provider :
    provider ∈ rlp_required_provider_ids (policy records) →
    provider ∉ rnb_provider_id <$> roa_native_reports (assessment records) →
    rph_missing_required (rlp_provider_handling (policy records)) = Block → blocks records
| blocks_status binding :
    binding ∈ roa_native_reports (assessment records) →
    status_blocks (rlp_provider_handling (policy records)) (rnb_integration_status binding) →
    blocks records
| blocks_continuity previous :
    previous_publisher records = Some previous →
    ¬ same_publisher previous (publisher records) → blocks records
| blocks_plugin_id previous :
    previous_publisher records = Some previous →
    rsu_plugin_id (rpe_subject previous) ≠ rsu_plugin_id (rpe_subject (publisher records)) →
    blocks records
| blocks_version previous old new v w :
    previous_publisher records = Some previous →
    rsu_plugin_version (rpe_subject previous) = Some old → Version_parse old = inr v →
    rsu_plugin_version (rpe_subject (publisher records)) = Some new → Version_parse new = inr w →
    Version_compare w v ≠ Gt → blocks records
| blocks_comparison binding :
    is_Some (previous_publisher records) →
    binding ∈ previous_native_reports records ++ roa_native_reports (assessment records) →
    ruh_indeterminate_comparison (rlp_update_handling (policy records)) = Block → blocks records.

Lemma is_some_spec {A} (o : option A) : is_some o = true ↔ is_Some o.
Proof. unfold is_Some. destruct o; cbn; naive_solver. Qed.

Lemma publisher_authorized_spec p : publisher_authorized p = true ↔ evidence_authorizes p.
Proof.
  unfold publisher_authorized, evidence_authorizes. rewrite !andb_true_iff, !bool_decide_eq_true.
  destruct (rpe_continuity p); naive_solver.
Qed.

Lemma derive_publisher_continuity_spec p q :
  derive_publisher_continuity p q = DeltaMatched ↔ same_publisher p q.
Proof.
  unfold derive_publisher_continuity, same_publisher. split.
  - destruct (rpe_local_persona_id p) as [i|], (rpe_local_persona_id q) as [j|]; try done.
    case_bool_decide; cbn; [|done]. subst j.
    destruct (rpe_continuity p), (rpe_continuity q); try done.
    destruct (rpe_local_persona_root_sha256 p) as [r|]; cbn; [|done].
    case_bool_decide as Hr; [|done]. intros _. exists i, r. by rewrite <- Hr.
  - intros (i & r & -> & -> & -> & -> & -> & ->). by rewrite !bool_decide_eq_true_2.
Qed.

Section accepted.
Context {crates : Crates} {unicode : Unicode} {semver : Semver}
  {write_publisher : JcsWriter PublisherEvidenceRecord} {write_structural : JcsWriter StructuralRecord}
  {write_delta : JcsWriter UpdateDeltaRecord} {write_policy : JcsWriter LocalPolicyRecord}
  {write_result : JcsWriter PolicyResultRecord}.

Lemma validated_authority p :
  PublisherEvidenceRecord_validate p = Ok tt →
  rpe_installation_authority p = Authorized ↔ evidence_authorizes p.
Proof.
  intros H. unfold PublisherEvidenceRecord_validate in H. rewrite !seq_Ok in H. destruct_and?.
  match goal with H : reject_if (publisher_authorized p != _) _ = _ |- _ => rename H into Ha end.
  rewrite reject_if_Ok, negb_false_iff, bool_decide_eq_true in Ha.
  rewrite <- publisher_authorized_spec, Ha, bool_decide_eq_true. done.
Qed.

Lemma validated_delta d :
  UpdateDeltaRecord_validate d = Ok tt →
  (rud_plugin_id d = IdUnchanged ↔
    rsu_plugin_id (rud_previous_subject d) = rsu_plugin_id (rud_subject d)) ∧
  ∃ old new v w,
    rsu_plugin_version (rud_previous_subject d) = Some old ∧ Version_parse old = inr v ∧
    rsu_plugin_version (rud_subject d) = Some new ∧ Version_parse new = inr w ∧
    (rud_version d = Upgrade ↔ Version_compare w v = Gt).
Proof.
  intros H. unfold UpdateDeltaRecord_validate in H. rewrite !seq_Ok in H. destruct H as (_ & _ & _ & _ & Hid & H).
  split.
  { clear H. rewrite reject_if_Ok, negb_false_iff, bool_decide_eq_true in Hid. rewrite Hid.
    case_bool_decide; by split. }
  unbind H as v Hv. unbind H as w Hw. rewrite !seq_Ok in H. destruct H as (Hver & _).
  unfold subject_version in Hv, Hw. unbind Hv as old Hold. unbind Hw as new Hnew.
  rewrite expect_Ok in Hold, Hnew.
  exists old, new, v, w. destruct (Version_parse old), (Version_parse new); simplify_eq.
  split_and!; [done..|]. rewrite reject_if_Ok, negb_false_iff, bool_decide_eq_true in Hver.
  rewrite Hver. by destruct (Version_compare _ _).
Qed.

Lemma validated_decision r :
  PolicyResultRecord_validate r = Ok tt → rrs_decision r = decision_of (rrs_reasons r).
Proof.
  intros H. unfold PolicyResultRecord_validate in H. rewrite !seq_Ok in H. destruct_and?.
  match goal with H : reject_if (_ != decision_of _) _ = _ |- _ => rename H into Hd end.
  by rewrite reject_if_Ok, negb_false_iff, bool_decide_eq_true in Hd.
Qed.

(** What each loop adds to the expected reasons. *)
Lemma missing_provider_step_elem records s provider y :
  y ∈ missing_provider_step records s provider ↔
  (provider ∉ rnb_provider_id <$> rrs_native_reports (policy_result records) ∧
   y = policy_reason MissingRequiredProvider
         (rph_missing_required (rlp_provider_handling (policy records))) (Some provider)) ∨ y ∈ s.
Proof.
  unfold missing_provider_step. rewrite insert_if_elem, negb_true_iff.
  assert (existsb (λ binding, rnb_provider_id binding == provider)
            (rrs_native_reports (policy_result records)) = false ↔
          provider ∉ rnb_provider_id <$> rrs_native_reports (policy_result records)) as ->; [|done].
  rewrite <- not_true_iff_false, existsb_exists, list_elem_of_fmap.
  setoid_rewrite <- list_elem_of_In. setoid_rewrite bool_decide_eq_true. naive_solver.
Qed.

Lemma provider_status_step_elem records s binding y :
  y ∈ provider_status_step records s binding ↔
  (∃ code disposition,
     provider_status_reason (rnb_integration_status binding)
       (rlp_provider_handling (policy records)) = Some (code, disposition) ∧
     y = policy_reason code disposition (Some (rnb_provider_id binding))) ∨ y ∈ s.
Proof.
  unfold provider_status_step. destruct (provider_status_reason _ _) as [[code disposition]|];
    [rewrite reason_insert_elem|]; naive_solver.
Qed.

Lemma update_reasons_elem records delta s y :
  y ∈ update_reasons records delta s ↔
  (rud_publisher_continuity delta ≠ DeltaMatched ∧
   y = policy_reason PublisherContinuityNotMatched Block None) ∨
  (rud_plugin_id delta ≠ IdUnchanged ∧ y = policy_reason PluginIdChanged Block None) ∨
  (rud_version delta ≠ Upgrade ∧ y = policy_reason VersionNotUpgrade Block None) ∨
  (∃ provider, provider ∈ rud_providers delta ∧
     y = policy_reason IndeterminateComparison
           (ruh_indeterminate_comparison (rlp_update_handling (policy records)))
           (Some (rpd_provider_id provider))) ∨ y ∈ s.
Proof.
  unfold update_reasons.
  rewrite (fold_insert_elem _ (λ provider, y = policy_reason IndeterminateComparison
      (ruh_indeterminate_comparison (rlp_update_handling (policy records)))
      (Some (rpd_provider_id provider)))) by (intros; apply reason_insert_elem).
  rewrite !insert_if_elem, !negb_true_iff, !bool_decide_eq_false. tauto.
Qed.

Lemma expected_reasons_elem records y :
  y ∈ expected_reasons records ↔
  (∃ delta, update_delta records = Some delta ∧ y ∈ update_reasons records delta []) ∨
  (∃ binding, binding ∈ rrs_native_reports (policy_result records) ∧
     ∃ code disposition,
       provider_status_reason (rnb_integration_status binding)
         (rlp_provider_handling (policy records)) = Some (code, disposition) ∧
       y = policy_reason code disposition (Some (rnb_provider_id binding))) ∨
  (∃ provider, provider ∈ rlp_required_provider_ids (policy records) ∧
     provider ∉ rnb_provider_id <$> rrs_native_reports (policy_result records) ∧
     y = policy_reason MissingRequiredProvider
           (rph_missing_required (rlp_provider_handling (policy records))) (Some provider)) ∨
  (rst_omarchy_manifest_validation (structural records) ≠ ValidatorPassed ∧
   y = policy_reason ManifestValidatorNotPassed Block None) ∨
  (rpe_installation_authority (publisher records) ≠ Authorized ∧
   y = policy_reason PublisherNotAuthorized Block None) ∨
  y = policy_reason InteractiveApprovalRequired RequireConsent None.
Proof.
  assert (∀ s, y ∈ match update_delta records with
                   | Some delta => update_reasons records delta s | None => s end ↔
               (∃ delta, update_delta records = Some delta ∧ y ∈ update_reasons records delta []) ∨ y ∈ s)
    as Hupdate.
  { intros s. destruct (update_delta records) as [delta|]; [|naive_solver].
    rewrite update_reasons_elem. setoid_rewrite update_reasons_elem.
    setoid_rewrite elem_of_nil. split.
    - intros Hy. destruct (decide (y ∈ s)); [by right|]. left. exists delta. tauto.
    - intros [(delta' & [= <-] & Hy)|Hy]; tauto. }
  unfold expected_reasons. rewrite Hupdate.
  rewrite (fold_insert_elem _ _ _ _ _ (λ s b, provider_status_step_elem records s b y)).
  rewrite (fold_insert_elem _ _ _ _ _ (λ s p, missing_provider_step_elem records s p y)).
  rewrite !insert_if_elem, reason_insert_elem, !negb_true_iff, !bool_decide_eq_false, elem_of_nil.
  tauto.
Qed.

Lemma provider_status_blocks handling status :
  status_blocks handling status ↔ ∃ code, provider_status_reason status handling = Some (code, Block).
Proof.
  split; [destruct 1 as [H|H|H|H]; cbn; rewrite H; eauto|].
  intros [code H]. destruct status; [done|..]; injection H as _ H; by constructor.
Qed.

(** The blocking reasons among the expected ones, in terms of the records. *)
Definition blocking_condition (records : RiskRecordSet) : Prop :=
  rpe_installation_authority (publisher records) ≠ Authorized ∨
  rst_omarchy_manifest_validation (structural records) ≠ ValidatorPassed ∨
  (∃ provider, provider ∈ rlp_required_provider_ids (policy records) ∧
     provider ∉ rnb_provider_id <$> rrs_native_reports (policy_result records) ∧
     rph_missing_required (rlp_provider_handling (policy records)) = Block) ∨
  (∃ binding, binding ∈ rrs_native_reports (policy_result records) ∧
     status_blocks (rlp_provider_handling (policy records)) (rnb_integration_status binding)) ∨
  (∃ delta, update_delta records = Some delta ∧
     (rud_publisher_continuity delta ≠ DeltaMatched ∨ rud_plugin_id delta ≠ IdUnchanged ∨
      rud_version delta ≠ Upgrade ∨
      (rud_providers delta ≠ [] ∧
       ruh_indeterminate_comparison (rlp_update_handling (policy records)) = Block))).

Lemma expected_block records :
  (∃ reason, reason ∈ expected_reasons records ∧ rpr_disposition reason = Block) ↔
  blocking_condition records.
Proof.
  setoid_rewrite expected_reasons_elem. setoid_rewrite update_reasons_elem. setoid_rewrite elem_of_nil.
  unfold blocking_condition. split.
  - intros (y & [(delta & Hd & Hy)|[(b & Hb & code & d & Hr & ->)|[(p & Hp & Hn & ->)|[[H ->]|[[H ->]| ->]]]]]
      & Hblock); cbn in Hblock; subst.
    + do 4 right. exists delta. split; [done|].
      destruct Hy as [[? _]|[[? _]|[[? _]|[(p & Hp & ->)|[]]]]]; [tauto..|].
      do 3 right. split; [|done]. intros Hnil. rewrite Hnil in Hp. by apply elem_of_nil in Hp.
    + do 3 right. left. exists b. split; [done|]. apply provider_status_blocks. eauto.
    + do 2 right. left. by exists p.
    + tauto.
    + tauto.
    + done.
  - intros [H|[H|[(p & Hp & Hn & Hm)|[(b & Hb & Hs)|(delta & Hd & H)]]]].
    + exists (policy_reason PublisherNotAuthorized Block None). split; [tauto|done].
    + exists (policy_reason ManifestValidatorNotPassed Block None). split; [tauto|done].
    + exists (policy_reason MissingRequiredProvider Block (Some p)).
      split; [|done]. do 2 right. left. exists p. by rewrite Hm.
    + apply provider_status_blocks in Hs as [code Hr]. exists (policy_reason code Block (Some (rnb_provider_id b))).
      split; [|done]. right. left. exists b. naive_solver.
    + destruct H as [H|[H|[H|[H Hi]]]].
      * exists (policy_reason PublisherContinuityNotMatched Block None). split; [naive_solver|done].
      * exists (policy_reason PluginIdChanged Block None). split; [naive_solver|done].
      * exists (policy_reason VersionNotUpgrade Block None). split; [naive_solver|done].
      * destruct (rud_providers delta) as [|p l] eqn:Hp; [done|].
        exists (policy_reason IndeterminateComparison Block (Some (rpd_provider_id p))).
        split; [|done]. left. exists delta. split; [done|]. do 3 right. left. exists p.
        rewrite Hp, Hi. split; [left|done].
Qed.

(** The bindings of an accepted set that the decision rests on. *)
Record bound_set (records : RiskRecordSet) : Prop := {
  bs_authority : rpe_installation_authority (publisher records) = Authorized ↔
    evidence_authorizes (publisher records);
  bs_reports : rrs_native_reports (policy_result records) = roa_native_reports (assessment records);
  bs_decision : rrs_decision (policy_result records) = decision_of (rrs_reasons (policy_result records));
  bs_reasons : ∀ y, y ∈ rrs_reasons (policy_result records) ↔ y ∈ expected_reasons records;
  bs_previous : update_delta records = None ↔ previous_publisher records = None;
}.

(** What is known of the delta of an accepted update. *)
Record bound_delta (records : RiskRecordSet) (delta : UpdateDeltaRecord)
    (previous : PublisherEvidenceRecord) : Prop := {
  bd_delta : UpdateDeltaRecord_validate delta = Ok tt;
  bd_subject : rud_subject delta = rpe_subject (publisher records);
  bd_previous_subject : rud_previous_subject delta = rpe_subject previous;
  bd_continuity : rud_publisher_continuity delta =
    derive_publisher_continuity previous (publisher records);
  bd_providers : rud_providers delta ≠ [] ↔
    ∃ binding, binding ∈ previous_native_reports records ++ rrs_native_reports (policy_result records);
}.

Lemma binding_of_Some id bindings b : binding_of id bindings = Some b → b ∈ bindings.
Proof. intros [H _]%find_some. by apply list_elem_of_In. Qed.

Lemma unlisted_report_nil delta bindings :
  unlisted_report delta bindings = false → rud_providers delta = [] → bindings = [].
Proof. unfold unlisted_report. intros H Hn. rewrite Hn in H. by destruct bindings. Qed.

Lemma validate_update_bindings_inv records previous structure delta :
  UpdateDeltaRecord_validate delta = Ok tt →
  validate_update_bindings records previous structure delta = Ok tt →
  bound_delta records delta previous.
Proof.
  intros Hd H. unfold validate_update_bindings in H. rewrite !seq_Ok in H.
  destruct H as (Hs & _ & _ & _ & _ & H). unbind H as files Hf. rewrite !seq_Ok in H.
  destruct H as (_ & Hc & H). unbind H as digest Hdigest. rewrite !seq_Ok in H.
  destruct H as (_ & Hp & Hold & Hnew). oks Hs. oks Hc.
  rewrite reject_if_Ok in Hold, Hnew. rewrite each_result_Ok in Hp.
  split; [done..|]. split.
  - intros Hne. destruct (rud_providers delta) as [|p l]; [done|].
    apply Forall_cons_iff in Hp as [Hp _]. unfold validate_provider_binding in Hp.
    rewrite !seq_Ok in Hp. destruct Hp as (_ & _ & Hp). rewrite reject_if_Ok in Hp.
    destruct (binding_of _ (previous_native_reports records)) as [b|] eqn:Hb1.
    { exists b. apply elem_of_app. left. by eapply binding_of_Some. }
    destruct (binding_of _ (rrs_native_reports _)) as [b|] eqn:Hb2; [|done].
    exists b. apply elem_of_app. right. by eapply binding_of_Some.
  - intros [b Hb] Hnil. rewrite (unlisted_report_nil _ _ Hold Hnil), (unlisted_report_nil _ _ Hnew Hnil) in Hb.
    by apply elem_of_nil in Hb.
Qed.

Definition bound_update (records : RiskRecordSet) : Prop :=
  match update_delta records, previous_publisher records with
  | Some delta, Some previous => bound_delta records delta previous
  | Some _, None => False
  | None, _ => True
  end.

Lemma validate_set_inv records :
  validate_risk_record_set_shape_and_bindings records = Ok tt →
  bound_set records ∧ bound_update records.
Proof.
  intros H. unfold bound_update. unfold validate_risk_record_set_shape_and_bindings in H. rewrite !seq_Ok in H.
  destruct H as (Heach & Hcur & Hact & Hreasons).
  unfold validate_each_record in Heach. rewrite !seq_Ok in Heach.
  destruct Heach as (Hpub & _ & _ & Hres & _ & _ & _ & Hdelta & _). cbn in Hpub, Hres, Hdelta.
  unfold validate_current_bindings in Hcur. rewrite !seq_Ok in Hcur.
  destruct Hcur as (_ & _ & _ & Hrep & _).
  rewrite reject_if_Ok, negb_false_iff, bool_decide_eq_true in Hrep, Hreasons.
  unfold validate_action_bindings in Hact.
  destruct (roa_action _), (previous_publisher records) as [pp|] eqn:Epp,
    (previous_structural records) as [ps|], (update_delta records) as [delta|] eqn:Ed; try done.
  all: split; [|try done; by eapply validate_update_bindings_inv].
  all: split; [by apply validated_authority|done|by apply validated_decision| |by rewrite ?Ed, ?Epp].
  all: intros y; by rewrite <- reasons_of_list_elem, Hreasons.
Qed.

Lemma blocking_condition_blocks records :
  bound_set records → bound_update records → blocking_condition records → blocks records.
Proof.
  intros Hset Hupdate. unfold bound_update in Hupdate. unfold blocking_condition. rewrite (bs_reports _ Hset).
  intros [H|[H|[(p & Hp & Hn & Hm)|[(b & Hb & Hs)|(delta & Hd & H)]]]].
  - apply blocks_publisher. by rewrite <- (bs_authority _ Hset).
  - by apply blocks_manifest.
  - by apply (blocks_missing _ p).
  - by apply (blocks_status _ b).
  - rewrite Hd in Hupdate. destruct (previous_publisher records) as [pp|] eqn:Hpp; [|done].
    destruct Hupdate as [Hv Hsub Hprev Hcont Hprov].
    apply validated_delta in Hv as (Hid & old & new & v & w & Hold & Hv & Hnew & Hw & Hup).
    rewrite Hsub in Hid, Hnew. rewrite Hprev in Hid, Hold.
    destruct H as [H|[H|[H|[H Hi]]]].
    + apply (blocks_continuity _ pp); [done|]. by rewrite <- derive_publisher_continuity_spec, <- Hcont.
    + apply (blocks_plugin_id _ pp); [done|]. by rewrite <- Hid.
    + apply (blocks_version _ pp old new v w); [done..|]. by rewrite <- Hup.
    + apply Hprov in H as [b Hb]. rewrite (bs_reports _ Hset) in Hb.
      apply (blocks_comparison _ b); [by eexists|done..].
Qed.

Lemma blocks_blocking_condition records :
  bound_set records → bound_update records → blocks records → blocking_condition records.
Proof.
  intros Hset Hupdate. unfold bound_update in Hupdate. unfold blocking_condition. rewrite (bs_reports _ Hset).
  assert (∀ pp, previous_publisher records = Some pp →
    ∃ delta, update_delta records = Some delta ∧ bound_delta records delta pp) as Hdelta.
  { intros pp Hpp. destruct (update_delta records) as [delta|] eqn:Hd.
    - rewrite Hpp in Hupdate. eauto.
    - pose proof (proj1 (bs_previous _ Hset) Hd). congruence. }
  intros [H|H|p Hp Hn Hm|b Hb Hs|pp Hpp H|pp Hpp H|pp old new v w Hpp Hold Hv Hnew Hw H|b [pp Hpp] Hb Hi].
  - left. by rewrite (bs_authority _ Hset).
  - by right; left.
  - do 2 right. left. eauto.
  - do 3 right. left. eauto.
  - destruct (Hdelta pp Hpp) as (delta & Hd & [? ? ? Hc ?]). do 4 right. exists delta.
    split; [done|]. left. by rewrite Hc, derive_publisher_continuity_spec.
  - destruct (Hdelta pp Hpp) as (delta & Hd & [[Hid _]%validated_delta Hsub Hprev ? ?]).
    do 4 right. exists delta. split; [done|]. right. left. by rewrite Hid, Hsub, Hprev.
  - destruct (Hdelta pp Hpp) as (delta & Hd & [Hval Hsub Hprev ? ?]).
    apply validated_delta in Hval as (_ & old' & new' & v' & w' & Hold' & Hv' & Hnew' & Hw' & Hup).
    do 4 right. exists delta. split; [done|]. do 2 right. left. rewrite Hup.
    rewrite Hprev in Hold'. rewrite Hsub in Hnew'. congruence.
  - destruct (Hdelta pp Hpp) as (delta & Hd & [? ? ? ? Hprov]). do 4 right. exists delta.
    split; [done|]. do 3 right. split; [|done]. apply Hprov. rewrite (bs_reports _ Hset). eauto.
Qed.

(** C19: the decision of an accepted set of risk records is the one its evidence
    and the local policy give. An operation is blocked exactly when the publisher
    is not an active one with an active key, a signed label that agrees and an
    intact history; or the manifest validator did not pass; or the policy blocks
    on a missing required provider, or has a report that is incomplete, in error,
    unsupported or not run and blocks on that state; or, for an
    update, when the two releases are not of one persona with one verified root,
    the plugin changes its identifier, the version does not rise, or the policy
    blocks on reports it cannot compare. In every other case it requires consent. *)
Theorem decision_follows_evidence records :
  validate_risk_record_set_shape_and_bindings records = Ok tt →
  rrs_decision (policy_result records) = Block ↔ blocks records.
Proof.
  intros Hok. apply validate_set_inv in Hok as [Hset Hupdate].
  rewrite (bs_decision _ Hset), decision_of_Block. setoid_rewrite (bs_reasons _ Hset).
  rewrite expected_block. split; [by apply blocking_condition_blocks|by apply blocks_blocking_condition].
Qed.

End accepted.

(** ** The file deltas *)

(** The states of the files of a record, by path. *)
Definition file_states (r : StructuralRecord) : gmap string FileState :=
  foldl (λ m file, <[rsf_path file := structural_file_state file]> m) ∅ (rst_files r).

(** What a delta does to the states. *)
Definition apply_delta (m : gmap string FileState) (delta : FileDelta) : gmap string FileState :=
  match rfd_current delta with
  | Some state => <[rfd_path delta := state]> m
  | None => delete (rfd_path delta) m
  end.

Lemma bmap_get_insert {V} k k' (v : V) m :
  bmap_get k (bmap_insert k' v m) = if bool_decide (k = k') then Some v else bmap_get k m.
Proof.
  induction m as [|[j w] m IH]; cbn; [done|].
  destruct (String.compare k' j) eqn:Hc; cbn; [|done|].
  - apply str_compare_eq in Hc as ->. by case_bool_decide.
  - rewrite IH. repeat case_bool_decide; try done. subst.
    by rewrite (proj2 (str_compare_eq j j) eq_refl) in Hc.
Qed.

Lemma files_by_path_lookup r k :
  structural_file_state <$> bmap_get k (files_by_path (rst_files r)) = file_states r !! k.
Proof.
  unfold files_by_path, file_states.
  assert (∀ (m : list (string * StructuralFile)) (g : gmap string FileState),
    (∀ k, structural_file_state <$> bmap_get k m = g !! k) →
    structural_file_state <$> bmap_get k (foldl (λ m file, bmap_insert (rsf_path file) file m) m (rst_files r)) =
    foldl (λ m file, <[rsf_path file := structural_file_state file]> m) g (rst_files r) !! k) as H.
  { induction (rst_files r) as [|f l IH]; intros m g Hm; cbn; [apply Hm|]. apply IH. intros j.
    rewrite bmap_get_insert. case_bool_decide as Hj.
    - subst j. by rewrite lookup_insert_eq.
    - by rewrite lookup_insert_ne. }
  apply H. intros j. by rewrite lookup_empty.
Qed.

Lemma structural_file_state_eq f g :
  structural_file_state f = structural_file_state g ↔ rsf_sha256 f = rsf_sha256 g ∧ rsf_mode f = rsf_mode g.
Proof. unfold structural_file_state. split; [by intros [= -> ->]|by intros [-> ->]]. Qed.

(** A delta that tells the change of its path. *)
Definition tells (previous current : StructuralRecord) (delta : FileDelta) : Prop :=
  rfd_previous delta = file_states previous !! rfd_path delta ∧
  rfd_current delta = file_states current !! rfd_path delta ∧
  rfd_previous delta ≠ rfd_current delta ∧ change_tag_agrees delta = true.

(** What the closure finds of a path. *)
Definition explains (previous current : StructuralRecord) (path : string) (change : option FileDelta) : Prop :=
  match change with
  | Some delta => rfd_path delta = path ∧ tells previous current delta
  | None => file_states previous !! path = file_states current !! path
  end.

Lemma path_delta_spec previous current path :
  is_Some (file_states previous !! path) ∨ is_Some (file_states current !! path) →
  ∃ change, path_delta (files_by_path (rst_files previous)) (files_by_path (rst_files current)) path =
      Ok change ∧ explains previous current path change.
Proof.
  unfold path_delta, explains, tells. rewrite <- !files_by_path_lookup.
  destruct (bmap_get path (files_by_path (rst_files previous))) as [f|] eqn:Hf,
    (bmap_get path (files_by_path (rst_files current))) as [g|] eqn:Hg; intros Hin; cbn.
  - pose proof (structural_file_state_eq f g) as Heq.
    repeat case_bool_decide; cbn; (eexists; split; [done|]); cbn;
      rewrite <- ?files_by_path_lookup, ?Hf, ?Hg; cbn; unfold change_tag_agrees; cbn;
      [f_equal; tauto|split_and!; [done..|intros [= ? ?]; tauto|by repeat case_bool_decide]..].
  - eexists; split; [done|]; cbn. rewrite <- !files_by_path_lookup, Hf, Hg. done.
  - eexists; split; [done|]; cbn. rewrite <- !files_by_path_lookup, Hf, Hg. done.
  - destruct Hin as [[? ?]|[? ?]]; done.
Qed.

Lemma files_by_path_keys r path : path ∈ (files_by_path (rst_files r)).*1 ↔ is_Some (file_states r !! path).
Proof.
  rewrite <- files_by_path_lookup, fmap_is_Some, <- not_eq_None_Some, bmap_get_None.
  destruct (decide (path ∈ (files_by_path (rst_files r)).*1)); tauto.
Qed.

Lemma explains_tells previous current paths changes :
  Forall2 (explains previous current) paths changes →
  Forall (tells previous current) (omap (λ delta : option FileDelta, delta) changes).
Proof.
  induction 1 as [|path [delta|] paths changes He H IH]; cbn; [constructor| |done].
  constructor; [apply He|done].
Qed.

Lemma explains_unchanged previous current paths changes path :
  Forall2 (explains previous current) paths changes → path ∈ paths →
  path ∉ rfd_path <$> omap (λ delta : option FileDelta, delta) changes →
  file_states previous !! path = file_states current !! path.
Proof.
  induction 1 as [|p [delta|] paths changes He H IH]; cbn; intros Hin Hout.
  - by apply elem_of_nil in Hin.
  - destruct He as [<- _]. apply not_elem_of_cons in Hout as [Hne Hout].
    apply elem_of_cons in Hin as [->|Hin]; [done|by apply IH].
  - apply elem_of_cons in Hin as [->|Hin]; [done|by apply IH].
Qed.

(** A loop of calls that all succeed. *)
Lemma collect_result_total {E A B} (f : A → result E B) (P : A → B → Prop) xs :
  (∀ x, x ∈ xs → ∃ y, f x = Ok y ∧ P x y) → ∃ ys, collect_result f xs = Ok ys ∧ Forall2 P xs ys.
Proof.
  induction xs as [|x xs IH]; intros H; [by eexists|].
  destruct (H x ltac:(left)) as (y & Hy & HP).
  destruct IH as (ys & Hys & HPs); [intros z Hz; apply H; by right|].
  exists (y :: ys). cbn. rewrite Hy, bind_Ok_l, Hys. split; [done|by constructor].
Qed.

(** The changes of a strictly sorted list of paths, those without one left out. *)
Lemma changes_sorted paths (changes : list (option FileDelta)) :
  strictly_sorted paths →
  Forall2 (λ path change, ∀ delta, change = Some delta → rfd_path delta = path) paths changes →
  strictly_sorted (rfd_path <$> omap (λ delta, delta) changes) ∧
  Forall (λ path, path ∈ paths) (rfd_path <$> omap (λ delta, delta) changes).
Proof.
  intros Hs Hc. induction Hc as [|path change paths changes Hpath Hc IH]; [by repeat constructor|].
  apply StronglySorted_cons in Hs as [Hlt Hs]. destruct (IH Hs) as [IHs IHin].
  assert (Forall (λ p, p ∈ path :: paths) (rfd_path <$> omap (λ delta, delta) changes)) as Hin.
  { eapply Forall_impl; [exact IHin|]. intros p Hp. by right. }
  destruct change as [delta|]; cbn; [|done]. rewrite (Hpath delta) by done. split.
  - apply StronglySorted_cons. split; [|done]. eapply Forall_impl; [exact IHin|]. intros p Hp.
    rewrite Forall_forall in Hlt. by apply Hlt.
  - constructor; [left|done].
Qed.

Lemma apply_deltas_lookup (final : gmap string FileState) deltas m k :
  Forall (λ delta, rfd_current delta = final !! rfd_path delta) deltas →
  foldl apply_delta m deltas !! k = if bool_decide (k ∈ rfd_path <$> deltas) then final !! k else m !! k.
Proof.
  intros H. revert m. induction H as [|delta deltas Hd H IH]; intros m; [done|].
  cbn [foldl fmap list_fmap]. rewrite IH. unfold apply_delta. rewrite Hd.
  destruct (decide (k ∈ rfd_path <$> deltas)) as [Hin|Hout].
  - rewrite !bool_decide_eq_true_2; [done| |done]. by right.
  - rewrite (bool_decide_eq_false_2 (k ∈ rfd_path <$> deltas)) by done.
    destruct (decide (k = rfd_path delta)) as [->|Hne].
    + rewrite bool_decide_eq_true_2 by left. destruct (final !! rfd_path delta);
        [apply lookup_insert_eq|apply lookup_delete_eq].
    + rewrite bool_decide_eq_false_2 by set_solver. destruct (final !! rfd_path delta);
        [by apply lookup_insert_ne|by apply lookup_delete_ne].
Qed.

(** The paths of both records. *)
Definition all_paths (previous current : StructuralRecord) : list string :=
  bset_of_list ((files_by_path (rst_files previous)).*1 ++ (files_by_path (rst_files current)).*1).

Lemma all_paths_elem previous current path :
  path ∈ all_paths previous current ↔
  is_Some (file_states previous !! path) ∨ is_Some (file_states current !! path).
Proof. unfold all_paths. by rewrite bset_of_list_elem, elem_of_app, !files_by_path_keys. Qed.

Lemma derive_file_deltas_total previous current :
  ∃ changes,
    derive_file_deltas previous current = Ok (omap (λ delta : option FileDelta, delta) changes) ∧
    Forall2 (explains previous current) (all_paths previous current) changes.
Proof.
  destruct (collect_result_total
    (path_delta (files_by_path (rst_files previous)) (files_by_path (rst_files current)))
    (explains previous current) (all_paths previous current)) as (changes & Hchanges & Hall).
  - intros path Hin. by apply path_delta_spec, all_paths_elem.
  - exists changes. split; [|done]. unfold all_paths in Hchanges. unfold derive_file_deltas.
    by rewrite Hchanges.
Qed.

(** C21: the file deltas of an update are exactly the differences of the two
    structural records. They are always found, without a panic, one for each path
    in the order of the paths; each tells the state of its path before and after,
    which differ as its tag says; a path without a delta has the same state in
    both records; and the deltas applied to the previous files give the current
    ones. *)
Theorem file_deltas_are_exact previous current :
  ∃ deltas, derive_file_deltas previous current = Ok deltas ∧
    strictly_sorted (rfd_path <$> deltas) ∧ Forall (tells previous current) deltas ∧
    (∀ path, path ∉ rfd_path <$> deltas → file_states previous !! path = file_states current !! path) ∧
    foldl apply_delta (file_states previous) deltas = file_states current.
Proof.
  destruct (derive_file_deltas_total previous current) as (changes & Hchanges & Hall).
  exists (omap (λ delta : option FileDelta, delta) changes). rewrite Hchanges. split; [done|].
  pose proof (explains_tells _ _ _ _ Hall) as Htells.
  assert (∀ path, path ∉ rfd_path <$> omap (λ delta : option FileDelta, delta) changes →
    file_states previous !! path = file_states current !! path) as Hsame.
  { intros path Hout. destruct (decide (path ∈ all_paths previous current)) as [Hin|Hin].
    - by eapply explains_unchanged.
    - rewrite all_paths_elem, <- !not_eq_None_Some in Hin.
      destruct (file_states previous !! path), (file_states current !! path); naive_solver. }
  split_and!; [|done|done|].
  - apply (changes_sorted (all_paths previous current)); [apply bset_of_list_sorted|].
    eapply Forall2_impl; [exact Hall|]. by intros path change Hc delta ->; destruct Hc.
  - apply map_eq. intros k. rewrite (apply_deltas_lookup (file_states current)).
    + case_bool_decide; [done|by apply Hsame].
    + eapply Forall_impl; [exact Htells|]. by intros delta (_ & Hd & _).
Qed.

(** ** Canonical bytes and digests *)

Lemma capped_write_true w piece w' :
  capped_write w piece = (w', true) → cw_bytes w' = cw_bytes w ++ piece.
Proof. unfold capped_write. repeat case_match; by intros [= <-]. Qed.

Lemma capped_writes_true w pieces w' :
  capped_writes w pieces = (w', true) → cw_bytes w' = cw_bytes w ++ mjoin pieces.
Proof.
  revert w. induction pieces as [|piece pieces IH]; intros w; cbn.
  - intros [= <-]. by rewrite app_nil_r.
  - destruct (capped_write w piece) as [w1 []] eqn:Hw; [|done].
    intros ->%IH. by rewrite (capped_write_true _ _ _ Hw), <- app_assoc.
Qed.

Section canonical.
Context {T : Type} {check : ValidateRiskRecord T} {json : Serde T} {writer : JcsWriter T}.

Lemma canonical_record_inv (x : T) bs :
  canonical_record x = Ok bs →
  validate x = Ok tt ∧ ∃ pieces, jcs_to_writer x = (pieces, None) ∧ bs = mjoin pieces.
Proof.
  unfold canonical_record. rewrite seq_Ok. intros [Hv H]. split; [done|].
  destruct (jcs_to_writer x) as [pieces failure]. destruct (capped_writes _ _) as [w written] eqn:Hw.
  rewrite !seq_Ok, !reject_if_Ok, orb_false_iff, negb_false_iff in H.
  destruct H as (_ & [-> Hf] & [= <-]). destruct failure; [done|]. exists pieces. split; [done|].
  apply capped_writes_true in Hw. exact Hw.
Qed.

(** An accepted record arrived in its canonical form. *)
Theorem parsed_record_is_canonical bs (x : T) :
  parse_record bs = Ok x → canonical_record x = Ok bs ∧ (len bs <= MAX_RISK_RECORD_BYTES)%N.
Proof.
  unfold parse_record. rewrite !seq_Ok, reject_if_Ok. intros (Hl & _ & H).
  unbind H as y Hy. rewrite seq_Ok in H. destruct H as [_ H]. unbind H as canonical Hc.
  rewrite seq_Ok, reject_if_Ok, negb_false_iff, bool_decide_eq_true in H.
  destruct H as [-> [= ->]]. split; [done|]. by apply N.ltb_ge.
Qed.

(** The bytes of a record, which its digest is of. *)
Definition record_bytes (x : T) (bs : bytes) : Prop := canonical_record x = Ok bs.

(** A record is the only one with its digest. *)
Lemma record_sha256_binds {crates : Crates} `{!JcsWriterOk T} `{!SerdeOk T (λ x, validate x = Ok tt)} (x y : T) d :
  record_sha256 x = Ok d → record_sha256 y = Ok d →
  x = y ∨ sha256_collision (record_bytes x) (record_bytes y).
Proof.
  unfold record_sha256. intros Hx Hy. unbind Hx as bx Hbx. unbind Hy as by' Hby.
  injection Hx as <-. injection Hy as Hd.
  destruct (sha256_hex_binds (record_bytes y) (record_bytes x) _ _ Hby Hbx Hd) as [Heq|(z & w & ? & ? & ? & ?)];
    [left|right; by exists w, z].
  apply canonical_record_inv in Hbx as (Hvx & px & Hpx & ->).
  apply canonical_record_inv in Hby as (Hvy & py & Hpy & ->).
  apply jcs_writer_to_vec in Hpx, Hpy.
  apply (jcs_round_trip x _ Hvx) in Hpx. apply (jcs_round_trip y _ Hvy) in Hpy. congruence.
Qed.

Lemma require_bound_Ok {crates : Crates} actual (x : T) :
  require_bound actual x = Ok tt → record_sha256 x = Ok actual.
Proof.
  unfold require_bound, require_digest. intros H. unbind H as d Hd. by case_bool_decide; subst.
Qed.

End canonical.

(** ** What an assessment commits to *)

Section commitment.
Context {crates : Crates} {unicode : Unicode} {semver : Semver}.
Context {json_publisher : Serde PublisherEvidenceRecord} {write_publisher : JcsWriter PublisherEvidenceRecord}
  {json_structural : Serde StructuralRecord} {write_structural : JcsWriter StructuralRecord}
  {json_delta : Serde UpdateDeltaRecord} {write_delta : JcsWriter UpdateDeltaRecord}
  {json_policy : Serde LocalPolicyRecord} {write_policy : JcsWriter LocalPolicyRecord}
  {json_result : Serde PolicyResultRecord} {write_result : JcsWriter PolicyResultRecord}
  {json_assessment : Serde OperationAssessment} {write_assessment : JcsWriter OperationAssessment}.

(** The digests of an accepted set. *)
Lemma accepted_digests records :
  validate_risk_record_set_shape_and_bindings records = Ok tt →
  record_sha256 (publisher records) = Ok (roa_publisher_evidence_sha256 (assessment records)) ∧
  record_sha256 (structural records) = Ok (roa_structural_record_sha256 (assessment records)) ∧
  record_sha256 (policy records) = Ok (roa_policy_sha256 (assessment records)) ∧
  record_sha256 (policy_result records) = Ok (roa_policy_result_sha256 (assessment records)) ∧
  match update_delta records with
  | None => roa_action (assessment records) = InstallAction ∧
      previous_publisher records = None ∧ previous_structural records = None
  | Some delta => roa_action (assessment records) = UpdateAction ∧
      ∃ d pp ps, roa_update_delta_sha256 (assessment records) = Some d ∧ record_sha256 delta = Ok d ∧
        previous_publisher records = Some pp ∧ previous_structural records = Some ps ∧
        record_sha256 pp = Ok (rud_previous_publisher_evidence_sha256 delta) ∧
        record_sha256 ps = Ok (rud_previous_structural_record_sha256 delta)
  end.
Proof.
  unfold validate_risk_record_set_shape_and_bindings. rewrite !seq_Ok. intros (_ & Hcur & Hact & _).
  unfold validate_current_bindings in Hcur. rewrite !seq_Ok in Hcur.
  destruct Hcur as (_ & _ & _ & _ & _ & Hpub & _ & Hstr & _ & Hpol & Hres).
  apply require_bound_Ok in Hpub, Hstr, Hpol, Hres. split_and!; [done..|].
  unfold validate_action_bindings in Hact.
  destruct (roa_action _), (previous_publisher records) as [pp|], (previous_structural records) as [ps|],
    (update_delta records) as [delta|]; try done.
  split; [done|]. unfold validate_update_bindings in Hact. rewrite !seq_Ok in Hact.
  destruct Hact as (_ & Hpp & _ & Hps & _ & H). apply require_bound_Ok in Hpp, Hps.
  unbind H as files Hf. rewrite !seq_Ok in H. destruct H as (_ & _ & H). unbind H as d Hd.
  rewrite !seq_Ok in H. destruct H as (H & _). oks H. by exists d, pp, ps.
Qed.

Context {write_publisher_ok : JcsWriterOk PublisherEvidenceRecord} {write_structural_ok : JcsWriterOk StructuralRecord}
  {write_delta_ok : JcsWriterOk UpdateDeltaRecord} {write_policy_ok : JcsWriterOk LocalPolicyRecord}
  {write_result_ok : JcsWriterOk PolicyResultRecord} {write_assessment_ok : JcsWriterOk OperationAssessment}
  {publisher_ok : SerdeOk PublisherEvidenceRecord (λ x, validate x = Ok tt)}
  {structural_ok : SerdeOk StructuralRecord (λ x, validate x = Ok tt)}
  {delta_ok : SerdeOk UpdateDeltaRecord (λ x, validate x = Ok tt)}
  {policy_ok : SerdeOk LocalPolicyRecord (λ x, validate x = Ok tt)}
  {result_ok : SerdeOk PolicyResultRecord (λ x, validate x = Ok tt)}
  {assessment_ok : SerdeOk OperationAssessment (λ x, validate x = Ok tt)}.

(** The bytes of the records of a set that an assessment commits to. *)
Definition set_bytes (r : RiskRecordSet) (bs : bytes) : Prop :=
  record_bytes (assessment r) bs ∨ record_bytes (publisher r) bs ∨ record_bytes (structural r) bs ∨
  record_bytes (policy r) bs ∨ record_bytes (policy_result r) bs ∨
  (∃ delta, update_delta r = Some delta ∧ record_bytes delta bs) ∨
  (∃ pp, previous_publisher r = Some pp ∧ record_bytes pp bs) ∨
  (∃ ps, previous_structural r = Some ps ∧ record_bytes ps bs).

Lemma records_collide r1 r2 (P Q : bytes → Prop) A :
  (∀ x, P x → set_bytes r1 x) → (∀ x, Q x → set_bytes r2 x) →
  sha256_collision P Q → A ∨ sha256_collision (set_bytes r1) (set_bytes r2).
Proof. intros. right. by eapply sha256_collision_mono. Qed.

#[local] Ltac records_collide := eapply records_collide; [..|done]; unfold set_bytes; eauto 10.

(** The earlier records that a delta fixes. *)
Lemma update_commits r1 r2 :
  validate_risk_record_set_shape_and_bindings r1 = Ok tt →
  validate_risk_record_set_shape_and_bindings r2 = Ok tt →
  assessment r1 = assessment r2 →
  (update_delta r1 = update_delta r2 ∧ previous_publisher r1 = previous_publisher r2 ∧
   previous_structural r1 = previous_structural r2) ∨ sha256_collision (set_bytes r1) (set_bytes r2).
Proof.
  intros (_ & _ & _ & _ & H1)%accepted_digests (_ & _ & _ & _ & H2)%accepted_digests Ha.
  rewrite Ha in H1.
  destruct (update_delta r1) as [delta1|] eqn:U1, (update_delta r2) as [delta2|] eqn:U2;
    destruct H1 as [E1 H1], H2 as [E2 H2]; try congruence.
  - destruct H1 as (d & pp & ps & Hd & Hdelta & Epp & Eps & Hpp & Hps).
    destruct H2 as (d' & pp' & ps' & Hd' & Hdelta' & Epp' & Eps' & Hpp' & Hps').
    rewrite Hd in Hd'. injection Hd' as <-.
    destruct (record_sha256_binds _ _ _ Hdelta Hdelta') as [->|]; [|records_collide].
    destruct (record_sha256_binds _ _ _ Hpp Hpp') as [->|]; [|records_collide].
    destruct (record_sha256_binds _ _ _ Hps Hps') as [->|];
      [left; rewrite Epp, Eps; done|records_collide].
  - destruct H1 as [-> ->], H2 as [-> ->]. by left.
Qed.

(** C20: the digest of an assessment commits to the evidence. Two accepted sets of
    records whose assessments have one digest have the same assessment, publisher
    evidence, structural facts, policy, policy result and update delta, and the
    same records of the previous release, unless a record of the one set and a
    record of the other have different canonical bytes with one SHA-256 digest. *)
Theorem assessment_commits_to_evidence r1 r2 digest :
  validate_risk_record_set_shape_and_bindings r1 = Ok tt →
  validate_risk_record_set_shape_and_bindings r2 = Ok tt →
  record_sha256 (assessment r1) = Ok digest → record_sha256 (assessment r2) = Ok digest →
  (assessment r1 = assessment r2 ∧ publisher r1 = publisher r2 ∧ structural r1 = structural r2 ∧
   policy r1 = policy r2 ∧ policy_result r1 = policy_result r2 ∧ update_delta r1 = update_delta r2 ∧
   previous_publisher r1 = previous_publisher r2 ∧ previous_structural r1 = previous_structural r2) ∨
  sha256_collision (set_bytes r1) (set_bytes r2).
Proof.
  intros H1 H2 Hd1 Hd2. destruct (record_sha256_binds _ _ _ Hd1 Hd2) as [Ha|]; [|records_collide].
  destruct (update_commits _ _ H1 H2 Ha) as [(Hd & Hpp & Hps)|]; [|by right].
  apply accepted_digests in H1 as (Hpub1 & Hstr1 & Hpol1 & Hres1 & _).
  apply accepted_digests in H2 as (Hpub2 & Hstr2 & Hpol2 & Hres2 & _).
  rewrite Ha in Hpub1, Hstr1, Hpol1, Hres1.
  destruct (record_sha256_binds _ _ _ Hpub1 Hpub2) as [?|]; [|records_collide].
  destruct (record_sha256_binds _ _ _ Hstr1 Hstr2) as [?|]; [|records_collide].
  destruct (record_sha256_binds _ _ _ Hpol1 Hpol2) as [?|]; [|records_collide].
  destruct (record_sha256_binds _ _ _ Hres1 Hres2) as [?|]; [by left|records_collide].
Qed.

End commitment.

(** ** No panics *)

Section panics.
Context {crates : Crates} {unicode : Unicode} {semver : Semver}.

Lemma invalid_no_panic {A} record reason : no_panic (@invalid A record reason).
Proof. done. Qed.

Lemma risk_plugin_id_no_panic id : no_panic (Package.validate_plugin_id id).
Proof. unfold Package.validate_plugin_id. no_panics. Qed.

#[local] Hint Resolve invalid_no_panic : panics.

Lemma check_some_no_panic {A} (check : A → RiskResult unit) o :
  (∀ a, no_panic (check a)) → no_panic (check_some check o).
Proof. by destruct o; cbn. Qed.

Lemma risk_sha256_no_panic record value : no_panic (validate_sha256 record value).
Proof. unfold validate_sha256. no_panics. Qed.

Lemma validate_jcs_integer_no_panic record value : no_panic (validate_jcs_integer record value).
Proof. unfold validate_jcs_integer. no_panics. Qed.

Lemma require_schema_no_panic a b record : no_panic (require_schema a b record).
Proof. unfold require_schema. no_panics. Qed.

Lemma validate_identifier_no_panic record value : no_panic (validate_identifier record value).
Proof. unfold validate_identifier. destruct (_ || _); done. Qed.

Lemma validate_nfc_text_no_panic lo hi record value : no_panic (validate_nfc_text lo hi record value).
Proof. unfold validate_nfc_text. no_panics. Qed.

#[local] Hint Resolve check_some_no_panic risk_sha256_no_panic validate_jcs_integer_no_panic
  require_schema_no_panic validate_identifier_no_panic validate_nfc_text_no_panic
  no_panic_each_result risk_plugin_id_no_panic : panics.

Lemma validate_operation_id_no_panic record value : no_panic (validate_operation_id record value).
Proof. unfold validate_operation_id. no_panics. Qed.

Lemma validate_relative_path_no_panic record value : no_panic (validate_relative_path record value).
Proof. unfold validate_relative_path. no_panics. Qed.

Lemma validate_absolute_path_no_panic record value : no_panic (validate_absolute_path record value).
Proof.
  unfold validate_absolute_path. apply no_panic_bind; [auto with panics|]. intros _ _.
  apply no_panic_bind; [auto with panics|]. intros [] Hs. rewrite reject_if_Ok, orb_false_iff in Hs.
  destruct value as [|c value]; [by destruct Hs|]. apply validate_relative_path_no_panic.
Qed.

#[local] Hint Resolve validate_operation_id_no_panic validate_relative_path_no_panic
  validate_absolute_path_no_panic : panics.

Lemma validate_sorted_unique_paths_no_panic record values :
  no_panic (validate_sorted_unique_paths record values).
Proof. unfold validate_sorted_unique_paths. no_panics. Qed.

Lemma validate_sorted_unique_identifiers_no_panic values maximum record :
  no_panic (validate_sorted_unique_identifiers values maximum record).
Proof. unfold validate_sorted_unique_identifiers. no_panics. Qed.

Lemma risk_subject_no_panic require_manifest record subject :
  no_panic (validate_subject require_manifest record subject).
Proof.
  unfold validate_subject, validate_plugin_id, of_sum. no_panics.
Qed.

Lemma risk_fingerprint_no_panic record value : no_panic (validate_key_fingerprint record value).
Proof. unfold validate_key_fingerprint. no_panics. Qed.

Lemma validate_local_persona_id_no_panic record value : no_panic (validate_local_persona_id record value).
Proof. unfold validate_local_persona_id. destruct (_ && _); done. Qed.

#[local] Hint Resolve validate_sorted_unique_paths_no_panic validate_sorted_unique_identifiers_no_panic
  risk_subject_no_panic risk_fingerprint_no_panic validate_local_persona_id_no_panic : panics.

Lemma validate_publisher_no_panic self : no_panic (PublisherEvidenceRecord_validate self).
Proof. unfold PublisherEvidenceRecord_validate. no_panics. Qed.

Lemma validate_structural_no_panic self : no_panic (StructuralRecord_validate self).
Proof.
  unfold StructuralRecord_validate, analysis_stream_size_of. no_panics.
  apply (no_panic_fold_result _ (λ _, True)); [done| |done]. intros total file _ _.
  unfold validate_structural_file. no_panics.
Qed.

Lemma validate_native_report_bindings_no_panic record bindings :
  no_panic (validate_native_report_bindings record bindings).
Proof.
  unfold validate_native_report_bindings. apply no_panic_bind; [auto with panics|]. intros _ _.
  apply no_panic_each_result. intros b. unfold validate_native_report_binding.
  assert (∀ size, no_panic (validate_native_report_size record size)) by
    (intros size; unfold validate_native_report_size; no_panics).
  assert (∀ schema, no_panic (validate_native_report_schema record schema)) by
    (intros schema; unfold validate_native_report_schema; destruct (_ || _); done).
  unfold validate_optional_sha256. no_panics.
Qed.

Lemma validate_enablement_context_no_panic action enablement record :
  no_panic (validate_enablement_context action enablement record).
Proof. unfold validate_enablement_context. no_panics. Qed.

Lemma validate_file_delta_no_panic record delta : no_panic (validate_file_delta record delta).
Proof.
  assert (∀ state, no_panic (validate_file_state record state)) by
    (intros state; unfold validate_file_state; no_panics).
  unfold validate_file_delta. no_panics.
Qed.

Lemma validate_provider_delta_no_panic record delta : no_panic (validate_provider_delta record delta).
Proof.
  unfold validate_provider_delta. apply no_panic_bind; [auto with panics|]. intros _ _.
  apply no_panic_each_result. intros digest. unfold validate_optional_sha256. auto with panics.
Qed.

Lemma validate_policy_reason_no_panic record reason : no_panic (validate_policy_reason record reason).
Proof. unfold validate_policy_reason. no_panics. Qed.

#[local] Hint Resolve validate_native_report_bindings_no_panic validate_enablement_context_no_panic
  validate_file_delta_no_panic validate_provider_delta_no_panic validate_policy_reason_no_panic : panics.

(** The two [expect]s of the update delta: a valid subject has a version. *)
Lemma subject_version_Ok record subject :
  validate_subject true record subject = Ok tt → ∃ version, subject_version subject = Ok version.
Proof.
  unfold validate_subject. rewrite !seq_Ok. intros (_ & _ & _ & _ & H & _).
  unfold subject_version. destruct (rsu_plugin_id subject), (rsu_plugin_version subject) as [text|],
    (rsu_manifest_sha256 subject); try done. cbn. rewrite !seq_Ok in H. destruct H as (_ & _ & H).
  unbind H as version Hv. rewrite map_err_Ok in Hv. destruct (Version_parse text); [done|]. by eexists.
Qed.

Lemma validate_delta_no_panic self : no_panic (UpdateDeltaRecord_validate self).
Proof.
  unfold UpdateDeltaRecord_validate. apply no_panic_bind; [auto with panics|]. intros _ _.
  apply no_panic_bind; [auto with panics|]. intros [] Hp. apply subject_version_Ok in Hp as [v Hv].
  apply no_panic_bind; [auto with panics|]. intros [] Hc. apply subject_version_Ok in Hc as [w Hw].
  rewrite Hv, Hw. no_panics.
Qed.

Lemma validate_policy_no_panic self : no_panic (LocalPolicyRecord_validate self).
Proof. unfold LocalPolicyRecord_validate. no_panics. Qed.

Lemma validate_result_no_panic self : no_panic (PolicyResultRecord_validate self).
Proof. unfold PolicyResultRecord_validate, validate_optional_sha256. no_panics. Qed.

Lemma validate_assessment_no_panic self : no_panic (OperationAssessment_validate self).
Proof.
  assert (∀ value, no_panic (validate_lower_hex_integer "operation assessment" value)) by
    (intros value; unfold validate_lower_hex_integer; destruct (_ || _); done).
  unfold OperationAssessment_validate, validate_optional_sha256. no_panics.
Qed.

(** A kind of record whose validator does not panic. *)
Class SteadyRecord (T : Type) `{!ValidateRiskRecord T} := steady : ∀ x : T, no_panic (validate x).
#[export] Instance steady_publisher : SteadyRecord PublisherEvidenceRecord := validate_publisher_no_panic.
#[export] Instance steady_structural : SteadyRecord StructuralRecord := validate_structural_no_panic.
#[export] Instance steady_delta : SteadyRecord UpdateDeltaRecord := validate_delta_no_panic.
#[export] Instance steady_policy : SteadyRecord LocalPolicyRecord := validate_policy_no_panic.
#[export] Instance steady_result : SteadyRecord PolicyResultRecord := validate_result_no_panic.
#[export] Instance steady_assessment : SteadyRecord OperationAssessment := validate_assessment_no_panic.

Lemma canonical_record_no_panic {T} `{!ValidateRiskRecord T} `{!SteadyRecord T} `{!JcsWriter T} (x : T) :
  no_panic (canonical_record x).
Proof. unfold canonical_record. apply no_panic_bind; [apply steady|]. no_panics. Qed.

Lemma require_bound_no_panic {T} `{!ValidateRiskRecord T} `{!SteadyRecord T} `{!JcsWriter T} actual (x : T) :
  no_panic (require_bound actual x).
Proof.
  unfold require_bound, record_sha256, require_digest. apply no_panic_bind; [|no_panics].
  apply no_panic_bind; [apply canonical_record_no_panic|done].
Qed.

(** Whatever the bytes, reading a record does not panic. *)
Lemma parse_record_no_panic {T} `{!ValidateRiskRecord T} `{!SteadyRecord T} `{!Serde T} `{!JcsWriter T} bs :
  no_panic (parse_record (T:=T) bs).
Proof.
  unfold parse_record. apply no_panic_bind; [auto with panics|]. intros _ _. apply no_panic_bind.
  - unfold validate_json_depth. apply no_panic_bind; [|done].
    apply (no_panic_fold_result _ (λ _, True)); [done| |done]. intros [depth str esc] b _ _.
    unfold depth_step. no_panics.
  - intros _ _. apply no_panic_bind; [apply no_panic_map_err; by destruct (json_from_slice bs)|].
    intros x _. apply no_panic_bind; [apply steady|]. intros _ _.
    apply no_panic_bind; [apply canonical_record_no_panic|]. no_panics.
Qed.

Context {write_publisher : JcsWriter PublisherEvidenceRecord} {write_structural : JcsWriter StructuralRecord}
  {write_delta : JcsWriter UpdateDeltaRecord} {write_policy : JcsWriter LocalPolicyRecord}
  {write_result : JcsWriter PolicyResultRecord}.

Lemma validate_update_bindings_no_panic records pp ps delta :
  no_panic (validate_update_bindings records pp ps delta).
Proof.
  unfold validate_update_bindings. apply no_panic_bind; [auto with panics|]. intros _ _.
  do 4 (apply no_panic_bind; [apply require_bound_no_panic|]; intros _ _).
  destruct (derive_file_deltas_total ps (structural records)) as (changes & -> & _).
  rewrite bind_Ok_l. do 2 (apply no_panic_bind; [auto with panics|]; intros _ _).
  apply no_panic_bind; [apply no_panic_bind; [apply canonical_record_no_panic|done]|]. intros digest _.
  apply no_panic_bind; [auto with panics|]. intros _ _. apply no_panic_bind.
  - apply no_panic_each_result. intros p. unfold validate_provider_binding. no_panics.
  - no_panics.
Qed.

(** No bytes make the readers of the six records panic, and no set of records
    makes the check of a set panic: the versions it expects and the path it
    calls unreachable are there. *)
Theorem risk_records_never_panic records :
  no_panic (validate_risk_record_set_shape_and_bindings records).
Proof.
  unfold validate_risk_record_set_shape_and_bindings. apply no_panic_bind; [|intros _ _; apply no_panic_bind].
  - unfold validate_each_record. do 5 (apply no_panic_bind; [apply steady|]; intros _ _).
    do 3 (apply no_panic_bind; [apply check_some_no_panic; intros x; apply steady|]; intros _ _).
    auto with panics.
  - unfold validate_current_bindings. do 4 (apply no_panic_bind; [auto with panics|]; intros _ _).
    do 6 (apply no_panic_bind; [apply require_bound_no_panic|]; intros _ _). apply require_bound_no_panic.
  - intros _ _. apply no_panic_bind; [|auto with panics]. unfold validate_action_bindings.
    destruct (roa_action _), (previous_publisher records), (previous_structural records),
      (update_delta records); try done; [no_panics|apply validate_update_bindings_no_panic].
Qed.

End panics.
