(* ===== verification/RiskWitness.v ===== *)
(** * Witnesses for the risk records

    An update of a plugin by a publisher with a verified history, with one
    report by a provider before and after, and the six records about it, in the
    encoding of [Instances.v]. *)

From stdpp Require Import base numbers list strings pretty option gmap.
From Stdlib Require Import Strings.Byte Ascii.
From S2P Require Import Prelude Text Ordered Display Crates ArtifactProof Continuity ContinuityFacts Names Package ShellReference.
From S2P Require Import Instances Witness Risk RiskFacts.

(** ** The formats *)

(** A value of an enum is its position. *)
Definition enum_index {T} `{EqDecision T} (values : list T) (x : T) : N :=
  N.of_nat (default 0 (fst <$> list_find (x =.) values)).

Lemma enum_index_lookup {T} `{EqDecision T} (values : list T) x :
  x ∈ values → values !! N.to_nat (enum_index values x) = Some x.
Proof.
  intros Hin. unfold enum_index. rewrite Nat2N.id.
  destruct (list_find_elem_of (x =.) values x Hin eq_refl) as [[i y] Hi]. rewrite Hi. cbn.
  by apply list_find_Some in Hi as (-> & <- & _).
Qed.

Definition codec_enum {T} `{EqDecision T} (values : list T) (complete : ∀ x, x ∈ values) : Codec T :=
  codec_via (enum_index values) (λ n, values !! N.to_nat n) (λ x, enum_index_lookup values x (complete x)).

Ltac enumerated := intros []; repeat (apply list_elem_of_here || apply list_elem_of_further).

#[export] Instance codec_bool : Codec bool := codec_enum [false; true] ltac:(enumerated).
#[export] Instance codec_VerifiedStatus : Codec VerifiedStatus :=
  codec_enum [StatusVerified] ltac:(enumerated).
#[export] Instance codec_RiskPublisherRegistryStatus : Codec RiskPublisherRegistryStatus :=
  codec_enum [RegistryNotChecked; RegistryUnrecognized; RegistryEvidenceOnly; RegistryArchived; RegistryTerminallyRevoked; RegistryActive; RegistryRetired; RegistryCompromised] ltac:(enumerated).
#[export] Instance codec_RiskKeyStatus : Codec RiskKeyStatus :=
  codec_enum [RiskKeyActive; RiskKeyRetired; RiskKeyCompromised] ltac:(enumerated).
#[export] Instance codec_RiskContinuityStatus : Codec RiskContinuityStatus :=
  codec_enum [ContinuityNotChecked; ContinuityNotManaged; ContinuityVerified; ContinuityInvalid] ltac:(enumerated).
#[export] Instance codec_InstallationAuthority : Codec InstallationAuthority :=
  codec_enum [Authorized; Denied] ltac:(enumerated).
#[export] Instance codec_ManifestValidatorStatus : Codec ManifestValidatorStatus :=
  codec_enum [ValidatorNotRun; ValidatorPassed; ValidatorFailed] ltac:(enumerated).
#[export] Instance codec_PublisherContinuityDelta : Codec PublisherContinuityDelta :=
  codec_enum [DeltaMatched; DeltaMismatched; DeltaNotChecked] ltac:(enumerated).
#[export] Instance codec_PluginIdDelta : Codec PluginIdDelta :=
  codec_enum [IdUnchanged; IdChanged] ltac:(enumerated).
#[export] Instance codec_VersionDelta : Codec VersionDelta :=
  codec_enum [Upgrade; EqualVersion; Downgrade] ltac:(enumerated).
#[export] Instance codec_FileChangeKind : Codec FileChangeKind :=
  codec_enum [Added; Removed; ContentChanged; ModeChanged; ContentAndModeChanged] ltac:(enumerated).
#[export] Instance codec_PolicyDisposition : Codec PolicyDisposition :=
  codec_enum [Block; RequireConsent] ltac:(enumerated).
#[export] Instance codec_OperationAction : Codec OperationAction :=
  codec_enum [InstallAction; UpdateAction] ltac:(enumerated).
#[export] Instance codec_EnablementIntent : Codec EnablementIntent :=
  codec_enum [LeaveUnreferenced; PreserveReferenceState] ltac:(enumerated).
#[export] Instance codec_AnalysisIntegrationStatus : Codec AnalysisIntegrationStatus :=
  codec_enum [AnalysisComplete; AnalysisIncomplete; AnalysisError; AnalysisUnsupported; AnalysisNotRun] ltac:(enumerated).
#[export] Instance codec_PolicyReasonCode : Codec PolicyReasonCode :=
  codec_enum [InteractiveApprovalRequired; PublisherNotAuthorized; PublisherContinuityNotMatched; ManifestValidatorNotPassed; MissingRequiredProvider; ProviderIncomplete; ProviderError; ProviderUnsupported; ProviderNotRun; PluginIdChanged; VersionNotUpgrade; IndeterminateComparison] ltac:(enumerated).
#[export] Instance codec_PluginReferenceState : Codec PluginReferenceState :=
  codec_enum [NotReferenced; Referenced] ltac:(enumerated).
#[export] Instance codec_ShellConfigSource : Codec ShellConfigSource :=
  codec_enum [User; SystemDefault] ltac:(enumerated).

#[export] Instance codec_RiskSubject : Codec RiskSubject :=
  codec_via
    (λ x, (rsu_artifact_sha256 x, (rsu_artifact_size x, (rsu_package_format x, (rsu_plugin_id x,
      (rsu_plugin_version x, (rsu_manifest_sha256 x, (rsu_analysis_stream_schema x,
      (rsu_analysis_stream_sha256 x, rsu_analysis_stream_size x)))))))))
    (λ '(a, (b, (c, (d, (e, (f, (g, (h, i)))))))), Some (Build_RiskSubject a b c d e f g h i))
    ltac:(by intros []).
#[export] Instance codec_PublisherEvidenceRecord : Codec PublisherEvidenceRecord :=
  codec_via
    (λ x, (rpe_schema x, (rpe_subject x, (rpe_proof_sha256 x, (rpe_artifact_integrity x,
      (rpe_signature x, (rpe_signed_persona x, (rpe_signing_key_fingerprint x, (rpe_registry_status
      x, (rpe_local_persona_id x, (rpe_local_persona_root_sha256 x, (rpe_signed_label_agreement x,
      (rpe_key_status x, (rpe_continuity x, rpe_installation_authority x))))))))))))))
    (λ '(a, (b, (c, (d, (e, (f, (g, (h, (i, (j, (k, (l, (m, n))))))))))))), Some
      (Build_PublisherEvidenceRecord a b c d e f g h i j k l m n))
    ltac:(by intros []).
#[export] Instance codec_StructuralFile : Codec StructuralFile :=
  codec_via
    (λ x, (rsf_path x, (rsf_mode x, (rsf_size x, (rsf_sha256 x, rsf_manifest_entry_point x)))))
    (λ '(a, (b, (c, (d, e)))), Some (Build_StructuralFile a b c d e))
    ltac:(by intros []).
#[export] Instance codec_StructuralRecord : Codec StructuralRecord :=
  codec_via
    (λ x, (rst_schema x, (rst_subject x, (rst_archive_validation x, (rst_entries x,
      (rst_regular_files x, (rst_directories x, (rst_uncompressed_file_bytes x, (rst_links x,
      (rst_special_entries x, (rst_files x, (rst_executable_paths x, (rst_manifest_entry_point_paths
      x, (rst_hidden_executable_paths x, (rst_executable_not_manifest_entry_point_paths x,
      rst_omarchy_manifest_validation x)))))))))))))))
    (λ '(a, (b, (c, (d, (e, (f, (g, (h, (i, (j, (k, (l, (m, (n, o)))))))))))))), Some
      (Build_StructuralRecord a b c d e f g h i j k l m n o))
    ltac:(by intros []).
#[export] Instance codec_FileState : Codec FileState :=
  codec_via
    (λ x, (rfs_sha256 x, rfs_mode x))
    (λ '(a, b), Some (Build_FileState a b))
    ltac:(by intros []).
#[export] Instance codec_FileDelta : Codec FileDelta :=
  codec_via
    (λ x, (rfd_path x, (rfd_change x, (rfd_previous x, rfd_current x))))
    (λ '(a, (b, (c, d))), Some (Build_FileDelta a b c d))
    ltac:(by intros []).
#[export] Instance codec_ProviderDelta : Codec ProviderDelta :=
  codec_via
    (λ x, (rpd_provider_id x, (rpd_previous_native_report_sha256 x, rpd_current_native_report_sha256
      x)))
    (λ '(a, (b, c)), Some (Build_ProviderDelta a b c))
    ltac:(by intros []).
#[export] Instance codec_UpdateDeltaRecord : Codec UpdateDeltaRecord :=
  codec_via
    (λ x, (rud_schema x, (rud_previous_subject x, (rud_subject x,
      (rud_previous_publisher_evidence_sha256 x, (rud_publisher_evidence_sha256 x,
      (rud_previous_structural_record_sha256 x, (rud_structural_record_sha256 x,
      (rud_publisher_continuity x, (rud_plugin_id x, (rud_version x, (rud_files x, (rud_providers x,
      rud_fresh_consent_required x)))))))))))))
    (λ '(a, (b, (c, (d, (e, (f, (g, (h, (i, (j, (k, (l, m)))))))))))), Some (Build_UpdateDeltaRecord
      a b c d e f g h i j k l m))
    ltac:(by intros []).
#[export] Instance codec_ProviderHandlingPolicy : Codec ProviderHandlingPolicy :=
  codec_via
    (λ x, (rph_missing_required x, (rph_incomplete x, (rph_error x, (rph_unsupported x, rph_not_run
      x)))))
    (λ '(a, (b, (c, (d, e)))), Some (Build_ProviderHandlingPolicy a b c d e))
    ltac:(by intros []).
#[export] Instance codec_UpdateHandlingPolicy : Codec UpdateHandlingPolicy :=
  codec_via
    (λ x, ruh_indeterminate_comparison x)
    (λ a, Some (Build_UpdateHandlingPolicy a))
    ltac:(by intros []).
#[export] Instance codec_LocalPolicyRecord : Codec LocalPolicyRecord :=
  codec_via
    (λ x, (rlp_schema x, (rlp_policy_id x, (rlp_revision x, (rlp_required_provider_ids x,
      (rlp_provider_handling x, (rlp_update_handling x, rlp_interactive_approval x)))))))
    (λ '(a, (b, (c, (d, (e, (f, g)))))), Some (Build_LocalPolicyRecord a b c d e f g))
    ltac:(by intros []).
#[export] Instance codec_EnablementContext : Codec EnablementContext :=
  codec_via
    (λ x, (rec_pre_operation x, (rec_intent x, (rec_shell_config_source x, rec_shell_config_sha256
      x))))
    (λ '(a, (b, (c, d))), Some (Build_EnablementContext a b c d))
    ltac:(by intros []).
#[export] Instance codec_NativeReportBinding : Codec NativeReportBinding :=
  codec_via
    (λ x, (rnb_provider_id x, (rnb_native_report_schema x, (rnb_native_report_sha256 x,
      (rnb_native_report_size x, rnb_integration_status x)))))
    (λ '(a, (b, (c, (d, e)))), Some (Build_NativeReportBinding a b c d e))
    ltac:(by intros []).
#[export] Instance codec_PolicyReason : Codec PolicyReason :=
  codec_via
    (λ x, (rpr_code x, (rpr_disposition x, rpr_provider_id x)))
    (λ '(a, (b, c)), Some (Build_PolicyReason a b c))
    ltac:(by intros []).
#[export] Instance codec_PolicyResultRecord : Codec PolicyResultRecord :=
  codec_via
    (λ x, (rrs_schema x, (rrs_operation_id x, (rrs_action x, (rrs_enablement x, (rrs_subject x,
      (rrs_policy_sha256 x, (rrs_publisher_evidence_sha256 x, (rrs_structural_record_sha256 x,
      (rrs_update_delta_sha256 x, (rrs_native_reports x, (rrs_decision x, rrs_reasons x))))))))))))
    (λ '(a, (b, (c, (d, (e, (f, (g, (h, (i, (j, (k, l))))))))))), Some (Build_PolicyResultRecord a b
      c d e f g h i j k l))
    ltac:(by intros []).
#[export] Instance codec_OperationAssessment : Codec OperationAssessment :=
  codec_via
    (λ x, (roa_schema x, (roa_operation_id x, (roa_action x, (roa_enablement x, (roa_subject x,
      (roa_destination x, (roa_destination_parent_device x, (roa_destination_parent_inode x,
      (roa_registry_sha256 x, (roa_publisher_evidence_sha256 x, (roa_structural_record_sha256 x,
      (roa_update_delta_sha256 x, (roa_policy_sha256 x, (roa_policy_result_sha256 x,
      (roa_native_reports x, (roa_issued_at_unix x, roa_expires_at_unix x)))))))))))))))))
    (λ '(a, (b, (c, (d, (e, (f, (g, (h, (i, (j, (k, (l, (m, (n, (o, (p, q)))))))))))))))), Some
      (Build_OperationAssessment a b c d e f g h i j k l m n o p q))
    ltac:(by intros []).

(** The canonicalizer writes a record in two pieces. *)
Definition writer_of {T} `{!Codec T} : JcsWriter T :=
  {| jcs_to_writer x := ([take 8 (enc x); drop 8 (enc x)], None) |}.

Lemma writer_of_ok {T} `{!Codec T} : @JcsWriterOk T serde_of writer_of.
Proof.
  split. intros x pieces [= <-]. cbn. by rewrite app_nil_r, take_drop.
Qed.

#[export] Instance json_PublisherEvidenceRecord : Serde PublisherEvidenceRecord := serde_of.
#[export] Instance write_PublisherEvidenceRecord : JcsWriter PublisherEvidenceRecord := writer_of.
#[export] Instance json_StructuralRecord : Serde StructuralRecord := serde_of.
#[export] Instance write_StructuralRecord : JcsWriter StructuralRecord := writer_of.
#[export] Instance json_UpdateDeltaRecord : Serde UpdateDeltaRecord := serde_of.
#[export] Instance write_UpdateDeltaRecord : JcsWriter UpdateDeltaRecord := writer_of.
#[export] Instance json_LocalPolicyRecord : Serde LocalPolicyRecord := serde_of.
#[export] Instance write_LocalPolicyRecord : JcsWriter LocalPolicyRecord := writer_of.
#[export] Instance json_PolicyResultRecord : Serde PolicyResultRecord := serde_of.
#[export] Instance write_PolicyResultRecord : JcsWriter PolicyResultRecord := writer_of.
#[export] Instance json_OperationAssessment : Serde OperationAssessment := serde_of.
#[export] Instance write_OperationAssessment : JcsWriter OperationAssessment := writer_of.
#[export] Instance write_PublisherEvidenceRecord_ok : JcsWriterOk PublisherEvidenceRecord := writer_of_ok.
#[export] Instance write_StructuralRecord_ok : JcsWriterOk StructuralRecord := writer_of_ok.
#[export] Instance write_UpdateDeltaRecord_ok : JcsWriterOk UpdateDeltaRecord := writer_of_ok.
#[export] Instance write_LocalPolicyRecord_ok : JcsWriterOk LocalPolicyRecord := writer_of_ok.
#[export] Instance write_PolicyResultRecord_ok : JcsWriterOk PolicyResultRecord := writer_of_ok.
#[export] Instance write_OperationAssessment_ok : JcsWriterOk OperationAssessment := writer_of_ok.

(** Every text is composed; a version starts with a digit, and versions are
    ordered as texts. *)
#[export] Instance composed : Unicode := {| nfc := id |}.
#[export] Instance text_versions : Semver := {|
  Version := string;
  Version_parse text :=
    match text with
    | String c _ => if is_ascii_digit c then inr text else inl "unexpected character"
    | EmptyString => inl "empty string"
    end;
  Version_compare := String.compare;
|}.

(** ** An update *)

Definition hex_of (c : ascii) : string := str_of_chars (replicate 64 c).

Definition subject_of (artifact : ascii) (version : string) (manifest : ascii) (size : N) : RiskSubject := {|
  rsu_artifact_sha256 := hex_of artifact; rsu_artifact_size := 900;
  rsu_package_format := "omarchy-zstd-tar-v1"; rsu_plugin_id := Some "clock";
  rsu_plugin_version := Some version; rsu_manifest_sha256 := Some (hex_of manifest);
  rsu_analysis_stream_schema := "a-quo-regular-file-stream-v1";
  rsu_analysis_stream_sha256 := hex_of artifact; rsu_analysis_stream_size := size |}.

Definition old_subject : RiskSubject := subject_of "1" "1.0.0" "a" 178.
Definition new_subject : RiskSubject := subject_of "2" "1.1.0" "a" 242.

Definition publisher_of (subject : RiskSubject) : PublisherEvidenceRecord := {|
  rpe_schema := PUBLISHER_EVIDENCE_SCHEMA; rpe_subject := subject; rpe_proof_sha256 := hex_of "3";
  rpe_artifact_integrity := StatusVerified; rpe_signature := StatusVerified;
  rpe_signed_persona := "Ada";
  rpe_signing_key_fingerprint := "SHA256:" +:+ str_of_chars (replicate 32 "k"%char);
  rpe_registry_status := RegistryActive;
  rpe_local_persona_id := Some "01234567-89ab-cdef-0123-456789abcdef";
  rpe_local_persona_root_sha256 := Some (hex_of "4"); rpe_signed_label_agreement := Some true;
  rpe_key_status := Some RiskKeyActive; rpe_continuity := ContinuityVerified;
  rpe_installation_authority := Authorized |}.

Definition plain_file (path : string) (size : N) (content : ascii) (entry : bool) : StructuralFile :=
  {| rsf_path := path; rsf_mode := 420; rsf_size := size; rsf_sha256 := hex_of content;
     rsf_manifest_entry_point := entry |}.

Definition old_structural : StructuralRecord := {|
  rst_schema := STRUCTURAL_RECORD_SCHEMA; rst_subject := old_subject;
  rst_archive_validation := StatusVerified; rst_entries := 2; rst_regular_files := 2;
  rst_directories := 0; rst_uncompressed_file_bytes := 40; rst_links := 0; rst_special_entries := 0;
  rst_files := [plain_file "manifest.json" 30 "a" false; plain_file "panel.qml" 10 "b" true];
  rst_executable_paths := []; rst_manifest_entry_point_paths := ["panel.qml"];
  rst_hidden_executable_paths := []; rst_executable_not_manifest_entry_point_paths := [];
  rst_omarchy_manifest_validation := ValidatorPassed |}.

Definition new_structural : StructuralRecord := {|
  rst_schema := STRUCTURAL_RECORD_SCHEMA; rst_subject := new_subject;
  rst_archive_validation := StatusVerified; rst_entries := 4; rst_regular_files := 3;
  rst_directories := 1; rst_uncompressed_file_bytes := 47; rst_links := 0; rst_special_entries := 0;
  rst_files := [{| rsf_path := "helper.sh"; rsf_mode := 493; rsf_size := 5; rsf_sha256 := hex_of "d";
                   rsf_manifest_entry_point := false |};
                plain_file "manifest.json" 30 "a" false; plain_file "panel.qml" 12 "c" true];
  rst_executable_paths := ["helper.sh"]; rst_manifest_entry_point_paths := ["panel.qml"];
  rst_hidden_executable_paths := [];
  rst_executable_not_manifest_entry_point_paths := ["helper.sh"];
  rst_omarchy_manifest_validation := ValidatorPassed |}.

Definition report_of (digest : ascii) : NativeReportBinding := {|
  rnb_provider_id := "plug"; rnb_native_report_schema := Some "plug-report-v1";
  rnb_native_report_sha256 := Some (hex_of digest); rnb_native_report_size := Some 70%N;
  rnb_integration_status := AnalysisComplete |}.

(** The digest of a record that is valid. *)
Definition digest_of {T} `{!ValidateRiskRecord T, !JcsWriter T} (x : T) : string :=
  match record_sha256 x with Ok d => d | _ => EmptyString end.

Definition the_delta : UpdateDeltaRecord := Eval vm_compute in {|
  rud_schema := UPDATE_DELTA_SCHEMA; rud_previous_subject := old_subject; rud_subject := new_subject;
  rud_previous_publisher_evidence_sha256 := digest_of (publisher_of old_subject);
  rud_publisher_evidence_sha256 := digest_of (publisher_of new_subject);
  rud_previous_structural_record_sha256 := digest_of old_structural;
  rud_structural_record_sha256 := digest_of new_structural;
  rud_publisher_continuity := DeltaMatched; rud_plugin_id := IdUnchanged; rud_version := Upgrade;
  rud_files := ok_get (derive_file_deltas old_structural new_structural) eq_refl;
  rud_providers := [{| rpd_provider_id := "plug";
                       rpd_previous_native_report_sha256 := Some (hex_of "5");
                       rpd_current_native_report_sha256 := Some (hex_of "6") |}];
  rud_fresh_consent_required := true |}.

Definition the_policy : LocalPolicyRecord := {|
  rlp_schema := LOCAL_POLICY_SCHEMA; rlp_policy_id := "desktop"; rlp_revision := 3;
  rlp_required_provider_ids := ["plug"];
  rlp_provider_handling := {| rph_missing_required := Block; rph_incomplete := RequireConsent;
    rph_error := Block; rph_unsupported := RequireConsent; rph_not_run := Block |};
  rlp_update_handling := {| ruh_indeterminate_comparison := RequireConsent |};
  rlp_interactive_approval := RequireConsent |}.

Definition the_enablement : EnablementContext := {|
  rec_pre_operation := Referenced; rec_intent := PreserveReferenceState;
  rec_shell_config_source := User; rec_shell_config_sha256 := hex_of "7" |}.

Definition the_result : PolicyResultRecord := Eval vm_compute in {|
  rrs_schema := POLICY_RESULT_SCHEMA; rrs_operation_id := hex_of "8"; rrs_action := UpdateAction;
  rrs_enablement := the_enablement; rrs_subject := new_subject;
  rrs_policy_sha256 := digest_of the_policy;
  rrs_publisher_evidence_sha256 := digest_of (publisher_of new_subject);
  rrs_structural_record_sha256 := digest_of new_structural;
  rrs_update_delta_sha256 := Some (digest_of the_delta); rrs_native_reports := [report_of "6"];
  rrs_decision := RequireConsent;
  rrs_reasons := [policy_reason InteractiveApprovalRequired RequireConsent None;
                  policy_reason IndeterminateComparison RequireConsent (Some "plug")] |}.

Definition assessment_with (result : PolicyResultRecord) : OperationAssessment := {|
  roa_schema := OPERATION_ASSESSMENT_SCHEMA; roa_operation_id := hex_of "8";
  roa_action := UpdateAction; roa_enablement := the_enablement; roa_subject := new_subject;
  roa_destination := "/home/ada/.config/omarchy/plugins/clock";
  roa_destination_parent_device := "801"; roa_destination_parent_inode := "2f";
  roa_registry_sha256 := hex_of "9";
  roa_publisher_evidence_sha256 := digest_of (publisher_of new_subject);
  roa_structural_record_sha256 := digest_of new_structural;
  roa_update_delta_sha256 := Some (digest_of the_delta); roa_policy_sha256 := digest_of the_policy;
  roa_policy_result_sha256 := digest_of result; roa_native_reports := [report_of "6"];
  roa_issued_at_unix := 1000; roa_expires_at_unix := 1300 |}.

Definition the_set : RiskRecordSet := {|
  previous_publisher := Some (publisher_of old_subject); previous_structural := Some old_structural;
  previous_native_reports := [report_of "5"]; publisher := publisher_of new_subject;
  structural := new_structural; update_delta := Some the_delta; policy := the_policy;
  policy_result := the_result; assessment := assessment_with the_result |}.

(** The same set with another size for the report about the previous release,
    of which only the digest is bound. *)
Definition the_resized_set : RiskRecordSet := {|
  previous_publisher := previous_publisher the_set; previous_structural := previous_structural the_set;
  previous_native_reports :=
    [{| rnb_provider_id := "plug"; rnb_native_report_schema := Some "plug-report-v1";
        rnb_native_report_sha256 := Some (hex_of "5"); rnb_native_report_size := Some 71%N;
        rnb_integration_status := AnalysisComplete |}];
  publisher := publisher the_set; structural := structural the_set; update_delta := update_delta the_set;
  policy := policy the_set; policy_result := policy_result the_set; assessment := assessment the_set |}.

(** A set whose policy result keeps a reason back. *)
Definition the_silent_set : RiskRecordSet :=
  let result := {|
    rrs_schema := POLICY_RESULT_SCHEMA; rrs_operation_id := hex_of "8"; rrs_action := UpdateAction;
    rrs_enablement := the_enablement; rrs_subject := new_subject;
    rrs_policy_sha256 := digest_of the_policy;
    rrs_publisher_evidence_sha256 := digest_of (publisher_of new_subject);
    rrs_structural_record_sha256 := digest_of new_structural;
    rrs_update_delta_sha256 := Some (digest_of the_delta); rrs_native_reports := [report_of "6"];
    rrs_decision := RequireConsent;
    rrs_reasons := [policy_reason InteractiveApprovalRequired RequireConsent None] |} in
  {| previous_publisher := Some (publisher_of old_subject); previous_structural := Some old_structural;
     previous_native_reports := [report_of "5"]; publisher := publisher_of new_subject;
     structural := new_structural; update_delta := Some the_delta; policy := the_policy;
     policy_result := result; assessment := assessment_with result |}.

Example silent_set_is_refused :
  validate_risk_record_set_shape_and_bindings the_silent_set =
  Err (RiskInvalid RECORD "policy reasons do not deterministically match bound evidence").
Proof. vm_compute. reflexivity. Qed.

(** ** Witnesses *)

Lemma decision_follows_evidence_witness :
  validate_risk_record_set_shape_and_bindings the_set = Ok tt ∧ ¬ blocks the_set.
Proof.
  assert (validate_risk_record_set_shape_and_bindings the_set = Ok tt) as H by (vm_compute; reflexivity).
  split; [exact H|]. rewrite <- (decision_follows_evidence the_set H). discriminate.
Defined.

Lemma assessment_commits_to_evidence_witness :
  previous_native_reports the_set ≠ previous_native_reports the_resized_set ∧
  ((assessment the_set = assessment the_resized_set ∧ publisher the_set = publisher the_resized_set ∧
    structural the_set = structural the_resized_set ∧ policy the_set = policy the_resized_set ∧
    policy_result the_set = policy_result the_resized_set ∧
    update_delta the_set = update_delta the_resized_set ∧
    previous_publisher the_set = previous_publisher the_resized_set ∧
    previous_structural the_set = previous_structural the_resized_set) ∨
   sha256_collision (set_bytes the_set) (set_bytes the_resized_set)).
Proof.
  assert (validate_risk_record_set_shape_and_bindings the_set = Ok tt) as H by (vm_compute; reflexivity).
  assert (validate_risk_record_set_shape_and_bindings the_resized_set = Ok tt) as H'
    by (vm_compute; reflexivity).
  assert (record_sha256 (assessment the_set) = Ok (digest_of (assessment the_set))) as Hd
    by (vm_compute; reflexivity).
  split; [discriminate|].
  exact (assessment_commits_to_evidence (publisher_ok := serde_of_ok _) (structural_ok := serde_of_ok _)
    (delta_ok := serde_of_ok _) (policy_ok := serde_of_ok _) (result_ok := serde_of_ok _)
    (assessment_ok := serde_of_ok _) the_set the_resized_set (digest_of (assessment the_set)) H H' Hd Hd).
Defined.
