(* ===== verification/Installer.v ===== *)
(** * What the installer asks of its surroundings
    ([crates/a-quo-omarchy/src/install], with [tree.rs])

    A directory that is pinned by a descriptor is walked and every entry of it
    described with its mode, owner, links, size and digest; two such snapshots
    are compared to see that a tree has not changed.

    Every question that installing, updating or removing a plugin asks of the
    file system, the store, the clock and the commands of the desktop is a call;
    such an operation is a program of them. Directories that are pinned by
    descriptors are named; what a path or a descriptor answers can be different
    each time. *)

From stdpp Require Import base numbers list strings pretty sorting option gmap.
From Stdlib Require Import Strings.Byte Ascii.
From S2P Require Import Prelude Text Ordered Display Crates Io ArtifactProof Names Transport StoreTypes.
From S2P Require Import StoreCommon Disk Package PackageArchive PackageFacts ShellReference Continuity RecoveryPolicy RecoveryChain Fields.
From S2P Require Import IpcProtocol Backup BackupVerify Tables StoredKeys Journal Store Interaction PackageTrust.

Definition MAX_RECEIPT_BYTES : N := 65536.
Definition MAX_UPDATE_TREE_BYTES : N := (MAX_UNCOMPRESSED_FILE_BYTES + MAX_RECEIPT_BYTES)%N.
Definition MAX_UPDATE_TREE_ENTRIES : N := 8192.
Definition MAX_UPDATE_TREE_DEPTH : N := 64.
Definition MAX_UPDATE_TREE_PATH_BYTES : N := 33554432.

Record TargetIdentity := { ti_device : N; ti_inode : N }.

#[export] Instance TargetIdentity_eq_dec : EqDecision TargetIdentity.
Proof. solve_decision. Defined.

Record UpdateTreeEntry := {
  ue_path : list string;
  ue_kind : TreeKind;
  ue_mode : N;
  ue_uid : N;
  ue_gid : N;
  ue_links : N;
  ue_size : N;
  ue_sha256 : option bytes;
}.

Record UpdateTreeSnapshot := {
  us_entries : list UpdateTreeEntry;
  us_total_file_bytes : N;
  us_total_path_bytes : N;
}.

#[export] Instance UpdateTreeEntry_eq_dec : EqDecision UpdateTreeEntry.
Proof. solve_decision. Defined.
#[export] Instance UpdateTreeSnapshot_eq_dec : EqDecision UpdateTreeSnapshot.
Proof. solve_decision. Defined.

(** ** What a walk finds *)

(** [FileType::from_raw_mode] tells these apart. *)
Inductive FileType := Directory | RegularFile | OtherFileType.

#[export] Instance FileType_eq_dec : EqDecision FileType.
Proof. solve_decision. Defined.

(** [rustix::fs::Stat] *)
Record Stat := {
  st_dev : N; st_ino : N; st_mode : N; st_nlink : N; st_uid : N; st_gid : N; st_size : Z;
  st_mtime : Z; st_mtime_nsec : Z; st_ctime : Z; st_ctime_nsec : Z;
}.

(** [S_IFMT], [S_IFDIR] and [S_IFREG] *)
Definition file_type (stat : Stat) : FileType :=
  let format := N.land (st_mode stat) 61440 in
  if (format =? 16384)%N then Directory else if (format =? 32768)%N then RegularFile else OtherFileType.

(** [st_mode & 0o7777] *)
Definition permission_bits (stat : Stat) : N := N.land (st_mode stat) 4095.

(** A system call that can fail: the text of its error. *)
Abbreviation Sys A := (sum string A).

(** The answers for a regular file: of the pinned descriptor, of opening it to
    read, of the descriptor that was opened before and after the reads, and what
    the reads find. *)
Record FileScan := {
  fn_pinned : Sys Stat;
  fn_open : option string;
  fn_before : Sys Stat;
  fn_data : Stream;
  fn_after : Sys Stat;
}.

(** The answers for a directory: its metadata, opening and enumerating it, its
    entries, and its metadata afterwards. Of an entry they are: pinning it, its
    metadata, and what scanning it as a directory or as a file finds. *)
Inductive DirScan :=
| ScanDirectory (before : Sys Stat) (readable enumerable : option string) (entries : EntryScans)
    (after : Sys Stat)
with EntryScans :=
| NoMoreEntries
| EntryFails (error : string)
| Entry (name : string) (scan : EntryScan) (rest : EntryScans)
with EntryScan :=
| PinFails (error : string)
| StatFails (error : string)
| Scanned (stat : Stat) (directory : DirScan) (file : FileScan).

(** ** Snapshots *)

Abbreviation Scan A := (result string A).

Definition fails_with {A} (prefix : string) (answer : Sys A) : Scan A :=
  map_err (λ e, prefix +:+ e) (of_sum answer).

Definition must_open (prefix : string) (error : option string) : Scan unit :=
  match error with Some e => Err (prefix +:+ e) | None => Ok tt end.

Definition update_scan_stat_is_stable (before after : Stat) : bool :=
  (st_dev before == st_dev after) && (st_ino before == st_ino after) &&
  (st_mode before == st_mode after) && (st_nlink before == st_nlink after) &&
  (st_uid before == st_uid after) && (st_gid before == st_gid after) &&
  (st_size before == st_size after) && (st_mtime before == st_mtime after) &&
  (st_mtime_nsec before == st_mtime_nsec after) && (st_ctime before == st_ctime after) &&
  (st_ctime_nsec before == st_ctime_nsec after).

(** [try_fold] of the sizes of the components. *)
Definition entry_path_bytes (path : list string) : option N :=
  foldl (λ total component, total ← total; checked_add_u64 total (str_len component + 1)) (Some 0%N) path.

Definition push_update_tree_entry (snapshot : UpdateTreeSnapshot) (entry : UpdateTreeEntry) :
    Scan UpdateTreeSnapshot :=
  reject_if (MAX_UPDATE_TREE_ENTRIES <=? len (us_entries snapshot))%N
    ("update tree exceeds the maximum entry count of " +:+ pretty MAX_UPDATE_TREE_ENTRIES);;
  path_bytes ← ok_or (entry_path_bytes (ue_path entry)) "update-tree path size overflowed";
  total ← ok_or (checked_add_u64 (us_total_path_bytes snapshot) path_bytes)
    "update-tree total path size overflowed";
  reject_if (MAX_UPDATE_TREE_PATH_BYTES <? total)%N
    ("update tree exceeds the maximum stored path size of " +:+ pretty MAX_UPDATE_TREE_PATH_BYTES +:+ " bytes");;
  Ok {| us_entries := us_entries snapshot ++ [entry];
        us_total_file_bytes := us_total_file_bytes snapshot; us_total_path_bytes := total |}.

Section scanning.
Context {crates : Crates}.

Definition file_too_large : string :=
  "update-tree file exceeds the maximum size of " +:+ pretty MAX_SINGLE_FILE_BYTES +:+ " bytes".

(** One round of the hashing loop: what was hashed and its size. *)
Definition hash_chunk (st : bytes * N) (chunk : bytes) : Scan (bytes * N) :=
  total ← ok_or (checked_add_u64 st.2 (len chunk)) "update-tree byte count overflowed";
  reject_if (MAX_SINGLE_FILE_BYTES <? total)%N file_too_large;;
  Ok (st.1 ++ chunk, total).

(** [stat.st_size as u64] *)
Definition size_as_u64 (size : Z) : N := Z.to_N (size mod 18446744073709551616).

Definition snapshot_update_file (scan : FileScan) (path : list string) (snapshot : UpdateTreeSnapshot) :
    Scan UpdateTreeSnapshot :=
  pinned ← fails_with "cannot inspect pinned update-tree file: " (fn_pinned scan);
  reject_if (st_nlink pinned != 1%N) "update tree contains a multiply linked regular file";;
  reject_if ((st_size pinned <? 0)%Z || (MAX_SINGLE_FILE_BYTES <? size_as_u64 (st_size pinned))%N)
    file_too_large;;
  must_open "cannot open pinned update-tree file: " (fn_open scan);;
  before ← fails_with "cannot inspect readable update-tree file: " (fn_before scan);
  reject_if ((file_type before != RegularFile) || (st_dev before != st_dev pinned) ||
             (st_ino before != st_ino pinned))
    "update-tree file changed before it could be read";;
  let '(chunks, failure) := read_chunks COPY_BUFFER (fn_data scan) in
  '(hashed, bytes_read) ← fold_result hash_chunk ([], 0%N) chunks;
  match failure with Some e => Err ("cannot hash update-tree file: " +:+ io_message e) | None => Ok tt end;;
  after ← fails_with "cannot re-inspect update-tree file: " (fn_after scan);
  reject_if (negb (update_scan_stat_is_stable before after) || (bytes_read != size_as_u64 (st_size before)))
    "update-tree file changed while it was snapshotted";;
  total ← ok_or (checked_add_u64 (us_total_file_bytes snapshot) bytes_read)
    "update-tree total byte count overflowed";
  reject_if (MAX_UPDATE_TREE_BYTES <? total)%N
    ("update tree exceeds the maximum total file size of " +:+ pretty MAX_UPDATE_TREE_BYTES +:+ " bytes");;
  push_update_tree_entry
    {| us_entries := us_entries snapshot; us_total_file_bytes := total;
       us_total_path_bytes := us_total_path_bytes snapshot |}
    {| ue_path := path; ue_kind := TreeFile; ue_mode := permission_bits before; ue_uid := st_uid before;
       ue_gid := st_gid before; ue_links := st_nlink before; ue_size := bytes_read;
       ue_sha256 := Some (Sha256_digest hashed) |}.

Fixpoint snapshot_update_directory (scan : DirScan) (path : list string) (depth : N)
    (snapshot : UpdateTreeSnapshot) : Scan UpdateTreeSnapshot :=
  match scan with
  | ScanDirectory before readable enumerable entries after =>
      reject_if (MAX_UPDATE_TREE_DEPTH <? depth)%N
        ("update tree exceeds the maximum depth of " +:+ pretty MAX_UPDATE_TREE_DEPTH);;
      before ← fails_with "cannot inspect update-tree directory: " before;
      reject_if (file_type before != Directory) "update-tree directory descriptor changed type";;
      snapshot ← push_update_tree_entry snapshot
        {| ue_path := path; ue_kind := TreeDirectory; ue_mode := permission_bits before;
           ue_uid := st_uid before; ue_gid := st_gid before; ue_links := st_nlink before;
           ue_size := 0; ue_sha256 := None |};
      must_open "cannot open pinned update-tree directory: " readable;;
      must_open "cannot enumerate pinned update-tree directory: " enumerable;;
      snapshot ← snapshot_update_entries entries path depth snapshot;
      after ← fails_with "cannot re-inspect update-tree directory: " after;
      reject_if (negb (update_scan_stat_is_stable before after))
        "update-tree directory changed while it was snapshotted";;
      Ok snapshot
  end
with snapshot_update_entries (entries : EntryScans) (path : list string) (depth : N)
    (snapshot : UpdateTreeSnapshot) : Scan UpdateTreeSnapshot :=
  match entries with
  | NoMoreEntries => Ok snapshot
  | EntryFails error => Err ("cannot read update-tree entry: " +:+ error)
  | Entry name scan rest =>
      if (name == ".") || (name == "..") then snapshot_update_entries rest path depth snapshot
      else
        snapshot ← snapshot_update_entry scan (path ++ [name]) depth snapshot;
        snapshot_update_entries rest path depth snapshot
  end
with snapshot_update_entry (scan : EntryScan) (path : list string) (depth : N)
    (snapshot : UpdateTreeSnapshot) : Scan UpdateTreeSnapshot :=
  match scan with
  | PinFails error => Err ("cannot pin update-tree entry: " +:+ error)
  | StatFails error => Err ("cannot inspect pinned update-tree entry: " +:+ error)
  | Scanned stat directory file =>
      match file_type stat with
      | Directory => snapshot_update_directory directory path (depth + 1) snapshot
      | RegularFile => snapshot_update_file file path snapshot
      | OtherFileType => Err "update tree contains a symlink or unsupported special entry"
      end
  end.

Definition path_le (a b : UpdateTreeEntry) : Prop := path_compare (ue_path a) (ue_path b) ≠ Gt.
#[export] Instance path_le_dec : RelDecision path_le.
Proof. intros a b. unfold path_le. apply _. Defined.

Definition empty_snapshot : UpdateTreeSnapshot :=
  {| us_entries := []; us_total_file_bytes := 0; us_total_path_bytes := 0 |}.

Definition snapshot_update_tree_descriptor (scan : DirScan) : Scan UpdateTreeSnapshot :=
  snapshot ← snapshot_update_directory scan [] 0 empty_snapshot;
  Ok {| us_entries := merge_sort path_le (us_entries snapshot);
        us_total_file_bytes := us_total_file_bytes snapshot;
        us_total_path_bytes := us_total_path_bytes snapshot |}.

Definition verify_update_tree_descriptor (scan : DirScan) (expected : UpdateTreeSnapshot) (phase : string) :
    Scan unit :=
  actual ← snapshot_update_tree_descriptor scan;
  reject_if (actual != expected) phase.

(** ** The candidate *)

Definition extracted_of (entry : UpdateTreeEntry) : ExtractedTreeEntry :=
  {| et_path := ue_path entry; et_kind := ue_kind entry; et_mode := ue_mode entry;
     et_size := ue_size entry; et_sha256 := ue_sha256 entry |}.

Definition receipt_entry (size : N) (digest : bytes) : ExtractedTreeEntry :=
  {| et_path := [INSTALL_RECEIPT_NAME]; et_kind := TreeFile; et_mode := 384; et_size := size;
     et_sha256 := Some digest |}.

Definition verify_candidate_matches_extracted_manifest (snapshot : UpdateTreeSnapshot)
    (expected : ExtractedTreeManifest) (receipt_size : N) (receipt_sha256 : bytes) : Scan unit :=
  reject_if (map extracted_of (us_entries snapshot) !=
             merge_sort tree_le (em_entries expected ++ [receipt_entry receipt_size receipt_sha256]))
    "extracted candidate tree does not match the verified package and local receipt".

End scanning.

(** ** Identities *)

Definition identity_of (stat : Stat) : TargetIdentity :=
  {| ti_device := st_dev stat; ti_inode := st_ino stat |}.

Definition target_identity_from_metadata (md : Metadata) : TargetIdentity :=
  {| ti_device := md_dev md; ti_inode := md_ino md |}.

(** [target_identity], on what [symlink_metadata] answers. *)
Definition target_identity (path : string) (md : IoError + Metadata) : PackageResult TargetIdentity :=
  match md with
  | inl e => Err (if io_kind e == NotFound then TargetMissing path else IoAt (path_place path) e)
  | inr md =>
      reject_if (md_is_symlink md) (SymlinkBoundary path);;
      reject_if (negb (md_is_dir md)) (NotManagedInstall path);;
      Ok (target_identity_from_metadata md)
  end.

Definition descriptor_identity (stat : Sys Stat) (label : string) : Scan TargetIdentity :=
  stat ← fails_with ("cannot inspect pinned " +:+ label +:+ ": ") stat;
  Ok (identity_of stat).

(** [open_pinned_directory_at]: what opening the name below the pinned parent
    answers, and then the metadata of what was opened. *)
Definition open_pinned_directory_at (opened : Sys (Sys Stat)) (label : string) : Scan TargetIdentity :=
  stat ← fails_with (label +:+ " is unavailable: ") opened;
  descriptor_identity stat label.

(** [pinned_entry_exists]: an error of [openat] is its number and text. *)
Definition NOENT : N := 2.
Definition pinned_entry_exists (opened : option (N * string)) : string + bool :=
  match opened with
  | None => inr true
  | Some (errno, text) => if (errno =? NOENT)%N then inr false else inl text
  end.

(** * What the installer asks of its surroundings *)

(** ** The text of errors *)

(** How the errors of other crates are shown. *)
Class ErrorTexts := {
  proof_error_text : ProofError → string;
  store_error_text : StoreError → string;
  ipc_error_text : LinuxIpcError → string;
  json_error_text : JsonError → string;
}.

Definition place_text (p : place) : string :=
  match reverse p with
  | "/" :: rest => "/" +:+ path_text rest
  | path => "/" +:+ path_text path
  end.

(** [OmarchyError]'s [Display] *)
Fixpoint omarchy_error_text `{!ErrorTexts} (error : OmarchyError) : string :=
  match error with
  | ProofFailure e => "proof verification failed: " +:+ proof_error_text e
  | StoreFailure e => "persona registry failed: " +:+ store_error_text e
  | IoAt path e => "cannot access " +:+ place_text path +:+ ": " +:+ io_message e
  | ArchiveIo e => "archive processing failed: " +:+ io_message e
  | PackageSnapshot e => "cannot create immutable package snapshot: " +:+ ipc_error_text e
  | PackageTooLarge actual maximum =>
      "package exceeds the " +:+ pretty maximum +:+ " byte compressed-size limit: " +:+ pretty actual +:+ " bytes"
  | InvalidPackage reason => "invalid package: " +:+ reason
  | UnsafeArchiveEntry path reason => "unsafe archive entry '" +:+ path +:+ "': " +:+ reason
  | ArchiveLimit name maximum => "archive exceeds the " +:+ name +:+ " limit of " +:+ pretty maximum
  | DuplicateArchivePath path => "archive contains duplicate path: " +:+ path
  | MissingManifest => "archive is missing a root manifest.json"
  | ManifestJson e => "manifest JSON is invalid: " +:+ json_error_text e
  | InvalidManifest reason => "invalid Omarchy manifest: " +:+ reason
  | UnrecognizedPublisher fp => "publisher key is not locally recognized: " +:+ fp
  | EvidenceOnlyPublisher fp =>
      "publisher key is evidence-only/quarantined imported continuity evidence, not installation authority: " +:+ fp
  | ArchivedPublisher fp => "publisher persona is archived and cannot authorize installation: " +:+ fp
  | TerminalPublisher fp =>
      "publisher persona is permanently deauthorized and cannot authorize installation: " +:+ fp
  | InactivePublisher fp status => "publisher key is " +:+ status +:+ ": " +:+ fp
  | PublisherLabelMismatch => "signed persona label does not match the local publisher label"
  | SymlinkBoundary path => "refusing symbolic link at installation boundary: " +:+ path
  | TargetExists path => "plugin is already installed: " +:+ path
  | TargetMissing path => "plugin is not installed: " +:+ path
  | PluginsDirectoryMissing path => "Omarchy plugins directory does not exist: " +:+ path
  | NotManagedInstall path => "installed plugin is not managed by A Quo: " +:+ path
  | InvalidInstallReceipt reason => "invalid A Quo installation receipt: " +:+ reason
  | PublisherContinuityMismatch =>
      "update publisher is not the same locally recognized persona as the installer"
  | InvalidSemanticVersion version reason =>
      "plugin version must be semantic versioning: " +:+ version +:+ ": " +:+ reason
  | VersionNotNewer installed candidate =>
      "candidate version " +:+ candidate +:+ " is not newer than installed version " +:+ installed
  | StaleEnabledConfiguration id =>
      "plugin id is already referenced by Omarchy configuration and could load immediately: " +:+ id
  | InvalidShellConfiguration reason => "cannot safely inspect Omarchy shell configuration: " +:+ reason
  | UnsafeSystemCommand path => "trusted Omarchy command is unavailable or unsafe: " +:+ path
  | ManifestValidationFailed status => "Omarchy manifest validation failed with exit status " +:+ status
  | AtomicInstall reason => "atomic plugin installation failed: " +:+ reason
  | InstallFailedRetained cause state =>
      "plugin installation failed before exposure: " +:+ omarchy_error_text cause +:+ "; " +:+ state
  | InstallAuthorizationRefused cause state =>
      "plugin install authorization failed before exposure: " +:+ omarchy_error_text cause +:+ "; " +:+ state
  | InstallAuthorizationFinalizationFailed reason =>
      "plugin install authorization finalization failed after exposure: " +:+ reason
  | InstallRolledBack reason =>
      "plugin installation failed after exposure; the exact candidate was rolled back: " +:+ reason
  | InstallRollbackFailed reason => "plugin install rollback needs manual attention: " +:+ reason
  | InstallStateIndeterminate reason => "plugin install state needs manual attention: " +:+ reason
  | AtomicUpdate reason => "atomic plugin update failed: " +:+ reason
  | UpdateAuthorizationRefused cause state =>
      "plugin update authorization failed before exchange: " +:+ omarchy_error_text cause +:+ "; " +:+ state
  | UpdateAuthorizationFinalizationFailed reason =>
      "plugin update authorization finalization failed after exchange: " +:+ reason
  | UpdateRolledBack reason => "Omarchy shell rescan failed; the previous plugin was restored: " +:+ reason
  | UpdateRollbackFailed reason => "plugin update rollback needs manual attention: " +:+ reason
  | UpdateStateIndeterminate reason => "plugin update state needs manual attention: " +:+ reason
  | ReferencedPluginRemoval id =>
      "plugin is referenced by Omarchy configuration and must be unreferenced before removal: " +:+ id
  | AtomicRemoval reason => "atomic plugin removal failed: " +:+ reason
  | RemovalRolledBack reason => "Omarchy shell rescan failed; the removed plugin was restored: " +:+ reason
  | RemovalRollbackFailed reason => "plugin removal rollback needs manual attention: " +:+ reason
  | RemovalStateIndeterminate reason => "plugin removal state needs manual attention: " +:+ reason
  end.

(** ** Data *)

Record InstallReceipt := {
  ir_schema_version : N;
  ir_plugin_id : string;
  ir_version : string;
  ir_package_sha256 : string;
  ir_publisher_key_fingerprint : string;
  ir_publisher_persona_id : string;
  ir_installed_at_unix_seconds : N;
}.

Definition RECEIPT_SCHEMA_VERSION : N := 1.

Inductive ShellRescanStatus := RescanPassed.
Inductive DiskPurgeStatus := PurgeNotPerformed | AutomaticTemporaryCleanup.
Inductive BehavioralAnalysisStatus := AnalysisNotRun.
Inductive TrustedConsentStatus := ConsentNotRun.

Record InstallOutcome := {
  io_plugin_id : string;
  io_version : string;
  io_a_quo_enablement_action : AQuoEnablementAction;
  io_omarchy_manifest_validation : OmarchyManifestValidationStatus;
  io_shell_rescan : ShellRescanStatus;
  io_retained_staging : string;
  io_staging_retained : bool;
  io_disk_purge : DiskPurgeStatus;
  io_behavioral_analysis : BehavioralAnalysisStatus;
  io_trusted_consent : TrustedConsentStatus;
  io_runtime_safety : RuntimeSafetyStatus;
}.

(** The directories that are held open: the plugins directory; the staging
    directory of an installation and the candidate in it; the managed plugin that
    is removed, its quarantine and the plugin in there; the recovery directory of
    an update and the release that is installed. *)
Inductive Pinned :=
| Plugins | Staging | Candidate
| Target | Quarantine | Quarantined
| Recovery | Installed.

#[export] Instance Pinned_eq_dec : EqDecision Pinned.
Proof. solve_decision. Defined.

(** ** Files that are copied, sealed and written *)

(** The answers while a package is copied: opening its source (a symbolic link
    is refused), its metadata, creating the copy, the number of bytes copied of
    at most the maximum and one more, flushing, setting the mode and syncing. *)
Inductive SourceOpen := SourceLoop | SourceFails (error : IoError) | SourceOpened (md : IoError + Metadata).
Record PackageCopy := {
  pc_source : SourceOpen;
  pc_create : option IoError;
  pc_copied : IoError + N;
  pc_flush : option IoError;
  pc_secure : option IoError;
  pc_sync : option IoError;
}.

Definition io_at (path : string) (error : option IoError) : PackageResult unit :=
  match error with Some e => Err (IoAt (path_place path) e) | None => Ok tt end.

Definition open_package_source (copy : PackageCopy) (source : string) : PackageResult (IoError + Metadata) :=
  match pc_source copy with
  | SourceLoop => Err (SymlinkBoundary source)
  | SourceFails e => Err (IoAt (path_place source) e)
  | SourceOpened md => Ok md
  end.

Definition copy_package_once (copy : PackageCopy) (source destination : string) : PackageResult unit :=
  md ← open_package_source copy source;
  md ← map_err (IoAt (path_place source)) (of_sum md);
  reject_if (negb (md_is_file md)) (InvalidPackage "package source must be a regular file");;
  reject_if (MAX_COMPRESSED_BYTES <? md_len md)%N (PackageTooLarge (md_len md) MAX_COMPRESSED_BYTES);;
  io_at destination (pc_create copy);;
  copied ← map_err (IoAt (path_place destination)) (of_sum (pc_copied copy));
  reject_if (MAX_COMPRESSED_BYTES <? copied)%N (PackageTooLarge copied MAX_COMPRESSED_BYTES);;
  reject_if (copied != md_len md) (InvalidPackage "package changed while it was copied into staging");;
  io_at destination (pc_flush copy);;
  io_at destination (pc_secure copy);;
  io_at destination (pc_sync copy).

(** The answers while the copy is sealed. *)
Record PackageSeal := {
  pl_metadata : IoError + Metadata;
  pl_open : IoError + File;
  pl_memfd : Memfd;
}.

Definition snapshot_staged_package `{!Crates} (seal : PackageSeal) (path : string) : PackageResult SealedArtifact :=
  md ← map_err (IoAt (path_place path)) (of_sum (pl_metadata seal));
  reject_if (md_is_symlink md || negb (md_is_file md))
    (InvalidPackage "staged package must be a regular, non-symlink file");;
  source ← map_err (IoAt (path_place path)) (of_sum (pl_open seal));
  map_err PackageSnapshot (snapshot_artifact (pl_memfd seal) source MAX_COMPRESSED_BYTES).

(** The answers while a receipt is written. *)
Record ReceiptWrite := {
  rw_create : option IoError;
  rw_secure : option IoError;
  rw_write : option IoError;
  rw_sync : option IoError;
}.

Definition write_receipt_bytes (answers : ReceiptWrite) (path : string) : PackageResult unit :=
  io_at path (rw_create answers);;
  io_at path (rw_secure answers);;
  io_at path (rw_write answers);;
  io_at path (rw_sync answers).

(** The answers while a file is opened without following links and read: opening
    it, its metadata before and after, and what the reads find. *)
Record FileRead := {
  rd_open : option string;
  rd_before : IoError + Metadata;
  rd_data : Stream;
  rd_after : IoError + Metadata;
}.

(** ** Commands of the desktop *)

(** [std::process::ExitStatus] *)
Record ExitStatus := { ex_success : bool; ex_text : string }.

(** The answers while the validator runs on a pinned directory: duplicating the
    descriptor, whether it is closed on exec before and after, and how the
    command ended. *)
Record ValidatorRun := {
  vl_duplicate : option string;
  vl_cloexec : Sys bool;
  vl_status : IoError + ExitStatus;
  vl_cloexec_after : Sys bool;
}.

Definition run_validator_for_descriptor (run : ValidatorRun) (validator : string) : PackageResult unit :=
  let failed := λ text, ManifestValidationFailed text in
  match vl_duplicate run with
  | Some e => Err (failed ("cannot duplicate the pinned plugin root for validation: " +:+ e))
  | None => Ok tt
  end;;
  cloexec ← map_err (λ e, failed ("cannot inspect the validator descriptor flags: " +:+ e))
    (of_sum (vl_cloexec run));
  reject_if (negb cloexec) (failed "the validator descriptor was not created close-on-exec");;
  status ← map_err (IoAt (path_place validator)) (of_sum (vl_status run));
  cloexec ← map_err (λ e, failed ("cannot recheck the validator descriptor flags: " +:+ e))
    (of_sum (vl_cloexec_after run));
  reject_if (negb cloexec) (failed "the validator descriptor lost close-on-exec in the parent");;
  reject_if (negb (ex_success status)) (failed (ex_text status)).

Definition run_validator (status : IoError + ExitStatus) (validator : string) : PackageResult unit :=
  status ← map_err (IoAt (path_place validator)) (of_sum status);
  reject_if (negb (ex_success status)) (ManifestValidationFailed (ex_text status)).

Definition run_rescan (status : IoError + ExitStatus) : result string unit :=
  match status with
  | inr status => reject_if (negb (ex_success status)) (ex_text status)
  | inl error => Err (io_message error)
  end.

(** [validate_system_command], on what [symlink_metadata] answers. *)
Definition validate_system_command_permissions (path : string) (md : Metadata) : PackageResult unit :=
  reject_if ((N.land (md_mode md) 73 == 0%N) || (N.land (md_mode md) 18 != 0%N) ||
             negb ((md_uid md == 0%N) || (md_uid md == 65534%N))) (UnsafeSystemCommand path).

Definition validate_system_command (path : string) (md : IoError + Metadata) : PackageResult unit :=
  md ← map_err (λ _, UnsafeSystemCommand path) (of_sum md);
  reject_if (md_is_symlink md || negb (md_is_file md)) (UnsafeSystemCommand path);;
  validate_system_command_permissions path md.

(** ** Calls *)

Inductive RescanPhase := InitialRescan | RecoveryRescan.

Inductive Call :=
| SymlinkMetadata (path : string)
| PathExists (path : string)
| CreateDirAll (path : string)
| CreateStaging (prefix plugins_directory : string)
| LoadProof (path : string)
| CopyPackage (source destination : string)
| SealPackage (path : string)
| DescribePackage (package : SealedArtifact)
| ReadStore
| ReadShellConfiguration
| Extract (package : SealedArtifact) (destination : string)
| Now
| WriteReceipt (path : string) (bs : bytes)
| PinPath (path : string)
| FstatPath (path : string)
| ScanPath (path : string)
| Fstat (pinned : Pinned)
| ScanPinned (pinned : Pinned)
| OpenDirectoryAt (pinned : Pinned) (name : string)
| OpenEntryAt (pinned : Pinned) (name : string)
| RenameNoReplace (from : Pinned) (name : string) (to : Pinned) (new_name : string)
| RenameExchange (from : Pinned) (name : string) (to : Pinned) (new_name : string)
| ReadFile (path : string)
| ReadPinnedFile (path : string) (maximum : N)
| RunValidator (validator : string)
| RunValidatorAt (validator path : string)
| RunRescan (shell : string) (phase : RescanPhase)
| BeginAuthorization
| CommitAuthorization.

(** The answers. A path that is pinned can fail to be opened, and its
    descriptor can fail to be inspected; an [openat] that fails names its error.
    A transaction that begins shows the store as it is until it ends. *)
Definition Answer (c : Call) : Type :=
  match c with
  | SymlinkMetadata _ => IoError + Metadata
  | PathExists _ => bool
  | CreateDirAll _ => option IoError
  | CreateStaging _ _ => IoError + string * string
  | LoadProof _ => Fs
  | CopyPackage _ _ => PackageCopy
  | SealPackage _ => PackageSeal
  | DescribePackage _ => Result ArtifactDescriptor * PackageFile
  | ReadStore => StoreView
  | ReadShellConfiguration => ShellFiles
  | Extract _ _ => DiskEnv * Disk * PackageFile
  | Now => string + N
  | WriteReceipt _ _ => ReceiptWrite
  | PinPath _ => option string
  | FstatPath _ => Sys Stat
  | ScanPath _ => DirScan
  | Fstat _ => Sys Stat
  | ScanPinned _ => DirScan
  | OpenDirectoryAt _ _ => Sys (Sys Stat)
  | OpenEntryAt _ _ => option (N * string)
  | RenameNoReplace _ _ _ _ => option string
  | RenameExchange _ _ _ _ => option string
  | ReadFile _ => IoError + bytes
  | ReadPinnedFile _ _ => FileRead
  | RunValidator _ => ValidatorRun
  | RunValidatorAt _ _ => IoError + ExitStatus
  | RunRescan _ _ => IoError + ExitStatus
  | BeginAuthorization => StoreError + StoreView
  | CommitAuthorization => option StoreError
  end.

Abbreviation installer := (prog Answer).
Abbreviation step_of c := (call (Answer:=Answer) c).

(** Going on with a failure as a value. *)
Definition attempt {E F A} (p : installer E A) : installer F (E + A) :=
  handle (λ r, match r with
               | Ok a => Ret (Ok (inr a))
               | Err e => Ret (Ok (inl e))
               | Panic s => Ret (Panic s)
               end) p.

(** [.is_ok()], and [.map(|x| x == expected).unwrap_or(false)] *)
Definition holds_ok {E F} (p : installer E bool) : installer F bool :=
  r ← attempt p;
  mret match r with inr b => b | inl _ => false end.
