(* ===== verification/Install.v ===== *)
(** * Installing a package on Linux
    ([crates/a-quo-omarchy/src/install/operation/install.rs] and
    [install_transaction.rs], with [authorization.rs], [staging.rs] and
    [receipt.rs])

    A package is copied into a private staging directory, sealed, verified and
    unpacked there. The unpacked candidate is pinned by descriptors and, while
    the store holds the publisher's authorization, renamed to its live name. When
    something fails after that, the rename is undone. *)

From stdpp Require Import base numbers list strings pretty sorting option gmap.
From Stdlib Require Import Strings.Byte Ascii.
From S2P Require Import Prelude Text Ordered Display Crates Io ArtifactProof Continuity RecoveryPolicy RecoveryChain.
From S2P Require Import Names Fields IpcProtocol Transport StoreTypes StoreCommon Backup BackupVerify Tables StoredKeys Journal Store.
From S2P Require Import Interaction Disk Package PackageArchive PackageFacts PackageTrust ShellReference Installer.

(** A result of its own. *)
Definition give {E A} (r : result E A) : installer E A := Ret r.

Definition refuse_if {E} (bad : bool) (e : E) : installer E unit := give (reject_if bad e).

(** [Path::join], [file_name] and [parent] *)
Definition path_join (directory name : string) : string := directory +:+ "/" +:+ name.

Definition file_name (path : string) : option string :=
  match list.last (path_components path) with
  | Some name => if is_normal_component name then Some name else None
  | None => None
  end.

Definition path_parent (path : string) : option string :=
  match reverse (path_components path) with
  | [] => None
  | ["/"] => None
  | _ :: parent =>
      match reverse parent with
      | "/" :: rest => Some ("/" +:+ path_text rest)
      | components => Some (path_text components)
      end
  end.

(** What came of an authorization; [X] is what the variables that the operation captures hold when it fails. *)
Inductive FinalAuthorization (T X : Type) :=
| Authorized (completed : T)
| Refused (cause : OmarchyError)
| OperationFailed (cause : OmarchyError) (captured : X)
| FinalizationFailed (completed : T) (cause : OmarchyError)
| CompletedWithoutValue.
Arguments Authorized {T X} completed.
Arguments Refused {T X} cause.
Arguments OperationFailed {T X} cause captured.
Arguments FinalizationFailed {T X} completed cause.
Arguments CompletedWithoutValue {T X}.

Section install.
Context {crates : Crates} {uuids : Uuids} {materializations : Materializations}
  {json_root_proof : Serde PersonaRootProof} {json_policy_proof : Serde RecoveryPolicyProof}
  {json_transition_proof : Serde PersonaTransitionProof}
  {json_recovery_proof : Serde RecoveryTransitionProof}
  {json_entry : Serde PersonaContinuityTransitionProof}
  {json_terminal_proof : Serde TerminalPersonaRevocationProof}
  {json_archive : Serde BackupContinuityArchive} {json_backup : Serde PersonaBackup}
  {pretty_backup : SerdePretty PersonaBackup}
  {json_root : Serde PersonaRootStatement} {json_transition : Serde PersonaTransitionStatement}
  {json_policy : Serde RecoveryPolicyStatement} {json_recovery : Serde RecoveryTransitionStatement}
  {json_terminal : Serde TerminalPersonaRevocationStatement}
  {json_statement : Serde ArtifactStatement} {json_bundle : Serde ProofBundle}
  {formats : ArchiveFormats} {semver : Semver} {json_manifest : Serde OmarchyManifest}
  {shell_json : ShellJson} {pretty_receipt : SerdePretty InstallReceipt} {texts : ErrorTexts}.

(** ** Observations *)

Definition path_identity (path : string) : installer OmarchyError TargetIdentity :=
  md ← step_of (SymlinkMetadata path);
  give (target_identity path md).

(** [target_identity(path).map_err(|error| format!("{prefix}{error}"))] *)
Definition path_identity_for (prefix path : string) : installer string TargetIdentity :=
  map_error (λ e, prefix +:+ omarchy_error_text e) (path_identity path).

Definition pinned_identity (pinned : Pinned) (label : string) : installer string TargetIdentity :=
  stat ← step_of (Fstat pinned);
  give (descriptor_identity stat label).

Definition opened_identity (pinned : Pinned) (name label : string) : installer string TargetIdentity :=
  opened ← step_of (OpenDirectoryAt pinned name);
  give (open_pinned_directory_at opened label).

(** [a? != x || b? != y || ...], which stops at the first that differs. *)
Fixpoint any_differs {E} (checks : list (installer E TargetIdentity * TargetIdentity)) : installer E bool :=
  match checks with
  | [] => mret false
  | (observe, expected) :: checks' =>
      actual ← observe;
      if actual != expected then mret true else any_differs checks'
  end.

Definition verify_tree (tree : Pinned) (expected : UpdateTreeSnapshot) (phase : string) : installer string unit :=
  scan ← step_of (ScanPinned tree);
  give (verify_update_tree_descriptor scan expected phase).

(** A directory that is kept is still private. *)
Definition require_private (directory : Pinned) (inspect_text changed_text : string) : installer string unit :=
  stat ← step_of (Fstat directory);
  stat ← give (fails_with inspect_text stat);
  refuse_if (permission_bits stat != 448%N) changed_text.

(** [pinned_entry_exists] with its three outcomes. *)
Definition require_absent {E} (pinned : Pinned) (name : string) (exists_error : E) (unknown : string → E) :
    installer E unit :=
  opened ← step_of (OpenEntryAt pinned name);
  give match pinned_entry_exists opened with
       | inr false => Ok tt
       | inr true => Err exists_error
       | inl error => Err (unknown error)
       end.

Definition reject_existing_target (path : string) : installer OmarchyError unit :=
  md ← step_of (SymlinkMetadata path);
  give match md with
       | inr _ => Err (TargetExists path)
       | inl e => if io_kind e == NotFound then Ok tt else Err (IoAt (path_place path) e)
       end.

Definition prepare_plugins_directory (path : string) : installer OmarchyError unit :=
  there ← step_of (PathExists path);
  (if there : bool then mret tt
   else created ← step_of (CreateDirAll path); give (io_at path created));;
  md ← step_of (SymlinkMetadata path);
  md ← give (map_err (IoAt (path_place path)) (of_sum md));
  refuse_if (md_is_symlink md) (SymlinkBoundary path);;
  refuse_if (negb (md_is_dir md)) (InvalidPackage ("plugins path is not a directory: " +:+ path)).

Definition retained_install_staging_directory (plugins_directory : string) : installer OmarchyError string :=
  created ← step_of (CreateStaging ".a-quo-install-" plugins_directory);
  '(staging_path, retained_path) ← give (map_err (IoAt (path_place plugins_directory)) (of_sum created));
  refuse_if (negb (path_eqb retained_path staging_path))
    (InstallStateIndeterminate "install staging path changed while automatic cleanup was disabled");;
  mret staging_path.

Definition reject_stale (plugins_directory plugin_id : string) : installer OmarchyError unit :=
  files ← step_of ReadShellConfiguration;
  give (reject_stale_enabled_configuration files (path_parent plugins_directory) plugin_id).

Definition snapshot_update_tree_path (path : string) (expected : TargetIdentity) :
    installer string UpdateTreeSnapshot :=
  opened ← step_of (PinPath path);
  give (must_open ("cannot pin update tree " +:+ path +:+ ": ") opened);;
  stat ← step_of (FstatPath path);
  identity ← give (descriptor_identity stat "update tree");
  refuse_if (identity != expected) ("update tree identity changed before it could be snapshotted: " +:+ path);;
  scan ← step_of (ScanPath path);
  snapshot ← give (snapshot_update_tree_descriptor scan);
  identity ← path_identity_for "cannot revalidate update-tree path: " path;
  refuse_if (identity != expected) ("update tree path changed while it was snapshotted: " +:+ path);;
  mret snapshot.

(** ** The receipt *)

Definition build_receipt_for_artifact (artifact : ArtifactDescriptor) (inspection : PluginInspection)
    (publisher_persona_id : string) : installer OmarchyError InstallReceipt :=
  now ← step_of Now;
  now ← give (map_err (λ e, InvalidInstallReceipt ("system clock predates the Unix epoch: " +:+ e)) (of_sum now));
  mret {| ir_schema_version := RECEIPT_SCHEMA_VERSION; ir_plugin_id := om_id (pi_manifest inspection);
          ir_version := om_version (pi_manifest inspection);
          ir_package_sha256 := dg_value (ad_digest artifact);
          ir_publisher_key_fingerprint := signer_fingerprint inspection;
          ir_publisher_persona_id := publisher_persona_id; ir_installed_at_unix_seconds := now |}.

Definition write_install_receipt (plugin_directory : string) (receipt : InstallReceipt) :
    installer OmarchyError (N * bytes) :=
  let path := path_join plugin_directory INSTALL_RECEIPT_NAME in
  text ← give (map_err ManifestJson (of_sum (json_to_vec_pretty receipt)));
  let bs := text ++ [byte_of 10] in
  refuse_if (MAX_RECEIPT_BYTES <? len bs)%N
    (InvalidInstallReceipt "serialized receipt exceeds its size limit");;
  answers ← step_of (WriteReceipt path bs);
  give (write_receipt_bytes answers path);;
  mret (len bs, Sha256_digest bs).

(** ** The pinned candidate *)

Record PinnedInstall := {
  pn_plugins_identity : TargetIdentity;
  pn_staging_identity : TargetIdentity;
  pn_candidate_identity : TargetIdentity;
  pn_candidate_snapshot : UpdateTreeSnapshot;
  pn_staging_name : string;
  pn_staging_path : string;
}.

Record InstallBaselines := {
  bl_plugins_identity : TargetIdentity;
  bl_staging_identity : TargetIdentity;
  bl_candidate_identity : TargetIdentity;
  bl_candidate_snapshot : UpdateTreeSnapshot;
}.

Definition device_inode (identity : TargetIdentity) : string :=
  "device " +:+ pretty (ti_device identity) +:+ " inode " +:+ pretty (ti_inode identity).

(** [target_identity(path).map(|identity| identity == expected).unwrap_or(false)] *)
Definition path_matches {E} (path : string) (expected : TargetIdentity) : installer E bool :=
  holds_ok (identity ← path_identity path; mret (identity == expected)).

Definition opened_matches {E} (pinned : Pinned) (name label : string) (expected : TargetIdentity) :
    installer E bool :=
  holds_ok (identity ← opened_identity pinned name label; mret (identity == expected)).

Definition pinned_matches {E} (pinned : Pinned) (label : string) (expected : TargetIdentity) : installer E bool :=
  holds_ok (identity ← pinned_identity pinned label; mret (identity == expected)).

Definition tree_matches {E} (tree : Pinned) (expected : UpdateTreeSnapshot) (phase : string) : installer E bool :=
  holds_ok (verify_tree tree expected phase;; mret true).

Definition describe_retained_install_staging {E} (staging_path plugins_directory : string)
    (expected_plugins expected_staging : TargetIdentity) : installer E string :=
  plugins_path_matches ← path_matches plugins_directory expected_plugins;
  staging_path_matches ← path_matches staging_path expected_staging;
  mret (if (plugins_path_matches && staging_path_matches)
        then "retained install staging was revalidated at " +:+ staging_path
        else "retained install staging was identified as " +:+ device_inode expected_staging +:+
          " beneath the original plugins root " +:+ device_inode expected_plugins +:+
          ", but its pathname is indeterminate").

Definition install_failed_retained {A} (cause : OmarchyError) (staging_path plugins_directory : string)
    (expected_plugins expected_staging : TargetIdentity) : installer OmarchyError A :=
  state ← describe_retained_install_staging staging_path plugins_directory expected_plugins expected_staging;
  give (Err (InstallFailedRetained cause state)).

Definition describe_pinned_install_root {E} (pinned : PinnedInstall) : installer E string :=
  staging_descriptor ← pinned_matches Staging "install staging root" (pn_staging_identity pinned);
  candidate_descriptor ← pinned_matches Candidate "install candidate" (pn_candidate_identity pinned);
  candidate_tree ← tree_matches Candidate (pn_candidate_snapshot pinned) "install candidate tree changed";
  external_path ← path_matches (pn_staging_path pinned) (pn_staging_identity pinned);
  parent_mapping ← opened_matches Plugins (pn_staging_name pinned) "reported install staging root"
    (pn_staging_identity pinned);
  candidate_mapping ← opened_matches Staging "plugin" "staged install candidate" (pn_candidate_identity pinned);
  mret (if (staging_descriptor && candidate_descriptor && candidate_tree && external_path &&
            parent_mapping && candidate_mapping)
        then "the exact install candidate was revalidated at " +:+ pn_staging_path pinned +:+ "/plugin"
        else if (staging_descriptor && candidate_descriptor && candidate_tree)
        then "the install staging was last revalidated through its pinned descriptor as " +:+
          device_inode (pn_staging_identity pinned) +:+ " and the candidate as " +:+
          device_inode (pn_candidate_identity pinned) +:+
          ", but their pathnames are indeterminate and no descriptor remains open after this operation returns"
        else "the retained install staging or candidate could not be revalidated and requires manual filesystem inspection").

Definition install_failed_with_pinned_state {A} (cause : OmarchyError) (pinned : PinnedInstall) :
    installer OmarchyError A :=
  state ← describe_pinned_install_root pinned;
  give (Err (InstallFailedRetained cause state)).

(** [.map_err(f)] with an [f] that looks at the file system. *)
Definition or_else {E F A} (p : installer E A) (f : E → installer F A) : installer F A :=
  r ← attempt p;
  match r with inr a => mret a | inl e => f e end.

Definition prepare_pinned_install (plugins_directory staging_path plugin_id : string)
    (baselines : InstallBaselines) : installer OmarchyError PinnedInstall :=
  let indeterminate := InstallStateIndeterminate in
  opened ← step_of (PinPath plugins_directory);
  give (map_err indeterminate (must_open ("cannot pin plugins directory " +:+ plugins_directory +:+ ": ") opened));;
  plugins_identity ← map_error indeterminate (pinned_identity Plugins "plugins directory");
  changed ← any_differs [(mret plugins_identity, bl_plugins_identity baselines);
                         (path_identity plugins_directory, bl_plugins_identity baselines)];
  refuse_if changed
    (indeterminate ("plugins directory changed after install staging began: " +:+ plugins_directory));;
  staging_name ← give (ok_or (file_name staging_path) (indeterminate "install staging directory has no basename"));
  staging_identity ← map_error indeterminate
    (opened_identity Plugins staging_name "install staging directory");
  changed ← any_differs [(mret staging_identity, bl_staging_identity baselines);
                         (path_identity staging_path, bl_staging_identity baselines)];
  refuse_if changed
    (indeterminate ("install staging directory changed while it was pinned: " +:+ staging_path));;
  map_error indeterminate (require_private Staging "cannot inspect pinned install staging directory: "
    ("pinned install staging directory is not mode 0700: " +:+ staging_path));;
  candidate_identity ← map_error indeterminate
    (opened_identity Staging "plugin" "staged install candidate");
  refuse_if (candidate_identity != bl_candidate_identity baselines)
    (indeterminate "staged install candidate changed while it was pinned");;
  map_error indeterminate (verify_tree Candidate (bl_candidate_snapshot baselines)
    "staged install candidate changed before validation");;
  require_absent Plugins plugin_id (TargetExists (path_join plugins_directory plugin_id))
    (λ e, indeterminate ("cannot prove the live install target is absent: " +:+ e));;
  mret {| pn_plugins_identity := plugins_identity; pn_staging_identity := staging_identity;
          pn_candidate_identity := candidate_identity;
          pn_candidate_snapshot := bl_candidate_snapshot baselines;
          pn_staging_name := staging_name; pn_staging_path := staging_path |}.

(** [PinnedInstall::validate_candidate_with] *)
Definition validate_candidate_with (pinned : PinnedInstall) (validate : installer OmarchyError unit) :
    installer OmarchyError unit :=
  or_else validate (λ cause, install_failed_with_pinned_state cause pinned);;
  or_else (verify_tree Candidate (pn_candidate_snapshot pinned)
    "staged install candidate changed during pinned-root manifest validation")
    (λ error, state ← describe_pinned_install_root pinned;
              give (Err (InstallStateIndeterminate (error +:+ "; " +:+ state)))).

(** The three descriptors still are what was pinned. *)
Definition descriptors_differ (pinned : PinnedInstall) : installer string bool :=
  any_differs [(pinned_identity Plugins "plugins directory", pn_plugins_identity pinned);
               (pinned_identity Staging "install staging root", pn_staging_identity pinned);
               (pinned_identity Candidate "install candidate", pn_candidate_identity pinned)].

(** The name below a pinned directory opens the directory that is expected. *)
Definition require_mapping (pinned : Pinned) (name label : string) (expected : TargetIdentity)
    (changed : string) : installer string unit :=
  identity ← opened_identity pinned name label;
  refuse_if (identity != expected) changed.

Definition verify_install_source_before_rename (pinned : PinnedInstall) (plugins_directory : string) :
    installer string unit :=
  changed ← descriptors_differ pinned;
  refuse_if changed "a pinned install descriptor changed before exposure";;
  verify_tree Candidate (pn_candidate_snapshot pinned) "install candidate tree changed before exposure";;
  require_mapping Plugins (pn_staging_name pinned) "install staging root before exposure"
    (pn_staging_identity pinned) "install staging mapping changed before exposure";;
  require_mapping Staging "plugin" "install candidate before exposure"
    (pn_candidate_identity pinned) "install candidate mapping changed before exposure";;
  require_private Staging "cannot inspect pinned install staging: " "install staging is no longer mode 0700";;
  changed ← any_differs
    [(path_identity_for "cannot revalidate plugins-directory path: " plugins_directory, pn_plugins_identity pinned);
     (path_identity_for "cannot revalidate install-staging path: " (pn_staging_path pinned), pn_staging_identity pinned)];
  refuse_if changed "an external install parent path changed before exposure".

Definition verify_install_layout (pinned : PinnedInstall) (plugins_directory plugin_id : string) :
    installer string unit :=
  changed ← descriptors_differ pinned;
  refuse_if changed "a pinned install descriptor changed during exposure";;
  verify_tree Candidate (pn_candidate_snapshot pinned) "installed candidate tree changed during exposure or rescan";;
  require_mapping Plugins plugin_id "live install target" (pn_candidate_identity pinned)
    "live install target is not the pinned candidate";;
  require_absent Staging "plugin" "install staging still contains a plugin entry"
    (λ e, "cannot verify that install staging no longer contains the candidate: " +:+ e);;
  require_mapping Plugins (pn_staging_name pinned) "reported install staging root"
    (pn_staging_identity pinned) "reported install staging path changed during rescan";;
  require_private Staging "cannot inspect pinned install staging: " "install staging is no longer mode 0700";;
  changed ← any_differs
    [(path_identity_for "cannot revalidate plugins-directory path: " plugins_directory, pn_plugins_identity pinned);
     (path_identity_for "cannot revalidate install-staging path: " (pn_staging_path pinned), pn_staging_identity pinned);
     (path_identity_for "cannot revalidate live install target: " (path_join plugins_directory plugin_id),
      pn_candidate_identity pinned)];
  refuse_if changed "an external install path no longer names the pinned layout".

Definition verify_rolled_back_install_layout (pinned : PinnedInstall) (plugins_directory plugin_id : string) :
    installer string unit :=
  changed ← descriptors_differ pinned;
  refuse_if changed "a pinned install descriptor changed during rollback";;
  verify_tree Candidate (pn_candidate_snapshot pinned) "rolled-back install candidate tree changed";;
  require_absent Plugins plugin_id "live install target still exists after rollback"
    (λ e, "cannot prove the live install target is absent after rollback: " +:+ e);;
  require_mapping Staging "plugin" "rolled-back install candidate" (pn_candidate_identity pinned)
    "install staging does not contain the pinned candidate after rollback";;
  require_mapping Plugins (pn_staging_name pinned) "reported install staging root after rollback"
    (pn_staging_identity pinned) "reported install staging path changed during rollback";;
  require_private Staging "cannot inspect pinned install staging: " "install staging is no longer mode 0700";;
  changed ← any_differs
    [(path_identity_for "cannot revalidate plugins-directory path: " plugins_directory, pn_plugins_identity pinned);
     (path_identity_for "cannot revalidate install-staging path: " (pn_staging_path pinned), pn_staging_identity pinned);
     (path_identity_for "cannot revalidate rolled-back candidate path: "
        (path_join (pn_staging_path pinned) "plugin"), pn_candidate_identity pinned)];
  refuse_if changed "an external install path no longer names the rolled-back layout".

(** The rename that makes the plugin live. An error comes with the value of
    [rename_completed]. *)
Definition expose_pinned_install_no_replace (pinned : PinnedInstall) (plugins_directory plugin_id : string) :
    installer (OmarchyError * bool) unit :=
  map_error (λ e, (InstallStateIndeterminate e, false))
    (verify_install_source_before_rename pinned plugins_directory);;
  renamed ← step_of (RenameNoReplace Staging "plugin" Plugins plugin_id);
  give match renamed with
       | Some e => Err (AtomicInstall ("descriptor-relative no-replace exposure failed: " +:+ e), false)
       | None => Ok tt
       end;;
  map_error (λ e, (InstallStateIndeterminate e, true)) (verify_install_layout pinned plugins_directory plugin_id).

Definition rollback_pinned_install (pinned : PinnedInstall) (plugins_directory plugin_id : string) :
    installer string unit :=
  verify_install_layout pinned plugins_directory plugin_id;;
  renamed ← step_of (RenameNoReplace Plugins plugin_id Staging "plugin");
  give match renamed with
       | Some e => Err ("descriptor-relative no-replace rollback failed: " +:+ e)
       | None => Ok tt
       end;;
  verify_rolled_back_install_layout pinned plugins_directory plugin_id.

Definition describe_install_recovery_state {E} (pinned : PinnedInstall) (plugins_directory plugin_id : string) :
    installer E string :=
  candidate_descriptor ← pinned_matches Candidate "install candidate" (pn_candidate_identity pinned);
  candidate_tree ← tree_matches Candidate (pn_candidate_snapshot pinned) "install candidate tree changed";
  live ← opened_matches Plugins plugin_id "live install target" (pn_candidate_identity pinned);
  staged ← opened_matches Staging "plugin" "staged install candidate" (pn_candidate_identity pinned);
  plugins_path ← path_matches plugins_directory (pn_plugins_identity pinned);
  staging_path ← path_matches (pn_staging_path pinned) (pn_staging_identity pinned);
  staging_parent_mapping ← opened_matches Plugins (pn_staging_name pinned) "reported install staging root"
    (pn_staging_identity pinned);
  stat ← step_of (Fstat Staging);
  let staging_mode_is_private := match stat with inr stat => permission_bits stat == 448%N | inl _ => false end in
  mret (if (candidate_descriptor && candidate_tree && live && plugins_path) then
          if (staging_path && staging_parent_mapping && staging_mode_is_private) then
            "the exact candidate was revalidated at the live plugin path " +:+ path_join plugins_directory plugin_id +:+
            "; retained private staging was revalidated at " +:+ pn_staging_path pinned
          else
            "the exact candidate was revalidated at the live plugin path " +:+ path_join plugins_directory plugin_id +:+
            "; install staging was last recorded as " +:+ device_inode (pn_staging_identity pinned) +:+
            ", but its pathname or private mode is indeterminate and no staging path is safe to purge without manual filesystem inspection"
        else if (candidate_descriptor && candidate_tree && staged && staging_path) then
          "the exact candidate was revalidated at " +:+ pn_staging_path pinned +:+ "/plugin"
        else if (candidate_descriptor && candidate_tree) then
          "the exact candidate was last revalidated through its pinned descriptor as " +:+
          device_inode (pn_candidate_identity pinned) +:+
          ", but its pathname is indeterminate and no descriptor remains open after this operation returns"
        else "the install candidate could not be revalidated and requires manual filesystem inspection").

(** ** Authorization *)

(** The operation runs inside the transaction of the store that holds the
    authorization. *)
Definition with_final_publisher_operation {E T X} (fingerprint signed_label expected_persona_id : string)
    (operation : installer (OmarchyError * X) T) : installer E (FinalAuthorization T X) :=
  let refused error := Refused (normalize_final_authorization_error error fingerprint) in
  begun ← step_of BeginAuthorization;
  match begun with
  | inl e => mret (refused (StoreFailure e))
  | inr store =>
      match final_publisher_check store fingerprint signed_label expected_persona_id with
      | Err e => mret (refused e)
      | Panic s => Ret (Panic s)
      | Ok _ =>
          completed ← attempt operation;
          match completed with
          | inl (e, captured) =>
              mret (OperationFailed (normalize_final_authorization_error e fingerprint) captured)
          | inr completed =>
              committed ← step_of CommitAuthorization;
              mret match committed with
                   | None => Authorized completed
                   | Some e => FinalizationFailed completed
                       (normalize_final_authorization_error (StoreFailure e) fingerprint)
                   end
          end
      end
  end.

(** ** The installation *)

Record InstallRequest := {
  rq_package_path : string;
  rq_proof_path : string;
  rq_plugins_directory : string;
  rq_validator : string;
  rq_omarchy_shell : string;
}.

Definition rescan (omarchy_shell : string) (phase : RescanPhase) : installer string unit :=
  status ← step_of (RunRescan omarchy_shell phase);
  give (run_rescan status).

Definition rescan_context (rescanned : string + unit) : string :=
  match rescanned with
  | inr _ => "the restoration rescan returned success"
  | inl e => "the restoration rescan also failed (" +:+ e +:+ ")"
  end.

Definition reference_context (observed : OmarchyError + unit) : string :=
  match observed with
  | inr _ => "the post-rescan configuration observation was unreferenced"
  | inl e => "the post-rescan configuration observation also failed (" +:+ omarchy_error_text e +:+ ")"
  end.

(** The failure after an exposure: the rename is undone, and the shell, its
    configuration and the layout are looked at again. *)
Definition fail_after_install_and_rollback {A} (pinned : PinnedInstall)
    (plugins_directory plugin_id omarchy_shell original_failure : string)
    (successful_rollback_error : string → OmarchyError) : installer OmarchyError A :=
  let recovery_state := describe_install_recovery_state pinned plugins_directory plugin_id in
  rolled_back ← attempt (rollback_pinned_install pinned plugins_directory plugin_id);
  match rolled_back with
  | inl rollback_error =>
      state ← recovery_state;
      give (Err (InstallRollbackFailed (original_failure +:+ "; exact rollback failed (" +:+ rollback_error +:+
        "); no recursive deletion ran; " +:+ state)))
  | inr _ =>
      rescanned ← attempt (rescan omarchy_shell RecoveryRescan);
      reference ← attempt (reject_stale plugins_directory plugin_id);
      layout ← attempt (verify_rolled_back_install_layout pinned plugins_directory plugin_id);
      match layout, reference, rescanned with
      | inl error, _, _ =>
          state ← recovery_state;
          give (Err (InstallStateIndeterminate (original_failure +:+
            "; the candidate was moved back into retained staging, but post-rescan layout verification failed (" +:+
            error +:+ "); " +:+ rescan_context rescanned +:+ "; " +:+ reference_context reference +:+
            "; no recursive deletion ran; " +:+ state)))
      | inr _, inl reference_error, _ =>
          state ← recovery_state;
          give (Err (InstallStateIndeterminate (original_failure +:+
            "; the exact candidate was restored to retained staging, but Omarchy configuration no longer proves it is unreferenced (" +:+
            omarchy_error_text reference_error +:+ "); " +:+ rescan_context rescanned +:+
            "; no recursive deletion ran; " +:+ state)))
      | inr _, inr _, inl rescan_error =>
          state ← recovery_state;
          give (Err (InstallRollbackFailed (original_failure +:+
            "; the exact candidate was restored to retained staging and revalidated, but the restoration rescan also failed (" +:+
            rescan_error +:+ "); no recursive deletion ran; " +:+ state)))
      | inr _, inr _, inr _ =>
          give (Err (successful_rollback_error (original_failure +:+
            "; the exact candidate was restored and revalidated at " +:+ pn_staging_path pinned +:+
            "/plugin, and the live target was revalidated absent; no recursive deletion ran")))
      end
  end.

(** The package as it was verified and unpacked. *)
Record StagedPlugin := {
  sg_inspection : PluginInspection;
  sg_publisher_persona_id : string;
  sg_candidate_identity : TargetIdentity;
  sg_candidate_snapshot : UpdateTreeSnapshot;
}.

(** Inspection does not touch the disk. *)
Definition no_disk_env : DiskEnv := {| umask := 18; disk_fault := λ _, None |}.
Definition no_disk : Disk := {| dk_nodes := ∅; dk_calls := 0 |}.

Definition load_package_proof (proof_path : string) : installer OmarchyError ProofBundle :=
  fs ← step_of (LoadProof proof_path);
  give (map_err ProofFailure (load_proof fs proof_path)).

(** The copy of the package, its seal and its inspection, and the persona of its
    publisher. *)
Definition inspect_staged_package (package_path staging_path : string) (proof : ProofBundle) :
    installer OmarchyError (SealedArtifact * PluginInspection * string) :=
  let staged_package := path_join staging_path "package.tar.zst" in
  copy ← step_of (CopyPackage package_path staged_package);
  give (copy_package_once copy package_path staged_package);;
  seal ← step_of (SealPackage staged_package);
  sealed ← give (snapshot_staged_package seal staged_package);
  '(described, package) ← step_of (DescribePackage sealed);
  store ← step_of ReadStore;
  inspection ← give (inspect_described (env:=no_disk_env) described package proof (Some store) no_disk).1;
  give (require_installable_publisher inspection);;
  store ← step_of ReadStore;
  persona_id ← give (publisher_persona_id store inspection);
  mret (sealed, inspection, persona_id).

(** The errors of these are those before [retained_error]. *)
Definition verify_package (request : InstallRequest) (staging_path : string) :
    installer OmarchyError (SealedArtifact * PluginInspection * string) :=
  let plugins_directory := rq_plugins_directory request in
  proof ← load_package_proof (rq_proof_path request);
  '(sealed, inspection, persona_id) ← inspect_staged_package (rq_package_path request) staging_path proof;
  reject_stale plugins_directory (om_id (pi_manifest inspection));;
  reject_existing_target (path_join plugins_directory (om_id (pi_manifest inspection)));;
  mret (sealed, inspection, persona_id).

(** From the unpacking to the snapshot of the unpacked candidate, for an
    installation or an update with its error for an unexpected state. *)
Definition stage_plugin (indeterminate : string → OmarchyError) (staging_path : string) (sealed : SealedArtifact) (inspection : PluginInspection)
    (persona_id : string) : installer OmarchyError StagedPlugin :=
  let extracted := path_join staging_path "plugin" in
  '(env, disk, package) ← step_of (Extract sealed extracted);
  '(manifest, archive, tree) ← give (extract_archive_file (env:=env) package (path_place extracted) disk).1;
  refuse_if ((manifest != pi_manifest inspection) || (archive != pi_archive inspection))
    (InvalidPackage "archive inspection changed between verification and extraction");;
  receipt ← build_receipt_for_artifact (sa_descriptor sealed) inspection persona_id;
  '(receipt_size, receipt_sha256) ← write_install_receipt extracted receipt;
  candidate_identity ← path_identity extracted;
  candidate_snapshot ← map_error indeterminate
    (snapshot_update_tree_path extracted candidate_identity);
  map_error indeterminate
    (give (verify_candidate_matches_extracted_manifest candidate_snapshot tree receipt_size receipt_sha256));;
  mret {| sg_inspection := inspection; sg_publisher_persona_id := persona_id;
          sg_candidate_identity := candidate_identity; sg_candidate_snapshot := candidate_snapshot |}.

(** Everything before the final authorization. *)
Definition prepare_install (request : InstallRequest) (staging_path : string)
    (expected_plugins expected_staging : TargetIdentity) :
    installer OmarchyError (StagedPlugin * PinnedInstall) :=
  let plugins_directory := rq_plugins_directory request in
  let retained_error A cause := install_failed_retained (A:=A) cause staging_path plugins_directory
    expected_plugins expected_staging in
  '(sealed, inspection, persona_id) ← or_else (verify_package request staging_path) (retained_error _);
  staged ← or_else (stage_plugin InstallStateIndeterminate staging_path sealed inspection persona_id) (retained_error _);
  let plugin_id := om_id (pi_manifest inspection) in
  pinned ← or_else
    (prepare_pinned_install plugins_directory staging_path plugin_id
      {| bl_plugins_identity := expected_plugins; bl_staging_identity := expected_staging;
         bl_candidate_identity := sg_candidate_identity staged;
         bl_candidate_snapshot := sg_candidate_snapshot staged |})
    (λ error,
      state ← describe_retained_install_staging staging_path plugins_directory expected_plugins expected_staging;
      give (Err (InstallStateIndeterminate (omarchy_error_text error +:+
        "; automatic cleanup was disabled; " +:+ state))));
  validate_candidate_with pinned
    (run ← step_of (RunValidator (rq_validator request));
     give (run_validator_for_descriptor run (rq_validator request)));;
  or_else (reject_stale plugins_directory plugin_id) (λ cause, install_failed_with_pinned_state cause pinned);;
  or_else (reject_existing_target (path_join plugins_directory plugin_id))
    (λ cause, install_failed_with_pinned_state cause pinned);;
  mret (staged, pinned).

(** The final authorization, the exposure and what follows it. *)
Definition complete_install (request : InstallRequest) (staged : StagedPlugin) (pinned : PinnedInstall) :
    installer OmarchyError InstallOutcome :=
  let inspection := sg_inspection staged in
  let plugins_directory := rq_plugins_directory request in
  let plugin_id := om_id (pi_manifest inspection) in
  let recovery_state := describe_install_recovery_state pinned plugins_directory plugin_id in
  authorization ← with_final_publisher_operation (signer_fingerprint inspection) (signer_label inspection)
    (sg_publisher_persona_id staged) (expose_pinned_install_no_replace pinned plugins_directory plugin_id);
  match authorization with
  | Authorized _ => mret tt
  | Refused cause =>
      state ← describe_pinned_install_root pinned;
      give (Err (InstallAuthorizationRefused cause state))
  | OperationFailed cause rename_completed =>
      state ← recovery_state;
      give (Err (InstallStateIndeterminate (omarchy_error_text cause +:+ "; " +:+
        (if rename_completed : bool
         then "the descriptor-relative exposure rename completed, but its postcheck failed"
         else "the descriptor-relative exposure rename did not complete") +:+ "; " +:+ state)))
  | FinalizationFailed _ cause =>
      fail_after_install_and_rollback pinned plugins_directory plugin_id (rq_omarchy_shell request)
        ("publisher authorization finalization failed after exposure (" +:+ omarchy_error_text cause +:+ ")")
        InstallAuthorizationFinalizationFailed
  | CompletedWithoutValue =>
      state ← recovery_state;
      give (Err (InstallStateIndeterminate
        ("publisher authorization completed without returning install operation state; " +:+ state)))
  end;;
  rescanned ← attempt (rescan (rq_omarchy_shell request) InitialRescan);
  match rescanned with
  | inr _ => mret tt
  | inl error =>
      fail_after_install_and_rollback pinned plugins_directory plugin_id (rq_omarchy_shell request)
        ("shell rescan failed after installation (" +:+ error +:+ ")") InstallRolledBack
  end;;
  or_else (verify_install_layout pinned plugins_directory plugin_id)
    (λ error, state ← recovery_state;
       give (Err (InstallStateIndeterminate ("final install layout verification failed (" +:+ error +:+
         "); no recursive deletion ran; " +:+ state))));;
  mret {| io_plugin_id := plugin_id; io_version := om_version (pi_manifest inspection);
          io_a_quo_enablement_action := NotPerformed;
          io_omarchy_manifest_validation := PassedPinnedRootObservationNotContentContinuous;
          io_shell_rescan := RescanPassed; io_retained_staging := pn_staging_path pinned;
          io_staging_retained := true; io_disk_purge := PurgeNotPerformed;
          io_behavioral_analysis := AnalysisNotRun; io_trusted_consent := ConsentNotRun;
          io_runtime_safety := NotEvaluated |}.

Definition install_on_linux (request : InstallRequest) (staging_path : string)
    (expected_plugins expected_staging : TargetIdentity) : installer OmarchyError InstallOutcome :=
  '(staged, pinned) ← prepare_install request staging_path expected_plugins expected_staging;
  complete_install request staged pinned.

Definition require_system_command (path : string) : installer OmarchyError unit :=
  md ← step_of (SymlinkMetadata path);
  give (validate_system_command path md).

Definition install_with_lifecycle (request : InstallRequest) : installer OmarchyError InstallOutcome :=
  require_system_command (rq_validator request);;
  require_system_command (rq_omarchy_shell request);;
  prepare_plugins_directory (rq_plugins_directory request);;
  expected_plugins ← path_identity (rq_plugins_directory request);
  staging_path ← retained_install_staging_directory (rq_plugins_directory request);
  expected_staging ← map_error (λ error, InstallStateIndeterminate
    ("install staging was created with automatic cleanup disabled, but its identity could not be established (" +:+
     omarchy_error_text error +:+ "); the recorded path " +:+ staging_path +:+
     " is not safe to purge without manual filesystem inspection")) (path_identity staging_path);
  install_on_linux request staging_path expected_plugins expected_staging.

(** The commands of the desktop are fixed. *)
Definition VALIDATOR : string := "/usr/bin/omarchy-plugin-validate".
Definition OMARCHY_SHELL : string := "/usr/bin/omarchy-shell".

Definition install_signed_package (package_path proof_path plugins_directory : string) :
    installer OmarchyError InstallOutcome :=
  install_with_lifecycle {| rq_package_path := package_path; rq_proof_path := proof_path;
    rq_plugins_directory := plugins_directory; rq_validator := VALIDATOR; rq_omarchy_shell := OMARCHY_SHELL |}.

End install.
