(* ===== verification/InstallFacts.v ===== *)
(** * What an installation did

    The renames of an installation are told apart by its outcome: an error from
    before the exposure left no rename behind, a success exposed the candidate
    once, and a failure that was rolled back undid exactly that. *)

From stdpp Require Import base numbers list strings pretty sorting option gmap.
From Stdlib Require Import Strings.Byte Ascii.
From S2P Require Import Prelude Text Ordered Display Crates Io ArtifactProof Continuity RecoveryPolicy RecoveryChain.
From S2P Require Import Names Fields IpcProtocol Transport StoreTypes StoreCommon Backup BackupVerify Tables StoredKeys Journal Store.
From S2P Require Import Interaction Disk Package PackageArchive PackageFacts PackageTrust ShellReference Installer Install.

Abbreviation event := (Event Answer).

(** ** Runs and what they leave *)

(** Every run of the program leaves a trace and a result that are related. *)
Definition leads {E A} (p : installer E A) (Φ : list event → result E A → Prop) : Prop :=
  ∀ t r, runs p t r → Φ t r.

Lemma leads_mono {E A} (p : installer E A) (Φ Ψ : list event → result E A → Prop) :
  leads p Φ → (∀ t r, Φ t r → Ψ t r) → leads p Ψ.
Proof. intros H HΦ t r Hr. auto. Qed.

Lemma leads_handle {E F A B} (f : result E A → installer F B) p (Ψ : list event → result E A → Prop)
    (Φ : list event → result F B → Prop) :
  leads p Ψ → (∀ t r, Ψ t r → leads (f r) (λ t' r', Φ (t ++ t') r')) → leads (handle f p) Φ.
Proof.
  intros Hp Hf t r H. apply runs_handle in H as (t1 & t2 & r1 & -> & H1 & H2).
  by apply (Hf t1 r1 (Hp _ _ H1)).
Qed.

Lemma leads_bind {E A B} (p : installer E A) (f : A → installer E B) (Ψ : list event → result E A → Prop)
    (Φ : list event → result E B → Prop) :
  leads p Ψ → (∀ t a, Ψ t (Ok a) → leads (f a) (λ t' r, Φ (t ++ t') r)) →
  (∀ t e, Ψ t (Err e) → Φ t (Err e)) → (∀ t s, Ψ t (Panic s) → Φ t (Panic s)) → leads (p ≫= f) Φ.
Proof.
  intros Hp Hok Herr Hpanic. eapply leads_handle; [exact Hp|].
  intros t [a|e|s] Ht; [by apply Hok|..]; intros t' r' [-> ->]; rewrite app_nil_r; auto.
Qed.

Lemma leads_give {E A} (r : result E A) (Φ : list event → result E A → Prop) :
  Φ [] r → leads (give r) Φ.
Proof. by intros H t r' [-> ->]. Qed.

Lemma leads_call {E} c (Φ : list event → result E (Answer c) → Prop) :
  (∀ x, Φ [occurs c x] (Ok x)) → leads (call c) Φ.
Proof. intros H t r Hr. apply runs_call in Hr as (x & -> & ->). apply H. Qed.

(** ** Observations *)

(** A call that neither renames nor touches the authorization. *)
Definition is_observation (c : Call) : bool :=
  match c with
  | RenameNoReplace _ _ _ _ | RenameExchange _ _ _ _ | BeginAuthorization | CommitAuthorization => false
  | _ => true
  end.

Definition observed (t : list event) : Prop := Forall (λ e, is_observation (projT1 e) = true) t.

(** A program that only observes, and whose errors are of some kind. *)
Definition observes {E A} (Q : E → Prop) (p : installer E A) : Prop :=
  leads p (λ t r, observed t ∧ ∀ e, r = Err e → Q e).

Section observing.
Context {E : Type} (Q : E → Prop).

Lemma observes_give {A} (r : result E A) : (∀ e, r = Err e → Q e) → observes Q (give r).
Proof. intros H. apply leads_give. split; [by constructor|done]. Qed.

Lemma observes_ret {A} (a : A) : observes Q (mret a).
Proof. by apply observes_give. Qed.

Lemma observes_call c : is_observation c = true → observes Q (call (Answer:=Answer) c).
Proof. intros H. apply leads_call. intros x. split; [by constructor|done]. Qed.

Lemma observes_bind {A B} (p : installer E A) (f : A → installer E B) :
  observes Q p → (∀ a, observes Q (f a)) → observes Q (p ≫= f).
Proof.
  intros Hp Hf. eapply leads_bind; [exact Hp|..].
  - intros t a [Ht _] t' r Hr. destruct (Hf a _ _ Hr). split; [|done]. by apply Forall_app.
  - intros t e [Ht HQ]. by split; [|intros e' [= <-]; apply HQ].
  - by intros t s [Ht _].
Qed.

Lemma observes_handle {F A B} (Q' : F → Prop) (f : result F A → installer E B) p :
  observes Q' p → (∀ r, (∀ e, r = Err e → Q' e) → observes Q (f r)) → observes Q (handle f p).
Proof.
  intros Hp Hf. eapply leads_handle; [exact Hp|]. intros t r [Ht HQ] t' r' Hr.
  destruct (Hf r HQ _ _ Hr). split; [|done]. by apply Forall_app.
Qed.

Lemma observes_map_error {F A} (Q' : F → Prop) (f : F → E) (p : installer F A) :
  observes Q' p → (∀ e, Q' e → Q (f e)) → observes Q (map_error f p).
Proof.
  intros Hp Hf. eapply observes_handle; [exact Hp|]. intros [a|e|s] Hr; apply observes_give; cbn; try done.
  intros e' [= <-]. by apply Hf, Hr.
Qed.

Lemma observes_attempt {F A} (Q' : F → Prop) (p : installer F A) :
  observes Q' p → observes Q (attempt p).
Proof. intros Hp. eapply observes_handle; [exact Hp|]. by intros [a|e|s] Hr; apply observes_give. Qed.

Lemma observes_or_else {F A} (Q' : F → Prop) (p : installer F A) f :
  observes Q' p → (∀ e, Q' e → observes Q (f e)) → observes Q (or_else p f).
Proof.
  intros Hp Hf. unfold or_else. eapply (leads_bind _ _ (λ t r, observed t ∧
    match r with Ok (inl e) => Q' e | Err _ => False | _ => True end)).
  - eapply leads_handle; [exact Hp|]. intros t [a|e|s] [Ht HQ]; apply leads_give; rewrite app_nil_r;
      (split; [done|]); [done|by apply HQ|done].
  - intros t [e|a] [Ht He]; [|by apply leads_give; rewrite app_nil_r].
    intros t' r Hr. destruct (Hf e He _ _ Hr). split; [|done]. by apply Forall_app.
  - by intros t e [_ ?].
  - by intros t s [? _].
Qed.

Lemma observes_holds_ok {F} (Q' : F → Prop) (p : installer F bool) : observes Q' p → observes Q (holds_ok p).
Proof. intros Hp. apply observes_bind; [by eapply observes_attempt|]. intros []; apply observes_ret. Qed.

Lemma observes_any_differs checks :
  Forall (λ c, observes Q c.1) checks → observes Q (any_differs checks).
Proof.
  induction 1 as [|[p x] checks Hp _ IH]; cbn [any_differs]; [apply observes_ret|].
  apply observes_bind; [done|]. intros y. destruct (y != x); [apply observes_ret|done].
Qed.

Lemma observes_weaken {A} (Q' : E → Prop) (p : installer E A) :
  observes Q' p → (∀ e, Q' e → Q e) → observes Q p.
Proof. intros Hp H t r Hr. destruct (Hp t r Hr) as [? HQ]. split; [done|]. intros e He. auto. Qed.
End observing.

(** Any error. *)
Definition whatever {E : Type} (e : E) : Prop := True.

(** [watch] walks a program of observations; what is left are the errors of the
    results that are given, when they matter. *)
Ltac watch :=
  repeat match goal with
    | |- observes _ (mret _) => apply observes_ret
    | |- observes whatever (give _) => by apply observes_give
    | |- observes _ (refuse_if _ _) => unfold refuse_if
    | |- observes ?Q (call ?c) => exact (observes_call Q c eq_refl)
    | |- observes _ (_ ≫= _) => apply observes_bind; [|intros]
    | |- observes whatever (map_error _ _) => apply (observes_map_error _ whatever); [|done]
    | |- observes _ (attempt _) => apply (observes_attempt _ whatever)
    | |- observes _ (holds_ok _) => apply (observes_holds_ok _ whatever)
    | |- observes _ (or_else _ _) => apply (observes_or_else _ whatever); [|intros]
    | |- observes _ (any_differs _) => apply observes_any_differs
    | |- Forall _ (_ :: _) => constructor; [cbn [fst]|]
    | |- observes _ (match ?x with _ => _ end) => destruct x
    | |- observes _ (let _ := _ in _) => cbv zeta
    | |- Forall _ [] => constructor
    end.

(** ** Programs that do not panic *)

Definition steady {E A} (p : installer E A) : Prop := leads p (λ _ r, no_panic r).

Lemma steady_give {E A} (r : result E A) : no_panic r → steady (give r).
Proof. intros H. by apply leads_give. Qed.

Lemma steady_handle {E F A B} (f : result E A → installer F B) p :
  steady p → (∀ r, no_panic r → steady (f r)) → steady (handle f p).
Proof. intros Hp Hf. eapply leads_handle; [exact Hp|]. intros t r Hr t' r' H. exact (Hf r Hr t' r' H). Qed.

Lemma steady_bind {E A B} (p : installer E A) (f : A → installer E B) :
  steady p → (∀ a, steady (f a)) → steady (p ≫= f).
Proof. intros Hp Hf. apply steady_handle; [done|]. intros [a|e|s] Hr; [apply Hf|by apply (steady_give (Err e))|destruct Hr]. Qed.

Lemma steady_map_error {E F A} (f : E → F) (p : installer E A) : steady p → steady (map_error f p).
Proof. intros Hp. apply steady_handle; [done|]. intros r Hr. by apply steady_give, no_panic_map_err. Qed.

Lemma steady_attempt {E F A} (p : installer E A) : steady p → steady (E:=F) (attempt p).
Proof. intros Hp. apply steady_handle; [done|]. intros [a|e|s] Hr; [by apply (steady_give (Ok _))..|destruct Hr]. Qed.

Lemma steady_call {E} c : steady (E:=E) (call (Answer:=Answer) c).
Proof. by apply leads_call. Qed.

Lemma steady_any_differs {E} (checks : list (installer E TargetIdentity * TargetIdentity)) :
  Forall (λ c, steady c.1) checks → steady (any_differs checks).
Proof.
  induction 1 as [|[p x] checks Hp _ IH]; cbn [any_differs]; [by apply steady_give|].
  apply steady_bind; [done|]. intros y. destruct (y != x); [by apply steady_give|done].
Qed.

Ltac steady :=
  repeat match goal with
    | |- steady (mret _) => by apply steady_give
    | |- steady (give _) => apply steady_give
    | |- steady (refuse_if _ _) => unfold refuse_if
    | |- steady (call ?c) => exact (steady_call c)
    | |- steady (_ ≫= _) => apply steady_bind; [|intros]
    | |- steady (map_error _ _) => apply steady_map_error
    | |- steady (attempt _) => apply steady_attempt
    | |- steady (holds_ok _) => unfold holds_ok
    | |- steady (any_differs _) => apply steady_any_differs
    | |- Forall _ (_ :: _) => constructor; [cbn [fst]|]
    | |- Forall _ [] => constructor
    | |- steady (match ?x with _ => _ end) => destruct x
    | |- no_panic _ => solve [no_panics]
    end.

(** ** Which programs observe *)

Create HintDb observing.

(** Errors that tell of a rename that was tried. *)
Definition is_late (e : OmarchyError) : bool :=
  match e with
  | InstallRolledBack _ | InstallAuthorizationFinalizationFailed _ | InstallRollbackFailed _
  | AtomicUpdate _ | UpdateRolledBack _ | UpdateAuthorizationFinalizationFailed _ | UpdateRollbackFailed _
  | RemovalRolledBack _ | RemovalRollbackFailed _ | RemovalStateIndeterminate _ => true
  | _ => false
  end.
Definition early (e : OmarchyError) : Prop := is_late e = false.

Section facts.
Context {crates : Crates} {uuids : Uuids} {materializations : Materializations}
  {json_root_proof : Serde PersonaRootProof} {json_policy_proof : Serde RecoveryPolicyProof}
  {json_transition_proof : Serde PersonaTransitionProof}
  {json_recovery_proof : Serde RecoveryTransitionProof}
  {json_entry : Serde PersonaContinuityTransitionProof}
  {json_terminal_proof : Serde TerminalPersonaRevocationProof}
  {json_archive : Serde BackupContinuityArchive} {json_backup : Serde PersonaBackup}
  {pretty_backup : SerdePretty PersonaBackup}
  {json_root : Serde PersonaRootStatement} {json_transition : Serde PersonaTransitionStatement}
  {json_policy : Serde RecoveryPolicyStatement} {json_recovery : Serde RecoveryTransitionStatement}
  {json_terminal : Serde TerminalPersonaRevocationStatement}
  {json_statement : Serde ArtifactStatement} {json_bundle : Serde ProofBundle}
  {formats : ArchiveFormats} {semver : Semver} {json_manifest : Serde OmarchyManifest}
  {shell_json : ShellJson} {pretty_receipt : SerdePretty InstallReceipt} {texts : ErrorTexts}.

Lemma target_identity_early path md e : target_identity path md = Err e → early e.
Proof.
  unfold target_identity. destruct md as [err|md].
  - case_bool_decide; by intros [= <-].
  - unfold reject_if. destruct (md_is_symlink md); [by intros [= <-]|].
    destruct (md_is_dir md); [done|by intros [= <-]].
Qed.

Lemma observes_path_identity path : observes early (path_identity path).
Proof. unfold path_identity. watch. apply observes_give. apply target_identity_early. Qed.

Lemma observes_path_identity_for prefix path : observes whatever (path_identity_for prefix path).
Proof. unfold path_identity_for. eapply observes_map_error; [apply observes_path_identity|done]. Qed.

Lemma observes_pinned_identity pinned label : observes whatever (pinned_identity pinned label).
Proof. unfold pinned_identity. watch. Qed.

Lemma observes_opened_identity pinned name label : observes whatever (opened_identity pinned name label).
Proof. unfold opened_identity. watch. Qed.

Lemma observes_verify_tree tree expected phase : observes whatever (verify_tree tree expected phase).
Proof. unfold verify_tree. watch. Qed.

Lemma observes_require_private directory a b : observes whatever (require_private directory a b).
Proof. unfold require_private. watch. Qed.

Lemma observes_require_absent {E} (Q : E → Prop) pinned name e f :
  Q e → (∀ s, Q (f s)) → observes Q (require_absent pinned name e f).
Proof.
  intros He Hf. unfold require_absent. watch. apply observes_give.
  destruct (pinned_entry_exists _) as [s|[]]; intros ? [= <-]; auto.
Qed.

Lemma observes_require_mapping pinned name label expected changed :
  observes whatever (require_mapping pinned name label expected changed).
Proof. unfold require_mapping. watch. apply observes_opened_identity. Qed.

Lemma observes_descriptors_differ pinned : observes whatever (descriptors_differ pinned).
Proof. unfold descriptors_differ. watch; apply observes_pinned_identity. Qed.

#[local] Hint Resolve observes_path_identity_for observes_pinned_identity observes_opened_identity
  observes_verify_tree observes_require_private observes_require_mapping
  observes_descriptors_differ : observing.
#[local] Hint Extern 1 (observes whatever (require_absent _ _ _ _)) =>
  apply observes_require_absent; done : observing.

Lemma observes_source pinned directory : observes whatever (verify_install_source_before_rename pinned directory).
Proof. unfold verify_install_source_before_rename. watch; auto with observing. Qed.

Lemma observes_layout pinned directory id : observes whatever (verify_install_layout pinned directory id).
Proof. unfold verify_install_layout. watch; auto with observing. Qed.

Lemma observes_rolled_back pinned directory id :
  observes whatever (verify_rolled_back_install_layout pinned directory id).
Proof. unfold verify_rolled_back_install_layout. watch; auto with observing. Qed.

Section matching.
Context {E : Type} (Q : E → Prop).

Lemma observes_path_matches path expected : observes Q (path_matches path expected).
Proof.
  unfold path_matches. watch. eapply observes_weaken; [apply observes_path_identity|done].
Qed.

Lemma observes_opened_matches pinned name label expected : observes Q (opened_matches pinned name label expected).
Proof. unfold opened_matches. watch. auto with observing. Qed.

Lemma observes_pinned_matches pinned label expected : observes Q (pinned_matches pinned label expected).
Proof. unfold pinned_matches. watch. auto with observing. Qed.

Lemma observes_tree_matches tree expected phase : observes Q (tree_matches tree expected phase).
Proof. unfold tree_matches. watch. auto with observing. Qed.

#[local] Hint Resolve observes_path_matches observes_opened_matches observes_pinned_matches
  observes_tree_matches : observing.

Lemma observes_describe_retained a b c d : observes Q (describe_retained_install_staging a b c d).
Proof. unfold describe_retained_install_staging. watch; auto with observing. Qed.

Lemma observes_describe_root pinned : observes Q (describe_pinned_install_root pinned).
Proof. unfold describe_pinned_install_root. watch; auto with observing. Qed.

Lemma observes_describe_recovery pinned directory id :
  observes Q (describe_install_recovery_state pinned directory id).
Proof. unfold describe_install_recovery_state. watch; auto with observing. Qed.
End matching.

(** The errors that carry a description of what is retained are early. *)
Lemma observes_failed_retained {A} cause a b c d : observes early (install_failed_retained (A:=A) cause a b c d).
Proof.
  unfold install_failed_retained. watch; [apply observes_describe_retained|].
  apply observes_give. by intros e [= <-].
Qed.

Lemma observes_failed_pinned {A} cause pinned :
  observes early (install_failed_with_pinned_state (A:=A) cause pinned).
Proof.
  unfold install_failed_with_pinned_state. watch; [apply observes_describe_root|].
  apply observes_give. by intros e [= <-].
Qed.

Lemma observes_reject_stale directory id : observes whatever (reject_stale directory id).
Proof. unfold reject_stale. watch. Qed.

Lemma observes_reject_existing path : observes whatever (reject_existing_target path).
Proof. unfold reject_existing_target. watch. Qed.

Lemma observes_snapshot_path path expected : observes whatever (snapshot_update_tree_path path expected).
Proof. unfold snapshot_update_tree_path. watch; auto with observing. Qed.

(** ** Before the exposure *)

Lemma observes_indeterminate {A} s : observes early (give (A:=A) (Err (InstallStateIndeterminate s))).
Proof. apply observes_give. by intros e [= <-]. Qed.

#[local] Hint Resolve observes_path_identity observes_failed_retained observes_failed_pinned
  observes_reject_stale observes_reject_existing observes_snapshot_path observes_describe_retained
  observes_describe_root observes_describe_recovery observes_indeterminate : observing.

Lemma observes_path_identity_whatever path : observes whatever (path_identity path).
Proof. eapply observes_weaken; [apply observes_path_identity|done]. Qed.
#[local] Hint Resolve observes_path_identity_whatever : observing.

Lemma observes_verify_package request staging : observes whatever (verify_package request staging).
Proof. unfold verify_package, load_package_proof, inspect_staged_package. watch; auto with observing. Qed.

Lemma observes_stage_plugin indeterminate staging sealed inspection id :
  observes whatever (stage_plugin indeterminate staging sealed inspection id).
Proof.
  unfold stage_plugin, build_receipt_for_artifact, write_install_receipt. watch; auto with observing.
Qed.

Lemma observes_prepare_pinned directory staging id baselines :
  observes whatever (prepare_pinned_install directory staging id baselines).
Proof. unfold prepare_pinned_install. watch; auto with observing. Qed.

Lemma observes_validate_candidate pinned validate :
  observes whatever validate → observes early (validate_candidate_with pinned validate).
Proof. intros Hv. unfold validate_candidate_with. watch; auto with observing. Qed.

Lemma observes_prepare_install request staging plugins_identity staging_identity :
  observes early (prepare_install request staging plugins_identity staging_identity).
Proof.
  unfold prepare_install. watch;
    auto using observes_verify_package, observes_stage_plugin, observes_prepare_pinned with observing.
  apply observes_validate_candidate. watch.
Qed.

Lemma observes_system_command path : observes early (require_system_command path).
Proof.
  unfold require_system_command. watch. apply observes_give.
  intros e. unfold validate_system_command, validate_system_command_permissions.
  destruct a as [err|md]; cbn; [by intros [= <-]|]. unfold reject_if.
  destruct (md_is_symlink md || _); [by intros [= <-]|]. cbn. case_match; [by intros [= <-]|done].
Qed.

Lemma observes_plugins_directory path : observes early (prepare_plugins_directory path).
Proof.
  unfold prepare_plugins_directory. watch; apply observes_give; intros e;
    unfold io_at, of_sum, reject_if; repeat case_match; by intros [= <-].
Qed.

Lemma observes_retained_staging directory : observes early (retained_install_staging_directory directory).
Proof.
  unfold retained_install_staging_directory. watch; apply observes_give.
  - destruct a; by intros e [= <-].
  - destruct (path_eqb _ _); by intros e [= <-].
Qed.

Lemma fails_with_no_panic {A} prefix (x : Sys A) : no_panic (fails_with prefix x).
Proof. by destruct x. Qed.
Lemma must_open_no_panic prefix x : no_panic (must_open prefix x).
Proof. by destruct x. Qed.
#[local] Hint Resolve fails_with_no_panic must_open_no_panic : panics.

Lemma push_entry_no_panic snapshot entry : no_panic (push_update_tree_entry snapshot entry).
Proof. unfold push_update_tree_entry. no_panics. Qed.
#[local] Hint Resolve push_entry_no_panic : panics.

Lemma snapshot_file_no_panic scan path snapshot : no_panic (snapshot_update_file scan path snapshot).
Proof.
  unfold snapshot_update_file. no_panics. apply (no_panic_fold_result _ (λ _, True)); [done| |done].
  intros st x _ _. unfold hash_chunk. no_panics.
Qed.
#[local] Hint Resolve snapshot_file_no_panic : panics.

Lemma snapshot_directory_no_panic scan path depth snapshot :
  no_panic (snapshot_update_directory scan path depth snapshot)
with snapshot_entries_no_panic entries path depth snapshot :
  no_panic (snapshot_update_entries entries path depth snapshot)
with snapshot_entry_no_panic scan path depth snapshot :
  no_panic (snapshot_update_entry scan path depth snapshot).
Proof.
  - destruct scan as [before readable enumerable entries after]. cbn [snapshot_update_directory].
    no_panics.
  - destruct entries as [|error|name scan rest]; cbn [snapshot_update_entries]; [done|done|].
    destruct (_ || _); [apply snapshot_entries_no_panic|].
    apply no_panic_bind; [apply snapshot_entry_no_panic|intros; apply snapshot_entries_no_panic].
  - destruct scan as [error|error|stat directory file]; cbn [snapshot_update_entry]; [done|done|].
    destruct (file_type stat); [apply snapshot_directory_no_panic|apply snapshot_file_no_panic|done].
Qed.
#[local] Hint Resolve snapshot_directory_no_panic : panics.

Lemma verify_tree_no_panic scan expected phase : no_panic (verify_update_tree_descriptor scan expected phase).
Proof. unfold verify_update_tree_descriptor, snapshot_update_tree_descriptor. no_panics. Qed.

Lemma target_identity_no_panic path md : no_panic (target_identity path md).
Proof. unfold target_identity. no_panics. Qed.

Lemma descriptor_identity_no_panic stat label : no_panic (descriptor_identity stat label).
Proof. unfold descriptor_identity. no_panics. Qed.
#[local] Hint Resolve verify_tree_no_panic target_identity_no_panic descriptor_identity_no_panic : panics.

Lemma open_directory_no_panic opened label : no_panic (open_pinned_directory_at opened label).
Proof. unfold open_pinned_directory_at. no_panics. Qed.
#[local] Hint Resolve open_directory_no_panic : panics.

Lemma steady_source pinned directory : steady (verify_install_source_before_rename pinned directory).
Proof.
  unfold verify_install_source_before_rename, descriptors_differ, verify_tree, require_mapping,
    require_private, opened_identity, pinned_identity, path_identity_for, path_identity. steady.
Qed.

Lemma steady_layout pinned directory id : steady (verify_install_layout pinned directory id).
Proof.
  unfold verify_install_layout, descriptors_differ, verify_tree, require_mapping, require_absent,
    require_private, opened_identity, pinned_identity, path_identity_for, path_identity. steady.
Qed.

Lemma steady_rolled_back pinned directory id : steady (verify_rolled_back_install_layout pinned directory id).
Proof.
  unfold verify_rolled_back_install_layout, descriptors_differ, verify_tree, require_mapping,
    require_absent, require_private, opened_identity, pinned_identity, path_identity_for,
    path_identity. steady.
Qed.

Lemma steady_describe_recovery {E} pinned directory id :
  steady (E:=E) (describe_install_recovery_state pinned directory id).
Proof.
  unfold describe_install_recovery_state, pinned_matches, opened_matches, path_matches, tree_matches,
    verify_tree, opened_identity, pinned_identity, path_identity. steady.
Qed.

Lemma steady_describe_root {E} pinned : steady (E:=E) (describe_pinned_install_root pinned).
Proof.
  unfold describe_pinned_install_root, pinned_matches, opened_matches, path_matches, tree_matches,
    verify_tree, opened_identity, pinned_identity, path_identity. steady.
Qed.

Lemma run_rescan_no_panic status : no_panic (run_rescan status).
Proof. unfold run_rescan. no_panics. Qed.

Lemma steady_rescan shell phase : steady (rescan shell phase).
Proof. unfold rescan. steady. apply run_rescan_no_panic. Qed.

Lemma observes_rescan shell phase : observes whatever (rescan shell phase).
Proof. unfold rescan. watch. Qed.

Lemma of_sum_no_panic {E A} (x : E + A) : no_panic (of_sum x).
Proof. by destruct x. Qed.
#[local] Hint Resolve of_sum_no_panic no_panic_shell_id no_panic_shell_entry : panics.

Lemma any_entry_no_panic allow location id entries : no_panic (any_entry allow location id entries).
Proof. induction entries; cbn [any_entry]; no_panics. Qed.
#[local] Hint Resolve any_entry_no_panic : panics.

Lemma any_section_no_panic layout id sections : no_panic (any_section layout id sections).
Proof.
  induction sections; cbn [any_section]; [done|]. unfold optional_shell_array. no_panics.
Qed.
#[local] Hint Resolve any_section_no_panic : panics.

Lemma references_no_panic config id : no_panic (shell_configuration_references_plugin config id).
Proof.
  unfold shell_configuration_references_plugin, bar_references_plugin, optional_shell_object,
    optional_shell_array. no_panics.
Qed.
#[local] Hint Resolve references_no_panic : panics.

Lemma validate_plugin_id_no_panic id : no_panic (validate_plugin_id id).
Proof. unfold validate_plugin_id. no_panics. Qed.
#[local] Hint Resolve validate_plugin_id_no_panic : panics.

Lemma steady_reject_stale directory id : steady (reject_stale directory id).
Proof.
  unfold reject_stale, reject_stale_enabled_configuration, observe_plugin_reference,
    read_shell_configuration, read_default_shell_configuration, read_shell_configuration_bytes,
    parse_reference_observation. steady.
Qed.

End facts.

(** ** What a look finds *)

Lemma runs_give {E A} (r : result E A) t a : runs (give r) t (Ok a) → t = [] ∧ r = Ok a.
Proof. by intros [-> <-]. Qed.

Lemma runs_refuse_if {E} b (e : E) t u : runs (refuse_if b e) t (Ok u) → t = [] ∧ b = false.
Proof. intros [-> H]%runs_give. split; [done|]. by destruct u; apply reject_if_Ok in H. Qed.

Lemma runs_step {E} c t (x : Answer c) : runs (E:=E) (step_of c) t (Ok x) → t = [occurs c x].
Proof. intros (y & -> & [= ->])%runs_call. done. Qed.

(** [saw H x] goes on after a call that was answered with [x]. *)
Ltac saw H x :=
  let t := fresh "t" in let Hx := fresh in
  went H as t x Hx;
  lazymatch type of Hx with runs (call ?c) _ (Ok ?a) => apply (runs_step c _ a) in Hx; subst t end.
(** [gave H x Hx] goes on after a result, which is a success [x]. *)
Ltac gave H x Hx :=
  let t := fresh "t" in went H as t x Hx; apply runs_give in Hx as [-> Hx].

(** An event that the trace shows. *)
Ltac in_trace := solve [repeat first [apply list_elem_of_here|apply list_elem_of_further]].

(** A call that only looks at a name, a descriptor or a tree. *)
Definition is_look (c : Call) : bool :=
  match c with
  | SymlinkMetadata _ | Fstat _ | ScanPinned _ | OpenDirectoryAt _ _ | OpenEntryAt _ _ => true
  | _ => false
  end.

Definition looked (t : list event) : Prop := Forall (λ e, is_look (projT1 e) = true) t.

(** The directory that is held open has this identity. *)
Definition found_descriptor (t : list event) (pinned : Pinned) (identity : TargetIdentity) : Prop :=
  ∃ stat, occurs (Fstat pinned) (inr stat) ∈ t ∧ st_dev stat = ti_device identity ∧
    st_ino stat = ti_inode identity.

(** It can be used by its owner alone. *)
Definition found_private (t : list event) (pinned : Pinned) : Prop :=
  ∃ stat, occurs (Fstat pinned) (inr stat) ∈ t ∧ permission_bits stat = 448%N.

(** The name below a directory that is held open opens this directory. *)
Definition found_name (t : list event) (pinned : Pinned) (name : string) (identity : TargetIdentity) : Prop :=
  ∃ stat, occurs (OpenDirectoryAt pinned name) (inr (inr stat)) ∈ t ∧ st_dev stat = ti_device identity ∧
    st_ino stat = ti_inode identity.

(** There is nothing at the name. *)
Definition found_nothing (t : list event) (pinned : Pinned) (name : string) : Prop :=
  ∃ text, occurs (OpenEntryAt pinned name) (Some (NOENT, text)) ∈ t.

(** The path leads to this directory. *)
Definition found_path (t : list event) (path : string) (identity : TargetIdentity) : Prop :=
  ∃ md, occurs (SymlinkMetadata path) (inr md) ∈ t ∧ md_is_symlink md = false ∧ md_is_dir md = true ∧
    md_dev md = ti_device identity ∧ md_ino md = ti_inode identity.

Lemma identity_of_eq stat identity :
  identity_of stat = identity → st_dev stat = ti_device identity ∧ st_ino stat = ti_inode identity.
Proof. by intros <-. Qed.

(** The checks that were made, each of which found what was expected. *)
Fixpoint agreed {E} (checks : list (installer E TargetIdentity * TargetIdentity)) (t : list event) : Prop :=
  match checks with
  | [] => t = []
  | (observe, expected) :: checks' =>
      ∃ t1 t2, t = t1 ++ t2 ∧ runs observe t1 (Ok expected) ∧ agreed checks' t2
  end.

Lemma any_differs_Ok {E} (checks : list (installer E TargetIdentity * TargetIdentity)) t :
  runs (any_differs checks) t (Ok false) → agreed checks t.
Proof.
  revert t. induction checks as [|[observe expected] checks IH]; intros t H; cbn [any_differs agreed] in *.
  - by destruct H.
  - went H as t1 actual H1. case_bool_decide as Heq; cbn [negb] in H; [|by destruct H]. subst actual.
    eexists _, _. split; [done|]. split; [done|by apply IH].
Qed.

(** A comparison that refuses when something differs. *)
Lemma unchanged_Ok {E B} checks (e : E) (p : installer E B) t b :
  runs (changed ← any_differs checks; refuse_if changed e;; p) t (Ok b) →
  ∃ t1 t2, t = t1 ++ t2 ∧ agreed checks t1 ∧ runs p t2 (Ok b).
Proof.
  intros H. went H as t1 changed H1. went H as t2 u H2. apply runs_refuse_if in H2 as [-> ->].
  exists t1, t. split; [done|]. split; [by apply any_differs_Ok|done].
Qed.

Lemma unchanged_last_Ok {E} checks (e : E) t u :
  runs (changed ← any_differs checks; refuse_if changed e) t (Ok u) → agreed checks t.
Proof.
  intros H. went H as t1 changed H1. apply runs_refuse_if in H as [-> ->]. rewrite app_nil_r.
  by apply any_differs_Ok.
Qed.

(** A comparison of one identity. *)
Lemma same_Ok {E B} (observe : installer E TargetIdentity) expected (e : E) (p : TargetIdentity → installer E B) t b :
  runs (current ← observe; refuse_if (current != expected) e;; p current) t (Ok b) →
  ∃ t1 t2, t = t1 ++ t2 ∧ runs observe t1 (Ok expected) ∧ runs (p expected) t2 (Ok b).
Proof.
  intros H. went H as t1 current H1. went H as t2 u H2. apply runs_refuse_if in H2 as [-> H2].
  apply negb_false_iff, bool_decide_eq_true in H2. subst current. by exists t1, t.
Qed.

Lemma same_last_Ok {E} (observe : installer E TargetIdentity) expected (e : E) t u :
  runs (current ← observe; refuse_if (current != expected) e) t (Ok u) → runs observe t (Ok expected).
Proof.
  intros H. went H as t1 current H1. apply runs_refuse_if in H as [-> H].
  apply negb_false_iff, bool_decide_eq_true in H. subst current. by rewrite app_nil_r.
Qed.

Section looks.
Context {crates : Crates} {texts : ErrorTexts}.

(** A pinned tree was scanned, and this is what was found. *)
Definition scanned (t : list event) (tree : Pinned) (snapshot : UpdateTreeSnapshot) : Prop :=
  ∃ scan, occurs (ScanPinned tree) scan ∈ t ∧ snapshot_update_tree_descriptor scan = Ok snapshot.

Lemma pinned_identity_Ok pinned label t identity :
  runs (pinned_identity pinned label) t (Ok identity) →
  ∃ stat, t = [occurs (Fstat pinned) (inr stat)] ∧ st_dev stat = ti_device identity ∧
    st_ino stat = ti_inode identity.
Proof.
  unfold pinned_identity. intros H. saw H stat. apply runs_give in H as [-> H].
  unfold descriptor_identity, fails_with in H. destruct stat as [e|stat]; [done|]. injection H as <-. by exists stat.
Qed.

Lemma opened_identity_Ok pinned name label t identity :
  runs (opened_identity pinned name label) t (Ok identity) →
  ∃ stat, t = [occurs (OpenDirectoryAt pinned name) (inr (inr stat))] ∧ st_dev stat = ti_device identity ∧
    st_ino stat = ti_inode identity.
Proof.
  unfold opened_identity. intros H. saw H o. apply runs_give in H as [-> H].
  unfold open_pinned_directory_at, descriptor_identity, fails_with in H.
  destruct o as [e|[e|stat]]; [done|done|]. injection H as <-. by exists stat.
Qed.

Lemma path_identity_Ok path t identity :
  runs (path_identity path) t (Ok identity) →
  ∃ md, t = [occurs (SymlinkMetadata path) (inr md)] ∧ md_is_symlink md = false ∧ md_is_dir md = true ∧
    md_dev md = ti_device identity ∧ md_ino md = ti_inode identity.
Proof.
  unfold path_identity. intros H. saw H md. apply runs_give in H as [-> H]. unfold target_identity in H.
  destruct md as [e|md]; [done|]. apply seq_Ok in H as [Hs H]. apply seq_Ok in H as [Hd [= <-]].
  apply reject_if_Ok in Hs, Hd. apply negb_false_iff in Hd. by exists md.
Qed.

Lemma path_identity_for_Ok prefix path t identity :
  runs (path_identity_for prefix path) t (Ok identity) →
  ∃ md, t = [occurs (SymlinkMetadata path) (inr md)] ∧ md_is_symlink md = false ∧ md_is_dir md = true ∧
    md_dev md = ti_device identity ∧ md_ino md = ti_inode identity.
Proof. intros H%runs_map_error. by apply path_identity_Ok. Qed.

Lemma require_mapping_Ok pinned name label expected changed t u :
  runs (require_mapping pinned name label expected changed) t (Ok u) →
  ∃ stat, t = [occurs (OpenDirectoryAt pinned name) (inr (inr stat))] ∧ st_dev stat = ti_device expected ∧
    st_ino stat = ti_inode expected.
Proof.
  unfold require_mapping. intros H. went H as t1 identity H1. apply runs_refuse_if in H as [-> H].
  apply negb_false_iff, bool_decide_eq_true in H. subst identity. rewrite app_nil_r. by eapply opened_identity_Ok.
Qed.

Lemma require_absent_Ok {E} pinned name (e : E) unknown t u :
  runs (require_absent pinned name e unknown) t (Ok u) →
  ∃ text, t = [occurs (OpenEntryAt pinned name) (Some (NOENT, text))].
Proof.
  unfold require_absent. intros H. saw H o. apply runs_give in H as [-> H].
  destruct o as [[errno text]|]; [|done]. cbn [pinned_entry_exists] in H.
  destruct (errno =? NOENT)%N eqn:Heq; [|done]. apply N.eqb_eq in Heq as ->. by exists text.
Qed.

Lemma require_private_Ok pinned a b t u :
  runs (require_private pinned a b) t (Ok u) →
  ∃ stat, t = [occurs (Fstat pinned) (inr stat)] ∧ permission_bits stat = 448%N.
Proof.
  unfold require_private. intros H. saw H o. gave H stat Hstat. apply runs_refuse_if in H as [-> H].
  apply negb_false_iff, bool_decide_eq_true in H. unfold fails_with in Hstat.
  destruct o as [e|stat']; [done|]. injection Hstat as ->. by exists stat.
Qed.

Lemma verify_tree_Ok tree snapshot phase t u :
  runs (verify_tree tree snapshot phase) t (Ok u) →
  ∃ scan, t = [occurs (ScanPinned tree) scan] ∧ snapshot_update_tree_descriptor scan = Ok snapshot.
Proof.
  unfold verify_tree. intros H. saw H scan. apply runs_give in H as [-> H].
  destruct u. unfold verify_update_tree_descriptor in H. unbind H as actual Ha.
  apply reject_if_Ok, negb_false_iff, bool_decide_eq_true in H. subst actual. by exists scan.
Qed.

End looks.

(** [noticed H] reads a check that succeeded off its trace. *)
Ltac noticed H :=
  try apply runs_map_error in H;
  first
    [ apply require_mapping_Ok in H as (? & -> & ? & ?)
    | apply require_absent_Ok in H as (? & ->)
    | apply require_private_Ok in H as (? & -> & ?)
    | apply verify_tree_Ok in H as (? & -> & ?)
    | apply opened_identity_Ok in H as (? & -> & ? & ?)
    | apply pinned_identity_Ok in H as (? & -> & ? & ?)
    | apply path_identity_for_Ok in H as (? & -> & ? & ? & ? & ?)
    | apply path_identity_Ok in H as (? & -> & ? & ? & ? & ?) ].

(** [noticed_each H] does so for each of the checks of a comparison. *)
Ltac noticed_each H :=
  cbn [agreed] in H;
  repeat
    (let t := fresh "t" in let t' := fresh "t" in let H1 := fresh in
     destruct H as (t & t' & -> & H1 & H); noticed H1);
  subst.

(** [noticing H] does so for each step of a program of checks. *)
Ltac noticing H :=
  repeat first
    [ let t := fresh "t" in let t' := fresh "t" in let H1 := fresh in
      apply unchanged_Ok in H as (t & t' & -> & H1 & H); noticed_each H1
    | apply unchanged_last_Ok in H; noticed_each H
    | let t := fresh "t" in let t' := fresh "t" in let H1 := fresh in
      apply same_Ok in H as (t & t' & -> & H1 & H); noticed H1
    | apply same_last_Ok in H; noticed H
    | let t := fresh "t" in let u := fresh "u" in let H1 := fresh in
      went H as t u H1; noticed H1
    | noticed H ].

(** Looks that the trace shows. *)
Ltac looking := repeat (constructor; [reflexivity|]); constructor.

(** [shown] finds the event that a check left in its trace. *)
Ltac shows_event := apply list_elem_of_here + (apply list_elem_of_further; shows_event).
Ltac shown := solve [eexists; split_and!; [shows_event|done..]].
