(* ===== verification/InstallProtocol.v ===== *)
(** * The protocol of an installation

    What an installation may do, as the shapes of its traces: nothing is renamed
    before the package was verified and staged and the publisher's authorization
    was begun; the rename that exposes the plugin directly follows a check of its
    source; and everything after it ends in a layout that was checked or in an
    error that says that it was not. [complete_leads] and [install_leads] show
    that the program keeps to it. The renames that each outcome leaves follow,
    and that what is exposed is the content of the verified package. *)

From stdpp Require Import base numbers list strings pretty sorting option gmap.
From Stdlib Require Import Strings.Byte Ascii.
From S2P Require Import Prelude Text Ordered Display Crates Io ArtifactProof Continuity RecoveryPolicy RecoveryChain.
From S2P Require Import Names Fields IpcProtocol Transport StoreTypes StoreCommon Backup BackupVerify Tables StoredKeys.
From S2P Require Import Journal Store Interaction Disk Package PackageArchive PackageFacts PackageTrust ShellReference Installer.
From S2P Require Import Install InstallFacts.

(** ** Renames *)

Inductive Movement :=
| Exposure (plugin_id : string) | Withdrawal (plugin_id : string)
| Removal (plugin_id : string) | Restoration (plugin_id : string)
| Exchange (plugin_id : string)
| OtherRename.

(** A rename with whether it succeeded. *)
Definition movement_of (e : Event Answer) : option (Movement * bool) :=
  match e with
  | existT (RenameNoReplace from name to new_name) answer =>
      Some (match from, to with
            | Staging, Plugins => if name == "plugin" then Exposure new_name else OtherRename
            | Plugins, Staging => if new_name == "plugin" then Withdrawal name else OtherRename
            | Plugins, Quarantine => if new_name == "plugin" then Removal name else OtherRename
            | Quarantine, Plugins => if name == "plugin" then Restoration new_name else OtherRename
            | _, _ => OtherRename
            end, if answer is None then true else false)
  | existT (RenameExchange from name to new_name) answer =>
      Some (match from, to with
            | Recovery, Plugins => if name == "plugin" then Exchange new_name else OtherRename
            | _, _ => OtherRename
            end, if answer is None then true else false)
  | _ => None
  end.

Definition renames (t : list (Event Answer)) : list (Movement * bool) := omap movement_of t.

Lemma renames_app t t' : renames (t ++ t') = renames t ++ renames t'.
Proof. apply omap_app. Qed.

Lemma renames_nil t t' : renames t = [] → renames t' = [] → renames (t ++ t') = [].
Proof. intros H H'. by rewrite renames_app, H, H'. Qed.

Lemma observed_renames t : observed t → renames t = [].
Proof.
  induction 1 as [|[c x] t Hc _ IH]; [done|]. cbn [projT1] in Hc. destruct c; try done; exact IH.
Qed.

Abbreviation exposes id answer := (occurs (Answer:=Answer) (RenameNoReplace Staging "plugin" Plugins id) answer).
Abbreviation withdraws id answer := (occurs (Answer:=Answer) (RenameNoReplace Plugins id Staging "plugin") answer).

(** A run of a program that only observes. *)
Lemma observes_quiet {E A} (Q : E → Prop) (p : installer E A) t r :
  observes Q p → runs p t r → renames t = [] ∧ ∀ e, r = Err e → Q e.
Proof. intros Hp Hr. destruct (Hp t r Hr). split; [by apply observed_renames|done]. Qed.

(** A program that renames nothing and does not panic. *)
Definition hushed {E A} (p : installer E A) : Prop := leads p (λ t r, renames t = [] ∧ no_panic r).

Lemma hushed_of {E A} (Q : E → Prop) (p : installer E A) : observes Q p → steady p → hushed p.
Proof. intros Ho Hc t r Hr. split; [apply (observes_quiet Q p t r Ho Hr)|exact (Hc t r Hr)]. Qed.

Lemma attempt_leads {E F A} (p : installer E A) (Φ : list (Event Answer) → result E A → Prop) :
  leads p Φ → leads (E:=F) (attempt p) (λ t r,
    match r with
    | Ok (inr a) => Φ t (Ok a)
    | Ok (inl e) => Φ t (Err e)
    | Panic s => Φ t (Panic s)
    | Err _ => False
    end).
Proof.
  intros Hp. eapply leads_handle; [exact Hp|]. intros t [a|e|s] Ht; apply leads_give; by rewrite app_nil_r.
Qed.

(** A step whose answer is looked at after nothing was renamed. *)
Lemma hushed_bind {E A B} (p : installer E A) (f : A → installer E B) (Φ : list (Event Answer) → result E B → Prop) :
  hushed p → (∀ t a, renames t = [] → runs p t (Ok a) → leads (f a) (λ t' r, Φ (t ++ t') r)) →
  (∀ t e, renames t = [] → runs p t (Err e) → Φ t (Err e)) → leads (p ≫= f) Φ.
Proof.
  intros Hp Hf He. eapply (leads_bind _ _ (λ t r, renames t = [] ∧ no_panic r ∧ runs p t r)).
  - intros t r Hr. by destruct (Hp t r Hr).
  - intros t a (Ht & _ & Hr). eauto.
  - intros t e (Ht & _ & Hr). eauto.
  - by intros t s (_ & [] & _).
Qed.

Lemma hushed_attempt {E F A} (p : installer E A) : hushed p → hushed (E:=F) (attempt p).
Proof.
  intros Hp. eapply leads_mono; [exact (attempt_leads p _ Hp)|]. by intros t [[]| |].
Qed.

Lemma runs_attempt {E F A} (p : installer E A) t (r : E + A) :
  runs (E:=F) (attempt p) t (Ok r) → runs p t (match r with inr a => Ok a | inl e => Err e end).
Proof.
  unfold attempt. rewrite runs_handle. intros (t1 & t2 & r1 & -> & H1 & H2).
  destruct r1; destruct H2 as [-> [= ->]]; by rewrite app_nil_r.
Qed.

Lemma attempted_bind {E F A B} (p : installer E A) (f : E + A → installer F B)
    (Φ : list (Event Answer) → result F B → Prop) :
  hushed p → (∀ t r, renames t = [] → runs p t (match r with inr a => Ok a | inl e => Err e end) →
    leads (f r) (λ t' r', Φ (t ++ t') r')) → leads (attempt p ≫= f) Φ.
Proof.
  intros Hp Hf. apply hushed_bind; [by apply hushed_attempt| |].
  - intros t r Ht Hr%runs_attempt. by apply Hf.
  - intros t e _ Hr. apply runs_handle in Hr as (t1 & t2 & [a|e'|s] & _ & _ & [_ ?]); done.
Qed.

Lemma give_bind {E A B} (a : A) (f : A → installer E B) : give (Ok a) ≫= f = f a.
Proof. done. Qed.

Lemma ret_bind {E A B} (a : A) (f : A → installer E B) : mret a ≫= f = f a.
Proof. done. Qed.

Lemma leads_failing {E A B} (p : installer E A) (f : A → installer E B)
    (Φ : list (Event Answer) → result E B → Prop) :
  leads p (λ t r, ∃ e, r = Err e ∧ Φ t (Err e)) → leads (p ≫= f) Φ.
Proof.
  intros Hp. eapply leads_bind; [exact Hp|..].
  - by intros t a (e & ? & _).
  - by intros t e (e' & [= ->] & H).
  - by intros t s (e & ? & _).
Qed.

(** A description of what is found, which is always given. *)
Definition telling {E} (describe : installer E string) : Prop :=
  leads describe (λ t r, renames t = [] ∧ ∃ s, r = Ok s).

Lemma telling_of {E} (p : installer E string) : observes (λ _, False) p → steady p → telling p.
Proof.
  intros Ho Hc t r Hr. destruct (observes_quiet _ p t r Ho Hr) as [Ht He]. split; [done|].
  pose proof (Hc t r Hr). destruct r as [s|e|]; [eauto|by destruct (He e)|done].
Qed.

(** An error with such a description. *)
Lemma leads_described {E A} (describe : installer E string) (f : string → E)
    (Φ : list (Event Answer) → result E A → Prop) :
  telling describe → (∀ t s, renames t = [] → Φ t (Err (f s))) →
  leads (state ← describe; give (Err (f state))) Φ.
Proof.
  intros Hd Hf. eapply leads_bind; [exact Hd|..].
  - intros t s [Ht _]. apply leads_give. rewrite app_nil_r. by apply Hf.
  - by intros t e (_ & s & ?).
  - by intros t p (_ & s & ?).
Qed.

Section protocol.
Context {crates : Crates} {uuids : Uuids} {materializations : Materializations}
  {json_root_proof : Serde PersonaRootProof} {json_policy_proof : Serde RecoveryPolicyProof}
  {json_transition_proof : Serde PersonaTransitionProof}
  {json_recovery_proof : Serde RecoveryTransitionProof}
  {json_entry : Serde PersonaContinuityTransitionProof}
  {json_terminal_proof : Serde TerminalPersonaRevocationProof}
  {json_archive : Serde BackupContinuityArchive} {json_backup : Serde PersonaBackup}
  {pretty_backup : SerdePretty PersonaBackup}
  {json_root : Serde PersonaRootStatement} {json_transition : Serde PersonaTransitionStatement}
  {json_policy : Serde RecoveryPolicyStatement} {json_recovery : Serde RecoveryTransitionStatement}
  {json_terminal : Serde TerminalPersonaRevocationStatement}
  {json_statement : Serde ArtifactStatement} {json_bundle : Serde ProofBundle}
  {formats : ArchiveFormats} {semver : Semver} {json_manifest : Serde OmarchyManifest}
  {shell_json : ShellJson} {pretty_receipt : SerdePretty InstallReceipt} {texts : ErrorTexts}.

Lemma hushed_layout pinned directory id : hushed (verify_install_layout pinned directory id).
Proof. eapply hushed_of; [apply observes_layout|apply steady_layout]. Qed.
Lemma hushed_rolled_back pinned directory id : hushed (verify_rolled_back_install_layout pinned directory id).
Proof. eapply hushed_of; [apply observes_rolled_back|apply steady_rolled_back]. Qed.
Lemma hushed_source pinned directory : hushed (verify_install_source_before_rename pinned directory).
Proof. eapply hushed_of; [apply observes_source|apply steady_source]. Qed.
Lemma telling_recovery {E} pinned directory id :
  telling (E:=E) (describe_install_recovery_state pinned directory id).
Proof. eapply telling_of; [apply observes_describe_recovery|apply steady_describe_recovery]. Qed.
Lemma telling_root {E} pinned : telling (E:=E) (describe_pinned_install_root pinned).
Proof. eapply telling_of; [apply observes_describe_root|apply steady_describe_root]. Qed.
Lemma hushed_rescan shell phase : hushed (rescan shell phase).
Proof. eapply hushed_of; [apply observes_rescan|apply steady_rescan]. Qed.
Lemma hushed_reject_stale directory id : hushed (reject_stale directory id).
Proof. eapply hushed_of; [apply observes_reject_stale|apply steady_reject_stale]. Qed.

Section pinned.
Context (pinned : PinnedInstall) (directory id : string).

(** ** The protocol *)

(** The undoing of an exposure, with the error that it ends in: the error that
    the caller chose says that the candidate was found back in its staging. *)
Inductive undone (restored : string → OmarchyError) : list (Event Answer) → OmarchyError → Prop :=
| undone_unverified t s : renames t = [] → undone restored t (InstallRollbackFailed s)
| undone_attempted tv x t s :
    runs (verify_install_layout pinned directory id) tv (Ok tt) → renames t = [] →
    undone restored (tv ++ withdraws id x :: t) (InstallRollbackFailed s)
| undone_unproved tv t s :
    runs (verify_install_layout pinned directory id) tv (Ok tt) → renames t = [] →
    undone restored (tv ++ withdraws id None :: t) (InstallStateIndeterminate s)
| undone_proved tv t t' s :
    runs (verify_install_layout pinned directory id) tv (Ok tt) → renames t = [] →
    runs (verify_rolled_back_install_layout pinned directory id) t' (Ok tt) →
    undone restored (tv ++ withdraws id None :: t ++ t') (restored s).

(** What follows a rename that exposed the candidate. *)
Inductive settled : list (Event Answer) → result OmarchyError InstallOutcome → Prop :=
| settled_live t t' outcome :
    renames t = [] → runs (verify_install_layout pinned directory id) t' (Ok tt) →
    io_plugin_id outcome = id → io_retained_staging outcome = pn_staging_path pinned →
    settled (t ++ t') (Ok outcome)
| settled_unknown t s : renames t = [] → settled t (Err (InstallStateIndeterminate s))
| settled_undone t t' restored e :
    renames t = [] → restored ∈ [InstallRolledBack; InstallAuthorizationFinalizationFailed] →
    undone restored t' e → settled (t ++ t') (Err e).

(** From the final authorization on. *)
Inductive completed (fingerprint label persona : string) :
    list (Event Answer) → result OmarchyError InstallOutcome → Prop :=
| completed_unexposed t e : renames t = [] → early e → completed fingerprint label persona t (Err e)
| completed_panic t s : renames t = [] → completed fingerprint label persona t (Panic s)
| completed_refused store tv e t s :
    live_publisher store fingerprint label persona →
    runs (verify_install_source_before_rename pinned directory) tv (Ok tt) → renames t = [] →
    completed fingerprint label persona
      (occurs BeginAuthorization (inr store) :: tv ++ exposes id (Some e) :: t) (Err (InstallStateIndeterminate s))
| completed_exposed store tv t r :
    live_publisher store fingerprint label persona →
    runs (verify_install_source_before_rename pinned directory) tv (Ok tt) → settled t r →
    completed fingerprint label persona (occurs BeginAuthorization (inr store) :: tv ++ exposes id None :: t) r.

(** ** The program keeps to it *)

Lemma rollback_leads :
  leads (rollback_pinned_install pinned directory id) (λ t r,
    match r with
    | Ok _ => ∃ tv t', t = tv ++ withdraws id None :: t' ∧
        runs (verify_install_layout pinned directory id) tv (Ok tt) ∧ renames t' = []
    | Err _ => renames t = [] ∨ ∃ tv x t', t = tv ++ withdraws id x :: t' ∧
        runs (verify_install_layout pinned directory id) tv (Ok tt) ∧ renames t' = []
    | Panic _ => False
    end).
Proof.
  unfold rollback_pinned_install. apply hushed_bind; [apply hushed_layout| |by left].
  intros tv [] Htv Hrun. eapply leads_bind; [exact (leads_call _ (λ t r, ∃ x, r = Ok x ∧ t = [withdraws id x])
    (λ x, ex_intro _ x (conj eq_refl eq_refl)))|..].
  - intros t x (x' & [= <-] & ->). destruct x as [e|].
    + intros t' r [-> ->]. right. exists tv, (Some e), []. split_and!; done.
    + eapply leads_mono; [apply hushed_rolled_back|]. intros t r [Ht Hp].
      destruct r as [[]|e|]; [|right|done]; [exists tv, t|exists tv, None, t]; done.
  - by intros t e (x & ? & _).
  - by intros t s (x & ? & _).
Qed.

Lemma fail_after_leads {A} shell failure restored :
  leads (A:=A) (fail_after_install_and_rollback pinned directory id shell failure restored) (λ t r,
    ∃ e, r = Err e ∧ undone restored t e).
Proof.
  unfold fail_after_install_and_rollback. eapply leads_bind; [exact (attempt_leads _ _ rollback_leads)|..].
  2: by intros t e ?.
  2: by intros t s ?.
  intros t [error|[]] Ht.
  - apply leads_described; [apply telling_recovery|]. intros t' s Ht'. eexists. split; [done|].
    destruct Ht as [Ht|(tv & x & t1 & -> & Hv & Ht)].
    + apply undone_unverified. by apply renames_nil.
    + rewrite <- app_assoc. cbn [app]. apply undone_attempted; [done|by apply renames_nil].
  - destruct Ht as (tv & t1 & -> & Hv & Ht).
    apply attempted_bind; [apply hushed_rescan|]. intros t2 rescanned Ht2 _.
    apply attempted_bind; [apply hushed_reject_stale|]. intros t3 reference Ht3 _.
    apply attempted_bind; [apply hushed_rolled_back|]. intros t4 layout Ht4 Hlayout.
    destruct layout as [error|[]]; [|destruct reference as [error|[]]; [|destruct rescanned as [error|[]]]].
    1-3: apply leads_described; [apply telling_recovery|]; intros t5 s Ht5; eexists; (split; [done|]);
      rewrite <- !app_assoc; cbn [app]; first [apply undone_unproved|apply undone_attempted];
      auto using renames_nil.
    apply leads_give. eexists. split; [done|]. rewrite app_nil_r, <- !app_assoc. cbn [app].
    rewrite (app_assoc t1), (app_assoc (t1 ++ t2)). apply undone_proved; auto using renames_nil.
Qed.

Lemma expose_leads :
  leads (expose_pinned_install_no_replace pinned directory id) (λ t r,
    match r with
    | Ok _ => ∃ tv t', t = tv ++ exposes id None :: t' ∧ renames t' = [] ∧
        runs (verify_install_source_before_rename pinned directory) tv (Ok tt)
    | Err (_, true) => ∃ tv t', t = tv ++ exposes id None :: t' ∧ renames t' = [] ∧
        runs (verify_install_source_before_rename pinned directory) tv (Ok tt)
    | Err (_, false) => renames t = [] ∨ ∃ tv e, t = tv ++ [exposes id (Some e)] ∧
        runs (verify_install_source_before_rename pinned directory) tv (Ok tt)
    | Panic _ => False
    end).
Proof.
  unfold expose_pinned_install_no_replace.
  eapply (leads_bind _ _ (λ t r, match r with
    | Ok _ => runs (verify_install_source_before_rename pinned directory) t (Ok tt)
    | Err (_, false) => renames t = [] | _ => False end)).
  - eapply leads_handle.
    { intros t r Hr. exact (conj Hr (hushed_source pinned directory t r Hr)). }
    intros t [[]|e|s] (Hr & Ht & Hp); apply leads_give; rewrite app_nil_r; [done|done|destruct Hp].
  - intros tv [] Hv. eapply leads_bind; [exact (leads_call _ (λ t r, ∃ x, r = Ok x ∧ t = [exposes id x])
      (λ x, ex_intro _ x (conj eq_refl eq_refl)))|..].
    + intros t x (x' & [= <-] & ->). destruct x as [e|].
      * intros t' r [-> ->]. right. by exists tv, e.
      * rewrite give_bind. eapply leads_handle; [apply hushed_layout|]. intros t r [Ht Hp].
        intros t' r' [-> ->]. rewrite app_nil_r. destruct r as [[]|e|]; [by exists tv, t..|done].
    + by intros t e (x & ? & _).
    + by intros t s (x & ? & _).
  - intros t [e []] Ht; [done|by left].
  - done.
Qed.

(** The final authorization around the exposure. *)
Lemma authorization_leads {E} fingerprint label persona :
  leads (E:=E) (with_final_publisher_operation fingerprint label persona
    (expose_pinned_install_no_replace pinned directory id)) (λ t r,
    match r with
    | Ok (Authorized _) | Ok (FinalizationFailed _ _) | Ok (OperationFailed _ true) =>
        ∃ store tv t', t = occurs BeginAuthorization (inr store) :: tv ++ exposes id None :: t' ∧
          renames t' = [] ∧ live_publisher store fingerprint label persona ∧
          runs (verify_install_source_before_rename pinned directory) tv (Ok tt)
    | Ok (OperationFailed _ false) => renames t = [] ∨
        ∃ store tv e, t = occurs BeginAuthorization (inr store) :: tv ++ [exposes id (Some e)] ∧
          live_publisher store fingerprint label persona ∧
          runs (verify_install_source_before_rename pinned directory) tv (Ok tt)
    | Ok (Refused _) | Panic _ => renames t = []
    | Ok CompletedWithoutValue | Err _ => False
    end).
Proof.
  unfold with_final_publisher_operation.
  eapply leads_bind; [exact (leads_call _ (λ t r, ∃ x, r = Ok x ∧ t = [occurs BeginAuthorization x])
      (λ x, ex_intro _ x (conj eq_refl eq_refl)))|..].
  2: by intros t e (x & ? & _).
  2: by intros t s (x & ? & _).
  intros t begun (x & [= <-] & ->). destruct begun as [e|store]; [by intros t r [-> ->]|].
  destruct (final_publisher_check store fingerprint label persona) as [[]|e|s] eqn:Hcheck;
    [|by intros t r [-> ->]..].
  apply final_publisher_check_live in Hcheck.
  eapply leads_bind; [exact (attempt_leads _ _ expose_leads)|..].
  2: by intros t e ?.
  2: by intros t s ?.
  intros t [[e []]|[]] Ht.
  - intros t' r [-> ->]. rewrite app_nil_r. destruct Ht as (tv & t' & -> & Ht' & Hv). by exists store, tv, t'.
  - intros t' r [-> ->]. rewrite app_nil_r. destruct Ht as [Ht|(tv & x & -> & Hv)]; [by left|right].
    by exists store, tv, x.
  - destruct Ht as (tv & t' & -> & Ht' & Hv).
    intros t r (x & t'' & -> & -> & ->).
    assert (renames (t' ++ [occurs CommitAuthorization x]) = []) as Hr by (by apply renames_nil).
    set (c := occurs CommitAuthorization x) in *.
    destruct x; exists store, tv, (t' ++ [c]); (split_and!; [|done..]); cbn [app]; by rewrite <- app_assoc.
Qed.

(** What runs after the exposure is a part of a completed installation. *)
Lemma exposed_leads p store fingerprint label persona tv t :
  live_publisher store fingerprint label persona →
  runs (verify_install_source_before_rename pinned directory) tv (Ok tt) →
  leads p (λ t' r, settled (t ++ t') r) →
  leads p (λ t' r, completed fingerprint label persona
    ((occurs BeginAuthorization (inr store) :: tv ++ exposes id None :: t) ++ t') r).
Proof.
  intros Hl Hv Hp. eapply leads_mono; [exact Hp|]. intros t' r Hr. cbn [app]. rewrite <- app_assoc.
  cbn [app]. by apply completed_exposed.
Qed.

(** The last look at the layout. *)
Lemma confirm_leads (text : string → string → string) :
  leads (or_else (verify_install_layout pinned directory id)
    (λ error, state ← describe_install_recovery_state pinned directory id;
       give (Err (InstallStateIndeterminate (text error state))))) (λ t r,
    renames t = [] ∧ match r with
      | Ok _ => runs (verify_install_layout pinned directory id) t (Ok tt)
      | Err e => ∃ s, e = InstallStateIndeterminate s
      | Panic _ => False
      end).
Proof.
  unfold or_else. apply attempted_bind; [apply hushed_layout|]. intros t [error|[]] Ht Hrun.
  - apply (leads_described _ (λ state, InstallStateIndeterminate (text error state)));
      [apply telling_recovery|].
    intros t' s Ht'. split; [by apply renames_nil|eauto].
  - intros t' r [-> ->]. by rewrite app_nil_r.
Qed.

End pinned.

Lemma complete_leads request staged pinned :
  leads (complete_install request staged pinned)
    (completed pinned (rq_plugins_directory request) (om_id (pi_manifest (sg_inspection staged)))
      (signer_fingerprint (sg_inspection staged)) (signer_label (sg_inspection staged))
      (sg_publisher_persona_id staged)).
Proof.
  unfold complete_install. eapply leads_bind; [apply authorization_leads|..].
  2: by intros t e ?.
  2: intros t s Ht; by apply completed_panic.
  intros t authorization Ht. destruct authorization as [[]|cause|cause [] |[] cause|]; [..|done].
  - destruct Ht as (store & tv & t1 & -> & Ht1 & Hl & Hv). apply exposed_leads; [done..|].
    rewrite ret_bind. apply attempted_bind; [apply hushed_rescan|]. intros t2 rescanned Ht2 _.
    destruct rescanned as [error|[]].
    + apply leads_failing. eapply leads_mono; [apply fail_after_leads|]. intros t3 r (e & -> & He).
      exists e. split; [done|]. rewrite app_assoc. eapply settled_undone; [by apply renames_nil| |done].
      by left.
    + rewrite ret_bind. eapply leads_bind;
        [apply (confirm_leads _ _ _ (λ error state, "final install layout verification failed (" +:+ error +:+
           "); no recursive deletion ran; " +:+ state))|..].
      * intros t3 [] [Ht3 Hrun] t4 r [-> ->]. rewrite app_nil_r, app_assoc.
        apply settled_live; [by apply renames_nil|done..].
      * intros t3 e [Ht3 [s ->]]. apply settled_unknown. auto using renames_nil.
      * by intros t3 s [_ ?].
  - apply leads_failing, leads_described; [apply telling_root|]. intros t1 s Ht1. eexists. split; [done|].
    apply completed_unexposed; [by apply renames_nil|done].
  - destruct Ht as (store & tv & t1 & -> & Ht1 & Hl & Hv). apply exposed_leads; [done..|].
    apply leads_failing, leads_described; [apply telling_recovery|]. intros t2 s Ht2. eexists. split; [done|].
    apply settled_unknown. by apply renames_nil.
  - apply leads_failing, leads_described; [apply telling_recovery|]. intros t1 s Ht1. eexists. split; [done|].
    destruct Ht as [Ht|(store & tv & e & -> & Hl & Hv)].
    + apply completed_unexposed; [by apply renames_nil|done].
    + cbn [app]. rewrite <- app_assoc. cbn [app]. by eapply completed_refused.
  - destruct Ht as (store & tv & t1 & -> & Ht1 & Hl & Hv). apply exposed_leads; [done..|].
    apply leads_failing. eapply leads_mono; [apply fail_after_leads|]. intros t2 r (e & -> & He).
    exists e. split; [done|]. eapply settled_undone; [done| |done]. by right; left.
Qed.

(** ** The whole installation *)

(** Either nothing was renamed and the error does not tell of an exposure, or
    the package was verified, staged and pinned and the installation was
    completed from there. *)
Definition installs (request : InstallRequest) (t : list (Event Answer))
    (r : result OmarchyError InstallOutcome) : Prop :=
  (renames t = [] ∧ match r with Ok _ => False | Err e => early e | Panic _ => True end) ∨
  ∃ staging_path plugins_identity staging_identity staged pinned t0 t1 t2,
    t = t0 ++ t1 ++ t2 ∧ renames t0 = [] ∧ renames t1 = [] ∧
    runs (prepare_install request staging_path plugins_identity staging_identity) t1 (Ok (staged, pinned)) ∧
    completed pinned (rq_plugins_directory request) (om_id (pi_manifest (sg_inspection staged)))
      (signer_fingerprint (sg_inspection staged)) (signer_label (sg_inspection staged))
      (sg_publisher_persona_id staged) t2 r.

Lemma installs_app request t t' r : renames t = [] → installs request t' r → installs request (t ++ t') r.
Proof.
  intros Ht [[Ht' Hr]|(path & i & j & staged & pinned & t0 & t1 & t2 & -> & Ht0 & Ht1 & Hp & Hc)].
  - left. split; [by apply renames_nil|done].
  - right. exists path, i, j, staged, pinned, (t ++ t0), t1, t2. rewrite app_assoc.
    split_and!; try done. by apply renames_nil.
Qed.

Lemma observes_then {A} request (p : installer OmarchyError A) f :
  observes early p → (∀ a, leads (f a) (installs request)) → leads (p ≫= f) (installs request).
Proof.
  intros Hp Hf. eapply leads_bind; [exact Hp|..].
  - intros t a [Ht _] t' r Hr. apply installs_app; [by apply observed_renames|by apply (Hf a)].
  - intros t e [Ht He]. left. split; [by apply observed_renames|by apply He].
  - intros t s [Ht _]. left. split; [by apply observed_renames|done].
Qed.

Lemma install_leads request : leads (install_with_lifecycle request) (installs request).
Proof.
  unfold install_with_lifecycle.
  apply observes_then; [apply observes_system_command|intros _].
  apply observes_then; [apply observes_system_command|intros _].
  apply observes_then; [apply observes_plugins_directory|intros _].
  apply observes_then; [apply observes_path_identity|intros plugins_identity].
  apply observes_then; [apply observes_retained_staging|intros staging_path].
  apply observes_then; [eapply observes_map_error; [apply observes_path_identity|done]|intros staging_identity].
  unfold install_on_linux. eapply (leads_bind _ _ (λ t r, observed t ∧ (∀ e, r = Err e → early e) ∧
    runs (prepare_install request staging_path plugins_identity staging_identity) t r)).
  - intros t r Hr. by destruct (observes_prepare_install _ _ _ _ t r Hr).
  - intros t [staged pinned] (Ht & _ & Hrun) t' r Hr. right.
    exists staging_path, plugins_identity, staging_identity, staged, pinned, [], t, t'.
    split_and!; [done|done|by apply observed_renames|done|by apply complete_leads].
  - intros t e (Ht & He & _). left. split; [by apply observed_renames|by apply He].
  - intros t s (Ht & _). left. split; [by apply observed_renames|done].
Qed.

(** An installation keeps to its protocol. Nothing is renamed unless the
    package was first verified, staged and pinned; the rename that exposes the
    plugin directly follows a check of its source, inside a transaction of the
    store in which the signer of the package is an active key of the persona it
    names; it is undone only when the exposed layout is still the pinned one;
    and the installation then ends in a checked layout or in an error that says
    that it did not. *)
Theorem install_follows_protocol request t r :
  runs (install_with_lifecycle request) t r → installs request t r.
Proof. apply install_leads. Qed.

End protocol.

(** * What an installation exposes *)

(** ** Successful runs *)

(** A failure that is described is a failure. *)
Lemma described_never_Ok {E A} (p : installer E string) (f : string → E) t (a : A) :
  ¬ runs (state ← p; give (Err (f state))) t (Ok a).
Proof. intros H. went H as t1 s Hs. by destruct H. Qed.

Lemma or_else_Ok {E F A} (p : installer E A) (f : E → installer F A) t a :
  (∀ e t, ¬ runs (f e) t (Ok a)) → runs (or_else p f) t (Ok a) → runs p t (Ok a).
Proof.
  intros Hf H. unfold or_else in H. went H as t1 r Hr. apply runs_attempt in Hr.
  destruct r as [e|a']; [by apply Hf in H|]. destruct H as [-> [= ->]]. by rewrite app_nil_r.
Qed.

(** The first rename of a trace is at one place. *)
Lemma first_rename t e u t' e' u' :
  t ++ e :: u = t' ++ e' :: u' → renames t = [] → renames t' = [] →
  movement_of e ≠ None → movement_of e' ≠ None → t = t' ∧ e = e' ∧ u = u'.
Proof.
  revert t'. induction t as [|x t IH]; intros [|x' t'] Heq Ht Ht' He He'; cbn in Heq; simplify_eq; [done|..].
  - unfold renames in Ht'. cbn in Ht'. by destruct (movement_of x').
  - unfold renames in Ht. cbn in Ht. by destruct (movement_of e').
  - unfold renames in Ht, Ht'. cbn in Ht, Ht'. destruct (movement_of x'); [done|].
    by destruct (IH t') as (-> & -> & ->).
Qed.

Section content.
Context {crates : Crates} {uuids : Uuids} {materializations : Materializations}
  {json_root_proof : Serde PersonaRootProof} {json_policy_proof : Serde RecoveryPolicyProof}
  {json_transition_proof : Serde PersonaTransitionProof}
  {json_recovery_proof : Serde RecoveryTransitionProof}
  {json_entry : Serde PersonaContinuityTransitionProof}
  {json_terminal_proof : Serde TerminalPersonaRevocationProof}
  {json_archive : Serde BackupContinuityArchive} {json_backup : Serde PersonaBackup}
  {pretty_backup : SerdePretty PersonaBackup}
  {json_root : Serde PersonaRootStatement} {json_transition : Serde PersonaTransitionStatement}
  {json_policy : Serde RecoveryPolicyStatement} {json_recovery : Serde RecoveryTransitionStatement}
  {json_terminal : Serde TerminalPersonaRevocationStatement}
  {json_statement : Serde ArtifactStatement} {json_bundle : Serde ProofBundle}
  {formats : ArchiveFormats} {semver : Semver} {json_manifest : Serde OmarchyManifest}
  {shell_json : ShellJson} {pretty_receipt : SerdePretty InstallReceipt} {texts : ErrorTexts}.

(** The sealed copy was described, the proof that was loaded verifies for that
    description, and it was inspected by a store in which its signer is a live
    publisher. *)
Definition verified_package (proof_path : string) (t : list (Event Answer))
    (sealed : SealedArtifact) (inspection : PluginInspection) : Prop :=
  ∃ fs proof descriptor package store id,
    occurs (LoadProof proof_path) fs ∈ t ∧ load_proof fs proof_path = Ok proof ∧
    occurs (DescribePackage sealed) (Ok descriptor, package) ∈ t ∧ occurs ReadStore store ∈ t ∧
    verify_sshsig_proof_for_descriptor descriptor proof = Ok (pi_artifact_evidence inspection) ∧
    (inspect_archive_file (env:=no_disk_env) package no_disk).1 =
      Ok (pi_manifest inspection, pi_archive inspection) ∧
    live_publisher store (signer_fingerprint inspection) (signer_label inspection) id.

(** The receipt of an installation: of the plugin and the version of the package,
    with its digest, the key that signed it, the persona of its publisher and the
    time. *)
Definition receipt_for (t : list (Event Answer)) (sealed : SealedArtifact) (inspection : PluginInspection)
    (persona : string) (receipt : InstallReceipt) : Prop :=
  ir_schema_version receipt = 1%N ∧ ir_plugin_id receipt = om_id (pi_manifest inspection) ∧
  ir_version receipt = om_version (pi_manifest inspection) ∧
  ir_package_sha256 receipt = dg_value (ad_digest (sa_descriptor sealed)) ∧
  ir_publisher_key_fingerprint receipt = signer_fingerprint inspection ∧
  ir_publisher_persona_id receipt = persona ∧
  occurs Now (inr (ir_installed_at_unix_seconds receipt)) ∈ t.

(** The receipt was written into the directory, in these bytes. *)
Definition receipt_written (t : list (Event Answer)) (directory : string) (receipt : InstallReceipt)
    (bs : bytes) : Prop :=
  ∃ text answers, json_to_vec_pretty receipt = inr text ∧ bs = text ++ [byte_of 10] ∧
    occurs (WriteReceipt (path_join directory INSTALL_RECEIPT_NAME) bs) answers ∈ t ∧
    rw_create answers = None ∧ rw_secure answers = None ∧ rw_write answers = None ∧ rw_sync answers = None.

(** The sealed copy was unpacked with the outcome that its inspection had, a
    receipt was written beside it, and the entries are those of the unpacked tree
    with the size and the digest of that receipt. *)
Definition unpacked_package (t : list (Event Answer)) (sealed : SealedArtifact) (inspection : PluginInspection)
    (persona : string) (entries : list ExtractedTreeEntry) : Prop :=
  ∃ dest env disk package tree receipt bs,
    occurs (Extract sealed dest) (env, disk, package) ∈ t ∧
    (extract_archive_file (env:=env) package (path_place dest) disk).1 =
      Ok (pi_manifest inspection, pi_archive inspection, tree) ∧
    receipt_for t sealed inspection persona receipt ∧ receipt_written t dest receipt bs ∧
    entries = merge_sort tree_le (em_entries tree ++ [receipt_entry (len bs) (Sha256_digest bs)]).

Lemma verified_package_mono proof_path t t' sealed inspection :
  (∀ e, e ∈ t → e ∈ t') → verified_package proof_path t sealed inspection →
  verified_package proof_path t' sealed inspection.
Proof.
  intros Hsub (fs & proof & descriptor & package & store & pid & H1 & ? & H2 & H3 & ?).
  exists fs, proof, descriptor, package, store, pid. split_and!; try apply Hsub; tauto.
Qed.

Lemma inspect_staged_Ok proof_path t1 proof package_path staging t2 sealed inspection id :
  runs (load_package_proof proof_path) t1 (Ok proof) →
  runs (inspect_staged_package package_path staging proof) t2 (Ok (sealed, inspection, id)) →
  verified_package proof_path (t1 ++ t2) sealed inspection.
Proof.
  unfold load_package_proof, inspect_staged_package. intros Hl H. saw Hl fs.
  apply runs_give in Hl as [-> Hproof]. apply map_err_Ok in Hproof.
  saw H copy. gave H u Hcopy. saw H sl. gave H sealed' Hseal. saw H described.
  destruct described as [described package].
  saw H store. gave H inspection' Hi. gave H u' Hreq. saw H store'. gave H id' Hid.
  destruct H as [-> [= -> -> ->]]. destruct u'.
  destruct (inspect_described (env:=no_disk_env) described package proof (Some store) no_disk) as [r d] eqn:Hd.
  cbn in Hi. subst r.
  destruct (described_live _ _ _ _ _ _ _ Hd Hreq) as ((descriptor & -> & Hver) & Hins & pid & Hlive).
  exists fs, proof, descriptor, package, store, pid. cbn [app].
  split_and!; try done; [in_trace..|by rewrite Hins].
Qed.

Lemma verify_package_Ok request staging t sealed inspection id :
  runs (verify_package request staging) t (Ok (sealed, inspection, id)) →
  verified_package (rq_proof_path request) t sealed inspection.
Proof.
  unfold verify_package. intros H. went H as t1 proof Hproof. went H as t2 inspected Hi.
  destruct inspected as [[sealed' inspection'] id'].
  went H as t3 u3 H3. went H as t4 u4 H4. destruct H as [-> [= -> -> ->]].
  rewrite app_assoc. eapply verified_package_mono; [|by eapply inspect_staged_Ok].
  intros e He. rewrite !elem_of_app in *. tauto.
Qed.

Lemma build_receipt_Ok sealed inspection persona t receipt :
  runs (build_receipt_for_artifact (sa_descriptor sealed) inspection persona) t (Ok receipt) →
  receipt_for t sealed inspection persona receipt.
Proof.
  unfold build_receipt_for_artifact. intros H. saw H now. gave H seconds Hnow. destruct H as [-> [= ->]].
  apply map_err_Ok in Hnow. destruct now as [e|now]; [done|]. injection Hnow as ->.
  split_and!; try done. by left.
Qed.

Lemma write_receipt_Ok directory receipt t size digest :
  runs (write_install_receipt directory receipt) t (Ok (size, digest)) →
  ∃ bs, receipt_written t directory receipt bs ∧ size = len bs ∧ digest = Sha256_digest bs.
Proof.
  unfold write_install_receipt. cbv zeta. intros H. gave H text Htext. apply map_err_Ok in Htext.
  went H as v1 u1 H1. apply runs_refuse_if in H1 as [-> _]. saw H answers. gave H u2 Hwrite.
  destruct H as [-> [= -> ->]]. exists (text ++ [byte_of 10]). split; [|done]. exists text, answers.
  unfold write_receipt_bytes, io_at in Hwrite.
  destruct (rw_create answers), (rw_secure answers), (rw_write answers), (rw_sync answers); try done.
  split_and!; try done; [by destruct (json_to_vec_pretty receipt); simplify_eq/=|by left].
Qed.

Lemma receipt_for_mono t t' sealed inspection persona receipt :
  (∀ e, e ∈ t → e ∈ t') → receipt_for t sealed inspection persona receipt →
  receipt_for t' sealed inspection persona receipt.
Proof. unfold receipt_for. intros Hsub. intuition. Qed.

Lemma receipt_written_mono t t' directory receipt bs :
  (∀ e, e ∈ t → e ∈ t') → receipt_written t directory receipt bs → receipt_written t' directory receipt bs.
Proof. intros Hsub (text & answers & ? & ? & ? & ?). exists text, answers. auto. Qed.

Lemma stage_plugin_Ok indeterminate staging sealed inspection persona t staged :
  runs (stage_plugin indeterminate staging sealed inspection persona) t (Ok staged) →
  sg_inspection staged = inspection ∧ sg_publisher_persona_id staged = persona ∧
  unpacked_package t sealed inspection persona (map extracted_of (us_entries (sg_candidate_snapshot staged))).
Proof.
  unfold stage_plugin. intros H. saw H extracted. destruct extracted as [[env disk] package].
  gave H unpacked Hex. destruct unpacked as [[manifest archive] tree].
  went H as v1 u1 H1. apply runs_refuse_if in H1 as [-> Hsame].
  went H as v1 receipt Hr. went H as v2 written Hw. destruct written as [size digest].
  went H as t3 identity Hid. went H as t4 snapshot Hs. went H as t5 u5 Hv. destruct H as [-> [= ->]].
  apply orb_false_iff in Hsame as [Hm Ha].
  apply negb_false_iff, bool_decide_eq_true in Hm, Ha. subst manifest archive.
  split; [done|]. split; [done|]. apply runs_map_error, runs_give in Hv as [-> Hv]. destruct u5.
  unfold verify_candidate_matches_extracted_manifest in Hv. apply reject_if_Ok in Hv.
  apply negb_false_iff, bool_decide_eq_true in Hv.
  apply build_receipt_Ok in Hr. apply write_receipt_Ok in Hw as (bs & Hw & -> & ->).
  exists (path_join staging "plugin"), env, disk, package, tree, receipt, bs.
  split_and!; [by left|done|..|done].
  - eapply receipt_for_mono; [|exact Hr]. intros e. rewrite !elem_of_app. tauto.
  - eapply receipt_written_mono; [|exact Hw]. intros e. rewrite !elem_of_app. tauto.
Qed.

Lemma prepare_pinned_Ok directory staging id baselines t pinned :
  runs (prepare_pinned_install directory staging id baselines) t (Ok pinned) →
  pn_candidate_snapshot pinned = bl_candidate_snapshot baselines.
Proof.
  unfold prepare_pinned_install. cbv zeta. intros H.
  repeat (lazymatch type of H with runs (_ ≫= _) _ _ => idtac end;
    let t := fresh "t" in let x := fresh "x" in went H as t x ?).
  by destruct H as [-> [= ->]].
Qed.

(** A package that was verified and unpacked with its receipt. *)
Definition signed_content (proof_path : string) (t : list (Event Answer)) (inspection : PluginInspection)
    (persona : string) (snapshot : UpdateTreeSnapshot) : Prop :=
  ∃ sealed, verified_package proof_path t sealed inspection ∧
    unpacked_package t sealed inspection persona (map extracted_of (us_entries snapshot)).

Lemma unpacked_package_mono t t' sealed inspection persona entries :
  (∀ e, e ∈ t → e ∈ t') → unpacked_package t sealed inspection persona entries →
  unpacked_package t' sealed inspection persona entries.
Proof.
  intros Hsub (dest & env & disk & package & tree & receipt & bs & H & ? & Hr & Hw & ?).
  exists dest, env, disk, package, tree, receipt, bs.
  eauto 10 using receipt_for_mono, receipt_written_mono.
Qed.

Lemma signed_content_mono proof_path t t' inspection persona snapshot :
  (∀ e, e ∈ t → e ∈ t') → signed_content proof_path t inspection persona snapshot →
  signed_content proof_path t' inspection persona snapshot.
Proof.
  intros Hsub (sealed & Hv & Hu). exists sealed. eauto using verified_package_mono, unpacked_package_mono.
Qed.

Lemma prepare_Ok request staging i j t staged pinned :
  runs (prepare_install request staging i j) t (Ok (staged, pinned)) →
  signed_content (rq_proof_path request) t (sg_inspection staged) (sg_publisher_persona_id staged)
    (pn_candidate_snapshot pinned).
Proof.
  unfold prepare_install. cbv zeta. intros H.
  went H as t1 verified Hv. destruct verified as [[sealed inspection] id].
  apply or_else_Ok in Hv; [|intros; apply described_never_Ok]. apply verify_package_Ok in Hv.
  went H as t2 staged' Hs. apply or_else_Ok in Hs; [|intros; apply described_never_Ok].
  apply stage_plugin_Ok in Hs as (Hi & Hper & Hs).
  went H as t3 pinned' Hp. apply or_else_Ok in Hp; [|intros; apply described_never_Ok].
  apply prepare_pinned_Ok in Hp. cbn in Hp.
  went H as t4 u4 H4. went H as t5 u5 H5. went H as t6 u6 H6. destruct H as [-> [= -> ->]].
  rewrite Hp, Hi, Hper. exists sealed. split.
  - apply (verified_package_mono _ t1); [|done]. intros e He. rewrite !elem_of_app. tauto.
  - apply (unpacked_package_mono t2); [|done]. intros e He. rewrite !elem_of_app. tauto.
Qed.

(** ** What is exposed *)

(** The candidate that is held open is this directory, with this tree. *)
Definition found_candidate (t : list (Event Answer)) (candidate : TargetIdentity)
    (snapshot : UpdateTreeSnapshot) : Prop :=
  found_descriptor t Candidate candidate ∧ scanned t Candidate snapshot.

(** The plugins directory and the private staging directory are still those
    that are held open. *)
Definition found_parents (t : list (Event Answer)) (directory staging_path : string) : Prop :=
  ∃ plugins staging, found_descriptor t Plugins plugins ∧ found_path t directory plugins ∧
    found_descriptor t Staging staging ∧ found_path t staging_path staging ∧ found_private t Staging.

(** The candidate is in its staging directory. *)
Definition found_source (t : list (Event Answer)) (directory staging_path : string) (candidate : TargetIdentity)
    (snapshot : UpdateTreeSnapshot) : Prop :=
  looked t ∧ found_candidate t candidate snapshot ∧ found_name t Staging "plugin" candidate ∧
  found_parents t directory staging_path.

(** The candidate is at its live name, and no longer in its staging directory. *)
Definition found_live (t : list (Event Answer)) (directory id staging_path : string) (candidate : TargetIdentity)
    (snapshot : UpdateTreeSnapshot) : Prop :=
  looked t ∧ found_candidate t candidate snapshot ∧ found_name t Plugins id candidate ∧
  found_path t (path_join directory id) candidate ∧ found_nothing t Staging "plugin" ∧
  found_parents t directory staging_path.

(** The candidate is back in its staging directory, and nothing is at its live
    name. *)
Definition found_withdrawn (t : list (Event Answer)) (directory id staging_path : string)
    (candidate : TargetIdentity) (snapshot : UpdateTreeSnapshot) : Prop :=
  looked t ∧ found_candidate t candidate snapshot ∧ found_nothing t Plugins id ∧
  found_name t Staging "plugin" candidate ∧ found_path t (path_join staging_path "plugin") candidate ∧
  found_parents t directory staging_path.

Section layouts.
Context (pinned : PinnedInstall) (directory id : string).

Lemma source_found t u :
  runs (verify_install_source_before_rename pinned directory) t (Ok u) →
  found_source t directory (pn_staging_path pinned) (pn_candidate_identity pinned) (pn_candidate_snapshot pinned).
Proof.
  unfold verify_install_source_before_rename, descriptors_differ. intros H. noticing H. cbn [app].
  split; [looking|]. split; [split; shown|]. split; [shown|]. exists (pn_plugins_identity pinned), (pn_staging_identity pinned). split_and!; shown.
Qed.

Lemma layout_found t u :
  runs (verify_install_layout pinned directory id) t (Ok u) →
  found_live t directory id (pn_staging_path pinned) (pn_candidate_identity pinned) (pn_candidate_snapshot pinned).
Proof.
  unfold verify_install_layout, descriptors_differ. intros H. noticing H. cbn [app].
  split; [looking|]. split; [split; shown|]. split_and!; [shown|shown|eexists; in_trace|].
  exists (pn_plugins_identity pinned), (pn_staging_identity pinned). split_and!; shown.
Qed.

Lemma withdrawn_found t u :
  runs (verify_rolled_back_install_layout pinned directory id) t (Ok u) →
  found_withdrawn t directory id (pn_staging_path pinned) (pn_candidate_identity pinned)
    (pn_candidate_snapshot pinned).
Proof.
  unfold verify_rolled_back_install_layout, descriptors_differ. intros H. noticing H. cbn [app].
  split; [looking|]. split; [split; shown|]. split_and!; [eexists; in_trace|shown|shown|].
  exists (pn_plugins_identity pinned), (pn_staging_identity pinned). split_and!; shown.
Qed.
End layouts.

(** ** What an outcome says *)

(** The trace ends in such looks. *)
Definition ends_with (looks : list (Event Answer) → Prop) (t : list (Event Answer)) : Prop :=
  ∃ t' tv, t = t' ++ tv ∧ looks tv.

Lemma ends_with_app looks t t' : ends_with looks t' → ends_with looks (t ++ t').
Proof. intros (t1 & tv & -> & H). exists (t ++ t1), tv. by rewrite app_assoc. Qed.

Lemma ends_with_mono (looks looks' : list (Event Answer) → Prop) t :
  ends_with looks t → (∀ tv, looks tv → looks' tv) → ends_with looks' t.
Proof. intros (t1 & tv & -> & H) Hl. exists t1, tv. auto. Qed.

(** The renames that an outcome stands for, and the last looks that back it, at
    a candidate whose tree is such a [content]. *)
Definition told (directory : string) (content : string → UpdateTreeSnapshot → Prop) (t : list (Event Answer))
    (r : result OmarchyError InstallOutcome) : Prop :=
  match r with
  | Ok outcome => renames t = [(Exposure (io_plugin_id outcome), true)] ∧
      ∃ candidate snapshot, content (io_plugin_id outcome) snapshot ∧
        ends_with (λ tv, found_live tv directory (io_plugin_id outcome) (io_retained_staging outcome) candidate
          snapshot) t
  | Err (InstallRolledBack _) | Err (InstallAuthorizationFinalizationFailed _) =>
      ∃ id, renames t = [(Exposure id, true); (Withdrawal id, true)] ∧
        ∃ staging_path candidate snapshot, content id snapshot ∧
          ends_with (λ tv, found_withdrawn tv directory id staging_path candidate snapshot) t
  | Err (InstallRollbackFailed _) =>
      ∃ id, renames t = [(Exposure id, true)] ∨ ∃ x, renames t = [(Exposure id, true); (Withdrawal id, x)]
  | Err (InstallStateIndeterminate _) =>
      renames t = [] ∨ ∃ id, (∃ x, renames t = [(Exposure id, x)]) ∨
        renames t = [(Exposure id, true); (Withdrawal id, true)]
  | Err _ | Panic _ => renames t = []
  end.

(** The content is that of the package that was verified and unpacked. *)
Definition truthful (request : InstallRequest) (t : list (Event Answer))
    (r : result OmarchyError InstallOutcome) : Prop :=
  told (rq_plugins_directory request) (λ id snapshot, ∃ inspection persona,
    id = om_id (pi_manifest inspection) ∧
    signed_content (rq_proof_path request) t inspection persona snapshot) t r.

(** What holds of the movements of a trace holds after a prefix without any. *)
Lemma told_app directory content t t' r :
  renames t = [] → told directory content t' r → told directory content (t ++ t') r.
Proof.
  intros Ht. destruct r as [o|e|s]; [|destruct e|]; cbn; rewrite ?renames_app, ?Ht; try done;
    naive_solver eauto using ends_with_app.
Qed.

Lemma early_told directory content t e : renames t = [] → early e → told directory content t (Err e).
Proof. intros Ht. destruct e; cbn; try done; auto. Qed.

Section settled.
Context (directory : string) (content : string → UpdateTreeSnapshot → Prop) (pinned : PinnedInstall) (id : string).
Context (pinned_content : content id (pn_candidate_snapshot pinned)).

Lemma renames_exposes x t : renames (exposes id x :: t) = (Exposure id, if x is None then true else false) :: renames t.
Proof. by destruct x. Qed.
Lemma renames_withdraws x t :
  renames (withdraws id x :: t) = (Withdrawal id, if x is None then true else false) :: renames t.
Proof. by destruct x. Qed.

Lemma layout_quiet t : runs (verify_install_layout pinned directory id) t (Ok tt) → renames t = [].
Proof. apply hushed_layout. Qed.
Lemma rolled_back_quiet t :
  runs (verify_rolled_back_install_layout pinned directory id) t (Ok tt) → renames t = [].
Proof. apply hushed_rolled_back. Qed.

(** The renames of a withdrawal that was tried after its layout was checked. *)
Lemma renames_attempted t0 tv x t :
  renames t0 = [] → runs (verify_install_layout pinned directory id) tv (Ok tt) → renames t = [] →
  renames (exposes id None :: t0 ++ tv ++ withdraws id x :: t) =
    [(Exposure id, true); (Withdrawal id, if x is None then true else false)].
Proof.
  intros H0 Hv%layout_quiet Ht. by rewrite renames_exposes, !renames_app, H0, Hv, renames_withdraws, Ht.
Qed.

Lemma undone_told restored t0 t e :
  renames t0 = [] → restored ∈ [InstallRolledBack; InstallAuthorizationFinalizationFailed] →
  undone pinned directory id restored t e → told directory content (exposes id None :: t0 ++ t) (Err e).
Proof.
  intros H0 Hin Hu. destruct Hu as [t s Ht|tv x t s Hv Ht|tv t s Hv Ht|tv t t' s Hv Ht Hb].
  - exists id. left. by rewrite renames_exposes, renames_app, H0, Ht.
  - exists id. right. eexists. by apply renames_attempted.
  - right. exists id. right. by apply renames_attempted.
  - assert (∃ id', renames (exposes id None :: t0 ++ tv ++ withdraws id None :: t ++ t') =
      [(Exposure id', true); (Withdrawal id', true)] ∧ ∃ staging_path candidate snapshot, content id' snapshot ∧
      ends_with (λ tv, found_withdrawn tv directory id' staging_path candidate snapshot)
        (exposes id None :: t0 ++ tv ++ withdraws id None :: t ++ t')) as H.
    { exists id. split; [apply renames_attempted; auto using renames_nil, rolled_back_quiet|].
      apply withdrawn_found in Hb. eexists _, _, _. split; [exact pinned_content|].
      exists (exposes id None :: t0 ++ tv ++ withdraws id None :: t), t'. split; [|exact Hb].
      cbn [app]. by rewrite <- !app_assoc. }
    rewrite elem_of_cons, list_elem_of_singleton in Hin. by destruct Hin as [-> | ->].
Qed.

Lemma settled_told t r :
  settled pinned directory id t r → told directory content (exposes id None :: t) r.
Proof.
  intros Hs. destruct Hs as [t t' outcome Ht Hv Hid Hpath|t s Ht|t t' restored e Ht Hin Hu].
  - cbn [told]. rewrite Hid, Hpath. split.
    + by rewrite renames_exposes, renames_app, Ht, (layout_quiet _ Hv).
    + apply layout_found in Hv. eexists _, _. split; [exact pinned_content|].
      by exists (exposes id None :: t), t'.
  - right. exists id. left. eexists. by rewrite renames_exposes, Ht.
  - by apply undone_told with restored.
Qed.

Lemma completed_told fingerprint label persona t r :
  completed pinned directory id fingerprint label persona t r → told directory content t r.
Proof.
  intros [t' e Ht He|t' s Ht|store tv e t' s _ Hv Ht|store tv t' r' _ Hv Hs].
  - by apply early_told.
  - done.
  - right. exists id. left. exists false. apply hushed_source in Hv as [Hv _].
    change (renames (tv ++ exposes id (Some e) :: t') = [(Exposure id, false)]).
    by rewrite renames_app, Hv, renames_exposes, Ht.
  - apply hushed_source in Hv as [Hv _].
    apply (told_app directory content (occurs BeginAuthorization (inr store) :: tv)); [exact Hv|].
    by apply settled_told.
Qed.
End settled.

(** C10: the outcome of an installation tells what was renamed, and the last
    looks at the file system back it. A success is one exposure, of the plugin it
    names; at the end, with only looks after it, the plugin's live name and its
    path open the candidate that is held open, the tree of the candidate is that of
    the verified package with its receipt, and the staging directory that is
    reported is private, still in its place and no longer holds the candidate. A
    rolled-back installation is one exposure and one withdrawal; at the end there
    is nothing at the live name, and the staging directory holds the candidate
    with that tree. An error of any other kind, unless it says that the state is
    not known or that the rollback failed, left no rename behind. *)
Theorem install_outcome_is_truthful request t r :
  runs (install_with_lifecycle request) t r → truthful request t r.
Proof.
  intros [[Ht Hr]|(path & i & j & staged & pinned & t0 & t1 & t2 & -> & Ht0 & Ht1 & Hp & Hc)]%install_leads.
  - destruct r as [o|e|s]; [done|by apply early_told|done].
  - apply told_app, told_app; [done..|]. eapply completed_told; [|exact Hc].
    eexists _, _. split; [done|]. eapply signed_content_mono; [|by eapply prepare_Ok].
    intros e He. rewrite !elem_of_app. auto.
Qed.

(** A completed installation that renamed something exposed what was pinned. *)
Lemma completed_first pinned directory id fingerprint label persona t r :
  completed pinned directory id fingerprint label persona t r → renames t ≠ [] →
  ∃ store tv x t2, t = occurs BeginAuthorization (inr store) :: tv ++ exposes id x :: t2 ∧ renames tv = [] ∧
    live_publisher store fingerprint label persona ∧
    found_source tv directory (pn_staging_path pinned) (pn_candidate_identity pinned) (pn_candidate_snapshot pinned).
Proof.
  intros Hc Hr. destruct Hc as [| |store tv e t s Hl Hv _|store tv t r Hl Hv _]; [done|done|..];
    eexists store, tv, _, t; (split; [done|]);
    (split; [by apply hushed_source in Hv as [Hv _]|]); (split; [done|by eapply source_found]).
Qed.

(** C7: what an installation exposes is the package that was signed. The first
    thing it renames is the candidate, to the id in the verified manifest. It does
    so inside a transaction of the store in which the signer of the package is an
    active key of the publisher's persona, and between the start of that
    transaction and the rename it only looked: the staged name that is renamed
    opens the directory that is held open as the candidate, and the tree of that
    directory is entry for entry, with modes, sizes and digests, what unpacking the
    sealed package gave with the receipt that was written into it, which names the
    plugin, the version, the digest of the package, the key and the persona. For
    that sealed package the proof that was loaded verifies, with a signer that was
    a live publisher. *)
Theorem exposed_plugin_is_the_signed_package request t r t1 e t2 m :
  runs (install_with_lifecycle request) t r → t = t1 ++ e :: t2 → renames t1 = [] →
  movement_of e = Some m →
  ∃ inspection persona store u tv staging_path candidate snapshot,
    m.1 = Exposure (om_id (pi_manifest inspection)) ∧
    t1 = u ++ occurs BeginAuthorization (inr store) :: tv ∧
    live_publisher store (signer_fingerprint inspection) (signer_label inspection) persona ∧
    found_source tv (rq_plugins_directory request) staging_path candidate snapshot ∧
    signed_content (rq_proof_path request) u inspection persona snapshot.
Proof.
  intros Hrun Ht H1 He. apply install_leads in Hrun.
  assert (renames t ≠ []) as Hr.
  { rewrite Ht, renames_app. unfold renames at 2. cbn. rewrite He. by destruct (renames t1). }
  destruct Hrun as [[? _]|(path & i & j & staged & pinned & u0 & u1 & u2 & Heq & Hu0 & Hu1 & Hp & Hc)]; [done|].
  destruct (completed_first _ _ _ _ _ _ _ _ Hc) as (store & tv & x & u4 & -> & Htv & Hlive & Hsource).
  { by rewrite Heq, !renames_app, Hu0, Hu1 in Hr. }
  rewrite Heq, !app_assoc in Ht.
  change (occurs BeginAuthorization (inr store) :: tv ++ ?rest) with
    ((occurs (Answer:=Answer) BeginAuthorization (inr store) :: tv) ++ rest) in Ht.
  rewrite !app_assoc in Ht.
  destruct (first_rename _ _ _ _ _ _ Ht) as (<- & <- & _); [auto using renames_nil..| |by rewrite He|].
  { by destruct x. }
  eexists _, _, store, (u0 ++ u1), tv, _, _, _. split_and!; [|done|exact Hlive|exact Hsource|].
  - by destruct x; injection He as <-.
  - eapply signed_content_mono; [|by eapply prepare_Ok]. intros e' He'. rewrite elem_of_app. auto.
Qed.

End content.
