(* ===== verification/Removal.v ===== *)
(** * Removing a plugin on Linux
    ([crates/a-quo-omarchy/src/install/operation/remove.rs] and
    [remove_transaction.rs], with [receipt.rs], [staging.rs] and [tree.rs])

    A plugin that carries a valid receipt and that the shell does not refer to is
    renamed, by descriptors, into a private quarantine that is kept. When the
    shell then fails to rescan its plugins, the rename is undone. The first part
    reads the receipt and the manifest of an installed plugin, for removals and
    updates. *)

From stdpp Require Import base numbers list strings pretty sorting option gmap.
From Stdlib Require Import Strings.Byte Ascii.
From S2P Require Import Prelude Text Ordered Display Crates Io ArtifactProof Continuity RecoveryPolicy RecoveryChain.
From S2P Require Import Names Fields IpcProtocol Transport StoreTypes StoreCommon Backup BackupVerify Tables StoredKeys Journal Store.
From S2P Require Import Interaction Disk Package PackageArchive PackageFacts PackageTrust ShellReference Installer Install.

Inductive UninstallOutcomeSchema := UninstallV1.
Inductive ReferenceObservationBoundary := BeforeAtomicQuarantine.
Record UninstallReferenceObservation := {
  uo_state : PluginReferenceState;
  uo_boundary : ReferenceObservationBoundary;
}.

Definition not_referenced_before_atomic_quarantine : UninstallReferenceObservation :=
  {| uo_state := NotReferenced; uo_boundary := BeforeAtomicQuarantine |}.

Record UninstallOutcome := {
  un_schema : UninstallOutcomeSchema;
  un_plugin_id : string;
  un_version : string;
  un_reference_observation : UninstallReferenceObservation;
  un_atomic_quarantine : bool;
  un_shell_rescan : ShellRescanStatus;
  un_recovery_quarantine : string;
  un_disk_purge : DiskPurgeStatus;
  un_a_quo_enablement_action : AQuoEnablementAction;
  un_behavioral_analysis : BehavioralAnalysisStatus;
  un_trusted_consent : TrustedConsentStatus;
  un_runtime_safety : RuntimeSafetyStatus;
}.

Section removal.
Context {crates : Crates} {semver : Semver} {json_manifest : Serde OmarchyManifest}
  {json_receipt : Serde InstallReceipt} {shell_json : ShellJson} {texts : ErrorTexts}.

(** ** What is installed *)

Definition reject_git_managed_target (path : string) : installer OmarchyError unit :=
  let git := path_join path ".git" in
  md ← step_of (SymlinkMetadata git);
  give match md with
       | inr _ => Err (NotManagedInstall path)
       | inl e => if io_kind e == NotFound then Ok tt else Err (IoAt (path_place git) e)
       end.

Definition require_existing_plugins_directory (path : string) : installer OmarchyError unit :=
  md ← step_of (SymlinkMetadata path);
  md ← give match md with
            | inr md => Ok md
            | inl e => Err (if io_kind e == NotFound then PluginsDirectoryMissing path else IoAt (path_place path) e)
            end;
  refuse_if (md_is_symlink md) (SymlinkBoundary path);;
  refuse_if (negb (md_is_dir md)) (InvalidPackage ("plugins path is not a directory: " +:+ path)).

Definition validate_receipt (receipt : InstallReceipt) : PackageResult unit :=
  reject_if (ir_schema_version receipt != RECEIPT_SCHEMA_VERSION)
    (InvalidInstallReceipt ("unsupported schema version " +:+ pretty (ir_schema_version receipt)));;
  validate_plugin_id (ir_plugin_id receipt);;
  _ ← parse_semantic_version (ir_version receipt);
  reject_if ((str_len (ir_package_sha256 receipt) != 64%N) || negb (str_all is_lower_hex (ir_package_sha256 receipt)))
    (InvalidInstallReceipt "package_sha256 must be 64 lowercase hexadecimal characters");;
  reject_if ((trim (ir_publisher_key_fingerprint receipt) == "") ||
             (256 <? str_len (ir_publisher_key_fingerprint receipt))%N ||
             (trim (ir_publisher_persona_id receipt) == "") ||
             (256 <? str_len (ir_publisher_persona_id receipt))%N)
    (InvalidInstallReceipt "publisher identifiers are empty or too long").

(** The last lines of the functions that read a receipt or a manifest. *)
Definition parse_receipt (path : string) (bs : bytes) : PackageResult InstallReceipt :=
  receipt ← map_err (λ e, InvalidInstallReceipt (path +:+ ": " +:+ json_error_text e)) (of_sum (json_from_slice bs));
  validate_receipt receipt;;
  Ok receipt.

Definition parse_installed_manifest (bs : bytes) : PackageResult OmarchyManifest :=
  manifest ← map_err ManifestJson (of_sum (json_from_slice bs));
  validate_plugin_id (om_id manifest);;
  _ ← parse_semantic_version (om_version manifest);
  Ok manifest.

Definition read_bytes (path : string) : installer OmarchyError bytes :=
  bs ← step_of (ReadFile path);
  give (map_err (IoAt (path_place path)) (of_sum bs)).

Definition read_install_receipt (plugin_directory : string) : installer OmarchyError InstallReceipt :=
  let path := path_join plugin_directory INSTALL_RECEIPT_NAME in
  md ← step_of (SymlinkMetadata path);
  md ← give match md with
            | inr md => Ok md
            | inl e => Err (if io_kind e == NotFound then NotManagedInstall plugin_directory
                            else IoAt (path_place path) e)
            end;
  refuse_if (md_is_symlink md || negb (md_is_file md))
    (InvalidInstallReceipt (path +:+ " must be a regular non-symlink file"));;
  refuse_if (MAX_RECEIPT_BYTES <? md_len md)%N
    (InvalidInstallReceipt (path +:+ " exceeds " +:+ pretty MAX_RECEIPT_BYTES +:+ " bytes"));;
  bs ← read_bytes path;
  give (parse_receipt path bs).

Definition validate_installed_state (target : string) (manifest : OmarchyManifest) (receipt : InstallReceipt) :
    PackageResult unit :=
  reject_if ((ir_plugin_id receipt != om_id manifest) || (ir_version receipt != om_version manifest))
    (InvalidInstallReceipt (path_join target INSTALL_RECEIPT_NAME +:+ " does not match the installed manifest")).

Definition read_installed_manifest (plugin_directory : string) : installer OmarchyError OmarchyManifest :=
  let path := path_join plugin_directory "manifest.json" in
  md ← step_of (SymlinkMetadata path);
  md ← give (map_err (IoAt (path_place path)) (of_sum md));
  refuse_if (md_is_symlink md || negb (md_is_file md)) (SymlinkBoundary path);;
  refuse_if (MAX_MANIFEST_BYTES <? md_len md)%N
    (InvalidPackage ("installed manifest exceeds " +:+ pretty MAX_MANIFEST_BYTES +:+ " bytes"));;
  bs ← read_bytes path;
  give (parse_installed_manifest bs).

Definition reject_referenced (plugins_directory plugin_id : string) : installer OmarchyError unit :=
  files ← step_of ReadShellConfiguration;
  give (reject_referenced_removal files (path_parent plugins_directory) plugin_id).

(** ** The pinned plugin *)

Record PinnedRemoval := {
  pr_plugins_identity : TargetIdentity;
  pr_target_identity : TargetIdentity;
  pr_quarantine_identity : TargetIdentity;
  pr_quarantine_name : string;
  pr_quarantine_path : string;
}.

Definition retained_removal_quarantine (plugins_directory : string) : installer OmarchyError string :=
  created ← step_of (CreateStaging ".a-quo-remove-" plugins_directory);
  '(quarantine_path, retained_path) ← give (map_err (IoAt (path_place plugins_directory)) (of_sum created));
  refuse_if (negb (path_eqb retained_path quarantine_path))
    (AtomicRemoval "recovery quarantine path changed while automatic cleanup was disabled");;
  mret quarantine_path.

Definition prepare_pinned_removal (plugins_directory plugin_id target : string)
    (expected_target_identity : TargetIdentity) : installer OmarchyError PinnedRemoval :=
  opened ← step_of (PinPath plugins_directory);
  give (map_err AtomicRemoval (must_open ("cannot pin plugins directory " +:+ plugins_directory +:+ ": ") opened));;
  plugins_identity ← map_error AtomicRemoval (pinned_identity Plugins "plugins directory");
  current ← path_identity plugins_directory;
  refuse_if (current != plugins_identity)
    (AtomicRemoval ("plugins directory changed while removal was prepared: " +:+ plugins_directory));;
  target_identity ← map_error AtomicRemoval (opened_identity Plugins plugin_id "managed target");
  refuse_if (target_identity != expected_target_identity)
    (AtomicRemoval ("managed target changed while removal was prepared: " +:+ target));;
  quarantine_path ← retained_removal_quarantine plugins_directory;
  quarantine_path_identity ← map_error (λ error, AtomicRemoval
    ("cannot identify retained recovery quarantine " +:+ quarantine_path +:+ ": " +:+ omarchy_error_text error))
    (path_identity quarantine_path);
  quarantine_name ← give (ok_or (file_name quarantine_path) (AtomicRemoval "recovery quarantine has no basename"));
  quarantine_identity ← map_error AtomicRemoval (opened_identity Plugins quarantine_name "recovery quarantine");
  refuse_if (quarantine_identity != quarantine_path_identity)
    (AtomicRemoval ("recovery quarantine changed while its descriptor was pinned: " +:+ quarantine_path));;
  map_error AtomicRemoval (require_private Quarantine
    ("cannot inspect pinned recovery quarantine " +:+ quarantine_path +:+ ": ")
    ("pinned recovery quarantine is not mode 0700: " +:+ quarantine_path));;
  final_target_identity ← map_error AtomicRemoval (opened_identity Plugins plugin_id "managed target");
  refuse_if (final_target_identity != target_identity)
    (AtomicRemoval ("managed target changed before atomic quarantine: " +:+ target));;
  mret {| pr_plugins_identity := plugins_identity; pr_target_identity := target_identity;
          pr_quarantine_identity := quarantine_identity; pr_quarantine_name := quarantine_name;
          pr_quarantine_path := quarantine_path |}.

(** The rename back out of the quarantine. *)
Definition rename_back (plugin_id failed : string) : installer string unit :=
  renamed ← step_of (RenameNoReplace Quarantine "plugin" Plugins plugin_id);
  give (must_open failed renamed).

Definition restore_quarantined_identity (plugin_id : string) (expected_identity : TargetIdentity) :
    installer string unit :=
  require_mapping Quarantine "plugin" "quarantined entry" expected_identity
    "quarantined entry changed before defensive restore";;
  rename_back plugin_id "defensive descriptor-relative restore failed: ";;
  require_mapping Plugins plugin_id "defensively restored entry" expected_identity
    "defensively restored path changed before verification".

Definition quarantine_pinned_target (pinned : PinnedRemoval) (plugin_id : string) : installer OmarchyError unit :=
  renamed ← step_of (RenameNoReplace Plugins plugin_id Quarantine "plugin");
  give (map_err AtomicRemoval (must_open ("cannot move the managed target into pinned recovery quarantine " +:+
    pr_quarantine_path pinned +:+ ": ") renamed));;
  moved_identity ← map_error (λ error, AtomicRemoval ("the moved entry could not be verified (" +:+ error +:+
    "); no recursive deletion ran and the intended recovery path is " +:+ pr_quarantine_path pinned))
    (opened_identity Quarantine "plugin" "quarantined plugin");
  if moved_identity != pr_target_identity pinned then
    restore ← attempt (restore_quarantined_identity plugin_id moved_identity);
    give (Err (AtomicRemoval (
      "the entry moved into recovery quarantine is not the pinned managed target; no recursive deletion ran; mismatched-entry restore result: " +:+
      match restore with
      | inr _ => "restored"
      | inl error => "manual attention required (" +:+ error +:+ ")"
      end +:+ "; recovery path: " +:+ pr_quarantine_path pinned)))
  else mret tt.

Definition verify_restored_target (pinned : PinnedRemoval) (plugins_directory plugin_id : string) :
    installer string unit :=
  require_mapping Plugins plugin_id "restored managed target after rescan" (pr_target_identity pinned)
    "the live plugin path no longer names the restored managed target";;
  require_absent Quarantine "plugin" "the pinned quarantine unexpectedly contains a plugin entry after restore"
    (λ error, "cannot verify the pinned quarantine after restore: " +:+ error);;
  require_mapping Plugins (pr_quarantine_name pinned) "recovery quarantine after restore"
    (pr_quarantine_identity pinned) "the reported recovery-quarantine path changed during rollback";;
  current ← path_identity_for "cannot revalidate plugins-directory path: " plugins_directory;
  refuse_if (current != pr_plugins_identity pinned) "the plugins-directory path changed during rollback rescan";;
  current ← path_identity_for "cannot revalidate restored plugin path: " (path_join plugins_directory plugin_id);
  refuse_if (current != pr_target_identity pinned) "the external plugin path no longer names the restored target".

(** [fstat(..).map(|stat| stat.st_mode & 0o7777 == 0o700).unwrap_or(false)] *)
Definition private_matches {E} (directory : Pinned) : installer E bool :=
  stat ← step_of (Fstat directory);
  mret match stat with inr stat => permission_bits stat == 448%N | inl _ => false end.

(** [a && b], which does not look at [b] when [a] fails. *)
Definition both {E} (first : bool) (second : installer E bool) : installer E bool :=
  if first then second else mret false.

Definition describe_pinned_recovery_state {E} (pinned : PinnedRemoval) (plugins_directory : string) :
    installer E string :=
  child_matches ← opened_matches Quarantine "plugin" "quarantined plugin" (pr_target_identity pinned);
  plugins_path_matches ← path_matches plugins_directory (pr_plugins_identity pinned);
  quarantine_mode_matches ← private_matches Quarantine;
  path_is_same ← both (plugins_path_matches && quarantine_mode_matches)
    (opened_matches Plugins (pr_quarantine_name pinned) "recovery quarantine" (pr_quarantine_identity pinned));
  mret match child_matches, path_is_same with
       | true, true =>
           "the exact managed directory was revalidated at " +:+ pr_quarantine_path pinned +:+ "/plugin"
       | true, false =>
           "the exact managed directory remained in the pinned recovery directory, but its reported pathname changed; locate the directory with device " +:+
           pretty (ti_device (pr_quarantine_identity pinned)) +:+ " and inode " +:+
           pretty (ti_inode (pr_quarantine_identity pinned)) +:+ " manually"
       | false, _ => "the recovery entry could not be revalidated and requires manual filesystem inspection"
       end.

Definition restore_pinned_target (pinned : PinnedRemoval) (plugin_id : string) : installer string unit :=
  require_mapping Quarantine "plugin" "quarantined plugin" (pr_target_identity pinned)
    "the quarantine entry no longer names the pinned managed target";;
  rename_back plugin_id "descriptor-relative exact restore failed: ";;
  require_mapping Plugins plugin_id "restored managed target" (pr_target_identity pinned)
    "the restored path does not name the pinned managed target".

Definition verify_retained_quarantine (pinned : PinnedRemoval) (plugins_directory plugin_id : string) :
    installer OmarchyError unit :=
  let indeterminate := RemovalStateIndeterminate in
  map_error indeterminate (require_private Quarantine
    "cannot revalidate recovery-quarantine mode after rescan: "
    ("the recovery quarantine is no longer mode 0700; no recursive deletion ran; inspect " +:+
     pr_quarantine_path pinned));;
  changed ← map_error indeterminate (any_differs
    [(pinned_identity Quarantined "quarantined plugin", pr_target_identity pinned);
     (pinned_identity Target "original managed target", pr_target_identity pinned)]);
  refuse_if changed
    (indeterminate "the pinned target descriptor identity changed unexpectedly; no recursive deletion ran");;
  map_error indeterminate (require_mapping Quarantine "plugin" "quarantined plugin" (pr_target_identity pinned)
    ("the recovery quarantine no longer names the pinned plugin; no recursive deletion ran; inspect " +:+
     pr_quarantine_path pinned));;
  map_error indeterminate (require_mapping Plugins (pr_quarantine_name pinned) "recovery quarantine"
    (pr_quarantine_identity pinned)
    ("the reported recovery-quarantine path changed during rescan; no recursive deletion ran; inspect " +:+
     pr_quarantine_path pinned));;
  current ← map_error indeterminate
    (path_identity_for "cannot revalidate the plugins-directory path after rescan: " plugins_directory);
  refuse_if (current != pr_plugins_identity pinned)
    (indeterminate "the plugins-directory path changed during rescan; no recursive deletion ran");;
  require_absent Plugins plugin_id
    (indeterminate ("a new live entry appeared at plugin ID " +:+ plugin_id +:+
      "; the pinned original remains at " +:+ pr_quarantine_path pinned))
    (λ error, indeterminate ("cannot verify that the live plugin target is absent: " +:+ error)).

(** ** The removal *)

(** The guards before anything is moved. *)
Definition prepare_removal (plugin_id plugins_directory omarchy_shell : string) :
    installer OmarchyError (OmarchyManifest * PinnedRemoval) :=
  require_system_command omarchy_shell;;
  give (validate_plugin_id plugin_id);;
  require_existing_plugins_directory plugins_directory;;
  let target := path_join plugins_directory plugin_id in
  expected_identity ← path_identity target;
  reject_git_managed_target target;;
  installed_manifest ← read_installed_manifest target;
  installed_receipt ← read_install_receipt target;
  give (validate_installed_state target installed_manifest installed_receipt);;
  refuse_if (om_id installed_manifest != plugin_id)
    (InvalidInstallReceipt (path_join target INSTALL_RECEIPT_NAME +:+ " names plugin " +:+
      om_id installed_manifest +:+ ", not requested plugin " +:+ plugin_id));;
  reject_referenced plugins_directory plugin_id;;
  pinned ← prepare_pinned_removal plugins_directory plugin_id target expected_identity;
  reject_referenced plugins_directory plugin_id;;
  reject_git_managed_target target;;
  mret (installed_manifest, pinned).

(** After a rescan that failed. *)
Definition undo_removal {A} (pinned : PinnedRemoval) (plugins_directory plugin_id omarchy_shell rescan_error : string) :
    installer OmarchyError A :=
  restored ← attempt (restore_pinned_target pinned plugin_id);
  match restored with
  | inl rollback_error =>
      recovery_state ← describe_pinned_recovery_state pinned plugins_directory;
      give (Err (RemovalRollbackFailed ("shell rescan failed (" +:+ rescan_error +:+
        "); exact plugin restore failed (" +:+ rollback_error +:+ "); no recursive deletion ran; " +:+
        recovery_state)))
  | inr _ =>
      rollback_rescan ← attempt (rescan omarchy_shell RecoveryRescan);
      verified ← attempt (verify_restored_target pinned plugins_directory plugin_id);
      give (Err match verified, rollback_rescan with
        | inl post_restore_error, _ => RemovalStateIndeterminate (
            "the exact plugin directory was restored after shell rescan failed (" +:+ rescan_error +:+
            "), but post-rescan identity verification failed (" +:+ post_restore_error +:+
            "); no recursive deletion ran and no quarantine cleanup ran")
        | inr _, inl rollback_rescan_error => RemovalRollbackFailed (
            "the exact plugin directory was restored and revalidated after shell rescan failed (" +:+
            rescan_error +:+ "), but the restore rescan also failed (" +:+ rollback_rescan_error +:+
            "); no quarantine cleanup ran")
        | inr _, inr _ => RemovalRolledBack (rescan_error +:+
            "; the exact managed directory was restored and revalidated; no quarantine cleanup ran")
        end)
  end.

Definition uninstall_with_commands (plugin_id plugins_directory omarchy_shell : string) :
    installer OmarchyError UninstallOutcome :=
  '(installed_manifest, pinned) ← prepare_removal plugin_id plugins_directory omarchy_shell;
  quarantine_pinned_target pinned plugin_id;;
  rescanned ← attempt (rescan omarchy_shell InitialRescan);
  match rescanned with
  | inl rescan_error => undo_removal pinned plugins_directory plugin_id omarchy_shell rescan_error
  | inr _ =>
      verify_retained_quarantine pinned plugins_directory plugin_id;;
      mret {| un_schema := UninstallV1; un_plugin_id := om_id installed_manifest;
              un_version := om_version installed_manifest;
              un_reference_observation := not_referenced_before_atomic_quarantine;
              un_atomic_quarantine := true; un_shell_rescan := RescanPassed;
              un_recovery_quarantine := pr_quarantine_path pinned; un_disk_purge := PurgeNotPerformed;
              un_a_quo_enablement_action := NotPerformed; un_behavioral_analysis := AnalysisNotRun;
              un_trusted_consent := ConsentNotRun; un_runtime_safety := NotEvaluated |}
  end.

Definition uninstall_managed_plugin (plugin_id plugins_directory : string) : installer OmarchyError UninstallOutcome :=
  uninstall_with_commands plugin_id plugins_directory OMARCHY_SHELL.

End removal.
