(* ===== verification/Update.v ===== *)
(** * Updating a plugin on Linux
    ([crates/a-quo-omarchy/src/install/operation/update.rs] and
    [update_transaction.rs], with [receipt.rs], [staging.rs] and [tree.rs])

    A newer release of an installed plugin, signed by the same persona, is
    unpacked into a private recovery directory and then, while the store holds
    the publisher's authorization, exchanged with the installed release by one
    rename. When something fails after that, they are exchanged again. *)

From stdpp Require Import base numbers list strings pretty sorting option gmap.
From Stdlib Require Import Strings.Byte Ascii.
From S2P Require Import Prelude Text Ordered Display Crates Io ArtifactProof Continuity RecoveryPolicy RecoveryChain.
From S2P Require Import Names Fields IpcProtocol Transport StoreTypes StoreCommon Backup BackupVerify Tables StoredKeys Journal Store.
From S2P Require Import Interaction Disk Package PackageArchive PackageFacts PackageTrust ShellReference Installer Install Removal.

Inductive PublisherContinuityStatus := SameLocalPersona.

Record UpdateOutcome := {
  up_plugin_id : string;
  up_previous_version : string;
  up_version : string;
  up_publisher_continuity : PublisherContinuityStatus;
  up_omarchy_manifest_validation : OmarchyManifestValidationStatus;
  up_atomic_exchange : bool;
  up_shell_rescan : ShellRescanStatus;
  up_previous_release_recovery : string;
  up_recovery_retained : bool;
  up_disk_purge : DiskPurgeStatus;
  up_a_quo_enablement_action : AQuoEnablementAction;
  up_behavioral_analysis : BehavioralAnalysisStatus;
  up_trusted_consent : TrustedConsentStatus;
  up_runtime_safety : RuntimeSafetyStatus;
}.

(** [UpdateRequest] has the fields of [InstallRequest]. *)
Abbreviation UpdateRequest := InstallRequest.

Record UpdateBaselines := {
  ub_plugins_identity : TargetIdentity;
  ub_recovery_identity : TargetIdentity;
  ub_installed_identity : TargetIdentity;
  ub_candidate_identity : TargetIdentity;
  ub_installed_snapshot : UpdateTreeSnapshot;
  ub_candidate_snapshot : UpdateTreeSnapshot;
}.

Record PinnedUpdate := {
  pu_plugins_identity : TargetIdentity;
  pu_recovery_identity : TargetIdentity;
  pu_installed_identity : TargetIdentity;
  pu_candidate_identity : TargetIdentity;
  pu_installed_snapshot : UpdateTreeSnapshot;
  pu_candidate_snapshot : UpdateTreeSnapshot;
  pu_recovery_name : string;
  pu_recovery_path : string;
}.

Definition pinned_update_recovery_path (pinned : PinnedUpdate) : string :=
  path_join (pu_recovery_path pinned) "plugin".

Section update.
Context {crates : Crates} {uuids : Uuids} {materializations : Materializations}
  {json_root_proof : Serde PersonaRootProof} {json_policy_proof : Serde RecoveryPolicyProof}
  {json_transition_proof : Serde PersonaTransitionProof}
  {json_recovery_proof : Serde RecoveryTransitionProof}
  {json_entry : Serde PersonaContinuityTransitionProof}
  {json_terminal_proof : Serde TerminalPersonaRevocationProof}
  {json_archive : Serde BackupContinuityArchive} {json_backup : Serde PersonaBackup}
  {pretty_backup : SerdePretty PersonaBackup}
  {json_root : Serde PersonaRootStatement} {json_transition : Serde PersonaTransitionStatement}
  {json_policy : Serde RecoveryPolicyStatement} {json_recovery : Serde RecoveryTransitionStatement}
  {json_terminal : Serde TerminalPersonaRevocationStatement}
  {json_statement : Serde ArtifactStatement} {json_bundle : Serde ProofBundle}
  {formats : ArchiveFormats} {semver : Semver} {json_manifest : Serde OmarchyManifest}
  {json_receipt : Serde InstallReceipt} {pretty_receipt : SerdePretty InstallReceipt} {texts : ErrorTexts}.

(** ** The installed release *)

Definition indeterminate_file (relative_name text : string) : OmarchyError :=
  UpdateStateIndeterminate ("installed " +:+ relative_name +:+ text).

(** The entry of a file in the snapshot. *)
Definition snapshot_baseline (snapshot : UpdateTreeSnapshot) (relative_name : string) (maximum : N) :
    PackageResult UpdateTreeEntry :=
  expected ← ok_or (find (λ entry, (ue_path entry == [relative_name]) && (ue_kind entry == TreeFile))
    (us_entries snapshot)) (indeterminate_file relative_name " is absent from the pinned update baseline");
  reject_if ((maximum <? ue_size expected)%N || (ue_sha256 expected == None))
    (indeterminate_file relative_name " baseline is not a bounded regular file");;
  Ok expected.

(** The bytes that the file answers must be those of the snapshot. *)
Definition check_snapshot_file (file : FileRead) (expected : UpdateTreeEntry) (relative_name : string)
    (maximum : N) : PackageResult bytes :=
  let installed text := indeterminate_file relative_name text in
  map_err UpdateStateIndeterminate (must_open
    ("cannot open installed " +:+ relative_name +:+ " without following links: ") (rd_open file));;
  before ← map_err (λ e, UpdateStateIndeterminate
    ("cannot inspect installed " +:+ relative_name +:+ ": " +:+ io_message e)) (of_sum (rd_before file));
  reject_if (negb (md_is_file before) || (maximum <? md_len before)%N)
    (installed " is not a bounded regular file");;
  bs ← map_err (λ e, UpdateStateIndeterminate
    ("cannot read installed " +:+ relative_name +:+ ": " +:+ io_message e))
    (of_sum (read_to_end (stream_take (maximum + 1) (rd_data file))));
  reject_if (maximum <? len bs)%N (installed " exceeded its read limit");;
  after ← map_err (λ e, UpdateStateIndeterminate
    ("cannot recheck installed " +:+ relative_name +:+ ": " +:+ io_message e)) (of_sum (rd_after file));
  reject_if (negb (md_is_file after) || (md_len before != md_len after) || (ue_size expected != len bs) ||
             (ue_sha256 expected != Some (Sha256_digest bs)))
    (installed " bytes did not match the pinned update baseline");;
  Ok bs.

Definition read_update_snapshot_file (plugin_directory : string) (snapshot : UpdateTreeSnapshot)
    (relative_name : string) (maximum : N) : installer OmarchyError bytes :=
  expected ← give (snapshot_baseline snapshot relative_name maximum);
  file ← step_of (ReadPinnedFile (path_join plugin_directory relative_name) maximum);
  give (check_snapshot_file file expected relative_name maximum).

Definition read_update_snapshot_manifest (plugin_directory : string) (snapshot : UpdateTreeSnapshot) :
    installer OmarchyError OmarchyManifest :=
  bs ← read_update_snapshot_file plugin_directory snapshot "manifest.json" MAX_MANIFEST_BYTES;
  give (parse_installed_manifest bs).

Definition read_update_snapshot_receipt (plugin_directory : string) (snapshot : UpdateTreeSnapshot) :
    installer OmarchyError InstallReceipt :=
  bs ← read_update_snapshot_file plugin_directory snapshot INSTALL_RECEIPT_NAME MAX_RECEIPT_BYTES;
  give (parse_receipt (path_join plugin_directory INSTALL_RECEIPT_NAME) bs).

Definition require_newer_version (installed candidate : string) : PackageResult unit :=
  installed_version ← parse_semantic_version installed;
  candidate_version ← parse_semantic_version candidate;
  match Version_compare candidate_version installed_version with
  | Gt => Ok tt
  | _ => Err (VersionNotNewer installed candidate)
  end.

Definition reject_git_managed_update_snapshot (path : string) (snapshot : UpdateTreeSnapshot) :
    PackageResult unit :=
  reject_if (existsb (λ entry, ue_path entry == [".git"]) (us_entries snapshot)) (NotManagedInstall path).

Definition verify_update_tree_path (path : string) (expected_identity : TargetIdentity)
    (expected_snapshot : UpdateTreeSnapshot) (phase : string) : installer string unit :=
  actual ← snapshot_update_tree_path path expected_identity;
  refuse_if (actual != expected_snapshot) phase.

(** The validator looks at a directory by its path; its tree is the same
    afterwards. *)
Definition validate_at (validator path : string) (identity : TargetIdentity) (snapshot : UpdateTreeSnapshot)
    (phase : string) : installer OmarchyError unit :=
  status ← step_of (RunValidatorAt validator path);
  give (run_validator status validator);;
  map_error UpdateStateIndeterminate (verify_update_tree_path path identity snapshot phase).

Record InstalledRelease := {
  rl_identity : TargetIdentity;
  rl_snapshot : UpdateTreeSnapshot;
  rl_manifest : OmarchyManifest;
}.

Definition read_installed_release (validator target : string) (inspection : PluginInspection)
    (expected_publisher_persona_id : string) : installer OmarchyError InstalledRelease :=
  installed_identity ← path_identity target;
  reject_git_managed_target target;;
  installed_snapshot ← map_error UpdateStateIndeterminate (snapshot_update_tree_path target installed_identity);
  give (reject_git_managed_update_snapshot target installed_snapshot);;
  validate_at validator target installed_identity installed_snapshot
    "installed release changed during manifest validation";;
  installed_manifest ← read_update_snapshot_manifest target installed_snapshot;
  installed_receipt ← read_update_snapshot_receipt target installed_snapshot;
  give (validate_installed_state target installed_manifest installed_receipt);;
  refuse_if (om_id installed_manifest != om_id (pi_manifest inspection))
    (InvalidInstallReceipt ("candidate id " +:+ om_id (pi_manifest inspection) +:+
      " does not match installed id " +:+ om_id installed_manifest));;
  refuse_if (ir_publisher_persona_id installed_receipt != expected_publisher_persona_id)
    PublisherContinuityMismatch;;
  give (require_newer_version (om_version installed_manifest) (om_version (pi_manifest inspection)));;
  mret {| rl_identity := installed_identity; rl_snapshot := installed_snapshot;
          rl_manifest := installed_manifest |}.

(** ** The exchange *)

Definition describe_retained_update_staging {E} (recovery_path plugins_directory : string)
    (expected_plugins expected_recovery : TargetIdentity) : installer E string :=
  plugins_path_matches ← path_matches plugins_directory expected_plugins;
  recovery_path_matches ← path_matches recovery_path expected_recovery;
  mret (if (plugins_path_matches && recovery_path_matches)
        then "retained update staging was revalidated at " +:+ recovery_path
        else "retained update staging was identified as " +:+ device_inode expected_recovery +:+
          " beneath the original plugins root " +:+ device_inode expected_plugins +:+
          ", but its pathname is indeterminate").

Definition describe_pinned_update_root {E} (pinned : PinnedUpdate) : installer E string :=
  descriptor ← pinned_matches Recovery "update recovery root" (pu_recovery_identity pinned);
  external_path ← path_matches (pu_recovery_path pinned) (pu_recovery_identity pinned);
  parent_mapping ← opened_matches Plugins (pu_recovery_name pinned) "reported update recovery root"
    (pu_recovery_identity pinned);
  mret (if (descriptor && external_path && parent_mapping)
        then "the retained update root was revalidated at " +:+ pu_recovery_path pinned
        else "the retained update root descriptor names " +:+ device_inode (pu_recovery_identity pinned) +:+
          ", but its pathname is indeterminate").

Definition prepare_pinned_update (plugins_directory recovery_path plugin_id : string)
    (baselines : UpdateBaselines) : installer OmarchyError PinnedUpdate :=
  let indeterminate := UpdateStateIndeterminate in
  opened ← step_of (PinPath plugins_directory);
  give (map_err indeterminate (must_open ("cannot pin plugins directory " +:+ plugins_directory +:+ ": ") opened));;
  plugins_identity ← map_error indeterminate (pinned_identity Plugins "plugins directory");
  changed ← any_differs [(mret plugins_identity, ub_plugins_identity baselines);
                         (path_identity plugins_directory, ub_plugins_identity baselines)];
  refuse_if changed
    (indeterminate ("plugins directory changed after update staging began: " +:+ plugins_directory));;
  recovery_name ← give (ok_or (file_name recovery_path) (indeterminate "update recovery directory has no basename"));
  recovery_identity ← map_error indeterminate
    (opened_identity Plugins recovery_name "update recovery directory");
  changed ← any_differs [(mret recovery_identity, ub_recovery_identity baselines);
                         (path_identity recovery_path, ub_recovery_identity baselines)];
  refuse_if changed
    (indeterminate ("update recovery directory changed while it was pinned: " +:+ recovery_path));;
  map_error indeterminate (require_private Recovery "cannot inspect pinned update recovery directory: "
    ("pinned update recovery directory is not mode 0700: " +:+ recovery_path));;
  map_error indeterminate (require_mapping Plugins plugin_id "installed update target"
    (ub_installed_identity baselines) "installed target changed before descriptor-relative exchange");;
  map_error indeterminate (require_mapping Recovery "plugin" "staged update candidate"
    (ub_candidate_identity baselines) "staged candidate changed before descriptor-relative exchange");;
  map_error indeterminate (verify_tree Installed (ub_installed_snapshot baselines)
    "installed release changed before descriptor-relative exchange");;
  map_error indeterminate (verify_tree Candidate (ub_candidate_snapshot baselines)
    "staged candidate changed before descriptor-relative exchange");;
  mret {| pu_plugins_identity := plugins_identity; pu_recovery_identity := recovery_identity;
          pu_installed_identity := ub_installed_identity baselines;
          pu_candidate_identity := ub_candidate_identity baselines;
          pu_installed_snapshot := ub_installed_snapshot baselines;
          pu_candidate_snapshot := ub_candidate_snapshot baselines;
          pu_recovery_name := recovery_name; pu_recovery_path := recovery_path |}.

Definition verify_update_pair (pinned : PinnedUpdate) (plugin_id : string)
    (expected_live expected_recovery : TargetIdentity) (phase : string) : installer string unit :=
  changed ← any_differs
    [(pinned_identity Installed "original installed release", pu_installed_identity pinned);
     (pinned_identity Candidate "update candidate", pu_candidate_identity pinned)];
  refuse_if changed ("pinned release descriptor changed " +:+ phase);;
  require_mapping Plugins plugin_id "live update target" expected_live
    ("live target identity mismatch " +:+ phase);;
  require_mapping Recovery "plugin" "update recovery child" expected_recovery
    ("recovery-child identity mismatch " +:+ phase).

Definition verify_update_layout (pinned : PinnedUpdate) (plugins_directory plugin_id : string)
    (expected_live expected_recovery : TargetIdentity) : installer string unit :=
  verify_update_pair pinned plugin_id expected_live expected_recovery "during final layout verification";;
  verify_tree Installed (pu_installed_snapshot pinned)
    "the prior release tree changed during the update operation";;
  verify_tree Candidate (pu_candidate_snapshot pinned) "the candidate tree changed during the update operation";;
  require_private Recovery "cannot inspect pinned update recovery directory: "
    "update recovery directory is no longer mode 0700";;
  require_mapping Plugins (pu_recovery_name pinned) "reported update recovery directory"
    (pu_recovery_identity pinned) "reported update recovery path changed during rescan";;
  current ← path_identity_for "cannot revalidate plugins-directory path: " plugins_directory;
  refuse_if (current != pu_plugins_identity pinned) "plugins-directory path changed during rescan";;
  current ← path_identity_for "cannot revalidate update recovery path: " (pu_recovery_path pinned);
  refuse_if (current != pu_recovery_identity pinned)
    "external update recovery path no longer names the pinned directory";;
  current ← path_identity_for "cannot revalidate live update target: " (path_join plugins_directory plugin_id);
  refuse_if (current != expected_live) "external live path no longer names the expected release";;
  current ← path_identity_for "cannot revalidate recovery child: " (path_join (pu_recovery_path pinned) "plugin");
  refuse_if (current != expected_recovery) "external recovery path no longer names the expected release".

Definition describe_update_recovery_state {E} (pinned : PinnedUpdate) (plugins_directory plugin_id : string)
    (expected_prior : TargetIdentity) : installer E string :=
  descriptor ← pinned_matches Installed "original installed release" expected_prior;
  tree ← tree_matches Installed (pu_installed_snapshot pinned) "prior release tree changed";
  recovery_child ← opened_matches Recovery "plugin" "update recovery child" expected_prior;
  live_child ← opened_matches Plugins plugin_id "live update target" expected_prior;
  plugins_path ← path_matches plugins_directory (pu_plugins_identity pinned);
  recovery_path ← path_matches (pu_recovery_path pinned) (pu_recovery_identity pinned);
  recovery_mode ← private_matches Recovery;
  mret (if (descriptor && tree && recovery_child && plugins_path && recovery_path && recovery_mode) then
          "the exact prior release was revalidated at " +:+ pinned_update_recovery_path pinned
        else if (descriptor && tree && live_child && plugins_path) then
          "the exact prior release was revalidated at the live plugin path, but the overall update layout is indeterminate: " +:+
          path_join plugins_directory plugin_id
        else if (descriptor && tree) then
          "the prior release descriptor remained pinned, but its pathname is indeterminate; locate " +:+
          device_inode (pu_installed_identity pinned) +:+ " manually"
        else if (descriptor : bool) then
          "the prior release directory remained pinned, but its file tree changed and requires manual inspection"
        else "the prior release could not be revalidated and requires manual filesystem inspection").

Definition retain_and_exchange_update (recovery_path plugins_directory plugin_id : string)
    (baselines : UpdateBaselines) : installer OmarchyError PinnedUpdate :=
  pinned ← or_else (prepare_pinned_update plugins_directory recovery_path plugin_id baselines)
    (λ error,
      retained_state ← describe_retained_update_staging recovery_path plugins_directory
        (ub_plugins_identity baselines) (ub_recovery_identity baselines);
      give (Err (UpdateStateIndeterminate (omarchy_error_text error +:+
        "; automatic cleanup was disabled; " +:+ retained_state))));
  or_else (verify_update_pair pinned plugin_id (ub_installed_identity baselines)
      (ub_candidate_identity baselines) "before initial exchange")
    (λ error, state ← describe_pinned_update_root pinned;
              give (Err (UpdateStateIndeterminate (error +:+ "; " +:+ state))));;
  renamed ← step_of (RenameExchange Recovery "plugin" Plugins plugin_id);
  match renamed with
  | Some error =>
      state ← describe_pinned_update_root pinned;
      give (Err (AtomicUpdate ("descriptor-relative update exchange failed (" +:+ error +:+
        "); no recursive deletion ran; " +:+ state)))
  | None => mret tt
  end;;
  or_else (verify_update_pair pinned plugin_id (ub_candidate_identity baselines)
      (ub_installed_identity baselines) "after initial exchange")
    (λ error,
      recovery_state ← describe_update_recovery_state pinned plugins_directory plugin_id
        (ub_installed_identity baselines);
      give (Err (UpdateStateIndeterminate
        ("initial exchange completed but exact-directory verification failed (" +:+ error +:+
         "); no recursive deletion ran; " +:+ recovery_state))));;
  mret pinned.

Definition rollback_pinned_update (pinned : PinnedUpdate) (plugin_id : string) : installer string unit :=
  verify_update_pair pinned plugin_id (pu_candidate_identity pinned) (pu_installed_identity pinned)
    "before rollback exchange";;
  verify_tree Installed (pu_installed_snapshot pinned) "the prior release tree changed before rollback";;
  renamed ← step_of (RenameExchange Recovery "plugin" Plugins plugin_id);
  give (must_open "descriptor-relative rollback exchange failed: " renamed);;
  verify_update_pair pinned plugin_id (pu_installed_identity pinned) (pu_candidate_identity pinned)
    "after rollback exchange".

(** ** The update *)

Definition retained_update_staging_directory (plugins_directory : string) : installer OmarchyError string :=
  created ← step_of (CreateStaging ".a-quo-update-" plugins_directory);
  '(recovery_path, retained_path) ← give (map_err (IoAt (path_place plugins_directory)) (of_sum created));
  refuse_if (negb (path_eqb retained_path recovery_path))
    (UpdateStateIndeterminate "update staging path changed while automatic cleanup was disabled");;
  mret recovery_path.

(** What is known when the final authorization is asked for. *)
Record PreparedUpdate := {
  pd_inspection : PluginInspection;
  pd_publisher_persona_id : string;
  pd_installed_manifest : OmarchyManifest;
  pd_recovery_path : string;
  pd_baselines : UpdateBaselines;
}.

Definition prepare_update (request : UpdateRequest) : installer OmarchyError PreparedUpdate :=
  let plugins_directory := rq_plugins_directory request in
  require_system_command (rq_validator request);;
  require_system_command (rq_omarchy_shell request);;
  prepare_plugins_directory plugins_directory;;
  expected_plugins ← path_identity plugins_directory;
  proof ← load_package_proof (rq_proof_path request);
  recovery_path ← retained_update_staging_directory plugins_directory;
  '(sealed, inspection, persona_id) ← inspect_staged_package (rq_package_path request) recovery_path proof;
  installed ← read_installed_release (rq_validator request)
    (path_join plugins_directory (om_id (pi_manifest inspection))) inspection persona_id;
  staged ← stage_plugin UpdateStateIndeterminate recovery_path sealed inspection persona_id;
  validate_at (rq_validator request) (path_join recovery_path "plugin") (sg_candidate_identity staged)
    (sg_candidate_snapshot staged) "staged candidate changed during manifest validation";;
  expected_recovery ← path_identity recovery_path;
  mret {| pd_inspection := inspection; pd_publisher_persona_id := persona_id;
          pd_installed_manifest := rl_manifest installed; pd_recovery_path := recovery_path;
          pd_baselines := {|
            ub_plugins_identity := expected_plugins; ub_recovery_identity := expected_recovery;
            ub_installed_identity := rl_identity installed;
            ub_candidate_identity := sg_candidate_identity staged;
            ub_installed_snapshot := rl_snapshot installed;
            ub_candidate_snapshot := sg_candidate_snapshot staged |} |}.

(** The failure after an exchange: the releases are exchanged again, and the
    shell and the layout are looked at once more. The two places that do this
    differ in what they say. *)
Definition undo_exchange {A} (pinned : PinnedUpdate) (baselines : UpdateBaselines)
    (plugins_directory plugin_id omarchy_shell failure exchanged_back : string)
    (unscanned : string → string) (rolled_back : string → OmarchyError) : installer OmarchyError A :=
  let recovery_state := describe_update_recovery_state pinned plugins_directory plugin_id
    (ub_installed_identity baselines) in
  undone ← attempt (rollback_pinned_update pinned plugin_id);
  match undone with
  | inl rollback_error =>
      state ← recovery_state;
      give (Err (UpdateRollbackFailed (failure +:+ "; exact rollback failed (" +:+ rollback_error +:+
        "); no recursive deletion ran; " +:+ state)))
  | inr _ =>
      restore_rescan ← attempt (rescan omarchy_shell RecoveryRescan);
      or_else (verify_update_layout pinned plugins_directory plugin_id (ub_installed_identity baselines)
          (ub_candidate_identity baselines))
        (λ error, state ← recovery_state;
           give (Err (UpdateStateIndeterminate (exchanged_back +:+
             ", but post-rescan layout verification failed (" +:+ error +:+
             "); no recursive deletion ran; " +:+ state))));;
      give (Err match restore_rescan with
        | inl rescan_error => UpdateRollbackFailed (unscanned rescan_error +:+
            "; the rejected candidate remains at " +:+ pinned_update_recovery_path pinned)
        | inr _ => rolled_back ("the rejected candidate remains at " +:+ pinned_update_recovery_path pinned)
        end)
  end.

Definition undo_unfinished {A} (pinned : PinnedUpdate) (baselines : UpdateBaselines)
    (plugins_directory plugin_id omarchy_shell cause : string) : installer OmarchyError A :=
  let failure := "publisher authorization finalization failed after exchange (" +:+ cause +:+ ")" in
  undo_exchange pinned baselines plugins_directory plugin_id omarchy_shell failure
    (failure +:+ " and the prior release was exchanged back")
    (λ error, failure +:+ "; the exact prior release was restored, but its shell rescan failed (" +:+ error +:+ ")")
    (λ remains, UpdateAuthorizationFinalizationFailed
      (cause +:+ "; the exact prior release was restored and revalidated; " +:+ remains)).

Definition undo_unscanned {A} (pinned : PinnedUpdate) (baselines : UpdateBaselines)
    (plugins_directory plugin_id omarchy_shell rescan_error : string) : installer OmarchyError A :=
  let failure := "shell rescan failed (" +:+ rescan_error +:+ ")" in
  undo_exchange pinned baselines plugins_directory plugin_id omarchy_shell failure
    ("the prior release was exchanged back after " +:+ failure)
    (λ error, "the exact prior release was restored and revalidated after " +:+ failure +:+
      ", but the restore rescan also failed (" +:+ error +:+ ")")
    (λ remains, UpdateRolledBack (rescan_error +:+ "; the exact prior release was restored and " +:+ remains)).

Definition complete_update (request : UpdateRequest) (prepared : PreparedUpdate) :
    installer OmarchyError UpdateOutcome :=
  let inspection := pd_inspection prepared in
  let baselines := pd_baselines prepared in
  let plugins_directory := rq_plugins_directory request in
  let plugin_id := om_id (pi_manifest inspection) in
  authorization ← with_final_publisher_operation (X:=unit) (signer_fingerprint inspection)
    (signer_label inspection) (pd_publisher_persona_id prepared)
    (map_error (λ e, (e, tt))
      (retain_and_exchange_update (pd_recovery_path prepared) plugins_directory plugin_id baselines));
  pinned ← match authorization with
    | Authorized pinned => mret pinned
    | Refused cause =>
        state ← describe_retained_update_staging (pd_recovery_path prepared) plugins_directory
          (ub_plugins_identity baselines) (ub_recovery_identity baselines);
        give (Err (UpdateAuthorizationRefused cause state))
    | OperationFailed error _ => give (Err error)
    | FinalizationFailed pinned cause =>
        undo_unfinished pinned baselines plugins_directory plugin_id (rq_omarchy_shell request)
          (omarchy_error_text cause)
    | CompletedWithoutValue =>
        give (Err (UpdateStateIndeterminate "publisher authorization completed without an update result"))
    end;
  rescanned ← attempt (rescan (rq_omarchy_shell request) InitialRescan);
  match rescanned with
  | inr _ => mret tt
  | inl rescan_error =>
      undo_unscanned pinned baselines plugins_directory plugin_id (rq_omarchy_shell request) rescan_error
  end;;
  or_else (verify_update_layout pinned plugins_directory plugin_id (ub_candidate_identity baselines)
      (ub_installed_identity baselines))
    (λ error,
      state ← describe_update_recovery_state pinned plugins_directory plugin_id (ub_installed_identity baselines);
      give (Err (UpdateStateIndeterminate ("final update layout verification failed (" +:+ error +:+
        "); no recursive deletion ran; " +:+ state))));;
  mret {| up_plugin_id := plugin_id; up_previous_version := om_version (pd_installed_manifest prepared);
          up_version := om_version (pi_manifest inspection);
          up_publisher_continuity := SameLocalPersona;
          up_omarchy_manifest_validation := PassedPathObservationNotContinuous;
          up_atomic_exchange := true; up_shell_rescan := RescanPassed;
          up_previous_release_recovery := pinned_update_recovery_path pinned;
          up_recovery_retained := true; up_disk_purge := PurgeNotPerformed;
          up_a_quo_enablement_action := NotPerformed; up_behavioral_analysis := AnalysisNotRun;
          up_trusted_consent := ConsentNotRun; up_runtime_safety := NotEvaluated |}.

Definition update_with_lifecycle (request : UpdateRequest) : installer OmarchyError UpdateOutcome :=
  prepared ← prepare_update request;
  complete_update request prepared.

Definition update_signed_package (package_path proof_path plugins_directory : string) :
    installer OmarchyError UpdateOutcome :=
  update_with_lifecycle {| rq_package_path := package_path; rq_proof_path := proof_path;
    rq_plugins_directory := plugins_directory; rq_validator := VALIDATOR; rq_omarchy_shell := OMARCHY_SHELL |}.

End update.
