(* ===== verification/RemovalProtocol.v ===== *)
(** * The protocol of a removal

    First the errors and observations of removals and updates: before its first
    rename an operation fails only with errors that do not tell of one, and its
    checks only observe, without a panic. Then a removal: it moves at most the
    plugin it was asked to remove, and only after it was found to be managed,
    unreferenced and pinned; what follows ends in a quarantine or a restored
    plugin that was checked, or in an error that says that it was not. *)

From stdpp Require Import base numbers list strings pretty sorting option gmap.
From Stdlib Require Import Strings.Byte Ascii.
From S2P Require Import Prelude Text Ordered Display Crates Io ArtifactProof Continuity RecoveryPolicy RecoveryChain.
From S2P Require Import Names Fields IpcProtocol Transport StoreTypes StoreCommon Backup BackupVerify Tables StoredKeys.
From S2P Require Import Journal Store Interaction Disk Package PackageArchive PackageFacts PackageTrust ShellReference Installer.
From S2P Require Import Install InstallFacts InstallProtocol Removal Update.

(** ** Errors of results *)

Definition fails_early {A} (r : PackageResult A) : Prop := ∀ e, r = Err e → early e.

Lemma fails_early_Ok {A} (a : A) : fails_early (Ok a).
Proof. done. Qed.

Lemma fails_early_Err {A} e : early e → fails_early (A:=A) (Err e).
Proof. by intros H ? [= <-]. Qed.

Lemma fails_early_bind {A B} (m : PackageResult A) (f : A → PackageResult B) :
  fails_early m → (∀ a, fails_early (f a)) → fails_early (m ≫= f).
Proof. intros Hm Hf e. destruct m as [a|e'|s]; cbn; [apply Hf|by intros [= <-]; apply Hm|done]. Qed.

Lemma fails_early_map_err {E A} (f : E → OmarchyError) (m : result E A) :
  (∀ e, early (f e)) → fails_early (map_err f m).
Proof. intros Hf e. destruct m; cbn; [done|by intros [= <-]|done]. Qed.

Lemma fails_early_reject_if b e : early e → fails_early (reject_if b e).
Proof. intros He e'. destruct b; [by intros [= <-]|done]. Qed.

Lemma fails_early_ok_or {A} (o : option A) e : early e → fails_early (ok_or o e).
Proof. intros He e'. destruct o; [done|by intros [= <-]]. Qed.

Lemma fails_early_fold {S A} (body : S → A → PackageResult S) s xs :
  (∀ s x, fails_early (body s x)) → fails_early (fold_result body s xs).
Proof.
  intros Hb. revert s. induction xs as [|x xs IH]; intros s; cbn; [done|]. by apply fails_early_bind.
Qed.

Lemma fails_early_each {A} (check : A → PackageResult unit) xs :
  (∀ x, fails_early (check x)) → fails_early (each_result check xs).
Proof. intros Hc. induction xs as [|x xs IH]; cbn; [done|]. by apply fails_early_bind. Qed.

(** The same for what uses the disk. *)
Definition disk_early {A} (m : DiskM OmarchyError A) : Prop := ∀ d, fails_early (m d).1.

Lemma disk_early_ret {A} (a : A) : disk_early (mret a).
Proof. done. Qed.

Lemma disk_early_lift {A} (r : PackageResult A) : fails_early r → disk_early (lift r).
Proof. by intros H d. Qed.

Lemma disk_early_bind {A B} (m : DiskM OmarchyError A) (f : A → DiskM OmarchyError B) :
  disk_early m → (∀ a, disk_early (f a)) → disk_early (m ≫= f).
Proof.
  intros Hm Hf d. unfold mbind, disk_bind. specialize (Hm d). destruct (m d) as [[a|e|s] d'].
  - apply Hf.
  - intros e' [= <-]. by apply Hm.
  - done.
Qed.

Lemma disk_early_map_err {E A} (f : E → OmarchyError) (m : DiskM E A) :
  (∀ e, early (f e)) → disk_early (disk_map_err f m).
Proof. intros Hf d. unfold disk_map_err. destruct (m d) as [r d']. by apply fails_early_map_err. Qed.

Lemma disk_early_fold {S A} (body : S → A → DiskM OmarchyError S) s xs :
  (∀ s x, disk_early (body s x)) → disk_early (fold_disk body s xs).
Proof.
  intros Hb. revert s. induction xs as [|x xs IH]; intros s; cbn; [done|]. by apply disk_early_bind.
Qed.

Create HintDb early.

(** [early_errors] walks a definition; what is left are the calls that no lemma
    of [early] covers. *)
Ltac early_errors :=
  repeat first
    [ reflexivity
    | apply fails_early_Ok
    | solve [auto 2 with early nocore]
    | apply fails_early_Err
    | apply fails_early_reject_if
    | apply fails_early_ok_or
    | apply fails_early_map_err; intros
    | apply fails_early_bind; [|intros]
    | apply fails_early_fold; intros
    | apply fails_early_each; intros
    | apply disk_early_ret
    | apply disk_early_lift
    | apply disk_early_map_err; intros
    | apply disk_early_bind; [|intros]
    | apply disk_early_fold; intros
    | progress case_match
    | progress cbn beta iota zeta ].

Section errors.
Context {crates : Crates} {uuids : Uuids} {materializations : Materializations}
  {json_root_proof : Serde PersonaRootProof} {json_policy_proof : Serde RecoveryPolicyProof}
  {json_transition_proof : Serde PersonaTransitionProof}
  {json_recovery_proof : Serde RecoveryTransitionProof}
  {json_entry : Serde PersonaContinuityTransitionProof}
  {json_terminal_proof : Serde TerminalPersonaRevocationProof}
  {json_archive : Serde BackupContinuityArchive} {json_backup : Serde PersonaBackup}
  {pretty_backup : SerdePretty PersonaBackup}
  {json_root : Serde PersonaRootStatement} {json_transition : Serde PersonaTransitionStatement}
  {json_policy : Serde RecoveryPolicyStatement} {json_recovery : Serde RecoveryTransitionStatement}
  {json_terminal : Serde TerminalPersonaRevocationStatement}
  {json_statement : Serde ArtifactStatement} {json_bundle : Serde ProofBundle}
  {formats : ArchiveFormats} {semver : Semver} {json_manifest : Serde OmarchyManifest}
  {json_receipt : Serde InstallReceipt} {shell_json : ShellJson}
  {pretty_receipt : SerdePretty InstallReceipt} {texts : ErrorTexts}.

(** ** Packages *)

Lemma plugin_id_early id : fails_early (validate_plugin_id id).
Proof. unfold validate_plugin_id. early_errors. Qed.
Lemma semantic_version_early value : fails_early (parse_semantic_version value).
Proof. unfold parse_semantic_version. early_errors. Qed.
Lemma display_text_early field value maximum : fails_early (validate_display_text field value maximum).
Proof. unfold validate_display_text. early_errors. Qed.
Lemma entry_path_early path : fails_early (validate_entry_path path).
Proof. unfold validate_entry_path, validate_component. early_errors. Qed.
Lemma path_string_early path : fails_early (path_string path).
Proof. unfold path_string. early_errors. Qed.
#[local] Hint Resolve plugin_id_early semantic_version_early display_text_early entry_path_early
  path_string_early : early.

Lemma manifest_early manifest files : fails_early (validate_manifest manifest files).
Proof.
  unfold validate_manifest, validate_kind, validate_entry_point, require_entry_point. early_errors.
Qed.
Lemma visit_entry_early st item : fails_early (visit_entry st item).
Proof. unfold visit_entry, visit_file, read_manifest. early_errors. Qed.
Lemma parent_directories_early path directories count :
  fails_early (record_tree_parent_directories path directories count).
Proof.
  unfold record_tree_parent_directories, insert_tree_directory, ensure_extracted_tree_limit. early_errors.
Qed.
Lemma open_stream_early file : fails_early (open_stream file).
Proof. unfold open_stream. early_errors. Qed.
#[local] Hint Resolve manifest_early visit_entry_early parent_directories_early open_stream_early : early.

Lemma finish_early compressed st trailing : fails_early (finish_archive compressed st trailing).
Proof. unfold finish_archive, check_trailing. early_errors. Qed.
#[local] Hint Resolve finish_early : early.

Lemma process_archive_early {env : DiskEnv} file destination : disk_early (process_archive file destination).
Proof.
  unfold process_archive, process_entry, place_entry, insert_tree_directory, ensure_extracted_tree_limit,
    write_file_new, set_file_permissions, set_directory_permissions, write_chunk. early_errors.
Qed.
#[local] Hint Resolve process_archive_early : early.

Lemma installable_early inspection : fails_early (require_installable_publisher inspection).
Proof. unfold require_installable_publisher. early_errors. Qed.
Lemma persona_id_early store inspection : fails_early (publisher_persona_id store inspection).
Proof. unfold publisher_persona_id. early_errors. Qed.
Lemma copy_early copy source destination : fails_early (copy_package_once copy source destination).
Proof. unfold copy_package_once, open_package_source, io_at. early_errors. Qed.
Lemma seal_early sealing path : fails_early (snapshot_staged_package sealing path).
Proof. unfold snapshot_staged_package. early_errors. Qed.
Lemma write_receipt_early answers path : fails_early (write_receipt_bytes answers path).
Proof. unfold write_receipt_bytes, io_at. early_errors. Qed.
#[local] Hint Resolve installable_early persona_id_early copy_early seal_early write_receipt_early : early.

(** ** What is installed *)

Lemma receipt_early path bs : fails_early (parse_receipt path bs).
Proof. unfold parse_receipt, validate_receipt. early_errors. Qed.
Lemma installed_manifest_early bs : fails_early (parse_installed_manifest bs).
Proof. unfold parse_installed_manifest. early_errors. Qed.
Lemma installed_state_early target manifest receipt : fails_early (validate_installed_state target manifest receipt).
Proof. unfold validate_installed_state. early_errors. Qed.
Lemma baseline_early snapshot name maximum : fails_early (snapshot_baseline snapshot name maximum).
Proof. unfold snapshot_baseline. early_errors. Qed.
Lemma snapshot_file_early file expected name maximum : fails_early (check_snapshot_file file expected name maximum).
Proof. unfold check_snapshot_file. early_errors. Qed.
Lemma newer_early installed candidate : fails_early (require_newer_version installed candidate).
Proof. unfold require_newer_version. early_errors. Qed.
Lemma git_snapshot_early path snapshot : fails_early (reject_git_managed_update_snapshot path snapshot).
Proof. unfold reject_git_managed_update_snapshot. early_errors. Qed.
Lemma validator_early status validator : fails_early (run_validator status validator).
Proof. unfold run_validator. early_errors. Qed.
#[local] Hint Resolve receipt_early installed_manifest_early installed_state_early baseline_early
  snapshot_file_early newer_early git_snapshot_early validator_early : early.

(** ** The shell *)

Lemma any_entry_early allow location id entries : fails_early (any_entry allow location id entries).
Proof.
  induction entries as [|entry entries IH]; cbn [any_entry]; [done|].
  unfold shell_entry_plugin_id, shell_id_value, bad_configuration. early_errors.
Qed.
#[local] Hint Resolve any_entry_early : early.

Lemma any_section_early layout id sections : fails_early (any_section layout id sections).
Proof.
  induction sections as [|section sections IH]; cbn [any_section]; [done|].
  unfold optional_shell_array, bad_configuration. early_errors.
Qed.
#[local] Hint Resolve any_section_early : early.

Lemma references_early config id : fails_early (shell_configuration_references_plugin config id).
Proof.
  unfold shell_configuration_references_plugin, bar_references_plugin, optional_shell_object,
    optional_shell_array, shell_id_value, bad_configuration. early_errors.
Qed.
#[local] Hint Resolve references_early : early.

Lemma reference_early files directory id : fails_early (observe_plugin_reference files directory id).
Proof.
  unfold observe_plugin_reference, read_shell_configuration, read_default_shell_configuration,
    read_shell_configuration_bytes, parse_reference_observation, bad_configuration. early_errors.
Qed.
#[local] Hint Resolve reference_early : early.

Lemma referenced_removal_early files directory id : fails_early (reject_referenced_removal files directory id).
Proof.
  intros e. unfold reject_referenced_removal.
  assert (fails_early (reject_stale_enabled_configuration files directory id)) as H
    by (unfold reject_stale_enabled_configuration; early_errors).
  destruct (reject_stale_enabled_configuration files directory id) as [a|e'|s]; [done| |done].
  specialize (H e' eq_refl). by destruct e'; intros [= <-].
Qed.
#[local] Hint Resolve referenced_removal_early : early.

(** ** Observations before the first rename *)

Lemma observes_early_give {A} (r : PackageResult A) : fails_early r → observes early (give r).
Proof. apply observes_give. Qed.

Lemma observes_early_map_error {E A} (f : E → OmarchyError) (p : installer E A) :
  observes whatever p → (∀ e, early (f e)) → observes early (map_error f p).
Proof. intros Hp Hf. eapply observes_map_error; [exact Hp|]. auto. Qed.

(** [watch_early] also follows the errors. *)
Ltac watch_early :=
  repeat first
    [ progress watch
    | apply observes_early_give; solve [early_errors]
    | apply observes_early_map_error; [|intros; reflexivity]
    | solve [auto 2 with observing nocore] ].

#[local] Hint Resolve observes_path_identity observes_path_identity_whatever observes_path_identity_for
  observes_pinned_identity observes_opened_identity observes_verify_tree observes_require_private
  observes_require_mapping observes_snapshot_path observes_system_command observes_plugins_directory
  observes_path_matches observes_opened_matches observes_pinned_matches observes_tree_matches : observing.
#[local] Hint Extern 1 (observes whatever (require_absent _ _ _ _)) =>
  apply observes_require_absent; done : observing.

Lemma observes_git_target path : observes early (reject_git_managed_target path).
Proof. unfold reject_git_managed_target. watch_early. Qed.
Lemma observes_referenced directory id : observes early (reject_referenced directory id).
Proof. unfold reject_referenced. watch_early. Qed.
Lemma observes_read_manifest directory : observes early (read_installed_manifest directory).
Proof. unfold read_installed_manifest, read_bytes. watch_early. Qed.
Lemma observes_read_receipt directory : observes early (read_install_receipt directory).
Proof. unfold read_install_receipt, read_bytes. watch_early. Qed.
#[local] Hint Resolve observes_git_target observes_referenced observes_read_manifest
  observes_read_receipt : observing.

Lemma observes_prepare_pinned_removal directory id target expected :
  observes early (prepare_pinned_removal directory id target expected).
Proof. unfold prepare_pinned_removal, retained_removal_quarantine. watch_early. Qed.
#[local] Hint Resolve observes_prepare_pinned_removal : observing.

Lemma observes_prepare_removal id directory shell : observes early (prepare_removal id directory shell).
Proof. unfold prepare_removal, require_existing_plugins_directory. watch_early. Qed.

Lemma observes_load_proof path : observes early (load_package_proof path).
Proof. unfold load_package_proof. watch_early. Qed.
Lemma observes_inspect_staged path staging proof : observes early (inspect_staged_package path staging proof).
Proof. unfold inspect_staged_package. watch_early. Qed.
Lemma observes_stage_early staging sealed inspection id :
  observes early (stage_plugin UpdateStateIndeterminate staging sealed inspection id).
Proof.
  unfold stage_plugin, build_receipt_for_artifact, write_install_receipt. watch_early.
Qed.
Lemma observes_tree_path path expected snapshot phase :
  observes whatever (verify_update_tree_path path expected snapshot phase).
Proof. unfold verify_update_tree_path. watch_early. Qed.
#[local] Hint Resolve observes_load_proof observes_inspect_staged observes_stage_early observes_tree_path : observing.

Lemma observes_validate_at validator path expected snapshot phase :
  observes early (validate_at validator path expected snapshot phase).
Proof. unfold validate_at. watch_early. Qed.
#[local] Hint Resolve observes_validate_at : observing.

Lemma observes_installed_release validator target inspection id :
  observes early (read_installed_release validator target inspection id).
Proof.
  unfold read_installed_release, read_update_snapshot_manifest, read_update_snapshot_receipt,
    read_update_snapshot_file. watch_early.
Qed.
#[local] Hint Resolve observes_installed_release : observing.

Lemma observes_prepare_update request : observes early (prepare_update request).
Proof. unfold prepare_update, retained_update_staging_directory. watch_early. Qed.

(** ** Checks around the renames *)

Lemma observes_private_matches {E} (Q : E → Prop) directory : observes Q (private_matches directory).
Proof. unfold private_matches. watch. Qed.
#[local] Hint Resolve observes_private_matches : observing.

Lemma observes_restored pinned directory id : observes whatever (verify_restored_target pinned directory id).
Proof. unfold verify_restored_target. watch_early. Qed.

Lemma observes_retained pinned directory id :
  observes (λ e, ∃ s, e = RemovalStateIndeterminate s) (verify_retained_quarantine pinned directory id).
Proof.
  unfold verify_retained_quarantine. cbv zeta. watch.
  all: try (apply (observes_map_error _ whatever); [watch; auto 2 with observing nocore|by eauto]).
  all: try (apply observes_give; intros e He; unfold reject_if in He; by case_match; simplify_eq; eauto).
  all: apply observes_require_absent; eauto.
Qed.

Lemma observes_describe_recovery_state {E} (Q : E → Prop) pinned directory :
  observes Q (describe_pinned_recovery_state pinned directory).
Proof. unfold describe_pinned_recovery_state, both. watch; auto 2 with observing nocore. Qed.

Lemma observes_pair pinned id live recovery phase :
  observes whatever (verify_update_pair pinned id live recovery phase).
Proof. unfold verify_update_pair. watch_early. Qed.
#[local] Hint Resolve observes_pair : observing.

Lemma observes_update_layout pinned directory id live recovery :
  observes whatever (verify_update_layout pinned directory id live recovery).
Proof. unfold verify_update_layout. watch_early. Qed.

Lemma observes_prepare_pinned_update directory path id baselines :
  observes whatever (prepare_pinned_update directory path id baselines).
Proof. unfold prepare_pinned_update. cbv zeta. watch_early. Qed.

Lemma observes_describe_update_staging {E} (Q : E → Prop) a b c d :
  observes Q (describe_retained_update_staging a b c d).
Proof. unfold describe_retained_update_staging. watch; auto 2 with observing nocore. Qed.
Lemma observes_describe_update_root {E} (Q : E → Prop) pinned : observes Q (describe_pinned_update_root pinned).
Proof. unfold describe_pinned_update_root. watch; auto 2 with observing nocore. Qed.
Lemma observes_describe_update_recovery {E} (Q : E → Prop) pinned directory id prior :
  observes Q (describe_update_recovery_state pinned directory id prior).
Proof. unfold describe_update_recovery_state. watch; auto 2 with observing nocore. Qed.

(** ** None of them panics *)

#[local] Hint Resolve fails_with_no_panic must_open_no_panic verify_tree_no_panic target_identity_no_panic
  descriptor_identity_no_panic open_directory_no_panic of_sum_no_panic validate_plugin_id_no_panic
  references_no_panic : panics.

Ltac unfold_checks :=
  unfold private_matches, both, pinned_matches, opened_matches, path_matches, tree_matches, verify_tree,
    require_private, require_mapping, require_absent, opened_identity, pinned_identity, path_identity_for,
    path_identity.

Lemma steady_restored pinned directory id : steady (verify_restored_target pinned directory id).
Proof. unfold verify_restored_target. unfold_checks. steady. Qed.
Lemma steady_retained pinned directory id : steady (verify_retained_quarantine pinned directory id).
Proof. unfold verify_retained_quarantine. cbv zeta. unfold_checks. steady. Qed.
Lemma steady_describe_recovery_state {E} pinned directory :
  steady (E:=E) (describe_pinned_recovery_state pinned directory).
Proof. unfold describe_pinned_recovery_state. unfold_checks. steady. Qed.
Lemma steady_mapping pinned name label expected changed : steady (require_mapping pinned name label expected changed).
Proof. unfold_checks. steady. Qed.
Lemma steady_tree pinned snapshot phase : steady (verify_tree pinned snapshot phase).
Proof. unfold_checks. steady. Qed.
Lemma steady_pair pinned id live recovery phase : steady (verify_update_pair pinned id live recovery phase).
Proof. unfold verify_update_pair. unfold_checks. steady. Qed.
Lemma steady_update_layout pinned directory id live recovery :
  steady (verify_update_layout pinned directory id live recovery).
Proof. unfold verify_update_layout, verify_update_pair. unfold_checks. steady. Qed.
Lemma steady_prepare_pinned_update directory path id baselines :
  steady (prepare_pinned_update directory path id baselines).
Proof. unfold prepare_pinned_update. cbv zeta. unfold_checks. steady. Qed.
Lemma steady_describe_update_staging {E} a b c d : steady (E:=E) (describe_retained_update_staging a b c d).
Proof. unfold describe_retained_update_staging. unfold_checks. steady. Qed.
Lemma steady_describe_update_root {E} pinned : steady (E:=E) (describe_pinned_update_root pinned).
Proof. unfold describe_pinned_update_root. unfold_checks. steady. Qed.
Lemma steady_describe_update_recovery {E} pinned directory id prior :
  steady (E:=E) (describe_update_recovery_state pinned directory id prior).
Proof. unfold describe_update_recovery_state. unfold_checks. steady. Qed.

Lemma receipt_no_panic path bs : no_panic (parse_receipt path bs).
Proof. unfold parse_receipt, validate_receipt, parse_semantic_version. no_panics. Qed.
Lemma installed_manifest_no_panic bs : no_panic (parse_installed_manifest bs).
Proof. unfold parse_installed_manifest, parse_semantic_version. no_panics. Qed.
Lemma referenced_removal_no_panic files directory id : no_panic (reject_referenced_removal files directory id).
Proof.
  unfold reject_referenced_removal.
  assert (no_panic (reject_stale_enabled_configuration files directory id)) as H.
  { unfold reject_stale_enabled_configuration, observe_plugin_reference, read_shell_configuration,
      read_default_shell_configuration, read_shell_configuration_bytes, parse_reference_observation.
    no_panics. }
  by destruct (reject_stale_enabled_configuration files directory id) as [a|[]|s].
Qed.
#[local] Hint Resolve receipt_no_panic installed_manifest_no_panic referenced_removal_no_panic : panics.

Lemma steady_prepare_removal id directory shell : steady (prepare_removal id directory shell).
Proof.
  unfold prepare_removal, require_system_command, validate_system_command, validate_system_command_permissions,
    require_existing_plugins_directory, reject_git_managed_target, read_installed_manifest,
    read_install_receipt, read_bytes, validate_installed_state, reject_referenced, prepare_pinned_removal,
    retained_removal_quarantine. unfold_checks. steady.
Qed.

End errors.

(** * The protocol of a removal *)

Abbreviation quarantines id answer :=
  (occurs (Answer:=Answer) (RenameNoReplace Plugins id Quarantine "plugin") answer).
Abbreviation restores id answer :=
  (occurs (Answer:=Answer) (RenameNoReplace Quarantine "plugin" Plugins id) answer).

Lemma renames_quarantines id x t :
  renames (quarantines id x :: t) = (Removal id, if x is None then true else false) :: renames t.
Proof. by destruct x. Qed.
Lemma renames_restores id x t :
  renames (restores id x :: t) = (Restoration id, if x is None then true else false) :: renames t.
Proof. by destruct x. Qed.

(** A call, with what it answered. *)
Lemma leads_asked {E} c : leads (E:=E) (step_of c) (λ t r, ∃ x, r = Ok x ∧ t = [occurs c x]).
Proof. apply leads_call. eauto. Qed.

Lemma asked_bind {E B} c (f : Answer c → installer E B) (Φ : list (Event Answer) → result E B → Prop) :
  (∀ x, leads (f x) (λ t r, Φ (occurs c x :: t) r)) → leads (step_of c ≫= f) Φ.
Proof.
  intros Hf. eapply leads_bind; [apply leads_asked|..].
  - intros t x (x' & [= <-] & ->). apply Hf.
  - by intros t e (x & ? & _).
  - by intros t s (x & ? & _).
Qed.

(** An error that is wrapped. *)
Lemma wrapped_leads {E F A} (f : E → F) (p : installer E A) :
  hushed p → leads (map_error f p) (λ t r, renames t = [] ∧
    match r with Ok _ => True | Err e => ∃ e', e = f e' | Panic _ => False end).
Proof.
  intros Hp. eapply leads_handle; [exact Hp|]. intros t r [Ht Hn]. apply leads_give.
  rewrite app_nil_r. split; [done|]. destruct r; cbn; [done|eauto|done].
Qed.

Section removal.
Context {crates : Crates} {semver : Semver} {json_manifest : Serde OmarchyManifest}
  {json_receipt : Serde InstallReceipt} {shell_json : ShellJson} {texts : ErrorTexts}.
Context (id directory shell : string).

Lemma hushed_mapping pinned name label expected changed :
  hushed (require_mapping pinned name label expected changed).
Proof. eapply hushed_of; [apply observes_require_mapping|apply steady_mapping]. Qed.
Lemma hushed_opened pinned name label : hushed (opened_identity pinned name label).
Proof.
  eapply hushed_of; [apply observes_opened_identity|]. unfold opened_identity.
  apply steady_bind; [exact (steady_call (OpenDirectoryAt pinned name))|]. intros opened. apply steady_give, open_directory_no_panic.
Qed.
Lemma hushed_restored pinned : hushed (verify_restored_target pinned directory id).
Proof. eapply hushed_of; [apply observes_restored|apply steady_restored]. Qed.
Lemma telling_recovery_state {E} pinned : telling (E:=E) (describe_pinned_recovery_state pinned directory).
Proof. eapply telling_of; [apply observes_describe_recovery_state|apply steady_describe_recovery_state]. Qed.

(** ** What a removal may do *)

(** What follows the rename into the quarantine, by its answer. *)
Inductive settled_removal (manifest : OmarchyManifest) (pinned : PinnedRemoval) :
    option string → list (Event Answer) → result OmarchyError UninstallOutcome → Prop :=
| removal_refused e s : settled_removal manifest pinned (Some e) [] (Err (AtomicRemoval s))
| removal_misplaced t s :
    renames t = [] ∨ (∃ x, renames t = [(Restoration id, x)]) →
    settled_removal manifest pinned None t (Err (AtomicRemoval s))
| removal_quarantined t tv outcome :
    renames t = [] → runs (verify_retained_quarantine pinned directory id) tv (Ok tt) →
    un_plugin_id outcome = om_id manifest → un_version outcome = om_version manifest →
    un_recovery_quarantine outcome = pr_quarantine_path pinned →
    settled_removal manifest pinned None (t ++ tv) (Ok outcome)
| removal_unproved t s :
    renames t = [] → settled_removal manifest pinned None t (Err (RemovalStateIndeterminate s))
| removal_not_undone t s :
    renames t = [] ∨ (∃ x, renames t = [(Restoration id, x)]) →
    settled_removal manifest pinned None t (Err (RemovalRollbackFailed s))
| removal_undone_unproved t s :
    renames t = [(Restoration id, true)] →
    settled_removal manifest pinned None t (Err (RemovalStateIndeterminate s))
| removal_undone t tv s :
    renames t = [(Restoration id, true)] → runs (verify_restored_target pinned directory id) tv (Ok tt) →
    settled_removal manifest pinned None (t ++ tv) (Err (RemovalRolledBack s)).

Definition removes (t : list (Event Answer)) (r : result OmarchyError UninstallOutcome) : Prop :=
  (renames t = [] ∧ ∃ e, r = Err e ∧ early e) ∨
  ∃ t0 manifest pinned x t1, t = t0 ++ quarantines id x :: t1 ∧ renames t0 = [] ∧
    runs (prepare_removal id directory shell) t0 (Ok (manifest, pinned)) ∧
    settled_removal manifest pinned x t1 r.

(** ** The program keeps to it *)

(** The rename back, between two checks. *)
Lemma restoring_leads (before after : installer string unit) failed :
  hushed before → hushed after →
  leads (before;; rename_back id failed;; after) (λ t r,
    match r with
    | Ok _ => renames t = [(Restoration id, true)]
    | Err _ => renames t = [] ∨ ∃ x, renames t = [(Restoration id, x)]
    | Panic _ => False
    end).
Proof.
  intros Hb Ha. apply hushed_bind; [done| |by left]. intros t [] Ht _.
  unfold rename_back. eapply (leads_bind _ _ (λ t r, match r with
    | Ok _ => renames t = [(Restoration id, true)]
    | Err _ => ∃ x, renames t = [(Restoration id, x)] | Panic _ => False end)).
  - apply asked_bind. intros [e|]; apply leads_give; rewrite renames_restores; [by exists false|done].
  - intros t1 [] Ht1. eapply leads_mono; [exact Ha|]. intros t2 r [Ht2 Hp].
    rewrite !renames_app, Ht, Ht1, Ht2. destruct r; [done|right; by exists true|done].
  - intros t1 e [x Hx]. right. exists x. by rewrite renames_app, Ht.
  - done.
Qed.

Lemma undo_removal_leads manifest pinned rescan_error :
  leads (undo_removal pinned directory id shell rescan_error) (settled_removal manifest pinned None).
Proof.
  unfold undo_removal. eapply leads_bind; [apply attempt_leads, restoring_leads; apply hushed_mapping|..].
  2: by intros t e ?.
  2: by intros t s ?.
  intros t [error|[]] Ht.
  - apply leads_described; [apply telling_recovery_state|]. intros t' s Ht'. apply removal_not_undone.
    rewrite renames_app, Ht', app_nil_r. done.
  - apply attempted_bind; [apply hushed_rescan|]. intros t1 rescanned Ht1 _.
    apply attempted_bind; [apply hushed_restored|]. intros t2 verified Ht2 Hverified.
    apply leads_give. rewrite app_nil_r.
    assert (renames (t ++ t1) = [(Restoration id, true)]) as Hboth by by rewrite renames_app, Ht, Ht1.
    rewrite app_assoc. destruct verified as [error|[]]; [|destruct rescanned as [error|[]]].
    + apply removal_undone_unproved. by rewrite renames_app, Hboth, Ht2.
    + apply removal_not_undone. right. exists true. by rewrite renames_app, Hboth, Ht2.
    + by apply removal_undone.
Qed.

(** The rename into the quarantine and the look at what was moved. *)
Lemma quarantine_leads pinned :
  leads (quarantine_pinned_target pinned id) (λ t r,
    match r with
    | Ok _ => ∃ t1, t = quarantines id None :: t1 ∧ renames t1 = []
    | Err (AtomicRemoval _) => (∃ e, t = [quarantines id (Some e)]) ∨
        ∃ t1, t = quarantines id None :: t1 ∧
          (renames t1 = [] ∨ ∃ x, renames t1 = [(Restoration id, x)])
    | _ => False
    end).
Proof.
  unfold quarantine_pinned_target. apply asked_bind. intros [e|].
  { intros t r [-> ->]. left. by exists e. }
  cbn [must_open map_err]. rewrite give_bind.
  eapply leads_bind; [apply wrapped_leads, hushed_opened|..].
  - intros t moved [Ht _]. case_bool_decide as Hmoved; cbn [negb].
    { intros t' r [-> ->]. exists t. by rewrite app_nil_r. }
    eapply leads_bind; [apply attempt_leads, restoring_leads; apply hushed_mapping|..].
    2: by intros t' e ?.
    2: by intros t' s ?.
    intros t1 restored Ht1 t' r [-> ->]. right. exists (t ++ t1). rewrite app_nil_r, renames_app, Ht.
    split; [done|]. destruct restored as [e|[]]; [exact Ht1|right; by exists true].
  - intros t e [Ht [e' ->]]. right. eauto.
  - by intros t s [_ ?].
Qed.

Lemma settled_removal_quiet manifest pinned t t' r :
  renames t = [] → settled_removal manifest pinned None t' r → settled_removal manifest pinned None (t ++ t') r.
Proof.
  intros Ht Hs. inversion Hs as [|? ? Ht'|t1 tv o ? ? ? ? ?|? ? Ht'|? ? Ht'|? ? Ht'|t1 tv ? Ht']; subst.
  - apply removal_misplaced. by rewrite renames_app, Ht.
  - rewrite app_assoc. apply removal_quarantined; auto using renames_nil.
  - apply removal_unproved. by apply renames_nil.
  - apply removal_not_undone. by rewrite renames_app, Ht.
  - apply removal_undone_unproved. by rewrite renames_app, Ht.
  - rewrite app_assoc. apply removal_undone; [by rewrite renames_app, Ht|done].
Qed.

Lemma removes_leads : leads (uninstall_with_commands id directory shell) removes.
Proof.
  unfold uninstall_with_commands.
  eapply (leads_bind _ _ (λ t r, runs (prepare_removal id directory shell) t r)); [by intros t r|..].
  - intros t0 [manifest pinned] Hp. destruct (observes_quiet _ _ _ _ (observes_prepare_removal id directory shell) Hp)
      as [Ht0 _].
    eapply leads_bind; [apply quarantine_leads|..].
    + intros t1 [] (t1' & -> & Ht1).
      eapply leads_mono.
      2: { intros t r H. right. exists t0, manifest, pinned, None, (t1' ++ t). split_and!; [|done|done|exact H].
           done. }
      apply attempted_bind; [apply hushed_rescan|]. intros t2 [error|[]] Ht2 _.
      * eapply leads_mono; [apply (undo_removal_leads manifest)|]. intros t r H.
        rewrite app_assoc. apply settled_removal_quiet; [by apply renames_nil|exact H].
      * eapply (leads_bind _ _ (λ t r, runs (verify_retained_quarantine pinned directory id) t r));
          [by intros t r|..].
        -- intros t [] Hv t' r [-> ->]. rewrite app_nil_r, app_assoc.
           by apply removal_quarantined; [apply renames_nil|..].
        -- intros t e Hv. destruct (observes_quiet _ _ _ _ (observes_retained pinned directory id) Hv) as [Ht He].
           destruct (He e eq_refl) as [s ->]. rewrite app_assoc. apply removal_unproved. auto using renames_nil.
        -- intros t s Hv. by apply steady_retained in Hv.
    + intros t1 e Ht1. right. destruct e; try done.
      destruct Ht1 as [[e ->]|(t1' & -> & Ht1)]; eexists t0, manifest, pinned, _, _; (split; [done|]);
        (split_and!; [done|done|]); [apply removal_refused|by apply removal_misplaced].
    + done.
  - intros t e Hr. left.
    destruct (observes_quiet _ _ _ _ (observes_prepare_removal id directory shell) Hr) as [Ht He]. eauto.
  - intros t s Hr. by apply steady_prepare_removal in Hr.
Qed.

(** ** What a removal moves *)

Definition live_path : string := path_join directory id.

(** A manifest and a receipt were read below the plugin, they are valid, agree
    and name the plugin. *)
Definition managed_plugin (t : list (Event Answer)) (manifest : OmarchyManifest) : Prop :=
  ∃ bs bs' receipt,
    occurs (ReadFile (path_join live_path "manifest.json")) (inr bs) ∈ t ∧
    parse_installed_manifest bs = Ok manifest ∧
    occurs (ReadFile (path_join live_path INSTALL_RECEIPT_NAME)) (inr bs') ∈ t ∧
    parse_receipt (path_join live_path INSTALL_RECEIPT_NAME) bs' = Ok receipt ∧
    om_id manifest = id ∧ ir_plugin_id receipt = id ∧ ir_version receipt = om_version manifest.

(** The configuration that the shell would use is what was read: the user's, or
    the default when there is none. *)
Definition configuration_read (files : ShellFiles) (bs : bytes) : Prop :=
  ∃ omarchy_directory, path_parent directory = Some omarchy_directory ∧
    let read := read_shell_configuration files omarchy_directory (omarchy_directory +:+ "/shell.json") in
    read = Ok (Some bs) ∨
    (read = Ok None ∧ read_default_shell_configuration files DEFAULT_SHELL_CONFIG = Ok bs).

Lemma unreferenced_Ok files u :
  reject_referenced_removal files (path_parent directory) id = Ok u →
  ∃ bs root, configuration_read files bs ∧ value_from_slice bs = inr (VObject root) ∧ ¬ enables root id.
Proof.
  unfold reject_referenced_removal. intros H.
  destruct (reject_stale_enabled_configuration files (path_parent directory) id) as [u'|[]|s] eqn:E; try done.
  clear H u. unfold reject_stale_enabled_configuration in E. unbind E as observed Ho. destruct u'.
  apply reject_if_Ok, bool_decide_eq_false in E.
  unfold observe_plugin_reference in Ho. apply seq_Ok in Ho as [_ Ho]. unbind Ho as omarchy Hd.
  apply ok_or_Ok in Hd. unbind Ho as user Hu. unbind Ho as read Hr. destruct read as [[bs path] source].
  unfold parse_reference_observation in Ho. unbind Ho as config Hc. apply map_err_Ok in Hc.
  apply seq_Ok in Ho as [Hobj Ho]. unbind Ho as referenced Href. injection Ho as <-.
  apply reject_if_Ok, orb_false_iff in Hobj as [Hobj _]. destruct config as [| | | | |root]; try done.
  exists bs, root. split_and!.
  - exists omarchy. split; [done|]. destruct user as [bs'|].
    + left. by injection Hr as ->.
    + right. unbind Hr as bs' Hbs. by injection Hr as ->.
  - by destruct (value_from_slice bs) as [|?]; simplify_eq/=.
  - pose proof (reference_search_is_right root id) as Hs. rewrite Href in Hs. by destruct referenced.
Qed.

Lemma read_bytes_Ok path t bs : runs (read_bytes path) t (Ok bs) → t = [occurs (ReadFile path) (inr bs)].
Proof.
  unfold read_bytes. intros H. saw H answer. apply runs_give in H as [-> H]. apply map_err_Ok in H.
  by destruct answer; simplify_eq/=.
Qed.

Lemma read_installed_manifest_Ok plugin t manifest :
  runs (read_installed_manifest plugin) t (Ok manifest) →
  ∃ bs, occurs (ReadFile (path_join plugin "manifest.json")) (inr bs) ∈ t ∧ parse_installed_manifest bs = Ok manifest.
Proof.
  unfold read_installed_manifest. intros H. saw H md. gave H md' Hmd. went H as t1 u1 H1. went H as t2 u2 H2.
  went H as t3 bs H3. apply read_bytes_Ok in H3 as ->. apply runs_give in H as [-> H].
  exists bs. split; [|done]. rewrite !elem_of_app. right. right. right. right. left. by left.
Qed.

Lemma read_receipt_Ok plugin t receipt :
  runs (read_install_receipt plugin) t (Ok receipt) →
  ∃ bs, occurs (ReadFile (path_join plugin INSTALL_RECEIPT_NAME)) (inr bs) ∈ t ∧
    parse_receipt (path_join plugin INSTALL_RECEIPT_NAME) bs = Ok receipt.
Proof.
  unfold read_install_receipt. cbv zeta. intros H. saw H md. gave H md' Hmd. went H as t1 u1 H1. went H as t2 u2 H2.
  went H as t3 bs H3. apply read_bytes_Ok in H3 as ->. apply runs_give in H as [-> H].
  exists bs. split; [|done]. rewrite !elem_of_app. right. right. right. right. left. by left.
Qed.

(** No [.git] was found. *)
Lemma git_target_Ok path t u :
  runs (reject_git_managed_target path) t (Ok u) →
  ∃ e, t = [occurs (SymlinkMetadata (path_join path ".git")) (inl e)] ∧ io_kind e = NotFound.
Proof.
  unfold reject_git_managed_target. cbv zeta. intros H. saw H md. apply runs_give in H as [-> H].
  destruct md as [e|md]; [|done]. exists e. split; [done|]. by case_bool_decide.
Qed.

Lemma prepare_removal_Ok t manifest pinned :
  runs (prepare_removal id directory shell) t (Ok (manifest, pinned)) →
  managed_plugin t manifest ∧
  ∃ t' files bs root e,
    t = t' ++ [occurs ReadShellConfiguration files; occurs (SymlinkMetadata (path_join live_path ".git")) (inl e)] ∧
    configuration_read files bs ∧ value_from_slice bs = inr (VObject root) ∧ ¬ enables root id ∧
    io_kind e = NotFound.
Proof.
  unfold prepare_removal. cbv zeta. intros H.
  went H as t1 u1 H1. gave H u2 Hid. went H as t3 u3 H3. went H as t4 identity H4. went H as t5 u5 H5.
  went H as t6 manifest' Hm. went H as t7 receipt Hr. gave H u8 Hstate. went H as t9 u9 Hsame.
  apply runs_refuse_if in Hsame as [-> Hsame]. apply negb_false_iff, bool_decide_eq_true in Hsame.
  went H as t10 u10 H10. went H as t11 pinned' H11. went H as t12 u12 Href. went H as t13 u13 Hgit.
  destruct H as [-> [= -> ->]]. destruct u8.
  apply read_installed_manifest_Ok in Hm as (bs & Hbs & Hm). apply read_receipt_Ok in Hr as (bs' & Hbs' & Hr).
  unfold validate_installed_state in Hstate. apply reject_if_Ok, orb_false_iff in Hstate as [Hi Hv].
  apply negb_false_iff, bool_decide_eq_true in Hi, Hv.
  unfold reject_referenced in Href. saw Href files. apply runs_give in Href as [-> Href].
  apply unreferenced_Ok in Href as (cfg & root & Hread & Hparse & Hno).
  apply git_target_Ok in Hgit as (e & -> & He). cbn [app]. split.
  - exists bs, bs', receipt. split_and!; try done; [..|congruence]; rewrite !elem_of_app; tauto.
  - exists (t1 ++ t3 ++ t4 ++ t5 ++ t6 ++ t7 ++ t10 ++ t11), files, cfg, root, e.
    split_and!; try done. by rewrite <- !app_assoc.
Qed.

(** ** What the outcome tells *)

(** What was pinned before anything was moved: the plugin at its live name and
    path, the plugins directory, and the quarantine. *)
Definition found_target (t : list (Event Answer)) (quarantine_path quarantine_name : string)
    (target quarantine plugins : TargetIdentity) : Prop :=
  found_path t live_path target ∧ found_name t Plugins id target ∧ found_descriptor t Plugins plugins ∧
  file_name quarantine_path = Some quarantine_name ∧ found_path t quarantine_path quarantine ∧
  found_name t Plugins quarantine_name quarantine.

(** The plugin is in its private quarantine, and nothing is at its live name. *)
Definition found_quarantined (t : list (Event Answer)) (quarantine_name : string)
    (target quarantine plugins : TargetIdentity) : Prop :=
  looked t ∧ found_private t Quarantine ∧ found_descriptor t Quarantined target ∧
  found_descriptor t Target target ∧ found_name t Quarantine "plugin" target ∧
  found_name t Plugins quarantine_name quarantine ∧ found_path t directory plugins ∧
  found_nothing t Plugins id.

(** The plugin is back at its live name and path, and the quarantine is empty. *)
Definition found_restored (t : list (Event Answer)) (quarantine_name : string)
    (target quarantine plugins : TargetIdentity) : Prop :=
  looked t ∧ found_name t Plugins id target ∧ found_path t live_path target ∧
  found_nothing t Quarantine "plugin" ∧ found_name t Plugins quarantine_name quarantine ∧
  found_path t directory plugins.

(** The plugin that was pinned first was found like this at the end. *)
Definition ends_at (quarantine_path : string)
    (looks : list (Event Answer) → string → TargetIdentity → TargetIdentity → TargetIdentity → Prop)
    (t : list (Event Answer)) : Prop :=
  ∃ t' tv name target quarantine plugins, t = t' ++ tv ∧
    found_target t' quarantine_path name target quarantine plugins ∧ looks tv name target quarantine plugins.

(** The renames that an outcome stands for, and the last looks that back it. *)
Definition truthful_removal (t : list (Event Answer)) (r : result OmarchyError UninstallOutcome) : Prop :=
  match r with
  | Ok outcome =>
      renames t = [(Removal id, true)] ∧ un_plugin_id outcome = id ∧
      ends_at (un_recovery_quarantine outcome) found_quarantined t
  | Err (RemovalRolledBack _) =>
      renames t = [(Removal id, true); (Restoration id, true)] ∧
      ∃ quarantine_path, ends_at quarantine_path found_restored t
  | Err (RemovalRollbackFailed _) =>
      renames t = [(Removal id, true)] ∨ ∃ x, renames t = [(Removal id, true); (Restoration id, x)]
  | Err (RemovalStateIndeterminate _) =>
      renames t = [(Removal id, true)] ∨ renames t = [(Removal id, true); (Restoration id, true)]
  | Err (AtomicRemoval _) =>
      renames t = [] ∨ (∃ x, renames t = [(Removal id, x)]) ∨
      ∃ x, renames t = [(Removal id, true); (Restoration id, x)]
  | Err _ => renames t = []
  | Panic _ => False
  end.

Lemma quarantined_found pinned t u :
  runs (verify_retained_quarantine pinned directory id) t (Ok u) →
  found_quarantined t (pr_quarantine_name pinned) (pr_target_identity pinned) (pr_quarantine_identity pinned)
    (pr_plugins_identity pinned).
Proof.
  unfold verify_retained_quarantine. cbv zeta. intros H. went H as t1 u1 H1. noticed H1.
  went H as t2 changed H2. went H as t3 u3 H3. apply runs_refuse_if in H3 as [-> ->].
  apply runs_map_error, any_differs_Ok in H2. noticed_each H2. noticing H. cbn [app].
  split; [looking|]. split_and!; [shown..|]. eexists. in_trace.
Qed.

Lemma restored_found pinned t u :
  runs (verify_restored_target pinned directory id) t (Ok u) →
  found_restored t (pr_quarantine_name pinned) (pr_target_identity pinned) (pr_quarantine_identity pinned)
    (pr_plugins_identity pinned).
Proof.
  unfold verify_restored_target. intros H. noticing H. cbn [app]. split; [looking|].
  split_and!; [shown|shown|eexists; in_trace|shown|shown].
Qed.

Lemma found_target_mono t t' path name target quarantine plugins :
  (∀ e, e ∈ t → e ∈ t') → found_target t path name target quarantine plugins →
  found_target t' path name target quarantine plugins.
Proof. unfold found_target, found_path, found_name, found_descriptor. intros Hsub. naive_solver. Qed.

(** What pinning finds, after the plugin was found at its path. *)
Lemma pinned_removal_found expected t pinned :
  runs (prepare_pinned_removal directory id live_path expected) t (Ok pinned) →
  ∀ t0, found_path t0 live_path expected →
  found_target (t0 ++ t) (pr_quarantine_path pinned) (pr_quarantine_name pinned) (pr_target_identity pinned)
    (pr_quarantine_identity pinned) (pr_plugins_identity pinned).
Proof.
  unfold prepare_pinned_removal. intros H t0 H0. saw H o. gave H u1 Ho. went H as v1 plugins Hx. noticed Hx.
  apply same_Ok in H as (v1 & v2 & -> & Hx & H). noticed Hx.
  apply same_Ok in H as (v1 & v3 & -> & Hx & H). noticed Hx.
  went H as v6 path _. went H as v2 path_identity Hx. noticed Hx. gave H name Hname. apply ok_or_Ok in Hname.
  apply same_Ok in H as (v2 & v4 & -> & Hx & H). noticed Hx. went H as v2 u2 Hx. noticed Hx.
  apply same_Ok in H as (v2 & v5 & -> & Hx & H). noticed Hx. destruct H as [-> [= ->]].
  cbn [pr_quarantine_path pr_quarantine_name pr_target_identity pr_quarantine_identity pr_plugins_identity].
  cbn [app]. split_and!; [|..|exact Hname| |].
  1: destruct H0 as (md & Hin & Hmd); exists md; split; [apply elem_of_app; by left|done].
  all: eexists; (split; [rewrite ?elem_of_app, ?elem_of_cons, ?elem_of_app, ?elem_of_cons; eauto 20|done]).
Qed.

Lemma prepare_removal_found t manifest pinned :
  runs (prepare_removal id directory shell) t (Ok (manifest, pinned)) →
  found_target t (pr_quarantine_path pinned) (pr_quarantine_name pinned) (pr_target_identity pinned)
    (pr_quarantine_identity pinned) (pr_plugins_identity pinned).
Proof.
  unfold prepare_removal. cbv zeta. intros H.
  went H as t1 u1 H1. gave H u2 Hid. went H as t3 u3 H3. went H as t4 identity H4. went H as t5 u5 H5.
  went H as t6 manifest' Hm. went H as t7 receipt Hr. gave H u8 Hstate. went H as t9 u9 Hsame.
  went H as t10 u10 H10. went H as t11 pinned' H11. went H as t12 u12 H12. went H as t13 u13 H13.
  destruct H as [-> [= -> ->]]. apply path_identity_Ok in H4 as (md & -> & Hmd).
  apply (λ H, pinned_removal_found _ _ _ H [occurs (SymlinkMetadata live_path) (inr md)]) in H11;
    [|exists md; split; [by left|exact Hmd]].
  eapply found_target_mono; [|exact H11]. intros e. rewrite !elem_of_app. tauto.
Qed.

(** C12: the outcome of a removal tells what was renamed, and the last looks at
    the file system back it. A success moved the plugin it names into the
    quarantine that it reports; at the end, with only looks after it, there is
    nothing at the plugin's live name, and the private quarantine holds the
    directory that had been found at that name and path before anything was moved.
    A removal that was rolled back moved the plugin there and back, and at the end
    its live name and its path open that directory again, with nothing in the
    quarantine. The other errors tell what can have been renamed: one that the
    state is not known, a move into the quarantine, with or without the move back;
    one that the rollback failed, a move with at most an attempt to move back; an
    atomic removal that failed, nothing, a move that was refused or whose result
    could not be verified, or a move of another entry and the attempt to move that
    back. All others left no rename behind, and a removal never panics. *)
Theorem removal_outcome_is_truthful t r :
  runs (uninstall_with_commands id directory shell) t r → truthful_removal t r.
Proof.
  intros [[Ht (e & -> & He)]|(t0 & manifest & pinned & x & t1 & -> & Ht0 & Hp & Hs)]%removes_leads.
  { destruct e; cbn; try done; auto. }
  pose proof (prepare_removal_found _ _ _ Hp) as Hfound.
  apply prepare_removal_Ok in Hp as [(? & ? & ? & _ & _ & _ & _ & Hid & _) _].
  assert (∀ y t', renames (t0 ++ quarantines id y :: t') =
    (Removal id, if y is None then true else false) :: renames t') as Hren.
  { intros y t'. by rewrite renames_app, Ht0, renames_quarantines. }
  assert (∀ t' tv (looks : _ → _ → _ → _ → _ → Prop), looks tv (pr_quarantine_name pinned)
      (pr_target_identity pinned) (pr_quarantine_identity pinned) (pr_plugins_identity pinned) →
    ends_at (pr_quarantine_path pinned) looks (t0 ++ quarantines id None :: t' ++ tv)) as Hends.
  { intros t' tv looks Hl. eexists (t0 ++ quarantines id None :: t'), tv, _, _, _, _.
    split; [by rewrite <- app_assoc|]. split; [|exact Hl].
    eapply found_target_mono; [|exact Hfound]. intros e He. apply elem_of_app. by left. }
  inversion Hs; subst x t1 r; cbn [truthful_removal]; rewrite ?Hren, ?renames_app.
  - right. left. by exists false.
  - right. destruct H as [->|[x ->]]; [left|right]; eauto.
  - rewrite H, (proj1 (observes_quiet _ _ _ _ (observes_retained pinned directory _) H0)).
    split_and!; [done|congruence|]. rewrite H3. by apply Hends, quarantined_found with tt.
  - left. by rewrite H.
  - destruct H as [->|[x ->]]; [left|right]; eauto.
  - right. by rewrite H.
  - rewrite H, (proj1 (hushed_restored _ _ _ H0)). split; [done|].
    exists (pr_quarantine_path pinned). by apply Hends, restored_found with tt.
Qed.

(** C9: a removal moves only a plugin that is managed and not in use. The first
    thing it renames, whatever follows, is the plugin it was asked to remove;
    by then the manifest and the receipt of the plugin were read, are valid,
    agree and name it; and the last two things it looked at are the configuration
    of the shell, which enables the plugin at none of its places, and that the
    plugin is no working copy of git. *)
Theorem removed_plugin_is_managed_and_unreferenced t r t1 e t2 m :
  runs (uninstall_with_commands id directory shell) t r → t = t1 ++ e :: t2 → renames t1 = [] →
  movement_of e = Some m →
  m.1 = Removal id ∧ (∃ manifest, managed_plugin t1 manifest) ∧
  ∃ t0 files bs root err,
    t1 = t0 ++ [occurs ReadShellConfiguration files; occurs (SymlinkMetadata (path_join live_path ".git")) (inl err)] ∧
    configuration_read files bs ∧ value_from_slice bs = inr (VObject root) ∧ ¬ enables root id ∧
    io_kind err = NotFound.
Proof.
  intros Hrun Ht H1 He. apply removes_leads in Hrun.
  assert (renames t ≠ []) as Hr.
  { rewrite Ht, renames_app. unfold renames at 2. cbn. rewrite He. by destruct (renames t1). }
  destruct Hrun as [[? _]|(u0 & manifest & pinned & x & u1 & Heq & Hu0 & Hp & _)]; [done|].
  rewrite Heq in Ht.
  destruct (first_rename _ _ _ _ _ _ Ht) as (<- & <- & _); [done|done|by destruct x|by rewrite He|].
  apply prepare_removal_Ok in Hp as [Hm Hq]. split_and!; [|eauto|done].
  by destruct x; injection He as <-.
Qed.

End removal.
