(* ===== verification/UpdateProtocol.v ===== *)
(** * The protocol of an update

    An update exchanges the installed release for the candidate only inside an
    authorization of the store, directly after both were pinned and checked; what
    follows ends in a layout that was checked or in an error that says that it
    was not. What is exchanged in is the signed package, and what is exchanged
    out is an older release of the same persona. *)

From stdpp Require Import base numbers list strings pretty sorting option gmap.
From Stdlib Require Import Strings.Byte Ascii.
From S2P Require Import Prelude Text Ordered Display Crates Io ArtifactProof Continuity RecoveryPolicy RecoveryChain.
From S2P Require Import Names Fields IpcProtocol Transport StoreTypes StoreCommon Backup BackupVerify Tables StoredKeys.
From S2P Require Import Journal Store Interaction Disk Package PackageArchive PackageFacts PackageTrust ShellReference Installer.
From S2P Require Import Install InstallFacts InstallProtocol Removal Update RemovalProtocol.

Abbreviation exchanges id answer :=
  (occurs (Answer:=Answer) (RenameExchange Recovery "plugin" Plugins id) answer).

Lemma renames_exchanges id x t :
  renames (exchanges id x :: t) = (Exchange id, if x is None then true else false) :: renames t.
Proof. by destruct x. Qed.

(** A check with a described failure. *)
Lemma described_or_else {E F A} (p : installer E A) (d : E → installer F string) (f : E → string → F) :
  hushed p → (∀ e, telling (d e)) →
  leads (or_else p (λ e, state ← d e; give (Err (f e state)))) (λ t r,
    match r with
    | Ok a => runs p t (Ok a)
    | Err e => renames t = [] ∧ ∃ e' s, e = f e' s
    | Panic _ => False
    end).
Proof.
  intros Hp Hd. unfold or_else. apply attempted_bind; [done|]. intros t [e|a] Ht Hrun.
  - apply leads_described; [apply Hd|]. intros t' s Ht'. split; [by apply renames_nil|eauto].
  - intros t' r [-> ->]. by rewrite app_nil_r.
Qed.

Section update.
Context {crates : Crates} {uuids : Uuids} {materializations : Materializations}
  {json_root_proof : Serde PersonaRootProof} {json_policy_proof : Serde RecoveryPolicyProof}
  {json_transition_proof : Serde PersonaTransitionProof}
  {json_recovery_proof : Serde RecoveryTransitionProof}
  {json_entry : Serde PersonaContinuityTransitionProof}
  {json_terminal_proof : Serde TerminalPersonaRevocationProof}
  {json_archive : Serde BackupContinuityArchive} {json_backup : Serde PersonaBackup}
  {pretty_backup : SerdePretty PersonaBackup}
  {json_root : Serde PersonaRootStatement} {json_transition : Serde PersonaTransitionStatement}
  {json_policy : Serde RecoveryPolicyStatement} {json_recovery : Serde RecoveryTransitionStatement}
  {json_terminal : Serde TerminalPersonaRevocationStatement}
  {json_statement : Serde ArtifactStatement} {json_bundle : Serde ProofBundle}
  {formats : ArchiveFormats} {semver : Semver} {json_manifest : Serde OmarchyManifest}
  {json_receipt : Serde InstallReceipt} {pretty_receipt : SerdePretty InstallReceipt} {texts : ErrorTexts}.

(** An operation inside the authorization of the store. *)
Lemma authorized_leads {E T} (op : installer OmarchyError T) fingerprint label persona
    (Φ : list (Event Answer) → result OmarchyError T → Prop) :
  leads op Φ →
  leads (E:=E) (with_final_publisher_operation (X:=unit) fingerprint label persona (map_error (λ e, (e, tt)) op))
    (λ t r, match r with
    | Ok (Authorized pinned) | Ok (FinalizationFailed pinned _) => ∃ store t' x,
        t = occurs BeginAuthorization (inr store) :: t' ++ [occurs CommitAuthorization x] ∧
        live_publisher store fingerprint label persona ∧ Φ t' (Ok pinned)
    | Ok (OperationFailed e _) => ∃ store t' e',
        t = occurs BeginAuthorization (inr store) :: t' ∧ live_publisher store fingerprint label persona ∧
        Φ t' (Err e') ∧ e = normalize_final_authorization_error e' fingerprint
    | Ok (Refused _) => renames t = []
    | Panic s => renames t = [] ∨ ∃ store t', t = occurs BeginAuthorization (inr store) :: t' ∧ Φ t' (Panic s)
    | Ok CompletedWithoutValue | Err _ => False
    end).
Proof.
  intros Hop. unfold with_final_publisher_operation. apply asked_bind. intros [e|store].
  { by intros t r [-> ->]. }
  destruct (final_publisher_check store fingerprint label persona) as [[]|e|s] eqn:Hcheck;
    [|by intros t r [-> ->]|intros t r [-> ->]; by left].
  apply final_publisher_check_live in Hcheck.
  eapply leads_bind.
  { apply attempt_leads. eapply (leads_handle _ _ Φ (λ t r, match r with
      | Ok a => Φ t (Ok a) | Err (e, _) => Φ t (Err e) | Panic s => Φ t (Panic s) end)); [exact Hop|].
    intros t [a|e|s] Ht t' r [-> ->]; by rewrite app_nil_r. }
  - intros t [[e []]|pinned] Ht.
    + intros t' r [-> ->]. rewrite app_nil_r. by exists store, t, e.
    + apply asked_bind. intros x t' r [-> ->]. destruct x; by eexists store, t, _.
  - done.
  - intros t s Ht. right. by exists store, t.
Qed.

Section pinned.
Context (recovery_path directory id shell : string) (b : UpdateBaselines).

Lemma hushed_pair pinned live recovery phase : hushed (verify_update_pair pinned id live recovery phase).
Proof. eapply hushed_of; [apply observes_pair|apply steady_pair]. Qed.
Lemma hushed_update_layout pinned live recovery : hushed (verify_update_layout pinned directory id live recovery).
Proof. eapply hushed_of; [apply observes_update_layout|apply steady_update_layout]. Qed.
Lemma hushed_tree pinned snapshot phase : hushed (verify_tree pinned snapshot phase).
Proof. eapply hushed_of; [apply observes_verify_tree|apply steady_tree]. Qed.
Lemma hushed_pinning : hushed (prepare_pinned_update directory recovery_path id b).
Proof. eapply hushed_of; [apply observes_prepare_pinned_update|apply steady_prepare_pinned_update]. Qed.
Lemma telling_update_staging {E} i j : telling (E:=E) (describe_retained_update_staging recovery_path directory i j).
Proof. eapply telling_of; [apply observes_describe_update_staging|apply steady_describe_update_staging]. Qed.
Lemma telling_update_root {E} pinned : telling (E:=E) (describe_pinned_update_root pinned).
Proof. eapply telling_of; [apply observes_describe_update_root|apply steady_describe_update_root]. Qed.
Lemma telling_update_recovery {E} pinned prior :
  telling (E:=E) (describe_update_recovery_state pinned directory id prior).
Proof. eapply telling_of; [apply observes_describe_update_recovery|apply steady_describe_update_recovery]. Qed.

(** Both releases were pinned, and then found where they are expected. *)
Definition ready (pinned : PinnedUpdate) (t : list (Event Answer)) : Prop :=
  ∃ t1 t2, t = t1 ++ t2 ∧ runs (prepare_pinned_update directory recovery_path id b) t1 (Ok pinned) ∧
    runs (verify_update_pair pinned id (ub_installed_identity b) (ub_candidate_identity b)
      "before initial exchange") t2 (Ok tt).

Lemma ready_quiet pinned t : ready pinned t → renames t = [].
Proof.
  intros (t1 & t2 & -> & H1 & H2). apply hushed_pinning in H1 as [? _]. apply hushed_pair in H2 as [? _].
  by apply renames_nil.
Qed.

(** What the exchange may do. *)
Definition exchanged (t : list (Event Answer)) (r : result OmarchyError PinnedUpdate) : Prop :=
  match r with
  | Ok pinned => ∃ tv t', t = tv ++ exchanges id None :: t' ∧ renames t' = [] ∧ ready pinned tv
  | Err (UpdateStateIndeterminate _) => renames t = [] ∨
      ∃ pinned tv t', t = tv ++ exchanges id None :: t' ∧ renames t' = [] ∧ ready pinned tv
  | Err (AtomicUpdate _) =>
      ∃ pinned tv e t', t = tv ++ exchanges id (Some e) :: t' ∧ renames t' = [] ∧ ready pinned tv
  | _ => False
  end.

Lemma exchange_leads : leads (retain_and_exchange_update recovery_path directory id b) exchanged.
Proof.
  unfold retain_and_exchange_update.
  eapply leads_bind; [apply described_or_else; [apply hushed_pinning|intros; apply telling_update_staging]|..].
  2: { intros t e [Ht (e' & s & ->)]. by left. }
  2: done.
  intros t1 pinned H1. pose proof (hushed_pinning _ _ H1) as [Ht1 _].
  eapply leads_bind; [apply described_or_else; [apply hushed_pair|intros; apply telling_update_root]|..].
  2: { intros t e [Ht (e' & s & ->)]. left. by apply renames_nil. }
  2: done.
  intros t2 [] H2. assert (ready pinned (t1 ++ t2)) as Hready by by exists t1, t2.
  apply asked_bind. intros [e|].
  - apply leads_failing, leads_described; [apply telling_update_root|]. intros t3 s Ht3.
    eexists. split; [done|]. exists pinned, (t1 ++ t2), e, t3.
    split_and!; [by rewrite <- app_assoc|done|done].
  - rewrite ret_bind.
    eapply leads_bind; [apply described_or_else; [apply hushed_pair|intros; apply telling_update_recovery]|..].
    + intros t3 [] H3. pose proof (hushed_pair _ _ _ _ _ _ H3) as [Ht3 _]. intros t4 r [-> ->].
      exists (t1 ++ t2), t3. rewrite app_nil_r. split_and!; [by rewrite <- app_assoc|done|done].
    + intros t3 e [Ht3 (e' & s & ->)]. right. exists pinned, (t1 ++ t2), t3.
      split_and!; [by rewrite <- app_assoc|done|done].
    + done.
Qed.

(** ** What follows an exchange *)

(** The undoing of an exchange, with the error that it ends in: the error that
    the caller chose says that the prior release was found back in its place. *)
Inductive undone_update (pinned : PinnedUpdate) (rolled_back : string → OmarchyError) :
    list (Event Answer) → OmarchyError → Prop :=
| update_not_undone t s :
    renames t = [] ∨ (∃ x, renames t = [(Exchange id, x)]) →
    undone_update pinned rolled_back t (UpdateRollbackFailed s)
| update_undone_unproved t s :
    renames t = [(Exchange id, true)] → undone_update pinned rolled_back t (UpdateStateIndeterminate s)
| update_undone t tv s :
    renames t = [(Exchange id, true)] →
    runs (verify_update_layout pinned directory id (ub_installed_identity b) (ub_candidate_identity b)) tv (Ok tt) →
    undone_update pinned rolled_back (t ++ tv) (rolled_back s).

Lemma rollback_update_leads pinned :
  leads (rollback_pinned_update pinned id) (λ t r,
    match r with
    | Ok _ => renames t = [(Exchange id, true)]
    | Err _ => renames t = [] ∨ ∃ x, renames t = [(Exchange id, x)]
    | Panic _ => False
    end).
Proof.
  unfold rollback_pinned_update. apply hushed_bind; [apply hushed_pair| |by left]. intros t1 [] Ht1 _.
  apply hushed_bind; [apply hushed_tree| |left; by apply renames_nil]. intros t2 [] Ht2 _.
  apply asked_bind. intros [e|].
  - intros t r [-> ->]. right. exists false. by rewrite !renames_app, Ht1, Ht2, renames_exchanges.
  - cbn [must_open]. rewrite give_bind. eapply leads_mono; [apply hushed_pair|]. intros t r [Ht Hp].
    rewrite !renames_app, Ht1, Ht2, renames_exchanges, Ht. destruct r; [done|right; by exists true|done].
Qed.

Lemma undo_exchange_leads {A} pinned failure back unscanned rolled_back :
  leads (A:=A) (undo_exchange pinned b directory id shell failure back unscanned rolled_back) (λ t r,
    ∃ e, r = Err e ∧ undone_update pinned rolled_back t e).
Proof.
  unfold undo_exchange. cbv zeta. eapply leads_bind; [apply attempt_leads, rollback_update_leads|..].
  2: by intros t e ?.
  2: by intros t s ?.
  intros t [error|[]] Ht.
  - apply leads_described; [apply telling_update_recovery|]. intros t' s Ht'. eexists. split; [done|].
    apply update_not_undone. by rewrite renames_app, Ht', app_nil_r.
  - apply attempted_bind; [apply hushed_rescan|]. intros t1 rescanned Ht1 _.
    assert (renames (t ++ t1) = [(Exchange id, true)]) as Hboth by by rewrite renames_app, Ht, Ht1.
    eapply leads_bind; [apply described_or_else; [apply hushed_update_layout|intros; apply telling_update_recovery]|..].
    + intros t2 [] H2. pose proof (hushed_update_layout _ _ _ _ _ H2) as [Ht2 _]. apply leads_give.
      eexists. split; [done|]. rewrite app_nil_r, app_assoc.
      destruct rescanned as [error|[]]; [|by apply update_undone].
      apply update_not_undone. right. exists true. by rewrite renames_app, Hboth, Ht2.
    + intros t2 e [Ht2 (e' & s & ->)]. eexists. split; [done|]. rewrite app_assoc.
      apply update_undone_unproved. by rewrite renames_app, Hboth, Ht2.
    + done.
Qed.

(** The errors that tell of a rollback. *)
Definition tells_rollback (error : string → OmarchyError) : Prop :=
  ∀ s, ∃ s', error s = UpdateRolledBack s' ∨ error s = UpdateAuthorizationFinalizationFailed s'.

(** What follows a completed exchange. *)
Inductive settled_update (pinned : PinnedUpdate) : list (Event Answer) → result OmarchyError UpdateOutcome → Prop :=
| update_live t tv outcome :
    renames t = [] →
    runs (verify_update_layout pinned directory id (ub_candidate_identity b) (ub_installed_identity b)) tv (Ok tt) →
    up_plugin_id outcome = id → up_previous_release_recovery outcome = pinned_update_recovery_path pinned →
    settled_update pinned (t ++ tv) (Ok outcome)
| update_unknown t s : renames t = [] → settled_update pinned t (Err (UpdateStateIndeterminate s))
| update_taken_back t t' rolled_back e :
    renames t = [] → tells_rollback rolled_back →
    undone_update pinned rolled_back t' e → settled_update pinned (t ++ t') (Err e).
End pinned.

(** ** The whole update *)

Section request.
Context (request : UpdateRequest).

Definition prepared_id (prepared : PreparedUpdate) : string := om_id (pi_manifest (pd_inspection prepared)).

(** The final authorization and what follows it, when something was exchanged. *)
Inductive authorized_exchange (prepared : PreparedUpdate) :
    list (Event Answer) → result OmarchyError UpdateOutcome → Prop :=
| exchange_refused store pinned tv e t s :
    live_publisher store (signer_fingerprint (pd_inspection prepared)) (signer_label (pd_inspection prepared))
      (pd_publisher_persona_id prepared) →
    ready (pd_recovery_path prepared) (rq_plugins_directory request) (prepared_id prepared)
      (pd_baselines prepared) pinned tv → renames t = [] →
    authorized_exchange prepared
      (occurs BeginAuthorization (inr store) :: tv ++ exchanges (prepared_id prepared) (Some e) :: t)
      (Err (AtomicUpdate s))
| exchange_done store pinned tv t r :
    live_publisher store (signer_fingerprint (pd_inspection prepared)) (signer_label (pd_inspection prepared))
      (pd_publisher_persona_id prepared) →
    ready (pd_recovery_path prepared) (rq_plugins_directory request) (prepared_id prepared)
      (pd_baselines prepared) pinned tv →
    settled_update (rq_plugins_directory request) (prepared_id prepared) (pd_baselines prepared) pinned t r →
    authorized_exchange prepared
      (occurs BeginAuthorization (inr store) :: tv ++ exchanges (prepared_id prepared) None :: t) r.

(** Nothing was renamed. *)
Definition unexchanged (t : list (Event Answer)) (r : result OmarchyError UpdateOutcome) : Prop :=
  renames t = [] ∧ match r with Ok _ => False | Err e => early e | Panic _ => True end.

Definition updates (t : list (Event Answer)) (r : result OmarchyError UpdateOutcome) : Prop :=
  unexchanged t r ∨
  ∃ t0 t1 prepared, t = t0 ++ t1 ∧ renames t0 = [] ∧ runs (prepare_update request) t0 (Ok prepared) ∧
    authorized_exchange prepared t1 r.

Lemma undo_unfinished_leads {A} pinned b directory id shell cause :
  leads (A:=A) (undo_unfinished pinned b directory id shell cause) (λ t r, ∃ e rolled_back, r = Err e ∧
    tells_rollback rolled_back ∧ undone_update directory id b pinned rolled_back t e).
Proof.
  eapply leads_mono; [apply undo_exchange_leads|]. intros t r (e & -> & H). eexists e, _.
  split_and!; [done| |exact H]. intros s. eauto.
Qed.

Lemma undo_unscanned_leads {A} pinned b directory id shell error :
  leads (A:=A) (undo_unscanned pinned b directory id shell error) (λ t r, ∃ e rolled_back, r = Err e ∧
    tells_rollback rolled_back ∧ undone_update directory id b pinned rolled_back t e).
Proof.
  eapply leads_mono; [apply undo_exchange_leads|]. intros t r (e & -> & H). eexists e, _.
  split_and!; [done| |exact H]. intros s. eauto.
Qed.

(** From the rescan on. *)
Lemma finish_leads prepared pinned outcome :
  up_plugin_id outcome = prepared_id prepared →
  up_previous_release_recovery outcome = pinned_update_recovery_path pinned →
  let directory := rq_plugins_directory request in
  let id := prepared_id prepared in
  let b := pd_baselines prepared in
  leads (rescanned ← attempt (rescan (rq_omarchy_shell request) InitialRescan);
    match rescanned with
    | inr _ => mret tt
    | inl rescan_error => undo_unscanned pinned b directory id (rq_omarchy_shell request) rescan_error
    end;;
    or_else (verify_update_layout pinned directory id (ub_candidate_identity b) (ub_installed_identity b))
      (λ error,
        state ← describe_update_recovery_state pinned directory id (ub_installed_identity b);
        give (Err (UpdateStateIndeterminate ("final update layout verification failed (" +:+ error +:+
          "); no recursive deletion ran; " +:+ state))));;
    mret outcome) (settled_update directory id b pinned).
Proof.
  intros Hid Hpath directory id b. apply attempted_bind; [apply hushed_rescan|]. intros t [error|[]] Ht _.
  - apply leads_failing. eapply leads_mono; [apply undo_unscanned_leads|].
    intros t' r (e & rolled_back & -> & Hrb & Hu). eexists. split; [done|]. by eapply update_taken_back.
  - rewrite ret_bind. eapply leads_bind;
      [apply described_or_else; [apply hushed_update_layout|intros; apply telling_update_recovery]|..].
    + intros t' [] Hv t2 r [-> ->]. rewrite app_nil_r. by apply update_live.
    + intros t' e [Ht' (e' & s & ->)]. apply update_unknown. by apply renames_nil.
    + done.
Qed.

Lemma settled_update_quiet directory id b pinned t t' r :
  renames t = [] → settled_update directory id b pinned t' r → settled_update directory id b pinned (t ++ t') r.
Proof.
  intros Ht Hs. inversion Hs; subst.
  - rewrite app_assoc. apply update_live; auto using renames_nil.
  - apply update_unknown. auto using renames_nil.
  - rewrite app_assoc. eapply update_taken_back; eauto using renames_nil.
Qed.

Lemma complete_update_leads prepared :
  leads (complete_update request prepared) (λ t r, unexchanged t r ∨ authorized_exchange prepared t r).
Proof.
  unfold complete_update. cbv zeta.
  eapply leads_bind; [apply authorized_leads, exchange_leads|..].
  2: done.
  2: { intros t s [Ht|(store & t' & -> & [])]. by left. }
  intros t [pinned|cause|e captured|pinned cause|] Ht.
  - destruct Ht as (store & t' & x & -> & Hlive & tv & t1 & -> & Ht1 & Hready). rewrite ret_bind.
    eapply leads_mono; [apply finish_leads; done|]. intros t2 r Hs. right. cbn [app].
    rewrite <- !app_assoc. cbn [app].
    apply (exchange_done prepared store pinned tv); [done|done|].
    change (occurs CommitAuthorization x :: t2) with ([occurs (Answer:=Answer) CommitAuthorization x] ++ t2).
    rewrite app_assoc. apply settled_update_quiet; [by apply renames_nil|done].
  - apply leads_failing, leads_described; [apply telling_update_staging|]. intros t' s Ht'.
    eexists. split; [done|]. left. split; [by apply renames_nil|done].
  - apply leads_failing, leads_give. eexists. split; [done|]. rewrite app_nil_r.
    destruct Ht as (store & t' & e' & -> & Hlive & Hex & ->). destruct e'; try done.
    + destruct Hex as (pinned & tv & e & t1 & -> & Ht1 & Hready). right. by eapply exchange_refused.
    + destruct Hex as [Ht|(pinned & tv & t1 & -> & Ht1 & Hready)]; [by left|]. right.
      eapply exchange_done; [done|done|]. by apply update_unknown.
  - destruct Ht as (store & t' & x & -> & Hlive & tv & t1 & -> & Ht1 & Hready). apply leads_failing.
    eapply leads_mono; [apply undo_unfinished_leads|]. intros t2 r (e & rolled_back & -> & Hrb & Hu).
    eexists. split; [done|]. right. cbn [app]. rewrite <- !app_assoc. cbn [app].
    apply (exchange_done prepared store pinned tv); [done|done|].
    change (occurs CommitAuthorization x :: t2) with ([occurs (Answer:=Answer) CommitAuthorization x] ++ t2).
    rewrite app_assoc. eapply update_taken_back; [by apply renames_nil|done|done].
  - done.
Qed.

Lemma updates_leads : leads (update_with_lifecycle request) updates.
Proof.
  unfold update_with_lifecycle.
  eapply (leads_bind _ _ (λ t r, runs (prepare_update request) t r)); [by intros t r|..].
  - intros t0 prepared Hp. destruct (observes_quiet _ _ _ _ (observes_prepare_update request) Hp) as [Ht0 _].
    eapply leads_mono; [apply complete_update_leads|]. intros t1 r [[Ht1 Hr]|He].
    + left. split; [by apply renames_nil|done].
    + right. by exists t0, t1, prepared.
  - intros t e Hp. destruct (observes_quiet _ _ _ _ (observes_prepare_update request) Hp) as [Ht He].
    left. split; [done|]. by apply He.
  - intros t s Hp. destruct (observes_quiet _ _ _ _ (observes_prepare_update request) Hp) as [Ht _].
    by left.
Qed.

(** Pinning keeps the baselines. *)
Lemma pinned_baselines directory path id b t pinned :
  runs (prepare_pinned_update directory path id b) t (Ok pinned) →
  pu_installed_identity pinned = ub_installed_identity b ∧ pu_candidate_identity pinned = ub_candidate_identity b ∧
  pu_installed_snapshot pinned = ub_installed_snapshot b ∧ pu_candidate_snapshot pinned = ub_candidate_snapshot b.
Proof.
  unfold prepare_pinned_update. cbv zeta. intros H.
  repeat (lazymatch type of H with runs (_ ≫= _) _ _ => idtac end;
    let t := fresh "t" in let x := fresh "x" in went H as t x ?).
  by destruct H as [-> [= ->]].
Qed.

(** ** What an update exchanges *)

(** The snapshot has a file with these contents. *)
Definition holds_file (snapshot : UpdateTreeSnapshot) (name : string) (bs : bytes) : Prop :=
  ∃ entry, entry ∈ us_entries snapshot ∧ ue_path entry = [name] ∧ ue_kind entry = TreeFile ∧
    ue_size entry = len bs ∧ ue_sha256 entry = Some (Sha256_digest bs).

(** The release holds a manifest and a receipt that agree, of the plugin, of this
    publisher, and of an older version than the candidate's. *)
Definition older_release (snapshot : UpdateTreeSnapshot) (id persona candidate_version : string) : Prop :=
  ∃ bs bs' manifest receipt path version version',
    holds_file snapshot "manifest.json" bs ∧ parse_installed_manifest bs = Ok manifest ∧
    holds_file snapshot INSTALL_RECEIPT_NAME bs' ∧ parse_receipt path bs' = Ok receipt ∧
    om_id manifest = id ∧ ir_plugin_id receipt = id ∧ ir_version receipt = om_version manifest ∧
    ir_publisher_persona_id receipt = persona ∧
    Version_parse (om_version manifest) = inr version ∧ Version_parse candidate_version = inr version' ∧
    Version_compare version' version = Gt.

Lemma snapshot_file_Ok plugin snapshot name maximum t bs :
  runs (read_update_snapshot_file plugin snapshot name maximum) t (Ok bs) → holds_file snapshot name bs.
Proof.
  unfold read_update_snapshot_file. intros H. gave H expected He. saw H file. apply runs_give in H as [_ H].
  unfold snapshot_baseline in He. unbind He as found Hf. apply ok_or_Ok, find_some in Hf as [Hin Hf].
  apply seq_Ok in He as [_ [= ->]]. apply andb_true_iff in Hf as [Hpath Hkind].
  apply bool_decide_eq_true in Hpath, Hkind.
  unfold check_snapshot_file in H. cbv zeta in H. apply seq_Ok in H as [_ H]. unbind H as before Hb.
  apply seq_Ok in H as [_ H]. unbind H as bs' Hbs. apply seq_Ok in H as [_ H]. unbind H as after Ha.
  apply seq_Ok in H as [Hsame [= ->]]. apply reject_if_Ok in Hsame.
  rewrite !orb_false_iff, !negb_false_iff, !bool_decide_eq_true in Hsame.
  destruct Hsame as [[_ Hsize] Hdigest]. exists expected.
  split_and!; [by apply list_elem_of_In|done|done|done|done].
Qed.

Lemma semantic_version_Ok value version : parse_semantic_version value = Ok version → Version_parse value = inr version.
Proof.
  unfold parse_semantic_version. intros H%map_err_Ok. by destruct (Version_parse value); simplify_eq/=.
Qed.

Lemma installed_release_Ok validator plugin inspection persona t release :
  runs (read_installed_release validator plugin inspection persona) t (Ok release) →
  older_release (rl_snapshot release) (om_id (pi_manifest inspection)) persona
    (om_version (pi_manifest inspection)).
Proof.
  unfold read_installed_release. intros H.
  went H as t1 identity H1. went H as t2 u2 H2. went H as t3 snapshot H3. gave H u4 H4. went H as t5 u5 H5.
  went H as t6 manifest Hm. went H as t7 receipt Hr. gave H u8 Hstate. went H as t9 u9 Hid. went H as t10 u10 Hper.
  gave H u11 Hnew. destruct H as [-> [= ->]]. destruct u8. cbn [rl_snapshot].
  apply runs_refuse_if in Hid as [-> Hid]. apply runs_refuse_if in Hper as [-> Hper].
  apply negb_false_iff, bool_decide_eq_true in Hid, Hper.
  unfold read_update_snapshot_manifest in Hm. went Hm as t12 bs Hbs. apply runs_give in Hm as [_ Hm].
  unfold read_update_snapshot_receipt in Hr. went Hr as t13 bs' Hbs'. apply runs_give in Hr as [_ Hr].
  apply snapshot_file_Ok in Hbs, Hbs'.
  unfold validate_installed_state in Hstate. apply reject_if_Ok, orb_false_iff in Hstate as [Hi Hv].
  apply negb_false_iff, bool_decide_eq_true in Hi, Hv.
  unfold require_newer_version in Hnew. unbind Hnew as v1 Hv1. unbind Hnew as v2 Hv2.
  destruct (Version_compare v2 v1) eqn:Hcmp; try done.
  exists bs, bs', manifest, receipt, (path_join plugin INSTALL_RECEIPT_NAME), v1, v2.
  split_and!; try done; [congruence|by apply semantic_version_Ok..].
Qed.

Lemma prepare_update_Ok t prepared :
  runs (prepare_update request) t (Ok prepared) →
  older_release (ub_installed_snapshot (pd_baselines prepared)) (prepared_id prepared)
    (pd_publisher_persona_id prepared) (om_version (pi_manifest (pd_inspection prepared))) ∧
  signed_content (rq_proof_path request) t (pd_inspection prepared) (pd_publisher_persona_id prepared)
    (ub_candidate_snapshot (pd_baselines prepared)).
Proof.
  unfold prepare_update. cbv zeta. intros H.
  went H as t1 u1 H1. went H as t2 u2 H2. went H as t3 u3 H3. went H as t4 plugins H4. went H as t5 proof Hproof.
  went H as t6 recovery H6. went H as t7 inspected Hi. destruct inspected as [[sealed inspection] persona].
  went H as t8 release Hrel. went H as t9 staged Hstage. went H as t10 u10 H10. went H as t11 identity H11.
  destruct H as [-> [= ->]]. unfold prepared_id. cbn [pd_inspection pd_baselines pd_publisher_persona_id
    ub_installed_snapshot ub_candidate_snapshot].
  apply installed_release_Ok in Hrel. apply stage_plugin_Ok in Hstage as (_ & _ & Hstage).
  pose proof (inspect_staged_Ok _ _ _ _ _ _ _ _ _ Hproof Hi) as Hver.
  split; [done|]. exists sealed. split.
  - eapply verified_package_mono; [|exact Hver]. intros e. rewrite !elem_of_app. tauto.
  - eapply unpacked_package_mono; [|exact Hstage]. intros e. rewrite !elem_of_app. tauto.
Qed.

(** ** Where the releases are *)

(** The releases that are held open are these directories, with these trees. *)
Definition found_releases (t : list (Event Answer)) (candidate installed : TargetIdentity)
    (candidate_tree installed_tree : UpdateTreeSnapshot) : Prop :=
  found_descriptor t Candidate candidate ∧ found_descriptor t Installed installed ∧
  scanned t Candidate candidate_tree ∧ scanned t Installed installed_tree.

(** The one is at the live name, the other in the recovery directory. *)
Definition found_pair (t : list (Event Answer)) (id : string) (live recovery : TargetIdentity) : Prop :=
  found_name t Plugins id live ∧ found_name t Recovery "plugin" recovery.

(** So do the paths say, and the recovery directory is private. *)
Definition found_places (t : list (Event Answer)) (id recovery_child : string)
    (live recovery : TargetIdentity) : Prop :=
  found_pair t id live recovery ∧ found_path t (path_join (rq_plugins_directory request) id) live ∧
  found_path t recovery_child recovery ∧ found_private t Recovery.

Lemma update_layout_found pinned id live recovery t u :
  runs (verify_update_layout pinned (rq_plugins_directory request) id live recovery) t (Ok u) →
  looked t ∧
  found_releases t (pu_candidate_identity pinned) (pu_installed_identity pinned) (pu_candidate_snapshot pinned)
    (pu_installed_snapshot pinned) ∧
  found_places t id (pinned_update_recovery_path pinned) live recovery.
Proof.
  unfold verify_update_layout, verify_update_pair. intros H. went H as t1 u1 H1. noticing H1. noticing H.
  cbn [app]. split; [looking|]. split; [split_and!; shown|]. split; [split; shown|]. split_and!; shown.
Qed.

(** The trees that are scanned while the releases are pinned. *)
Lemma pinning_scanned directory path id b t pinned :
  runs (prepare_pinned_update directory path id b) t (Ok pinned) →
  scanned t Candidate (ub_candidate_snapshot b) ∧ scanned t Installed (ub_installed_snapshot b).
Proof.
  unfold prepare_pinned_update. cbv zeta. intros H.
  went H as v1 x1 H1. went H as v2 x2 H2. went H as v3 x3 H3. went H as v4 x4 H4. went H as v5 x5 H5.
  went H as v6 x6 H6. went H as v7 x7 H7. went H as v8 x8 H8. went H as v9 x9 H9. went H as v10 x10 H10.
  went H as v11 x11 H11. went H as v12 x12 H12. went H as v13 x13 H13. went H as v14 x14 H14. clear H.
  apply runs_map_error, verify_tree_Ok in H13 as (scan & -> & Hi), H14 as (scan' & -> & Hc).
  split; eexists; (split; [|done]); rewrite !elem_of_app, !list_elem_of_singleton; tauto.
Qed.

Lemma ready_found path directory id b pinned t :
  ready path directory id b pinned t →
  observed t ∧
  found_releases t (ub_candidate_identity b) (ub_installed_identity b) (ub_candidate_snapshot b)
    (ub_installed_snapshot b) ∧
  found_pair t id (ub_installed_identity b) (ub_candidate_identity b).
Proof.
  intros (t1 & t2 & -> & H1 & H2). split.
  { apply Forall_app. split; [by eapply observes_prepare_pinned_update|by eapply observes_pair]. }
  pose proof (pinned_baselines _ _ _ _ _ _ H1) as (Hi & Hc & _).
  apply pinning_scanned in H1 as [(scan & Hin & Hs) (scan' & Hin' & Hs')].
  unfold verify_update_pair in H2. noticing H2. rewrite Hi, Hc in *. cbn [app].
  assert (∀ e t2', e ∈ t2' → e ∈ t1 ++ t2') as Hsub by (intros; apply elem_of_app; by right).
  split; split_and!; eexists; (split; [first [apply elem_of_app; left; eassumption|apply Hsub; in_trace]|done]).
Qed.

(** The package that was verified and unpacked is a newer release, by the same
    persona, than the installed one. *)
Definition newer_release (t : list (Event Answer)) (inspection : PluginInspection) (persona : string)
    (candidate_tree installed_tree : UpdateTreeSnapshot) : Prop :=
  signed_content (rq_proof_path request) t inspection persona candidate_tree ∧
  older_release installed_tree (om_id (pi_manifest inspection)) persona (om_version (pi_manifest inspection)).

(** ** What the outcome tells *)

(** The renames that an outcome stands for, and the last looks that back it, at
    releases whose trees are such [releases]. *)
Definition told_update (releases : string → UpdateTreeSnapshot → UpdateTreeSnapshot → Prop)
    (t : list (Event Answer)) (r : result OmarchyError UpdateOutcome) : Prop :=
  match r with
  | Ok outcome =>
      renames t = [(Exchange (up_plugin_id outcome), true)] ∧
      ∃ candidate installed candidate_tree installed_tree,
        releases (up_plugin_id outcome) candidate_tree installed_tree ∧
        ends_with (λ tv, looked tv ∧ found_releases tv candidate installed candidate_tree installed_tree ∧
          found_places tv (up_plugin_id outcome) (up_previous_release_recovery outcome) candidate installed) t
  | Err (UpdateRolledBack _) | Err (UpdateAuthorizationFinalizationFailed _) =>
      ∃ id, renames t = [(Exchange id, true); (Exchange id, true)] ∧
      ∃ recovery_child candidate installed candidate_tree installed_tree,
        releases id candidate_tree installed_tree ∧
        ends_with (λ tv, looked tv ∧ found_releases tv candidate installed candidate_tree installed_tree ∧
          found_places tv id recovery_child installed candidate) t
  | Err (UpdateRollbackFailed _) =>
      ∃ id, renames t = [(Exchange id, true)] ∨ ∃ x, renames t = [(Exchange id, true); (Exchange id, x)]
  | Err (UpdateStateIndeterminate _) =>
      renames t = [] ∨
      ∃ id, renames t = [(Exchange id, true)] ∨ renames t = [(Exchange id, true); (Exchange id, true)]
  | Err (AtomicUpdate _) => ∃ id, renames t = [(Exchange id, false)]
  | Err _ | Panic _ => renames t = []
  end.

Definition truthful_update (t : list (Event Answer)) (r : result OmarchyError UpdateOutcome) : Prop :=
  told_update (λ id candidate_tree installed_tree, ∃ inspection persona,
    id = om_id (pi_manifest inspection) ∧ newer_release t inspection persona candidate_tree installed_tree) t r.

Lemma told_update_app releases t t' r :
  renames t = [] → told_update releases t' r → told_update releases (t ++ t') r.
Proof.
  intros Ht. destruct r as [o|e|s]; [|destruct e|]; cbn; rewrite ?renames_app, ?Ht; try done;
    naive_solver eauto using ends_with_app.
Qed.

Lemma unexchanged_told releases t r : unexchanged t r → told_update releases t r.
Proof. intros [Ht Hr]. destruct r as [o|e|s]; [done| |done]. destruct e; cbn; try done; auto. Qed.

Lemma settled_update_told (releases : string → UpdateTreeSnapshot → UpdateTreeSnapshot → Prop)
    path id b pinned tv t r :
  releases id (ub_candidate_snapshot b) (ub_installed_snapshot b) →
  ready path (rq_plugins_directory request) id b pinned tv →
  settled_update (rq_plugins_directory request) id b pinned t r → told_update releases (exchanges id None :: t) r.
Proof.
  intros Hrel (t1 & t2 & _ & Hp & _) Hs. apply pinned_baselines in Hp as (Hi & Hc & Hit & Hct).
  inversion Hs as [u v o Hu Hv Hid Hpath|u s Hu|u u' rolled_back e Hu Hrb Hun]; subst r t; cbn [told_update].
  - rewrite renames_exchanges, renames_app, Hu. rewrite (proj1 (hushed_update_layout _ _ _ _ _ _ _ Hv)).
    apply update_layout_found in Hv. rewrite Hi, Hc, Hit, Hct, <- Hpath, <- Hid in Hv. subst id.
    split; [done|]. eexists _, _, _, _. split; [exact Hrel|].
    by exists (exchanges (up_plugin_id o) None :: u), v.
  - right. exists id. left. by rewrite renames_exchanges, Hu.
  - destruct Hun as [w s Hw|w s Hw|w v s Hw Hv].
    + exists id. rewrite renames_exchanges, renames_app, Hu. destruct Hw as [->|[x ->]]; [by left|right; by exists x].
    + right. exists id. right. by rewrite renames_exchanges, renames_app, Hu, Hw.
    + assert (∃ id', renames (exchanges id None :: u ++ w ++ v) = [(Exchange id', true); (Exchange id', true)] ∧
        ∃ recovery_child candidate installed candidate_tree installed_tree,
          releases id' candidate_tree installed_tree ∧
          ends_with (λ tv, looked tv ∧ found_releases tv candidate installed candidate_tree installed_tree ∧
            found_places tv id' recovery_child installed candidate) (exchanges id None :: u ++ w ++ v)) as H.
      { exists id. rewrite renames_exchanges, !renames_app, Hu, Hw.
        rewrite (proj1 (hushed_update_layout _ _ _ _ _ _ _ Hv)). split; [done|].
        apply update_layout_found in Hv. rewrite Hi, Hc, Hit, Hct in Hv. eexists _, _, _, _, _.
        split; [exact Hrel|]. exists (exchanges id None :: u ++ w), v. split; [|exact Hv].
        cbn [app]. by rewrite <- app_assoc. }
      by destruct (Hrb s) as [s' [->| ->]].
Qed.

(** C11: the outcome of an update tells what was exchanged, and the last looks at
    the file system back it. A success is one exchange, of the plugin it names;
    at the end, with only looks after it, the live name and its path open the
    candidate and the recovery path that is reported opens the prior release, both
    still held open, where the tree of the candidate is that of the verified
    package with its receipt and the tree of the prior release is an older one of
    the same plugin and persona. An update that was rolled back is two exchanges,
    and at the end the two are found the other way round. An exchange that was
    refused left both in place; an error of any other kind, unless it says that the
    state is not known or that the rollback failed, left nothing exchanged. *)
Theorem update_outcome_is_truthful t r :
  runs (update_with_lifecycle request) t r → truthful_update t r.
Proof.
  intros [Hq|(t0 & t1 & prepared & -> & Ht0 & Hp & Ha)]%updates_leads; [by apply unexchanged_told|].
  apply prepare_update_Ok in Hp as [Hold Hsigned].
  assert (∃ inspection persona, prepared_id prepared = om_id (pi_manifest inspection) ∧
    newer_release (t0 ++ t1) inspection persona (ub_candidate_snapshot (pd_baselines prepared))
      (ub_installed_snapshot (pd_baselines prepared))) as Hrel.
  { eexists _, _. split; [done|]. split; [|exact Hold]. eapply signed_content_mono; [|exact Hsigned].
    intros e. rewrite elem_of_app. auto. }
  apply told_update_app; [done|].
  destruct Ha as [store pinned tv e t2 s _ Hready Ht2|store pinned tv t2 r' _ Hready Hs].
  - apply ready_quiet in Hready. exists (prepared_id prepared).
    change (renames (tv ++ exchanges (prepared_id prepared) (Some e) :: t2) = [(Exchange (prepared_id prepared), false)]).
    by rewrite renames_app, Hready, renames_exchanges, Ht2.
  - apply (told_update_app _ (occurs BeginAuthorization (inr store) :: tv)); [|by eapply settled_update_told].
    exact (ready_quiet _ _ _ _ _ _ Hready).
Qed.

(** C8: an update exchanges a release only for a newer one of the same publisher.
    The first thing it renames is an exchange of the plugin that the verified
    manifest names. It does so inside a transaction of the store in which the
    signer of the package is an active key of the publisher's persona, and between
    the start of that transaction and the exchange, without an end of it, it only
    observed: the live name opens the installed release and the recovery directory
    the candidate, both held open; the tree of the candidate is entry for entry
    the package, as it was sealed and its proof verified, with the receipt that was
    written into it; and the tree of the installed release holds a valid manifest
    and receipt of the same plugin, installed for the same persona, with a version
    of lower precedence. *)
Theorem exchanged_release_is_signed_and_newer t r t1 e t2 m :
  runs (update_with_lifecycle request) t r → t = t1 ++ e :: t2 → renames t1 = [] → movement_of e = Some m →
  ∃ inspection persona store u tv candidate installed candidate_tree installed_tree,
    m.1 = Exchange (om_id (pi_manifest inspection)) ∧
    t1 = u ++ occurs BeginAuthorization (inr store) :: tv ∧ observed tv ∧
    live_publisher store (signer_fingerprint inspection) (signer_label inspection) persona ∧
    found_releases tv candidate installed candidate_tree installed_tree ∧
    found_pair tv (om_id (pi_manifest inspection)) installed candidate ∧
    newer_release u inspection persona candidate_tree installed_tree.
Proof.
  intros Hrun Ht H1 He. apply updates_leads in Hrun.
  assert (renames t ≠ []) as Hr.
  { rewrite Ht, renames_app. unfold renames at 2. cbn. rewrite He. by destruct (renames t1). }
  destruct Hrun as [[? _]|(u0 & u1 & prepared & Heq & Hu0 & Hp & Ha)]; [done|].
  assert (∃ store pinned tv x u2, u1 = (occurs BeginAuthorization (inr store) :: tv) ++
      exchanges (prepared_id prepared) x :: u2 ∧
    live_publisher store (signer_fingerprint (pd_inspection prepared)) (signer_label (pd_inspection prepared))
      (pd_publisher_persona_id prepared) ∧
    ready (pd_recovery_path prepared) (rq_plugins_directory request) (prepared_id prepared)
      (pd_baselines prepared) pinned tv) as (store & pinned & tv & x & u2 & -> & Hlive & Hready).
  { destruct Ha as [store pinned tv e' u2 s Hlive Hready _|store pinned tv u2 r' Hlive Hready _];
      by eexists store, pinned, tv, _, u2. }
  rewrite Heq, app_assoc in Ht.
  destruct (first_rename _ _ _ _ _ _ Ht) as (<- & <- & _);
    [by apply renames_nil; [|exact (ready_quiet _ _ _ _ _ _ Hready)]|done|by destruct x|by rewrite He|].
  apply prepare_update_Ok in Hp as [Hold Hsigned]. apply ready_found in Hready as (Hobs & Hfound & Hpair).
  eexists _, _, store, u0, tv, _, _, _, _.
  split_and!; [|done|done|exact Hlive|exact Hfound|exact Hpair|by split].
  by destruct x; injection He as <-.
Qed.

End request.
End update.
