(* ===== verification/InstallWitness.v ===== *)
(** * Witnesses for packages and their installation

    A small package with a manifest, a nested entry point and a data file,
    written in a small archive format. It is inspected and unpacked; signed by
    the key of the persona in the store of [StoreWitness.v], it is installed,
    once with a shell that accepts the plugin and once with a shell that does
    not, so that the exposure is undone. *)

From stdpp Require Import base numbers list strings pretty sorting option gmap relations.
From Stdlib Require Import Strings.Byte Ascii.
From S2P Require Import Prelude Text Ordered Display Crates Io ArtifactProof Names Transport StoreTypes.
From S2P Require Import StoreCommon Instances Witness Disk Package PackageArchive PackageFacts UnpackFacts Continuity RecoveryPolicy.
From S2P Require Import RecoveryChain DaemonWitness TransportWitness StoreWitness Fields IpcProtocol Backup BackupVerify Tables.
From S2P Require Import StoredKeys Journal Store StoreFacts Interaction PackageTrust ShellReference Installer.
From S2P Require Import Install InstallFacts InstallProtocol Removal Update RemovalProtocol UpdateProtocol.

(** ** The formats *)

#[export] Instance codec_OmarchyManifest : Codec OmarchyManifest :=
  codec_via
    (λ m, (om_schema_version m, (om_id m, (om_name m, (om_version m, (om_kinds m,
           (om_entry_points m, om_description m)))))))
    (λ '(schema, (id, (name, (version, (kinds, (entry_points, description)))))),
      Some {| om_schema_version := schema; om_id := id; om_name := name; om_version := version;
              om_kinds := kinds; om_entry_points := entry_points; om_description := description |})
    ltac:(by intros []).
#[export] Instance json_OmarchyManifest : Serde OmarchyManifest := serde_of.

#[export] Instance small_semver : Semver :=
  {| Version := string; Version_parse := inr; Version_compare := String.compare |}.

(** An archive is the list of its files, each with a path and a content; it is
    not compressed, and nothing follows it. *)
Definition small_entry (file : string * string) : IoError + TarEntry :=
  inr {| te_path := inr file.1; te_type := RegularEntry; te_size := str_len file.2; te_mode := inr 420%N;
         te_data := [Data (as_bytes file.2)] |}.
#[export] Instance small_formats : ArchiveFormats := {|
  zstd_decoder := inr;
  tar_entries input :=
    match read_to_end input with
    | inl e => inl e
    | inr bs => match (dec bs : option (list (string * string) * bytes)) with
                | Some (files, _) => inr (small_entry <$> files)
                | None => inl (fault_error "not an archive")
                end
    end;
  tar_into_inner _ := [] |}.

(** ** The package *)

Definition the_manifest : OmarchyManifest :=
  {| om_schema_version := 1; om_id := "ada.clock"; om_name := "Clock"; om_version := "1.0.0";
     om_kinds := ["bar-widget"]; om_entry_points := [("barWidget", "ui/qml/Clock.qml")];
     om_description := None |}.

Definition package_bytes : bytes := Eval vm_compute in
  enc [("manifest.json", String.string_of_list_byte (enc the_manifest)); ("ui/qml/Clock.qml", "Item {}");
       ("README", "A clock.")].

Definition package_metadata : Metadata :=
  {| md_is_symlink := false; md_is_file := true; md_is_dir := false; md_is_socket := false;
     md_len := len package_bytes; md_readonly := false; md_modified := inr 0%Z; md_dev := 1; md_ino := 8;
     md_uid := 0; md_mode := 33152; md_mtime := 0; md_mtime_nsec := 0; md_ctime := 0; md_ctime_nsec := 0 |}.

Definition the_package : PackageFile :=
  {| pf_metadata := inr package_metadata; pf_try_clone := None; pf_seek := None;
     pf_data := [Data package_bytes] |}.

(** A disk with a directory to unpack into. *)
Definition the_disk : Disk := {| dk_nodes := {[ [] := DirNode 493; ["staging"] := DirNode 448 ]}; dk_calls := 0 |}.
Definition the_destination : place := ["plugin"; "staging"].

(** The mask that processes have by default, and a private one. *)
Definition usual_env : DiskEnv := {| umask := 18; disk_fault _ := None |}.
Definition private_env : DiskEnv := {| umask := 63; disk_fault _ := None |}.

Definition unpacked (env : DiskEnv) := extract_archive_file (env:=env) the_package the_destination the_disk.
Definition unpacked_result := Eval vm_compute in ok_get (unpacked usual_env).1 eq_refl.
Definition unpacked_disk := Eval vm_compute in (unpacked usual_env).2.

Lemma disk_closed : closed (dk_nodes the_disk).
Proof.
  intros c p node H. unfold the_disk in H. cbn [dk_nodes] in H.
  apply lookup_insert_Some in H as [[? _]|[_ H]]; [done|].
  apply lookup_singleton_Some in H as [[= <- <-] _]. exists 493%N. reflexivity.
Qed.

Lemma destination_plain : plain the_destination.
Proof. by apply (bool_decide_unpack _). Qed.

(** ** Witnesses *)

Lemma extraction_is_contained_witness :
  dk_nodes (unpacked usual_env).2 !! ["staging"] = Some (DirNode 448) ∧
  closed (dk_nodes (unpacked usual_env).2).
Proof.
  destruct (extraction_is_contained (env:=usual_env) the_package the_destination the_disk destination_plain
    disk_closed)
    as (_ & Hkept & Hclosed).
  split; [by apply Hkept|exact Hclosed].
Defined.

Lemma unpacked_Ok : unpacked usual_env = (Ok unpacked_result, unpacked_disk).
Proof. vm_compute. reflexivity. Qed.

Lemma extraction_matches_inspection_witness :
  inspect_archive_file (env:=usual_env) the_package the_disk =
    (Ok (the_manifest, unpacked_result.1.2), the_disk) ∧
  (∀ entry, entry ∈ em_entries unpacked_result.2 ↔ ∃ node,
    dk_nodes unpacked_disk !! join the_destination (et_path entry) = Some node ∧
    entry = node_entry (et_path entry) node).
Proof.
  destruct (extraction_matches_inspection (env:=usual_env) the_package the_destination the_disk
    the_manifest unpacked_result.1.2 unpacked_result.2 unpacked_disk destination_plain disk_closed
    eq_refl unpacked_Ok)
    as (Hi & Ht & _).
  split; [exact Hi|exact Ht].
Defined.

(** ** A private mask *)

(** With a private file mode creation mask, a directory of the package that is
    only there as the parent of another is made with that mask, and the tree
    manifest does not describe it: the manifest says 0755 where the disk has
    0700. *)
Example private_mask_spoils_manifest :
  ∃ manifest report tree disk, unpacked private_env = (Ok (manifest, report, tree), disk) ∧
    dk_nodes disk !! join the_destination ["ui"] = Some (DirNode 448) ∧
    ∃ entry, entry ∈ em_entries tree ∧ et_path entry = ["ui"] ∧ et_mode entry = 493%N.
Proof.
  eexists _, _, _, _. split; [vm_compute; reflexivity|]. split; [vm_compute; reflexivity|].
  eexists. split; [apply (list_elem_of_lookup_2 _ 3); vm_compute; reflexivity|].
  split; reflexivity.
Qed.

(** * Witnesses for the installation of a package *)

(** ** The parameters *)

#[export] Instance json_ProofBundle : Serde ProofBundle := serde_of.

#[export] Instance codec_InstallReceipt : Codec InstallReceipt :=
  codec_via
    (λ r, (ir_schema_version r, (ir_plugin_id r, (ir_version r, (ir_package_sha256 r,
           (ir_publisher_key_fingerprint r, (ir_publisher_persona_id r, ir_installed_at_unix_seconds r)))))))
    (λ '(schema, (id, (version, (sha256, (fingerprint, (persona, at_seconds)))))),
      Some {| ir_schema_version := schema; ir_plugin_id := id; ir_version := version;
              ir_package_sha256 := sha256; ir_publisher_key_fingerprint := fingerprint;
              ir_publisher_persona_id := persona; ir_installed_at_unix_seconds := at_seconds |})
    ltac:(by intros []).
#[export] Instance json_InstallReceipt : Serde InstallReceipt := serde_of.

#[export] Instance small_texts : ErrorTexts :=
  {| proof_error_text _ := "proof"; store_error_text _ := "store"; ipc_error_text _ := "ipc";
     json_error_text _ := "json" |}.

(** Every configuration is the empty one of version 1. *)
#[export] Instance small_shell_json : ShellJson :=
  {| value_from_slice _ := inr (VObject [("version", VNumber (Some 1%N))]) |}.

(** ** The signed package *)

Definition package_descriptor : ArtifactDescriptor := Eval vm_compute in
  descriptor_of package_bytes (len package_bytes).
Definition package_proof : ProofBundle := Eval vm_compute in
  ok_get (create_sshsig_proof_for_descriptor package_descriptor key_a key_a "Ada") eq_refl.

Definition the_store : StoreView := {| sv_clock := at_time 150; sv_db := db_rooted |}.

(** ** The file system *)

Definition the_request : InstallRequest :=
  {| rq_package_path := "/home/clock.tar.zst"; rq_proof_path := "/home/clock.proof";
     rq_plugins_directory := "/cfg/plugins"; rq_validator := VALIDATOR; rq_omarchy_shell := OMARCHY_SHELL |}.
Definition stage_path : string := "/cfg/plugins/.stage".

Definition directory_metadata (inode : N) : Metadata :=
  {| md_is_symlink := false; md_is_file := false; md_is_dir := true; md_is_socket := false; md_len := 0;
     md_readonly := false; md_modified := inr 0%Z; md_dev := 1; md_ino := inode; md_uid := 1000;
     md_mode := 16877; md_mtime := 0; md_mtime_nsec := 0; md_ctime := 0; md_ctime_nsec := 0 |}.

Definition stat_of (inode mode links : N) (size : Z) : Stat :=
  {| st_dev := 1; st_ino := inode; st_mode := mode; st_nlink := links; st_uid := 1000; st_gid := 1000;
     st_size := size; st_mtime := 0; st_mtime_nsec := 0; st_ctime := 0; st_ctime_nsec := 0 |}.
Definition directory_stat (inode : N) : Stat := stat_of inode 16877 1 0.

(** The disk on which the package is unpacked. *)
Definition staging_disk : Disk :=
  {| dk_nodes := {[ [] := DirNode 493; ["/"] := DirNode 493; ["cfg"; "/"] := DirNode 493;
                    ["plugins"; "cfg"; "/"] := DirNode 493; [".stage"; "plugins"; "cfg"; "/"] := DirNode 448 ]};
     dk_calls := 0 |}.

(** The receipt that is written into it. *)
Definition the_receipt : InstallReceipt :=
  {| ir_schema_version := 1; ir_plugin_id := "ada.clock"; ir_version := "1.0.0";
     ir_package_sha256 := dg_value (ad_digest package_descriptor);
     ir_publisher_key_fingerprint := fp_of key_a; ir_publisher_persona_id := ada_id;
     ir_installed_at_unix_seconds := 200 |}.

(** A walk of the candidate. *)
Definition scan_file (mode : N) (content : bytes) : EntryScan :=
  let stat := stat_of 30 (32768 + mode) 1 (Z.of_N (len content)) in
  let scan := {| fn_pinned := inr stat; fn_open := None; fn_before := inr stat; fn_data := [Data content];
                 fn_after := inr stat |} in
  Scanned stat (ScanDirectory (inr stat) None None NoMoreEntries (inr stat)) scan.
Definition scan_directory (entries : EntryScans) : DirScan :=
  ScanDirectory (inr (directory_stat 31)) None None entries (inr (directory_stat 31)).
Definition no_file : FileScan :=
  {| fn_pinned := inl "directory"; fn_open := None; fn_before := inl "directory"; fn_data := [];
     fn_after := inl "directory" |}.
Definition scan_subdirectory (entries : EntryScans) : EntryScan :=
  Scanned (directory_stat 31) (scan_directory entries) no_file.

Definition candidate_scan : DirScan :=
  scan_directory
    (Entry "." (scan_subdirectory NoMoreEntries)
    (Entry "manifest.json" (scan_file 420 (enc the_manifest))
    (Entry "ui" (scan_subdirectory
       (Entry "qml" (scan_subdirectory
          (Entry "Clock.qml" (scan_file 420 (as_bytes "Item {}")) NoMoreEntries)) NoMoreEntries))
    (Entry INSTALL_RECEIPT_NAME (scan_file 384 (enc the_receipt ++ [byte_of 10]))
    (Entry "README" (scan_file 420 (as_bytes "A clock.")) NoMoreEntries))))).

(** ** The environment *)

Definition is_live (h : list (Event Answer)) : bool := (length (renames h) =? 1)%nat.

Definition path_metadata (live : bool) (path : string) : IoError + Metadata :=
  if (path == VALIDATOR) || (path == OMARCHY_SHELL) then inr keygen_file
  else if path == "/cfg/plugins" then inr (directory_metadata 10)
  else if path == stage_path then inr (directory_metadata 11)
  else if path == "/cfg/plugins/ada.clock" then
    if live then inr (directory_metadata 12) else inl NoSuchFile
  else if path == "/cfg/plugins/.stage/plugin" then
    if live then inl NoSuchFile else inr (directory_metadata 12)
  else inl NoSuchFile.

Definition opened (live : bool) (pinned : Pinned) (name : string) : Sys (Sys Stat) :=
  match pinned with
  | Plugins => if name == ".stage" then inr (inr (directory_stat 11))
               else if live then inr (inr (directory_stat 12)) else inl "No such file or directory"
  | _ => if live then inl "No such file or directory" else inr (inr (directory_stat 12))
  end.

Definition entry_opened (live : bool) (pinned : Pinned) : option (N * string) :=
  match pinned, live with
  | Plugins, true | Staging, false => None
  | _, _ => Some (2%N, "No such file or directory")
  end.

(** The shell accepts the plugin when [accepts]. *)
Definition answer (accepts : bool) (h : list (Event Answer)) (c : Call) : Answer c :=
  match c return Answer c with
  | SymlinkMetadata path => path_metadata (is_live h) path
  | PathExists _ => true
  | CreateDirAll _ => None
  | CreateStaging _ _ => inr (stage_path, stage_path)
  | LoadProof _ => {| symlink_metadata _ := inr key_file; metadata _ := inr key_file; canonicalize p := inr p;
                      fs_read _ := inr (enc package_proof) |}
  | CopyPackage _ _ => {| pc_source := SourceOpened (inr package_metadata); pc_create := None;
                          pc_copied := inr (len package_bytes); pc_flush := None; pc_secure := None;
                          pc_sync := None |}
  | SealPackage _ => {| pl_metadata := inr package_metadata; pl_open := inr (file_of 1024 package_bytes);
                        pl_memfd := small_memfd |}
  | DescribePackage sealed => (Ok (sa_descriptor sealed), the_package)
  | ReadStore => the_store
  | ReadShellConfiguration => {| sf_directory := None; sf_user := inr None;
      sf_default := inr {| cf_metadata := inr keygen_file; cf_data := [Data [x7b; x7d]] |}; sf_uid := 1000 |}
  | Extract _ _ => (usual_env, staging_disk, the_package)
  | Now => inr 200%N
  | WriteReceipt _ _ => {| rw_create := None; rw_secure := None; rw_write := None; rw_sync := None |}
  | PinPath _ => None
  | FstatPath _ => inr (directory_stat 12)
  | ScanPath _ => candidate_scan
  | Fstat Plugins => inr (directory_stat 10)
  | Fstat Staging => inr (stat_of 11 16832 1 0)
  | Fstat _ => inr (directory_stat 12)
  | ScanPinned _ => candidate_scan
  | OpenDirectoryAt pinned name => opened (is_live h) pinned name
  | OpenEntryAt pinned name => entry_opened (is_live h) pinned
  | RenameNoReplace _ _ _ _ | RenameExchange _ _ _ _ => None
  | ReadFile _ => inl NoSuchFile
  | ReadPinnedFile _ _ => {| rd_open := Some "No such file or directory"; rd_before := inl NoSuchFile;
                             rd_data := []; rd_after := inl NoSuchFile |}
  | RunValidatorAt _ _ => inr {| ex_success := true; ex_text := "exit status: 0" |}
  | RunValidator _ => {| vl_duplicate := None; vl_cloexec := inr true;
                         vl_status := inr {| ex_success := true; ex_text := "exit status: 0" |};
                         vl_cloexec_after := inr true |}
  | RunRescan _ InitialRescan => inr {| ex_success := accepts; ex_text := "exit status: 1" |}
  | RunRescan _ RecoveryRescan => inr {| ex_success := true; ex_text := "exit status: 0" |}
  | BeginAuthorization => inr the_store
  | CommitAuthorization => None
  end.

Definition the_run (accepts : bool) := execute (answer accepts) [] (install_with_lifecycle the_request).

Lemma the_run_runs accepts : runs (install_with_lifecycle the_request) (the_run accepts).1 (the_run accepts).2.
Proof. unfold the_run. exact (execute_runs Answer (answer accepts) [] (install_with_lifecycle the_request)). Qed.

(** ** Witnesses *)

Lemma install_follows_protocol_witness :
  renames (the_run false).1 = [(Exposure "ada.clock", true); (Withdrawal "ada.clock", true)] ∧
  installs the_request (the_run false).1 (the_run false).2.
Proof.
  split; [vm_compute; reflexivity|].
  apply (install_follows_protocol the_request (the_run false).1 (the_run false).2). exact (the_run_runs false).
Defined.

Lemma install_outcome_is_truthful_witness :
  renames (the_run true).1 = [(Exposure "ada.clock", true)] ∧
  truthful the_request (the_run true).1 (the_run true).2.
Proof.
  split; [vm_compute; reflexivity|].
  apply (install_outcome_is_truthful the_request (the_run true).1 (the_run true).2). exact (the_run_runs true).
Defined.

(** The position of the exposure in the trace. *)
Fixpoint first_movement (t : list (Event Answer)) : nat :=
  match t with
  | [] => 0
  | e :: t' => if movement_of e is Some _ then 0 else S (first_movement t')
  end.
Definition exposed_at : nat := Eval vm_compute in first_movement (the_run true).1.

Lemma exposed_there : (the_run true).1 !! exposed_at = Some (exposes "ada.clock" None).
Proof. vm_compute. reflexivity. Qed.

Lemma exposed_plugin_is_the_signed_package_witness :
  ∃ inspection persona store u tv staging_path candidate snapshot,
    Exposure "ada.clock" = Exposure (om_id (pi_manifest inspection)) ∧
    take exposed_at (the_run true).1 = u ++ occurs BeginAuthorization (inr store) :: tv ∧
    live_publisher store (signer_fingerprint inspection) (signer_label inspection) persona ∧
    found_source tv "/cfg/plugins" staging_path candidate snapshot ∧
    signed_content (rq_proof_path the_request) u inspection persona snapshot.
Proof.
  apply (exposed_plugin_is_the_signed_package the_request (the_run true).1 (the_run true).2
    (take exposed_at (the_run true).1) (exposes "ada.clock" None) (drop (S exposed_at) (the_run true).1)
    (Exposure "ada.clock", true)).
  - exact (the_run_runs true).
  - exact (eq_sym (take_drop_middle _ _ _ exposed_there)).
  - vm_compute. reflexivity.
  - reflexivity.
Defined.

(** The key that was compromised publishes nothing any more. *)
Lemma revoked_publisher_never_installs_witness :
  kw_status row_e = "compromised" ∧
  final_publisher_check {| sv_clock := at_time 170; sv_db := db_revoked |} (fp_of key_e) "Ada" ada_id ≠ Ok tt.
Proof.
  split; [reflexivity|].
  destruct (revoked_publisher_never_installs (env:=usual_env) db_recovered db_revoked row_e (at_time 170) life_recovered
    row_e_stored) as (_ & _ & Hfinal).
  - left. vm_compute. discriminate.
  - apply rtc_once, step_revoked.
  - apply Hfinal.
Defined.

(** * Witnesses for removals and updates *)

(** ** A removal *)

Definition clock_path : string := "/cfg/plugins/ada.clock".
Definition quarantine_path : string := "/cfg/plugins/.quarantine".
Definition is_moved (h : list (Event Answer)) : bool := Nat.odd (length (renames h)).

Definition nothing_there {A} : Sys A := inl "No such file or directory".
Definition directory_at (inode : N) : Sys (Sys Stat) := inr (inr (directory_stat inode)).

(** The plugin is installed, with its receipt; the shell rescans its plugins when
    [accepts]. *)
Definition removal_answer (accepts : bool) (h : list (Event Answer)) (c : Call) : Answer c :=
  match c return Answer c with
  | SymlinkMetadata path =>
      if path == OMARCHY_SHELL then inr keygen_file
      else if path == "/cfg/plugins" then inr (directory_metadata 10)
      else if path == quarantine_path then inr (directory_metadata 13)
      else if path == clock_path then if is_moved h then inl NoSuchFile else inr (directory_metadata 12)
      else if (path == path_join clock_path "manifest.json") || (path == path_join clock_path INSTALL_RECEIPT_NAME)
      then inr package_metadata
      else inl NoSuchFile
  | ReadFile path =>
      if path == path_join clock_path "manifest.json" then inr (enc the_manifest) else inr (enc the_receipt)
  | CreateStaging _ _ => inr (quarantine_path, quarantine_path)
  | Fstat Quarantine => inr (stat_of 13 16832 1 0)
  | OpenDirectoryAt Plugins name =>
      if name == ".quarantine" then directory_at 13
      else if is_moved h then nothing_there else directory_at 12
  | OpenDirectoryAt _ _ => if is_moved h then directory_at 12 else nothing_there
  | OpenEntryAt Plugins _ => if is_moved h then Some (2%N, "No such file or directory") else None
  | OpenEntryAt _ _ => if is_moved h then None else Some (2%N, "No such file or directory")
  | c => answer accepts h c
  end.

Definition the_removal (accepts : bool) :=
  execute (removal_answer accepts) [] (uninstall_with_commands "ada.clock" "/cfg/plugins" OMARCHY_SHELL).

Lemma the_removal_runs accepts :
  runs (uninstall_with_commands "ada.clock" "/cfg/plugins" OMARCHY_SHELL) (the_removal accepts).1 (the_removal accepts).2.
Proof. exact (execute_runs Answer (removal_answer accepts) [] (uninstall_with_commands "ada.clock" "/cfg/plugins" OMARCHY_SHELL)). Qed.

Lemma removal_outcome_is_truthful_witness :
  renames (the_removal true).1 = [(Removal "ada.clock", true)] ∧
  renames (the_removal false).1 = [(Removal "ada.clock", true); (Restoration "ada.clock", true)] ∧
  truthful_removal "ada.clock" "/cfg/plugins" (the_removal true).1 (the_removal true).2 ∧
  truthful_removal "ada.clock" "/cfg/plugins" (the_removal false).1 (the_removal false).2.
Proof.
  split; [vm_compute; reflexivity|]. split; [vm_compute; reflexivity|]. split.
  - apply (removal_outcome_is_truthful "ada.clock" "/cfg/plugins" OMARCHY_SHELL). exact (the_removal_runs true).
  - apply (removal_outcome_is_truthful "ada.clock" "/cfg/plugins" OMARCHY_SHELL). exact (the_removal_runs false).
Defined.

Definition removed_at : nat := Eval vm_compute in first_movement (the_removal true).1.

Lemma removed_there : (the_removal true).1 !! removed_at = Some (quarantines "ada.clock" None).
Proof. vm_compute. reflexivity. Qed.

Lemma removed_plugin_is_managed_and_unreferenced_witness :
  ∃ manifest, managed_plugin "ada.clock" "/cfg/plugins" (take removed_at (the_removal true).1) manifest.
Proof.
  apply (removed_plugin_is_managed_and_unreferenced "ada.clock" "/cfg/plugins" OMARCHY_SHELL
    (the_removal true).1 (the_removal true).2 (take removed_at (the_removal true).1)
    (quarantines "ada.clock" None) (drop (S removed_at) (the_removal true).1) (Removal "ada.clock", true)).
  - exact (the_removal_runs true).
  - exact (eq_sym (take_drop_middle _ _ _ removed_there)).
  - vm_compute. reflexivity.
  - reflexivity.
Defined.

(** ** An update *)

(** The release that is installed. *)
Definition old_manifest : OmarchyManifest :=
  {| om_schema_version := 1; om_id := "ada.clock"; om_name := "Clock"; om_version := "0.9.0";
     om_kinds := ["bar-widget"]; om_entry_points := [("barWidget", "Clock.qml")]; om_description := None |}.
Definition old_receipt : InstallReceipt :=
  {| ir_schema_version := 1; ir_plugin_id := "ada.clock"; ir_version := "0.9.0";
     ir_package_sha256 := dg_value (ad_digest package_descriptor);
     ir_publisher_key_fingerprint := fp_of key_a; ir_publisher_persona_id := ada_id;
     ir_installed_at_unix_seconds := 100 |}.
Definition installed_scan : DirScan :=
  scan_directory
    (Entry "manifest.json" (scan_file 420 (enc old_manifest))
    (Entry INSTALL_RECEIPT_NAME (scan_file 384 (enc old_receipt))
    (Entry "Clock.qml" (scan_file 420 (as_bytes "Text {}")) NoMoreEntries))).

Definition file_read (content : bytes) : FileRead :=
  {| rd_open := None; rd_before := inr package_metadata; rd_data := [Data content]; rd_after := inr package_metadata |}.

Definition live_inode (h : list (Event Answer)) : N := if is_moved h then 12 else 14.
Definition kept_inode (h : list (Event Answer)) : N := if is_moved h then 14 else 12.

Definition update_answer (accepts : bool) (h : list (Event Answer)) (c : Call) : Answer c :=
  match c return Answer c with
  | SymlinkMetadata path =>
      if (path == VALIDATOR) || (path == OMARCHY_SHELL) then inr keygen_file
      else if path == "/cfg/plugins" then inr (directory_metadata 10)
      else if path == stage_path then inr (directory_metadata 11)
      else if path == clock_path then inr (directory_metadata (live_inode h))
      else if path == path_join stage_path "plugin" then inr (directory_metadata (kept_inode h))
      else inl NoSuchFile
  | FstatPath path => inr (directory_stat (if path == clock_path then 14 else 12))
  | ScanPath path => if path == clock_path then installed_scan else candidate_scan
  | Fstat Recovery => inr (stat_of 11 16832 1 0)
  | Fstat Installed => inr (directory_stat 14)
  | ScanPinned Installed => installed_scan
  | ReadPinnedFile path _ =>
      file_read (if path == path_join clock_path "manifest.json" then enc old_manifest else enc old_receipt)
  | OpenDirectoryAt Plugins name =>
      if name == ".stage" then directory_at 11 else directory_at (live_inode h)
  | OpenDirectoryAt _ _ => directory_at (kept_inode h)
  | c => answer accepts h c
  end.

Definition the_update (accepts : bool) := execute (update_answer accepts) [] (update_with_lifecycle the_request).

Lemma the_update_runs accepts :
  runs (update_with_lifecycle the_request) (the_update accepts).1 (the_update accepts).2.
Proof. exact (execute_runs Answer (update_answer accepts) [] (update_with_lifecycle the_request)). Qed.

Lemma update_outcome_is_truthful_witness :
  renames (the_update true).1 = [(Exchange "ada.clock", true)] ∧
  renames (the_update false).1 = [(Exchange "ada.clock", true); (Exchange "ada.clock", true)] ∧
  truthful_update the_request (the_update true).1 (the_update true).2 ∧
  truthful_update the_request (the_update false).1 (the_update false).2.
Proof.
  split; [vm_compute; reflexivity|]. split; [vm_compute; reflexivity|]. split.
  - apply (update_outcome_is_truthful the_request). exact (the_update_runs true).
  - apply (update_outcome_is_truthful the_request). exact (the_update_runs false).
Defined.

Definition exchanged_at : nat := Eval vm_compute in first_movement (the_update true).1.

Lemma exchanged_there : (the_update true).1 !! exchanged_at = Some (exchanges "ada.clock" None).
Proof. vm_compute. reflexivity. Qed.

Lemma exchanged_release_is_signed_and_newer_witness :
  ∃ installed persona version, older_release installed "ada.clock" persona version.
Proof.
  destruct (exchanged_release_is_signed_and_newer the_request (the_update true).1 (the_update true).2
    (take exchanged_at (the_update true).1) (exchanges "ada.clock" None)
    (drop (S exchanged_at) (the_update true).1) (Exchange "ada.clock", true))
    as (inspection & persona & store & u & tv & candidate & installed & new & old & Hid & _ & _ & _ & _ & _ & _ & Hold).
  - exact (the_update_runs true).
  - exact (eq_sym (take_drop_middle _ _ _ exchanged_there)).
  - vm_compute. reflexivity.
  - reflexivity.
  - exists old, persona, (om_version (pi_manifest inspection)). cbn in Hid. injection Hid as Hid.
    rewrite Hid. exact Hold.
Defined.
